(* ===== verification/_CoqProject ===== *)
-Q . S2P
Prelude.v
UtilsText.v
UtilsVector.v
Double.v
UtilsSys.v
UtilsSync.v
Topology.v
Task.v
TaskPapi.v
TopologyLinux.v
CpuFreq.v
CpuFreqLinux.v
Energy.v
UsbBase.v
UsbList.v
UsbIo.v
UsbFlight.v
UsbTimeouts.v
UsbSync.v
UsbDescriptor.v
UsbLayout.v
UsbCore.v
UsbReferences.v
UsbClaims.v
UsbBench.v
UsbLinux.v
UsbUrbs.v
UsbUrbsProofs.v
UsbLinuxDevices.v
UsbLinuxProofs.v
UsbLinuxFiles.v
UsbUrbsFlight.v
UsbLinuxHandles.v
HidStrings.v
Hid.v
SmartGauge.v
EnergyLinux.v
EnergyRefresher.v
Communicator.v
ProtobufSample.v
Server.v
ServerMain.v
TopologyRemote.v
CpuFreqRemote.v
EnergyRemote.v
Mammut.v
