(* ===== verification/Prelude.v ===== *)
(** * Mammut: a verification development (root file)

    Mammut manages the machine a program runs on: it discovers the CPUs, sets their
    frequencies, reads energy counters, moves and throttles processes, on the local machine
    or, over a TCP connection, on a remote one.  This library models the program in Rocq
    and proves what its parts promise.  A definition that models code is preceded by a comment
    that names the function and its lines; the paths are those of the repository, for instance
    src/utils.cpp and include/mammut/utils.hpp.

    ** The parts of the program and the files of the development

    - Prelude.v, this file: the outcome of a C++ call ([Ret], [Throw], [Undef]), the monad
      [M S A] of the calls that change a state [S], loops, machine integers ([u32], [u64], [i32]),
      and the lemmas on them that the other files share: inversion of a monadic run ([minv]),
      invariants of loops ([for_each_inv], [for_fold_Ret_inv], [keeps]), and [returns], that a
      run returns and what then holds.
    - UtilsText.v, UtilsVector.v, Double.v: the string and vector functions of src/utils.cpp
      and include/mammut/utils.hpp; binary64 arithmetic.
    - UtilsSys.v: [World], the machine outside the program (files, model specific registers, the
      clock, processes), and the functions of src/utils.cpp that reach it.
    - UtilsSync.v: mutexes, [Monitor] and [Thread] of src/utils.cpp, as step relations between
      threads, with the abstract monitor that the concrete one refines.
    - Topology.v: src/topology/topology.cpp, on the interface [VirtualCoreOps] of the classes of
      virtual cores and its contract [VirtualCoreLaws].  TopologyLinux.v:
      src/topology/topology-linux.cpp, the local classes, which discharge that contract.
    - Task.v: src/task/task-linux.cpp, processes, threads and the throttler thread.  TaskPapi.v:
      the instruction counters of a process, on the interface [Papi].
    - CpuFreq.v: src/cpufreq/cpufreq.cpp on the interface [CpuFreqOps] with the contract
      [CpuFreqLaws].  CpuFreqLinux.v: src/cpufreq/cpufreq-linux.cpp.
    - Energy.v: src/energy/energy.cpp on the interface [EnergyOps].  EnergyLinux.v:
      src/energy/energy-linux.cpp, the counters, the power cappers and the local constructor.
      EnergyRefresher.v: the thread that reads a counter before its registers wrap around, with
      the users and the destructor of the counter, as a step relation on the methods of
      EnergyLinux.v and the abstract monitor of UtilsSync.v.
    - SmartGauge.v: the plug meter (src/external/odroid-smartpower-linux/smartgauge.cpp), on the
      interface [HidApi], which the functions of Hid.v instantiate ([hid_api]).  Hid.v and
      HidStrings.v: hid.c of the same directory, devices with a queue of input reports that a
      reading thread fills, and reads that do not wait, wait for a time or wait for ever.
    - libusb (src/external/libusb-1.0.9/libusb), under the meter.  UsbBase.v: constants, errors, the
      memory that the library allocates ([Heap]), bytes and words.  UsbList.v: the linked
      lists of libusbi.h, on cells, with the sequences that they refine.  UsbIo.v: transfers,
      contexts ([Ctx]) and event handling of io.c, on the interfaces [IoBackend] and [IoEvents];
      UsbFlight.v and UsbTimeouts.v: its theorems.  UsbSync.v: sync.c.  UsbDescriptor.v:
      descriptor.c, on [DescriptorBackend] and [ControlTransfer]; UsbLayout.v: the bytes of a
      configuration that reading it undoes.  UsbCore.v: core.c, devices, handles and contexts, on
      the interface [UsbBackend]; UsbReferences.v and UsbClaims.v: its theorems, against the
      contract [UsbLaws]; UsbBench.v: a backend that keeps it.  UsbLinux.v and UsbUrbs.v: the
      transfers of os/linux_usbfs.c, on the kernel [Usbfs]; UsbUrbsProofs.v: their theorems;
      UsbUrbsFlight.v: the requests that a transfer allocates, from its submission until its
      completion or the end of a synchronous transfer.
      UsbLinuxDevices.v: devices and handles of os/linux_usbfs.c, on the system [UsbKernel], and
      its table of functions, the instance of [UsbBackend]; UsbLinuxProofs.v: it keeps
      [UsbLaws]; UsbLinuxFiles.v: what it reads from the files of a device, and a small system;
      UsbLinuxHandles.v: the files that handles keep open.
    - Communicator.v: src/communicator.cpp and src/communicator-tcp.cpp, on the interfaces
      [Socket] and [Protobuf].  ProtobufSample.v: a serialisation that satisfies the laws of
      [Protobuf], for the witnesses.
    - Server.v: src/mammut-server.cpp, the servants; and [net_socket], a client's connection to a
      servant, on which [relay_call] is the interface that the remote classes are verified
      against.  ServerMain.v: [main] of the server, its command line and the loop that accepts
      clients, on the interfaces [ServerModules] and [ServerNet].
    - TopologyRemote.v, CpuFreqRemote.v, EnergyRemote.v: the [processMessage] of each module and
      its remote classes (src/topology/topology-remote.cpp, src/cpufreq/cpufreq-remote.cpp,
      src/energy/energy-remote.cpp), with the messages of the .proto files.
    - Mammut.v: src/mammut.cpp, the facade and its C interface.

    ** How state corresponds to the code

    An object whose fields change is a record that the methods take and return; an object that
    never changes once built (the tree of the topology) is its record, and pointers to it are
    the record itself.  Objects that several others reach (virtual cores, domains, counters)
    live in a machine state under an identifier.  The virtual methods of a class are the
    methods of a type class over the state, so that the code written against the base class is
    one definition for the local and the remote classes.  Undefined behaviour (a null
    dereference, an index past the end, an uninitialised value, a call that blocks for ever) is
    the outcome [Undef], so a theorem that a call returns excludes it.  What the environment does
    while the program waits or between two of its calls (other threads, the kernel, the peer)
    is an argument, a class or a relation of the theorem: [IoEvents], [Arrivals], the events of
    [hid_read_timeout], [kernel_follows].  The lock of libusb's events is a field of the context,
    who holds it and how often ([events_lock]); taking it waits while another thread has it.  Messages are the
    constructors of an inductive type, with their fields in the order of the .proto file.

    ** What the theorems show

    - Concurrency: a monitor loses no wake-up, no wait answers [true] without a notification,
      and it refines the one-flag monitor (UtilsSync.v), in which a wait ends only when the flag
      is raised or its time is over, and a wait that times out lowers the flag too; a started thread has published its identifiers; the deadline of a timed wait
      is a valid time.
    - Topology: discovery builds a well-formed tree in which every core is found; a client's
      tree is the server's; unplugging and plugging, and rolling back, restore the machine; the
      local virtual cores keep their contract on a machine whose unplugged cores have no
      registers that can be accessed.
    - Frequencies: domains are what sysfs says; bounds are written as documented; rolling back
      and measuring the voltage table restore governors, frequencies and bounds; the P-state an
      EPYC domain selects is the one with the frequency asked for; voltage tables survive being
      dumped and loaded.
    - Energy: on Intel and AMD processors the joules of a counter are exact across wrap-arounds of
      its register, also when the refresher, users and resets interleave, as long as the register
      is not read as zero and the total is below 2^53 ticks; the refresher never reads freed memory, but
      the destructor may wait for it for ever; rolling back restores the caps.
    - Tasks: moving, priorities and the errors of a terminated process; the throttler never
      grants more than 100%, whatever doubles are asked for; the instruction counters refine a meter.
    - Registers: writing a bit field and reading it back, and every other bit unchanged.
    - Communication: a message arrives as it was sent whatever the segments; receiving ends
      after at most as many reads as bytes; a connection cut inside a message is an error;
      sockets are closed.  The server answers requests one by one and in order; its [main]
      understands the documented command lines, refines the sessions of its clients one after the
      other, and leaks neither modules nor descriptors unless it is stopped, as SIGPIPE does.  A remote operation does to the server's machine what the local one does and returns the same, or
      throws with the same text ([relayed]), for every operation of the virtual cores, idle
      levels, frequency domains and energy counters.
    - Facade: each live module is owned by one facade, of the right kind and on the facade's
      communicator, or by the module that made it, or is a stray: a topology that a constructor
      made for itself, which nothing deletes ([strays_stay]); each is deleted at most once.
    - Plug meter: whether a meter is found is whether one is plugged in; a session with it measures what the device reports between its start and
      its end; the queue of input reports is a queue of at most 32 that drops the oldest; which
      interfaces are listed.
    - libusb: the linked lists are sequences; the transfers in flight stay sorted by their
      deadlines, and exactly the overdue ones are cancelled, once; starting the event handling is
      all or nothing; synchronous transfers free what they allocate; a configuration is read as
      it was laid out and its memory is freed, or the error leaves what is said; every reference
      to a device is counted and a closed handle is forgotten; the list of devices is what is plugged in; the interfaces of a handle are
      a set; the requests of a transfer cover its buffer, and what they receive
      lies at its start without holes; the backend for Linux keeps the contract that the theorems
      on devices rest on, reads the configurations that the file of a device has, and closes the
      file of a handle with the handle.
    Other theorems show where the code does not do what it means to; they say so.

    ** Bounds and fuel

    The loops of the code are recursions on the list they go through.  [receive_loop] has as
    fuel the number of bytes that are wanted, which is enough because a read that delivers
    nothing ends the loop ([CommunicatorTcp_receive_terminates]).  [Servant_run] has fuel for the
    requests that its theorems give it, and answers [true] when it has not returned by then;
    [main] of the server has, besides that, the number of clients it is observed for.
    Words have the width of the code's types ([u32], [u64], [i32], written out modulo powers of
    two); sizes of containers are unbounded.  [find_active_config] has as fuel the configurations
    of a device that it may go through, one more than there are before the active one
    ([active_config_found]); with a configuration that says it is empty no fuel is enough
    ([empty_config_never_ends]).

    ** What is parametric

    The shell that [system] and [popen] start, the sockets, protocol buffers, the RAPL and PAPI
    libraries, iconv, the kernel under libusb (and the other threads that have its lock of the events) and the INA231 devices are not code of the program:
    each is a class of what the program calls, with its documented behaviour as laws where a
    theorem needs them, and an instance that shows the laws can hold.  The energy counters see the
    SmartGauge through the class that its own operations have; libusb sees its backend through
    the table of functions that the code has for it.

    ** Not modelled

    src/mammut_pybind.cpp, a table of bindings; of src/external, the backends of libusb for
    other systems, which are not compiled here, and its log messages and its locks other than that of the events; the demos, the tests and the build files;
    the instruction of [CpuIdAsm], whose result is the field [w_cpuid6_eax] of the machine.
    Destructors are modelled where they do something
    besides freeing memory. *)
From stdpp Require Export base tactics list strings gmap.
From Stdlib Require Export ZArith Lia Ascii.
#[export] Set Default Goal Selector "!".
#[global] Open Scope Z_scope.
#[global] Arguments String.append _ _ : simpl nomatch.

(** ** Outcomes

    What a C++ call can do: return, throw one of the two exception classes the
    program distinguishes ([std::runtime_error] and everything else, which here
    is [std::out_of_range] of [vector::at] and [string::at]), or reach undefined
    behaviour (a null dereference, an index past the end, the value of an
    uninitialised variable). *)
Inductive exn :=
  | runtime_error (what : string)
  | out_of_range (what : string).

Inductive outcome (A : Type) :=
  | Ret (a : A)
  | Throw (e : exn)
  | Undef (why : string).
Arguments Ret {A} _.
Arguments Throw {A} _.
Arguments Undef {A} _.

#[export] Instance exn_eq_dec : EqDecision exn.
Proof. solve_decision. Defined.

#[export] Instance outcome_ret : MRet outcome := fun A a => Ret a.
#[export] Instance outcome_bind : MBind outcome := fun A B f m =>
  match m with
  | Ret a => f a
  | Throw e => Throw e
  | Undef u => Undef u
  end.

(** [std::vector::at]: checked access. *)
Definition vec_at {A} (v : list A) (i : nat) : outcome A :=
  match v !! i with
  | Some a => Ret a
  | None => Throw (out_of_range "vector::at")
  end.

(** [std::vector::operator[]]: unchecked access. *)
Definition vec_index {A} (v : list A) (i : nat) : outcome A :=
  match v !! i with
  | Some a => Ret a
  | None => Undef "vector index past the end"
  end.

(** [std::vector::front] and [std::vector::back]. *)
Definition vec_front {A} (v : list A) : outcome A :=
  match v with
  | [] => Undef "front of an empty vector"
  | a :: _ => Ret a
  end.
Definition vec_back {A} (v : list A) : outcome A :=
  match last v with
  | None => Undef "back of an empty vector"
  | Some a => Ret a
  end.

(** ** The state monad

    A stateful operation maps the state it starts in to its outcome and the
    state it leaves, whatever the outcome: a C++ exception undoes nothing. *)
Definition M (S A : Type) : Type := S -> outcome A * S.

Definition ret {S A} (a : A) : M S A := fun s => (Ret a, s).
Definition throw {S A} (e : exn) : M S A := fun s => (Throw e, s).
Definition undef {S A} (why : string) : M S A := fun s => (Undef why, s).
Definition bind {S A B} (m : M S A) (f : A -> M S B) : M S B := fun s =>
  match m s with
  | (Ret a, s') => f a s'
  | (Throw e, s') => (Throw e, s')
  | (Undef u, s') => (Undef u, s')
  end.
Definition gets {S A} (f : S -> A) : M S A := fun s => (Ret (f s), s).
Definition modify {S} (f : S -> S) : M S unit := fun s => (Ret tt, f s).
(** A [const] method: it may fail, it changes nothing. *)
Definition query {S A} (f : S -> outcome A) : M S A := fun s => (f s, s).
Definition lift {S A} (o : outcome A) : M S A := fun s => (o, s).

Declare Scope prog_scope.
Delimit Scope prog_scope with prog.
Notation "'let*' x := m 'in' k" := (bind m (fun x => k))
  (at level 10, x name, m at level 100, k at level 200) : prog_scope.
Notation "'let*' ' p := m 'in' k" := (bind m (fun x => match x with p => k end))
  (at level 10, p strict pattern, m at level 100, k at level 200) : prog_scope.
Notation "'do*' m 'in' k" := (bind m (fun _ => k))
  (at level 10, m at level 100, k at level 200) : prog_scope.
#[global] Open Scope prog_scope.

(** [for(x : l) f(x);] *)
Fixpoint for_each {S A} (l : list A) (f : A -> M S unit) : M S unit :=
  match l with
  | [] => ret tt
  | a :: l' => do* f a in for_each l' f
  end.

(** A loop that accumulates a value. *)
Fixpoint for_fold {S A B} (l : list A) (b : B) (f : B -> A -> M S B) : M S B :=
  match l with
  | [] => ret b
  | a :: l' => let* b' := f b a in for_fold l' b' f
  end.

Fixpoint fold_out {A B} (l : list A) (b : B) (f : B -> A -> outcome B) : outcome B :=
  match l with
  | [] => Ret b
  | a :: l' => b' ← f b a; fold_out l' b' f
  end.

(** A loop that pushes one result per element. *)
Fixpoint map_out {A B} (l : list A) (f : A -> outcome B) : outcome (list B) :=
  match l with
  | [] => Ret []
  | a :: l' => b ← f a; bs ← map_out l' f; Ret (b :: bs)
  end.

Fixpoint for_map {S A B} (l : list A) (f : A -> M S B) : M S (list B) :=
  match l with
  | [] => ret []
  | a :: l' => let* b := f a in let* bs := for_map l' f in ret (b :: bs)
  end.

(** A loop that returns [false] at the first element whose test fails. *)
Fixpoint all_out {A} (l : list A) (f : A -> outcome bool) : outcome bool :=
  match l with
  | [] => Ret true
  | a :: l' => b ← f a; if (b : bool) then all_out l' f else Ret false
  end.

Fixpoint for_all {S A} (l : list A) (f : A -> M S bool) : M S bool :=
  match l with
  | [] => ret true
  | a :: l' => let* b := f a in if (b : bool) then for_all l' f else ret false
  end.

(** [try{m}catch(const std::runtime_error& exc){h}] *)
Definition catch_runtime {S A} (m : M S A) (h : string -> M S A) : M S A := fun s =>
  match m s with
  | (Throw (runtime_error what), s') => h what s'
  | r => r
  end.

(** The indexes of a loop [for(size_t i = 0; i < l.size(); i++)] with their elements. *)
Definition enumerate {A} (l : list A) : list (nat * A) := imap (fun i a => (i, a)) l.

(** ** Machine integers

    A [w]-bit unsigned value is a [Z] in [0 .. 2^w - 1]; a conversion wraps. *)
Definition u32 (z : Z) : Z := z mod 2 ^ 32.
Definition u64 (z : Z) : Z := z mod 2 ^ 64.
Definition i32 (z : Z) : Z := (z + 2 ^ 31) mod 2 ^ 32 - 2 ^ 31.
Definition i64 (z : Z) : Z := (z + 2 ^ 63) mod 2 ^ 64 - 2 ^ 63.

Definition is_u32 (z : Z) : Prop := 0 <= z < 2 ^ 32.
Definition is_u64 (z : Z) : Prop := 0 <= z < 2 ^ 64.
Definition is_i32 (z : Z) : Prop := - 2 ^ 31 <= z < 2 ^ 31.

(** ** Hints of the development *)
Create HintDb mammut.
Create Rewrite HintDb mammut.

Lemma u32_range z : is_u32 (u32 z).
Proof. unfold is_u32, u32. by apply Z.mod_pos_bound. Qed.

Lemma u64_range z : is_u64 (u64 z).
Proof. unfold is_u64, u64. by apply Z.mod_pos_bound. Qed.

Lemma u32_id z : is_u32 z -> u32 z = z.
Proof. apply Z.mod_small. Qed.

Lemma u64_id z : is_u64 z -> u64 z = z.
Proof. apply Z.mod_small. Qed.

Lemma i32_id z : is_i32 z -> i32 z = z.
Proof. unfold is_i32, i32. intros H. rewrite Z.mod_small; lia. Qed.

Lemma i32_range z : is_i32 (i32 z).
Proof.
  unfold is_i32, i32. pose proof (Z.mod_pos_bound (z + 2 ^ 31) (2 ^ 32) eq_refl). lia.
Qed.

(** Reading back an unsigned value through a signed conversion, as the program does
    whenever it assigns the [int] of [stringToInt] to a [uint32_t]. *)
Lemma u32_i32 z : u32 (i32 z) = u32 z.
Proof.
  unfold u32, i32.
  rewrite Zminus_mod_idemp_l. f_equal. lia.
Qed.
#[export] Hint Resolve u32_range u64_range i32_range : mammut.
#[export] Hint Rewrite u32_i32 : mammut.

(** ** Running the monads *)
Section monad_laws.
Context {S A B : Type}.
Implicit Types (m : M S A) (f : A -> M S B) (s : S).

Lemma bind_Ret m f s a s' : m s = (Ret a, s') -> bind m f s = f a s'.
Proof. unfold bind. by intros ->. Qed.

Lemma bind_Throw m f s e s' : m s = (Throw e, s') -> bind m f s = (Throw e, s').
Proof. unfold bind. by intros ->. Qed.

Lemma bind_Undef m f s u s' : m s = (Undef u, s') -> bind m f s = (Undef u, s').
Proof. unfold bind. by intros ->. Qed.

(** A sequence that returns went through both halves. *)
Lemma bind_Ret_inv m f s b s'' :
  bind m f s = (Ret b, s'') ->
  exists a s', m s = (Ret a, s') /\ f a s' = (Ret b, s'').
Proof. unfold bind. destruct (m s) as [[a|e|u] s'] eqn:E; naive_solver. Qed.

Lemma ret_bind a f s : bind (ret a) f s = f a s.
Proof. done. Qed.

Lemma bind_ret m s : bind m ret s = m s.
Proof. unfold bind, ret. by destruct (m s) as [[] ?]. Qed.
End monad_laws.

Lemma bind_ext {S A B} (m m' : M S A) (f : A -> M S B) s : m s = m' s -> bind m f s = bind m' f s.
Proof. unfold bind. by intros ->. Qed.
Lemma bind_assoc {S A B C} (m : M S A) (f : A -> M S B) (g : B -> M S C) s :
  bind (bind m f) g s = bind m (fun a => bind (f a) g) s.
Proof. unfold bind. by destruct (m s) as [[] ?]. Qed.

Lemma out_bind_Ret_inv {A B} (m : outcome A) (f : A -> outcome B) b :
  (a ← m; f a) = Ret b -> exists a, m = Ret a /\ f a = Ret b.
Proof. destruct m; naive_solver. Qed.

(** Break a hypothesis that a monadic program returned into what its parts returned. *)
Ltac minv H :=
  match type of H with
  | bind _ _ _ = (Ret _, _) =>
      let a := fresh "r" in let s := fresh "st" in let H1 := fresh H in
      apply bind_Ret_inv in H as (a & s & H1 & H); minv H1; minv H
  | (mbind _ _) = Ret _ =>
      let a := fresh "r" in let H1 := fresh H in
      apply out_bind_Ret_inv in H as (a & H1 & H); minv H1; minv H
  | _ => idtac
  end.

(** Run the straight-line steps of a monadic program in the goal. *)
Ltac mrun := cbv beta iota delta [bind ret throw undef gets modify query lift mbind outcome_bind mret outcome_ret].

Lemma enumerate_pos {A} (l : list A) d i a r :
  enumerate l = d ++ (i, a) :: r -> i = length d /\ l !! i = Some a.
Proof.
  intros E. assert (enumerate l !! length d = Some (i, a)) as H.
  { rewrite E, lookup_app_r, Nat.sub_diag by done. done. }
  unfold enumerate in H. rewrite list_lookup_imap in H.
  destruct (l !! length d) as [a'|] eqn:El; simpl in H; [|done]. by simplify_eq.
Qed.

Section loops.
Context {S : Type}.

Lemma for_each_app {A} (l1 l2 : list A) (f : A -> M S unit) s :
  for_each (l1 ++ l2) f s = bind (for_each l1 f) (fun _ => for_each l2 f) s.
Proof.
  revert s; induction l1 as [|a l1 IH]; intros s; [done|]; simpl.
  unfold bind in *. destruct (f a s) as [[] s']; auto.
Qed.

(** The loop rule: a predicate that every iteration keeps holds at the end, and the
    loop returns when every iteration does. *)
Lemma for_each_inv {A} (P : list A -> S -> Prop) (f : A -> M S unit) :
  forall (l done : list A) (s : S),
  P done s ->
  (forall a d s, a ∈ l -> P d s -> exists s', f a s = (Ret tt, s') /\ P (d ++ [a]) s') ->
  exists s', for_each l f s = (Ret tt, s') /\ P (done ++ l) s'.
Proof.
  induction l as [|a l IH]; intros d s HP Hstep; simpl.
  { exists s. by rewrite app_nil_r. }
  destruct (Hstep a d s) as (s1 & Hf & HP1); [left|done|].
  destruct (IH (d ++ [a]) s1) as (s2 & Hl & HP2); [done| |].
  { intros a' d' s' Ha. apply Hstep. by right. }
  exists s2. rewrite (bind_Ret _ _ _ _ _ Hf), Hl. by rewrite <- app_assoc in HP2.
Qed.

(** The same with the position of the iteration. *)
Lemma for_each_inv_pos {A} (P : list A -> S -> Prop) (f : A -> M S unit) (l : list A) :
  forall s, P [] s ->
  (forall d a r s, l = d ++ a :: r -> P d s -> exists s', f a s = (Ret tt, s') /\ P (d ++ [a]) s') ->
  exists s', for_each l f s = (Ret tt, s') /\ P l s'.
Proof.
  intros s HP Hstep.
  assert (forall r d s, l = d ++ r -> P d s -> exists s', for_each r f s = (Ret tt, s') /\ P l s') as H.
  { induction r as [|a r IH]; intros d s1 E H1; simpl.
    - exists s1. rewrite app_nil_r in E. by subst.
    - destruct (Hstep d a r s1 E H1) as (s2 & Ef & H2).
      destruct (IH (d ++ [a]) s2) as (s3 & Er & H3); [by rewrite <- app_assoc|done|].
      exists s3. by rewrite (bind_Ret _ _ _ _ _ Ef). }
  by apply (H l [] s).
Qed.

Lemma for_each_ext {A} (f g : A -> M S unit) l s :
  (forall a s, a ∈ l -> f a s = g a s) -> for_each l f s = for_each l g s.
Proof.
  revert s; induction l as [|a l IH]; intros s H; simpl; [done|].
  unfold bind. rewrite H by left. destruct (g a s) as [[] s']; auto.
  apply IH. intros; apply H; by right.
Qed.
End loops.

(** The rule for a loop that accumulates: what every returning iteration keeps, the returning
    loop keeps. *)
Lemma for_fold_Ret_inv {S A B} (P : list A -> B -> Prop) (f : B -> A -> M S B) :
  (forall d b a b' s s', P d b -> f b a s = (Ret b', s') -> P (d ++ [a]) b') ->
  forall l d b s r s', P d b -> for_fold l b f s = (Ret r, s') -> P (d ++ l) r.
Proof.
  intros Hf l. induction l as [|a l IH]; intros d b s r s' HP H; simpl in H.
  { injection H as <- <-. by rewrite app_nil_r. }
  minv H. replace (d ++ a :: l) with ((d ++ [a]) ++ l) by by rewrite <- app_assoc.
  eapply IH; [|exact H]. eauto.
Qed.

Lemma fold_out_Ret_inv {A B} (P : list A -> B -> Prop) (f : B -> A -> outcome B) :
  (forall d b a b', P d b -> f b a = Ret b' -> P (d ++ [a]) b') ->
  forall l d b r, P d b -> fold_out l b f = Ret r -> P (d ++ l) r.
Proof.
  intros Hf l. induction l as [|a l IH]; intros d b r HP H; simpl in H.
  { injection H as <-. by rewrite app_nil_r. }
  minv H. replace (d ++ a :: l) with ((d ++ [a]) ++ l) by by rewrite <- app_assoc.
  eapply IH; [|exact H]. eauto.
Qed.

Lemma for_each_Ret_inv {S A} (P : list A -> S -> Prop) (f : A -> M S unit) :
  (forall d a s s', P d s -> f a s = (Ret tt, s') -> P (d ++ [a]) s') ->
  forall l d s s', P d s -> for_each l f s = (Ret tt, s') -> P (d ++ l) s'.
Proof.
  intros Hf l. induction l as [|a l IH]; intros d s s' HP H; simpl in H.
  { injection H as <-. by rewrite app_nil_r. }
  minv H. destruct r. replace (d ++ a :: l) with ((d ++ [a]) ++ l) by by rewrite <- app_assoc.
  eapply IH; [|exact H]. eauto.
Qed.

Lemma map_out_Ret_inv {A B} (l : list A) (f : A -> outcome B) r :
  map_out l f = Ret r -> Forall2 (fun a b => f a = Ret b) l r.
Proof.
  revert r. induction l as [|a l IH]; intros r H; simpl in H; [by injection H as <-|].
  minv H. injection H as <-. constructor; [done|]. by apply IH.
Qed.

(** What a computation keeps, whatever its outcome. *)
Definition keeps {S A} (P : S -> Prop) (f : M S A) : Prop := forall s r s', P s -> f s = (r, s') -> P s'.

Lemma keeps_bind {S A B} P (f : M S A) (g : A -> M S B) :
  keeps P f -> (forall a, keeps P (g a)) -> keeps P (bind f g).
Proof.
  intros Hf Hg s r s' HP. unfold bind. destruct (f s) as [[a|e|u] s1] eqn:E; intros H.
  - eapply Hg; [|exact H]. by eapply Hf.
  - injection H as _ <-. by eapply Hf.
  - injection H as _ <-. by eapply Hf.
Qed.
Lemma keeps_pure {S A} P (o : outcome A) : keeps P (fun s : S => (o, s)).
Proof. by intros s r s' HP [= _ <-]. Qed.
Lemma keeps_query {S A} P (f : S -> outcome A) : keeps P (query f).
Proof. by intros s r s' HP [= _ <-]. Qed.
Lemma keeps_for_each {S A} P (l : list A) (f : A -> M S unit) :
  (forall a, a ∈ l -> keeps P (f a)) -> keeps P (for_each l f).
Proof.
  induction l as [|a l IH]; intros Hf; simpl; [apply keeps_pure|].
  apply keeps_bind; [apply Hf; left|]. intros _. apply IH. intros; apply Hf; by right.
Qed.
Lemma keeps_for_fold {S A B} P (l : list A) (b : B) (f : B -> A -> M S B) :
  (forall b a, a ∈ l -> keeps P (f b a)) -> keeps P (for_fold l b f).
Proof.
  revert b. induction l as [|a l IH]; intros b Hf; simpl; [apply keeps_pure|].
  apply keeps_bind; [apply Hf; left|]. intros b'. apply IH. intros; apply Hf; by right.
Qed.

(** From a state that satisfies [P] the computation returns, and then [R] holds. *)
Definition returns {S A} (P : S -> Prop) (m : M S A) (R : A -> S -> Prop) : Prop :=
  forall s, P s -> exists a s', m s = (Ret a, s') /\ R a s'.

Lemma returns_ret {S A} (P : S -> Prop) (a : A) (R : A -> S -> Prop) : (forall s, P s -> R a s) -> returns P (ret a) R.
Proof. intros HR s HP. exists a, s. auto. Qed.
Lemma returns_bind {S A B} (P : S -> Prop) (m : M S A) (f : A -> M S B) R R' :
  returns P m R -> (forall a, returns (R a) (f a) R') -> returns P (bind m f) R'.
Proof.
  intros Hm Hf s HP. destruct (Hm s HP) as (a & s1 & E & HR).
  destruct (Hf a s1 HR) as (b & s2 & E2 & H). exists b, s2. by rewrite (bind_Ret _ _ _ _ _ E).
Qed.
Lemma returns_post {S A} (P : S -> Prop) (m : M S A) (R R' : A -> S -> Prop) :
  returns P m R -> (forall a s, R a s -> R' a s) -> returns P m R'.
Proof. intros Hm HR s HP. destruct (Hm s HP) as (a & s' & E & H). eauto. Qed.
(** A loop returns when each iteration does, under an invariant of the accumulator and the
    state. *)
Lemma returns_for_fold {S A B} (I : B -> S -> Prop) (l : list A) (b : B) (f : B -> A -> M S B) :
  (forall b a, a ∈ l -> returns (I b) (f b a) I) -> returns (I b) (for_fold l b f) I.
Proof.
  revert b. induction l as [|a l IH]; intros b Hf; simpl; [by apply returns_ret|].
  apply (returns_bind _ _ _ I); [apply Hf; left|]. intros b'. apply IH. intros; apply Hf; by right.
Qed.

Lemma returns_for_map {S A B} (P : S -> Prop) (g : A -> B) (l : list A) (f : A -> M S B) :
  (forall a, a ∈ l -> returns P (f a) (fun b s => b = g a /\ P s)) ->
  returns P (for_map l f) (fun bs s => bs = map g l /\ P s).
Proof.
  induction l as [|a l IH]; intros Hf; simpl; [by apply returns_ret|].
  eapply returns_bind; [apply Hf; left|]. intros b s [-> HP].
  destruct (IH (fun x Hx => Hf x ltac:(by right)) s HP) as (bs & s' & E & -> & HP').
  exists (g a :: map g l), s'. by rewrite (bind_Ret _ _ _ _ _ E).
Qed.

Lemma map_out_Ret {A B} (l : list A) (f : A -> outcome B) g :
  (forall a, a ∈ l -> f a = Ret (g a)) -> map_out l f = Ret (map g l).
Proof.
  induction l as [|a l IH]; intros H; simpl; [done|].
  rewrite H by left. simpl. rewrite IH; [done|]. intros; apply H; by right.
Qed.

Lemma all_out_Ret {A} (l : list A) (f : A -> outcome bool) g :
  (forall a, a ∈ l -> f a = Ret (g a)) -> all_out l f = Ret (forallb g l).
Proof.
  induction l as [|a l IH]; intros H; simpl; [done|].
  rewrite H by left. simpl. destruct (g a); simpl; [|done].
  apply IH. intros; apply H; by right.
Qed.

Lemma filter_all {A} (P : A -> Prop) `{!forall x, Decision (P x)} (l : list A) :
  (forall a, a ∈ l -> P a) -> filter P l = l.
Proof.
  induction l as [|a l IH]; intros Hl; [done|].
  rewrite filter_cons_True by (apply Hl; left). f_equal. apply IH. intros; apply Hl; by right.
Qed.

Lemma filter_none {A} (P : A -> Prop) `{!forall x, Decision (P x)} (l : list A) :
  (forall a, a ∈ l -> ~ P a) -> filter P l = [].
Proof.
  induction l as [|a l IH]; intros Hl; [done|].
  rewrite filter_cons_False by (apply Hl; left). apply IH. intros; apply Hl; by right.
Qed.

(** A property of the integers of a small range, checked one by one. *)
Lemma range_check (P : Z -> bool) lo n :
  forallb P (seqZ lo n) = true -> forall x, lo <= x < lo + n -> P x = true.
Proof. intros H x Hx. rewrite forallb_forall in H. apply H, list_elem_of_In, elem_of_seqZ. lia. Qed.

(** ** Grouping a list by a key, in order of first appearance *)
Section uniq.
Context {K : Type} `{EqDecision K}.

Definition uniq_step (acc : list K) (x : K) : list K :=
  if bool_decide (x ∈ acc) then acc else acc ++ [x].
(** The distinct elements of a list, in order of first appearance. *)
Definition uniq (l : list K) : list K := fold_left uniq_step l [].

Lemma uniq_snoc l x : uniq (l ++ [x]) = uniq_step (uniq l) x.
Proof. unfold uniq. by rewrite fold_left_app. Qed.

Lemma elem_of_uniq_step acc x y : y ∈ uniq_step acc x <-> y ∈ acc \/ y = x.
Proof. unfold uniq_step. case_bool_decide; set_solver. Qed.

Lemma elem_of_uniq l x : x ∈ uniq l <-> x ∈ l.
Proof.
  induction l as [|y l IH] using rev_ind; [done|].
  rewrite uniq_snoc, elem_of_uniq_step. set_solver.
Qed.

Lemma NoDup_uniq l : NoDup (uniq l).
Proof.
  induction l as [|y l IH] using rev_ind; [constructor|].
  rewrite uniq_snoc. unfold uniq_step. case_bool_decide; [done|].
  apply NoDup_app. split; [done|]. split; [set_solver|apply NoDup_singleton].
Qed.

Lemma length_uniq l : (length (uniq l) <= length l)%nat.
Proof.
  induction l as [|y l IH] using rev_ind; [done|].
  rewrite uniq_snoc. unfold uniq_step. case_bool_decide; rewrite ?length_app; simpl; lia.
Qed.
End uniq.

Section group.
Context {A K : Type} `{EqDecision K} (k : A -> K).

(** Lists of elements with the key [x], laid out for each key of [ks]. *)
Variable F : K -> list A.
Hypothesis F_key : forall x a, a ∈ F x -> k a = x.

Lemma filter_key_same x : filter (fun a => k a = x) (F x) = F x.
Proof. apply filter_all. intros a Ha. by apply F_key. Qed.

Lemma filter_key_other x y : x <> y -> filter (fun a => k a = x) (F y) = [].
Proof.
  intros Hne. apply filter_none. intros a Ha Hx. apply Hne. rewrite <- Hx. by apply F_key.
Qed.

Lemma filter_concat x ks :
  NoDup ks -> filter (fun a => k a = x) (concat (F <$> ks)) = if decide (x ∈ ks) then F x else [].
Proof.
  induction 1 as [|y ks Hy Hks IH]; csimpl; [done|].
  rewrite filter_app, IH. destruct (decide (x = y)) as [<-|Hne].
  - rewrite filter_key_same. destruct (decide (x ∈ x :: ks)); [|set_solver].
    destruct (decide (x ∈ ks)); [done|]. by rewrite app_nil_r.
  - rewrite filter_key_other by done. csimpl.
    destruct (decide (x ∈ ks)), (decide (x ∈ y :: ks)); set_solver.
Qed.

Lemma fold_uniq_step_present (l : list A) acc x :
  x ∈ acc -> (forall a, a ∈ l -> k a = x) -> fold_left uniq_step (k <$> l) acc = acc.
Proof.
  intros Hx. induction l as [|a l IH]; intros Hl; csimpl; [done|].
  unfold uniq_step at 2. rewrite (Hl a) by left. rewrite bool_decide_eq_true_2 by done.
  apply IH. intros b Hb. apply Hl. by right.
Qed.

Lemma uniq_concat ks acc :
  NoDup (acc ++ ks) -> (forall x, x ∈ ks -> F x <> []) ->
  fold_left uniq_step (k <$> concat (F <$> ks)) acc = acc ++ ks.
Proof.
  revert acc; induction ks as [|x ks IH]; intros acc Hnd Hne; csimpl; [by rewrite app_nil_r|].
  rewrite fmap_app, fold_left_app.
  replace (acc ++ x :: ks) with ((acc ++ [x]) ++ ks) in * by by rewrite <- app_assoc.
  rewrite <- IH; [|done|intros; apply Hne; by right]. f_equal.
  assert (x ∉ acc) as Hx.
  { apply NoDup_app in Hnd as [Hnd _]. apply NoDup_app in Hnd as (_ & Hnd & _). set_solver. }
  destruct (F x) as [|a l] eqn:E; [by destruct (Hne x); [left|]|]. csimpl.
  assert (forall b, b ∈ a :: l -> k b = x) as Hk by (intros; apply F_key; by rewrite E).
  rewrite (Hk a) by left. unfold uniq_step at 2. rewrite bool_decide_eq_false_2 by done.
  apply fold_uniq_step_present with x; [set_solver|]. intros b Hb. apply Hk. by right.
Qed.
End group.

Lemma filter_keys_perm {A K} `{EqDecision K} (k : A -> K) (ks : list K) (l : list A) :
  NoDup ks -> (forall a, a ∈ l -> k a ∈ ks) ->
  concat ((fun x => filter (fun a => k a = x) l) <$> ks) ≡ₚ l.
Proof.
  intros Hnd. revert l. induction Hnd as [|x ks Hx Hnd IH]; intros l Hl; csimpl.
  { destruct l as [|a l]; [done|]. exfalso. specialize (Hl a). set_solver. }
  transitivity (filter (fun a => k a = x) l ++ filter (fun a => k a <> x) l);
    [|apply filter_app_complement].
  f_equiv. rewrite <- (IH (filter (fun a => k a <> x) l)).
  - apply reflexive_eq. f_equal. apply list_fmap_ext. intros i y Hy.
    rewrite list_filter_filter_l; [done|]. intros a ->.
    intros ->. apply Hx. by eapply list_elem_of_lookup_2.
  - intros a Ha. apply list_elem_of_filter in Ha as [Ha Hal]. specialize (Hl a Hal). set_solver.
Qed.
