(* ===== verification/UtilsText.v ===== *)
(** * Text utilities (src/utils.cpp, include/mammut/utils.hpp)

    The string functions of [mammut::utils], over the [std::string] and [<cstdlib>]
    functions they call: [getline], [atoi], [atoll], [find_first_of], [operator<<] of an
    [int].  Strings are lists of bytes ([string] of [ascii]). *)
From S2P Require Import Prelude.

(** ** Characters *)
Definition chr (c : ascii) : Z := Z.of_nat (nat_of_ascii c).

(** [isspace] and [isdigit] of the C locale. *)
Definition isspace (c : ascii) : bool :=
  (chr c =? 32) || ((9 <=? chr c) && (chr c <=? 13)).
Definition isdigit (c : ascii) : bool := (48 <=? chr c) && (chr c <=? 57).
Definition digit_val (c : ascii) : Z := chr c - 48.
Definition digit_char (d : Z) : ascii := ascii_of_nat (Z.to_nat (48 + d)).
Definition newline : ascii := ascii_of_nat 10.

(** ** [std::string] *)

Fixpoint str_rev_app (s acc : string) : string :=
  match s with
  | EmptyString => acc
  | String c s' => str_rev_app s' (String c acc)
  end.

(** The prefix of [s] before its first [d], and what follows that [d] ([None] when [d]
    does not occur). *)
Fixpoint break_at (d : ascii) (s : string) : string * option string :=
  match s with
  | EmptyString => (EmptyString, None)
  | String c s' =>
      if bool_decide (c = d) then (EmptyString, Some s')
      else let '(t, r) := break_at d s' in (String c t, r)
  end.

(** [std::getline(stream, item, delim)] on what is left of a stream: fails at the end of
    the input, otherwise extracts up to the delimiter and discards it. *)
Definition getline (d : ascii) (s : string) : option (string * string) :=
  match s with
  | EmptyString => None
  | _ => let '(t, r) := break_at d s in Some (t, default EmptyString r)
  end.

(** [s.find(p)]: position of the first occurrence. *)
Fixpoint is_prefix (p s : string) : bool :=
  match p, s with
  | EmptyString, _ => true
  | String a p', String b s' => bool_decide (a = b) && is_prefix p' s'
  | _, _ => false
  end.
Fixpoint str_find (p s : string) : option nat :=
  if is_prefix p s then Some 0%nat
  else match s with
       | EmptyString => None
       | String _ s' => S <$> str_find p s'
       end.

(** [s.substr(n)] for [n <= s.size()]. *)
Fixpoint str_drop (n : nat) (s : string) : string :=
  match n, s with
  | O, _ => s
  | S n', String _ s' => str_drop n' s'
  | S _, EmptyString => EmptyString
  end.
Fixpoint str_take (n : nat) (s : string) : string :=
  match n, s with
  | O, _ => EmptyString
  | S n', String c s' => String c (str_take n' s')
  | S _, EmptyString => EmptyString
  end.
Definition str_at (s : string) (n : nat) : outcome ascii :=
  match String.get n s with
  | Some c => Ret c
  | None => Throw (out_of_range "basic_string::at")
  end.

(** ** Numbers *)

(** The digits at the front of [s], accumulated onto [acc]. *)
Fixpoint parse_digits (s : string) (acc : Z) : Z * string :=
  match s with
  | String c s' => if isdigit c then parse_digits s' (acc * 10 + digit_val c) else (acc, s)
  | EmptyString => (acc, s)
  end.
Fixpoint skip_spaces (s : string) : string :=
  match s with
  | String c s' => if isspace c then skip_spaces s' else s
  | EmptyString => s
  end.
(** The optional sign of a number: (is it negative, rest). *)
Definition parse_sign (s : string) : bool * string :=
  match s with
  | String c s' =>
      if bool_decide (c = "-"%char) then (true, s')
      else if bool_decide (c = "+"%char) then (false, s') else (false, s)
  | EmptyString => (false, s)
  end.
Definition sat64 (z : Z) : Z := Z.max (- 2 ^ 63) (Z.min z (2 ^ 63 - 1)).
(** [strtol(s, NULL, 10)] on a 64-bit [long]: saturates. *)
Definition strtol (s : string) : Z :=
  let '(neg, r) := parse_sign (skip_spaces s) in
  let n := fst (parse_digits r 0) in sat64 (if neg then - n else n).
(** [atoi] is [(int) strtol], [atoll] is [strtoll]. *)
Definition atoi (s : string) : Z := i32 (strtol s).
Definition atoll (s : string) : Z := strtol s.

(** [utils::stringToInt], src/utils.cpp:275-277. *)
Definition stringToInt (s : string) : Z := atoi s.

(** [utils::stringToUint], src/utils.cpp:279-281. *)
Definition stringToUint (s : string) : Z := u32 (atoll s).

(** [utils::stringToUlong], src/utils.cpp:283-285. *)
Definition stringToUlong (s : string) : Z := u64 (atoll s).

Fixpoint dec_digits (fuel : nat) (n : Z) (acc : string) : string :=
  match fuel with
  | O => acc
  | S f =>
      let acc' := String (digit_char (n mod 10)) acc in
      if n <? 10 then acc' else dec_digits f (n / 10) acc'
  end.
(** The decimal notation of a natural number; a number has at most as many decimal digits
    as bits. *)
Definition print_nat (n : Z) : string := dec_digits (S (Z.to_nat (Z.log2 n))) n EmptyString.

(** [utils::intToString], src/utils.cpp:347-351. [operator<<] prints an [int] in decimal;
    an unsigned argument is converted to [int] by the call. *)
Definition intToString (x : Z) : string :=
  let i := i32 x in
  if i <? 0 then String "-" (print_nat (- i)) else print_nat i.

(** ** The functions of [mammut::utils] *)

(** [utils::split], src/utils.cpp:353-360. The loop [while(getline(ss, item, delim))]; every
    iteration consumes at least one byte. *)
Fixpoint split_loop (fuel : nat) (s : string) (delim : ascii) (elems : list string) : list string :=
  match fuel with
  | O => elems
  | S f =>
      match getline delim s with
      | None => elems
      | Some (item, rest) => split_loop f rest delim (elems ++ [item])
      end
  end.

(** [utils::split], src/utils.cpp:363-367. *)
Definition split (s : string) (delim : ascii) : list string :=
  split_loop (S (String.length s)) s delim [].

(** [utils::dashedRangeToIntegers], src/utils.cpp:341-345. Without a dash [dashPos] is
    [npos]: [substr(0, npos)] is the whole string and [npos + 1] wraps to 0. *)
Definition dashedRangeToIntegers (dashedRange : string) : Z * Z :=
  match str_find "-" dashedRange with
  | Some dashPos =>
      (stringToInt (str_take dashPos dashedRange), stringToInt (str_drop (S dashPos) dashedRange))
  | None => (stringToInt dashedRange, stringToInt dashedRange)
  end.

(** [utils::ltrim], src/utils.cpp:369-372. *)
Definition ltrim (s : string) : string := skip_spaces s.

(** [utils::rtrim], src/utils.cpp:374-377. The reverse iterator's base is one past the last
    byte that is not a space. *)
Definition rtrim (s : string) : string :=
  str_rev_app (skip_spaces (str_rev_app s EmptyString)) EmptyString.

(** [utils::trim], src/utils.cpp:379-381. *)
Definition trim (s : string) : string := ltrim (rtrim s).

(** The loop of [utils::isNumber]: advance over digits. *)
Fixpoint skip_digits (s : string) : string :=
  match s with
  | String c s' => if isdigit c then skip_digits s' else s
  | EmptyString => s
  end.
Definition str_empty (s : string) : bool := match s with EmptyString => true | _ => false end.

(** [utils::isNumber], src/utils.cpp:430-434. *)
Definition isNumber (s : string) : bool := negb (str_empty s) && str_empty (skip_digits s).

(** [utils::getModuleNameFromMessageId], src/utils.cpp:207-213. *)
Definition getModuleNameFromMessageId (messageId : string) : outcome string :=
  let tokens := split messageId "." in
  if negb (length tokens =? 3)%nat then Throw (runtime_error ("Wrong message id: " +:+ messageId))
  else t0 ← vec_at tokens 0;
       if negb (bool_decide (t0 = "mammut"%string)) then
         Throw (runtime_error ("Wrong message id: " +:+ messageId))
       else vec_at tokens 1.

(** * Theorems *)

(** ** Numbers: printing and parsing *)

Lemma chr_ascii_of_nat n : (n < 256)%nat -> chr (ascii_of_nat n) = Z.of_nat n.
Proof. intros. unfold chr. by rewrite nat_ascii_embedding. Qed.

Lemma chr_digit_char d : 0 <= d < 10 -> chr (digit_char d) = 48 + d.
Proof. intros. unfold digit_char. rewrite chr_ascii_of_nat; lia. Qed.

Lemma isdigit_digit_char d : 0 <= d < 10 -> isdigit (digit_char d) = true.
Proof. intros. unfold isdigit. rewrite chr_digit_char by lia. lia. Qed.

Lemma digit_val_digit_char d : 0 <= d < 10 -> digit_val (digit_char d) = d.
Proof. intros. unfold digit_val. rewrite chr_digit_char by lia. lia. Qed.

Lemma isdigit_not_space c : isdigit c = true -> isspace c = false.
Proof. unfold isdigit, isspace. lia. Qed.

Lemma isdigit_not_sign c : isdigit c = true -> c <> "-"%char /\ c <> "+"%char.
Proof. intros H; split; intros ->; discriminate H. Qed.

Lemma str_app_assoc (a b c : string) : (a +:+ b) +:+ c = a +:+ (b +:+ c).
Proof. induction a; simpl; congruence. Qed.

Lemma str_app_nil_r (a : string) : a +:+ EmptyString = a.
Proof. induction a; simpl; congruence. Qed.

Lemma dec_digits_app f n acc rest :
  dec_digits f n acc +:+ rest = dec_digits f n (acc +:+ rest).
Proof.
  revert n acc; induction f as [|f IH]; intros n acc; simpl; [done|].
  by destruct (n <? 10); [|rewrite IH].
Qed.

Lemma dec_digits_head f n s :
  exists c s', dec_digits (S f) n s = String c s' /\ (0 <= n -> isdigit c = true).
Proof.
  revert n s; induction f as [|f IH]; intros n s; simpl.
  { destruct (n <? 10); (eexists _, _; split; [done|]); intros;
    apply isdigit_digit_char; by apply Z.mod_pos_bound. }
  destruct (n <? 10).
  { eexists _, _; split; [done|]. intros; apply isdigit_digit_char; by apply Z.mod_pos_bound. }
  destruct (IH (n / 10) (String (digit_char (n mod 10)) s)) as (c & s' & H & Hc).
  simpl in H. exists c, s'. split; [exact H|]. intros. apply Hc. by apply Z.div_pos.
Qed.

Lemma parse_dec_digits f n s :
  0 <= n < 10 ^ Z.of_nat f ->
  exists k, 0 <= k /\ forall a, parse_digits (dec_digits f n s) a = parse_digits s (a * 10 ^ k + n).
Proof.
  revert n s; induction f as [|f IH]; intros n s Hn; simpl.
  { exists 0. split; [lia|]. intros a. simpl in Hn. f_equal. lia. }
  assert (0 <= n mod 10 < 10) as Hm by (by apply Z.mod_pos_bound).
  pose proof (Z.div_mod n 10 ltac:(lia)) as Hdm.
  destruct (Z.ltb_spec n 10).
  - exists 1. split; [lia|]. intros a. simpl.
    rewrite isdigit_digit_char, digit_val_digit_char by lia.
    rewrite Z.mod_small by lia. f_equal.
  - destruct (IH (n / 10) (String (digit_char (n mod 10)) s)) as (k & Hk & E).
    { rewrite Nat2Z.inj_succ, Z.pow_succ_r in Hn by lia.
      split; [apply Z.div_pos; lia | apply Z.div_lt_upper_bound; lia]. }
    exists (k + 1). split; [lia|]. intros a. rewrite E. simpl.
    rewrite isdigit_digit_char, digit_val_digit_char by lia.
    f_equal. rewrite Z.pow_add_r by lia. lia.
Qed.

Lemma parse_print_nat n rest a :
  0 <= n -> exists k, 0 <= k /\
  parse_digits (print_nat n +:+ rest) a = parse_digits rest (a * 10 ^ k + n).
Proof.
  intros Hn. unfold print_nat. rewrite dec_digits_app.
  destruct (parse_dec_digits (S (Z.to_nat (Z.log2 n))) n (EmptyString +:+ rest)) as (k & ? & E).
  - split; [done|]. pose proof (Z.log2_nonneg n).
    rewrite Nat2Z.inj_succ, Z2Nat.id by done.
    destruct (Z.eq_dec n 0) as [->|]; [reflexivity|].
    pose proof (Z.log2_spec n ltac:(lia)) as [_ ?].
    pose proof (Z.pow_le_mono_l 2 10 (Z.succ (Z.log2 n)) ltac:(lia)). lia.
  - exists k. by rewrite E.
Qed.

Lemma print_nat_head n rest :
  0 <= n -> exists c s', print_nat n +:+ rest = String c s' /\ isdigit c = true.
Proof.
  intros. unfold print_nat. rewrite dec_digits_app.
  destruct (dec_digits_head (Z.to_nat (Z.log2 n)) n (EmptyString +:+ rest)) as (c & s' & -> & ?).
  eauto.
Qed.

(** What may follow a number without being read as part of it. *)
Definition no_digit_head (s : string) : Prop :=
  match s with String c _ => isdigit c = false | EmptyString => True end.

Lemma parse_digits_stop s a : no_digit_head s -> parse_digits s a = (a, s).
Proof. destruct s as [|c s]; simpl; [done|]. by intros ->. Qed.

Lemma strtol_print_nat n rest :
  0 <= n < 2 ^ 63 -> no_digit_head rest -> strtol (print_nat n +:+ rest) = n.
Proof.
  intros Hn Hr. destruct (parse_print_nat n rest 0) as (k & _ & E); [lia|].
  destruct (print_nat_head n rest) as (c & s' & Hs & Hc); [lia|].
  unfold strtol. rewrite Hs in *. simpl.
  rewrite (isdigit_not_space c Hc). simpl.
  destruct (isdigit_not_sign c Hc). rewrite !bool_decide_false by done.
  rewrite E, parse_digits_stop by done. simpl. unfold sat64. lia.
Qed.

(** A printed [int], whatever follows it, parses back to itself. *)
Lemma stringToInt_intToString_app x rest :
  is_i32 x -> no_digit_head rest -> stringToInt (intToString x +:+ rest) = x.
Proof.
  intros Hx Hr. unfold stringToInt, atoi, intToString. rewrite (i32_id x) by done.
  unfold is_i32 in Hx. destruct (Z.ltb_spec x 0).
  - simpl. destruct (parse_print_nat (- x) rest 0) as (k & _ & E); [lia|].
    unfold strtol. simpl. rewrite E, parse_digits_stop by done. simpl.
    unfold sat64. rewrite i32_id; [lia|unfold is_i32; lia].
  - rewrite strtol_print_nat by (done || lia). apply i32_id. unfold is_i32; lia.
Qed.

Lemma stringToInt_intToString x : is_i32 x -> stringToInt (intToString x) = x.
Proof.
  intros. rewrite <- (str_app_nil_r (intToString x)). by apply stringToInt_intToString_app.
Qed.

(** The form the program uses: an unsigned value printed by [intToString] and read back
    by [stringToInt] into an unsigned variable. *)
Lemma u32_stringToInt_intToString x : is_u32 x -> u32 (stringToInt (intToString x)) = x.
Proof.
  intros Hx. transitivity (u32 (stringToInt (intToString (i32 x)))).
  - f_equal. unfold intToString. by rewrite (i32_id (i32 x)) by apply i32_range.
  - rewrite stringToInt_intToString by apply i32_range. rewrite u32_i32. by apply u32_id.
Qed.
#[export] Hint Resolve stringToInt_intToString u32_stringToInt_intToString : mammut.

(** ** Splitting and joining *)

Fixpoint str_in (d : ascii) (s : string) : bool :=
  match s with
  | EmptyString => false
  | String c s' => bool_decide (c = d) || str_in d s'
  end.

Fixpoint join (d : ascii) (l : list string) : string :=
  match l with
  | [] => EmptyString
  | [t] => t
  | t :: l' => t +:+ String d (join d l')
  end.

Lemma break_at_app d t r :
  str_in d t = false -> break_at d (t +:+ String d r) = (t, Some r).
Proof.
  induction t as [|c t IH]; simpl; intros H.
  - by rewrite bool_decide_true.
  - apply orb_false_iff in H as [Hc Ht]. rewrite Hc. by rewrite IH.
Qed.

Lemma break_at_none d t : str_in d t = false -> break_at d t = (t, None).
Proof.
  induction t as [|c t IH]; simpl; intros H; [done|].
  apply orb_false_iff in H as [Hc Ht]. rewrite Hc. by rewrite IH.
Qed.

Lemma break_at_length d s t r :
  break_at d s = (t, Some r) -> (String.length r < String.length s)%nat.
Proof.
  revert t r; induction s as [|c s IH]; intros t r; simpl; [done|].
  destruct (bool_decide _); [naive_solver lia|].
  destruct (break_at d s) as [t' [r'|]] eqn:E; [|done].
  intros [= <- <-]. specialize (IH _ _ eq_refl). lia.
Qed.

Lemma getline_length d s t r :
  getline d s = Some (t, r) -> (String.length r < String.length s)%nat.
Proof.
  destruct s as [|c s]; [done|]. unfold getline.
  destruct (break_at d (String c s)) as [t' [r'|]] eqn:E; simpl; intros [= <- <-].
  - by apply break_at_length in E.
  - simpl. lia.
Qed.

Lemma split_loop_elems f s d elems : split_loop f s d elems = elems ++ split_loop f s d [].
Proof.
  revert s elems; induction f as [|f IH]; intros s elems; simpl.
  { by rewrite app_nil_r. }
  destruct (getline d s) as [[t r]|]; [|by rewrite app_nil_r].
  rewrite IH, (IH r [t]). by rewrite app_assoc.
Qed.

(** The fuel is enough: more of it changes nothing. *)
Lemma split_loop_fuel f1 f2 s d elems :
  (String.length s < f1)%nat -> (String.length s < f2)%nat ->
  split_loop f1 s d elems = split_loop f2 s d elems.
Proof.
  revert f2 s elems; induction f1 as [|f1 IH]; intros [|f2] s elems H1 H2; [lia..|].
  simpl. destruct (getline d s) as [[t r]|] eqn:E; [|done].
  apply getline_length in E. apply IH; lia.
Qed.

(** The equation of [split]: one [getline], then the rest of the stream. *)
Lemma split_unfold s d :
  split s d = match getline d s with
              | None => []
              | Some (t, r) => t :: split r d
              end.
Proof.
  unfold split. simpl. destruct (getline d s) as [[t r]|] eqn:E; [|done].
  rewrite split_loop_elems. simpl. f_equal.
  apply getline_length in E. apply (split_loop_fuel _ (S (String.length r))); lia.
Qed.

Lemma split_empty d : split EmptyString d = [].
Proof. done. Qed.

Lemma split_token t r d :
  str_in d t = false -> split (t +:+ String d r) d = t :: split r d.
Proof.
  intros H. rewrite split_unfold. unfold getline.
  destruct t as [|c t]; simpl; [by rewrite bool_decide_true|].
  simpl in H. apply orb_false_iff in H as [Hc Ht]. rewrite Hc.
  by rewrite break_at_app.
Qed.

Lemma split_last t d : str_in d t = false -> t <> EmptyString -> split t d = [t].
Proof.
  intros H Hne. rewrite split_unfold. unfold getline.
  destruct t as [|c t]; [done|]. by rewrite break_at_none.
Qed.

Lemma split_join_nonempty d l :
  Forall (fun t => str_in d t = false) l ->
  (forall t, last l = Some t -> t <> EmptyString) ->
  split (join d l) d = l.
Proof.
  induction l as [|t [|t' l] IH]; intros Hf Hl; [done| |].
  - apply split_last; [by inversion Hf|by apply Hl].
  - change (join d (t :: t' :: l)) with (t +:+ String d (join d (t' :: l))).
    inversion Hf; subst. rewrite split_token by done. f_equal. by apply IH.
Qed.

(** ** Ranges *)

Lemma str_in_dec_digits d f n s :
  0 <= n -> isdigit d = false -> str_in d (dec_digits f n s) = str_in d s.
Proof.
  intros Hn Hd. revert n s Hn; induction f as [|f IH]; intros n s Hn; simpl; [done|].
  assert (0 <= n mod 10 < 10) by (by apply Z.mod_pos_bound).
  assert (str_in d (String (digit_char (n mod 10)) s) = str_in d s) as E.
  { simpl. rewrite bool_decide_false; [done|]. intros <-.
    by rewrite isdigit_digit_char in Hd by lia. }
  destruct (n <? 10); [done|]. rewrite IH by (by apply Z.div_pos). done.
Qed.

Lemma str_in_intToString d x :
  isdigit d = false -> d <> "-"%char -> str_in d (intToString x) = false.
Proof.
  intros Hd Hm. unfold intToString, print_nat.
  destruct (Z.ltb_spec (i32 x) 0).
  - unfold str_in; fold str_in. rewrite str_in_dec_digits by (done || lia).
    by rewrite bool_decide_false by congruence.
  - by rewrite str_in_dec_digits by (done || lia).
Qed.

Lemma str_find_head c t r :
  str_in c t = false -> str_find (String c EmptyString) (t +:+ String c r) = Some (String.length t).
Proof.
  induction t as [|a t IH]; simpl; intros H.
  - by rewrite bool_decide_true.
  - apply orb_false_iff in H as [Hc Ht]. rewrite bool_decide_eq_false in Hc.
    rewrite bool_decide_false by congruence. simpl. by rewrite IH.
Qed.

Lemma str_find_none c t :
  str_in c t = false -> str_find (String c EmptyString) t = None.
Proof.
  induction t as [|a t IH]; simpl; intros H; [done|].
  apply orb_false_iff in H as [Hc Ht]. rewrite bool_decide_eq_false in Hc.
  rewrite bool_decide_false by congruence. simpl. by rewrite IH.
Qed.

Lemma str_take_app t r : str_take (String.length t) (t +:+ r) = t.
Proof. induction t as [|a t IH]; simpl; [by destruct r|]. by rewrite IH. Qed.

Lemma str_drop_app t r : str_drop (String.length t) (t +:+ r) = r.
Proof. induction t as [|a t IH]; simpl; done. Qed.

Lemma str_drop_app_S t c r : str_drop (S (String.length t)) (t +:+ String c r) = r.
Proof. induction t as [|a t IH]; simpl; [done|]. by destruct t; simpl in *. Qed.

(** The kernel's two notations for the possible cores: a range and a single core. *)
Lemma dashedRange_of_range a b :
  0 <= a < 2 ^ 31 -> is_i32 b ->
  dashedRangeToIntegers (intToString a +:+ "-" +:+ intToString b) = (a, b).
Proof.
  intros Ha Hb. unfold dashedRangeToIntegers. simpl (_ +:+ _).
  rewrite str_find_head.
  - rewrite str_take_app, str_drop_app_S.
    rewrite !stringToInt_intToString; [done|done|unfold is_i32; lia].
  - unfold intToString. rewrite i32_id by (unfold is_i32; lia).
    destruct (Z.ltb_spec a 0); [lia|].
    unfold print_nat. by rewrite str_in_dec_digits by (done || lia).
Qed.

Lemma dashedRange_of_single a :
  0 <= a < 2 ^ 31 -> dashedRangeToIntegers (intToString a) = (a, a).
Proof.
  intros Ha. unfold dashedRangeToIntegers. rewrite str_find_none.
  - by rewrite stringToInt_intToString by (unfold is_i32; lia).
  - unfold intToString. rewrite i32_id by (unfold is_i32; lia).
    destruct (Z.ltb_spec a 0); [lia|].
    unfold print_nat. by rewrite str_in_dec_digits by (done || lia).
Qed.

Lemma str_app_snoc_join d t l : l <> [] -> join d (t :: l) = t +:+ String d (join d l).
Proof. by destruct l. Qed.

Lemma break_at_spec d s t r :
  break_at d s = (t, r) ->
  str_in d t = false /\ match r with Some r' => s = t +:+ String d r' | None => s = t end.
Proof.
  revert t r; induction s as [|c s IH]; intros t r; simpl.
  { by intros [= <- <-]. }
  case_bool_decide as Hc.
  { intros [= <- <-]. by subst. }
  destruct (break_at d s) as [t' r'] eqn:E. intros [= <- <-].
  destruct (IH _ _ eq_refl) as [Ht Hr]. split.
  - simpl. by rewrite bool_decide_false.
  - destruct r'; simpl; by f_equal.
Qed.

(** Splitting loses nothing but a final delimiter. *)
Lemma join_split_or s d :
  join d (split s d) = s \/ join d (split s d) +:+ String d EmptyString = s.
Proof.
  remember (String.length s) as n eqn:Hn. revert s Hn.
  induction n as [n IH] using lt_wf_ind; intros s ->.
  rewrite split_unfold. unfold getline.
  destruct s as [|c s]; [by left|].
  destruct (break_at d (String c s)) as [t [r|]] eqn:E; simpl default.
  - pose proof (break_at_length _ _ _ _ E) as Hlen.
    apply break_at_spec in E as [Ht E]. rewrite E.
    destruct (split r d) as [|t' l] eqn:Er.
    + right. destruct r; [done|]. exfalso.
      rewrite split_unfold in Er. unfold getline in Er.
      by destruct (break_at d _).
    + rewrite str_app_snoc_join by done.
      destruct (IH _ Hlen r eq_refl) as [Hr|Hr]; rewrite Er in Hr; [left; by rewrite Hr|right].
      rewrite str_app_assoc. by rewrite <- Hr.
  - apply break_at_spec in E as [Ht ->]. left. done.
Qed.

Lemma split_tokens_free s d : Forall (fun t => str_in d t = false) (split s d).
Proof.
  remember (String.length s) as n eqn:Hn. revert s Hn.
  induction n as [n IH] using lt_wf_ind; intros s ->.
  rewrite split_unfold. destruct (getline d s) as [[t r]|] eqn:E; constructor.
  - unfold getline in E. destruct s as [|c s]; [done|].
    destruct (break_at d (String c s)) as [t' r'] eqn:Eb.
    injection E as <- _. by apply break_at_spec in Eb as [? _].
  - eapply IH; [|done]. by eapply getline_length.
Qed.

(** ** [isNumber] and [trim] *)

Fixpoint str_all (p : ascii -> bool) (s : string) : bool :=
  match s with
  | EmptyString => true
  | String c s' => p c && str_all p s'
  end.

Lemma isNumber_spec s : isNumber s = true <-> s <> EmptyString /\ str_all isdigit s = true.
Proof.
  assert (str_empty (skip_digits s) = str_all isdigit s) as E.
  { induction s as [|c s IH]; simpl; [done|]. by destruct (isdigit c). }
  unfold isNumber. rewrite E. destruct s; simpl; naive_solver.
Qed.

Lemma str_rev_app_app s a b : str_rev_app s a +:+ b = str_rev_app s (a +:+ b).
Proof. revert a; induction s as [|c s IH]; intros a; simpl; [done|]. by rewrite IH. Qed.

Lemma str_rev_app_rev s a b :
  str_rev_app (str_rev_app s a) b = str_rev_app a (s +:+ b).
Proof. revert a b; induction s as [|c s IH]; intros a b; simpl; [done|]. by rewrite IH. Qed.

Lemma str_rev_rev s : str_rev_app (str_rev_app s EmptyString) EmptyString = s.
Proof. rewrite str_rev_app_rev. simpl. by rewrite str_app_nil_r. Qed.

Lemma skip_spaces_spec s :
  exists p, s = p +:+ skip_spaces s /\ str_all isspace p = true /\
  match skip_spaces s with String c _ => isspace c = false | EmptyString => True end.
Proof.
  induction s as [|c s IH]; simpl; [by exists EmptyString|].
  destruct (isspace c) eqn:Ec; [|by exists EmptyString].
  destruct IH as (p & Hp & Ha & Hh). exists (String c p). simpl.
  rewrite Ec, Ha, <- Hp. done.
Qed.

(** What a message id must look like. *)
Lemma getModuleNameFromMessageId_spec pre m post :
  str_in "." m = false -> str_in "." post = false -> post <> EmptyString ->
  pre = "mammut"%string ->
  getModuleNameFromMessageId (pre +:+ String "." (m +:+ String "." post)) = Ret m.
Proof.
  intros Hm Hp Hne ->. unfold getModuleNameFromMessageId.
  rewrite split_token by done. rewrite split_token by done. by rewrite split_last by done.
Qed.
