(* ===== verification/UtilsVector.v ===== *)
(** * Vector utilities (include/mammut/utils.hpp)

    The templates of [mammut::utils] on [std::vector]: membership, the moves of elements
    between two vectors, and the conversions between an enumerator and its name.  A range
    past the end of a vector is undefined behaviour.  The two vectors of a move are distinct
    objects, as in every use of the program. *)
From S2P Require Import Prelude UtilsText.

Section vectors.
Context {T : Type} `{EqDecision T}.

(** [utils::contains], include/mammut/utils.hpp:313-316. *)
Definition contains (vec : list T) (value : T) : bool := bool_decide (value ∈ vec).

(** [utils::contains], include/mammut/utils.hpp:324-332. *)
Fixpoint containsAll (x y : list T) : bool :=
  match x with
  | [] => true
  | a :: x' => if contains y a then containsAll x' y else false
  end.

(** [utils::insertFrontToEnd], include/mammut/utils.hpp:340-343. *)
Definition insertFrontToEnd (a b : list T) (n : nat) : outcome (list T) :=
  if (n <=? length a)%nat then Ret (b ++ take n a) else Undef "iterator past the end".

(** [utils::insertToEnd], include/mammut/utils.hpp:350-353. *)
Definition insertToEnd (a b : list T) : outcome (list T) := insertFrontToEnd a b (length a).

(** [utils::moveFrontToEnd], include/mammut/utils.hpp:362-366. The result is the pair of the
    two vectors after the call. *)
Definition moveFrontToEnd (a b : list T) (n : nat) : outcome (list T * list T) :=
  b' ← insertFrontToEnd a b n; Ret (drop n a, b').

(** [utils::moveToEnd], include/mammut/utils.hpp:374-377. *)
Definition moveToEnd (a b : list T) : outcome (list T * list T) := moveFrontToEnd a b (length a).

(** [utils::insertEndToFront], include/mammut/utils.hpp:385-389. [a.size() - n] wraps when [n]
    is greater, which leaves the iterator outside the vector. *)
Definition insertEndToFront (a b : list T) (n : nat) : outcome (list T) :=
  if (n <=? length a)%nat then Ret (drop (length a - n) a ++ b) else Undef "iterator past the end".

(** [utils::insertToFront], include/mammut/utils.hpp:396-399. *)
Definition insertToFront (a b : list T) : outcome (list T) := insertEndToFront a b (length a).

(** [utils::moveEndToFront], include/mammut/utils.hpp:408-413. *)
Definition moveEndToFront (a b : list T) (n : nat) : outcome (list T * list T) :=
  b' ← insertEndToFront a b n; Ret (take (length a - n) a, b').

(** [utils::moveToFront], include/mammut/utils.hpp:421-424. *)
Definition moveToFront (a b : list T) : outcome (list T * list T) := moveEndToFront a b (length a).
End vectors.

(** [utils::convertVector], include/mammut/utils.hpp:432-439. [cast] is the [static_cast]. *)
Definition convertVector {T V} (cast : T -> V) (source : list T) : list V :=
  fold_left (fun destination x => destination ++ [cast x]) source [].

(** ** Enumerators and their names *)

(** The first blank-separated word of [s], as [operator>>] of a [std::string] extracts it, and
    what follows it; no word leaves the target unchanged. *)
Fixpoint take_word (s : string) : string * string :=
  match s with
  | EmptyString => (EmptyString, EmptyString)
  | String c s' => if isspace c then (EmptyString, s)
                   else let '(w, r) := take_word s' in (String c w, r)
  end.
Definition read_word (s : string) : option (string * string) :=
  let '(w, r) := take_word (skip_spaces s) in
  if str_empty w then None else Some (w, r).

Fixpoint find_index (v : string) (l : list string) : option nat :=
  match l with
  | [] => None
  | a :: l' => if bool_decide (a = v) then Some 0%nat else S <$> find_index v l'
  end.

(** [operator>> of an enumRefHolder], include/mammut/utils.hpp:749-765. The enumerator keeps the
    value it had before the call when no name matches. *)
Definition enum_extract (data : list string) (stream : string) (enumVal : outcome Z) : outcome Z :=
  let value := match read_word stream with Some (w, _) => w | None => EmptyString end in
  match find_index value data with
  | Some i => Ret (Z.of_nat i)
  | None => enumVal
  end.

(** [operator<< of an enumConstRefHolder], include/mammut/utils.hpp:744-747. *)
Definition enum_insert (data : list string) (enumVal : Z) : outcome string :=
  if enumVal <? 0 then Undef "enumStrings out of range" else vec_index data (Z.to_nat enumVal).

(** [utils::stringToEnum], include/mammut/utils.hpp:788-793. *)
Definition stringToEnum (data : list string) (s : string) (e : outcome Z) : outcome Z :=
  enum_extract data s e.

(** [utils::enumToString], include/mammut/utils.hpp:781-786. *)
Definition enumToString (data : list string) (e : Z) : outcome string := enum_insert data e.

(** * Theorems *)
Section vectors_theorems.
Context {T : Type} `{EqDecision T}.
Implicit Types (a b x y : list T).

Lemma contains_spec y (v : T) : contains y v = true <-> v ∈ y.
Proof. unfold contains. by rewrite bool_decide_eq_true. Qed.

Lemma containsAll_spec x y : containsAll x y = true <-> x ⊆ y.
Proof.
  induction x as [|v x IH]; simpl.
  { split; [intros _; set_solver|done]. }
  destruct (contains y v) eqn:E.
  - apply contains_spec in E. rewrite IH. set_solver.
  - split; [done|]. intros H. assert (v ∈ y) as Hv by set_solver.
    apply contains_spec in Hv. congruence.
Qed.

Lemma moveFrontToEnd_ok a b n :
  (n <= length a)%nat -> moveFrontToEnd a b n = Ret (drop n a, b ++ take n a).
Proof. intros. unfold moveFrontToEnd, insertFrontToEnd. by destruct (Nat.leb_spec n (length a)); [|lia]. Qed.

Lemma moveEndToFront_ok a b n :
  (n <= length a)%nat ->
  moveEndToFront a b n = Ret (take (length a - n) a, drop (length a - n) a ++ b).
Proof. intros. unfold moveEndToFront, insertEndToFront. by destruct (Nat.leb_spec n (length a)); [|lia]. Qed.

Lemma convertVector_map {V} (cast : T -> V) (source : list T) :
  convertVector cast source = map cast source.
Proof.
  assert (forall l, fold_left (fun d (e : T) => d ++ [cast e]) source l = l ++ map cast source) as H.
  { induction source as [|v s IH]; intros l; simpl; [by rewrite app_nil_r|].
    rewrite IH. by rewrite <- app_assoc. }
  apply (H []).
Qed.
End vectors_theorems.
#[export] Hint Rewrite @convertVector_map : mammut.

Lemma find_index_nth data i s :
  NoDup data -> data !! i = Some s -> find_index s data = Some i.
Proof.
  revert i; induction data as [|d data IH]; intros i Hnd Hi; [done|].
  simpl. inversion Hnd; subst. destruct i as [|i]; simpl in Hi.
  - injection Hi as ->. by rewrite bool_decide_true.
  - rewrite bool_decide_false; [by rewrite (IH i)|].
    intros ->. by apply list_elem_of_lookup_2 in Hi.
Qed.

Lemma find_index_lt v l i : find_index v l = Some i -> (i < length l)%nat.
Proof.
  revert i. induction l as [|a l IH]; intros i; simpl; [done|]. case_bool_decide; [intros [= <-]; lia|].
  destruct (find_index v l) as [j|]; simpl; [|done]. intros [= <-]. specialize (IH j eq_refl). lia.
Qed.

Lemma find_index_None data s : find_index s data = None <-> s ∉ data.
Proof.
  induction data as [|d data IH]; simpl; [set_solver|].
  case_bool_decide; [set_solver|].
  destruct (find_index s data); simpl; set_solver.
Qed.

Lemma take_word_nospace s :
  str_all (fun c => negb (isspace c)) s = true -> take_word s = (s, EmptyString).
Proof.
  induction s as [|c s IH]; simpl; [done|].
  destruct (isspace c); simpl; [done|]. intros H. by rewrite IH.
Qed.

Lemma read_word_nospace s :
  s <> EmptyString -> str_all (fun c => negb (isspace c)) s = true ->
  read_word s = Some (s, EmptyString).
Proof.
  intros Hne H. destruct s as [|c s]; [done|]. unfold read_word. simpl in *.
  destruct (isspace c) eqn:E; [done|]. simpl in H.
  cbn [take_word]. rewrite E. by rewrite take_word_nospace.
Qed.
