(* ===== verification/Double.v ===== *)
(** * IEEE 754 doubles

    The program's [double] is binary64, modelled by the executable specification of the
    Standard Library ([SpecFloat] with 53 bits of precision and [emax] 1024), rounding to
    nearest even.  [2^e] scalings of integers below [2^53] are exact, which the theorems at
    the end use: an energy counter adds such values. *)
From S2P Require Import Prelude UtilsText.
From Stdlib Require Import SpecFloat.

Definition double : Type := spec_float.

(** ** Arithmetic and comparison *)
Definition dadd : double -> double -> double := SFadd 53 1024.
Definition dsub : double -> double -> double := SFsub 53 1024.
Definition dmul : double -> double -> double := SFmul 53 1024.
Definition ddiv : double -> double -> double := SFdiv 53 1024.
Definition dleb : double -> double -> bool := SFleb.
Definition dltb : double -> double -> bool := SFltb.
Definition deqb : double -> double -> bool := SFeqb.

(** ** Conversions *)

(** The double nearest to [m * 2^e]. *)
Definition d_scaled (m e : Z) : double := binary_normalize 53 1024 m e false.
(** [(double) n] of an integer. *)
Definition d_of_Z (n : Z) : double := d_scaled n 0.
(** The double nearest to [n / d]: the value of a decimal literal. *)
Definition d_of_ratio (n : Z) (d : positive) : double :=
  match n with
  | Z0 => S754_zero false
  | Zpos m => let '(q, e, l) := SFdiv_core_binary 53 1024 (Zpos m) 0 (Zpos d) 0 in
              binary_round_aux 53 1024 false q e l
  | Zneg m => let '(q, e, l) := SFdiv_core_binary 53 1024 (Zpos m) 0 (Zpos d) 0 in
              binary_round_aux 53 1024 true q e l
  end.
Definition d_zero : double := S754_zero false.
(** [pow(0.5, n)] of a small natural number: a power of two. *)
Definition d_pow_half (n : Z) : double := d_scaled 1 (- n).

(** The integer part, towards zero; [None] for an infinity or a NaN, whose conversion to an
    integer is undefined. *)
Definition d_trunc (x : double) : option Z :=
  match x with
  | S754_zero _ => Some 0
  | S754_finite s m e =>
      let v := if 0 <=? e then Zpos m * 2 ^ e else Zpos m / 2 ^ (- e) in
      Some (if s then - v else v)
  | _ => None
  end.
(** A conversion to an integer type whose range is [lo .. hi]. *)
Definition d_to_int (lo hi : Z) (x : double) : outcome Z :=
  match d_trunc x with
  | Some v => if (lo <=? v) && (v <=? hi) then Ret v else Undef "double out of the integer range"
  | None => Undef "double out of the integer range"
  end.
Definition d_to_i32 : double -> outcome Z := d_to_int (- 2 ^ 31) (2 ^ 31 - 1).
Definition d_to_u32 : double -> outcome Z := d_to_int 0 (2 ^ 32 - 1).
Definition d_to_i64 : double -> outcome Z := d_to_int (- 2 ^ 63) (2 ^ 63 - 1).
Definition d_to_u64 : double -> outcome Z := d_to_int 0 (2 ^ 64 - 1).
(** [floor]. *)
Definition d_floor (x : double) : double :=
  match x with
  | S754_finite s m e =>
      if 0 <=? e then x
      else let v := (if s then Z.neg m else Zpos m) / 2 ^ (- e) in
           if v =? 0 then S754_zero s else d_of_Z v
  | _ => x
  end.

(** ** [atof] on decimal notation: spaces, a sign, digits with an optional point, an optional
    exponent; 0 when there is no number. *)
Fixpoint count_digits (s : string) : Z :=
  match s with
  | String c s' => if isdigit c then 1 + count_digits s' else 0
  | EmptyString => 0
  end.
Definition parse_exponent (s : string) : Z :=
  match s with
  | String c s' =>
      if bool_decide (c = "e"%char) || bool_decide (c = "E"%char) then
        let '(neg, r) := parse_sign s' in
        let n := fst (parse_digits r 0) in if neg : bool then - n else n
      else 0
  | EmptyString => 0
  end.
Definition d_decimal (neg : bool) (n e : Z) : double :=
  let s := if neg then - n else n in
  if n =? 0 then S754_zero neg
  else if 0 <=? e then d_scaled (s * 10 ^ e) 0
  else d_of_ratio s (Z.to_pos (10 ^ (- e))).
Definition atof (s : string) : double :=
  let '(neg, r) := parse_sign (skip_spaces s) in
  let '(n, r1) := parse_digits r 0 in
  match r1 with
  | String c r2 =>
      if bool_decide (c = "."%char) then
        let '(n', r3) := parse_digits r2 n in
        if (count_digits r =? 0) && (count_digits r2 =? 0) then S754_zero false
        else d_decimal neg n' (parse_exponent r3 - count_digits r2)
      else if count_digits r =? 0 then S754_zero false
      else d_decimal neg n (parse_exponent r1)
  | EmptyString => if count_digits r =? 0 then S754_zero false else d_decimal neg n 0
  end.

(** [utils::stringToDouble], src/utils.cpp:288-290. *)
Definition stringToDouble (s : string) : double := atof s.

#[export] Instance double_eq_dec : EqDecision double.
Proof. solve_decision. Defined.

(** * Theorems: scaled integers are exact *)

Lemma digits2_log2 p : Zpos (digits2_pos p) = Z.log2 (Zpos p) + 1.
Proof.
  induction p as [p IH|p IH|]; simpl digits2_pos; [| |done].
  - rewrite Pos2Z.inj_succ, IH. rewrite (Pos2Z.inj_xI p), Z.log2_succ_double; lia.
  - rewrite Pos2Z.inj_succ, IH. rewrite (Pos2Z.inj_xO p), Z.log2_double; lia.
Qed.

Lemma iter_pos_nat {A} (f : A -> A) n x : iter_pos f n x = Nat.iter (Pos.to_nat n) f x.
Proof.
  revert x; induction n as [n IH|n IH|]; intros x; simpl iter_pos.
  - rewrite !IH, <- Nat.iter_add. rewrite <- Nat.iter_succ_r. f_equal. lia.
  - rewrite !IH, <- Nat.iter_add. f_equal. lia.
  - done.
Qed.

Lemma shr_1_double m : 0 < m -> shr_1 (Build_shr_record (2 * m) false false) = Build_shr_record m false false.
Proof. intros. destruct m; [lia|done|lia]. Qed.

Lemma shr_exact m n e :
  0 < m -> 0 <= n ->
  shr (Build_shr_record (m * 2 ^ n) false false) e n = (Build_shr_record m false false, e + n).
Proof.
  intros Hm Hn. destruct n as [|n|n]; [|simpl|lia].
  { simpl. by rewrite Z.mul_1_r, Z.add_0_r. }
  f_equal. rewrite iter_pos_nat.
  replace (2 ^ Zpos n) with (2 ^ Z.of_nat (Pos.to_nat n)) by (f_equal; lia).
  generalize (Pos.to_nat n) as k; intros k. induction k as [|k IH].
  - simpl. by rewrite Z.mul_1_r.
  - rewrite Nat.iter_succ_r. replace (m * 2 ^ Z.of_nat (S k)) with (2 * (m * 2 ^ Z.of_nat k)).
    + rewrite shr_1_double; [done|]. apply Z.mul_pos_pos; [done|]. by apply Z.pow_pos_nonneg; lia.
    + rewrite Nat2Z.inj_succ, Z.pow_succ_r; lia.
Qed.

Lemma shl_pos_spec m d : Zpos (Pos.iter xO m d) = Zpos m * 2 ^ Zpos d.
Proof.
  revert m. induction d as [|d IH] using Pos.peano_ind; intros m.
  - simpl. lia.
  - rewrite Pos.iter_succ, Pos2Z.inj_xO, IH, Pos2Z.inj_succ, Z.pow_succ_r; lia.
Qed.

Lemma Zdigits2_scaled m k : 0 < m -> 0 <= k -> Zdigits2 (m * 2 ^ k) = Zdigits2 m + k.
Proof.
  intros Hm Hk. assert (0 < m * 2 ^ k) by (apply Z.mul_pos_pos; [done|by apply Z.pow_pos_nonneg]).
  destruct m as [|m|m]; [lia| |lia]. destruct (Zpos m * 2 ^ k) as [|q|q] eqn:E; [lia| |lia].
  simpl. rewrite !digits2_log2, <- E, Z.log2_mul_pow2; lia.
Qed.

Lemma Zdigits2_bound m : 0 < m -> 2 ^ (Zdigits2 m - 1) <= m < 2 ^ (Zdigits2 m).
Proof.
  intros Hm. destruct m as [|m|m]; [lia| |lia]. simpl. rewrite digits2_log2.
  replace (Z.log2 (Zpos m) + 1 - 1) with (Z.log2 (Zpos m)) by lia.
  rewrite Z.add_1_r. by apply Z.log2_spec.
Qed.

Lemma Zdigits2_pos m : 0 < m -> 0 < Zdigits2 m.
Proof. destruct m; simpl; lia. Qed.

Lemma Zdigits2_le m n : 0 < m <= n -> Zdigits2 m <= Zdigits2 n.
Proof.
  intros H. destruct m as [|m|m], n as [|n|n]; try lia. simpl. rewrite !digits2_log2.
  pose proof (Z.log2_le_mono (Zpos m) (Zpos n)). lia.
Qed.

Lemma Zdigits2_lt_pow m k : 0 < m -> 0 <= k -> m < 2 ^ k -> Zdigits2 m <= k.
Proof.
  intros Hm Hk H. destruct m as [|m|m]; [lia| |lia]. simpl. rewrite digits2_log2.
  apply Z.log2_lt_pow2 in H; lia.
Qed.

(** The canonical exponent of [m * 2^e], and its canonical form. *)
Definition canon_exp (m e : Z) : Z := fexp 53 1024 (Zdigits2 m + e).
Definition canon (m e : Z) : double :=
  S754_finite false (Z.to_pos (m * 2 ^ (e - canon_exp m e))) (canon_exp m e).

Lemma canon_exp_le m e : 0 < m < 2 ^ 53 -> -1074 <= e -> canon_exp m e <= e.
Proof.
  intros Hm He. unfold canon_exp, fexp, emin.
  pose proof (Zdigits2_lt_pow m 53 ltac:(lia) ltac:(lia) ltac:(lia)). lia.
Qed.

Lemma canon_exp_scaled m e k : 0 < m -> 0 <= k -> canon_exp (m * 2 ^ k) (e - k) = canon_exp m e.
Proof. intros. unfold canon_exp. rewrite Zdigits2_scaled by done. f_equal. lia. Qed.

Lemma round_aux_exact n k ez :
  0 < n -> 0 <= k -> fexp 53 1024 (Zdigits2 n + (ez + k)) = ez + k -> ez + k <= 971 ->
  binary_round_aux 53 1024 false (n * 2 ^ k) ez loc_Exact = S754_finite false (Z.to_pos n) (ez + k).
Proof.
  intros Hn Hk Hf Hm. unfold binary_round_aux, shr_fexp. simpl shr_record_of_loc.
  rewrite Zdigits2_scaled by done.
  replace (Zdigits2 n + k + ez) with (Zdigits2 n + (ez + k)) by lia.
  rewrite Hf. replace (ez + k - ez) with k by lia. rewrite shr_exact by done. simpl shr_m.
  simpl loc_of_shr_record. simpl round_nearest_even. rewrite Hf.
  replace (ez + k - (ez + k)) with 0 by lia. simpl shr. simpl shr_m.
  destruct n as [|n|n]; [lia| |lia]. destruct (Z.leb_spec (ez + k) (1024 - 53)); [done|lia].
Qed.

(** However a dyadic number is written, rounding gives its one canonical form. *)
Lemma binary_round_exact n k e :
  0 < n < 2 ^ 53 -> 0 <= k -> -1074 <= e <= 971 ->
  binary_round 53 1024 false (Z.to_pos (n * 2 ^ k)) (e - k) = canon n e.
Proof.
  intros Hn Hk He. set (ez := canon_exp n e).
  assert (ez <= e) as Hez by (apply canon_exp_le; lia).
  assert (0 < n * 2 ^ k) as Hp by (apply Z.mul_pos_pos; [lia|by apply Z.pow_pos_nonneg]).
  assert (fexp 53 1024 (Zpos (digits2_pos (Z.to_pos (n * 2 ^ k))) + (e - k)) = ez) as Ef.
  { unfold ez. rewrite <- (canon_exp_scaled n e k) by lia.
    unfold canon_exp. f_equal. f_equal. rewrite <- (Z2Pos.id (n * 2 ^ k)) at 2 by done. done. }
  unfold binary_round. rewrite Ef.
  assert (forall s, 0 <= s -> fexp 53 1024 (Zdigits2 (n * 2 ^ (e - ez)) + ez) = ez) as Hfe.
  { intros _ _. rewrite Zdigits2_scaled by lia. unfold ez, canon_exp. f_equal. lia. }
  assert (0 < n * 2 ^ (e - ez)) by (apply Z.mul_pos_pos; [lia|apply Z.pow_pos_nonneg; lia]).
  destruct (Z.le_gt_cases (e - k) ez) as [Hle|Hgt].
  - (* the number is written with at least as many bits as its canonical form *)
    assert (shl_align (Z.to_pos (n * 2 ^ k)) (e - k) ez = (Z.to_pos (n * 2 ^ k), e - k)) as ->.
    { unfold shl_align. destruct (ez - (e - k)) eqn:E; [done|done|lia]. }
    rewrite Z2Pos.id by done.
    replace (n * 2 ^ k) with (n * 2 ^ (e - ez) * 2 ^ (ez - (e - k))).
    + rewrite round_aux_exact; [|lia|lia| |lia].
      * unfold canon. fold ez. f_equal. lia.
      * replace (e - k + (ez - (e - k))) with ez by lia. by apply (Hfe 0).
    + rewrite <- Z.mul_assoc, <- Z.pow_add_r by lia. do 2 f_equal. lia.
  - assert (exists d, ez - (e - k) = Zneg d) as [d Hd].
    { destruct (ez - (e - k)) eqn:E; try lia. eauto. }
    unfold shl_align. rewrite Hd. rewrite shl_pos_spec, Z2Pos.id by done.
    replace (n * 2 ^ k * 2 ^ Zpos d) with (n * 2 ^ (e - ez) * 2 ^ 0).
    + rewrite round_aux_exact; [|lia|lia| |lia].
      * unfold canon. fold ez. f_equal. lia.
      * rewrite Z.add_0_r. by apply (Hfe 0).
    + rewrite Z.mul_1_r, <- Z.mul_assoc, <- Z.pow_add_r by lia. do 2 f_equal. lia.
Qed.

Lemma d_scaled_canon n e : 0 < n < 2 ^ 53 -> -1074 <= e <= 971 -> d_scaled n e = canon n e.
Proof.
  intros Hn He. unfold d_scaled, binary_normalize.
  pose proof (binary_round_exact n 0 e Hn ltac:(lia) He) as H.
  rewrite Z.mul_1_r, Z.sub_0_r in H. destruct n; [lia|exact H|lia].
Qed.

Lemma d_scaled_shift n k e :
  0 < n < 2 ^ 53 -> 0 <= k -> -1074 <= e <= 971 ->
  binary_normalize 53 1024 (n * 2 ^ k) (e - k) false = canon n e.
Proof.
  intros Hn Hk He. rewrite <- (binary_round_exact n k e) by done.
  assert (0 < n * 2 ^ k) by (apply Z.mul_pos_pos; [lia|by apply Z.pow_pos_nonneg]).
  destruct (n * 2 ^ k) eqn:E; [lia|done|lia].
Qed.

Lemma shl_align_canon m e ez :
  0 < m < 2 ^ 53 -> -1074 <= e -> ez <= canon_exp m e ->
  Zpos (fst (shl_align (Z.to_pos (m * 2 ^ (e - canon_exp m e))) (canon_exp m e) ez)) =
  m * 2 ^ (e - ez).
Proof.
  intros Hm He Hez. pose proof (canon_exp_le m e Hm He).
  assert (0 < m * 2 ^ (e - canon_exp m e)) by (apply Z.mul_pos_pos; [lia|apply Z.pow_pos_nonneg; lia]).
  unfold shl_align. destruct (ez - canon_exp m e) eqn:E; simpl fst; [|lia|].
  - rewrite Z2Pos.id by done. do 2 f_equal. lia.
  - rewrite shl_pos_spec, Z2Pos.id, <- Z.mul_assoc, <- Z.pow_add_r by lia. do 2 f_equal. lia.
Qed.

(** Adding two multiples of [2^e] is exact while the sum has at most 53 bits. *)
Lemma dadd_scaled a b e :
  0 <= a -> 0 <= b -> a + b < 2 ^ 53 -> -1074 <= e <= 971 ->
  dadd (d_scaled a e) (d_scaled b e) = d_scaled (a + b) e.
Proof.
  intros Ha Hb Hs He.
  destruct (Z.eq_dec a 0) as [->|Ha0].
  { destruct (Z.eq_dec b 0) as [->|Hb0]; [done|].
    rewrite Z.add_0_l, (d_scaled_canon b e) by lia. done. }
  destruct (Z.eq_dec b 0) as [->|Hb0].
  { rewrite Z.add_0_r, (d_scaled_canon a e) by lia. done. }
  rewrite (d_scaled_canon a e), (d_scaled_canon b e), (d_scaled_canon (a + b) e) by lia.
  pose proof (canon_exp_le a e ltac:(lia) ltac:(lia)).
  pose proof (canon_exp_le b e ltac:(lia) ltac:(lia)).
  remember (canon (a + b) e) as r eqn:Er.
  unfold canon, dadd, SFadd, cond_Zopp. rewrite !shl_align_canon by lia.
  set (ez := Z.min (canon_exp a e) (canon_exp b e)).
  rewrite <- Z.mul_add_distr_r, Er, <- (d_scaled_shift (a + b) (e - ez) e) by lia.
  f_equal. lia.
Qed.

(** Scaling an integer by a negative power of two is exact. *)
Lemma dmul_of_Z_pow_half n k :
  0 <= n < 2 ^ 53 -> 0 <= k <= 1000 -> dmul (d_of_Z n) (d_pow_half k) = d_scaled n (- k).
Proof.
  intros Hn Hk. unfold d_of_Z, d_pow_half.
  rewrite (d_scaled_canon 1 (- k)) by lia.
  destruct (Z.eq_dec n 0) as [->|]; [done|].
  rewrite (d_scaled_canon n 0), (d_scaled_canon n (- k)) by lia.
  pose proof (canon_exp_le n 0 ltac:(lia) ltac:(lia)).
  pose proof (canon_exp_le n (- k) ltac:(lia) ltac:(lia)).
  pose proof (canon_exp_le 1 (- k) ltac:(lia) ltac:(lia)).
  remember (canon n (- k)) as r eqn:Er. unfold canon, dmul, SFmul. simpl xorb.
  assert (0 < n * 2 ^ (0 - canon_exp n 0)) by (apply Z.mul_pos_pos; [lia|apply Z.pow_pos_nonneg; lia]).
  assert (0 < 1 * 2 ^ (- k - canon_exp 1 (- k))) by (apply Z.mul_pos_pos; [lia|apply Z.pow_pos_nonneg; lia]).
  rewrite Pos2Z.inj_mul, !Z2Pos.id by done.
  set (c1 := canon_exp n 0) in *. set (c2 := canon_exp 1 (- k)) in *. set (c := canon_exp n (- k)) in *.
  assert (c1 + c2 <= c).
  { unfold c1, c2, c, canon_exp, fexp, emin.
    pose proof (Zdigits2_lt_pow n 53 ltac:(lia) ltac:(lia) ltac:(lia)).
    pose proof (Zdigits2_pos n ltac:(lia)). change (Zdigits2 1) with 1. lia. }
  replace (n * 2 ^ (0 - c1) * (1 * 2 ^ (- k - c2))) with (n * 2 ^ (- k - c) * 2 ^ (c - (c1 + c2))).
  - rewrite round_aux_exact; [|apply Z.mul_pos_pos; [lia|apply Z.pow_pos_nonneg; lia]|lia| |lia].
    + rewrite Er. unfold canon. fold c. f_equal. lia.
    + replace (c1 + c2 + (c - (c1 + c2))) with c by lia.
      rewrite Zdigits2_scaled by lia. unfold c, canon_exp. f_equal. lia.
  - rewrite Z.mul_1_l, <- !Z.mul_assoc, <- !Z.pow_add_r by lia. do 2 f_equal. lia.
Qed.

(** A scaled integer is recovered from its double. *)
Lemma d_trunc_scaled_0 n : 0 <= n < 2 ^ 53 -> d_trunc (d_of_Z n) = Some n.
Proof.
  intros Hn. unfold d_of_Z. destruct (Z.eq_dec n 0) as [->|]; [done|].
  rewrite d_scaled_canon by lia. pose proof (canon_exp_le n 0 ltac:(lia) ltac:(lia)).
  assert (0 < n * 2 ^ (0 - canon_exp n 0)) by (apply Z.mul_pos_pos; [lia|apply Z.pow_pos_nonneg; lia]).
  unfold d_trunc, canon. rewrite Z2Pos.id by done. rewrite Z.sub_0_l in *.
  destruct (Z.leb_spec 0 (canon_exp n 0)).
  - replace (canon_exp n 0) with 0 by lia. f_equal. simpl. lia.
  - f_equal. apply Z.div_mul. apply Z.pow_nonzero; lia.
Qed.

(** Subtracting a multiple of [2^e] from a larger one is exact. *)
Lemma dsub_scaled a b e :
  0 <= b <= a -> a < 2 ^ 53 -> -1074 <= e <= 971 -> dsub (d_scaled a e) (d_scaled b e) = d_scaled (a - b) e.
Proof.
  intros Hb Ha He. destruct (Z.eq_dec b 0) as [->|Hb0].
  { rewrite Z.sub_0_r. destruct (Z.eq_dec a 0) as [->|]; [done|]. rewrite (d_scaled_canon a e) by lia. done. }
  rewrite (d_scaled_canon a e), (d_scaled_canon b e) by lia.
  pose proof (canon_exp_le a e ltac:(lia) ltac:(lia)).
  pose proof (canon_exp_le b e ltac:(lia) ltac:(lia)).
  remember (d_scaled (a - b) e) as r eqn:Er.
  unfold canon, dsub, SFsub, cond_Zopp. rewrite !shl_align_canon by lia.
  set (ez := Z.min (canon_exp a e) (canon_exp b e)). rewrite <- Z.mul_sub_distr_r, Er.
  destruct (Z.eq_dec (a - b) 0) as [->|]; [done|].
  rewrite (d_scaled_canon (a - b) e), <- (d_scaled_shift (a - b) (e - ez) e) by lia. f_equal. lia.
Qed.

(** Multiples of [2^e] are compared as integers. *)
Lemma SFcompare_scaled a b e : 0 <= a < 2 ^ 53 -> 0 <= b < 2 ^ 53 -> -1074 <= e <= 971 ->
  SFcompare (d_scaled a e) (d_scaled b e) = Some (a ?= b).
Proof.
  intros Ha Hb He. destruct (Z.eq_dec a 0) as [->|Ha0].
  { destruct (Z.eq_dec b 0) as [->|]; [done|]. rewrite (d_scaled_canon b e) by lia.
    destruct b; [lia|done|lia]. }
  destruct (Z.eq_dec b 0) as [->|Hb0].
  { rewrite (d_scaled_canon a e) by lia. cbn. by rewrite (proj2 (Z.compare_gt_iff a 0)) by lia. }
  rewrite (d_scaled_canon a e), (d_scaled_canon b e) by lia. unfold canon. cbn [SFcompare].
  pose proof (canon_exp_le a e ltac:(lia) ltac:(lia)). pose proof (canon_exp_le b e ltac:(lia) ltac:(lia)).
  assert (forall x y, 0 < x -> 0 < y -> canon_exp x e < canon_exp y e -> x < y) as Hexp.
  { intros x y Hx Hy Hlt. destruct (Z.lt_ge_cases x y) as [|Hge]; [done|].
    pose proof (Zdigits2_le y x ltac:(lia)). unfold canon_exp, fexp in Hlt. lia. }
  f_equal. destruct (Z.compare_spec (canon_exp a e) (canon_exp b e)) as [E|E|E].
  - rewrite E. match goal with |- Pos.compare_cont Eq ?x ?y = _ => change (Z.compare (Zpos x) (Zpos y) = (a ?= b)) end.
    assert (0 < 2 ^ (e - canon_exp b e)) by (apply Z.pow_pos_nonneg; lia).
    rewrite !Z2Pos.id by nia. symmetry. apply Zmult_compare_compat_r. lia.
  - symmetry. apply Z.compare_lt_iff. apply Hexp; lia.
  - symmetry. apply Z.compare_gt_iff. apply Hexp; lia.
Qed.
Lemma dleb_scaled a b e : 0 <= a < 2 ^ 53 -> 0 <= b < 2 ^ 53 -> -1074 <= e <= 971 ->
  dleb (d_scaled a e) (d_scaled b e) = (a <=? b) /\ dltb (d_scaled a e) (d_scaled b e) = (a <? b).
Proof.
  intros. unfold dleb, dltb, SFleb, SFltb, Z.leb, Z.ltb. rewrite SFcompare_scaled by done. by destruct (a ?= b).
Qed.
