(* ===== verification/UtilsSys.v ===== *)
(** * The machine and the system utilities (src/utils.cpp)

    [World] is what the program reads and writes outside its own objects: the file tree
    (sysfs, procfs, /dev), the model specific registers, the clock.  A path is a key as the
    program spells it.  [w_store] says what a file holds after a write: a plain file holds
    the written text, a sysfs attribute may normalise it or refuse it, also because of what
    other attributes hold.  The shell that
    [system] and [popen] start is the parameter [Shell]. *)
From S2P Require Import Prelude UtilsText Double.

(** What [readdir], [realpath] and [lstat] say of a directory entry. *)
Inductive entry_kind := IsDir | NotDir | Vanished | Failing.

Inductive node :=
  | RegFile (content : string)
  | Directory (entries : list (string * entry_kind))
  | MsrFile (core : Z).

(** What the kernel keeps of the tasks: the processors that are online, the affinity of the
    tasks the program may move, the processes it may signal, the signals sent. *)
Record Procs := mkProcs {
  pr_online : gset Z;
  pr_affinity : gmap Z (gset Z);
  pr_killable : gset Z;
  pr_signals : list (Z * Z);
  pr_self : Z * Z                 (* getpid(), gettid() *)
}.

Record World := mkWorld {
  w_prefix : string;              (* simulationParameters.sysfsRootPrefix *)
  w_fs : gmap string node;
  w_unwritable : gset string;     (* paths that cannot be opened for writing *)
  w_store : gmap string node -> string -> string -> string -> string;
                                  (* file tree, path, old content, text written *)
  w_msr : gmap Z (gmap Z Z);      (* virtual core -> register -> 64-bit value *)
  w_cpuid6_eax : Z;
  w_clock : option (Z * Z);       (* CLOCK_MONOTONIC: seconds, nanoseconds *)
  w_clktck : Z;                   (* sysconf(_SC_CLK_TCK) *)
  w_errno : string;               (* strerror(errno) *)
  w_procs : Procs
}.

Definition set_fs (f : gmap string node -> gmap string node) (w : World) : World :=
  mkWorld (w_prefix w) (f (w_fs w)) (w_unwritable w) (w_store w) (w_msr w) (w_cpuid6_eax w)
          (w_clock w) (w_clktck w) (w_errno w) (w_procs w).
Definition set_msr (f : gmap Z (gmap Z Z) -> gmap Z (gmap Z Z)) (w : World) : World :=
  mkWorld (w_prefix w) (w_fs w) (w_unwritable w) (w_store w) (f (w_msr w)) (w_cpuid6_eax w)
          (w_clock w) (w_clktck w) (w_errno w) (w_procs w).
Definition set_procs (f : Procs -> Procs) (w : World) : World :=
  mkWorld (w_prefix w) (w_fs w) (w_unwritable w) (w_store w) (w_msr w) (w_cpuid6_eax w)
          (w_clock w) (w_clktck w) (w_errno w) (f (w_procs w)).

(** ** Files *)

(** [utils::existsFile], src/utils.cpp:238-241. Opening a directory for reading succeeds too. *)
Definition existsFile (w : World) (fileName : string) : bool :=
  match w_fs w !! fileName with Some _ => true | None => false end.

(** [utils::existsDirectory], src/utils.cpp:232-235. *)
Definition existsDirectory (w : World) (dirName : string) : bool :=
  match w_fs w !! dirName with Some (Directory _) => true | _ => false end.

(** What an [ifstream] delivers; a directory opens and reads as nothing. *)
Definition file_content (n : node) : string :=
  match n with RegFile c => c | _ => EmptyString end.
Definition first_line (c : string) : string :=
  match getline newline c with Some (l, _) => l | None => EmptyString end.

(** [utils::readFirstLineFromFile], src/utils.cpp:292-302. *)
Definition readFirstLineFromFile (w : World) (fileName : string) : outcome string :=
  match w_fs w !! fileName with
  | Some n => Ret (first_line (file_content n))
  | None => Throw (runtime_error ("Impossible to open file " +:+ fileName))
  end.

(** [utils::readFile], src/utils.cpp:304-317. *)
Definition readFile (w : World) (fileName : string) : outcome (list string) :=
  match w_fs w !! fileName with
  | Some n => Ret (split (file_content n) newline)
  | None => Throw (runtime_error ("Impossible to open file " +:+ fileName))
  end.

(** Whether an [ofstream] on the path opens: an existing writable file, or a new file. *)
Definition can_write (w : World) (fileName : string) : bool :=
  if bool_decide (fileName ∈ w_unwritable w) then false
  else match w_fs w !! fileName with
       | Some (RegFile _) | None => true
       | Some (Directory _) => false
       | Some (MsrFile _) => true
       end.
(** The text handed to the file when the stream is flushed. *)
Definition put_file (fileName text : string) (w : World) : World :=
  match w_fs w !! fileName with
  | Some (RegFile old) => set_fs (<[fileName := RegFile (w_store w (w_fs w) fileName old text)]>) w
  | Some _ => w
  | None => set_fs (<[fileName := RegFile text]>) w
  end.

(** [utils::writeFile], src/utils.cpp:319-329. *)
Definition writeFileLines (fileName : string) (lines : list string) : M World unit :=
  let* ok := gets (fun w => can_write w fileName) in
  if negb ok then throw (runtime_error ("Impossible to open file: " +:+ fileName))
  else modify (put_file fileName
         (fold_right (fun l acc => l +:+ String newline acc) EmptyString lines)).

(** [utils::writeFile], src/utils.cpp:331-339. *)
Definition writeFile (fileName line : string) : M World unit :=
  let* ok := gets (fun w => can_write w fileName) in
  if negb ok then throw (runtime_error ("Impossible to open file: " +:+ fileName))
  else modify (put_file fileName (line +:+ String newline EmptyString)).

(** [utils::getFilesNamesInDir], src/utils.cpp:388-427. *)
Fixpoint scan_entries (entries : list (string * entry_kind)) (files directories : bool)
    (filesNames : list string) : outcome (list string) :=
  match entries with
  | [] => Ret filesNames
  | (d_name, kind) :: rest =>
      if bool_decide (d_name = "."%string) || bool_decide (d_name = ".."%string)
      then scan_entries rest files directories filesNames
      else match kind with
           | Vanished => scan_entries rest files directories filesNames
           | Failing => Throw (runtime_error "realpath failed.")
           | IsDir => scan_entries rest files directories
                        (if directories then filesNames ++ [d_name] else filesNames)
           | NotDir => scan_entries rest files directories
                        (if files then filesNames ++ [d_name] else filesNames)
           end
  end.

(** [utils::getFilesNamesInDir], src/utils.cpp:388-427. *)
Definition getFilesNamesInDir (w : World) (path : string) (files directories : bool) : outcome (list string) :=
  match w_fs w !! path with
  | Some (Directory entries) => scan_entries entries files directories []
  | _ => Throw (runtime_error ("getFilesList: " +:+ w_errno w))
  end.

(** ** The shell *)
Class Shell := {
  sh_system : string -> World -> Z * World;        (* wait status, the world afterwards *)
  sh_popen : string -> World -> option string      (* what the command prints *)
}.

Section shell.
Context {SH : Shell}.

(** [utils::executeCommand], src/utils.cpp:244-250. *)
Definition executeCommand (command : string) (waitResult : bool) : M World Z := fun w =>
  let '(status, w') := sh_system (command +:+ " > /dev/null 2>&1" +:+
                                  (if waitResult then "" else " &")) w in
  if status =? -1 then (Throw (runtime_error ("Impossible to execute command " +:+ command)), w')
  else (Ret (Z.land (Z.shiftr status 8) 255), w').

(** [getline(3)]: the lines of the output, each with its newline. *)
Fixpoint output_lines (fuel : nat) (s : string) : list string :=
  match fuel with
  | O => []
  | S f =>
      match s with
      | EmptyString => []
      | _ => match break_at newline s with
             | (l, Some rest) => (l +:+ String newline EmptyString) :: output_lines f rest
             | (l, None) => [l]
             end
      end
  end.

(** [utils::getCommandOutput], src/utils.cpp:257-273. *)
Definition getCommandOutput (w : World) (command : string) : outcome (list string) :=
  match sh_popen command w with
  | None => Throw (runtime_error ("Impossible to execute command " +:+ command))
  | Some out => Ret (output_lines (String.length out) out)
  end.
End shell.

(** ** Model specific registers *)

(** [Msr], include/mammut/utils.hpp:617-670. The descriptor: the core it is a view of and
    whether it was opened for writing; [None] is -1. *)
Record Msr := mkMsr { msr_fd : option (Z * bool) }.

(** [open(path, flags)] on the msr device: [None] is -1. *)
Definition open_msr (w : World) (path : string) (rdwr : bool) : option (Z * bool) :=
  if rdwr && bool_decide (path ∈ w_unwritable w) then None
  else match w_fs w !! path with Some (MsrFile core) => Some (core, rdwr) | _ => None end.

(** [Msr::Msr], src/utils.cpp:440-450. *)
Definition Msr_new (w : World) (id : Z) (rdwr : bool) : Msr :=
  let msrFileName := "/dev/cpu/" +:+ intToString id +:+ "/msr" in
  let msrSafeFileName := msrFileName +:+ "_safe" in
  let fd := if existsFile w msrSafeFileName then open_msr w msrSafeFileName rdwr else None in
  mkMsr (match fd with
         | None => if existsFile w msrFileName then open_msr w msrFileName rdwr else None
         | Some h => Some h
         end).

(** [Msr::available], src/utils.cpp:458-460. *)
Definition Msr_available (m : Msr) : bool := match msr_fd m with Some _ => true | None => false end.

(** [Msr::read], src/utils.cpp:462-469. [None] is [false], which leaves the value unchanged. *)
Definition Msr_read (w : World) (m : Msr) (which : Z) : option Z :=
  match msr_fd m with
  | Some (core, _) => regs ← w_msr w !! core; (regs : gmap Z Z) !! which
  | None => None
  end.

(** [Msr::write], src/utils.cpp:471-477. *)
Definition Msr_write (m : Msr) (which value : Z) : M World bool := fun w =>
  match msr_fd m with
  | Some (core, true) =>
      match w_msr w !! core with
      | Some regs =>
          match regs !! which with
          | Some _ => (Ret true, set_msr (<[core := <[which := u64 value]> regs]>) w)
          | None => (Ret false, w)
          end
      | None => (Ret false, w)
      end
  | _ => (Ret false, w)
  end.

(** [Msr::readBits], src/utils.cpp:479-502. The result is the value of the reference argument
    and the returned flag. [highBit - lowBit + 1] is unsigned and then an [int]; a negative or
    too large shift count is undefined. *)
Definition Msr_readBits (w : World) (m : Msr) (which highBit lowBit : Z) : outcome (bool * Z) :=
  match Msr_read w m which with
  | None => Ret (false, 0)
  | Some value =>
      let bits := i32 (u32 (highBit - lowBit + 1)) in
      if bits <? 64 then
        if (bits <? 0) || (64 <=? lowBit) then Undef "shift count out of range"
        else Ret (true, Z.land (Z.shiftr value lowBit) (u64 (Z.shiftl 1 bits - 1)))
      else Ret (true, value)
  end.

(** One iteration of the loop of [Msr::writeBits]: clear bit [i] of one of the two values. *)
Definition clear_bit (v i : Z) : Z := Z.land v (2 ^ 64 - 1 - Z.shiftl 1 i).
Definition writeBits_step (highBit lowBit : Z) (p : Z * Z) (i : Z) : Z * Z :=
  let '(oldValue, value) := p in
  if (lowBit <=? i) && (i <=? highBit) then (clear_bit oldValue i, value)
  else (oldValue, clear_bit value i).

(** [Msr::writeBits], src/utils.cpp:504-520. When the read fails [oldValue] is uninitialised. *)
Definition Msr_writeBits (m : Msr) (which highBit lowBit value : Z) : M World bool :=
  if 64 <=? lowBit then undef "shift count out of range"
  else
    let value := u64 (Z.shiftl value lowBit) in
    let* r := gets (fun w => Msr_read w m which) in
    match r with
    | None => undef "oldValue is uninitialised"
    | Some oldValue =>
        let '(oldValue, value) :=
          fold_left (writeBits_step highBit lowBit) (Z.of_nat <$> seq 0 64) (oldValue, value) in
        Msr_write m which (Z.lor oldValue value)
    end.

(** ** Time *)

(** [utils::getMillisecondsTime], src/utils.cpp:580-586. *)
Definition getMillisecondsTime (w : World) : outcome double :=
  match w_clock w with
  | None => Throw (runtime_error ("clock_gettime failed: " +:+ w_errno w))
  | Some (sec, nsec) =>
      Ret (dadd (dmul (d_of_Z sec) (d_of_Z 1000)) (ddiv (d_of_Z nsec) (d_of_Z 1000000)))
  end.

(** [utils::getClockTicksPerSecond], src/utils.cpp:436-438. *)
Definition getClockTicksPerSecond (w : World) : Z := u32 (w_clktck w).

(** ** Amester sensors *)

(** [AmesterSensor], include/mammut/utils.hpp:678-700. *)
Record AmesterSensor := mkAmesterSensor { sensor_name : string }.

(** [AmesterResult], include/mammut/utils.hpp:672-675. *)
Record AmesterResult := mkAmesterResult { ar_timestamp : Z; ar_value : double }.

Definition amester_path (w : World) (s : AmesterSensor) : string :=
  w_prefix w +:+ "/tmp/amester" +:+ "/" +:+ sensor_name s.

(** [AmesterSensor::readFields], src/utils.cpp:535-540. A file that does not open reads as an
    empty line. *)
Definition AmesterSensor_readFields (w : World) (s : AmesterSensor) : list string :=
  match w_fs w !! amester_path w s with
  | Some n => split (first_line (file_content n)) ","
  | None => split EmptyString ","
  end.

(** [AmesterSensor::exists], src/utils.cpp:542-545. *)
Definition AmesterSensor_exists (w : World) (s : AmesterSensor) : bool :=
  existsFile w (amester_path w s).

(** [AmesterSensor::readSum], src/utils.cpp:547-558. *)
Definition AmesterSensor_readSum (w : World) (s : AmesterSensor) : outcome AmesterResult :=
  let fields := AmesterSensor_readFields w s in
  let sum := fold_left (fun acc f => dadd acc (stringToDouble f)) (drop 1 fields) d_zero in
  f0 ← vec_index fields 0;
  Ret (mkAmesterResult (stringToUlong f0) sum).

(** [AmesterSensor::readAme], src/utils.cpp:561-570. [1 + ameId] is a 32-bit sum. *)
Definition AmesterSensor_readAme (w : World) (s : AmesterSensor) (ameId : Z) : outcome AmesterResult :=
  let fields := AmesterSensor_readFields w s in
  if Z.of_nat (length fields) <=? u32 (1 + ameId) then Throw (runtime_error "Nonexisting ameId.")
  else f0 ← vec_index fields 0;
       f1 ← vec_index fields (Z.to_nat (u32 (1 + ameId)));
       Ret (mkAmesterResult (stringToUlong f0) (stringToDouble f1)).

(** * Properties *)

(** ** Files *)

Lemma first_line_app (l rest : string) :
  str_in newline l = false -> first_line (l +:+ String newline rest) = l.
Proof.
  intros H. unfold first_line, getline. destruct l as [|c l]; [done|].
  change (String c l +:+ String newline rest) with (String c (l +:+ String newline rest)).
  change (String c (l +:+ String newline rest)) with (String c l +:+ String newline rest).
  by rewrite break_at_app.
Qed.

Lemma first_line_whole (l : string) : str_in newline l = false -> first_line l = l.
Proof.
  intros H. unfold first_line, getline. destruct l as [|c l]; [done|]. by rewrite break_at_none.
Qed.

Lemma first_line_print_nat n : 0 <= n -> first_line (print_nat n) = print_nat n.
Proof. intros. apply first_line_whole. unfold print_nat. by rewrite str_in_dec_digits. Qed.

Lemma put_file_lookup f g t w :
  f <> g -> w_fs (put_file f t w) !! g = w_fs w !! g.
Proof.
  intros H. unfold put_file.
  destruct (w_fs w !! f) as [[]|]; simpl; try done; by rewrite lookup_insert_ne.
Qed.

Lemma put_file_same f t w old :
  w_fs w !! f = Some (RegFile old) ->
  w_fs (put_file f t w) !! f = Some (RegFile (w_store w (w_fs w) f old t)).
Proof. intros H. unfold put_file. rewrite H. simpl. apply lookup_insert_eq. Qed.

(** A write touches nothing but the file. *)
Lemma put_file_frame f t w :
  w_msr (put_file f t w) = w_msr w /\ w_store (put_file f t w) = w_store w /\
  w_unwritable (put_file f t w) = w_unwritable w /\ w_prefix (put_file f t w) = w_prefix w.
Proof. unfold put_file. by destruct (w_fs w !! f) as [[]|]. Qed.

(** The write of a line, on both branches. *)
Lemma writeFile_spec f l w :
  writeFile f l w =
  if can_write w f then (Ret tt, put_file f (l +:+ String newline EmptyString) w)
  else (Throw (runtime_error ("Impossible to open file: " +:+ f)), w).
Proof. unfold writeFile. mrun. by destruct (can_write w f). Qed.

Lemma can_write_put f g t w : can_write (put_file f t w) g = can_write w g.
Proof.
  unfold can_write, put_file. destruct (w_fs w !! f) as [[]|] eqn:E; simpl; try done.
  all: destruct (decide (f = g)) as [->|]; [rewrite lookup_insert_eq, E|rewrite lookup_insert_ne]; done.
Qed.

Lemma writeFile_readFirstLine f l w old :
  can_write w f = true -> w_fs w !! f = Some (RegFile old) ->
  first_line (w_store w (w_fs w) f old (l +:+ String newline EmptyString)) = l ->
  exists w', writeFile f l w = (Ret tt, w') /\ readFirstLineFromFile w' f = Ret l /\
    (forall g, g <> f -> w_fs w' !! g = w_fs w !! g).
Proof.
  intros Hc Hf Hs. rewrite writeFile_spec, Hc. eexists; split; [done|]. split.
  - unfold readFirstLineFromFile. by rewrite (put_file_same _ _ _ _ Hf); simpl; rewrite Hs.
  - intros g Hg. by apply put_file_lookup.
Qed.

(** ** Bits of a model specific register *)

Lemma testbit_ones_range n i : 0 <= n -> 0 <= i -> Z.testbit (Z.shiftl 1 n - 1) i = (i <? n).
Proof.
  intros Hn Hi. rewrite Z.shiftl_1_l, Z.sub_1_r, <- Z.ones_equiv.
  destruct (Z.ltb_spec i n).
  - by apply Z.ones_spec_low.
  - apply Z.ones_spec_high; lia.
Qed.

Lemma is_u64_testbit v : is_u64 v <-> (0 <= v /\ forall i, 64 <= i -> Z.testbit v i = false).
Proof.
  unfold is_u64. split.
  - intros H. split; [lia|]. intros i Hi.
    destruct (Z.eq_dec v 0) as [->|]; [by apply Z.testbit_0_l|].
    apply Z.bits_above_log2; [lia|]. apply Z.log2_lt_pow2; [lia|].
    eapply Z.lt_le_trans; [apply H|]. by apply Z.pow_le_mono_r.
  - intros [H0 H]. split; [done|].
    destruct (Z.eq_dec v 0) as [->|]; [done|].
    apply Z.log2_lt_pow2; [lia|].
    destruct (Z.lt_ge_cases (Z.log2 v) 64) as [|Hge]; [done|].
    specialize (H _ Hge). rewrite Z.bit_log2 in H by lia. done.
Qed.

Lemma clear_bit_spec v j i :
  0 <= j < 64 -> 0 <= i < 64 ->
  Z.testbit (clear_bit v j) i = Z.testbit v i && negb (i =? j).
Proof.
  intros Hj Hi. unfold clear_bit. rewrite Z.land_spec. f_equal.
  replace (2 ^ 64 - 1 - Z.shiftl 1 j) with (Z.ldiff (Z.ones 64) (Z.shiftl 1 j)).
  - rewrite Z.ldiff_spec, Z.ones_spec_low by lia. simpl.
    rewrite Z.shiftl_1_l, Z.pow2_bits_eqb by lia. by rewrite Z.eqb_sym.
  - rewrite <- Z.sub_nocarry_ldiff; [by rewrite Z.ones_equiv|].
    apply Z.bits_inj'. intros n Hn. rewrite Z.ldiff_spec, Z.bits_0, Z.shiftl_1_l, Z.pow2_bits_eqb by lia.
    destruct (Z.eqb_spec j n); [|done]. subst. by rewrite Z.ones_spec_low by lia.
Qed.

Lemma clear_bit_u64 v j : 0 <= j < 64 -> is_u64 v -> is_u64 (clear_bit v j).
Proof.
  intros Hj [H1 H2]. unfold clear_bit. split; [apply Z.land_nonneg; lia|].
  destruct (Z.eq_dec (Z.land v (2 ^ 64 - 1 - Z.shiftl 1 j)) 0) as [->|]; [done|].
  apply is_u64_testbit. split; [apply Z.land_nonneg; lia|].
  intros i Hi. rewrite Z.land_spec.
  apply andb_false_intro1. by apply is_u64_testbit.
Qed.

(** The loop of [writeBits], bit by bit: it clears bits [lowBit..highBit] of the old value and
    all the others of the new one. *)
Lemma writeBits_loop hi lo l old v :
  Forall (fun j => 0 <= j < 64) l -> is_u64 old -> is_u64 v ->
  let r := fold_left (writeBits_step hi lo) l (old, v) in
  is_u64 (fst r) /\ is_u64 (snd r) /\
  forall i, 0 <= i < 64 ->
    Z.testbit (fst r) i = Z.testbit old i && negb (bool_decide (i ∈ l) && ((lo <=? i) && (i <=? hi))) /\
    Z.testbit (snd r) i = Z.testbit v i && negb (bool_decide (i ∈ l) && negb ((lo <=? i) && (i <=? hi))).
Proof.
  revert old v. induction l as [|j l IH]; intros old v Hl Ho Hv; simpl.
  { split; [done|]. split; [done|]. intros i Hi.
    by rewrite !andb_true_r. }
  apply Forall_cons in Hl as [Hj Hl].
  destruct ((lo <=? j) && (j <=? hi)) eqn:E.
  1: destruct (IH (clear_bit old j) v) as (I1 & I2 & I3); [by eauto using clear_bit_u64..|].
  2: destruct (IH old (clear_bit v j)) as (I1 & I2 & I3); [by eauto using clear_bit_u64..|].
  all: split; [done|]; split; [done|]; intros i Hi; destruct (I3 i Hi) as [-> ->].
  all: rewrite ?clear_bit_spec by lia.
  all: destruct (bool_decide_reflect (i ∈ l)), (bool_decide_reflect (i ∈ j :: l)) as [Hc|Hc],
         (Z.eqb_spec i j) as [->|Hne]; rewrite elem_of_cons in Hc; try (by exfalso; tauto).
  all: rewrite ?E; simpl; rewrite ?andb_true_r, ?andb_false_r, ?orb_true_r; done.
Qed.

Lemma bits64 : Forall (fun j => 0 <= j < 64) (Z.of_nat <$> seq 0 64).
Proof. by apply Forall_forall; intros j (i & -> & [? ?]%elem_of_seq)%list_elem_of_fmap; lia. Qed.

Lemma elem_of_bits64 i : 0 <= i < 64 -> i ∈ (Z.of_nat <$> seq 0 64).
Proof.
  intros H. apply list_elem_of_fmap. exists (Z.to_nat i). split; [lia|].
  apply elem_of_seq. lia.
Qed.

Section msr.
Variables (m : Msr) (core which : Z).

(** The register is on the device the descriptor is a view of. *)
Definition msr_holds (w : World) (rdwr : bool) (v : Z) : Prop :=
  msr_fd m = Some (core, rdwr) /\
  exists regs, w_msr w !! core = Some regs /\ regs !! which = Some v.

Lemma Msr_read_holds w b v : msr_holds w b v -> Msr_read w m which = Some v.
Proof. intros (Hm & regs & H1 & H2). unfold Msr_read. rewrite Hm. simpl. rewrite H1. done. Qed.

Lemma msr_holds_lookup w b v :
  msr_holds w b v <-> msr_fd m = Some (core, b) /\
    (regs ← w_msr w !! core; (regs : gmap Z Z) !! which) = Some v.
Proof.
  unfold msr_holds. split.
  - intros (Hm & regs & H1 & H2). split; [done|]. by rewrite H1.
  - intros [Hm (regs & H1 & H2)%bind_Some]. eauto.
Qed.

Lemma bits_count hi lo : 0 <= lo <= hi -> hi < 64 -> i32 (u32 (hi - lo + 1)) = hi - lo + 1.
Proof. intros. rewrite u32_id by (unfold is_u32; lia). apply i32_id. unfold is_i32; lia. Qed.

Lemma Msr_readBits_holds w b v hi lo :
  msr_holds w b v -> is_u64 v -> 0 <= lo <= hi -> hi < 64 ->
  Msr_readBits w m which hi lo = Ret (true, (v / 2 ^ lo) mod 2 ^ (hi - lo + 1)).
Proof.
  intros Hv Hu Hlo Hhi. unfold Msr_readBits. rewrite (Msr_read_holds _ _ _ Hv), bits_count by lia.
  destruct (Z.ltb_spec (hi - lo + 1) 64).
  - replace (hi - lo + 1 <? 0) with false by lia. replace (64 <=? lo) with false by lia. simpl.
    do 2 f_equal. rewrite Z.shiftr_div_pow2, Z.shiftl_1_l by lia.
    rewrite u64_id.
    + rewrite Z.sub_1_r, <- Z.ones_equiv. apply Z.land_ones. lia.
    + unfold is_u64. pose proof (Z.pow_pos_nonneg 2 (hi - lo + 1) ltac:(lia) ltac:(lia)).
      pose proof (Z.pow_lt_mono_r 2 (hi - lo + 1) 64 ltac:(lia) ltac:(lia) ltac:(lia)). lia.
  - assert (lo = 0 /\ hi = 63) as [-> ->] by lia.
    rewrite Z.div_1_r. do 2 f_equal. symmetry. by apply Z.mod_small.
Qed.

(** The value [writeBits] leaves, and that it leaves every other register alone. *)
Definition msr_blend (hi lo old v : Z) : Z :=
  Z.lor (Z.ldiff old (Z.shiftl (Z.ones (hi - lo + 1)) lo))
        (Z.land (Z.shiftl v lo) (Z.shiftl (Z.ones (hi - lo + 1)) lo)).

Lemma field_mask_bit hi lo i : 0 <= lo <= hi -> 0 <= i ->
  Z.testbit (Z.shiftl (Z.ones (hi - lo + 1)) lo) i = (lo <=? i) && (i <=? hi).
Proof.
  intros H Hi. rewrite Z.shiftl_spec by lia.
  destruct (Z.leb_spec lo i); simpl; [|apply Z.testbit_neg_r; lia].
  destruct (Z.leb_spec i hi).
  - apply Z.ones_spec_low. lia.
  - apply Z.ones_spec_high. lia.
Qed.

Lemma writeBits_value hi lo old v :
  0 <= lo <= hi -> hi < 64 -> is_u64 old -> 0 <= v ->
  (let '(o, n) := fold_left (writeBits_step hi lo) (Z.of_nat <$> seq 0 64)
                    (old, u64 (Z.shiftl v lo)) in Z.lor o n) = msr_blend hi lo old v
  /\ is_u64 (msr_blend hi lo old v).
Proof.
  intros Hlo Hhi Ho Hv.
  pose proof (writeBits_loop hi lo _ old (u64 (Z.shiftl v lo)) bits64 Ho (u64_range _)) as H.
  destruct (fold_left _ _ _) as [o n]; simpl in H. destruct H as (Uo & Un & Hb).
  apply is_u64_testbit in Uo as [Po To]. apply is_u64_testbit in Un as [Pn Tn].
  apply is_u64_testbit in Ho as [Pold Told].
  assert (Z.lor o n = msr_blend hi lo old v) as E.
  { apply Z.bits_inj'. intros i Hi. unfold msr_blend.
    rewrite !Z.lor_spec, Z.land_spec, Z.ldiff_spec, field_mask_bit by lia.
    destruct (Z.lt_ge_cases i 64).
    - destruct (Hb i) as [-> ->]; [lia|].
      rewrite bool_decide_eq_true_2 by (apply elem_of_bits64; lia). simpl.
      unfold u64. rewrite Z.mod_pow2_bits_low by lia.
      by destruct ((lo <=? i) && (i <=? hi)).
    - rewrite To, Tn, Told by lia. replace (i <=? hi) with false by lia.
      by rewrite andb_false_r, andb_false_r. }
  split; [done|]. rewrite <- E. apply is_u64_testbit. split; [by apply Z.lor_nonneg|].
  intros i Hi. by rewrite Z.lor_spec, To, Tn.
Qed.

Lemma Msr_writeBits_holds w old v hi lo :
  msr_holds w true old -> is_u64 old -> 0 <= v -> 0 <= lo <= hi -> hi < 64 ->
  exists w', Msr_writeBits m which hi lo v w = (Ret true, w') /\
    msr_holds w' true (msr_blend hi lo old v) /\ (exists f, w' = set_msr f w) /\
    (forall c r, (c, r) <> (core, which) ->
       (regs ← w_msr w' !! c; (regs : gmap Z Z) !! r) = (regs ← w_msr w !! c; (regs : gmap Z Z) !! r)).
Proof.
  intros Hh Ho Hv Hlo Hhi. unfold Msr_writeBits. replace (64 <=? lo) with false by lia. mrun.
  rewrite (Msr_read_holds _ _ _ Hh).
  pose proof (writeBits_value hi lo old v Hlo Hhi Ho Hv) as [E HU].
  destruct (fold_left _ _ _) as [o n]. rewrite E.
  destruct Hh as (Hm & regs & H1 & H2). unfold Msr_write. rewrite Hm, H1, H2.
  rewrite u64_id by done. eexists; split; [done|]. split; [|split; [by eexists|]].
  - split; [done|]. exists (<[which := msr_blend hi lo old v]> regs). simpl.
    by rewrite !lookup_insert_eq.
  - intros c r Hne. simpl. destruct (decide (c = core)) as [->|].
    + rewrite lookup_insert_eq, H1. simpl. rewrite lookup_insert_ne; [done|]. congruence.
    + by rewrite lookup_insert_ne.
Qed.

Lemma msr_blend_field hi lo old v :
  0 <= lo <= hi -> (msr_blend hi lo old v / 2 ^ lo) mod 2 ^ (hi - lo + 1) = v mod 2 ^ (hi - lo + 1).
Proof.
  intros H. apply Z.bits_inj'. intros i Hi.
  destruct (Z.lt_ge_cases i (hi - lo + 1)).
  - rewrite !Z.mod_pow2_bits_low by lia. rewrite <- Z.shiftr_div_pow2, Z.shiftr_spec by lia.
    unfold msr_blend. rewrite Z.lor_spec, Z.land_spec, Z.ldiff_spec, field_mask_bit by lia.
    replace (lo <=? i + lo) with true by lia. replace (i + lo <=? hi) with true by lia. simpl.
    rewrite andb_false_r, andb_true_r, Z.shiftl_spec by lia. simpl. f_equal. lia.
  - rewrite !Z.mod_pow2_bits_high by lia. done.
Qed.

(** Bits outside the field keep their value. *)
Lemma msr_blend_other hi lo old v i :
  0 <= lo <= hi -> 0 <= i -> i < lo \/ hi < i ->
  Z.testbit (msr_blend hi lo old v) i = Z.testbit old i.
Proof.
  intros H Hi Ho. unfold msr_blend. rewrite Z.lor_spec, Z.land_spec, Z.ldiff_spec, field_mask_bit by lia.
  replace ((lo <=? i) && (i <=? hi)) with false by lia. simpl.
  by rewrite andb_true_r, andb_false_r, orb_false_r.
Qed.
End msr.

(** C36: writing a field of a model specific register and reading it back gives the bits
    written; the other bits of the register, the other registers and the other cores keep
    their value. *)
Theorem Msr_writeBits_readBits m core which w old v hi lo :
  msr_holds m core which w true old -> is_u64 old -> 0 <= v -> 0 <= lo <= hi -> hi < 64 ->
  exists w', Msr_writeBits m which hi lo v w = (Ret true, w') /\
    Msr_readBits w' m which hi lo = Ret (true, v mod 2 ^ (hi - lo + 1)) /\
    (exists new, Msr_read w' m which = Some new /\
       forall i, 0 <= i -> i < lo \/ hi < i -> Z.testbit new i = Z.testbit old i) /\
    (forall c r, (c, r) <> (core, which) ->
       (regs ← w_msr w' !! c; (regs : gmap Z Z) !! r) = (regs ← w_msr w !! c; (regs : gmap Z Z) !! r)).
Proof.
  intros Hh Ho Hv Hlo Hhi.
  destruct (Msr_writeBits_holds m core which w old v hi lo) as (w' & E & Hh' & _ & Hf); [done..|].
  exists w'. split; [done|]. split; [|split; [|done]].
  - rewrite (Msr_readBits_holds _ _ _ _ _ _ _ _ Hh'); [|by apply writeBits_value|done|done].
    by rewrite msr_blend_field.
  - exists (msr_blend hi lo old v). split; [by eapply Msr_read_holds|].
    intros i Hi Hout. by apply msr_blend_other.
Qed.

(** A machine with one core and one register, for the witnesses. *)
Definition sample_world : World :=
  mkWorld "" {[ "/dev/cpu/0/msr"%string := MsrFile 0 ]} ∅ (fun _ _ _ new => new)
          {[ 0 := {[ 410 := 255 ]} ]} 0 None 100 "" (mkProcs ∅ ∅ ∅ [] (1, 1)).

Lemma Msr_writeBits_readBits_witness :
  exists w', Msr_writeBits (Msr_new sample_world 0 true) 410 4 1 5 sample_world = (Ret true, w') /\
    Msr_readBits w' (Msr_new sample_world 0 true) 410 4 1 = Ret (true, 5 mod 2 ^ (4 - 1 + 1)).
Proof.
  destruct (Msr_writeBits_readBits (Msr_new sample_world 0 true) 0 410 sample_world 255 5 4 1)
    as (w' & H1 & H2 & _).
  - split; [vm_compute; reflexivity|]. exists {[ 410 := 255 ]}. split; vm_compute; reflexivity.
  - split; vm_compute; congruence.
  - lia.
  - lia.
  - lia.
  - exists w'. exact (conj H1 H2).
Defined.
