(* ===== verification/UtilsSync.v ===== *)
(** * Locks, monitors and threads (src/utils.cpp)

    The threads of the program share a [Monitor] object and interleave at the granularity of
    the pthread calls and of the accesses to [_predicate]; [mon_step] is the step relation,
    one rule per source statement.  [amon_step] is the abstract monitor, a flag that a
    notification raises and a successful wait lowers atomically; [mon_effect] is what a step does
    for those who use the monitor, by which every run of the one is a run of the other.
    [thread_step] is [Thread::start] racing against [Thread::threadDispatcher], over the
    abstract monitor. *)
From S2P Require Import Prelude UtilsText.
From Stdlib Require Import Relations.Relation_Operators.

(** ** Mutexes *)

(** [LockPthreadMutex::lock], src/utils.cpp:43-47: the result of [pthread_mutex_lock]. *)
Definition LockPthreadMutex_lock (rc : Z) : outcome unit :=
  if negb (rc =? 0) then Throw (runtime_error "Error while locking.") else Ret tt.

(** [LockPthreadMutex::unlock], src/utils.cpp:49-53. *)
Definition LockPthreadMutex_unlock (rc : Z) : outcome unit :=
  if negb (rc =? 0) then Throw (runtime_error "Error while unlocking.") else Ret tt.

(** ** Deadlines *)
Definition MAMMUT_MILLISECS_IN_SEC : Z := 1000.
Definition MAMMUT_NANOSECS_IN_MSEC : Z := 1000000.
Definition MAMMUT_NANOSECS_IN_SEC : Z := 1000000000.

(** [Monitor::timedWait], src/utils.cpp:167-176: the absolute deadline, seconds and
    nanoseconds. The division and the remainder truncate towards zero. *)
Definition timedWait_deadline (tv_sec tv_usec milliSeconds : Z) : Z * Z :=
  let sec := tv_sec + Z.quot milliSeconds MAMMUT_MILLISECS_IN_SEC in
  let nsec := tv_usec * 1000 + Z.rem milliSeconds MAMMUT_MILLISECS_IN_SEC * MAMMUT_NANOSECS_IN_MSEC in
  if MAMMUT_NANOSECS_IN_SEC <=? nsec then (sec + 1, nsec - MAMMUT_NANOSECS_IN_SEC)
  else (sec, nsec).

(** ** Monitors *)
Definition ETIMEDOUT : Z := 110.

(** Where a thread is inside a method of the monitor; [timed] tells [timedWait] from [wait],
    [rc] is the local variable of that name. *)
Inductive mon_pc :=
  | Outside
  | PredLock | PredRead | PredUnlock (r : bool)
  | WaitLock (timed : bool)
  | WaitTest (timed : bool) (rc : Z)
  | WaitBlocked (timed : bool)
  | WaitRelock (timed : bool) (rc : Z)
  | WaitClear (timed : bool) (rc : Z)
  | WaitUnlock (timed : bool) (rc : Z)
  | NotifyLock (all : bool) | NotifySet (all : bool) | NotifySignal (all : bool) | NotifyUnlock.
#[export] Instance mon_pc_eq_dec : EqDecision mon_pc.
Proof. solve_decision. Defined.

(** [Monitor], include/mammut/utils.hpp:168-180. [mon_notified] and [mon_delivered] count the
    notifications and the waits that were not timed out; the code does not store them. *)
Record Monitor := mkMonitor {
  mon_owner : option nat;          (* _mutex *)
  mon_predicate : bool;            (* _predicate *)
  mon_pcs : gmap nat mon_pc;
  mon_notified : nat;
  mon_delivered : nat
}.

(** [Monitor::Monitor], src/utils.cpp:135-142. *)
Definition Monitor_new (rc : Z) (threads : gset nat) : outcome Monitor :=
  if negb (rc =? 0) then
    Throw (runtime_error ("Monitor: couldn't initialize condition. Error code: " +:+ intToString rc))
  else Ret (mkMonitor None false (gset_to_gmap Outside threads) 0 0).

Definition with_pc (t : nat) (p : mon_pc) (m : Monitor) : Monitor :=
  mkMonitor (mon_owner m) (mon_predicate m) (<[t := p]> (mon_pcs m)) (mon_notified m) (mon_delivered m).
Definition with_owner (o : option nat) (m : Monitor) : Monitor :=
  mkMonitor o (mon_predicate m) (mon_pcs m) (mon_notified m) (mon_delivered m).

(** The effect of [_predicate = true] and of [_predicate = false]. *)
Definition raise (m : Monitor) : Monitor :=
  mkMonitor (mon_owner m) true (mon_pcs m) (S (mon_notified m)) (mon_delivered m).
Definition clear (rc : Z) (m : Monitor) : Monitor :=
  mkMonitor (mon_owner m) false (mon_pcs m) (mon_notified m)
            (if rc =? ETIMEDOUT then mon_delivered m else S (mon_delivered m)).

(** [Monitor::wait], [Monitor::timedWait], src/utils.cpp:156-179: the guards of the two loops. *)
Definition keeps_waiting (timed : bool) (rc : Z) (m : Monitor) : bool :=
  negb (mon_predicate m) && (if timed then negb (rc =? ETIMEDOUT) else true).

(** [pthread_cond_broadcast] on the condition. *)
Definition wake (p : mon_pc) : mon_pc :=
  match p with WaitBlocked timed => WaitRelock timed 0 | _ => p end.
Definition wake_all (m : Monitor) : Monitor :=
  mkMonitor (mon_owner m) (mon_predicate m) (wake <$> mon_pcs m) (mon_notified m) (mon_delivered m).

(** The pc of a method from which taking the mutex leads to the next one. *)
Definition after_lock (p : mon_pc) : option mon_pc :=
  match p with
  | PredLock => Some PredRead
  | WaitLock timed => Some (WaitTest timed 0)
  | WaitRelock timed rc => Some (WaitTest timed rc)
  | NotifyLock all => Some (NotifySet all)
  | _ => None
  end.
Definition before_unlock (p : mon_pc) : bool :=
  match p with PredUnlock _ | WaitUnlock _ _ | NotifyUnlock => true | _ => false end.
Definition begins (p : mon_pc) : bool :=
  match p with PredLock | WaitLock _ | NotifyLock _ => true | _ => false end.

(** [Monitor::predicate], [wait], [timedWait], [notifyOne], [notifyAll],
    src/utils.cpp:144-205: one rule per statement of the five bodies. A blocked thread may
    wake with any result code; a signal wakes at least one blocked thread if there is one. *)
Inductive mon_step : Monitor -> Monitor -> Prop :=
  | step_call t p m :
      mon_pcs m !! t = Some Outside -> begins p = true -> mon_step m (with_pc t p m)
  | step_lock t p p' m :
      mon_pcs m !! t = Some p -> after_lock p = Some p' -> mon_owner m = None ->
      mon_step m (with_owner (Some t) (with_pc t p' m))
  | step_read t m :
      mon_pcs m !! t = Some PredRead ->
      mon_step m (with_pc t (PredUnlock (mon_predicate m)) m)
  | step_block t timed rc m :
      mon_pcs m !! t = Some (WaitTest timed rc) -> keeps_waiting timed rc m = true ->
      mon_step m (with_owner None (with_pc t (WaitBlocked timed) m))
  | step_exit_loop t timed rc m :
      mon_pcs m !! t = Some (WaitTest timed rc) -> keeps_waiting timed rc m = false ->
      mon_step m (with_pc t (WaitClear timed rc) m)
  | step_wakeup t timed rc m :
      mon_pcs m !! t = Some (WaitBlocked timed) -> (timed = false -> rc <> ETIMEDOUT) ->
      mon_step m (with_pc t (WaitRelock timed rc) m)
  | step_clear t timed rc m :
      mon_pcs m !! t = Some (WaitClear timed rc) ->
      mon_step m (clear rc (with_pc t (WaitUnlock timed rc) m))
  | step_raise t all m :
      mon_pcs m !! t = Some (NotifySet all) ->
      mon_step m (raise (with_pc t (NotifySignal all) m))
  | step_broadcast t m :
      mon_pcs m !! t = Some (NotifySignal true) ->
      mon_step m (with_pc t NotifyUnlock (wake_all m))
  | step_signal t t' timed m :
      mon_pcs m !! t = Some (NotifySignal false) -> mon_pcs m !! t' = Some (WaitBlocked timed) ->
      mon_step m (with_pc t NotifyUnlock (with_pc t' (WaitRelock timed 0) m))
  | step_signal_none t m :
      mon_pcs m !! t = Some (NotifySignal false) ->
      (forall t' timed, mon_pcs m !! t' <> Some (WaitBlocked timed)) ->
      mon_step m (with_pc t NotifyUnlock m)
  | step_unlock t p m :
      mon_pcs m !! t = Some p -> before_unlock p = true ->
      mon_step m (with_owner None (with_pc t Outside m)).

(** [Monitor::wait] and [Monitor::timedWait], src/utils.cpp:161-190: what the method returns
    once the mutex is released. *)
Definition wait_result (timed : bool) (rc : Z) : outcome bool :=
  if timed then
    if rc =? 0 then Ret true
    else if rc =? ETIMEDOUT then Ret false
    else Throw (runtime_error ("Error: " +:+ intToString rc +:+ " in pthread_cond_timedwait."))
  else if negb (rc =? 0) then
    Throw (runtime_error ("Monitor: error in pthread_cond_wait. Error code: " +:+ intToString rc))
  else Ret true.

Definition mon_reachable : Monitor -> Monitor -> Prop := clos_refl_trans_n1 _ mon_step.

(** ** The abstract monitor *)
Inductive amon_label := ANotify | AWait | ATimeout.
Inductive amon_step : bool -> amon_label -> bool -> Prop :=
  | astep_notify b : amon_step b ANotify true
  | astep_wait : amon_step true AWait false
  | astep_timeout b : amon_step b ATimeout false.
#[export] Instance amon_label_eq_dec : EqDecision amon_label.
Proof. solve_decision. Defined.
Inductive amon_run : bool -> list amon_label -> bool -> Prop :=
  | arun_nil b : amon_run b [] b
  | arun_snoc b1 ls b2 l b3 : amon_run b1 ls b2 -> amon_step b2 l b3 -> amon_run b1 (ls ++ [l]) b3.

(** What a step of the monitor does for those who use it: a thread that is in a notification has
    raised the flag; a thread that is in a wait is about to return, and lowers the flag, what it
    will return saying whether it timed out; no thread has left one of these two places. *)
Definition writes_flag (p : mon_pc) : bool :=
  match p with NotifySet _ | WaitClear _ _ => true | _ => false end.
Inductive mon_effect (m m' : Monitor) : option (nat * amon_label) -> Prop :=
  | effect_notify t all :
      mon_pcs m !! t = Some (NotifySet all) -> mon_pcs m' !! t = Some (NotifySignal all) ->
      mon_effect m m' (Some (t, ANotify))
  | effect_wait t timed rc :
      mon_pcs m !! t = Some (WaitClear timed rc) -> mon_pcs m' !! t = Some (WaitUnlock timed rc) ->
      wait_result timed rc <> Ret false -> mon_effect m m' (Some (t, AWait))
  | effect_timeout t timed rc :
      mon_pcs m !! t = Some (WaitClear timed rc) -> mon_pcs m' !! t = Some (WaitUnlock timed rc) ->
      wait_result timed rc = Ret false -> mon_effect m m' (Some (t, ATimeout))
  | effect_none :
      (forall t p, mon_pcs m !! t = Some p -> writes_flag p = true -> mon_pcs m' !! t = Some p) ->
      mon_effect m m' None.
(** A run, with what its steps did and for which thread. *)
Inductive mon_run (m0 : Monitor) : list (nat * amon_label) -> Monitor -> Prop :=
  | run_nil : mon_run m0 [] m0
  | run_snoc ls m m' o : mon_run m0 ls m -> mon_step m m' -> mon_effect m m' o ->
      mon_run m0 (ls ++ option_list o) m'.
Definition count_label (l : amon_label) (ls : list amon_label) : nat := length (filter (l =.) ls).

(** ** Threads *)

(** [Thread], include/mammut/utils.hpp:183-228. [None] is an uninitialised field. *)
Record Thread := mkThread {
  th_running : bool;               (* _running *)
  th_pidSet : bool;                (* _pidSet, the flag of its abstract monitor *)
  th_pid : option Z;               (* _pid *)
  th_tid : option Z                (* _tid *)
}.

(** [Thread::Thread], src/utils.cpp:83-85. *)
Definition Thread_new : Thread := mkThread false false None None.

(** [Thread::running], src/utils.cpp:121-123. *)
Definition Thread_is_running (t : Thread) : bool := th_running t.

(** [Thread::getPidAndTid], src/utils.cpp:117-119. *)
Definition Thread_getPidAndTid (t : Thread) : outcome (Z * Z) :=
  match th_pid t, th_tid t with
  | Some p, Some i => Ret (p, i)
  | _, _ => Undef "_pid and _tid are uninitialised"
  end.

(** [Thread::join], src/utils.cpp:125-133: [rc] is the result of [pthread_join]. *)
Definition Thread_join (rc : Z) : M Thread unit :=
  if negb (rc =? 0) then
    throw (runtime_error ("Thread: join failed. Error code: " +:+ intToString rc))
  else modify (fun t => mkThread (th_running t) (th_pidSet t) (Some 0) (Some 0)).

(** Where the caller of [start] and the new thread are. *)
Inductive starter_pc := StartTest | StartWait | StartReturned | StartThrew (e : exn).
Inductive child_pc :=
  | NotCreated | SetPid | SetTid | Notify | SetRunning | InRun | ClearRunning | Finished.

Record ThreadSys := mkThreadSys { ts_thread : Thread; ts_starter : starter_pc; ts_child : child_pc }.

Section thread.
(** [getpid] and [gettid] in the new thread, and the result of [pthread_create]. *)
Variables (pid tid create_rc : Z).

(** [Thread::start] and [Thread::threadDispatcher], src/utils.cpp:91-115. [step_run] is the
    return of the virtual method [run]. *)
Inductive thread_step : ThreadSys -> ThreadSys -> Prop :=
  | step_start_running th c :
      th_running th = true ->
      thread_step (mkThreadSys th StartTest c)
        (mkThreadSys th (StartThrew (runtime_error
           "Thread: Multiple start. It must be joined before starting it again.")) c)
  | step_create_failed th c :
      th_running th = false -> create_rc <> 0 ->
      thread_step (mkThreadSys th StartTest c)
        (mkThreadSys th (StartThrew (runtime_error
           ("Thread: pthread_create failed. Error code: " +:+ intToString create_rc))) c)
  | step_create th :
      th_running th = false -> create_rc = 0 ->
      thread_step (mkThreadSys th StartTest NotCreated) (mkThreadSys th StartWait SetPid)
  | step_set_pid th s :
      thread_step (mkThreadSys th s SetPid)
        (mkThreadSys (mkThread (th_running th) (th_pidSet th) (Some pid) (th_tid th)) s SetTid)
  | step_set_tid th s :
      thread_step (mkThreadSys th s SetTid)
        (mkThreadSys (mkThread (th_running th) (th_pidSet th) (th_pid th) (Some tid)) s Notify)
  | step_notify th s b :
      amon_step (th_pidSet th) ANotify b ->
      thread_step (mkThreadSys th s Notify)
        (mkThreadSys (mkThread (th_running th) b (th_pid th) (th_tid th)) s SetRunning)
  | step_wait_return th c b :
      amon_step (th_pidSet th) AWait b ->
      thread_step (mkThreadSys th StartWait c)
        (mkThreadSys (mkThread (th_running th) b (th_pid th) (th_tid th)) StartReturned c)
  | step_set_running th s :
      thread_step (mkThreadSys th s SetRunning)
        (mkThreadSys (mkThread true (th_pidSet th) (th_pid th) (th_tid th)) s InRun)
  | step_run th s : thread_step (mkThreadSys th s InRun) (mkThreadSys th s ClearRunning)
  | step_clear_running th s :
      thread_step (mkThreadSys th s ClearRunning)
        (mkThreadSys (mkThread false (th_pidSet th) (th_pid th) (th_tid th)) s Finished).

Definition thread_reachable : ThreadSys -> ThreadSys -> Prop := clos_refl_trans_n1 _ thread_step.
End thread.

(** * Properties *)

(** ** The invariant of the monitor *)

(** The pcs of a thread that holds the mutex. *)
Definition holds_lock (p : mon_pc) : bool :=
  match p with
  | PredRead | PredUnlock _ | WaitTest _ _ | WaitClear _ _ | WaitUnlock _ _
  | NotifySet _ | NotifySignal _ | NotifyUnlock => true
  | _ => false
  end.
(** The pcs of a thread that will look at the predicate, or wake a thread that will. *)
Definition will_look (p : mon_pc) : bool :=
  match p with NotifySignal _ | WaitRelock _ _ | WaitTest _ _ | WaitClear _ _ => true | _ => false end.

Record mon_inv (m : Monitor) : Prop := {
  inv_mutex : forall t p, mon_pcs m !! t = Some p -> holds_lock p = bool_decide (mon_owner m = Some t);
  inv_clear : forall t timed rc, mon_pcs m !! t = Some (WaitClear timed rc) ->
    mon_predicate m = true \/ (timed = true /\ rc = ETIMEDOUT);
  inv_count : (mon_delivered m + (if mon_predicate m then 1 else 0) <= mon_notified m)%nat;
  inv_wakeup : forall t timed, mon_predicate m = true -> mon_pcs m !! t = Some (WaitBlocked timed) ->
    exists t' p, mon_pcs m !! t' = Some p /\ will_look p = true
}.

Lemma lookup_with_pc t p m t' :
  mon_pcs (with_pc t p m) !! t' = if decide (t = t') then Some p else mon_pcs m !! t'.
Proof.
  simpl. destruct (decide (t = t')) as [->|]; [apply lookup_insert_eq|by apply lookup_insert_ne].
Qed.

Lemma after_lock_spec p p' : after_lock p = Some p' -> holds_lock p = false /\ holds_lock p' = true /\
  (will_look p = true -> will_look p' = true) /\ (forall td rc, p' <> WaitClear td rc) /\
  (forall td, p' <> WaitBlocked td).
Proof. destruct p; naive_solver. Qed.

Lemma wake_spec p : holds_lock (wake p) = holds_lock p /\
  (forall td rc, wake p = WaitClear td rc -> p = WaitClear td rc) /\ (forall td, wake p <> WaitBlocked td).
Proof. destruct p; naive_solver. Qed.

(** Only the owner of the mutex holds it. *)
Lemma inv_owner m t p t' p' : mon_inv m ->
  mon_pcs m !! t = Some p -> mon_pcs m !! t' = Some p' ->
  holds_lock p = true -> holds_lock p' = true -> t = t'.
Proof.
  intros I H H' Hp Hp'. rewrite (inv_mutex _ I _ _ H) in Hp. rewrite (inv_mutex _ I _ _ H') in Hp'.
  apply bool_decide_eq_true in Hp, Hp'. congruence.
Qed.

Lemma inv_holds m t p : mon_inv m -> mon_pcs m !! t = Some p ->
  holds_lock p = true <-> mon_owner m = Some t.
Proof. intros I H. rewrite (inv_mutex _ I _ _ H). apply bool_decide_eq_true. Qed.

(** Mutual exclusion is kept: stated on the effect of a step on one thread's pc and on the
    owner. *)
Definition mutex_ok (o : option nat) (pcs : gmap nat mon_pc) : Prop :=
  forall t p, pcs !! t = Some p -> holds_lock p = bool_decide (o = Some t).

Lemma mutex_set pcs o o' t p :
  mutex_ok o pcs -> holds_lock p = bool_decide (o' = Some t) ->
  (o' = o \/ (o = None \/ o = Some t) /\ (o' = None \/ o' = Some t)) ->
  mutex_ok o' (<[t := p]> pcs).
Proof.
  intros H Hp Ho t' q. rewrite lookup_insert_Some. intros [[<- <-]|[Hn Hq]]; [done|].
  rewrite (H _ _ Hq). destruct Ho as [->|[Ho Ho']]; [done|].
  rewrite !bool_decide_eq_false_2; [done|intros E; rewrite E in *; intuition congruence..].
Qed.

Lemma mutex_keep pcs o t p q :
  mutex_ok o pcs -> pcs !! t = Some p -> holds_lock q = holds_lock p -> mutex_ok o (<[t := q]> pcs).
Proof. intros H Ht Hq. apply mutex_set with o; [done| |by left]. by rewrite Hq, (H _ _ Ht). Qed.

Lemma mutex_release pcs o t p q :
  mutex_ok o pcs -> pcs !! t = Some p -> holds_lock p = true -> holds_lock q = false ->
  mutex_ok None (<[t := q]> pcs).
Proof.
  intros H Ht Hp Hq. rewrite (H _ _ Ht) in Hp. apply bool_decide_eq_true in Hp as ->.
  apply mutex_set with (Some t); [done|by rewrite Hq, bool_decide_eq_false_2|]. right; auto.
Qed.

Lemma mutex_wake pcs o : mutex_ok o pcs -> mutex_ok o (wake <$> pcs).
Proof.
  intros H t q. rewrite lookup_fmap. intros (p & Hp & ->)%fmap_Some.
  rewrite (proj1 (wake_spec p)). by apply H.
Qed.

Lemma mon_step_mutex m m' :
  mutex_ok (mon_owner m) (mon_pcs m) -> mon_step m m' -> mutex_ok (mon_owner m') (mon_pcs m').
Proof.
  intros I Hs. destruct Hs; simpl; try (by eapply mutex_keep).
  - eapply mutex_keep; [done..|]. by destruct p.
  - apply after_lock_spec in H0 as (_ & H0 & _). rewrite H1 in I.
    apply mutex_set with None; [done|by rewrite H0, bool_decide_eq_true_2|]. right; auto.
  - by eapply mutex_release.
  - apply (mutex_keep _ _ _ (NotifySignal true)); [by apply mutex_wake| |done].
    by rewrite lookup_fmap, H.
  - apply (mutex_keep _ _ _ (NotifySignal false)); [by eapply mutex_keep| |done].
    by rewrite lookup_insert_ne by congruence.
  - eapply mutex_release; [done..| |done]. by destruct p.
Qed.

(** A thread about to lower the flag found it raised, or timed out. *)
Definition clear_ok (b : bool) (pcs : gmap nat mon_pc) : Prop :=
  forall t timed rc, pcs !! t = Some (WaitClear timed rc) -> b = true \/ (timed = true /\ rc = ETIMEDOUT).

Lemma clear_set b pcs t p :
  clear_ok b pcs -> (forall td rc, p = WaitClear td rc -> b = true \/ (td = true /\ rc = ETIMEDOUT)) ->
  clear_ok b (<[t := p]> pcs).
Proof. intros H Hp t' td rc. rewrite lookup_insert_Some. intros [[<- ->]|[Hn Hq]]; eauto. Qed.

(** The flag only changes under the mutex, where no other thread is about to lower it. *)
Lemma clear_alone b o pcs t p q :
  mutex_ok o pcs -> pcs !! t = Some p -> holds_lock p = true -> (forall td rc, q <> WaitClear td rc) ->
  clear_ok b (<[t := q]> pcs).
Proof.
  intros HM Ht Hp Hq t' td rc. rewrite lookup_insert_Some. intros [[<- E]|[Hn Hc]]; [by destruct (Hq td rc)|].
  pose proof (HM _ _ Hc) as E1. pose proof (HM _ _ Ht) as E2. rewrite Hp in E2.
  symmetry in E1, E2. apply bool_decide_eq_true in E1, E2. congruence.
Qed.

Lemma mon_step_clear m m' :
  mutex_ok (mon_owner m) (mon_pcs m) -> clear_ok (mon_predicate m) (mon_pcs m) -> mon_step m m' ->
  clear_ok (mon_predicate m') (mon_pcs m').
Proof.
  intros HM I Hs. destruct Hs; simpl; try (by apply clear_set; [done|discriminate]).
  - apply clear_set; [done|]. intros td rc ->. done.
  - apply clear_set; [done|]. intros td rc ->. destruct (after_lock_spec _ _ H0) as (_ & _ & _ & Hc & _).
    by destruct (Hc td rc).
  - apply clear_set; [done|]. intros td rc' [= <- <-]. unfold keeps_waiting in H0.
    destruct (mon_predicate m); [by left|]. right. destruct timed; [|done].
    destruct (Z.eqb_spec rc ETIMEDOUT); done.
  - by eapply clear_alone.
  - by eapply clear_alone.
  - apply clear_set; [|done]. intros t' td rc. rewrite lookup_fmap.
    intros (p & Hp & Hc)%fmap_Some. symmetry in Hc. apply (proj2 (wake_spec p)) in Hc. subst. eauto.
  - apply clear_set; [|done]. by apply clear_set.
Qed.

(** No lost wake-up: while the flag is raised and a thread is blocked, some thread is about
    to wake another or to look at the flag. *)
Definition wakeup_ok (b : bool) (pcs : gmap nat mon_pc) : Prop :=
  forall t timed, b = true -> pcs !! t = Some (WaitBlocked timed) ->
  exists t' p, pcs !! t' = Some p /\ will_look p = true.

(** A thread that moves without blocking and without giving up its duty keeps it. *)
Lemma wakeup_set b pcs t p q :
  wakeup_ok b pcs -> pcs !! t = Some p -> (b = true -> will_look p = true -> will_look q = true) ->
  (forall td, b = true -> q <> WaitBlocked td) -> wakeup_ok b (<[t := q]> pcs).
Proof.
  intros H Ht Hk Hb t' td Eb. rewrite lookup_insert_Some. intros [[<- E]|[Hn Hc]]; [by destruct (Hb td)|].
  destruct (H t' td Eb Hc) as (u & pu & Hu & Hl). destruct (decide (t = u)) as [<-|].
  - exists t, q. rewrite lookup_insert_eq. split; [done|]. apply Hk; [done|]. congruence.
  - exists u, pu. by rewrite lookup_insert_ne.
Qed.

(** A thread that has the duty discharges it for everybody. *)
Lemma wakeup_witness b pcs t q : will_look q = true -> wakeup_ok b (<[t := q]> pcs).
Proof. intros Hq t' td _ _. exists t, q. by rewrite lookup_insert_eq. Qed.

Lemma wakeup_none b pcs t q :
  (forall t' td, pcs !! t' <> Some (WaitBlocked td)) -> (forall td, q <> WaitBlocked td) ->
  wakeup_ok b (<[t := q]> pcs).
Proof.
  intros Hn Hq t' td _. rewrite lookup_insert_Some. intros [[<- E]|[_ Hc]]; [by destruct (Hq td)|].
  by destruct (Hn t' td).
Qed.

Lemma mon_step_wakeup m m' :
  wakeup_ok (mon_predicate m) (mon_pcs m) -> mon_step m m' -> wakeup_ok (mon_predicate m') (mon_pcs m').
Proof.
  intros I Hs. destruct Hs; simpl; try (by apply wakeup_witness).
  - eapply wakeup_set; [done..|]. intros td _ ->. done.
  - pose proof (after_lock_spec _ _ H0) as (_ & _ & ? & _ & ?). eapply wakeup_set; eauto.
  - by eapply wakeup_set.
  - unfold keeps_waiting in H0. by destruct (mon_predicate m).
  - intros t' td. done.
  - apply wakeup_none; [|done]. intros t' td Hc. rewrite lookup_fmap in Hc.
    apply fmap_Some in Hc as (p & _ & Hc). by apply (proj2 (proj2 (wake_spec p)) td).
  - intros t'' td _ _. exists t', (WaitRelock timed 0).
    rewrite lookup_insert_ne, lookup_insert_eq by congruence. done.
  - by apply wakeup_none.
  - eapply wakeup_set; [done..| |done]. by destruct p.
Qed.

Lemma mon_step_count m m' :
  clear_ok (mon_predicate m) (mon_pcs m) ->
  (mon_delivered m + (if mon_predicate m then 1 else 0) <= mon_notified m)%nat -> mon_step m m' ->
  (mon_delivered m' + (if mon_predicate m' then 1 else 0) <= mon_notified m')%nat.
Proof.
  intros I IC Hs. destruct Hs; simpl; try done.
  - destruct (I _ _ _ H) as [E|[-> ->]]; simpl; [|destruct (mon_predicate m); lia].
    rewrite E in IC. destruct (rc =? ETIMEDOUT); lia.
  - destruct (mon_predicate m); lia.
Qed.

Lemma mon_inv_step m m' : mon_inv m -> mon_step m m' -> mon_inv m'.
Proof.
  intros [I1 I2 I3 I4] Hs. constructor.
  - by eapply mon_step_mutex.
  - by eapply mon_step_clear.
  - by eapply mon_step_count.
  - intros t td. by eapply mon_step_wakeup.
Qed.

Lemma mon_inv_new threads m : Monitor_new 0 threads = Ret m -> mon_inv m.
Proof.
  intros [= <-]. split; simpl; [..|lia|done].
  - intros t p. rewrite lookup_gset_to_gmap_Some. intros [_ <-]. done.
  - intros t td rc. rewrite lookup_gset_to_gmap_Some. by intros [_ ?].
Qed.

Lemma mon_inv_reachable m m' : mon_inv m -> mon_reachable m m' -> mon_inv m'.
Proof. intros I H. induction H; [done|]. by eapply mon_inv_step. Qed.

(** C1: the interleavings of any number of threads inside [Monitor::predicate], [wait],
    [timedWait], [notifyOne] and [notifyAll] keep mutual exclusion on [_predicate], never
    deliver more waits than there were notifications, and lose no wake-up: while the flag is
    raised and a thread is blocked, some thread is about to wake it or to look at the flag. *)
Theorem Monitor_reachable_safe threads m0 m :
  Monitor_new 0 threads = Ret m0 -> mon_reachable m0 m ->
  (forall t p t' p', mon_pcs m !! t = Some p -> mon_pcs m !! t' = Some p' ->
     holds_lock p = true -> holds_lock p' = true -> t = t') /\
  (mon_delivered m + (if mon_predicate m then 1 else 0) <= mon_notified m)%nat /\
  (forall t timed, mon_predicate m = true -> mon_pcs m !! t = Some (WaitBlocked timed) ->
     exists t' p, mon_pcs m !! t' = Some p /\ will_look p = true).
Proof.
  intros H0 H. pose proof (mon_inv_reachable _ _ (mon_inv_new _ _ H0) H) as I.
  split; [intros; by eapply inv_owner|]. split; apply I.
Qed.

Lemma Monitor_reachable_safe_witness :
  exists m, mon_reachable (mkMonitor None false {[ 1%nat := Outside ]} 0 0) m /\
    (forall t p t' p', mon_pcs m !! t = Some p -> mon_pcs m !! t' = Some p' ->
       holds_lock p = true -> holds_lock p' = true -> t = t') /\
    mon_owner m = Some 1%nat.
Proof.
  set (m0 := mkMonitor None false {[ 1%nat := Outside ]} 0 0).
  set (m1 := with_pc 1 (NotifyLock true) m0).
  set (m2 := with_owner (Some 1%nat) (with_pc 1 (NotifySet true) m1)).
  assert (mon_reachable m0 m2) as HR.
  { apply rtn1_trans with m1.
    - apply (step_lock 1 (NotifyLock true)); vm_compute; reflexivity.
    - apply rtn1_trans with m0; [|apply rtn1_refl]. apply step_call; vm_compute; reflexivity. }
  exists m2. split; [exact HR|]. split; [|reflexivity].
  apply (Monitor_reachable_safe {[ 1%nat ]} m0 m2); [|exact HR].
  vm_compute. reflexivity.
Defined.

(** A wait without a deadline does not time out. *)
Definition untimed_ok (pcs : gmap nat mon_pc) : Prop :=
  forall t rc, pcs !! t = Some (WaitRelock false rc) \/ pcs !! t = Some (WaitTest false rc) \/
    pcs !! t = Some (WaitClear false rc) -> rc <> ETIMEDOUT.

Lemma untimed_set pcs t p : untimed_ok pcs ->
  (forall rc, p = WaitRelock false rc \/ p = WaitTest false rc \/ p = WaitClear false rc -> rc <> ETIMEDOUT) ->
  untimed_ok (<[t:=p]> pcs).
Proof.
  intros H Hp t' rc. destruct (decide (t = t')) as [<-|]; [|rewrite lookup_insert_ne by done; apply H].
  rewrite lookup_insert_eq. intros Hc. apply Hp. naive_solver.
Qed.

Lemma mon_step_untimed m m' : untimed_ok (mon_pcs m) -> mon_step m m' -> untimed_ok (mon_pcs m').
Proof.
  intros I Hs. destruct Hs as [t p m H Hb|t p p' m H Ha _| | |t timed rc m H _|t timed rc m H Ht| | |t m H|t t' timed m H H'| |];
    simpl; try (by apply untimed_set; [|naive_solver]).
  - apply untimed_set; [done|]. intros rc' Hq. assert (p = WaitRelock false rc' \/ rc' = 0) as [->| ->]; [|by eapply I; left|done].
    destruct p; simpl in Ha; simplify_eq; destruct Hq as [|[|]]; simplify_eq; auto.
  - apply untimed_set; [done|]. intros rc' [|[|[= -> <-]]]; [done|done|]. eapply I. right. left. exact H.
  - apply untimed_set; [|naive_solver]. intros t' rc. rewrite lookup_fmap.
    intros [E|[E|E]]; apply fmap_Some in E as (p & Hp & Hw); destruct p; simplify_eq/=; try done; eapply I; eauto.
  - apply untimed_set; [|naive_solver]. apply untimed_set; [done|]. by intros rc [[= _ <-]|[|]].
Qed.

Lemma untimed_reachable threads m0 m : Monitor_new 0 threads = Ret m0 -> mon_reachable m0 m -> untimed_ok (mon_pcs m).
Proof.
  intros [= <-] H. induction H; [|by eapply mon_step_untimed]. intros t rc. simpl.
  rewrite !lookup_gset_to_gmap_Some. naive_solver.
Qed.

(** Only the thread that raises or lowers the flag leaves the place where it does. *)
Lemma writer_stays m m' t p : mon_step m m' -> mon_pcs m !! t = Some p -> writes_flag p = true ->
  mon_pcs m' !! t = Some p \/
  (exists all, p = NotifySet all /\ m' = raise (with_pc t (NotifySignal all) m)) \/
  (exists timed rc, p = WaitClear timed rc /\ m' = clear rc (with_pc t (WaitUnlock timed rc) m)).
Proof.
  intros Hs Hp Hw.
  assert (forall t' q m1, mon_pcs m !! t' = Some q -> (q = p -> t' <> t) -> mon_pcs m1 !! t = Some p ->
    forall q', mon_pcs (with_pc t' q' m1) !! t = Some p) as Hother.
  { intros t' q m1 Hq Hne H1 q'. rewrite lookup_with_pc. destruct (decide (t' = t)) as [->|]; [|done].
    rewrite Hp in Hq. injection Hq as ->. by destruct (Hne eq_refl). }
  destruct Hs as [t' q m H Hb|t' q q' m H Ha _|t' m H|t' timed rc m H _|t' timed rc m H _|t' timed rc m H _|t' timed rc m H
    |t' all m H|t' m H|t' u timed m H H'|t' m H _|t' q m H Hb]; simpl.
  all: try (left; eapply Hother; [exact H|intros <-; done|done]).
  - left. eapply (Hother t' q m); [exact H| |done]. intros ->. by destruct p.
  - destruct (decide (t' = t)) as [->|Hne]; [|left; eapply Hother; [exact H|done|done]].
    right. right. rewrite Hp in H. injection H as ->. by exists timed, rc.
  - destruct (decide (t' = t)) as [->|Hne]; [|left; eapply Hother; [exact H|done|done]].
    right. left. rewrite Hp in H. injection H as ->. by exists all.
  - left. eapply (Hother t' (NotifySignal true) (wake_all m)); [exact H|intros <-; done|]. simpl.
    rewrite lookup_fmap, Hp. simpl. by destruct p.
  - left. apply (Hother t' (NotifySignal false) (with_pc u (WaitRelock timed 0) m)); [exact H|intros <-; done|].
    apply (Hother u (WaitBlocked timed) m); [exact H'|intros <-; done|done].
  - left. eapply (Hother t' q m); [exact H| |done]. intros ->. by destruct p.
Qed.

(** One step, on a state in which the flag is what those that are about to lower it have seen. *)
Lemma mon_step_effect m m' o : mon_inv m -> untimed_ok (mon_pcs m) -> mon_step m m' -> mon_effect m m' o ->
  match o with
  | None => mon_predicate m' = mon_predicate m /\ mon_notified m' = mon_notified m /\ mon_delivered m' = mon_delivered m
  | Some (_, l) => amon_step (mon_predicate m) l (mon_predicate m') /\
      mon_notified m' = (mon_notified m + (if decide (l = ANotify) then 1 else 0))%nat /\
      mon_delivered m' = (mon_delivered m + (if decide (l = AWait) then 1 else 0))%nat
  end.
Proof.
  intros I U Hs He. destruct He as [t all H H'|t timed rc H H' Hr|t timed rc H H' Hr|Hn].
  - destruct (writer_stays _ _ _ _ Hs H eq_refl) as [E|[(a & _ & ->)|(? & ? & ? & _)]]; [congruence| |done].
    simpl. split; [constructor|lia].
  - destruct (writer_stays _ _ _ _ Hs H eq_refl) as [E|[(a & ? & _)|(td & r & [= <- <-] & ->)]]; [congruence|done|].
    simpl. assert (rc <> ETIMEDOUT) as Hrc.
    { intros ->. destruct timed; [by apply Hr|]. eapply U; eauto. }
    rewrite (proj2 (Z.eqb_neq _ _) Hrc). destruct (inv_clear _ I _ _ _ H) as [->|[_ ?]]; [|done].
    split; [constructor|lia].
  - destruct (writer_stays _ _ _ _ Hs H eq_refl) as [E|[(a & ? & _)|(td & r & [= <- <-] & ->)]]; [congruence|done|].
    assert (rc = ETIMEDOUT) as ->.
    { unfold wait_result in Hr. destruct timed; repeat case_match; try done. by apply Z.eqb_eq. }
    simpl. split; [constructor|lia].
  - destruct Hs as [t p m H|t p p' m H|t m H|t timed rc m H|t timed rc m H|t timed rc m H|t timed rc m H
      |t all m H|t m H|t u timed m H|t m H|t p m H]; try done.
    + specialize (Hn t _ H eq_refl). simpl in Hn. by rewrite lookup_insert_eq in Hn.
    + specialize (Hn t _ H eq_refl). simpl in Hn. by rewrite lookup_insert_eq in Hn.
Qed.

Lemma mon_run_reachable m0 ls m : mon_run m0 ls m -> mon_reachable m0 m.
Proof. induction 1; [apply rtn1_refl|by eapply rtn1_trans]. Qed.

(** Every step has an effect. *)
Lemma mon_effect_exists m m' : mon_step m m' -> exists o, mon_effect m m' o.
Proof.
  intros Hs. destruct (decide (map_Exists (fun t (p : mon_pc) => writes_flag p = true /\ mon_pcs m' !! t <> Some p) (mon_pcs m)))
    as [(t & p & Hp & Hw & Hne)|Hno].
  - destruct (writer_stays _ _ _ _ Hs Hp Hw) as [E|[(all & -> & ->)|(timed & rc & -> & ->)]]; [done|..].
    + exists (Some (t, ANotify)). eapply effect_notify; [exact Hp|]. simpl. apply lookup_insert_eq.
    + assert (wait_result timed rc = Ret false \/ wait_result timed rc <> Ret false) as [E|E]
        by (unfold wait_result; repeat case_match; by (left + right)).
      * exists (Some (t, ATimeout)). eapply effect_timeout; [exact Hp|simpl; apply lookup_insert_eq|done].
      * exists (Some (t, AWait)). eapply effect_wait; [exact Hp|simpl; apply lookup_insert_eq|done].
  - exists None. apply effect_none. intros t p Hp Hw. destruct (decide (mon_pcs m' !! t = Some p)) as [|Hne]; [done|].
    exfalso. apply Hno. by exists t, p.
Qed.

Lemma count_label_snoc l ls k : count_label l (ls ++ [k]) = (count_label l ls + (if decide (k = l) then 1 else 0))%nat.
Proof.
  unfold count_label. rewrite filter_app, length_app. f_equal. cbn.
  destruct (decide (k = l)) as [->|]; [by rewrite decide_True|by rewrite decide_False].
Qed.

(** C2: the monitor of the code refines the abstract flag: in every run of any number of threads,
    what the notifications, the waits and the time-outs did, in this order, is a run of the flag,
    which a wait that does not return false finds raised and lowers in one step; each run has such
    a sequence of effects, and the flag and the counts are those that it leaves. *)
Theorem Monitor_refines_flag threads m0 m :
  Monitor_new 0 threads = Ret m0 ->
  (forall ls, mon_run m0 ls m ->
     amon_run false ls.*2 (mon_predicate m) /\
     mon_notified m = count_label ANotify ls.*2 /\ mon_delivered m = count_label AWait ls.*2) /\
  (mon_reachable m0 m -> exists ls, mon_run m0 ls m).
Proof.
  intros H0. split.
  - intros ls HR. induction HR as [|ls m m' o HR (IHr & IHn & IHd) Hs He].
    { injection H0 as <-. simpl. split; [constructor|done]. }
    pose proof (mon_run_reachable _ _ _ HR) as Hreach.
    pose proof (mon_step_effect m m' o (mon_inv_reachable _ _ (mon_inv_new _ _ H0) Hreach)
      (untimed_reachable _ _ _ H0 Hreach) Hs He) as Ho. destruct o as [[t l]|]; simpl.
    + destruct Ho as (Ha & -> & ->). rewrite fmap_app. simpl. rewrite !count_label_snoc, <- IHn, <- IHd.
      split; [by eapply arun_snoc|done].
    + rewrite app_nil_r. destruct Ho as (-> & -> & ->). done.
  - intros HR. induction HR as [|m m' Hs HR [ls IH]]; [by exists []; constructor|].
    destruct (mon_effect_exists m m' Hs) as [o He]. exists (ls ++ option_list o). by eapply run_snoc.
Qed.

(** A notification that arrives between the time-out of a timed wait and the moment it has the
    mutex again is consumed by that wait, although it returns [false]: the notification was
    delivered to nobody. *)
Lemma timedWait_loses_notification : exists m,
  mon_reachable (mkMonitor None false {[ 1%nat := Outside; 2%nat := Outside ]} 0 0) m /\
  mon_pcs m = {[ 1%nat := Outside; 2%nat := Outside ]} /\ mon_predicate m = false /\
  mon_notified m = 1%nat /\ mon_delivered m = 0%nat /\ wait_result true ETIMEDOUT = Ret false.
Proof.
  set (m0 := mkMonitor None false {[ 1%nat := Outside; 2%nat := Outside ]} 0 0).
  set (w1 := with_pc 1 (WaitLock true) m0).
  set (w2 := with_owner (Some 1%nat) (with_pc 1 (WaitTest true 0) w1)).
  set (w3 := with_owner None (with_pc 1 (WaitBlocked true) w2)).
  set (w4 := with_pc 1 (WaitRelock true ETIMEDOUT) w3).
  set (n1 := with_pc 2 (NotifyLock true) w4).
  set (n2 := with_owner (Some 2%nat) (with_pc 2 (NotifySet true) n1)).
  set (n3 := raise (with_pc 2 (NotifySignal true) n2)).
  set (n4 := with_pc 2 NotifyUnlock (wake_all n3)).
  set (n5 := with_owner None (with_pc 2 Outside n4)).
  set (w5 := with_owner (Some 1%nat) (with_pc 1 (WaitTest true ETIMEDOUT) n5)).
  set (w6 := with_pc 1 (WaitClear true ETIMEDOUT) w5).
  set (w7 := clear ETIMEDOUT (with_pc 1 (WaitUnlock true ETIMEDOUT) w6)).
  exists (with_owner None (with_pc 1 Outside w7)). split; [|repeat split; vm_compute; reflexivity].
  apply rtn1_trans with w7; [apply (step_unlock 1 (WaitUnlock true ETIMEDOUT)); reflexivity|].
  apply rtn1_trans with w6; [apply (step_clear 1 true); reflexivity|].
  apply rtn1_trans with w5; [apply (step_exit_loop 1 true); reflexivity|].
  apply rtn1_trans with n5; [apply (step_lock 1 (WaitRelock true ETIMEDOUT)); reflexivity|].
  apply rtn1_trans with n4; [apply (step_unlock 2 NotifyUnlock); reflexivity|].
  apply rtn1_trans with n3; [apply step_broadcast; reflexivity|].
  apply rtn1_trans with n2; [apply (step_raise 2 true); reflexivity|].
  apply rtn1_trans with n1; [apply (step_lock 2 (NotifyLock true)); reflexivity|].
  apply rtn1_trans with w4; [apply (step_call 2 (NotifyLock true)); reflexivity|].
  apply rtn1_trans with w3; [apply (step_wakeup 1 true); [reflexivity|done]|].
  apply rtn1_trans with w2; [apply (step_block 1 true 0); reflexivity|].
  apply rtn1_trans with w1; [apply (step_lock 1 (WaitLock true)); reflexivity|].
  apply rtn1_trans with m0; [apply (step_call 1 (WaitLock true)); reflexivity|constructor].
Qed.

(** A thread notifies, then another waits. *)
Lemma Monitor_refines_flag_witness : exists m,
  mon_run (mkMonitor None false {[ 1%nat := Outside; 2%nat := Outside ]} 0 0) [(2%nat, ANotify); (1%nat, AWait)] m /\
  amon_run false [ANotify; AWait] false.
Proof.
  set (m0 := mkMonitor None false {[ 1%nat := Outside; 2%nat := Outside ]} 0 0).
  set (n1 := with_pc 2 (NotifyLock true) m0).
  set (n2 := with_owner (Some 2%nat) (with_pc 2 (NotifySet true) n1)).
  set (n3 := raise (with_pc 2 (NotifySignal true) n2)).
  set (n4 := with_pc 2 NotifyUnlock (wake_all n3)).
  set (n5 := with_owner None (with_pc 2 Outside n4)).
  set (w1 := with_pc 1 (WaitLock false) n5).
  set (w2 := with_owner (Some 1%nat) (with_pc 1 (WaitTest false 0) w1)).
  set (w3 := with_pc 1 (WaitClear false 0) w2).
  set (w4 := clear 0 (with_pc 1 (WaitUnlock false 0) w3)).
  assert (forall m m', mon_step m m' -> map_Forall (fun t p => writes_flag p = false \/ mon_pcs m' !! t = Some p) (mon_pcs m) ->
    forall ls, mon_run m0 ls m -> mon_run m0 ls m') as Hsilent.
  { intros m m' Hs Hall ls HR. rewrite <- (app_nil_r ls). apply (run_snoc _ _ _ _ None HR Hs), effect_none.
    intros t p Hp Hw. destruct (Hall t p Hp) as [E|E]; congruence. }
  assert (mon_run m0 [(2%nat, ANotify); (1%nat, AWait)] w4) as HR.
  { apply (run_snoc _ [(2%nat, ANotify)] w3 w4 (Some (1%nat, AWait)));
      [|apply (step_clear 1 false); reflexivity|by apply (effect_wait _ _ 1 false 0)].
    eapply Hsilent; [apply (step_exit_loop 1 false 0); reflexivity|by apply map_Forall_to_list; vm_compute; auto|].
    eapply Hsilent; [apply (step_lock 1 (WaitLock false)); reflexivity|by apply map_Forall_to_list; vm_compute; auto|].
    eapply Hsilent; [apply (step_call 1 (WaitLock false)); reflexivity|by apply map_Forall_to_list; vm_compute; auto|].
    eapply Hsilent; [apply (step_unlock 2 NotifyUnlock); reflexivity|by apply map_Forall_to_list; vm_compute; auto|].
    eapply Hsilent; [apply step_broadcast; reflexivity|by apply map_Forall_to_list; vm_compute; auto|].
    apply (run_snoc _ [] n2 n3 (Some (2%nat, ANotify)));
      [|apply (step_raise 2 true); reflexivity|by apply (effect_notify _ _ 2 true)].
    eapply Hsilent; [apply (step_lock 2 (NotifyLock true)); reflexivity|by apply map_Forall_to_list; vm_compute; auto|].
    eapply Hsilent; [apply (step_call 2 (NotifyLock true)); reflexivity|by apply map_Forall_to_list; vm_compute; auto|].
    constructor. }
  exists w4. split; [exact HR|].
  destruct (Monitor_refines_flag {[ 1%nat; 2%nat ]} m0 w4) as [Hall _]; [vm_compute; reflexivity|].
  destruct (Hall _ HR) as [Hrun _]. exact Hrun.
Defined.

(** C39: the deadline [timedWait] passes to [pthread_cond_timedwait] is normalised and lies
    exactly [milliSeconds] after now, when [milliSeconds] is not negative. *)
Theorem timedWait_deadline_spec sec usec ms :
  0 <= usec < 1000000 -> 0 <= ms < 2 ^ 31 ->
  let '(s, n) := timedWait_deadline sec usec ms in
  0 <= n < MAMMUT_NANOSECS_IN_SEC /\
  s * MAMMUT_NANOSECS_IN_SEC + n =
    sec * MAMMUT_NANOSECS_IN_SEC + usec * 1000 + ms * MAMMUT_NANOSECS_IN_MSEC.
Proof.
  intros Hu Hm. unfold timedWait_deadline, MAMMUT_MILLISECS_IN_SEC, MAMMUT_NANOSECS_IN_SEC,
    MAMMUT_NANOSECS_IN_MSEC.
  pose proof (Z.quot_rem ms 1000 ltac:(done)). pose proof (Z.rem_bound_pos ms 1000 ltac:(lia) ltac:(lia)).
  destruct (Z.leb_spec 1000000000 (usec * 1000 + Z.rem ms 1000 * 1000000)); lia.
Qed.

Lemma timedWait_deadline_spec_witness :
  let '(s, n) := timedWait_deadline 10 999999 2500 in
  0 <= n < MAMMUT_NANOSECS_IN_SEC /\
  s * MAMMUT_NANOSECS_IN_SEC + n =
    10 * MAMMUT_NANOSECS_IN_SEC + 999999 * 1000 + 2500 * MAMMUT_NANOSECS_IN_MSEC.
Proof. apply (timedWait_deadline_spec 10 999999 2500); lia. Defined.

(** A negative argument gives a deadline [pthread_cond_timedwait] refuses, and the loop of
    [timedWait] then never leaves by time-out. *)
Lemma timedWait_deadline_negative : timedWait_deadline 10 0 (-1) = (10, -1000000).
Proof. reflexivity. Qed.

(** ** Starting a thread *)
Section thread_props.
Variables (pid tid create_rc : Z).

(** What is set at each point of the new thread. *)
Definition thread_ok (s : ThreadSys) : Prop :=
  let th := ts_thread s in
  match ts_child s with
  | NotCreated => th_pidSet th = false /\ ts_starter s <> StartWait /\ ts_starter s <> StartReturned
  | SetPid => th_pidSet th = false /\ ts_starter s = StartWait
  | SetTid => th_pidSet th = false /\ ts_starter s = StartWait /\ th_pid th = Some pid
  | Notify => th_pidSet th = false /\ ts_starter s = StartWait /\ th_pid th = Some pid /\ th_tid th = Some tid
  | _ => th_pid th = Some pid /\ th_tid th = Some tid /\
         ((ts_starter s = StartWait /\ th_pidSet th = true) \/ ts_starter s = StartReturned)
  end.

Lemma thread_ok_step s s' : thread_ok s -> thread_step pid tid create_rc s s' -> thread_ok s'.
Proof.
  unfold thread_ok. intros I Hs. destruct Hs; simpl in *;
    try match goal with H : amon_step _ _ _ |- _ => inversion H; subst; clear H end;
    try (destruct c; simpl in * ); first [naive_solver | intuition congruence].
Qed.

Definition thread_init (th : Thread) : ThreadSys := mkThreadSys th StartTest NotCreated.

Lemma thread_ok_reachable th s :
  th_pidSet th = false -> thread_reachable pid tid create_rc (thread_init th) s -> thread_ok s.
Proof.
  intros H0 HR. induction HR; [|by eapply thread_ok_step].
  by unfold thread_ok.
Qed.

(** The steps left. *)
Definition thread_measure (s : ThreadSys) : nat :=
  match ts_starter s with StartTest => 9 | StartWait => 1 | _ => 0 end +
  match ts_child s with
  | NotCreated => 0 | SetPid => 7 | SetTid => 6 | Notify => 5 | SetRunning => 4 | InRun => 3
  | ClearRunning => 2 | Finished => 1
  end.

Lemma thread_step_measure s s' :
  thread_step pid tid create_rc s s' -> (thread_measure s' < thread_measure s)%nat.
Proof. intros Hs. destruct Hs; unfold thread_measure; simpl; lia. Qed.

Lemma thread_progress s :
  thread_ok s -> ts_starter s = StartTest /\ ts_child s = NotCreated \/ ts_starter s = StartWait ->
  exists s', thread_step pid tid create_rc s s'.
Proof.
  destruct s as [[run set p i] st c]. unfold thread_ok. simpl. intros I [[-> ->]| ->].
  - destruct run.
    + eexists. by apply step_start_running.
    + destruct (decide (create_rc = 0)) as [E|E].
      * eexists. by apply step_create.
      * eexists. by apply step_create_failed.
  - destruct c; simpl in I.
    + naive_solver.
    + eexists. apply step_set_pid.
    + eexists. apply step_set_tid.
    + eexists. apply step_notify, astep_notify.
    + eexists. apply step_set_running.
    + eexists. apply step_run.
    + eexists. apply step_clear_running.
    + destruct I as (-> & -> & [[_ ->]|]); [|done]. eexists. apply step_wait_return. constructor.
Qed.
End thread_props.

(** C38: [Thread::start] terminates, and when it returns the new thread has published its
    process and thread identifiers: every step of the system decreases a measure, a state
    with no successor is one where [start] has returned or thrown, and where it has returned
    [getPidAndTid] is defined. *)
Theorem Thread_start_publishes_ids pid tid create_rc th s :
  th_pidSet th = false -> thread_reachable pid tid create_rc (thread_init th) s ->
  (forall s', thread_step pid tid create_rc s s' -> (thread_measure s' < thread_measure s)%nat) /\
  ((forall s', ~ thread_step pid tid create_rc s s') ->
     ts_starter s = StartReturned \/ exists e, ts_starter s = StartThrew e) /\
  (ts_starter s = StartReturned -> Thread_getPidAndTid (ts_thread s) = Ret (pid, tid)).
Proof.
  intros H0 HR. pose proof (thread_ok_reachable _ _ _ _ _ H0 HR) as I.
  split; [apply thread_step_measure|]. split.
  - intros Hno. destruct (ts_starter s) eqn:E; [..|by left|right; eauto].
    + exfalso. destruct (thread_progress pid tid create_rc s I) as [s' Hs]; [|by eapply Hno].
      left. split; [done|]. unfold thread_ok in I. rewrite E in I. destruct (ts_child s); naive_solver.
    + exfalso. destruct (thread_progress pid tid create_rc s I) as [s' Hs]; [by right|by eapply Hno].
  - intros E. unfold thread_ok in I. rewrite E in I. unfold Thread_getPidAndTid.
    assert (th_pid (ts_thread s) = Some pid /\ th_tid (ts_thread s) = Some tid) as [-> ->]; [|done].
    destruct (ts_child s); intuition congruence.
Qed.

(** The run in which [start] succeeds and its caller looks at [running] at once. *)
Definition started_not_running (pid tid : Z) : ThreadSys :=
  mkThreadSys (mkThread false false (Some pid) (Some tid)) StartReturned SetRunning.

Lemma started_not_running_reachable pid tid :
  thread_reachable pid tid 0 (thread_init Thread_new) (started_not_running pid tid).
Proof.
  unfold thread_reachable, started_not_running.
  eapply rtn1_trans; [by apply (step_wait_return _ _ _ (mkThread false true (Some pid) (Some tid))), astep_wait|].
  eapply rtn1_trans; [by apply (step_notify _ _ _ (mkThread false false (Some pid) (Some tid))), astep_notify|].
  eapply rtn1_trans; [by apply (step_set_tid _ _ _ (mkThread false false (Some pid) None))|].
  eapply rtn1_trans; [by apply (step_set_pid _ _ _ Thread_new)|].
  eapply rtn1_trans; [by apply step_create|]. apply rtn1_refl.
Qed.

Lemma Thread_start_publishes_ids_witness :
  Thread_getPidAndTid (ts_thread (started_not_running 7 8)) = Ret (7, 8).
Proof.
  apply (Thread_start_publishes_ids 7 8 0 Thread_new (started_not_running 7 8)).
  - reflexivity.
  - apply started_not_running_reachable.
  - reflexivity.
Defined.

(** [start] can return before the new thread has set [_running]: there is a run after
    which [start] has returned, [running] answers false although the thread has not finished,
    and a second [start] passes the guard against multiple starts. *)
Theorem Thread_start_running_race pid tid :
  exists s, thread_reachable pid tid 0 (thread_init Thread_new) s /\
    ts_starter s = StartReturned /\ Thread_is_running (ts_thread s) = false /\
    ts_child s = SetRunning /\
    ~ thread_step pid tid 0 (mkThreadSys (ts_thread s) StartTest NotCreated)
        (mkThreadSys (ts_thread s) (StartThrew (runtime_error
           "Thread: Multiple start. It must be joined before starting it again.")) NotCreated).
Proof.
  exists (started_not_running pid tid). split; [apply started_not_running_reachable|].
  split; [done|]. split; [done|]. split; [done|]. intros H. by inversion H.
Qed.
