(* ===== verification/Topology.v ===== *)
(** * The topology: CPUs, physical cores and virtual cores (src/topology/topology.cpp)

    The objects of the tree never change once built, so a pointer to one is its record; what
    changes (hot-plugging, clock modulation, utilisation) belongs to the machine and is
    reached through the virtual methods of [VirtualCore], here the class [VirtualCoreOps].
    [VirtualCoreLaws] is what an implementation promises; the operations of physical cores,
    CPUs and of the topology are verified against it.  TopologyLinux.v discharges it. *)
From S2P Require Import Prelude UtilsText UtilsVector Double UtilsSys.

(** ** Data *)

(** [VirtualCoreCoordinates], include/mammut/topology/topology.hpp:30-34. *)
Record VirtualCoreCoordinates := mkVcc {
  vcc_cpuId : Z; vcc_physicalCoreId : Z; vcc_virtualCoreId : Z
}.

(** [VirtualCore], include/mammut/topology/topology.hpp:524-529. *)
Record VirtualCore := mkVirtualCore {
  vc_cpuId : Z; vc_physicalCoreId : Z; vc_virtualCoreId : Z
}.

(** [PhysicalCore], include/mammut/topology/topology.hpp:287-293. *)
Record PhysicalCore := mkPhysicalCore {
  pc_cpuId : Z; pc_physicalCoreId : Z; pc_virtualCores : list VirtualCore
}.

(** [Cpu], include/mammut/topology/topology.hpp:145-152. *)
Record Cpu := mkCpu {
  cpu_cpuId : Z; cpu_physicalCores : list PhysicalCore; cpu_virtualCores : list VirtualCore
}.

(** [Topology], include/mammut/topology/topology.hpp:61-71. *)
Record Topology := mkTopology {
  tp_cpus : list Cpu; tp_physicalCores : list PhysicalCore; tp_virtualCores : list VirtualCore
}.

(** [RollbackPoint], include/mammut/topology/topology.hpp:56-59. *)
Record TopologyRollbackPoint := mkTopologyRollbackPoint {
  rp_plugged : list bool; rp_clockModulation : list double
}.

#[export] Instance VirtualCore_eq_dec : EqDecision VirtualCore.
Proof. solve_decision. Defined.
#[export] Instance PhysicalCore_eq_dec : EqDecision PhysicalCore.
Proof. solve_decision. Defined.

(** [operator==] on CPUs, include/mammut/topology/topology.hpp:707-707. *)
Definition Cpu_eqb (lhs rhs : Cpu) : bool := cpu_cpuId lhs =? cpu_cpuId rhs.
(** [operator==] on physical cores, include/mammut/topology/topology.hpp:729-729. *)
Definition PhysicalCore_eqb (lhs rhs : PhysicalCore) : bool :=
  pc_physicalCoreId lhs =? pc_physicalCoreId rhs.
(** [operator==] on virtual cores, include/mammut/topology/topology.hpp:751-751. *)
Definition VirtualCore_eqb (lhs rhs : VirtualCore) : bool :=
  vc_virtualCoreId lhs =? vc_virtualCoreId rhs.

(** The virtual methods of [VirtualCore], include/mammut/topology/topology.hpp:581-677, on a
    state [S] of the machine; [v_new] is the constructor of the concrete class. *)
Class VirtualCoreOps (S : Type) := {
  v_new : VirtualCoreCoordinates -> M S VirtualCore;
  v_maximizeUtilization : VirtualCore -> M S unit;
  v_resetUtilization : VirtualCore -> M S unit;
  v_isHotPluggable : VirtualCore -> M S bool;
  v_isHotPlugged : VirtualCore -> M S bool;
  v_hotPlug : VirtualCore -> M S unit;
  v_hotUnplug : VirtualCore -> M S unit;
  v_hasClockModulation : VirtualCore -> M S bool;
  v_getClockModulationValues : VirtualCore -> M S (list double);
  v_setClockModulation : VirtualCore -> double -> M S unit;
  v_getClockModulation : VirtualCore -> M S double
}.

(** ** Discovering the virtual cores *)
Section discovery.
Context {SH : Shell}.

(** [getTopologyPathFromVirtualCoreId], src/topology/topology-linux.cpp:32-35. *)
Definition getTopologyPathFromVirtualCoreId (w : World) (id : Z) : string :=
  w_prefix w +:+ "/sys/devices/system/cpu/cpu" +:+ intToString id +:+ "/topology/".

(** [Topology::Topology], src/topology/topology.cpp:28-40: the lowest and the highest
    identifier. *)
Definition Topology_coreRange (w : World) : outcome (Z * Z) :=
  let coresListFile := w_prefix w +:+ "/sys/devices/system/cpu/possible" in
  if existsFile w coresListFile then
    range ← readFirstLineFromFile w coresListFile;
    Ret (dashedRangeToIntegers range)
  else
    coresIdentifiers ← getCommandOutput w ("ls " +:+ w_prefix w +:+ "/sys/devices/system/cpu/ | " +:+
                                           "grep cpu | sed  's/cpu//g' | sort -n");
    lo ← vec_front coresIdentifiers;
    hi ← vec_back coresIdentifiers;
    Ret (stringToInt lo, stringToInt hi).

(** [Topology::Topology], src/topology/topology.cpp:43: the identifiers the [for] loop goes
    through; the loop counter is an [unsigned int] and the loop never ends when the bound is the largest one. *)
Definition coreIds (lo hi : Z) : outcome (list Z) :=
  if u32 hi =? 2 ^ 32 - 1 then Undef "the loop on the core identifiers does not end"
  else Ret (seqZ (u32 lo) (u32 hi - u32 lo + 1)).

(** [uniquePhysicalCoreIds], [nextIdToUse] and [coord] of the constructor. *)
Record DiscoverState := mkDiscover {
  ds_unique : gmap (Z * Z) Z; ds_next : Z; ds_coord : list VirtualCoreCoordinates
}.

(** [Topology::Topology], src/topology/topology.cpp:52-67: one online core. *)
Definition discover_core (d : DiscoverState) (cpuId coreId virtualCoreId : Z) : DiscoverState :=
  match ds_unique d !! (cpuId, coreId) with
  | None => mkDiscover (<[(cpuId, coreId) := ds_next d]> (ds_unique d)) (u32 (ds_next d + 1))
              (ds_coord d ++ [mkVcc cpuId (ds_next d) virtualCoreId])
  | Some id => mkDiscover (ds_unique d) (ds_next d) (ds_coord d ++ [mkVcc cpuId id virtualCoreId])
  end.

(** [Topology::Topology], src/topology/topology.cpp:43-69: one iteration. *)
Definition discover_step (w : World) (d : DiscoverState) (virtualCoreId : Z) : outcome DiscoverState :=
  let path := getTopologyPathFromVirtualCoreId w virtualCoreId in
  if existsFile w path then
    package ← readFirstLineFromFile w (path +:+ "physical_package_id");
    core ← readFirstLineFromFile w (path +:+ "core_id");
    Ret (discover_core d (u32 (stringToInt package)) (u32 (stringToInt core)) virtualCoreId)
  else Ret d.

(** [Topology::Topology], src/topology/topology.cpp:21-69. *)
Definition Topology_coordinates (w : World) : outcome (list VirtualCoreCoordinates) :=
  '(lowestCoreId, highestCoreId) ← Topology_coreRange w;
  ids ← coreIds lowestCoreId highestCoreId;
  d ← fold_out ids (mkDiscover ∅ 0 []) (discover_step w);
  Ret (ds_coord d).
End discovery.

(** ** Building the tree *)
Section build.
Context {S : Type} {VO : VirtualCoreOps S}.

(** [Topology::buildVirtualCoresVector], src/topology/topology.cpp:249-274. The result is the
    vector and the topology with the new cores in [_virtualCores]. *)
Definition Topology_buildVirtualCoresVector (tp : Topology) (coord : list VirtualCoreCoordinates)
    (cpuId physicalCoreId : Z) : M S (list VirtualCore * Topology) :=
  for_fold coord ([], tp) (fun '(virtualCores, tp) vcc =>
    if (vcc_cpuId vcc =? cpuId) && (vcc_physicalCoreId vcc =? physicalCoreId) then
      let* v := v_new vcc in
      ret (virtualCores ++ [v],
           mkTopology (tp_cpus tp) (tp_physicalCores tp) (tp_virtualCores tp ++ [v]))
    else ret (virtualCores, tp)).

(** [Topology::buildPhysicalCoresVector], src/topology/topology.cpp:219-247. *)
Definition Topology_buildPhysicalCoresVector (tp : Topology) (coord : list VirtualCoreCoordinates)
    (cpuId : Z) : M S (list PhysicalCore * Topology) :=
  let* r := for_fold coord ([], [], tp) (fun '(physicalCores, usedIdentifiers, tp) vcc =>
    if (vcc_cpuId vcc =? cpuId) && negb (contains usedIdentifiers (vcc_physicalCoreId vcc)) then
      let* ' (vir, tp) :=
        Topology_buildVirtualCoresVector tp coord (vcc_cpuId vcc) (vcc_physicalCoreId vcc) in
      let p := mkPhysicalCore (vcc_cpuId vcc) (vcc_physicalCoreId vcc) vir in
      ret (physicalCores ++ [p], usedIdentifiers ++ [vcc_physicalCoreId vcc],
           mkTopology (tp_cpus tp) (tp_physicalCores tp ++ [p]) (tp_virtualCores tp))
    else ret (physicalCores, usedIdentifiers, tp)) in
  let '(physicalCores, _, tp) := r in
  ret (physicalCores, tp).

(** [Cpu::virtualCoresFromPhysicalCores], src/topology/topology.cpp:321-328. *)
Definition Cpu_virtualCoresFromPhysicalCores (physicalCores : list PhysicalCore) : list VirtualCore :=
  fold_left (fun v p => v ++ pc_virtualCores p) physicalCores [].

(** [Cpu::Cpu], src/topology/topology.cpp:315-319. *)
Definition Cpu_new (cpuId : Z) (physicalCores : list PhysicalCore) : Cpu :=
  mkCpu cpuId physicalCores (Cpu_virtualCoresFromPhysicalCores physicalCores).

(** [Topology::buildCpuVector], src/topology/topology.cpp:188-217. *)
Definition Topology_buildCpuVector (tp : Topology) (coord : list VirtualCoreCoordinates) : M S Topology :=
  let uniqueCpuIds :=
    fold_left (fun ids vcc => if contains ids (vcc_cpuId vcc) then ids else ids ++ [vcc_cpuId vcc])
              coord [] in
  for_fold uniqueCpuIds tp (fun tp cpuId =>
    let* ' (phy, tp) := Topology_buildPhysicalCoresVector tp coord cpuId in
    ret (mkTopology (tp_cpus tp ++ [Cpu_new cpuId phy]) (tp_physicalCores tp) (tp_virtualCores tp))).

(** [Topology::Topology], src/topology/topology.cpp:19-75, on a machine whose outside world is
    [world_of]. *)
Definition Topology_new {SH : Shell} (world_of : S -> World) : M S Topology :=
  let* coord := query (fun s => Topology_coordinates (world_of s)) in
  Topology_buildCpuVector (mkTopology [] [] []) coord.
End build.

(** ** Lookups *)

(** [PhysicalCore::getVirtualCore], src/topology/topology.cpp:448-456. *)
Definition PhysicalCore_getVirtualCore (p : PhysicalCore) (virtualCoreId : Z) : option VirtualCore :=
  find (fun vc => vc_virtualCoreId vc =? virtualCoreId) (pc_virtualCores p).

(** [PhysicalCore::getVirtualCore], src/topology/topology.cpp:458-464. *)
Definition PhysicalCore_getFirstVirtualCore (p : PhysicalCore) : option VirtualCore :=
  head (pc_virtualCores p).

(** The first result of [f] that is not [NULL]. *)
Fixpoint first_found {A B} (l : list A) (f : A -> option B) : option B :=
  match l with
  | [] => None
  | a :: l' => match f a with Some b => Some b | None => first_found l' f end
  end.

(** [Cpu::getPhysicalCore], src/topology/topology.cpp:342-350. *)
Definition Cpu_getPhysicalCore (c : Cpu) (physicalCoreId : Z) : option PhysicalCore :=
  find (fun pc => pc_physicalCoreId pc =? physicalCoreId) (cpu_physicalCores c).

(** [Cpu::getVirtualCore], src/topology/topology.cpp:352-360. *)
Definition Cpu_getVirtualCore (c : Cpu) (virtualCoreId : Z) : option VirtualCore :=
  first_found (cpu_physicalCores c) (fun p => PhysicalCore_getVirtualCore p virtualCoreId).

(** [Cpu::getVirtualCore], src/topology/topology.cpp:362-368. *)
Definition Cpu_getFirstVirtualCore (c : Cpu) : option VirtualCore := head (cpu_virtualCores c).

(** [Topology::getCpu], src/topology/topology.cpp:158-166. *)
Definition Topology_getCpu (t : Topology) (cpuId : Z) : option Cpu :=
  find (fun c => cpu_cpuId c =? cpuId) (tp_cpus t).

(** [Topology::getPhysicalCore], src/topology/topology.cpp:168-176. *)
Definition Topology_getPhysicalCore (t : Topology) (physicalCoreId : Z) : option PhysicalCore :=
  first_found (tp_cpus t) (fun c => Cpu_getPhysicalCore c physicalCoreId).

(** [Topology::getVirtualCore], src/topology/topology.cpp:178-186. *)
Definition Topology_getVirtualCore (t : Topology) (virtualCoreId : Z) : option VirtualCore :=
  first_found (tp_cpus t) (fun c => Cpu_getVirtualCore c virtualCoreId).

(** [Topology::getVirtualCore], src/topology/topology.cpp:276-282. *)
Definition Topology_getFirstVirtualCore (t : Topology) : option VirtualCore := head (tp_virtualCores t).

(** [Topology::virtualToPhysical], src/topology/topology.cpp:139-156. An entry is [None] when
    the topology does not have the core; comparing with it dereferences [NULL]. *)
Fixpoint contains_physical (l : list (option PhysicalCore)) (p : option PhysicalCore) : outcome bool :=
  match l with
  | [] => Ret false
  | q :: l' =>
      match q, p with
      | Some q, Some p => if PhysicalCore_eqb q p then Ret true else contains_physical l' (Some p)
      | _, _ => Undef "null physical core"
      end
  end.

(** [Topology::virtualToPhysical], src/topology/topology.cpp:139-156. *)
Definition Topology_virtualToPhysical (t : Topology) (virtualCores : list VirtualCore) :
    outcome (list (option PhysicalCore)) :=
  fold_out virtualCores [] (fun physicalCores vc =>
    let p := Topology_getPhysicalCore t (vc_physicalCoreId vc) in
    contained ← contains_physical physicalCores p;
    Ret (if (contained : bool) then physicalCores else physicalCores ++ [p])).

(** [getOneVirtualPerPhysical], src/topology/topology.cpp:565-584. *)
Definition getOneVirtualPerPhysical (virtualCores : list VirtualCore) : list VirtualCore :=
  fold_left (fun r vc =>
    if existsb (fun v => vc_physicalCoreId v =? vc_physicalCoreId vc) r then r else r ++ [vc])
    virtualCores [].

(** [getNumPhysicalCores], src/topology/topology.cpp:561-563. *)
Definition getNumPhysicalCores (virtualCores : list VirtualCore) : nat :=
  length (getOneVirtualPerPhysical virtualCores).

(** ** Operations that reach the machine *)
Section operations.
Context {S : Type} {VO : VirtualCoreOps S}.

(** [PhysicalCore::isHotPluggable], src/topology/topology.cpp:466-473. *)
Definition PhysicalCore_isHotPluggable (p : PhysicalCore) : M S bool :=
  for_all (pc_virtualCores p) v_isHotPluggable.

(** [PhysicalCore::isHotPlugged], src/topology/topology.cpp:475-482. *)
Definition PhysicalCore_isHotPlugged (p : PhysicalCore) : M S bool :=
  for_all (pc_virtualCores p) v_isHotPlugged.

(** [PhysicalCore::hotPlug], src/topology/topology.cpp:484-488. *)
Definition PhysicalCore_hotPlug (p : PhysicalCore) : M S unit := for_each (pc_virtualCores p) v_hotPlug.

(** [PhysicalCore::hotUnplug], src/topology/topology.cpp:490-494. *)
Definition PhysicalCore_hotUnplug (p : PhysicalCore) : M S unit := for_each (pc_virtualCores p) v_hotUnplug.

(** [PhysicalCore::hasClockModulation], src/topology/topology.cpp:496-503. *)
Definition PhysicalCore_hasClockModulation (p : PhysicalCore) : M S bool :=
  for_all (pc_virtualCores p) v_hasClockModulation.

(** [PhysicalCore::getClockModulationValues], src/topology/topology.cpp:505-507. *)
Definition PhysicalCore_getClockModulationValues (p : PhysicalCore) : M S (list double) :=
  let* v := lift (vec_index (pc_virtualCores p) 0) in v_getClockModulationValues v.

(** [PhysicalCore::setClockModulation], src/topology/topology.cpp:509-513. *)
Definition PhysicalCore_setClockModulation (p : PhysicalCore) (value : double) : M S unit :=
  for_each (pc_virtualCores p) (fun v => v_setClockModulation v value).

Definition d_minus_one : double := d_of_Z (-1).

(** [PhysicalCore::getClockModulation], src/topology/topology.cpp:515-524. *)
Definition PhysicalCore_getClockModulation (p : PhysicalCore) : M S double :=
  for_fold (pc_virtualCores p) d_minus_one (fun max vc =>
    let* v := v_getClockModulation vc in ret (if dltb max v then v else max)).

(** [PhysicalCoreLinux::maximizeUtilization], src/topology/topology-linux.cpp:89-93. *)
Definition PhysicalCoreLinux_maximizeUtilization (p : PhysicalCore) : M S unit :=
  for_each (pc_virtualCores p) v_maximizeUtilization.

(** [PhysicalCoreLinux::resetUtilization], src/topology/topology-linux.cpp:95-99. *)
Definition PhysicalCoreLinux_resetUtilization (p : PhysicalCore) : M S unit :=
  for_each (pc_virtualCores p) v_resetUtilization.

(** [Cpu::isHotPluggable], src/topology/topology.cpp:370-377. *)
Definition Cpu_isHotPluggable (c : Cpu) : M S bool :=
  for_all (cpu_physicalCores c) PhysicalCore_isHotPluggable.

(** [Cpu::isHotPlugged], src/topology/topology.cpp:379-386. *)
Definition Cpu_isHotPlugged (c : Cpu) : M S bool :=
  for_all (cpu_physicalCores c) PhysicalCore_isHotPlugged.

(** [Cpu::hotPlug], src/topology/topology.cpp:388-392. *)
Definition Cpu_hotPlug (c : Cpu) : M S unit := for_each (cpu_physicalCores c) PhysicalCore_hotPlug.

(** [Cpu::hotUnplug], src/topology/topology.cpp:394-398. *)
Definition Cpu_hotUnplug (c : Cpu) : M S unit := for_each (cpu_physicalCores c) PhysicalCore_hotUnplug.

(** [Cpu::hasClockModulation], src/topology/topology.cpp:400-407. *)
Definition Cpu_hasClockModulation (c : Cpu) : M S bool :=
  for_all (cpu_physicalCores c) PhysicalCore_hasClockModulation.

(** [Cpu::getClockModulationValues], src/topology/topology.cpp:409-411. *)
Definition Cpu_getClockModulationValues (c : Cpu) : M S (list double) :=
  let* p := lift (vec_index (cpu_physicalCores c) 0) in PhysicalCore_getClockModulationValues p.

(** [Cpu::setClockModulation], src/topology/topology.cpp:414-418. *)
Definition Cpu_setClockModulation (c : Cpu) (value : double) : M S unit :=
  for_each (cpu_physicalCores c) (fun p => PhysicalCore_setClockModulation p value).

(** [Cpu::getClockModulation], src/topology/topology.cpp:420-429. *)
Definition Cpu_getClockModulation (c : Cpu) : M S double :=
  for_fold (cpu_physicalCores c) d_minus_one (fun max p =>
    let* v := PhysicalCore_getClockModulation p in ret (if dltb max v then v else max)).

(** [CpuLinux::maximizeUtilization], src/topology/topology-linux.cpp:71-75. *)
Definition CpuLinux_maximizeUtilization (c : Cpu) : M S unit :=
  for_each (cpu_virtualCores c) v_maximizeUtilization.

(** [CpuLinux::resetUtilization], src/topology/topology-linux.cpp:77-81. *)
Definition CpuLinux_resetUtilization (c : Cpu) : M S unit :=
  for_each (cpu_virtualCores c) v_resetUtilization.

(** [TopologyLinux::maximizeUtilization], src/topology/topology-linux.cpp:20-24. *)
Definition TopologyLinux_maximizeUtilization (t : Topology) : M S unit :=
  for_each (tp_virtualCores t) v_maximizeUtilization.

(** [TopologyLinux::resetUtilization], src/topology/topology-linux.cpp:26-30. *)
Definition TopologyLinux_resetUtilization (t : Topology) : M S unit :=
  for_each (tp_virtualCores t) v_resetUtilization.

(** [Topology::getRollbackPoint], src/topology/topology.cpp:284-291. *)
Definition Topology_getRollbackPoint (t : Topology) : M S TopologyRollbackPoint :=
  for_fold (tp_virtualCores t) (mkTopologyRollbackPoint [] []) (fun rp v =>
    let* plugged := v_isHotPlugged v in
    let* modulation := v_getClockModulation v in
    ret (mkTopologyRollbackPoint (rp_plugged rp ++ [plugged]) (rp_clockModulation rp ++ [modulation]))).

(** [Topology::rollback], src/topology/topology.cpp:295-312: one iteration. *)
Definition rollback_core (rollbackPoint : TopologyRollbackPoint) (i : nat) (v : VirtualCore) : M S unit :=
  let* pluggable := v_isHotPluggable v in
  do* (if (pluggable : bool) then
         let* plugged := lift (vec_index (rp_plugged rollbackPoint) i) in
         if (plugged : bool) then
           let* now := v_isHotPlugged v in
           if negb now then v_hotPlug v else ret tt
         else
           let* now := v_isHotPlugged v in
           if (now : bool) then v_hotUnplug v else ret tt
       else ret tt) in
  let* modulated := v_hasClockModulation v in
  if (modulated : bool) then
    let* value := lift (vec_index (rp_clockModulation rollbackPoint) i) in
    v_setClockModulation v value
  else ret tt.

(** [Topology::rollback], src/topology/topology.cpp:293-313. *)
Definition Topology_rollback (t : Topology) (rollbackPoint : TopologyRollbackPoint) : M S unit :=
  for_each (enumerate (tp_virtualCores t)) (fun '(i, v) => rollback_core rollbackPoint i v).
End operations.

(** * Properties *)

(** ** The tree that [buildCpuVector] builds, as a function of the coordinates *)

Definition vc_of (c : VirtualCoreCoordinates) : VirtualCore :=
  mkVirtualCore (vcc_cpuId c) (vcc_physicalCoreId c) (vcc_virtualCoreId c).
Definition coords_of (v : VirtualCore) : VirtualCoreCoordinates :=
  mkVcc (vc_cpuId v) (vc_physicalCoreId v) (vc_virtualCoreId v).

#[local] Notation "'on_cpu' c" := (fun a : VirtualCoreCoordinates => vcc_cpuId a = c) (at level 9, c at level 9).
#[local] Notation "'on_physical' p" := (fun a : VirtualCoreCoordinates => vcc_physicalCoreId a = p) (at level 9, p at level 9).

Definition spec_virtual (coord : list VirtualCoreCoordinates) (c p : Z) : list VirtualCore :=
  vc_of <$> filter (on_physical p) (filter (on_cpu c) coord).
Definition spec_physical (coord : list VirtualCoreCoordinates) (c : Z) : list PhysicalCore :=
  (fun p => mkPhysicalCore c p (spec_virtual coord c p)) <$>
  uniq (vcc_physicalCoreId <$> filter (on_cpu c) coord).
Definition spec_cpus (coord : list VirtualCoreCoordinates) : list Cpu :=
  (fun c => Cpu_new c (spec_physical coord c)) <$> uniq (vcc_cpuId <$> coord).
Definition spec_topology (coord : list VirtualCoreCoordinates) : Topology :=
  mkTopology (spec_cpus coord) (concat (cpu_physicalCores <$> spec_cpus coord))
             (concat (cpu_virtualCores <$> spec_cpus coord)).

Lemma fold_app_concat {A B} (f : A -> list B) l acc :
  fold_left (fun v p => v ++ f p) l acc = acc ++ concat (f <$> l).
Proof.
  revert acc; induction l as [|a l IH]; intros acc; csimpl; [by rewrite app_nil_r|].
  by rewrite IH, <- app_assoc.
Qed.

Lemma Cpu_virtualCores_concat ps :
  Cpu_virtualCoresFromPhysicalCores ps = concat (pc_virtualCores <$> ps).
Proof. unfold Cpu_virtualCoresFromPhysicalCores. by rewrite fold_app_concat. Qed.

Lemma filter_both (coord : list VirtualCoreCoordinates) c p :
  filter (fun a => vcc_cpuId a = c /\ vcc_physicalCoreId a = p) coord =
  filter (on_physical p) (filter (on_cpu c) coord).
Proof. rewrite list_filter_filter. apply list_filter_iff. tauto. Qed.

Lemma spec_virtual_snoc coord a c p :
  spec_virtual (coord ++ [a]) c p = spec_virtual coord c p ++
    (if (vcc_cpuId a =? c) && (vcc_physicalCoreId a =? p) then [vc_of a] else []).
Proof.
  unfold spec_virtual. rewrite !filter_app, fmap_app, !filter_cons, filter_nil. f_equal.
  destruct (Z.eqb_spec (vcc_cpuId a) c), (decide (vcc_cpuId a = c)); try done; simpl.
  rewrite filter_cons, filter_nil.
  by destruct (Z.eqb_spec (vcc_physicalCoreId a) p), (decide (vcc_physicalCoreId a = p)).
Qed.

Section build_spec.
Context {S : Type} {VO : VirtualCoreOps S}.

(** The constructor of a virtual core, when it returns, returns an object with the given
    coordinates. *)
Definition constructs : Prop :=
  forall c s v s', v_new c s = (Ret v, s') -> v = vc_of c.
Hypothesis new_coords : constructs.

Lemma buildVirtualCores_spec tp coord c p s vir tp' s' :
  Topology_buildVirtualCoresVector tp coord c p s = (Ret (vir, tp'), s') ->
  vir = spec_virtual coord c p /\
  tp' = mkTopology (tp_cpus tp) (tp_physicalCores tp) (tp_virtualCores tp ++ vir).
Proof.
  intros H. unfold Topology_buildVirtualCoresVector in H.
  pose (P := fun (d : list VirtualCoreCoordinates) (r : list VirtualCore * Topology) =>
    fst r = spec_virtual d c p /\
    snd r = mkTopology (tp_cpus tp) (tp_physicalCores tp) (tp_virtualCores tp ++ fst r)).
  enough (P ([] ++ coord) (vir, tp')) as [? ?] by done.
  eapply for_fold_Ret_inv; [| |exact H].
  - clear H. intros d [v t] a [v' t'] s1 s2 [Hv Ht] H. simpl in *. subst v.
    unfold P; simpl. rewrite spec_virtual_snoc.
    destruct (_ && _); minv H; injection H as <- <- <-; simpl.
    + apply new_coords in H0 as ->. rewrite Ht. simpl. by rewrite app_assoc.
    + by rewrite app_nil_r.
  - unfold P; simpl. rewrite app_nil_r. by destruct tp.
Qed.

Definition physical_ids (coord : list VirtualCoreCoordinates) (c : Z) : list Z :=
  uniq (vcc_physicalCoreId <$> filter (on_cpu c) coord).

Lemma physical_ids_snoc coord a c :
  physical_ids (coord ++ [a]) c =
  if vcc_cpuId a =? c then uniq_step (physical_ids coord c) (vcc_physicalCoreId a)
  else physical_ids coord c.
Proof.
  unfold physical_ids. rewrite filter_app, fmap_app, filter_cons, filter_nil.
  destruct (Z.eqb_spec (vcc_cpuId a) c), (decide (vcc_cpuId a = c)); try done; csimpl.
  - by rewrite uniq_snoc.
  - by rewrite app_nil_r.
Qed.

Lemma buildPhysicalCores_spec tp coord c s phy tp' s' :
  Topology_buildPhysicalCoresVector tp coord c s = (Ret (phy, tp'), s') ->
  phy = spec_physical coord c /\
  tp' = mkTopology (tp_cpus tp) (tp_physicalCores tp ++ phy)
                   (tp_virtualCores tp ++ concat (pc_virtualCores <$> phy)).
Proof.
  intros H. unfold Topology_buildPhysicalCoresVector in H. minv H. destruct r as [[phy' used] t].
  injection H as <- <- <-.
  pose (mk := fun p => mkPhysicalCore c p (spec_virtual coord c p)).
  pose (P := fun (d : list VirtualCoreCoordinates) (r : list PhysicalCore * list Z * Topology) =>
    let '(phy, used, t) := r in
    used = physical_ids d c /\ phy = mk <$> used /\
    t = mkTopology (tp_cpus tp) (tp_physicalCores tp ++ phy)
                   (tp_virtualCores tp ++ concat (pc_virtualCores <$> phy))).
  enough (P ([] ++ coord) (phy', used, t)) as (-> & -> & ->) by done.
  eapply for_fold_Ret_inv; [| |exact H0].
  - intros d [[ph us] t0] a r s1 s2 (-> & -> & ->) Hr. unfold P. rewrite physical_ids_snoc.
    destruct (Z.eqb_spec (vcc_cpuId a) c) as [Ec|Ec]; simpl in Hr; [|by injection Hr as <- <-].
    unfold contains, uniq_step in *. case_bool_decide; simpl in Hr; [by injection Hr as <- <-|].
    minv Hr. destruct r0 as [vir t1]. injection Hr as <- <-.
    apply buildVirtualCores_spec in Hr0 as [-> ->]. simpl.
    rewrite !fmap_app, concat_app. csimpl. rewrite Ec, app_nil_r, !app_assoc. done.
  - unfold P. simpl. rewrite !app_nil_r. by destruct tp.
Qed.

Lemma uniqueCpuIds_uniq coord :
  fold_left (fun ids vcc => if contains ids (vcc_cpuId vcc) then ids else ids ++ [vcc_cpuId vcc])
    coord [] = uniq (vcc_cpuId <$> coord).
Proof.
  induction coord as [|a l IH] using rev_ind; [done|].
  rewrite fold_left_app, IH, fmap_app. csimpl. by rewrite uniq_snoc.
Qed.

(** A construction that returns builds the tree the coordinates describe. *)
Lemma buildCpuVector_spec coord s tp s' :
  Topology_buildCpuVector (mkTopology [] [] []) coord s = (Ret tp, s') -> tp = spec_topology coord.
Proof.
  unfold Topology_buildCpuVector. rewrite uniqueCpuIds_uniq. intros H.
  pose (mk := fun c => Cpu_new c (spec_physical coord c)).
  pose (P := fun (d : list Z) (t : Topology) =>
    t = mkTopology (mk <$> d) (concat (cpu_physicalCores <$> (mk <$> d)))
                   (concat (cpu_virtualCores <$> (mk <$> d)))).
  enough (P ([] ++ uniq (vcc_cpuId <$> coord)) tp) by done.
  eapply for_fold_Ret_inv; [| |exact H]; [|done].
  clear H. intros d t c t' s1 s2 -> H. minv H. destruct r as [phy t1]. injection H as <- <-.
  apply buildPhysicalCores_spec in H0 as [-> ->]. unfold P. simpl.
  rewrite !fmap_app, !concat_app. csimpl. by rewrite Cpu_virtualCores_concat, !app_nil_r.
Qed.
End build_spec.

(** The tree is built when each virtual core is, under an invariant of the cores built so far
    and the state. *)
Section build_returns.
Context {S : Type} {VO : VirtualCoreOps S}.
Variables (coord : list VirtualCoreCoordinates) (K : list VirtualCore -> S -> Prop).
Hypothesis new_returns : forall vs c, c ∈ coord -> returns (K vs) (v_new c) (fun v => K (vs ++ [v])).

Lemma buildVirtualCores_returns tp c p :
  returns (K (tp_virtualCores tp)) (Topology_buildVirtualCoresVector tp coord c p)
    (fun '(_, tp') => K (tp_virtualCores tp')).
Proof.
  unfold Topology_buildVirtualCoresVector.
  pose proof (returns_for_fold (fun '(_, tp') => K (tp_virtualCores tp')) coord (@nil VirtualCore, tp)) as H.
  apply H. clear H. intros [vir tp'] vcc Hin. destruct (_ && _); [|by apply returns_ret].
  eapply returns_bind; [by apply new_returns|]. intros v. by apply returns_ret.
Qed.

Lemma buildPhysicalCores_returns tp c :
  returns (K (tp_virtualCores tp)) (Topology_buildPhysicalCoresVector tp coord c)
    (fun '(_, tp') => K (tp_virtualCores tp')).
Proof.
  unfold Topology_buildPhysicalCoresVector.
  eapply (returns_bind _ _ _ (fun '(_, _, tp') => K (tp_virtualCores tp'))).
  - pose proof (returns_for_fold (fun '(_, _, tp') => K (tp_virtualCores tp')) coord (@nil PhysicalCore, @nil Z, tp)) as H.
    apply H. clear H. intros [[phy used] tp'] vcc Hin. destruct (_ && _); [|by apply returns_ret].
    eapply returns_bind; [apply buildVirtualCores_returns|]. intros [vir tp1]. by apply returns_ret.
  - intros [[phy used] tp']. by apply returns_ret.
Qed.

Lemma buildCpuVector_returns tp :
  returns (K (tp_virtualCores tp)) (Topology_buildCpuVector tp coord) (fun tp' => K (tp_virtualCores tp')).
Proof.
  unfold Topology_buildCpuVector. apply (returns_for_fold (fun tp' => K (tp_virtualCores tp'))).
  intros tp' c _. eapply returns_bind; [apply buildPhysicalCores_returns|]. intros [phy tp1]. by apply returns_ret.
Qed.
End build_returns.

Lemma fmap_concat {A B} (f : A -> B) (l : list (list A)) :
  f <$> concat l = concat ((fun x : list A => f <$> x) <$> l).
Proof. induction l as [|a l IH]; csimpl; [done|]. by rewrite fmap_app, IH. Qed.

(** The coordinates in the order of the tree. *)
Definition group_physical (coord : list VirtualCoreCoordinates) : list VirtualCoreCoordinates :=
  concat ((fun p => filter (on_physical p) coord) <$> uniq (vcc_physicalCoreId <$> coord)).
Definition grouped (coord : list VirtualCoreCoordinates) : list VirtualCoreCoordinates :=
  concat ((fun c => group_physical (filter (on_cpu c) coord)) <$> uniq (vcc_cpuId <$> coord)).

Lemma Cpu_virtualCores_spec coord c :
  cpu_virtualCores (Cpu_new c (spec_physical coord c)) = vc_of <$> group_physical (filter (on_cpu c) coord).
Proof.
  simpl. rewrite Cpu_virtualCores_concat. unfold spec_physical, group_physical, spec_virtual.
  rewrite fmap_concat, <- !list_fmap_compose. done.
Qed.

Lemma spec_virtualCores coord : tp_virtualCores (spec_topology coord) = vc_of <$> grouped coord.
Proof.
  simpl. unfold spec_cpus, grouped. rewrite fmap_concat, <- !list_fmap_compose.
  f_equal. apply list_fmap_ext. intros i c _. apply Cpu_virtualCores_spec.
Qed.

Lemma coords_of_vc_of (l : list VirtualCoreCoordinates) : coords_of <$> (vc_of <$> l) = l.
Proof.
  rewrite <- list_fmap_compose. rewrite <- (list_fmap_id l) at 2. apply list_fmap_ext.
  by intros i [] _.
Qed.

Lemma elem_of_group_physical l a : a ∈ group_physical l <-> a ∈ l.
Proof.
  unfold group_physical. rewrite list_elem_of_In, in_concat. setoid_rewrite <- list_elem_of_In.
  split.
  - intros (x & (p & -> & _)%list_elem_of_fmap & Ha). by apply list_elem_of_filter in Ha as [_ Ha].
  - intros Ha. exists (filter (on_physical (vcc_physicalCoreId a)) l). split.
    + apply list_elem_of_fmap. exists (vcc_physicalCoreId a). split; [done|].
      apply elem_of_uniq. by apply list_elem_of_fmap_2.
    + by apply list_elem_of_filter.
Qed.

Lemma group_physical_perm l : group_physical l ≡ₚ l.
Proof.
  apply filter_keys_perm; [apply NoDup_uniq|].
  intros a Ha. apply elem_of_uniq. by apply list_elem_of_fmap_2.
Qed.

Lemma grouped_perm coord : grouped coord ≡ₚ coord.
Proof.
  rewrite <- (filter_keys_perm vcc_cpuId (uniq (vcc_cpuId <$> coord)) coord) at 2.
  - unfold grouped. induction (uniq (vcc_cpuId <$> coord)) as [|c cs IH]; csimpl; [done|].
    by rewrite group_physical_perm, IH.
  - apply NoDup_uniq.
  - intros a Ha. apply elem_of_uniq. by apply list_elem_of_fmap_2.
Qed.

(** Grouping is stable: regrouping the grouped coordinates changes nothing. *)
Lemma on_cpu_key coord c a : a ∈ group_physical (filter (on_cpu c) coord) -> vcc_cpuId a = c.
Proof. rewrite elem_of_group_physical. by intros [? _]%list_elem_of_filter. Qed.

Lemma filter_cpu_grouped coord c :
  c ∈ uniq (vcc_cpuId <$> coord) ->
  filter (on_cpu c) (grouped coord) = group_physical (filter (on_cpu c) coord).
Proof.
  intros Hc. unfold grouped.
  rewrite (filter_concat vcc_cpuId _ (on_cpu_key coord) c) by apply NoDup_uniq.
  by destruct (decide _).
Qed.

Lemma group_physical_nonempty l : l <> [] -> group_physical l <> [].
Proof.
  intros Hl Hg. destruct l as [|a l]; [done|].
  assert (a ∈ group_physical (a :: l)) as Ha by (apply elem_of_group_physical; left).
  rewrite Hg in Ha. by apply elem_of_nil in Ha.
Qed.

Lemma filter_key_nonempty {A K} `{EqDecision K} (k : A -> K) (l : list A) x :
  x ∈ k <$> l -> filter (fun a => k a = x) l <> [].
Proof.
  intros (a & -> & Ha)%list_elem_of_fmap Hn.
  by apply (filter_nil_not_elem_of _ l a Hn).
Qed.

Lemma cpu_ids_grouped coord :
  uniq (vcc_cpuId <$> grouped coord) = uniq (vcc_cpuId <$> coord).
Proof.
  unfold uniq at 1, grouped. rewrite (uniq_concat vcc_cpuId _ (on_cpu_key coord)); [done| |].
  - apply NoDup_uniq.
  - intros c Hc. apply group_physical_nonempty. apply filter_key_nonempty.
    by apply elem_of_uniq.
Qed.

Lemma on_physical_key (l : list VirtualCoreCoordinates) p a :
  a ∈ filter (on_physical p) l -> vcc_physicalCoreId a = p.
Proof. by intros [? _]%list_elem_of_filter. Qed.

Lemma filter_physical_grouped l p :
  filter (on_physical p) (group_physical l) = filter (on_physical p) l.
Proof.
  unfold group_physical.
  rewrite (filter_concat vcc_physicalCoreId _ (on_physical_key l) p) by apply NoDup_uniq.
  destruct (decide _) as [|Hp]; [done|].
  symmetry. apply filter_none. intros a Ha <-. apply Hp. apply elem_of_uniq.
  by apply list_elem_of_fmap_2.
Qed.

Lemma physical_ids_grouped l :
  uniq (vcc_physicalCoreId <$> group_physical l) = uniq (vcc_physicalCoreId <$> l).
Proof.
  unfold uniq at 1, group_physical.
  rewrite (uniq_concat vcc_physicalCoreId _ (on_physical_key l)); [done| |].
  - apply NoDup_uniq.
  - intros p Hp. apply filter_key_nonempty. by apply elem_of_uniq.
Qed.

Lemma spec_physical_grouped coord c :
  c ∈ uniq (vcc_cpuId <$> coord) -> spec_physical (grouped coord) c = spec_physical coord c.
Proof.
  intros Hc. unfold spec_physical, spec_virtual.
  rewrite (filter_cpu_grouped _ _ Hc), physical_ids_grouped.
  apply list_fmap_ext. intros i p _. by rewrite filter_physical_grouped.
Qed.

Lemma spec_topology_grouped coord : spec_topology (grouped coord) = spec_topology coord.
Proof.
  assert (spec_cpus (grouped coord) = spec_cpus coord) as E.
  { unfold spec_cpus. rewrite cpu_ids_grouped. apply list_fmap_ext. intros i c Hc.
    f_equal. apply spec_physical_grouped. by eapply list_elem_of_lookup_2. }
  unfold spec_topology. by rewrite E.
Qed.

(** ** Lookups *)

Lemma find_app {A} (p : A -> bool) l1 l2 :
  find p (l1 ++ l2) = match find p l1 with Some a => Some a | None => find p l2 end.
Proof. induction l1 as [|a l1 IH]; simpl; [done|]. by destruct (p a). Qed.

(** Searching the parts one after the other is searching their concatenation. *)
Lemma first_found_find {A B} (p : B -> bool) (g : A -> list B) l :
  first_found l (fun a => find p (g a)) = find p (concat (g <$> l)).
Proof.
  induction l as [|a l IH]; csimpl; [done|]. rewrite find_app, <- IH. done.
Qed.

Lemma first_found_ext {A B} (f g : A -> option B) l :
  (forall a, a ∈ l -> f a = g a) -> first_found l f = first_found l g.
Proof.
  induction l as [|a l IH]; intros H; simpl; [done|].
  rewrite H by left. rewrite IH; [done|]. intros; apply H; by right.
Qed.

Lemma find_NoDup {A} (k : A -> Z) l id a :
  NoDup (k <$> l) -> a ∈ l -> k a = id -> find (fun b => k b =? id) l = Some a.
Proof.
  induction l as [|b l IH]; intros Hnd Ha Hk; [by apply elem_of_nil in Ha|].
  rewrite fmap_cons in Hnd. apply NoDup_cons in Hnd as [Hb Hnd]. simpl.
  destruct (Z.eqb_spec (k b) id) as [E|E].
  - apply elem_of_cons in Ha as [->|Ha]; [done|]. exfalso. apply Hb.
    rewrite E, <- Hk. by apply list_elem_of_fmap_2.
  - apply elem_of_cons in Ha as [->|Ha]; [done|]. by apply IH.
Qed.

Lemma find_Some_elem {A} (k : A -> Z) l id a :
  find (fun b => k b =? id) l = Some a -> a ∈ l /\ k a = id.
Proof.
  intros H. apply find_some in H as [H1 H2]. split; [by apply list_elem_of_In|by apply Z.eqb_eq].
Qed.

Section lookups.
Variable coord : list VirtualCoreCoordinates.
Let t := spec_topology coord.

Lemma getVirtualCore_find id :
  Topology_getVirtualCore t id = find (fun v => vc_virtualCoreId v =? id) (tp_virtualCores t).
Proof.
  unfold Topology_getVirtualCore, t. simpl. rewrite <- first_found_find. apply first_found_ext.
  intros c Hc. unfold Cpu_getVirtualCore, PhysicalCore_getVirtualCore. rewrite first_found_find.
  unfold spec_cpus in Hc. apply list_elem_of_fmap in Hc as (x & -> & _). simpl.
  by rewrite Cpu_virtualCores_concat.
Qed.

Lemma getPhysicalCore_find id :
  Topology_getPhysicalCore t id = find (fun p => pc_physicalCoreId p =? id) (tp_physicalCores t).
Proof. unfold Topology_getPhysicalCore, Cpu_getPhysicalCore. by rewrite first_found_find. Qed.

Lemma elem_of_physicalCores p :
  p ∈ tp_physicalCores t <-> exists a, a ∈ coord /\
    p = mkPhysicalCore (vcc_cpuId a) (vcc_physicalCoreId a)
          (spec_virtual coord (vcc_cpuId a) (vcc_physicalCoreId a)).
Proof.
  unfold t; simpl. rewrite list_elem_of_In, in_concat. setoid_rewrite <- list_elem_of_In. split.
  - intros (ps & (c & -> & Hc)%list_elem_of_fmap & Hp).
    unfold spec_cpus in Hc. apply list_elem_of_fmap in Hc as (x & -> & Hx). simpl in Hp.
    apply list_elem_of_fmap in Hp as (y & -> & Hy). rewrite elem_of_uniq in Hy.
    apply list_elem_of_fmap in Hy as (a & -> & Ha).
    apply list_elem_of_filter in Ha as [<- Ha]. by exists a.
  - intros (a & Ha & ->). exists (spec_physical coord (vcc_cpuId a)). split.
    + apply list_elem_of_fmap. exists (Cpu_new (vcc_cpuId a) (spec_physical coord (vcc_cpuId a))).
      split; [done|]. unfold spec_cpus. apply list_elem_of_fmap. exists (vcc_cpuId a).
      split; [done|]. apply elem_of_uniq. by apply list_elem_of_fmap_2.
    + apply list_elem_of_fmap. exists (vcc_physicalCoreId a). split; [done|].
      apply elem_of_uniq, list_elem_of_fmap_2. by apply list_elem_of_filter.
Qed.

Lemma elem_of_virtualCores v : v ∈ tp_virtualCores t <-> exists a, a ∈ coord /\ v = vc_of a.
Proof.
  unfold t. rewrite spec_virtualCores, list_elem_of_fmap. setoid_rewrite grouped_perm. naive_solver.
Qed.
End lookups.

(** ** Unique identifiers of the physical cores *)

(** The index of a key among the distinct keys of a list. *)
Definition raw := (Z * Z * Z)%type.
Definition raw_pair (r : raw) : Z * Z := fst r.
Definition discover_all (raws : list raw) : DiscoverState :=
  fold_left (fun d '(c, k, v) => discover_core d c k v) raws (mkDiscover ∅ 0 []).

(** The state of the loop after the cores [raws]: the map numbers the distinct pairs in order
    of first appearance, and the coordinates are those of the cores with the pair replaced by
    its number. *)
Definition discover_inv (raws : list raw) (d : DiscoverState) : Prop :=
  let U := uniq (raw_pair <$> raws) in
  ds_next d = Z.of_nat (length U) /\
  (forall p n, ds_unique d !! p = Some n <-> exists i : nat, U !! i = Some p /\ n = Z.of_nat i) /\
  Forall2 (fun r a => exists n, ds_unique d !! raw_pair r = Some n /\
             a = mkVcc (fst (raw_pair r)) n (snd r)) raws (ds_coord d).

Lemma discover_core_inv raws d c k v :
  Z.of_nat (length raws) < 2 ^ 32 - 1 ->
  discover_inv raws d -> discover_inv (raws ++ [(c, k, v)]) (discover_core d c k v).
Proof.
  intros Hlen (Hn & Hu & Hc). unfold discover_inv. rewrite fmap_app. csimpl.
  rewrite uniq_snoc. change (raw_pair (c, k, v)) with (c, k). unfold uniq_step, discover_core.
  pose proof (length_uniq (raw_pair <$> raws)) as Hl. rewrite length_fmap in Hl.
  destruct (ds_unique d !! (c, k)) as [n|] eqn:E.
  - assert ((c, k) ∈ uniq (raw_pair <$> raws)) as Hin.
    { apply Hu in E as (i & Hi & _). by eapply list_elem_of_lookup_2. }
    rewrite bool_decide_eq_true_2 by done. simpl. split; [done|]. split; [done|].
    apply Forall2_app; [done|]. constructor; [|constructor]. by exists n.
  - assert ((c, k) ∉ uniq (raw_pair <$> raws)) as Hin.
    { intros [i Hi]%list_elem_of_lookup. assert (ds_unique d !! (c, k) = Some (Z.of_nat i)); [|congruence].
      apply Hu. by exists i. }
    rewrite bool_decide_eq_false_2 by done. simpl. split; [|split].
    + rewrite length_app, Hn. simpl. rewrite u32_id by (unfold is_u32; lia). lia.
    + intros p m. rewrite lookup_insert_Some, Hu. split.
      * intros [[<- <-]|[Hne (i & Hi & ->)]].
        -- exists (length (uniq (raw_pair <$> raws))). by rewrite lookup_app_r, Nat.sub_diag by done.
        -- exists i. by rewrite lookup_app_l by by eapply lookup_lt_Some.
      * intros (i & Hi & ->). apply lookup_app_Some in Hi as [Hi|[Hle Hi]].
        -- right. split; [|by exists i]. intros <-. apply Hin. by eapply list_elem_of_lookup_2.
        -- apply list_lookup_singleton_Some in Hi as [Hi <-]. left. split; [done|]. rewrite Hn. lia.
    + apply Forall2_app.
      * eapply Forall2_impl; [exact Hc|]. intros r a (n & Hr & ->). exists n.
        rewrite lookup_insert_ne; [done|]. intros Er. congruence.
      * constructor; [|constructor]. exists (ds_next d). by rewrite lookup_insert_eq.
Qed.

Lemma discover_all_inv raws :
  Z.of_nat (length raws) < 2 ^ 32 -> discover_inv raws (discover_all raws).
Proof.
  induction raws as [|[[c k] v] raws IH] using rev_ind; intros Hlen.
  { split; [done|]. split; [|constructor]. intros p n. simpl. rewrite lookup_empty.
    split; [done|]. intros (i & Hi & _). by destruct i. }
  rewrite length_app in Hlen. simpl in Hlen.
  unfold discover_all. rewrite fold_left_app. simpl. apply discover_core_inv; [lia|].
  apply IH. lia.
Qed.

(** A virtual core is online when sysfs has its topology, and what sysfs then says: the package,
    and the core, whose number is unique only within its package. *)
Definition online_core (w : World) (id : Z) : bool := existsFile w (getTopologyPathFromVirtualCoreId w id).
Definition reported (w : World) (id : Z) : outcome (Z * Z) :=
  package ← readFirstLineFromFile w (getTopologyPathFromVirtualCoreId w id +:+ "physical_package_id");
  core ← readFirstLineFromFile w (getTopologyPathFromVirtualCoreId w id +:+ "core_id");
  Ret (u32 (stringToInt package), u32 (stringToInt core)).

Lemma discover_step_spec w d id d' :
  discover_step w d id = Ret d' ->
  if online_core w id then exists c k, reported w id = Ret (c, k) /\ d' = discover_core d c k id else d' = d.
Proof.
  unfold discover_step, online_core, reported. destruct (existsFile _ _); [|by intros [= ->]].
  intros H. minv H. injection H as <-. eexists _, _. split; [|reflexivity]. by rewrite H0; simpl; rewrite H1.
Qed.

(** The loop of the constructor goes through the online cores among its identifiers. *)
Lemma discover_loop_spec w ids d' :
  fold_out ids (mkDiscover ∅ 0 []) (discover_step w) = Ret d' ->
  exists raws, d' = discover_all raws /\ raws.*2 = filter (fun id => online_core w id = true) ids /\
    Forall (fun r => reported w r.2 = Ret r.1) raws.
Proof.
  intros H. pose (P := fun ids d => exists raws, d = discover_all raws /\
    raws.*2 = filter (fun id => online_core w id = true) ids /\ Forall (fun r => reported w r.2 = Ret r.1) raws).
  enough (P ([] ++ ids) d') by done.
  eapply fold_out_Ret_inv; [| |exact H]; [|by exists []].
  intros done_ d id d2 (raws & -> & Hs & Hf) Hd. apply discover_step_spec in Hd.
  unfold P. rewrite filter_app, filter_cons, filter_nil. destruct (online_core w id) eqn:Eo.
  - destruct Hd as (c & k & Er & ->). exists (raws ++ [(c, k, id)]). split; [|split].
    + unfold discover_all. by rewrite fold_left_app.
    + rewrite fmap_app, Hs. by rewrite decide_True.
    + apply Forall_app. split; [done|]. by apply Forall_singleton.
  - exists raws. rewrite decide_False, app_nil_r by done. by subst.
Qed.

Lemma coreIds_spec lo hi ids : coreIds lo hi = Ret ids ->
  NoDup ids /\ Z.of_nat (length ids) < 2 ^ 32 /\ forall id, id ∈ ids <-> u32 lo <= id <= u32 hi.
Proof.
  unfold coreIds. destruct (Z.eqb_spec (u32 hi) (2 ^ 32 - 1)) as [|Hne]; [done|]. intros [= <-].
  pose proof (u32_range lo). pose proof (u32_range hi). unfold is_u32 in *.
  split; [apply NoDup_seqZ|]. split; [rewrite length_seqZ; lia|]. intros id. rewrite elem_of_seqZ. lia.
Qed.

(** Coordinates as the rest of the program relies on: distinct virtual identifiers, and the
    identifier of a physical core determines its CPU. *)
Definition coords_ok (coord : list VirtualCoreCoordinates) : Prop :=
  NoDup (vcc_virtualCoreId <$> coord) /\
  forall a b, a ∈ coord -> b ∈ coord -> vcc_physicalCoreId a = vcc_physicalCoreId b ->
    vcc_cpuId a = vcc_cpuId b.

Lemma discover_inv_coords raws d :
  discover_inv raws d -> NoDup (snd <$> raws) -> coords_ok (ds_coord d).
Proof.
  intros (_ & Hu & Hc) Hnd. split.
  - replace (vcc_virtualCoreId <$> ds_coord d) with (snd <$> raws); [done|].
    clear Hu Hnd. induction Hc as [|r a rs l (n & _ & ->) _ IH]; [done|]. csimpl. by rewrite IH.
  - intros a b Ha Hb E.
    apply list_elem_of_lookup in Ha as [i Hi], Hb as [j Hj].
    destruct (Forall2_lookup_r _ _ _ _ _ Hc Hi) as (r1 & _ & n & H1 & ->).
    destruct (Forall2_lookup_r _ _ _ _ _ Hc Hj) as (r2 & _ & m & H2 & ->).
    simpl in *. subst m. apply Hu in H1 as (i1 & H1 & ->). apply Hu in H2 as (i2 & H2 & E2).
    assert (i1 = i2) as -> by lia. congruence.
Qed.

Section discovery_props.
Context {SH : Shell}.

Lemma Topology_coordinates_ok w coord : Topology_coordinates w = Ret coord -> coords_ok coord.
Proof.
  unfold Topology_coordinates. intros H. minv H. destruct r as [lo hi]. minv H. injection H as <-.
  apply discover_loop_spec in H2 as (raws & -> & Hs & _).
  apply coreIds_spec in H1 as (Hnd & Hlen & _).
  apply discover_inv_coords with raws.
  - apply discover_all_inv. apply (f_equal length) in Hs. rewrite length_fmap in Hs.
    pose proof (length_filter (fun id => online_core w id = true) r). unfold raw in *. lia.
  - rewrite Hs. by apply NoDup_filter.
Qed.

(** The coordinates are those of the cores that are online, with the package that sysfs says, and
    cores have the same physical core when sysfs says the same package and core. *)
Lemma Topology_coordinates_exact w coord : Topology_coordinates w = Ret coord ->
  exists lo hi, Topology_coreRange w = Ret (lo, hi) /\
    (forall id, id ∈ vcc_virtualCoreId <$> coord <-> u32 lo <= id <= u32 hi /\ online_core w id = true) /\
    (forall a, a ∈ coord -> exists k, reported w (vcc_virtualCoreId a) = Ret (vcc_cpuId a, k)) /\
    (forall a b, a ∈ coord -> b ∈ coord ->
       vcc_physicalCoreId a = vcc_physicalCoreId b <-> reported w (vcc_virtualCoreId a) = reported w (vcc_virtualCoreId b)).
Proof.
  unfold Topology_coordinates. intros H. minv H. destruct r as [lo hi]. minv H. injection H as <-.
  exists lo, hi. split; [done|]. apply discover_loop_spec in H2 as (raws & -> & Hs & Hr).
  apply coreIds_spec in H1 as (Hnd & Hlen & Hin).
  assert (discover_inv raws (discover_all raws)) as (_ & Hu & Hc).
  { apply discover_all_inv. apply (f_equal length) in Hs. rewrite length_fmap in Hs.
    pose proof (length_filter (fun id => online_core w id = true) r). unfold raw in *. lia. }
  assert (forall a, a ∈ ds_coord (discover_all raws) -> exists p n, reported w (vcc_virtualCoreId a) = Ret p /\
    ds_unique (discover_all raws) !! p = Some n /\ vcc_cpuId a = p.1 /\ vcc_physicalCoreId a = n) as Ha.
  { intros a [i Hi]%list_elem_of_lookup. destruct (Forall2_lookup_r _ _ _ _ _ Hc Hi) as ([p id] & Hri & n & Hn & ->).
    exists p, n. split; [|done]. rewrite Forall_forall in Hr. apply (Hr (p, id)). by eapply list_elem_of_lookup_2. }
  split; [|split].
  - intros id. assert (vcc_virtualCoreId <$> ds_coord (discover_all raws) = raws.*2) as ->.
    { clear -Hc. induction Hc as [|x a rs l (n & _ & ->) _ IH]; [done|]. csimpl. by rewrite IH. }
    rewrite Hs, list_elem_of_filter, Hin. tauto.
  - intros a Hin'. destruct (Ha a Hin') as ([c k] & n & Hp & _ & -> & _). by exists k.
  - intros a b Hin1 Hin2. destruct (Ha a Hin1) as (p & n & Hp & Hn & _ & ->), (Ha b Hin2) as (q & m & Hq & Hm & _ & ->).
    rewrite Hp, Hq. split; [|intros [= ->]; congruence]. intros ->. f_equal.
    apply Hu in Hn as (i & Hi & ->), Hm as (j & Hj & E). replace j with i in Hj by lia. congruence.
Qed.

(** Every identifier of the coordinates is an [unsigned int]. *)
Definition vcc_range (c : VirtualCoreCoordinates) : Prop :=
  is_u32 (vcc_cpuId c) /\ is_u32 (vcc_physicalCoreId c) /\ is_u32 (vcc_virtualCoreId c).
Definition discover_range (d : DiscoverState) : Prop :=
  is_u32 (ds_next d) /\ (forall p n, ds_unique d !! p = Some n -> is_u32 n) /\ Forall vcc_range (ds_coord d).

Lemma discover_core_range d c k v : is_u32 c -> is_u32 v -> discover_range d -> discover_range (discover_core d c k v).
Proof.
  intros Hc Hv (Hn & Hu & Hf). unfold discover_core. destruct (ds_unique d !! (c, k)) as [n|] eqn:E.
  - split; [done|]. split; [done|]. apply Forall_app. split; [done|]. apply Forall_singleton.
    split; [done|]. split; [by eapply Hu|done].
  - split; [apply u32_range|]. split.
    + intros p n. cbn. rewrite lookup_insert_Some. intros [[_ <-]|[_ H]]; [done|by eapply Hu].
    + apply Forall_app. split; [done|]. by apply Forall_singleton.
Qed.

Lemma Topology_coordinates_range w coord : Topology_coordinates w = Ret coord -> Forall vcc_range coord.
Proof.
  unfold Topology_coordinates. intros H. minv H. destruct r as [lo hi]. minv H. injection H as <-.
  assert (Forall is_u32 r) as Hr.
  { unfold coreIds in H1. destruct (Z.eqb_spec (u32 hi) (2 ^ 32 - 1)); [done|]. injection H1 as <-.
    apply Forall_forall. intros x Hx%elem_of_seqZ. pose proof (u32_range lo). pose proof (u32_range hi).
    unfold is_u32 in *. lia. }
  pose (P := fun ids d => Forall is_u32 ids -> discover_range d).
  enough (P ([] ++ r) r0) as HP by by apply HP.
  eapply fold_out_Ret_inv; [| |exact H2].
  - intros done_ d id d2 HP Hd Hf. apply Forall_app in Hf as [Hf Hi]. rewrite Forall_singleton in Hi. specialize (HP Hf).
    unfold discover_step in Hd. destruct (existsFile _ _); [|by injection Hd as <-]. minv Hd. injection Hd as <-.
    apply discover_core_range; [apply u32_range|done|done].
  - intros _. split; [done|]. split; [|constructor]. intros p n Hn. cbn in Hn. by rewrite lookup_empty in Hn.
Qed.
End discovery_props.

(** ** What a class of virtual cores promises *)

(** The law of a class of virtual cores on the cores [cores] of a machine: [law_ok] is the
    invariant of the machine, the views say what each core's state is. *)
Class VirtualCoreLaws (S : Type) {VO : VirtualCoreOps S} (cores : list VirtualCore) := {
  law_ok : S -> Prop;
  law_pluggable : VirtualCore -> bool;
  law_plugged : VirtualCore -> S -> bool;
  law_modulated : VirtualCore -> bool;
  law_modulation : VirtualCore -> S -> double;
  law_legal : double -> Prop;
  law_isHotPluggable v s : v ∈ cores -> law_ok s ->
    v_isHotPluggable v s = (Ret (law_pluggable v), s);
  law_isHotPlugged v s : v ∈ cores -> law_ok s -> v_isHotPlugged v s = (Ret (law_plugged v s), s);
  law_set_plug (b : bool) v s : v ∈ cores -> law_ok s ->
    exists s', (if b then v_hotPlug v else v_hotUnplug v) s = (Ret tt, s') /\ law_ok s' /\
      law_plugged v s' = (if law_pluggable v then b else law_plugged v s) /\
      (forall v', v' ∈ cores -> v' <> v -> law_plugged v' s' = law_plugged v' s) /\
      (forall v', v' ∈ cores -> law_modulation v' s' = law_modulation v' s);
  law_hasClockModulation v s : v ∈ cores -> law_ok s ->
    v_hasClockModulation v s = (Ret (law_modulated v), s);
  law_getClockModulation v s : v ∈ cores -> law_ok s ->
    v_getClockModulation v s = (Ret (law_modulation v s), s);
  law_modulation_legal v s : v ∈ cores -> law_ok s -> law_modulated v = true ->
    law_legal (law_modulation v s);
  law_setClockModulation v x s : v ∈ cores -> law_ok s -> law_modulated v = true -> law_legal x ->
    exists s', v_setClockModulation v x s = (Ret tt, s') /\ law_ok s' /\
      law_modulation v s' = x /\
      (forall v', v' ∈ cores -> v' <> v -> law_modulation v' s' = law_modulation v' s) /\
      (forall v', v' ∈ cores -> law_plugged v' s' = law_plugged v' s)
}.

Section law_props.
Context {S : Type} {VO : VirtualCoreOps S} {cores : list VirtualCore} {VL : VirtualCoreLaws S cores}.

Definition v_set_plug (b : bool) (v : VirtualCore) : M S unit := if b then v_hotPlug v else v_hotUnplug v.

(** Plugging or unplugging a list of cores. *)
Lemma for_each_set_plug b l s :
  l ⊆ cores -> law_ok s ->
  exists s', for_each l (v_set_plug b) s = (Ret tt, s') /\ law_ok s' /\
    (forall v, v ∈ cores -> law_plugged v s' =
       if bool_decide (v ∈ l) && law_pluggable v then b else law_plugged v s) /\
    (forall v, v ∈ cores -> law_modulation v s' = law_modulation v s).
Proof.
  intros Hl Hok.
  destruct (for_each_inv (fun d s' => law_ok s' /\
    (forall v, v ∈ cores -> law_plugged v s' =
       if bool_decide (v ∈ d) && law_pluggable v then b else law_plugged v s) /\
    (forall v, v ∈ cores -> law_modulation v s' = law_modulation v s)) (v_set_plug b) l [] s)
    as (s' & H1 & H2); [|..|by exists s'].
  { split; [done|]. done. }
  intros v d s1 Hv (Hok1 & Hp1 & Hm1).
  destruct (law_set_plug b v s1) as (s2 & E & Hok2 & Hv2 & Hp2 & Hm2); [by apply Hl|done|].
  exists s2. split; [done|]. split; [done|]. split.
  - intros v' Hv'. destruct (decide (v' = v)) as [->|Hne].
    + rewrite (bool_decide_eq_true_2 (v ∈ d ++ [v])) by set_solver. rewrite Hv2. simpl.
      destruct (law_pluggable v) eqn:E1; [done|]. by rewrite Hp1, E1, andb_false_r.
    + rewrite Hp2, Hp1 by done.
      rewrite (bool_decide_ext (v' ∈ d ++ [v]) (v' ∈ d)); [done|set_solver].
  - intros v' Hv'. by rewrite Hm2, Hm1.
Qed.

Lemma for_all_isHotPlugged l s :
  l ⊆ cores -> law_ok s ->
  for_all l v_isHotPlugged s = (Ret (forallb (fun v => law_plugged v s) l), s).
Proof.
  intros Hl Hok. induction l as [|v l IH]; [done|]. simpl.
  rewrite (bind_Ret _ _ _ _ _ (law_isHotPlugged v s ltac:(apply Hl; left) Hok)).
  destruct (law_plugged v s); [|done]. apply IH. set_solver.
Qed.

Lemma for_each_concat {A B} (g : A -> list B) (f : B -> M S unit) l s :
  for_each l (fun a => for_each (g a) f) s = for_each (concat (g <$> l)) f s.
Proof.
  revert s. induction l as [|a l IH]; intros s; csimpl; [done|].
  rewrite for_each_app. unfold bind. destruct (for_each (g a) f s) as [[] s']; auto.
Qed.

Lemma for_all_concat {A B} (g : A -> list B) (f : B -> M S bool) l s :
  for_all l (fun a => for_all (g a) f) s = for_all (concat (g <$> l)) f s.
Proof.
  revert s. induction l as [|a l IH]; intros s; csimpl; [done|].
  generalize (g a) as xs. intros xs. revert s. induction xs as [|x xs IHx]; intros s; simpl.
  { apply IH. }
  rewrite bind_assoc. unfold bind at 1 3. destruct (f x s) as [[[]| |] s']; done.
Qed.

Lemma getRollbackPoint_spec t s :
  tp_virtualCores t = cores -> law_ok s ->
  Topology_getRollbackPoint t s =
    (Ret (mkTopologyRollbackPoint ((fun v => law_plugged v s) <$> cores)
                                  ((fun v => law_modulation v s) <$> cores)), s).
Proof.
  intros Ht Hok. unfold Topology_getRollbackPoint. rewrite Ht.
  assert (forall l p m, l ⊆ cores ->
    for_fold l (mkTopologyRollbackPoint p m) (fun rp v =>
      let* plugged := v_isHotPlugged v in
      let* modulation := v_getClockModulation v in
      ret (mkTopologyRollbackPoint (rp_plugged rp ++ [plugged]) (rp_clockModulation rp ++ [modulation]))) s
    = (Ret (mkTopologyRollbackPoint (p ++ ((fun v => law_plugged v s) <$> l))
                                    (m ++ ((fun v => law_modulation v s) <$> l))), s)) as H.
  { induction l as [|v l IH]; intros p m Hl; csimpl; [by rewrite !app_nil_r|].
    assert (v ∈ cores) as Hv by (apply Hl; left). rewrite bind_assoc.
    rewrite (bind_Ret _ _ _ _ _ (law_isHotPlugged v s Hv Hok)), bind_assoc.
    rewrite (bind_Ret _ _ _ _ _ (law_getClockModulation v s Hv Hok)), ret_bind. simpl.
    rewrite IH by set_solver. by rewrite <- !app_assoc. }
  by apply (H cores [] []).
Qed.

(** One iteration of [rollback] brings its core back and touches no other core. *)
Definition restored (s0 : S) (v : VirtualCore) (s : S) : Prop :=
  (law_pluggable v = true -> law_plugged v s = law_plugged v s0) /\
  (law_modulated v = true -> law_modulation v s = law_modulation v s0).

Lemma rollback_plug v i s rp b :
  v ∈ cores -> law_ok s -> rp_plugged rp !! i = Some b ->
  exists s', (let* pluggable := v_isHotPluggable v in
     if (pluggable : bool) then
       let* plugged := lift (vec_index (rp_plugged rp) i) in
       if (plugged : bool) then
         let* now := v_isHotPlugged v in if negb now then v_hotPlug v else ret tt
       else let* now := v_isHotPlugged v in if (now : bool) then v_hotUnplug v else ret tt
     else ret tt) s = (Ret tt, s') /\ law_ok s' /\
    (law_pluggable v = true -> law_plugged v s' = b) /\
    (forall v', v' ∈ cores -> v' <> v -> law_plugged v' s' = law_plugged v' s) /\
    (forall v', v' ∈ cores -> law_modulation v' s' = law_modulation v' s).
Proof.
  intros Hv Hok Hb. rewrite (bind_Ret _ _ _ _ _ (law_isHotPluggable v s Hv Hok)).
  destruct (law_pluggable v) eqn:Ep; [|by exists s].
  unfold vec_index. rewrite Hb. change (lift (Ret b)) with (@ret S bool b). rewrite ret_bind.
  destruct b; rewrite (bind_Ret _ _ _ _ _ (law_isHotPlugged v s Hv Hok)).
  - destruct (law_plugged v s) eqn:E; simpl; [by exists s|].
    destruct (law_set_plug true v s Hv Hok) as (s' & H1 & H2 & H3 & H4 & H5).
    rewrite Ep in H3. exists s'. done.
  - destruct (law_plugged v s) eqn:E; simpl; [|by exists s].
    destruct (law_set_plug false v s Hv Hok) as (s' & H1 & H2 & H3 & H4 & H5).
    rewrite Ep in H3. exists s'. done.
Qed.

Lemma rollback_core_spec v i s0 s :
  cores !! i = Some v -> law_ok s -> law_ok s0 ->
  let rp := mkTopologyRollbackPoint ((fun v => law_plugged v s0) <$> cores)
                                    ((fun v => law_modulation v s0) <$> cores) in
  exists s', rollback_core rp i v s = (Ret tt, s') /\ law_ok s' /\ restored s0 v s' /\
    (forall v', v' ∈ cores -> v' <> v -> law_plugged v' s' = law_plugged v' s /\
                                     law_modulation v' s' = law_modulation v' s).
Proof.
  intros Hi Hok Hok0 rp. assert (v ∈ cores) as Hv by by eapply list_elem_of_lookup_2.
  assert (rp_plugged rp !! i = Some (law_plugged v s0)) as Hp by (simpl; by rewrite list_lookup_fmap, Hi).
  assert (rp_clockModulation rp !! i = Some (law_modulation v s0)) as Hm
    by (simpl; by rewrite list_lookup_fmap, Hi).
  clearbody rp. unfold rollback_core.
  destruct (rollback_plug v i s rp _ Hv Hok Hp) as (s1 & E1 & Hok1 & Hv1 & Hp1 & Hm1).
  rewrite <- bind_assoc. rewrite (bind_Ret _ _ _ _ _ E1).
  rewrite (bind_Ret _ _ _ _ _ (law_hasClockModulation v s1 Hv Hok1)).
  destruct (law_modulated v) eqn:Em.
  - unfold vec_index. rewrite Hm. change (lift (Ret ?x)) with (@ret S _ x). rewrite ret_bind.
    destruct (law_setClockModulation v (law_modulation v s0) s1) as (s2 & E2 & Hok2 & Hv2 & Hm2 & Hp2);
      [done..|by apply law_modulation_legal|].
    exists s2. split; [done|]. split; [done|]. split.
    + split; [|done]. intros Hpl. rewrite Hp2 by done. by apply Hv1.
    + intros v' Hv' Hne. by rewrite Hp2, Hm2, Hp1, Hm1.
  - exists s1. split; [done|]. split; [done|]. split.
    + by split; [|rewrite Em].
    + intros v' Hv' Hne. by rewrite Hp1, Hm1.
Qed.

(** [rollback] with the rollback point of [s0] restores the plugging and the clock modulation
    of every core. *)
Lemma rollback_restores_all t s0 s rp :
  tp_virtualCores t = cores -> law_ok s0 -> law_ok s ->
  Topology_getRollbackPoint t s0 = (Ret rp, s0) ->
  exists s', Topology_rollback t rp s = (Ret tt, s') /\ law_ok s' /\
    forall v, v ∈ cores -> restored s0 v s'.
Proof.
  intros Ht Hok0 Hok Hrp. rewrite (getRollbackPoint_spec _ _ Ht Hok0) in Hrp. injection Hrp as <-.
  unfold Topology_rollback. rewrite Ht.
  destruct (for_each_inv (fun d s' => law_ok s' /\ forall i v, (i, v) ∈ d -> v ∈ cores /\ restored s0 v s')
    (fun '(i, v) => rollback_core (mkTopologyRollbackPoint ((fun v => law_plugged v s0) <$> cores)
                                    ((fun v => law_modulation v s0) <$> cores)) i v)
    (enumerate cores) [] s) as (s' & E & Hok' & Hr).
  - split; [done|]. intros i v H. by apply elem_of_nil in H.
  - intros [i v] d s1 Hin [Hok1 Hd]. apply elem_of_lookup_imap in Hin as (i' & v' & [= <- <-] & Hi).
    destruct (rollback_core_spec v i s0 s1 Hi Hok1 Hok0) as (s2 & E & Hok2 & Hv & Hf).
    exists s2. split; [done|]. split; [done|].
    intros j w [Hj|Hj]%elem_of_app.
    + destruct (Hd _ _ Hj) as [Hw Hrw]. split; [done|].
      destruct (decide (w = v)) as [->|Hne]; [done|]. destruct (Hf w Hw Hne) as [E1 E2].
      unfold restored in *. by rewrite E1, E2.
    + apply list_elem_of_singleton in Hj as [= -> ->]. split; [|done]. by eapply list_elem_of_lookup_2.
  - exists s'. split; [done|]. split; [done|]. intros v [i Hi]%list_elem_of_lookup.
    apply (Hr i v). apply elem_of_lookup_imap. by exists i, v.
Qed.
End law_props.

(** ** Choosing cores *)

Lemma existsb_physical r vc :
  existsb (fun v => vc_physicalCoreId v =? vc_physicalCoreId vc) r =
  bool_decide (vc_physicalCoreId vc ∈ vc_physicalCoreId <$> r).
Proof.
  induction r as [|v r IH]; csimpl; [done|]. rewrite IH.
  destruct (Z.eqb_spec (vc_physicalCoreId v) (vc_physicalCoreId vc)) as [->|]; simpl.
  - symmetry. apply bool_decide_eq_true. left.
  - apply bool_decide_ext. rewrite elem_of_cons. naive_solver.
Qed.

Lemma getOneVirtualPerPhysical_snoc l v :
  getOneVirtualPerPhysical (l ++ [v]) =
  if bool_decide (vc_physicalCoreId v ∈ vc_physicalCoreId <$> getOneVirtualPerPhysical l)
  then getOneVirtualPerPhysical l else getOneVirtualPerPhysical l ++ [v].
Proof.
  unfold getOneVirtualPerPhysical at 1. rewrite fold_left_app. simpl. by rewrite existsb_physical.
Qed.

Lemma getOneVirtualPerPhysical_ids l :
  vc_physicalCoreId <$> getOneVirtualPerPhysical l = uniq (vc_physicalCoreId <$> l) /\
  getOneVirtualPerPhysical l `sublist_of` l.
Proof.
  induction l as [|v l [IH1 IH2]] using rev_ind; [done|].
  rewrite getOneVirtualPerPhysical_snoc, fmap_app. csimpl. rewrite uniq_snoc, <- IH1. unfold uniq_step.
  case_bool_decide.
  - split; [done|]. rewrite <- (app_nil_r (getOneVirtualPerPhysical l)).
    by apply sublist_app, sublist_nil_l.
  - split; [by rewrite fmap_app|]. by apply sublist_app.
Qed.

Lemma contains_physical_spec (ps : list PhysicalCore) p :
  contains_physical (Some <$> ps) (Some p) =
  Ret (bool_decide (pc_physicalCoreId p ∈ pc_physicalCoreId <$> ps)).
Proof.
  induction ps as [|q ps IH]; csimpl; [done|]. unfold PhysicalCore_eqb.
  destruct (Z.eqb_spec (pc_physicalCoreId q) (pc_physicalCoreId p)) as [E|E]; simpl.
  - f_equal. symmetry. apply bool_decide_eq_true. rewrite E. left.
  - rewrite IH. f_equal. apply bool_decide_ext. rewrite elem_of_cons. naive_solver.
Qed.

(** Looking up the physical core of a virtual core of the tree. *)
Lemma getPhysicalCore_of_virtual coord v :
  coords_ok coord -> v ∈ tp_virtualCores (spec_topology coord) ->
  exists p, Topology_getPhysicalCore (spec_topology coord) (vc_physicalCoreId v) = Some p /\
    p ∈ tp_physicalCores (spec_topology coord) /\
    pc_physicalCoreId p = vc_physicalCoreId v /\ pc_cpuId p = vc_cpuId v /\ v ∈ pc_virtualCores p.
Proof.
  intros [_ Hok] Hv. apply elem_of_virtualCores in Hv as (a & Ha & ->). simpl.
  rewrite getPhysicalCore_find.
  set (p0 := mkPhysicalCore (vcc_cpuId a) (vcc_physicalCoreId a)
               (spec_virtual coord (vcc_cpuId a) (vcc_physicalCoreId a))).
  assert (p0 ∈ tp_physicalCores (spec_topology coord)) as Hp0 by (apply elem_of_physicalCores; eauto).
  destruct (find _ _) as [p|] eqn:E.
  - apply find_Some_elem in E as [Hp Ep]. exists p. split; [done|]. split; [done|].
    split; [done|]. apply elem_of_physicalCores in Hp as (b & Hb & ->). simpl in *.
    rewrite (Hok b a) by done. split; [done|]. rewrite Ep. unfold spec_virtual.
    apply list_elem_of_fmap_2. by rewrite !list_elem_of_filter.
  - exfalso. apply list_elem_of_In in Hp0. apply (find_none _ _ E) in Hp0. simpl in Hp0. lia.
Qed.

Lemma virtualToPhysical_spec coord vs :
  coords_ok coord -> vs ⊆ tp_virtualCores (spec_topology coord) ->
  exists ps, Topology_virtualToPhysical (spec_topology coord) vs = Ret (Some <$> ps) /\
    pc_physicalCoreId <$> ps = uniq (vc_physicalCoreId <$> vs) /\
    ps ⊆ tp_physicalCores (spec_topology coord).
Proof.
  intros Hok Hvs. unfold Topology_virtualToPhysical.
  assert (forall d l ps, d ++ l ⊆ tp_virtualCores (spec_topology coord) ->
    pc_physicalCoreId <$> ps = uniq (vc_physicalCoreId <$> d) -> ps ⊆ tp_physicalCores (spec_topology coord) ->
    exists ps', fold_out l (Some <$> ps) (fun physicalCores vc =>
        let p := Topology_getPhysicalCore (spec_topology coord) (vc_physicalCoreId vc) in
        contained ← contains_physical physicalCores p;
        Ret (if (contained : bool) then physicalCores else physicalCores ++ [p])) = Ret (Some <$> ps') /\
      pc_physicalCoreId <$> ps' = uniq (vc_physicalCoreId <$> (d ++ l)) /\
      ps' ⊆ tp_physicalCores (spec_topology coord)) as H.
  { intros d l. revert d. induction l as [|v l IH]; intros d ps Hin Hids Hps.
    { exists ps. by rewrite app_nil_r. }
    destruct (getPhysicalCore_of_virtual coord v) as (p & Ep & Hp & Eid & _); [done|set_solver|].
    simpl. rewrite Ep, contains_physical_spec. simpl.
    replace (d ++ v :: l) with ((d ++ [v]) ++ l) in * by by rewrite <- app_assoc.
    assert (uniq (vc_physicalCoreId <$> (d ++ [v])) =
            uniq_step (uniq (vc_physicalCoreId <$> d)) (vc_physicalCoreId v)) as Eu
      by (rewrite fmap_app; apply uniq_snoc).
    unfold uniq_step in Eu. rewrite Hids, Eid. case_bool_decide.
    - apply IH; [done|by rewrite Eu|done].
    - replace ((Some <$> ps) ++ [Some p]) with (Some <$> (ps ++ [p])) by by rewrite fmap_app.
      apply IH; [done|by rewrite Eu, fmap_app, Hids, <- Eid|set_solver]. }
  apply (H [] vs []); set_solver.
Qed.

(** * The claims *)

(** C8: the topology built on the local machine is the one that sysfs describes, and is well
    formed: its virtual cores are exactly the identifiers of the range that sysfs gives which are
    online, each once; each is on the CPU that is its physical_package_id, and two of them are on
    the same physical core exactly when they have the same package and core_id, although core_id
    alone is not unique; CPUs have distinct identifiers; and the lookups by identifier find every
    core, in the physical core and the CPU its coordinates name. *)
Theorem Topology_new_wellformed {S} {VO : VirtualCoreOps S} {SH : Shell} (world_of : S -> World) s t s' :
  constructs -> Topology_new world_of s = (Ret t, s') ->
  exists lo hi, let w := world_of s in Topology_coreRange w = Ret (lo, hi) /\
    (forall id, id ∈ vc_virtualCoreId <$> tp_virtualCores t <-> u32 lo <= id <= u32 hi /\ online_core w id = true) /\
    NoDup (vc_virtualCoreId <$> tp_virtualCores t) /\
    (forall v, v ∈ tp_virtualCores t -> exists k, reported w (vc_virtualCoreId v) = Ret (vc_cpuId v, k)) /\
    (forall v v', v ∈ tp_virtualCores t -> v' ∈ tp_virtualCores t ->
       vc_physicalCoreId v = vc_physicalCoreId v' <-> reported w (vc_virtualCoreId v) = reported w (vc_virtualCoreId v')) /\
    NoDup (cpu_cpuId <$> tp_cpus t) /\
    forall v, v ∈ tp_virtualCores t ->
      Topology_getVirtualCore t (vc_virtualCoreId v) = Some v /\
      exists p, Topology_getPhysicalCore t (vc_physicalCoreId v) = Some p /\
        v ∈ pc_virtualCores p /\ pc_cpuId p = vc_cpuId v /\
        exists c, Topology_getCpu t (vc_cpuId v) = Some c /\ p ∈ cpu_physicalCores c.
Proof.
  intros Hc H. unfold Topology_new in H. minv H. injection H0 as H0 <-.
  apply buildCpuVector_spec in H as ->; [|done].
  pose proof (Topology_coordinates_ok _ _ H0) as Hok.
  destruct (Topology_coordinates_exact _ _ H0) as (lo & hi & Hrange & Hids & Hcpus & Hphys).
  exists lo, hi. split; [done|].
  assert (tp_virtualCores (spec_topology r) ≡ₚ vc_of <$> r) as HP
    by (rewrite spec_virtualCores; by rewrite grouped_perm).
  assert (NoDup (vc_virtualCoreId <$> tp_virtualCores (spec_topology r))) as Hnd.
  { rewrite HP, <- list_fmap_compose. apply Hok. }
  assert (NoDup (cpu_cpuId <$> tp_cpus (spec_topology r))) as Hcpu.
  { simpl. unfold spec_cpus. rewrite <- list_fmap_compose.
    change (cpu_cpuId ∘ (fun c => Cpu_new c (spec_physical r c))) with (fun c : Z => c).
    rewrite list_fmap_id. apply NoDup_uniq. }
  assert (forall v, v ∈ tp_virtualCores (spec_topology r) -> exists a, a ∈ r /\ v = vc_of a) as Hof.
  { intros v. rewrite HP. intros (a & -> & Ha)%list_elem_of_fmap. by exists a. }
  split; [intros id; rewrite HP, <- list_fmap_compose; apply Hids|]. split; [done|].
  split; [intros v (a & Ha & ->)%Hof; by apply Hcpus|].
  split; [intros v v' (a & Ha & ->)%Hof (b & Hb & ->)%Hof; by apply Hphys|].
  split; [done|]. intros v Hv. split.
  - rewrite getVirtualCore_find. by apply find_NoDup.
  - destruct (getPhysicalCore_of_virtual r v Hok Hv) as (p & H1 & H2 & H3 & H4 & H5).
    exists p. do 3 (split; [done|]). unfold Topology_getCpu.
    apply elem_of_physicalCores in H2 as (a & Ha & ->). simpl in *. subst.
    exists (Cpu_new (vc_cpuId v) (spec_physical r (vc_cpuId v))). split.
    + apply find_NoDup; [done| |done]. unfold spec_cpus. apply list_elem_of_fmap.
      exists (vc_cpuId v). split; [done|]. apply elem_of_uniq. rewrite <- H4. by apply list_elem_of_fmap_2.
    + simpl. apply list_elem_of_fmap. exists (vcc_physicalCoreId a). rewrite H4. split; [done|].
      apply elem_of_uniq, list_elem_of_fmap_2. by apply list_elem_of_filter.
Qed.

(** A client that rebuilds the tree from the coordinates the server sends, which are
    those of the server's virtual cores in the order of its tree, gets the server's tree. *)
Theorem Topology_rebuild_same {S1 S2} (VO1 : VirtualCoreOps S1) (VO2 : VirtualCoreOps S2)
    coord s1 t1 s1' s2 t2 s2' :
  @constructs S1 VO1 -> @constructs S2 VO2 ->
  @Topology_buildCpuVector S1 VO1 (mkTopology [] [] []) coord s1 = (Ret t1, s1') ->
  @Topology_buildCpuVector S2 VO2 (mkTopology [] [] []) (coords_of <$> tp_virtualCores t1) s2
    = (Ret t2, s2') ->
  t2 = t1.
Proof.
  intros H1 H2 E1 E2. apply (buildCpuVector_spec H1) in E1 as ->.
  apply (buildCpuVector_spec H2) in E2 as ->.
  by rewrite spec_virtualCores, coords_of_vc_of, spec_topology_grouped.
Qed.

(** [getOneVirtualPerPhysical] keeps the first virtual core of each physical core, and
    no other; [getNumPhysicalCores] counts the distinct physical cores. *)
Theorem getOneVirtualPerPhysical_spec l :
  vc_physicalCoreId <$> getOneVirtualPerPhysical l = uniq (vc_physicalCoreId <$> l) /\
  NoDup (vc_physicalCoreId <$> getOneVirtualPerPhysical l) /\
  getOneVirtualPerPhysical l `sublist_of` l /\
  getNumPhysicalCores l = length (uniq (vc_physicalCoreId <$> l)).
Proof.
  destruct (getOneVirtualPerPhysical_ids l) as [H1 H2].
  split; [done|]. split; [rewrite H1; apply NoDup_uniq|]. split; [done|].
  unfold getNumPhysicalCores. by rewrite <- H1, length_fmap.
Qed.

(** [virtualToPhysical] of virtual cores of the topology returns their physical cores,
    each once, in the order of first appearance, and never dereferences a null pointer. *)
Theorem Topology_virtualToPhysical_spec {S} {VO : VirtualCoreOps S} {SH : Shell}
    (world_of : S -> World) s t s' vs :
  constructs -> Topology_new world_of s = (Ret t, s') -> vs ⊆ tp_virtualCores t ->
  exists ps, Topology_virtualToPhysical t vs = Ret (Some <$> ps) /\
    pc_physicalCoreId <$> ps = uniq (vc_physicalCoreId <$> vs) /\ ps ⊆ tp_physicalCores t.
Proof.
  intros Hc H Hvs. unfold Topology_new in H. minv H. injection H0 as H0 <-.
  apply buildCpuVector_spec in H as ->; [|done].
  apply virtualToPhysical_spec; [|done]. by eapply Topology_coordinates_ok.
Qed.

(** Unplugging a CPU whose cores are all pluggable and plugging it again: after the
    first the CPU answers that it is not plugged, after the second that it is, and the cores
    of the other CPUs and every clock modulation stay as they were. *)
Theorem Cpu_hotplug_roundtrip {S} {VO : VirtualCoreOps S} {cores} {VL : VirtualCoreLaws S cores}
    cpuId ps s :
  let c := Cpu_new cpuId ps in
  cpu_virtualCores c ⊆ cores -> cpu_virtualCores c <> [] ->
  (forall v, v ∈ cpu_virtualCores c -> law_pluggable v = true) -> law_ok s ->
  exists s1 s2, Cpu_hotUnplug c s = (Ret tt, s1) /\ Cpu_isHotPlugged c s1 = (Ret false, s1) /\
    Cpu_hotPlug c s1 = (Ret tt, s2) /\ Cpu_isHotPlugged c s2 = (Ret true, s2) /\
    forall v, v ∈ cores -> law_modulation v s2 = law_modulation v s /\
      (v ∉ cpu_virtualCores c -> law_plugged v s1 = law_plugged v s /\ law_plugged v s2 = law_plugged v s).
Proof.
  intros c. simpl. rewrite Cpu_virtualCores_concat. set (l := concat _). intros Hl Hne Hp Hok.
  destruct (for_each_set_plug false l s Hl Hok) as (s1 & E1 & Hok1 & P1 & M1).
  destruct (for_each_set_plug true l s1 Hl Hok1) as (s2 & E2 & Hok2 & P2 & M2).
  exists s1, s2. unfold Cpu_hotUnplug, Cpu_hotPlug, Cpu_isHotPlugged, PhysicalCore_hotUnplug,
    PhysicalCore_hotPlug, PhysicalCore_isHotPlugged.
  rewrite !for_each_concat, !for_all_concat. change (cpu_physicalCores c) with ps. fold l.
  assert (forall v, v ∈ l -> law_plugged v s1 = false /\ law_plugged v s2 = true) as Hv.
  { intros v Hv. rewrite P1, P2, Hp by auto. by rewrite bool_decide_eq_true_2. }
  split; [done|]. split; [|split; [done|split]].
  - rewrite for_all_isHotPlugged by done. destruct l as [|v l']; [done|]. simpl.
    by rewrite (proj1 (Hv v ltac:(left))).
  - rewrite for_all_isHotPlugged by done.
    replace (forallb _ l) with true; [done|]. symmetry. apply forallb_forall.
    intros v Hin. apply Hv. by apply list_elem_of_In.
  - intros v Hin. rewrite M2, M1 by done. split; [done|]. intros Hnot.
    rewrite P2, P1 by done. by rewrite bool_decide_eq_false_2.
Qed.

