(* ===== verification/Task.v ===== *)
(** * Processes, threads and throttling (src/task/task-linux.cpp)

    A handler is the record of the fields of its object; reading procfs is a query of the
    world and the system calls on tasks act on [w_procs].  The throttler thread shares
    [ThrottlerThread] with the callers of [throttle] and [removeThrottling] under a mutex; each
    critical section is one step of [throttler_step]. *)
From S2P Require Import Prelude UtilsText UtilsVector Double UtilsSys Topology.

(** ** The system calls *)

(** [kill(2)]: the process exists and the caller may signal it. *)
Definition kill (pid sig : Z) : M World Z := fun w =>
  if bool_decide (pid ∈ pr_killable (w_procs w)) then
    (Ret 0, set_procs (fun p => mkProcs (pr_online p) (pr_affinity p) (pr_killable p)
                                        (pr_signals p ++ [(pid, sig)]) (pr_self p)) w)
  else (Ret (-1), w).

(** [sched_setaffinity(2)]: fails for an unknown task and when no processor of the mask is
    online. *)
Definition sched_setaffinity (tid : Z) (mask : gset Z) : M World Z := fun w =>
  let p := w_procs w in
  if bool_decide (is_Some (pr_affinity p !! tid)) && negb (bool_decide (mask ∩ pr_online p = ∅)) then
    (Ret 0, set_procs (fun p => mkProcs (pr_online p) (<[tid := mask ∩ pr_online p]> (pr_affinity p))
                                        (pr_killable p) (pr_signals p) (pr_self p)) w)
  else (Ret (-1), w).

(** [CPU_ZERO] and [CPU_SET] on a [cpu_set_t], which has 1024 bits; a larger index is ignored. *)
Definition CPU_SETSIZE : Z := 1024.
Definition cpu_mask (ids : list Z) : gset Z := list_to_set (filter (fun i => i < CPU_SETSIZE) ids).

Definition SIGCONT : Z := 18.
Definition SIGSTOP : Z := 19.
Definition PRIO_MIN : Z := -20.
Definition PRIO_MAX : Z := 20.

(** [MAMMUT_PROCESS_PRIORITY_MIN], include/mammut/task/task.hpp:9-9. *)
Definition MAMMUT_PROCESS_PRIORITY_MIN : Z := u32 0.
(** [MAMMUT_PROCESS_PRIORITY_MAX], include/mammut/task/task.hpp:10-10. *)
Definition MAMMUT_PROCESS_PRIORITY_MAX : Z := u32 (PRIO_MAX - PRIO_MIN).

(** [ProcStatFields], src/task/task-linux.cpp:20-74: the fields the program reads. *)
Definition PROC_STAT_UTIME : nat := 13.
Definition PROC_STAT_STIME : nat := 14.
Definition PROC_STAT_NICE : nat := 18.
Definition PROC_STAT_PROCESSOR : nat := 38.

(** ** Execution units *)

(** [ExecutionUnitLinux], include/mammut/task/task-linux.hpp:11-18. [None] is an
    uninitialised field. *)
Record ExecutionUnitLinux := mkExecutionUnit {
  eu_id : Z; eu_path : string; eu_hertz : double;
  eu_lastCpuTime : option double; eu_lastUpTime : option double
}.

(** [ExecutionUnitLinux::isActive], src/task/task-linux.cpp:119-122. *)
Definition ExecutionUnit_isActive (w : World) (path : string) : bool := existsFile w path.

(** [EXECUTE_AND_CHECK_ACTIVE], src/task/task-linux.cpp:76-86: [None] is the [return false] of
    the macro. *)
Definition execute_and_check_active {A} (w : World) (path : string) (command : outcome A) :
    outcome (option A) :=
  match command with
  | Ret a => Ret (Some a)
  | Throw (runtime_error what) =>
      if negb (ExecutionUnit_isActive w path) then Ret None else Throw (runtime_error what)
  | Throw e => Throw e
  | Undef u => Undef u
  end.

(** [ExecutionUnitLinux::getUpTime], src/task/task-linux.cpp:101-103. *)
Definition ExecutionUnit_getUpTime (w : World) : outcome double :=
  l ← readFirstLineFromFile w "/proc/uptime";
  f ← vec_at (split l " ") 0;
  Ret (d_of_Z (stringToInt f)).

(** [ExecutionUnitLinux::getStatFields], src/task/task-linux.cpp:124-126. *)
Definition ExecutionUnit_getStatFields (w : World) (path : string) : outcome (list string) :=
  l ← readFirstLineFromFile w (path +:+ "stat");
  Ret (split l " ").

(** [ExecutionUnitLinux::getCpuTime], src/task/task-linux.cpp:105-117. *)
Definition ExecutionUnit_getCpuTime (w : World) (path : string) : outcome double :=
  statValues ← ExecutionUnit_getStatFields w path;
  uTime ← vec_at statValues PROC_STAT_UTIME;
  sTime ← vec_at statValues PROC_STAT_STIME;
  Ret (dadd (d_of_Z (stringToInt uTime)) (d_of_Z (stringToInt sTime))).

(** Both times, in the order the two methods below read them. *)
Definition ExecutionUnit_times (w : World) (path : string) : outcome (double * double) :=
  upTime ← ExecutionUnit_getUpTime w;
  cpuTime ← ExecutionUnit_getCpuTime w path;
  Ret (upTime, cpuTime).

(** [ExecutionUnitLinux::getCoreUsage], src/task/task-linux.cpp:128-137. *)
Definition ExecutionUnit_getCoreUsage (w : World) (eu : ExecutionUnitLinux) : outcome (option double) :=
  r ← execute_and_check_active w (eu_path eu) (ExecutionUnit_times w (eu_path eu));
  match r with
  | None => Ret None
  | Some (upTime, cpuTime) =>
      match eu_lastUpTime eu, eu_lastCpuTime eu with
      | Some lastUpTime, Some lastCpuTime =>
          if dltb lastUpTime upTime then
            Ret (Some (dmul (ddiv (ddiv (dsub cpuTime lastCpuTime) (eu_hertz eu)) (dsub upTime lastUpTime))
                            (d_of_Z 100)))
          else Ret (Some d_zero)
      | _, _ => Undef "_lastUpTime is uninitialised"
      end
  end.

(** [ExecutionUnitLinux::resetCoreUsage], src/task/task-linux.cpp:139-142. When the second read
    fails the first field has already been assigned. *)
Definition ExecutionUnit_resetCoreUsage (w : World) (eu : ExecutionUnitLinux) :
    outcome (bool * ExecutionUnitLinux) :=
  match ExecutionUnit_getUpTime w with
  | Ret upTime =>
      let eu1 := mkExecutionUnit (eu_id eu) (eu_path eu) (eu_hertz eu) (eu_lastCpuTime eu) (Some upTime) in
      r ← execute_and_check_active w (eu_path eu) (ExecutionUnit_getCpuTime w (eu_path eu));
      match r with
      | Some cpuTime =>
          Ret (true, mkExecutionUnit (eu_id eu) (eu_path eu) (eu_hertz eu) (Some cpuTime) (Some upTime))
      | None => Ret (false, eu1)
      end
  | o =>
      r ← execute_and_check_active w (eu_path eu) o;
      Ret (false, eu)
  end.

(** [ExecutionUnitLinux::ExecutionUnitLinux], src/task/task-linux.cpp:88-91. *)
Definition ExecutionUnit_new (w : World) (id : Z) (path : string) : outcome ExecutionUnitLinux :=
  '(_, eu) ← ExecutionUnit_resetCoreUsage w
               (mkExecutionUnit id path (d_of_Z (getClockTicksPerSecond w)) None None);
  Ret eu.

(** [ExecutionUnitLinux::getPriority], src/task/task-linux.cpp:144-147. *)
Definition ExecutionUnit_getPriority (w : World) (eu : ExecutionUnitLinux) : outcome (option Z) :=
  execute_and_check_active w (eu_path eu)
    (fields ← ExecutionUnit_getStatFields w (eu_path eu);
     nice ← vec_at fields PROC_STAT_NICE;
     Ret (u32 (- (PRIO_MIN + stringToInt nice)))).

(** The niceness [setPriority] asks for: the unsigned [priority + PRIO_MIN] is negated and
    becomes the [int] argument of [intToString]. *)
Definition priority_to_nice (priority : Z) : Z := i32 (u32 (- u32 (priority + PRIO_MIN))).

Section set_priority.
Context {SH : Shell}.

(** [ExecutionUnitLinux::setPriority], src/task/task-linux.cpp:149-158; [ids] is the result of
    the virtual [getSetPriorityIdentifiers]. *)
Definition ExecutionUnit_setPriority (getSetPriorityIdentifiers : World -> outcome string)
    (priority : Z) : M World bool :=
  if (priority <? MAMMUT_PROCESS_PRIORITY_MIN) || (MAMMUT_PROCESS_PRIORITY_MAX <? priority) then ret false
  else
    let* ids := query getSetPriorityIdentifiers in
    let* status := executeCommand ("renice -n " +:+ intToString (priority_to_nice priority) +:+
                                   " -p " +:+ ids) true in
    ret (status =? 0).
End set_priority.

(** [ExecutionUnitLinux::getVirtualCoreId], src/task/task-linux.cpp:160-163. *)
Definition ExecutionUnit_getVirtualCoreId (w : World) (eu : ExecutionUnitLinux) : outcome (option Z) :=
  execute_and_check_active w (eu_path eu)
    (fields ← ExecutionUnit_getStatFields w (eu_path eu);
     processor ← vec_at fields PROC_STAT_PROCESSOR;
     Ret (u32 (stringToInt processor))).

(** [ExecutionUnitLinux::getVirtualCoreIds], src/task/task-linux.cpp:204-217. [_SC_NPROCESSORS_ONLN]
    is the number of online processors. *)
Definition ExecutionUnit_getVirtualCoreIds (w : World) (eu : ExecutionUnitLinux) : option (list Z) :=
  match pr_affinity (w_procs w) !! eu_id eu with
  | None => None
  | Some set => Some (filter (fun i => i ∈ set) (seqZ 0 (Z.of_nat (size (pr_online (w_procs w))))))
  end.

(** The overloads of [move] reduce to the virtual one on identifiers. *)
Section move.
Variable move_ids : list Z -> M World bool.

(** [ExecutionUnitLinux::move], src/task/task-linux.cpp:196-202. *)
Definition ExecutionUnit_moveCores (virtualCores : list VirtualCore) : M World bool :=
  move_ids (vc_virtualCoreId <$> virtualCores).

(** [ExecutionUnitLinux::move], src/task/task-linux.cpp:187-194: the [const] overload. *)
Definition ExecutionUnit_moveConstCores (virtualCores : list VirtualCore) : M World bool :=
  ExecutionUnit_moveCores (fold_left (fun tmp v => tmp ++ [v]) virtualCores []).

(** [ExecutionUnitLinux::move], src/task/task-linux.cpp:165-168. *)
Definition ExecutionUnit_moveCpu (cpu : Cpu) : M World bool :=
  ExecutionUnit_moveConstCores (cpu_virtualCores cpu).

(** [ExecutionUnitLinux::move], src/task/task-linux.cpp:170-173. *)
Definition ExecutionUnit_movePhysicalCore (physicalCore : PhysicalCore) : M World bool :=
  ExecutionUnit_moveConstCores (pc_virtualCores physicalCore).

(** [ExecutionUnitLinux::move], src/task/task-linux.cpp:175-179. *)
Definition ExecutionUnit_moveVirtualCore (virtualCore : VirtualCore) : M World bool :=
  ExecutionUnit_moveConstCores [virtualCore].

(** [ExecutionUnitLinux::move], src/task/task-linux.cpp:181-185. *)
Definition ExecutionUnit_moveId (virtualCoreId : Z) : M World bool := move_ids [virtualCoreId].
End move.

(** [getExecutionUnitsIdentifiers], src/task/task-linux.cpp:219-229. *)
Definition getExecutionUnitsIdentifiers (w : World) (path : string) : outcome (list Z) :=
  procStr ← getFilesNamesInDir w path false true;
  Ret (fold_left (fun ids procId => if isNumber procId then ids ++ [stringToInt procId] else ids) procStr []).

(** ** Threads *)

(** [ThreadHandlerLinux], include/mammut/task/task-linux.hpp:42-45. *)
Record ThreadHandlerLinux := mkThreadHandler { thr_unit : ExecutionUnitLinux; thr_tid : Z }.

(** [ThreadHandlerLinux::ThreadHandlerLinux], src/task/task-linux.cpp:231-236. *)
Definition ThreadHandler_new (w : World) (pid tid : Z) : outcome ThreadHandlerLinux :=
  u ← ExecutionUnit_new w tid ("/proc/" +:+ intToString pid +:+ "/task/" +:+ intToString tid +:+ "/");
  Ret (mkThreadHandler u tid).

(** [ThreadHandlerLinux::getSetPriorityIdentifiers], src/task/task-linux.cpp:238-240. *)
Definition ThreadHandler_getSetPriorityIdentifiers (t : ThreadHandlerLinux) (w : World) : outcome string :=
  Ret (intToString (thr_tid t)).

(** [ThreadHandlerLinux::move], src/task/task-linux.cpp:242-252. *)
Definition ThreadHandler_move (t : ThreadHandlerLinux) (virtualCoresIds : list Z) : M World bool :=
  let* rc := sched_setaffinity (thr_tid t) (cpu_mask virtualCoresIds) in
  ret (negb (rc =? -1)).

(** ** Processes *)

(** [ProcessHandlerLinux], include/mammut/task/task-linux.hpp:96-100. [ph_addr] is the address
    of the object, the key under which the throttler keeps it. *)
Record ProcessHandlerLinux := mkProcessHandler { ph_addr : Z; ph_unit : ExecutionUnitLinux; ph_pid : Z }.

(** [ProcessHandlerLinux::ProcessHandlerLinux], src/task/task-linux.cpp:254-258. *)
Definition ProcessHandler_new (w : World) (addr pid : Z) : outcome ProcessHandlerLinux :=
  u ← ExecutionUnit_new w pid ("/proc/" +:+ intToString pid +:+ "/");
  Ret (mkProcessHandler addr u pid).

Definition ProcessHandler_isActive (w : World) (p : ProcessHandlerLinux) : bool :=
  ExecutionUnit_isActive w (eu_path (ph_unit p)).

(** [ProcessHandlerLinux::getActiveThreadsIdentifiers], src/task/task-linux.cpp:372-382. *)
Definition ProcessHandler_getActiveThreadsIdentifiers (w : World) (p : ProcessHandlerLinux) :
    outcome (list Z) :=
  match getExecutionUnitsIdentifiers w (eu_path (ph_unit p) +:+ "/task/") with
  | Throw (runtime_error what) =>
      if ProcessHandler_isActive w p then Throw (runtime_error what) else Ret []
  | o => o
  end.

(** [ProcessHandlerLinux::getSetPriorityIdentifiers], src/task/task-linux.cpp:360-370. *)
Definition ProcessHandler_getSetPriorityIdentifiers (p : ProcessHandlerLinux) (w : World) : outcome string :=
  ids ← ProcessHandler_getActiveThreadsIdentifiers w p;
  Ret (fold_left (fun r i => r +:+ intToString i +:+ " ") ids EmptyString).

(** [ProcessHandlerLinux::move], src/task/task-linux.cpp:342-358. *)
Definition ProcessHandler_move (p : ProcessHandlerLinux) (virtualCoresIds : list Z) : M World bool :=
  let set := cpu_mask virtualCoresIds in
  let* rc := sched_setaffinity (ph_pid p) set in
  if rc =? -1 then ret false
  else
    let* threads := query (fun w => ProcessHandler_getActiveThreadsIdentifiers w p) in
    do* for_each threads (fun tid => let* _ := sched_setaffinity tid set in ret tt) in
    ret true.

(** [ProcessHandlerLinux::getThreadHandler], src/task/task-linux.cpp:384-386. *)
Definition ProcessHandler_getThreadHandler (w : World) (p : ProcessHandlerLinux) (tid : Z) :
    outcome ThreadHandlerLinux := ThreadHandler_new w (ph_pid p) tid.

(** [ProcessHandlerLinux::sendSignal], src/task/task-linux.cpp:468-479. *)
Definition ProcessHandler_sendSignal (p : ProcessHandlerLinux) (signal : Z) : M World bool :=
  let* rc := kill (ph_pid p) signal in
  if rc =? -1 then
    let* active := gets (fun w => ProcessHandler_isActive w p) in
    if negb active then ret false
    else throw (runtime_error ("Impossible to send signal " +:+ intToString signal +:+
                               " to process " +:+ intToString (ph_pid p)))
  else ret true.

(** ** The throttler *)

(** [ThrottlerThread], include/mammut/task/task-linux.hpp:53-61. [_throttlingValues] is a
    [std::map] keyed by handler: its entries in key order, without duplicates. *)
Record ThrottlerThread := mkThrottler {
  tt_run : bool;
  tt_throttlingInterval : Z;
  tt_processesToAdd : list (ProcessHandlerLinux * double);
  tt_processesToRemove : list ProcessHandlerLinux;
  tt_sumPercentages : double;
  tt_throttlingValues : list (ProcessHandlerLinux * double)
}.

(** [std::map::find], [insert] and [erase] on the entries. *)
Definition same_handler (p q : ProcessHandlerLinux) : bool := ph_addr p =? ph_addr q.
Definition map_find (l : list (ProcessHandlerLinux * double)) (p : ProcessHandlerLinux) : option double :=
  snd <$> find (fun e => same_handler (fst e) p) l.
Fixpoint map_insert (p : ProcessHandlerLinux) (d : double) (l : list (ProcessHandlerLinux * double)) :
    list (ProcessHandlerLinux * double) :=
  match l with
  | [] => [(p, d)]
  | (q, e) :: l' =>
      if ph_addr p <? ph_addr q then (p, d) :: l
      else if same_handler p q then l
      else (q, e) :: map_insert p d l'
  end.
Definition map_update (p : ProcessHandlerLinux) (d : double) (l : list (ProcessHandlerLinux * double)) :
    list (ProcessHandlerLinux * double) :=
  (fun e => if same_handler (fst e) p then (fst e, d) else e) <$> l.
Definition map_erase (p : ProcessHandlerLinux) (l : list (ProcessHandlerLinux * double)) :
    list (ProcessHandlerLinux * double) :=
  filter (fun e => same_handler (fst e) p = false) l.

Definition MAMMUT_THROTTLING_INTERVAL_DEFAULT_MICROSECS : Z := 100000.
Definition d_100 : double := d_of_Z 100.

(** [ThrottlerThread::ThrottlerThread], src/task/task-linux.cpp:483-488. *)
Definition ThrottlerThread_new : ThrottlerThread :=
  mkThrottler true MAMMUT_THROTTLING_INTERVAL_DEFAULT_MICROSECS [] [] d_zero [].

Definition with_values (sum : double) (l : list (ProcessHandlerLinux * double)) (t : ThrottlerThread) :
    ThrottlerThread :=
  mkThrottler (tt_run t) (tt_throttlingInterval t) (tt_processesToAdd t) (tt_processesToRemove t) sum l.

(** [ThrottlerThread::addProcess], src/task/task-linux.cpp:490-500. *)
Definition ThrottlerThread_addProcess (t : ThrottlerThread) (process : ProcessHandlerLinux * double) :
    ThrottlerThread :=
  let '(p, percentage) := process in
  match map_find (tt_throttlingValues t) p with
  | Some _ => with_values (tt_sumPercentages t) (map_update p percentage (tt_throttlingValues t)) t
  | None =>
      if dleb (dadd (tt_sumPercentages t) percentage) d_100 then
        with_values (dadd (tt_sumPercentages t) percentage)
                    (map_insert p percentage (tt_throttlingValues t)) t
      else t
  end.

(** [ThrottlerThread::removeProcess], src/task/task-linux.cpp:502-508. *)
Definition ThrottlerThread_removeProcess (t : ThrottlerThread) (p : ProcessHandlerLinux) : ThrottlerThread :=
  match map_find (tt_throttlingValues t) p with
  | Some v => with_values (dsub (tt_sumPercentages t) v) (map_erase p (tt_throttlingValues t)) t
  | None => t
  end.

(** [ThrottlerThread::throttle], src/task/task-linux.cpp:555-566. *)
Definition ThrottlerThread_throttle (p : ProcessHandlerLinux) (percentage : double) (t : ThrottlerThread) :
    bool * ThrottlerThread :=
  match map_find (tt_throttlingValues t) p with
  | None =>
      if dltb d_100 (dadd (tt_sumPercentages t) percentage) then (false, t)
      else (true, mkThrottler (tt_run t) (tt_throttlingInterval t)
                    (tt_processesToAdd t ++ [(p, percentage)]) (tt_processesToRemove t)
                    (tt_sumPercentages t) (tt_throttlingValues t))
  | Some _ => (true, mkThrottler (tt_run t) (tt_throttlingInterval t)
                    (tt_processesToAdd t ++ [(p, percentage)]) (tt_processesToRemove t)
                    (tt_sumPercentages t) (tt_throttlingValues t))
  end.

(** [ThrottlerThread::removeThrottling], src/task/task-linux.cpp:568-571. *)
Definition ThrottlerThread_removeThrottling (p : ProcessHandlerLinux) (t : ThrottlerThread) : ThrottlerThread :=
  mkThrottler (tt_run t) (tt_throttlingInterval t) (tt_processesToAdd t)
    (tt_processesToRemove t ++ [p]) (tt_sumPercentages t) (tt_throttlingValues t).

(** [ThrottlerThread::setThrottlingInterval], src/task/task-linux.cpp:573-575. *)
Definition ThrottlerThread_setThrottlingInterval (i : Z) (t : ThrottlerThread) : ThrottlerThread :=
  mkThrottler (tt_run t) i (tt_processesToAdd t) (tt_processesToRemove t)
    (tt_sumPercentages t) (tt_throttlingValues t).

(** [ThrottlerThread::stop], src/task/task-linux.cpp:577-579. *)
Definition ThrottlerThread_stop (t : ThrottlerThread) : ThrottlerThread :=
  mkThrottler false (tt_throttlingInterval t) (tt_processesToAdd t) (tt_processesToRemove t)
    (tt_sumPercentages t) (tt_throttlingValues t).

(** [ThrottlerThread::run], src/task/task-linux.cpp:512-522: the first critical section. *)
Definition ThrottlerThread_drain (t : ThrottlerThread) : ThrottlerThread :=
  let t1 := fold_left ThrottlerThread_addProcess (tt_processesToAdd t) t in
  let t2 := mkThrottler (tt_run t1) (tt_throttlingInterval t1) [] (tt_processesToRemove t1)
              (tt_sumPercentages t1) (tt_throttlingValues t1) in
  let t3 := fold_left ThrottlerThread_removeProcess (tt_processesToRemove t2) t2 in
  mkThrottler (tt_run t3) (tt_throttlingInterval t3) (tt_processesToAdd t3) []
    (tt_sumPercentages t3) (tt_throttlingValues t3).

(** [ThrottlerThread::run], src/task/task-linux.cpp:524-539: the processes run in turn. The
    result is [sleptMicroSecs], the arguments of [usleep] and [terminated]. *)
Definition ThrottlerThread_turns (t : ThrottlerThread) :
    M World (double * list Z * list ProcessHandlerLinux) :=
  for_fold (tt_throttlingValues t) (d_zero, [], []) (fun '(slept, sleeps, terminated) it =>
    let* started := ProcessHandler_sendSignal (fst it) SIGCONT in
    if (started : bool) then
      let activeMicroSecs := dmul (ddiv (snd it) d_100) (d_of_Z (tt_throttlingInterval t)) in
      let* us := lift (d_to_u32 activeMicroSecs) in
      let* stopped := ProcessHandler_sendSignal (fst it) SIGSTOP in
      ret (dadd slept activeMicroSecs, sleeps ++ [us],
           if negb stopped then terminated ++ [fst it] else terminated)
    else ret (slept, sleeps, terminated ++ [fst it])).

(** [ThrottlerThread::run], src/task/task-linux.cpp:541-545: the second critical section.
    Erasing [end()] is undefined. *)
Definition ThrottlerThread_eraseTerminated (terminated : list ProcessHandlerLinux) (t : ThrottlerThread) :
    outcome ThrottlerThread :=
  fold_out terminated t (fun t it =>
    match map_find (tt_throttlingValues t) it with
    | Some _ => Ret (with_values (tt_sumPercentages t) (map_erase it (tt_throttlingValues t)) t)
    | None => Undef "erase of end()"
    end).

(** [ThrottlerThread::run], src/task/task-linux.cpp:511-548: one iteration, with the arguments
    of [usleep]. *)
Definition ThrottlerThread_iteration : M (World * ThrottlerThread) (list Z) := fun '(w, t) =>
  let t1 := ThrottlerThread_drain t in
  match ThrottlerThread_turns t1 w with
  | (Ret (slept, sleeps, terminated), w1) =>
      match ThrottlerThread_eraseTerminated terminated t1 with
      | Ret t2 =>
          match d_to_u32 (dsub (d_of_Z (tt_throttlingInterval t1)) slept) with
          | Ret us => (Ret (sleeps ++ [us]), (w1, t2))
          | Throw e => (Throw e, (w1, t2))
          | Undef u => (Undef u, (w1, t2))
          end
      | Throw e => (Throw e, (w1, t1))
      | Undef u => (Undef u, (w1, t1))
      end
  | (Throw e, w1) => (Throw e, (w1, t1))
  | (Undef u, w1) => (Undef u, (w1, t1))
  end.

(** [ThrottlerThread::run], src/task/task-linux.cpp:550-552: resuming every process at the end. *)
Definition ThrottlerThread_resumeAll (t : ThrottlerThread) : M World unit :=
  for_each (tt_throttlingValues t) (fun it => let* _ := ProcessHandler_sendSignal (fst it) SIGCONT in ret tt).

(** [ProcessHandlerLinux::throttle], src/task/task-linux.cpp:444-461. *)
Definition ProcessHandler_throttle (p : ProcessHandlerLinux) (percentage : double) :
    M (World * ThrottlerThread) bool := fun '(w, t) =>
  if ph_pid p =? fst (pr_self (w_procs w)) then
    (Throw (runtime_error "Trottling cannot be applied on the calling process."), (w, t))
  else if dleb percentage d_zero || dltb d_100 percentage then
    (Throw (runtime_error "Throttling percentage must be in range ]0, 100]."), (w, t))
  else
    let '(ok, t') := ThrottlerThread_throttle p percentage t in
    if negb ok then
      (Throw (runtime_error ("Throttling on pid " +:+ intToString (ph_pid p) +:+
         " cannot be performed since the sum of throttling percentages for the different processes " +:+
         "exceeds 100%.")), (w, t'))
    else (Ret (ProcessHandler_isActive w p), (w, t')).

(** [ProcessHandlerLinux::removeThrottling], src/task/task-linux.cpp:463-466. *)
Definition ProcessHandler_removeThrottling (p : ProcessHandlerLinux) : M (World * ThrottlerThread) bool :=
  fun '(w, t) => (Ret (ProcessHandler_isActive w p), (w, ThrottlerThread_removeThrottling p t)).

(** [ProcessHandlerLinux::~ProcessHandlerLinux], src/task/task-linux.cpp:330-339. *)
Definition ProcessHandler_destroy (p : ProcessHandlerLinux) (t : ThrottlerThread) : ThrottlerThread :=
  ThrottlerThread_removeThrottling p t.

(** The critical sections of the throttler thread and of its callers. [terminated] is what
    the turns between the two sections of [run] found. *)
Inductive throttler_event :=
  | EThrottle (p : ProcessHandlerLinux) (percentage : double)
  | ERemoveThrottling (p : ProcessHandlerLinux)
  | EDrain
  | EEraseTerminated (terminated : list ProcessHandlerLinux).

(** One critical section, src/task/task-linux.cpp:510-571. *)
Inductive throttler_step : ThrottlerThread -> throttler_event -> ThrottlerThread -> Prop :=
  | tstep_throttle t p pc ok t' :
      ThrottlerThread_throttle p pc t = (ok, t') -> throttler_step t (EThrottle p pc) t'
  | tstep_remove t p :
      throttler_step t (ERemoveThrottling p) (ThrottlerThread_removeThrottling p t)
  | tstep_drain t : throttler_step t EDrain (ThrottlerThread_drain t)
  | tstep_erase t terminated t' :
      ThrottlerThread_eraseTerminated terminated t = Ret t' ->
      throttler_step t (EEraseTerminated terminated) t'.

(** ** The manager *)

(** [ProcessesManagerLinux::getActiveProcessesIdentifiers], src/task/task-linux.cpp:590-592. *)
Definition TasksManager_getActiveProcessesIdentifiers (w : World) : outcome (list Z) :=
  getExecutionUnitsIdentifiers w "/proc".

(** [ProcessesManagerLinux::getProcessHandler], src/task/task-linux.cpp:594-596. *)
Definition TasksManager_getProcessHandler (w : World) (addr pid : Z) : outcome ProcessHandlerLinux :=
  ProcessHandler_new w addr pid.

(** [ProcessesManagerLinux::getThreadHandler], src/task/task-linux.cpp:608-610. *)
Definition TasksManager_getThreadHandler (w : World) (pid tid : Z) : outcome ThreadHandlerLinux :=
  ThreadHandler_new w pid tid.

(** [ProcessesManagerLinux::getThreadHandler], src/task/task-linux.cpp:612-614. *)
Definition TasksManager_getCallingThreadHandler (w : World) : outcome ThreadHandlerLinux :=
  let '(pid, tid) := pr_self (w_procs w) in ThreadHandler_new w pid tid.

(** * Properties *)

(** ** Affinity *)

Lemma elem_of_cpu_mask i ids : i ∈ cpu_mask ids <-> i ∈ ids /\ i < CPU_SETSIZE.
Proof. unfold cpu_mask. rewrite elem_of_list_to_set, list_elem_of_filter. tauto. Qed.

(** ** Priorities *)

Lemma priority_to_nice_spec priority :
  MAMMUT_PROCESS_PRIORITY_MIN <= priority <= MAMMUT_PROCESS_PRIORITY_MAX ->
  priority_to_nice priority = 20 - priority.
Proof.
  unfold MAMMUT_PROCESS_PRIORITY_MIN, MAMMUT_PROCESS_PRIORITY_MAX, PRIO_MAX, PRIO_MIN.
  change (u32 0) with 0. change (u32 (20 - -20)) with 40. intros H.
  unfold priority_to_nice, PRIO_MIN.
  assert (i32 (u32 (- u32 (priority + -20))) = i32 (20 - priority)) as ->.
  - unfold i32, u32. rewrite Zplus_mod_idemp_l.
    replace (- ((priority + -20) mod 2 ^ 32) + 2 ^ 31) with (2 ^ 31 - (priority + -20) mod 2 ^ 32) by lia.
    rewrite Zminus_mod_idemp_r. do 2 f_equal. lia.
  - apply i32_id. unfold is_i32. lia.
Qed.

(** ** Percentages with 45 binary places

    Sums of such numbers up to 200 are exact. *)
Definition percent_places : Z := 45.
(** So many units of [2^-45] percent. *)
Definition d_units (k : Z) : double := d_scaled k (- percent_places).
Definition units_100 : Z := 100 * 2 ^ percent_places.

Lemma d_100_units : d_100 = d_units units_100.
Proof. vm_compute. reflexivity. Qed.
Lemma d_zero_units : d_zero = d_units 0.
Proof. reflexivity. Qed.

Lemma dadd_units a b : 0 <= a <= units_100 -> 0 <= b <= units_100 -> dadd (d_units a) (d_units b) = d_units (a + b).
Proof. unfold units_100, percent_places. intros. apply dadd_scaled; unfold percent_places; lia. Qed.
Lemma dsub_units a b : 0 <= b <= a -> a <= units_100 -> dsub (d_units a) (d_units b) = d_units (a - b).
Proof. unfold units_100, percent_places. intros. apply dsub_scaled; unfold percent_places; lia. Qed.
Lemma dleb_units a : 0 <= a <= 2 * units_100 ->
  dleb (d_units a) d_100 = (a <=? units_100) /\ dltb d_100 (d_units a) = (units_100 <? a).
Proof.
  intros Ha. rewrite d_100_units. unfold units_100, percent_places, d_units in *.
  split; [apply dleb_scaled|apply dleb_scaled]; unfold percent_places; lia.
Qed.

(** ** The budget of the throttler *)

Definition percent_of (e : ProcessHandlerLinux * double) (k : Z) : Prop :=
  snd e = d_units k /\ 1 <= k <= units_100.
Definition total (ks : list Z) : Z := foldr Z.add 0 ks.
Definition addr_of (e : ProcessHandlerLinux * double) : Z := ph_addr (fst e).
#[local] Arguments addr_of !_ /.

(** The recorded sum is a number of units up to 100% that bounds the percentages in force. *)
Record throttler_inv (t : ThrottlerThread) (s : Z) (ks : list Z) : Prop := {
  ti_sum : tt_sumPercentages t = d_units s;
  ti_range : total ks <= s <= units_100;
  ti_values : Forall2 percent_of (tt_throttlingValues t) ks;
  ti_add : Forall (fun e => exists k, percent_of e k) (tt_processesToAdd t);
  ti_nodup : NoDup ((addr_of <$> tt_processesToAdd t) ++ (addr_of <$> tt_throttlingValues t))
}.
Definition within_budget (t : ThrottlerThread) : Prop := exists s ks, throttler_inv t s ks.

Lemma total_nonneg l ks : Forall2 percent_of l ks -> 0 <= total ks.
Proof. induction 1 as [|e k l ks [_ Hk] _ IH]; simpl; lia. Qed.

Lemma map_find_None l p : map_find l p = None <-> ph_addr p ∉ addr_of <$> l.
Proof.
  unfold map_find, same_handler. induction l as [|[q e] l IH]; csimpl; [by set_solver|].
  destruct (Z.eqb_spec (ph_addr q) (ph_addr p)) as [E|E]; simpl.
  - rewrite E. set_solver.
  - rewrite IH. set_solver.
Qed.

Lemma map_insert_spec l ks p d k :
  Forall2 percent_of l ks -> percent_of (p, d) k -> ph_addr p ∉ addr_of <$> l ->
  exists ks', Forall2 percent_of (map_insert p d l) ks' /\ total ks' = k + total ks /\
    addr_of <$> map_insert p d l ≡ₚ ph_addr p :: (addr_of <$> l).
Proof.
  intros H Hk Hn. induction H as [|[q e] j l ks Hj H IH]; csimpl.
  { exists [k]. split; [constructor; [done|constructor]|]. split; [simpl; lia|done]. }
  destruct (ph_addr p <? ph_addr q).
  { exists (k :: j :: ks). split; [constructor; [done|by constructor]|]. split; [simpl; lia|done]. }
  unfold same_handler. destruct (Z.eqb_spec (ph_addr p) (ph_addr q)); [set_solver|].
  destruct IH as (ks' & H1 & H2 & H3); [set_solver|].
  exists (j :: ks'). split; [by constructor|]. split; [simpl; lia|].
  csimpl. rewrite H3. by constructor.
Qed.

Lemma map_erase_spec l ks p :
  Forall2 percent_of l ks -> NoDup (addr_of <$> l) ->
  exists ks', Forall2 percent_of (map_erase p l) ks' /\
    (addr_of <$> map_erase p l) `sublist_of` (addr_of <$> l) /\
    match map_find l p with
    | Some v => exists k, v = d_units k /\ 1 <= k <= units_100 /\ total ks = k + total ks'
    | None => ks' = ks
    end.
Proof.
  intros H. unfold map_find, map_erase, same_handler.
  induction H as [|[q e] j l ks [Hj1 Hj2] H IH]; csimpl; [by exists []|].
  intros [Hnot Hnd]%NoDup_cons. destruct (IH Hnd) as (ks' & H1 & H2 & H3). rewrite filter_cons. csimpl.
  destruct (Z.eqb_spec (ph_addr q) (ph_addr p)) as [E|E]; simpl.
  - exists ks'. split; [done|]. split; [by apply sublist_cons|].
    destruct (find _ l) as [[q' e']|] eqn:Ef; simpl in H3.
    + exfalso. apply find_some in Ef as [Hin Heq]. apply Hnot. rewrite E.
      apply list_elem_of_fmap. exists (q', e'). simpl in *. split; [lia|by apply list_elem_of_In].
    + subst ks'. exists j. simpl in Hj1. done.
  - exists (j :: ks'). split; [by constructor|].
    split; [by apply sublist_skip|].
    destruct (find _ l) as [[q' e']|]; simpl in *.
    + destruct H3 as (k & -> & Hk & Ht). exists k. split; [done|]. split; [done|]. lia.
    + by rewrite H3.
Qed.

Lemma addProcess_inv t s ks e rest :
  throttler_inv t s ks -> tt_processesToAdd t = e :: rest ->
  exists s' ks', throttler_inv (let t' := ThrottlerThread_addProcess t e in
    mkThrottler (tt_run t') (tt_throttlingInterval t') rest (tt_processesToRemove t')
      (tt_sumPercentages t') (tt_throttlingValues t')) s' ks'.
Proof.
  intros [I1 I2 I3 I4 I5] E. destruct e as [p d]. rewrite E in *.
  apply Forall_cons in I4 as [[k Hk] I4]. rewrite fmap_cons in I5. simpl in I5.
  apply NoDup_cons in I5 as [Hn I5]. pose proof (total_nonneg _ _ I3). destruct Hk as [Hd Hk]. simpl in Hd.
  unfold ThrottlerThread_addProcess.
  destruct (map_find _ _) eqn:Ef.
  { exfalso. assert (map_find (tt_throttlingValues t) p = None); [|congruence].
    apply map_find_None. set_solver. }
  rewrite I1, Hd, dadd_units by lia. rewrite (proj1 (dleb_units (s + k) ltac:(lia))).
  destruct (Z.leb_spec (s + k) units_100).
  - destruct (map_insert_spec (tt_throttlingValues t) ks p d k) as (ks' & H1 & H2 & H3);
      [done|done|set_solver|].
    exists (s + k), ks'. rewrite <- Hd. split; simpl; [done|lia|done|done|].
    rewrite H3. apply NoDup_Permutation_proper with ((ph_addr p) :: (addr_of <$> rest) ++ (addr_of <$> tt_throttlingValues t)).
    + symmetry. apply Permutation_middle.
    + by constructor.
  - exists s, ks. by split.
Qed.

Lemma addProcess_toAdd t e : tt_processesToAdd (ThrottlerThread_addProcess t e) = tt_processesToAdd t.
Proof.
  destruct e as [p d]. unfold ThrottlerThread_addProcess.
  destruct (map_find _ _); [done|]. by destruct (dleb _ _).
Qed.

Definition set_toAdd (l : list (ProcessHandlerLinux * double)) (t : ThrottlerThread) : ThrottlerThread :=
  mkThrottler (tt_run t) (tt_throttlingInterval t) l (tt_processesToRemove t)
    (tt_sumPercentages t) (tt_throttlingValues t).

Lemma addProcess_set_toAdd l t e :
  ThrottlerThread_addProcess (set_toAdd l t) e = set_toAdd l (ThrottlerThread_addProcess t e).
Proof.
  destruct e as [p d]. unfold ThrottlerThread_addProcess. simpl.
  destruct (map_find _ _); [done|]. by destruct (dleb _ _).
Qed.

Lemma addProcesses_inv l t :
  within_budget (set_toAdd l t) -> within_budget (set_toAdd [] (fold_left ThrottlerThread_addProcess l t)).
Proof.
  revert t. induction l as [|e l IH]; intros t (s & ks & I); [by exists s, ks|]. simpl. apply IH.
  destruct (addProcess_inv _ _ _ e l I eq_refl) as (s' & ks' & I').
  exists s', ks'. simpl in I'. by rewrite addProcess_set_toAdd in I'.
Qed.

Lemma removeProcess_inv p t : within_budget t -> within_budget (ThrottlerThread_removeProcess t p).
Proof.
  intros (s & ks & [I1 I2 I3 I4 I5]). unfold ThrottlerThread_removeProcess.
  apply NoDup_app in I5 as I6. destruct I6 as (_ & _ & Hnd).
  destruct (map_erase_spec _ _ p I3 Hnd) as (ks' & H1 & H2 & H3).
  destruct (map_find _ _) as [v|]; [|by exists s, ks].
  destruct H3 as (k & -> & Hk & Ht). pose proof (total_nonneg _ _ H1).
  exists (s - k), ks'. split; simpl; [|lia|done|done|].
  - rewrite I1. apply dsub_units; lia.
  - eapply sublist_NoDup; [exact I5|]. by apply sublist_app.
Qed.

Lemma eraseTerminated_inv terminated t t' :
  within_budget t -> ThrottlerThread_eraseTerminated terminated t = Ret t' -> within_budget t'.
Proof.
  intros I H.
  change (within_budget t') with ((fun (_ : list ProcessHandlerLinux) t => within_budget t) ([] ++ terminated) t').
  eapply fold_out_Ret_inv; [|exact I|exact H].
  intros d t1 p t2 (s & ks & [I1 I2 I3 I4 I5]) Hp. simpl in *.
  apply NoDup_app in I5 as I6. destruct I6 as (_ & _ & Hnd).
  destruct (map_erase_spec _ _ p I3 Hnd) as (ks' & H1 & H2 & H3).
  destruct (map_find _ _) as [v|]; [|done]. injection Hp as <-.
  destruct H3 as (k & _ & Hk & Ht). exists s, ks'. split; simpl; [done|lia|done|done|].
  eapply sublist_NoDup; [exact I5|]. by apply sublist_app.
Qed.

Lemma within_budget_toRemove t l :
  within_budget t <-> within_budget (mkThrottler (tt_run t) (tt_throttlingInterval t) (tt_processesToAdd t) l
    (tt_sumPercentages t) (tt_throttlingValues t)).
Proof. split; intros (s & ks & [I1 I2 I3 I4 I5]); exists s, ks; by split. Qed.

Lemma drain_inv t : within_budget t -> within_budget (ThrottlerThread_drain t).
Proof.
  intros I. unfold ThrottlerThread_drain.
  apply (proj1 (within_budget_toRemove (fold_left ThrottlerThread_removeProcess _ _) [])).
  assert (forall l t, within_budget t -> within_budget (fold_left ThrottlerThread_removeProcess l t)) as HR.
  { induction l as [|p l IH]; intros t1 I1; simpl; [done|]. by apply IH, removeProcess_inv. }
  apply HR. apply (addProcesses_inv (tt_processesToAdd t) t). destruct t; exact I.
Qed.

(** A request the budget argument covers: a percentage above 0 and up to 100 that is a multiple of
    [2^-45], for a process that is neither throttled nor already queued. *)
Definition fresh_request (t : ThrottlerThread) (e : throttler_event) : Prop :=
  match e with
  | EThrottle p pc => (exists k, percent_of (p, pc) k) /\
      ph_addr p ∉ (addr_of <$> tt_processesToAdd t) ++ (addr_of <$> tt_throttlingValues t)
  | _ => True
  end.

Lemma throttler_step_inv t e t' :
  within_budget t -> fresh_request t e -> throttler_step t e t' -> within_budget t'.
Proof.
  intros I Hf Hs. destruct Hs as [t p pc ok t' H|t p|t|t terminated t' H].
  - destruct Hf as [[k Hk] Hn]. destruct I as (s & ks & [I1 I2 I3 I4 I5]).
    assert (within_budget (set_toAdd (tt_processesToAdd t ++ [(p, pc)]) t)) as Hadd.
    { exists s, ks. split; simpl; [done|done|done| |].
      - apply Forall_app. split; [done|]. constructor; [by exists k|constructor].
      - rewrite fmap_app. csimpl.
        apply NoDup_Permutation_proper with (ph_addr p :: (addr_of <$> tt_processesToAdd t) ++ (addr_of <$> tt_throttlingValues t)).
        + rewrite <- app_assoc. symmetry. apply Permutation_middle.
        + by constructor. }
    unfold ThrottlerThread_throttle in H.
    destruct (map_find _ _); [by injection H as _ <-|].
    destruct (dltb _ _); injection H as _ <-; [by exists s, ks|done].
  - by apply within_budget_toRemove.
  - by apply drain_inv.
  - by eapply eraseTerminated_inv.
Qed.

(** The states the throttler reaches through such requests and its own critical sections. *)
Inductive throttler_reachable : ThrottlerThread -> Prop :=
  | reach_new : throttler_reachable ThrottlerThread_new
  | reach_step t e t' :
      throttler_reachable t -> fresh_request t e -> throttler_step t e t' -> throttler_reachable t'.

Lemma throttler_reachable_inv t : throttler_reachable t -> within_budget t.
Proof.
  induction 1 as [|t e t' _ IH Hf Hs]; [|by eapply throttler_step_inv].
  exists 0, []. split; simpl; [done|unfold units_100, percent_places; lia|constructor|constructor|constructor].
Qed.

(** C3: whatever the order of requests, removals and terminations, the percentages of the
    throttled processes never add up to more than 100, as long as each request is for a process
    that is not already throttled or queued and its percentage, which is above 0 and up to 100,
    has at most 45 binary places, so that additions are exact.  With finer numbers it is the
    rounded sum that is checked, which lets in a little more. *)
Theorem throttler_budget t :
  throttler_reachable t ->
  exists ks, Forall2 percent_of (tt_throttlingValues t) ks /\ 0 <= total ks <= units_100.
Proof.
  intros (s & ks & [_ I2 I3 _ _])%throttler_reachable_inv. exists ks. split; [done|].
  pose proof (total_nonneg _ _ I3). lia.
Qed.

(** Two processes and their handlers, for the examples. *)
Definition sample_unit (pid : Z) : ExecutionUnitLinux :=
  mkExecutionUnit pid ("/proc/" +:+ intToString pid +:+ "/") (d_of_Z 100) (Some d_zero) (Some d_zero).
Definition sample_handler (pid : Z) : ProcessHandlerLinux := mkProcessHandler (1000 + pid) (sample_unit pid) pid.
Definition requests (l : list (Z * Z)) (t : ThrottlerThread) : list bool * ThrottlerThread :=
  fold_left (fun '(oks, t) '(pid, k) =>
    let '(ok, t') := ThrottlerThread_throttle (sample_handler pid) (d_of_Z k) t in (oks ++ [ok], t')) l ([], t).
Definition in_force (t : ThrottlerThread) : list (Z * double) :=
  (fun e => (ph_pid (fst e), snd e)) <$> tt_throttlingValues t.

Lemma throttler_budget_witness :
  exists ks, Forall2 percent_of (tt_throttlingValues (ThrottlerThread_drain
    (snd (ThrottlerThread_throttle (sample_handler 7) (d_of_Z 60) ThrottlerThread_new)))) ks /\
    0 <= total ks <= units_100.
Proof.
  apply throttler_budget.
  apply reach_step with (t := snd (ThrottlerThread_throttle (sample_handler 7) (d_of_Z 60) ThrottlerThread_new))
    (e := EDrain); [|exact I|constructor].
  apply reach_step with (t := ThrottlerThread_new) (e := EThrottle (sample_handler 7) (d_of_Z 60)).
  - constructor.
  - split; [exists (60 * 2 ^ 45); split; [vm_compute; reflexivity|unfold units_100, percent_places; lia]|]. apply not_elem_of_nil.
  - apply tstep_throttle with true. reflexivity.
Defined.

(** A percentage that vanishes in the rounded sum is let in although all of the 100% are taken. *)
Lemma throttler_rounded_sum :
  let t := snd (requests [(7, 100)] ThrottlerThread_new) in
  let '(ok, t') := ThrottlerThread_throttle (sample_handler 8) (d_pow_half 60) (ThrottlerThread_drain t) in
  ok = true /\ in_force (ThrottlerThread_drain t') = [(7, d_of_Z 100); (8, d_pow_half 60)].
Proof. vm_compute. done. Qed.

(** The request interface of the throttler can betray its caller. Two requests of 60%
    made in the same interval are both accepted and one is dropped; the share of a process
    that terminated is never given back, so that a later request is refused with no process
    throttled; asking again for a throttled process exceeds 100%; and throttling a process
    just after removing its throttling has no effect. *)
Theorem throttler_accounting_faults :
  (let '(oks, t) := requests [(7, 60); (8, 60)] ThrottlerThread_new in
   oks = [true; true] /\ in_force (ThrottlerThread_drain t) = [(7, d_of_Z 60)]) /\
  (let t := ThrottlerThread_drain (snd (requests [(7, 60)] ThrottlerThread_new)) in
   exists t', ThrottlerThread_eraseTerminated [sample_handler 7] t = Ret t' /\
     in_force t' = [] /\ fst (requests [(8, 50)] t') = [false]) /\
  (let t := ThrottlerThread_drain (snd (requests [(7, 10); (8, 90)] ThrottlerThread_new)) in
   in_force (ThrottlerThread_drain (snd (requests [(7, 100)] t))) = [(7, d_of_Z 100); (8, d_of_Z 90)]) /\
  (let t := ThrottlerThread_drain (snd (requests [(7, 60)] ThrottlerThread_new)) in
   let t' := ThrottlerThread_removeThrottling (sample_handler 7) t in
   in_force (ThrottlerThread_drain (snd (requests [(7, 20)] t'))) = []).
Proof.
  split; [by vm_compute|]. split; [|split; by vm_compute].
  eexists. split; [by vm_compute|]. by vm_compute.
Qed.

(** Moving a thread: the call succeeds exactly when some requested processor is online,
    then the thread may run on exactly the requested processors that are online, and, when the
    online processors are numbered from 0, [getVirtualCoreIds] lists them. A failed call
    changes nothing. *)
Theorem ThreadHandler_move_spec t ids w mask :
  pr_affinity (w_procs w) !! thr_tid t = Some mask -> eu_id (thr_unit t) = thr_tid t ->
  (forall i, i ∈ pr_online (w_procs w) <-> 0 <= i < Z.of_nat (size (pr_online (w_procs w)))) ->
  let allowed i := i ∈ ids /\ i < CPU_SETSIZE /\ i ∈ pr_online (w_procs w) in
  (exists i, allowed i) /\
    (exists w' vcs, ThreadHandler_move t ids w = (Ret true, w') /\
       ExecutionUnit_getVirtualCoreIds w' (thr_unit t) = Some vcs /\ NoDup vcs /\
       (forall i, i ∈ vcs <-> allowed i) /\
       (forall tid, tid <> thr_tid t -> pr_affinity (w_procs w') !! tid = pr_affinity (w_procs w) !! tid)) \/
  (forall i, ~ allowed i) /\ ThreadHandler_move t ids w = (Ret false, w).
Proof.
  intros Ht Hid Hon allowed. unfold ThreadHandler_move, sched_setaffinity. mrun.
  rewrite Ht, (bool_decide_eq_true_2 (is_Some (Some mask))) by done. simpl.
  destruct (decide (cpu_mask ids ∩ pr_online (w_procs w) = ∅)) as [E|E].
  - right. rewrite bool_decide_eq_true_2 by done. split; [|done].
    intros i (H1 & H2 & H3). assert (i ∈ cpu_mask ids) by by apply elem_of_cpu_mask. set_solver.
  - left. rewrite bool_decide_eq_false_2 by done. split.
    { apply set_choose_L in E as [i [Hi Ho]%elem_of_intersection].
      apply elem_of_cpu_mask in Hi as [? ?]. exists i. done. }
    simpl. do 2 eexists. split; [done|]. unfold ExecutionUnit_getVirtualCoreIds. simpl.
    rewrite Hid, lookup_insert_eq. split; [done|]. split; [apply NoDup_filter, NoDup_seqZ|]. split.
    + intros i. rewrite list_elem_of_filter, elem_of_intersection, elem_of_cpu_mask, elem_of_seqZ.
      unfold allowed. specialize (Hon i). split; [tauto|]. intros (H1 & H2 & H3).
      pose proof (proj1 Hon H3). split; [done|]. lia.
    + intros tid Hne. by rewrite lookup_insert_ne.
Qed.

Definition sample_tasks (online : gset Z) : World :=
  mkWorld "" ∅ ∅ (fun _ _ _ new => new) ∅ 0 None 100 "" (mkProcs online {[ 9 := online ]} ∅ [] (1, 1)).
Definition sample_thread : ThreadHandlerLinux := mkThreadHandler (sample_unit 9) 9.

Lemma ThreadHandler_move_spec_witness :
  exists w' vcs, ThreadHandler_move sample_thread [1] (sample_tasks {[0; 1]}) = (Ret true, w') /\
    ExecutionUnit_getVirtualCoreIds w' (thr_unit sample_thread) = Some vcs /\ vcs = [1].
Proof.
  destruct (ThreadHandler_move_spec sample_thread [1] (sample_tasks {[0; 1]}) {[0; 1]})
    as [(_ & w' & vcs & H1 & H2 & _)|(Hno & _)].
  - vm_compute. reflexivity.
  - reflexivity.
  - intros i. change (size (pr_online (w_procs (sample_tasks {[0; 1]})))) with 2%nat.
    change (pr_online (w_procs (sample_tasks {[0; 1]}))) with ({[0; 1]} : gset Z).
    rewrite elem_of_union, !elem_of_singleton. lia.
  - exists w', vcs. split; [exact H1|]. split; [exact H2|].
    injection H1 as <-. vm_compute in H2. congruence.
  - exfalso. apply (Hno 1). split; [left|]. split; [reflexivity|].
    apply elem_of_union_r, elem_of_singleton. reflexivity.
Defined.

(** With a hole in the numbering of the online processors, which hot-unplugging a core
    makes, [getVirtualCoreIds] misses the processors above the number of online ones: here the
    thread is moved to processor 3 and the answer is empty. *)
Theorem getVirtualCoreIds_misses_processors :
  exists w', ThreadHandler_move sample_thread [3] (sample_tasks {[0; 2; 3]}) = (Ret true, w') /\
    pr_affinity (w_procs w') !! 9 = Some {[3]} /\
    ExecutionUnit_getVirtualCoreIds w' (thr_unit sample_thread) = Some [].
Proof. eexists. split; [vm_compute; reflexivity|]. split; vm_compute; reflexivity. Qed.

(** The niceness the program asks the kernel for is 20 minus the priority, an
    out-of-range priority is refused without running anything, and, when the kernel reports
    the niceness asked for, the priority read back is the one set. *)
Theorem setPriority_spec {SH : Shell} ids priority eu w fields nice :
  is_u32 priority ->
  ExecutionUnit_getStatFields w (eu_path eu) = Ret fields -> fields !! PROC_STAT_NICE = Some nice ->
  (MAMMUT_PROCESS_PRIORITY_MAX < priority -> ExecutionUnit_setPriority ids priority w = (Ret false, w)) /\
  (priority <= MAMMUT_PROCESS_PRIORITY_MAX -> priority_to_nice priority = 20 - priority) /\
  (priority <= MAMMUT_PROCESS_PRIORITY_MAX -> nice = intToString (priority_to_nice priority) ->
     ExecutionUnit_getPriority w eu = Ret (Some priority)).
Proof.
  intros Hu Hf Hn. split; [|split].
  - intros H. unfold ExecutionUnit_setPriority. replace (MAMMUT_PROCESS_PRIORITY_MAX <? priority) with true by lia.
    by rewrite orb_true_r.
  - intros H. apply priority_to_nice_spec. split; [apply Hu|done].
  - intros H ->. unfold ExecutionUnit_getPriority. rewrite Hf. simpl. unfold vec_at. rewrite Hn. simpl.
    rewrite priority_to_nice_spec by (split; [apply Hu|done]).
    change MAMMUT_PROCESS_PRIORITY_MAX with 40 in H. unfold is_u32 in Hu.
    rewrite stringToInt_intToString by (unfold is_i32; lia).
    unfold PRIO_MIN. do 2 f_equal. rewrite u32_id; [lia|unfold is_u32; lia].
Qed.

(** Field 18 of a stat line, for the witness. *)
Definition sample_stat (nice : Z) : World :=
  mkWorld "" {[ "/proc/9/stat"%string := RegFile ("9 (x) S 1 9 9 0 -1 0 0 0 0 0 5 6 0 0 20 " +:+
                 intToString nice +:+ " 1 0") ]} ∅ (fun _ _ _ new => new) ∅ 0 None 100 ""
    (mkProcs {[0]} {[ 9 := {[0]} ]} ∅ [] (1, 1)).

Lemma setPriority_spec_witness :
  ExecutionUnit_getPriority (sample_stat (-10)) (sample_unit 9) = Ret (Some 30).
Proof.
  apply (@setPriority_spec (Build_Shell (fun _ w => (0, w)) (fun _ _ => None)) (fun _ => Ret EmptyString) 30
    (sample_unit 9) (sample_stat (-10))
    (split "9 (x) S 1 9 9 0 -1 0 0 0 0 0 5 6 0 0 20 -10 1 0" " ") (intToString (-10))).
  - split; [discriminate|reflexivity].
  - vm_compute. reflexivity.
  - vm_compute. reflexivity.
  - discriminate.
  - vm_compute. reflexivity.
Defined.

(** A query on a task that has terminated answers [false] and never throws: once its
    directory is gone, its usage, its priority and its core are unavailable. *)
Theorem ExecutionUnit_terminated w eu up tok :
  w_fs w !! (eu_path eu +:+ "stat") = None -> ExecutionUnit_isActive w (eu_path eu) = false ->
  readFirstLineFromFile w "/proc/uptime" = Ret up -> head (split up " ") = Some tok ->
  ExecutionUnit_getCoreUsage w eu = Ret None /\ ExecutionUnit_getPriority w eu = Ret None /\
  ExecutionUnit_getVirtualCoreId w eu = Ret None /\
  exists eu', ExecutionUnit_resetCoreUsage w eu = Ret (false, eu').
Proof.
  intros Hs Ha Hu Ht.
  assert (ExecutionUnit_getStatFields w (eu_path eu) =
          Throw (runtime_error ("Impossible to open file " +:+ (eu_path eu +:+ "stat")))) as Hf.
  { unfold ExecutionUnit_getStatFields, readFirstLineFromFile. by rewrite Hs. }
  assert (ExecutionUnit_getUpTime w = Ret (d_of_Z (stringToInt tok))) as Hup.
  { unfold ExecutionUnit_getUpTime. rewrite Hu. simpl. unfold vec_at.
    rewrite <- head_lookup, Ht. done. }
  unfold ExecutionUnit_getCoreUsage, ExecutionUnit_getPriority, ExecutionUnit_getVirtualCoreId,
    ExecutionUnit_resetCoreUsage, ExecutionUnit_times, ExecutionUnit_getCpuTime.
  rewrite Hup, Hf. simpl. rewrite Ha. simpl. do 3 (split; [done|]). eauto.
Qed.

Lemma ExecutionUnit_terminated_witness :
  ExecutionUnit_getPriority
    (mkWorld "" {[ "/proc/uptime"%string := RegFile "35.27 20.1" ]} ∅ (fun _ _ _ new => new) ∅ 0 None 100 ""
       (mkProcs {[0]} ∅ ∅ [] (1, 1))) (sample_unit 9) = Ret None.
Proof.
  apply (ExecutionUnit_terminated
    (mkWorld "" {[ "/proc/uptime"%string := RegFile "35.27 20.1" ]} ∅ (fun _ _ _ new => new) ∅ 0 None 100 ""
       (mkProcs {[0]} ∅ ∅ [] (1, 1))) (sample_unit 9) "35.27 20.1" "35.27"); vm_compute; reflexivity.
Defined.
