(* ===== verification/TaskPapi.v ===== *)
(** * Instruction counters of a process (src/task/task-linux.cpp, [WITH_PAPI])

    When the library is built with PAPI a process handler has a set of hardware events that
    follows the process.  PAPI is not code of the program: [Papi] is what the handler calls of
    it, on a state that includes the machine, since a process may end while PAPI reads. *)
From Stdlib Require Import Sorting.Sorted.
From S2P Require Import Prelude UtilsText Double UtilsSys Task.

(** ** The library *)

Definition PAPI_OK : Z := 0.
Definition PAPI_NULL : Z := -1.
(** The events, as their codes in papi.h. *)
Definition PAPI_TOT_INS : Z := -2147483598.
Definition PAPI_TOT_CYC : Z := -2147483589.

(** An array of [long long] on the heap; [None] is an element that was never written. *)
Definition Values : Type := list (option Z).

Class Papi (P : Type) := {
  pp_machine : P -> World;
  PAPI_VER_CURRENT : Z;
  PAPI_library_init : Z -> M P Z;
  (** The field [attach] of what [PAPI_get_component_info] points to. *)
  PAPI_component_attach : Z -> M P (option Z);
  (** Whether [PAPI_get_hardware_info] is not null. *)
  PAPI_hardware_info : M P bool;
  PAPI_create_eventset : Z -> M P (Z * Z);
  PAPI_assign_eventset_component : Z -> Z -> M P Z;
  PAPI_set_inherit_all : Z -> M P Z;
  PAPI_attach : Z -> Z -> M P Z;
  PAPI_add_event : Z -> Z -> M P Z;
  PAPI_start : Z -> M P Z;
  PAPI_read : Z -> Values -> M P (Z * Values);
  PAPI_stop : Z -> Values -> M P (Z * Values);
  PAPI_cleanup_eventset : Z -> M P Z;
  PAPI_destroy_eventset : Z -> M P (Z * Z)
}.

(** ** The handler *)

(** [NUM_PAPI_EVENTS], src/task/task-linux.cpp:7-7. *)
Definition NUM_PAPI_EVENTS : nat := 2.

(** [ProcessHandlerLinux], include/mammut/task/task-linux.hpp:101-106: the fields it has with
    PAPI. [None] is an uninitialised field. *)
Record PapiFields := mkPapiFields {
  pa_countersAvailable : option bool; pa_eventSet : option Z; pa_values : option Values; pa_oldValues : option Values
}.
Definition PapiFields_uninitialised : PapiFields := mkPapiFields None None None None.

(** The value of a field. *)
Definition initialised {A} (f : option A) : outcome A :=
  match f with Some a => Ret a | None => Undef "an uninitialised field" end.

(** [throw std::runtime_error("PAPI_read " + retval)], src/task/task-linux.cpp:403-403: the
    integer is added to the address of the text, which has ten characters. *)
Definition PAPI_read_error {A} (retval : Z) : outcome A :=
  if (0 <=? retval) && (retval <=? 10) then Throw (runtime_error (str_drop (Z.to_nat retval) "PAPI_read "))
  else Undef "a pointer outside the string literal".

(** The difference of two [long long]. *)
Definition sub_longlong (a b : Z) : outcome Z :=
  if (- 2 ^ 63 <=? a - b) && (a - b <? 2 ^ 63) then Ret (a - b) else Undef "signed overflow".

Section papi.
Context {P : Type} {PP : Papi P}.
(** The handler's other fields. *)
Variable process : ProcessHandlerLinux.

Definition in_papi {A} (f : M P A) : M (PapiFields * P) A := fun s =>
  let '(r, p) := f (snd s) in (r, (fst s, p)).
Definition fields : M (PapiFields * P) PapiFields := gets fst.
Definition set_fields (f : PapiFields -> PapiFields) : M (PapiFields * P) unit := modify (fun s => (f (fst s), snd s)).
(** [ExecutionUnitLinux::isActive], src/task/task-linux.cpp:119-121. *)
Definition isActive : M (PapiFields * P) bool := gets (fun s => ProcessHandler_isActive (pp_machine (snd s)) process).

Definition set_available (b : bool) (f : PapiFields) : PapiFields :=
  mkPapiFields (Some b) (pa_eventSet f) (pa_values f) (pa_oldValues f).
Definition set_eventSet (e : Z) (f : PapiFields) : PapiFields :=
  mkPapiFields (pa_countersAvailable f) (Some e) (pa_values f) (pa_oldValues f).
Definition set_values (v : Values) (f : PapiFields) : PapiFields :=
  mkPapiFields (pa_countersAvailable f) (pa_eventSet f) (Some v) (pa_oldValues f).
Definition set_oldValues (v : Values) (f : PapiFields) : PapiFields :=
  mkPapiFields (pa_countersAvailable f) (pa_eventSet f) (pa_values f) (Some v).

(** [ProcessHandlerLinux::resetInstructions], src/task/task-linux.cpp:413-425. *)
Definition resetInstructions : M (PapiFields * P) bool :=
  let* f := fields in
  let* available := lift (initialised (pa_countersAvailable f)) in
  if negb available then isActive
  else
    let* eventSet := lift (initialised (pa_eventSet f)) in
    let* oldValues := lift (initialised (pa_oldValues f)) in
    let* '(retval, oldValues) := in_papi (PAPI_read eventSet oldValues) in
    do* set_fields (set_oldValues oldValues) in
    let* active := isActive in
    if negb active then ret false
    else if negb (retval =? PAPI_OK) then lift (PAPI_read_error retval)
    else ret true.

(** [ProcessHandlerLinux::getInstructions], src/task/task-linux.cpp:394-406: what it returns
    and, when it assigns it, the value of [instructions]. *)
Definition getInstructions : M (PapiFields * P) (bool * option double) :=
  let* f := fields in
  let* available := lift (initialised (pa_countersAvailable f)) in
  if negb available then let* active := isActive in ret (active, None)
  else
    let* eventSet := lift (initialised (pa_eventSet f)) in
    let* values := lift (initialised (pa_values f)) in
    let* '(retval, values) := in_papi (PAPI_read eventSet values) in
    do* set_fields (set_values values) in
    let* active := isActive in
    if negb active then ret (false, None)
    else if negb (retval =? PAPI_OK) then lift (PAPI_read_error retval)
    else
      let* oldValues := lift (initialised (pa_oldValues f)) in
      let* v := lift (a ← vec_index values 0; initialised a) in
      let* o := lift (a ← vec_index oldValues 0; initialised a) in
      let* d := lift (sub_longlong v o) in
      ret (true, Some (d_of_Z d)).

(** [_oldValues[i] = _values[i]], src/task/task-linux.cpp:434-436: the loop. *)
Definition copy_values (values oldValues : Values) : outcome Values :=
  fold_out (seq 0 NUM_PAPI_EVENTS) oldValues (fun old i =>
    a ← vec_index values i; v ← initialised a; Ret (<[i := Some v]> old)).

#[global] Arguments copy_values : simpl never.

(** [ProcessHandlerLinux::getAndResetInstructions], src/task/task-linux.cpp:431-437. *)
Definition getAndResetInstructions : M (PapiFields * P) (bool * option double) :=
  let* r := getInstructions in
  if negb (fst r) then ret (false, snd r)
  else
    let* f := fields in
    let* values := lift (initialised (pa_values f)) in
    let* oldValues := lift (initialised (pa_oldValues f)) in
    let* copied := lift (copy_values values oldValues) in
    do* set_fields (set_oldValues copied) in
    ret (true, snd r).

(** A step of the initialisation: it goes on when PAPI returns [PAPI_OK]. *)
Definition papi_ok (call : M P Z) (next : M (PapiFields * P) unit) : M (PapiFields * P) unit :=
  let* retval := in_papi call in
  if negb (retval =? PAPI_OK) then set_fields (set_available false) else next.

(** [ProcessHandlerLinux::ProcessHandlerLinux], src/task/task-linux.cpp:260-326: the counters of
    the new handler. *)
Definition init_counters : M (PapiFields * P) unit :=
  let unavailable := set_fields (set_available false) in
  let* active := isActive in
  if negb active then ret tt
  else
    do* set_fields (fun _ => mkPapiFields (Some true) (Some PAPI_NULL) (Some (replicate NUM_PAPI_EVENTS None))
                               (Some (replicate NUM_PAPI_EVENTS None))) in
    let* retval := in_papi (PAPI_library_init PAPI_VER_CURRENT) in
    if negb (retval =? PAPI_VER_CURRENT) then unavailable
    else
      let* cmpinfo := in_papi (PAPI_component_attach 0) in
      match cmpinfo with
      | None => unavailable
      | Some attach =>
          if attach =? 0 then unavailable
          else
            let* hw_info := in_papi PAPI_hardware_info in
            if negb hw_info then unavailable
            else
              let* '(retval, eventSet) := in_papi (PAPI_create_eventset PAPI_NULL) in
              do* set_fields (set_eventSet eventSet) in
              if negb (retval =? PAPI_OK) then unavailable
              else
                papi_ok (PAPI_assign_eventset_component eventSet 0) (
                papi_ok (PAPI_set_inherit_all eventSet) (
                papi_ok (PAPI_attach eventSet (u64 (ph_pid process))) (
                papi_ok (PAPI_add_event eventSet PAPI_TOT_INS) (
                papi_ok (PAPI_add_event eventSet PAPI_TOT_CYC) (
                papi_ok (PAPI_start eventSet) (
                let* _ := resetInstructions in ret tt))))))
      end.

(** [ProcessHandlerLinux::~ProcessHandlerLinux], src/task/task-linux.cpp:330-336. *)
Definition delete_counters : M (PapiFields * P) unit :=
  let* f := fields in
  let* eventSet := lift (initialised (pa_eventSet f)) in
  let* values := lift (initialised (pa_values f)) in
  let* _ := in_papi (PAPI_stop eventSet values) in
  let* _ := in_papi (PAPI_cleanup_eventset eventSet) in
  let* _ := in_papi (PAPI_destroy_eventset eventSet) in
  do* lift (initialised (pa_oldValues f)) in
  ret tt.
End papi.

(** Without PAPI. *)
(** [ProcessHandlerLinux::getInstructions], src/task/task-linux.cpp:408-409. *)
Definition getInstructions_without : outcome (bool * option double) :=
  Throw (runtime_error "Please define WITH_PAPI if you want to get performance counters.").
(** [ProcessHandlerLinux::resetInstructions], src/task/task-linux.cpp:426-427. *)
Definition resetInstructions_without : outcome bool :=
  Throw (runtime_error "Please define WITH_PAPI if you want to get performance counters.").
(** [ProcessHandlerLinux::getAndResetInstructions], src/task/task-linux.cpp:439-440. *)
Definition getAndResetInstructions_without : outcome (bool * option double) :=
  Throw (runtime_error "Please define WITH_PAPI if you want to get instructions.").

(** * Properties *)

(** ** The counters as a meter *)

(** The calls on the counters. *)
Inductive MeterOp := OpGet | OpReset | OpGetAndReset.
(** A meter has the count at its last reset. When it is asked, the count is [c] and the process
    is active or not: what it answers, and the count at its last reset. *)
Definition meter_step (last : Z) (op : MeterOp) (c : Z) (active : bool) : (bool * option Z) * Z :=
  match op with
  | OpGet => ((active, if active then Some (c - last) else None), last)
  | OpReset => ((active, None), c)
  | OpGetAndReset => if active then ((true, Some (c - last)), c) else ((false, None), last)
  end.
Fixpoint meter_run (last : Z) (ops : list (MeterOp * (Z * bool))) : list (bool * option Z) :=
  match ops with
  | [] => []
  | (op, (c, active)) :: ops' => let '(r, last') := meter_step last op c active in r :: meter_run last' ops'
  end.

(** What PAPI promises of a running set of two events: reading it gives the counts, which do not
    decrease. *)
Class PapiLaws (P : Type) {PP : Papi P} := {
  pl_running : P -> Z -> Prop;
  pl_count : P -> Z -> Z;
  pl_range p e : pl_running p e -> 0 <= pl_count p e < 2 ^ 63;
  pl_read e v p : pl_running p e -> length v = NUM_PAPI_EVENTS -> exists y p',
    PAPI_read e v p = (Ret (PAPI_OK, [Some (pl_count p' e); Some y]), p') /\ pl_running p' e /\ pl_count p e <= pl_count p' e
}.

(** Runs a call on fields that are known, up to what PAPI answers. *)
Ltac run_call := unfold getInstructions, resetInstructions, fields, isActive, set_fields, in_papi, lift, gets, modify, bind, ret; cbn -[PAPI_read].

Section meter.
Context {P : Type} {PP : Papi P} {PL : PapiLaws P}.
Variable process : ProcessHandlerLinux.

Definition meter_call (op : MeterOp) : M (PapiFields * P) (bool * option double) :=
  match op with
  | OpGet => getInstructions process
  | OpReset => let* r := resetInstructions process in ret (r, None)
  | OpGetAndReset => getAndResetInstructions process
  end.

(** Counters that were reset at the count [last]. *)
Record counting (e last : Z) (s : PapiFields * P) : Prop := {
  ct_available : pa_countersAvailable (fst s) = Some true;
  ct_eventSet : pa_eventSet (fst s) = Some e;
  ct_values : exists v, pa_values (fst s) = Some v /\ length v = NUM_PAPI_EVENTS;
  ct_oldValues : exists y, pa_oldValues (fst s) = Some [Some last; Some y];
  ct_running : pl_running (snd s) e;
  ct_last : 0 <= last <= pl_count (snd s) e
}.

Definition as_double (r : bool * option Z) : bool * option double := (fst r, d_of_Z <$> snd r).
Definition active_now (s : PapiFields * P) : bool := ProcessHandler_isActive (pp_machine (snd s)) process.

Lemma sub_in_range (n last : Z) : 0 <= last <= n -> n < 2 ^ 63 -> sub_longlong n last = Ret (n - last).
Proof.
  intros H Hn. unfold sub_longlong. rewrite (proj2 (Z.leb_le _ _)) by lia. by rewrite (proj2 (Z.ltb_lt _ _)) by lia.
Qed.

Lemma getInstructions_counting e last s : counting e last s ->
  exists s', let c := pl_count (snd s') e in
    getInstructions process s = (Ret (as_double (fst (meter_step last OpGet c (active_now s')))), s') /\
    counting e last s' /\ pl_count (snd s) e <= c /\
    exists y z, pa_values (fst s') = Some [Some c; Some y] /\ pa_oldValues (fst s') = Some [Some last; Some z].
Proof.
  intros [Ha He (v & Hv & Hl) (y & Ho) Hr Hc]. destruct s as [[a ev vs os] p]. cbn in Ha, He, Hv, Ho, Hr, Hc. subst a ev vs os.
  destruct (pl_read e v p Hr Hl) as (y' & p' & Er & Hr' & Hle). pose proof (pl_range p' e Hr').
  exists (mkPapiFields (Some true) (Some e) (Some [Some (pl_count p' e); Some y']) (Some [Some last; Some y]), p').
  cbn zeta. cbn [snd fst]. split; [|split; [|split; [done|by exists y', y]]].
  - run_call. rewrite Er. cbn. unfold active_now. cbn. destruct (ProcessHandler_isActive _ process); [|done].
    cbn. by rewrite sub_in_range by lia.
  - constructor; cbn; [done|done|by eexists|by eexists|done|lia].
Qed.

Lemma meter_call_step op e last s : counting e last s ->
  exists s', let c := pl_count (snd s') e in let '(r, last') := meter_step last op c (active_now s') in
    meter_call op s = (Ret (as_double r), s') /\ counting e last' s' /\ pl_count (snd s) e <= c.
Proof.
  intros Hs. destruct op.
  - destruct (getInstructions_counting e last s Hs) as (s' & E & Hc & Hle & _). exists s'. by cbn.
  - destruct Hs as [Ha He (v & Hv & Hl) (y & Ho) Hr Hc]. destruct s as [[a ev vs os] p]. cbn in Ha, He, Hv, Ho, Hr, Hc. subst a ev vs os.
    destruct (pl_read e [Some last; Some y] p Hr eq_refl) as (y' & p' & Er & Hr' & Hle). pose proof (pl_range p' e Hr').
    exists (mkPapiFields (Some true) (Some e) (Some v) (Some [Some (pl_count p' e); Some y']), p').
    cbn. split; [|split; [|done]].
    + run_call. rewrite Er. cbn. unfold active_now. cbn. by destruct (ProcessHandler_isActive _ process).
    + constructor; cbn; [done|done|by eexists|by eexists|done|lia].
  - destruct (getInstructions_counting e last s Hs) as ([[a ev vs os] p] & E & Hc & Hle & y & z & Hv & Ho).
    cbn in Hv, Ho. subst vs os. cbn zeta in E. unfold meter_call, getAndResetInstructions.
    destruct (active_now (mkPapiFields a ev (Some [Some (pl_count p e); Some y]) (Some [Some last; Some z]), p)) eqn:Ea.
    + exists (mkPapiFields a ev (Some [Some (pl_count p e); Some y]) (Some [Some (pl_count p e); Some y]), p).
      unfold active_now in *. cbn in *. rewrite Ea. split; [|split; [|done]].
      * rewrite (bind_Ret _ _ _ _ _ E). run_call. done.
      * destruct Hc as [H1 H2 H3 _ H5 H6]. constructor; cbn in *; [done|done|done|by eexists|done|lia].
    + exists (mkPapiFields a ev (Some [Some (pl_count p e); Some y]) (Some [Some last; Some z]), p).
      unfold active_now in *. cbn in *. rewrite Ea. split; [|by split].
      by rewrite (bind_Ret _ _ _ _ _ E).
Qed.

(** The states in which the calls of a sequence leave the handler and PAPI. *)
Fixpoint states_after (ops : list MeterOp) (s : PapiFields * P) : list (PapiFields * P) :=
  match ops with [] => [] | op :: ops' => let s' := snd (meter_call op s) in s' :: states_after ops' s' end.

(** The directory of the process in /proc. *)
Definition process_directory : string := "/proc/" +:+ intToString (ph_pid process) +:+ "/".
(** What a meter is asked at a state: the number of instructions that PAPI has counted, and whether
    the process is there. *)
Definition asked_at (e : Z) (s : PapiFields * P) : Z * bool :=
  (pl_count (snd s) e, bool_decide (is_Some (w_fs (pp_machine (snd s)) !! process_directory))).

Lemma asked_at_active e s : eu_path (ph_unit process) = process_directory -> asked_at e s = (pl_count (snd s) e, active_now s).
Proof.
  intros Hp. unfold asked_at, active_now, ProcessHandler_isActive, ExecutionUnit_isActive, existsFile. rewrite Hp. f_equal.
  by destruct (w_fs (pp_machine (snd s)) !! process_directory); [apply bool_decide_eq_true_2|apply bool_decide_eq_false_2; intros []].
Qed.

(** C33: the instruction counters of a handler refine a meter: whatever sequence of calls is made
    and whenever the process ends, the answers are those of a meter that is asked, at each call,
    at the number of instructions that PAPI has counted when the call returns and at whether
    /proc has the process then: the instructions since the last reset (or since a
    [getAndResetInstructions] that returned [true]), and [false] with no value once the process
    has ended. The counts at which it is asked never decrease. *)
Theorem PapiHandler_refines_meter (ops : list MeterOp) (e last : Z) (s : PapiFields * P) :
  eu_path (ph_unit process) = process_directory -> counting e last s ->
  let asked := asked_at e <$> states_after ops s in
  fst (for_map ops meter_call s) = Ret (as_double <$> meter_run last (zip ops asked)) /\
  Sorted Z.le (pl_count (snd s) e :: (fst <$> asked)).
Proof.
  intros Hp. revert last s. induction ops as [|op ops IH]; intros last s Hs asked.
  { split; [done|]. by repeat constructor. }
  destruct (meter_call_step op e last s Hs) as (s1 & H1). cbn zeta in H1.
  destruct (meter_step last op (pl_count (snd s1) e) (active_now s1)) as [r last1] eqn:Em. destruct H1 as (E1 & Hs1 & Hle).
  unfold asked. cbn [states_after fmap list_fmap]. rewrite E1. cbn [snd].
  destruct (IH last1 s1 Hs1) as (E2 & Hsort). split.
  - cbn [for_map]. rewrite (bind_Ret _ _ _ _ _ E1).
    destruct (for_map ops meter_call s1) as [r2 s2] eqn:E3. cbn [fst] in E2. subst r2. rewrite (bind_Ret _ _ _ _ _ E3).
    cbn [zip zip_with meter_run fst]. rewrite (asked_at_active e s1 Hp), Em. done.
  - constructor; [exact Hsort|]. by constructor.
Qed.
End meter.

(** ** Initialisation *)
Section initialisation.
Context {P : Type} {PP : Papi P}.
Variable process : ProcessHandlerLinux.
(** [PAPI_read] fills the array it is given. *)
Hypothesis read_length : forall e v p r v' p', length v = NUM_PAPI_EVENTS ->
  PAPI_read e v p = (Ret (r, v'), p') -> length v' = NUM_PAPI_EVENTS.

(** Every field has a value; the arrays have their two elements. *)
Definition all_initialised (s : PapiFields * P) : Prop :=
  is_Some (pa_countersAvailable (fst s)) /\ is_Some (pa_eventSet (fst s)) /\
  (exists v, pa_values (fst s) = Some v /\ length v = NUM_PAPI_EVENTS) /\
  (exists o, pa_oldValues (fst s) = Some o /\ length o = NUM_PAPI_EVENTS).

Lemma keeps_in_papi {A} (f : M P A) : keeps all_initialised (in_papi f).
Proof. intros [f0 p] r s' Hs E. unfold in_papi in E. cbn in E. destruct (f p). by injection E as _ <-. Qed.
Lemma keeps_set_available b : keeps all_initialised (set_fields (set_available b)).
Proof. intros [f p] r s' (Ha & H) [= _ <-]. split; [by eexists|done]. Qed.
Lemma keeps_papi_ok call (next : M (PapiFields * P) unit) : keeps all_initialised next -> keeps all_initialised (papi_ok call next).
Proof.
  intros Hn. apply keeps_bind; [apply keeps_in_papi|]. intros retval. destruct (negb _); [apply keeps_set_available|done].
Qed.

Lemma keeps_resetInstructions : keeps all_initialised (resetInstructions process).
Proof.
  intros [f p] r s' Hs E. pose proof Hs as ((a & Ha) & (e & He) & (v & Hv & Hl) & (o & Ho & Hlo)). cbn in Ha, He, Hv, Ho.
  revert E. run_call. rewrite Ha, He, Ho. cbn. destruct a; cbn; [|by intros [= _ <-]].
  destruct (PAPI_read e o p) as [[[retval o']|x|u] p'] eqn:Er; [|by intros [= _ <-]..].
  assert (all_initialised (set_oldValues o' f, p')) as Hs'.
  { split; [by eexists|]. split; [by eexists|]. split; [by exists v|]. exists o'. split; [done|]. by eapply (read_length e o). }
  cbn. destruct (negb (ProcessHandler_isActive _ process)); [by intros [= _ <-]|].
  destruct (negb _); by intros [= _ <-].
Qed.
Lemma keeps_getInstructions : keeps all_initialised (getInstructions process).
Proof.
  intros [f p] r s' Hs E. pose proof Hs as ((a & Ha) & (e & He) & (v & Hv & Hl) & (o & Ho & Hlo)). cbn in Ha, He, Hv, Ho.
  revert E. run_call. rewrite Ha, He, Hv. cbn. destruct a; cbn; [|by intros [= _ <-]].
  destruct (PAPI_read e v p) as [[[retval v']|x|u] p'] eqn:Er; [|by intros [= _ <-]..].
  assert (all_initialised (set_values v' f, p')) as Hs'.
  { split; [by eexists|]. split; [by eexists|]. split; [|by exists o]. exists v'. split; [done|]. by eapply (read_length e v). }
  cbn. destruct (negb (ProcessHandler_isActive _ process)); [by intros [= _ <-]|].
  destruct (negb _); [by intros [= _ <-]|]. rewrite Ho. cbn.
  destruct (mbind _ _) as [x| |]; [|by intros [= _ <-]..]. destruct (mbind _ _) as [y| |]; [|by intros [= _ <-]..].
  destruct (sub_longlong x y); by intros [= _ <-].
Qed.

Lemma copy_values_length v o r : length o = NUM_PAPI_EVENTS -> copy_values v o = Ret r -> length r = NUM_PAPI_EVENTS.
Proof.
  intros Ho. apply (fold_out_Ret_inv (fun _ r => length r = NUM_PAPI_EVENTS)) with (d := []); [|done].
  intros d b i b' Hb E. minv E. injection E as <-. by etransitivity; [apply length_insert|].
Qed.
Lemma keeps_getAndResetInstructions : keeps all_initialised (getAndResetInstructions process).
Proof.
  apply keeps_bind; [apply keeps_getInstructions|]. intros [b x]. cbn [fst snd]. destruct (negb b); [apply keeps_pure|].
  intros [f p] r s' Hs E. pose proof Hs as (Ha & He & (v & Hv & Hl) & (o & Ho & Hlo)). cbn in Ha, He, Hv, Ho.
  revert E. run_call. rewrite Hv, Ho. cbn [initialised].
  destruct (copy_values v o) as [c|e|u] eqn:Ec; [|by intros [= _ <-]..]. intros [= _ <-].
  split; [done|]. split; [done|]. split; [by exists v|]. exists c. split; [done|]. by eapply copy_values_length.
Qed.

(** A handler that is made while its process is active has all its fields initialised from
    then on, whatever PAPI answers at each step: whether the counters are available, the set of
    events and both arrays of two elements; every later call on the counters keeps them so. *)
Theorem PapiHandler_initialised (p : P) (r : outcome unit) (s : PapiFields * P) :
  ProcessHandler_isActive (pp_machine p) process = true ->
  init_counters process (PapiFields_uninitialised, p) = (r, s) ->
  all_initialised s /\ keeps all_initialised (resetInstructions process) /\
  keeps all_initialised (getInstructions process) /\ keeps all_initialised (getAndResetInstructions process).
Proof.
  intros Hp E. split; [|split; [apply keeps_resetInstructions|split; [apply keeps_getInstructions|apply keeps_getAndResetInstructions]]].
  unfold init_counters, isActive at 1, gets at 1 in E. unfold bind at 1 in E. cbn [snd] in E. rewrite Hp in E. cbn [negb] in E.
  unfold set_fields at 1, modify at 1 in E. unfold bind at 1 in E. revert E.
  match goal with |- ?m ?s0 = _ -> _ => intros E; refine ((_ : keeps all_initialised m) s0 _ _ _ E) end.
  2: { split; [by eexists|]. split; [by eexists|]. split; by eexists. }
  apply keeps_bind; [apply keeps_in_papi|]. intros retval. destruct (negb _); [apply keeps_set_available|].
  apply keeps_bind; [apply keeps_in_papi|]. intros [attach|]; [|apply keeps_set_available].
  destruct (attach =? 0); [apply keeps_set_available|].
  apply keeps_bind; [apply keeps_in_papi|]. intros hw. destruct (negb hw); [apply keeps_set_available|].
  apply keeps_bind; [apply keeps_in_papi|]. intros [retval' eventSet]. apply keeps_bind.
  { intros [f q] r' s' (Ha & He & H) [= _ <-]. split; [done|]. split; [by eexists|done]. }
  intros _. destruct (negb _); [apply keeps_set_available|]. do 6 apply keeps_papi_ok.
  apply keeps_bind; [apply keeps_resetInstructions|]. intros. apply keeps_pure.
Qed.
End initialisation.

(** A handler that is made for a process that has ended keeps its fields uninitialised: its
    counters, and also its destructor, then read them. *)
Theorem PapiHandler_dead_process {P : Type} {PP : Papi P} (process : ProcessHandlerLinux) (p : P) :
  ProcessHandler_isActive (pp_machine p) process = false ->
  init_counters process (PapiFields_uninitialised, p) = (Ret tt, (PapiFields_uninitialised, p)) /\
  (forall op, fst (meter_call process op (PapiFields_uninitialised, p)) = Undef "an uninitialised field") /\
  fst (delete_counters (PapiFields_uninitialised, p)) = Undef "an uninitialised field".
Proof.
  intros Hp. split; [|split].
  - unfold init_counters, isActive, gets, bind. cbn [snd]. by rewrite Hp.
  - by intros [].
  - done.
Qed.

(** An error of [PAPI_read] (its codes are negative) never becomes the exception that is meant:
    the text of the exception would start before the literal. *)
Lemma PAPI_read_error_undefined {A} (retval : Z) : retval < 0 -> exists u, PAPI_read_error (A := A) retval = Undef u.
Proof. intros H. unfold PAPI_read_error. rewrite (proj2 (Z.leb_gt _ _)) by lia. by eexists. Qed.

Lemma PapiHandler_read_fails {P : Type} {PP : Papi P} (process : ProcessHandlerLinux) (e : Z) (v v' : Values) (f : PapiFields)
    (p p' : P) (retval : Z) :
  pa_countersAvailable f = Some true -> pa_eventSet f = Some e -> pa_values f = Some v ->
  PAPI_read e v p = (Ret (retval, v'), p') -> ProcessHandler_isActive (pp_machine p') process = true -> retval < 0 ->
  exists u, fst (getInstructions process (f, p)) = Undef u.
Proof.
  intros Ha He Hv Er Hp Hr. run_call. rewrite Ha, He, Hv. cbn. rewrite Er. cbn. rewrite Hp. cbn.
  rewrite (proj2 (Z.eqb_neq retval PAPI_OK)) by (unfold PAPI_OK; lia).
  destruct (PAPI_read_error_undefined (A := bool * option double) retval Hr) as [u ->]. by exists u.
Qed.

(** ** Witnesses: a set of events that counts its reads, and a process that ends at the third *)

Record SamplePapi := mkSamplePapi { sp_reads : Z; sp_world : World; sp_end : World }.
#[export] Instance sample_papi : Papi SamplePapi := {|
  pp_machine p := if sp_reads p <? 4 then sp_world p else sp_end p;
  PAPI_VER_CURRENT := 5;
  PAPI_library_init v := ret v;
  PAPI_component_attach _ := ret (Some 1);
  PAPI_hardware_info := ret true;
  PAPI_create_eventset _ := ret (PAPI_OK, 7);
  PAPI_assign_eventset_component _ _ := ret PAPI_OK;
  PAPI_set_inherit_all _ := ret PAPI_OK;
  PAPI_attach _ _ := ret PAPI_OK;
  PAPI_add_event _ _ := ret PAPI_OK;
  PAPI_start _ := ret PAPI_OK;
  PAPI_read _ _ p :=
    let n := Z.min (sp_reads p + 1) 1000000 in
    (Ret (PAPI_OK, [Some (100 * n); Some (150 * n)]), mkSamplePapi n (sp_world p) (sp_end p));
  PAPI_stop _ v := ret (PAPI_OK, v);
  PAPI_cleanup_eventset _ := ret PAPI_OK;
  PAPI_destroy_eventset _ := ret (PAPI_OK, PAPI_NULL)
|}.
#[export] Program Instance sample_papi_laws : PapiLaws SamplePapi := {|
  pl_running p _ := 0 <= sp_reads p <= 1000000;
  pl_count p _ := 100 * sp_reads p
|}.
Next Obligation. intros p e H. cbn in *. lia. Qed.
Next Obligation.
  intros e v p H _. set (n := Z.min (sp_reads p + 1) 1000000).
  exists (150 * n), (mkSamplePapi n (sp_world p) (sp_end p)). split; [reflexivity|]. cbn in *. lia.
Qed.

Definition papi_world (alive : bool) : World :=
  mkWorld "" (if alive then {[ "/proc/9/"%string := Directory [] ]} else ∅) ∅ (fun _ _ _ new => new) ∅ 0 None 100 ""
    (mkProcs {[0]} ∅ ∅ [] (1, 1)).
Definition sample_papi_start : SamplePapi := mkSamplePapi 0 (papi_world true) (papi_world false).
(** The handler after its construction. *)
Definition sample_papi_handler : PapiFields * SamplePapi := snd (init_counters (sample_handler 9) (PapiFields_uninitialised, sample_papi_start)).

Definition sample_calls : list MeterOp := [OpGet; OpGetAndReset; OpGet; OpGetAndReset].
(** The process is there at the first two calls and gone at the last two. *)
Lemma PapiHandler_refines_meter_witness :
  asked_at (sample_handler 9) 7 <$> states_after (sample_handler 9) sample_calls sample_papi_handler =
    [(200, true); (300, true); (400, false); (500, false)] /\
  fst (for_map sample_calls (meter_call (sample_handler 9)) sample_papi_handler) =
    Ret [(true, Some (d_of_Z 100)); (true, Some (d_of_Z 200)); (false, None); (false, None)].
Proof.
  split; [vm_compute; reflexivity|].
  destruct (PapiHandler_refines_meter (sample_handler 9) sample_calls 7 100 sample_papi_handler) as [E _].
  - vm_compute. reflexivity.
  - constructor.
    + vm_compute. reflexivity.
    + vm_compute. reflexivity.
    + eexists. split; vm_compute; reflexivity.
    + eexists. vm_compute. reflexivity.
    + vm_compute. split; discriminate.
    + vm_compute. split; discriminate.
  - transitivity (Ret (as_double <$> meter_run 100 (zip sample_calls [(200, true); (300, true); (400, false); (500, false)]))).
    + exact E.
    + vm_compute. reflexivity.
Defined.

(** The third read finds the process gone. *)
Lemma PapiHandler_meter_answers :
  fst (for_map [OpGet; OpGetAndReset; OpGet] (meter_call (sample_handler 9)) sample_papi_handler) =
    Ret [(true, Some (d_of_Z 100)); (true, Some (d_of_Z 200)); (false, None)].
Proof. vm_compute. reflexivity. Qed.

Lemma PapiHandler_initialised_witness :
  all_initialised sample_papi_handler /\ keeps all_initialised (resetInstructions (P := SamplePapi) (sample_handler 9)) /\
  keeps all_initialised (getInstructions (P := SamplePapi) (sample_handler 9)) /\
  keeps all_initialised (getAndResetInstructions (P := SamplePapi) (sample_handler 9)).
Proof.
  apply (PapiHandler_initialised (sample_handler 9)) with (p := sample_papi_start) (r := Ret tt).
  - intros e v p r v' p' _ [= _ <- _]. reflexivity.
  - vm_compute. reflexivity.
  - vm_compute. reflexivity.
Defined.

Lemma PapiHandler_dead_process_witness :
  let p := mkSamplePapi 0 (papi_world false) (papi_world false) in
  init_counters (sample_handler 9) (PapiFields_uninitialised, p) = (Ret tt, (PapiFields_uninitialised, p)) /\
  (forall op, fst (meter_call (sample_handler 9) op (PapiFields_uninitialised, p)) = Undef "an uninitialised field") /\
  fst (delete_counters (PapiFields_uninitialised, p)) = Undef "an uninitialised field".
Proof. apply PapiHandler_dead_process. vm_compute. reflexivity. Defined.
