(* ===== verification/TopologyLinux.v ===== *)
(** * The local topology (src/topology/topology-linux.cpp)

    [Machine] is the world together with the virtual core objects the topology holds, by
    identifier: the only objects of the module that change.  [LinuxVirtualCore] makes the class
    an instance of [VirtualCoreOps].  [machine_ok] is the documented behaviour of the sysfs
    attributes and of the model specific registers, which only a plugged core has;
    [kernel_follows] is what the kernel does with the registers when a core is plugged or
    unplugged.  [linux_laws] discharges [VirtualCoreLaws] on such machines when no core that can be
    unplugged has a clock modulation register. *)
From S2P Require Import Prelude UtilsText UtilsVector Double UtilsSys UtilsSync Topology Task.

(** ** Data *)

(** [VirtualCoreIdleLevelLinux], include/mammut/topology/topology-linux.hpp:39-44. *)
Record VirtualCoreIdleLevelLinux := mkIdleLevel {
  il_virtualCoreId : Z; il_levelId : Z; il_path : string;
  il_lastAbsTime : Z; il_lastAbsCount : Z
}.

(** [SpinnerThread], include/mammut/topology/topology-linux.hpp:72-83. [sp_alive] is whether the
    thread has been created and has not finished; [sp_running] is [Thread::_running]. *)
Record SpinnerThread := mkSpinner {
  sp_stop : bool; sp_running : bool; sp_alive : bool; sp_ids : Z * Z
}.

(** [VirtualCoreLinux], include/mammut/topology/topology-linux.hpp:99-108. *)
Record VirtualCoreLinux := mkVirtualCoreLinux {
  vl_core : VirtualCore; vl_hotplugFile : string; vl_idleLevels : list VirtualCoreIdleLevelLinux;
  vl_lastProcIdleTime : double; vl_utilizationThread : SpinnerThread;
  vl_clkModMsr : Msr; vl_clkModLowBit : Z; vl_clkModStep : double; vl_clkModValues : list double
}.

Record Machine := mkMachine { m_world : World; m_vcores : gmap Z VirtualCoreLinux }.

(** ** Idle levels *)

(** [VirtualCoreIdleLevelLinux::getName], src/topology/topology-linux.cpp:111-113. *)
Definition IdleLevel_getName (w : World) (l : VirtualCoreIdleLevelLinux) : outcome string :=
  readFirstLineFromFile w (il_path l +:+ "name").

(** [VirtualCoreIdleLevelLinux::getDesc], src/topology/topology-linux.cpp:115-117. *)
Definition IdleLevel_getDesc (w : World) (l : VirtualCoreIdleLevelLinux) : outcome string :=
  readFirstLineFromFile w (il_path l +:+ "desc").

(** [VirtualCoreIdleLevelLinux::isEnableable], src/topology/topology-linux.cpp:119-121. *)
Definition IdleLevel_isEnableable (w : World) (l : VirtualCoreIdleLevelLinux) : bool :=
  existsFile w (il_path l +:+ "disable").

(** [VirtualCoreIdleLevelLinux::isEnabled], src/topology/topology-linux.cpp:123-129. *)
Definition IdleLevel_isEnabled (w : World) (l : VirtualCoreIdleLevelLinux) : outcome bool :=
  if IdleLevel_isEnableable w l then
    s ← readFirstLineFromFile w (il_path l +:+ "disable");
    Ret (bool_decide (s = "0"%string))
  else Ret true.

(** [VirtualCoreIdleLevelLinux::enable], src/topology/topology-linux.cpp:131-133. *)
Definition IdleLevel_enable (l : VirtualCoreIdleLevelLinux) : M World unit :=
  writeFile (il_path l +:+ "disable") "0".

(** [VirtualCoreIdleLevelLinux::disable], src/topology/topology-linux.cpp:135-137. *)
Definition IdleLevel_disable (l : VirtualCoreIdleLevelLinux) : M World unit :=
  writeFile (il_path l +:+ "disable") "1".

Definition read_uint (w : World) (path : string) : outcome Z :=
  s ← readFirstLineFromFile w path; Ret (u32 (stringToInt s)).

(** [VirtualCoreIdleLevelLinux::getExitLatency], src/topology/topology-linux.cpp:139-141. *)
Definition IdleLevel_getExitLatency (w : World) (l : VirtualCoreIdleLevelLinux) : outcome Z :=
  read_uint w (il_path l +:+ "latency").

(** [VirtualCoreIdleLevelLinux::getConsumedPower], src/topology/topology-linux.cpp:143-145. *)
Definition IdleLevel_getConsumedPower (w : World) (l : VirtualCoreIdleLevelLinux) : outcome Z :=
  read_uint w (il_path l +:+ "power").

(** [VirtualCoreIdleLevelLinux::getAbsoluteTime], src/topology/topology-linux.cpp:147-149. *)
Definition IdleLevel_getAbsoluteTime (w : World) (l : VirtualCoreIdleLevelLinux) : outcome Z :=
  read_uint w (il_path l +:+ "time").

(** [VirtualCoreIdleLevelLinux::getTime], src/topology/topology-linux.cpp:151-153. *)
Definition IdleLevel_getTime (w : World) (l : VirtualCoreIdleLevelLinux) : outcome Z :=
  t ← IdleLevel_getAbsoluteTime w l; Ret (u32 (t - il_lastAbsTime l)).

(** [VirtualCoreIdleLevelLinux::resetTime], src/topology/topology-linux.cpp:155-157. *)
Definition IdleLevel_resetTime (w : World) (l : VirtualCoreIdleLevelLinux) :
    outcome VirtualCoreIdleLevelLinux :=
  t ← IdleLevel_getAbsoluteTime w l;
  Ret (mkIdleLevel (il_virtualCoreId l) (il_levelId l) (il_path l) t (il_lastAbsCount l)).

(** [VirtualCoreIdleLevelLinux::getAbsoluteCount], src/topology/topology-linux.cpp:159-161. *)
Definition IdleLevel_getAbsoluteCount (w : World) (l : VirtualCoreIdleLevelLinux) : outcome Z :=
  read_uint w (il_path l +:+ "usage").

(** [VirtualCoreIdleLevelLinux::getCount], src/topology/topology-linux.cpp:163-165. *)
Definition IdleLevel_getCount (w : World) (l : VirtualCoreIdleLevelLinux) : outcome Z :=
  c ← IdleLevel_getAbsoluteCount w l; Ret (u32 (c - il_lastAbsCount l)).

(** [VirtualCoreIdleLevelLinux::resetCount], src/topology/topology-linux.cpp:167-169. *)
Definition IdleLevel_resetCount (w : World) (l : VirtualCoreIdleLevelLinux) :
    outcome VirtualCoreIdleLevelLinux :=
  c ← IdleLevel_getAbsoluteCount w l;
  Ret (mkIdleLevel (il_virtualCoreId l) (il_levelId l) (il_path l) (il_lastAbsTime l) c).

(** [VirtualCoreIdleLevelLinux::VirtualCoreIdleLevelLinux],
    src/topology/topology-linux.cpp:101-109. *)
Definition IdleLevel_new (w : World) (virtualCoreId levelId : Z) : outcome VirtualCoreIdleLevelLinux :=
  let path := w_prefix w +:+ "/sys/devices/system/cpu/cpu" +:+ intToString virtualCoreId +:+
              "/cpuidle/state" +:+ intToString levelId +:+ "/" in
  l ← IdleLevel_resetTime w (mkIdleLevel virtualCoreId levelId path 0 0);
  IdleLevel_resetCount w l.

(** ** Information on a CPU *)

(** [CpuLinux::getCpuInfo], src/topology/topology-linux.cpp:42-57. *)
Definition CpuLinux_getCpuInfo (w : World) (infoName : string) : outcome string :=
  match w_fs w !! (w_prefix w +:+ "/proc/cpuinfo")%string with
  | None => Throw (runtime_error "Impossible to open /proc/cpuinfo.")
  | Some n =>
      match find (fun line => is_prefix infoName line) (split (file_content n) newline) with
      | Some line => f ← vec_at (split line ":") 1; Ret (ltrim f)
      | None => Ret EmptyString
      end
  end.

(** [CpuLinux::getVendorId], src/topology/topology-linux.cpp:59-61. *)
Definition CpuLinux_getVendorId (w : World) : outcome string := CpuLinux_getCpuInfo w "vendor_id".
(** [CpuLinux::getFamily], src/topology/topology-linux.cpp:63-65. *)
Definition CpuLinux_getFamily (w : World) : outcome string := CpuLinux_getCpuInfo w "cpu family".
(** [CpuLinux::getModel], src/topology/topology-linux.cpp:67-69. *)
Definition CpuLinux_getModel (w : World) : outcome string := CpuLinux_getCpuInfo w "model".

(** ** Virtual cores *)

(** The value of [string::find] as a condition: [npos] and every position but 0 are true. *)
Definition find_as_condition (r : option nat) : bool :=
  match r with Some O => false | _ => true end.
Definition found_at_start (r : option nat) : bool :=
  match r with Some O => true | _ => false end.
Definition found (r : option nat) : bool := match r with Some _ => true | None => false end.

(** [VirtualCoreLinux::hasFlag], src/topology/topology-linux.cpp:256-276: the loop over the
    lines of /proc/cpuinfo. *)
Fixpoint hasFlag_loop (virtualCoreId : Z) (flagName : string) (file : list string) (procFound : bool) : bool :=
  match file with
  | [] => false
  | line :: file' =>
      if negb procFound && found_at_start (str_find "processor" line) &&
         find_as_condition (str_find (" " +:+ intToString virtualCoreId) line)
      then hasFlag_loop virtualCoreId flagName file' true
      else if procFound then
        if found_at_start (str_find "flags" line) &&
           (found (str_find (" " +:+ flagName +:+ " ") line) ||
            found (str_find (" " +:+ flagName +:+ String newline EmptyString) line))
        then true
        else if found_at_start (str_find "processor" line) then false
        else hasFlag_loop virtualCoreId flagName file' procFound
      else hasFlag_loop virtualCoreId flagName file' procFound
  end.

(** [VirtualCoreLinux::hasFlag], src/topology/topology-linux.cpp:249-277. *)
Definition VirtualCoreLinux_hasFlag (w : World) (vl : VirtualCoreLinux) (flagName : string) : outcome bool :=
  if negb (existsFile w (w_prefix w +:+ "/proc/cpuinfo")) then Ret false
  else
    file ← readFile w (w_prefix w +:+ "/proc/cpuinfo");
    Ret (hasFlag_loop (vc_virtualCoreId (vl_core vl)) flagName file false).

(** [VirtualCore::areTicksConstant], src/topology/topology.cpp:556-558. *)
Definition VirtualCore_areTicksConstant (w : World) (vl : VirtualCoreLinux) : outcome bool :=
  VirtualCoreLinux_hasFlag w vl "constant_tsc".

Definition MSR_TSC : Z := 16.

(** [VirtualCoreLinux::getAbsoluteTicks], src/topology/topology-linux.cpp:279-287. *)
Definition VirtualCoreLinux_getAbsoluteTicks (w : World) (vl : VirtualCoreLinux) : Z :=
  let msr := Msr_new w (vc_virtualCoreId (vl_core vl)) false in
  if Msr_available msr then match Msr_read w msr MSR_TSC with Some ticks => ticks | None => 0 end else 0.

(** [ProcStatTimeType], include/mammut/topology/topology-linux.hpp:85-97. *)
Inductive ProcStatTimeType :=
  | PROC_STAT_TIME_NAME | PROC_STAT_TIME_USER | PROC_STAT_TIME_NICE | PROC_STAT_TIME_SYSTEM
  | PROC_STAT_TIME_IDLE | PROC_STAT_TIME_IOWAIT | PROC_STAT_TIME_IRQ | PROC_STAT_TIME_SOFTIRQ
  | PROC_STAT_TIME_STEAL | PROC_STAT_TIME_GUEST | PROC_STAT_TIME_GUEST_NICE.
Definition proc_stat_index (t : ProcStatTimeType) : nat :=
  match t with
  | PROC_STAT_TIME_NAME => 0 | PROC_STAT_TIME_USER => 1 | PROC_STAT_TIME_NICE => 2
  | PROC_STAT_TIME_SYSTEM => 3 | PROC_STAT_TIME_IDLE => 4 | PROC_STAT_TIME_IOWAIT => 5
  | PROC_STAT_TIME_IRQ => 6 | PROC_STAT_TIME_SOFTIRQ => 7 | PROC_STAT_TIME_STEAL => 8
  | PROC_STAT_TIME_GUEST => 9 | PROC_STAT_TIME_GUEST_NICE => 10
  end.
Definition MAMMUT_MICROSECS_IN_SEC : Z := 1000000.

(** [VirtualCoreLinux::getProcStatTime], src/topology/topology-linux.cpp:319-328: the loop; the
    result is [field], when a line was found. *)
Definition procStat_field (virtualCoreId : Z) (type : ProcStatTimeType) (lines : list string) :
    outcome (option Z) :=
  fold_out lines None (fun field line =>
    if found (str_find ("cpu" +:+ intToString virtualCoreId) line) then
      tok ← vec_index (split line " ") (proc_stat_index type);
      Ret (Some (stringToInt tok))
    else Ret field).

(** [VirtualCoreLinux::getProcStatTime], src/topology/topology-linux.cpp:316-335. *)
Definition VirtualCoreLinux_getProcStatTime (w : World) (virtualCoreId : Z) (type : ProcStatTimeType) :
    outcome double :=
  lines ← readFile w (w_prefix w +:+ "/proc/stat");
  field ← procStat_field virtualCoreId type lines;
  match field with
  | None => Ret d_minus_one
  | Some f => Ret (dmul (ddiv (d_of_Z f) (d_of_Z (getClockTicksPerSecond w))) (d_of_Z MAMMUT_MICROSECS_IN_SEC))
  end.

(** [VirtualCoreLinux::getAbsoluteIdleTime], src/topology/topology-linux.cpp:337-349. *)
Definition VirtualCoreLinux_getAbsoluteIdleTime (w : World) (virtualCoreId : Z) : outcome double :=
  VirtualCoreLinux_getProcStatTime w virtualCoreId PROC_STAT_TIME_IDLE.

(** [VirtualCoreLinux::getIdleTime], src/topology/topology-linux.cpp:351-353. *)
Definition VirtualCoreLinux_getIdleTime (w : World) (vl : VirtualCoreLinux) : outcome double :=
  t ← VirtualCoreLinux_getAbsoluteIdleTime w (vc_virtualCoreId (vl_core vl));
  Ret (dsub t (vl_lastProcIdleTime vl)).

Definition with_idleTime (t : double) (vl : VirtualCoreLinux) : VirtualCoreLinux :=
  mkVirtualCoreLinux (vl_core vl) (vl_hotplugFile vl) (vl_idleLevels vl) t (vl_utilizationThread vl)
    (vl_clkModMsr vl) (vl_clkModLowBit vl) (vl_clkModStep vl) (vl_clkModValues vl).
Definition with_spinner (sp : SpinnerThread) (vl : VirtualCoreLinux) : VirtualCoreLinux :=
  mkVirtualCoreLinux (vl_core vl) (vl_hotplugFile vl) (vl_idleLevels vl) (vl_lastProcIdleTime vl) sp
    (vl_clkModMsr vl) (vl_clkModLowBit vl) (vl_clkModStep vl) (vl_clkModValues vl).

(** [VirtualCoreLinux::resetIdleTime], src/topology/topology-linux.cpp:355-357. *)
Definition VirtualCoreLinux_resetIdleTime (w : World) (vl : VirtualCoreLinux) : outcome VirtualCoreLinux :=
  t ← VirtualCoreLinux_getAbsoluteIdleTime w (vc_virtualCoreId (vl_core vl));
  Ret (with_idleTime t vl).

(** [VirtualCoreLinux::isHotPluggable], src/topology/topology-linux.cpp:359-361. *)
Definition VirtualCoreLinux_isHotPluggable (w : World) (vl : VirtualCoreLinux) : bool :=
  existsFile w (vl_hotplugFile vl).

(** [VirtualCoreLinux::isHotPlugged], src/topology/topology-linux.cpp:363-370. *)
Definition VirtualCoreLinux_isHotPlugged (w : World) (vl : VirtualCoreLinux) : outcome bool :=
  if VirtualCoreLinux_isHotPluggable w vl then
    online ← readFirstLineFromFile w (vl_hotplugFile vl);
    Ret (0 <? stringToInt online)
  else Ret true.

(** [VirtualCoreLinux::hotPlug], src/topology/topology-linux.cpp:372-376. *)
Definition VirtualCoreLinux_hotPlug (vl : VirtualCoreLinux) : M World unit :=
  let* pluggable := gets (fun w => VirtualCoreLinux_isHotPluggable w vl) in
  if (pluggable : bool) then writeFile (vl_hotplugFile vl) "1" else ret tt.

(** [VirtualCoreLinux::hotUnplug], src/topology/topology-linux.cpp:378-382. *)
Definition VirtualCoreLinux_hotUnplug (vl : VirtualCoreLinux) : M World unit :=
  let* pluggable := gets (fun w => VirtualCoreLinux_isHotPluggable w vl) in
  if (pluggable : bool) then writeFile (vl_hotplugFile vl) "0" else ret tt.

(** [VirtualCoreLinux::hasClockModulation], src/topology/topology-linux.cpp:384-386. *)
Definition VirtualCoreLinux_hasClockModulation (vl : VirtualCoreLinux) : bool :=
  Msr_available (vl_clkModMsr vl).

(** [VirtualCoreLinux::getClockModulationValues], src/topology/topology-linux.cpp:388-390. *)
Definition VirtualCoreLinux_getClockModulationValues (vl : VirtualCoreLinux) : list double :=
  vl_clkModValues vl.

(** [MSR_CLOCK_MODULATION], include/mammut/utils.hpp:84-84. *)
Definition MSR_CLOCK_MODULATION : Z := 410.

(** [VirtualCoreLinux::setClockModulation], src/topology/topology-linux.cpp:392-404. *)
Definition VirtualCoreLinux_setClockModulation (vl : VirtualCoreLinux) (value : double) : M World unit :=
  if negb (existsb (fun v => deqb v value) (vl_clkModValues vl)) then
    throw (runtime_error ("Wrong modulation value. Please use only value returned by " +:+
                          "getClockModulationValues() call"))
  else if deqb value d_100 then
    do* Msr_writeBits (vl_clkModMsr vl) MSR_CLOCK_MODULATION 4 (vl_clkModLowBit vl) 0 in ret tt
  else
    do* Msr_writeBits (vl_clkModMsr vl) MSR_CLOCK_MODULATION 4 4 1 in
    let* duty := lift (d_to_u64 (d_floor (ddiv value (vl_clkModStep vl)))) in
    do* Msr_writeBits (vl_clkModMsr vl) MSR_CLOCK_MODULATION 3 (vl_clkModLowBit vl) duty in ret tt.

(** [VirtualCoreLinux::getClockModulation], src/topology/topology-linux.cpp:406-414. *)
Definition VirtualCoreLinux_getClockModulation (w : World) (vl : VirtualCoreLinux) : outcome double :=
  '(_, v) ← Msr_readBits w (vl_clkModMsr vl) MSR_CLOCK_MODULATION 4 4;
  if v =? 0 then Ret d_100
  else
    '(_, v) ← Msr_readBits w (vl_clkModMsr vl) MSR_CLOCK_MODULATION 3 (vl_clkModLowBit vl);
    Ret (dmul (d_of_Z v) (vl_clkModStep vl)).

(** [VirtualCoreLinux::getIdleLevels], src/topology/topology-linux.cpp:416-418. *)
Definition VirtualCoreLinux_getIdleLevels (vl : VirtualCoreLinux) : list VirtualCoreIdleLevelLinux :=
  vl_idleLevels vl.

(** [VirtualCoreLinux::VirtualCoreLinux], src/topology/topology-linux.cpp:221-240: the low bit,
    the step and the values of clock modulation; CPUID leaf 6 tells the extended form. *)
Definition clkMod_params (cpuid6_eax : Z) : Z * double * list double :=
  let '(lowBit, step, possibleValues) :=
    if negb (Z.land cpuid6_eax (Z.shiftl 1 5) =? 0) then (0, d_scaled 25 (-2), 15%nat)
    else (1, d_scaled 25 (-1), 7%nat) in
  (lowBit, step, ((fun i => dmul step (d_of_Z (Z.of_nat i + 1))) <$> seq 0 possibleValues) ++ [d_100]).

Definition hotplug_path (prefix : string) (id : Z) : string :=
  prefix +:+ "/sys/devices/system/cpu/cpu" +:+ intToString id +:+ "/online".

(** [VirtualCoreLinux::VirtualCoreLinux], src/topology/topology-linux.cpp:204-218: the idle
    levels. *)
Definition VirtualCoreLinux_newIdleLevels (w : World) (virtualCoreId : Z) :
    outcome (list VirtualCoreIdleLevelLinux) :=
  levelsNames ←
    (if existsDirectory w (w_prefix w +:+ "/sys/devices/system/cpu/cpu0/cpuidle") then
       getFilesNamesInDir w (w_prefix w +:+ "/sys/devices/system/cpu/cpu" +:+
                             intToString virtualCoreId +:+ "/cpuidle") false true
     else Ret []);
  fold_out levelsNames [] (fun levels levelName =>
    if is_prefix "state" levelName then
      l ← IdleLevel_new w virtualCoreId (u32 (stringToInt (str_drop 5 levelName)));
      Ret (levels ++ [l])
    else Ret levels).

(** [VirtualCoreLinux::VirtualCoreLinux], src/topology/topology-linux.cpp:197-241. *)
Definition VirtualCoreLinux_new (w : World) (c : VirtualCoreCoordinates) : outcome VirtualCoreLinux :=
  let id := vcc_virtualCoreId c in
  levels ← VirtualCoreLinux_newIdleLevels w id;
  idle ← VirtualCoreLinux_getAbsoluteIdleTime w id;
  let '(lowBit, step, values) := clkMod_params (w_cpuid6_eax w) in
  Ret (mkVirtualCoreLinux (mkVirtualCore (vcc_cpuId c) (vcc_physicalCoreId c) id)
         (hotplug_path (w_prefix w) id) levels idle (mkSpinner false false false (0, 0))
         (Msr_new w id true) lowBit step values).

(** ** Utilisation *)

(** [SpinnerThread::setStop], src/topology/topology-linux.cpp:175-179. *)
Definition SpinnerThread_setStop (s : bool) (sp : SpinnerThread) : SpinnerThread :=
  mkSpinner s (sp_running sp) (sp_alive sp) (sp_ids sp).

(** [SpinnerThread::isStopped], src/topology/topology-linux.cpp:181-187. *)
Definition SpinnerThread_isStopped (sp : SpinnerThread) : bool := sp_stop sp.

(** [SpinnerThread::run] and [Thread::join], src/topology/topology-linux.cpp:189-195: the thread
    leaves its loop only when it is stopped, so that joining one that is not blocks for ever;
    [None] is that. *)
Definition SpinnerThread_join (sp : SpinnerThread) : option SpinnerThread :=
  if sp_alive sp && negb (SpinnerThread_isStopped sp) then None
  else Some (mkSpinner (sp_stop sp) false false (0, 0)).

Section utilisation.
Context {SH : Shell}.
(** The identifiers of the new thread, and whether it has already set [_running] when [start]
    returns: Thread_start_running_race of UtilsSync.v shows both can happen. *)
Variables (new_ids : Z * Z) (published : bool).

(** [VirtualCoreLinux::resetUtilization], src/topology/topology-linux.cpp:309-314. *)
Definition VirtualCoreLinux_resetUtilization (vl : VirtualCoreLinux) : outcome VirtualCoreLinux :=
  if sp_running (vl_utilizationThread vl) then
    match SpinnerThread_join (SpinnerThread_setStop true (vl_utilizationThread vl)) with
    | Some sp => Ret (with_spinner sp vl)
    | None => Undef "join blocks for ever"
    end
  else Ret vl.

(** [Thread::start] on the spinner. *)
Definition SpinnerThread_start (sp : SpinnerThread) : outcome SpinnerThread :=
  if sp_running sp then
    Throw (runtime_error "Thread: Multiple start. It must be joined before starting it again.")
  else Ret (mkSpinner (sp_stop sp) published true new_ids).

(** [VirtualCoreLinux::maximizeUtilization], src/topology/topology-linux.cpp:289-307. The result
    is the object; the thread is moved and its priority raised in the world. *)
Definition VirtualCoreLinux_maximizeUtilization (vl : VirtualCoreLinux) : M World VirtualCoreLinux :=
  let* vl := lift (if sp_running (vl_utilizationThread vl) then VirtualCoreLinux_resetUtilization vl
                   else Ret vl) in
  let* sp := lift (SpinnerThread_start (SpinnerThread_setStop false (vl_utilizationThread vl))) in
  let '(pid, tid) := sp_ids sp in
  let* h := query (fun w => TasksManager_getThreadHandler w pid tid) in
  do* ExecutionUnit_moveVirtualCore (ThreadHandler_move h) (vl_core vl) in
  do* ExecutionUnit_setPriority (ThreadHandler_getSetPriorityIdentifiers h) MAMMUT_PROCESS_PRIORITY_MAX in
  ret (with_spinner sp vl).
End utilisation.

(** ** The class instance *)

(** The object of a virtual core; a core the topology does not hold is a dangling pointer. *)
Definition vcore_object (v : VirtualCore) (m : Machine) : outcome VirtualCoreLinux :=
  match m_vcores m !! vc_virtualCoreId v with
  | Some vl => Ret vl
  | None => Undef "dangling virtual core"
  end.
Definition set_vcore (vl : VirtualCoreLinux) (m : Machine) : Machine :=
  mkMachine (m_world m) (<[vc_virtualCoreId (vl_core vl) := vl]> (m_vcores m)).
Definition on_world {A} (f : M World A) : M Machine A := fun m =>
  let '(r, w) := f (m_world m) in (r, mkMachine w (m_vcores m)).

Section instance.
Context {SH : Shell}.
Variables (new_ids : Z * Z) (published : bool).

Definition linux_new (c : VirtualCoreCoordinates) : M Machine VirtualCore :=
  let* vl := query (fun m => VirtualCoreLinux_new (m_world m) c) in
  do* modify (set_vcore vl) in ret (vl_core vl).
Definition linux_maximize (v : VirtualCore) : M Machine unit :=
  let* vl := query (vcore_object v) in
  let* vl := on_world (VirtualCoreLinux_maximizeUtilization new_ids published vl) in
  modify (set_vcore vl).
Definition linux_reset (v : VirtualCore) : M Machine unit :=
  let* vl := query (vcore_object v) in
  let* vl := lift (VirtualCoreLinux_resetUtilization vl) in
  modify (set_vcore vl).
Definition linux_query {A} (f : World -> VirtualCoreLinux -> outcome A) (v : VirtualCore) : M Machine A :=
  query (fun m => vl ← vcore_object v m; f (m_world m) vl).
Definition linux_write (f : VirtualCoreLinux -> M World unit) (v : VirtualCore) : M Machine unit :=
  let* vl := query (vcore_object v) in on_world (f vl).

#[export] Instance LinuxVirtualCore : VirtualCoreOps Machine := {
  v_new := linux_new;
  v_maximizeUtilization := linux_maximize;
  v_resetUtilization := linux_reset;
  v_isHotPluggable := linux_query (fun w vl => Ret (VirtualCoreLinux_isHotPluggable w vl));
  v_isHotPlugged := linux_query VirtualCoreLinux_isHotPlugged;
  v_hotPlug := linux_write VirtualCoreLinux_hotPlug;
  v_hotUnplug := linux_write VirtualCoreLinux_hotUnplug;
  v_hasClockModulation := linux_query (fun _ vl => Ret (VirtualCoreLinux_hasClockModulation vl));
  v_getClockModulationValues := linux_query (fun _ vl => Ret (VirtualCoreLinux_getClockModulationValues vl));
  v_setClockModulation v x := linux_write (fun vl => VirtualCoreLinux_setClockModulation vl x) v;
  v_getClockModulation := linux_query VirtualCoreLinux_getClockModulation
}.

(** The constructor respects the coordinates. *)
Lemma linux_constructs : constructs.
Proof.
  intros c s v s' H. change (linux_new c s = (Ret v, s')) in H. unfold linux_new in H. minv H.
  injection H as <- <-. injection H0 as H0 _. unfold VirtualCoreLinux_new in H0. minv H0.
  destruct (clkMod_params _) as [[lo stp] vs]. by injection H0 as <-.
Qed.
End instance.

(** * Properties *)

(** ** The paths of different cores differ *)

Lemma str_app_inj (a b c : string) : (a +:+ b)%string = a +:+ c -> b = c.
Proof. induction a as [|x a IH]; simpl; [done|]. intros [= H]. auto. Qed.

Lemma intToString_inj_app x y rest :
  is_u32 x -> is_u32 y -> no_digit_head rest ->
  (intToString x +:+ rest)%string = intToString y +:+ rest -> x = y.
Proof.
  intros Hx Hy Hr E.
  assert (forall z, is_u32 z -> u32 (stringToInt (intToString z +:+ rest)) = z) as H.
  { intros z Hz. transitivity (u32 (stringToInt (intToString (i32 z) +:+ rest))).
    - f_equal. unfold intToString. by rewrite (i32_id (i32 z)) by apply i32_range.
    - rewrite stringToInt_intToString_app by (apply i32_range || done). rewrite u32_i32. by apply u32_id. }
  rewrite <- (H x Hx), <- (H y Hy). by rewrite E.
Qed.

Lemma hotplug_path_inj prefix x y :
  is_u32 x -> is_u32 y -> hotplug_path prefix x = hotplug_path prefix y -> x = y.
Proof.
  unfold hotplug_path. intros Hx Hy E. apply str_app_inj, str_app_inj in E.
  by apply intToString_inj_app in E.
Qed.

(** ** Clock modulation *)

(** What [setClockModulation] leaves in the register and what [getClockModulation] answers, on
    the register's content. *)
Definition modulation_of (lowBit : Z) (step : double) (reg : Z) : double :=
  if (reg / 2 ^ 4) mod 2 =? 0 then d_100
  else dmul (d_of_Z ((reg / 2 ^ lowBit) mod 2 ^ (3 - lowBit + 1))) step.

Section modulation.
Variables (m : Msr) (core : Z) (lowBit : Z) (step : double).
Hypothesis low_range : 0 <= lowBit <= 1.

Lemma getClockModulation_spec w b reg vl :
  msr_holds m core MSR_CLOCK_MODULATION w b reg -> is_u64 reg ->
  vl_clkModMsr vl = m -> vl_clkModLowBit vl = lowBit -> vl_clkModStep vl = step ->
  VirtualCoreLinux_getClockModulation w vl = Ret (modulation_of lowBit step reg).
Proof.
  intros Hh Hu Hm Hl Hs. unfold VirtualCoreLinux_getClockModulation, modulation_of.
  rewrite Hm, Hl, Hs. rewrite (Msr_readBits_holds _ _ _ _ _ _ 4 4 Hh Hu) by lia. mrun.
  change (2 ^ (4 - 4 + 1)) with 2. destruct (_ =? 0); [done|].
  rewrite (Msr_readBits_holds _ _ _ _ _ _ _ _ Hh Hu) by lia. done.
Qed.
End modulation.

(** The values and what they become, for both forms of clock modulation. *)
Definition modulation_table_ok (eax : Z) : bool :=
  let '(lowBit, step, values) := clkMod_params eax in
  (0 <=? lowBit) && (lowBit <=? 1) &&
  forallb (fun v => deqb v v &&
    (deqb v d_100 && bool_decide (v = d_100) ||
     (negb (deqb v d_100) &&
      match d_to_u64 (d_floor (ddiv v step)) with
      | Ret duty => (0 <? duty) && (duty <? 2 ^ (3 - lowBit + 1)) && bool_decide (dmul (d_of_Z duty) step = v)
      | _ => false
      end))) values &&
  forallb (fun n => existsb (fun v => bool_decide (v = dmul (d_of_Z n) step)) values)
          (seqZ 1 (2 ^ (3 - lowBit + 1) - 1)).

Lemma modulation_table eax : modulation_table_ok eax = true.
Proof.
  unfold modulation_table_ok, clkMod_params.
  destruct (negb (Z.land eax (Z.shiftl 1 5) =? 0)); vm_compute; reflexivity.
Qed.

Lemma bit4_spec reg : 0 <= reg -> (reg / 2 ^ 4) mod 2 = Z.b2z (Z.testbit reg 4).
Proof. intros. by rewrite Z.testbit_spec' by lia. Qed.

Lemma modulation_table_value eax lowBit step values v :
  clkMod_params eax = (lowBit, step, values) -> existsb (fun x => deqb x v) values = true ->
  v ∈ values ->
  0 <= lowBit <= 1 /\
  (deqb v d_100 = true /\ v = d_100 \/
   deqb v d_100 = false /\ exists duty, d_to_u64 (d_floor (ddiv v step)) = Ret duty /\
     0 < duty < 2 ^ (3 - lowBit + 1) /\ dmul (d_of_Z duty) step = v).
Proof.
  intros E _ Hv. pose proof (modulation_table eax) as H. unfold modulation_table_ok in H. rewrite E in H.
  apply andb_true_iff in H as [H _]. apply andb_true_iff in H as [Hl H].
  split; [lia|]. rewrite forallb_forall in H. specialize (H v (proj1 (list_elem_of_In _ _) Hv)).
  apply andb_true_iff in H as [_ H]. destruct (deqb v d_100); simpl in H.
  - left. split; [done|]. apply orb_true_iff in H as [H|H]; [by apply bool_decide_eq_true in H|done].
  - right. split; [done|]. destruct (d_to_u64 _) as [duty| |]; [|done..].
    exists duty. split; [done|]. apply andb_true_iff in H as [H H2]. apply bool_decide_eq_true in H2.
    split; [lia|done].
Qed.

Lemma modulation_value_listed eax lowBit step values v :
  clkMod_params eax = (lowBit, step, values) -> v ∈ values ->
  existsb (fun x => deqb x v) values = true.
Proof.
  intros E Hv. pose proof (modulation_table eax) as H. unfold modulation_table_ok in H. rewrite E in H.
  apply andb_true_iff in H as [H _]. apply andb_true_iff in H as [_ H].
  rewrite forallb_forall in H. specialize (H v (proj1 (list_elem_of_In _ _) Hv)).
  apply andb_true_iff in H as [H _]. apply existsb_exists. exists v. split; [by apply list_elem_of_In|done].
Qed.

(** A register that modulates has one of the listed duty cycles; duty cycle 0 is reserved. *)
Definition modulation_legal (lowBit reg : Z) : Prop :=
  Z.testbit reg 4 = true -> (reg / 2 ^ lowBit) mod 2 ^ (3 - lowBit + 1) <> 0.

Lemma modulation_of_listed eax lowBit step values reg :
  clkMod_params eax = (lowBit, step, values) -> 0 <= reg -> modulation_legal lowBit reg ->
  modulation_of lowBit step reg ∈ values.
Proof.
  intros E Hreg Hl. pose proof (modulation_table eax) as H. unfold modulation_table_ok in H. rewrite E in H.
  apply andb_true_iff in H as [H Hn]. apply andb_true_iff in H as [Hb _].
  assert (d_100 ∈ values) as H100.
  { unfold clkMod_params in E. set (x := if negb _ then _ else _) in E. destruct x as [[a b] n].
    injection E as _ _ <-. apply elem_of_app. right. left. }
  unfold modulation_of. rewrite bit4_spec by done. unfold modulation_legal in Hl.
  destruct (Z.testbit reg 4); simpl; [|done]. specialize (Hl eq_refl).
  set (n := (reg / 2 ^ lowBit) mod 2 ^ (3 - lowBit + 1)) in *.
  assert (0 <= n < 2 ^ (3 - lowBit + 1)) by (apply Z.mod_pos_bound, Z.pow_pos_nonneg; lia).
  pose proof (range_check _ _ _ Hn n ltac:(lia)) as Hx. simpl in Hx.
  apply existsb_exists in Hx as (v & Hv & Hd). apply bool_decide_eq_true in Hd as <-.
  by apply list_elem_of_In.
Qed.

Section set_modulation.
Variables (vl : VirtualCoreLinux) (core eax : Z) (lowBit : Z) (step : double) (values : list double).
Hypothesis params : clkMod_params eax = (lowBit, step, values).
Hypothesis vl_low : vl_clkModLowBit vl = lowBit.
Hypothesis vl_step : vl_clkModStep vl = step.
Hypothesis vl_values : vl_clkModValues vl = values.

(** Setting a listed value on an available register: the register then modulates by that
    value, and nothing else changes. *)
Lemma setClockModulation_spec w reg v :
  v ∈ values -> msr_holds (vl_clkModMsr vl) core MSR_CLOCK_MODULATION w true reg -> is_u64 reg ->
  exists w' reg', VirtualCoreLinux_setClockModulation vl v w = (Ret tt, w') /\
    msr_holds (vl_clkModMsr vl) core MSR_CLOCK_MODULATION w' true reg' /\ is_u64 reg' /\
    modulation_of lowBit step reg' = v /\ modulation_legal lowBit reg' /\
    (exists f, w' = set_msr f w) /\
    (forall c r, (c, r) <> (core, MSR_CLOCK_MODULATION) ->
       (regs ← w_msr w' !! c; (regs : gmap Z Z) !! r) = (regs ← w_msr w !! c; (regs : gmap Z Z) !! r)).
Proof.
  intros Hv Hh Hu. pose proof (modulation_value_listed _ _ _ _ _ params Hv) as Hlist.
  destruct (modulation_table_value _ _ _ _ _ params Hlist Hv) as (Hlow & Hcase).
  unfold VirtualCoreLinux_setClockModulation. rewrite vl_values, Hlist. change (negb true) with false.
  rewrite vl_low, vl_step. destruct Hcase as [[-> ->]|[-> (duty & -> & Hd & Hmul)]]; cbv iota.
  - destruct (Msr_writeBits_holds _ _ _ w reg 0 4 lowBit Hh Hu) as (w1 & E1 & H1 & F1 & O1); [lia..|].
    rewrite (bind_Ret _ _ _ _ _ E1). set (reg1 := msr_blend 4 lowBit reg 0) in *.
    assert (is_u64 reg1) as Hu1 by (apply writeBits_value; [lia|lia|done|lia]).
    assert (Z.testbit reg1 4 = false) as Hbit.
    { unfold reg1, msr_blend. rewrite Z.lor_spec, Z.land_spec, Z.ldiff_spec, field_mask_bit by lia.
      replace ((lowBit <=? 4) && (4 <=? 4)) with true by lia. simpl.
      by rewrite andb_false_r, Z.shiftl_0_l. }
    exists w1, reg1. repeat (split; [done|]). split.
    + unfold modulation_of. by rewrite bit4_spec, Hbit by apply Hu1.
    + split; [|done]. unfold modulation_legal. by rewrite Hbit.
  - destruct (Msr_writeBits_holds _ _ _ w reg 1 4 4 Hh Hu) as (w1 & E1 & H1 & [f1 F1] & O1); [lia..|].
    set (reg1 := msr_blend 4 4 reg 1) in *.
    assert (is_u64 reg1) as Hu1 by (apply writeBits_value; [lia|lia|done|lia]).
    destruct (Msr_writeBits_holds _ _ _ w1 reg1 duty 3 lowBit H1 Hu1) as (w2 & E2 & H2 & [f2 F2] & O2); [lia..|].
    rewrite (bind_Ret _ _ _ _ _ E1). change (lift (Ret duty)) with (@ret World Z duty).
    rewrite ret_bind, (bind_Ret _ _ _ _ _ E2). set (reg2 := msr_blend 3 lowBit reg1 duty) in *.
    assert (is_u64 reg2) as Hu2 by (apply writeBits_value; [lia|lia|done|lia]).
    assert (Z.testbit reg2 4 = true) as Hbit.
    { unfold reg2. rewrite msr_blend_other by lia. apply Z.b2z_inj. rewrite <- bit4_spec by apply Hu1.
      change 2 with (2 ^ (4 - 4 + 1)) at 2. unfold reg1. by rewrite msr_blend_field by lia. }
    assert ((reg2 / 2 ^ lowBit) mod 2 ^ (3 - lowBit + 1) = duty) as Hduty.
    { unfold reg2. rewrite msr_blend_field by lia. apply Z.mod_small. lia. }
    exists w2, reg2. repeat (split; [done|]). split.
    + unfold modulation_of. by rewrite bit4_spec, Hbit, Hduty by apply Hu2.
    + split; [unfold modulation_legal; rewrite Hduty; lia|]. split.
      * exists (fun x => f2 (f1 x)). by rewrite F2, F1.
      * intros c r Hne. by rewrite O2, O1.
Qed.
End set_modulation.

(** ** The laws hold on a machine that behaves as documented *)
Section laws.
Context {SH : Shell}.
Variables (new_ids : Z * Z) (published : bool).
Variables (prefix : string) (eax lowBit : Z) (step : double) (values : list double).
Variables (cores : list VirtualCore) (pluggable modulated : VirtualCore -> bool).
Hypothesis params : clkMod_params eax = (lowBit, step, values).
Hypothesis ids_u32 : forall v, v ∈ cores -> is_u32 (vc_virtualCoreId v).
Hypothesis ids_inj : forall v v', v ∈ cores -> v' ∈ cores -> vc_virtualCoreId v = vc_virtualCoreId v' -> v = v'.

Definition online_path (v : VirtualCore) : string := hotplug_path prefix (vc_virtualCoreId v).
(** The views of a core's state in the world. *)
Definition online_file (w : World) (v : VirtualCore) : string :=
  match w_fs w !! online_path v with Some n => file_content n | None => EmptyString end.
Definition modulation_reg (w : World) (v : VirtualCore) : option Z :=
  regs ← w_msr w !! vc_virtualCoreId v; (regs : gmap Z Z) !! MSR_CLOCK_MODULATION.
Definition plugged_view (v : VirtualCore) (m : Machine) : bool :=
  if pluggable v then 0 <? stringToInt (first_line (online_file (m_world m) v)) else true.
(** A register of a core, when it can be accessed. *)
Definition core_reg (w : World) (v : VirtualCore) (which : Z) : option Z :=
  regs ← w_msr w !! vc_virtualCoreId v; (regs : gmap Z Z) !! which.
(** What [getClockModulation] answers: 100 for a core without the register, or unplugged. *)
Definition modulation_view (v : VirtualCore) (m : Machine) : double :=
  if modulated v then
    match modulation_reg (m_world m) v with Some reg => modulation_of lowBit step reg | None => d_100 end
  else d_100.

(** The documented behaviour of the [online] attribute: it can be written, and it reads back
    the digit written. *)
Definition online_ok (w : World) (v : VirtualCore) : Prop :=
  if pluggable v then
    (exists c, w_fs w !! online_path v = Some (RegFile c)) /\ can_write w (online_path v) = true /\
    forall fs old b, b = "0"%string \/ b = "1"%string ->
      first_line (w_store w fs (online_path v) old (b +:+ String newline EmptyString)) = b
  else w_fs w !! online_path v = None.
(** The content of the clock modulation register is one the processor documents. *)
Definition reg_ok (reg : Z) : Prop := is_u64 reg /\ modulation_legal lowBit reg.
(** The clock modulation register of a core: as long as the core is plugged it can be read
    and written; every access to the registers of an unplugged core fails ([ENXIO]), the file
    that was opened stays open. *)
Definition msr_ok (m : Machine) (v : VirtualCore) (vl : VirtualCoreLinux) : Prop :=
  if modulated v then
    msr_fd (vl_clkModMsr vl) = Some (vc_virtualCoreId v, true) /\
    if plugged_view v m then exists reg, modulation_reg (m_world m) v = Some reg /\ reg_ok reg
    else forall which, core_reg (m_world m) v which = None
  else msr_fd (vl_clkModMsr vl) = None.
Definition core_ok (m : Machine) (v : VirtualCore) : Prop :=
  exists vl, m_vcores m !! vc_virtualCoreId v = Some vl /\
    vl_hotplugFile vl = online_path v /\ vl_clkModLowBit vl = lowBit /\ vl_clkModStep vl = step /\
    vl_clkModValues vl = values /\ online_ok (m_world m) v /\ msr_ok m v vl.
Definition machine_ok (m : Machine) : Prop := forall v, v ∈ cores -> core_ok m v.

(** What the kernel makes of the machine [m1] that a write of the [online] attribute of [v]
    has left, [m] being the machine before it: the registers of a core that is unplugged
    cannot be accessed any more, those of a core that comes back hold what the processor has
    put there, those of a core that is as it was, and of every other core, are as they were. *)
Definition kernel_follows (v : VirtualCore) (m m1 m2 : Machine) : Prop :=
  (exists f, m2 = mkMachine (set_msr f (m_world m1)) (m_vcores m1)) /\
  (forall v' which, v' ∈ cores -> v' <> v -> core_reg (m_world m2) v' which = core_reg (m_world m1) v' which) /\
  (modulated v = true ->
     if plugged_view v m1 then
       if plugged_view v m then forall which, core_reg (m_world m2) v which = core_reg (m_world m1) v which
       else exists reg, modulation_reg (m_world m2) v = Some reg /\ reg_ok reg
     else forall which, core_reg (m_world m2) v which = None).

Lemma msr_ok_plugged m v vl reg :
  modulated v = true -> msr_fd (vl_clkModMsr vl) = Some (vc_virtualCoreId v, true) ->
  plugged_view v m = true -> modulation_reg (m_world m) v = Some reg -> reg_ok reg -> msr_ok m v vl.
Proof. intros Hm Hfd Hp Hr Hok. unfold msr_ok. rewrite Hm, Hp. eauto. Qed.

Lemma low_range : 0 <= lowBit <= 1.
Proof.
  unfold clkMod_params in params. destruct (negb _); injection params as <- _ _; lia.
Qed.

Lemma isHotPlugged_view m v vl :
  vl_hotplugFile vl = online_path v -> online_ok (m_world m) v ->
  VirtualCoreLinux_isHotPluggable (m_world m) vl = pluggable v /\
  VirtualCoreLinux_isHotPlugged (m_world m) vl = Ret (plugged_view v m).
Proof.
  intros Hp Ho. unfold VirtualCoreLinux_isHotPlugged, VirtualCoreLinux_isHotPluggable, plugged_view,
    existsFile, online_file, online_ok, readFirstLineFromFile in *. rewrite Hp.
  destruct (pluggable v).
  - destruct Ho as [[c ->] _]. done.
  - by rewrite Ho.
Qed.

Lemma modulation_reg_regs w v : modulation_reg w v = core_reg w v MSR_CLOCK_MODULATION.
Proof. done. Qed.

Lemma getClockModulation_view m v vl :
  vl_clkModLowBit vl = lowBit -> vl_clkModStep vl = step -> msr_ok m v vl ->
  VirtualCoreLinux_hasClockModulation vl = modulated v /\
  VirtualCoreLinux_getClockModulation (m_world m) vl = Ret (modulation_view v m).
Proof.
  intros Hl Hs Hm. unfold VirtualCoreLinux_hasClockModulation, Msr_available, msr_ok, modulation_view in *.
  destruct (modulated v).
  - destruct Hm as (Hfd & Hm). rewrite Hfd. split; [done|]. destruct (plugged_view v m).
    + destruct Hm as (reg & Hr & Hu & _). rewrite Hr.
      eapply (getClockModulation_spec _ (vc_virtualCoreId v) lowBit step low_range _ true reg); [|done..].
      apply msr_holds_lookup. done.
    + rewrite modulation_reg_regs, Hm. unfold VirtualCoreLinux_getClockModulation, Msr_readBits, Msr_read.
      rewrite Hfd. unfold core_reg in Hm. by rewrite Hm.
  - rewrite Hm. split; [done|]. unfold VirtualCoreLinux_getClockModulation, Msr_readBits, Msr_read.
    by rewrite Hm.
Qed.

(** Setting the clock modulation of an unplugged core: the register cannot be read, the
    variable that it is read into is used all the same. *)
Lemma setClockModulation_unplugged vl v w x :
  vl_clkModLowBit vl = lowBit -> vl_clkModValues vl = values ->
  msr_fd (vl_clkModMsr vl) = Some (vc_virtualCoreId v, true) ->
  core_reg w v MSR_CLOCK_MODULATION = None -> x ∈ values ->
  VirtualCoreLinux_setClockModulation vl x w = (Undef "oldValue is uninitialised", w).
Proof.
  intros Hl Hv Hfd Hr Hx. pose proof low_range. unfold VirtualCoreLinux_setClockModulation.
  rewrite Hv, Hl, (modulation_value_listed _ _ _ _ _ params Hx). change (negb true) with false. cbv iota.
  assert (forall lo n, 0 <= lo <= 4 ->
    Msr_writeBits (vl_clkModMsr vl) MSR_CLOCK_MODULATION 4 lo n w = (Undef "oldValue is uninitialised", w)) as E.
  { intros lo n Hlo. unfold Msr_writeBits. replace (64 <=? lo) with false by lia. unfold gets, bind, Msr_read.
    rewrite Hfd. unfold core_reg in Hr. by rewrite Hr. }
  destruct (deqb x d_100); unfold bind at 1; by rewrite E by lia.
Qed.

Lemma put_file_online_other v v' t w :
  v ∈ cores -> v' ∈ cores -> v' <> v ->
  w_fs (put_file (online_path v) t w) !! online_path v' = w_fs w !! online_path v'.
Proof.
  intros Hv Hv' Hne. apply put_file_lookup. intros E. apply hotplug_path_inj in E; auto.
Qed.

(** The kernel's reaction changes the registers only. *)
Lemma set_msr_plugged f m vs v :
  plugged_view v (mkMachine (set_msr f (m_world m)) vs) = plugged_view v m.
Proof. done. Qed.

(** Writing the [online] attribute of a core. *)
Lemma plug_write m v b :
  v ∈ cores -> machine_ok m -> pluggable v = true -> b = "0"%string \/ b = "1"%string ->
  let m1 := mkMachine (put_file (online_path v) (b +:+ String newline EmptyString) (m_world m)) (m_vcores m) in
  writeFile (online_path v) b (m_world m) = (Ret tt, m_world m1) /\ w_msr (m_world m1) = w_msr (m_world m) /\
  (forall v', v' ∈ cores -> online_ok (m_world m1) v') /\
  plugged_view v m1 = (0 <? stringToInt b) /\
  (forall v', v' ∈ cores -> v' <> v -> plugged_view v' m1 = plugged_view v' m).
Proof.
  intros Hv Hok Hp Hb m1. destruct (Hok v Hv) as (vl & _ & _ & _ & _ & _ & Ho & _).
  unfold online_ok in Ho. rewrite Hp in Ho. destruct Ho as ([c Hc] & Hw & Hstore).
  destruct (put_file_frame (online_path v) (b +:+ String newline EmptyString) (m_world m)) as (F1 & F2 & F3 & F4).
  assert (w_fs (m_world m1) !! online_path v =
          Some (RegFile (w_store (m_world m) (w_fs (m_world m)) (online_path v) c (b +:+ String newline EmptyString)))) as Hnew
    by by apply put_file_same.
  split; [by rewrite writeFile_spec, Hw|]. split; [exact F1|]. split; [|split].
  - intros v' Hv'. destruct (Hok v' Hv') as (vl' & _ & _ & _ & _ & _ & Ho' & _).
    unfold online_ok in *. unfold m1; simpl. rewrite can_write_put, F2.
    destruct (decide (v' = v)) as [->|Hne].
    + rewrite Hp in *. split; [|apply Ho']. eexists. exact Hnew.
    + rewrite put_file_online_other by done. exact Ho'.
  - unfold plugged_view, online_file. rewrite Hp, Hnew. simpl. by rewrite Hstore.
  - intros v' Hv' Hne. unfold plugged_view, online_file, m1; simpl. by rewrite put_file_online_other.
Qed.

(** What holds once the kernel has followed a change of the core [v]. *)
Lemma kernel_follows_ok v m m1 m2 :
  v ∈ cores -> machine_ok m -> kernel_follows v m m1 m2 ->
  m_vcores m1 = m_vcores m -> w_msr (m_world m1) = w_msr (m_world m) ->
  (forall v', v' ∈ cores -> online_ok (m_world m1) v') ->
  (forall v', v' ∈ cores -> v' <> v -> plugged_view v' m1 = plugged_view v' m) ->
  machine_ok m2 /\ (forall v', plugged_view v' m2 = plugged_view v' m1) /\
  (forall v', v' ∈ cores -> v' <> v \/ plugged_view v m1 = plugged_view v m -> modulation_view v' m2 = modulation_view v' m).
Proof.
  intros Hv Hok ((f & ->) & Ho & Hk) Hc Hm Hon Hp.
  assert (forall v' which, core_reg (m_world m1) v' which = core_reg (m_world m) v' which) as Hm1.
  { intros v' which. unfold core_reg. by rewrite Hm. }
  assert (forall v' which, v' ∈ cores -> v' <> v ->
    core_reg (set_msr f (m_world m1)) v' which = core_reg (m_world m) v' which) as Ho'.
  { intros v' which Hv' Hne. pose proof (Ho v' which Hv' Hne) as E. simpl in E. by rewrite E. }
  split; [|split; [done|]].
  - intros v' Hv'. destruct (Hok v' Hv') as (vl' & H1 & H2 & H3 & H4 & H5 & _ & Hm').
    exists vl'. simpl. rewrite Hc. do 5 (split; [done|]). split; [exact (Hon v' Hv')|].
    unfold msr_ok in *. rewrite set_msr_plugged. simpl. destruct (modulated v') eqn:Em; [|done].
    destruct Hm' as [Hfd Hm']. split; [done|]. rewrite !modulation_reg_regs in *.
    destruct (decide (v' = v)) as [->|Hne].
    + specialize (Hk Em). simpl in Hk. destruct (plugged_view v m1); [|done]. destruct (plugged_view v m); [|done].
      by rewrite Hk, Hm1.
    + rewrite Hp, Ho' by done. destruct (plugged_view v' m); [done|]. intros which. by rewrite Ho'.
  - intros v' Hv' Hcase. unfold modulation_view. simpl. destruct (modulated v') eqn:Em; [|done].
    rewrite !modulation_reg_regs. destruct (decide (v' = v)) as [->|Hne]; [|by rewrite Ho'].
    destruct Hcase as [?|Hcase]; [done|]. specialize (Hk Em). simpl in Hk. rewrite Hcase in Hk.
    destruct (Hok v Hv) as (vl & _ & _ & _ & _ & _ & _ & Hm'). unfold msr_ok in Hm'. rewrite Em in Hm'.
    destruct (plugged_view v m); rewrite Hk; [by rewrite Hm1|]. by rewrite (proj2 Hm').
Qed.

Lemma plug_law (b : bool) v m :
  v ∈ cores -> machine_ok m ->
  exists m1, (if b then linux_write VirtualCoreLinux_hotPlug v else linux_write VirtualCoreLinux_hotUnplug v) m
             = (Ret tt, m1) /\ w_msr (m_world m1) = w_msr (m_world m) /\
    plugged_view v m1 = (if pluggable v then b else plugged_view v m) /\
    forall m2, kernel_follows v m m1 m2 ->
    machine_ok m2 /\ plugged_view v m2 = plugged_view v m1 /\
    (forall v', v' ∈ cores -> v' <> v -> plugged_view v' m2 = plugged_view v' m) /\
    (forall v', v' ∈ cores -> v' <> v \/ plugged_view v m1 = plugged_view v m ->
       modulation_view v' m2 = modulation_view v' m).
Proof.
  intros Hv Hok. destruct (Hok v Hv) as (vl & H1 & H2 & _ & _ & _ & Ho & _).
  destruct (isHotPlugged_view m v vl H2 Ho) as [Hp _].
  assert (vcore_object v m = Ret vl) as Hobj by (unfold vcore_object; by rewrite H1).
  destruct (pluggable v) eqn:E.
  - destruct (plug_write m v (if b then "1" else "0") Hv Hok E) as (W & Hr & Hon & P & O1);
      [destruct b; auto|]. eexists. split; [|split; [exact Hr|split]].
    + destruct b; unfold linux_write, VirtualCoreLinux_hotPlug, VirtualCoreLinux_hotUnplug, on_world;
        mrun; rewrite Hobj, Hp, H2, W; done.
    + rewrite P. by destruct b.
    + intros m2 Hk. destruct (kernel_follows_ok v m _ m2 Hv Hok Hk) as (K1 & K2 & K3); [done..|].
      split; [exact K1|]. split; [exact (K2 v)|]. split; [|exact K3]. intros v' Hv' Hne. by rewrite K2, O1.
  - exists m. split; [|split; [done|split; [done|]]].
    + destruct b; unfold linux_write, VirtualCoreLinux_hotPlug, VirtualCoreLinux_hotUnplug, on_world;
        mrun; rewrite Hobj, Hp; by destruct m.
    + intros m2 Hk. destruct (kernel_follows_ok v m m m2 Hv Hok Hk) as (K1 & K2 & K3); [done..| |done|].
      * intros v' Hv'. by destruct (Hok v' Hv') as (vl' & _ & _ & _ & _ & _ & Ho' & _).
      * auto.
Qed.

(** When no core that can be unplugged has the register, there is nothing to follow. *)
Lemma kernel_follows_still v m m1 :
  plugged_view v m1 = plugged_view v m \/ modulated v = false ->
  (modulated v = true -> plugged_view v m1 = true) -> kernel_follows v m m1 m1.
Proof.
  intros H Hp. split; [exists id; by destruct m1 as [[] ?]|]. split; [done|]. intros Em. rewrite (Hp Em).
  destruct H as [<-|H]; [by rewrite (Hp Em)|congruence].
Qed.

Lemma modulation_law v x m :
  v ∈ cores -> machine_ok m -> modulated v = true -> plugged_view v m = true -> x ∈ values ->
  exists m', linux_write (fun vl => VirtualCoreLinux_setClockModulation vl x) v m = (Ret tt, m') /\
    machine_ok m' /\ modulation_view v m' = x /\
    (forall v', v' ∈ cores -> v' <> v -> modulation_view v' m' = modulation_view v' m) /\
    (forall v', v' ∈ cores -> plugged_view v' m' = plugged_view v' m).
Proof.
  intros Hv Hok Hmod Hplug Hx. destruct (Hok v Hv) as (vl & H1 & H2 & H3 & H4 & H5 & Ho & Hm).
  unfold msr_ok in Hm. rewrite Hmod, Hplug in Hm. destruct Hm as (Hfd & reg & Hr & Hu & _).
  destruct (setClockModulation_spec vl (vc_virtualCoreId v) eax lowBit step values params H3 H4 H5
              (m_world m) reg x Hx) as (w' & reg' & E & Hh' & Hu' & Hval & Hleg & [f ->] & Hother);
    [by apply msr_holds_lookup|done|].
  apply msr_holds_lookup in Hh' as [_ Hreg'].
  assert (forall v', v' ∈ cores -> v' <> v ->
    forall which, core_reg (set_msr f (m_world m)) v' which = core_reg (m_world m) v' which) as Hregs.
  { intros v' Hv' Hne which. apply Hother. intros [= Eid _]. apply Hne. auto. }
  assert (forall v', v' ∈ cores -> v' <> v ->
    modulation_reg (set_msr f (m_world m)) v' = modulation_reg (m_world m) v') as Hoth.
  { intros v' Hv' Hne. by apply Hregs. }
  exists (mkMachine (set_msr f (m_world m)) (m_vcores m)).
  split; [|split; [|split; [|split]]].
  - unfold linux_write, on_world. mrun. unfold vcore_object. by rewrite H1, E.
  - intros v' Hv'. destruct (Hok v' Hv') as (vl' & G1 & G2 & G3 & G4 & G5 & Ho' & Hm').
    exists vl'. do 5 (split; [done|]). split; [exact Ho'|]. unfold msr_ok in *. rewrite set_msr_plugged. simpl.
    destruct (decide (v' = v)) as [->|Hne].
    + rewrite Hmod, Hplug in *. split; [apply Hm'|]. exists reg'. done.
    + rewrite Hoth by done. destruct (plugged_view v' m); [exact Hm'|]. destruct (modulated v'); [|exact Hm'].
      split; [apply Hm'|]. intros which. rewrite Hregs by done. by apply Hm'.
  - unfold modulation_view. rewrite Hmod. unfold modulation_reg; simpl. simpl in Hreg'. by rewrite Hreg'.
  - intros v' Hv' Hne. unfold modulation_view. simpl. by rewrite Hoth.
  - intros v' Hv'. done.
Qed.

(** The laws of a class of virtual cores hold when no core that can be unplugged has the
    register: otherwise unplugging a core changes what its clock modulation reads as, and
    setting it while it is unplugged is undefined ([setClockModulation_unplugged]). *)
Hypothesis separate : forall v, v ∈ cores -> pluggable v = true -> modulated v = false.

Lemma plugged_modulated v m : v ∈ cores -> modulated v = true -> plugged_view v m = true.
Proof.
  intros Hv Hm. unfold plugged_view. destruct (pluggable v) eqn:E; [|done].
  by rewrite (separate v Hv E) in Hm.
Qed.

Lemma plug_law_still (b : bool) v m :
  v ∈ cores -> machine_ok m ->
  exists m', (if b then linux_write VirtualCoreLinux_hotPlug v else linux_write VirtualCoreLinux_hotUnplug v) m
             = (Ret tt, m') /\ machine_ok m' /\
    plugged_view v m' = (if pluggable v then b else plugged_view v m) /\
    (forall v', v' ∈ cores -> v' <> v -> plugged_view v' m' = plugged_view v' m) /\
    (forall v', v' ∈ cores -> modulation_view v' m' = modulation_view v' m).
Proof.
  intros Hv Hok. destruct (plug_law b v m Hv Hok) as (m1 & E & _ & P & H).
  assert (plugged_view v m1 = plugged_view v m \/ modulated v = false) as Hcase.
  { rewrite P. destruct (pluggable v) eqn:Ep; auto. }
  destruct (H m1) as (K1 & _ & K2 & K3).
  { apply kernel_follows_still; [exact Hcase|]. by apply plugged_modulated. }
  exists m1. do 4 (split; [done|]). intros v' Hv'. destruct (decide (v' = v)) as [->|]; [|by auto].
  destruct Hcase as [Hcase|Hcase]; [by auto|]. unfold modulation_view. by rewrite Hcase.
Qed.

Definition linux_laws : @VirtualCoreLaws Machine (LinuxVirtualCore new_ids published) cores.
Proof.
  refine {| law_ok := machine_ok; law_pluggable := pluggable; law_plugged := plugged_view;
            law_modulated := modulated; law_modulation := modulation_view;
            law_legal := fun x => x ∈ values |}.
  - intros v m Hv Hok. destruct (Hok v Hv) as (vl & H1 & H2 & H3 & H4 & H5 & Ho & Hm).
    simpl. unfold linux_query, query, vcore_object. rewrite H1. simpl.
    by rewrite (proj1 (isHotPlugged_view m v vl H2 Ho)).
  - intros v m Hv Hok. destruct (Hok v Hv) as (vl & H1 & H2 & H3 & H4 & H5 & Ho & Hm).
    simpl. unfold linux_query, query, vcore_object. rewrite H1. simpl.
    by rewrite (proj2 (isHotPlugged_view m v vl H2 Ho)).
  - intros b v m Hv Hok. exact (plug_law_still b v m Hv Hok).
  - intros v m Hv Hok. destruct (Hok v Hv) as (vl & H1 & H2 & H3 & H4 & H5 & Ho & Hm).
    simpl. unfold linux_query, query, vcore_object. rewrite H1. simpl.
    by rewrite (proj1 (getClockModulation_view m v vl H3 H4 Hm)).
  - intros v m Hv Hok. destruct (Hok v Hv) as (vl & H1 & H2 & H3 & H4 & H5 & Ho & Hm).
    simpl. unfold linux_query, query, vcore_object. rewrite H1. simpl.
    by rewrite (proj2 (getClockModulation_view m v vl H3 H4 Hm)).
  - intros v m Hv Hok Hmod. destruct (Hok v Hv) as (vl & H1 & H2 & H3 & H4 & H5 & Ho & Hm).
    unfold modulation_view. rewrite Hmod. unfold msr_ok in Hm. rewrite Hmod, plugged_modulated in Hm by done.
    destruct Hm as (_ & reg & -> & [Hu _] & Hleg). by eapply modulation_of_listed.
  - intros v x m Hv Hok Hmod Hx. apply modulation_law; [done..| |done]. by apply plugged_modulated.
Defined.
End laws.

(** ** A two-core machine, for the witnesses and the examples *)

(** Two packages whose cores share the [core_id] 0; core 1 can be unplugged. *)
Definition sample_files : gmap string node := list_to_map [
  ("/sys/devices/system/cpu/possible"%string, RegFile "0-1");
  ("/sys/devices/system/cpu/cpu0/topology/"%string, Directory []);
  ("/sys/devices/system/cpu/cpu0/topology/physical_package_id"%string, RegFile "0");
  ("/sys/devices/system/cpu/cpu0/topology/core_id"%string, RegFile "0");
  ("/sys/devices/system/cpu/cpu1/topology/"%string, Directory []);
  ("/sys/devices/system/cpu/cpu1/topology/physical_package_id"%string, RegFile "1");
  ("/sys/devices/system/cpu/cpu1/topology/core_id"%string, RegFile "0");
  ("/sys/devices/system/cpu/cpu1/online"%string, RegFile "1");
  ("/sys/devices/system/cpu/cpu0/cpuidle"%string, Directory [("."%string, IsDir); ("state0"%string, IsDir); ("state1"%string, IsDir)]);
  ("/sys/devices/system/cpu/cpu0/cpuidle/state0/time"%string, RegFile "4294967290");
  ("/sys/devices/system/cpu/cpu0/cpuidle/state0/usage"%string, RegFile "17");
  ("/sys/devices/system/cpu/cpu0/cpuidle/state1/time"%string, RegFile "80");
  ("/sys/devices/system/cpu/cpu0/cpuidle/state1/usage"%string, RegFile "3");
  ("/sys/devices/system/cpu/cpu1/cpuidle"%string, Directory []);
  ("/proc/stat"%string, RegFile "cpu0 1 2 3 400");
  ("/dev/cpu/0/msr"%string, MsrFile 0);
  ("/dev/cpu/1/msr"%string, MsrFile 1) ].
Definition sample_machine : Machine :=
  mkMachine (mkWorld "" sample_files ∅ (fun _ _ _ new => new)
               {[ 0 := {[ 410 := 0 ]}; 1 := {[ 410 := 0 ]} ]} 32 None 100 ""
               (mkProcs {[ 0; 1 ]} ∅ ∅ [] (1, 1))) ∅.
#[local] Instance no_shell : Shell := {| sh_system := fun _ w => (0, w); sh_popen := fun _ _ => None |}.
#[local] Instance sample_ops : VirtualCoreOps Machine := LinuxVirtualCore (7, 8) true.

Definition sample_run : outcome Topology * Machine := Topology_new m_world sample_machine.
Definition sample_topology : Topology := match fst sample_run with Ret t => t | _ => mkTopology [] [] [] end.
(** A run that returns, without evaluating the state it ends in. *)
Definition returned {A S} (r : outcome A * S) : bool := match fst r with Ret _ => true | _ => false end.
Lemma returned_pair {A S} (r : outcome A * S) (d : A) :
  returned r = true -> r = (Ret (match fst r with Ret a => a | _ => d end), snd r).
Proof. by destruct r as [[]]. Qed.
Lemma sample_run_ok : sample_run = (Ret sample_topology, snd sample_run).
Proof. apply (returned_pair sample_run (mkTopology [] [] [])). vm_compute. reflexivity. Qed.

Lemma Topology_new_wellformed_witness :
  exists lo hi, Topology_coreRange (m_world sample_machine) = Ret (lo, hi) /\
    (forall id, id ∈ vc_virtualCoreId <$> tp_virtualCores sample_topology <->
       u32 lo <= id <= u32 hi /\ online_core (m_world sample_machine) id = true).
Proof.
  destruct (Topology_new_wellformed m_world sample_machine sample_topology (snd sample_run))
    as (lo & hi & H1 & H2 & _).
  - apply linux_constructs.
  - exact sample_run_ok.
  - exists lo, hi. exact (conj H1 H2).
Defined.

Lemma Topology_virtualToPhysical_spec_witness :
  exists ps, Topology_virtualToPhysical sample_topology (tp_virtualCores sample_topology) = Ret (Some <$> ps) /\
    length ps = 2%nat.
Proof.
  destruct (Topology_virtualToPhysical_spec m_world sample_machine sample_topology (snd sample_run)
              (tp_virtualCores sample_topology)) as (ps & H1 & H2 & _).
  - apply linux_constructs.
  - exact sample_run_ok.
  - reflexivity.
  - exists ps. split; [exact H1|]. rewrite <- (length_fmap pc_physicalCoreId ps), H2. vm_compute. reflexivity.
Defined.

Definition sample_coords : list VirtualCoreCoordinates := [mkVcc 0 0 0; mkVcc 1 1 1].
Lemma sample_coords_ok : Topology_coordinates (m_world sample_machine) = Ret sample_coords.
Proof. vm_compute. reflexivity. Qed.
Definition sample_build (coord : list VirtualCoreCoordinates) : outcome Topology * Machine :=
  Topology_buildCpuVector (mkTopology [] [] []) coord sample_machine.
Definition built (r : outcome Topology * Machine) : Topology :=
  match fst r with Ret t => t | _ => mkTopology [] [] [] end.
Lemma sample_build_ok : sample_build sample_coords = (Ret sample_topology, snd (sample_build sample_coords)).
Proof.
  rewrite (returned_pair (sample_build sample_coords) (mkTopology [] [] [])) at 1 by (vm_compute; reflexivity).
  f_equal.
Qed.
Definition sample_sent : list VirtualCoreCoordinates := coords_of <$> tp_virtualCores sample_topology.
Lemma sample_rebuild_ok :
  sample_build sample_sent = (Ret (built (sample_build sample_sent)), snd (sample_build sample_sent)).
Proof. apply (returned_pair _ (mkTopology [] [] [])). vm_compute. reflexivity. Qed.

Lemma Topology_rebuild_same_witness : built (sample_build sample_sent) = sample_topology.
Proof.
  exact (Topology_rebuild_same sample_ops sample_ops sample_coords sample_machine sample_topology _
           sample_machine (built (sample_build sample_sent)) _ (linux_constructs _ _) (linux_constructs _ _)
           sample_build_ok sample_rebuild_ok).
Defined.

(** The machine after the construction behaves as documented.  On [closed_booted] the registers of
    core 1 are not accessible to the program, as when its msr file is not there. *)
Definition booted : Machine := snd sample_run.
Definition closed_machine : Machine :=
  mkMachine (set_fs (delete "/dev/cpu/1/msr"%string) (m_world sample_machine)) ∅.
Definition closed_booted : Machine := snd (Topology_new (VO := sample_ops) m_world closed_machine).
Definition core0 : VirtualCore := mkVirtualCore 0 0 0.
Definition core1 : VirtualCore := mkVirtualCore 1 1 1.
Definition sample_pluggable (v : VirtualCore) : bool := vc_virtualCoreId v =? 1.
Definition sample_modulated (v : VirtualCore) : bool := vc_virtualCoreId v =? 0.
Definition sample_values : list double := snd (clkMod_params 32).

Lemma sample_ids_u32 v : v ∈ [core0; core1] -> is_u32 (vc_virtualCoreId v).
Proof. intros [->|[->|H%elem_of_nil]%elem_of_cons]%elem_of_cons; by unfold is_u32. Qed.
Lemma sample_ids_inj v v' : v ∈ [core0; core1] -> v' ∈ [core0; core1] ->
  vc_virtualCoreId v = vc_virtualCoreId v' -> v = v'.
Proof.
  intros [->|[->|H%elem_of_nil]%elem_of_cons]%elem_of_cons
    [->|[->|H'%elem_of_nil]%elem_of_cons]%elem_of_cons; done.
Qed.

Lemma reg_ok_0 : reg_ok 0 0.
Proof. split; [done|]. by unfold modulation_legal. Qed.

Lemma core0_ok m modulated vl : modulated core0 = true -> m_vcores m !! 0 = Some vl ->
  bool_decide (vl_hotplugFile vl = hotplug_path "" 0 /\ vl_clkModLowBit vl = 0 /\ vl_clkModStep vl = d_scaled 25 (-2) /\
    vl_clkModValues vl = sample_values) = true ->
  w_fs (m_world m) !! hotplug_path "" 0 = None -> msr_fd (vl_clkModMsr vl) = Some (0, true) ->
  core_reg (m_world m) core0 MSR_CLOCK_MODULATION = Some 0 ->
  core_ok "" 0 (d_scaled 25 (-2)) sample_values sample_pluggable modulated m core0.
Proof.
  intros Hm Hvl (H1 & H2 & H3 & H4)%bool_decide_eq_true Hf Hfd Hr. exists vl. do 6 (split; [done|]).
  eapply msr_ok_plugged; [done|done|done|exact Hr|apply reg_ok_0].
Qed.

Lemma booted_ok :
  machine_ok "" 0 (d_scaled 25 (-2)) sample_values [core0; core1] sample_pluggable (fun _ => true) booted.
Proof.
  intros v [->|[->|H%elem_of_nil]%elem_of_cons]%elem_of_cons; [..|done].
  - eapply core0_ok; [done|vm_compute; reflexivity..].
  - eexists. split; [vm_compute; reflexivity|]. do 4 (split; [vm_compute; reflexivity|]).
    split.
    + split; [eexists; vm_compute; reflexivity|]. split; [vm_compute; reflexivity|].
      intros fs old b [-> | ->]; vm_compute; reflexivity.
    + eapply msr_ok_plugged; [done|vm_compute; reflexivity..|apply reg_ok_0].
Qed.

Lemma closed_ok :
  machine_ok "" 0 (d_scaled 25 (-2)) sample_values [core0; core1] sample_pluggable sample_modulated closed_booted.
Proof.
  intros v [->|[->|H%elem_of_nil]%elem_of_cons]%elem_of_cons; [..|done].
  - eapply core0_ok; [done|vm_compute; reflexivity..].
  - eexists. split; [vm_compute; reflexivity|]. do 4 (split; [vm_compute; reflexivity|]).
    split.
    + split; [eexists; vm_compute; reflexivity|]. split; [vm_compute; reflexivity|].
      intros fs old b [-> | ->]; vm_compute; reflexivity.
    + vm_compute. reflexivity.
Qed.

Definition sample_laws : VirtualCoreLaws Machine [core0; core1].
Proof.
  refine (linux_laws (7, 8) true "" 32 0 (d_scaled 25 (-2)) sample_values [core0; core1]
            sample_pluggable sample_modulated eq_refl sample_ids_u32 sample_ids_inj _).
  intros v [->|[->|H%elem_of_nil]%elem_of_cons]%elem_of_cons; done.
Defined.

Lemma Cpu_hotplug_roundtrip_witness :
  let c := Cpu_new 1 [mkPhysicalCore 1 1 [core1]] in
  exists s1 s2, Cpu_hotUnplug c closed_booted = (Ret tt, s1) /\ Cpu_isHotPlugged c s1 = (Ret false, s1) /\
    Cpu_hotPlug c s1 = (Ret tt, s2) /\ Cpu_isHotPlugged c s2 = (Ret true, s2).
Proof.
  intros c.
  destruct (@Cpu_hotplug_roundtrip Machine sample_ops [core0; core1] sample_laws 1
              [mkPhysicalCore 1 1 [core1]] closed_booted) as (s1 & s2 & H1 & H2 & H3 & H4 & _).
  - intros v [->|H%elem_of_nil]%elem_of_cons; [right; left|done].
  - discriminate.
  - intros v [->|H%elem_of_nil]%elem_of_cons; [reflexivity|done].
  - exact closed_ok.
  - exists s1, s2. auto.
Defined.

Definition sample_rp : TopologyRollbackPoint :=
  match fst (Topology_getRollbackPoint sample_topology closed_booted) with
  | Ret rp => rp | _ => mkTopologyRollbackPoint [] []
  end.

Lemma sample_rp_ok : Topology_getRollbackPoint sample_topology closed_booted = (Ret sample_rp, closed_booted).
Proof.
  pose proof (getRollbackPoint_spec (VL := sample_laws) sample_topology closed_booted ltac:(vm_compute; reflexivity) closed_ok) as E.
  unfold sample_rp. by rewrite E.
Qed.


(** * The claims *)

(** C37: the virtual cores of Linux keep the contract of [VirtualCoreOps], on a machine
    whose [online] attributes and clock modulation registers behave as documented: an [online]
    attribute can be written and reads back the digit written, the registers of a plugged core
    can be read and written, those of an unplugged core cannot be accessed.  The queries answer
    whether a core is plugged and by how much its clock is modulated, 100 when it is unplugged.
    Plugging or unplugging a core returns and writes no register; the core is then plugged as
    asked (always, if it cannot be unplugged), and once the kernel has taken away, or given
    back, the registers of the core, the machine behaves as documented again, every other core is as it
    was and a core that was plugged already, or unplugged already, keeps its modulation.
    Setting a listed modulation on a plugged core that has the register succeeds, is read back,
    and touches no other core and no plugging; on an unplugged core it uses an uninitialised
    variable. *)
Theorem linux_cores_keep_contract {SH : Shell} prefix eax lowBit step values cores pluggable modulated m v :
  clkMod_params eax = (lowBit, step, values) ->
  (forall v, v ∈ cores -> is_u32 (vc_virtualCoreId v)) ->
  (forall v v', v ∈ cores -> v' ∈ cores -> vc_virtualCoreId v = vc_virtualCoreId v' -> v = v') ->
  let ok := machine_ok prefix lowBit step values cores pluggable modulated in
  let plugged := plugged_view prefix pluggable in
  let modulation := modulation_view lowBit step modulated in
  let follows := kernel_follows prefix lowBit cores pluggable modulated in
  let set x := linux_write (fun vl => VirtualCoreLinux_setClockModulation vl x) v in
  v ∈ cores -> ok m ->
  linux_query VirtualCoreLinux_isHotPlugged v m = (Ret (plugged v m), m) /\
  linux_query (fun _ vl => Ret (VirtualCoreLinux_hasClockModulation vl)) v m = (Ret (modulated v), m) /\
  linux_query VirtualCoreLinux_getClockModulation v m = (Ret (modulation v m), m) /\
  (plugged v m = false -> modulation v m = d_100) /\
  (forall b : bool, exists m1,
     linux_write (if b then VirtualCoreLinux_hotPlug else VirtualCoreLinux_hotUnplug) v m = (Ret tt, m1) /\
     w_msr (m_world m1) = w_msr (m_world m) /\
     plugged v m1 = (if pluggable v then b else plugged v m) /\
     forall m2, follows v m m1 m2 ->
     ok m2 /\ plugged v m2 = plugged v m1 /\
     (forall v', v' ∈ cores -> v' <> v -> plugged v' m2 = plugged v' m) /\
     (forall v', v' ∈ cores -> v' <> v \/ plugged v m1 = plugged v m -> modulation v' m2 = modulation v' m)) /\
  (forall x, modulated v = true -> x ∈ values ->
     if plugged v m then exists m',
       set x m = (Ret tt, m') /\
       ok m' /\ modulation v m' = x /\
       (forall v', v' ∈ cores -> v' <> v -> modulation v' m' = modulation v' m) /\
       (forall v', v' ∈ cores -> plugged v' m' = plugged v' m)
     else set x m = (Undef "oldValue is uninitialised", m)).
Proof.
  intros Hp Hu Hi ok plugged modulation follows set Hv Hok.
  destruct (Hok v Hv) as (vl & H1 & H2 & H3 & H4 & H5 & Ho & Hm).
  destruct (getClockModulation_view _ _ _ _ _ _ _ Hp m v vl H3 H4 Hm) as [Hhas Hget].
  assert (forall {A} (f : World -> VirtualCoreLinux -> outcome A) a, f (m_world m) vl = Ret a ->
    linux_query f v m = (Ret a, m)) as Hq.
  { intros A f a E. unfold linux_query, query, vcore_object. rewrite H1. simpl. by rewrite E. }
  split; [apply Hq, (isHotPlugged_view _ _ _ _ _ H2 Ho)|]. split; [apply Hq; by rewrite Hhas|].
  split; [by apply Hq|]. split; [|split].
  - intros E. unfold plugged, modulation, modulation_view, msr_ok in *. destruct (modulated v); [|done].
    rewrite E in Hm. by rewrite modulation_reg_regs, (proj2 Hm).
  - intros b. destruct (plug_law prefix lowBit step values cores pluggable modulated Hu Hi b v m Hv Hok)
      as (m' & E & H). exists m'. split; [by destruct b|exact H].
  - intros x Hmod Hx. destruct (plugged v m) eqn:E; [by eapply modulation_law|].
    unfold msr_ok in Hm. unfold plugged in E. rewrite Hmod, E in Hm.
    unfold set, linux_write, on_world. mrun. unfold vcore_object. rewrite H1.
    erewrite setClockModulation_unplugged by (done || apply Hm). by destruct m.
Qed.

(** Core 1 is unplugged, the kernel takes away its registers, it answers 100, and it cannot be set. *)
Definition sample_unplugged : Machine := snd (linux_write VirtualCoreLinux_hotUnplug core1 booted).
Definition sample_offline : Machine :=
  mkMachine (set_msr (delete 1) (m_world sample_unplugged)) (m_vcores sample_unplugged).

Lemma core_reg_deleted w v which : vc_virtualCoreId v <> 1 ->
  core_reg (set_msr (delete 1) w) v which = core_reg w v which.
Proof. intros H. unfold core_reg. simpl. by rewrite lookup_delete_ne. Qed.
Lemma core_reg_gone w which : core_reg (set_msr (delete 1) w) core1 which = None.
Proof. unfold core_reg. simpl. by rewrite lookup_delete_eq. Qed.

Lemma linux_cores_keep_contract_witness :
  machine_ok "" 0 (d_scaled 25 (-2)) sample_values [core0; core1] sample_pluggable (fun _ => true) sample_offline /\
  linux_query VirtualCoreLinux_isHotPlugged core1 sample_offline = (Ret false, sample_offline) /\
  linux_query VirtualCoreLinux_getClockModulation core1 sample_offline = (Ret d_100, sample_offline) /\
  exists m', linux_write (fun vl => VirtualCoreLinux_setClockModulation vl (d_scaled 25 (-1))) core0 sample_offline = (Ret tt, m').
Proof.
  assert (forall v m, v ∈ [core0; core1] -> _ -> _) as H by
    exact (fun v m => linux_cores_keep_contract "" 32 0 (d_scaled 25 (-2)) sample_values [core0; core1]
      sample_pluggable (fun _ => true) m v eq_refl sample_ids_u32 sample_ids_inj).
  destruct (H core1 booted) as (_ & _ & _ & _ & Hplug & _); [right; left|exact booted_ok|].
  destruct (Hplug false) as (m1 & E & _ & P & K).
  assert (m1 = sample_unplugged) as -> by (unfold sample_unplugged; by rewrite E).
  destruct (K sample_offline) as (Hok & Hoff & _ & _).
  { split; [by eexists|]. split.
    - intros v' which Hv' Hne. apply core_reg_deleted. intros E1. apply Hne, (sample_ids_inj v' core1); [done| |done].
      right; left.
    - intros _. rewrite P. intros which. apply core_reg_gone. }
  destruct (H core1 sample_offline) as (Q1 & _ & Q3 & Q4 & _); [right; left|exact Hok|].
  rewrite P in Hoff. split; [exact Hok|]. rewrite Hoff in Q1. split; [exact Q1|].
  rewrite (Q4 Hoff) in Q3. split; [exact Q3|].
  destruct (H core0 sample_offline) as (_ & _ & _ & _ & _ & Hset); [left|exact Hok|].
  destruct (Hset (d_scaled 25 (-1)) eq_refl) as (m' & E' & _); [|by exists m'].
  apply list_elem_of_In. vm_compute. auto.
Defined.

(** Clock modulation round trip: every value a core lists can be set and is then read
    back exactly, for both forms of the register; any other value is refused by an exception
    and the register keeps its content. *)
Theorem clockModulation_roundtrip vl core eax w reg v :
  clkMod_params eax = (vl_clkModLowBit vl, vl_clkModStep vl, vl_clkModValues vl) ->
  msr_holds (vl_clkModMsr vl) core MSR_CLOCK_MODULATION w true reg -> is_u64 reg ->
  (v ∈ vl_clkModValues vl -> exists w', VirtualCoreLinux_setClockModulation vl v w = (Ret tt, w') /\
     VirtualCoreLinux_getClockModulation w' vl = Ret v) /\
  ((forall x, x ∈ vl_clkModValues vl -> deqb x v = false) -> exists what,
     VirtualCoreLinux_setClockModulation vl v w = (Throw (runtime_error what), w)).
Proof.
  intros Hp Hh Hu. split.
  - intros Hv. destruct (setClockModulation_spec vl core eax _ _ _ Hp eq_refl eq_refl eq_refl w reg v Hv Hh Hu)
      as (w' & reg' & E & Hh' & Hu' & Hval & _). exists w'. split; [done|].
    rewrite <- Hval. eapply getClockModulation_spec; [|done..|reflexivity|reflexivity|reflexivity].
    eapply low_range, Hp.
  - intros Hv. unfold VirtualCoreLinux_setClockModulation.
    destruct (existsb _ _) eqn:E; [|by eexists]. exfalso.
    apply existsb_exists in E as (x & Hx & Hd). rewrite (Hv x) in Hd; [done|by apply list_elem_of_In].
Qed.

Definition sample_vcore : VirtualCoreLinux :=
  match m_vcores booted !! 0 with
  | Some vl => vl
  | None => mkVirtualCoreLinux core0 "" [] d_zero (mkSpinner false false false (0, 0)) (mkMsr None) 0 d_zero []
  end.

Lemma clockModulation_roundtrip_witness :
  exists w', VirtualCoreLinux_setClockModulation sample_vcore (d_scaled 25 (-1)) (m_world booted) = (Ret tt, w') /\
    VirtualCoreLinux_getClockModulation w' sample_vcore = Ret (d_scaled 25 (-1)).
Proof.
  apply (clockModulation_roundtrip sample_vcore 0 32 (m_world booted) 0 (d_scaled 25 (-1))).
  - vm_compute. reflexivity.
  - split; [vm_compute; reflexivity|]. eexists. split; vm_compute; reflexivity.
  - split; vm_compute; congruence.
  - apply list_elem_of_In. vm_compute. auto.
Defined.

(** ** Idle levels *)

Lemma u32_stringToInt_print n : 0 <= n < 2 ^ 63 -> u32 (stringToInt (print_nat n)) = n mod 2 ^ 32.
Proof.
  intros Hn. unfold stringToInt, atoi. rewrite u32_i32, <- (str_app_nil_r (print_nat n)).
  rewrite strtol_print_nat by done. done.
Qed.

(** The time and the count of an idle level are the differences of the kernel's counters
    since the last reset, exactly, even when the 64-bit counters do not fit the 32-bit
    variables, as long as the difference does. *)
Theorem IdleLevel_getTime_exact w1 w2 l l1 t1 t2 :
  w_fs w1 !! (il_path l +:+ "time")%string = Some (RegFile (print_nat t1)) ->
  w_fs w2 !! (il_path l +:+ "time")%string = Some (RegFile (print_nat t2)) ->
  0 <= t1 <= t2 -> t2 < 2 ^ 63 -> t2 - t1 < 2 ^ 32 ->
  IdleLevel_resetTime w1 l = Ret l1 ->
  IdleLevel_getTime w2 l1 = Ret (t2 - t1) /\ il_lastAbsCount l1 = il_lastAbsCount l.
Proof.
  intros H1 H2 Ht Hlt Hd Hr.
  unfold IdleLevel_resetTime, IdleLevel_getAbsoluteTime, read_uint, readFirstLineFromFile in Hr.
  rewrite H1 in Hr. simpl in Hr. rewrite first_line_print_nat in Hr by lia. injection Hr as <-.
  split; [|done]. unfold IdleLevel_getTime, IdleLevel_getAbsoluteTime, read_uint, readFirstLineFromFile.
  simpl. rewrite H2. simpl. rewrite first_line_print_nat, !u32_stringToInt_print by lia.
  f_equal. unfold u32. rewrite <- Zminus_mod. apply Z.mod_small. lia.
Qed.

Definition sample_level : VirtualCoreIdleLevelLinux := mkIdleLevel 0 1 "/state1/" 0 0.
Definition level_world (t : Z) : World :=
  mkWorld "" {[ "/state1/time"%string := RegFile (print_nat t) ]} ∅ (fun _ _ _ new => new) ∅ 0 None 100 ""
    (mkProcs ∅ ∅ ∅ [] (1, 1)).

Lemma IdleLevel_getTime_exact_witness :
  exists l1, IdleLevel_resetTime (level_world 4294967290) sample_level = Ret l1 /\
    IdleLevel_getTime (level_world 4294967300) l1 = Ret 10.
Proof.
  eexists. split; [vm_compute; reflexivity|].
  apply (IdleLevel_getTime_exact (level_world 4294967290) (level_world 4294967300) sample_level _
           4294967290 4294967300); (vm_compute; reflexivity) || lia || (split; lia).
Defined.

(** ** Reading procfs *)

(** The idle time of a core is taken from the last line of /proc/stat in which the name
    of the core appears: on a machine with at least eleven cores, core 1 reports the idle
    time of core 10; and the flags of a core are always those of the first section of
    /proc/cpuinfo, in which the last flag of the line is never found. *)
Theorem procfs_reads_other_cores :
  (procStat_field 1 PROC_STAT_TIME_IDLE
     ["cpu  6 6 6 600"; "cpu0 1 1 1 100"; "cpu1 2 2 2 200"; "cpu10 3 3 3 300"; "intr 5"]%string
   = Ret (Some 300)) /\
  (let cpuinfo := ["processor : 0"; "flags : fpu msr"; "processor : 1"; "flags : fpu tsc msr"]%string in
   hasFlag_loop 1 "tsc" cpuinfo false = false /\ hasFlag_loop 0 "fpu" cpuinfo false = true /\
   hasFlag_loop 0 "msr" cpuinfo false = false).
Proof. vm_compute. auto. Qed.

(** ** Utilisation *)

(** Resetting the utilisation of a core after maximising it stops the spinner when the
    spinner had set [_running] before [start] returned; when it had not, the reset does
    nothing and the spinner stays alive, with nobody left to stop it. *)
Theorem resetUtilization_may_miss_spinner {SH : Shell} ids published vl vl' w w' :
  VirtualCoreLinux_maximizeUtilization ids published vl w = (Ret vl', w') ->
  exists vl2, VirtualCoreLinux_resetUtilization vl' = Ret vl2 /\
    sp_alive (vl_utilizationThread vl2) = negb published /\
    (published = false -> sp_stop (vl_utilizationThread vl2) = false).
Proof.
  intros H. unfold VirtualCoreLinux_maximizeUtilization in H. minv H.
  unfold SpinnerThread_start, lift in H1. injection H1 as H1 _.
  destruct (sp_running (vl_utilizationThread r)); [done|]. injection H1 as <-. destruct ids as [pid tid]. simpl in H.
  minv H. injection H as <- _. unfold VirtualCoreLinux_resetUtilization. simpl.
  destruct published; eexists; (split; [done|]; split; [done|]; done).
Qed.

Definition spin_world : World :=
  mkWorld "" (list_to_map [ ("/proc/uptime"%string, RegFile "5.0 1.0");
                            ("/proc/7/task/8/stat"%string, RegFile "8 (x) S 1 9 9 0 -1 0 0 0 0 0 5 6 0 0 20 0 1 0") ])
    ∅ (fun _ _ _ new => new) ∅ 0 None 100 "" (mkProcs {[0; 1]} {[ 8 := {[0; 1]} ]} ∅ [] (7, 7)).

Lemma resetUtilization_may_miss_spinner_witness :
  exists vl' w' vl2, VirtualCoreLinux_maximizeUtilization (7, 8) false sample_vcore spin_world = (Ret vl', w') /\
    VirtualCoreLinux_resetUtilization vl' = Ret vl2 /\ sp_alive (vl_utilizationThread vl2) = true.
Proof.
  destruct (VirtualCoreLinux_maximizeUtilization (7, 8) false sample_vcore spin_world) as [[vl'| |] w'] eqn:E;
    [|vm_compute in E; discriminate E..].
  destruct (resetUtilization_may_miss_spinner (7, 8) false sample_vcore vl' spin_world w' E) as (vl2 & H1 & H2 & _).
  exists vl', w', vl2. auto.
Defined.
