(* ===== verification/CpuFreq.v ===== *)
(** * Frequency scaling (src/cpufreq/cpufreq.cpp)

    The operations of the module that are written against the interfaces of [Domain] and of
    [CpuFreq]: the class [CpuFreqOps] has the virtual methods, on a state [S] and with domain
    pointers in [D].  [CpuFreqLaws] is the contract that the rollback of the module needs. *)
From Stdlib Require Import Sorting.Sorted.
From S2P Require Import Prelude UtilsText UtilsVector Double UtilsSys Topology.

(** ** Governors *)

(** [Governor], include/mammut/cpufreq/cpufreq.hpp:18-26. A value of the C++ type is an
    integer: casts produce any. *)
Definition Governor : Type := Z.
Definition GOVERNOR_CONSERVATIVE : Governor := 0.
Definition GOVERNOR_ONDEMAND : Governor := 1.
Definition GOVERNOR_INTERACTIVE : Governor := 2.
Definition GOVERNOR_USERSPACE : Governor := 3.
Definition GOVERNOR_POWERSAVE : Governor := 4.
Definition GOVERNOR_PERFORMANCE : Governor := 5.
Definition GOVERNOR_NUM : Governor := 6.

(** [enumStrings<Governor>::data], src/cpufreq/cpufreq.cpp:18-25. *)
Definition governor_names : list string :=
  ["conservative"; "ondemand"; "interactive"; "userspace"; "powersave"; "performance"]%string.

(** [CpuFreq::getGovernorFromGovernorName], src/cpufreq/cpufreq.cpp:80-83. *)
Definition CpuFreq_getGovernorFromGovernorName (governorName : string) : outcome Governor :=
  stringToEnum governor_names governorName (Undef "the governor is uninitialised").

(** [CpuFreq::getGovernorNameFromGovernor], src/cpufreq/cpufreq.cpp:85-87. *)
Definition CpuFreq_getGovernorNameFromGovernor (governor : Governor) : outcome string :=
  enumToString governor_names governor.

(** [RollbackPoint], include/mammut/cpufreq/cpufreq.hpp:40-45. *)
Record CpuFreqRollbackPoint := mkCpuFreqRollbackPoint {
  cr_frequencies : list Z; cr_lowerBounds : list Z; cr_upperBounds : list Z;
  cr_governors : list Governor
}.

(** [CpuFreq::filterVirtualCores], src/cpufreq/cpufreq.cpp:103-113. *)
Definition CpuFreq_filterVirtualCores (virtualCores : list VirtualCore) (identifiers : list Z) :
    list VirtualCore :=
  fold_left (fun r v => if contains identifiers (vc_virtualCoreId v) then r ++ [v] else r) virtualCores [].

(** The virtual methods of [Domain], include/mammut/cpufreq/cpufreq.hpp:52-201, and of
    [CpuFreq], 254-350. *)
Class CpuFreqOps (S D : Type) `{EqDecision D} := {
  d_getVirtualCores : D -> S -> outcome (list VirtualCore);
  d_removeTurboFrequencies : D -> M S unit;
  d_reinsertTurboFrequencies : D -> M S unit;
  d_getAvailableFrequencies : D -> M S (list Z);
  d_getAvailableGovernors : D -> M S (list Governor);
  d_getCurrentFrequency : D -> M S Z;
  d_getCurrentFrequencyUserspace : D -> M S Z;
  d_setFrequencyUserspace : D -> Z -> M S bool;
  d_getCurrentGovernor : D -> M S Governor;
  d_setGovernor : D -> Governor -> M S bool;
  d_getHardwareFrequencyBounds : D -> M S (Z * Z);
  (** [None] is [false], which leaves the two references unassigned. *)
  d_getCurrentGovernorBounds : D -> M S (option (Z * Z));
  d_setGovernorBounds : D -> Z -> Z -> M S bool;
  d_getTransitionLatency : D -> M S Z;
  d_getCurrentVoltage : D -> M S double;
  f_getDomains : S -> list D;
  f_isBoostingSupported : M S bool;
  f_isBoostingEnabled : M S bool;
  f_enableBoosting : M S unit;
  f_disableBoosting : M S unit
}.

(** ** Operations *)
Section operations.
Context {S D : Type} `{EqDecision D} {CO : CpuFreqOps S D}.

(** [Domain::getVirtualCoresIdentifiers], src/cpufreq/cpufreq.cpp:37-43. *)
Definition Domain_getVirtualCoresIdentifiers (d : D) (s : S) : outcome (list Z) :=
  vs ← d_getVirtualCores d s; Ret (map vc_virtualCoreId vs).

(** [Domain::contains], src/cpufreq/cpufreq.cpp:45-52. *)
Definition Domain_contains (d : D) (virtualCore : VirtualCore) (s : S) : outcome bool :=
  vs ← d_getVirtualCores d s;
  Ret (existsb (fun v => vc_virtualCoreId v =? vc_virtualCoreId virtualCore) vs).

(** [Domain::isGovernorAvailable], src/cpufreq/cpufreq.cpp:58-60. *)
Definition Domain_isGovernorAvailable (d : D) (governor : Governor) : M S bool :=
  let* gs := d_getAvailableGovernors d in ret (contains gs governor).

(** [Domain::setHighestFrequencyUserspace], src/cpufreq/cpufreq.cpp:62-69. *)
Definition Domain_setHighestFrequencyUserspace (d : D) : M S bool :=
  let* availableFrequencies := d_getAvailableFrequencies d in
  if bool_decide (availableFrequencies = []) then ret false
  else let* f := lift (vec_back availableFrequencies) in d_setFrequencyUserspace d f.

(** [Domain::setLowestFrequencyUserspace], src/cpufreq/cpufreq.cpp:71-78. *)
Definition Domain_setLowestFrequencyUserspace (d : D) : M S bool :=
  let* availableFrequencies := d_getAvailableFrequencies d in
  if bool_decide (availableFrequencies = []) then ret false
  else let* f := lift (vec_front availableFrequencies) in d_setFrequencyUserspace d f.

(** The loop of [getDomain]. *)
Fixpoint find_domain (domains : list D) (virtualCore : VirtualCore) (s : S) : outcome D :=
  match domains with
  | [] => Throw (runtime_error ("getDomain: no domain found for virtual core: " +:+
                                intToString (vc_virtualCoreId virtualCore)))
  | d :: domains' =>
      c ← Domain_contains d virtualCore s;
      if (c : bool) then Ret d else find_domain domains' virtualCore s
  end.

(** [CpuFreq::getDomain], src/cpufreq/cpufreq.cpp:130-139. *)
Definition CpuFreq_getDomain (virtualCore : VirtualCore) (s : S) : outcome D :=
  find_domain (f_getDomains s) virtualCore s.

(** [CpuFreq::getDomains], src/cpufreq/cpufreq.cpp:141-150. *)
Definition CpuFreq_getDomainsOf (virtualCores : list VirtualCore) (s : S) : outcome (list D) :=
  fold_out virtualCores [] (fun r v =>
    d ← CpuFreq_getDomain v s;
    Ret (if contains r d then r else r ++ [d])).

(** [CpuFreq::getDomains], src/cpufreq/cpufreq.cpp:152-154. *)
Definition CpuFreq_getDomainsOfPhysicalCore (p : PhysicalCore) (s : S) : outcome (list D) :=
  CpuFreq_getDomainsOf (pc_virtualCores p) s.

(** [CpuFreq::getDomains], src/cpufreq/cpufreq.cpp:156-158. *)
Definition CpuFreq_getDomainsOfCpu (c : Cpu) (s : S) : outcome (list D) :=
  CpuFreq_getDomainsOf (cpu_virtualCores c) s.

(** [CpuFreq::getDomainsComplete], src/cpufreq/cpufreq.cpp:160-176. [contained] is a 32-bit
    counter compared with a [size_t]. *)
Definition CpuFreq_getDomainsComplete (virtualCores : list VirtualCore) (s : S) : outcome (list D) :=
  fold_out (f_getDomains s) [] (fun r d =>
    contained ← fold_out virtualCores 0 (fun n v =>
                  c ← Domain_contains d v s; Ret (if (c : bool) then u32 (n + 1) else n));
    vs ← d_getVirtualCores d s;
    Ret (if contained =? Z.of_nat (length vs) then r ++ [d] else r)).

(** [CpuFreq::removeTurboFrequencies], src/cpufreq/cpufreq.cpp:178-182. *)
Definition CpuFreq_removeTurboFrequencies : M S unit :=
  let* domains := gets f_getDomains in for_each domains d_removeTurboFrequencies.

(** [CpuFreq::reinsertTurboFrequencies], src/cpufreq/cpufreq.cpp:184-188. *)
Definition CpuFreq_reinsertTurboFrequencies : M S unit :=
  let* domains := gets f_getDomains in for_each domains d_reinsertTurboFrequencies.

(** [CpuFreq::getRollbackPoint], src/cpufreq/cpufreq.cpp:190-202. When a domain has no bounds
    the two local variables are read uninitialised. *)
Definition CpuFreq_getRollbackPoint : M S CpuFreqRollbackPoint :=
  let* domains := gets f_getDomains in
  for_fold domains (mkCpuFreqRollbackPoint [] [] [] []) (fun rp d =>
    let* g := d_getCurrentGovernor d in
    let* f := d_getCurrentFrequencyUserspace d in
    let* bounds := d_getCurrentGovernorBounds d in
    match bounds with
    | None => undef "lb and ub are uninitialised"
    | Some (lb, ub) =>
        ret (mkCpuFreqRollbackPoint (cr_frequencies rp ++ [f]) (cr_lowerBounds rp ++ [lb])
               (cr_upperBounds rp ++ [ub]) (cr_governors rp ++ [g]))
    end).

(** [CpuFreq::rollback], src/cpufreq/cpufreq.cpp:207-227: one iteration. *)
Definition rollback_domain (rollbackPoint : CpuFreqRollbackPoint) (i : nat) (g : Governor) : M S unit :=
  let* d := query (fun s => vec_at (f_getDomains s) i) in
  let* ok := d_setGovernor d g in
  if negb ok then
    let* name := lift (CpuFreq_getGovernorNameFromGovernor g) in
    throw (runtime_error ("Domain: Impossible to rollback the domain to governor: " +:+ name))
  else if g =? GOVERNOR_USERSPACE then
    let* f := lift (vec_index (cr_frequencies rollbackPoint) i) in
    let* ok := d_setFrequencyUserspace d f in
    if negb ok then
      throw (runtime_error ("Domain: Impossible to rollback the domain to frequency: " +:+ intToString f))
    else ret tt
  else
    let* lb := lift (vec_index (cr_lowerBounds rollbackPoint) i) in
    let* ub := lift (vec_index (cr_upperBounds rollbackPoint) i) in
    let* ok := d_setGovernorBounds d lb ub in
    if negb ok then
      throw (runtime_error ("Domain: Impossible to rollback the domain to bounds: " +:+
                            intToString lb +:+ " " +:+ intToString ub))
    else ret tt.

(** [CpuFreq::rollback], src/cpufreq/cpufreq.cpp:205-228. *)
Definition CpuFreq_rollback (rollbackPoint : CpuFreqRollbackPoint) : M S unit :=
  for_each (enumerate (cr_governors rollbackPoint)) (fun '(i, g) => rollback_domain rollbackPoint i g).

(** [CpuFreq::isGovernorAvailable], src/cpufreq/cpufreq.cpp:230-241. *)
Definition CpuFreq_isGovernorAvailable (governor : Governor) : M S bool :=
  let* domains := gets f_getDomains in
  if bool_decide (domains = []) then ret false
  else for_all domains (fun d => Domain_isGovernorAvailable d governor).
End operations.

(** ** Voltage tables *)

(** [VoltageTable], include/mammut/cpufreq/cpufreq.hpp:32-34: a [std::map], as its entries in
    key order. *)
Definition VoltageTable : Type := list ((Z * Z) * double).

Definition key_ltb (a b : Z * Z) : bool := (fst a <? fst b) || ((fst a =? fst b) && (snd a <? snd b)).
(** [std::map::insert]: keeps the entry that is already there. *)
Fixpoint table_insert (k : Z * Z) (v : double) (t : VoltageTable) : VoltageTable :=
  match t with
  | [] => [(k, v)]
  | (k', v') :: t' =>
      if key_ltb k k' then (k, v) :: t
      else if key_ltb k' k then (k', v') :: table_insert k v t'
      else t
  end.

(** [loadVoltageTable], src/cpufreq/cpufreq.cpp:254-263: one line. *)
Definition load_line (t : VoltageTable) (line : string) : outcome VoltageTable :=
  c ← str_at line 0;
  if bool_decide (c = "#"%char) then Ret t
  else
    let fields := split line ";" in
    f0 ← vec_at fields 0;
    f1 ← vec_at fields 1;
    f2 ← vec_at fields 2;
    Ret (table_insert (u32 (stringToInt f0), u32 (stringToInt f1)) (stringToDouble f2) t).

(** [loadVoltageTable], src/cpufreq/cpufreq.cpp:243-264. *)
Definition loadVoltageTable (w : World) (fileName : string) : outcome VoltageTable :=
  match w_fs w !! fileName with
  | None => Throw (runtime_error "Impossible to open the specified voltage table file.")
  | Some n => fold_out (split (file_content n) newline) [] load_line
  end.

Section dump.
(** How a stream prints a [double]: the precision is that of the stream, six digits. *)
Variable print_double : double -> string.

(** A [uint32_t] in decimal, as a stream prints it. *)
Definition print_uint (n : Z) : string := print_nat n.

(** [dumpVoltageTable], src/cpufreq/cpufreq.cpp:273-278: the text. *)
Definition dump_text (t : VoltageTable) : string :=
  fold_left (fun acc '((n, f), v) =>
      acc +:+ print_uint n +:+ ";" +:+ print_uint f +:+ ";" +:+ print_double v +:+ String newline EmptyString)
    t ("# This file contains the voltage table in the following format: " +:+ String newline EmptyString +:+
       "# NumVirtualCores;Frequency;Voltage" +:+ String newline EmptyString).

(** [dumpVoltageTable], src/cpufreq/cpufreq.cpp:266-280. *)
Definition dumpVoltageTable (t : VoltageTable) (fileName : string) : M World unit :=
  let* ok := gets (fun w => can_write w fileName) in
  if negb ok then throw (runtime_error "Impossible to open the specified voltage table file.")
  else modify (put_file fileName (dump_text t)).
End dump.

(** * The contract of a frequency scaling module *)

(** The views are a domain's governor, the frequency of the [userspace] governor and the
    bounds; [law_accepts] is when the bounds can be set. *)
Class CpuFreqLaws (S D : Type) `{EqDecision D} {CO : CpuFreqOps S D} (domains : list D) := {
  fl_ok : S -> Prop;
  fl_governor : D -> S -> Governor;
  fl_frequency : D -> S -> Z;
  fl_bounds : D -> S -> Z * Z;
  fl_governors : D -> list Governor;
  fl_frequencies : D -> list Z;
  fl_domains s : fl_ok s -> f_getDomains s = domains;
  fl_getCurrentGovernor d s : d ∈ domains -> fl_ok s -> d_getCurrentGovernor d s = (Ret (fl_governor d s), s);
  fl_getCurrentFrequencyUserspace d s : d ∈ domains -> fl_ok s ->
    d_getCurrentFrequencyUserspace d s =
      (Ret (if fl_governor d s =? GOVERNOR_USERSPACE then fl_frequency d s else 0), s);
  fl_getCurrentGovernorBounds d s : d ∈ domains -> fl_ok s ->
    d_getCurrentGovernorBounds d s = (Ret (Some (fl_bounds d s)), s);
  fl_governor_available d s : d ∈ domains -> fl_ok s -> fl_governor d s ∈ fl_governors d;
  fl_setGovernor d g s : d ∈ domains -> fl_ok s -> g ∈ fl_governors d ->
    exists s', d_setGovernor d g s = (Ret true, s') /\ fl_ok s' /\ fl_governor d s' = g /\
      fl_bounds d s' = fl_bounds d s /\
      (forall d', d' ∈ domains -> d' <> d ->
         fl_governor d' s' = fl_governor d' s /\ fl_frequency d' s' = fl_frequency d' s /\
         fl_bounds d' s' = fl_bounds d' s);
  fl_setFrequencyUserspace d f s : d ∈ domains -> fl_ok s -> fl_governor d s = GOVERNOR_USERSPACE ->
    f ∈ fl_frequencies d ->
    exists s', d_setFrequencyUserspace d f s = (Ret true, s') /\ fl_ok s' /\
      fl_governor d s' = GOVERNOR_USERSPACE /\ fl_frequency d s' = f /\ fl_bounds d s' = fl_bounds d s /\
      (forall d', d' ∈ domains -> d' <> d ->
         fl_governor d' s' = fl_governor d' s /\ fl_frequency d' s' = fl_frequency d' s /\
         fl_bounds d' s' = fl_bounds d' s);
  (** The lower bound must not exceed the upper bound in force, because it is written first. *)
  fl_setGovernorBounds d lb ub s : d ∈ domains -> fl_ok s ->
    lb ∈ fl_frequencies d -> ub ∈ fl_frequencies d -> lb <= ub -> lb <= snd (fl_bounds d s) ->
    exists s', d_setGovernorBounds d lb ub s = (Ret true, s') /\ fl_ok s' /\
      fl_governor d s' = fl_governor d s /\ fl_bounds d s' = (lb, ub) /\
      (forall d', d' ∈ domains -> d' <> d ->
         fl_governor d' s' = fl_governor d' s /\ fl_frequency d' s' = fl_frequency d' s /\
         fl_bounds d' s' = fl_bounds d' s)
}.

(** * Properties *)

(** ** Domains that a set of cores covers *)

Lemma count_fold {A} (P : A -> bool) (vs : list A) n :
  0 <= n -> n + Z.of_nat (length vs) < 2 ^ 32 ->
  fold_out vs n (fun n v => Ret (if P v then u32 (n + 1) else n)) = Ret (n + Z.of_nat (length (List.filter P vs))).
Proof.
  revert n. induction vs as [|v vs IH]; intros n Hn Hl; simpl; [f_equal; lia|].
  simpl in Hl. destruct (P v); simpl.
  - rewrite u32_id by (unfold is_u32; lia). rewrite IH by lia. f_equal. lia.
  - rewrite IH by lia. done.
Qed.

(** Among distinct identifiers, those of [l] found in [k] are as many as those of [k] exactly
    when [l] has all of [k]. *)
Lemma covered_count (l k : list Z) :
  NoDup l -> NoDup k ->
  length (filter (fun x => x ∈ k) l) = length k <-> k ⊆ l.
Proof.
  intros Hl Hk.
  assert (filter (fun x => x ∈ k) l ≡ₚ filter (fun x => x ∈ l) k) as HP.
  { apply NoDup_Permutation; [by apply NoDup_filter..|]. intros x. rewrite !list_elem_of_filter. tauto. }
  rewrite HP. split.
  - intros E x Hx. destruct (decide (x ∈ l)) as [|Hn]; [done|].
    pose proof (length_filter_lt (fun x => x ∈ l) k x Hx Hn). lia.
  - intros Hsub. rewrite filter_all; [done|]. intros a Ha. by apply Hsub.
Qed.

Section covered.
Context {S D : Type} `{EqDecision D} {CO : CpuFreqOps S D}.
Variables (s : S) (cores : D -> list VirtualCore).
Hypothesis domain_cores : forall d, d ∈ f_getDomains s -> d_getVirtualCores d s = Ret (cores d).

Lemma domain_contains d v : d ∈ f_getDomains s ->
  Domain_contains d v s = Ret (bool_decide (vc_virtualCoreId v ∈ vc_virtualCoreId <$> cores d)).
Proof.
  intros Hd. unfold Domain_contains. rewrite domain_cores by done. simpl. f_equal.
  generalize (cores d) as l. induction l as [|w l IH]; csimpl; [done|]. rewrite IH.
  destruct (Z.eqb_spec (vc_virtualCoreId w) (vc_virtualCoreId v)) as [E|E]; simpl.
  - rewrite bool_decide_eq_true_2; [done|]. rewrite E. left.
  - apply bool_decide_ext. rewrite elem_of_cons. naive_solver.
Qed.

Lemma filter_ids (P : Z -> Prop) `{!forall x, Decision (P x)} (vs : list VirtualCore) :
  length (List.filter (fun v => bool_decide (P (vc_virtualCoreId v))) vs) =
  length (filter P (vc_virtualCoreId <$> vs)).
Proof.
  induction vs as [|v vs IH]; csimpl; [done|]. rewrite filter_cons.
  destruct (decide (P (vc_virtualCoreId v))) as [Hp|Hp].
  - rewrite bool_decide_eq_true_2 by done. simpl. by rewrite IH.
  - by rewrite bool_decide_eq_false_2.
Qed.

Definition covers (vs : list VirtualCore) (d : D) : Prop :=
  (vc_virtualCoreId <$> cores d) ⊆ (vc_virtualCoreId <$> vs).
#[local] Instance covers_dec vs d : Decision (covers vs d).
Proof. unfold covers. apply (list_subseteq_dec (A := Z)). Defined.

Lemma getDomainsComplete_filter vs :
  Z.of_nat (length vs) < 2 ^ 32 -> NoDup (vc_virtualCoreId <$> vs) ->
  (forall d, d ∈ f_getDomains s -> NoDup (vc_virtualCoreId <$> cores d)) ->
  CpuFreq_getDomainsComplete vs s = Ret (filter (covers vs) (f_getDomains s)).
Proof.
  intros Hlen Hvs Hds. unfold CpuFreq_getDomainsComplete.
  assert (forall l r, l ⊆ f_getDomains s ->
    fold_out l r (fun r d =>
      contained ← fold_out vs 0 (fun n v => c ← Domain_contains d v s; Ret (if (c : bool) then u32 (n + 1) else n));
      vs ← d_getVirtualCores d s;
      Ret (if contained =? Z.of_nat (length vs) then r ++ [d] else r)) = Ret (r ++ filter (covers vs) l)) as H.
  2: { by apply (H _ []). }
  induction l as [|d l IH]; intros r Hl; cbn [fold_out]; [by rewrite app_nil_r|].
  assert (d ∈ f_getDomains s) as Hd by set_solver.
  assert (fold_out vs 0 (fun n v => c ← Domain_contains d v s; Ret (if (c : bool) then u32 (n + 1) else n))
          = Ret (Z.of_nat (length (filter (fun x => x ∈ vc_virtualCoreId <$> cores d) (vc_virtualCoreId <$> vs))))) as ->.
  { rewrite <- (filter_ids (fun x => x ∈ vc_virtualCoreId <$> cores d)).
    rewrite <- (Z.add_0_l (Z.of_nat _)), <- count_fold by lia.
    clear -Hd domain_cores. generalize 0 as n. induction vs as [|v l IH]; intros n; simpl; [done|].
    rewrite domain_contains by done. simpl. apply IH. }
  rewrite domain_cores by done. cbn [mbind outcome_bind].
  rewrite IH by set_solver. f_equal. rewrite filter_cons.
  pose proof (covered_count (vc_virtualCoreId <$> vs) (vc_virtualCoreId <$> cores d) Hvs (Hds d Hd)) as Hc.
  rewrite length_fmap in Hc.
  destruct (Z.eqb_spec (Z.of_nat (length (filter (fun x => x ∈ vc_virtualCoreId <$> cores d) (vc_virtualCoreId <$> vs))))
              (Z.of_nat (length (cores d)))) as [E|E].
  - destruct (decide (covers vs d)) as [Hv|Hv]; [by rewrite <- app_assoc|].
    destruct Hv. apply Hc. lia.
  - destruct (decide (covers vs d)) as [Hv|Hv]; [|done]. destruct E. apply Hc in Hv. lia.
Qed.
End covered.

(** ** Rolling back *)
Section rollback.
Context {S D : Type} `{EqDecision D} {CO : CpuFreqOps S D} {domains : list D} {FL : CpuFreqLaws S D domains}.
Variables (s0 : S).
Hypothesis ok0 : fl_ok s0.
Hypothesis distinct : NoDup domains.

Lemma freq_rollback_point_spec :
  CpuFreq_getRollbackPoint s0 =
    (Ret (mkCpuFreqRollbackPoint
            ((fun d => if fl_governor d s0 =? GOVERNOR_USERSPACE then fl_frequency d s0 else 0) <$> domains)
            ((fun d => fst (fl_bounds d s0)) <$> domains) ((fun d => snd (fl_bounds d s0)) <$> domains)
            ((fun d => fl_governor d s0) <$> domains)), s0).
Proof.
  unfold CpuFreq_getRollbackPoint, gets. cbn [bind]. unfold bind at 1. rewrite fl_domains by done.
  assert (forall l a b c e, l ⊆ domains ->
    for_fold l (mkCpuFreqRollbackPoint a b c e) (fun rp d =>
      let* g := d_getCurrentGovernor d in
      let* f := d_getCurrentFrequencyUserspace d in
      let* bounds := d_getCurrentGovernorBounds d in
      match bounds with
      | None => undef "lb and ub are uninitialised"
      | Some (lb, ub) =>
          ret (mkCpuFreqRollbackPoint (cr_frequencies rp ++ [f]) (cr_lowerBounds rp ++ [lb])
                 (cr_upperBounds rp ++ [ub]) (cr_governors rp ++ [g]))
      end) s0 =
    (Ret (mkCpuFreqRollbackPoint
            (a ++ ((fun d => if fl_governor d s0 =? GOVERNOR_USERSPACE then fl_frequency d s0 else 0) <$> l))
            (b ++ ((fun d => fst (fl_bounds d s0)) <$> l)) (c ++ ((fun d => snd (fl_bounds d s0)) <$> l))
            (e ++ ((fun d => fl_governor d s0) <$> l))), s0)) as H; [|by apply H].
  induction l as [|d l IH]; intros a b c e Hl; csimpl; [by rewrite !app_nil_r|].
  assert (d ∈ domains) as Hd by (apply Hl; left).
  rewrite bind_assoc, (bind_Ret _ _ _ _ _ (fl_getCurrentGovernor d s0 Hd ok0)).
  rewrite bind_assoc, (bind_Ret _ _ _ _ _ (fl_getCurrentFrequencyUserspace d s0 Hd ok0)).
  rewrite bind_assoc, (bind_Ret _ _ _ _ _ (fl_getCurrentGovernorBounds d s0 Hd ok0)).
  destruct (fl_bounds d s0) as [lb ub] eqn:Eb. rewrite ret_bind. simpl.
  rewrite IH by set_solver. rewrite <- !app_assoc. simpl. done.
Qed.

(** What the rollback needs of the point, on a domain: the frequency of the [userspace]
    governor, or the bounds, must be available, and the lower bound, which is written first, must
    not be above the upper bound in force. *)
Definition restorable (d : D) (s : S) : Prop :=
  if fl_governor d s0 =? GOVERNOR_USERSPACE then fl_frequency d s0 ∈ fl_frequencies d
  else fst (fl_bounds d s0) ∈ fl_frequencies d /\ snd (fl_bounds d s0) ∈ fl_frequencies d /\
       fst (fl_bounds d s0) <= snd (fl_bounds d s0) /\ fst (fl_bounds d s0) <= snd (fl_bounds d s).
Definition rolled_back (d : D) (s : S) : Prop :=
  fl_governor d s = fl_governor d s0 /\
  if fl_governor d s0 =? GOVERNOR_USERSPACE then fl_frequency d s = fl_frequency d s0
  else fl_bounds d s = fl_bounds d s0.
Definition same_domain (d : D) (s s' : S) : Prop :=
  fl_governor d s' = fl_governor d s /\ fl_frequency d s' = fl_frequency d s /\ fl_bounds d s' = fl_bounds d s.

Lemma rollback_domain_spec i d s rp :
  domains !! i = Some d -> fl_ok s -> restorable d s -> CpuFreq_getRollbackPoint s0 = (Ret rp, s0) ->
  exists s', rollback_domain rp i (fl_governor d s0) s = (Ret tt, s') /\ fl_ok s' /\ rolled_back d s' /\
    (forall d', d' ∈ domains -> d' <> d -> same_domain d' s s').
Proof.
  intros Hi Hok Hr Hrp. rewrite freq_rollback_point_spec in Hrp. injection Hrp as <-.
  assert (d ∈ domains) as Hd by by eapply list_elem_of_lookup_2.
  unfold rollback_domain. rewrite (bind_Ret (query _) _ _ d s) by
    (unfold query; rewrite fl_domains by done; unfold vec_at; by rewrite Hi).
  destruct (fl_setGovernor d (fl_governor d s0) s Hd Hok (fl_governor_available d s0 Hd ok0))
    as (s1 & E1 & Hok1 & G1 & B1 & O1).
  rewrite (bind_Ret _ _ _ _ _ E1). simpl negb. cbv iota. unfold restorable, rolled_back in *.
  destruct (Z.eqb_spec (fl_governor d s0) GOVERNOR_USERSPACE) as [Eu|Eu].
  - cbn [cr_frequencies]. unfold vec_index. rewrite list_lookup_fmap, Hi. simpl. rewrite Eu.
    change (lift (Ret ?x)) with (@ret S _ x). rewrite ret_bind. simpl.
    destruct (fl_setFrequencyUserspace d (fl_frequency d s0) s1 Hd Hok1) as (s2 & E2 & Hok2 & G2 & F2 & B2 & O2);
      [congruence|done|].
    rewrite (bind_Ret _ _ _ _ _ E2). exists s2. split; [done|]. split; [done|]. split; [by rewrite G2, F2|].
    intros d' Hd' Hne. destruct (O1 d' Hd' Hne) as (? & ? & ?), (O2 d' Hd' Hne) as (? & ? & ?).
    unfold same_domain. split; [congruence|split; congruence].
  - destruct Hr as (Hlb & Hub & Hle & Hcur). cbn [cr_lowerBounds cr_upperBounds].
    unfold vec_index. rewrite !list_lookup_fmap, Hi. simpl.
    change (lift (Ret ?x)) with (@ret S _ x). rewrite !ret_bind.
    destruct (fl_setGovernorBounds d (fst (fl_bounds d s0)) (snd (fl_bounds d s0)) s1 Hd Hok1 Hlb Hub Hle)
      as (s2 & E2 & Hok2 & G2 & B2 & O2); [by rewrite B1|].
    rewrite (bind_Ret _ _ _ _ _ E2). exists s2. split; [done|]. split; [done|]. split.
    + rewrite G2, G1, B2. split; [done|]. by destruct (fl_bounds d s0).
    + intros d' Hd' Hne. destruct (O1 d' Hd' Hne) as (? & ? & ?), (O2 d' Hd' Hne) as (? & ? & ?).
      unfold same_domain. split; [congruence|split; congruence].
Qed.

Lemma restorable_same d s s' : same_domain d s s' -> restorable d s -> restorable d s'.
Proof. unfold restorable, same_domain. intros (_ & _ & ->). done. Qed.
Lemma rolled_back_same d s s' : same_domain d s s' -> rolled_back d s -> rolled_back d s'.
Proof. unfold rolled_back, same_domain. by intros (-> & -> & ->). Qed.

Lemma rollback_all s rp :
  fl_ok s -> (forall d, d ∈ domains -> restorable d s) -> CpuFreq_getRollbackPoint s0 = (Ret rp, s0) ->
  exists s', CpuFreq_rollback rp s = (Ret tt, s') /\ fl_ok s' /\ forall d, d ∈ domains -> rolled_back d s'.
Proof.
  intros Hok Hr Hrp. unfold CpuFreq_rollback.
  assert (cr_governors rp = (fun d => fl_governor d s0) <$> domains) as Eg
    by (rewrite freq_rollback_point_spec in Hrp; by injection Hrp as <-).
  destruct (for_each_inv_pos (fun done_ s' => fl_ok s' /\
     forall i d, domains !! i = Some d ->
       if bool_decide (i < length done_)%nat then rolled_back d s' else restorable d s')
    (fun '(i, g) => rollback_domain rp i g) (enumerate (cr_governors rp)) s) as (s' & E & Hok' & Hall).
  - split; [done|]. intros i d Hi. simpl. apply Hr. by eapply list_elem_of_lookup_2.
  - intros d_ [i g] r s1 Hpos (Hok1 & H1). apply enumerate_pos in Hpos as [-> Hg].
    rewrite Eg, list_lookup_fmap in Hg. destruct (domains !! length d_) as [d|] eqn:Hi; [|done].
    simpl in Hg. injection Hg as <-.
    pose proof (H1 _ _ Hi) as Hres. rewrite bool_decide_eq_false_2 in Hres by lia.
    destruct (rollback_domain_spec (length d_) d s1 rp Hi Hok1 Hres Hrp) as (s2 & E2 & Hok2 & Hrb & Hoth).
    exists s2. split; [done|]. split; [done|]. intros j d' Hj. rewrite length_app. simpl.
    destruct (decide (j = length d_)) as [->|Hne].
    + rewrite bool_decide_eq_true_2 by lia. by simplify_eq.
    + assert (same_domain d' s1 s2) as Hsame.
      { apply Hoth; [by eapply list_elem_of_lookup_2|]. intros ->. apply Hne. by eapply NoDup_lookup. }
      specialize (H1 j d' Hj). destruct (decide (j < length d_)%nat).
      * rewrite bool_decide_eq_true_2 in H1 by done. rewrite bool_decide_eq_true_2 by lia.
        by eapply rolled_back_same.
      * rewrite bool_decide_eq_false_2 in H1 by done. rewrite bool_decide_eq_false_2 by lia.
        by eapply restorable_same.
  - exists s'. split; [done|]. split; [done|]. intros d [i Hi]%list_elem_of_lookup.
    specialize (Hall i d Hi). rewrite bool_decide_eq_true_2 in Hall; [done|].
    unfold enumerate. rewrite length_imap, Eg, length_fmap. by eapply lookup_lt_Some.
Qed.
End rollback.

(** ** Voltage tables *)
Section voltage.
Variable print_double : double -> string.

Definition entry_line (e : (Z * Z) * double) : string :=
  let '((n, f), v) := e in print_uint n +:+ ";" +:+ print_uint f +:+ ";" +:+ print_double v.
Definition header_lines : list string :=
  ["# This file contains the voltage table in the following format: ";
   "# NumVirtualCores;Frequency;Voltage"]%string.

(** The documented behaviour of streams on doubles: a printed value has no separator and reads
    back as itself. *)
Definition prints (v : double) : Prop :=
  stringToDouble (print_double v) = v /\ print_double v <> EmptyString /\
  str_in ";" (print_double v) = false /\ str_in newline (print_double v) = false.
Definition entry_ok (e : (Z * Z) * double) : Prop :=
  is_u32 (fst (fst e)) /\ is_u32 (snd (fst e)) /\ prints (snd e).

(** Lines, each ended by a newline. *)
Definition lines_text (l : list string) : string := fold_right (fun t r => t +:+ String newline r) EmptyString l.

Lemma split_lines_text l :
  Forall (fun t => str_in newline t = false) l -> split (lines_text l) newline = l.
Proof. induction 1 as [|t l Ht _ IH]; [done|]. simpl. by rewrite split_token, IH. Qed.

Lemma str_cons_app c s r : String c s +:+ r = String c (s +:+ r).
Proof. done. Qed.

Lemma fold_append_lines (t : VoltageTable) acc :
  fold_left (fun acc '((n, f), v) =>
      acc +:+ print_uint n +:+ ";" +:+ print_uint f +:+ ";" +:+ print_double v +:+ String newline EmptyString) t acc
  = acc +:+ lines_text (entry_line <$> t).
Proof.
  revert acc. induction t as [|[[n f] v] t IH]; intros acc.
  { by rewrite str_app_nil_r. }
  csimpl. rewrite IH. by repeat (rewrite ?str_app_assoc; simpl).
Qed.

Lemma dump_text_lines t : dump_text print_double t = lines_text (header_lines ++ (entry_line <$> t)).
Proof. unfold dump_text. rewrite fold_append_lines. by repeat (rewrite ?str_app_assoc; simpl). Qed.

Lemma str_in_append c a b : str_in c (a +:+ b) = str_in c a || str_in c b.
Proof. induction a as [|x a IH]; simpl; [done|]. by rewrite IH, orb_assoc. Qed.

Lemma print_uint_free c n : 0 <= n -> isdigit c = false -> str_in c (print_uint n) = false.
Proof. intros Hn Hc. unfold print_uint, print_nat. by rewrite str_in_dec_digits. Qed.

Lemma u32_stringToInt_print_uint n : is_u32 n -> u32 (stringToInt (print_uint n)) = n.
Proof.
  intros Hn. unfold print_uint, stringToInt, atoi. rewrite u32_i32.
  rewrite <- (str_app_nil_r (print_nat n)), strtol_print_nat; [by apply u32_id| |done].
  unfold is_u32 in Hn. lia.
Qed.

Lemma entry_line_free e : entry_ok e -> str_in newline (entry_line e) = false.
Proof.
  destruct e as [[n f] v]. intros ((Hn & _) & (Hf & _) & _ & _ & _ & Hv). simpl in *.
  rewrite !str_in_append. simpl. rewrite !str_in_append. simpl.
  rewrite !print_uint_free by done. by rewrite Hv.
Qed.

Lemma load_line_entry t e : entry_ok e -> load_line t (entry_line e) = Ret (table_insert (fst e) (snd e) t).
Proof.
  destruct e as [[n f] v]. intros (Hn & Hf & Hv & Hne & Hs & _). cbn [fst snd] in *.
  assert (0 <= n) as Hn0 by (unfold is_u32 in Hn; lia).
  assert (0 <= f) as Hf0 by (unfold is_u32 in Hf; lia).
  unfold load_line.
  assert (split (entry_line (n, f, v)) ";" = [print_uint n; print_uint f; print_double v]) as ->.
  { unfold entry_line. simpl. by rewrite !split_token, split_last by (done || by apply print_uint_free). }
  change (entry_line (n, f, v)) with (print_nat n +:+ (";" +:+ print_uint f +:+ ";" +:+ print_double v)).
  destruct (print_nat_head n (";" +:+ print_uint f +:+ ";" +:+ print_double v) Hn0) as (c & s' & E & Hc).
  rewrite E. simpl. rewrite bool_decide_false by by intros ->.
  simpl. by rewrite !u32_stringToInt_print_uint, Hv.
Qed.

(** The order of a [std::map]: keys strictly increase. *)
Definition key_lt (a b : (Z * Z) * double) : Prop := key_ltb (fst a) (fst b) = true.

Lemma key_ltb_asym a b : key_ltb a b = true -> key_ltb b a = false.
Proof. unfold key_ltb. lia. Qed.

Lemma table_insert_last k v t :
  Forall (fun e => key_ltb (fst e) k = true) t -> table_insert k v t = t ++ [(k, v)].
Proof.
  induction 1 as [|[k' v'] t Hk _ IH]; simpl; [done|]. simpl in Hk.
  by rewrite (key_ltb_asym _ _ Hk), Hk, IH.
Qed.

Lemma load_entries t acc :
  Forall entry_ok t -> StronglySorted key_lt (acc ++ t) ->
  fold_out (entry_line <$> t) acc load_line = Ret (acc ++ t).
Proof.
  intros Ht. revert acc. induction Ht as [|e t He Ht IH]; intros acc Hs; csimpl; [by rewrite app_nil_r|].
  rewrite load_line_entry by done. simpl. rewrite table_insert_last.
  - destruct e as [k v]. simpl. rewrite IH; by rewrite <- app_assoc.
  - apply Forall_forall. intros e' He'. clear -Hs He'.
    induction acc as [|a acc IHa]; [by apply not_elem_of_nil in He'|]. simpl in Hs. inversion Hs as [|? ? Hs' Ha]; subst.
    apply elem_of_cons in He' as [->|He']; [|by apply IHa].
    rewrite Forall_app in Ha. destruct Ha as [_ Ha]. by inversion Ha.
Qed.

Lemma load_header t r : fold_out (header_lines ++ r) t load_line = fold_out r t load_line.
Proof. done. Qed.

Lemma loadVoltageTable_dump_text w fileName n t :
  w_fs w !! fileName = Some n -> file_content n = dump_text print_double t ->
  Forall entry_ok t -> StronglySorted key_lt t -> loadVoltageTable w fileName = Ret t.
Proof.
  intros En Ec Hok Hs. unfold loadVoltageTable. rewrite En, Ec, dump_text_lines, split_lines_text.
  - rewrite load_header. by apply load_entries.
  - apply Forall_app. split.
    + repeat constructor.
    + apply Forall_fmap. eapply Forall_impl; [exact Hok|]. apply entry_line_free.
Qed.
End voltage.

(** A voltage table dumped to a plain file is the table that loading the file gives, entry
    by entry and in the same order, whatever the file held before; for the voltages that a stream
    with the default precision prints without loss ([prints]). *)
Theorem dumpVoltageTable_loadVoltageTable (print_double : double -> string) (t : VoltageTable)
    (fileName : string) (w : World) :
  can_write w fileName = true ->
  (forall n, w_fs w !! fileName = Some n ->
     exists old, n = RegFile old /\ forall new, w_store w (w_fs w) fileName old new = new) ->
  Forall (entry_ok print_double) t -> StronglySorted key_lt t ->
  exists w', dumpVoltageTable print_double t fileName w = (Ret tt, w') /\
    loadVoltageTable w' fileName = Ret t.
Proof.
  intros Hcan Hplain Hok Hs. exists (put_file fileName (dump_text print_double t) w). split.
  { unfold dumpVoltageTable. mrun. by rewrite Hcan. }
  apply (loadVoltageTable_dump_text print_double _ _ (RegFile (dump_text print_double t))); [|done..].
  unfold put_file. destruct (w_fs w !! fileName) as [n|] eqn:En.
  - destruct (Hplain n eq_refl) as (old & -> & Hst). simpl. by rewrite lookup_insert_eq, Hst.
  - simpl. by rewrite lookup_insert_eq.
Qed.

(** The domain found for a virtual core is the first domain that has a virtual core of that
    identifier, and the exception is thrown exactly when there is none. *)
Theorem CpuFreq_getDomain_spec {S D : Type} `{EqDecision D} `{!CpuFreqOps S D} (s : S)
    (cores : D -> list VirtualCore) (v : VirtualCore) :
  (forall d, d ∈ f_getDomains s -> d_getVirtualCores d s = Ret (cores d)) ->
  (forall d, CpuFreq_getDomain v s = Ret d <->
     exists l r, f_getDomains s = l ++ d :: r /\ vc_virtualCoreId v ∈ vc_virtualCoreId <$> cores d /\
       forall d', d' ∈ l -> vc_virtualCoreId v ∉ vc_virtualCoreId <$> cores d') /\
  ((exists what, CpuFreq_getDomain v s = Throw (runtime_error what)) <->
     forall d, d ∈ f_getDomains s -> vc_virtualCoreId v ∉ vc_virtualCoreId <$> cores d).
Proof.
  intros Hc. unfold CpuFreq_getDomain.
  assert (forall l, l ⊆ f_getDomains s ->
    match find_domain l v s with
    | Ret d => exists a r, l = a ++ d :: r /\ vc_virtualCoreId v ∈ vc_virtualCoreId <$> cores d /\
                 forall d', d' ∈ a -> vc_virtualCoreId v ∉ vc_virtualCoreId <$> cores d'
    | Throw e => (exists what, e = runtime_error what) /\
                 forall d, d ∈ l -> vc_virtualCoreId v ∉ vc_virtualCoreId <$> cores d
    | Undef _ => False
    end) as Hfind.
  { induction l as [|d l IH]; intros Hl; simpl; [split; [by eexists|by intros d Hd%not_elem_of_nil]|].
    rewrite (domain_contains s cores Hc) by set_solver. simpl. case_bool_decide as Hv.
    - exists [], l. split; [done|]. split; [done|]. by intros d' Hd'%not_elem_of_nil.
    - specialize (IH ltac:(set_solver)). destruct (find_domain l v s) as [d'|e|]; [|set_solver|done].
      destruct IH as (a & r & -> & Hv' & Ha). exists (d :: a), r. split; [done|]. split; [done|].
      intros d'' [->|Hd'']%elem_of_cons; auto. }
  specialize (Hfind (f_getDomains s) ltac:(done)).
  destruct (find_domain (f_getDomains s) v s) as [d0|e|]; [| |done].
  - destruct Hfind as (a & r & E & Hv & Ha). split.
    + intros d. split.
      * intros [= <-]. by exists a, r.
      * intros (l & r' & E' & Hv' & Hl). f_equal. rewrite E in E'.
        assert (a = l) as ->; [|apply app_inv_head in E'; by injection E'].
        clear -E' Hv Ha Hv' Hl. revert l E' Hl. induction a as [|x a IH]; intros [|y l] E' Hl; simplify_eq/=.
        -- done.
        -- destruct (Hl y); [left|done].
        -- destruct (Ha d); [left|done].
        -- f_equal. apply IH; [set_solver|done|set_solver].
    + split; [by intros [? ?]|]. intros Hn. destruct (Hn d0); [|done]. rewrite E. set_solver.
  - destruct Hfind as ((what & ->) & Hn). split.
    + intros d. split; [done|]. intros (l & r & E & Hv & _). destruct (Hn d); [|done]. rewrite E. set_solver.
    + split; [done|]. intros _. by exists what.
Qed.

(** [getDomainsComplete] returns, in their order, exactly the domains all of whose virtual
    cores are among the given ones. *)
Theorem CpuFreq_getDomainsComplete_spec {S D : Type} `{EqDecision D} `{!CpuFreqOps S D} (s : S)
    (cores : D -> list VirtualCore) (vs : list VirtualCore) :
  (forall d, d ∈ f_getDomains s -> d_getVirtualCores d s = Ret (cores d)) ->
  Z.of_nat (length vs) < 2 ^ 32 -> NoDup (vc_virtualCoreId <$> vs) ->
  (forall d, d ∈ f_getDomains s -> NoDup (vc_virtualCoreId <$> cores d)) ->
  exists l, CpuFreq_getDomainsComplete vs s = Ret l /\ l `sublist_of` f_getDomains s /\
    forall d, d ∈ l <-> d ∈ f_getDomains s /\
      forall v, v ∈ cores d -> vc_virtualCoreId v ∈ vc_virtualCoreId <$> vs.
Proof.
  intros Hc Hl Hvs Hds. eexists. split; [by apply (getDomainsComplete_filter s cores)|].
  split; [apply sublist_filter|]. intros d. rewrite list_elem_of_filter. unfold covers. split.
  - intros [Hcov Hd]. split; [done|]. intros v Hv. apply Hcov. by apply list_elem_of_fmap_2.
  - intros [Hd Hall]. split; [|done]. intros i Hi. apply list_elem_of_fmap in Hi as (v & -> & Hv). by apply Hall.
Qed.

(** C31: rolling back to a point restores, on every domain, the governor and what the governor
    uses: the frequency for [userspace], the bounds for any other governor; whatever governor,
    frequency and bounds were set since. Each domain must be one that can take them back: the list
    of its available frequencies is still the one it had at the point and has the frequency to
    restore or, for another governor, both bounds, which are not crossed, and the lower of which is
    not above the upper bound in force. Without these the rollback need not restore: it throws
    when the turbo frequencies have been removed since and a bound is one of them
    (CpuFreqLinux.rollback_after_turbo_removed). *)
Theorem CpuFreq_rollback_restores {S D : Type} `{EqDecision D} {CO : CpuFreqOps S D} (domains : list D)
    {FL : CpuFreqLaws S D domains} (s0 s : S) (rp : CpuFreqRollbackPoint) :
  NoDup domains -> fl_ok s0 -> fl_ok s -> CpuFreq_getRollbackPoint s0 = (Ret rp, s0) ->
  (forall d, d ∈ domains -> restorable s0 d s) ->
  exists s', CpuFreq_rollback rp s = (Ret tt, s') /\ fl_ok s' /\
    forall d, d ∈ domains ->
      d_getCurrentGovernor d s' = (Ret (fl_governor d s0), s') /\
      if fl_governor d s0 =? GOVERNOR_USERSPACE
      then d_getCurrentFrequencyUserspace d s' = (Ret (fl_frequency d s0), s')
      else d_getCurrentGovernorBounds d s' = (Ret (Some (fl_bounds d s0)), s').
Proof.
  intros Hnd H0 Hs Hrp Hres. destruct (rollback_all s0 H0 Hnd s rp Hs Hres Hrp) as (s' & E & Hok & Hall).
  exists s'. split; [done|]. split; [done|]. intros d Hd. destruct (Hall d Hd) as [Hg Hr].
  rewrite fl_getCurrentGovernor, Hg by done. split; [done|].
  destruct (Z.eqb_spec (fl_governor d s0) GOVERNOR_USERSPACE) as [Eu|Eu].
  - rewrite fl_getCurrentFrequencyUserspace by done. by rewrite Hg, Eu, Hr.
  - rewrite fl_getCurrentGovernorBounds by done. by rewrite Hr.
Qed.

(** The name of a governor reads back as the governor, and a word that is none of the six
    names is read as the value of an uninitialised variable, not as [GOVERNOR_NUM]. *)
Theorem governor_names_roundtrip :
  (forall g, 0 <= g < GOVERNOR_NUM ->
     exists name, CpuFreq_getGovernorNameFromGovernor g = Ret name /\
       CpuFreq_getGovernorFromGovernorName name = Ret g) /\
  (forall name, str_all (fun c => negb (isspace c)) name = true -> name ∉ governor_names ->
     CpuFreq_getGovernorFromGovernorName name = Undef "the governor is uninitialised").
Proof.
  split.
  - intros g Hg. assert (g = 0 \/ g = 1 \/ g = 2 \/ g = 3 \/ g = 4 \/ g = 5) as Hc by (unfold GOVERNOR_NUM in Hg; lia).
    destruct Hc as [-> | [-> | [-> | [-> | [-> | ->]]]]]; eexists; split; reflexivity.
  - intros name Hw Hn. unfold CpuFreq_getGovernorFromGovernorName, stringToEnum, enum_extract.
    apply find_index_None in Hn. destruct (decide (name = EmptyString)) as [->|Hne]; [done|].
    rewrite read_word_nospace by done. by rewrite Hn.
Qed.
