(* ===== verification/CpuFreqLinux.v ===== *)
(** * Frequency scaling on Linux (src/cpufreq/cpufreq-linux.cpp)

    A domain keeps what its constructor read; its other operations go to the attributes of its
    virtual cores in sysfs, or to the P-state registers on EPYC machines.  [LinuxCpuFreq] makes
    the class an instance of [CpuFreqOps] on a state [FreqMachine]: a domain pointer is the
    position in [_domains]. *)
From stdpp Require Import sorting.
From S2P Require Import Prelude UtilsText UtilsVector Double UtilsSys Topology TopologyLinux CpuFreq.

(** ** Formatted input *)

(** [operator>>] into a [uint32_t]: [None] is failure, also when the value does not fit. *)
Definition extract_uint (s : string) : option (Z * string) :=
  let '(neg, r) := parse_sign (skip_spaces s) in
  match r with
  | String c _ =>
      if isdigit c then
        let '(n, r') := parse_digits r 0 in
        if n <? 2 ^ 32 then Some (u32 (if neg : bool then - n else n), r') else None
      else None
  | EmptyString => None
  end.
(** [while(stream >> x)]; each extraction takes at least one character, which the fuel counts. *)
Fixpoint extract_loop {A} (extract : string -> option (A * string)) (fuel : nat) (s : string) : list A :=
  match fuel with
  | O => []
  | S f => match extract s with Some (a, r) => a :: extract_loop extract f r | None => [] end
  end.
Definition extract_all {A} (extract : string -> option (A * string)) (s : string) : list A :=
  extract_loop extract (String.length s) s.

(** ** Domains *)

(** [DomainLinux], include/mammut/cpufreq/cpufreq-linux.hpp:12-40. *)
Record DomainLinux := mkDomainLinux {
  dl_domainIdentifier : Z; dl_virtualCores : list VirtualCore;
  dl_availableGovernors : list Governor; dl_availableFrequencies : list Z; dl_paths : list string;
  dl_msr : Msr; dl_turboFrequencies : list Z; dl_epyc : bool
}.
Definition with_frequencies (available turbo : list Z) (d : DomainLinux) : DomainLinux :=
  mkDomainLinux (dl_domainIdentifier d) (dl_virtualCores d) (dl_availableGovernors d) available (dl_paths d)
    (dl_msr d) turbo (dl_epyc d).

Definition MSR_EPYC_PSTATE_CONTROL : Z := 3221291106.   (* 0xC0010062 *)
Definition MSR_EPYC_PSTATE_0 : Z := 3221291108.         (* 0xC0010064 *)
(** [MSR_PERF_STATUS], include/mammut/utils.hpp:68-68. *)
Definition MSR_PERF_STATUS : Z := 408.

(** [DomainLinux::DomainLinux], src/cpufreq/cpufreq-linux.cpp:27-30: the test for EPYC. *)
Definition is_epyc (w : World) (instance : Topology) : outcome bool :=
  _ ← vec_index (tp_cpus instance) 0;
  family ← CpuLinux_getFamily w;
  if bool_decide (family = "23"%string) then
    vendor ← CpuLinux_getVendorId w;
    Ret (bool_decide (str_take 12 vendor = "AuthenticAMD"%string))
  else Ret false.

(** [DomainLinux::DomainLinux], src/cpufreq/cpufreq-linux.cpp:32-42: the frequency of a P-state,
    when its register is readable and defines one. The quotient is an integer one. *)
Definition epyc_frequency (w : World) (msr : Msr) (i : Z) : outcome (option Z) :=
  '(fIdr, fId) ← Msr_readBits w msr (MSR_EPYC_PSTATE_0 + i) 7 0;
  '(dfsIdr, dfsId) ← Msr_readBits w msr (MSR_EPYC_PSTATE_0 + i) 13 8;
  if negb fIdr || negb dfsIdr || (fId =? 0) || (dfsId =? 0) then Ret None
  else Ret (Some (u32 (fId / dfsId * 200 * 1000))).

(** [DomainLinux::DomainLinux], src/cpufreq/cpufreq-linux.cpp:54-74. *)
Definition read_frequencies (w : World) (path : string) : outcome (list Z) :=
  l ← (if existsFile w (path +:+ "scaling_available_frequencies") then
         match w_fs w !! (path +:+ "scaling_available_frequencies")%string with
         | Some n => Ret (extract_all extract_uint (file_content n))
         | None => Throw (runtime_error "Impossible to open scaling_available_frequencies file.")
         end
       else if existsFile w (path +:+ "stats/time_in_state") then
         out ← readFile w (path +:+ "stats/time_in_state");
         map_out out (fun line => f ← vec_index (split line " ") 0; Ret (stringToUint f))
       else Ret []);
  Ret (merge_sort Z.le l).

(** [DomainLinux::DomainLinux], src/cpufreq/cpufreq-linux.cpp:77-90. *)
Definition read_governors (w : World) (path : string) : outcome (list Governor) :=
  match w_fs w !! (path +:+ "scaling_available_governors")%string with
  | None => Throw (runtime_error "Impossible to open scaling_available_governors file.")
  | Some n =>
      fold_out (extract_all read_word (file_content n)) [] (fun governors governorName =>
        governor ← CpuFreq_getGovernorFromGovernorName governorName;
        Ret (if governor =? GOVERNOR_NUM then governors else governors ++ [governor]))
  end.

Definition domain_path (prefix : string) (v : VirtualCore) : string :=
  prefix +:+ "/sys/devices/system/cpu/cpu" +:+ intToString (vc_virtualCoreId v) +:+ "/cpufreq/".

(** [DomainLinux::DomainLinux], src/cpufreq/cpufreq-linux.cpp:23-92. [instance] is what
    [Topology::getInstance] returns. *)
Definition DomainLinux_new (w : World) (instance : Topology) (domainIdentifier : Z)
    (virtualCores : list VirtualCore) : outcome DomainLinux :=
  first ← vec_at virtualCores 0;
  let msr := Msr_new w (vc_virtualCoreId first) true in
  epyc ← is_epyc w instance;
  if (epyc : bool) then
    fs ← map_out [8; 7; 6; 5; 4; 3; 2; 1; 0] (epyc_frequency w msr);
    Ret (mkDomainLinux domainIdentifier virtualCores [GOVERNOR_USERSPACE] (omap id fs) [] msr [] true)
  else
    let paths := domain_path (w_prefix w) <$> virtualCores in
    path ← vec_at paths 0;
    frequencies ← read_frequencies w path;
    governors ← read_governors w path;
    Ret (mkDomainLinux domainIdentifier virtualCores governors frequencies paths msr [] false).

(** [DomainLinux::writeToDomainFiles], src/cpufreq/cpufreq-linux.cpp:94-108. The text leaves the
    buffer of the stream when the file is closed, after the test for failure: a refused write
    goes unnoticed. *)
Definition DomainLinux_writeToDomainFiles (d : DomainLinux) (what where_ : string) : M World unit :=
  for_each (dl_paths d) (fun path =>
    let* ok := gets (fun w => can_write w (path +:+ where_)) in
    if (ok : bool) then modify (put_file (path +:+ where_) what)
    else throw (runtime_error "Write to frequency domain files failed.")).

(** [DomainLinux::removeTurboFrequencies], src/cpufreq/cpufreq-linux.cpp:113-120: the loop. The
    frequencies before the iterator are [kept]; an exception leaves what was done. *)
Fixpoint remove_turbo (kept rest turbo : list Z) : outcome unit * (list Z * list Z) :=
  match rest with
  | [] => (Ret tt, (kept, turbo))
  | f :: rest' =>
      match str_at (intToString f) 3 with
      | Ret c => if bool_decide (c = "1"%char) then remove_turbo kept rest' (turbo ++ [f])
                 else remove_turbo (kept ++ [f]) rest' turbo
      | Throw e => (Throw e, (kept ++ rest, turbo))
      | Undef u => (Undef u, (kept ++ rest, turbo))
      end
  end.

(** [DomainLinux::removeTurboFrequencies], src/cpufreq/cpufreq-linux.cpp:110-123. *)
Definition DomainLinux_removeTurboFrequencies : M DomainLinux unit := fun d =>
  match dl_turboFrequencies d with
  | [] => let '(r, (available, turbo)) := remove_turbo [] (dl_availableFrequencies d) [] in
          (r, with_frequencies available turbo d)
  | _ => (Ret tt, d)
  end.

(** [DomainLinux::reinsertTurboFrequencies], src/cpufreq/cpufreq-linux.cpp:125-130. *)
Definition DomainLinux_reinsertTurboFrequencies : M DomainLinux unit :=
  modify (fun d => with_frequencies (dl_availableFrequencies d ++ dl_turboFrequencies d) [] d).

(** [DomainLinux::getAvailableFrequencies], src/cpufreq/cpufreq-linux.cpp:132-134. *)
Definition DomainLinux_getAvailableFrequencies (d : DomainLinux) : list Z := dl_availableFrequencies d.

(** [DomainLinux::getAvailableGovernors], src/cpufreq/cpufreq-linux.cpp:136-138. *)
Definition DomainLinux_getAvailableGovernors (d : DomainLinux) : list Governor := dl_availableGovernors d.

(** The first line of an attribute of the first core, as a number. *)
Definition read_attribute (w : World) (d : DomainLinux) (name : string) : outcome Z :=
  path ← vec_at (dl_paths d) 0;
  line ← readFirstLineFromFile w (path +:+ name);
  Ret (stringToInt line).

(** [DomainLinux::getCurrentFrequency], src/cpufreq/cpufreq-linux.cpp:140-147. *)
Definition DomainLinux_getCurrentFrequency (w : World) (d : DomainLinux) : outcome Z :=
  if dl_epyc d then Ret 0 else f ← read_attribute w d "scaling_cur_freq"; Ret (u32 f).

(** [getCurrentEpycPstate], src/cpufreq/cpufreq-linux.cpp:149-153. *)
Definition getCurrentEpycPstate (w : World) (msr : Msr) : outcome Z :=
  '(r, pState) ← Msr_readBits w msr MSR_EPYC_PSTATE_CONTROL 2 0;
  if (r : bool) then Ret pState else Undef "pState is uninitialised".

(** [DomainLinux::getCurrentGovernor], src/cpufreq/cpufreq-linux.cpp:171-178. *)
Definition DomainLinux_getCurrentGovernor (w : World) (d : DomainLinux) : outcome Governor :=
  if dl_epyc d then Ret GOVERNOR_USERSPACE
  else
    path ← vec_at (dl_paths d) 0;
    line ← readFirstLineFromFile w (path +:+ "scaling_governor");
    CpuFreq_getGovernorFromGovernorName line.

(** [DomainLinux::getCurrentFrequencyUserspace], src/cpufreq/cpufreq-linux.cpp:155-169. The
    index is a [size_t]: below zero it is past the end. *)
Definition DomainLinux_getCurrentFrequencyUserspace (w : World) (d : DomainLinux) : outcome Z :=
  if dl_epyc d then
    pState ← getCurrentEpycPstate w (dl_msr d);
    let index := Z.of_nat (length (dl_availableFrequencies d)) - 1 - pState in
    if index <? 0 then Undef "vector index past the end"
    else vec_index (dl_availableFrequencies d) (Z.to_nat index)
  else
    g ← DomainLinux_getCurrentGovernor w d;
    if g =? GOVERNOR_USERSPACE then f ← read_attribute w d "scaling_setspeed"; Ret (u32 f)
    else Ret 0.

(** The position of the first occurrence. *)
Fixpoint position (f : Z) (l : list Z) : option nat :=
  match l with
  | [] => None
  | a :: l' => if f =? a then Some 0%nat else S <$> position f l'
  end.

(** [DomainLinux::setFrequencyUserspace], src/cpufreq/cpufreq-linux.cpp:180-210. *)
Definition DomainLinux_setFrequencyUserspace (d : DomainLinux) (frequency : Z) : M World bool :=
  if dl_epyc d then
    match position frequency (dl_availableFrequencies d) with
    | Some i =>
        Msr_writeBits (dl_msr d) MSR_EPYC_PSTATE_CONTROL 2 0
          (Z.of_nat (length (dl_availableFrequencies d)) - 1 - Z.of_nat i)
    | None => ret false
    end
  else
    let* g := query (fun w => DomainLinux_getCurrentGovernor w d) in
    if g =? GOVERNOR_USERSPACE then
      if negb (contains (dl_availableFrequencies d) frequency) then ret false
      else do* DomainLinux_writeToDomainFiles d (intToString frequency) "scaling_setspeed" in ret true
    else ret false.

(** [DomainLinux::getHardwareFrequencyBounds], src/cpufreq/cpufreq-linux.cpp:212-220. *)
Definition DomainLinux_getHardwareFrequencyBounds (w : World) (d : DomainLinux) : outcome (Z * Z) :=
  if dl_epyc d then Ret (0, 0)
  else
    lb ← read_attribute w d "cpuinfo_min_freq";
    ub ← read_attribute w d "cpuinfo_max_freq";
    Ret (u32 lb, u32 ub).

(** [DomainLinux::getCurrentGovernorBounds], src/cpufreq/cpufreq-linux.cpp:222-230. *)
Definition DomainLinux_getCurrentGovernorBounds (w : World) (d : DomainLinux) : outcome (option (Z * Z)) :=
  if dl_epyc d then Ret None
  else
    lb ← read_attribute w d "scaling_min_freq";
    ub ← read_attribute w d "scaling_max_freq";
    Ret (Some (u32 lb, u32 ub)).

(** [DomainLinux::setGovernorBounds], src/cpufreq/cpufreq-linux.cpp:232-246. *)
Definition DomainLinux_setGovernorBounds (d : DomainLinux) (lowerBound upperBound : Z) : M World bool :=
  if dl_epyc d then ret false
  else if negb (contains (DomainLinux_getAvailableFrequencies d) lowerBound) ||
          negb (contains (DomainLinux_getAvailableFrequencies d) upperBound) ||
          (upperBound <? lowerBound) then ret false
  else
    do* DomainLinux_writeToDomainFiles d (intToString lowerBound) "scaling_min_freq" in
    do* DomainLinux_writeToDomainFiles d (intToString upperBound) "scaling_max_freq" in
    ret true.

(** [DomainLinux::setGovernor], src/cpufreq/cpufreq-linux.cpp:248-263. *)
Definition DomainLinux_setGovernor (d : DomainLinux) (governor : Governor) : M World bool :=
  if dl_epyc d then ret (governor =? GOVERNOR_USERSPACE)
  else if negb (contains (dl_availableGovernors d) governor) then ret false
  else
    let* name := lift (CpuFreq_getGovernorNameFromGovernor governor) in
    do* DomainLinux_writeToDomainFiles d name "scaling_governor" in ret true.

(** [DomainLinux::getTransitionLatency], src/cpufreq/cpufreq-linux.cpp:265-271. *)
Definition DomainLinux_getTransitionLatency (w : World) (d : DomainLinux) : outcome Z :=
  match dl_paths d with
  | path :: _ => if existsFile w (path +:+ "cpuinfo_transition_latency")
                 then read_attribute w d "cpuinfo_transition_latency" else Ret (-1)
  | [] => Ret (-1)
  end.

(** [DomainLinux::getCurrentVoltage], src/cpufreq/cpufreq-linux.cpp:273-297. *)
Definition DomainLinux_getCurrentVoltage (w : World) (d : DomainLinux) : outcome double :=
  if dl_epyc d then
    pState ← getCurrentEpycPstate w (dl_msr d);
    '(r, vid) ← Msr_readBits w (dl_msr d) (MSR_EPYC_PSTATE_0 + pState) 21 14;
    Ret (if (r : bool) then dsub (d_of_ratio 1550 1000) (dmul (d_of_ratio 625 100000) (d_of_Z vid)) else d_zero)
  else
    '(ok, r) ← (if Msr_available (dl_msr d) then Msr_readBits w (dl_msr d) MSR_PERF_STATUS 47 32 else Ret (false, 0));
    if (ok : bool) && negb (r =? 0) then Ret (ddiv (d_of_Z r) (d_of_Z (Z.shiftl 1 13)))
    else
      let voltage := mkAmesterSensor "VOLT250USP0V0" in
      if AmesterSensor_exists w voltage then v ← AmesterSensor_readSum w voltage; Ret (ar_value v)
      else Ret d_zero.

(** ** Voltage tables *)
Section voltage.
Context {VO : VirtualCoreOps Machine}.
(** What the machine does while the program sleeps for the given seconds. *)
Variable elapse : Z -> Machine -> Machine.
Variable d : DomainLinux.

(** [DomainLinux::getVoltageTable], src/cpufreq/cpufreq-linux.cpp:355-364: the samples of one
    frequency. *)
Definition sample_voltage (numSamples sleepInterval : Z) : M Machine double :=
  for_fold (seqZ 0 numSamples) d_zero (fun voltageSum _ =>
    do* modify (elapse sleepInterval) in
    let* v := query (fun m => DomainLinux_getCurrentVoltage (m_world m) d) in
    ret (dadd voltageSum v)).

(** [DomainLinux::getVoltageTable], src/cpufreq/cpufreq-linux.cpp:346-348 and the cores of
    339-344. *)
Definition voltage_cores (numVirtualCores : Z) (onlyPhysicalCores : bool) : list VirtualCore * Z :=
  let vcToMax := if onlyPhysicalCores then getOneVirtualPerPhysical (dl_virtualCores d)
                 else dl_virtualCores d in
  (vcToMax, if Z.of_nat (length vcToMax) <? numVirtualCores then Z.of_nat (length vcToMax) else numVirtualCores).

(** [DomainLinux::getVoltageTable], src/cpufreq/cpufreq-linux.cpp:316-379. The bounds read
    before are absent only on EPYC, where they are not used. *)
Definition DomainLinux_getVoltageTableOf (numVirtualCores : Z) (onlyPhysicalCores : bool) : M Machine VoltageTable :=
  let numSamples := if dl_epyc d then 1 else 5 in
  let sleepInterval := if dl_epyc d then 0 else 3 in
  let* oldGovernor := query (fun m => DomainLinux_getCurrentGovernor (m_world m) d) in
  let* oldFrequency := query (fun m => DomainLinux_getCurrentFrequencyUserspace (m_world m) d) in
  let* oldBounds := (if dl_epyc d then ret None
                     else query (fun m => DomainLinux_getCurrentGovernorBounds (m_world m) d)) in
  let* ok := on_world (DomainLinux_setGovernor d GOVERNOR_USERSPACE) in
  if negb ok then ret []
  else
    let '(vcToMax, numVirtualCores) := voltage_cores numVirtualCores onlyPhysicalCores in
    do* for_each (take (Z.to_nat numVirtualCores) vcToMax) v_maximizeUtilization in
    let* r := for_fold (dl_availableFrequencies d) [] (fun r frequency =>
      do* on_world (DomainLinux_setFrequencyUserspace d frequency) in
      let* voltageSum := sample_voltage numSamples sleepInterval in
      ret (table_insert (numVirtualCores, frequency) (ddiv voltageSum (d_of_Z numSamples)) r)) in
    do* for_each (take (Z.to_nat numVirtualCores) vcToMax) v_resetUtilization in
    do* on_world (DomainLinux_setGovernor d oldGovernor) in
    do* (if oldGovernor =? GOVERNOR_USERSPACE then
           do* on_world (DomainLinux_setFrequencyUserspace d oldFrequency) in ret tt
         else match oldBounds with
              | Some (lb, ub) => do* on_world (DomainLinux_setGovernorBounds d lb ub) in ret tt
              | None => ret tt
              end) in
    ret r.

(** [DomainLinux::getVoltageTable], src/cpufreq/cpufreq-linux.cpp:299-314. *)
Definition DomainLinux_getVoltageTable (onlyPhysicalCores : bool) : M Machine VoltageTable :=
  let numCores := if onlyPhysicalCores then getNumPhysicalCores (dl_virtualCores d)
                  else length (dl_virtualCores d) in
  for_fold (seqZ 0 (Z.of_nat numCores + 1)) [] (fun r i =>
    let* tmp := DomainLinux_getVoltageTableOf (u32 i) onlyPhysicalCores in
    ret (fold_left (fun r '(k, v) => table_insert k v r) tmp r)).
End voltage.

(** ** The module *)

(** [CpuFreqLinux], include/mammut/cpufreq/cpufreq-linux.hpp:42-55. [_topology] is not
    initialised when there is no cpufreq directory. *)
Record CpuFreqLinux := mkCpuFreqLinux {
  cfl_domains : list DomainLinux; cfl_boostingFile : string; cfl_topology : option Topology
}.

(** [CpuFreqLinux::CpuFreqLinux], src/cpufreq/cpufreq-linux.cpp:389-400. *)
Definition domains_command (w : World) : string :=
  let domainsFiles := (if existsFile w (w_prefix w +:+ "/sys/devices/system/cpu/cpu0/cpufreq/freqdomain_cpus")
                       then "freqdomain_cpus" else "related_cpus")%string in
  "cat " +:+ w_prefix w +:+ "/sys/devices/system/cpu/cpu*/cpufreq/" +:+ domainsFiles +:+ " | sort | uniq".

Section module.
Context {SH : Shell} {VO : VirtualCoreOps Machine}.
(** What [Topology::getInstance] returns. *)
Variable instance : Topology.

(** [CpuFreqLinux::CpuFreqLinux], src/cpufreq/cpufreq-linux.cpp:381-429. *)
Definition CpuFreqLinux_new : M Machine CpuFreqLinux :=
  let* w := gets m_world in
  let boostingFile := w_prefix w +:+ "/sys/devices/system/cpu/cpufreq/boost" in
  if existsDirectory w (w_prefix w +:+ "/sys/devices/system/cpu/cpu0/cpufreq") then
    let* topology := Topology_new m_world in
    let* output := query (fun m => getCommandOutput (m_world m) (domains_command w)) in
    let* domains := query (fun m => map_out (enumerate output) (fun '(i, line) =>
      let identifiers := extract_all extract_uint line in
      DomainLinux_new (m_world m) instance (Z.of_nat i)
        (CpuFreq_filterVirtualCores (tp_virtualCores topology) identifiers))) in
    ret (mkCpuFreqLinux domains boostingFile (Some topology))
  else
    let* epyc := query (fun m => is_epyc (m_world m) instance) in
    if (epyc : bool) then
      let* domains := query (fun m => map_out (enumerate (tp_physicalCores instance)) (fun '(i, c) =>
        DomainLinux_new (m_world m) instance (Z.of_nat i) (pc_virtualCores c))) in
      ret (mkCpuFreqLinux domains boostingFile None)
    else ret (mkCpuFreqLinux [] boostingFile None).
End module.

(** [CpuFreqLinux::~CpuFreqLinux], src/cpufreq/cpufreq-linux.cpp:431-434: the topology that is
    released. *)
Definition CpuFreqLinux_destroy (c : CpuFreqLinux) : outcome Topology :=
  match cfl_topology c with Some t => Ret t | None => Undef "_topology is uninitialised" end.

(** [CpuFreqLinux::getDomains], src/cpufreq/cpufreq-linux.cpp:436-438: the pointers, as
    positions. *)
Definition CpuFreqLinux_getDomains (c : CpuFreqLinux) : list nat := seq 0 (length (cfl_domains c)).

(** [CpuFreqLinux::isBoostingSupported], src/cpufreq/cpufreq-linux.cpp:440-443. *)
Definition CpuFreqLinux_isBoostingSupported (w : World) (c : CpuFreqLinux) : bool :=
  existsFile w (cfl_boostingFile c).

(** [CpuFreqLinux::isBoostingEnabled], src/cpufreq/cpufreq-linux.cpp:445-452. *)
Definition CpuFreqLinux_isBoostingEnabled (w : World) (c : CpuFreqLinux) : outcome bool :=
  if CpuFreqLinux_isBoostingSupported w c then
    line ← readFirstLineFromFile w (cfl_boostingFile c);
    Ret (negb (stringToInt line =? 0))
  else Ret false.

(** [CpuFreqLinux::enableBoosting], src/cpufreq/cpufreq-linux.cpp:454-456. *)
Definition CpuFreqLinux_enableBoosting (c : CpuFreqLinux) : M World unit := writeFile (cfl_boostingFile c) "1".

(** [CpuFreqLinux::disableBoosting], src/cpufreq/cpufreq-linux.cpp:458-460. *)
Definition CpuFreqLinux_disableBoosting (c : CpuFreqLinux) : M World unit := writeFile (cfl_boostingFile c) "0".

(** ** The class instance *)
Record FreqMachine := mkFreqMachine { fq_world : World; fq_module : CpuFreqLinux }.

Definition domain_object (d : nat) (m : FreqMachine) : outcome DomainLinux :=
  match cfl_domains (fq_module m) !! d with
  | Some dl => Ret dl
  | None => Undef "dangling domain"
  end.
Definition set_domain (d : nat) (dl : DomainLinux) (m : FreqMachine) : FreqMachine :=
  let c := fq_module m in
  mkFreqMachine (fq_world m) (mkCpuFreqLinux (<[d := dl]> (cfl_domains c)) (cfl_boostingFile c) (cfl_topology c)).
Definition freq_world {A} (f : M World A) : M FreqMachine A := fun m =>
  let '(r, w) := f (fq_world m) in (r, mkFreqMachine w (fq_module m)).
(** A [const] method of a domain, one that writes to the machine, one that changes the object. *)
Definition freq_query {A} (f : World -> DomainLinux -> outcome A) (d : nat) : M FreqMachine A :=
  query (fun m => dl ← domain_object d m; f (fq_world m) dl).
Definition freq_write {A} (f : DomainLinux -> M World A) (d : nat) : M FreqMachine A :=
  let* dl := query (domain_object d) in freq_world (f dl).
Definition freq_update (f : M DomainLinux unit) (d : nat) : M FreqMachine unit := fun m =>
  match domain_object d m with
  | Ret dl => let '(r, dl') := f dl in (r, set_domain d dl' m)
  | Throw e => (Throw e, m)
  | Undef u => (Undef u, m)
  end.

#[export] Instance LinuxCpuFreq : CpuFreqOps FreqMachine nat := {
  d_getVirtualCores d m := dl ← domain_object d m; Ret (dl_virtualCores dl);
  d_removeTurboFrequencies := freq_update DomainLinux_removeTurboFrequencies;
  d_reinsertTurboFrequencies := freq_update DomainLinux_reinsertTurboFrequencies;
  d_getAvailableFrequencies := freq_query (fun _ dl => Ret (DomainLinux_getAvailableFrequencies dl));
  d_getAvailableGovernors := freq_query (fun _ dl => Ret (DomainLinux_getAvailableGovernors dl));
  d_getCurrentFrequency := freq_query DomainLinux_getCurrentFrequency;
  d_getCurrentFrequencyUserspace := freq_query DomainLinux_getCurrentFrequencyUserspace;
  d_setFrequencyUserspace d f := freq_write (fun dl => DomainLinux_setFrequencyUserspace dl f) d;
  d_getCurrentGovernor := freq_query DomainLinux_getCurrentGovernor;
  d_setGovernor d g := freq_write (fun dl => DomainLinux_setGovernor dl g) d;
  d_getHardwareFrequencyBounds := freq_query DomainLinux_getHardwareFrequencyBounds;
  d_getCurrentGovernorBounds := freq_query DomainLinux_getCurrentGovernorBounds;
  d_setGovernorBounds d lb ub := freq_write (fun dl => DomainLinux_setGovernorBounds dl lb ub) d;
  d_getTransitionLatency := freq_query DomainLinux_getTransitionLatency;
  d_getCurrentVoltage := freq_query DomainLinux_getCurrentVoltage;
  f_getDomains m := CpuFreqLinux_getDomains (fq_module m);
  f_isBoostingSupported := gets (fun m => CpuFreqLinux_isBoostingSupported (fq_world m) (fq_module m));
  f_isBoostingEnabled := query (fun m => CpuFreqLinux_isBoostingEnabled (fq_world m) (fq_module m));
  f_enableBoosting := fun m => freq_world (CpuFreqLinux_enableBoosting (fq_module m)) m;
  f_disableBoosting := fun m => freq_world (CpuFreqLinux_disableBoosting (fq_module m)) m
}.

(** * Properties *)

(** ** The attributes of a domain *)

Lemma u32_stringToInt_app x rest :
  is_u32 x -> no_digit_head rest -> u32 (stringToInt (intToString x +:+ rest)) = x.
Proof.
  intros Hx Hr. transitivity (u32 (stringToInt (intToString (i32 x) +:+ rest))).
  - f_equal. unfold intToString. by rewrite (i32_id (i32 x)) by apply i32_range.
  - rewrite stringToInt_intToString_app by (apply i32_range || done). rewrite u32_i32. by apply u32_id.
Qed.

Lemma domain_path_inj prefix v v' n n' :
  is_u32 (vc_virtualCoreId v) -> is_u32 (vc_virtualCoreId v') ->
  (domain_path prefix v +:+ n)%string = domain_path prefix v' +:+ n' ->
  vc_virtualCoreId v = vc_virtualCoreId v' /\ n = n'.
Proof.
  unfold domain_path. intros Hv Hv' E. rewrite !str_app_assoc in E. apply str_app_inj, str_app_inj in E.
  assert (vc_virtualCoreId v = vc_virtualCoreId v') as Ei.
  { rewrite <- (u32_stringToInt_app _ ("/cpufreq/" +:+ n) Hv) by done.
    rewrite <- (u32_stringToInt_app _ ("/cpufreq/" +:+ n') Hv') by done. by rewrite E. }
  split; [done|]. rewrite Ei in E. by apply str_app_inj, str_app_inj in E.
Qed.

(** The first line of a file, nothing when it is absent. *)
Definition fs_line (fs : gmap string node) (f : string) : string :=
  match fs !! f with Some n => first_line (file_content n) | None => EmptyString end.
Definition fs_number (fs : gmap string node) (f : string) : Z := u32 (stringToInt (fs_line fs f)).

Definition attribute (w : World) (f : string) : Prop :=
  (exists c, w_fs w !! f = Some (RegFile c)) /\ can_write w f = true.

Lemma attribute_read w f : attribute w f -> readFirstLineFromFile w f = Ret (fs_line (w_fs w) f).
Proof. intros [[c E] _]. unfold readFirstLineFromFile, fs_line. by rewrite E. Qed.

Lemma attribute_put w f g t : attribute w f -> attribute (put_file g t w) f.
Proof.
  intros [[c E] Hw]. split; [|by rewrite can_write_put]. destruct (decide (g = f)) as [->|Hne].
  - rewrite (put_file_same _ _ _ _ E). by eexists.
  - rewrite put_file_lookup by done. by exists c.
Qed.

(** What a write to the files of a domain does: every file gets what its attribute makes of the
    text, on file trees that differ from the first only in those files. *)
Definition written (paths : list string) (name what : string) (w w' : World) : Prop :=
  (forall f, (forall p, p ∈ paths -> f <> (p +:+ name)%string) -> w_fs w' !! f = w_fs w !! f) /\
  w_store w' = w_store w /\ w_unwritable w' = w_unwritable w /\ w_prefix w' = w_prefix w /\
  w_msr w' = w_msr w /\
  forall p, p ∈ paths -> exists fs old,
    w_fs w !! (p +:+ name)%string = Some (RegFile old) /\
    w_fs w' !! (p +:+ name)%string = Some (RegFile (w_store w fs (p +:+ name) old what)) /\
    forall f, (forall p, p ∈ paths -> f <> (p +:+ name)%string) -> fs !! f = w_fs w !! f.

Lemma written_nil name what w : written [] name what w w.
Proof. repeat split; try done. intros p Hp. by apply not_elem_of_nil in Hp. Qed.

Lemma written_snoc paths p name what w w1 :
  written paths name what w w1 -> p ∉ paths -> (forall q, q ∈ paths -> (q +:+ name <> p +:+ name)%string) ->
  attribute w (p +:+ name) -> written (paths ++ [p]) name what w (put_file (p +:+ name) what w1).
Proof.
  intros (Hf & Hs & Hu & Hp & Hm & Hw) Hnin Hne [[old Hold] _].
  destruct (put_file_frame (p +:+ name) what w1) as (Em & Es & Eu & Ep).
  assert (w_fs w1 !! (p +:+ name)%string = Some (RegFile old)) as Hold1.
  { rewrite Hf; [done|]. intros q Hq Eq. by apply (Hne q Hq). }
  repeat split; try congruence.
  - intros f Hfn. rewrite put_file_lookup by (intros <-; by eapply (Hfn p); [set_solver|]).
    apply Hf. intros q Hq. apply Hfn. set_solver.
  - intros q [Hq|Hq%list_elem_of_singleton]%elem_of_app.
    + destruct (Hw q Hq) as (fs & o & H1 & H2 & H3). exists fs, o. split; [done|]. split.
      * rewrite put_file_lookup; [done|]. intros E. by apply (Hne q Hq).
      * intros f Hfn. apply H3. intros r Hr. apply Hfn. set_solver.
    + subst q. exists (w_fs w1), old. split; [done|]. split.
      * by rewrite (put_file_same _ _ _ _ Hold1), Hs.
      * intros f Hfn. apply Hf. intros q Hq. apply Hfn. set_solver.
Qed.

Lemma writeToDomainFiles_spec d name what w :
  NoDup (dl_paths d) ->
  (forall p q, p ∈ dl_paths d -> q ∈ dl_paths d -> p <> q -> (p +:+ name <> q +:+ name)%string) ->
  (forall p, p ∈ dl_paths d -> attribute w (p +:+ name)) ->
  exists w', DomainLinux_writeToDomainFiles d what name w = (Ret tt, w') /\ written (dl_paths d) name what w w'.
Proof.
  intros Hnd Hinj Hatt. unfold DomainLinux_writeToDomainFiles.
  destruct (for_each_inv_pos (fun done_ w' => written done_ name what w w')
    (fun path => let* ok := gets (fun w => can_write w (path +:+ name)) in
       if (ok : bool) then modify (put_file (path +:+ name) what)
       else throw (runtime_error "Write to frequency domain files failed.")) (dl_paths d) w)
    as (w' & E & Hw); [apply written_nil| |by exists w'].
  intros done_ p r w1 E Hw1. assert (p ∈ dl_paths d) as Hp by (rewrite E; set_solver).
  assert (p ∉ done_) as Hnin.
  { rewrite E in Hnd. apply NoDup_app in Hnd as (_ & Hd & _). intros Hin. apply (Hd p Hin). left. }
  exists (put_file (p +:+ name) what w1). split.
  - unfold gets, bind. assert (can_write w1 (p +:+ name) = true) as ->; [|done].
    destruct (Hatt p Hp) as [[c Hc] Hcw]. unfold can_write in *.
    destruct Hw1 as (Hf & _ & Hu & _). rewrite Hu. rewrite Hf; [done|].
    intros q Hq Eq. apply (Hinj q p); [rewrite E; set_solver|done|congruence|done].
  - apply written_snoc; [done|done| |by apply Hatt].
    intros q Hq. apply Hinj; [rewrite E; set_solver|done|congruence].
Qed.

Lemma attribute_written paths name what w w' f :
  written paths name what w w' -> attribute w f -> attribute w' f.
Proof.
  intros (Hf & _ & Hu & _ & _ & Hw) [[c E] Hcw].
  assert (exists c', w_fs w' !! f = Some (RegFile c')) as [c' E'].
  { destruct (decide (f ∈ (fun p => p +:+ name) <$> paths)) as [Hin|Hn].
    - apply list_elem_of_fmap in Hin as (p & -> & Hp). destruct (Hw p Hp) as (fs & old & _ & E' & _). by eexists.
    - exists c. rewrite Hf; [done|]. intros p Hp ->. apply Hn, list_elem_of_fmap. by exists p. }
  split; [by exists c'|]. unfold can_write in *. rewrite Hu, E'. rewrite E in Hcw.
  by destruct (bool_decide _).
Qed.

(** The behaviour of the attributes: the governor and the [userspace] frequency are what was
    written; a [strict] kernel refuses a bound that would cross the other one, and otherwise
    takes what was written. *)
Section domains.
Variables (prefix : string) (strict : bool).

Definition store_ok (w : World) (p : string) : Prop := forall fs old new,
  str_in newline new = false ->
  first_line (w_store w fs (p +:+ "scaling_governor") old new) = new /\
  first_line (w_store w fs (p +:+ "scaling_setspeed") old new) = new /\
  first_line (w_store w fs (p +:+ "scaling_min_freq") old new) =
    (if strict && (fs_number fs (p +:+ "scaling_max_freq") <? u32 (stringToInt new)) then first_line old else new) /\
  first_line (w_store w fs (p +:+ "scaling_max_freq") old new) =
    (if strict && (u32 (stringToInt new) <? fs_number fs (p +:+ "scaling_min_freq")) then first_line old else new).

(** A domain as the constructor makes it on a machine that is not an EPYC. *)
Record domain_static (d : DomainLinux) : Prop := {
  ds_epyc : dl_epyc d = false;
  ds_paths : dl_paths d = domain_path prefix <$> dl_virtualCores d;
  ds_cores : dl_virtualCores d <> [];
  ds_ids : forall v, v ∈ dl_virtualCores d -> is_u32 (vc_virtualCoreId v);
  ds_distinct : NoDup (vc_virtualCoreId <$> dl_virtualCores d);
  ds_governors : forall g, g ∈ dl_availableGovernors d -> 0 <= g < GOVERNOR_NUM;
  ds_frequencies : forall f, f ∈ dl_availableFrequencies d -> is_u32 f
}.

Definition attribute_names : list string :=
  ["scaling_governor"; "scaling_setspeed"; "scaling_min_freq"; "scaling_max_freq"]%string.
Definition first_path (d : DomainLinux) : string := default EmptyString (head (dl_paths d)).

Record domain_ok (d : DomainLinux) (w : World) : Prop := {
  do_attributes : forall p name, p ∈ dl_paths d -> name ∈ attribute_names -> attribute w (p +:+ name);
  do_store : forall p, p ∈ dl_paths d -> store_ok w p;
  do_governor : exists g, g ∈ dl_availableGovernors d /\
    CpuFreq_getGovernorNameFromGovernor g = Ret (fs_line (w_fs w) (first_path d +:+ "scaling_governor"))
}.

(** The views of a domain. *)
Definition governor_view (d : DomainLinux) (w : World) : Governor :=
  match CpuFreq_getGovernorFromGovernorName (fs_line (w_fs w) (first_path d +:+ "scaling_governor")) with
  | Ret g => g
  | _ => GOVERNOR_NUM
  end.
Definition frequency_view (d : DomainLinux) (w : World) : Z :=
  fs_number (w_fs w) (first_path d +:+ "scaling_setspeed").
Definition bounds_view (d : DomainLinux) (w : World) : Z * Z :=
  (fs_number (w_fs w) (first_path d +:+ "scaling_min_freq"),
   fs_number (w_fs w) (first_path d +:+ "scaling_max_freq")).

Lemma governor_name g : 0 <= g < GOVERNOR_NUM -> exists name,
  CpuFreq_getGovernorNameFromGovernor g = Ret name /\
  CpuFreq_getGovernorFromGovernorName name = Ret g /\ str_in newline name = false.
Proof.
  intros Hg. assert (g = 0 \/ g = 1 \/ g = 2 \/ g = 3 \/ g = 4 \/ g = 5) as Hc by (unfold GOVERNOR_NUM in Hg; lia).
  destruct Hc as [-> | [-> | [-> | [-> | [-> | ->]]]]]; by eexists.
Qed.

Section one_domain.
Variable d : DomainLinux.
Hypothesis Hs : domain_static d.

Lemma first_path_in : first_path d ∈ dl_paths d.
Proof.
  unfold first_path. pose proof (ds_cores d Hs). rewrite (ds_paths d Hs).
  destruct (dl_virtualCores d); [done|]. left.
Qed.

Lemma vec_at_first_path : vec_at (dl_paths d) 0 = Ret (first_path d).
Proof. pose proof first_path_in. unfold first_path in *. by destruct (dl_paths d); [set_solver|]. Qed.

Lemma NoDup_paths : NoDup (dl_paths d).
Proof.
  rewrite (ds_paths d Hs). pose proof (ds_distinct d Hs) as Hd. pose proof (ds_ids d Hs) as Hi.
  induction (dl_virtualCores d) as [|v l IH]; csimpl; [constructor|].
  csimpl in Hd. inversion Hd as [|? ? Hn Hd']; subst. constructor.
  - intros (v' & E & Hv')%list_elem_of_fmap. apply Hn. apply list_elem_of_fmap. exists v'. split; [|done].
    eapply (domain_path_inj prefix v v' EmptyString EmptyString); [apply Hi; left|apply Hi; by right|].
    by rewrite !str_app_nil_r.
  - apply IH; [done|]. intros; apply Hi; by right.
Qed.

Lemma paths_inj p q name name' :
  p ∈ dl_paths d -> q ∈ dl_paths d -> (p +:+ name)%string = q +:+ name' -> p = q /\ name = name'.
Proof.
  rewrite (ds_paths d Hs). intros (v & -> & Hv)%list_elem_of_fmap (v' & -> & Hv')%list_elem_of_fmap E.
  apply domain_path_inj in E as [Ei ->]; [|by apply (ds_ids d Hs)..].
  split; [|done]. unfold domain_path. by rewrite Ei.
Qed.

Lemma write_files w name what :
  domain_ok d w -> name ∈ attribute_names ->
  exists w', DomainLinux_writeToDomainFiles d what name w = (Ret tt, w') /\ written (dl_paths d) name what w w'.
Proof.
  intros Hok Hn. apply writeToDomainFiles_spec; [apply NoDup_paths| |].
  - intros p q Hp Hq Hne E. by destruct (paths_inj _ _ _ _ Hp Hq E).
  - intros p Hp. by apply (do_attributes d w Hok).
Qed.

(** An attribute that the write does not concern. *)
Lemma written_other w w' name what name' :
  written (dl_paths d) name what w w' -> name' <> name ->
  fs_line (w_fs w') (first_path d +:+ name') = fs_line (w_fs w) (first_path d +:+ name').
Proof.
  intros (Hf & _) Hne. unfold fs_line. rewrite Hf; [done|].
  intros p Hp E. by destruct (paths_inj _ _ _ _ first_path_in Hp E).
Qed.

Lemma written_line w w' name what : written (dl_paths d) name what w w' ->
  exists fs old, fs_line (w_fs w') (first_path d +:+ name) = first_line (w_store w fs (first_path d +:+ name) old what) /\
    fs_line (w_fs w) (first_path d +:+ name) = first_line old /\
    forall name', name' <> name -> fs_line fs (first_path d +:+ name') = fs_line (w_fs w) (first_path d +:+ name').
Proof.
  intros (_ & _ & _ & _ & _ & Hw). destruct (Hw _ first_path_in) as (fs & old & E & E' & Hfs).
  exists fs, old. unfold fs_line. rewrite E, E'. split; [done|]. split; [done|].
  intros name' Hne. rewrite Hfs; [done|]. intros p Hp Ep. by destruct (paths_inj _ _ _ _ first_path_in Hp Ep).
Qed.

Lemma domain_ok_written w w' name what :
  domain_ok d w -> written (dl_paths d) name what w w' ->
  (name = "scaling_governor"%string -> exists g, g ∈ dl_availableGovernors d /\
     CpuFreq_getGovernorNameFromGovernor g = Ret (fs_line (w_fs w') (first_path d +:+ "scaling_governor"))) ->
  domain_ok d w'.
Proof.
  intros Hok Hw Hg. split.
  - intros p n Hp Hn. eapply attribute_written; [exact Hw|]. by apply (do_attributes d w Hok).
  - intros p Hp fs old new. destruct Hw as (_ & -> & _). by apply (do_store d w Hok).
  - destruct (decide (name = "scaling_governor"%string)) as [E|Hne]; [by apply Hg|].
    rewrite (written_other _ _ _ _ "scaling_governor" Hw) by congruence. apply (do_governor d w Hok).
Qed.

Lemma getCurrentGovernor_ok w : domain_ok d w ->
  DomainLinux_getCurrentGovernor w d = Ret (governor_view d w) /\ governor_view d w ∈ dl_availableGovernors d.
Proof.
  intros Hok. unfold DomainLinux_getCurrentGovernor. rewrite (ds_epyc d Hs), vec_at_first_path. mrun.
  rewrite attribute_read by (apply (do_attributes d w Hok); [apply first_path_in|set_solver]).
  unfold governor_view. destruct (do_governor d w Hok) as (g & Hg & E).
  destruct (governor_name g (ds_governors d Hs g Hg)) as (name & E1 & E2 & _).
  rewrite E in E1. injection E1 as E1. by rewrite E1, E2.
Qed.

Lemma read_attribute_ok w name : domain_ok d w -> name ∈ attribute_names ->
  read_attribute w d name = Ret (stringToInt (fs_line (w_fs w) (first_path d +:+ name))).
Proof.
  intros Hok Hn. unfold read_attribute. rewrite vec_at_first_path. mrun.
  by rewrite attribute_read by (apply (do_attributes d w Hok); [apply first_path_in|done]).
Qed.

Lemma getCurrentFrequencyUserspace_ok w : domain_ok d w ->
  DomainLinux_getCurrentFrequencyUserspace w d =
    Ret (if governor_view d w =? GOVERNOR_USERSPACE then frequency_view d w else 0).
Proof.
  intros Hok. unfold DomainLinux_getCurrentFrequencyUserspace. rewrite (ds_epyc d Hs).
  rewrite (proj1 (getCurrentGovernor_ok w Hok)). mrun. destruct (_ =? _); [|done].
  rewrite read_attribute_ok by (done || set_solver). done.
Qed.

Lemma getCurrentGovernorBounds_ok w : domain_ok d w ->
  DomainLinux_getCurrentGovernorBounds w d = Ret (Some (bounds_view d w)).
Proof.
  intros Hok. unfold DomainLinux_getCurrentGovernorBounds. rewrite (ds_epyc d Hs).
  by rewrite !read_attribute_ok by (done || set_solver).
Qed.

Lemma setGovernor_ok w g : domain_ok d w -> g ∈ dl_availableGovernors d ->
  exists w', DomainLinux_setGovernor d g w = (Ret true, w') /\ domain_ok d w' /\ governor_view d w' = g /\
    frequency_view d w' = frequency_view d w /\ bounds_view d w' = bounds_view d w /\
    exists name, written (dl_paths d) "scaling_governor" name w w'.
Proof.
  intros Hok Hg. unfold DomainLinux_setGovernor. rewrite (ds_epyc d Hs).
  apply contains_spec in Hg as Hc. rewrite Hc. cbn [negb]. cbv iota.
  destruct (governor_name g (ds_governors d Hs g Hg)) as (name & E1 & E2 & Hnl). rewrite E1.
  change (lift (Ret name)) with (@ret World _ name).
  destruct (write_files w "scaling_governor" name Hok) as (w' & Ew & Hw); [set_solver|].
  exists w'. rewrite ret_bind, (bind_Ret _ _ _ _ _ Ew). split; [done|].
  destruct (written_line _ _ _ _ Hw) as (fs & old & El & _).
  destruct (do_store d w Hok _ first_path_in fs old name Hnl) as (Est & _). rewrite Est in El.
  split; [|split; [|split; [|split]]].
  - eapply domain_ok_written; [done..|]. intros _. exists g. by rewrite El.
  - unfold governor_view. by rewrite El, E2.
  - unfold frequency_view, fs_number. by rewrite (written_other _ _ _ _ _ Hw).
  - unfold bounds_view, fs_number. by rewrite !(written_other _ _ _ _ _ Hw).
  - by exists name.
Qed.

Lemma intToString_line f : str_in newline (intToString f) = false.
Proof. by apply str_in_intToString. Qed.

Lemma setFrequencyUserspace_ok w f : domain_ok d w -> governor_view d w = GOVERNOR_USERSPACE ->
  f ∈ dl_availableFrequencies d ->
  exists w', DomainLinux_setFrequencyUserspace d f w = (Ret true, w') /\ domain_ok d w' /\
    governor_view d w' = GOVERNOR_USERSPACE /\ frequency_view d w' = f /\ bounds_view d w' = bounds_view d w /\
    exists what, written (dl_paths d) "scaling_setspeed" what w w'.
Proof.
  intros Hok Hgov Hf. unfold DomainLinux_setFrequencyUserspace. rewrite (ds_epyc d Hs).
  unfold query, bind at 1. rewrite (proj1 (getCurrentGovernor_ok w Hok)), Hgov.
  apply contains_spec in Hf as Hc. rewrite Hc. cbn [negb]. change (GOVERNOR_USERSPACE =? GOVERNOR_USERSPACE) with true. cbv iota.
  destruct (write_files w "scaling_setspeed" (intToString f) Hok) as (w' & Ew & Hw); [set_solver|].
  exists w'. rewrite (bind_Ret _ _ _ _ _ Ew). split; [done|].
  destruct (written_line _ _ _ _ Hw) as (fs & old & El & _).
  destruct (do_store d w Hok _ first_path_in fs old _ (intToString_line f)) as (_ & Est & _). rewrite Est in El.
  split; [|split; [|split; [|split]]].
  - by eapply domain_ok_written.
  - unfold governor_view in *. by rewrite (written_other _ _ _ _ _ Hw).
  - unfold frequency_view, fs_number. rewrite El. apply u32_stringToInt_intToString. by apply (ds_frequencies d Hs).
  - unfold bounds_view, fs_number. by rewrite !(written_other _ _ _ _ _ Hw).
  - by eexists.
Qed.

(** The bounds after the two writes, the lower one first. *)
Definition bounds_after (lb ub : Z) (old : Z * Z) : Z * Z :=
  let lb' := if strict && (snd old <? lb) then fst old else lb in
  (lb', if strict && (ub <? lb') then snd old else ub).

Lemma written_number w w' name f : domain_ok d w -> is_u32 f ->
  written (dl_paths d) name (intToString f) w w' ->
  exists fs old, fs_line (w_fs w') (first_path d +:+ name) = first_line (w_store w fs (first_path d +:+ name) old (intToString f)) /\
    fs_line (w_fs w) (first_path d +:+ name) = first_line old /\
    u32 (stringToInt (intToString f)) = f /\
    (forall name', name' <> name -> fs_number fs (first_path d +:+ name') = fs_number (w_fs w) (first_path d +:+ name')).
Proof.
  intros Hok Hf Hw. destruct (written_line _ _ _ _ Hw) as (fs & old & E1 & E2 & E3).
  exists fs, old. do 2 (split; [done|]). split; [by apply u32_stringToInt_intToString|].
  intros name' Hne. unfold fs_number. by rewrite E3.
Qed.

Lemma setGovernorBounds_ok w lb ub : domain_ok d w ->
  lb ∈ dl_availableFrequencies d -> ub ∈ dl_availableFrequencies d -> lb <= ub ->
  exists w', DomainLinux_setGovernorBounds d lb ub w = (Ret true, w') /\ domain_ok d w' /\
    governor_view d w' = governor_view d w /\ frequency_view d w' = frequency_view d w /\
    bounds_view d w' = bounds_after lb ub (bounds_view d w) /\
    exists w1 what1 what2, written (dl_paths d) "scaling_min_freq" what1 w w1 /\
      written (dl_paths d) "scaling_max_freq" what2 w1 w'.
Proof.
  intros Hok Hlb Hub Hle. unfold DomainLinux_setGovernorBounds, DomainLinux_getAvailableFrequencies.
  rewrite (ds_epyc d Hs), (proj2 (contains_spec _ _) Hlb), (proj2 (contains_spec _ _) Hub).
  destruct (Z.ltb_spec ub lb); [lia|]. cbn [negb orb]. cbv iota.
  destruct (write_files w "scaling_min_freq" (intToString lb) Hok) as (w1 & E1 & Hw1); [set_solver|].
  assert (domain_ok d w1) as Hok1 by by eapply domain_ok_written.
  destruct (write_files w1 "scaling_max_freq" (intToString ub) Hok1) as (w2 & E2 & Hw2); [set_solver|].
  exists w2. rewrite (bind_Ret _ _ _ _ _ E1), (bind_Ret _ _ _ _ _ E2). split; [done|].
  split; [by eapply domain_ok_written|].
  split; [unfold governor_view; by rewrite (written_other _ _ _ _ _ Hw2), (written_other _ _ _ _ _ Hw1)|].
  split; [unfold frequency_view, fs_number; by rewrite (written_other _ _ _ _ _ Hw2), (written_other _ _ _ _ _ Hw1)|].
  split; [|by exists w1, (intToString lb), (intToString ub)].
  destruct (written_number _ _ _ lb Hok (ds_frequencies d Hs lb Hlb) Hw1) as (fs1 & old1 & L1 & O1 & N1 & F1).
  destruct (written_number _ _ _ ub Hok1 (ds_frequencies d Hs ub Hub) Hw2) as (fs2 & old2 & L2 & O2 & N2 & F2).
  destruct (do_store d w Hok _ first_path_in fs1 old1 _ (intToString_line lb)) as (_ & _ & S1 & _).
  destruct (do_store d w1 Hok1 _ first_path_in fs2 old2 _ (intToString_line ub)) as (_ & _ & _ & S2).
  rewrite S1, <- O1, N1, F1 in L1 by done. rewrite S2, <- O2, N2, F2 in L2 by done. clear S1 S2.
  assert (fs_number (w_fs w1) (first_path d +:+ "scaling_min_freq") = fst (bounds_after lb ub (bounds_view d w))) as Emin.
  { unfold fs_number at 1. rewrite L1. unfold bounds_after. simpl.
    destruct (strict && _); [done|exact N1]. }
  rewrite (surjective_pairing (bounds_after _ _ _)). unfold bounds_view at 1. f_equal.
  - rewrite <- Emin. unfold fs_number. by rewrite (written_other _ _ _ _ _ Hw2).
  - unfold fs_number at 1. rewrite L2, Emin. clear L2. unfold bounds_after. simpl.
    destruct (strict && (ub <? _)); [|exact N2]. unfold fs_number. by rewrite (written_other _ _ _ _ _ Hw1).
Qed.
End one_domain.

(** What one domain does leaves the others as they are. *)
Lemma domain_frame d d' name what w w' :
  domain_static d -> domain_static d' ->
  (forall v v', v ∈ dl_virtualCores d -> v' ∈ dl_virtualCores d' -> vc_virtualCoreId v <> vc_virtualCoreId v') ->
  written (dl_paths d) name what w w' -> domain_ok d' w ->
  domain_ok d' w' /\ governor_view d' w' = governor_view d' w /\ frequency_view d' w' = frequency_view d' w /\
  bounds_view d' w' = bounds_view d' w.
Proof.
  intros Hs Hs' Hdis Hw Hok.
  assert (forall p n, p ∈ dl_paths d' -> w_fs w' !! (p +:+ n)%string = w_fs w !! (p +:+ n)%string) as Hfs.
  { intros p n Hp. destruct Hw as (Hf & _). apply Hf. intros q Hq E.
    rewrite (ds_paths d' Hs') in Hp. apply list_elem_of_fmap in Hp as (v' & -> & Hv').
    rewrite (ds_paths d Hs) in Hq. apply list_elem_of_fmap in Hq as (v & -> & Hv).
    apply domain_path_inj in E as [E _]; [|by apply (ds_ids d' Hs')|by apply (ds_ids d Hs)].
    by apply (Hdis v v'). }
  assert (forall n, fs_line (w_fs w') (first_path d' +:+ n) = fs_line (w_fs w) (first_path d' +:+ n)) as Hl.
  { intros n. unfold fs_line. rewrite Hfs; [done|]. by apply first_path_in. }
  split; [split|].
  - intros p n Hp Hn. eapply attribute_written; [exact Hw|]. by apply (do_attributes d' w Hok).
  - intros p Hp fs old new. destruct Hw as (_ & -> & _). by apply (do_store d' w Hok).
  - rewrite Hl. apply (do_governor d' w Hok).
  - unfold governor_view, frequency_view, bounds_view, fs_number. by rewrite !Hl.
Qed.

(** ** The contract of the module *)
Section module_laws.
Variable doms : list DomainLinux.
Hypothesis statics : forall d, d ∈ doms -> domain_static d.
Hypothesis disjoint : forall i j d d', doms !! i = Some d -> doms !! j = Some d' -> i <> j ->
  forall v v', v ∈ dl_virtualCores d -> v' ∈ dl_virtualCores d' -> vc_virtualCoreId v <> vc_virtualCoreId v'.

Definition freq_ok (m : FreqMachine) : Prop :=
  cfl_domains (fq_module m) = doms /\ forall d, d ∈ doms -> domain_ok d (fq_world m).
(** A view, through the pointer. *)
Definition through {A} (view : DomainLinux -> World -> A) (none : A) (i : nat) (m : FreqMachine) : A :=
  match doms !! i with Some d => view d (fq_world m) | None => none end.

Lemma pointer_valid i : i ∈ seq 0 (length doms) -> exists d, doms !! i = Some d /\ d ∈ doms.
Proof.
  intros Hi%elem_of_seq. destruct (lookup_lt_is_Some_2 doms i) as [d Hd]; [lia|].
  exists d. split; [done|]. by eapply list_elem_of_lookup_2.
Qed.

Lemma freq_query_ok {A} (f : World -> DomainLinux -> outcome A) i d m :
  freq_ok m -> doms !! i = Some d -> freq_query f i m = (f (fq_world m) d, m).
Proof. intros [E _] Hi. unfold freq_query, query, domain_object. by rewrite E, Hi. Qed.

Lemma freq_write_ok {A} (f : DomainLinux -> M World A) i d m a w' :
  freq_ok m -> doms !! i = Some d -> f d (fq_world m) = (Ret a, w') ->
  freq_write f i m = (Ret a, mkFreqMachine w' (fq_module m)).
Proof.
  intros [E _] Hi Ef. unfold freq_write, query, bind, domain_object, freq_world. by rewrite E, Hi, Ef.
Qed.

(** One write of a domain, from the machine's point of view. *)
Definition others_same (i : nat) (m m' : FreqMachine) : Prop :=
  forall j, j ∈ seq 0 (length doms) -> j <> i ->
    through governor_view GOVERNOR_NUM j m' = through governor_view GOVERNOR_NUM j m /\
    through frequency_view 0 j m' = through frequency_view 0 j m /\
    through bounds_view (0, 0) j m' = through bounds_view (0, 0) j m.

Lemma module_written i d m w' name what :
  freq_ok m -> doms !! i = Some d -> written (dl_paths d) name what (fq_world m) w' -> domain_ok d w' ->
  freq_ok (mkFreqMachine w' (fq_module m)) /\ others_same i m (mkFreqMachine w' (fq_module m)).
Proof.
  intros [E Hok] Hi Hw Hd. assert (d ∈ doms) as Hin by by eapply list_elem_of_lookup_2.
  assert (forall j d', doms !! j = Some d' -> j <> i ->
    domain_ok d' w' /\ governor_view d' w' = governor_view d' (fq_world m) /\
    frequency_view d' w' = frequency_view d' (fq_world m) /\ bounds_view d' w' = bounds_view d' (fq_world m)) as Hother.
  { intros j d' Hj Hne. assert (d' ∈ doms) as Hin' by by eapply list_elem_of_lookup_2.
    eapply (domain_frame d d'); [by apply statics..| |exact Hw|by apply Hok].
    by apply (disjoint i j). }
  split.
  - split; [done|]. intros d' [j Hj]%list_elem_of_lookup. simpl.
    destruct (decide (j = i)) as [->|Hne]; [by simplify_eq|]. by apply (Hother j).
  - intros j (d' & Hj & _)%pointer_valid Hne. unfold through. rewrite Hj. by apply (Hother j).
Qed.

Lemma others_same_trans i m1 m2 m3 : others_same i m1 m2 -> others_same i m2 m3 -> others_same i m1 m3.
Proof.
  intros H1 H2 j Hj Hne. destruct (H1 j Hj Hne) as (? & ? & ?), (H2 j Hj Hne) as (? & ? & ?).
  split; [congruence|split; congruence].
Qed.

Definition freq_laws : CpuFreqLaws FreqMachine nat (seq 0 (length doms)).
Proof.
  refine {| fl_ok := freq_ok;
            fl_governor := through governor_view GOVERNOR_NUM;
            fl_frequency := through frequency_view 0;
            fl_bounds := through bounds_view (0, 0);
            fl_governors i := match doms !! i with Some d => dl_availableGovernors d | None => [] end;
            fl_frequencies i := match doms !! i with Some d => dl_availableFrequencies d | None => [] end |}.
  - intros m [E _]. simpl. unfold CpuFreqLinux_getDomains. by rewrite E.
  - intros i m (d & Hi & Hd)%pointer_valid Hok. simpl. rewrite (freq_query_ok _ i d) by done.
    unfold through. rewrite Hi. by rewrite (proj1 (getCurrentGovernor_ok d (statics d Hd) _ (proj2 Hok d Hd))).
  - intros i m (d & Hi & Hd)%pointer_valid Hok. simpl. rewrite (freq_query_ok _ i d) by done.
    unfold through. rewrite Hi. by rewrite (getCurrentFrequencyUserspace_ok d (statics d Hd) _ (proj2 Hok d Hd)).
  - intros i m (d & Hi & Hd)%pointer_valid Hok. simpl. rewrite (freq_query_ok _ i d) by done.
    unfold through. rewrite Hi. by rewrite (getCurrentGovernorBounds_ok d (statics d Hd) _ (proj2 Hok d Hd)).
  - intros i m (d & Hi & Hd)%pointer_valid Hok. unfold through. rewrite Hi.
    apply (getCurrentGovernor_ok d (statics d Hd) _ (proj2 Hok d Hd)).
  - intros i g m (d & Hi & Hd)%pointer_valid Hok Hg. rewrite Hi in Hg.
    destruct (setGovernor_ok d (statics d Hd) (fq_world m) g (proj2 Hok d Hd) Hg)
      as (w' & E & Hok' & G & F & B & name & Hw).
    destruct (module_written i d m w' _ _ Hok Hi Hw Hok') as [Hm Ho].
    exists (mkFreqMachine w' (fq_module m)). split; [by apply (freq_write_ok _ i d)|]. split; [done|].
    unfold through at 1 2 3. rewrite Hi. split; [done|]. split; [done|]. exact Ho.
  - intros i f m (d & Hi & Hd)%pointer_valid Hok Hg Hf. rewrite Hi in Hf. unfold through in Hg. rewrite Hi in Hg.
    destruct (setFrequencyUserspace_ok d (statics d Hd) (fq_world m) f (proj2 Hok d Hd) Hg Hf)
      as (w' & E & Hok' & G & F & B & name & Hw).
    destruct (module_written i d m w' _ _ Hok Hi Hw Hok') as [Hm Ho].
    exists (mkFreqMachine w' (fq_module m)). split; [by apply (freq_write_ok _ i d)|]. split; [done|].
    unfold through at 1 2 3 4. rewrite Hi. split; [done|]. split; [done|]. split; [done|]. exact Ho.
  - intros i lb ub m (d & Hi & Hd)%pointer_valid Hok Hlb Hub Hle Hcur. rewrite Hi in Hlb, Hub.
    unfold through in Hcur. rewrite Hi in Hcur.
    destruct (setGovernorBounds_ok d (statics d Hd) (fq_world m) lb ub (proj2 Hok d Hd) Hlb Hub Hle)
      as (w' & E & Hok' & G & F & B & w1 & what1 & what2 & Hw1 & Hw2).
    assert (domain_ok d w1) as Hok1
      by (eapply (domain_ok_written d (statics d Hd)); [by apply Hok|exact Hw1|done]).
    destruct (module_written i d m w1 _ _ Hok Hi Hw1 Hok1) as [Hm1 Ho1].
    destruct (module_written i d _ w' _ _ Hm1 Hi Hw2 Hok') as [Hm Ho].
    exists (mkFreqMachine w' (fq_module m)). split; [by apply (freq_write_ok _ i d)|]. split; [done|].
    unfold through at 1 2 3. rewrite Hi. split; [done|]. split.
    + cbn [fq_world]. rewrite B. unfold bounds_after. destruct (bounds_view d (fq_world m)) as [olb oub]. simpl in Hcur |- *.
      destruct (Z.ltb_spec oub lb); [lia|]. rewrite andb_false_r.
      destruct (Z.ltb_spec ub lb); [lia|]. by rewrite andb_false_r.
    + exact (others_same_trans _ _ _ _ Ho1 Ho).
Defined.
End module_laws.
End domains.

(** ** The frequencies that are taken away *)
Definition is_turbo (f : Z) : bool := 
  match str_at (intToString f) 3 with Ret c => bool_decide (c = "1"%char) | _ => false end.

Lemma str_at_ret s n : (n < String.length s)%nat -> exists c, str_at s n = Ret c.
Proof.
  unfold str_at. intros Hn. destruct (String.get n s) eqn:E; [by eexists|].
  exfalso. revert n Hn E. induction s as [|c s IH]; intros [|n] Hn E; simpl in *; try lia; [done|].
  apply (IH n); [lia|done].
Qed.

Lemma remove_turbo_filter rest kept turbo :
  (forall f, f ∈ rest -> (3 < String.length (intToString f))%nat) ->
  remove_turbo kept rest turbo =
    (Ret tt, (kept ++ filter (fun f => is_turbo f = false) rest, turbo ++ filter (fun f => is_turbo f = true) rest)).
Proof.
  revert kept turbo. induction rest as [|f rest IH]; intros kept turbo Hl; cbn [remove_turbo].
  { by rewrite !app_nil_r. }
  destruct (str_at_ret (intToString f) 3) as [c Hc]; [apply Hl; left|]. rewrite Hc.
  assert (is_turbo f = bool_decide (c = "1"%char)) as Ht.
  { unfold is_turbo. by rewrite Hc. }
  rewrite !filter_cons, Ht. destruct (bool_decide (c = "1"%char)); simpl;
    rewrite IH by (intros; apply Hl; by right); by rewrite <- app_assoc.
Qed.

Lemma turbo_partition (l : list Z) :
  filter (fun f => is_turbo f = false) l ++ filter (fun f => is_turbo f = true) l ≡ₚ l.
Proof.
  induction l as [|f l IH]; [done|]. rewrite !filter_cons. destruct (is_turbo f); simpl.
  - by rewrite <- Permutation_middle, IH.
  - by rewrite IH.
Qed.

(** Removing the turbo frequencies takes out of the available ones exactly those whose
    fourth digit is 1, removing them again changes nothing, and reinserting them gives back the
    same frequencies, the turbo ones at the end; provided that every frequency has at least
    four digits. *)
Theorem turbo_frequencies_roundtrip (d : DomainLinux) :
  dl_turboFrequencies d = [] ->
  (forall f, f ∈ dl_availableFrequencies d -> (3 < String.length (intToString f))%nat) ->
  exists d1 d2, DomainLinux_removeTurboFrequencies d = (Ret tt, d1) /\
    dl_availableFrequencies d1 = filter (fun f => is_turbo f = false) (dl_availableFrequencies d) /\
    DomainLinux_removeTurboFrequencies d1 = (Ret tt, d1) /\
    DomainLinux_reinsertTurboFrequencies d1 = (Ret tt, d2) /\
    dl_availableFrequencies d2 = dl_availableFrequencies d1 ++ filter (fun f => is_turbo f = true) (dl_availableFrequencies d) /\
    dl_availableFrequencies d2 ≡ₚ dl_availableFrequencies d /\ dl_turboFrequencies d2 = [].
Proof.
  intros Ht Hl. set (keep := filter (fun f => is_turbo f = false) (dl_availableFrequencies d)).
  set (turbo := filter (fun f => is_turbo f = true) (dl_availableFrequencies d)).
  exists (with_frequencies keep turbo d), (with_frequencies (keep ++ turbo) [] d).
  split; [unfold DomainLinux_removeTurboFrequencies; rewrite Ht; by rewrite remove_turbo_filter|].
  split; [done|]. split; [|split; [done|split; [done|split; [apply turbo_partition|done]]]].
  unfold DomainLinux_removeTurboFrequencies. cbn [with_frequencies dl_turboFrequencies dl_availableFrequencies].
  destruct turbo as [|t turbo'] eqn:E; [|done]. rewrite remove_turbo_filter.
  - rewrite (filter_all _ keep), (filter_none (fun f => is_turbo f = true) keep); [done| |].
    + intros f [Hf _]%list_elem_of_filter. congruence.
    + by intros f [Hf _]%list_elem_of_filter.
  - intros f [_ Hf]%list_elem_of_filter. by apply Hl.
Qed.

Lemma turbo_frequencies_roundtrip_witness :
  let d := mkDomainLinux 0 [] [] [1200000; 2400000; 2401000] [] (mkMsr None) [] false in
  exists d1 d2, DomainLinux_removeTurboFrequencies d = (Ret tt, d1) /\
    dl_availableFrequencies d1 = [1200000; 2400000] /\
    DomainLinux_reinsertTurboFrequencies d1 = (Ret tt, d2).
Proof.
  intros d. destruct (turbo_frequencies_roundtrip d) as (d1 & d2 & H1 & H2 & _ & H3 & _).
  - reflexivity.
  - intros f Hf. apply list_elem_of_In in Hf. destruct Hf as [<-|[<-|[<-|[]]]]; vm_compute; lia.
  - exists d1, d2. split; [exact H1|]. split; [rewrite H2; vm_compute; reflexivity|exact H3].
Defined.

(** ** The operations, on each branch *)

(** Setting the bounds of the governor: [false], and nothing written, when a bound is not
    an available frequency or they are crossed; otherwise [true], and the bounds read back are
    the ones asked for, unless the kernel keeps the bounds ordered and the new lower bound is
    above the upper bound in force: the lower bound is written first and refused, the refusal is
    not noticed, and the old lower bound stays although the result is [true]. *)
Theorem DomainLinux_setGovernorBounds_spec prefix strict (d : DomainLinux) (lb ub : Z) (w : World) :
  domain_static prefix d -> domain_ok strict d w ->
  let old := bounds_view d w in
  if contains (dl_availableFrequencies d) lb && contains (dl_availableFrequencies d) ub && (lb <=? ub) then
    exists w', DomainLinux_setGovernorBounds d lb ub w = (Ret true, w') /\ domain_ok strict d w' /\
      DomainLinux_getCurrentGovernor w' d = DomainLinux_getCurrentGovernor w d /\
      (strict = false \/ lb <= snd old ->
         DomainLinux_getCurrentGovernorBounds w' d = Ret (Some (lb, ub))) /\
      (strict = true -> snd old < lb -> fst old <= snd old ->
         DomainLinux_getCurrentGovernorBounds w' d = Ret (Some (fst old, ub)))
  else DomainLinux_setGovernorBounds d lb ub w = (Ret false, w).
Proof.
  intros Hs Hok old. assert (
    (if dl_epyc d then ret false
     else if negb (contains (dl_availableFrequencies d) lb) || negb (contains (dl_availableFrequencies d) ub) || (ub <? lb)
     then ret false
     else do* DomainLinux_writeToDomainFiles d (intToString lb) "scaling_min_freq" in
          do* DomainLinux_writeToDomainFiles d (intToString ub) "scaling_max_freq" in ret true) w = (Ret false, w) ->
    DomainLinux_setGovernorBounds d lb ub w = (Ret false, w)) as Hfalse by done.
  destruct (contains (dl_availableFrequencies d) lb) eqn:Hlb; cbn [andb].
  2: { apply Hfalse. by rewrite (ds_epyc _ d Hs). }
  destruct (contains (dl_availableFrequencies d) ub) eqn:Hub; cbn [andb].
  2: { apply Hfalse. by rewrite (ds_epyc _ d Hs). }
  apply contains_spec in Hlb as Hlb', Hub as Hub'. destruct (Z.leb_spec lb ub) as [Hle|Hgt].
  - destruct (setGovernorBounds_ok prefix strict d Hs w lb ub Hok Hlb' Hub' Hle) as (w' & E & Hok' & G & _ & B & _).
    exists w'. split; [done|]. split; [done|]. split.
    + by rewrite (proj1 (getCurrentGovernor_ok _ _ d Hs w Hok)), (proj1 (getCurrentGovernor_ok _ _ d Hs w' Hok')), G.
    + rewrite (getCurrentGovernorBounds_ok _ _ d Hs w' Hok'), B. unfold bounds_after. fold old.
      destruct old as [olb oub]. simpl. split.
      * intros [->|Hc]; [done|]. destruct (Z.ltb_spec oub lb); [lia|]. rewrite andb_false_r.
        destruct (Z.ltb_spec ub lb); [lia|]. by rewrite andb_false_r.
      * intros -> Hc Ho. destruct (Z.ltb_spec oub lb); [|lia]. simpl. by destruct (Z.ltb_spec ub olb); [lia|].
  - apply Hfalse. rewrite (ds_epyc _ d Hs). by destruct (Z.ltb_spec ub lb); [|lia].
Qed.

(** Setting the frequency of the [userspace] governor: [false], and nothing written, under
    another governor or for a frequency that is not available; otherwise [true], the frequency
    reads back, and the governor and its bounds stay. *)
Theorem DomainLinux_setFrequencyUserspace_spec prefix strict (d : DomainLinux) (f : Z) (w : World) :
  domain_static prefix d -> domain_ok strict d w ->
  exists g, DomainLinux_getCurrentGovernor w d = Ret g /\
  if (g =? GOVERNOR_USERSPACE) && contains (dl_availableFrequencies d) f then
    exists w', DomainLinux_setFrequencyUserspace d f w = (Ret true, w') /\ domain_ok strict d w' /\
      DomainLinux_getCurrentFrequencyUserspace w' d = Ret f /\
      DomainLinux_getCurrentGovernor w' d = Ret g /\
      DomainLinux_getCurrentGovernorBounds w' d = DomainLinux_getCurrentGovernorBounds w d
  else DomainLinux_setFrequencyUserspace d f w = (Ret false, w).
Proof.
  intros Hs Hok. destruct (getCurrentGovernor_ok prefix strict d Hs w Hok) as [Eg _].
  exists (governor_view d w). split; [done|].
  destruct (Z.eqb_spec (governor_view d w) GOVERNOR_USERSPACE) as [Eu|Eu]; simpl.
  - destruct (contains (dl_availableFrequencies d) f) eqn:Hc.
    + destruct (setFrequencyUserspace_ok prefix strict d Hs w f Hok Eu) as (w' & E & Hok' & G & F & B & _);
        [by apply contains_spec|].
      exists w'. split; [done|]. split; [done|].
      rewrite (getCurrentFrequencyUserspace_ok _ _ d Hs w' Hok'), (proj1 (getCurrentGovernor_ok _ _ d Hs w' Hok')).
      rewrite (getCurrentGovernorBounds_ok _ _ d Hs w' Hok'), (getCurrentGovernorBounds_ok _ _ d Hs w Hok).
      by rewrite G, F, B, Eu.
    + unfold DomainLinux_setFrequencyUserspace. rewrite (ds_epyc _ d Hs). unfold query, bind. by rewrite Eg, Eu, Hc.
  - unfold DomainLinux_setFrequencyUserspace. rewrite (ds_epyc _ d Hs). unfold query, bind. rewrite Eg.
    by destruct (Z.eqb_spec (governor_view d w) GOVERNOR_USERSPACE).
Qed.

(** ** EPYC *)

Lemma position_spec f l :
  match position f l with
  | Some i => l !! i = Some f /\ forall j, (j < i)%nat -> l !! j <> Some f
  | None => f ∉ l
  end.
Proof.
  induction l as [|a l IH]; simpl; [set_solver|].
  destruct (Z.eqb_spec f a) as [->|Hne]; [split; [done|intros; lia]|].
  destruct (position f l) as [i|]; simpl; [|set_solver].
  destruct IH as [H1 H2]. split; [done|]. intros [|j] Hj; simpl; [congruence|]. apply H2. lia.
Qed.

(** On an EPYC, setting an available frequency selects a P-state, and reading the frequency
    back gives the one set, as long as there are at most eight; a frequency that is not available
    is refused and no register is written. *)
Theorem epyc_frequency_roundtrip (d : DomainLinux) (core reg f : Z) (w : World) :
  dl_epyc d = true -> (length (dl_availableFrequencies d) <= 8)%nat ->
  msr_holds (dl_msr d) core MSR_EPYC_PSTATE_CONTROL w true reg -> is_u64 reg ->
  (f ∈ dl_availableFrequencies d -> exists w',
     DomainLinux_setFrequencyUserspace d f w = (Ret true, w') /\
     DomainLinux_getCurrentFrequencyUserspace w' d = Ret f) /\
  (f ∉ dl_availableFrequencies d -> DomainLinux_setFrequencyUserspace d f w = (Ret false, w)).
Proof.
  intros He Hlen Hh Hu. unfold DomainLinux_setFrequencyUserspace. rewrite He.
  pose proof (position_spec f (dl_availableFrequencies d)) as Hpos.
  destruct (position f (dl_availableFrequencies d)) as [i|]; [|by split].
  destruct Hpos as [Hi _]. split; [|by intros Hn; apply list_elem_of_lookup_2 in Hi]. intros _.
  pose proof (lookup_lt_Some _ _ _ Hi) as Hlt.
  destruct (Msr_writeBits_holds (dl_msr d) core MSR_EPYC_PSTATE_CONTROL w reg
              (Z.of_nat (length (dl_availableFrequencies d)) - 1 - Z.of_nat i) 2 0 Hh Hu)
    as (w' & E & Hh' & _); [lia..|].
  exists w'. split; [done|]. unfold DomainLinux_getCurrentFrequencyUserspace, getCurrentEpycPstate. rewrite He.
  pose proof (writeBits_value 2 0 reg (Z.of_nat (length (dl_availableFrequencies d)) - 1 - Z.of_nat i)
                ltac:(lia) ltac:(lia) Hu ltac:(lia)) as [_ Hu'].
  rewrite (Msr_readBits_holds _ _ _ _ _ _ 2 0 Hh' Hu') by lia. mrun.
  rewrite (msr_blend_field 2 0) by lia. rewrite Z.mod_small by lia.
  set (n := Z.of_nat (length (dl_availableFrequencies d))).
  replace (n - 1 - (n - 1 - Z.of_nat i)) with (Z.of_nat i) by lia.
  destruct (Z.ltb_spec (Z.of_nat i) 0); [lia|]. unfold vec_index. by rewrite Nat2Z.id, Hi.
Qed.

(** The P-states [n - 1 .. 0], in that order. *)
Lemma epyc_frequencies w msr (fr : Z -> Z) n fs :
  0 <= n <= 9 ->
  (forall k, 0 <= k <= 8 -> epyc_frequency w msr k = Ret (if k <? n then Some (fr k) else None)) ->
  map_out [8; 7; 6; 5; 4; 3; 2; 1; 0] (epyc_frequency w msr) = Ret fs ->
  omap id fs = (fun k => fr (n - 1 - Z.of_nat k)) <$> seq 0 (Z.to_nat n).
Proof.
  intros Hn Hk Hf. rewrite (map_out_Ret _ _ (fun k => if k <? n then Some (fr k) else None)) in Hf.
  2: { intros a Ha. apply Hk. repeat (apply elem_of_cons in Ha as [->|Ha]; [lia|]). by apply not_elem_of_nil in Ha. }
  injection Hf as <-.
  assert (n ∈ seqZ 0 10) as Hin by (apply elem_of_seqZ; lia). cbn in Hin.
  repeat (apply elem_of_cons in Hin as [->|Hin]; [reflexivity|]). by apply not_elem_of_nil in Hin.
Qed.

(** When the P-states that are defined are the first ones, setting a frequency selects a
    P-state that has it: the list built by the constructor and the index computed by the setter
    agree. *)
Theorem epyc_selects_the_pstate (w0 w : World) (instance : Topology) (id : Z) (vs : list VirtualCore)
    (d : DomainLinux) (fr : Z -> Z) (n k : Z) :
  DomainLinux_new w0 instance id vs = Ret d -> dl_epyc d = true -> 0 <= n <= 9 ->
  (forall k, 0 <= k <= 8 -> epyc_frequency w0 (dl_msr d) k = Ret (if k <? n then Some (fr k) else None)) ->
  0 <= k < n ->
  exists k', 0 <= k' < n /\ fr k' = fr k /\
    DomainLinux_setFrequencyUserspace d (fr k) w = Msr_writeBits (dl_msr d) MSR_EPYC_PSTATE_CONTROL 2 0 k' w.
Proof.
  intros Hnew He Hn Hfr Hk. unfold DomainLinux_new in Hnew. minv Hnew.
  destruct r0; [|minv Hnew; injection Hnew as <-; by simpl in He].
  minv Hnew. injection Hnew as <-. simpl in *.
  unfold DomainLinux_setFrequencyUserspace. cbn [dl_epyc dl_msr dl_availableFrequencies].
  rewrite (epyc_frequencies w0 _ fr n _ Hn Hfr Hnew2).
  set (l := (fun k => fr (n - 1 - Z.of_nat k)) <$> seq 0 (Z.to_nat n)).
  assert (forall i, (i < Z.to_nat n)%nat -> l !! i = Some (fr (n - 1 - Z.of_nat i))) as Hl.
  { intros i Hi. unfold l. rewrite list_lookup_fmap, lookup_seq_lt by lia. done. }
  assert (length l = Z.to_nat n) as Hlen by (unfold l; by rewrite length_fmap, length_seq).
  pose proof (position_spec (fr k) l) as Hpos. destruct (position (fr k) l) as [i|].
  - destruct Hpos as [Hi _]. pose proof (lookup_lt_Some _ _ _ Hi) as Hlt. rewrite Hl in Hi by lia.
    injection Hi as Hi. exists (n - 1 - Z.of_nat i). split; [lia|]. split; [done|].
    rewrite Hlen. do 2 f_equal. lia.
  - destruct Hpos. apply list_elem_of_lookup. exists (Z.to_nat (n - 1 - k)). rewrite Hl by lia. do 2 f_equal. lia.
Qed.

(** ** What the constructor reads *)

Lemma read_governors_fold names acc gs :
  fold_out names acc (fun governors governorName =>
    governor ← CpuFreq_getGovernorFromGovernorName governorName;
    Ret (if governor =? GOVERNOR_NUM then governors else governors ++ [governor])) = Ret gs <->
  exists l, Forall2 (fun name g => CpuFreq_getGovernorFromGovernorName name = Ret g) names l /\
    gs = acc ++ l.
Proof.
  revert acc. induction names as [|name names IH]; intros acc; simpl.
  - split.
    + intros [= <-]. exists []. by rewrite app_nil_r.
    + intros (l & Hl & ->). inversion Hl. by rewrite app_nil_r.
  - destruct (CpuFreq_getGovernorFromGovernorName name) as [g|e|u] eqn:E; simpl.
    + assert ((g =? GOVERNOR_NUM) = false) as ->.
      { unfold CpuFreq_getGovernorFromGovernorName, stringToEnum, enum_extract in E.
        destruct (find_index _ _) as [i|] eqn:Ei; [|done]. injection E as <-.
        assert (i < length governor_names)%nat by (eapply find_index_lt; exact Ei).
        unfold GOVERNOR_NUM. simpl in *. lia. }
      rewrite IH. split.
      * intros (l & Hl & ->). exists (g :: l). split; [by constructor|]. by rewrite <- app_assoc.
      * intros (l & Hl & ->). inversion Hl as [|? ? ? l' Hg Hl']; subst. rewrite E in Hg. injection Hg as <-.
        exists l'. split; [done|]. by rewrite <- app_assoc.
    + split; [done|]. intros (l & Hl & _). inversion Hl; subst. congruence.
    + split; [done|]. intros (l & Hl & _). inversion Hl; subst. congruence.
Qed.

Lemma take_word_spec s w r : take_word s = (w, r) -> str_all (fun c => negb (isspace c)) w = true.
Proof.
  revert w r. induction s as [|c s IH]; intros w r; simpl; [by intros [= <- _]|].
  destruct (isspace c) eqn:Ec; [by intros [= <- _]|].
  destruct (take_word s) as [w' r'] eqn:E. intros [= <- _]. simpl. rewrite Ec. simpl. by eapply IH.
Qed.

Lemma read_words_free fuel s name : name ∈ extract_loop read_word fuel s ->
  name <> EmptyString /\ str_all (fun c => negb (isspace c)) name = true.
Proof.
  revert s. induction fuel as [|fuel IH]; intros s; simpl; [by intros ?%not_elem_of_nil|].
  unfold read_word at 1. destruct (take_word (skip_spaces s)) as [w r] eqn:E.
  destruct (str_empty w) eqn:Ew; [by intros ?%not_elem_of_nil|].
  intros [->|Hin]%elem_of_cons; [|by eapply IH]. split; [by destruct w|by eapply take_word_spec].
Qed.

Lemma governor_of_word name : name <> EmptyString -> str_all (fun c => negb (isspace c)) name = true ->
  (exists g, CpuFreq_getGovernorFromGovernorName name = Ret g) <-> name ∈ governor_names.
Proof.
  intros Hne Hw. unfold CpuFreq_getGovernorFromGovernorName, stringToEnum, enum_extract.
  rewrite read_word_nospace by done. destruct (find_index name governor_names) as [i|] eqn:E.
  - split; [|by eexists]. intros _. destruct (decide (name ∈ governor_names)) as [|Hn]; [done|].
    apply find_index_None in Hn. congruence.
  - apply find_index_None in E. split; [by intros [? ?]|done].
Qed.

Lemma governors_known names :
  (forall name, name ∈ names -> exists g, CpuFreq_getGovernorFromGovernorName name = Ret g) ->
  exists l, Forall2 (fun name g => CpuFreq_getGovernorFromGovernorName name = Ret g) names l.
Proof.
  induction names as [|name names IH]; intros H; [by exists []|].
  destruct (H name) as [g Hg]; [left|]. destruct IH as [l Hl]; [intros; apply H; by right|].
  exists (g :: l). by constructor.
Qed.

(** The constructor of a domain that is not on an EPYC returns exactly when every name in
    the governors' file of the first core is one the program knows (any other one makes it read
    an uninitialised variable); it then keeps those governors in the order of the file and the
    available frequencies sorted. *)
Theorem DomainLinux_new_spec (w : World) (instance : Topology) (id : Z) (vs : list VirtualCore)
    (v0 : VirtualCore) (frequencies governors : string) :
  head vs = Some v0 -> is_epyc w instance = Ret false ->
  w_fs w !! (domain_path (w_prefix w) v0 +:+ "scaling_available_frequencies")%string = Some (RegFile frequencies) ->
  w_fs w !! (domain_path (w_prefix w) v0 +:+ "scaling_available_governors")%string = Some (RegFile governors) ->
  (forall d, DomainLinux_new w instance id vs = Ret d ->
     dl_virtualCores d = vs /\ Sorted Z.le (dl_availableFrequencies d) /\
     dl_availableFrequencies d ≡ₚ extract_all extract_uint frequencies /\
     Forall2 (fun name g => CpuFreq_getGovernorFromGovernorName name = Ret g)
       (extract_all read_word governors) (dl_availableGovernors d)) /\
  ((exists d, DomainLinux_new w instance id vs = Ret d) <->
     Forall (fun name => name ∈ governor_names) (extract_all read_word governors)).
Proof.
  intros Hv He Hfr Hgo. destruct vs as [|v vs]; [done|]. injection Hv as ->.
  unfold DomainLinux_new. rewrite He. csimpl. unfold read_frequencies, read_governors, existsFile.
  rewrite Hfr, Hgo. csimpl. cbn [file_content].
  set (fold := fold_out (extract_all read_word governors) [] _).
  assert (Forall (fun name => name ∈ governor_names) (extract_all read_word governors) -> exists gs, fold = Ret gs) as Hknown.
  { intros Hall. destruct (governors_known (extract_all read_word governors)) as [l Hl].
    - intros name Hin. pose proof (read_words_free _ _ _ Hin) as [Hne Hw]. apply governor_of_word; [done..|].
      rewrite Forall_forall in Hall. by apply Hall.
    - exists l. apply read_governors_fold. by exists l. }
  destruct fold as [gs|e|u] eqn:Eg; csimpl.
  - apply read_governors_fold in Eg as (l & Hl & Eg). simpl in Eg. subst l. split.
    + intros d [= <-]. csimpl. split; [done|]. split; [apply Sorted_merge_sort, _|].
      split; [apply merge_sort_Permutation|done].
    + split; [intros _|by eexists]. apply Forall_forall. intros name Hin.
      pose proof (read_words_free _ _ _ Hin) as [Hne Hw]. apply governor_of_word; [done..|].
      apply list_elem_of_lookup in Hin as [i Hi]. destruct (Forall2_lookup_l _ _ _ _ _ Hl Hi) as (g & _ & Hg). by exists g.
  - split; [done|]. split; [by intros [? ?]|]. intros Hall. by destruct (Hknown Hall).
  - split; [done|]. split; [by intros [? ?]|]. intros Hall. by destruct (Hknown Hall).
Qed.

(** ** Measuring voltages *)

Lemma key_ltb_total k k' : key_ltb k k' = false -> key_ltb k' k = false -> k = k'.
Proof. destruct k, k'. unfold key_ltb. simpl. intros. f_equal; lia. Qed.

Lemma table_insert_keys k v t k0 :
  k0 ∈ fst <$> table_insert k v t <-> k0 = k \/ k0 ∈ fst <$> t.
Proof.
  induction t as [|[k' v'] t IH]; csimpl; [set_solver|].
  destruct (key_ltb k k') eqn:E1; csimpl; [set_solver|].
  destruct (key_ltb k' k) eqn:E2; csimpl; [set_solver|].
  rewrite (key_ltb_total k k') by done. set_solver.
Qed.

Section measuring.
Context {VO : VirtualCoreOps Machine}.
Variables (elapse : Z -> Machine -> Machine) (prefix : string) (strict : bool) (d : DomainLinux).
Hypothesis Hs : domain_static prefix d.

Definition same_settings (m m' : Machine) : Prop :=
  domain_ok strict d (m_world m) -> domain_ok strict d (m_world m') /\
  governor_view d (m_world m') = governor_view d (m_world m) /\
  frequency_view d (m_world m') = frequency_view d (m_world m) /\
  bounds_view d (m_world m') = bounds_view d (m_world m).
(** Loading and unloading a core and sleeping do not touch the attributes of the domain. *)
Hypothesis maximize_quiet : forall v m r m', v_maximizeUtilization v m = (r, m') -> same_settings m m'.
Hypothesis reset_quiet : forall v m r m', v_resetUtilization v m = (r, m') -> same_settings m m'.
Hypothesis elapse_quiet : forall n m, same_settings m (elapse n m).

Definition measuring_at (g : Governor) (b : Z * Z) (m : Machine) : Prop :=
  domain_ok strict d (m_world m) /\ governor_view d (m_world m) = g /\ bounds_view d (m_world m) = b.

Lemma quiet_keeps g b m m' : same_settings m m' -> measuring_at g b m -> measuring_at g b m'.
Proof. intros H (Hok & Hg & Hb). destruct (H Hok) as (H1 & H2 & _ & H3). split; [done|]. split; congruence. Qed.

Lemma measure_loop_keeps b numSamples sleepInterval n l r :
  l ⊆ dl_availableFrequencies d ->
  keeps (measuring_at GOVERNOR_USERSPACE b) (for_fold l r (fun r frequency =>
      do* on_world (DomainLinux_setFrequencyUserspace d frequency) in
      let* voltageSum := sample_voltage elapse d numSamples sleepInterval in
      ret (table_insert (n, frequency) (ddiv voltageSum (d_of_Z numSamples)) r))).
Proof.
  intros Hl. apply keeps_for_fold. intros t f Hf. apply keeps_bind; [|intros _; apply keeps_bind].
  - intros m x m' (Hok & Hg & Hb) E. unfold on_world in E.
    destruct (setFrequencyUserspace_ok prefix strict d Hs (m_world m) f Hok Hg) as (w' & Ew & Hok' & G & _ & B & _);
      [by apply Hl|].
    rewrite Ew in E. injection E as _ <-. split; [done|]. split; [done|]. simpl. congruence.
  - apply keeps_for_fold. intros sum j _. apply keeps_bind; [|intros _; apply keeps_bind].
    + intros m x m' Hm [= _ <-]. eapply quiet_keeps; [apply elapse_quiet|done].
    + apply keeps_query.
    + intros v. apply keeps_pure.
  - intros v. apply keeps_pure.
Qed.

Lemma measure_loop_keys b0 numSamples sleepInterval n l r m m' :
  for_fold l b0 (fun r frequency =>
      do* on_world (DomainLinux_setFrequencyUserspace d frequency) in
      let* voltageSum := sample_voltage elapse d numSamples sleepInterval in
      ret (table_insert (n, frequency) (ddiv voltageSum (d_of_Z numSamples)) r)) m = (Ret r, m') ->
  forall k, k ∈ fst <$> r <-> (exists f, f ∈ l /\ k = (n, f)) \/ k ∈ fst <$> b0.
Proof.
  intros H. refine (for_fold_Ret_inv (fun done_ r => forall k, k ∈ fst <$> r <->
      (exists f, f ∈ done_ /\ k = (n, f)) \/ k ∈ fst <$> b0) _ _ l [] b0 m r m' _ H).
  - intros done_ r0 f r1 s s' HP E k. minv E. injection E as <- _. rewrite table_insert_keys, HP.
    setoid_rewrite elem_of_app. setoid_rewrite list_elem_of_singleton. naive_solver.
  - intros k. split; [by right|]. intros [(f & Hf & _)|]; [by apply not_elem_of_nil in Hf|done].
Qed.
End measuring.

Lemma on_world_Ret {A} (f : M World A) m a w' : f (m_world m) = (Ret a, w') ->
  on_world f m = (Ret a, mkMachine w' (m_vcores m)).
Proof. unfold on_world. by intros ->. Qed.

(** Restoring the settings: the governor, the frequency or the bounds. *)
Lemma restore_settings prefix strict d g0 f0 b0 m :
  domain_static prefix d -> measuring_at strict d GOVERNOR_USERSPACE b0 m -> g0 ∈ dl_availableGovernors d ->
  exists m', (do* on_world (DomainLinux_setGovernor d g0) in
     (if g0 =? GOVERNOR_USERSPACE then
        do* on_world (DomainLinux_setFrequencyUserspace d f0) in ret tt
      else do* on_world (DomainLinux_setGovernorBounds d (fst b0) (snd b0)) in ret tt)) m = (Ret tt, m') /\
    measuring_at strict d g0 b0 m' /\
    (g0 = GOVERNOR_USERSPACE -> f0 ∈ dl_availableFrequencies d -> frequency_view d (m_world m') = f0).
Proof.
  intros Hs (Hok & Hg & Hb) Hg0.
  destruct (setGovernor_ok prefix strict d Hs (m_world m) g0 Hok Hg0) as (w1 & E1 & Hok1 & G1 & _ & B1 & _).
  rewrite (bind_Ret _ _ _ _ _ (on_world_Ret _ _ _ _ E1)).
  destruct (Z.eqb_spec g0 GOVERNOR_USERSPACE) as [->|Hne].
  - destruct (decide (f0 ∈ dl_availableFrequencies d)) as [Hf|Hf].
    + destruct (setFrequencyUserspace_ok prefix strict d Hs w1 f0 Hok1 G1 Hf) as (w2 & E2 & Hok2 & G2 & F2 & B2 & _).
      rewrite (bind_Ret _ _ _ _ _ (on_world_Ret _ (mkMachine w1 (m_vcores m)) _ _ E2)).
      eexists. split; [done|]. simpl. split; [|done]. split; [done|]. split; [done|]. simpl. congruence.
    + assert (DomainLinux_setFrequencyUserspace d f0 w1 = (Ret false, w1)) as E2.
      { unfold DomainLinux_setFrequencyUserspace. rewrite (ds_epyc _ d Hs). unfold query, bind.
        rewrite (proj1 (getCurrentGovernor_ok _ _ d Hs w1 Hok1)), G1. unfold contains. by rewrite bool_decide_false. }
      rewrite (bind_Ret _ _ _ _ _ (on_world_Ret _ (mkMachine w1 (m_vcores m)) _ _ E2)).
      eexists. split; [done|]. simpl. split; [|done]. split; [done|]. split; [done|]. simpl. congruence.
  - destruct b0 as [lb ub]. cbn [fst snd].
    assert (exists w2 ok, DomainLinux_setGovernorBounds d lb ub w1 = (Ret ok, w2) /\ measuring_at strict d g0 (lb, ub) (mkMachine w2 (m_vcores m)))
      as (w2 & ok & E2 & Hm).
    { destruct (decide (lb ∈ dl_availableFrequencies d /\ ub ∈ dl_availableFrequencies d /\ lb <= ub)) as [(H1 & H2 & H3)|Hn].
      - destruct (setGovernorBounds_ok prefix strict d Hs w1 lb ub Hok1 H1 H2 H3) as (w2 & E2 & Hok2 & G2 & _ & B2 & _).
        exists w2, true. split; [done|]. split; [done|]. split; [simpl; congruence|]. simpl. rewrite B2, B1, Hb.
        unfold bounds_after. simpl. destruct (Z.ltb_spec ub lb); [lia|]. rewrite andb_false_r.
        destruct (Z.ltb_spec ub lb); [lia|]. by rewrite andb_false_r.
      - exists w1, false. split; [|split; [done|split; [done|simpl; congruence]]].
        unfold DomainLinux_setGovernorBounds, DomainLinux_getAvailableFrequencies. rewrite (ds_epyc _ d Hs).
        destruct (contains (dl_availableFrequencies d) lb) eqn:C1; [|done].
        destruct (contains (dl_availableFrequencies d) ub) eqn:C2; [|done]. simpl.
        destruct (Z.ltb_spec ub lb); [done|]. destruct Hn. split; [by apply contains_spec|].
        split; [by apply contains_spec|lia]. }
    rewrite (bind_Ret _ _ _ _ _ (on_world_Ret _ (mkMachine w1 (m_vcores m)) _ _ E2)).
    eexists. split; [done|]. by split.
Qed.

(** Measuring the voltages of a domain gives one entry per available frequency, for the
    number of cores loaded, and leaves the domain as it was: the governor, its bounds and, for
    the [userspace] governor, the frequency. *)
Theorem getVoltageTable_restores {VO : VirtualCoreOps Machine} (elapse : Z -> Machine -> Machine)
    prefix strict (d : DomainLinux) (n : Z) (onlyPhysicalCores : bool) (m m' : Machine) (t : VoltageTable) :
  domain_static prefix d ->
  (forall v m r m', v_maximizeUtilization v m = (r, m') -> same_settings strict d m m') ->
  (forall v m r m', v_resetUtilization v m = (r, m') -> same_settings strict d m m') ->
  (forall n m, same_settings strict d m (elapse n m)) ->
  domain_ok strict d (m_world m) -> GOVERNOR_USERSPACE ∈ dl_availableGovernors d ->
  DomainLinux_getVoltageTableOf elapse d n onlyPhysicalCores m = (Ret t, m') ->
  (forall k, k ∈ fst <$> t <->
     exists f, f ∈ dl_availableFrequencies d /\ k = (snd (voltage_cores d n onlyPhysicalCores), f)) /\
  DomainLinux_getCurrentGovernor (m_world m') d = DomainLinux_getCurrentGovernor (m_world m) d /\
  DomainLinux_getCurrentGovernorBounds (m_world m') d = DomainLinux_getCurrentGovernorBounds (m_world m) d /\
  (frequency_view d (m_world m) ∈ dl_availableFrequencies d ->
   DomainLinux_getCurrentFrequencyUserspace (m_world m') d = DomainLinux_getCurrentFrequencyUserspace (m_world m) d).
Proof.
  intros Hs Hmax Hres Hel Hok Hus H. unfold DomainLinux_getVoltageTableOf in H. rewrite (ds_epyc _ d Hs) in H.
  destruct (getCurrentGovernor_ok prefix strict d Hs _ Hok) as [Eg Hg0].
  pose proof (getCurrentFrequencyUserspace_ok prefix strict d Hs _ Hok) as Ef.
  pose proof (getCurrentGovernorBounds_ok prefix strict d Hs _ Hok) as Eb.
  set (g0 := governor_view d (m_world m)) in *. set (b0 := bounds_view d (m_world m)) in *.
  rewrite (bind_Ret (query _) _ _ g0 m) in H by (unfold query; by rewrite Eg).
  erewrite (bind_Ret (query _)) in H by (unfold query; by rewrite Ef).
  erewrite (bind_Ret (query _)) in H by (unfold query; by rewrite Eb).
  destruct (setGovernor_ok prefix strict d Hs (m_world m) _ Hok Hus) as (w1 & E1 & Hok1 & G1 & _ & B1 & _).
  rewrite (bind_Ret _ _ _ _ _ (on_world_Ret _ m _ _ E1)) in H. cbn [negb] in H. cbv iota in H.
  destruct (voltage_cores d n onlyPhysicalCores) as [vs k] eqn:Ek. simpl snd.
  set (m1 := mkMachine w1 (m_vcores m)) in *.
  assert (measuring_at strict d GOVERNOR_USERSPACE b0 m1) as Hm1 by (split; [done|split; [done|exact B1]]).
  minv H. injection H as -> <-.
  assert (measuring_at strict d GOVERNOR_USERSPACE b0 st) as Hst.
  { refine (keeps_for_each _ _ _ _ _ _ _ Hm1 H0). intros v _ x y z Hx Hy.
    eapply quiet_keeps; [by eapply Hmax|done]. }
  assert (measuring_at strict d GOVERNOR_USERSPACE b0 st0) as Hst0.
  { refine (measure_loop_keeps elapse prefix strict d Hs Hel b0 _ _ _ _ _ _ _ _ _ Hst H1). done. }
  assert (measuring_at strict d GOVERNOR_USERSPACE b0 st1) as Hst1.
  { refine (keeps_for_each _ _ _ _ _ _ _ Hst0 H2). intros v _ x y z Hx Hy.
    eapply quiet_keeps; [by eapply Hres|done]. }
  split; [intros key; rewrite (measure_loop_keys elapse d _ _ _ _ _ _ _ _ H1); set_solver|].
  set (f0 := if g0 =? GOVERNOR_USERSPACE then frequency_view d (m_world m) else 0) in *.
  destruct (restore_settings prefix strict d g0 f0 b0 st1 Hs Hst1 Hg0) as (m' & E & (Hok' & Hg & Hb) & Hfr).
  rewrite (bind_Ret _ _ _ _ _ H3) in E. destruct b0 as [lb ub] eqn:Eb0. cbn [fst snd] in E.
  rewrite H4 in E. injection E as _ ->.
  rewrite (proj1 (getCurrentGovernor_ok _ _ d Hs _ Hok')), (getCurrentGovernorBounds_ok _ _ d Hs _ Hok').
  rewrite (getCurrentFrequencyUserspace_ok _ _ d Hs _ Hok'), Eg, Eb, Ef, Hg, Hb.
  split; [done|]. split; [done|]. intros Hf. fold f0. unfold f0 in *.
  destruct (Z.eqb_spec g0 GOVERNOR_USERSPACE) as [Eu|]; [|done]. by rewrite Hfr.
Qed.

(** ** A machine *)

(** A kernel that keeps the bounds ordered, on the files of the given policies. *)
Definition strict_store (policies : list string) (fs : gmap string node) (f old new : string) : string :=
  match find (fun p => bool_decide (f = p +:+ "scaling_min_freq")%string) policies with
  | Some p => if fs_number fs (p +:+ "scaling_max_freq") <? u32 (stringToInt new) then old else new
  | None =>
      match find (fun p => bool_decide (f = p +:+ "scaling_max_freq")%string) policies with
      | Some p => if u32 (stringToInt new) <? fs_number fs (p +:+ "scaling_min_freq") then old else new
      | None => new
      end
  end.

Definition freq_core0 : VirtualCore := mkVirtualCore 0 0 0.
Definition freq_core1 : VirtualCore := mkVirtualCore 0 1 1.
Definition policy0 : string := domain_path "" freq_core0.
Definition policy1 : string := domain_path "" freq_core1.
Definition policy_files (p : string) : list (string * node) :=
  [ (p +:+ "scaling_governor", RegFile ("ondemand" +:+ String newline ""));
    (p +:+ "scaling_setspeed", RegFile ("<unsupported>" +:+ String newline ""));
    (p +:+ "scaling_min_freq", RegFile ("1200000" +:+ String newline ""));
    (p +:+ "scaling_max_freq", RegFile ("1800000" +:+ String newline ""));
    (p +:+ "scaling_available_frequencies", RegFile ("2400000 1800000 1200000 " +:+ String newline ""));
    (p +:+ "scaling_available_governors", RegFile ("ondemand userspace performance " +:+ String newline "")) ]%string.
Definition cpuinfo : string :=
  "vendor_id : GenuineIntel" +:+ String newline ("cpu family : 6" +:+ String newline "").
Definition freq_world0 : World :=
  mkWorld "" (list_to_map (("/proc/cpuinfo"%string, RegFile cpuinfo) :: policy_files policy0 ++ policy_files policy1))
    ∅ (strict_store [policy0; policy1]) ∅ 0 None 100 "" (mkProcs ∅ ∅ ∅ [] (1, 1)).
Definition freq_topology : Topology := mkTopology [Cpu_new 0 []] [] [freq_core0; freq_core1].

(** The domains, as the constructor makes them. *)
Definition made_domain (id : Z) (v : VirtualCore) : DomainLinux :=
  match DomainLinux_new freq_world0 freq_topology id [v] with
  | Ret d => d
  | _ => mkDomainLinux 0 [] [] [] [] (mkMsr None) [] true
  end.
Definition domain0 : DomainLinux := Eval vm_compute in made_domain 0 freq_core0.
Definition domain1 : DomainLinux := Eval vm_compute in made_domain 1 freq_core1.
Definition freq_doms : list DomainLinux := [domain0; domain1].
Definition freq_machine0 : FreqMachine := mkFreqMachine freq_world0 (mkCpuFreqLinux freq_doms "/boost" None).

Lemma domain_static_made d : d ∈ freq_doms -> domain_static "" d.
Proof.
  assert (forall id v, id = 0 \/ id = 1 -> v = freq_core0 \/ v = freq_core1 -> domain_static ""
    (mkDomainLinux id [v] [GOVERNOR_ONDEMAND; GOVERNOR_USERSPACE; GOVERNOR_PERFORMANCE]
       [1200000; 1800000; 2400000] [domain_path "" v] (mkMsr None) [] false)) as Hgen.
  { intros id v _ Hv. split; cbn.
    - done.
    - done.
    - done.
    - intros v' ->%list_elem_of_singleton. destruct Hv as [-> | ->]; by unfold is_u32.
    - apply NoDup_singleton.
    - intros g Hg. apply list_elem_of_In in Hg. unfold GOVERNOR_NUM.
      destruct Hg as [<-|[<-|[<-|[]]]]; unfold GOVERNOR_ONDEMAND, GOVERNOR_USERSPACE, GOVERNOR_PERFORMANCE; lia.
    - intros f Hf. apply list_elem_of_In in Hf. unfold is_u32. destruct Hf as [<-|[<-|[<-|[]]]]; lia. }
  intros Hd. unfold freq_doms in Hd.
  apply elem_of_cons in Hd as [->|[->|Hd%not_elem_of_nil]%elem_of_cons]; [| |done].
  - apply (Hgen 0 freq_core0); auto.
  - apply (Hgen 1 freq_core1); auto.
Qed.

Lemma strict_store_ok p w : p ∈ [policy0; policy1] -> w_store w = strict_store [policy0; policy1] -> store_ok true w p.
Proof.
  intros Hp Hw fs old new Hn. rewrite Hw. unfold strict_store.
  assert (forall q, q ∈ [policy0; policy1] ->
    find (fun p => bool_decide (q +:+ "scaling_governor" = p +:+ "scaling_min_freq")%string) [policy0; policy1] = None /\
    find (fun p => bool_decide (q +:+ "scaling_governor" = p +:+ "scaling_max_freq")%string) [policy0; policy1] = None /\
    find (fun p => bool_decide (q +:+ "scaling_setspeed" = p +:+ "scaling_min_freq")%string) [policy0; policy1] = None /\
    find (fun p => bool_decide (q +:+ "scaling_setspeed" = p +:+ "scaling_max_freq")%string) [policy0; policy1] = None /\
    find (fun p => bool_decide (q +:+ "scaling_min_freq" = p +:+ "scaling_min_freq")%string) [policy0; policy1] = Some q /\
    find (fun p => bool_decide (q +:+ "scaling_max_freq" = p +:+ "scaling_min_freq")%string) [policy0; policy1] = None /\
    find (fun p => bool_decide (q +:+ "scaling_max_freq" = p +:+ "scaling_max_freq")%string) [policy0; policy1] = Some q) as H.
  { intros q [->|[->|Hq%not_elem_of_nil]%elem_of_cons]%elem_of_cons; [..|done]; vm_compute; auto 10. }
  destruct (H p Hp) as (-> & -> & -> & -> & -> & -> & ->). simpl andb.
  rewrite (first_line_whole new Hn). split; [done|]. split; [done|].
  split; [by destruct (_ <? _); rewrite ?(first_line_whole new Hn)|].
  by destruct (_ <? _); rewrite ?(first_line_whole new Hn).
Qed.

Lemma freq_machine0_ok : freq_ok true freq_doms freq_machine0.
Proof.
  split; [done|]. intros d Hd. unfold freq_doms in Hd.
  apply elem_of_cons in Hd as [->|[->|Hd%not_elem_of_nil]%elem_of_cons]; [| |done]; split.
  - intros p name Hp Hn. apply list_elem_of_In in Hp, Hn. destruct Hp as [<-|[]].
    destruct Hn as [<-|[<-|[<-|[<-|[]]]]]; (split; [eexists|]; vm_compute; reflexivity).
  - intros p Hp. apply list_elem_of_In in Hp. destruct Hp as [<-|[]]. by apply strict_store_ok; [left|].
  - exists GOVERNOR_ONDEMAND. split; [apply list_elem_of_In; vm_compute; auto|vm_compute; reflexivity].
  - intros p name Hp Hn. apply list_elem_of_In in Hp, Hn. destruct Hp as [<-|[]].
    destruct Hn as [<-|[<-|[<-|[<-|[]]]]]; (split; [eexists|]; vm_compute; reflexivity).
  - intros p Hp. apply list_elem_of_In in Hp. destruct Hp as [<-|[]]. by apply strict_store_ok; [right; left|].
  - exists GOVERNOR_ONDEMAND. split; [apply list_elem_of_In; vm_compute; auto|vm_compute; reflexivity].
Qed.

Lemma freq_doms_disjoint i j d d' : freq_doms !! i = Some d -> freq_doms !! j = Some d' -> i <> j ->
  forall v v', v ∈ dl_virtualCores d -> v' ∈ dl_virtualCores d' -> vc_virtualCoreId v <> vc_virtualCoreId v'.
Proof.
  intros Hi Hj Hne v v' Hv Hv'.
  destruct i as [|[|i]], j as [|[|j]]; simplify_eq/=; try done;
    apply list_elem_of_In in Hv, Hv'; destruct Hv as [<-|[]], Hv' as [<-|[]]; done.
Qed.

#[export] Instance freq_laws0 : CpuFreqLaws FreqMachine nat [0%nat; 1%nat] :=
  freq_laws "" true freq_doms domain_static_made freq_doms_disjoint.

Lemma domain0_ok : domain_ok true domain0 freq_world0.
Proof. apply freq_machine0_ok. left. Qed.
Lemma domain0_static : domain_static "" domain0.
Proof. apply domain_static_made. left. Qed.

(** ** Witnesses *)

Lemma DomainLinux_setGovernorBounds_spec_witness :
  exists w', DomainLinux_setGovernorBounds domain0 2400000 2400000 freq_world0 = (Ret true, w') /\
    DomainLinux_getCurrentGovernorBounds w' domain0 = Ret (Some (1200000, 2400000)).
Proof.
  pose proof (DomainLinux_setGovernorBounds_spec "" true domain0 2400000 2400000 freq_world0
                domain0_static domain0_ok) as (w' & E & _ & _ & _ & H).
  exists w'. split; [exact E|]. apply H; [reflexivity|vm_compute; reflexivity|vm_compute; congruence].
Defined.

Lemma DomainLinux_setFrequencyUserspace_spec_witness :
  DomainLinux_setFrequencyUserspace domain0 1800000 freq_world0 = (Ret false, freq_world0).
Proof.
  pose proof (DomainLinux_setFrequencyUserspace_spec "" true domain0 1800000 freq_world0
                domain0_static domain0_ok) as (g & Eg & H).
  assert (g = GOVERNOR_ONDEMAND) as -> by (vm_compute in Eg; injection Eg as <-; reflexivity).
  exact H.
Defined.

Definition epyc_domain : DomainLinux :=
  mkDomainLinux 0 [freq_core0] [GOVERNOR_USERSPACE] [1600000; 2200000] [] (mkMsr (Some (0, true))) [] true.
Definition epyc_world : World :=
  mkWorld "" (list_to_map [("/dev/cpu/0/msr"%string, MsrFile 0);
    ("/proc/cpuinfo"%string, RegFile ("vendor_id : AuthenticAMD" +:+ String newline ("cpu family : 23" +:+ String newline "")))])
    ∅ (fun _ _ _ new => new)
    {[ 0 := list_to_map [(MSR_EPYC_PSTATE_CONTROL, 0); (MSR_EPYC_PSTATE_0, 88 + 8 * 256); (MSR_EPYC_PSTATE_0 + 1, 64 + 8 * 256)] ]}
    0 None 100 "" (mkProcs ∅ ∅ ∅ [] (1, 1)).

Lemma epyc_frequency_roundtrip_witness :
  exists w', DomainLinux_setFrequencyUserspace epyc_domain 1600000 epyc_world = (Ret true, w') /\
    DomainLinux_getCurrentFrequencyUserspace w' epyc_domain = Ret 1600000.
Proof.
  destruct (epyc_frequency_roundtrip epyc_domain 0 0 1600000 epyc_world) as [H _].
  - reflexivity.
  - vm_compute. lia.
  - split; [reflexivity|]. eexists. split; vm_compute; reflexivity.
  - split; vm_compute; congruence.
  - apply H. left.
Defined.

Lemma epyc_selects_the_pstate_witness :
  exists d k', DomainLinux_new epyc_world freq_topology 0 [freq_core0] = Ret d /\ 0 <= k' < 2 /\
    DomainLinux_setFrequencyUserspace d 1600000 epyc_world = Msr_writeBits (dl_msr d) MSR_EPYC_PSTATE_CONTROL 2 0 k' epyc_world.
Proof.
  destruct (DomainLinux_new epyc_world freq_topology 0 [freq_core0]) as [d| |] eqn:E;
    [|vm_compute in E; discriminate E..].
  destruct (epyc_selects_the_pstate epyc_world epyc_world freq_topology 0 [freq_core0] d
              (fun k => if k =? 0 then 2200000 else 1600000) 2 1 E) as (k' & Hk & _ & H).
  - vm_compute in E. injection E as <-. reflexivity.
  - lia.
  - assert (dl_msr d = mkMsr (Some (0, true))) as -> by (vm_compute in E; injection E as <-; reflexivity).
    intros k Hk. assert (k ∈ seqZ 0 9) as Hin by (apply elem_of_seqZ; lia). cbn in Hin.
    repeat (apply elem_of_cons in Hin as [->|Hin]; [vm_compute; reflexivity|]). by apply not_elem_of_nil in Hin.
  - lia.
  - exists d, k'. auto.
Defined.

Lemma DomainLinux_new_spec_witness :
  exists d, DomainLinux_new freq_world0 freq_topology 0 [freq_core0] = Ret d /\
    dl_availableFrequencies d ≡ₚ [2400000; 1800000; 1200000].
Proof.
  destruct (DomainLinux_new_spec freq_world0 freq_topology 0 [freq_core0] freq_core0
              ("2400000 1800000 1200000 " +:+ String newline "")
              ("ondemand userspace performance " +:+ String newline "")) as [H1 [_ H2]].
  - reflexivity.
  - vm_compute. reflexivity.
  - vm_compute. reflexivity.
  - vm_compute. reflexivity.
  - destruct H2 as [d Hd].
    + repeat constructor; apply list_elem_of_In; vm_compute; auto 10.
    + exists d. split; [exact Hd|]. destruct (H1 d Hd) as (_ & _ & H & _). rewrite H. vm_compute. reflexivity.
Defined.

(** Cores that do nothing, for the measurement. *)
Definition idle_cores : VirtualCoreOps Machine := {|
  v_new c := ret (mkVirtualCore (vcc_cpuId c) (vcc_physicalCoreId c) (vcc_virtualCoreId c));
  v_maximizeUtilization _ := ret tt;
  v_resetUtilization _ := ret tt;
  v_isHotPluggable _ := ret false;
  v_isHotPlugged _ := ret true;
  v_hotPlug _ := ret tt;
  v_hotUnplug _ := ret tt;
  v_hasClockModulation _ := ret false;
  v_getClockModulationValues _ := ret [];
  v_setClockModulation _ _ := ret tt;
  v_getClockModulation _ := ret d_zero
|}.

Lemma getVoltageTable_restores_witness :
  exists t m', DomainLinux_getVoltageTableOf (VO := idle_cores) (fun _ m => m) domain0 1 true
      (mkMachine freq_world0 ∅) = (Ret t, m') /\
    DomainLinux_getCurrentGovernor (m_world m') domain0 = Ret GOVERNOR_ONDEMAND /\
    (1, 1800000) ∈ fst <$> t.
Proof.
  assert (exists t, fst (DomainLinux_getVoltageTableOf (VO := idle_cores) (fun _ m => m) domain0 1 true
      (mkMachine freq_world0 ∅)) = Ret t) as [t Et] by (eexists; vm_compute; reflexivity).
  destruct (DomainLinux_getVoltageTableOf (VO := idle_cores) (fun _ m => m) domain0 1 true
      (mkMachine freq_world0 ∅)) as [o m'] eqn:E. simpl in Et. subst o.
  exists t, m'. destruct (getVoltageTable_restores (VO := idle_cores) (fun _ m => m) "" true domain0 1 true
                            (mkMachine freq_world0 ∅) m' t domain0_static) as (H1 & H2 & _).
  - intros v m r m1 [= _ <-] Hok. auto.
  - intros v m r m1 [= _ <-] Hok. auto.
  - intros n m Hok. auto.
  - exact domain0_ok.
  - apply list_elem_of_In. vm_compute. auto.
  - exact E.
  - split; [reflexivity|]. split; [rewrite H2; vm_compute; reflexivity|].
    apply H1. exists 1800000. split; [apply list_elem_of_In; vm_compute; auto|reflexivity].
Defined.

(** ** The module, on the machine *)
Definition freq_cores (d : nat) : list VirtualCore :=
  match freq_doms !! d with Some dl => dl_virtualCores dl | None => [] end.

Lemma CpuFreq_getDomain_spec_witness : CpuFreq_getDomain freq_core1 freq_machine0 = Ret 1%nat.
Proof.
  apply (proj1 (CpuFreq_getDomain_spec freq_machine0 freq_cores freq_core1
    ltac:(intros d Hd; apply list_elem_of_In in Hd; destruct Hd as [<-|[<-|[]]]; reflexivity)) 1%nat).
  exists [0%nat], []. split; [reflexivity|]. split; [left|].
  intros d ->%list_elem_of_singleton. intros Hin. apply list_elem_of_In in Hin. destruct Hin as [Hin|[]].
  vm_compute in Hin. discriminate Hin.
Defined.

Lemma CpuFreq_getDomainsComplete_spec_witness :
  exists l, CpuFreq_getDomainsComplete [freq_core1] freq_machine0 = Ret l /\ 1%nat ∈ l.
Proof.
  destruct (CpuFreq_getDomainsComplete_spec freq_machine0 freq_cores [freq_core1]) as (l & E & _ & H).
  - intros d Hd. apply list_elem_of_In in Hd. destruct Hd as [<-|[<-|[]]]; reflexivity.
  - vm_compute. reflexivity.
  - apply NoDup_singleton.
  - intros d Hd. apply list_elem_of_In in Hd. destruct Hd as [<-|[<-|[]]]; apply NoDup_singleton.
  - exists l. split; [exact E|]. apply H. split; [right; left|].
    intros v ->%list_elem_of_singleton. left.
Defined.

Definition freq_rp : CpuFreqRollbackPoint :=
  match fst (CpuFreq_getRollbackPoint freq_machine0) with
  | Ret rp => rp | _ => mkCpuFreqRollbackPoint [] [] [] []
  end.

Lemma CpuFreq_rollback_restores_witness :
  exists s s', d_setGovernor 0%nat GOVERNOR_PERFORMANCE freq_machine0 = (Ret true, s) /\
    CpuFreq_rollback freq_rp s = (Ret tt, s') /\
    d_getCurrentGovernor 0%nat s' = (Ret GOVERNOR_ONDEMAND, s').
Proof.
  destruct (fl_setGovernor 0%nat GOVERNOR_PERFORMANCE freq_machine0) as (s & E & Hok & _ & B & O);
    [left|exact freq_machine0_ok|apply list_elem_of_In; vm_compute; auto|].
  destruct (CpuFreq_rollback_restores [0%nat; 1%nat] freq_machine0 s freq_rp) as (s' & E' & _ & H).
  - exact (NoDup_seq 0 2).
  - exact freq_machine0_ok.
  - exact Hok.
  - rewrite (freq_rollback_point_spec (FL := freq_laws0) freq_machine0 freq_machine0_ok (NoDup_seq 0 2)).
    apply (f_equal (fun x => (x, freq_machine0))). vm_compute. reflexivity.
  - assert (forall d, d ∈ [0%nat; 1%nat] -> fl_bounds d s = fl_bounds d freq_machine0) as Hb.
    { intros d Hd. destruct (decide (d = 0%nat)) as [->|Hne]; [exact B|]. by apply O. }
    assert (forall d, d ∈ [0%nat; 1%nat] -> fl_bounds d freq_machine0 = (1200000, 1800000) /\
      fl_governor d freq_machine0 = GOVERNOR_ONDEMAND /\ fl_frequencies d = [1200000; 1800000; 2400000]) as Hv.
    { intros d Hd. apply list_elem_of_In in Hd. destruct Hd as [<-|[<-|[]]]; vm_compute; auto. }
    intros d Hd. unfold restorable. rewrite Hb by done. destruct (Hv d Hd) as (-> & -> & ->).
    split; [left|]. split; [right; left|]. split; vm_compute; congruence.
  - exists s, s'. split; [exact E|]. split; [exact E'|].
    destruct (H 0%nat) as [Hg _]; [left|]. rewrite Hg. vm_compute. reflexivity.
Defined.

(** A domain whose upper bound is a turbo frequency. *)
Definition turbo_world : World :=
  mkWorld "" (<[(policy0 +:+ "scaling_max_freq")%string := RegFile ("1801000" +:+ String newline "")]> (w_fs freq_world0))
    ∅ (strict_store [policy0; policy1]) ∅ 0 None 100 "" (mkProcs ∅ ∅ ∅ [] (1, 1)).
Definition turbo_machine : FreqMachine :=
  mkFreqMachine turbo_world
    (mkCpuFreqLinux [with_frequencies [1200000; 1801000] [] domain0] "/boost" None).

(** When the turbo frequencies are removed after the rollback point was taken, the rollback throws,
    because the bounds it restores are not available any more. *)
Lemma rollback_after_turbo_removed :
  fst ((let* rp := CpuFreq_getRollbackPoint in
        do* d_removeTurboFrequencies 0%nat in
        CpuFreq_rollback rp) turbo_machine)
  = Throw (runtime_error "Domain: Impossible to rollback the domain to bounds: 1200000 1801000") /\
  fst ((let* rp := CpuFreq_getRollbackPoint in CpuFreq_rollback rp) turbo_machine) = Ret tt.
Proof. split; vm_compute; reflexivity. Qed.

Lemma dumpVoltageTable_loadVoltageTable_witness :
  exists w', dumpVoltageTable (fun v => if deqb v d_zero then "0" else "1.25")%string
      [((1, 1200000), d_zero); ((2, 1200000), stringToDouble "1.25")] "/tmp/table" freq_world0 = (Ret tt, w') /\
    loadVoltageTable w' "/tmp/table" = Ret [((1, 1200000), d_zero); ((2, 1200000), stringToDouble "1.25")].
Proof.
  apply (dumpVoltageTable_loadVoltageTable (fun v => if deqb v d_zero then "0" else "1.25")%string).
  - vm_compute. reflexivity.
  - intros n Hn. vm_compute in Hn. discriminate Hn.
  - repeat constructor; vm_compute; congruence.
  - repeat constructor.
Defined.
