(* ===== verification/Energy.v ===== *)
(** * Energy (src/energy/energy.cpp)

    The counters and the power cappers behind their interfaces: the class [EnergyOps] has the
    virtual methods of [Counter], [CounterCpus] and [PowerCapper], on a state [S] of the module;
    a pointer to a counter is its type, and [e_counter] tells whether it is null. *)
From S2P Require Import Prelude UtilsText UtilsVector Double UtilsSys Topology.

(** ** Data *)

(** [CounterType], include/mammut/energy/energy.hpp:16-21. *)
Definition CounterType : Type := Z.
Definition COUNTER_CPUS : CounterType := 0.
Definition COUNTER_MEMORY : CounterType := 1.
Definition COUNTER_PLUG : CounterType := 2.
Definition COUNTER_NUM : CounterType := 3.

(** [JoulesCpu], include/mammut/energy/energy.hpp:401-412. *)
Record JoulesCpu := mkJoulesCpu { j_cpu : double; j_cores : double; j_graphic : double; j_dram : double }.
#[export] Instance JoulesCpu_eq_dec : EqDecision JoulesCpu.
Proof. solve_decision. Defined.

(** [JoulesCpu::JoulesCpu], include/mammut/energy/energy.hpp:409-409. *)
Definition JoulesCpu_zero : JoulesCpu := mkJoulesCpu d_zero d_zero d_zero d_zero.

Definition JoulesCpu_map2 (op : double -> double -> double) (a b : JoulesCpu) : JoulesCpu :=
  mkJoulesCpu (op (j_cpu a) (j_cpu b)) (op (j_cores a) (j_cores b)) (op (j_graphic a) (j_graphic b))
    (op (j_dram a) (j_dram b)).
(** [JoulesCpu::operator+=], include/mammut/energy/energy.hpp:433-439. *)
Definition JoulesCpu_add : JoulesCpu -> JoulesCpu -> JoulesCpu := JoulesCpu_map2 dadd.
(** [JoulesCpu::operator-=], include/mammut/energy/energy.hpp:441-447. *)
Definition JoulesCpu_sub : JoulesCpu -> JoulesCpu -> JoulesCpu := JoulesCpu_map2 dsub.
(** [JoulesCpu::operator*=], include/mammut/energy/energy.hpp:449-455. *)
Definition JoulesCpu_mul : JoulesCpu -> JoulesCpu -> JoulesCpu := JoulesCpu_map2 dmul.
(** [JoulesCpu::operator/=], include/mammut/energy/energy.hpp:457-463. *)
Definition JoulesCpu_div : JoulesCpu -> JoulesCpu -> JoulesCpu := JoulesCpu_map2 ddiv.
(** [JoulesCpu::operator/=], include/mammut/energy/energy.hpp:465-471. *)
Definition JoulesCpu_div_scalar (a : JoulesCpu) (x : double) : JoulesCpu :=
  JoulesCpu_map2 ddiv a (mkJoulesCpu x x x x).
(** [JoulesCpu::operator*=], include/mammut/energy/energy.hpp:473-479. *)
Definition JoulesCpu_mul_scalar (a : JoulesCpu) (x : double) : JoulesCpu :=
  JoulesCpu_map2 dmul a (mkJoulesCpu x x x x).

(** [PowerCap], include/mammut/energy/energy.hpp:273-277. *)
Record PowerCap := mkPowerCap { cap_value : double; cap_window : double; cap_preparedOnly : bool }.

(** [RollbackPoint], include/mammut/energy/energy.hpp:333-335: one vector per counter type. *)
Definition EnergyRollbackPoint : Type := list (list (PowerCap * PowerCap)).

(** The virtual methods of the counters, include/mammut/energy/energy.hpp:29-268, and of
    [PowerCapper]; the CPU counter's getters take a CPU identifier. *)
Class EnergyOps (S : Type) := {
  e_counter : S -> CounterType -> bool;
  e_init : CounterType -> M S bool;
  e_reset : CounterType -> M S unit;
  (** [getJoules] of the plug and memory counters. *)
  e_getJoules : CounterType -> M S double;
  e_cpus : S -> list Cpu;
  e_getJoulesComponents : Z -> M S JoulesCpu;
  e_getJoulesCpu : Z -> M S double;
  e_getJoulesCores : Z -> M S double;
  e_getJoulesGraphic : Z -> M S double;
  e_getJoulesDram : Z -> M S double;
  e_hasJoulesCores : M S bool;
  e_hasJoulesGraphic : M S bool;
  e_hasJoulesDram : M S bool;
  e_powerCapper : S -> CounterType -> bool;
  p_get : CounterType -> M S (list (PowerCap * PowerCap));
  p_set : CounterType -> Z -> Z -> PowerCap -> M S unit    (* type, window, socket *)
}.

(** ** Operations *)
Section operations.
Context {S : Type} {EO : EnergyOps S}.

(** A sum over the CPUs, from zero. *)
Definition sum_cpus {A} (zero : A) (add : A -> A -> A) (get : Z -> M S A) : M S A :=
  let* cpus := gets e_cpus in
  for_fold cpus zero (fun r cpu => let* j := get (cpu_cpuId cpu) in ret (add r j)).

(** [CounterCpus::getJoulesComponentsAll], src/energy/energy.cpp:20-26. *)
Definition CounterCpus_getJoulesComponentsAll : M S JoulesCpu :=
  sum_cpus JoulesCpu_zero JoulesCpu_add e_getJoulesComponents.
(** [CounterCpus::getJoulesCpuAll], src/energy/energy.cpp:28-34. *)
Definition CounterCpus_getJoulesCpuAll : M S double := sum_cpus d_zero dadd e_getJoulesCpu.
(** [CounterCpus::getJoulesCoresAll], src/energy/energy.cpp:36-42. *)
Definition CounterCpus_getJoulesCoresAll : M S double := sum_cpus d_zero dadd e_getJoulesCores.
(** [CounterCpus::getJoulesGraphicAll], src/energy/energy.cpp:44-50. *)
Definition CounterCpus_getJoulesGraphicAll : M S double := sum_cpus d_zero dadd e_getJoulesGraphic.
(** [CounterCpus::getJoulesDramAll], src/energy/energy.cpp:52-58. *)
Definition CounterCpus_getJoulesDramAll : M S double := sum_cpus d_zero dadd e_getJoulesDram.
(** [CounterCpus::getJoules], src/energy/energy.cpp:60-62. *)
Definition CounterCpus_getJoules : M S double := CounterCpus_getJoulesCpuAll.

(** [CounterCpus::getJoulesComponents], src/energy/energy.cpp:64-66. *)
Definition CounterCpus_getJoulesComponentsOf (cpu : Cpu) : M S JoulesCpu := e_getJoulesComponents (cpu_cpuId cpu).
(** [CounterCpus::getJoulesCpu], src/energy/energy.cpp:68-70. *)
Definition CounterCpus_getJoulesCpuOf (cpu : Cpu) : M S double := e_getJoulesCpu (cpu_cpuId cpu).
(** [CounterCpus::getJoulesCores], src/energy/energy.cpp:72-74. *)
Definition CounterCpus_getJoulesCoresOf (cpu : Cpu) : M S double := e_getJoulesCores (cpu_cpuId cpu).
(** [CounterCpus::getJoulesGraphic], src/energy/energy.cpp:76-78. *)
Definition CounterCpus_getJoulesGraphicOf (cpu : Cpu) : M S double := e_getJoulesGraphic (cpu_cpuId cpu).
(** [CounterCpus::getJoulesDram], src/energy/energy.cpp:80-82. *)
Definition CounterCpus_getJoulesDramOf (cpu : Cpu) : M S double := e_getJoulesDram (cpu_cpuId cpu).

(** [Energy::getCountersTypes], src/energy/energy.cpp:276-292. *)
Definition Energy_getCountersTypes (s : S) : list CounterType :=
  let r := if e_counter s COUNTER_CPUS then [COUNTER_CPUS] else [] in
  let r := if e_counter s COUNTER_MEMORY then r ++ [COUNTER_MEMORY] else r in
  if e_counter s COUNTER_PLUG then r ++ [COUNTER_PLUG] else r.

(** [Energy::getCounter], src/energy/energy.cpp:294-310. [None] is a null pointer. *)
Definition Energy_getCounterOf (s : S) (type : CounterType) : outcome (option CounterType) :=
  if (type =? COUNTER_CPUS) || (type =? COUNTER_MEMORY) || (type =? COUNTER_PLUG) then
    Ret (if e_counter s type then Some type else None)
  else Throw (runtime_error "Unknown counter type.").

(** [Energy::getCounter], src/energy/energy.cpp:266-274. *)
Definition Energy_getCounter (s : S) : outcome (option CounterType) :=
  let cts := Energy_getCountersTypes s in
  if bool_decide (cts = []) then Ret None
  else t ← vec_at cts 0; Energy_getCounterOf s t.

(** [Energy::getPowerCapper], src/energy/energy.cpp:312-317. [std::array::operator[]] is not
    checked. *)
Definition Energy_getPowerCapper (s : S) (type : CounterType) : outcome (option CounterType) :=
  if type =? COUNTER_NUM then Throw (runtime_error "getPowerCapper: Invalid CounterType.")
  else if (0 <=? type) && (type <? COUNTER_NUM) then Ret (if e_powerCapper s type then Some type else None)
  else Undef "array index past the end".

(** [Energy::getRollbackPoint], src/energy/energy.cpp:319-327. *)
Definition Energy_getRollbackPoint : M S EnergyRollbackPoint :=
  for_map (seqZ 0 COUNTER_NUM) (fun i =>
    let* present := gets (fun s => e_powerCapper s i) in
    if (present : bool) then p_get i else ret []).

(** [Energy::rollback], src/energy/energy.cpp:335-339: the caps of one socket. *)
Definition rollback_socket (i : CounterType) (socketId : nat) (cap : PowerCap * PowerCap) : M S unit :=
  do* p_set i 0 (Z.of_nat socketId) (fst cap) in
  p_set i 1 (Z.of_nat socketId) (snd cap).

(** [Energy::rollback], src/energy/energy.cpp:330-342. *)
Definition Energy_rollback (rollbackPoint : EnergyRollbackPoint) : M S unit :=
  for_each (seqZ 0 COUNTER_NUM) (fun i =>
    let* present := gets (fun s => e_powerCapper s i) in
    if (present : bool) then
      let* capsSockets := lift (vec_index rollbackPoint (Z.to_nat i)) in
      for_each (enumerate capsSockets) (fun '(socketId, cap) => rollback_socket i socketId cap)
    else ret tt).
End operations.

(** * Properties *)

(** The counter that [getCounter] chooses is the most precise one there is: the CPUs', else
    the memory's, else the plug's, and a null pointer exactly when there is none; asked for by
    type, a counter is there or null, and a type that is none of the three is an error. *)
Theorem Energy_getCounter_spec {S} {EO : EnergyOps S} (s : S) :
  Energy_getCounter s =
    Ret (if e_counter s COUNTER_CPUS then Some COUNTER_CPUS
         else if e_counter s COUNTER_MEMORY then Some COUNTER_MEMORY
         else if e_counter s COUNTER_PLUG then Some COUNTER_PLUG else None) /\
  (forall t, t ∈ Energy_getCountersTypes s <->
     e_counter s t = true /\ Energy_getCounterOf s t = Ret (Some t)) /\
  (forall t, t ∉ [COUNTER_CPUS; COUNTER_MEMORY; COUNTER_PLUG] ->
     exists what, Energy_getCounterOf s t = Throw (runtime_error what)).
Proof.
  split; [|split].
  - unfold Energy_getCounter, Energy_getCountersTypes, Energy_getCounterOf.
    destruct (e_counter s COUNTER_CPUS) eqn:E1, (e_counter s COUNTER_MEMORY) eqn:E2,
      (e_counter s COUNTER_PLUG) eqn:E3; simpl; by rewrite ?E1, ?E2, ?E3.
  - intros t. unfold Energy_getCountersTypes, Energy_getCounterOf. split.
    + destruct (e_counter s COUNTER_CPUS) eqn:E1, (e_counter s COUNTER_MEMORY) eqn:E2,
        (e_counter s COUNTER_PLUG) eqn:E3; simpl; intros Ht; apply list_elem_of_In in Ht; simpl in Ht;
        repeat (destruct Ht as [<-|Ht]; [by rewrite ?E1, ?E2, ?E3|]); done.
    + intros [Ht H]. destruct (Z.eqb_spec t COUNTER_CPUS) as [->|]; [rewrite Ht; destruct (e_counter s COUNTER_MEMORY), (e_counter s COUNTER_PLUG); set_solver|].
      destruct (Z.eqb_spec t COUNTER_MEMORY) as [->|]; [rewrite Ht; destruct (e_counter s COUNTER_CPUS), (e_counter s COUNTER_PLUG); set_solver|].
      destruct (Z.eqb_spec t COUNTER_PLUG) as [->|]; [rewrite Ht; destruct (e_counter s COUNTER_CPUS), (e_counter s COUNTER_MEMORY); set_solver|].
      done.
  - intros t Ht. unfold Energy_getCounterOf. rewrite !not_elem_of_cons in Ht. destruct Ht as (H1 & H2 & H3 & _).
    apply Z.eqb_neq in H1, H2, H3. rewrite H1, H2, H3. by eexists.
Qed.
