(* ===== verification/UsbBase.v ===== *)
(** * The data of libusb, memory that can run out and buffers of bytes

    The enumerations and structures of src/external/libusb-1.0.9/libusb/libusb.h that the other
    Usb files use.  [Heap] is the memory that malloc and free manage: the identifiers of the
    live blocks and an oracle of the allocations that will fail; a structure holds the blocks it
    points to, with their contents, so that [owns] can say which blocks belong to it.  A pointer
    into a buffer of bytes is the list of the bytes from there to the end of the buffer: what is
    read past the end is [Undef overrun]. *)
From S2P Require Import Prelude.

(** ** The enumerations of libusb.h *)

(** [libusb_class_code], src/external/libusb-1.0.9/libusb/libusb.h:143-201.  The legacy name
    [LIBUSB_CLASS_PTP] is the value of [LIBUSB_CLASS_IMAGE]. *)
Inductive libusb_class_code :=
  | LIBUSB_CLASS_PER_INTERFACE | LIBUSB_CLASS_AUDIO | LIBUSB_CLASS_COMM | LIBUSB_CLASS_HID
  | LIBUSB_CLASS_PHYSICAL | LIBUSB_CLASS_PRINTER | LIBUSB_CLASS_IMAGE | LIBUSB_CLASS_MASS_STORAGE
  | LIBUSB_CLASS_HUB | LIBUSB_CLASS_DATA | LIBUSB_CLASS_SMART_CARD | LIBUSB_CLASS_CONTENT_SECURITY
  | LIBUSB_CLASS_VIDEO | LIBUSB_CLASS_PERSONAL_HEALTHCARE | LIBUSB_CLASS_DIAGNOSTIC_DEVICE
  | LIBUSB_CLASS_WIRELESS | LIBUSB_CLASS_APPLICATION | LIBUSB_CLASS_VENDOR_SPEC.
Definition class_value (c : libusb_class_code) : Z :=
  match c with
  | LIBUSB_CLASS_PER_INTERFACE => 0
  | LIBUSB_CLASS_AUDIO => 1
  | LIBUSB_CLASS_COMM => 2
  | LIBUSB_CLASS_HID => 3
  | LIBUSB_CLASS_PHYSICAL => 5
  | LIBUSB_CLASS_PRINTER => 7
  | LIBUSB_CLASS_IMAGE => 6
  | LIBUSB_CLASS_MASS_STORAGE => 8
  | LIBUSB_CLASS_HUB => 9
  | LIBUSB_CLASS_DATA => 10
  | LIBUSB_CLASS_SMART_CARD => 0x0b
  | LIBUSB_CLASS_CONTENT_SECURITY => 0x0d
  | LIBUSB_CLASS_VIDEO => 0x0e
  | LIBUSB_CLASS_PERSONAL_HEALTHCARE => 0x0f
  | LIBUSB_CLASS_DIAGNOSTIC_DEVICE => 0xdc
  | LIBUSB_CLASS_WIRELESS => 0xe0
  | LIBUSB_CLASS_APPLICATION => 0xfe
  | LIBUSB_CLASS_VENDOR_SPEC => 0xff
  end.
#[global] Coercion class_value : libusb_class_code >-> Z.

(** [libusb_descriptor_type], src/external/libusb-1.0.9/libusb/libusb.h:205-232. *)
Inductive libusb_descriptor_type :=
  | LIBUSB_DT_DEVICE | LIBUSB_DT_CONFIG | LIBUSB_DT_STRING | LIBUSB_DT_INTERFACE
  | LIBUSB_DT_ENDPOINT | LIBUSB_DT_HID | LIBUSB_DT_REPORT | LIBUSB_DT_PHYSICAL | LIBUSB_DT_HUB.
Definition dt_value (t : libusb_descriptor_type) : Z :=
  match t with
  | LIBUSB_DT_DEVICE => 1
  | LIBUSB_DT_CONFIG => 2
  | LIBUSB_DT_STRING => 3
  | LIBUSB_DT_INTERFACE => 4
  | LIBUSB_DT_ENDPOINT => 5
  | LIBUSB_DT_HID => 0x21
  | LIBUSB_DT_REPORT => 0x22
  | LIBUSB_DT_PHYSICAL => 0x23
  | LIBUSB_DT_HUB => 0x29
  end.
#[global] Coercion dt_value : libusb_descriptor_type >-> Z.

(** [libusb_endpoint_direction] and the masks of an endpoint's address and attributes,
    src/external/libusb-1.0.9/libusb/libusb.h:242-257. *)
Definition LIBUSB_ENDPOINT_ADDRESS_MASK : Z := 0x0f.
Definition LIBUSB_ENDPOINT_DIR_MASK : Z := 0x80.
Definition LIBUSB_ENDPOINT_IN : Z := 0x80.
Definition LIBUSB_ENDPOINT_OUT : Z := 0x00.
Definition LIBUSB_TRANSFER_TYPE_MASK : Z := 0x03.

(** [libusb_transfer_type], src/external/libusb-1.0.9/libusb/libusb.h:263-275. *)
Inductive libusb_transfer_type :=
  | LIBUSB_TRANSFER_TYPE_CONTROL | LIBUSB_TRANSFER_TYPE_ISOCHRONOUS
  | LIBUSB_TRANSFER_TYPE_BULK | LIBUSB_TRANSFER_TYPE_INTERRUPT.
Definition type_value (t : libusb_transfer_type) : Z :=
  match t with
  | LIBUSB_TRANSFER_TYPE_CONTROL => 0
  | LIBUSB_TRANSFER_TYPE_ISOCHRONOUS => 1
  | LIBUSB_TRANSFER_TYPE_BULK => 2
  | LIBUSB_TRANSFER_TYPE_INTERRUPT => 3
  end.
#[global] Coercion type_value : libusb_transfer_type >-> Z.

(** [libusb_standard_request], src/external/libusb-1.0.9/libusb/libusb.h:279-316. *)
Inductive libusb_standard_request :=
  | LIBUSB_REQUEST_GET_STATUS | LIBUSB_REQUEST_CLEAR_FEATURE | LIBUSB_REQUEST_SET_FEATURE
  | LIBUSB_REQUEST_SET_ADDRESS | LIBUSB_REQUEST_GET_DESCRIPTOR | LIBUSB_REQUEST_SET_DESCRIPTOR
  | LIBUSB_REQUEST_GET_CONFIGURATION | LIBUSB_REQUEST_SET_CONFIGURATION
  | LIBUSB_REQUEST_GET_INTERFACE | LIBUSB_REQUEST_SET_INTERFACE | LIBUSB_REQUEST_SYNCH_FRAME.
Definition request_value (r : libusb_standard_request) : Z :=
  match r with
  | LIBUSB_REQUEST_GET_STATUS => 0x00
  | LIBUSB_REQUEST_CLEAR_FEATURE => 0x01
  | LIBUSB_REQUEST_SET_FEATURE => 0x03
  | LIBUSB_REQUEST_SET_ADDRESS => 0x05
  | LIBUSB_REQUEST_GET_DESCRIPTOR => 0x06
  | LIBUSB_REQUEST_SET_DESCRIPTOR => 0x07
  | LIBUSB_REQUEST_GET_CONFIGURATION => 0x08
  | LIBUSB_REQUEST_SET_CONFIGURATION => 0x09
  | LIBUSB_REQUEST_GET_INTERFACE => 0x0A
  | LIBUSB_REQUEST_SET_INTERFACE => 0x0B
  | LIBUSB_REQUEST_SYNCH_FRAME => 0x0C
  end.
#[global] Coercion request_value : libusb_standard_request >-> Z.

(** [libusb_request_type], src/external/libusb-1.0.9/libusb/libusb.h:322-334. *)
Inductive libusb_request_type :=
  | LIBUSB_REQUEST_TYPE_STANDARD | LIBUSB_REQUEST_TYPE_CLASS | LIBUSB_REQUEST_TYPE_VENDOR
  | LIBUSB_REQUEST_TYPE_RESERVED.
Definition request_type_value (t : libusb_request_type) : Z :=
  match t with
  | LIBUSB_REQUEST_TYPE_STANDARD => Z.shiftl 0 5
  | LIBUSB_REQUEST_TYPE_CLASS => Z.shiftl 1 5
  | LIBUSB_REQUEST_TYPE_VENDOR => Z.shiftl 2 5
  | LIBUSB_REQUEST_TYPE_RESERVED => Z.shiftl 3 5
  end.
#[global] Coercion request_type_value : libusb_request_type >-> Z.

(** [libusb_request_recipient], src/external/libusb-1.0.9/libusb/libusb.h:340-352. *)
Inductive libusb_request_recipient :=
  | LIBUSB_RECIPIENT_DEVICE | LIBUSB_RECIPIENT_INTERFACE | LIBUSB_RECIPIENT_ENDPOINT
  | LIBUSB_RECIPIENT_OTHER.
Definition recipient_value (r : libusb_request_recipient) : Z :=
  match r with
  | LIBUSB_RECIPIENT_DEVICE => 0
  | LIBUSB_RECIPIENT_INTERFACE => 1
  | LIBUSB_RECIPIENT_ENDPOINT => 2
  | LIBUSB_RECIPIENT_OTHER => 3
  end.
#[global] Coercion recipient_value : libusb_request_recipient >-> Z.

(** [libusb_transfer_status], src/external/libusb-1.0.9/libusb/libusb.h:786-809. *)
Inductive libusb_transfer_status :=
  | LIBUSB_TRANSFER_COMPLETED | LIBUSB_TRANSFER_ERROR | LIBUSB_TRANSFER_TIMED_OUT
  | LIBUSB_TRANSFER_CANCELLED | LIBUSB_TRANSFER_STALL | LIBUSB_TRANSFER_NO_DEVICE
  | LIBUSB_TRANSFER_OVERFLOW.
#[export] Instance transfer_status_eq_dec : EqDecision libusb_transfer_status.
Proof. solve_decision. Defined.

(** [libusb_transfer_flags], src/external/libusb-1.0.9/libusb/libusb.h:813-850. *)
Inductive libusb_transfer_flags :=
  | LIBUSB_TRANSFER_SHORT_NOT_OK | LIBUSB_TRANSFER_FREE_BUFFER | LIBUSB_TRANSFER_FREE_TRANSFER
  | LIBUSB_TRANSFER_ADD_ZERO_PACKET.
Definition flag_value (f : libusb_transfer_flags) : Z :=
  match f with
  | LIBUSB_TRANSFER_SHORT_NOT_OK => Z.shiftl 1 0
  | LIBUSB_TRANSFER_FREE_BUFFER => Z.shiftl 1 1
  | LIBUSB_TRANSFER_FREE_TRANSFER => Z.shiftl 1 2
  | LIBUSB_TRANSFER_ADD_ZERO_PACKET => Z.shiftl 1 3
  end.
#[global] Coercion flag_value : libusb_transfer_flags >-> Z.

(** [libusb_speed], src/external/libusb-1.0.9/libusb/libusb.h:714-729. *)
Inductive libusb_speed :=
  | LIBUSB_SPEED_UNKNOWN | LIBUSB_SPEED_LOW | LIBUSB_SPEED_FULL | LIBUSB_SPEED_HIGH
  | LIBUSB_SPEED_SUPER.
Definition speed_value (s : libusb_speed) : Z :=
  match s with
  | LIBUSB_SPEED_UNKNOWN => 0
  | LIBUSB_SPEED_LOW => 1
  | LIBUSB_SPEED_FULL => 2
  | LIBUSB_SPEED_HIGH => 3
  | LIBUSB_SPEED_SUPER => 4
  end.
#[global] Coercion speed_value : libusb_speed >-> Z.

(** [libusb_error], src/external/libusb-1.0.9/libusb/libusb.h:737-782. *)
Inductive libusb_error :=
  | LIBUSB_SUCCESS | LIBUSB_ERROR_IO | LIBUSB_ERROR_INVALID_PARAM | LIBUSB_ERROR_ACCESS
  | LIBUSB_ERROR_NO_DEVICE | LIBUSB_ERROR_NOT_FOUND | LIBUSB_ERROR_BUSY | LIBUSB_ERROR_TIMEOUT
  | LIBUSB_ERROR_OVERFLOW | LIBUSB_ERROR_PIPE | LIBUSB_ERROR_INTERRUPTED | LIBUSB_ERROR_NO_MEM
  | LIBUSB_ERROR_NOT_SUPPORTED | LIBUSB_ERROR_OTHER.
Definition error_value (e : libusb_error) : Z :=
  match e with
  | LIBUSB_SUCCESS => 0
  | LIBUSB_ERROR_IO => -1
  | LIBUSB_ERROR_INVALID_PARAM => -2
  | LIBUSB_ERROR_ACCESS => -3
  | LIBUSB_ERROR_NO_DEVICE => -4
  | LIBUSB_ERROR_NOT_FOUND => -5
  | LIBUSB_ERROR_BUSY => -6
  | LIBUSB_ERROR_TIMEOUT => -7
  | LIBUSB_ERROR_OVERFLOW => -8
  | LIBUSB_ERROR_PIPE => -9
  | LIBUSB_ERROR_INTERRUPTED => -10
  | LIBUSB_ERROR_NO_MEM => -11
  | LIBUSB_ERROR_NOT_SUPPORTED => -12
  | LIBUSB_ERROR_OTHER => -99
  end.
#[global] Coercion error_value : libusb_error >-> Z.
#[export] Instance libusb_error_eq_dec : EqDecision libusb_error.
Proof. solve_decision. Defined.

(** ** Memory *)

(** The blocks that are allocated, and for each allocation to come whether it fails (none does
    once the list is over). *)
Record Heap := mkHeap { h_live : list nat; h_fails : list bool }.

Definition malloc : M Heap (option nat) := fun h =>
  match h_fails h with
  | true :: fs => (Ret None, mkHeap (h_live h) fs)
  | fs => let b := fresh (h_live h) in (Ret (Some b), mkHeap (b :: h_live h) (tail fs))
  end.

Definition bad_free : string := "free of a block that is not allocated".

(** The live blocks without [b]; none if [b] is not one of them. *)
Fixpoint remove_block (b : nat) (l : list nat) : option (list nat) :=
  match l with
  | [] => None
  | c :: l' => if decide (b = c) then Some l' else (c ::.) <$> remove_block b l'
  end.

(** [free] of a pointer that is not null. *)
Definition free_block (b : nat) : M Heap unit := fun h =>
  match remove_block b (h_live h) with
  | Some l => (Ret tt, mkHeap l (h_fails h))
  | None => (Undef bad_free, h)
  end.

(** [realloc]: a failure leaves the old block as it was. *)
Definition realloc (p : option nat) : M Heap (option nat) :=
  let* q := malloc in
  match q, p with
  | Some _, Some b => do* free_block b in ret q
  | _, _ => ret q
  end.

(** A pointer to a block that the structure owns, with what is stored there. *)
Definition block (A : Type) : Type := option (nat * A).

Definition free_ptr {A} (p : block A) : M Heap unit :=
  match p with
  | Some (b, _) => free_block b
  | None => ret tt
  end.

Definition ptr_block {A} (p : block A) : list nat :=
  match p with
  | Some (b, _) => [b]
  | None => []
  end.

(** The live blocks are [bs] besides those of [frame]. *)
Definition owns (frame : list nat) (bs : list nat) (h : Heap) : Prop := h_live h ≡ₚ bs ++ frame.

(** ** Bytes *)

Definition overrun : string := "read past the end of the buffer".
Definition out_of_fuel : string := "the loop has not ended within its fuel".

Definition byte_at (p : list Z) (i : nat) : outcome Z :=
  match p !! i with
  | Some b => Ret b
  | None => Undef overrun
  end.

(** [p += n] *)
Definition advance (p : list Z) (n : Z) : list Z := drop (Z.to_nat n) p.

(** The bytes that [memcpy] copies from [p]. *)
Definition memcpy_from (p : list Z) (n : Z) : outcome (list Z) :=
  if n <=? Z.of_nat (length p) then Ret (take (Z.to_nat n) p) else Undef overrun.

(** The first [n] elements of the array [l], where [n] is the field of another structure. *)
Definition array_prefix {A} (n : Z) (l : list A) : outcome (list A) :=
  if n <=? Z.of_nat (length l) then Ret (take (Z.to_nat n) l) else Undef overrun.

Definition is_byte (b : Z) : Prop := 0 <= b < 256.

(** The order of the bytes of a word in the memory of the host. *)
Class HostOrder := { big_endian : bool }.

Definition le16 (b0 b1 : Z) : Z := Z.lor (Z.shiftl b1 8) b0.
Definition host16 `{HostOrder} (b0 b1 : Z) : Z := if big_endian then le16 b1 b0 else le16 b0 b1.

(** [libusb_cpu_to_le16], and [libusb_le16_to_cpu], which is the same function: store the bytes
    of [x], least significant first, and read them as a word of the host,
    src/external/libusb-1.0.9/libusb/libusb.h:118-136. *)
Definition libusb_cpu_to_le16 `{HostOrder} (x : Z) : Z := host16 (Z.land x 0xff) (Z.shiftr x 8).

Lemma le16_add b0 b1 : is_byte b0 -> le16 b0 b1 = 256 * b1 + b0.
Proof.
  unfold is_byte, le16. intros H. rewrite Z.lor_comm.
  rewrite <- (Z.mod_small b0 256) at 1 by lia. change 256 with (2 ^ 8) at 1.
  rewrite <- Z.land_ones by lia. 
  assert (Z.land (Z.shiftl b1 8) (Z.land b0 (Z.ones 8)) = 0) as E.
  { apply Z.bits_inj'. intros n Hn. rewrite !Z.land_spec, Z.bits_0. destruct (decide (n < 8)).
    - rewrite Z.shiftl_spec_low by lia. done.
    - rewrite Z.ones_spec_high by lia. by rewrite !andb_false_r. }
  rewrite Z.lor_comm, <- Z.lxor_lor, <- Z.add_nocarry_lxor by done.
  rewrite Z.land_ones, Z.mod_small, Z.shiftl_mul_pow2 by lia. lia.
Qed.

(** The conversion gives the value that the two bytes have in the order of the bus, whatever
    the order of the host. *)
Lemma libusb_cpu_to_le16_host `{HostOrder} b0 b1 :
  is_byte b0 -> is_byte b1 -> libusb_cpu_to_le16 (host16 b0 b1) = le16 b0 b1.
Proof.
  intros H0 H1. unfold libusb_cpu_to_le16, host16.
  assert (forall x y, is_byte x -> is_byte y -> Z.land (le16 x y) 0xff = x /\ Z.shiftr (le16 x y) 8 = y) as E.
  { intros x y Hx Hy. rewrite le16_add by done. unfold is_byte in *.
    change 0xff with (Z.ones 8). rewrite Z.land_ones, Z.shiftr_div_pow2 by lia. change (2 ^ 8) with 256.
    split; [rewrite Z.add_comm, Z.mul_comm, Z_mod_plus_full; by apply Z.mod_small|].
    rewrite Z.add_comm, Z.mul_comm, Z.div_add by lia. rewrite Z.div_small; lia. }
  destruct big_endian; destruct (E b0 b1), (E b1 b0); congruence.
Qed.

(** ** Rules *)

Lemma lift_bind {S A B} (o : outcome A) a (f : A -> M S B) s : o = Ret a -> bind (lift o) f s = f a s.
Proof. by intros ->. Qed.

(** A computation that returns, and then [Q] holds, or stops at a read past the end of a buffer.
    That read is undefined behaviour: the computation is not safe, but it is the only misuse of
    memory it can make: it never frees what is not allocated, never runs out of fuel and never
    throws.  The parser of descriptors has such reads (the findings on descriptor.c:286 and 358). *)
Definition ret_or_overrun {S A} (m : M S A) (h : S) (Q : A -> S -> Prop) : Prop :=
  match m h with
  | (Ret a, h') => Q a h'
  | (Throw _, _) => False
  | (Undef u, _) => u = overrun
  end.

Lemma ret_or_overrun_ret {S A} (a : A) (h : S) (Q : A -> S -> Prop) : Q a h -> ret_or_overrun (ret a) h Q.
Proof. done. Qed.

Lemma ret_or_overrun_run {S A} (m : M S A) (s s' : S) a (Q : A -> S -> Prop) :
  m s = (Ret a, s') -> Q a s' -> ret_or_overrun m s Q.
Proof. unfold ret_or_overrun. by intros ->. Qed.

Lemma ret_or_overrun_bind {S A B} (m : M S A) (f : A -> M S B) h Q :
  ret_or_overrun m h (fun a h' => ret_or_overrun (f a) h' Q) -> ret_or_overrun (bind m f) h Q.
Proof. unfold ret_or_overrun, bind. by destruct (m h) as [[] h']. Qed.

Lemma ret_or_overrun_mono {S A} (m : M S A) h (Q R : A -> S -> Prop) :
  ret_or_overrun m h Q -> (forall a h', Q a h' -> R a h') -> ret_or_overrun m h R.
Proof. unfold ret_or_overrun. destruct (m h) as [[] h']; auto. Qed.

(** A computation that returns, and then [Q] holds. *)
Definition mem_ret {S A} (m : M S A) (h : S) (Q : A -> S -> Prop) : Prop :=
  exists a h', m h = (Ret a, h') /\ Q a h'.

Lemma mem_ret_safe {S A} (m : M S A) h Q : mem_ret m h Q -> ret_or_overrun m h Q.
Proof. intros (a & h' & E & HQ). by eapply ret_or_overrun_run. Qed.

Lemma mem_ret_ret {S A} (a : A) (h : S) (Q : A -> S -> Prop) : Q a h -> mem_ret (ret a) h Q.
Proof. intros HQ. by exists a, h. Qed.

Lemma mem_ret_bind {S A B} (m : M S A) (f : A -> M S B) h Q :
  mem_ret m h (fun a h' => mem_ret (f a) h' Q) -> mem_ret (bind m f) h Q.
Proof. intros (a & h' & E & b & h2 & E2 & HQ). exists b, h2. by rewrite (bind_Ret _ _ _ _ _ E). Qed.

Lemma mem_ret_mono {S A} (m : M S A) h (Q R : A -> S -> Prop) :
  mem_ret m h Q -> (forall a h', Q a h' -> R a h') -> mem_ret m h R.
Proof. intros (a & h' & E & HQ) HR. exists a, h'. auto. Qed.

Lemma mem_ret_lift_ret {S A B} (o : outcome A) a (f : A -> M S B) h Q :
  o = Ret a -> mem_ret (f a) h Q -> mem_ret (bind (lift o) f) h Q.
Proof. by intros ->. Qed.

(** A read of the buffer, after which the rest holds for every byte. *)
Definition reads_only {A} (o : outcome A) (Q : A -> Prop) : Prop :=
  match o with
  | Ret a => Q a
  | Throw _ => False
  | Undef u => u = overrun
  end.

Lemma ret_or_overrun_lift {S A} (o : outcome A) h (Q : A -> S -> Prop) :
  reads_only o (fun a => Q a h) -> ret_or_overrun (lift o) h Q.
Proof. by destruct o. Qed.

Lemma ret_or_overrun_lift_ret {S A B} (o : outcome A) a (f : A -> M S B) h Q :
  o = Ret a -> ret_or_overrun (f a) h Q -> ret_or_overrun (bind (lift o) f) h Q.
Proof. by intros ->. Qed.

Lemma ret_or_overrun_lift_bind {S A B} (o : outcome A) (f : A -> M S B) h Q :
  reads_only o (fun a => ret_or_overrun (f a) h Q) -> ret_or_overrun (bind (lift o) f) h Q.
Proof. intros H. by apply ret_or_overrun_bind, ret_or_overrun_lift. Qed.

Lemma reads_only_bind {A B} (o : outcome A) (f : A -> outcome B) Q :
  reads_only o (fun a => reads_only (f a) Q) -> reads_only (o ≫= f) Q.
Proof. by destruct o. Qed.

Lemma reads_only_mono {A} (o : outcome A) (Q R : A -> Prop) :
  reads_only o Q -> (forall a, Q a -> R a) -> reads_only o R.
Proof. destruct o; simpl; auto. Qed.

Lemma byte_at_reads p i (Q : Z -> Prop) : (forall b, Q b) -> reads_only (byte_at p i) Q.
Proof. intros HQ. unfold byte_at. by destruct (p !! i); simpl. Qed.

Lemma memcpy_reads p n (Q : list Z -> Prop) : (forall l, Q l) -> reads_only (memcpy_from p n) Q.
Proof. intros HQ. unfold memcpy_from. by destruct (n <=? _); simpl. Qed.

Lemma array_prefix_all {A} (l : list A) n : n = Z.of_nat (length l) -> array_prefix n l = Ret l.
Proof.
  intros ->. unfold array_prefix. rewrite Z.leb_refl, Nat2Z.id. by rewrite take_ge.
Qed.

Lemma remove_block_perm b l k : l ≡ₚ b :: k -> exists l', remove_block b l = Some l' /\ l' ≡ₚ k.
Proof.
  revert k. induction l as [|c l IH]; intros k H.
  { by apply Permutation_nil_cons in H. }
  simpl. destruct (decide (b = c)) as [<-|Hne].
  { exists l. split; [done|]. by apply Permutation_cons_inv in H. }
  assert (b ∈ l) as Hb.
  { assert (b ∈ c :: l) as Hb by (rewrite H; left). by apply elem_of_cons in Hb as [|]. }
  apply elem_of_Permutation in Hb as [l0 Hl0].
  destruct (IH l0 Hl0) as (l' & -> & Hl'). eexists. split; [done|].
  rewrite Hl0, Permutation_swap in H. apply Permutation_cons_inv in H. by rewrite Hl'.
Qed.

Section owns.
Context (frame : list nat).

#[export] Instance owns_proper : Proper ((≡ₚ) ==> eq ==> iff) (owns frame).
Proof. intros b1 b2 Hb h ? <-. unfold owns. by rewrite Hb. Qed.

Lemma malloc_owns bs h :
  owns frame bs h ->
  ret_or_overrun malloc h (fun p h' => owns frame (match p with Some b => [b] | None => [] end ++ bs) h').
Proof.
  intros H. unfold ret_or_overrun, malloc. destruct (h_fails h) as [|[] fs]; unfold owns in *; simpl; by rewrite ?H.
Qed.

Lemma free_block_ret b bs h : owns frame (b :: bs) h -> mem_ret (free_block b) h (fun _ => owns frame bs).
Proof.
  intros H. unfold mem_ret, free_block, owns in *.
  destruct (remove_block_perm _ _ _ H) as (l & -> & Hl). eauto.
Qed.

Lemma free_block_owns b bs h : owns frame (b :: bs) h -> ret_or_overrun (free_block b) h (fun _ => owns frame bs).
Proof. intros H. by apply mem_ret_safe, free_block_ret. Qed.

Lemma free_ptr_ret {A} (p : block A) bs h :
  owns frame (ptr_block p ++ bs) h -> mem_ret (free_ptr p) h (fun _ => owns frame bs).
Proof. destruct p as [[b a]|]; simpl; [apply free_block_ret|]. intros H. by apply mem_ret_ret. Qed.

Lemma realloc_owns p bs h :
  owns frame (match p with Some b => [b] | None => [] end ++ bs) h ->
  ret_or_overrun (realloc p) h (fun q h' =>
    match q with
    | Some c => owns frame (c :: bs) h'
    | None => owns frame (match p with Some b => [b] | None => [] end ++ bs) h'
    end).
Proof.
  intros H. apply ret_or_overrun_bind. eapply ret_or_overrun_mono; [by apply malloc_owns|].
  intros [c|] h' H'; simpl in *; [|done]. destruct p as [b|]; simpl in *; [|done].
  apply ret_or_overrun_bind. eapply ret_or_overrun_mono.
  { apply (free_block_owns _ (c :: bs)). by rewrite Permutation_swap. }
  by intros [] h'' H''.
Qed.
End owns.

Lemma owns_perm frame bs bs' h : owns frame bs h -> bs ≡ₚ bs' -> owns frame bs' h.
Proof. by intros H <-. Qed.

(** Lists of blocks that are the same up to their order: count each block. *)
Ltac perm :=
  apply (Permutation_count_occ Nat.eq_dec); intros ?;
  rewrite ?map_app, ?concat_app; simpl; rewrite ?app_nil_r, ?count_occ_app; simpl;
  rewrite ?count_occ_app; simpl; repeat case_match; lia.
Ltac owns_by H := refine (owns_perm _ _ _ _ H _); try perm.

(** Memory in which every allocation succeeds. *)
Definition plenty (h : Heap) : Prop := h_fails h = [].

(** From memory in which every allocation succeeds the computation returns [a] such that [R a],
    unless it frees what is not allocated: the other half of [ret_or_overrun]. *)
Definition gives {A} (m : M Heap A) (R : A -> Prop) : Prop :=
  forall h, plenty h ->
  match m h with
  | (Ret a, h') => R a /\ plenty h'
  | (Throw _, _) => False
  | (Undef u, _) => u = bad_free
  end.

Lemma gives_ret {A} (a : A) (R : A -> Prop) : R a -> gives (ret a) R.
Proof. by intros HR h Hh. Qed.

Lemma gives_bind {A B} (m : M Heap A) (f : A -> M Heap B) R R' :
  gives m R -> (forall a, R a -> gives (f a) R') -> gives (bind m f) R'.
Proof.
  intros Hm Hf h Hh. specialize (Hm h Hh). unfold bind.
  destruct (m h) as [[a|e|u] h']; [|done|done]. destruct Hm as [HR Hh']. by apply Hf.
Qed.

Lemma gives_mono {A} (m : M Heap A) (R R' : A -> Prop) : gives m R -> (forall a, R a -> R' a) -> gives m R'.
Proof. intros Hm HR h Hh. specialize (Hm h Hh). destruct (m h) as [[] ?]; naive_solver. Qed.

Lemma gives_lift_bind {A B} (o : outcome A) a (f : A -> M Heap B) R :
  o = Ret a -> gives (f a) R -> gives (bind (lift o) f) R.
Proof. by intros ->. Qed.

Lemma gives_malloc {B} (f : option nat -> M Heap B) R :
  (forall b, gives (f (Some b)) R) -> gives (bind malloc f) R.
Proof. intros Hf h Hh. unfold bind, malloc. rewrite Hh. by apply Hf. Qed.

Lemma gives_realloc {B} p (f : option nat -> M Heap B) R :
  (forall b, gives (f (Some b)) R) -> gives (bind (realloc p) f) R.
Proof.
  intros Hf. unfold realloc. intros h Hh. unfold bind, malloc. rewrite Hh. destruct p as [b|]; [|by apply Hf].
  unfold free_block. simpl. destruct (decide _); [by apply Hf|].
  by destruct (remove_block b (h_live h)); [apply Hf|].
Qed.

Lemma malloc_plenty frame bs h :
  plenty h -> owns frame bs h ->
  exists b h', malloc h = (Ret (Some b), h') /\ plenty h' /\ owns frame (b :: bs) h'.
Proof.
  intros Hh Hown. unfold malloc. rewrite Hh. eexists _, _. split_and!; [done..|].
  unfold owns in *. simpl. by rewrite Hown.
Qed.

(** Both halves: the computation returns. *)
Lemma ret_or_overrun_gives {A} (m : M Heap A) h Q R :
  ret_or_overrun m h Q -> gives m R -> plenty h -> exists a h', m h = (Ret a, h') /\ Q a h' /\ R a.
Proof.
  intros HQ HR Hh. specialize (HR h Hh). unfold ret_or_overrun in HQ.
  destruct (m h) as [[a|e|u] h']; [|done|by subst]. exists a, h'. by destruct HR.
Qed.
