(* ===== verification/UsbList.v ===== *)
(** * The linked lists of libusb (src/external/libusb-1.0.9/libusb/libusbi.h)

    libusb keeps its devices, handles, descriptors to poll and transfers in flight in circular
    doubly linked lists whose links are inside the elements.  This file models the links of all
    the nodes ([Links]), the operations on them and the loop over a list, and proves that on a
    well-formed list ([ring]) they are the operations on the sequence of its elements, which is
    how the other files keep a list.  On a list that already has the element, [list_add_tail] is
    not: [list_add_tail_twice] and [list_add_tail_again] show that the loop over the list then never ends or
    misses elements. *)
From S2P Require Import Prelude UsbBase.

(** The fields [next] and [prev] of the nodes that have been linked; a node is its number. *)
Record Links := mkLinks { l_next : gmap nat nat; l_prev : gmap nat nat }.

Definition wild : string := "dereference of a link that was never set".
Definition get_next (e : nat) : M Links nat :=
  query (fun s => match l_next s !! e with Some x => Ret x | None => Undef wild end).
Definition get_prev (e : nat) : M Links nat :=
  query (fun s => match l_prev s !! e with Some x => Ret x | None => Undef wild end).
Definition set_next (e x : nat) : M Links unit := modify (fun s => mkLinks (<[e:=x]> (l_next s)) (l_prev s)).
Definition set_prev (e x : nat) : M Links unit := modify (fun s => mkLinks (l_next s) (<[e:=x]> (l_prev s))).

(** [list_init], src/external/libusb-1.0.9/libusb/libusbi.h:83-86. *)
Definition list_init (entry : nat) : M Links unit :=
  do* set_next entry entry in set_prev entry entry.

(** [list_empty], src/external/libusb-1.0.9/libusb/libusbi.h:81-81. *)
Definition list_empty (entry : nat) : M Links bool :=
  let* n := get_next entry in ret (bool_decide (n = entry)).

(** [list_add], src/external/libusb-1.0.9/libusb/libusbi.h:88-95. *)
Definition list_add (entry head : nat) : M Links unit :=
  let* n := get_next head in
  do* set_next entry n in
  do* set_prev entry head in
  let* n := get_next head in
  do* set_prev n entry in
  set_next head entry.

(** [list_add_tail], src/external/libusb-1.0.9/libusb/libusbi.h:97-105: [head] is also the
    element to insert before. *)
Definition list_add_tail (entry head : nat) : M Links unit :=
  do* set_next entry head in
  let* p := get_prev head in
  do* set_prev entry p in
  let* p := get_prev head in
  do* set_next p entry in
  set_prev head entry.

(** [list_del], src/external/libusb-1.0.9/libusb/libusbi.h:107-111. *)
Definition list_del (entry : nat) : M Links unit :=
  let* n := get_next entry in
  let* p := get_prev entry in
  do* set_prev n p in
  let* p := get_prev entry in
  let* n := get_next entry in
  set_next p n.

(** [list_for_each_entry], src/external/libusb-1.0.9/libusb/libusbi.h:70-73: the elements
    from [pos] on. *)
Fixpoint walk (fuel : nat) (head pos : nat) : M Links (list nat) :=
  if bool_decide (pos = head) then ret []
  else
    match fuel with
    | O => undef out_of_fuel
    | S fuel => let* n := get_next pos in let* l := walk fuel head n in ret (pos :: l)
    end.
Definition list_for_each_entry (fuel head : nat) : M Links (list nat) :=
  let* n := get_next head in walk fuel head n.

(** ** Well-formed lists *)

(** The links from [x] through [l] to [y], in both directions. *)
Fixpoint seg (s : Links) (x : nat) (l : list nat) (y : nat) : Prop :=
  match l with
  | [] => l_next s !! x = Some y /\ l_prev s !! y = Some x
  | a :: l' => l_next s !! x = Some a /\ l_prev s !! a = Some x /\ seg s a l' y
  end.

(** The list of head [h] has the elements [l]. *)
Definition ring (h : nat) (l : list nat) (s : Links) : Prop := NoDup (h :: l) /\ seg s h l h.

Lemma seg_app s x l1 a l2 y : seg s x (l1 ++ a :: l2) y <-> seg s x l1 a /\ seg s a l2 y.
Proof. revert x. induction l1 as [|b l1 IH]; intros x; simpl; [tauto|]. rewrite IH. tauto. Qed.

Lemma seg_prev s x l y : seg s x l y -> exists p, l_prev s !! y = Some p /\ p ∈ x :: l.
Proof.
  revert x. induction l as [|a l IH]; intros x; simpl.
  - intros [_ E]. exists x. split; [done|left].
  - intros (_ & _ & (p & E & Hp)%IH). exists p. split; [done|by right].
Qed.

(** The links of other nodes do not matter. *)
Lemma seg_frame s s' x l y :
  (forall e, e ∈ x :: l -> l_next s' !! e = l_next s !! e) ->
  (forall e, e ∈ l ++ [y] -> l_prev s' !! e = l_prev s !! e) ->
  seg s x l y -> seg s' x l y.
Proof.
  revert x. induction l as [|a l IH]; intros x Hn Hp; simpl.
  - rewrite Hn, Hp by (apply elem_of_list_here || left). done.
  - intros (E1 & E2 & Hs). rewrite Hn, Hp by (simpl; left). split_and!; [done..|].
    apply IH; [| |done]; intros e He; [apply Hn|apply Hp]; by right.
Qed.

Lemma ring_head h l s : ring h l s -> l_next s !! h = Some (default h (head l)).
Proof. intros [_ Hs]. destruct l as [|a l]; simpl in Hs; [apply Hs|by destruct Hs]. Qed.

(** ** The operations on a well-formed list *)

(** Two nodes made neighbours. *)
Definition relink (s : Links) (p y : nat) : Links := mkLinks (<[p:=y]> (l_next s)) (<[y:=p]> (l_prev s)).

Lemma relink_frame s p y x l z :
  p ∉ x :: l -> y ∉ l ++ [z] -> seg s x l z -> seg (relink s p y) x l z.
Proof.
  intros Hp Hy. apply seg_frame; intros e He; simpl; apply lookup_insert_ne; by intros ->.
Qed.

Lemma relink_seg s p y : seg (relink s p y) p [] y.
Proof. simpl. by rewrite !lookup_insert_eq. Qed.

(** The end of a segment goes to another node. *)
Lemma seg_relink s x l e p y :
  seg s x l e -> l_prev s !! e = Some p -> NoDup (x :: l) -> y ∉ l -> seg (relink s p y) x l y.
Proof.
  intros Hs Hp Hnd Hy. induction l as [|a l _] using rev_ind.
  - destruct Hs as [_ E]. assert (p = x) as -> by congruence. apply relink_seg.
  - apply seg_app in Hs as [Hs [_ E]]. assert (p = a) as -> by congruence.
    apply seg_app. split; [|apply relink_seg].
    apply relink_frame; [|done|done].
    rewrite app_comm_cons in Hnd. apply NoDup_app in Hnd as (_ & Hd & _).
    intros Hin. apply (Hd _ Hin). left.
Qed.

Lemma list_add_tail_run s e y p :
  l_prev s !! y = Some p -> e <> y -> e <> p ->
  list_add_tail e y s = (Ret tt, relink (relink s p e) e y).
Proof.
  intros Hp Hy Hep. unfold list_add_tail, set_next, set_prev, get_prev, get_next. mrun. simpl.
  rewrite Hp, lookup_insert_ne, Hp by done. unfold relink. simpl.
  by rewrite (insert_insert_ne _ e p) by done.
Qed.

Lemma list_del_run s e n p :
  l_next s !! e = Some n -> l_prev s !! e = Some p -> e <> n ->
  list_del e s = (Ret tt, relink s p n).
Proof.
  intros Hn Hp He. unfold list_del, set_next, set_prev, get_prev, get_next. mrun. simpl.
  by rewrite Hn, Hp, lookup_insert_ne, Hp by done.
Qed.

Lemma ring_split h l1 e l2 s :
  ring h (l1 ++ e :: l2) s ->
  NoDup (h :: l1) /\ NoDup (e :: l2) /\ seg s h l1 e /\ seg s e l2 h /\
  (forall x, x ∈ h :: l1 -> x ∉ e :: l2).
Proof.
  intros [Hnd Hs]. rewrite app_comm_cons in Hnd. apply NoDup_app in Hnd as (Hnd1 & Hd & Hnd2).
  apply seg_app in Hs as [Hs1 Hs2]. by split_and!.
Qed.

(** [list_add_tail(entry, cur)] inserts before [cur], and at the end when [cur] is the head. *)
Lemma list_add_tail_ring h l1 l2 s e :
  ring h (l1 ++ l2) s -> (e ∉ h :: l1 ++ l2) ->
  exists s', list_add_tail e (default h (head l2)) s = (Ret tt, s') /\ ring h (l1 ++ e :: l2) s'.
Proof.
  intros Hr He. set (y := default h (head l2)).
  assert (NoDup (h :: l1) /\ seg s h l1 y /\ (y ∉ l1)) as (Hnd1 & Hs1 & Hy1).
  { subst y. destruct l2 as [|c l2]; cbn [head default].
    - rewrite app_nil_r in Hr. destruct Hr as [Hnd Hs]. split_and!; [done..|]. by inversion Hnd.
    - apply ring_split in Hr as (H1 & _ & H3 & _ & Hd). split_and!; [done..|]. set_solver. }
  destruct (seg_prev _ _ _ _ Hs1) as (p & Ep & Hp).
  assert (e <> y) as Hey by (subst y; destruct l2; cbn; set_solver).
  assert (e <> p) as Hep by (intros ->; set_solver).
  exists (relink (relink s p e) e y). split; [by apply list_add_tail_run|]. split.
  { rewrite <- Permutation_middle, NoDup_cons. destruct Hr as [Hnd _].
    apply NoDup_cons in Hnd as [Hh Hnd]. split; [set_solver|]. apply NoDup_cons. split; [set_solver|done]. }
  assert (seg (relink (relink s p e) e y) h (l1 ++ [e]) y) as Hs1'.
  { apply seg_app. split; [|apply relink_seg].
    apply relink_frame; [set_solver|set_solver|]. apply (seg_relink _ _ _ y); try done; set_solver. }
  destruct l2 as [|c l2]; [done|]. subst y. cbn [head default] in *.
  rewrite cons_middle, app_assoc. apply seg_app. split; [done|].
  apply ring_split in Hr as (_ & Hnd2 & _ & Hs2 & Hd). apply NoDup_cons in Hnd2 as [Hc _].
  pose proof (Hd h ltac:(left)) as Hh.
  apply relink_frame; [set_solver|set_solver|]. apply relink_frame; [by apply Hd|set_solver|done].
Qed.

(** [list_add(entry, head)] inserts at the start. *)
Lemma list_add_ring h l s e :
  ring h l s -> (e ∉ h :: l) -> exists s', list_add e h s = (Ret tt, s') /\ ring h (e :: l) s'.
Proof.
  intros Hr He. destruct (list_add_tail_ring h [] l s e Hr He) as (s' & E & Hr').
  exists s'. split; [|done]. rewrite <- E.
  pose proof (ring_head _ _ _ Hr) as Hn. set (y := default h (head l)) in *.
  assert (l_prev s !! y = Some h) as Hp by (destruct Hr as [_ Hs]; destruct l; apply Hs).
  assert (e <> h) as Heh by set_solver.
  assert (e <> y) as Hey by (subst y; destruct l; cbn; set_solver).
  rewrite (list_add_tail_run _ _ _ h Hp Hey Heh).
  unfold list_add, set_next, set_prev, get_next. mrun. simpl.
  rewrite Hn, lookup_insert_ne, Hn by done. unfold relink. simpl.
  by rewrite (insert_insert_ne _ e h) by done.
Qed.

(** [list_del] removes. *)
Lemma list_del_ring h l1 l2 s e :
  ring h (l1 ++ e :: l2) s -> exists s', list_del e s = (Ret tt, s') /\ ring h (l1 ++ l2) s'.
Proof.
  intros Hr. destruct (ring_split _ _ _ _ _ Hr) as (Hnd1 & Hnd2 & Hs1 & Hs2 & Hd).
  destruct (seg_prev _ _ _ _ Hs1) as (p & Ep & Hp).
  apply NoDup_cons in Hnd2 as [He _]. pose proof (Hd h ltac:(left)) as Hh. pose proof (Hd p Hp) as Hpd.
  assert (NoDup (h :: l1 ++ l2)) as Hnd.
  { destruct Hr as [Hnd _]. rewrite <- Permutation_middle in Hnd.
    apply NoDup_cons in Hnd as [Hh' Hnd]. apply NoDup_cons in Hnd as [_ Hnd].
    apply NoDup_cons. split; [set_solver|done]. }
  destruct l2 as [|c l2].
  - destruct Hs2 as [En _]. exists (relink s p h). split; [apply list_del_run; [done..|set_solver]|].
    rewrite app_nil_r in *. split; [done|]. apply (seg_relink _ _ _ e); [done..|]. by inversion Hnd.
  - destruct Hs2 as (En & _ & Hs2). exists (relink s p c).
    split; [apply list_del_run; [done..|set_solver]|]. split; [done|].
    apply seg_app. split.
    + apply (seg_relink _ _ _ e); [done..|]. set_solver.
    + rewrite app_comm_cons in Hnd. apply NoDup_app in Hnd as (_ & _ & Hnd).
      apply NoDup_cons in Hnd as [Hc _].
      apply relink_frame; [set_solver|set_solver|done].
Qed.

Lemma get_next_run s e n : l_next s !! e = Some n -> get_next e s = (Ret n, s).
Proof. unfold get_next, query. by intros ->. Qed.

Lemma walk_seg s h x l fuel :
  seg s x l h -> (h ∉ l) -> (length l <= fuel)%nat ->
  walk fuel h (default h (head l)) s = (Ret l, s).
Proof.
  revert x fuel. induction l as [|a l IH]; intros x fuel Hs Hh Hf; cbn [head default].
  - destruct fuel; simpl; by rewrite bool_decide_true.
  - destruct fuel as [|fuel]; [simpl in Hf; lia|]. cbn [walk]. rewrite bool_decide_false by set_solver.
    destruct Hs as (_ & _ & Hs). assert (l_next s !! a = Some (default h (head l))) as En
      by (destruct l; apply Hs).
    erewrite bind_Ret by (by apply get_next_run).
    erewrite bind_Ret by (apply (IH a); [done|set_solver|simpl in Hf; lia]). done.
Qed.

(** C20: The lists of libusb are the sequences of their elements: inserting puts the element
    before the one that is named, deleting takes it out and the loop over the list visits the
    elements in order and ends; the order of every other element is kept. *)
Theorem lists_refine_sequences h l1 l2 s :
  ring h (l1 ++ l2) s ->
  list_for_each_entry (length (l1 ++ l2)) h s = (Ret (l1 ++ l2), s) /\
  list_empty h s = (Ret (bool_decide (l1 ++ l2 = [])), s) /\
  (forall e, (e ∉ h :: l1 ++ l2) ->
     exists s', list_add_tail e (default h (head l2)) s = (Ret tt, s') /\ ring h (l1 ++ e :: l2) s') /\
  (forall e, (e ∉ h :: l1 ++ l2) ->
     exists s', list_add e h s = (Ret tt, s') /\ ring h (e :: l1 ++ l2) s') /\
  (forall e l2', l2 = e :: l2' -> exists s', list_del e s = (Ret tt, s') /\ ring h (l1 ++ l2') s').
Proof.
  intros Hr. pose proof (ring_head _ _ _ Hr) as Hn. split_and!.
  - unfold list_for_each_entry. erewrite bind_Ret by (by apply get_next_run).
    destruct Hr as [Hnd Hs]. apply NoDup_cons in Hnd as [Hh _]. by apply (walk_seg s h h).
  - unfold list_empty. erewrite bind_Ret by (by apply get_next_run). unfold ret. do 2 f_equal.
    destruct Hr as [Hnd _]. apply NoDup_cons in Hnd as [Hh _].
    apply bool_decide_ext. destruct (l1 ++ l2) as [|a l]; cbn; [done|].
    split; [intros ->; set_solver|done].
  - intros e He. by apply list_add_tail_ring.
  - intros e He. by apply list_add_ring.
  - intros e l2' ->. by apply list_del_ring.
Qed.

(** An empty list, and lists built by the operations. *)
Lemma list_init_ring h s : exists s', list_init h s = (Ret tt, s') /\ ring h [] s'.
Proof.
  eexists. split; [reflexivity|]. split; [apply NoDup_singleton|]. simpl. by rewrite !lookup_insert_eq.
Qed.

Definition sample_links : Links := snd ((do* list_init 0 in do* list_add_tail 5 0 in do* list_add_tail 7 0 in list_add 3 0)%nat (mkLinks ∅ ∅)).
Lemma sample_links_ring : ring 0 [3; 5; 7]%nat sample_links.
Proof.
  split; [by apply (bool_decide_eq_true_1 _); vm_compute|]. repeat split; vm_compute; reflexivity.
Qed.

Lemma lists_refine_sequences_witness :
  list_for_each_entry 3 0 sample_links = (Ret [3; 5; 7]%nat, sample_links) /\
  exists s', list_del 5 sample_links = (Ret tt, s') /\ ring 0 [3; 7]%nat s'.
Proof.
  destruct (lists_refine_sequences 0 [3%nat] [5; 7]%nat sample_links sample_links_ring) as (H1 & _ & _ & _ & H2).
  split; [exact H1|exact (H2 5%nat [7%nat] eq_refl)].
Defined.

(** ** An element that is in the list already *)

Lemma walk_self_linked h e s fuel :
  l_next s !! e = Some e -> e <> h -> walk fuel h e s = (Undef out_of_fuel, s).
Proof.
  intros He Hne. induction fuel as [|fuel IH]; cbn [walk]; rewrite bool_decide_false by done; [done|].
  erewrite bind_Ret by (by apply get_next_run). by erewrite bind_Undef by exact IH.
Qed.

Lemma loop_self_linked h l e s s' fuel :
  seg s h l e -> (h ∉ l) -> (e ∉ h :: l) ->
  (forall y, y <> e -> l_next s' !! y = l_next s !! y) -> l_next s' !! e = Some e ->
  list_for_each_entry fuel h s' = (Undef out_of_fuel, s').
Proof.
  intros Hs Hh He Hn Hl. assert (e <> h) as Hne by set_solver.
  assert (forall l x fuel, seg s x l e -> (h ∉ l) -> (e ∉ l) ->
    walk fuel h (default e (head l)) s' = (Undef out_of_fuel, s')) as Hwalk.
  { clear l fuel Hs Hh He. induction l as [|a l IH]; intros x fuel Hs Hh He; cbn [head default];
      [by apply walk_self_linked|].
    destruct fuel as [|fuel]; cbn [walk]; rewrite bool_decide_false by set_solver; [done|].
    destruct Hs as (_ & _ & Hs). assert (l_next s !! a = Some (default e (head l))) as En
      by (destruct l; apply Hs).
    rewrite <- Hn in En by set_solver.
    erewrite bind_Ret by (by apply get_next_run). erewrite bind_Undef; [done|].
    apply (IH a); [done|set_solver..]. }
  unfold list_for_each_entry. assert (l_next s !! h = Some (default e (head l))) as En
    by (destruct l; apply Hs).
  rewrite <- Hn in En by congruence. erewrite bind_Ret by (by apply get_next_run).
  apply (Hwalk l h); [done..|set_solver].
Qed.

(** Adding the last element of a list to it again leaves a list that the loop never leaves,
    even when the element is deleted afterwards. *)
Theorem list_add_tail_twice h l e s :
  ring h (l ++ [e]) s ->
  exists s1 s2, list_add_tail e h s = (Ret tt, s1) /\ list_del e s1 = (Ret tt, s2) /\
    (forall fuel, list_for_each_entry fuel h s1 = (Undef out_of_fuel, s1)) /\
    (forall fuel, list_for_each_entry fuel h s2 = (Undef out_of_fuel, s2)).
Proof.
  intros Hr. destruct (ring_split _ _ _ _ _ Hr) as (Hnd1 & _ & Hs & [En Ep] & Hd).
  assert (e ∉ h :: l) as He by (intros He; apply (Hd e He); left).
  assert (e <> h) as Hne by set_solver. apply NoDup_cons in Hnd1 as [Hh _].
  set (s1 := mkLinks (<[e:=e]> (<[e:=h]> (l_next s))) (<[h:=e]> (<[e:=e]> (l_prev s)))).
  set (s2 := mkLinks (<[e:=e]> (l_next s1)) (<[e:=e]> (l_prev s1))).
  exists s1, s2. split_and!.
  - unfold list_add_tail, set_next, set_prev, get_prev. mrun. simpl.
    by rewrite Ep, lookup_insert_ne, Ep by done.
  - unfold list_del, set_next, set_prev, get_prev, get_next. mrun. simpl.
    by rewrite lookup_insert_eq, lookup_insert_ne, !lookup_insert_eq by done.
  - intros fuel. apply (loop_self_linked h l e s); try done; simpl.
    + intros y Hy. by rewrite !lookup_insert_ne by done.
    + by rewrite lookup_insert_eq.
  - intros fuel. apply (loop_self_linked h l e s); try done; simpl.
    + intros y Hy. by rewrite !lookup_insert_ne by done.
    + by rewrite lookup_insert_eq.
Qed.

(** The loop follows the links forwards: when those up to [e] are as they were and that of [e] goes
    back to the head, it visits the elements up to [e]. *)
Lemma loop_cut_short h l e s s' :
  seg s h l e -> (h ∉ l) -> (e ∉ h :: l) ->
  (forall y, y ∈ h :: l -> l_next s' !! y = l_next s !! y) -> l_next s' !! e = Some h ->
  list_for_each_entry (length (l ++ [e])) h s' = (Ret (l ++ [e]), s').
Proof.
  intros Hs Hh He Hn Hl. assert (e <> h) as Hne by set_solver.
  assert (forall l x, seg s x l e -> (h ∉ l) -> (forall y, y ∈ l -> l_next s' !! y = l_next s !! y) ->
    walk (length (l ++ [e])) h (default e (head l)) s' = (Ret (l ++ [e]), s')) as Hwalk.
  { clear l Hs Hh He Hn. induction l as [|a l IH]; intros x Hs Hh Hn; cbn [head default app length walk].
    - rewrite bool_decide_false by done. erewrite bind_Ret by (by apply get_next_run). by rewrite bool_decide_true.
    - rewrite bool_decide_false by set_solver. destruct Hs as (_ & _ & Hs).
      assert (l_next s !! a = Some (default e (head l))) as En by (destruct l; apply Hs).
      rewrite <- Hn in En by set_solver. erewrite bind_Ret by (by apply get_next_run).
      erewrite bind_Ret; [done|]. apply (IH a); [done|set_solver..]. }
  unfold list_for_each_entry. assert (l_next s !! h = Some (default e (head l))) as En by (destruct l; apply Hs).
  rewrite <- Hn in En by set_solver. erewrite bind_Ret by (by apply get_next_run).
  apply (Hwalk l h); [done|done|]. intros y Hy. apply Hn. by right.
Qed.

(** Adding another element of a list at its end again makes the loop miss the elements that came
    after it, also when the element is deleted then, which does not take it out. *)
Theorem list_add_tail_again h l1 e c l2 s :
  ring h (l1 ++ e :: c :: l2) s ->
  exists s1 s2, list_add_tail e h s = (Ret tt, s1) /\ list_del e s1 = (Ret tt, s2) /\
    list_for_each_entry (length (l1 ++ [e])) h s1 = (Ret (l1 ++ [e]), s1) /\
    list_for_each_entry (length (l1 ++ [e])) h s2 = (Ret (l1 ++ [e]), s2).
Proof.
  intros Hr. destruct (ring_split _ _ _ _ _ Hr) as (Hnd1 & Hnd2 & Hs1 & Hs2 & Hd).
  assert (e ∉ h :: l1) as He by (intros He; apply (Hd e He); left).
  assert (e <> h) as Hne by set_solver. apply NoDup_cons in Hnd1 as [Hh _]. destruct Hs2 as (_ & _ & Hs2).
  destruct (seg_prev _ _ _ _ Hs2) as (p & Ep & Hp). apply NoDup_cons in Hnd2 as [Hec _].
  assert (p <> e) as Hpe by (intros ->; done).
  assert (p ∉ h :: l1) as Hph by (intros Hin; apply (Hd p Hin); by right).
  assert (p <> h) as Hph' by (intros ->; apply Hph; left).
  set (s1 := relink (relink s p e) e h).
  exists s1, (relink s1 p h). split_and!.
  - by apply list_add_tail_run.
  - apply list_del_run; [..|done]; cbn.
    + by rewrite lookup_insert_eq.
    + by rewrite lookup_insert_ne, lookup_insert_eq by done.
  - apply (loop_cut_short h l1 e s); try done; cbn.
    + intros y Hy. rewrite !lookup_insert_ne; [done|set_solver..].
    + by rewrite lookup_insert_eq.
  - apply (loop_cut_short h l1 e s); try done; cbn.
    + intros y Hy. rewrite !lookup_insert_ne; [done|set_solver..].
    + by rewrite lookup_insert_ne, lookup_insert_eq by done.
Qed.

Lemma list_add_tail_twice_witness :
  exists s1, list_add_tail 7 0 sample_links = (Ret tt, s1) /\
    forall fuel, list_for_each_entry fuel 0 s1 = (Undef out_of_fuel, s1).
Proof.
  destruct (list_add_tail_twice 0 [3; 5]%nat 7 sample_links sample_links_ring) as (s1 & _ & H1 & _ & H2 & _).
  by exists s1.
Defined.

Lemma list_add_tail_again_witness :
  exists s2, snd (list_del 3 (snd (list_add_tail 3 0 sample_links))) = s2 /\
    list_for_each_entry 1 0 s2 = (Ret [3%nat], s2).
Proof.
  destruct (list_add_tail_again 0 [] 3 5 [7%nat] sample_links sample_links_ring) as (s1 & s2 & E1 & E2 & _ & E).
  exists s2. rewrite E1. cbn [snd]. by rewrite E2.
Defined.
