(* ===== verification/UsbIo.v ===== *)
(** * Asynchronous transfers of libusb (src/external/libusb-1.0.9/libusb/io.c)

    A context keeps the transfers in flight in a list sorted by deadline ([c_flying]; the links
    are those of UsbList.v), the descriptors to poll and, where the system has one, a timer that
    fires at the next deadline.  This file models the transfers, their submission, completion,
    cancellation and timeouts, and the handling of events.  The system below is [IoBackend] (the
    functions of [usbi_os_backend], the clocks, [poll] and the timer); what runs inside the
    library but is not io.c (the callbacks of transfers, [handle_events] of the system's backend,
    the other threads) is [IoEvents].  The lock of the events is the field [c_events_locked], who holds it and how often; the
    functions that hold one of the other locks run without interruption.

    The theorems: the list of the transfers in flight stays sorted, with those without a timeout
    last; an expired transfer, and no other, is cancelled, once; the next timeout is that of the
    first transfer that has one; a deadline is the timeout after now; a disconnected device keeps
    no transfer.  Others show deadlines that are not valid times and that the timer is disarmed
    while transfers with a timeout are in flight. *)
From S2P Require Import Prelude UsbBase.

(** ** Transfers and contexts *)

(** [usbi_transfer], src/external/libusb-1.0.9/libusb/libusbi.h:359-374, without its lock and its
    links; the time is seconds and microseconds. *)
Record usbi_transfer := mk_itransfer {
  it_num_iso_packets : Z; it_timeout : Z * Z; it_transferred : Z; it_flags : Z }.

(** [libusb_iso_packet_descriptor], src/external/libusb-1.0.9/libusb/libusb.h:854-863. *)
Record libusb_iso_packet_descriptor := mk_iso_packet {
  ip_length : Z; ip_actual_length : Z; ip_status : libusb_transfer_status }.

(** [libusb_transfer], src/external/libusb-1.0.9/libusb/libusb.h:884-940; the handle of the
    device, the user's data and the buffer are the numbers of their blocks, the callback is
    whether there is one. *)
Record libusb_transfer := mk_transfer {
  tr_dev_handle : nat; tr_flags : Z; tr_endpoint : Z; tr_type : Z; tr_timeout : Z;
  tr_status : libusb_transfer_status; tr_length : Z; tr_actual_length : Z; tr_callback : bool;
  tr_user_data : nat; tr_buffer : option nat; tr_num_iso_packets : Z;
  tr_iso_packet_desc : list libusb_iso_packet_descriptor }.

(** [usbi_transfer_flags], src/external/libusb-1.0.9/libusb/libusbi.h:376-388. *)
Definition USBI_TRANSFER_TIMED_OUT : Z := Z.shiftl 1 0.
Definition USBI_TRANSFER_OS_HANDLES_TIMEOUT : Z := Z.shiftl 1 1.
Definition USBI_TRANSFER_CANCELLING : Z := Z.shiftl 1 2.
Definition USBI_TRANSFER_DEVICE_DISAPPEARED : Z := Z.shiftl 1 3.

(** [usbi_pollfd], src/external/libusb-1.0.9/libusb/libusbi.h:436-441: its block, the descriptor
    and the events. *)
Record pollfd := mk_pollfd { pf_block : nat; pf_fd : Z; pf_events : Z }.

(** Who holds [events_lock], a recursive mutex: nobody, this thread, once and [again] times more,
    or another thread. *)
Inductive events_lock := Lock_free | Lock_mine (again : nat) | Lock_other.

(** The fields of [libusb_context] that io.c uses,
    src/external/libusb-1.0.9/libusb/libusbi.h:252-305, with the memory of the process, the
    transfers that are allocated, the contents of their buffers and, in [c_rest], the system.
    [c_events_locked] is who holds the lock of the events, which the thread that has it can take
    again. *)
Record Ctx (D : Type) := mkCtx {
  c_heap : Heap; c_transfers : gmap nat (usbi_transfer * libusb_transfer); c_bytes : gmap nat (list Z);
  c_flying : list nat; c_pollfds : list pollfd; c_pollfd_modify : Z; c_events_locked : events_lock;
  c_handler_active : bool; c_notifiers : bool; c_ctrl_pipe : Z * Z; c_timerfd : Z; c_rest : D }.
Arguments mkCtx {D} _ _ _ _ _ _ _ _ _ _ _ _.
Arguments c_ctrl_pipe {D} _.
Arguments c_heap {D} _.
Arguments c_transfers {D} _.
Arguments c_bytes {D} _.
Arguments c_flying {D} _.
Arguments c_pollfds {D} _.
Arguments c_pollfd_modify {D} _.
Arguments c_events_locked {D} _.
Arguments c_handler_active {D} _.
Arguments c_notifiers {D} _.
Arguments c_timerfd {D} _.
Arguments c_rest {D} _.

(** The system: the backend's functions on transfers take the transfer and return an error or 0;
    a clock returns seconds and nanoseconds, or nothing when it cannot be read. *)
Class IoBackend (D : Type) := {
  clock_monotonic : M D (option (Z * Z));
  clock_realtime : M D (option (Z * Z));
  backend_submit_transfer : nat -> usbi_transfer -> libusb_transfer -> M D Z;
  backend_cancel_transfer : nat -> libusb_transfer -> M D Z;
  backend_clear_transfer_priv : nat -> libusb_transfer -> M D unit;
  (** The zeros that [memset] writes to the part of a new transfer that is the backend's. *)
  backend_zero_transfer_priv : nat -> M D unit;
  (** [timerfd_settime]: seconds and nanoseconds, both 0 to disarm; it returns 0 or -1. *)
  timerfd_settime : Z * Z -> M D Z;
  (** [poll] of descriptors and their events: the number returned, what happened on each, and
      whether an error was an interruption. *)
  usbi_poll : list (Z * Z) -> Z -> M D (Z * list Z * bool);
  (** [pipe], [timerfd_create] (negative on failure) and [close]. *)
  usbi_pipe : M D (option (Z * Z));
  timerfd_create : M D Z;
  usbi_close : Z -> M D unit;
  (** The notifiers that the program has registered. *)
  fd_added_cb : Z -> Z -> M D unit;
  fd_removed_cb : Z -> M D unit }.

(** What runs in the library on the whole context. *)
Class IoEvents (D : Type) := {
  (** The callback of a transfer. *)
  run_callback : nat -> M (Ctx D) unit;
  (** [handle_events] of the backend: descriptors, events, what happened, and how many. *)
  backend_handle_events : list (Z * Z * Z) -> Z -> M (Ctx D) Z;
  (** The other threads, until this one is scheduled again. *)
  other_threads : M (Ctx D) unit;
  (** [pthread_cond_timedwait] on the condition of the event waiters, during which other threads
      run: whether it timed out. *)
  event_waiters_timedwait : Z * Z -> M (Ctx D) bool;
  (** The other threads, until the one that holds the lock of the events gives it back. *)
  events_lock_wait : M (Ctx D) unit }.

Section io.
Context {D : Type} `{IoBackend D} `{IoEvents D}.
Implicit Types (s : Ctx D).

Definition on_system {A} (m : M D A) : M (Ctx D) A := fun s =>
  let '(r, d) := m (c_rest s) in
  (r, mkCtx (c_heap s) (c_transfers s) (c_bytes s) (c_flying s) (c_pollfds s) (c_pollfd_modify s)
        (c_events_locked s) (c_handler_active s) (c_notifiers s) (c_ctrl_pipe s) (c_timerfd s) d).
Definition in_memory {A} (m : M Heap A) : M (Ctx D) A := fun s =>
  let '(r, h) := m (c_heap s) in
  (r, mkCtx h (c_transfers s) (c_bytes s) (c_flying s) (c_pollfds s) (c_pollfd_modify s)
        (c_events_locked s) (c_handler_active s) (c_notifiers s) (c_ctrl_pipe s) (c_timerfd s) (c_rest s)).
Definition set_transfers (m : gmap nat (usbi_transfer * libusb_transfer)) : M (Ctx D) unit :=
  modify (fun s => mkCtx (c_heap s) m (c_bytes s) (c_flying s) (c_pollfds s) (c_pollfd_modify s)
        (c_events_locked s) (c_handler_active s) (c_notifiers s) (c_ctrl_pipe s) (c_timerfd s) (c_rest s)).
Definition set_flying (l : list nat) : M (Ctx D) unit :=
  modify (fun s => mkCtx (c_heap s) (c_transfers s) (c_bytes s) l (c_pollfds s) (c_pollfd_modify s)
        (c_events_locked s) (c_handler_active s) (c_notifiers s) (c_ctrl_pipe s) (c_timerfd s) (c_rest s)).
Definition set_pollfds (l : list pollfd) : M (Ctx D) unit :=
  modify (fun s => mkCtx (c_heap s) (c_transfers s) (c_bytes s) (c_flying s) l (c_pollfd_modify s)
        (c_events_locked s) (c_handler_active s) (c_notifiers s) (c_ctrl_pipe s) (c_timerfd s) (c_rest s)).
Definition set_lock (holder : events_lock) (active : bool) : M (Ctx D) unit :=
  modify (fun s => mkCtx (c_heap s) (c_transfers s) (c_bytes s) (c_flying s) (c_pollfds s)
        (c_pollfd_modify s) holder active (c_notifiers s) (c_ctrl_pipe s) (c_timerfd s) (c_rest s)).

Definition freed : string := "use of a transfer that is not allocated".
Definition find_transfer s (t : nat) : outcome (usbi_transfer * libusb_transfer) :=
  match c_transfers s !! t with Some x => Ret x | None => Undef freed end.
Definition get_transfer (t : nat) : M (Ctx D) (usbi_transfer * libusb_transfer) :=
  query (fun s => find_transfer s t).
Definition put_transfer (t : nat) (x : usbi_transfer * libusb_transfer) : M (Ctx D) unit :=
  let* m := gets c_transfers in set_transfers (<[t:=x]> m).

Definition usbi_using_timerfd s : bool := 0 <=? c_timerfd s.

(** ** Times *)

(** [timerisset] and [timercmp(a, b, <)]. *)
Definition timerisset (tv : Z * Z) : bool := negb ((tv.1 =? 0) && (tv.2 =? 0)).
Definition tv_before (a b : Z * Z) : bool :=
  (a.1 <? b.1) || ((a.1 =? b.1) && (a.2 <? b.2)).
(** [timersub]. *)
Definition timersub (a b : Z * Z) : Z * Z :=
  let sec := a.1 - b.1 in let usec := a.2 - b.2 in
  if usec <? 0 then (sec - 1, usec + 1000000) else (sec, usec).
(** The macro [TIMESPEC_TO_TIMEVAL] of the C library. *)
Definition TIMESPEC_TO_TIMEVAL (ts : Z * Z) : Z * Z := (ts.1, ts.2 / 1000).

(** The deadline of a transfer with a timeout of some milliseconds,
    src/external/libusb-1.0.9/libusb/io.c:1141-1149. *)
Definition deadline (now : Z * Z) (timeout : Z) : Z * Z :=
  let tv_sec := now.1 + timeout / 1000 in
  let tv_nsec := now.2 + (timeout mod 1000) * 1000000 in
  TIMESPEC_TO_TIMEVAL
    (if 1000000000 <? tv_nsec then (tv_sec + 1, tv_nsec - 1000000000) else (tv_sec, tv_nsec)).

(** [calculate_timeout], src/external/libusb-1.0.9/libusb/io.c:1124-1151: a transfer without a
    timeout keeps the deadline it had. *)
Definition calculate_timeout (t : nat) : M (Ctx D) Z :=
  let* '(it, tr) := get_transfer t in
  if tr_timeout tr =? 0 then ret 0
  else
    let* now := on_system clock_monotonic in
    match now with
    | None => ret (-1)
    | Some now =>
        do* put_transfer t (mk_itransfer (it_num_iso_packets it) (deadline now (tr_timeout tr))
                              (it_transferred it) (it_flags it), tr) in
        ret 0
    end.

(** ** The transfers in flight *)

(** The loop of [add_to_flying_list] over the transfers in flight: the list with the transfer
    [t] inserted, and what [first] is then,
    src/external/libusb-1.0.9/libusb/io.c:1180-1196. *)
Fixpoint insert_flying s (t : nat) (timeout : Z * Z) (l : list nat) (first : Z)
    : outcome (list nat * Z) :=
  match l with
  | [] => Ret ([t], 0)
  | cur :: l' =>
      '(it, _) ← find_transfer s cur;
      if negb (timerisset (it_timeout it)) || tv_before timeout (it_timeout it) then Ret (t :: cur :: l', first)
      else '(l'', r) ← insert_flying s t timeout l' 0; Ret (cur :: l'', r)
  end.

(** [add_to_flying_list], src/external/libusb-1.0.9/libusb/io.c:1156-1200.  When the
    transfer is in the list already the code does not notice: it links the element a second time,
    after which there is no list any more (UsbList.v: the loop over it never ends,
    [list_add_tail_twice], or misses transfers, [list_add_tail_again]), so that such a call has no
    result here. *)
Definition add_to_flying_list (t : nat) : M (Ctx D) Z :=
  let* '(it, _) := get_transfer t in
  let* l := gets c_flying in
  if bool_decide (t ∈ l) then undef "a list with an element that is linked twice"
  else
    match l with
    | [] => do* set_flying [t] in ret (if timerisset (it_timeout it) then 1 else 0)
    | _ =>
        if negb (timerisset (it_timeout it)) then do* set_flying (l ++ [t]) in ret 0
        else
          let* '(l', r) := query (fun s => insert_flying s t (it_timeout it) l 1) in
          do* set_flying l' in ret r
    end.

Fixpoint remove_flying (t : nat) (l : list nat) : list nat :=
  match l with
  | [] => []
  | a :: l' => if bool_decide (a = t) then l' else a :: remove_flying t l'
  end.

(** [list_del(&itransfer->list)] of the list of the transfers in flight. *)
Definition del_flying (t : nat) : M (Ctx D) unit :=
  do* get_transfer t in
  let* l := gets c_flying in
  if bool_decide (t ∈ l) then set_flying (remove_flying t l)
  else undef "deletion from a list of an element that is not in it".

(** ** Allocating, submitting, cancelling *)

(** What [memset] makes of a transfer. *)
Definition zero_transfer (iso_packets : Z) : usbi_transfer * libusb_transfer :=
  (mk_itransfer iso_packets (0, 0) 0 0,
   mk_transfer 0 0 0 0 0 LIBUSB_TRANSFER_COMPLETED 0 0 false 0 None 0
     (replicate (Z.to_nat iso_packets) (mk_iso_packet 0 0 LIBUSB_TRANSFER_COMPLETED))).

(** [libusb_alloc_transfer], src/external/libusb-1.0.9/libusb/io.c:1225-1243. *)
Definition libusb_alloc_transfer (iso_packets : Z) : M (Ctx D) (option nat) :=
  let* b := in_memory malloc in
  match b with
  | None => ret None
  | Some t =>
      do* put_transfer t (zero_transfer iso_packets) in
      do* on_system (backend_zero_transfer_priv t) in
      ret (Some t)
  end.

(** [libusb_free_transfer], src/external/libusb-1.0.9/libusb/io.c:1262-1274. *)
Definition libusb_free_transfer (transfer : option nat) : M (Ctx D) unit :=
  match transfer with
  | None => ret tt
  | Some t =>
      let* '(_, tr) := get_transfer t in
      do* (match tr_buffer tr with
           | Some b => if Z.land (tr_flags tr) LIBUSB_TRANSFER_FREE_BUFFER =? 0 then ret tt
                       else in_memory (free_block b)
           | None => ret tt
           end) in
      do* in_memory (free_block t) in
      let* m := gets c_transfers in
      set_transfers (delete t m)
  end.

(** The timer set to a deadline. *)
Definition set_timer (tv : Z * Z) : M (Ctx D) Z := on_system (timerfd_settime (tv.1, tv.2 * 1000)).

(** [libusb_submit_transfer], src/external/libusb-1.0.9/libusb/io.c:1288-1330. *)
Definition libusb_submit_transfer (t : nat) : M (Ctx D) Z :=
  let* '(it, tr) := get_transfer t in
  do* put_transfer t (mk_itransfer (it_num_iso_packets it) (it_timeout it) 0 0, tr) in
  let* r := calculate_timeout t in
  if r <? 0 then ret (LIBUSB_ERROR_OTHER : Z)
  else
    let* first := add_to_flying_list t in
    let* '(it, tr) := get_transfer t in
    let* r := on_system (backend_submit_transfer t it tr) in
    let* timerfd := gets usbi_using_timerfd in
    if negb (r =? 0) then do* del_flying t in ret r
    else if negb (first =? 0) && timerfd then
      let* r := set_timer (it_timeout it) in
      ret (if r <? 0 then (LIBUSB_ERROR_OTHER : Z) else r)
    else ret r.

(** [libusb_cancel_transfer], src/external/libusb-1.0.9/libusb/io.c:1346-1370. *)
Definition libusb_cancel_transfer (t : nat) : M (Ctx D) Z :=
  let* '(_, tr) := get_transfer t in
  let* r := on_system (backend_cancel_transfer t tr) in
  let* '(it, tr) := get_transfer t in
  let flags := if r =? LIBUSB_ERROR_NO_DEVICE then Z.lor (it_flags it) USBI_TRANSFER_DEVICE_DISAPPEARED
               else it_flags it in
  do* put_transfer t (mk_itransfer (it_num_iso_packets it) (it_timeout it) (it_transferred it)
                        (Z.lor flags USBI_TRANSFER_CANCELLING), tr) in
  ret r.

(** ** The timer *)

(** [disarm_timerfd], src/external/libusb-1.0.9/libusb/io.c:1373-1384. *)
Definition disarm_timerfd : M (Ctx D) Z :=
  let* r := on_system (timerfd_settime (0, 0)) in
  ret (if r <? 0 then (LIBUSB_ERROR_OTHER : Z) else 0).

Fixpoint arm_next (l : list nat) : M (Ctx D) Z :=
  match l with
  | [] => ret 0
  | t :: l' =>
      let* '(it, _) := get_transfer t in
      if negb (timerisset (it_timeout it)) then ret 0
      else if Z.land (it_flags it) USBI_TRANSFER_TIMED_OUT =? 0 then
        let* r := set_timer (it_timeout it) in
        ret (if r <? 0 then (LIBUSB_ERROR_OTHER : Z) else 1)
      else arm_next l'
  end.
(** [arm_timerfd_for_next_timeout], src/external/libusb-1.0.9/libusb/io.c:1392-1418. *)
Definition arm_timerfd_for_next_timeout : M (Ctx D) Z :=
  let* l := gets c_flying in arm_next l.

(** ** Completion *)

(** The status reported for a transfer: a short one may be an error,
    src/external/libusb-1.0.9/libusb/io.c:1466-1476. *)
Definition reported_status (it : usbi_transfer) (tr : libusb_transfer) (status : libusb_transfer_status)
    : libusb_transfer_status :=
  if bool_decide (status = LIBUSB_TRANSFER_COMPLETED)
     && negb (Z.land (tr_flags tr) LIBUSB_TRANSFER_SHORT_NOT_OK =? 0) then
    let rqlen := if tr_type tr =? LIBUSB_TRANSFER_TYPE_CONTROL then tr_length tr - 8 else tr_length tr in
    if rqlen =? it_transferred it then status else LIBUSB_TRANSFER_ERROR
  else status.

(** The end of [usbi_handle_transfer_completion]: the callback and what follows. *)
Definition complete_transfer (t : nat) (status : libusb_transfer_status) : M (Ctx D) Z :=
  let* '(it, tr) := get_transfer t in
  do* put_transfer t (it, mk_transfer (tr_dev_handle tr) (tr_flags tr) (tr_endpoint tr) (tr_type tr)
        (tr_timeout tr) (reported_status it tr status) (tr_length tr) (it_transferred it) (tr_callback tr)
        (tr_user_data tr) (tr_buffer tr) (tr_num_iso_packets tr) (tr_iso_packet_desc tr)) in
  do* (if tr_callback tr then run_callback t else ret tt) in
  do* (if Z.land (tr_flags tr) LIBUSB_TRANSFER_FREE_TRANSFER =? 0 then ret tt
       else libusb_free_transfer (Some t)) in
  ret 0.

(** [usbi_handle_transfer_completion],
    src/external/libusb-1.0.9/libusb/io.c:1440-1493. *)
Definition usbi_handle_transfer_completion (t : nat) (status : libusb_transfer_status) : M (Ctx D) Z :=
  do* del_flying t in
  let* timerfd := gets usbi_using_timerfd in
  if timerfd : bool then
    let* r := arm_timerfd_for_next_timeout in
    if r <? 0 then ret r
    else
      let* r := disarm_timerfd in
      if r <? 0 then ret r else complete_transfer t status
  else complete_transfer t status.

(** [usbi_handle_transfer_cancellation],
    src/external/libusb-1.0.9/libusb/io.c:1501-1511. *)
Definition usbi_handle_transfer_cancellation (t : nat) : M (Ctx D) Z :=
  let* '(it, _) := get_transfer t in
  if Z.land (it_flags it) USBI_TRANSFER_TIMED_OUT =? 0
  then usbi_handle_transfer_completion t LIBUSB_TRANSFER_CANCELLED
  else usbi_handle_transfer_completion t LIBUSB_TRANSFER_TIMED_OUT.

(** ** Timeouts *)

(** [handle_timeout], src/external/libusb-1.0.9/libusb/io.c:1759-1770. *)
Definition handle_timeout (t : nat) : M (Ctx D) unit :=
  let* '(it, tr) := get_transfer t in
  do* put_transfer t (mk_itransfer (it_num_iso_packets it) (it_timeout it) (it_transferred it)
                        (Z.lor (it_flags it) USBI_TRANSFER_TIMED_OUT), tr) in
  let* _ := libusb_cancel_transfer t in
  ret tt.

(** A timeout that has been handled, or that the system handles. *)
Definition timeout_handled (it : usbi_transfer) : bool :=
  negb (Z.land (it_flags it) (Z.lor USBI_TRANSFER_TIMED_OUT USBI_TRANSFER_OS_HANDLES_TIMEOUT) =? 0).

(** The loop of [handle_timeouts_locked],
    src/external/libusb-1.0.9/libusb/io.c:1791-1810. *)
Fixpoint timeouts_loop (systime : Z * Z) (l : list nat) : M (Ctx D) unit :=
  match l with
  | [] => ret tt
  | t :: l' =>
      let* '(it, _) := get_transfer t in
      if negb (timerisset (it_timeout it)) then ret tt
      else if timeout_handled it then timeouts_loop systime l'
      else if tv_before systime (it_timeout it) then ret tt
      else do* handle_timeout t in timeouts_loop systime l'
  end.

(** [handle_timeouts_locked], src/external/libusb-1.0.9/libusb/io.c:1772-1812. *)
Definition handle_timeouts_locked : M (Ctx D) Z :=
  let* l := gets c_flying in
  match l with
  | [] => ret 0
  | _ =>
      let* now := on_system clock_monotonic in
      match now with
      | None => ret (-1)
      | Some now => do* timeouts_loop (TIMESPEC_TO_TIMEVAL now) l in ret 0
      end
  end.

(** [handle_timeouts], src/external/libusb-1.0.9/libusb/io.c:1814-1822. *)
Definition handle_timeouts : M (Ctx D) Z := handle_timeouts_locked.

(** [handle_timerfd_trigger], src/external/libusb-1.0.9/libusb/io.c:1825-1846. *)
Definition handle_timerfd_trigger : M (Ctx D) Z :=
  let* r := disarm_timerfd in
  if r <? 0 then ret r
  else
    let* r := handle_timeouts_locked in
    if r <? 0 then ret r else arm_timerfd_for_next_timeout.

(** The loop of [libusb_get_next_timeout] to the next transfer whose timeout is to be handled. *)
Fixpoint next_to_expire s (l : list nat) : outcome (option (Z * Z)) :=
  match l with
  | [] => Ret None
  | t :: l' =>
      '(it, _) ← find_transfer s t;
      if timeout_handled it || negb (timerisset (it_timeout it)) then next_to_expire s l'
      else Ret (Some (it_timeout it))
  end.

(** [libusb_get_next_timeout], src/external/libusb-1.0.9/libusb/io.c:2226-2284: the value
    returned and [*tv] when it is written. *)
Definition libusb_get_next_timeout : M (Ctx D) (Z * option (Z * Z)) :=
  let* timerfd := gets usbi_using_timerfd in
  if timerfd : bool then ret (0, None)
  else
    let* next := query (fun s => next_to_expire s (c_flying s)) in
    match next with
    | None => ret (0, None)
    | Some next_timeout =>
        let* now := on_system clock_monotonic in
        match now with
        | None => ret (LIBUSB_ERROR_OTHER : Z, None)
        | Some now =>
            let cur_tv := TIMESPEC_TO_TIMEVAL now in
            if tv_before cur_tv next_timeout then ret (1, Some (timersub next_timeout cur_tv))
            else ret (1, Some (0, 0))
        end
    end.

(** [get_next_timeout], src/external/libusb-1.0.9/libusb/io.c:1959-1978: [*out], or nothing when
    a timeout has expired already. *)
Definition get_next_timeout (tv : Z * Z) : M (Ctx D) (option (Z * Z)) :=
  let* '(r, timeout) := libusb_get_next_timeout in
  if r =? 0 then ret (Some tv)
  else
    match timeout with
    | None => undef "value of an uninitialised time"
    | Some timeout =>
        if timerisset timeout then ret (Some (if tv_before timeout tv then timeout else tv)) else ret None
    end.

(** [libusb_pollfds_handle_timeouts],
    src/external/libusb-1.0.9/libusb/io.c:2187-2196. *)
Definition libusb_pollfds_handle_timeouts : M (Ctx D) bool := gets usbi_using_timerfd.

(** ** Handling events *)

(** [libusb_try_lock_events], src/external/libusb-1.0.9/libusb/io.c:1532-1553. *)
Definition libusb_try_lock_events : M (Ctx D) Z :=
  let* s := gets id in
  if negb (c_pollfd_modify s =? 0) then ret 1
  else
    match c_events_locked s with
    | Lock_free => do* set_lock (Lock_mine 0) true in ret 0
    | Lock_mine again => do* set_lock (Lock_mine (S again)) true in ret 0
    | Lock_other => ret 1
    end.

(** [libusb_lock_events], src/external/libusb-1.0.9/libusb/io.c:1573-1578: the thread that holds
    the lock takes it once more; while another one holds it the other threads run, and the call
    does not return when it is never given back. *)
Definition libusb_lock_events : M (Ctx D) unit :=
  let* s := gets id in
  match c_events_locked s with
  | Lock_free => set_lock (Lock_mine 0) true
  | Lock_mine again => set_lock (Lock_mine (S again)) true
  | Lock_other =>
      do* events_lock_wait in
      let* s := gets id in
      match c_events_locked s with
      | Lock_free => set_lock (Lock_mine 0) true
      | _ => undef "waiting for a lock that is never given back"
      end
  end.

(** [libusb_unlock_events], src/external/libusb-1.0.9/libusb/io.c:1588-1600. *)
Definition libusb_unlock_events : M (Ctx D) unit :=
  let* s := gets id in
  match c_events_locked s with
  | Lock_mine 0 => set_lock Lock_free false
  | Lock_mine (S again) => set_lock (Lock_mine again) false
  | _ => undef "release of a lock that this thread does not hold"
  end.

(** [libusb_event_handling_ok], src/external/libusb-1.0.9/libusb/io.c:1623-1639. *)
Definition libusb_event_handling_ok : M (Ctx D) Z :=
  let* s := gets id in ret (if c_pollfd_modify s =? 0 then 1 else 0).

(** [libusb_event_handler_active], src/external/libusb-1.0.9/libusb/io.c:1651-1667. *)
Definition libusb_event_handler_active : M (Ctx D) Z :=
  let* s := gets id in
  ret (if negb (c_pollfd_modify s =? 0) then 1 else if c_handler_active s then 1 else 0).

(** The time until which [libusb_wait_for_event] waits,
    src/external/libusb-1.0.9/libusb/io.c:1746-1751. *)
Definition wait_deadline (now tv : Z * Z) : Z * Z :=
  let tv_sec := now.1 + tv.1 in
  let tv_nsec := now.2 + tv.2 * 1000 in
  if 1000000000 <? tv_nsec then (tv_sec + 1, tv_nsec - 1000000000) else (tv_sec, tv_nsec).

(** [libusb_wait_for_event], src/external/libusb-1.0.9/libusb/io.c:1730-1757. *)
Definition libusb_wait_for_event (tv : option (Z * Z)) : M (Ctx D) Z :=
  match tv with
  | None => do* other_threads in ret 0
  | Some tv =>
      let* now := on_system clock_realtime in
      match now with
      | None => ret (LIBUSB_ERROR_OTHER : Z)
      | Some now =>
          let* timed_out := event_waiters_timedwait (wait_deadline now tv) in
          ret (if (timed_out : bool) then 1 else 0)
      end
  end.

(** The milliseconds that [handle_events] polls for,
    src/external/libusb-1.0.9/libusb/io.c:1881-1885. *)
Definition poll_ms (tv : Z * Z) : Z :=
  let timeout_ms := i32 (tv.1 * 1000 + tv.2 / 1000) in
  if tv.2 mod 1000 =? 0 then timeout_ms else i32 (timeout_ms + 1).

(** What happened on a descriptor. *)
Definition revents_of (revents : list Z) (i : nat) : outcome Z :=
  match revents !! i with Some r => Ret r | None => Undef overrun end.

(** What [handle_events] does with the result of [poll], before the backend: the value to
    return, or the descriptors left and how many, src/external/libusb-1.0.9/libusb/io.c:1903-1942. *)
Definition own_events (r : Z) (revents : list Z) : M (Ctx D) (Z + (Z * list Z)) :=
  let* r0 := lift (revents_of revents 0) in
  if negb (r0 =? 0) && (r =? 1) then ret (inl 0)
  else
    let '(r, revents) := if r0 =? 0 then (r, revents) else (r - 1, <[0%nat:=0]> revents) in
    let* timerfd := gets usbi_using_timerfd in
    let* r1 := (if timerfd : bool then lift (revents_of revents 1) else ret 0) in
    if r1 =? 0 then ret (inr (r, revents))
    else
      let* ret_ := handle_timerfd_trigger in
      if ret_ <? 0 then ret (inl ret_)
      else if r =? 1 then ret (inl 0)
      else ret (inr (r - 1, <[1%nat:=0]> revents)).

(** [handle_events], src/external/libusb-1.0.9/libusb/io.c:1851-1951. *)
Definition handle_events (tv : Z * Z) : M (Ctx D) Z :=
  let* pfds := gets c_pollfds in
  let* fds := in_memory malloc in
  match fds with
  | None => ret (LIBUSB_ERROR_NO_MEM : Z)
  | Some fds =>
      let* '(r, revents, interrupted) :=
        on_system (usbi_poll (map (fun p => (pf_fd p, pf_events p)) pfds) (poll_ms tv)) in
      if r =? 0 then do* in_memory (free_block fds) in handle_timeouts
      else if (r =? -1) && interrupted then
        do* in_memory (free_block fds) in ret (LIBUSB_ERROR_INTERRUPTED : Z)
      else if r <? 0 then do* in_memory (free_block fds) in ret (LIBUSB_ERROR_IO : Z)
      else
        let* o := own_events r revents in
        let* r := match o with
                  | inl r => ret r
                  | inr (r, revents) =>
                      backend_handle_events (zip_with (fun p e => (pf_fd p, pf_events p, e)) pfds revents) r
                  end in
        do* in_memory (free_block fds) in
        ret r
  end.

(** The end of [libusb_handle_events_timeout_completed]. *)
Definition events_done (r : Z) : M (Ctx D) Z :=
  if r <? 0 then ret r else if r =? 1 then handle_timeouts else ret 0.

(** From the label [retry] of [libusb_handle_events_timeout_completed] on; [completed] reads
    [*completed]. *)
Fixpoint events_retry (fuel : nat) (poll_timeout : Z * Z) (completed : M (Ctx D) bool) : M (Ctx D) Z :=
  do* other_threads in
  let* busy := libusb_try_lock_events in
  if busy =? 0 then
    let* c := completed in
    let* r := (if c : bool then ret 0 else handle_events poll_timeout) in
    do* libusb_unlock_events in
    ret r
  else
    do* other_threads in
    let* c := completed in
    if c : bool then events_done 0
    else
      let* active := libusb_event_handler_active in
      if active =? 0 then
        match fuel with
        | O => undef out_of_fuel
        | S fuel => events_retry fuel poll_timeout completed
        end
      else
        let* r := libusb_wait_for_event (Some poll_timeout) in
        events_done r.

(** [libusb_handle_events_timeout_completed],
    src/external/libusb-1.0.9/libusb/io.c:2006-2057. *)
Definition libusb_handle_events_timeout_completed (fuel : nat) (tv : Z * Z) (completed : M (Ctx D) bool)
    : M (Ctx D) Z :=
  let* poll_timeout := get_next_timeout tv in
  match poll_timeout with
  | None => handle_timeouts
  | Some poll_timeout => events_retry fuel poll_timeout completed
  end.

(** [libusb_handle_events_timeout], src/external/libusb-1.0.9/libusb/io.c:2075-2079. *)
Definition libusb_handle_events_timeout (fuel : nat) (tv : Z * Z) : M (Ctx D) Z :=
  libusb_handle_events_timeout_completed fuel tv (ret false).

(** [libusb_handle_events], src/external/libusb-1.0.9/libusb/io.c:2095-2101. *)
Definition libusb_handle_events (fuel : nat) : M (Ctx D) Z :=
  libusb_handle_events_timeout_completed fuel (60, 0) (ret false).

(** [libusb_handle_events_completed],
    src/external/libusb-1.0.9/libusb/io.c:2117-2124. *)
Definition libusb_handle_events_completed (fuel : nat) (completed : M (Ctx D) bool) : M (Ctx D) Z :=
  libusb_handle_events_timeout_completed fuel (60, 0) completed.

(** [libusb_handle_events_locked], src/external/libusb-1.0.9/libusb/io.c:2143-2157. *)
Definition libusb_handle_events_locked (tv : Z * Z) : M (Ctx D) Z :=
  let* poll_timeout := get_next_timeout tv in
  match poll_timeout with
  | None => handle_timeouts
  | Some poll_timeout => handle_events poll_timeout
  end.

(** ** Descriptors to poll *)

(** [usbi_add_pollfd], src/external/libusb-1.0.9/libusb/io.c:2320-2336. *)
Definition usbi_add_pollfd (fd events : Z) : M (Ctx D) Z :=
  let* b := in_memory malloc in
  match b with
  | None => ret (LIBUSB_ERROR_NO_MEM : Z)
  | Some b =>
      let* s := gets id in
      do* set_pollfds (c_pollfds s ++ [mk_pollfd b fd events]) in
      do* (if c_notifiers s then on_system (fd_added_cb fd events) else ret tt) in
      ret 0
  end.

(** The first entry with a descriptor, and the list without it. *)
Fixpoint take_pollfd (fd : Z) (l : list pollfd) : option (pollfd * list pollfd) :=
  match l with
  | [] => None
  | p :: l' => if pf_fd p =? fd then Some (p, l') else (fun '(q, l'') => (q, p :: l'')) <$> take_pollfd fd l'
  end.

(** [usbi_remove_pollfd], src/external/libusb-1.0.9/libusb/io.c:2339-2363. *)
Definition usbi_remove_pollfd (fd : Z) : M (Ctx D) unit :=
  let* s := gets id in
  match take_pollfd fd (c_pollfds s) with
  | None => ret tt
  | Some (p, l) =>
      do* set_pollfds l in
      do* in_memory (free_block (pf_block p)) in
      if c_notifiers s then on_system (fd_removed_cb fd) else ret tt
  end.

(** [libusb_get_pollfds], src/external/libusb-1.0.9/libusb/io.c:2380-2411: the block of the array
    and its entries before the null one. *)
Definition libusb_get_pollfds : M (Ctx D) (block (list pollfd)) :=
  let* b := in_memory malloc in
  let* l := gets c_pollfds in
  ret ((fun b => (b, l)) <$> b).

(** [libusb_set_pollfd_notifiers],
    src/external/libusb-1.0.9/libusb/io.c:2307-2315: whether there are notifiers. *)
Definition libusb_set_pollfd_notifiers (n : bool) : M (Ctx D) unit :=
  modify (fun s => mkCtx (c_heap s) (c_transfers s) (c_bytes s) (c_flying s) (c_pollfds s)
        (c_pollfd_modify s) (c_events_locked s) (c_handler_active s) n (c_ctrl_pipe s) (c_timerfd s) (c_rest s)).

(** ** The start and the end *)

Definition set_descriptors (pipe : Z * Z) (timerfd : Z) : M (Ctx D) unit :=
  modify (fun s => mkCtx (c_heap s) (c_transfers s) (c_bytes s) (c_flying s) (c_pollfds s)
        (c_pollfd_modify s) (c_events_locked s) (c_handler_active s) (c_notifiers s) pipe timerfd (c_rest s)).

Definition close_pipe (pipe : Z * Z) : M (Ctx D) unit :=
  do* on_system (usbi_close pipe.1) in on_system (usbi_close pipe.2).

Definition POLLIN : Z := 1.

(** The part of [usbi_io_init] that makes the timer,
    src/external/libusb-1.0.9/libusb/io.c:1073-1088. *)
Definition io_init_timer (pipe : Z * Z) : M (Ctx D) Z :=
  let* timerfd := on_system timerfd_create in
  if 0 <=? timerfd then
    do* set_descriptors pipe timerfd in
    let* r := usbi_add_pollfd timerfd POLLIN in
    if r <? 0 then
      do* usbi_remove_pollfd pipe.1 in
      do* on_system (usbi_close timerfd) in
      do* close_pipe pipe in
      ret r
    else ret 0
  else do* set_descriptors pipe (-1) in ret 0.

(** [usbi_io_init], src/external/libusb-1.0.9/libusb/io.c:1049-1103. *)
Definition usbi_io_init : M (Ctx D) Z :=
  do* set_flying [] in
  do* set_pollfds [] in
  let* pipe := on_system usbi_pipe in
  match pipe with
  | None => ret (LIBUSB_ERROR_OTHER : Z)
  | Some pipe =>
      let* timerfd := gets c_timerfd in
      do* set_descriptors pipe timerfd in
      let* r := usbi_add_pollfd pipe.1 POLLIN in
      if r <? 0 then do* close_pipe pipe in ret r else io_init_timer pipe
  end.

(** [usbi_io_exit], src/external/libusb-1.0.9/libusb/io.c:1105-1122. *)
Definition usbi_io_exit : M (Ctx D) unit :=
  let* s := gets id in
  do* usbi_remove_pollfd (c_ctrl_pipe s).1 in
  do* close_pipe (c_ctrl_pipe s) in
  if usbi_using_timerfd s then
    do* usbi_remove_pollfd (c_timerfd s) in
    on_system (usbi_close (c_timerfd s))
  else ret tt.

(** ** Disconnection *)

(** The first transfer in flight of a device. *)
Fixpoint transfer_of (handle : nat) s (l : list nat) : outcome (option nat) :=
  match l with
  | [] => Ret None
  | t :: l' =>
      '(_, tr) ← find_transfer s t;
      if bool_decide (tr_dev_handle tr = handle) then Ret (Some t) else transfer_of handle s l'
  end.

(** [usbi_handle_disconnect], src/external/libusb-1.0.9/libusb/io.c:2416-2454. *)
Fixpoint usbi_handle_disconnect (fuel : nat) (handle : nat) : M (Ctx D) unit :=
  let* to_cancel := query (fun s => transfer_of handle s (c_flying s)) in
  match to_cancel with
  | None => ret tt
  | Some t =>
      match fuel with
      | O => undef out_of_fuel
      | S fuel =>
          let* '(_, tr) := get_transfer t in
          do* on_system (backend_clear_transfer_priv t tr) in
          let* _ := usbi_handle_transfer_completion t LIBUSB_TRANSFER_NO_DEVICE in
          usbi_handle_disconnect fuel handle
      end
  end.
End io.
