(* ===== verification/UsbFlight.v ===== *)
(** * The transfers in flight: order and timeouts (theorems on UsbIo.v)

    [flight_ok] is the invariant of the list of the transfers in flight that libusbi.h states:
    sorted by deadline, those without a timeout last.  The operations keep it, and the handling
    of timeouts, which stops at the first deadline that has not passed, relies on it. *)
From stdpp Require Import sorting.
From S2P Require Import Prelude UsbBase UsbIo.

Create HintDb flight.

Section flight.
Context {D : Type} `{IoBackend D} `{IoEvents D}.
Implicit Types (s : Ctx D) (m : gmap nat (usbi_transfer * libusb_transfer)).

(** ** The order *)

(** The deadline of a transfer, (0, 0) without one. *)
Definition deadline_of m (t : nat) : Z * Z := default (0, 0) ((fun x => it_timeout x.1) <$> m !! t).

(** A deadline comes no later than another; no deadline is the latest. *)
Definition no_later (a b : Z * Z) : Prop :=
  timerisset b = true -> timerisset a = true /\ tv_before b a = false.

Definition flight_order m (t u : nat) : Prop := no_later (deadline_of m t) (deadline_of m u).

Definition in_order m (l : list nat) : Prop :=
  NoDup l /\ (forall t, t ∈ l -> is_Some (m !! t)) /\ StronglySorted (flight_order m) l.
Definition flight_ok s : Prop := in_order (c_transfers s) (c_flying s).

Lemma tv_before_spec a b : tv_before a b = true <-> a.1 < b.1 \/ (a.1 = b.1 /\ a.2 < b.2).
Proof. unfold tv_before. rewrite orb_true_iff, andb_true_iff, !Z.ltb_lt, Z.eqb_eq. tauto. Qed.
Lemma tv_before_false a b : tv_before a b = false <-> ~ (a.1 < b.1 \/ (a.1 = b.1 /\ a.2 < b.2)).
Proof. rewrite <- tv_before_spec. by destruct (tv_before a b). Qed.

Lemma no_later_trans a b c : no_later a b -> no_later b c -> no_later a c.
Proof.
  unfold no_later. intros Hab Hbc Hc. destruct (Hbc Hc) as [Hb H1]. destruct (Hab Hb) as [Ha H2].
  split; [done|]. rewrite tv_before_false in *. lia.
Qed.

(** Reading the transfers of a list that are all allocated. *)
Lemma find_transfer_Some s t x : c_transfers s !! t = Some x -> find_transfer s t = Ret x.
Proof. unfold find_transfer. by intros ->. Qed.
Lemma deadline_of_Some m t x : m !! t = Some x -> deadline_of m t = it_timeout x.1.
Proof. unfold deadline_of. by intros ->. Qed.

(** *** Insertion *)

(** Where a transfer goes: after those that expire no later, before the others. *)
Definition splits m (tv : Z * Z) (l1 l2 : list nat) : Prop :=
  (forall u, u ∈ l1 -> no_later (deadline_of m u) tv) /\
  (forall u, u ∈ l2 -> no_later tv (deadline_of m u)) /\
  (forall u, head l2 = Some u -> ~ no_later (deadline_of m u) tv).

Lemma after_spec a tv : timerisset tv = true ->
  negb (timerisset a) || tv_before tv a = true <-> ~ no_later a tv.
Proof.
  intros Htv. unfold no_later. rewrite orb_true_iff, negb_true_iff. split.
  - intros [E|E] Hn; destruct (Hn Htv); congruence.
  - intros Hn. destruct (timerisset a); [|by left]. right. destruct (tv_before tv a); [done|].
    destruct Hn. intros _. done.
Qed.
Lemma after_no_later a tv : timerisset tv = true ->
  negb (timerisset a) || tv_before tv a = true -> no_later tv a.
Proof.
  intros Htv. rewrite orb_true_iff, negb_true_iff. intros [E|E] Ha; [congruence|].
  split; [done|]. rewrite tv_before_false. apply tv_before_spec in E. lia.
Qed.

Lemma insert_flying_spec s t tv l first :
  (forall u, u ∈ l -> is_Some (c_transfers s !! u)) -> StronglySorted (flight_order (c_transfers s)) l ->
  timerisset tv = true ->
  exists l1 l2, l = l1 ++ l2 /\ splits (c_transfers s) tv l1 l2 /\
    insert_flying s t tv l first
    = Ret (l1 ++ t :: l2, match l2 with [] => 0 | _ => match l1 with [] => first | _ => 0 end end).
Proof.
  intros Hin Hs Htv. revert first. induction Hs as [|u l Hs IH Hu]; intros first; cbn [insert_flying].
  - exists [], []. split; [done|]. split; [|done]. split_and!; [|  |done]; intros v Hv; by apply elem_of_nil in Hv.
  - destruct (Hin u ltac:(left)) as [[it tr] Ex]. rewrite (find_transfer_Some _ _ _ Ex).
    cbn [mbind outcome_bind]. pose proof (deadline_of_Some _ _ _ Ex) as Ed. cbn [fst] in Ed.
    destruct (negb (timerisset (it_timeout it)) || tv_before tv (it_timeout it)) eqn:Ea.
    + exists [], (u :: l). split; [done|]. split; [|done]. split_and!.
      * intros v Hv. by apply elem_of_nil in Hv.
      * assert (no_later tv (deadline_of (c_transfers s) u)) as Hn by (rewrite Ed; by apply after_no_later).
        intros v [->|Hv]%elem_of_cons; [done|]. rewrite Forall_forall in Hu.
        eapply no_later_trans; [exact Hn|]. by apply Hu.
      * intros v [= <-]. rewrite Ed. by apply after_spec.
    + destruct (IH ltac:(intros v Hv; apply Hin; by right) 0) as (l1 & l2 & -> & (H1 & H2 & H3) & ->).
      cbn [mbind outcome_bind]. exists (u :: l1), l2. split; [done|]. split.
      * split_and!; [|done|done]. intros v [->|Hv]%elem_of_cons; [|by apply H1].
        rewrite Ed. destruct (decide (no_later (it_timeout it) tv)) as [|Hn]; [done|].
        by apply (after_spec _ _ Htv) in Hn; rewrite Hn in Ea.
      * by destruct l2; [|destruct l1].
Qed.

Lemma in_order_insert m l1 t l2 x :
  in_order m (l1 ++ l2) -> m !! t = Some x -> (t ∉ l1 ++ l2) ->
  splits m (it_timeout x.1) l1 l2 -> in_order m (l1 ++ t :: l2).
Proof.
  intros (Hnd & Hin & Hs) Ex Ht (H1 & H2 & _). pose proof (deadline_of_Some _ _ _ Ex) as Ed.
  split_and!.
  - rewrite <- Permutation_middle. by apply NoDup_cons.
  - intros u Hu. rewrite <- Permutation_middle in Hu. apply elem_of_cons in Hu as [->|Hu]; [by eexists|by apply Hin].
  - apply StronglySorted_app in Hs as (Ha & Hs1 & Hs2). apply StronglySorted_app_2; [|done|].
    + intros u v Hu [->|Hv]%elem_of_cons; [|by apply Ha].
      unfold flight_order. rewrite Ed. by apply H1.
    + apply StronglySorted_cons. split; [|done]. apply Forall_forall. intros v Hv.
      unfold flight_order. rewrite Ed. by apply H2.
Qed.

(** A transfer that is not in the list, or whose deadline does not change, may be written. *)
Lemma deadline_of_insert_ne m t u x : t <> u -> deadline_of (<[t:=x]> m) u = deadline_of m u.
Proof. intros Hne. unfold deadline_of. by rewrite lookup_insert_ne. Qed.
Lemma deadline_of_insert m t x : deadline_of (<[t:=x]> m) t = it_timeout x.1.
Proof. unfold deadline_of. by rewrite lookup_insert_eq. Qed.

Lemma in_order_ext m m' l :
  (forall t, t ∈ l -> deadline_of m' t = deadline_of m t) ->
  (forall t, t ∈ l -> is_Some (m !! t) -> is_Some (m' !! t)) -> in_order m l -> in_order m' l.
Proof.
  intros Hd Hi (Hnd & Hin & Hs). split_and!; [done|auto|].
  clear Hnd Hin Hi. induction Hs as [|u l Hs IH Hu]; [constructor|].
  apply StronglySorted_cons. split.
  - rewrite Forall_forall in Hu. apply Forall_forall. intros v Hv. unfold flight_order.
    rewrite !Hd by (by (left || right)). by apply Hu.
  - apply IH. intros v Hv. apply Hd. by right.
Qed.

Lemma in_order_put m l t x :
  (t ∉ l \/ deadline_of m t = it_timeout x.1) -> in_order m l -> in_order (<[t:=x]> m) l.
Proof.
  intros Ht. apply in_order_ext.
  - intros u Hu. destruct (decide (t = u)) as [->|Hne]; [|by apply deadline_of_insert_ne].
    rewrite deadline_of_insert. destruct Ht; [done|congruence].
  - intros u _ Hu. destruct (decide (t = u)) as [->|Hne]; [rewrite lookup_insert_eq; by eexists|].
    by rewrite lookup_insert_ne.
Qed.

Lemma in_order_delete m l t : (t ∉ l) -> in_order m l -> in_order (delete t m) l.
Proof.
  intros Ht. apply in_order_ext; intros u Hu; assert (t <> u) by (by intros ->).
  - unfold deadline_of. by rewrite lookup_delete_ne.
  - by rewrite lookup_delete_ne.
Qed.

Lemma in_order_drop m l1 t l2 : in_order m (l1 ++ t :: l2) -> in_order m (l1 ++ l2).
Proof.
  intros (Hnd & Hin & Hs). split_and!.
  - rewrite <- Permutation_middle in Hnd. by apply NoDup_cons in Hnd as [_ ?].
  - intros u Hu. apply Hin. set_solver.
  - apply StronglySorted_app in Hs as (Ha & Hs1 & [_ Hs2]%StronglySorted_cons).
    apply StronglySorted_app_2; [|done|done]. intros u v Hu Hv. apply Ha; [done|by right].
Qed.

Lemma remove_flying_split t l : t ∈ l -> exists l1 l2, l = l1 ++ t :: l2 /\ remove_flying t l = l1 ++ l2.
Proof.
  induction l as [|a l IH]; [by intros ?%elem_of_nil|]. intros Ht. simpl. case_bool_decide as E.
  - exists [], l. by subst.
  - destruct IH as (l1 & l2 & -> & ->); [set_solver|]. by exists (a :: l1), l2.
Qed.

Lemma remove_flying_spec t l : NoDup l -> forall u, u ∈ remove_flying t l <-> u ∈ l /\ u <> t.
Proof.
  induction l as [|a l IH]; intros Hnd u; simpl; [set_solver|].
  apply NoDup_cons in Hnd as [Ha Hnd]. case_bool_decide as E.
  - subst a. set_solver.
  - rewrite !elem_of_cons, IH by done. set_solver.
Qed.

(** ** What the steps do to the list *)

Lemma get_transfer_inv t s x s' : get_transfer t s = (Ret x, s') -> s' = s /\ c_transfers s !! t = Some x.
Proof.
  unfold get_transfer, query, find_transfer. intros E. injection E as E <-. split; [done|].
  destruct (c_transfers s !! t); congruence.
Qed.
Lemma put_transfer_inv t x s r s' : put_transfer t x s = (Ret r, s') ->
  c_transfers s' = <[t:=x]> (c_transfers s) /\ c_flying s' = c_flying s /\ c_rest s' = c_rest s.
Proof. unfold put_transfer, set_transfers. mrun. by intros [= _ <-]. Qed.
Lemma set_flying_inv l s r s' : set_flying l s = (Ret r, s') ->
  c_transfers s' = c_transfers s /\ c_flying s' = l /\ c_rest s' = c_rest s.
Proof. unfold set_flying. mrun. by intros [= _ <-]. Qed.
Lemma on_system_inv {A} (m : M D A) s r s' : on_system m s = (Ret r, s') ->
  c_transfers s' = c_transfers s /\ c_flying s' = c_flying s /\ m (c_rest s) = (Ret r, c_rest s').
Proof. unfold on_system. destruct (m (c_rest s)). by intros [= -> <-]. Qed.
Lemma in_memory_inv {A} (m : M Heap A) s r s' : in_memory m s = (Ret r, s') ->
  c_transfers s' = c_transfers s /\ c_flying s' = c_flying s /\ c_rest s' = c_rest s.
Proof. unfold in_memory. destruct (m (c_heap s)). by intros [= -> <-]. Qed.

(** Whenever it returns, a computation keeps a property. *)
Definition maintains (P : Ctx D -> Prop) {A} (m : M (Ctx D) A) : Prop :=
  forall s r s', P s -> m s = (Ret r, s') -> P s'.

Lemma maintains_bind P {A B} (m : M (Ctx D) A) (f : A -> M (Ctx D) B) :
  maintains P m -> (forall a, maintains P (f a)) -> maintains P (bind m f).
Proof. intros Hm Hf s r s' HP E. minv E. eapply Hf; [|exact E]. by eapply Hm. Qed.
Lemma maintains_pure P {A} (o : Ctx D -> outcome A) : maintains P (fun s => (o s, s)).
Proof. by intros s r s' HP [= _ <-]. Qed.
Lemma maintains_system {A} (m : M D A) : maintains flight_ok (on_system m).
Proof. intros s r s' HP E. apply on_system_inv in E as (E1 & E2 & _). unfold flight_ok. by rewrite E1, E2. Qed.
Lemma maintains_memory {A} (m : M Heap A) : maintains flight_ok (in_memory m).
Proof. intros s r s' HP E. apply in_memory_inv in E as (E1 & E2 & _). unfold flight_ok. by rewrite E1, E2. Qed.

(** Writing a transfer without changing its deadline. *)
Lemma put_same_deadline t x x' s r s' :
  c_transfers s !! t = Some x -> it_timeout x'.1 = it_timeout x.1 ->
  flight_ok s -> put_transfer t x' s = (Ret r, s') -> flight_ok s'.
Proof.
  intros Ex Et Hok E. apply put_transfer_inv in E as (E1 & E2 & _). unfold flight_ok.
  rewrite E1, E2. apply in_order_put; [|done]. right. by rewrite (deadline_of_Some _ _ _ Ex).
Qed.

Lemma cancel_maintains t : maintains flight_ok (libusb_cancel_transfer t).
Proof.
  intros s r s' Hok E. unfold libusb_cancel_transfer in E. minv E.
  apply get_transfer_inv in E0 as [-> _]. destruct r0 as [it0 tr0]. minv E.
  apply (maintains_system _ _ _ _ Hok) in E0. apply get_transfer_inv in E1 as [-> Ex].
  destruct r1 as [it tr]. minv E. injection E as _ <-.
  eapply put_same_deadline; [exact Ex| |exact E0|exact E1]. done.
Qed.

Lemma handle_timeout_maintains t : maintains flight_ok (handle_timeout t).
Proof.
  intros s r s' Hok E. unfold handle_timeout in E. minv E.
  apply get_transfer_inv in E0 as [-> Ex]. destruct r0 as [it tr]. minv E.
  injection E as _ <-. eapply cancel_maintains; [|exact E1].
  eapply put_same_deadline; [exact Ex| |exact Hok|exact E0]. done.
Qed.

Lemma timeouts_loop_maintains now l : maintains flight_ok (timeouts_loop now l).
Proof.
  induction l as [|t l IH]; cbn [timeouts_loop]; [apply maintains_pure|].
  intros s r s' Hok E. minv E. apply get_transfer_inv in E0 as [-> Ex]. destruct r0 as [it tr].
  destruct (timerisset (it_timeout it)); cbn [negb] in E; [|by injection E as _ <-].
  destruct (timeout_handled it); [by eapply IH|].
  destruct (tv_before now (it_timeout it)); [by injection E as _ <-|].
  minv E. eapply IH; [|exact E]. by eapply handle_timeout_maintains.
Qed.

Lemma handle_timeouts_maintains : maintains flight_ok handle_timeouts.
Proof.
  unfold handle_timeouts, handle_timeouts_locked. apply maintains_bind; [apply maintains_pure|].
  intros [|t l]; [apply maintains_pure|]. apply maintains_bind; [apply maintains_system|].
  intros [now|]; [|apply maintains_pure]. apply maintains_bind; [apply timeouts_loop_maintains|].
  intros _. apply maintains_pure.
Qed.

(** Computations that leave the transfers and the list as they are. *)
Definition leaves_list {A} (m : M (Ctx D) A) : Prop :=
  forall s r s', m s = (Ret r, s') -> c_transfers s' = c_transfers s /\ c_flying s' = c_flying s.
Lemma leaves_bind {A B} (m : M (Ctx D) A) (f : A -> M (Ctx D) B) :
  leaves_list m -> (forall a, leaves_list (f a)) -> leaves_list (bind m f).
Proof.
  intros Hm Hf s r s' E. minv E. apply Hm in E0 as [E1 E2]. apply Hf in E as [E3 E4]. split; congruence.
Qed.
Lemma leaves_pure {A} (o : Ctx D -> outcome A) : leaves_list (fun s => (o s, s)).
Proof. by intros s r s' [= _ <-]. Qed.
Lemma leaves_system {A} (m : M D A) : leaves_list (on_system m).
Proof. intros s r s' E. apply on_system_inv in E. tauto. Qed.
Lemma leaves_maintains {A} (m : M (Ctx D) A) : leaves_list m -> maintains flight_ok m.
Proof. intros Hm s r s' Hok E. apply Hm in E as [E1 E2]. unfold flight_ok. by rewrite E1, E2. Qed.

Lemma arm_next_leaves l : leaves_list (arm_next l).
Proof.
  induction l as [|t l IH]; cbn [arm_next]; [apply leaves_pure|].
  apply leaves_bind; [apply leaves_pure|]. intros [it tr].
  destruct (negb (timerisset (it_timeout it))); [apply leaves_pure|].
  destruct (_ =? 0); [|done]. apply leaves_bind; [apply leaves_system|]. intros. apply leaves_pure.
Qed.
Lemma arm_timerfd_leaves : leaves_list arm_timerfd_for_next_timeout.
Proof. apply leaves_bind; [apply leaves_pure|]. apply arm_next_leaves. Qed.
Lemma disarm_timerfd_leaves : leaves_list disarm_timerfd.
Proof. apply leaves_bind; [apply leaves_system|]. intros. apply leaves_pure. Qed.

(** ** Submission *)

Lemma add_to_flying_list_inv t s r s' :
  flight_ok s -> add_to_flying_list t s = (Ret r, s') ->
  exists x l1 l2, (t ∉ c_flying s) /\ c_transfers s !! t = Some x /\ c_flying s = l1 ++ l2 /\
    splits (c_transfers s) (it_timeout x.1) l1 l2 /\
    c_transfers s' = c_transfers s /\ c_flying s' = l1 ++ t :: l2 /\
    r = (if timerisset (it_timeout x.1) && bool_decide (l1 = []) then 1 else 0).
Proof.
  intros (Hnd & Hin & Hs) E. unfold add_to_flying_list in E. minv E.
  apply get_transfer_inv in E0 as [-> Ex]. destruct r0 as [it tr]. minv E.
  injection E0 as <- <-. case_bool_decide as Ht; [done|]. exists (it, tr). cbn [fst].
  assert (forall tv, splits (c_transfers s) tv [] []) as Hnil
    by (intros tv; split_and!; [| |done]; intros v Hv; by apply elem_of_nil in Hv).
  destruct (c_flying s) as [|u l] eqn:El.
  { minv E. apply set_flying_inv in E0 as (E1 & E2 & _). injection E as <- <-.
    exists [], []. split_and!; try done. by destruct (timerisset _). }
  destruct (timerisset (it_timeout it)) eqn:Eset; cbn [negb] in E.
  - minv E. destruct (insert_flying_spec s t (it_timeout it) (u :: l) 1 Hin Hs Eset)
      as (l1 & l2 & Hl & Hsp & Ei).
    unfold query in E0. rewrite Ei in E0. injection E0 as <- <-. minv E.
    apply set_flying_inv in E0 as (E1 & E2 & _). injection E as <- <-.
    exists l1, l2. split_and!; try done. destruct l1, l2; done.
  - minv E. apply set_flying_inv in E0 as (E1 & E2 & _). injection E as <- <-.
    exists (u :: l), []. rewrite app_nil_r. split_and!; try done. split_and!; [| |done].
    + intros v _ Hv. congruence.
    + intros v Hv. by apply elem_of_nil in Hv.
Qed.

(** The deadline is computed before the transfer is put in the list. *)
Lemma calculate_timeout_inv t s r s' :
  calculate_timeout t s = (Ret r, s') ->
  c_flying s' = c_flying s /\
  (c_transfers s' = c_transfers s \/
   exists it tr now, c_transfers s !! t = Some (it, tr) /\ r = 0 /\
     c_transfers s' = <[t:=(mk_itransfer (it_num_iso_packets it) (deadline now (tr_timeout tr))
                              (it_transferred it) (it_flags it), tr)]> (c_transfers s)).
Proof.
  unfold calculate_timeout. intros E. minv E. apply get_transfer_inv in E0 as [-> Ex].
  destruct r0 as [it tr]. destruct (tr_timeout tr =? 0); [injection E as _ <-; by auto|].
  minv E. apply on_system_inv in E0 as (E1 & E2 & _). destruct r0 as [now|].
  - minv E. injection E as <- <-. apply put_transfer_inv in E0 as (E3 & E4 & _).
    rewrite E3, E4, E1, E2. split; [done|]. right. by exists it, tr, now.
  - injection E as _ <-. rewrite E1, E2. by auto.
Qed.

Lemma remove_flying_middle t l1 l2 : (t ∉ l1) -> remove_flying t (l1 ++ t :: l2) = l1 ++ l2.
Proof.
  induction l1 as [|a l1 IH]; intros Ht; simpl; [by rewrite bool_decide_true|].
  rewrite bool_decide_false by set_solver. by rewrite IH by set_solver.
Qed.

Lemma del_flying_inv t s r s' :
  del_flying t s = (Ret r, s') ->
  t ∈ c_flying s /\ c_transfers s' = c_transfers s /\ c_flying s' = remove_flying t (c_flying s) /\ c_rest s' = c_rest s.
Proof.
  unfold del_flying. intros E. minv E. apply get_transfer_inv in E0 as [-> _].
  injection E1 as <- <-. case_bool_decide as Ht; [|done].
  by apply set_flying_inv in E as (-> & -> & ->).
Qed.

(** What a submission does to the list: nothing, or it inserts the transfer. *)
Definition inserted (t : nat) s s' : Prop :=
  exists l1 l2, c_flying s = l1 ++ l2 /\ c_flying s' = l1 ++ t :: l2 /\
    splits (c_transfers s') (deadline_of (c_transfers s') t) l1 l2.

Lemma add_to_flying_list_new t s r s' : add_to_flying_list t s = (Ret r, s') -> t ∉ c_flying s.
Proof.
  intros E. unfold add_to_flying_list in E. minv E. apply get_transfer_inv in E0 as [-> Ex].
  destruct r0 as [it tr]. minv E. injection E0 as <- <-. by case_bool_decide.
Qed.

Lemma submit_effect t s r s' :
  flight_ok s -> libusb_submit_transfer t s = (Ret r, s') ->
  flight_ok s' /\ (c_flying s' = c_flying s \/ inserted t s s') /\ (r = 0 -> inserted t s s').
Proof.
  intros Hok E. unfold libusb_submit_transfer in E. minv E.
  apply get_transfer_inv in E0 as [-> Ex]. destruct r0 as [it tr]. minv E.
  assert (flight_ok st) as Hok0 by (eapply put_same_deadline; [exact Ex| |exact Hok|exact E0]; done).
  apply put_transfer_inv in E0 as (_ & Ef0 & _). rewrite <- Ef0. clear Hok Ex.
  apply calculate_timeout_inv in E1 as (Ef1 & Et1).
  destruct (Z.ltb_spec r1 0) as [Hneg|Hpos].
  { injection E as <- <-. destruct Et1 as [Et1|(? & ? & ? & _ & -> & _)]; [|lia].
    unfold flight_ok. rewrite Et1, Ef1. split; [done|]. split; [left; congruence|done]. }
  minv E. pose proof (add_to_flying_list_new _ _ _ _ E0) as Hnew.
  assert (flight_ok st0) as Hok1.
  { unfold flight_ok. rewrite Ef1 in *. destruct Et1 as [->|(? & ? & ? & _ & _ & ->)]; [done|].
    apply in_order_put; [by left|done]. }
  apply add_to_flying_list_inv in E0 as (x & l1 & l2 & _ & Ex & El & Hsp & Et2 & Ef2 & _); [|done].
  assert (in_order (c_transfers st1) (c_flying st1)) as Hok2.
  { rewrite Et2, Ef2. eapply in_order_insert; [|exact Ex| |exact Hsp]; rewrite <- El; done. }
  apply get_transfer_inv in E1 as [-> _]. destruct r3 as [it' tr']. minv E.
  apply on_system_inv in E0 as (Et3 & Ef3 & _). injection E1 as <- <-.
  rewrite <- Et3, <- Ef3 in Hok2. rewrite <- Ef1.
  assert (forall s3, c_transfers s3 = c_transfers st2 -> c_flying s3 = c_flying st2 ->
    flight_ok s3 /\ inserted t s s3) as Hins.
  { intros s3 Et4 Ef4. unfold flight_ok. rewrite Et4, Ef4. split; [done|]. exists l1, l2.
    rewrite Et4, Ef4, Ef3, Ef2, Et3, Et2, (deadline_of_Some _ _ _ Ex). split; [congruence|done]. }
  destruct (r3 =? 0) eqn:Er; cbn [negb] in E.
  - destruct (_ && _); [|injection E as <- <-; destruct (Hins st2 eq_refl eq_refl); auto].
    minv E. unfold set_timer in E0. apply on_system_inv in E0 as (Et4 & Ef4 & _). injection E as <- <-.
    destruct (Hins st3 Et4 Ef4). auto.
  - minv E. apply del_flying_inv in E0 as (_ & Et4 & Ef4 & _). injection E as <- <-.
    assert (c_flying st3 = c_flying st0) as Ef5.
    { rewrite Ef4, Ef3, Ef2, El. apply remove_flying_middle. rewrite El in Hnew. set_solver. }
    split; [|split; [by left|intros ->; done]]. unfold flight_ok. rewrite Ef5, Et4, Et3, Et2. apply Hok1.
Qed.

(** ** Completion and events *)

(** The callbacks of the program and the other threads keep the order of the list; the callback of a
    transfer that is to be freed after it does not submit the transfer again. *)
Class CallbacksKeepOrder := {
  callback_keeps t s r s' it tr :
    flight_ok s -> (t ∉ c_flying s) -> c_transfers s !! t = Some (it, tr) ->
    run_callback t s = (Ret r, s') ->
    flight_ok s' /\ (Z.land (tr_flags tr) LIBUSB_TRANSFER_FREE_TRANSFER <> 0 -> t ∉ c_flying s');
  other_threads_keep : maintains flight_ok other_threads;
  timedwait_keeps ts : maintains flight_ok (event_waiters_timedwait ts) }.
(** So does the handler of the backend; the one for Linux is shown to in UsbUrbsFlight.v. *)
Class HandlerKeepsOrder := {
  backend_events_keep fds n : maintains flight_ok (backend_handle_events fds n) }.
Context `{!CallbacksKeepOrder}.

Lemma free_transfer_maintains t s r s' :
  flight_ok s -> (t ∉ c_flying s) -> libusb_free_transfer (Some t) s = (Ret r, s') -> flight_ok s'.
Proof.
  intros Hok Ht E. cbn [libusb_free_transfer] in E. minv E. apply get_transfer_inv in E0 as [-> _].
  destruct r0 as [it tr]. minv E. injection E2 as <- <-. apply in_memory_inv in E1 as (E1 & E2 & _).
  assert (c_transfers st = c_transfers s /\ c_flying st = c_flying s) as [E3 E4].
  { destruct (tr_buffer tr); [|by injection E0 as _ <-].
    destruct (_ =? 0); [by injection E0 as _ <-|]. apply in_memory_inv in E0. tauto. }
  unfold set_transfers, modify in E. injection E as _ <-. unfold flight_ok. simpl.
  rewrite E1, E2, E3, E4. by apply in_order_delete.
Qed.

Lemma complete_transfer_maintains t status s r s' :
  flight_ok s -> (t ∉ c_flying s) -> complete_transfer t status s = (Ret r, s') -> flight_ok s'.
Proof.
  intros Hok Ht E. unfold complete_transfer in E. minv E. apply get_transfer_inv in E0 as [-> Ex].
  destruct r0 as [it tr]. minv E. injection E as _ <-.
  assert (flight_ok st) as Hok1 by (eapply put_same_deadline; [exact Ex| |exact Hok|exact E0]; done).
  apply put_transfer_inv in E0 as (E3 & E4 & _). rewrite <- E4 in Ht.
  assert (flight_ok st0 /\ (Z.land (tr_flags tr) LIBUSB_TRANSFER_FREE_TRANSFER <> 0 -> t ∉ c_flying st0)) as [Hok2 Ht2].
  { destruct (tr_callback tr); [|by injection E1 as _ <-].
    eassert (c_transfers st !! t = Some _) as Et by (rewrite E3; apply lookup_insert_eq).
    exact (callback_keeps _ _ _ _ _ _ Hok1 Ht Et E1). }
  destruct (Z.eqb_spec (Z.land (tr_flags tr) LIBUSB_TRANSFER_FREE_TRANSFER) 0); [by injection E2 as _ <-|].
  eapply free_transfer_maintains; [exact Hok2|by apply Ht2|exact E2].
Qed.

Lemma same_list s s' t :
  c_transfers s' = c_transfers s -> c_flying s' = c_flying s ->
  flight_ok s /\ (t ∉ c_flying s) -> flight_ok s' /\ (t ∉ c_flying s').
Proof. unfold flight_ok. by intros -> ->. Qed.

Lemma completion_maintains t status : maintains flight_ok (usbi_handle_transfer_completion t status).
Proof.
  intros s r s' Hok E. unfold usbi_handle_transfer_completion in E. minv E.
  injection E1 as <- <-. apply del_flying_inv in E0 as (Ht & E1 & E2 & _).
  assert (flight_ok st /\ (t ∉ c_flying st)) as [Hok1 Ht1].
  { unfold flight_ok. rewrite E1, E2. destruct (Hok) as (Hnd & _ & _).
    destruct (remove_flying_split _ _ Ht) as (l1 & l2 & El & ->). split.
    - unfold flight_ok in Hok. rewrite El in Hok. by eapply in_order_drop.
    - rewrite El in Hnd. rewrite <- Permutation_middle in Hnd. by apply NoDup_cons in Hnd as [? _]. }
  destruct (usbi_using_timerfd st); [|by eapply complete_transfer_maintains]. minv E.
  apply arm_timerfd_leaves in E0 as [E3 E4].
  destruct (same_list st st0 t E3 E4 (conj Hok1 Ht1)) as [Hok2 Ht2].
  destruct (r1 <? 0); [by injection E as _ <-|]. minv E.
  apply disarm_timerfd_leaves in E0 as [E5 E6].
  destruct (same_list st0 st1 t E5 E6 (conj Hok2 Ht2)) as [Hok3 Ht3].
  destruct (r2 <? 0); [by injection E as _ <-|]. by eapply complete_transfer_maintains.
Qed.

Lemma set_lock_maintains o b : maintains flight_ok (set_lock (D := D) o b).
Proof. intros s r s' Hok [= _ <-]. exact Hok. Qed.

(** A computation keeps the order when its parts do. *)
#[local] Hint Resolve maintains_system maintains_memory set_lock_maintains handle_timeouts_maintains
  cancel_maintains completion_maintains other_threads_keep timedwait_keeps : flight.
#[local] Hint Resolve leaves_maintains disarm_timerfd_leaves arm_timerfd_leaves : flight.
#[local] Ltac maintain :=
  repeat match goal with
         | |- maintains _ (fun _ => (_, _)) => apply maintains_pure
         | |- maintains _ (ret _) => apply maintains_pure
         | |- maintains _ (undef _) => apply maintains_pure
         | |- maintains _ (gets _) => apply maintains_pure
         | |- maintains _ (query _) => apply maintains_pure
         | |- maintains _ (lift _) => apply maintains_pure
         | |- maintains _ (get_transfer _) => apply maintains_pure
         | |- maintains _ (bind _ _) => apply maintains_bind; [|intros ?]
         | |- maintains _ _ => solve [eauto with flight]
         | |- maintains _ (if ?b then _ else _) => destruct b
         | |- maintains _ (match ?x with _ => _ end) => destruct x
         end.

Lemma disconnect_maintains fuel h : maintains flight_ok (usbi_handle_disconnect fuel h).
Proof. induction fuel as [|fuel IH]; cbn [usbi_handle_disconnect]; maintain. Qed.

Context `{!HandlerKeepsOrder}.
#[local] Hint Resolve backend_events_keep : flight.

Lemma own_events_maintains r revents : maintains flight_ok (own_events r revents).
Proof. unfold own_events, handle_timerfd_trigger. maintain. Qed.

Lemma handle_events_maintains tv : maintains flight_ok (handle_events tv).
Proof. unfold handle_events. pose proof own_events_maintains. maintain. Qed.

Lemma events_retry_maintains fuel tv completed :
  maintains flight_ok completed -> maintains flight_ok (events_retry fuel tv completed).
Proof.
  intros Hc. pose proof handle_events_maintains as Hh.
  induction fuel as [|fuel IH]; cbn [events_retry];
    unfold libusb_try_lock_events, libusb_unlock_events, libusb_event_handler_active, libusb_wait_for_event, events_done; maintain.
Qed.

(** The operations on the transfers in flight. *)
Inductive io_op :=
  | OpSubmit (t : nat) | OpCancel (t : nat) | OpTimeouts | OpTimer
  | OpComplete (t : nat) (status : libusb_transfer_status) | OpCancelled (t : nat)
  | OpEvents (fuel : nat) (tv : Z * Z) | OpEventsLocked (tv : Z * Z)
  | OpDisconnect (fuel handle : nat).
Definition run_io_op (op : io_op) : M (Ctx D) Z :=
  match op with
  | OpSubmit t => libusb_submit_transfer t
  | OpCancel t => libusb_cancel_transfer t
  | OpTimeouts => handle_timeouts
  | OpTimer => handle_timerfd_trigger
  | OpComplete t status => usbi_handle_transfer_completion t status
  | OpCancelled t => usbi_handle_transfer_cancellation t
  | OpEvents fuel tv => libusb_handle_events_timeout fuel tv
  | OpEventsLocked tv => libusb_handle_events_locked tv
  | OpDisconnect fuel h => do* usbi_handle_disconnect fuel h in ret 0
  end.

(** Every operation that returns keeps the order of the list, as long as the callbacks, the other
    threads and the handler of the backend do. *)
Lemma operations_keep_order op : maintains flight_ok (run_io_op op).
Proof.
  pose proof events_retry_maintains as Hr. pose proof handle_events_maintains as Hh.
  pose proof disconnect_maintains as Hd. pose proof own_events_maintains.
  destruct op; cbn [run_io_op].
  - intros s r s' Hok E. by destruct (submit_effect _ _ _ _ Hok E).
  - maintain.
  - maintain.
  - unfold handle_timerfd_trigger. maintain.
  - maintain.
  - unfold usbi_handle_transfer_cancellation. maintain.
  - unfold libusb_handle_events_timeout, libusb_handle_events_timeout_completed, get_next_timeout,
      libusb_get_next_timeout. maintain. apply Hr. maintain.
  - unfold libusb_handle_events_locked, get_next_timeout, libusb_get_next_timeout. maintain.
  - maintain.
Qed.
End flight.
