(* ===== verification/UsbTimeouts.v ===== *)
(** * Timeouts, deadlines and disconnection (theorems on UsbIo.v)

    With the list of the transfers in flight in order ([flight_ok] of UsbFlight.v), handling the
    timeouts cancels the transfers that have expired and no others, and a poll does not sleep past
    the next deadline.  Deadlines are exact, but are not always valid times; the timer of the
    system is disarmed after every completion. *)
From stdpp Require Import sorting.
From S2P Require Import Prelude UsbBase UsbIo UsbFlight.

(** ** Times *)

(** A time in microseconds; a valid one has less than a million of them. *)
Definition usecs (tv : Z * Z) : Z := tv.1 * 1000000 + tv.2.
Definition valid_tv (tv : Z * Z) : Prop := 0 <= tv.2 < 1000000.

Lemma tv_before_usecs a b : valid_tv a -> valid_tv b -> tv_before a b = bool_decide (usecs a < usecs b).
Proof.
  unfold valid_tv, usecs. intros Ha Hb. destruct (tv_before a b) eqn:E.
  - apply tv_before_spec in E. rewrite bool_decide_true; [done|]. lia.
  - apply tv_before_false in E. rewrite bool_decide_false; [done|]. lia.
Qed.

(** The deadline of a transfer is its timeout after now, to the microsecond; it is a valid
    time except when the nanoseconds add up to exactly one second. *)
Theorem deadline_exact now ms :
  0 <= now.2 < 1000000000 -> 0 <= ms ->
  let d := deadline now ms in
  usecs d = (now.1 * 1000000000 + now.2 + ms * 1000000) / 1000 /\
  (valid_tv d <-> now.2 + (ms mod 1000) * 1000000 <> 1000000000).
Proof.
  intros Hn Hms. unfold deadline, TIMESPEC_TO_TIMEVAL, usecs, valid_tv.
  pose proof (Z.div_mod ms 1000 ltac:(lia)) as Hd. pose proof (Z.mod_pos_bound ms 1000 ltac:(lia)) as Hm.
  set (q := ms / 1000) in *. set (r := ms mod 1000) in *.
  destruct (Z.ltb_spec 1000000000 (now.2 + r * 1000000)); cbn [fst snd].
  - assert (forall n, 0 <= n < 1000000000 -> 0 <= n / 1000 < 1000000) as Hdiv.
    { intros n Hn'. split; [by apply Z.div_pos; lia|apply Z.div_lt_upper_bound; lia]. }
    split; [|pose proof (Hdiv (now.2 + r * 1000000 - 1000000000) ltac:(lia)); lia].
    replace (now.1 * 1000000000 + now.2 + ms * 1000000)
      with ((now.2 + r * 1000000 - 1000000000) + ((now.1 + q + 1) * 1000000) * 1000) by lia.
    rewrite Z.div_add by lia. lia.
  - split.
    + replace (now.1 * 1000000000 + now.2 + ms * 1000000)
        with ((now.2 + r * 1000000) + ((now.1 + q) * 1000000) * 1000) by lia.
      rewrite Z.div_add by lia. lia.
    + destruct (Z.eq_dec (now.2 + r * 1000000) 1000000000) as [E|E].
      * rewrite E. change (1000000000 / 1000) with 1000000. lia.
      * assert ((now.2 + r * 1000000) / 1000 < 1000000) by (apply Z.div_lt_upper_bound; lia).
        assert (0 <= (now.2 + r * 1000000) / 1000) by (apply Z.div_pos; lia). lia.
Qed.

Lemma deadline_exact_witness :
  usecs (deadline (7, 999999999) 1500) = 8499999 + 1000000 /\ ~ valid_tv (deadline (7, 500000000) 500).
Proof.
  destruct (deadline_exact (7, 999999999) 1500 ltac:(cbn; lia) ltac:(lia)) as [H1 _].
  destruct (deadline_exact (7, 500000000) 500 ltac:(cbn; lia) ltac:(lia)) as [_ H2].
  split; [exact H1|]. intros Hv. by apply (proj1 H2 Hv).
Defined.

(** ** Cancelling what has expired *)

(** A log of the cancellations that the backend is asked for. *)
Class CancelLog (D : Type) `{IoBackend D} := {
  cancelled : D -> list nat;
  cancel_logs t tr d : exists r d', backend_cancel_transfer t tr d = (Ret r, d') /\ cancelled d' = cancelled d ++ [t];
  clock_logs d r d' : clock_monotonic d = (r, d') -> cancelled d' = cancelled d }.

Section timeouts.
Context {D : Type} `{CancelLog D} `{IoEvents D}.
Implicit Types (s : Ctx D) (m : gmap nat (usbi_transfer * libusb_transfer)).

(** A transfer whose timeout is still to be handled. *)
Definition pending m (t : nat) : bool :=
  match m !! t with
  | Some (it, _) => timerisset (it_timeout it) && negb (timeout_handled it)
  | None => false
  end.
(** One that has expired. *)
Definition due m (now : Z * Z) (t : nat) : bool := pending m t && negb (tv_before now (deadline_of m t)).

Definition has_flag (f : Z) (it : usbi_transfer) : Prop := Z.land (it_flags it) f <> 0.

(** A transfer after its timeout has been handled. *)
Definition timed_out m m' (t : nat) : Prop :=
  exists it it' tr, m !! t = Some (it, tr) /\ m' !! t = Some (it', tr) /\
    it_timeout it' = it_timeout it /\ has_flag USBI_TRANSFER_TIMED_OUT it' /\
    has_flag USBI_TRANSFER_CANCELLING it'.

Lemma lor_flag a b f : Z.land b f <> 0 -> Z.land (Z.lor a b) f <> 0.
Proof. intros Hb E. rewrite Z.land_lor_distr_l, Z.lor_eq_0_iff in E. tauto. Qed.

Lemma handle_timeout_run t s it tr :
  c_transfers s !! t = Some (it, tr) ->
  exists s' it', handle_timeout t s = (Ret tt, s') /\
    c_transfers s' = <[t:=(it', tr)]> (c_transfers s) /\ it_timeout it' = it_timeout it /\
    has_flag USBI_TRANSFER_TIMED_OUT it' /\ has_flag USBI_TRANSFER_CANCELLING it' /\
    c_flying s' = c_flying s /\ cancelled (c_rest s') = cancelled (c_rest s) ++ [t].
Proof.
  intros Ex. destruct (cancel_logs t tr (c_rest s)) as (r & d' & Ec & El).
  eexists. eexists. unfold handle_timeout, libusb_cancel_transfer, put_transfer, set_transfers,
    get_transfer, find_transfer, on_system. mrun. rewrite Ex.
  cbn [c_transfers c_rest c_flying c_heap c_bytes c_pollfds c_pollfd_modify c_events_locked c_handler_active
       c_notifiers c_ctrl_pipe c_timerfd].
  rewrite lookup_insert_eq. cbn [c_rest]. rewrite Ec.
  cbn [c_transfers c_rest c_flying c_heap c_bytes c_pollfds c_pollfd_modify c_events_locked c_handler_active
       c_notifiers c_ctrl_pipe c_timerfd it_num_iso_packets it_timeout it_transferred it_flags].
  rewrite lookup_insert_eq. cbn [it_num_iso_packets it_timeout it_transferred it_flags].
  split; [reflexivity|]. cbn [c_transfers c_flying c_rest it_timeout].
  split; [by rewrite insert_insert_eq|]. split; [done|]. unfold has_flag. cbn [it_flags].
  split_and!; [|by apply lor_flag|done|done].
  rewrite Z.lor_comm. apply lor_flag.
  destruct (r =? _); [rewrite Z.lor_comm; apply lor_flag|]; by apply lor_flag.
Qed.

(** Behind a transfer without a timeout, or one that has not expired, nothing has expired. *)
Lemma due_stops m now t l :
  StronglySorted (flight_order m) (t :: l) ->
  timerisset (deadline_of m t) = false \/ tv_before now (deadline_of m t) = true ->
  List.filter (due m now) l = [].
Proof.
  intros [Ht _]%StronglySorted_cons Hstop. rewrite Forall_forall in Ht.
  induction l as [|u l IH]; [done|]. cbn [List.filter].
  assert (due m now u = false) as ->; [|apply IH; intros v Hv; apply Ht; by right].
  pose proof (Ht u ltac:(left)) as Ho. unfold flight_order, no_later, due, pending, deadline_of in *.
  destruct (m !! u) as [[it tr]|]; [cbn in *|done].
  destruct (timerisset (it_timeout it)); [|done]. destruct (Ho eq_refl) as [Hs Hb].
  destruct Hstop as [E|E]; [congruence|]. destruct (timeout_handled it); [done|]. cbn [negb andb].
  rewrite negb_false_iff. apply tv_before_spec in E. apply tv_before_false in Hb. apply tv_before_spec. lia.
Qed.

Lemma due_ext m m' now l :
  (forall t, t ∈ l -> m' !! t = m !! t) -> List.filter (due m' now) l = List.filter (due m now) l.
Proof.
  intros Hm. induction l as [|t l IH]; [done|]. cbn [List.filter].
  assert (due m' now t = due m now t) as ->
    by (unfold due, pending, deadline_of; by rewrite Hm by left).
  rewrite IH; [done|]. intros u Hu. apply Hm. by right.
Qed.

Lemma filter_sub {A} (f : A -> bool) l x : x ∈ List.filter f l -> x ∈ l.
Proof. rewrite !list_elem_of_In. intros Hx. by apply filter_In in Hx as [? _]. Qed.

(** The state after the timeouts of a list have been handled. *)
Definition handled s s' (expired : list nat) : Prop :=
  c_flying s' = c_flying s /\ cancelled (c_rest s') = cancelled (c_rest s) ++ expired /\
  (forall t, t ∈ expired -> timed_out (c_transfers s) (c_transfers s') t) /\
  (forall t, (t ∉ expired) -> c_transfers s' !! t = c_transfers s !! t).

Lemma handled_nil s : handled s s [].
Proof. split_and!; [done|by rewrite app_nil_r|by intros t ?%elem_of_nil|done]. Qed.

Lemma timeouts_loop_exact now l s :
  in_order (c_transfers s) l ->
  exists s', timeouts_loop now l s = (Ret tt, s') /\ handled s s' (List.filter (due (c_transfers s) now) l).
Proof.
  revert s. induction l as [|t l IH]; intros s (Hnd & Hin & Hs).
  { exists s. split; [done|apply handled_nil]. }
  destruct (Hin t ltac:(left)) as [[it tr] Ex]. cbn [timeouts_loop].
  erewrite bind_Ret by (unfold get_transfer, query; by rewrite (find_transfer_Some _ _ _ Ex)).
  pose proof (deadline_of_Some _ _ _ Ex) as Ed. cbn [fst] in Ed.
  assert (in_order (c_transfers s) l) as Hl.
  { split_and!; [by apply NoDup_cons in Hnd as [_ ?]|intros u Hu; apply Hin; by right|].
    by apply StronglySorted_cons in Hs as [_ ?]. }
  cbn [List.filter]. unfold due at 1, pending at 1. rewrite Ex, Ed.
  destruct (timerisset (it_timeout it)) eqn:Eset; cbn [negb andb].
  2: { exists s. split; [done|]. rewrite (due_stops _ _ _ _ Hs) by (left; congruence). apply handled_nil. }
  destruct (timeout_handled it); cbn [negb andb]; [by apply IH|].
  destruct (tv_before now (it_timeout it)) eqn:Eb; cbn [negb].
  { exists s. split; [done|]. rewrite (due_stops _ _ _ _ Hs) by (right; congruence). apply handled_nil. }
  destruct (handle_timeout_run t s it tr Ex) as (s1 & it' & E1 & Et1 & Ei & Hf1 & Hf2 & Ef1 & Ec1).
  erewrite bind_Ret by exact E1. apply NoDup_cons in Hnd as [Ht _].
  assert (forall u, u ∈ l -> c_transfers s1 !! u = c_transfers s !! u) as Hsame.
  { intros u Hu. rewrite Et1. apply lookup_insert_ne. by intros ->. }
  destruct (IH s1) as (s2 & E2 & Ef2 & Ec2 & Hx2 & Hn2).
  { rewrite Et1. apply in_order_put; [by left|done]. }
  exists s2. split; [done|]. rewrite (due_ext _ _ _ _ Hsame) in *.
  assert (t ∉ List.filter (due (c_transfers s) now) l) as Htf by (intros Hx; by apply filter_sub in Hx).
  split_and!.
  - congruence.
  - by rewrite Ec2, Ec1, <- app_assoc.
  - intros u [->|Hu]%elem_of_cons.
    + exists it, it', tr. split_and!; try done. by rewrite Hn2, Et1, lookup_insert_eq.
    + destruct (Hx2 u Hu) as (i & i' & r & Hi & Hr). exists i, i', r.
      rewrite <- Hsame by (by eapply filter_sub). done.
  - intros u Hu. rewrite not_elem_of_cons in Hu. destruct Hu as [Hne Hu].
    rewrite Hn2, Et1 by done. by apply lookup_insert_ne.
Qed.

(** C22: Handling the timeouts cancels, in the order of their deadlines, the transfers in flight
    whose deadline has passed and that were not handled before, marks them, and touches no
    other; the list stays as it is. *)
Theorem handle_timeouts_exact s now d :
  flight_ok s -> clock_monotonic (c_rest s) = (Ret (Some now), d) ->
  exists s', handle_timeouts s = (Ret 0, s') /\
    handled s s' (List.filter (due (c_transfers s) (TIMESPEC_TO_TIMEVAL now)) (c_flying s)).
Proof.
  intros Hok Hclock. unfold handle_timeouts, handle_timeouts_locked. erewrite bind_Ret by reflexivity.
  destruct (c_flying s) as [|t l] eqn:El; [exists s; split; [done|apply handled_nil]|].
  set (s1 := mkCtx (c_heap s) (c_transfers s) (c_bytes s) (c_flying s) (c_pollfds s) (c_pollfd_modify s)
        (c_events_locked s) (c_handler_active s) (c_notifiers s) (c_ctrl_pipe s) (c_timerfd s) d).
  erewrite bind_Ret by (unfold on_system; rewrite Hclock; reflexivity).
  cbv beta iota.
  destruct (timeouts_loop_exact (TIMESPEC_TO_TIMEVAL now) (t :: l) s1) as (s' & E & Hf & Hc & Hx & Hn).
  { unfold flight_ok in Hok. by rewrite El in Hok. }
  exists s'. split; [erewrite bind_Ret by exact E; done|]. split_and!; [done| |done|done].
  rewrite Hc. cbn [c_rest]. f_equal. by eapply clock_logs.
Qed.

(** *** The next timeout *)

Lemma next_to_expire_spec s l :
  (forall t, t ∈ l -> is_Some (c_transfers s !! t)) -> StronglySorted (flight_order (c_transfers s)) l ->
  match next_to_expire s l with
  | Ret None => forall t, t ∈ l -> pending (c_transfers s) t = false
  | Ret (Some d) =>
      exists t, t ∈ l /\ pending (c_transfers s) t = true /\ deadline_of (c_transfers s) t = d /\
        forall u, u ∈ l -> pending (c_transfers s) u = true -> tv_before (deadline_of (c_transfers s) u) d = false
  | _ => False
  end.
Proof.
  intros Hin Hs. induction Hs as [|t l Hs IH Ht]; cbn [next_to_expire]; [by intros t ?%elem_of_nil|].
  destruct (Hin t ltac:(left)) as [[it tr] Ex]. rewrite (find_transfer_Some _ _ _ Ex). cbn [mbind outcome_bind].
  pose proof (deadline_of_Some _ _ _ Ex) as Ed. cbn [fst] in Ed.
  specialize (IH ltac:(intros u Hu; apply Hin; by right)).
  assert (pending (c_transfers s) t = negb (timeout_handled it || negb (timerisset (it_timeout it)))) as Ep.
  { unfold pending. rewrite Ex. by destruct (timerisset _), (timeout_handled it). }
  destruct (timeout_handled it || negb (timerisset (it_timeout it))).
  - destruct (next_to_expire s l) as [[d|]| |]; try done.
    + destruct IH as (u & Hu & Hp & Hd & Hmin). exists u. split_and!; [by right|done|done|].
      intros v [->|Hv]%elem_of_cons Hpv; [cbn in Ep; congruence|by apply Hmin].
    + intros u [->|Hu]%elem_of_cons; [done|by apply IH].
  - exists t. split_and!; [left|done|done|]. intros u [->|Hu]%elem_of_cons Hpu.
    + rewrite Ed. apply tv_before_false. lia.
    + rewrite Forall_forall in Ht. specialize (Ht u Hu). unfold flight_order, no_later in Ht.
      rewrite <- Ed. apply Ht. unfold pending in Hpu. unfold deadline_of.
      destruct (c_transfers s !! u) as [[? ?]|]; [|done]. by apply andb_true_iff in Hpu as [? _].
Qed.

(** Without the timer of the system, the time that is polled for is no longer than what the
    caller asks for, and ends before or at the deadline of every transfer whose timeout is to be
    handled; when one has passed already, the timeouts are handled instead. *)
Theorem get_next_timeout_bounds s tv now d :
  flight_ok s -> usbi_using_timerfd s = false ->
  clock_monotonic (c_rest s) = (Ret (Some now), d) ->
  valid_tv tv -> valid_tv (TIMESPEC_TO_TIMEVAL now) ->
  (forall t, t ∈ c_flying s -> valid_tv (deadline_of (c_transfers s) t)) ->
  let now_us := usecs (TIMESPEC_TO_TIMEVAL now) in
  exists o s', get_next_timeout tv s = (Ret o, s') /\
    match o with
    | Some out => usecs out <= usecs tv /\
        forall t, t ∈ c_flying s -> pending (c_transfers s) t = true ->
          now_us + usecs out <= usecs (deadline_of (c_transfers s) t)
    | None => exists t, t ∈ c_flying s /\ due (c_transfers s) (TIMESPEC_TO_TIMEVAL now) t = true
    end.
Proof.
  intros (Hnd & Hin & Hs) Ht Hclock Htv Hnow Hvalid now_us.
  pose proof (next_to_expire_spec s (c_flying s) Hin Hs) as Hnext.
  unfold get_next_timeout, libusb_get_next_timeout.
  rewrite bind_assoc. unfold gets at 1. erewrite bind_Ret by reflexivity. rewrite Ht. cbv beta iota.
  rewrite bind_assoc.
  destruct (next_to_expire s (c_flying s)) as [[nt|]| |] eqn:En; [| |done..].
  2: { erewrite bind_Ret by (unfold query; by rewrite En). exists (Some tv), s. split; [reflexivity|].
       split; [lia|]. intros t Hi Hp. rewrite (Hnext t Hi) in Hp. done. }
  erewrite bind_Ret by (unfold query; by rewrite En). cbv beta iota. rewrite bind_assoc.
  erewrite bind_Ret by (unfold on_system; rewrite Hclock; reflexivity).
  cbv beta iota.
  destruct Hnext as (t & Hti & Hp & Hd & Hmin).
  set (cur := TIMESPEC_TO_TIMEVAL now) in *.
  pose proof (Hvalid t Hti) as Hvt. rewrite Hd in Hvt.
  destruct (tv_before cur nt) eqn:Eb.
  - rewrite ret_bind. cbn [Z.eqb].
    assert (valid_tv (timersub nt cur) /\ usecs (timersub nt cur) = usecs nt - usecs cur) as [Hsv Hsu].
    { unfold timersub, valid_tv, usecs in *. destruct (Z.ltb_spec (nt.2 - cur.2) 0); cbn [fst snd]; lia. }
    assert (timerisset (timersub nt cur) = true) as Eset.
    { rewrite tv_before_usecs in Eb by done. apply bool_decide_eq_true in Eb.
      unfold timerisset. destruct (Z.eqb_spec (timersub nt cur).1 0), (Z.eqb_spec (timersub nt cur).2 0);
        try done. unfold usecs in *. lia. }
    rewrite Eset. eexists _, _. split; [reflexivity|].
    assert (forall u, u ∈ c_flying s -> pending (c_transfers s) u = true ->
      now_us + usecs (timersub nt cur) <= usecs (deadline_of (c_transfers s) u)) as Hall.
    { intros u Hu Hpu. specialize (Hmin u Hu Hpu). rewrite tv_before_usecs in Hmin by (by auto).
      apply bool_decide_eq_false in Hmin. lia. }
    destruct (tv_before (timersub nt cur) tv) eqn:Ec; rewrite tv_before_usecs in Ec by done.
    + apply bool_decide_eq_true in Ec. split; [lia|]. by apply Hall.
    + apply bool_decide_eq_false in Ec. split; [lia|]. intros u Hu Hpu.
      specialize (Hall u Hu Hpu). lia.
  - rewrite ret_bind. exists None. eexists. split; [reflexivity|]. exists t. split; [done|].
    unfold due. by rewrite Hp, Hd, Eb.
Qed.

(** ** Disconnection *)

(** The callbacks of the transfers return and do not touch the transfers in flight; the calls of
    the system return. *)
Class QuietCallbacks := {
  quiet_callback t s : exists s', run_callback t s = (Ret tt, s') /\
    c_flying s' = c_flying s /\ c_transfers s' = c_transfers s;
  quiet_clear t tr d : exists d', backend_clear_transfer_priv t tr d = (Ret tt, d');
  quiet_timer tv d : exists r d', timerfd_settime tv d = (Ret r, d') }.
Context `{QuietCallbacks}.

(** The list can be read, and no transfer is freed when it completes. *)
Definition kept_transfers s : Prop :=
  NoDup (c_flying s) /\
  forall t, t ∈ c_flying s -> exists it tr, c_transfers s !! t = Some (it, tr) /\
    Z.land (tr_flags tr) LIBUSB_TRANSFER_FREE_TRANSFER = 0.

Definition handle_of_transfer m (t : nat) : option nat := (fun x => tr_dev_handle x.2) <$> m !! t.

(** A computation that returns, leaving the list and the transfers. *)
Lemma arm_next_returns s l :
  (forall t, t ∈ l -> is_Some (c_transfers s !! t)) ->
  exists r s', arm_next l s = (Ret r, s') /\ c_transfers s' = c_transfers s /\ c_flying s' = c_flying s.
Proof.
  intros Hin. assert (exists r s', arm_next l s = (Ret r, s')) as (r & s' & E).
  { induction l as [|t l IH]; cbn [arm_next]; [by eexists _, _|].
    destruct (Hin t ltac:(left)) as [[it tr] Ex].
    erewrite bind_Ret by (unfold get_transfer, query; by rewrite (find_transfer_Some _ _ _ Ex)). cbv beta iota.
    destruct (negb (timerisset (it_timeout it))); [by eexists _, _|].
    destruct (_ =? 0); [|apply IH; intros u Hu; apply Hin; by right].
    destruct (quiet_timer ((it_timeout it).1, (it_timeout it).2 * 1000) (c_rest s)) as (r & d' & E).
    eexists _, _. erewrite bind_Ret by (unfold set_timer, on_system; rewrite E; reflexivity). reflexivity. }
  exists r, s'. split; [done|]. by apply arm_next_leaves in E.
Qed.

Lemma disarm_returns s :
  exists r s', disarm_timerfd s = (Ret r, s') /\ c_transfers s' = c_transfers s /\ c_flying s' = c_flying s.
Proof.
  destruct (quiet_timer (0, 0) (c_rest s)) as (r & d' & E).
  eexists _, _. unfold disarm_timerfd, on_system. mrun. rewrite E. by split.
Qed.

(** The completed transfer keeps its handle and its flags; the others are as they were. *)
Definition same_but m m' (t : nat) : Prop :=
  (forall u, u <> t -> m' !! u = m !! u).

Lemma complete_transfer_returns t status s it tr :
  c_transfers s !! t = Some (it, tr) -> Z.land (tr_flags tr) LIBUSB_TRANSFER_FREE_TRANSFER = 0 ->
  exists r s', complete_transfer t status s = (Ret r, s') /\ c_flying s' = c_flying s /\
    same_but (c_transfers s) (c_transfers s') t.
Proof.
  intros Ex Hf. unfold complete_transfer.
  erewrite bind_Ret by (unfold get_transfer, query; by rewrite (find_transfer_Some _ _ _ Ex)).
  unfold put_transfer, set_transfers. rewrite bind_assoc. erewrite bind_Ret by reflexivity.
  erewrite bind_Ret by reflexivity. rewrite Hf. cbn [Z.eqb].
  set (s1 := mkCtx _ _ _ _ _ _ _ _ _ _ _ _).
  assert (exists s2, (if tr_callback tr then run_callback t else ret tt) s1 = (Ret tt, s2) /\
    c_flying s2 = c_flying s1 /\ c_transfers s2 = c_transfers s1) as (s2 & E2 & Hf2 & Ht2).
  { destruct (tr_callback tr); [apply quiet_callback|by exists s1]. }
  eexists _, s2. erewrite bind_Ret by exact E2. split; [reflexivity|]. split; [done|].
  intros u Hu. rewrite Ht2. by apply lookup_insert_ne.
Qed.

Lemma completion_returns t status s l1 l2 :
  kept_transfers s -> c_flying s = l1 ++ t :: l2 ->
  exists r s', usbi_handle_transfer_completion t status s = (Ret r, s') /\ c_flying s' = l1 ++ l2 /\
    same_but (c_transfers s) (c_transfers s') t.
Proof.
  intros [Hnd Hin] El. destruct (Hin t ltac:(rewrite El; set_solver)) as (it & tr & Ex & Hf).
  set (s1 := mkCtx (c_heap s) (c_transfers s) (c_bytes s) (l1 ++ l2) (c_pollfds s) (c_pollfd_modify s)
        (c_events_locked s) (c_handler_active s) (c_notifiers s) (c_ctrl_pipe s) (c_timerfd s) (c_rest s)).
  assert (del_flying t s = (Ret tt, s1)) as Ed.
  { unfold del_flying, set_flying. erewrite bind_Ret by (unfold get_transfer, query; by rewrite (find_transfer_Some _ _ _ Ex)).
    erewrite bind_Ret by reflexivity. rewrite bool_decide_true by (rewrite El; set_solver).
    rewrite El, remove_flying_middle; [done|]. rewrite El in Hnd. apply NoDup_app in Hnd as (_ & Hd & _).
    intros Hx. apply (Hd _ Hx). left. }
  unfold usbi_handle_transfer_completion. erewrite bind_Ret by exact Ed. erewrite bind_Ret by reflexivity.
  destruct (usbi_using_timerfd s1).
  - unfold arm_timerfd_for_next_timeout. rewrite bind_assoc. erewrite bind_Ret by reflexivity.
    destruct (arm_next_returns s1 (c_flying s1)) as (r & s2 & E2 & Ht2 & Hf2).
    { intros u Hu. cbn in Hu. destruct (Hin u) as (? & ? & Eu & _); [rewrite El; set_solver|]. by eexists. }
    erewrite bind_Ret by exact E2. destruct (r <? 0); [exists r, s2; split; [done|split; [done|]]; intros u _; by rewrite Ht2|].
    destruct (disarm_returns s2) as (r' & s3 & E3 & Ht3 & Hf3). erewrite bind_Ret by exact E3.
    destruct (r' <? 0); [exists r', s3; split; [done|split; [by rewrite Hf3|]]; intros u _; by rewrite Ht3, Ht2|].
    destruct (complete_transfer_returns t status s3 it tr) as (r'' & s4 & E4 & Hf4 & Ht4);
      [by rewrite Ht3, Ht2|done|]. exists r'', s4. split; [done|]. split; [by rewrite Hf4, Hf3, Hf2|].
    intros u Hu. by rewrite Ht4, Ht3, Ht2.
  - destruct (complete_transfer_returns t status s1 it tr Ex Hf) as (r'' & s4 & E4 & Hf4 & Ht4).
    by exists r'', s4.
Qed.

Lemma transfer_of_spec h s l :
  (forall t, t ∈ l -> is_Some (c_transfers s !! t)) ->
  match transfer_of h s l with
  | Ret None => forall t, t ∈ l -> handle_of_transfer (c_transfers s) t <> Some h
  | Ret (Some t) => exists l1 l2, l = l1 ++ t :: l2 /\ handle_of_transfer (c_transfers s) t = Some h
  | _ => False
  end.
Proof.
  intros Hin. induction l as [|t l IH]; cbn [transfer_of]; [by intros t ?%elem_of_nil|].
  destruct (Hin t ltac:(left)) as [[it tr] Ex]. rewrite (find_transfer_Some _ _ _ Ex). cbn [mbind outcome_bind].
  assert (handle_of_transfer (c_transfers s) t = Some (tr_dev_handle tr)) as Eh by (unfold handle_of_transfer; by rewrite Ex).
  specialize (IH ltac:(intros u Hu; apply Hin; by right)). case_bool_decide as Hh.
  - exists [], l. split; [done|congruence].
  - destruct (transfer_of h s l) as [[u|]| |]; try done.
    + destruct IH as (l1 & l2 & -> & Hu). by exists (t :: l1), l2.
    + intros u [->|Hu]%elem_of_cons; [congruence|by apply IH].
Qed.

(** The list without the transfers of a device. *)
Definition others_of m (h : nat) (l : list nat) : list nat :=
  List.filter (fun t => negb (bool_decide (handle_of_transfer m t = Some h))) l.

Lemma others_of_app m h l1 l2 : others_of m h (l1 ++ l2) = others_of m h l1 ++ others_of m h l2.
Proof. apply List.filter_app. Qed.
Lemma others_of_none m h l : (forall t, t ∈ l -> handle_of_transfer m t <> Some h) -> others_of m h l = l.
Proof.
  intros Hl. induction l as [|t l IH]; [done|]. cbn. rewrite bool_decide_false by (apply Hl; left).
  cbn. f_equal. apply IH. intros u Hu. apply Hl. by right.
Qed.
Lemma others_of_ext m m' h l : (forall t, t ∈ l -> m' !! t = m !! t) -> others_of m' h l = others_of m h l.
Proof.
  intros Hl. induction l as [|t l IH]; [done|]. unfold others_of in *. cbn [List.filter].
  rewrite IH by (intros u Hu; apply Hl; by right). unfold handle_of_transfer. by rewrite (Hl t ltac:(left)).
Qed.

(** When a device is disconnected, handling it ends, and the transfers in flight are those
    of the other devices, in their order. *)
Theorem usbi_handle_disconnect_empties h s fuel :
  kept_transfers s -> (length (c_flying s) <= fuel)%nat ->
  exists s', usbi_handle_disconnect fuel h s = (Ret tt, s') /\
    c_flying s' = others_of (c_transfers s) h (c_flying s) /\
    forall t, t ∈ c_flying s' -> handle_of_transfer (c_transfers s') t <> Some h.
Proof.
  remember (length (c_flying s)) as n eqn:En. revert s fuel En.
  induction n as [|n IH]; intros s fuel En Hk Hfuel; pose proof Hk as [Hnd Hin].
  all: pose proof (transfer_of_spec h s (c_flying s)) as Ht.
  all: specialize (Ht ltac:(intros u Hu; destruct (Hin u Hu) as (? & ? & Eu & _); by eexists)).
  - destruct (c_flying s) eqn:El; [|done]. exists s. rewrite El.
    split; [destruct fuel; cbn [usbi_handle_disconnect]; by erewrite bind_Ret by (unfold query; rewrite El; reflexivity)|].
    split; [done|]. by intros t ?%elem_of_nil.
  - destruct (transfer_of h s (c_flying s)) as [[t|]| |] eqn:Et; [| |done..].
    2: { exists s. split; [destruct fuel; cbn [usbi_handle_disconnect];
           by erewrite bind_Ret by (unfold query; rewrite Et; reflexivity)|].
         split; [by rewrite others_of_none|done]. }
    destruct fuel as [|fuel]; [lia|]. cbn [usbi_handle_disconnect].
    erewrite bind_Ret by (unfold query; rewrite Et; reflexivity).
    destruct Ht as (l1 & l2 & El & Hh).
    destruct (Hin t ltac:(rewrite El; set_solver)) as (it & tr & Ext & _).
    destruct (quiet_clear t tr (c_rest s)) as (d' & Ec).
    erewrite bind_Ret by (unfold get_transfer, query, find_transfer; rewrite Ext; reflexivity). cbn beta iota.
    erewrite bind_Ret by (unfold on_system; rewrite Ec; reflexivity). set (s1 := mkCtx _ _ _ _ _ _ _ _ _ _ _ _).
    destruct (completion_returns t LIBUSB_TRANSFER_NO_DEVICE s1 l1 l2 Hk El) as (r & s2 & E2 & Hf2 & Ht2).
    erewrite bind_Ret by exact E2. rewrite El in *.
    assert (forall u, u ∈ l1 ++ l2 -> c_transfers s2 !! u = c_transfers s !! u) as Hsame.
    { intros u Hu. apply Ht2. intros ->. rewrite <- Permutation_middle in Hnd.
      apply NoDup_cons in Hnd as [? _]. done. }
    destruct (IH s2 fuel) as (s3 & E3 & Hf3 & Ho3).
    + rewrite Hf2. rewrite length_app in *. cbn [length] in *. lia.
    + split; rewrite Hf2.
      * rewrite <- Permutation_middle in Hnd. by apply NoDup_cons in Hnd as [_ ?].
      * intros u Hu. rewrite Hsame by done. apply Hin. set_solver.
    + lia.
    + exists s3. split; [done|]. split; [|done]. rewrite Hf3, Hf2, (others_of_ext _ _ _ _ Hsame).
      rewrite !others_of_app. cbn. by rewrite bool_decide_true.
Qed.
End timeouts.

(** ** The timer of the system *)

(** What the timer is set to; setting it to zero disarms it. *)
Class TimerState (D : Type) `{IoBackend D} := {
  armed : D -> option (Z * Z);
  timer_disarm d r d' : timerfd_settime (0, 0) d = (Ret r, d') -> 0 <= r -> armed d' = None }.

Section timer.
Context {D : Type} `{TimerState D} `{IoEvents D}.
Implicit Types (s : Ctx D).

(** The completion of a transfer sets the timer to the next deadline and then disarms it:
    whatever transfers are still in flight, it will not fire for them. *)
Theorem completion_disarms_timer t status s r s' it tr :
  usbi_using_timerfd s = true -> c_transfers s !! t = Some (it, tr) ->
  tr_callback tr = false -> Z.land (tr_flags tr) LIBUSB_TRANSFER_FREE_TRANSFER = 0 ->
  usbi_handle_transfer_completion t status s = (Ret r, s') -> 0 <= r ->
  armed (c_rest s') = None /\ c_flying s' = remove_flying t (c_flying s).
Proof.
  intros Htimer Ex Hcb Hfree E Hr. unfold usbi_handle_transfer_completion in E. minv E.
  assert (usbi_using_timerfd st = true) as Hu.
  { unfold del_flying in E0. minv E0. apply get_transfer_inv in E2 as [-> _]. injection E3 as <- <-.
    case_bool_decide; [|done]. unfold set_flying, modify in E0. injection E0 as _ <-. exact Htimer. }
  injection E1 as <- <-. rewrite Hu in E. minv E. apply del_flying_inv in E0 as (_ & Et1 & Ef1 & _).
  apply arm_timerfd_leaves in E1 as [Et2 Ef2].
  destruct (Z.ltb_spec r1 0); [injection E as <- <-; lia|]. minv E.
  assert (0 <= r2 -> armed (c_rest st1) = None) as Harm.
  { intros Hr2. unfold disarm_timerfd in E0. minv E0. apply on_system_inv in E1 as (_ & _ & E1).
    injection E0 as <- <-. destruct (Z.ltb_spec r3 0); [cbn in Hr2; lia|]. by eapply timer_disarm. }
  apply disarm_timerfd_leaves in E0 as [Et3 Ef3].
  destruct (Z.ltb_spec r2 0); [injection E as <- <-; lia|]. specialize (Harm ltac:(done)).
  unfold complete_transfer in E. minv E. apply get_transfer_inv in E0 as [-> Ex'].
  destruct r3 as [it' tr']. rewrite Et3, Et2, Et1, Ex in Ex'. injection Ex' as <- <-.
  rewrite Hcb, Hfree in E. minv E. apply put_transfer_inv in E0 as (_ & Ef4 & Er4).
  injection E1 as <- <-. injection E2 as <- <-. injection E as _ <-.
  rewrite Er4, Ef4, Ef3, Ef2, Ef1. by split.
Qed.
End timer.

(** ** Starting *)

(** The descriptors that are open. *)
Class OpenDescriptors (D : Type) `{IoBackend D} := {
  opened : D -> list Z;
  pipe_opens d p d' : usbi_pipe d = (Ret p, d') ->
    match p with None => opened d' = opened d | Some (a, b) => opened d' ≡ₚ a :: b :: opened d end;
  timerfd_opens d r d' : timerfd_create d = (Ret r, d') ->
    if 0 <=? r then opened d' ≡ₚ r :: opened d else opened d' = opened d;
  close_closes fd d r d' l : usbi_close fd d = (Ret r, d') -> opened d ≡ₚ fd :: l -> opened d' ≡ₚ l;
  added_opens_nothing fd e d r d' : fd_added_cb fd e d = (Ret r, d') -> opened d' = opened d;
  removed_opens_nothing fd d r d' : fd_removed_cb fd d = (Ret r, d') -> opened d' = opened d }.

Section starting.
Context {D : Type} `{OpenDescriptors D} `{IoEvents D}.
Implicit Types (s : Ctx D).

(** The blocks and the descriptors of a state. *)
Definition holds s (blocks : list nat) (fds : list Z) : Prop :=
  h_live (c_heap s) = blocks /\ opened (c_rest s) ≡ₚ fds.

Lemma add_pollfd_holds fd e s r s' blocks fds :
  holds s blocks fds -> usbi_add_pollfd fd e s = (Ret r, s') ->
  c_ctrl_pipe s' = c_ctrl_pipe s /\ c_timerfd s' = c_timerfd s /\
  ((r < 0 /\ holds s' blocks fds /\ c_pollfds s' = c_pollfds s) \/
   (r = 0 /\ exists b, holds s' (b :: blocks) fds /\ c_pollfds s' = c_pollfds s ++ [mk_pollfd b fd e])).
Proof.
  intros [Hb Hf] E. unfold usbi_add_pollfd in E. minv E.
  unfold in_memory, malloc in E0. destruct (h_fails (c_heap s)) as [|[] fs]; injection E0 as <- <-.
  2: { injection E as <- <-. split_and!; [done..|]. left. by split_and!. }
  all: minv E; injection E0 as <- <-; injection E as <- <-;
    match goal with E1 : set_pollfds _ _ = _ |- _ => unfold set_pollfds, modify in E1; injection E1 as _ <- end;
    match goal with E2 : (if _ then _ else _) _ = _ |- _ =>
      cbn [c_notifiers] in E2; destruct (c_notifiers s);
        [unfold on_system in E2; cbn [c_rest] in E2; destruct (fd_added_cb fd e (c_rest s)) as [o d'] eqn:Ea;
         injection E2 as -> <-; apply added_opens_nothing in Ea
        |injection E2 as _ <-] end;
    (split_and!; [done..|]); right; (split; [done|]); eexists;
    (split; [|reflexivity]); split; cbn [c_heap h_live c_rest]; rewrite ?Ea, ?Hb; done.
Qed.

Lemma close_holds fd s r s' blocks fds :
  holds s blocks (fd :: fds) -> on_system (usbi_close fd) s = (Ret r, s') ->
  holds s' blocks fds /\ c_pollfds s' = c_pollfds s.
Proof.
  intros [Hb Hf] E. unfold on_system in E. destruct (usbi_close fd (c_rest s)) as [o d'] eqn:Ec.
  injection E as -> <-. split; [|done]. split; [done|]. cbn. by eapply close_closes.
Qed.

Lemma close_pipe_holds p s r s' blocks fds :
  holds s blocks (p.1 :: p.2 :: fds) -> close_pipe p s = (Ret r, s') ->
  holds s' blocks fds /\ c_pollfds s' = c_pollfds s.
Proof.
  intros Hh E. unfold close_pipe in E. minv E. eapply close_holds in E0 as [Hh1 E1]; [|exact Hh].
  eapply close_holds in E as [Hh2 E2]; [|exact Hh1]. split; [done|congruence].
Qed.

Lemma remove_pollfd_holds p s r s' blocks fds :
  c_pollfds s = [p] -> holds s (pf_block p :: blocks) fds -> usbi_remove_pollfd (pf_fd p) s = (Ret r, s') ->
  holds s' blocks fds /\ c_pollfds s' = [].
Proof.
  intros Hp [Hb Hf] E. unfold usbi_remove_pollfd in E. minv E. injection E0 as <- <-. unfold id in E.
  rewrite Hp in E. cbn [take_pollfd] in E. rewrite Z.eqb_refl in E. minv E.
  unfold set_pollfds, modify in E0. injection E0 as _ <-.
  unfold in_memory, free_block in E1. cbn [c_heap] in E1. rewrite Hb in E1. cbn [remove_block] in E1.
  rewrite decide_True in E1 by done. injection E1 as _ <-. destruct (c_notifiers s).
  - unfold on_system in E. cbn [c_rest] in E. destruct (fd_removed_cb _ _) as [o d'] eqn:Ec.
    injection E as -> <-. apply removed_opens_nothing in Ec. split; [|done]. split; [done|]. cbn. by rewrite Ec.
  - injection E as _ <-. split; [|done]. by split.
Qed.

(** What the library holds once it has started. *)
Definition started s blocks fds : Prop :=
  let '(a, b) := c_ctrl_pipe s in
  if usbi_using_timerfd s then
    exists b1 b2, c_pollfds s = [mk_pollfd b1 a POLLIN; mk_pollfd b2 (c_timerfd s) POLLIN] /\
      holds s (b2 :: b1 :: blocks) (c_timerfd s :: a :: b :: fds)
  else exists b1, c_pollfds s = [mk_pollfd b1 a POLLIN] /\ holds s (b1 :: blocks) (a :: b :: fds).

Lemma io_init_timer_holds s a b b1 r s' blocks fds :
  c_pollfds s = [mk_pollfd b1 a POLLIN] -> holds s (b1 :: blocks) (a :: b :: fds) ->
  io_init_timer (a, b) s = (Ret r, s') ->
  (r < 0 /\ holds s' blocks fds /\ c_pollfds s' = []) \/ (r = 0 /\ started s' blocks fds).
Proof.
  intros Epf [Hb Hf] E. unfold io_init_timer in E. minv E.
  unfold on_system in E0. destruct (timerfd_create (c_rest s)) as [o d2] eqn:Et. injection E0 as -> <-.
  apply timerfd_opens in Et. destruct (0 <=? r0) eqn:Er0.
  - minv E. unfold set_descriptors, modify in E0. injection E0 as _ <-.
    eapply add_pollfd_holds in E1 as (Ec & Etf & Hadd);
      [|split; [exact Hb|cbn [c_rest]; rewrite Et, Hf; reflexivity]].
    cbn [fst snd c_ctrl_pipe c_timerfd c_pollfds] in *. rewrite Epf in Hadd. cbn [app] in Hadd.
    destruct Hadd as [(Hneg & Hh & Epf2)|(-> & b2 & Hh & Epf2)].
    + destruct (Z.ltb_spec r2 0); [|lia]. minv E. injection E as <- <-. left. split; [done|].
      eapply (remove_pollfd_holds (mk_pollfd b1 a POLLIN)) in E0 as [Hh1 Ep1]; [|exact Epf2|exact Hh].
      eapply close_holds in E1 as [Hh2 Ep2]; [|exact Hh1].
      eapply (close_pipe_holds (a, b)) in E2 as [Hh3 Ep3]; [|exact Hh2].
      split; [done|]. by rewrite Ep3, Ep2.
    + injection E as <- <-. right. split; [done|]. unfold started, usbi_using_timerfd.
      rewrite Ec, Etf, Er0. exists b1, b2. by split.
  - minv E. unfold set_descriptors, modify in E0. injection E0 as _ <-. injection E as <- <-. right.
    split; [done|]. exists b1. split; [done|]. split; [done|]. cbn. by rewrite Et.
Qed.

(** C29: The start of the library either succeeds, polls the control pipe and the timer when there
    is one, and holds no other descriptors and memory, or it fails and holds nothing. *)
Theorem usbi_io_init_all_or_nothing s r s' blocks fds :
  holds s blocks fds -> usbi_io_init s = (Ret r, s') ->
  (r < 0 /\ holds s' blocks fds /\ c_pollfds s' = []) \/ (r = 0 /\ started s' blocks fds).
Proof.
  intros [Hb Hf] E. unfold usbi_io_init in E. minv E.
  unfold set_flying, modify in E0. injection E0 as _ <-. unfold set_pollfds, modify in E1. injection E1 as _ <-.
  unfold on_system in E2. cbn [c_rest] in E2. destruct (usbi_pipe (c_rest s)) as [o d1] eqn:Ep.
  injection E2 as -> <-. apply pipe_opens in Ep. destruct r2 as [[a b]|].
  2: { injection E as <- <-. left. split; [done|]. split; [|done]. split; [done|]. cbn. by rewrite Ep. }
  minv E. injection E0 as <- <-. unfold set_descriptors, modify in E1. injection E1 as _ <-.
  eapply add_pollfd_holds in E2 as (_ & _ & Hadd);
    [|split; [exact Hb|cbn [c_rest]; rewrite Ep, Hf; reflexivity]].
  cbn [fst snd c_pollfds app] in *. destruct Hadd as [(Hneg & Hh & Epf)|(-> & b1 & Hh & Epf)].
  - destruct (Z.ltb_spec r4 0); [|lia]. minv E. injection E as <- <-. left. split; [done|].
    eapply (close_pipe_holds (a, b)) in E0 as [Hh' E']; [|exact Hh]. split; [done|]. by rewrite E'.
  - by eapply io_init_timer_holds.
Qed.
End starting.

(** ** A simulated system *)

(** What its clocks read, the cancellations asked for, the timer and the open descriptors.  As
    documented, the timer refuses nanoseconds that are not less than a second. *)
Record SimSys := mkSys { y_now : option (Z * Z); y_cancelled : list nat; y_armed : option (Z * Z); y_open : list Z }.

Definition sim_settime (ts : Z * Z) : M SimSys Z := fun y =>
  if 1000000000 <=? ts.2 then (Ret (-1), y)
  else (Ret 0, mkSys (y_now y) (y_cancelled y) (if timerisset ts then Some ts else None) (y_open y)).

Fixpoint remove_one (fd : Z) (l : list Z) : list Z :=
  match l with
  | [] => []
  | a :: l' => if a =? fd then l' else a :: remove_one fd l'
  end.
Lemma remove_one_perm fd l k : l ≡ₚ fd :: k -> remove_one fd l ≡ₚ k.
Proof.
  intros Hp. assert (fd ∈ l) as Hin by (rewrite Hp; left).
  assert (l ≡ₚ fd :: remove_one fd l) as Hr.
  { clear Hp. induction l as [|a l IH]; [by apply elem_of_nil in Hin|]. cbn.
    destruct (Z.eqb_spec a fd) as [->|Hne]; [done|].
    etransitivity; [apply perm_skip, IH; apply elem_of_cons in Hin as [?|?]; [congruence|done]|apply perm_swap]. }
  rewrite Hr in Hp. by apply Permutation_cons_inv in Hp.
Qed.

#[export] Instance sim_backend : IoBackend SimSys := {|
  clock_monotonic := gets y_now; clock_realtime := gets y_now;
  backend_submit_transfer _ _ _ := ret 0;
  backend_cancel_transfer t _ := fun y => (Ret 0, mkSys (y_now y) (y_cancelled y ++ [t]) (y_armed y) (y_open y));
  backend_clear_transfer_priv _ _ := ret tt; backend_zero_transfer_priv _ := ret tt;
  timerfd_settime := sim_settime;
  usbi_poll _ _ := ret (0, [], false);
  usbi_pipe := fun y => (Ret (Some (3, 4)), mkSys (y_now y) (y_cancelled y) (y_armed y) (3 :: 4 :: y_open y));
  timerfd_create := fun y => (Ret 5, mkSys (y_now y) (y_cancelled y) (y_armed y) (5 :: y_open y));
  usbi_close fd := fun y => (Ret tt, mkSys (y_now y) (y_cancelled y) (y_armed y)
                                       (remove_one fd (y_open y)));
  fd_added_cb _ _ := ret tt; fd_removed_cb _ := ret tt |}.

#[export] Instance sim_events : IoEvents SimSys := {|
  run_callback _ := ret tt; backend_handle_events _ _ := ret 0; other_threads := ret tt;
  event_waiters_timedwait _ := ret true; events_lock_wait := ret tt |}.

#[export] Instance sim_log : CancelLog SimSys.
Proof.
  refine {| cancelled := y_cancelled |}.
  - intros t y. by eexists _, _.
  - by intros y r y' [= _ <-].
Defined.
#[export] Instance sim_timer : TimerState SimSys.
Proof. refine {| armed := y_armed |}. by intros y r y' [= _ <-]. Defined.
#[export] Instance sim_descriptors : OpenDescriptors SimSys.
Proof.
  refine {| opened := y_open |}.
  - by intros y p y' [= <- <-].
  - intros y r y' [= <- <-]. cbn. apply Permutation_refl.
  - intros fd y r y' l [= _ <-]. apply remove_one_perm.
  - by intros fd e y r y' [= _ <-].
  - by intros fd y r y' [= _ <-].
Defined.
#[export] Instance sim_quiet : QuietCallbacks (D := SimSys).
Proof.
  constructor.
  - intros t s. by exists s.
  - intros t tr y. by exists y.
  - intros tv y. cbn. unfold sim_settime. destruct (1000000000 <=? tv.2); by eexists _, _.
Defined.
(** Three transfers: 1 of the device 10 with the deadline 5 s, 2 of the device 20 with 7 s, 3 of
    the device 10 without a timeout; 4 is not in flight. *)
Definition sim_transfer (tv : Z * Z) (handle : nat) (ms : Z) : usbi_transfer * libusb_transfer :=
  (mk_itransfer 0 tv 0 0, mk_transfer handle 0 0x81 3 ms LIBUSB_TRANSFER_COMPLETED 64 0 true 0 None 0 []).
Definition sim_ctx (now : option (Z * Z)) (timerfd : Z) : Ctx SimSys :=
  mkCtx (mkHeap [] [])
    (list_to_map [(1%nat, sim_transfer (5, 0) 10 1000); (2%nat, sim_transfer (7, 0) 20 3000);
                  (3%nat, sim_transfer (0, 0) 10 0); (4%nat, sim_transfer (0, 0) 20 1500)])
    ∅ [1; 2; 3]%nat [] 0 Lock_free false false (0, 0) timerfd (mkSys now [] None []).

Lemma sim_ctx_ok now timerfd : flight_ok (sim_ctx now timerfd).
Proof.
  split_and!.
  - refine (bool_decide_eq_true_1 _ _). vm_compute. reflexivity.
  - intros t Ht. cbn in Ht. repeat (apply elem_of_cons in Ht as [->|Ht]; [eexists; reflexivity|]).
    by apply elem_of_nil in Ht.
  - cbn [c_flying sim_ctx].
    repeat (apply SSorted_cons; [|repeat (apply Forall_cons; split); [..|apply Forall_nil_2]]); [apply SSorted_nil|..];
      intros E; vm_compute in E; (discriminate E || by split).
Qed.

Lemma handle_timeouts_exact_witness :
  exists s', handle_timeouts (sim_ctx (Some (6, 0)) 5) = (Ret 0, s') /\ y_cancelled (c_rest s') = [1%nat].
Proof.
  destruct (handle_timeouts_exact (sim_ctx (Some (6, 0)) 5) (6, 0) (mkSys (Some (6, 0)) [] None []) (sim_ctx_ok _ _))
    as (s' & E & _ & Hc & _); [reflexivity|].
  exists s'. split; [exact E|]. exact Hc.
Defined.

Lemma get_next_timeout_bounds_witness :
  exists out s', get_next_timeout (60, 0) (sim_ctx (Some (4, 250000000)) (-1)) = (Ret (Some out), s') /\
    usecs out <= 60000000 /\ out = (0, 750000).
Proof.
  destruct (get_next_timeout_bounds (sim_ctx (Some (4, 250000000)) (-1)) (60, 0) (4, 250000000)
    (mkSys (Some (4, 250000000)) [] None []) (sim_ctx_ok _ _) eq_refl) as (o & s' & E & Ho).
  - reflexivity.
  - by split.
  - by split.
  - intros t Ht. cbn in Ht. repeat (apply elem_of_cons in Ht as [->|Ht]; [by split|]). by apply elem_of_nil in Ht.
  - assert (o = Some (0, 750000)) as -> by (vm_compute in E; congruence).
    exists (0, 750000), s'. split; [exact E|]. destruct Ho as [Ho _]. by split.
Defined.

Lemma usbi_handle_disconnect_empties_witness :
  exists s', usbi_handle_disconnect 3 10 (sim_ctx (Some (4, 0)) 5) = (Ret tt, s') /\ c_flying s' = [2%nat].
Proof.
  destruct (usbi_handle_disconnect_empties 10 (sim_ctx (Some (4, 0)) 5) 3) as (s' & E & Hf & _).
  - split; [apply (sim_ctx_ok (Some (4, 0)) 5)|]. intros t Ht. cbn in Ht.
    repeat (apply elem_of_cons in Ht as [->|Ht]; [do 2 eexists; split; reflexivity|]). by apply elem_of_nil in Ht.
  - cbn. lia.
  - exists s'. split; [exact E|]. rewrite Hf. vm_compute. reflexivity.
Defined.

Lemma usbi_io_init_all_or_nothing_witness :
  exists s', usbi_io_init (sim_ctx (Some (4, 0)) (-1)) = (Ret 0, s') /\ started s' [] [].
Proof.
  destruct (usbi_io_init (sim_ctx (Some (4, 0)) (-1))) as [o s'] eqn:E.
  assert (o = Ret 0) as -> by (vm_compute in E; congruence).
  exists s'. split; [reflexivity|].
  assert (holds (sim_ctx (Some (4, 0)) (-1)) [] []) as Hh by by split.
  destruct (usbi_io_init_all_or_nothing _ 0 s' [] [] Hh E) as [[? _]|[_ Hs]]; [lia|exact Hs].
Defined.

(** Completing the transfer 1 leaves 2 in flight with its deadline, and the timer disarmed. *)
Lemma completion_disarms_timer_witness :
  exists t it tr, sim_transfer (5, 0) 10 1000 = (it, tr) /\
    (let s := mkCtx (mkHeap [] []) (<[1%nat:=(it, t)]> (c_transfers (sim_ctx None 5))) ∅ [1; 2]%nat [] 0 Lock_free false
                false (0, 0) 5 (mkSys None [] (Some (5, 0)) []) in
     exists s', usbi_handle_transfer_completion 1 LIBUSB_TRANSFER_COMPLETED s = (Ret 0, s') /\
       armed (c_rest s') = None /\ c_flying s' = [2%nat] /\ pending (c_transfers s') 2 = true).
Proof.
  exists (mk_transfer 10 0 0x81 3 1000 LIBUSB_TRANSFER_COMPLETED 64 0 false 0 None 0 []). do 2 eexists.
  split; [reflexivity|]. intros s.
  destruct (usbi_handle_transfer_completion 1 LIBUSB_TRANSFER_COMPLETED s) as [o s'] eqn:E.
  assert (o = Ret 0) as -> by (vm_compute in E; congruence). exists s'. split; [reflexivity|].
  destruct (completion_disarms_timer 1 LIBUSB_TRANSFER_COMPLETED s 0 s' _ _ eq_refl eq_refl eq_refl eq_refl E
    ltac:(lia)) as [H1 H2].
  split; [exact H1|]. split; [exact H2|]. vm_compute in E. injection E as <-. reflexivity.
Defined.

(** ** Deadlines that are not valid times *)

(** When the nanoseconds add up to exactly a second, the timer refuses the deadline: the
    submission reports an error, but the transfer is in flight. *)
Theorem submit_fails_in_flight :
  exists s', libusb_submit_transfer 4 (mkCtx (mkHeap [] []) (c_transfers (sim_ctx None 5)) ∅ [] [] 0 Lock_free false false
                  (0, 0) 5 (mkSys (Some (9, 500000000)) [] None [])) = (Ret (LIBUSB_ERROR_OTHER : Z), s') /\
    c_flying s' = [4%nat].
Proof. eexists. split; vm_compute; reflexivity. Qed.

(** A transfer that is submitted again with its timeout set to none keeps the deadline it had. *)
Theorem resubmission_keeps_deadline :
  exists s', libusb_submit_transfer 1 (mkCtx (mkHeap [] []) {[1%nat := sim_transfer (5, 0) 10 0]} ∅ [] [] 0 Lock_free false
                  false (0, 0) (-1) (mkSys (Some (9, 0)) [] None [])) = (Ret 0, s') /\
    pending (c_transfers s') 1 = true /\ due (c_transfers s') (9, 0) 1 = true.
Proof. eexists. split; [vm_compute; reflexivity|]. split; vm_compute; reflexivity. Qed.

(** When the clock cannot be read, the time that [libusb_get_next_timeout] has not written is used. *)
Theorem next_timeout_uninitialised :
  exists s', get_next_timeout (60, 0) (sim_ctx None (-1)) = (Undef "value of an uninitialised time", s').
Proof. eexists. vm_compute. reflexivity. Qed.
