(* ===== verification/UsbSync.v ===== *)
(** * Synchronous transfers of libusb (src/external/libusb-1.0.9/libusb/sync.c and the inline
    functions of libusb.h that fill transfers)

    A synchronous transfer allocates an asynchronous one (UsbIo.v), submits it and handles events
    until its callback has set a flag on the stack of the caller; the functions of this file are
    what descriptor.c and hid.c call ([ControlTransfer] and [InterruptTransfer]).

    The theorems: a setup packet has the layout of the bus on any host; the two ways to find an
    isochronous packet agree; a synchronous transfer that returns has freed what it allocated.
    Another shows that, when events cannot be handled, it frees a transfer that is in flight, whose
    requests in the backend are then lost (UsbUrbsFlight.v). *)
From S2P Require Import Prelude UsbBase UsbIo UsbFlight UsbTimeouts.

(** ** Filling transfers *)

Definition LIBUSB_CONTROL_SETUP_SIZE : Z := 8.

Section fill.
Context `{HostOrder}.

(** A word of the host as its two bytes in memory, and back. *)
Definition store16 (x : Z) : list Z :=
  let b0 := x mod 256 in let b1 := x / 256 in if big_endian then [b1; b0] else [b0; b1].

(** [libusb_fill_control_setup], src/external/libusb-1.0.9/libusb/libusb.h:1073-1083: the eight
    bytes written. *)
Definition libusb_fill_control_setup (bmRequestType bRequest wValue wIndex wLength : Z) : list Z :=
  [bmRequestType; bRequest] ++ store16 (libusb_cpu_to_le16 wValue)
  ++ store16 (libusb_cpu_to_le16 wIndex) ++ store16 (libusb_cpu_to_le16 wLength).

(** [setup->wLength] of a setup packet in memory. *)
Definition setup_wLength (buffer : list Z) : outcome Z :=
  b0 ← byte_at buffer 6; b1 ← byte_at buffer 7;
  Ret (libusb_cpu_to_le16 (host16 b0 b1)).

(** [libusb_fill_control_transfer],
    src/external/libusb-1.0.9/libusb/libusb.h:1117-1133; [setup] is what the buffer holds. *)
Definition libusb_fill_control_transfer (tr : libusb_transfer) (dev_handle : nat) (buffer : option nat)
    (setup : list Z) (user_data : nat) (timeout : Z) : outcome libusb_transfer :=
  length ← match buffer with
           | Some _ => n ← setup_wLength setup; Ret (LIBUSB_CONTROL_SETUP_SIZE + n)
           | None => Ret (tr_length tr)
           end;
  Ret (mk_transfer dev_handle (tr_flags tr) 0 LIBUSB_TRANSFER_TYPE_CONTROL timeout (tr_status tr) length
         (tr_actual_length tr) true user_data buffer (tr_num_iso_packets tr)
    (tr_iso_packet_desc tr)).
End fill.

(** [libusb_fill_bulk_transfer], src/external/libusb-1.0.9/libusb/libusb.h:1148-1161. *)
Definition libusb_fill_bulk_transfer (tr : libusb_transfer) (dev_handle : nat) (endpoint : Z)
    (buffer : option nat) (length : Z) (user_data : nat) (timeout : Z) : libusb_transfer :=
  mk_transfer dev_handle (tr_flags tr) endpoint LIBUSB_TRANSFER_TYPE_BULK timeout (tr_status tr) length
    (tr_actual_length tr) true user_data buffer (tr_num_iso_packets tr)
    (tr_iso_packet_desc tr).

(** [libusb_fill_interrupt_transfer],
    src/external/libusb-1.0.9/libusb/libusb.h:1176-1189. *)
Definition libusb_fill_interrupt_transfer (tr : libusb_transfer) (dev_handle : nat) (endpoint : Z)
    (buffer : option nat) (length : Z) (user_data : nat) (timeout : Z) : libusb_transfer :=
  mk_transfer dev_handle (tr_flags tr) endpoint LIBUSB_TRANSFER_TYPE_INTERRUPT timeout (tr_status tr) length
    (tr_actual_length tr) true user_data buffer (tr_num_iso_packets tr)
    (tr_iso_packet_desc tr).

(** [libusb_fill_iso_transfer], src/external/libusb-1.0.9/libusb/libusb.h:1205-1219. *)
Definition libusb_fill_iso_transfer (tr : libusb_transfer) (dev_handle : nat) (endpoint : Z)
    (buffer : option nat) (length num_iso_packets : Z) (user_data : nat) (timeout : Z) : libusb_transfer :=
  mk_transfer dev_handle (tr_flags tr) endpoint LIBUSB_TRANSFER_TYPE_ISOCHRONOUS timeout (tr_status tr) length
    (tr_actual_length tr) true user_data buffer num_iso_packets
    (tr_iso_packet_desc tr).

(** [libusb_set_iso_packet_lengths],
    src/external/libusb-1.0.9/libusb/libusb.h:1229-1235: the lengths of the packet descriptors,
    of which there are at least as many as packets. *)
Definition libusb_set_iso_packet_lengths (num_iso_packets : Z) (lengths : list Z) (length : Z) : list Z :=
  replicate (Z.to_nat num_iso_packets) length ++ drop (Z.to_nat num_iso_packets) lengths.

Definition INT_MAX : Z := 2147483647.

(** [libusb_get_iso_packet_buffer],
    src/external/libusb-1.0.9/libusb/libusb.h:1253-1274: the offset in the buffer. *)
Definition libusb_get_iso_packet_buffer (num_iso_packets : Z) (lengths : list Z) (packet : Z)
    : outcome (option Z) :=
  if INT_MAX <? packet then Ret None
  else if num_iso_packets <=? packet then Ret None
  else
    before ← array_prefix packet lengths;
    Ret (Some (u64 (fold_left Z.add before 0))).

(** [libusb_get_iso_packet_buffer_simple],
    src/external/libusb-1.0.9/libusb/libusb.h:1295-1311: the product is a 32-bit one. *)
Definition libusb_get_iso_packet_buffer_simple (num_iso_packets : Z) (lengths : list Z) (packet : Z)
    : outcome (option Z) :=
  if INT_MAX <? packet then Ret None
  else if num_iso_packets <=? packet then Ret None
  else
    length0 ← match lengths with l :: _ => Ret l | [] => Undef overrun end;
    Ret (Some (u32 (length0 * packet))).

(** ** Synchronous transfers *)

(** The flags [completed] of the callers: a new one is 0. *)
Class SyncFlags (D : Type) := { new_flag : M D nat; flag_set : nat -> D -> bool }.

Section sync.
Context {D : Type} `{HostOrder} `{IoBackend D} `{IoEvents D} `{SyncFlags D}.
Implicit Types (s : Ctx D).

Definition read_flag (cell : nat) : M (Ctx D) bool := gets (fun s => flag_set cell (c_rest s)).

Definition put_bytes (b : nat) (l : list Z) : M (Ctx D) unit :=
  modify (fun s => mkCtx (c_heap s) (c_transfers s) (<[b:=l]> (c_bytes s)) (c_flying s) (c_pollfds s)
        (c_pollfd_modify s) (c_events_locked s) (c_handler_active s) (c_notifiers s) (c_ctrl_pipe s)
        (c_timerfd s) (c_rest s)).

(** The inner loop after a failure: events are handled until the flag is set or they fail again. *)
Fixpoint drain_events (fuel : nat) (cell : nat) : M (Ctx D) unit :=
  let* c := read_flag cell in
  if c : bool then ret tt
  else
    match fuel with
    | O => undef out_of_fuel
    | S fuel' =>
        let* r := libusb_handle_events_completed fuel (read_flag cell) in
        if r <? 0 then ret tt else drain_events fuel' cell
    end.

(** The loop that waits for the callback: the error to return, the transfer being freed, or
    nothing when the transfer has completed, src/external/libusb-1.0.9/libusb/sync.c:104-117. *)
Fixpoint wait_completed (fuel : nat) (t cell : nat) : M (Ctx D) (option Z) :=
  let* c := read_flag cell in
  if c : bool then ret None
  else
    match fuel with
    | O => undef out_of_fuel
    | S fuel' =>
        let* r := libusb_handle_events_completed fuel (read_flag cell) in
        if r <? 0 then
          if r =? LIBUSB_ERROR_INTERRUPTED then wait_completed fuel' t cell
          else
            let* _ := libusb_cancel_transfer t in
            do* drain_events fuel cell in
            do* libusb_free_transfer (Some t) in
            ret (Some r)
        else wait_completed fuel' t cell
    end.

(** The error for the status of a transfer that did not complete. *)
Definition status_error (status : libusb_transfer_status) : Z :=
  match status with
  | LIBUSB_TRANSFER_COMPLETED => 0
  | LIBUSB_TRANSFER_TIMED_OUT => LIBUSB_ERROR_TIMEOUT
  | LIBUSB_TRANSFER_STALL => LIBUSB_ERROR_PIPE
  | LIBUSB_TRANSFER_NO_DEVICE => LIBUSB_ERROR_NO_DEVICE
  | LIBUSB_TRANSFER_OVERFLOW => LIBUSB_ERROR_OVERFLOW
  | _ => LIBUSB_ERROR_OTHER
  end.

(** [libusb_control_transfer], src/external/libusb-1.0.9/libusb/sync.c:72-146: the value
    returned and the bytes copied to [data].  The requests of the transfer are allocated by the
    backend, in its own memory: UsbUrbsFlight.v shows how they are lost when the wait fails. *)
Definition libusb_control_transfer (fuel : nat) (dev_handle : nat)
    (bmRequestType bRequest wValue wIndex : Z) (data : list Z) (wLength timeout : Z) : M (Ctx D) (Z * list Z) :=
  let* transfer := libusb_alloc_transfer 0 in
  match transfer with
  | None => ret (LIBUSB_ERROR_NO_MEM : Z, [])
  | Some t =>
      let* cell := on_system new_flag in
      let* buffer := in_memory malloc in
      match buffer with
      | None => do* libusb_free_transfer (Some t) in ret (LIBUSB_ERROR_NO_MEM : Z, [])
      | Some b =>
          let setup := libusb_fill_control_setup bmRequestType bRequest wValue wIndex wLength in
          let out := Z.land bmRequestType LIBUSB_ENDPOINT_DIR_MASK =? LIBUSB_ENDPOINT_OUT in
          let* payload := (if out then lift (memcpy_from data wLength) else ret []) in
          do* put_bytes b (setup ++ payload) in
          let* '(it, tr) := get_transfer t in
          let* tr := lift (libusb_fill_control_transfer tr dev_handle (Some b) setup cell timeout) in
          do* put_transfer t (it, mk_transfer (tr_dev_handle tr) LIBUSB_TRANSFER_FREE_BUFFER (tr_endpoint tr)
                (tr_type tr) (tr_timeout tr) (tr_status tr) (tr_length tr) (tr_actual_length tr) (tr_callback tr)
                (tr_user_data tr) (tr_buffer tr) (tr_num_iso_packets tr)
    (tr_iso_packet_desc tr)) in
          let* r := libusb_submit_transfer t in
          if r <? 0 then do* libusb_free_transfer (Some t) in ret (r, [])
          else
            let* e := wait_completed fuel t cell in
            match e with
            | Some e => ret (e, [])
            | None =>
                let* '(it, tr) := get_transfer t in
                let* bytes := gets (fun s => default [] (c_bytes s !! b)) in
                let* copied := (if out then ret []
                                else lift (memcpy_from (drop 8 bytes) (tr_actual_length tr))) in
                do* libusb_free_transfer (Some t) in
                ret (if bool_decide (tr_status tr = LIBUSB_TRANSFER_COMPLETED) then tr_actual_length tr
                     else status_error (tr_status tr), copied)
            end
      end
  end.

(** [do_sync_bulk_transfer], src/external/libusb-1.0.9/libusb/sync.c:156-216: the value
    returned and [*transferred], when it is written. *)
Definition do_sync_bulk_transfer (fuel : nat) (dev_handle : nat) (endpoint : Z) (buffer : option nat)
    (length timeout type : Z) : M (Ctx D) (Z * option Z) :=
  let* transfer := libusb_alloc_transfer 0 in
  match transfer with
  | None => ret (LIBUSB_ERROR_NO_MEM : Z, None)
  | Some t =>
      let* cell := on_system new_flag in
      let* '(it, tr) := get_transfer t in
      let tr := libusb_fill_bulk_transfer tr dev_handle endpoint buffer length cell timeout in
      do* put_transfer t (it, mk_transfer (tr_dev_handle tr) (tr_flags tr) (tr_endpoint tr) type (tr_timeout tr)
            (tr_status tr) (tr_length tr) (tr_actual_length tr) (tr_callback tr) (tr_user_data tr)
            (tr_buffer tr) (tr_num_iso_packets tr)
    (tr_iso_packet_desc tr)) in
      let* r := libusb_submit_transfer t in
      if r <? 0 then do* libusb_free_transfer (Some t) in ret (r, None)
      else
        let* e := wait_completed fuel t cell in
        match e with
        | Some e => ret (e, None)
        | None =>
            let* '(it, tr) := get_transfer t in
            do* libusb_free_transfer (Some t) in
            ret (status_error (tr_status tr), Some (tr_actual_length tr))
        end
  end.

(** [libusb_bulk_transfer], src/external/libusb-1.0.9/libusb/sync.c:258-264. *)
Definition libusb_bulk_transfer (fuel dev_handle : nat) (endpoint : Z) (buffer : option nat)
    (length timeout : Z) :=
  do_sync_bulk_transfer fuel dev_handle endpoint buffer length timeout LIBUSB_TRANSFER_TYPE_BULK.

(** [libusb_interrupt_transfer], src/external/libusb-1.0.9/libusb/sync.c:307-313. *)
Definition libusb_interrupt_transfer (fuel dev_handle : nat) (endpoint : Z) (buffer : option nat)
    (length timeout : Z) :=
  do_sync_bulk_transfer fuel dev_handle endpoint buffer length timeout LIBUSB_TRANSFER_TYPE_INTERRUPT.
End sync.

(** ** Setup packets and isochronous packets *)
Section layout.
Context `{HostOrder}.

Definition is_u16 (x : Z) : Prop := 0 <= x < 65536.

Lemma u16_bytes x : is_u16 x -> Z.land x 0xff = x mod 256 /\ Z.shiftr x 8 = x / 256 /\
  is_byte (x mod 256) /\ is_byte (x / 256).
Proof.
  unfold is_u16, is_byte. intros Hx. change 0xff with (Z.ones 8). rewrite Z.land_ones, Z.shiftr_div_pow2 by lia.
  split_and!; try done; try (apply Z.mod_pos_bound; lia); try (apply Z.div_pos; lia).
  apply Z.div_lt_upper_bound; lia.
Qed.

Lemma store16_le16 x : is_u16 x -> store16 (libusb_cpu_to_le16 x) = [x mod 256; x / 256].
Proof.
  intros Hx. destruct (u16_bytes x Hx) as (E0 & E1 & H0 & H1).
  unfold store16, libusb_cpu_to_le16, host16. rewrite E0, E1. destruct big_endian; rewrite le16_add by done.
  - unfold is_byte in *. rewrite (Z.mul_comm 256), Z.div_add_l by lia.
    rewrite (Z.div_small (x / 256)), Z.add_0_r by lia. f_equal. f_equal.
    rewrite Z.add_comm, Z_mod_plus_full. by apply Z.mod_small.
  - unfold is_byte in *. rewrite (Z.mul_comm 256), Z.div_add_l by lia.
    rewrite (Z.div_small (x mod 256)), Z.add_0_r by lia. f_equal.
    rewrite Z.add_comm, Z_mod_plus_full. by apply Z.mod_small.
Qed.

(** A setup packet has its words least significant byte first, whatever the order of the
    host, and the length of a control transfer filled from it is that of the packet and its
    data. *)
Theorem control_setup_layout tr handle b rt rq v i n cell ms :
  is_u16 v -> is_u16 i -> is_u16 n ->
  let setup := libusb_fill_control_setup rt rq v i n in
  setup = [rt; rq; v mod 256; v / 256; i mod 256; i / 256; n mod 256; n / 256] /\
  exists tr', libusb_fill_control_transfer tr handle (Some b) setup cell ms = Ret tr' /\
    tr_length tr' = 8 + n /\ tr_buffer tr' = Some b /\ tr_timeout tr' = ms.
Proof.
  intros Hv Hi Hn. cbn zeta. unfold libusb_fill_control_setup. rewrite !store16_le16 by done. split; [done|].
  eexists. split; [reflexivity|]. split; [|done]. cbn [tr_length]. unfold LIBUSB_CONTROL_SETUP_SIZE. f_equal.
  pose proof (u16_bytes n Hn) as (_ & _ & H0 & H1).
  rewrite libusb_cpu_to_le16_host, le16_add by done. rewrite <- Z.div_mod by lia. done.
Qed.
End layout.

Lemma control_setup_layout_witness :
  @libusb_fill_control_setup {| big_endian := true |} 0x80 6 0x0100 0 18 = [0x80; 6; 0; 1; 0; 0; 18; 0].
Proof.
  destruct (@control_setup_layout {| big_endian := true |} (snd (zero_transfer 0)) 7 1 0x80 6 0x0100 0 18 2 1000)
    as [E _]; [by split..|]. exact E.
Defined.

Lemma fold_add l z : fold_left Z.add l z = z + fold_left Z.add l 0.
Proof. revert z. induction l as [|a l IH]; intros z; cbn [fold_left]; [lia|]. rewrite (IH (z + a)), (IH (0 + a)). lia. Qed.
Lemma sum_replicate n z : fold_left Z.add (replicate n z) 0 = Z.of_nat n * z.
Proof. induction n as [|n IH]; [done|]. cbn [replicate fold_left]. rewrite fold_add, IH. lia. Qed.

(** When all the packets have the length that [libusb_set_iso_packet_lengths] gives them, both
    ways to find a packet give the same place, as long as the offset fits in 32 bits. *)
Theorem iso_packet_buffer_simple n lengths len packet :
  0 <= len -> Z.of_nat (length lengths) = n -> 0 <= packet -> len * packet < 2 ^ 32 ->
  let lengths' := libusb_set_iso_packet_lengths n lengths len in
  libusb_get_iso_packet_buffer n lengths' packet = libusb_get_iso_packet_buffer_simple n lengths' packet /\
  (packet < n -> packet <= INT_MAX -> libusb_get_iso_packet_buffer n lengths' packet = Ret (Some (len * packet))).
Proof.
  intros Hlen Hn Hp Hfit lengths'.
  assert (lengths' = replicate (Z.to_nat n) len) as ->.
  { unfold lengths', libusb_set_iso_packet_lengths. rewrite drop_ge by lia. by rewrite app_nil_r. }
  unfold libusb_get_iso_packet_buffer, libusb_get_iso_packet_buffer_simple.
  destruct (Z.ltb_spec INT_MAX packet); [split; [done|lia]|].
  destruct (Z.leb_spec n packet); [split; [done|lia]|].
  unfold array_prefix. rewrite length_replicate. destruct (Z.leb_spec packet (Z.of_nat (Z.to_nat n))); [|lia].
  cbn [mbind outcome_bind]. rewrite take_replicate, Nat.min_l by lia. rewrite sum_replicate, Z2Nat.id by lia.
  destruct (Z.to_nat n) as [|n'] eqn:E; [lia|]. cbn [replicate mbind outcome_bind].
  assert (u32 (len * packet) = len * packet) as -> by (apply u32_id; unfold is_u32; nia).
  assert (u64 (packet * len) = len * packet) as -> by (rewrite Z.mul_comm; apply u64_id; unfold is_u64; nia).
  by split.
Qed.

Lemma iso_packet_buffer_simple_witness :
  libusb_get_iso_packet_buffer_simple 3 (libusb_set_iso_packet_lengths 3 [0; 0; 0] 192) 2 = Ret (Some 384).
Proof.
  destruct (iso_packet_buffer_simple 3 [0; 0; 0] 192 2) as [E _]; [lia|done|lia|lia|]. rewrite <- E. reflexivity.
Defined.

(** ** What a synchronous transfer allocates *)
Create HintDb memory.

Section memory.
Context {D : Type} `{HostOrder} `{IoBackend D} `{IoEvents D} `{SyncFlags D}.
Implicit Types (s : Ctx D).

(** The transfer [t] is allocated with a buffer and flags, and the live blocks are [L]. *)
Definition has_transfer (t : nat) (ob : option nat) (fl : Z) (L : list nat) s : Prop :=
  (exists it tr, c_transfers s !! t = Some (it, tr) /\ tr_buffer tr = ob /\ tr_flags tr = fl) /\
  h_live (c_heap s) ≡ₚ L.

(** What runs in the library while a synchronous transfer waits neither frees it nor keeps
    memory. *)
Class EventsKeepMemory := {
  backend_events_memory fds n t ob fl L : maintains (has_transfer t ob fl L) (backend_handle_events fds n);
  other_threads_memory t ob fl L : maintains (has_transfer t ob fl L) other_threads;
  timedwait_memory ts t ob fl L : maintains (has_transfer t ob fl L) (event_waiters_timedwait ts) }.
Context `{EventsKeepMemory}.

Section fixed.
Context (t : nat) (ob : option nat) (fl : Z).

Lemma system_memory L {A} (m : M D A) : maintains (has_transfer t ob fl L) (on_system m).
Proof. intros s r s' HP E. unfold on_system in E. destruct (m (c_rest s)). by injection E as _ <-. Qed.
Lemma set_flying_memory L l : maintains (has_transfer t ob fl L) (set_flying (D := D) l).
Proof. by intros s r s' HP [= _ <-]. Qed.
Lemma set_lock_memory L o b : maintains (has_transfer t ob fl L) (set_lock (D := D) o b).
Proof. by intros s r s' HP [= _ <-]. Qed.

(** Writing a transfer without changing what the program sees of it. *)
Lemma put_memory L u x it' s r s' :
  has_transfer t ob fl L s -> c_transfers s !! u = Some x -> put_transfer u (it', x.2) s = (Ret r, s') ->
  has_transfer t ob fl L s'.
Proof.
  intros [(it & tr & Ex & Hb & Hf) Hl] Eu. unfold put_transfer, set_transfers. mrun. intros [= _ <-].
  split; [|done]. cbn. destruct (decide (u = t)) as [->|Hne].
  - rewrite Ex in Eu. injection Eu as <-. exists it', tr. by rewrite lookup_insert_eq.
  - exists it, tr. by rewrite lookup_insert_ne.
Qed.

Lemma cancel_memory L u : maintains (has_transfer t ob fl L) (libusb_cancel_transfer u).
Proof.
  intros s r s' HP E. unfold libusb_cancel_transfer in E. minv E. apply get_transfer_inv in E0 as [-> _].
  destruct r0 as [it0 tr0]. minv E. apply (system_memory _ _ _ _ _ HP) in E0.
  apply get_transfer_inv in E1 as [-> Ex]. destruct r1 as [it tr]. minv E. injection E as _ <-.
  by eapply (put_memory L u (it, tr)).
Qed.

Lemma timeouts_loop_memory L now l : maintains (has_transfer t ob fl L) (timeouts_loop now l).
Proof.
  induction l as [|u l IH]; cbn [timeouts_loop]; [apply maintains_pure|].
  intros s r s' HP E. minv E. apply get_transfer_inv in E0 as [-> Ex]. destruct r0 as [it tr].
  destruct (negb (timerisset _)); [by injection E as _ <-|]. destruct (timeout_handled it); [by eapply IH|].
  destruct (tv_before _ _); [by injection E as _ <-|]. minv E. eapply IH; [|exact E].
  unfold handle_timeout in E0. minv E0. apply get_transfer_inv in E1 as [-> Ex']. destruct r1 as [it1 tr1].
  minv E0. injection E0 as _ <-. eapply cancel_memory; [|exact E2]. by eapply (put_memory L u (it1, tr1)).
Qed.

#[local] Hint Resolve system_memory set_flying_memory set_lock_memory cancel_memory timeouts_loop_memory
  backend_events_memory other_threads_memory timedwait_memory : memory.
#[local] Ltac keep_memory :=
  repeat match goal with
         | |- maintains _ (ret _) => apply maintains_pure
         | |- maintains _ (undef _) => apply maintains_pure
         | |- maintains _ (gets _) => apply maintains_pure
         | |- maintains _ (query _) => apply maintains_pure
         | |- maintains _ (lift _) => apply maintains_pure
         | |- maintains _ (get_transfer _) => apply maintains_pure
         | |- maintains _ (bind _ _) => apply maintains_bind; [|intros ?]
         | |- maintains _ _ => solve [eauto with memory]
         | |- maintains _ (if ?b then _ else _) => destruct b
         | |- maintains _ (match ?x with _ => _ end) => destruct x
         end.

Lemma handle_timeouts_memory L : maintains (has_transfer t ob fl L) handle_timeouts.
Proof. unfold handle_timeouts, handle_timeouts_locked. keep_memory. Qed.

Lemma arm_next_memory L l : maintains (has_transfer t ob fl L) (arm_next l).
Proof. unfold set_timer. induction l as [|u l IH]; cbn [arm_next]; unfold set_timer; keep_memory. Qed.

Lemma own_events_memory L r revents : maintains (has_transfer t ob fl L) (own_events r revents).
Proof.
  pose proof handle_timeouts_memory as Ht. pose proof arm_next_memory as Ha. unfold handle_timeouts in Ht.
  unfold own_events, handle_timerfd_trigger, disarm_timerfd, arm_timerfd_for_next_timeout. keep_memory.
Qed.

(** A block is allocated or freed. *)
Lemma free_memory L b s r s' :
  has_transfer t ob fl (b :: L) s -> in_memory (free_block b) s = (Ret r, s') -> has_transfer t ob fl L s'.
Proof.
  intros [Htr Hl] E. unfold in_memory, free_block in E. destruct (remove_block_perm _ _ _ Hl) as (l' & El & Hl').
  rewrite El in E. by injection E as _ <-.
Qed.
Lemma malloc_memory L s b s' :
  has_transfer t ob fl L s -> in_memory malloc s = (Ret b, s') ->
  has_transfer t ob fl (match b with Some b => [b] | None => [] end ++ L) s'.
Proof.
  intros [Htr Hl] E. unfold in_memory, malloc in E.
  destruct (h_fails (c_heap s)) as [|[] fs]; injection E as <- <-; (split; [done|]); cbn; by rewrite ?Hl.
Qed.

Lemma handle_events_memory L tv : maintains (has_transfer t ob fl L) (handle_events tv).
Proof.
  intros s r s' HP E. unfold handle_events in E. minv E. injection E0 as <- <-.
  apply (malloc_memory _ _ _ _ HP) in E1. destruct r1 as [fds|]; [|by injection E as _ <-]. cbn [app] in E1.
  minv E. apply (system_memory _ _ _ _ _ E1) in E0. destruct r0 as [[n revents] interrupted].
  destruct (n =? 0).
  { minv E. apply (free_memory _ _ _ _ _ E0) in E2. by eapply handle_timeouts_memory. }
  destruct (_ && _); [minv E; injection E as _ <-; by eapply free_memory|].
  destruct (n <? 0); [minv E; injection E as _ <-; by eapply free_memory|].
  minv E. apply (own_events_memory _ _ _ _ _ _ E0) in E2. injection E as _ <-.
  assert (has_transfer t ob fl (fds :: L) st2) as HP1.
  { destruct r0 as [r'|[r' revents']]; [by injection E3 as _ <-|]. by eapply backend_events_memory. }
  by eapply free_memory.
Qed.

Lemma events_retry_memory L fuel tv completed :
  maintains (has_transfer t ob fl L) completed -> maintains (has_transfer t ob fl L) (events_retry fuel tv completed).
Proof.
  intros Hc. pose proof handle_events_memory. pose proof handle_timeouts_memory.
  induction fuel as [|fuel IH]; cbn [events_retry];
    unfold libusb_try_lock_events, libusb_event_handler_active, libusb_wait_for_event, events_done,
      libusb_unlock_events; keep_memory.
Qed.

Lemma events_completed_memory L fuel completed :
  maintains (has_transfer t ob fl L) completed ->
  maintains (has_transfer t ob fl L) (libusb_handle_events_completed fuel completed).
Proof.
  intros Hc. pose proof (events_retry_memory L) as Hr. pose proof handle_timeouts_memory.
  unfold libusb_handle_events_completed, libusb_handle_events_timeout_completed, get_next_timeout,
    libusb_get_next_timeout. keep_memory.
Qed.

Lemma add_to_flying_memory L : maintains (has_transfer t ob fl L) (add_to_flying_list t).
Proof. unfold add_to_flying_list. keep_memory. Qed.
Lemma del_flying_memory L : maintains (has_transfer t ob fl L) (del_flying t).
Proof. unfold del_flying. keep_memory. Qed.

#[local] Hint Resolve add_to_flying_memory del_flying_memory : memory.

Lemma submit_memory L : maintains (has_transfer t ob fl L) (libusb_submit_transfer t).
Proof.
  intros s r s' HP E. unfold libusb_submit_transfer in E. minv E. apply get_transfer_inv in E0 as [-> Ex].
  destruct r0 as [it tr]. minv E.
  assert (has_transfer t ob fl L st) as HP1 by (by eapply (put_memory L t (it, tr))).
  assert (has_transfer t ob fl L st0) as HP2.
  { unfold calculate_timeout in E1. minv E1. apply get_transfer_inv in E2 as [-> Ex2]. destruct r2 as [it2 tr2].
    destruct (tr_timeout tr2 =? 0); [by injection E1 as _ <-|]. minv E1.
    apply (system_memory _ _ _ _ _ HP1) in E2. destruct r2 as [now|]; [|by injection E1 as _ <-]. minv E1.
    injection E1 as _ <-. unfold put_transfer, set_transfers in E3. mrun. revert E3. mrun. intros [= _ <-].
    destruct E2 as [(it3 & tr3 & Ex3 & Hb & Hf) Hl]. split; [|done]. cbn.
    destruct HP1 as [(it4 & tr4 & Ex4 & Hb4 & Hf4) _]. rewrite Ex2 in Ex4. injection Ex4 as <- <-.
    eexists _, _. by rewrite lookup_insert_eq. }
  revert HP2 E. generalize st0 r s'.
  match goal with |- forall s r s', _ -> ?m s = _ -> _ => change (maintains (has_transfer t ob fl L) m) end.
  keep_memory.
Qed.

Lemma drain_memory L fuel cell : maintains (has_transfer t ob fl L) (drain_events fuel cell).
Proof.
  pose proof events_completed_memory as He. induction fuel as [|fuel IH]; cbn [drain_events];
    unfold read_flag; keep_memory. apply He. keep_memory.
Qed.

(** The transfer is freed with its buffer. *)
Definition only_live (L : list nat) s : Prop := h_live (c_heap s) ≡ₚ L /\ c_transfers s !! t = None.

Definition buffer_blocks : list nat :=
  match ob with Some b => if Z.land fl LIBUSB_TRANSFER_FREE_BUFFER =? 0 then [] else [b] | None => [] end.

Lemma free_transfer_memory L s r s' :
  has_transfer t ob fl (buffer_blocks ++ t :: L) s -> libusb_free_transfer (Some t) s = (Ret r, s') -> only_live L s'.
Proof.
  intros HP E. cbn [libusb_free_transfer] in E. minv E. apply get_transfer_inv in E0 as [-> Ex].
  destruct r0 as [it tr]. minv E. injection E2 as <- <-.
  assert (tr_buffer tr = ob /\ tr_flags tr = fl) as [Hb Hf].
  { destruct HP as [(it1 & tr1 & Ex1 & Hb1 & Hf1) _]. rewrite Ex in Ex1. by injection Ex1 as <- <-. }
  assert (has_transfer t ob fl (t :: L) st) as HP1.
  { assert (buffer_blocks = match tr_buffer tr with
                               | Some b => if Z.land (tr_flags tr) LIBUSB_TRANSFER_FREE_BUFFER =? 0 then [] else [b]
                               | None => [] end) as Eb by (unfold buffer_blocks; by rewrite Hb, Hf).
    rewrite Eb in HP. destruct (tr_buffer tr) as [b|]; [destruct (_ =? 0)|]; [by injection E0 as _ <-| |by injection E0 as _ <-].
    by eapply free_memory. }
  apply (free_memory _ _ _ _ _ HP1) in E1 as [_ Hl].
  unfold set_transfers, modify in E. injection E as _ <-. split; [done|]. cbn. by rewrite lookup_delete_eq.
Qed.

(** The wait ends with the transfer completed and allocated, or with an error and the transfer
    freed. *)
Lemma wait_completed_memory L fuel cell s e s' :
  has_transfer t ob fl (buffer_blocks ++ t :: L) s -> wait_completed fuel t cell s = (Ret e, s') ->
  match e with
  | None => has_transfer t ob fl (buffer_blocks ++ t :: L) s'
  | Some _ => only_live L s'
  end.
Proof.
  revert s. induction fuel as [|fuel IH]; intros s HP E; cbn [wait_completed] in E; minv E; injection E0 as <- <-;
    destruct (flag_set cell (c_rest s)); try (by injection E as <- <-); [done|].
  minv E. apply (events_completed_memory (buffer_blocks ++ t :: L) _ _ ltac:(apply maintains_pure) _ _ _ HP) in E0.
  destruct (r <? 0); [|by eapply IH]. destruct (r =? _); [by eapply IH|]. minv E. injection E as <- <-.
  apply (cancel_memory _ _ _ _ _ E0) in E1. apply (drain_memory _ _ _ _ _ _ E1) in E2.
  by eapply free_transfer_memory.
Qed.
End fixed.

Lemma put_as_memory t ob fl ob' fl' L it tr s r s' :
  has_transfer t ob fl L s -> tr_buffer tr = ob' -> tr_flags tr = fl' ->
  put_transfer t (it, tr) s = (Ret r, s') -> has_transfer t ob' fl' L s'.
Proof.
  intros [_ Hl] Hb Hf. unfold put_transfer, set_transfers. mrun. intros [= _ <-]. split; [|done].
  exists it, tr. cbn. by rewrite lookup_insert_eq.
Qed.

Lemma alloc_memory L n s ot s' : h_live (c_heap s) ≡ₚ L -> libusb_alloc_transfer n s = (Ret ot, s') ->
  match ot with Some t => has_transfer t None 0 (t :: L) s' | None => h_live (c_heap s') ≡ₚ L end.
Proof.
  intros Hl E. unfold libusb_alloc_transfer in E. minv E. unfold in_memory, malloc in E0.
  assert (match r with Some t => h_live (c_heap st) ≡ₚ t :: L | None => h_live (c_heap st) ≡ₚ L end) as Hl'.
  { destruct (h_fails (c_heap s)) as [|[] fs]; injection E0 as <- <-; cbn; by rewrite Hl. }
  destruct r as [t|]; [|by injection E as <- <-]. minv E. injection E as <- <-.
  eapply system_memory; [|exact E2].
  unfold put_transfer, set_transfers in E1. revert E1. mrun. intros [= _ <-]. split; [|done].
  eexists _, _. cbn. by rewrite lookup_insert_eq.
Qed.

Lemma put_bytes_memory t ob fl L b l : maintains (has_transfer t ob fl L) (put_bytes b l).
Proof. by intros s r s' HP [= _ <-]. Qed.

(** What holds when a program returns, from what holds when it starts. *)
Definition leads {A} (P : Ctx D -> Prop) (m : M (Ctx D) A) (Q : A -> Ctx D -> Prop) : Prop :=
  forall s r s', P s -> m s = (Ret r, s') -> Q r s'.

Lemma leads_bind {A B} P (m : M (Ctx D) A) R (f : A -> M (Ctx D) B) Q :
  leads P m R -> (forall a, leads (R a) (f a) Q) -> leads P (bind m f) Q.
Proof. intros Hm Hf s r s' HP E. minv E. eapply Hf; [|exact E]. by eapply Hm. Qed.
Lemma leads_ret {A} (P : Ctx D -> Prop) (x : A) (Q : A -> Ctx D -> Prop) :
  (forall s, P s -> Q x s) -> leads P (ret x) Q.
Proof. intros HQ s r s' HP [= <- <-]. by apply HQ. Qed.
Lemma leads_maintains {A} P (m : M (Ctx D) A) : maintains P m -> leads P m (fun _ => P).
Proof. intros Hm s r s' HP E. by eapply Hm. Qed.
Lemma leads_then {A B} P (m : M (Ctx D) A) (f : A -> M (Ctx D) B) Q :
  maintains P m -> (forall a, leads P (f a) Q) -> leads P (bind m f) Q.
Proof. intros Hm. apply leads_bind. by apply leads_maintains. Qed.

(** The transfer, with its buffer, is freed in the end. *)
Definition frees_to (L : list nat) : Ctx D -> Prop := fun s => h_live (c_heap s) ≡ₚ L.

Lemma free_leads {A} t ob fl L (x : A) :
  leads (has_transfer t ob fl (buffer_blocks ob fl ++ t :: L)) (do* libusb_free_transfer (Some t) in ret x)
    (fun _ => frees_to L).
Proof.
  intros s r s' HP E. minv E. injection E as _ <-. by apply (free_transfer_memory _ _ _ _ _ _ _ HP) in E0 as [? _].
Qed.

Lemma submit_leads {A} t ob fl L fuel cell (early : Z -> A) (f : M (Ctx D) A) :
  leads (has_transfer t ob fl (buffer_blocks ob fl ++ t :: L)) f (fun _ => frees_to L) ->
  leads (has_transfer t ob fl (buffer_blocks ob fl ++ t :: L))
    (let* r := libusb_submit_transfer t in
     if r <? 0 then do* libusb_free_transfer (Some t) in ret (early r)
     else let* e := wait_completed fuel t cell in
          match e with Some e => ret (early e) | None => f end) (fun _ => frees_to L).
Proof.
  intros Hf. eapply leads_then; [apply submit_memory|intros r]. destruct (r <? 0); [apply free_leads|].
  eapply leads_bind; [intros s e s'; apply wait_completed_memory|]. intros [e|]; [|done].
  apply leads_ret. by intros s [? _].
Qed.

Lemma fill_leads t ob fl L tr h b setup cell ms :
  leads (has_transfer t ob fl L) (lift (libusb_fill_control_transfer tr h (Some b) setup cell ms))
    (fun tr' s => has_transfer t ob fl L s /\ tr_buffer tr' = Some b).
Proof.
  intros s tr' s' HP E. unfold lift in E. injection E as E <-. split; [done|].
  unfold libusb_fill_control_transfer in E. destruct (setup_wLength setup); cbn in E; try done. by injection E as <-.
Qed.
Lemma get_leads t ob fl L :
  leads (has_transfer t ob fl L) (get_transfer t) (fun x s => has_transfer t ob fl L s /\ tr_flags x.2 = fl).
Proof.
  intros s x s' HP E. apply get_transfer_inv in E as [-> Ex]. split; [done|].
  destruct HP as [(it & tr & Ex' & Hb & Hf) _]. rewrite Ex in Ex'. by injection Ex' as ->.
Qed.

Lemma control_frees L fuel h rt rq v i data n ms :
  leads (frees_to L) (libusb_control_transfer fuel h rt rq v i data n ms) (fun _ => frees_to L).
Proof.
  unfold libusb_control_transfer. eapply leads_bind; [intros s r s'; apply alloc_memory|].
  intros [t|]; [|by apply leads_ret]. eapply leads_then; [apply system_memory|intros cell].
  eapply leads_bind; [intros s b s'; apply malloc_memory|]. intros [b|]; [|by apply (free_leads t None 0)].
  eapply leads_then; [destruct (_ =? _); apply maintains_pure|intros payload].
  eapply leads_then; [apply put_bytes_memory|intros _].
  eapply leads_then; [apply maintains_pure|intros [it tr]].
  eapply leads_bind; [intros s tr' s'; apply fill_leads|intros tr'].
  eapply (leads_bind _ _ (fun _ => has_transfer t (Some b) LIBUSB_TRANSFER_FREE_BUFFER (b :: t :: L))).
  { intros s r s' [HP Hb]. by apply (put_as_memory _ _ _ _ _ _ _ _ _ _ _ HP). }
  intros _. apply (submit_leads t (Some b) LIBUSB_TRANSFER_FREE_BUFFER L).
  eapply leads_then; [apply maintains_pure|intros [it2 tr2]]. eapply leads_then; [apply maintains_pure|intros bytes].
  eapply leads_then; [destruct (_ =? _); apply maintains_pure|intros copied]. apply free_leads.
Qed.

Lemma bulk_frees L fuel h endpoint buffer len ms type :
  leads (frees_to L) (do_sync_bulk_transfer fuel h endpoint buffer len ms type) (fun _ => frees_to L).
Proof.
  unfold do_sync_bulk_transfer. eapply leads_bind; [intros s r s'; apply alloc_memory|].
  intros [t|]; [|by apply leads_ret]. eapply leads_then; [apply system_memory|intros cell].
  eapply leads_bind; [intros s r s'; apply get_leads|intros [it tr]].
  eapply (leads_bind _ _ (fun _ => has_transfer t buffer 0 (t :: L))).
  { intros s r s' [HP Hf]. by apply (put_as_memory _ _ _ _ _ _ _ _ _ _ _ HP). }
  intros _. assert (buffer_blocks buffer 0 = []) as Eb by (by destruct buffer).
  pose proof (fun A => submit_leads (A := A) t buffer 0 L) as Hs. rewrite Eb in Hs. apply Hs.
  eapply leads_then; [apply maintains_pure|intros [it2 tr2]].
  pose proof (fun A => free_leads (A := A) t buffer 0 L) as Hr. rewrite Eb in Hr. apply Hr.
Qed.

End memory.

(** ** A device that answers *)

(** The flags on the stacks of the callers, what the device answers to each transfer, and whether
    [poll] fails. *)
Record SyncSys := mkSyncSys { z_flags : list bool; z_answers : list (list Z); z_poll_fails : bool }.

#[export] Instance sync_backend : IoBackend SyncSys := {|
  clock_monotonic := ret (Some (10, 0)); clock_realtime := ret (Some (10, 0));
  backend_submit_transfer _ _ _ := ret 0; backend_cancel_transfer _ _ := ret 0;
  backend_clear_transfer_priv _ _ := ret tt; backend_zero_transfer_priv _ := ret tt; timerfd_settime _ := ret (-1);
  usbi_poll fds _ := fun y =>
    (Ret (if z_poll_fails y then (-1, [], false) else (1, 0 :: replicate (length fds - 1) 4, false)), y);
  usbi_pipe := ret None; timerfd_create := ret (-1); usbi_close _ := ret tt;
  fd_added_cb _ _ := ret tt; fd_removed_cb _ := ret tt |}.

#[export] Instance sync_flags : SyncFlags SyncSys := {|
  new_flag := fun y => (Ret (length (z_flags y)), mkSyncSys (z_flags y ++ [false]) (z_answers y) (z_poll_fails y));
  flag_set cell y := nth cell (z_flags y) false |}.

Definition set_flag (cell : nat) : M SyncSys unit :=
  modify (fun y => mkSyncSys (<[cell:=true]> (z_flags y)) (z_answers y) (z_poll_fails y)).
Definition next_answer : M SyncSys (list Z) := fun y =>
  (Ret (hd [] (z_answers y)), mkSyncSys (z_flags y) (tail (z_answers y)) (z_poll_fails y)).

(** The device completes the first transfer in flight with its next answer; the callback of a
    transfer sets the flag of its caller, as [ctrl_transfer_cb] and [bulk_transfer_cb] do. *)
Definition sync_device `{IoEvents SyncSys} : M (Ctx SyncSys) Z :=
  let* l := gets c_flying in
  match l with
  | [] => ret 0
  | u :: _ =>
      let* '(it, tr) := get_transfer u in
      if Z.land (tr_flags tr) LIBUSB_TRANSFER_FREE_TRANSFER =? 0 then
        let* answer := on_system next_answer in
        do* (match tr_buffer tr with
             | Some b => let* s := gets id in put_bytes b (take 8 (default [] (c_bytes s !! b)) ++ answer)
             | None => ret tt
             end) in
        do* put_transfer u (mk_itransfer (it_num_iso_packets it) (it_timeout it)
                              (Z.of_nat (length answer)) (it_flags it), tr) in
        usbi_handle_transfer_completion u LIBUSB_TRANSFER_COMPLETED
      else ret 0
  end.

Definition sync_callback (u : nat) : M (Ctx SyncSys) unit :=
  let* '(_, tr) := get_transfer u in on_system (set_flag (tr_user_data tr)).

(** The callbacks alone, and with them the device. *)
Definition callbacks_only : IoEvents SyncSys := {|
  run_callback := sync_callback; backend_handle_events _ _ := ret 0; other_threads := ret tt;
  event_waiters_timedwait _ := ret true;
  events_lock_wait := ret tt |}.
#[export] Instance sync_events : IoEvents SyncSys := {|
  run_callback := sync_callback; backend_handle_events _ _ := @sync_device callbacks_only;
  other_threads := ret tt; event_waiters_timedwait _ := ret true;
  events_lock_wait := ret tt |}.

Definition sync_ctx (answers : list (list Z)) (poll_fails : bool) : Ctx SyncSys :=
  mkCtx (mkHeap [7%nat] []) ∅ ∅ [] [mk_pollfd 7 3 1; mk_pollfd 8 5 4] 0 Lock_free false false (3, 4) (-1)
    (mkSyncSys [] answers poll_fails).

#[local] Instance sync_order : HostOrder := {| big_endian := false |}.

Example control_transfer_answers :
  (libusb_control_transfer 5 1 0x80 6 0x0100 0 [] 4 1000 (sync_ctx [[18; 1; 0; 2]] false)).1
  = Ret (4, [18; 1; 0; 2]).
Proof. vm_compute. reflexivity. Qed.

Lemma sync_callback_memory t ob fl L u : maintains (has_transfer t ob fl L) (sync_callback u).
Proof. apply maintains_bind; [apply maintains_pure|]. intros [it tr]. apply system_memory. Qed.

Section sync_device.
Context (t : nat) (ob : option nat) (fl : Z) (L : list nat).

(** Moreover what the transfer [u] is. *)
Definition reads_as (u : nat) (x : usbi_transfer * libusb_transfer) (s : Ctx SyncSys) : Prop :=
  has_transfer t ob fl L s /\ c_transfers s !! u = Some x.

(** Writing a transfer that has been read, with the same buffer and flags. *)
Lemma update_reads u x x' : tr_buffer x'.2 = tr_buffer x.2 -> tr_flags x'.2 = tr_flags x.2 ->
  leads (reads_as u x) (put_transfer u x') (fun _ => reads_as u x').
Proof.
  intros Hb' Hf' s r s' [[(it & tr & Ex & Hb & Hf) Hl] Eu]. unfold put_transfer, set_transfers. mrun. intros [= _ <-].
  split; [split; [|done]|]; cbn; [|by rewrite lookup_insert_eq]. destruct (decide (u = t)) as [->|Hne].
  - rewrite Ex in Eu. injection Eu as <-. exists x'.1, x'.2.
    rewrite lookup_insert_eq, <- surjective_pairing, Hb', Hf'. done.
  - exists it, tr. by rewrite lookup_insert_ne.
Qed.

Lemma get_reads u x : leads (reads_as u x) (get_transfer u) (fun y s => y = x /\ reads_as u x s).
Proof.
  intros s y s' [HP Eu] E. apply get_transfer_inv in E as [-> Ey]. rewrite Eu in Ey. by injection Ey as ->.
Qed.
Lemma system_reads {A} u x (m : M SyncSys A) : maintains (reads_as u x) (on_system m).
Proof. intros s r s' [HP Eu] E. split; [by eapply system_memory|]. by apply on_system_inv in E as (-> & _). Qed.
Lemma arm_reads u x l : maintains (reads_as u x) (arm_next l).
Proof.
  unfold set_timer. induction l as [|v l IH]; cbn [arm_next]; [apply maintains_pure|].
  apply maintains_bind; [apply maintains_pure|intros [it tr]]. destruct (negb _); [apply maintains_pure|].
  destruct (_ =? 0); [|done]. apply maintains_bind; [apply system_reads|intros r; apply maintains_pure].
Qed.

Lemma complete_memory u it tr status :
  Z.land (tr_flags tr) LIBUSB_TRANSFER_FREE_TRANSFER = 0 ->
  leads (reads_as u (it, tr)) (@complete_transfer _ callbacks_only u status) (fun _ => has_transfer t ob fl L).
Proof.
  intros Hf. unfold complete_transfer. eapply leads_bind; [apply get_reads|]. intros y s r s' [-> HP].
  revert s r s' HP. eapply leads_bind; [by apply update_reads|]. intros _ s r s' [HP _]. revert s r s' HP.
  rewrite Hf. eapply leads_then; [destruct (tr_callback tr); [apply sync_callback_memory|apply maintains_pure]|].
  intros _. eapply leads_then; [apply maintains_pure|]. intros _. by apply leads_ret.
Qed.

Lemma completion_memory u it tr status :
  Z.land (tr_flags tr) LIBUSB_TRANSFER_FREE_TRANSFER = 0 ->
  leads (reads_as u (it, tr)) (@usbi_handle_transfer_completion _ _ callbacks_only u status)
    (fun _ => has_transfer t ob fl L).
Proof.
  intros Hf. assert (forall z : Z, leads (reads_as u (it, tr)) (ret z) (fun _ => has_transfer t ob fl L)) as Hz.
  { intros z. apply leads_ret. by intros s []. }
  unfold usbi_handle_transfer_completion.
  eapply leads_then; [|intros _].
  { apply maintains_bind; [apply maintains_pure|intros _]. apply maintains_bind; [apply maintains_pure|intros l].
    case_bool_decide; [|apply maintains_pure]. by intros s r s' HP [= _ <-]. }
  eapply leads_then; [apply maintains_pure|]. intros [|]; [|by apply complete_memory].
  eapply leads_then; [apply maintains_bind; [apply maintains_pure|intros l; apply arm_reads]|].
  intros r. destruct (r <? 0); [done|]. eapply leads_then.
  { apply maintains_bind; [apply system_reads|intros r'; apply maintains_pure]. }
  intros r'. destruct (r' <? 0); [done|]. by apply complete_memory.
Qed.

Lemma sync_device_memory : maintains (has_transfer t ob fl L) (@sync_device callbacks_only).
Proof.
  apply maintains_bind; [apply maintains_pure|]. intros [|u l]; [apply maintains_pure|].
  intros s r s' HP E. minv E. apply get_transfer_inv in E0 as [-> Eu]. destruct r0 as [it tr].
  destruct (Z.eqb_spec (Z.land (tr_flags tr) LIBUSB_TRANSFER_FREE_TRANSFER) 0) as [Hf|]; [|by injection E as _ <-].
  assert (reads_as u (it, tr) s) as HR by done. revert HR E. generalize s r s'.
  eapply leads_then; [apply system_reads|intros answer].
  eapply leads_then.
  { destruct (tr_buffer tr); [|apply maintains_pure]. apply maintains_bind; [apply maintains_pure|intros s0].
    by intros s1 r1 s1' HP1 [= _ <-]. }
  intros _. eapply leads_bind; [by apply update_reads|]. intros []. by apply completion_memory.
Qed.
End sync_device.

#[export] Instance sync_keeps_memory : EventsKeepMemory (D := SyncSys).
Proof. constructor; intros; [apply sync_device_memory|apply maintains_pure..]. Qed.


(** When [poll] keeps failing, a synchronous transfer gives up waiting for its cancellation and
    frees a transfer that is still in flight; the next look at the timeouts uses it. *)
Lemma synchronous_transfer_freed_in_flight :
  let '(r, s) := libusb_control_transfer 5 1 0x80 6 0x0100 0 [] 4 1000 (sync_ctx [] true) in
  r = Ret (LIBUSB_ERROR_IO : Z, []) /\ c_flying s = [8%nat] /\ c_transfers s !! 8%nat = None /\
  (handle_timeouts s).1 = Undef freed.
Proof. vm_compute. done. Qed.
