(* ===== verification/UsbDescriptor.v ===== *)
(** * The descriptors of a USB device (src/external/libusb-1.0.9/libusb/descriptor.c)

    A device describes itself with a sequence of bytes.  This file models the functions that
    parse it into structures, with the memory they allocate and free, and the functions that
    read descriptors from a device through the interface of the operating system.

    The theorems: the parser inverts the layout of the USB specification; it never frees what
    is not allocated and always ends, and what it allocates is either freed or owned by the
    structure it returns; the ASCII string of a device fits the buffer it is written to.
    Others show that it reads past the end of the buffer, and leaks, when the lengths written
    by the device are not consistent. *)
From S2P Require Import Prelude UsbBase.

(** ** The structures *)

(** [libusb_device_descriptor], src/external/libusb-1.0.9/libusb/libusb.h:398-445. *)
Record libusb_device_descriptor := mk_device_descriptor {
  dd_bLength : Z; dd_bDescriptorType : Z; dd_bcdUSB : Z; dd_bDeviceClass : Z;
  dd_bDeviceSubClass : Z; dd_bDeviceProtocol : Z; dd_bMaxPacketSize0 : Z; dd_idVendor : Z;
  dd_idProduct : Z; dd_bcdDevice : Z; dd_iManufacturer : Z; dd_iProduct : Z;
  dd_iSerialNumber : Z; dd_bNumConfigurations : Z }.

(** [libusb_endpoint_descriptor], src/external/libusb-1.0.9/libusb/libusb.h:452-495. *)
Record libusb_endpoint_descriptor := mk_endpoint_descriptor {
  ed_bLength : Z; ed_bDescriptorType : Z; ed_bEndpointAddress : Z; ed_bmAttributes : Z;
  ed_wMaxPacketSize : Z; ed_bInterval : Z; ed_bRefresh : Z; ed_bSynchAddress : Z;
  ed_extra : block (list Z); ed_extra_length : Z }.

(** [libusb_interface_descriptor], src/external/libusb-1.0.9/libusb/libusb.h:502-545. *)
Record libusb_interface_descriptor := mk_interface_descriptor {
  id_bLength : Z; id_bDescriptorType : Z; id_bInterfaceNumber : Z; id_bAlternateSetting : Z;
  id_bNumEndpoints : Z; id_bInterfaceClass : Z; id_bInterfaceSubClass : Z;
  id_bInterfaceProtocol : Z; id_iInterface : Z;
  id_endpoint : block (list libusb_endpoint_descriptor);
  id_extra : block (list Z); id_extra_length : Z }.

(** [libusb_interface], src/external/libusb-1.0.9/libusb/libusb.h:550-557. *)
Record libusb_interface := mk_interface {
  if_altsetting : block (list libusb_interface_descriptor); if_num_altsetting : Z }.

(** [libusb_config_descriptor], src/external/libusb-1.0.9/libusb/libusb.h:564-603. *)
Record libusb_config_descriptor := mk_config_descriptor {
  cd_bLength : Z; cd_bDescriptorType : Z; cd_wTotalLength : Z; cd_bNumInterfaces : Z;
  cd_bConfigurationValue : Z; cd_iConfiguration : Z; cd_bmAttributes : Z; cd_MaxPower : Z;
  cd_interface : block (list libusb_interface);
  cd_extra : block (list Z); cd_extra_length : Z }.

(** What [memset] makes of a structure. *)
Definition zero_endpoint : libusb_endpoint_descriptor :=
  mk_endpoint_descriptor 0 0 0 0 0 0 0 0 None 0.
Definition zero_interface : libusb_interface := mk_interface None 0.

(** The sizes of the descriptors and the limits of the library,
    src/external/libusb-1.0.9/libusb/descriptor.c:28-33. *)
Definition DESC_HEADER_LENGTH : Z := 2.
Definition DEVICE_DESC_LENGTH : Z := 18.
Definition INTERFACE_DESC_LENGTH : Z := 9.
Definition ENDPOINT_DESC_LENGTH : Z := 7.
Definition ENDPOINT_AUDIO_DESC_LENGTH : Z := 9.
(** src/external/libusb-1.0.9/libusb/libusbi.h:49-50 and, for [LIBUSB_DT_INTERFACE_SIZE],
    src/external/libusb-1.0.9/libusb/libusb.h:237. *)
Definition USB_MAXENDPOINTS : Z := 32.
Definition USB_MAXINTERFACES : Z := 32.
Definition LIBUSB_DT_INTERFACE_SIZE : Z := 9.

Section parse.
Context `{HostOrder}.

(** [usbi_parse_descriptor], src/external/libusb-1.0.9/libusb/descriptor.c:42-70: the values
    of the fields that the format names, in the order in which the destination declares them
    (the alignment of [dp] puts each word on its field), and the number of bytes read. *)
Fixpoint usbi_parse_descriptor (sp : list Z) (descriptor : string) (host_endian : bool)
    : outcome (list Z * Z) :=
  match descriptor with
  | EmptyString => Ret ([], 0)
  | String "b" cp =>
      b ← byte_at sp 0;
      '(dp, n) ← usbi_parse_descriptor (advance sp 1) cp host_endian;
      Ret (b :: dp, n + 1)
  | String "w" cp =>
      b0 ← byte_at sp 0;
      b1 ← byte_at sp 1;
      '(dp, n) ← usbi_parse_descriptor (advance sp 2) cp host_endian;
      Ret ((if host_endian then host16 b0 b1 else le16 b0 b1) :: dp, n + 2)
  | String _ cp => usbi_parse_descriptor sp cp host_endian
  end.

(** The two fields that every descriptor starts with: [usb_descriptor_header],
    src/external/libusb-1.0.9/libusb/libusbi.h:408-411. *)
Definition descriptor_header (buffer : list Z) : outcome (Z * Z) :=
  '(dp, _) ← usbi_parse_descriptor buffer "bb" false;
  match dp with
  | [bLength; bDescriptorType] => Ret (bLength, bDescriptorType)
  | _ => Undef overrun
  end.

(** The descriptors at which the loops over class and vendor specific ones stop. *)
Definition is_proper (bDescriptorType : Z) : bool :=
  (bDescriptorType =? LIBUSB_DT_ENDPOINT) || (bDescriptorType =? LIBUSB_DT_INTERFACE)
  || (bDescriptorType =? LIBUSB_DT_CONFIG) || (bDescriptorType =? LIBUSB_DT_DEVICE).

(** The loop over class and vendor specific descriptors of [parse_configuration],
    src/external/libusb-1.0.9/libusb/descriptor.c:369-391, which checks each length against
    what is left ([check_size]); those of [parse_endpoint] and [parse_interface] do not.
    Either the error or the pointer, the size left and the bytes skipped. *)
Fixpoint skip_descriptors (check_size : bool) (fuel : nat) (buffer : list Z) (size parsed : Z)
    : outcome (Z + (list Z * Z * Z)) :=
  if size <? DESC_HEADER_LENGTH then Ret (inr (buffer, size, parsed))
  else
    match fuel with
    | O => Undef out_of_fuel
    | S fuel' =>
        '(bLength, bDescriptorType) ← descriptor_header buffer;
        if (check_size && (size <? bLength)) || (bLength <? DESC_HEADER_LENGTH)
        then Ret (inl (LIBUSB_ERROR_IO : Z))
        else if is_proper bDescriptorType then Ret (inr (buffer, size, parsed))
        else skip_descriptors check_size fuel' (advance buffer bLength) (size - bLength)
               (parsed + bLength)
    end.

(** The descriptors skipped, copied into a block of their own: the block, unless memory is
    over, and their length (a length of 0 allocates nothing). *)
Definition copy_extra (begin : list Z) (len : Z) : M Heap (option (block (list Z))) :=
  if len =? 0 then ret (Some None)
  else
    let* p := malloc in
    match p with
    | None => ret None
    | Some b => let* bytes := lift (memcpy_from begin len) in ret (Some (Some (b, bytes)))
    end.

(** *** Endpoints *)

(** [clear_endpoint], src/external/libusb-1.0.9/libusb/descriptor.c:72-76. *)
Definition clear_endpoint (endpoint : libusb_endpoint_descriptor) : M Heap unit :=
  free_ptr (ed_extra endpoint).

Definition set_endpoint_extra (e : libusb_endpoint_descriptor) (x : block (list Z)) (len : Z) :=
  mk_endpoint_descriptor (ed_bLength e) (ed_bDescriptorType e) (ed_bEndpointAddress e)
    (ed_bmAttributes e) (ed_wMaxPacketSize e) (ed_bInterval e) (ed_bRefresh e)
    (ed_bSynchAddress e) x len.

(** The two calls of [usbi_parse_descriptor] that fill an endpoint. *)
Definition fill_endpoint (e : libusb_endpoint_descriptor) (buffer : list Z) (bLength : Z)
    (host_endian : bool) : outcome libusb_endpoint_descriptor :=
  if ENDPOINT_AUDIO_DESC_LENGTH <=? bLength then
    '(dp, _) ← usbi_parse_descriptor buffer "bbbbwbbb" host_endian;
    match dp with
    | [l; t; a; m; w; i; r; s] =>
        Ret (mk_endpoint_descriptor l t a m w i r s (ed_extra e) (ed_extra_length e))
    | _ => Undef overrun
    end
  else if ENDPOINT_DESC_LENGTH <=? bLength then
    '(dp, _) ← usbi_parse_descriptor buffer "bbbbwb" host_endian;
    match dp with
    | [l; t; a; m; w; i] =>
        Ret (mk_endpoint_descriptor l t a m w i (ed_bRefresh e) (ed_bSynchAddress e)
               (ed_extra e) (ed_extra_length e))
    | _ => Undef overrun
    end
  else Ret e.

(** [parse_endpoint], src/external/libusb-1.0.9/libusb/descriptor.c:78-156: the value returned
    and the endpoint written. *)
Definition parse_endpoint (endpoint : libusb_endpoint_descriptor) (buffer : list Z) (size : Z)
    (host_endian : bool) : M Heap (Z * libusb_endpoint_descriptor) :=
  let* '(bLength, bDescriptorType) := lift (descriptor_header buffer) in
  if size <? bLength then ret (-1, endpoint)
  else if negb (bDescriptorType =? LIBUSB_DT_ENDPOINT) then ret (0, endpoint)
  else
    let* endpoint := lift (fill_endpoint endpoint buffer bLength host_endian) in
    let begin := advance buffer bLength in
    let size := size - bLength in
    let* r := lift (skip_descriptors false (Z.to_nat size) begin size bLength) in
    match r with
    | inl _ => ret (-1, endpoint)
    | inr (_, _, parsed) =>
        let len := parsed - bLength in
        let* extra := copy_extra begin len in
        match extra with
        | None => ret (LIBUSB_ERROR_NO_MEM : Z, set_endpoint_extra endpoint None 0)
        | Some x => ret (parsed, set_endpoint_extra endpoint x len)
        end
    end.

(** The loop over the endpoints of [parse_interface]: the array, of which the first elements
    are written, and the error or what is left. *)
Fixpoint parse_endpoints (endpoint : list libusb_endpoint_descriptor) (buffer : list Z)
    (size parsed : Z) (host_endian : bool)
    : M Heap (list libusb_endpoint_descriptor * (Z + (list Z * Z * Z))) :=
  match endpoint with
  | [] => ret ([], inr (buffer, size, parsed))
  | e :: endpoint' =>
      let* '(bLength, _) := lift (descriptor_header buffer) in
      if size <? bLength then ret (endpoint, inl (LIBUSB_ERROR_IO : Z))
      else
        let* '(r, e) := parse_endpoint e buffer size host_endian in
        if r <? 0 then ret (e :: endpoint', inl r)
        else
          let* '(es, res) := parse_endpoints endpoint' (advance buffer r) (size - r) (parsed + r)
                               host_endian in
          ret (e :: es, res)
  end.

(** *** Interfaces *)

(** The body of the loop of [clear_interface]: one alternate setting. *)
Definition clear_altsetting (ifp : libusb_interface_descriptor) : M Heap unit :=
  do* free_ptr (id_extra ifp) in
  match id_endpoint ifp with
  | None => ret tt
  | Some (b, endpoint) =>
      let* es := lift (array_prefix (id_bNumEndpoints ifp) endpoint) in
      do* for_each es clear_endpoint in
      free_block b
  end.

(** [clear_interface], src/external/libusb-1.0.9/libusb/descriptor.c:158-181. *)
Definition clear_interface (usb_interface : libusb_interface) : M Heap libusb_interface :=
  match if_altsetting usb_interface with
  | None => ret usb_interface
  | Some (b, altsetting) =>
      let* ifps := lift (array_prefix (if_num_altsetting usb_interface) altsetting) in
      do* for_each ifps clear_altsetting in
      do* free_block b in
      ret (mk_interface None (if_num_altsetting usb_interface))
  end.

Definition set_interface_extra (i : libusb_interface_descriptor) (x : block (list Z)) (len : Z) :=
  mk_interface_descriptor (id_bLength i) (id_bDescriptorType i) (id_bInterfaceNumber i)
    (id_bAlternateSetting i) (id_bNumEndpoints i) (id_bInterfaceClass i)
    (id_bInterfaceSubClass i) (id_bInterfaceProtocol i) (id_iInterface i) (id_endpoint i) x len.
Definition set_interface_endpoint (i : libusb_interface_descriptor)
    (es : block (list libusb_endpoint_descriptor)) :=
  mk_interface_descriptor (id_bLength i) (id_bDescriptorType i) (id_bInterfaceNumber i)
    (id_bAlternateSetting i) (id_bNumEndpoints i) (id_bInterfaceClass i)
    (id_bInterfaceSubClass i) (id_bInterfaceProtocol i) (id_iInterface i) es (id_extra i)
    (id_extra_length i).

(** The call of [usbi_parse_descriptor] that fills an alternate setting, with the fields that
    the code sets next. *)
Definition fill_interface (buffer : list Z) : outcome libusb_interface_descriptor :=
  '(dp, _) ← usbi_parse_descriptor buffer "bbbbbbbbb" false;
  match dp with
  | [l; t; n; a; e; c; s; p; i] =>
      Ret (mk_interface_descriptor l t n a e c s p i None None 0)
  | _ => Undef overrun
  end.

(** How an iteration of the loop of [parse_interface] ends: with [goto err], with [return],
    or at the test of the loop. *)
Inductive alt_step :=
  | AltErr (r : Z)
  | AltReturn (parsed : Z)
  | AltNext (buffer : list Z) (size parsed : Z).

(** What follows the endpoints of an alternate setting: is it an alternate to this one?
    src/external/libusb-1.0.9/libusb/descriptor.c:304-309. *)
Definition next_altsetting (buffer : list Z) (size parsed : Z) : outcome alt_step :=
  if size <? LIBUSB_DT_INTERFACE_SIZE then Ret (AltReturn parsed)
  else
    bDescriptorType ← byte_at buffer 1;
    if negb (bDescriptorType =? LIBUSB_DT_INTERFACE) then Ret (AltReturn parsed)
    else
      bAlternateSetting ← byte_at buffer 3;
      Ret (if bAlternateSetting =? 0 then AltReturn parsed else AltNext buffer size parsed).

(** The endpoints of an alternate setting,
    src/external/libusb-1.0.9/libusb/descriptor.c:265-302. *)
Definition parse_altsetting_endpoints (ifp : libusb_interface_descriptor) (buffer : list Z)
    (size parsed : Z) (host_endian : bool) : M Heap (libusb_interface_descriptor * alt_step) :=
  if USB_MAXENDPOINTS <? id_bNumEndpoints ifp then ret (ifp, AltErr LIBUSB_ERROR_IO)
  else if id_bNumEndpoints ifp <=? 0 then
    let* next := lift (next_altsetting buffer size parsed) in ret (ifp, next)
  else
    let* p := malloc in
    match p with
    | None => ret (ifp, AltErr LIBUSB_ERROR_NO_MEM)
    | Some b =>
        let zeros := replicate (Z.to_nat (id_bNumEndpoints ifp)) zero_endpoint in
        let* '(es, res) := parse_endpoints zeros buffer size parsed host_endian in
        let ifp := set_interface_endpoint ifp (Some (b, es)) in
        match res with
        | inl r => ret (ifp, AltErr r)
        | inr (buffer, size, parsed) =>
            let* next := lift (next_altsetting buffer size parsed) in ret (ifp, next)
        end
    end.

(** Has the loop hit a configuration or a device descriptor?
    src/external/libusb-1.0.9/libusb/descriptor.c:256-263. *)
Definition unexpected_descriptor (buffer : list Z) (size : Z) : outcome bool :=
  if size <? DESC_HEADER_LENGTH then Ret false
  else
    '(_, bDescriptorType) ← descriptor_header buffer;
    Ret ((bDescriptorType =? LIBUSB_DT_CONFIG) || (bDescriptorType =? LIBUSB_DT_DEVICE)).

(** The loop of [parse_interface] from [usbi_parse_descriptor] on: one alternate setting,
    src/external/libusb-1.0.9/libusb/descriptor.c:209-309. *)
Definition parse_altsetting (buffer : list Z) (size parsed : Z) (host_endian : bool)
    : M Heap (libusb_interface_descriptor * alt_step) :=
  let* ifp := lift (fill_interface buffer) in
  let begin := advance buffer (id_bLength ifp) in
  let size := size - id_bLength ifp in
  let parsed := parsed + id_bLength ifp in
  let* r := lift (skip_descriptors false (Z.to_nat size) begin size parsed) in
  match r with
  | inl r => ret (ifp, AltErr r)
  | inr (buffer, size, parsed') =>
      let len := parsed' - parsed in
      let* extra := copy_extra begin len in
      match extra with
      | None => ret (ifp, AltErr LIBUSB_ERROR_NO_MEM)
      | Some x =>
          let ifp := set_interface_extra ifp x len in
          let* unexpected := lift (unexpected_descriptor buffer size) in
          if (unexpected : bool) then ret (ifp, AltReturn parsed')
          else parse_altsetting_endpoints ifp buffer size parsed' host_endian
      end
  end.

Definition add_altsetting (usb_interface : libusb_interface) (b : nat)
    (ifp : libusb_interface_descriptor) : libusb_interface :=
  mk_interface
    (Some (b, default [] (snd <$> if_altsetting usb_interface) ++ [ifp]))
    (if_num_altsetting usb_interface + 1).

(** [parse_interface], src/external/libusb-1.0.9/libusb/descriptor.c:183-317: the loop, from
    an interface whose alternate settings so far have been parsed, with the label [err] at
    its failures. *)
Fixpoint parse_interface_loop (fuel : nat) (usb_interface : libusb_interface) (buffer : list Z)
    (size parsed : Z) (host_endian : bool) : M Heap (Z * libusb_interface) :=
  if size <? INTERFACE_DESC_LENGTH then ret (parsed, usb_interface)
  else
    match fuel with
    | O => undef out_of_fuel
    | S fuel' =>
        let* p := realloc (fst <$> if_altsetting usb_interface) in
        match p with
        | None =>
            let* usb_interface := clear_interface usb_interface in
            ret (LIBUSB_ERROR_NO_MEM : Z, usb_interface)
        | Some b =>
            let* '(ifp, next) := parse_altsetting buffer size parsed host_endian in
            let usb_interface := add_altsetting usb_interface b ifp in
            match next with
            | AltErr r => let* usb_interface := clear_interface usb_interface in ret (r, usb_interface)
            | AltReturn parsed => ret (parsed, usb_interface)
            | AltNext buffer size parsed =>
                parse_interface_loop fuel' usb_interface buffer size parsed host_endian
            end
        end
    end.

Definition parse_interface (usb_interface : libusb_interface) (buffer : list Z) (size : Z)
    (host_endian : bool) : M Heap (Z * libusb_interface) :=
  parse_interface_loop (Z.to_nat size) (mk_interface (if_altsetting usb_interface) 0)
    buffer size 0 host_endian.

(** *** Configurations *)

(** [clear_configuration], src/external/libusb-1.0.9/libusb/descriptor.c:319-330. *)
Definition clear_configuration (config : libusb_config_descriptor) : M Heap unit :=
  do* match cd_interface config with
      | None => ret tt
      | Some (b, interface) =>
          let* ifs := lift (array_prefix (cd_bNumInterfaces config) interface) in
          do* for_each ifs (fun i => do* clear_interface i in ret tt) in
          free_block b
      end in
  free_ptr (cd_extra config).

Definition set_config_interface (c : libusb_config_descriptor) (ifs : block (list libusb_interface)) :=
  mk_config_descriptor (cd_bLength c) (cd_bDescriptorType c) (cd_wTotalLength c)
    (cd_bNumInterfaces c) (cd_bConfigurationValue c) (cd_iConfiguration c) (cd_bmAttributes c)
    (cd_MaxPower c) ifs (cd_extra c) (cd_extra_length c).
Definition set_config_extra (c : libusb_config_descriptor) (x : block (list Z)) (len : Z) :=
  mk_config_descriptor (cd_bLength c) (cd_bDescriptorType c) (cd_wTotalLength c)
    (cd_bNumInterfaces c) (cd_bConfigurationValue c) (cd_iConfiguration c) (cd_bmAttributes c)
    (cd_MaxPower c) (cd_interface c) x len.

(** The call of [usbi_parse_descriptor] that fills a configuration. *)
Definition fill_configuration (buffer : list Z) (host_endian : bool)
    : outcome libusb_config_descriptor :=
  '(dp, _) ← usbi_parse_descriptor buffer "bbwbbbbb" host_endian;
  match dp with
  | [l; t; w; n; v; i; a; m] => Ret (mk_config_descriptor l t w n v i a m None None 0)
  | _ => Undef overrun
  end.

(** Class and vendor specific descriptors of a configuration: only the first run of them is
    kept, src/external/libusb-1.0.9/libusb/descriptor.c:393-408. *)
Definition config_extra (config : libusb_config_descriptor) (begin : list Z) (len : Z)
    : M Heap (option libusb_config_descriptor) :=
  if (len =? 0) || negb (cd_extra_length config =? 0) then ret (Some config)
  else
    let* extra := copy_extra begin len in
    match extra with
    | None => ret None
    | Some x => ret (Some (set_config_extra config x len))
    end.

(** The loop over the interfaces of [parse_configuration]: those of [todo] are still to be
    parsed; the array as it is at the end, with the error or the size left. *)
Fixpoint parse_interfaces (config : libusb_config_descriptor) (done todo : list libusb_interface)
    (buffer : list Z) (size : Z) (host_endian : bool)
    : M Heap (libusb_config_descriptor * list libusb_interface * (Z + Z)) :=
  match todo with
  | [] => ret (config, done, inr size)
  | usb_interface :: todo' =>
      let* r := lift (skip_descriptors true (Z.to_nat size) buffer size 0) in
      match r with
      | inl r => ret (config, done ++ todo, inl r)
      | inr (buffer', size', len) =>
          let* c := config_extra config buffer len in
          match c with
          | None => ret (config, done ++ todo, inl (LIBUSB_ERROR_NO_MEM : Z))
          | Some config =>
              let* '(r, i) := parse_interface usb_interface buffer' size' host_endian in
              if r <? 0 then ret (config, done ++ i :: todo', inl r)
              else parse_interfaces config (done ++ [i]) todo' (advance buffer' r) (size' - r)
                     host_endian
          end
      end
  end.

(** [parse_configuration], src/external/libusb-1.0.9/libusb/descriptor.c:332-424: the value
    returned, which is the size left when it is not an error, and the structure written. *)
Definition parse_configuration (buffer : list Z) (host_endian : bool)
    : M Heap (Z * libusb_config_descriptor) :=
  let* config := lift (fill_configuration buffer host_endian) in
  let size := cd_wTotalLength config in
  if USB_MAXINTERFACES <? cd_bNumInterfaces config then ret (LIBUSB_ERROR_IO : Z, config)
  else
    let* p := malloc in
    match p with
    | None => ret (LIBUSB_ERROR_NO_MEM : Z, config)
    | Some b =>
        let zeros := replicate (Z.to_nat (cd_bNumInterfaces config)) zero_interface in
        let* '(config, ifs, res) :=
          parse_interfaces config [] zeros (advance buffer (cd_bLength config))
            (size - cd_bLength config) host_endian in
        let config := set_config_interface config (Some (b, ifs)) in
        match res with
        | inl r => do* clear_configuration config in ret (r, config)
        | inr size => ret (size, config)
        end
    end.
End parse.

(** ** Reading descriptors from a device *)

(** The fields of [libusb_device] that never change once the device is known,
    src/external/libusb-1.0.9/libusb/libusbi.h:313-329, with an identifier for its address. *)
Record libusb_device := mk_device {
  dev_id : nat; dev_bus_number : Z; dev_device_address : Z; dev_num_configurations : Z;
  dev_speed : libusb_speed; dev_session_data : Z }.

(** The functions of [usbi_os_backend] that return descriptors.  Each takes the value of
    [*host_endian] and returns its own value, the bytes it wrote and the new [*host_endian]. *)
Class DescriptorBackend (D : Type) := {
  backend_get_device_descriptor : libusb_device -> bool -> M D (Z * list Z * bool);
  backend_get_active_config_descriptor : libusb_device -> Z -> bool -> M D (Z * list Z * bool);
  backend_get_config_descriptor : libusb_device -> Z -> Z -> bool -> M D (Z * list Z * bool) }.

(** The function of sync.c that string descriptors are read with: what it returns and the bytes
    it wrote to the buffer. *)
Class ControlTransfer (H D : Type) := {
  libusb_control_transfer : forall (dev_handle : H) (bmRequestType bRequest wValue wIndex : Z)
    (data : list Z) (wLength timeout : Z), M D (Z * list Z) }.

(** The memory of the process and everything else. *)
Record UsbState (D : Type) := mkUsb { us_heap : Heap; us_rest : D }.
Arguments mkUsb {D} _ _.
Arguments us_heap {D} _.
Arguments us_rest {D} _.

Definition on_heap {D A} (m : M Heap A) : M (UsbState D) A := fun s =>
  let '(r, h) := m (us_heap s) in (r, mkUsb h (us_rest s)).
Definition on_rest {D A} (m : M D A) : M (UsbState D) A := fun s =>
  let '(r, d) := m (us_rest s) in (r, mkUsb (us_heap s) d).

Section api.
Context {D : Type} `{HostOrder} `{DescriptorBackend D}.

(** [libusb_get_device_descriptor], src/external/libusb-1.0.9/libusb/descriptor.c:435-455: the
    bytes are copied over the structure, whose words are then converted. *)
Definition libusb_get_device_descriptor (dev : libusb_device)
    : M D (Z * option libusb_device_descriptor) :=
  let* '(r, raw_desc, host_endian) := backend_get_device_descriptor dev false in
  if r <? 0 then ret (r, None)
  else
    match take 18 raw_desc with
    | [l; t; u0; u1; c; s; p; m; v0; v1; p0; p1; d0; d1; im; ip; ise; n] =>
        let word b0 b1 :=
          if (host_endian : bool) then host16 b0 b1 else libusb_cpu_to_le16 (host16 b0 b1) in
        ret (0, Some (mk_device_descriptor l t (word u0 u1) c s p m (word v0 v1) (word p0 p1)
                        (word d0 d1) im ip ise n))
    | _ => undef overrun
    end.

(** The body that [libusb_get_active_config_descriptor] and [libusb_get_config_descriptor]
    have in common, from the first [malloc] on,
    src/external/libusb-1.0.9/libusb/descriptor.c:548-587; [fetch] is the function of the
    backend, and [reset] whether [host_endian] is cleared between its two calls. *)
Definition read_config_descriptor (fetch : Z -> bool -> M D (Z * list Z * bool)) (reset : bool)
    : M (UsbState D) (Z * block libusb_config_descriptor) :=
  let* p := on_heap malloc in
  match p with
  | None => ret (LIBUSB_ERROR_NO_MEM : Z, None)
  | Some c =>
      let* '(r, tmp, host_endian) := on_rest (fetch 8 false) in
      if r <? 0 then do* on_heap (free_block c) in ret (r, None)
      else
        let* '(dp, _) := lift (usbi_parse_descriptor tmp "bbw" host_endian) in
        let wTotalLength := nth 2 dp 0 in
        let* p := on_heap malloc in
        match p with
        | None => do* on_heap (free_block c) in ret (LIBUSB_ERROR_NO_MEM : Z, None)
        | Some b =>
            let* '(r, buf, host_endian) :=
              on_rest (fetch wTotalLength (if reset then false else host_endian)) in
            if r <? 0 then
              do* on_heap (free_block c) in
              do* on_heap (free_block b) in ret (r, None)
            else
              let* '(r, config) := on_heap (parse_configuration buf host_endian) in
              if r <? 0 then
                do* on_heap (free_block c) in
                do* on_heap (free_block b) in ret (r, None)
              else
                do* on_heap (free_block b) in
                ret (0, Some (c, config))
        end
  end.

(** [libusb_get_active_config_descriptor],
    src/external/libusb-1.0.9/libusb/descriptor.c:471-518. *)
Definition libusb_get_active_config_descriptor (dev : libusb_device)
    : M (UsbState D) (Z * block libusb_config_descriptor) :=
  read_config_descriptor (backend_get_active_config_descriptor dev) false.

(** [libusb_get_config_descriptor],
    src/external/libusb-1.0.9/libusb/descriptor.c:536-588. *)
Definition libusb_get_config_descriptor (dev : libusb_device) (config_index : Z)
    : M (UsbState D) (Z * block libusb_config_descriptor) :=
  if dev_num_configurations dev <=? config_index then ret (LIBUSB_ERROR_NOT_FOUND : Z, None)
  else read_config_descriptor (backend_get_config_descriptor dev config_index) true.

(** [usbi_get_config_index_by_value],
    src/external/libusb-1.0.9/libusb/descriptor.c:595-616: the value returned and [*idx], when
    it is written.  [i] is a [uint8_t], as is the number of configurations: [n] iterations are
    left from the index [i]. *)
Fixpoint config_index_loop (dev : libusb_device) (bConfigurationValue : Z) (n : nat) (i : Z)
    : M D (Z * option Z) :=
  match n with
  | O => ret (0, Some (-1))
  | S n' =>
      let* '(r, tmp, _) := backend_get_config_descriptor dev i 6 false in
      if r <? 0 then ret (r, None)
      else
        let* value := lift (byte_at tmp 5) in
        if value =? bConfigurationValue then ret (0, Some i)
        else config_index_loop dev bConfigurationValue n' (i + 1)
  end.
Definition usbi_get_config_index_by_value (dev : libusb_device) (bConfigurationValue : Z)
    : M D (Z * option Z) :=
  config_index_loop dev bConfigurationValue (Z.to_nat (dev_num_configurations dev)) 0.

(** [libusb_get_config_descriptor_by_value],
    src/external/libusb-1.0.9/libusb/descriptor.c:635-646. *)
Definition libusb_get_config_descriptor_by_value (dev : libusb_device) (bConfigurationValue : Z)
    : M (UsbState D) (Z * block libusb_config_descriptor) :=
  let* '(r, idx) := on_rest (usbi_get_config_index_by_value dev bConfigurationValue) in
  match idx with
  | None => ret (r, None)
  | Some idx =>
      if r <? 0 then ret (r, None)
      else if idx =? -1 then ret (LIBUSB_ERROR_NOT_FOUND : Z, None)
      else libusb_get_config_descriptor dev (idx mod 2 ^ 8)
  end.
End api.

(** [libusb_free_config_descriptor],
    src/external/libusb-1.0.9/libusb/descriptor.c:656-664. *)
Definition libusb_free_config_descriptor (config : block libusb_config_descriptor) : M Heap unit :=
  match config with
  | None => ret tt
  | Some (b, c) => do* clear_configuration c in free_block b
  end.

(** ** Strings *)
Section strings.
Context {H D : Type} `{ControlTransfer H D}.

(** [libusb_get_descriptor], src/external/libusb-1.0.9/libusb/libusb.h:1339-1345. *)
Definition libusb_get_descriptor (dev : H) (desc_type desc_index : Z) (data : list Z) (length : Z)
    : M D (Z * list Z) :=
  libusb_control_transfer dev LIBUSB_ENDPOINT_IN LIBUSB_REQUEST_GET_DESCRIPTOR
    (Z.lor (Z.shiftl desc_type 8) desc_index) 0 data (length mod 2 ^ 16) 1000.

(** [libusb_get_string_descriptor], src/external/libusb-1.0.9/libusb/libusb.h:1361-1367. *)
Definition libusb_get_string_descriptor (dev : H) (desc_index langid : Z) (data : list Z)
    (length : Z) : M D (Z * list Z) :=
  libusb_control_transfer dev LIBUSB_ENDPOINT_IN LIBUSB_REQUEST_GET_DESCRIPTOR
    (Z.lor (Z.shiftl LIBUSB_DT_STRING 8) desc_index mod 2 ^ 16) langid data (length mod 2 ^ 16) 1000.

(** The bytes of a buffer after the first ones have been written over. *)
Definition overlay (new old : list Z) : list Z := new ++ drop (length new) old.

(** The loop of [libusb_get_string_descriptor_ascii] from the position [si], with what it has
    written to [data]. *)
Fixpoint ascii_loop (fuel : nat) (tbuf : list Z) (tbuf0 : Z) (si : nat) (data : list Z) (len : Z)
    : outcome (list Z) :=
  if tbuf0 <=? Z.of_nat si then Ret data
  else if len - 1 <=? Z.of_nat (length data) then Ret data
  else
    match fuel with
    | O => Undef out_of_fuel
    | S fuel' =>
        high ← byte_at tbuf (si + 1);
        c ← (if high =? 0 then byte_at tbuf si else Ret (Z.of_N (N_of_ascii "?")));
        ascii_loop fuel' tbuf tbuf0 (si + 2) (data ++ [c]) len
    end.

(** [libusb_get_string_descriptor_ascii],
    src/external/libusb-1.0.9/libusb/descriptor.c:678-729: the value returned and the bytes
    written to [data], which has room for [length] of them.  The list [tbuf] is the part of
    the array of 255 bytes that has been written. *)
Definition libusb_get_string_descriptor_ascii (dev : H) (desc_index : Z) (len : Z)
    : M D (Z * list Z) :=
  if desc_index =? 0 then ret (LIBUSB_ERROR_INVALID_PARAM : Z, [])
  else
    let* '(r, tbuf) := libusb_get_string_descriptor dev 0 0 [] 255 in
    if r <? 0 then ret (r, [])
    else if r <? 4 then ret (LIBUSB_ERROR_IO : Z, [])
    else
      let* b2 := lift (byte_at tbuf 2) in
      let* b3 := lift (byte_at tbuf 3) in
      let langid := Z.lor b2 (Z.shiftl b3 8) in
      let* '(r, new) := libusb_get_string_descriptor dev desc_index langid tbuf 255 in
      let tbuf := overlay new tbuf in
      if r <? 0 then ret (r, [])
      else
        let* b1 := lift (byte_at tbuf 1) in
        if negb (b1 =? LIBUSB_DT_STRING) then ret (LIBUSB_ERROR_IO : Z, [])
        else
          let* b0 := lift (byte_at tbuf 0) in
          if r <? b0 then ret (LIBUSB_ERROR_IO : Z, [])
          else
            let* data := lift (ascii_loop 128 tbuf b0 2 [] len) in
            if Z.of_nat (length data) <? len then ret (Z.of_nat (length data), data ++ [0])
            else undef "write past the end of the data".
End strings.

(** ** The memory the parser owns *)

Definition endpoint_blocks (e : libusb_endpoint_descriptor) : list nat := ptr_block (ed_extra e).
Definition altsetting_blocks (i : libusb_interface_descriptor) : list nat :=
  ptr_block (id_extra i) ++
  match id_endpoint i with
  | Some (b, es) => concat (map endpoint_blocks es) ++ [b]
  | None => []
  end.
Definition interface_blocks (u : libusb_interface) : list nat :=
  match if_altsetting u with
  | Some (b, alts) => concat (map altsetting_blocks alts) ++ [b]
  | None => []
  end.
Definition config_blocks (c : libusb_config_descriptor) : list nat :=
  match cd_interface c with
  | Some (b, ifs) => concat (map interface_blocks ifs) ++ [b]
  | None => []
  end ++ ptr_block (cd_extra c).

(** The counts that the functions that free go by are those of the arrays. *)
Definition altsetting_wf (i : libusb_interface_descriptor) : Prop :=
  forall b es, id_endpoint i = Some (b, es) -> id_bNumEndpoints i = Z.of_nat (length es).
Definition interface_wf (u : libusb_interface) : Prop :=
  match if_altsetting u with
  | Some (_, alts) => if_num_altsetting u = Z.of_nat (length alts) /\ Forall altsetting_wf alts
  | None => True
  end.
Definition config_wf (c : libusb_config_descriptor) : Prop :=
  forall b ifs, cd_interface c = Some (b, ifs) ->
  cd_bNumInterfaces c = Z.of_nat (length ifs) /\ Forall interface_wf ifs.

Section clear.
Context (frame : list nat).

Lemma for_each_ret {A} (blocks : A -> list nat) (f : A -> M Heap unit) (l : list A) bs h :
  (forall a bs h, a ∈ l -> owns frame (blocks a ++ bs) h -> mem_ret (f a) h (fun _ => owns frame bs)) ->
  owns frame (concat (map blocks l) ++ bs) h -> mem_ret (for_each l f) h (fun _ => owns frame bs).
Proof.
  revert h. induction l as [|a l IH]; intros h Hf Hown; simpl in *; [by apply mem_ret_ret|].
  rewrite <- app_assoc in Hown.
  apply mem_ret_bind. eapply mem_ret_mono; [eapply Hf; [left|done]|].
  intros [] h' H'. apply IH; [|done]. intros; eapply Hf; [by right|done].
Qed.

Lemma clear_altsetting_ret i bs h :
  altsetting_wf i -> owns frame (altsetting_blocks i ++ bs) h ->
  mem_ret (clear_altsetting i) h (fun _ => owns frame bs).
Proof.
  unfold clear_altsetting, altsetting_blocks. intros Hwf Hown. rewrite <- app_assoc in Hown.
  apply mem_ret_bind. eapply mem_ret_mono; [by apply free_ptr_ret|]. intros [] h1 H1.
  destruct (id_endpoint i) as [[b es]|] eqn:Ee; [|by apply mem_ret_ret].
  eapply mem_ret_lift_ret; [by eapply array_prefix_all, Hwf|].
  apply mem_ret_bind. rewrite <- app_assoc in H1. eapply mem_ret_mono.
  { apply (for_each_ret endpoint_blocks); [|exact H1]. intros; by apply free_ptr_ret. }
  intros [] h2 H2. by apply free_block_ret.
Qed.

Lemma clear_interface_ret u bs h :
  interface_wf u -> owns frame (interface_blocks u ++ bs) h ->
  mem_ret (clear_interface u) h (fun u' h' => if_altsetting u' = None /\ owns frame bs h').
Proof.
  unfold clear_interface, interface_blocks, interface_wf. intros Hwf Hown.
  destruct (if_altsetting u) as [[b alts]|] eqn:Eu; [|by apply mem_ret_ret]. destruct Hwf as [Hn Hwf].
  eapply mem_ret_lift_ret; [by apply array_prefix_all|]. rewrite <- app_assoc in Hown.
  apply mem_ret_bind. eapply mem_ret_mono.
  { apply (for_each_ret altsetting_blocks); [|exact Hown].
    rewrite Forall_forall in Hwf. intros; apply clear_altsetting_ret; auto. }
  intros [] h1 H1. apply mem_ret_bind. eapply mem_ret_mono; [by apply free_block_ret|].
  intros [] h2 H2. by apply mem_ret_ret.
Qed.

Lemma clear_configuration_ret c bs h :
  config_wf c -> owns frame (config_blocks c ++ bs) h ->
  mem_ret (clear_configuration c) h (fun _ => owns frame bs).
Proof.
  unfold clear_configuration, config_blocks, config_wf. intros Hwf Hown.
  rewrite <- app_assoc in Hown. apply mem_ret_bind.
  eapply (mem_ret_mono _ _ (fun _ => owns frame (ptr_block (cd_extra c) ++ bs)));
    [|intros [] h1 H1; by apply free_ptr_ret].
  destruct (cd_interface c) as [[b ifs]|]; [|by apply mem_ret_ret]. destruct (Hwf b ifs eq_refl) as [Hn Hi].
  eapply mem_ret_lift_ret; [by apply array_prefix_all|]. rewrite <- app_assoc in Hown.
  apply mem_ret_bind. eapply mem_ret_mono.
  { apply (for_each_ret interface_blocks); [|exact Hown].
    rewrite Forall_forall in Hi. intros a bs' h' Ha H'. apply mem_ret_bind.
    eapply mem_ret_mono; [apply clear_interface_ret; eauto|]. intros u h1 [_ H1]. by apply mem_ret_ret. }
  intros [] h1 H1. by apply free_block_ret.
Qed.
End clear.

(** ** Safety of the parser *)

Lemma advance_bytes p n : Forall is_byte p -> Forall is_byte (advance p n).
Proof. apply Forall_drop. Qed.

Lemma byte_at_spec p i (Q : Z -> Prop) :
  Forall is_byte p -> (forall b, is_byte b -> p !! i = Some b -> Q b) -> reads_only (byte_at p i) Q.
Proof.
  intros Hp HQ. unfold byte_at. destruct (p !! i) eqn:E; simpl; [|done].
  apply HQ; [by eapply Forall_lookup_1|done].
Qed.

Section safety.
Context `{HostOrder} (frame : list nat).

Lemma header_spec p (Q : Z * Z -> Prop) :
  Forall is_byte p ->
  (forall l t, is_byte l -> is_byte t -> p !! 0%nat = Some l -> p !! 1%nat = Some t -> Q (l, t)) ->
  reads_only (descriptor_header p) Q.
Proof.
  intros Hp HQ. destruct p as [|l [|t p]]; [done|done|]. cbn.
  apply Forall_cons in Hp as [Hl Hp]. apply Forall_cons in Hp as [Ht _]. by apply HQ.
Qed.

Lemma header_cons l t p : descriptor_header (l :: t :: p) = Ret (l, t).
Proof. done. Qed.

(** The loop over the unknown descriptors ends within as many steps as bytes; it fails, or
    stops having gone forward by what it has parsed. *)
Lemma skip_spec check fuel p size parsed :
  Forall is_byte p -> size <= Z.of_nat fuel ->
  reads_only (skip_descriptors check fuel p size parsed) (fun r =>
    match r with
    | inl r => r = LIBUSB_ERROR_IO
    | inr (p', size', parsed') =>
        Forall is_byte p' /\ parsed <= parsed' /\ size' + parsed' = size + parsed /\
        (2 <= size -> forall l, p !! 0%nat = Some l -> 2 <= l)
    end).
Proof.
  revert p size parsed. induction fuel as [|fuel IH]; intros p size parsed Hp Hf; cbn [skip_descriptors];
    unfold DESC_HEADER_LENGTH in *;
    (case_match; [simpl; split_and!; [done|lia|lia|intros; exfalso; lia]|]); [exfalso; lia|].
  apply reads_only_bind, header_spec; [done|]. intros l t Hl Ht E0 E1.
  destruct (_ || (l <? 2)) eqn:Eb; [done|]. apply orb_false_iff in Eb as [_ Eb].
  case_match; [simpl; split_and!; [done|lia|lia|intros; simplify_eq; lia]|].
  eapply reads_only_mono; [apply IH; [by apply advance_bytes|lia]|].
  intros [r|[[p' s'] n']]; [done|]. intros (? & ? & ? & _). split_and!; [done|lia|lia|].
  intros; simplify_eq; lia.
Qed.

Lemma copy_extra_spec begin len bs h :
  owns frame bs h ->
  ret_or_overrun (copy_extra begin len) h (fun x h' =>
    match x with
    | None => owns frame bs h'
    | Some b => owns frame (ptr_block b ++ bs) h'
    end).
Proof.
  intros Hown. unfold copy_extra. case_match; [done|].
  apply ret_or_overrun_bind. eapply ret_or_overrun_mono; [by apply malloc_owns|]. intros [b|] h1 Ho1; [|done].
  apply ret_or_overrun_lift_bind, memcpy_reads. by intros l.
Qed.

(** The parser reads as many fields as the format names. *)
Fixpoint field_count (descriptor : string) : nat :=
  match descriptor with
  | EmptyString => 0
  | String "b" d | String "w" d => S (field_count d)
  | String _ d => field_count d
  end.

Lemma parse_reads d sp he (Q : list Z * Z -> Prop) :
  (forall dp n, length dp = field_count d -> Q (dp, n)) -> reads_only (usbi_parse_descriptor sp d he) Q.
Proof.
  intros HQ. apply (reads_only_mono _ (fun '(dp, _) => length dp = field_count d)); [|by intros [dp n] ?; apply HQ].
  clear Q HQ. revert sp. induction d as [|c d IH]; intros sp; [done|].
  destruct (decide (c = "b"%char)) as [->|Hb].
  { cbn. apply reads_only_bind, byte_at_reads. intros b.
    apply reads_only_bind. eapply reads_only_mono; [apply IH|]. intros [dp n] Hl. cbn. by rewrite Hl. }
  destruct (decide (c = "w"%char)) as [->|Hw].
  { cbn. apply reads_only_bind, byte_at_reads. intros b0. apply reads_only_bind, byte_at_reads. intros b1.
    apply reads_only_bind. eapply reads_only_mono; [apply IH|]. intros [dp n] Hl. cbn. by rewrite Hl. }
  destruct c as [[] [] [] [] [] [] [] []]; first [apply IH | congruence].
Qed.

Ltac fields dp Hl := repeat (destruct dp as [|? dp]; try done); clear Hl.

Lemma fill_endpoint_spec e p l he :
  reads_only (fill_endpoint e p l he) (fun e' => ed_extra e' = ed_extra e).
Proof.
  unfold fill_endpoint. repeat case_match; try done;
    apply reads_only_bind, parse_reads; intros dp n Hl; by fields dp Hl.
Qed.

Lemma fill_interface_spec p (Q : libusb_interface_descriptor -> Prop) :
  Forall is_byte p ->
  (forall i, is_byte (id_bLength i) -> p !! 0%nat = Some (id_bLength i) ->
     is_byte (id_bNumEndpoints i) -> id_extra i = None -> id_endpoint i = None -> Q i) ->
  reads_only (fill_interface p) Q.
Proof.
  intros Hp HQ. unfold fill_interface.
  do 9 (destruct p as [|? p]; [done|]). cbn.
  repeat match goal with H : Forall is_byte (_ :: _) |- _ => apply Forall_cons in H as [? H] end.
  by apply HQ.
Qed.

Lemma fill_configuration_spec p he (Q : libusb_config_descriptor -> Prop) :
  Forall is_byte p ->
  (forall c, is_byte (cd_bNumInterfaces c) -> cd_interface c = None -> cd_extra c = None ->
     cd_extra_length c = 0 -> Q c) ->
  reads_only (fill_configuration p he) Q.
Proof.
  intros Hp HQ. unfold fill_configuration.
  do 9 (destruct p as [|? p]; [done|]). cbn.
  repeat match goal with H : Forall is_byte (_ :: _) |- _ => apply Forall_cons in H as [? H] end.
  by apply HQ.
Qed.

(** An endpoint owns the block of its unknown descriptors; what it reports to have parsed is
    not negative unless it failed. *)
Lemma parse_endpoint_spec e p size he bs h :
  Forall is_byte p -> ed_extra e = None -> owns frame bs h ->
  ret_or_overrun (parse_endpoint e p size he) h (fun '(_, e') h' =>
    owns frame (endpoint_blocks e' ++ bs) h').
Proof.
  intros Hp He Hown. unfold parse_endpoint, endpoint_blocks.
  apply ret_or_overrun_lift_bind, header_spec; [done|]. intros l t Hl _ _ _.
  case_match; [by apply ret_or_overrun_ret; rewrite He|]. case_match; [by apply ret_or_overrun_ret; rewrite He|].
  apply ret_or_overrun_lift_bind. eapply reads_only_mono; [apply fill_endpoint_spec|]. intros e' He'.
  apply ret_or_overrun_lift_bind. eapply reads_only_mono; [apply skip_spec; [by apply advance_bytes|lia]|].
  intros [r|[[p' s'] n']] Hr; [by apply ret_or_overrun_ret; rewrite He', He|].
  apply ret_or_overrun_bind. eapply ret_or_overrun_mono; [by apply copy_extra_spec|].
  by intros [x|] h1 Ho1.
Qed.

Lemma parse_endpoints_spec es p size parsed he bs h :
  Forall is_byte p -> Forall (fun e => ed_extra e = None) es -> owns frame bs h ->
  ret_or_overrun (parse_endpoints es p size parsed he) h (fun '(es', r) h' =>
    length es' = length es /\ owns frame (concat (map endpoint_blocks es') ++ bs) h' /\
    match r with inl _ => True | inr (p', size', _) => Forall is_byte p' /\ size' <= size end).
Proof.
  revert p size parsed bs h. induction es as [|e es IH]; intros p size parsed bs h Hp Hes Hown; cbn [parse_endpoints].
  { by apply ret_or_overrun_ret. }
  apply Forall_cons in Hes as [He Hes].
  assert (concat (map endpoint_blocks es) = []) as Hnil.
  { clear -Hes. induction Hes as [|e es He]; [done|]. simpl. unfold endpoint_blocks at 1. by rewrite He. }
  apply ret_or_overrun_lift_bind, header_spec; [done|]. intros l t Hl _ _ _.
  case_match. { apply ret_or_overrun_ret. split_and!; [done| |done]. simpl. rewrite Hnil. unfold endpoint_blocks. by rewrite He. }
  apply ret_or_overrun_bind. eapply ret_or_overrun_mono; [by apply parse_endpoint_spec|]. intros [r e'] h1 Ho1.
  case_match. { apply ret_or_overrun_ret. simpl. by rewrite Hnil, app_nil_r. }
  apply ret_or_overrun_bind. eapply ret_or_overrun_mono; [apply IH; [by apply advance_bytes|done|exact Ho1]|].
  intros [es' res] h2 (Hlen & Ho2 & Hres). apply ret_or_overrun_ret. simpl. split_and!; [lia| |].
  - by rewrite <- app_assoc, Permutation_app_swap_app.
  - destruct res as [|[[? ?] ?]]; [done|]. destruct Hres. split; [done|lia].
Qed.

Lemma next_altsetting_spec p size parsed :
  reads_only (next_altsetting p size parsed) (fun next =>
    match next with
    | AltErr _ => False
    | AltReturn _ => True
    | AltNext p' size' _ => p' = p /\ size' = size
    end).
Proof.
  unfold next_altsetting. case_match; [done|]. apply reads_only_bind, byte_at_reads. intros t.
  case_match; [done|]. apply reads_only_bind, byte_at_reads. intros a. by destruct (a =? 0).
Qed.

(** What one alternate setting owns when its iteration ends, and that the loop goes on with
    less of the buffer. *)
Definition alt_post (bs : list nat) (size : Z) (r : libusb_interface_descriptor * alt_step)
    (h : Heap) : Prop :=
  altsetting_wf r.1 /\ owns frame (altsetting_blocks r.1 ++ bs) h /\
  match r.2 with
  | AltNext p' size' _ => Forall is_byte p' /\ size' <= size
  | _ => True
  end.

Lemma parse_altsetting_endpoints_spec i p size parsed he bs h :
  Forall is_byte p -> id_endpoint i = None -> owns frame (ptr_block (id_extra i) ++ bs) h ->
  ret_or_overrun (parse_altsetting_endpoints i p size parsed he) h (alt_post bs size).
Proof.
  intros Hp Hi Hown. unfold parse_altsetting_endpoints.
  assert (altsetting_wf i) as Hwf by (intros b es; by rewrite Hi).
  assert (owns frame (altsetting_blocks i ++ bs) h) as Hown'.
  { unfold altsetting_blocks. by rewrite Hi, app_nil_r. }
  case_match; [by apply ret_or_overrun_ret|].
  case_match.
  { apply ret_or_overrun_lift_bind. eapply reads_only_mono; [apply next_altsetting_spec|].
    intros next Hn. apply ret_or_overrun_ret. split_and!; [done..|]. simpl. destruct next; [done..|].
    destruct Hn as [-> ->]. by split. }
  apply ret_or_overrun_bind. eapply ret_or_overrun_mono; [apply malloc_owns, Hown|].
  intros [b|] h1 Ho1.
  2: { apply ret_or_overrun_ret. split_and!; [done| |done]. unfold altsetting_blocks. simpl. by rewrite Hi, app_nil_r. }
  apply ret_or_overrun_bind. eapply ret_or_overrun_mono.
  { apply parse_endpoints_spec; [done|by apply Forall_replicate|exact Ho1]. }
  intros [es res] h2 (Hlen & Ho2 & Hres). rewrite length_replicate in Hlen.
  assert (altsetting_wf (set_interface_endpoint i (Some (b, es)))) as Hwf2.
  { intros b' es' [= <- <-]. simpl. lia. }
  assert (owns frame (altsetting_blocks (set_interface_endpoint i (Some (b, es))) ++ bs) h2) as Ho3.
  { unfold altsetting_blocks. simpl. owns_by Ho2. }
  destruct res as [r|[[p' size'] parsed']]; [by apply ret_or_overrun_ret|].
  apply ret_or_overrun_lift_bind. eapply reads_only_mono; [apply next_altsetting_spec|].
  intros next Hn. apply ret_or_overrun_ret. split_and!; [done..|]. simpl. destruct next; [done..|].
  by destruct Hn as [-> ->].
Qed.

Lemma unexpected_reads p size : reads_only (unexpected_descriptor p size) (fun _ => True).
Proof.
  unfold unexpected_descriptor. case_match; [done|]. destruct p as [|l [|t p]]; done.
Qed.

Lemma parse_altsetting_spec p size parsed he bs h :
  Forall is_byte p -> 9 <= size -> owns frame bs h ->
  ret_or_overrun (parse_altsetting p size parsed he) h (alt_post bs (size - 1)).
Proof.
  intros Hp Hsize Hown. unfold parse_altsetting.
  apply ret_or_overrun_lift_bind, fill_interface_spec; [done|]. intros i Hl Hl0 Hn Hx He.
  assert (alt_post bs (size - 1) (i, AltErr 0) h) as Herr.
  { split_and!; [intros b es; simpl; by rewrite He| |done]. unfold altsetting_blocks. simpl. by rewrite Hx, He. }
  apply ret_or_overrun_lift_bind. eapply reads_only_mono; [apply skip_spec; [by apply advance_bytes|lia]|].
  intros [r|[[p' size'] parsed']] Hskip; [by apply ret_or_overrun_ret|].
  destruct Hskip as (Hp' & Hpar & Hsum & Hmin).
  assert (size' <= size - 1) as Hlt.
  { unfold is_byte in *. destruct (decide (id_bLength i = 0)) as [E|]; [|lia].
    rewrite E in Hmin. specialize (Hmin ltac:(lia) (id_bLength i)). rewrite E in Hmin, Hl0.
    specialize (Hmin Hl0). lia. }
  apply ret_or_overrun_bind. eapply ret_or_overrun_mono; [by apply copy_extra_spec|].
  intros [x|] h1 Ho1; [|by apply ret_or_overrun_ret; destruct Herr as (? & _ & ?); split_and!;
    [..|unfold altsetting_blocks; simpl; rewrite Hx, He|]].
  set (i' := set_interface_extra i x (parsed' - (parsed + id_bLength i))).
  apply ret_or_overrun_lift_bind. eapply reads_only_mono; [apply unexpected_reads|]. intros [] _.
  - apply ret_or_overrun_ret. split_and!; [intros b es; simpl; by rewrite He| |done].
    unfold altsetting_blocks. simpl. by rewrite He, app_nil_r.
  - eapply ret_or_overrun_mono; [by apply parse_altsetting_endpoints_spec|].
    intros [i2 next] h2 (? & ? & ?). split_and!; [done..|]. simpl in *. destruct next; try done.
    destruct select (Forall _ _ /\ _). split; [done|lia].
Qed.

Lemma interface_blocks_add u b i :
  interface_blocks (add_altsetting u b i) ≡ₚ
  b :: altsetting_blocks i ++ concat (map altsetting_blocks (default [] (snd <$> if_altsetting u))).
Proof. unfold interface_blocks, add_altsetting. simpl. perm. Qed.

Lemma interface_wf_add u b i :
  interface_wf u -> (if_altsetting u = None -> if_num_altsetting u = 0) -> altsetting_wf i ->
  interface_wf (add_altsetting u b i).
Proof.
  unfold interface_wf, add_altsetting. simpl. intros Hu H0 Hi.
  destruct (if_altsetting u) as [[b' alts]|]; simpl.
  - destruct Hu as [-> Hf]. rewrite length_app. simpl. split; [lia|].
    apply Forall_app. by split; [|apply Forall_singleton].
  - rewrite H0 by done. split; [done|]. by apply Forall_singleton.
Qed.

(** The loop of [parse_interface] ends within as many iterations as bytes: what it has allocated
    is in the interface it leaves, which is empty when it fails. *)
Lemma parse_interface_loop_spec fuel u p size parsed he bs h :
  Forall is_byte p -> size <= Z.of_nat fuel ->
  interface_wf u -> (if_altsetting u = None -> if_num_altsetting u = 0) ->
  owns frame (interface_blocks u ++ bs) h ->
  ret_or_overrun (parse_interface_loop fuel u p size parsed he) h (fun '(_, u') h' =>
    interface_wf u' /\ owns frame (interface_blocks u' ++ bs) h').
Proof.
  revert u p size parsed h. induction fuel as [|fuel IH]; intros u p size parsed h Hp Hf Hwf H0 Hown;
    cbn [parse_interface_loop]; unfold INTERFACE_DESC_LENGTH; (case_match; [by apply ret_or_overrun_ret|]);
    [exfalso; lia|].
  apply ret_or_overrun_bind. eapply ret_or_overrun_mono.
  { apply (realloc_owns frame _ (concat (map altsetting_blocks (default [] (snd <$> if_altsetting u))) ++ bs)).
    unfold interface_blocks in Hown. destruct (if_altsetting u) as [[b alts]|]; simpl in *; owns_by Hown. }
  assert (forall r u h, interface_wf u -> owns frame (interface_blocks u ++ bs) h ->
    ret_or_overrun (let* u := clear_interface u in ret (r : Z, u)) h (fun '(_, u') h' =>
      interface_wf u' /\ owns frame (interface_blocks u' ++ bs) h')) as Herr.
  { intros r u1 h1 Hu Ho. apply ret_or_overrun_bind. eapply ret_or_overrun_mono; [by apply mem_ret_safe, clear_interface_ret|].
    intros u2 h2 [E Ho2]. apply ret_or_overrun_ret. unfold interface_wf, interface_blocks. by rewrite E. }
  intros [b|] h1 Ho1.
  2: { apply Herr; [done|]. unfold interface_blocks.
       destruct (if_altsetting u) as [[b alts]|]; simpl in *; owns_by Ho1. }
  apply ret_or_overrun_bind. eapply ret_or_overrun_mono; [apply parse_altsetting_spec; [done|lia|exact Ho1]|].
  intros [i next] h2 (Hi & Ho2 & Hnext).
  assert (owns frame (interface_blocks (add_altsetting u b i) ++ bs) h2) as Ho3.
  { rewrite interface_blocks_add. owns_by Ho2. }
  pose proof (interface_wf_add u b i Hwf H0 Hi) as Hwf2.
  destruct next as [r|r|p' size' parsed']; [by apply Herr|by apply ret_or_overrun_ret|].
  destruct Hnext as [Hp' Hlt]. apply IH; [done|lia|done|done|done].
Qed.

Lemma parse_interface_spec p size he bs h :
  Forall is_byte p -> owns frame bs h ->
  ret_or_overrun (parse_interface zero_interface p size he) h (fun '(_, u') h' =>
    interface_wf u' /\ owns frame (interface_blocks u' ++ bs) h').
Proof. intros Hp Hown. unfold parse_interface. by apply parse_interface_loop_spec; [|lia|..]. Qed.
End safety.

Section safety_config.
Context `{HostOrder} (frame : list nat).

Lemma config_extra_spec c begin len bs h :
  (cd_extra_length c = 0 -> cd_extra c = None) -> owns frame (ptr_block (cd_extra c) ++ bs) h ->
  ret_or_overrun (config_extra c begin len) h (fun r h' =>
    match r with
    | None => owns frame (ptr_block (cd_extra c) ++ bs) h'
    | Some c' =>
        owns frame (ptr_block (cd_extra c') ++ bs) h' /\
        (cd_extra_length c' = 0 -> cd_extra c' = None) /\
        cd_bNumInterfaces c' = cd_bNumInterfaces c
    end).
Proof.
  intros Hx Hown. unfold config_extra.
  destruct ((len =? 0) || negb (cd_extra_length c =? 0)) eqn:E; [by apply ret_or_overrun_ret|].
  apply orb_false_iff in E as [Hlen E]. apply negb_false_iff, Z.eqb_eq in E. rewrite Hx in Hown by done.
  apply ret_or_overrun_bind. eapply ret_or_overrun_mono; [by apply copy_extra_spec|].
  intros [x|] h1 Ho1; apply ret_or_overrun_ret; [|by rewrite Hx].
  split_and!; [done|simpl; lia|done].
Qed.

Lemma parse_interfaces_spec todo c done_ p size he bs h :
  Forall is_byte p -> Forall (eq zero_interface) todo -> Forall interface_wf done_ ->
  (cd_extra_length c = 0 -> cd_extra c = None) ->
  owns frame (concat (map interface_blocks done_) ++ ptr_block (cd_extra c) ++ bs) h ->
  ret_or_overrun (parse_interfaces c done_ todo p size he) h (fun '(c', ifs, r) h' =>
    length ifs = (length done_ + length todo)%nat /\ Forall interface_wf ifs /\
    cd_bNumInterfaces c' = cd_bNumInterfaces c /\
    owns frame (concat (map interface_blocks ifs) ++ ptr_block (cd_extra c') ++ bs) h' /\
    match r with inl r => r < 0 | inr _ => True end).
Proof.
  revert c done_ p size h. induction todo as [|u todo IH];
    intros c done_ p size h Hp Htodo Hdone Hx Hown; cbn [parse_interfaces].
  { apply ret_or_overrun_ret. split_and!; [simpl; lia|done..]. }
  pose proof Htodo as Htodo0. apply Forall_cons in Htodo as [<- Htodo].
  assert (Forall interface_wf (zero_interface :: todo)) as Hwf0.
  { eapply Forall_impl; [exact Htodo0|]. by intros ? <-. }
  assert (concat (map interface_blocks (zero_interface :: todo)) = []) as Hnil.
  { simpl. clear -Htodo. induction Htodo as [|? ? <-]; [done|]. by simpl. }
  assert (forall l, concat (map interface_blocks (l ++ zero_interface :: todo))
                    = concat (map interface_blocks l)) as Hcat.
  { intros l. by rewrite map_app, concat_app, Hnil, app_nil_r. }
  apply ret_or_overrun_lift_bind. eapply reads_only_mono; [apply skip_spec; [done|lia]|].
  intros [r|[[p' size'] len]] Hskip.
  { apply ret_or_overrun_ret. split_and!; [by rewrite length_app|by apply Forall_app|done|by rewrite Hcat|].
    rewrite Hskip. done. }
  destruct Hskip as (Hp' & _).
  apply ret_or_overrun_bind. eapply ret_or_overrun_mono.
  { apply (config_extra_spec c p len (concat (map interface_blocks done_) ++ bs)); [done|]. owns_by Hown. }
  intros [c'|] h1 Ho1.
  2: { apply ret_or_overrun_ret. split_and!; [by rewrite length_app|by apply Forall_app|done| |done].
       rewrite Hcat. owns_by Ho1. }
  destruct Ho1 as (Ho1 & Hx' & Hn).
  apply ret_or_overrun_bind. eapply ret_or_overrun_mono; [apply parse_interface_spec; [done|exact Ho1]|].
  intros [r u'] h2 [Hu Ho2]. destruct (r <? 0) eqn:Er.
  - apply ret_or_overrun_ret. apply Forall_cons in Hwf0 as [_ Hwf0].
    split_and!; [by rewrite length_app|by apply Forall_app; split; [|constructor]|done| |lia].
    simpl in Hnil. rewrite map_app, concat_app. simpl. rewrite Hnil, app_nil_r. owns_by Ho2.
  - eapply ret_or_overrun_mono; [apply IH; [by apply advance_bytes|done|..]|].
    + apply Forall_app. by split; [|apply Forall_singleton].
    + done.
    + rewrite map_app, concat_app. simpl. rewrite app_nil_r. owns_by Ho2.
    + intros [[c2 ifs] res] h3 (Hlen & ? & Hn2 & ? & ?). rewrite length_app in Hlen. simpl in *.
      split_and!; [lia|done|congruence|done|done].
Qed.

Lemma parse_configuration_spec p he bs h :
  Forall is_byte p -> owns frame bs h ->
  ret_or_overrun (parse_configuration p he) h (fun '(r, c) h' =>
    (config_wf c /\ owns frame (config_blocks c ++ bs) h') \/ (r < 0 /\ owns frame bs h')).
Proof.
  intros Hp Hown. unfold parse_configuration.
  apply ret_or_overrun_lift_bind, fill_configuration_spec; [done|]. intros c Hn Hi Hx Hl.
  case_match; [apply ret_or_overrun_ret; by right|].
  apply ret_or_overrun_bind. eapply ret_or_overrun_mono; [by apply malloc_owns|].
  intros [b|] h1 Ho1; [|apply ret_or_overrun_ret; by right].
  apply ret_or_overrun_bind. eapply ret_or_overrun_mono.
  { apply (parse_interfaces_spec _ c [] _ _ _ (b :: bs)); [by apply advance_bytes| |done|done|].
    - by apply Forall_replicate.
    - simpl. by rewrite Hx. }
  intros [[c' ifs] res] h2 (Hlen & Hwf & Hn' & Ho2 & Hres). rewrite length_replicate in Hlen. simpl in Hlen.
  assert (config_wf (set_config_interface c' (Some (b, ifs)))) as Hcwf.
  { intros b' ifs' [= <- <-]. unfold is_byte in Hn. simpl. split; [lia|done]. }
  assert (owns frame (config_blocks (set_config_interface c' (Some (b, ifs))) ++ bs) h2) as Ho3.
  { unfold config_blocks. simpl. owns_by Ho2. }
  destruct res as [r|size]; [|apply ret_or_overrun_ret; by left].
  apply ret_or_overrun_bind. eapply ret_or_overrun_mono; [by apply mem_ret_safe, clear_configuration_ret|].
  intros [] h3 Ho4. apply ret_or_overrun_ret. by right.
Qed.
End safety_config.

(** ** The functions of the library *)

Lemma ret_or_overrun_on_heap {D A} (m : M Heap A) (s : UsbState D) Q :
  ret_or_overrun m (us_heap s) (fun a h => Q a (mkUsb h (us_rest s))) -> ret_or_overrun (on_heap m) s Q.
Proof. unfold ret_or_overrun, on_heap. by destruct (m (us_heap s)) as [[] h]. Qed.

Lemma ret_or_overrun_on_rest {D A} (m : M D A) (s : UsbState D) (Q : A -> UsbState D -> Prop) :
  ret_or_overrun m (us_rest s) (fun a d => Q a (mkUsb (us_heap s) d)) -> ret_or_overrun (on_rest m) s Q.
Proof. unfold ret_or_overrun, on_rest. by destruct (m (us_rest s)) as [[] d]. Qed.

(** What the functions of the backend promise (libusbi.h): they return, bytes. *)
Class DescriptorLaws (D : Type) `{DescriptorBackend D} := {
  law_get_config : forall dev i len he (d : D),
    exists r bytes he' d', backend_get_config_descriptor dev i len he d = (Ret (r, bytes, he'), d')
                           /\ Forall is_byte bytes;
  law_get_active : forall dev len he (d : D),
    exists r bytes he' d', backend_get_active_config_descriptor dev len he d = (Ret (r, bytes, he'), d')
                           /\ Forall is_byte bytes }.

(** What becomes of the memory when a configuration is read: on success the caller gets a
    structure whose release leaves what there was before; on failure there is nothing left but,
    it may be, a parsed configuration that nobody frees. *)
Definition config_memory {D} (frame : list nat) (res : Z * block libusb_config_descriptor)
    (s : UsbState D) : Prop :=
  (res.1 = 0 /\ res.2 <> None /\
   mem_ret (libusb_free_config_descriptor res.2) (us_heap s) (fun _ => owns frame []))
  \/ (res.1 < 0 /\ res.2 = None /\
      (owns frame [] (us_heap s) \/
       exists c, config_wf c /\ owns frame (config_blocks c) (us_heap s))).

Lemma free_config_ret frame b c h :
  config_wf c -> owns frame (b :: config_blocks c) h ->
  mem_ret (libusb_free_config_descriptor (Some (b, c))) h (fun _ => owns frame []).
Proof.
  intros Hwf Ho. apply mem_ret_bind. eapply mem_ret_mono.
  { apply (clear_configuration_ret frame c [b]); [done|owns_by Ho]. }
  intros [] h4 Ho4. by apply free_block_ret.
Qed.

Section api_memory.
Context {D : Type} `{HostOrder} `{DescriptorBackend D}.

Lemma on_heap_free (frame : list nat) b bs (s : UsbState D) {A} (f : unit -> M (UsbState D) A) Q :
  owns frame (b :: bs) (us_heap s) ->
  (forall s', owns frame bs (us_heap s') -> ret_or_overrun (f tt) s' Q) ->
  ret_or_overrun (bind (on_heap (free_block b)) f) s Q.
Proof.
  intros Ho Hf. apply ret_or_overrun_bind, ret_or_overrun_on_heap.
  eapply ret_or_overrun_mono; [by apply free_block_owns|]. intros [] h Hh. by apply Hf.
Qed.

Lemma read_config_memory (fetch : Z -> bool -> M D (Z * list Z * bool)) reset frame (s : UsbState D) :
  (forall len he d, exists r bytes he' d',
     fetch len he d = (Ret (r, bytes, he'), d') /\ Forall is_byte bytes) ->
  owns frame [] (us_heap s) ->
  ret_or_overrun (read_config_descriptor fetch reset) s (config_memory frame).
Proof.
  intros Hfetch Hown. unfold read_config_descriptor.
  apply ret_or_overrun_bind, ret_or_overrun_on_heap. eapply ret_or_overrun_mono; [by apply malloc_owns|].
  intros [c|] h1 Ho1; [|apply ret_or_overrun_ret; right; split_and!; [done..|by left]]. simpl in Ho1.
  assert (forall r (s' : UsbState D), r < 0 -> owns frame [] (us_heap s') ->
    ret_or_overrun (ret (r, None)) s' (config_memory frame)) as Hfail.
  { intros r s' Hr Ho. apply ret_or_overrun_ret. right. split_and!; [done..|by left]. }
  apply ret_or_overrun_bind, ret_or_overrun_on_rest.
  destruct (Hfetch 8 false (us_rest s)) as (r & tmp & he & d1 & E & Htmp).
  eapply ret_or_overrun_run; [exact E|]. cbn beta iota. destruct (r <? 0) eqn:Er. { eapply on_heap_free; [exact Ho1|]. intros s' Ho. apply Hfail; [lia|done]. }
  apply ret_or_overrun_lift_bind, parse_reads. intros dp n Hlen.
  apply ret_or_overrun_bind, ret_or_overrun_on_heap. eapply ret_or_overrun_mono; [by apply malloc_owns|].
  intros [b|] h2 Ho2; simpl in Ho2.
  2: { eapply on_heap_free; [exact Ho2|]. intros s' Ho. by apply Hfail. }
  apply ret_or_overrun_bind, ret_or_overrun_on_rest. cbn [us_rest us_heap].
  destruct (Hfetch (nth 2 dp 0) (if reset then false else he) d1) as (r2 & buf & he2 & d2 & E2 & Hbuf).
  eapply ret_or_overrun_run; [exact E2|].
  assert (forall r (bs : list nat) (s' : UsbState D), owns frame (b :: c :: bs) (us_heap s') ->
    (forall s' : UsbState D, owns frame bs (us_heap s') -> ret_or_overrun (ret (r, None)) s' (config_memory frame)) ->
    ret_or_overrun (do* on_heap (free_block c) in do* on_heap (free_block b) in ret (r : Z, None)) s'
      (config_memory frame)) as Hfail2.
  { intros r' bs s' Ho Hend. eapply (on_heap_free frame c (b :: bs)); [owns_by Ho|].
    intros s1 Hs1. by eapply on_heap_free; [exact Hs1|]. }
  cbn beta iota. destruct (r2 <? 0) eqn:Er2.
  { apply (Hfail2 _ []); [done|]. intros s' Ho. apply Hfail; [lia|done]. }
  apply ret_or_overrun_bind, ret_or_overrun_on_heap.
  eapply ret_or_overrun_mono; [apply parse_configuration_spec; [done|exact Ho2]|].
  intros [r3 cfg] h3 Hcfg. destruct (r3 <? 0) eqn:Er3.
  - destruct Hcfg as [[Hwf Ho]|[_ Ho]].
    + apply (Hfail2 _ (config_blocks cfg)); [owns_by Ho|]. intros s' Ho'.
      apply ret_or_overrun_ret. right. split_and!; [simpl; lia|done|]. right. by exists cfg.
    + apply (Hfail2 _ []); [done|]. intros s' Ho'. apply Hfail; [lia|done].
  - destruct Hcfg as [[Hwf Ho]|[? _]]; [|lia].
    eapply (on_heap_free frame b (c :: config_blocks cfg)); [owns_by Ho|]. intros s' Ho'.
    apply ret_or_overrun_ret. left. split_and!; [done|done|]. simpl.
    apply free_config_ret; [done|owns_by Ho'].
Qed.

Context `{!DescriptorLaws D}.

End api_memory.

(** *** Looking a configuration up by its value *)
Section by_value.
Context {D : Type} `{HostOrder} `{DescriptorBackend D}.

(** The first index from [i] on, of [n], whose configuration has the value [v]. *)
Fixpoint first_with_value (f : Z -> list Z) (v : Z) (n : nat) (i : Z) : option Z :=
  match n with
  | O => None
  | S n' => if decide (f i !! 5%nat = Some v) then Some i else first_with_value f v n' (i + 1)
  end.

Lemma first_with_value_range f v n i j : first_with_value f v n i = Some j -> i <= j < i + Z.of_nat n.
Proof.
  revert i. induction n as [|n IH]; intros i; simpl; [done|].
  case_decide; [intros; simplify_eq; lia|]. intros E%IH. lia.
Qed.

Lemma config_index_loop_first dev f v n i (d : D) :
  (forall j he, i <= j < i + Z.of_nat n ->
     exists r he', 0 <= r /\ backend_get_config_descriptor dev j 6 he d = (Ret (r, f j, he'), d)) ->
  (forall j, i <= j < i + Z.of_nat n -> length (f j) = 6%nat) ->
  config_index_loop dev v n i d = (Ret (0, Some (default (-1) (first_with_value f v n i))), d).
Proof.
  revert i. induction n as [|n IH]; intros i Hf Hlen; simpl; [done|].
  destruct (Hf i false ltac:(lia)) as (r & he' & Hr & E). rewrite (bind_Ret _ _ _ _ _ E).
  destruct (Z.ltb_spec r 0); [lia|].
  destruct (lookup_lt_is_Some_2 (f i) 5) as [b Eb]; [rewrite Hlen; lia|].
  unfold byte_at, lift, bind. rewrite Eb. case_decide as Hd.
  - simplify_eq. by rewrite Z.eqb_refl.
  - destruct (Z.eqb_spec b v) as [->|]; [done|].
    apply IH; intros j; intros; [apply Hf|apply Hlen]; lia.
Qed.

(** Looking a configuration up by its value reads the configuration with the first index
    whose descriptor has that value, and answers LIBUSB_ERROR_NOT_FOUND when there is none. *)
Theorem libusb_get_config_descriptor_by_value_first dev f v (s : UsbState D) :
  0 <= dev_num_configurations dev < 256 ->
  (forall j he, 0 <= j < dev_num_configurations dev -> exists r he', 0 <= r /\
     backend_get_config_descriptor dev j 6 he (us_rest s) = (Ret (r, f j, he'), us_rest s)) ->
  (forall j, 0 <= j < dev_num_configurations dev -> length (f j) = 6%nat) ->
  libusb_get_config_descriptor_by_value dev v s =
    match first_with_value f v (Z.to_nat (dev_num_configurations dev)) 0 with
    | Some i => libusb_get_config_descriptor dev i s
    | None => (Ret (LIBUSB_ERROR_NOT_FOUND : Z, None), s)
    end.
Proof.
  intros Hn Hf Hlen. unfold libusb_get_config_descriptor_by_value, usbi_get_config_index_by_value.
  unfold bind at 1, on_rest. 
  rewrite (config_index_loop_first _ f) by (intros; try apply Hf; try apply Hlen; lia).
  destruct s as [h d]. cbn [us_heap us_rest].
  destruct (first_with_value f v _ 0) as [i|] eqn:E; simpl; [|done].
  apply first_with_value_range in E.
  destruct (Z.eqb_spec i (-1)); [lia|]. by rewrite Z.mod_small by lia.
Qed.
End by_value.

(** The words of a device descriptor have the value of their bytes on the bus, on hosts of
    either byte order. *)
Theorem libusb_get_device_descriptor_words {D} `{HostOrder} `{DescriptorBackend D} dev (d d' : D) r
    l t u0 u1 c s p m v0 v1 p0 p1 d0 d1 im ip ise n rest :
  backend_get_device_descriptor dev false d =
    (Ret (r, [l; t; u0; u1; c; s; p; m; v0; v1; p0; p1; d0; d1; im; ip; ise; n] ++ rest, false), d') ->
  0 <= r -> Forall is_byte [u0; u1; v0; v1; p0; p1; d0; d1] ->
  libusb_get_device_descriptor dev d =
    (Ret (0, Some (mk_device_descriptor l t (256 * u1 + u0) c s p m (256 * v1 + v0) (256 * p1 + p0)
                     (256 * d1 + d0) im ip ise n)), d').
Proof.
  intros E Hr Hb. unfold libusb_get_device_descriptor. rewrite (bind_Ret _ _ _ _ _ E).
  destruct (Z.ltb_spec r 0); [lia|]. cbn [take app].
  rewrite !Forall_cons in Hb. destruct Hb as (? & ? & ? & ? & ? & ? & ? & ? & _).
  rewrite !libusb_cpu_to_le16_host by done. by rewrite !le16_add by done.
Qed.

(** *** Strings *)
Section string_theorems.
Context {H D : Type} `{ControlTransfer H D}.

(** The character that a 16-bit unit, low byte first, becomes. *)
Definition ascii_of_unit (u : Z * Z) : Z := if u.2 =? 0 then u.1 else Z.of_N (N_of_ascii "?").
Definition unit_bytes (us : list (Z * Z)) : list Z := concat (map (fun u => [u.1; u.2]) us).

Lemma length_unit_bytes us : length (unit_bytes us) = (2 * length us)%nat.
Proof. induction us as [|u us IH]; simpl; [done|]. unfold unit_bytes in IH. lia. Qed.

Lemma ascii_loop_units fuel pre us rest data len :
  (length us <= fuel)%nat ->
  let tbuf := pre ++ unit_bytes us ++ rest in
  ascii_loop fuel tbuf (Z.of_nat (length pre + 2 * length us)) (length pre) data len =
    Ret (data ++ take (Z.to_nat (len - 1 - Z.of_nat (length data))) (map ascii_of_unit us)).
Proof.
  revert pre us data. induction fuel as [|fuel IH]; intros pre us data Hf tbuf; subst tbuf.
  { destruct us; simpl in Hf; [|lia]. cbn [ascii_loop length map].
    destruct (Z.leb_spec (Z.of_nat (length pre + 2 * 0)) (Z.of_nat (length pre))); [|lia].
    by rewrite take_nil, app_nil_r. }
  cbn [ascii_loop]. destruct (Z.leb_spec (Z.of_nat (length pre + 2 * length us)) (Z.of_nat (length pre))).
  { assert (us = []) as -> by (destruct us; [done|simpl in *; lia]). simpl. by rewrite take_nil, app_nil_r. }
  destruct (Z.leb_spec (len - 1) (Z.of_nat (length data))) as [Hlen|Hlen].
  { replace (Z.to_nat _) with 0%nat by lia. by rewrite take_0, app_nil_r. }
  destruct us as [|[lo hi] us]; [simpl in *; lia|].
  change (unit_bytes ((lo, hi) :: us)) with ([lo; hi] ++ unit_bytes us).
  assert ((pre ++ ([lo; hi] ++ unit_bytes us) ++ rest) !! (length pre + 1)%nat = Some hi) as E1.
  { rewrite lookup_app_r by lia. by replace (length pre + 1 - length pre)%nat with 1%nat by lia. }
  assert ((pre ++ ([lo; hi] ++ unit_bytes us) ++ rest) !! length pre = Some lo) as E0.
  { rewrite lookup_app_r by lia. by rewrite Nat.sub_diag. }
  unfold byte_at. rewrite E1, E0. cbn [mbind outcome_bind].
  assert ((if hi =? 0 then Ret lo else Ret (Z.of_N (N_of_ascii "?"))) = Ret (ascii_of_unit (lo, hi))) as ->.
  { unfold ascii_of_unit. simpl. by case_match. }
  cbn [mbind outcome_bind].
  replace (pre ++ ([lo; hi] ++ unit_bytes us) ++ rest) with ((pre ++ [lo; hi]) ++ unit_bytes us ++ rest)
    by by rewrite <- !app_assoc.
  replace (length pre + 2 * length ((lo, hi) :: us))%nat with (length (pre ++ [lo; hi]) + 2 * length us)%nat
    by (rewrite length_app; simpl; lia).
  replace (length pre + 2)%nat with (length (pre ++ [lo; hi])) by by rewrite length_app.
  rewrite IH by (simpl in Hf; lia). rewrite <- app_assoc. do 2 f_equal. simpl.
  rewrite length_app. simpl. destruct (Z.to_nat (len - 1 - Z.of_nat (length data))) eqn:En; [lia|].
  simpl. do 2 f_equal. lia.
Qed.

(** The answers of a device to the two requests for string descriptors: the languages it
    supports, and the string in the first of them. *)
Definition string_device (dev : H) (d d1 d2 : D) (desc_index lo hi : Z) (langs : list Z)
    (us : list (Z * Z)) (rest : list Z) : Prop :=
  libusb_control_transfer dev 0x80 6 0x300 0 [] 255 1000 d
    = (Ret (Z.of_nat (length ([Z.of_nat (4 + length langs); 3; lo; hi] ++ langs)),
            [Z.of_nat (4 + length langs); 3; lo; hi] ++ langs), d1)
  /\ libusb_control_transfer dev 0x80 6 (Z.lor 0x300 desc_index mod 2 ^ 16)
       (Z.lor lo (Z.shiftl hi 8)) ([Z.of_nat (4 + length langs); 3; lo; hi] ++ langs) 255 1000 d1
    = (Ret (Z.of_nat (length ([Z.of_nat (2 + 2 * length us); 3] ++ unit_bytes us ++ rest)),
            [Z.of_nat (2 + 2 * length us); 3] ++ unit_bytes us ++ rest), d2).

(** The string of a device is returned in its first language, with [?] for every
    character outside of 8 bits, cut so that it fits the buffer with its final zero; the
    value returned is its length. *)
Theorem libusb_get_string_descriptor_ascii_string dev d d1 d2 desc_index lo hi langs us rest len :
  string_device dev d d1 d2 desc_index lo hi langs us rest ->
  desc_index <> 0 -> (length us <= 126)%nat -> 1 <= len ->
  let text := take (Z.to_nat (len - 1)) (map ascii_of_unit us) in
  libusb_get_string_descriptor_ascii dev desc_index len d
    = (Ret (Z.of_nat (length text), text ++ [0]), d2) /\ Z.of_nat (length text) < len.
Proof.
  intros [E1 E2] Hi Hus Hlen text.
  assert (Z.of_nat (length text) < len) as Hfit by (subst text; rewrite length_take; lia).
  split; [|done].
  unfold libusb_get_string_descriptor_ascii, libusb_get_string_descriptor.
  destruct (Z.eqb_spec desc_index 0); [done|].
  rewrite (bind_Ret _ _ _ _ _ E1). cbn [length app]. 
  destruct (Z.ltb_spec (Z.of_nat (S (S (S (S (length langs)))))) 0); [lia|].
  destruct (Z.ltb_spec (Z.of_nat (S (S (S (S (length langs)))))) 4); [lia|].
  rewrite (lift_bind _ lo), (lift_bind _ hi) by done.
  rewrite (bind_Ret _ _ _ _ _ E2).
  set (tot := Z.of_nat (2 + 2 * length us)).
  unfold overlay. match goal with |- context [drop ?k ?l] => set (old := drop k l) end.
  rewrite <- (app_assoc [tot; 3]), <- (app_assoc (unit_bytes us)).
  destruct (Z.ltb_spec (Z.of_nat (length ([tot; 3] ++ unit_bytes us ++ rest))) 0); [lia|].
  rewrite (lift_bind _ 3) by done. cbn [negb Z.eqb dt_value Pos.eqb].
  rewrite (lift_bind _ tot) by done.
  destruct (Z.ltb_spec (Z.of_nat (length ([tot; 3] ++ unit_bytes us ++ rest))) tot) as [Hn|_].
  { subst tot. rewrite !length_app, length_unit_bytes in Hn. simpl in Hn. lia. }
  pose proof (ascii_loop_units 128 [tot; 3] us (rest ++ old) [] len ltac:(lia)) as Ha. cbn zeta in Ha.
  change (Z.of_nat (length [tot; 3] + 2 * length us)) with tot in Ha.
  change (length [tot; 3]) with 2%nat in Ha. change (length []) with 0%nat in Ha.
  rewrite Z.sub_0_r in Ha. rewrite (lift_bind _ _ _ _ Ha). change ([] ++ take (Z.to_nat (len - 1)) (map ascii_of_unit us)) with text.
  destruct (Z.ltb_spec (Z.of_nat (length text)) len); [done|lia].
Qed.
End string_theorems.

(** *** Devices to try the library on *)

(** The bytes of each configuration of a device, kept by the backend. *)
Definition sample_answer (c : option (list Z)) (len : Z) : Z * list Z :=
  match c with
  | Some c => (0, map (fun b => b mod 256) (take (Z.to_nat len) c))
  | None => (LIBUSB_ERROR_NOT_FOUND : Z, [])
  end.
#[export] Instance sample_backend : DescriptorBackend (list (list Z)) := {
  backend_get_device_descriptor dev he :=
    ret (0, [18; 1; 0; 2; 0; 0; 0; 64; 0xd8; 0x04; 0x3f; 0; 2; 1; 1; 2; 0; 1], he);
  backend_get_active_config_descriptor dev len he := fun d => (Ret (sample_answer (head d) len, he), d);
  backend_get_config_descriptor dev i len he := fun d =>
    (Ret (sample_answer (d !! Z.to_nat i) len, he), d) }.

Definition sample_device (n : Z) : libusb_device := mk_device 0 1 5 n LIBUSB_SPEED_FULL 0.
Definition little : HostOrder := {| big_endian := false |}.

(** A device that answers control transfers one after the other. *)
#[export] Instance sample_control : ControlTransfer unit (list (Z * list Z)) := {
  libusb_control_transfer _ _ _ _ _ _ _ _ := fun d =>
    match d with
    | a :: d' => (Ret a, d')
    | [] => (Ret (LIBUSB_ERROR_TIMEOUT : Z, []), [])
    end }.

(** The product string of the power meter in two languages of the standard: "OK". *)
Definition sample_strings : list (Z * list Z) :=
  [(4, [4; 3; 0x09; 0x04]); (6, [6; 3; 79; 0; 75; 0])].

Lemma libusb_get_string_descriptor_ascii_string_witness :
  libusb_get_string_descriptor_ascii tt 2 64 sample_strings = (Ret (2, [79; 75; 0]), []).
Proof.
  by apply (libusb_get_string_descriptor_ascii_string tt sample_strings
              [(6, [6; 3; 79; 0; 75; 0])] [] 2 0x09 0x04 [] [(79, 0); (75, 0)] [] 64); [|simpl; lia..].
Defined.

Definition sample_config : list Z :=
  [9; 2; 18; 0; 1; 7; 0; 0x80; 50;  9; 4; 0; 0; 0; 3; 0; 0; 0].

Lemma libusb_get_config_descriptor_by_value_first_witness :
  libusb_get_config_descriptor_by_value (H := little) (sample_device 1) 7
    (mkUsb (mkHeap [] []) [sample_config])
  = libusb_get_config_descriptor (H := little) (sample_device 1) 0
      (mkUsb (mkHeap [] []) [sample_config]).
Proof.
  apply (libusb_get_config_descriptor_by_value_first (H := little) (sample_device 1)
    (fun _ => take 6 sample_config) 7 (mkUsb (mkHeap [] []) [sample_config])); [simpl; lia| |done].
  intros j he Hj. simpl in Hj. replace j with 0 by lia. exists 0, he. split; [lia|reflexivity].
Defined.

#[export] Instance sample_laws : DescriptorLaws (list (list Z)).
Proof.
  assert (forall c len, exists r bytes, sample_answer c len = (r, bytes) /\ Forall is_byte bytes) as Hs.
  { intros [c|] len; simpl; eexists _, _; (split; [done|]); [|constructor].
    apply Forall_forall. intros b Hb. apply list_elem_of_fmap in Hb as (x & -> & _).
    by apply Z.mod_pos_bound. }
  split; intros; cbn; [destruct (Hs (d !! Z.to_nat i) len) as (r & bytes & -> & ?)
                      |destruct (Hs (head d) len) as (r & bytes & -> & ?)]; eauto 10.
Qed.


Lemma libusb_get_device_descriptor_words_witness :
  libusb_get_device_descriptor (H := {| big_endian := true |}) (sample_device 1) [sample_config]
  = (Ret (0, Some (mk_device_descriptor 18 1 0x200 0 0 0 64 0x4d8 0x3f 0x102 1 2 0 1)), [sample_config]).
Proof.
  apply (libusb_get_device_descriptor_words (H := {| big_endian := true |}) (sample_device 1)
    [sample_config] [sample_config] 0 18 1 0 2 0 0 0 64 0xd8 0x04 0x3f 0 2 1 1 2 0 1 []); [done|lia|].
  repeat constructor; unfold is_byte; lia.
Defined.

(** *** What inconsistent lengths do *)

(** An alternate setting whose length goes past the end of the configuration: the size left is
    negative, the caller takes it for an error, and the two blocks of the interfaces are lost. *)
Theorem parse_configuration_leak :
  exists s, libusb_get_config_descriptor (H := little) (sample_device 1) 0
      (mkUsb (mkHeap [] []) [[9; 2; 27; 0; 1; 7; 0; 0x80; 50;  9; 4; 0; 0; 0; 3; 0; 0; 0;
                                   20; 4; 0; 1; 0; 3; 0; 0; 0]])
    = (Ret (-11, None), s) /\ length (h_live (us_heap s)) = 2%nat.
Proof. eexists. split; [vm_compute; reflexivity|]. done. Qed.

(** The same setting with an endpoint: the parser reads past the end of the buffer. *)
Theorem parse_interface_overrun :
  fst (libusb_get_config_descriptor (H := little) (sample_device 1) 0
      (mkUsb (mkHeap [] []) [[9; 2; 27; 0; 1; 7; 0; 0x80; 50;  9; 4; 0; 0; 0; 3; 0; 0; 0;
                                   20; 4; 0; 1; 1; 3; 0; 0; 0]]))
  = Undef overrun.
Proof. vm_compute. reflexivity. Qed.

(** A total length of less than a configuration descriptor: the parser reads past the end of
    the block that was allocated for it. *)
Theorem get_config_descriptor_short :
  fst (libusb_get_config_descriptor (H := little) (sample_device 1) 0
      (mkUsb (mkHeap [] []) [[9; 2; 4; 0; 1; 7; 0; 0x80; 50]]))
  = Undef overrun.
Proof. vm_compute. reflexivity. Qed.

(** A string descriptor of 255 bytes, an odd length: the last iteration of the loop reads one
    byte past the end of [tbuf]. *)
Theorem string_descriptor_overrun :
  fst (libusb_get_string_descriptor_ascii tt 2 200
      [(4, [4; 3; 0x09; 0x04]); (255, [255; 3] ++ concat (replicate 126 [65; 0]) ++ [66])])
  = Undef overrun.
Proof. vm_compute. reflexivity. Qed.

(** A caller with no room for a string has its final zero written out of its buffer. *)
Theorem string_descriptor_no_room :
  fst (libusb_get_string_descriptor_ascii tt 2 0 sample_strings)
  = Undef "write past the end of the data".
Proof. vm_compute. reflexivity. Qed.
