(* ===== verification/UsbLayout.v ===== *)
(** * The layout of USB descriptors, and that the parser of descriptor.c inverts it

    [Endpoint], [AltSetting] and [Config] are descriptors as the USB specification has them,
    without memory; the [put_] functions lay them out as the bytes that a device sends.  The
    theorem: [parse_configuration] reads back from those bytes the configuration they were
    laid out from, with its interfaces, their alternate settings and endpoints and the class
    specific descriptors of each, and consumes all of them. *)
From S2P Require Import Prelude UsbBase UsbDescriptor.

(** A class or vendor specific descriptor: its type and what follows. *)
Record Unknown := mkUnknown { un_type : Z; un_payload : list Z }.
Record Endpoint := mkEndpoint {
  ep_address : Z; ep_attributes : Z; ep_max_packet : Z; ep_interval : Z;
  ep_audio : option (Z * Z); ep_unknown : list Unknown }.
Record AltSetting := mkAlt {
  as_number : Z; as_alternate : Z; as_class : Z; as_subclass : Z; as_protocol : Z; as_string : Z;
  as_unknown : list Unknown; as_endpoints : list Endpoint }.
Record Config := mkConfig {
  cf_value : Z; cf_string : Z; cf_attributes : Z; cf_max_power : Z;
  cf_unknown : list Unknown; cf_interfaces : list (list AltSetting) }.

(** ** The bytes *)
Definition put_unknown (u : Unknown) : list Z :=
  Z.of_nat (2 + length (un_payload u)) :: un_type u :: un_payload u.
Definition put_unknowns (us : list Unknown) : list Z := concat (map put_unknown us).
Definition endpoint_length (e : Endpoint) : Z := match ep_audio e with Some _ => 9 | None => 7 end.
Definition put_endpoint (e : Endpoint) : list Z :=
  [endpoint_length e; 5; ep_address e; ep_attributes e; ep_max_packet e mod 256;
   ep_max_packet e / 256; ep_interval e]
  ++ match ep_audio e with Some (r, s) => [r; s] | None => [] end
  ++ put_unknowns (ep_unknown e).
Definition put_endpoints (es : list Endpoint) : list Z := concat (map put_endpoint es).
Definition put_altsetting (a : AltSetting) : list Z :=
  [9; 4; as_number a; as_alternate a; Z.of_nat (length (as_endpoints a)); as_class a;
   as_subclass a; as_protocol a; as_string a]
  ++ put_unknowns (as_unknown a) ++ put_endpoints (as_endpoints a).
Definition put_interface (alts : list AltSetting) : list Z := concat (map put_altsetting alts).
Definition put_interfaces (ifs : list (list AltSetting)) : list Z := concat (map put_interface ifs).
Definition config_body (c : Config) : list Z :=
  put_unknowns (cf_unknown c) ++ put_interfaces (cf_interfaces c).
Definition total_length (c : Config) : Z := 9 + Z.of_nat (length (config_body c)).
Definition put_config (c : Config) : list Z :=
  [9; 2; total_length c mod 256; total_length c / 256; Z.of_nat (length (cf_interfaces c));
   cf_value c; cf_string c; cf_attributes c; cf_max_power c] ++ config_body c.

(** ** Which descriptors the specification allows *)
Definition unknown_ok (u : Unknown) : bool :=
  negb (is_proper (un_type u)) && (Z.of_nat (length (un_payload u)) <? 254).
Definition endpoint_ok (e : Endpoint) : bool :=
  forallb unknown_ok (ep_unknown e) && (0 <=? ep_max_packet e) && (ep_max_packet e <? 65536).
Definition altsetting_ok (a : AltSetting) : bool :=
  forallb unknown_ok (as_unknown a) && forallb endpoint_ok (as_endpoints a)
  && (Z.of_nat (length (as_endpoints a)) <=? 32).
(** The first setting of an interface is the default one, 0; the others are not. *)
Definition interface_ok (alts : list AltSetting) : bool :=
  match alts with
  | [] => false
  | a :: alts' =>
      (as_alternate a =? 0) && forallb (fun a => negb (as_alternate a =? 0)) alts'
      && forallb altsetting_ok alts
  end.
(** Descriptors before the first interface need an interface. *)
Definition config_ok (c : Config) : bool :=
  forallb unknown_ok (cf_unknown c) && forallb interface_ok (cf_interfaces c)
  && (Z.of_nat (length (cf_interfaces c)) <=? 32) && (total_length c <? 65536)
  && negb ((length (cf_interfaces c) =? 0)%nat && negb (length (cf_unknown c) =? 0)%nat).

(** ** What the parsed structures hold *)

Definition holds_unknowns (x : block (list Z)) (len : Z) (us : list Unknown) : Prop :=
  len = Z.of_nat (length (put_unknowns us)) /\
  (snd <$> x) = match us with [] => None | _ => Some (put_unknowns us) end.
Definition is_endpoint (e : Endpoint) (d : libusb_endpoint_descriptor) : Prop :=
  ed_bLength d = endpoint_length e /\ ed_bDescriptorType d = 5 /\
  ed_bEndpointAddress d = ep_address e /\ ed_bmAttributes d = ep_attributes e /\
  ed_wMaxPacketSize d = ep_max_packet e /\ ed_bInterval d = ep_interval e /\
  ed_bRefresh d = fst (default (0, 0) (ep_audio e)) /\
  ed_bSynchAddress d = snd (default (0, 0) (ep_audio e)) /\
  holds_unknowns (ed_extra d) (ed_extra_length d) (ep_unknown e).
Definition is_altsetting (a : AltSetting) (d : libusb_interface_descriptor) : Prop :=
  id_bLength d = 9 /\ id_bDescriptorType d = 4 /\ id_bInterfaceNumber d = as_number a /\
  id_bAlternateSetting d = as_alternate a /\
  id_bNumEndpoints d = Z.of_nat (length (as_endpoints a)) /\
  id_bInterfaceClass d = as_class a /\ id_bInterfaceSubClass d = as_subclass a /\
  id_bInterfaceProtocol d = as_protocol a /\ id_iInterface d = as_string a /\
  holds_unknowns (id_extra d) (id_extra_length d) (as_unknown a) /\
  Forall2 is_endpoint (as_endpoints a) (default [] (snd <$> id_endpoint d)).
Definition is_interface (alts : list AltSetting) (d : libusb_interface) : Prop :=
  if_num_altsetting d = Z.of_nat (length alts) /\
  Forall2 is_altsetting alts (default [] (snd <$> if_altsetting d)).
Definition is_config (c : Config) (d : libusb_config_descriptor) : Prop :=
  cd_bLength d = 9 /\ cd_bDescriptorType d = 2 /\ cd_wTotalLength d = total_length c /\
  cd_bNumInterfaces d = Z.of_nat (length (cf_interfaces c)) /\
  cd_bConfigurationValue d = cf_value c /\ cd_iConfiguration d = cf_string c /\
  cd_bmAttributes d = cf_attributes c /\ cd_MaxPower d = cf_max_power c /\
  holds_unknowns (cd_extra d) (cd_extra_length d) (cf_unknown c) /\
  Forall2 is_interface (cf_interfaces c) (default [] (snd <$> cd_interface d)).

(** ** The parser on well-formed bytes *)
Section roundtrip.
Context `{HostOrder}.

(** What may follow a run of unknown descriptors: nothing, or a descriptor that stops it. *)
Definition stops (rest : list Z) : Prop :=
  rest = [] \/ exists l t r, rest = l :: t :: r /\ is_proper t = true /\ 2 <= l <= Z.of_nat (length rest).

Lemma skip_stops check fuel rest parsed :
  stops rest -> (length rest <= fuel)%nat ->
  skip_descriptors check fuel rest (Z.of_nat (length rest)) parsed =
    Ret (inr (rest, Z.of_nat (length rest), parsed)).
Proof.
  intros [->|(l & t & r & -> & Ht & Hl)] Hf; [by destruct fuel|].
  destruct fuel as [|fuel]; [simpl in Hf; lia|]. cbn [skip_descriptors]. unfold DESC_HEADER_LENGTH.
  destruct (Z.ltb_spec (Z.of_nat (length (l :: t :: r))) 2); [simpl in *; lia|].
  rewrite header_cons. cbn [mbind outcome_bind].
  destruct (Z.ltb_spec (Z.of_nat (length (l :: t :: r))) l); [lia|].
  destruct (Z.ltb_spec l 2); [lia|]. by rewrite andb_false_r, Ht.
Qed.

Lemma length_put_unknown u : Z.of_nat (length (put_unknown u)) = Z.of_nat (2 + length (un_payload u)).
Proof. done. Qed.

Lemma advance_app p q n : n = Z.of_nat (length p) -> advance (p ++ q) n = q.
Proof. intros ->. unfold advance. by rewrite Nat2Z.id, drop_app_length. Qed.

Lemma skip_unknowns check fuel us rest parsed :
  forallb unknown_ok us = true -> stops rest -> (length (put_unknowns us ++ rest) <= fuel)%nat ->
  skip_descriptors check fuel (put_unknowns us ++ rest)
    (Z.of_nat (length (put_unknowns us ++ rest))) parsed =
    Ret (inr (rest, Z.of_nat (length rest), parsed + Z.of_nat (length (put_unknowns us)))).
Proof.
  revert fuel parsed. induction us as [|u us IH]; intros fuel parsed Hok Hstop Hf.
  { rewrite Z.add_0_r. by apply skip_stops. }
  simpl in Hok. apply andb_true_iff in Hok as [Hu Hok].
  apply andb_true_iff in Hu as [Ht Hlen]. apply negb_true_iff in Ht.
  change (put_unknowns (u :: us)) with (put_unknown u ++ put_unknowns us) in *.
  rewrite <- app_assoc in *. rewrite !length_app in Hf. rewrite !length_app.
  pose proof (length_put_unknown u) as Hl.
  destruct fuel as [|fuel]; [simpl in Hf; lia|]. cbn [skip_descriptors]. unfold DESC_HEADER_LENGTH.
  match goal with |- context [?x <? 2] => destruct (Z.ltb_spec x 2); [lia|] end.
  change (descriptor_header _) with (Ret (Z.of_nat (2 + length (un_payload u)), un_type u)).
  cbn [mbind outcome_bind]. rewrite <- Hl.
  match goal with |- context [?x <? Z.of_nat (length (put_unknown u))] =>
    destruct (Z.ltb_spec x (Z.of_nat (length (put_unknown u)))); [lia|] end.
  destruct (Z.ltb_spec (Z.of_nat (length (put_unknown u))) 2); [lia|].
  rewrite andb_false_r, Ht. cbn [orb]. rewrite advance_app by done.
  match goal with |- skip_descriptors _ _ _ ?s _ = _ =>
    replace s with (Z.of_nat (length (put_unknowns us ++ rest))) by (rewrite length_app; lia) end.
  rewrite IH; [|done|done|rewrite length_app; lia]. do 3 f_equal. rewrite Nat2Z.inj_add. lia.
Qed.

Lemma put_unknowns_nil us : length (put_unknowns us) = 0%nat -> us = [].
Proof. by destruct us. Qed.

Lemma memcpy_app p q n : n = Z.of_nat (length p) -> memcpy_from (p ++ q) n = Ret p.
Proof.
  intros ->. unfold memcpy_from. destruct (Z.leb_spec (Z.of_nat (length p)) (Z.of_nat (length (p ++ q)))) as [|E].
  - by rewrite Nat2Z.id, take_app_length.
  - rewrite length_app in E. lia.
Qed.

Lemma copy_extra_ok us rest :
  gives (copy_extra (put_unknowns us ++ rest) (Z.of_nat (length (put_unknowns us))))
    (fun x => exists b, x = Some b /\ holds_unknowns b (Z.of_nat (length (put_unknowns us))) us).
Proof.
  unfold copy_extra. destruct (Z.eqb_spec (Z.of_nat (length (put_unknowns us))) 0) as [E|E].
  { apply gives_ret. rewrite (put_unknowns_nil us) by lia. by exists None. }
  apply gives_malloc. intros b. eapply gives_lift_bind; [by apply memcpy_app|]. apply gives_ret.
  eexists. split; [done|]. split; [done|]. simpl. by destruct us.
Qed.

(** A word is put back together from its two bytes. *)
Lemma le16_split w : le16 (w mod 256) (w / 256) = w.
Proof.
  rewrite le16_add by (unfold is_byte; by apply Z.mod_pos_bound). pose proof (Z.div_mod w 256). lia.
Qed.

(** *** Endpoints *)

Lemma fill_endpoint_ok e rest :
  endpoint_ok e = true ->
  exists d, fill_endpoint zero_endpoint (put_endpoint e ++ rest) (endpoint_length e) false = Ret d /\
    forall x len, holds_unknowns x len (ep_unknown e) -> is_endpoint e (set_endpoint_extra d x len).
Proof.
  intros Hok. unfold endpoint_ok in Hok. apply andb_true_iff in Hok as [Hok Hmax].
  apply andb_true_iff in Hok as [_ Hmin].
  unfold put_endpoint, endpoint_length. destruct (ep_audio e) as [[r s]|] eqn:Ea;
    (eexists; split; [cbn; reflexivity|]); intros x len Hx; unfold is_endpoint, endpoint_length;
    rewrite Ea; cbn; rewrite le16_split; by split_and!.
Qed.

Lemma put_endpoint_header e rest : descriptor_header (put_endpoint e ++ rest) = Ret (endpoint_length e, 5).
Proof. done. Qed.

Lemma put_endpoint_split e :
  exists p, put_endpoint e = p ++ put_unknowns (ep_unknown e) /\ endpoint_length e = Z.of_nat (length p).
Proof.
  unfold put_endpoint, endpoint_length. rewrite app_assoc. eexists. split; [reflexivity|].
  by destruct (ep_audio e) as [[? ?]|].
Qed.

Lemma parse_endpoint_ok e rest :
  endpoint_ok e = true -> stops rest ->
  gives (parse_endpoint zero_endpoint (put_endpoint e ++ rest)
           (Z.of_nat (length (put_endpoint e ++ rest))) false)
    (fun '(r, d) => r = Z.of_nat (length (put_endpoint e)) /\ is_endpoint e d).
Proof.
  intros Hok Hstop. unfold parse_endpoint.
  eapply gives_lift_bind; [by apply put_endpoint_header|]. cbn beta iota.
  destruct (put_endpoint_split e) as (p & Hp & Hlen).
  destruct (Z.ltb_spec (Z.of_nat (length (put_endpoint e ++ rest))) (endpoint_length e)) as [E|_].
  { rewrite Hp, !length_app in E. lia. }
  cbn [negb Z.eqb Pos.eqb dt_value].
  destruct (fill_endpoint_ok e rest Hok) as (d & Ed & Hd).
  eapply gives_lift_bind; [exact Ed|].
  rewrite Hp, <- app_assoc. rewrite advance_app by done.
  replace (Z.of_nat (length (p ++ put_unknowns (ep_unknown e) ++ rest)) - endpoint_length e)
    with (Z.of_nat (length (put_unknowns (ep_unknown e) ++ rest))) by (rewrite !length_app; lia).
  eapply gives_lift_bind.
  { apply skip_unknowns; [|done|lia]. unfold endpoint_ok in Hok.
    by repeat (apply andb_true_iff in Hok as [Hok _]). }
  cbn beta iota. rewrite Z.add_simpl_l.
  eapply gives_bind; [apply copy_extra_ok|]. intros x (b & -> & Hx). apply gives_ret.
  split; [rewrite length_app; lia|]. by apply Hd.
Qed.

Lemma stops_put_endpoints es rest :
  stops rest -> Forall (fun e => endpoint_ok e = true) es -> stops (put_endpoints es ++ rest).
Proof.
  intros Hrest [|e es' He Hes]; [done|]. right.
  change (put_endpoints (e :: es')) with (put_endpoint e ++ put_endpoints es').
  rewrite <- app_assoc. unfold put_endpoint at 1. eexists _, _, _. split; [reflexivity|]. split; [done|].
  unfold put_endpoint, endpoint_length. rewrite !length_app.
  destruct (ep_audio e) as [[? ?]|]; simpl length; lia.
Qed.

Lemma parse_endpoints_ok es rest parsed :
  Forall (fun e => endpoint_ok e = true) es -> stops rest ->
  gives (parse_endpoints (replicate (length es) zero_endpoint) (put_endpoints es ++ rest)
           (Z.of_nat (length (put_endpoints es ++ rest))) parsed false)
    (fun '(ds, r) => Forall2 is_endpoint es ds /\
       r = inr (rest, Z.of_nat (length rest), parsed + Z.of_nat (length (put_endpoints es)))).
Proof.
  intros Hes Hrest. revert parsed. induction Hes as [|e es He Hes IH]; intros parsed.
  { apply gives_ret. simpl. by rewrite Z.add_0_r. }
  cbn [length replicate parse_endpoints].
  change (put_endpoints (e :: es)) with (put_endpoint e ++ put_endpoints es). rewrite <- app_assoc.
  eapply gives_lift_bind; [by apply put_endpoint_header|]. cbn beta iota.
  destruct (put_endpoint_split e) as (p & Hp & Hlen).
  destruct (Z.ltb_spec (Z.of_nat (length (put_endpoint e ++ put_endpoints es ++ rest))) (endpoint_length e)) as [E|_].
  { rewrite Hp, !length_app in E. lia. }
  eapply gives_bind; [by apply parse_endpoint_ok, stops_put_endpoints|].
  intros [r d] [-> Hd]. destruct (Z.ltb_spec (Z.of_nat (length (put_endpoint e))) 0); [lia|].
  rewrite advance_app by done.
  replace (Z.of_nat (length (put_endpoint e ++ put_endpoints es ++ rest)) - Z.of_nat (length (put_endpoint e)))
    with (Z.of_nat (length (put_endpoints es ++ rest))) by (rewrite !length_app; lia).
  eapply gives_bind; [apply IH|]. intros [ds res] [Hds ->]. apply gives_ret.
  split; [by constructor|]. do 2 f_equal. rewrite length_app. lia.
Qed.

(** *** Alternate settings *)

(** What may follow an alternate setting: nothing, or an interface descriptor. *)
Definition alt_stops (rest : list Z) : Prop := rest = [] \/ exists a r, rest = put_altsetting a ++ r.

Lemma alt_stops_stops rest : alt_stops rest -> stops rest.
Proof.
  intros [->|(a & r & ->)]; [by left|]. right. eexists _, _, _. split; [reflexivity|]. split; [done|].
  unfold put_altsetting. rewrite !length_app. simpl length. lia.
Qed.

(** Does the setting that follows belong to the same interface? *)
Definition next_of (rest : list Z) (parsed : Z) : alt_step :=
  match rest with
  | _ :: _ :: _ :: alternate :: _ =>
      if alternate =? 0 then AltReturn parsed else AltNext rest (Z.of_nat (length rest)) parsed
  | _ => AltReturn parsed
  end.

Lemma next_altsetting_ok rest parsed :
  alt_stops rest -> next_altsetting rest (Z.of_nat (length rest)) parsed = Ret (next_of rest parsed).
Proof.
  intros [->|(a & r & ->)]; [done|]. unfold next_altsetting, LIBUSB_DT_INTERFACE_SIZE.
  destruct (Z.ltb_spec (Z.of_nat (length (put_altsetting a ++ r))) 9) as [E|_].
  { unfold put_altsetting in E. rewrite !length_app in E. simpl length in E. lia. }
  cbn. by case_match.
Qed.

Lemma unexpected_ok rest :
  stops rest -> (forall l t r, rest = l :: t :: r -> t = 4 \/ t = 5) ->
  unexpected_descriptor rest (Z.of_nat (length rest)) = Ret false.
Proof.
  intros [->|(l & t & r & -> & Ht & Hl)] Ht45; [done|]. unfold unexpected_descriptor, DESC_HEADER_LENGTH.
  destruct (Z.ltb_spec (Z.of_nat (length (l :: t :: r))) 2); [done|]. rewrite header_cons.
  by destruct (Ht45 l t r eq_refl) as [-> | ->].
Qed.

Lemma altsetting_endpoints_ok i a rest parsed :
  altsetting_ok a = true -> alt_stops rest ->
  id_bNumEndpoints i = Z.of_nat (length (as_endpoints a)) -> id_endpoint i = None ->
  gives (parse_altsetting_endpoints i (put_endpoints (as_endpoints a) ++ rest)
           (Z.of_nat (length (put_endpoints (as_endpoints a) ++ rest))) parsed false)
    (fun '(d, next) =>
       (exists es, d = set_interface_endpoint i es /\
          Forall2 is_endpoint (as_endpoints a) (default [] (snd <$> es))) /\
       next = next_of rest (parsed + Z.of_nat (length (put_endpoints (as_endpoints a))))).
Proof.
  intros Hok Hrest Hn He. unfold altsetting_ok in Hok.
  apply andb_true_iff in Hok as [Hok H32]. apply andb_true_iff in Hok as [_ Heps].
  unfold parse_altsetting_endpoints, USB_MAXENDPOINTS. rewrite Hn.
  destruct (Z.ltb_spec 32 (Z.of_nat (length (as_endpoints a)))); [lia|].
  destruct (Z.leb_spec (Z.of_nat (length (as_endpoints a))) 0).
  { destruct (as_endpoints a); [|simpl in *; lia]. cbn [put_endpoints map concat app length].
    eapply gives_lift_bind; [by apply next_altsetting_ok|]. apply gives_ret. rewrite Z.add_0_r.
    split; [|done]. exists None. split; [|constructor]. destruct i; simpl in *. by rewrite He. }
  apply gives_malloc. intros b. rewrite Nat2Z.id.
  eapply gives_bind.
  { apply parse_endpoints_ok; [|by apply alt_stops_stops]. apply Forall_forall. intros e Hin.
    rewrite forallb_forall in Heps. by apply Heps, list_elem_of_In. }
  intros [ds res] [Hds ->]. eapply gives_lift_bind; [by apply next_altsetting_ok|]. apply gives_ret.
  split; [|done]. by exists (Some (b, ds)).
Qed.

Lemma parse_altsetting_ok a rest parsed :
  altsetting_ok a = true -> alt_stops rest ->
  gives (parse_altsetting (put_altsetting a ++ rest)
           (Z.of_nat (length (put_altsetting a ++ rest))) parsed false)
    (fun '(d, next) => is_altsetting a d /\
       next = next_of rest (parsed + Z.of_nat (length (put_altsetting a)))).
Proof.
  intros Hok Hrest. unfold parse_altsetting.
  eapply gives_lift_bind; [reflexivity|]. cbn [id_bLength].
  unfold put_altsetting. rewrite <- !app_assoc. 
  match goal with |- context [advance (?p ++ ?q) 9] => rewrite (advance_app p q 9) by done end.
  set (us := as_unknown a). set (es := as_endpoints a).
  replace (Z.of_nat (length _) - 9) with (Z.of_nat (length (put_unknowns us ++ put_endpoints es ++ rest)))
    by (rewrite !length_app; simpl length; lia).
  pose proof Hok as Hok'. unfold altsetting_ok in Hok'.
  apply andb_true_iff in Hok' as [Hok' _]. apply andb_true_iff in Hok' as [Hus Heps].
  assert (stops (put_endpoints es ++ rest)) as Hstop.
  { apply stops_put_endpoints; [by apply alt_stops_stops|]. apply Forall_forall. intros e Hin.
    rewrite forallb_forall in Heps. by apply Heps, list_elem_of_In. }
  eapply gives_lift_bind; [apply skip_unknowns; [done|done|lia]|]. cbn beta iota.
  rewrite Z.add_simpl_l. eapply gives_bind; [apply copy_extra_ok|]. intros x (b & -> & Hx).
  eapply gives_lift_bind.
  { apply unexpected_ok; [done|]. intros l t r E. destruct es as [|e es'].
    - destruct Hrest as [->|(a' & r' & ->)]; [done|]. simpl in E. injection E as <- <- _. by left.
    - simpl in E. injection E as <- <- _. by right. }
  cbn beta iota. eapply gives_mono; [by apply altsetting_endpoints_ok|].
  intros [d next] [(ep & -> & Hep) ->]. split; [by split_and!|].
  f_equal. subst us es. rewrite !length_app. simpl length. lia.
Qed.

(** *** Interfaces *)

(** What may follow an interface: nothing, or the default setting of another one. *)
Definition interface_stops (rest : list Z) : Prop :=
  rest = [] \/ exists a r, rest = put_altsetting a ++ r /\ as_alternate a = 0.

Lemma interface_stops_alt rest : interface_stops rest -> alt_stops rest.
Proof. intros [->|(a & r & -> & _)]; [by left|right; eauto]. Qed.

Lemma interface_stops_next rest parsed : interface_stops rest -> next_of rest parsed = AltReturn parsed.
Proof. intros [->|(a & r & -> & E)]; [done|]. simpl. by rewrite E. Qed.

Lemma put_interface_stops alts rest : interface_stops rest -> alt_stops (put_interface alts ++ rest).
Proof.
  intros Hrest. destruct alts as [|a alts]; [by apply interface_stops_alt|].
  right. exists a, (put_interface alts ++ rest). by rewrite app_assoc.
Qed.

Lemma length_put_altsetting a rest : 9 <= Z.of_nat (length (put_altsetting a ++ rest)).
Proof. unfold put_altsetting. rewrite !length_app. simpl length. lia. Qed.

Lemma is_interface_add u b done_ a d :
  is_interface done_ u -> is_altsetting a d -> is_interface (done_ ++ [a]) (add_altsetting u b d).
Proof.
  intros [Hn Hf] Ha. split; simpl; [rewrite Hn, length_app; simpl; lia|].
  apply Forall2_app; [done|by constructor].
Qed.

Lemma next_of_put a r parsed :
  next_of (put_altsetting a ++ r) parsed =
    if as_alternate a =? 0 then AltReturn parsed
    else AltNext (put_altsetting a ++ r) (Z.of_nat (length (put_altsetting a ++ r))) parsed.
Proof. done. Qed.

(** An iteration of the loop parses one setting, and stops or goes on as [next_of] says. *)
Lemma parse_interface_step fuel u a rest parsed R :
  altsetting_ok a = true -> alt_stops rest ->
  (forall b d, is_altsetting a d ->
     match next_of rest (parsed + Z.of_nat (length (put_altsetting a))) with
     | AltErr _ => True
     | AltReturn p => R (p, add_altsetting u b d)
     | AltNext p size parsed' =>
         gives (parse_interface_loop fuel (add_altsetting u b d) p size parsed' false) R
     end) ->
  gives (parse_interface_loop (S fuel) u (put_altsetting a ++ rest)
           (Z.of_nat (length (put_altsetting a ++ rest))) parsed false) R.
Proof.
  intros Hok Hrest HR. cbn [parse_interface_loop]. unfold INTERFACE_DESC_LENGTH.
  pose proof (length_put_altsetting a rest).
  destruct (Z.ltb_spec (Z.of_nat (length (put_altsetting a ++ rest))) 9); [lia|].
  apply gives_realloc. intros b. eapply gives_bind; [by apply parse_altsetting_ok|].
  intros [d next] [Hd ->]. specialize (HR b d Hd).
  assert (forall r, next_of rest (parsed + Z.of_nat (length (put_altsetting a))) <> AltErr r) as Hne.
  { intros r. unfold next_of. repeat case_match; congruence. }
  destruct (next_of rest _) as [r| |]; [by destruct (Hne r)|by apply gives_ret|done].
Qed.

Lemma parse_interface_loop_ok fuel u done_ a alts rest parsed :
  forallb altsetting_ok (a :: alts) = true ->
  forallb (fun a => negb (as_alternate a =? 0)) alts = true ->
  interface_stops rest -> is_interface done_ u ->
  (length (put_interface (a :: alts)) <= fuel)%nat ->
  gives (parse_interface_loop fuel u (put_interface (a :: alts) ++ rest)
           (Z.of_nat (length (put_interface (a :: alts) ++ rest))) parsed false)
    (fun '(r, u') => r = parsed + Z.of_nat (length (put_interface (a :: alts))) /\
       is_interface (done_ ++ a :: alts) u').
Proof.
  revert fuel u done_ a parsed. induction alts as [|a' alts IH];
    intros fuel u done_ a parsed Hok Halt Hrest Hu Hf;
    (destruct fuel as [|fuel]; [unfold put_interface, put_altsetting in Hf; simpl in Hf; lia|]);
    apply andb_true_iff in Hok as [Ha Hok]; unfold put_interface in *; cbn [map concat] in *.
  - rewrite app_nil_r in *. apply parse_interface_step; [done|by apply interface_stops_alt|].
    intros b d Hd. rewrite interface_stops_next by done. split; [done|]. by apply is_interface_add.
  - rewrite <- app_assoc. apply parse_interface_step; [done| |].
    { rewrite <- app_assoc. right. eauto. }
    intros b d Hd. apply andb_true_iff in Halt as [Ha' Halt]. apply negb_true_iff in Ha'.
    rewrite <- app_assoc, next_of_put, Ha', app_assoc. eapply gives_mono.
    { apply (IH fuel _ (done_ ++ [a])); [done|done|done|by apply is_interface_add|].
      pose proof (length_put_altsetting a []). rewrite app_nil_r in *. rewrite !length_app in *. lia. }
    intros [r u'] [-> Hu']. rewrite <- app_assoc in Hu'. split; [|done].
    cbn [map concat]. rewrite !length_app. lia.
Qed.

Lemma parse_interface_ok alts rest :
  interface_ok alts = true -> interface_stops rest ->
  gives (parse_interface zero_interface (put_interface alts ++ rest)
           (Z.of_nat (length (put_interface alts ++ rest))) false)
    (fun '(r, u) => r = Z.of_nat (length (put_interface alts)) /\ is_interface alts u).
Proof.
  intros Hok Hrest. destruct alts as [|a alts]; [done|]. cbn [interface_ok] in Hok.
  apply andb_true_iff in Hok as [Hok Hall]. apply andb_true_iff in Hok as [_ Halt].
  unfold parse_interface. rewrite Nat2Z.id. cbn [zero_interface if_altsetting].
  eapply gives_mono.
  { apply (parse_interface_loop_ok _ _ []); [done|done|done|by split|rewrite length_app; lia]. }
  by intros [r u] [-> Hu].
Qed.

(** *** Configurations *)

Lemma put_interfaces_stops ifs :
  Forall (fun i => interface_ok i = true) ifs -> interface_stops (put_interfaces ifs).
Proof.
  intros [|i ifs' Hi _]; [by left|]. destruct i as [|a i]; [done|]. right.
  exists a, (put_interface i ++ put_interfaces ifs'). cbn [interface_ok] in Hi.
  split; [|lia]. unfold put_interfaces, put_interface. cbn [map concat]. by rewrite <- app_assoc.
Qed.

(** The configuration after its unknown descriptors have been copied. *)
Definition extra_of (config : libusb_config_descriptor) (us : list Unknown)
    (c' : libusb_config_descriptor) : Prop :=
  (us = [] /\ c' = config) \/
  (us <> [] /\ exists b, c' = set_config_extra config b (Z.of_nat (length (put_unknowns us))) /\
     holds_unknowns b (Z.of_nat (length (put_unknowns us))) us).

Lemma config_extra_ok config us rest :
  cd_extra_length config = 0 ->
  gives (config_extra config (put_unknowns us ++ rest) (Z.of_nat (length (put_unknowns us))))
    (fun r => exists c', r = Some c' /\ extra_of config us c').
Proof.
  intros H0. unfold config_extra. rewrite H0. cbn [negb Z.eqb]. rewrite orb_false_r.
  destruct (Z.eqb_spec (Z.of_nat (length (put_unknowns us))) 0) as [E|E].
  { apply gives_ret. exists config. split; [done|]. left. split; [|done]. apply put_unknowns_nil. lia. }
  eapply gives_bind; [apply copy_extra_ok|]. intros x (b & -> & Hb). apply gives_ret.
  eexists. split; [done|]. right. split; [by intros ->|]. by exists b.
Qed.

Lemma config_extra_nil config rest : gives (config_extra config rest 0) (fun r => r = Some config).
Proof. by apply gives_ret. Qed.

Lemma parse_interfaces_step config done_ us i ifs R :
  forallb unknown_ok us = true -> Forall (fun i => interface_ok i = true) (i :: ifs) ->
  (us = [] \/ cd_extra_length config = 0) ->
  (forall c' u, extra_of config us c' -> is_interface i u ->
     gives (parse_interfaces c' (done_ ++ [u]) (replicate (length ifs) zero_interface)
              (put_interfaces ifs) (Z.of_nat (length (put_interfaces ifs))) false) R) ->
  gives (parse_interfaces config done_ (replicate (length (i :: ifs)) zero_interface)
           (put_unknowns us ++ put_interfaces (i :: ifs))
           (Z.of_nat (length (put_unknowns us ++ put_interfaces (i :: ifs)))) false) R.
Proof.
  intros Hus Hifs H0 HR. cbn [length replicate parse_interfaces].
  pose proof (alt_stops_stops _ (interface_stops_alt _ (put_interfaces_stops _ Hifs))) as Hstop.
  eapply gives_lift_bind; [apply skip_unknowns; [done|done|lia]|]. cbn beta iota. rewrite Z.add_0_l.
  apply Forall_cons in Hifs as [Hi Hifs].
  eapply (gives_bind _ _ (fun r => exists c', r = Some c' /\ extra_of config us c')).
  { destruct H0 as [->|H0]; [|by apply config_extra_ok].
    eapply gives_mono; [apply config_extra_nil|]. intros r ->. exists config. split; [done|]. by left. }
  intros r (c' & -> & Hc'). unfold put_interfaces. cbn [map concat].
  eapply gives_bind; [apply parse_interface_ok; [done|by apply put_interfaces_stops]|].
  intros [r u] [-> Hu]. destruct (Z.ltb_spec (Z.of_nat (length (put_interface i))) 0); [lia|].
  rewrite advance_app by done.
  replace (Z.of_nat _ - Z.of_nat (length (put_interface i))) with (Z.of_nat (length (put_interfaces ifs)))
    by (rewrite length_app; unfold put_interfaces; lia).
  by apply HR.
Qed.

Lemma parse_interfaces_ok config done_ l ifs :
  Forall (fun i => interface_ok i = true) ifs -> Forall2 is_interface l done_ ->
  gives (parse_interfaces config done_ (replicate (length ifs) zero_interface)
           (put_interfaces ifs) (Z.of_nat (length (put_interfaces ifs))) false)
    (fun '(c', us, r) => c' = config /\ Forall2 is_interface (l ++ ifs) us /\ r = inr 0).
Proof.
  intros Hifs. revert done_ l. induction Hifs as [|i ifs Hi Hifs IH]; intros done_ l Hl.
  { apply gives_ret. by rewrite app_nil_r. }
  apply (parse_interfaces_step config done_ [] i ifs); [done|by constructor|by left|].
  intros c' u [[_ ->]|[? _]] Hu; [|done].
  eapply gives_mono; [apply (IH (done_ ++ [u]) (l ++ [i]))|].
  { apply Forall2_app; [done|by constructor]. }
  intros [[c' us] r]. by rewrite <- app_assoc.
Qed.

Lemma forallb_Forall {A} (f : A -> bool) l : forallb f l = true -> Forall (fun x => f x = true) l.
Proof. rewrite forallb_forall, Forall_forall. intros Hl x Hx. by apply Hl, list_elem_of_In. Qed.

(** The whole array of interfaces, with the unknown descriptors in front of it. *)
Lemma parse_config_body_ok config c :
  config_ok c = true -> cd_extra_length config = 0 ->
  gives (parse_interfaces config [] (replicate (length (cf_interfaces c)) zero_interface)
           (config_body c) (Z.of_nat (length (config_body c))) false)
    (fun '(c', us, r) => extra_of config (cf_unknown c) c' /\
       Forall2 is_interface (cf_interfaces c) us /\ r = inr 0).
Proof.
  unfold config_ok, config_body. intros Hok H0. repeat apply andb_true_iff in Hok as [Hok ?].
  destruct (cf_interfaces c) as [|i ifs] eqn:Ei.
  { destruct (cf_unknown c) as [|u us]; [|by simpl in *]. apply gives_ret. split_and!; [by left|done|done]. }
  apply parse_interfaces_step; [done|by apply forallb_Forall|by right|].
  intros c' u Hc' Hu. eapply gives_mono.
  { apply (parse_interfaces_ok _ [u] [i]); [|by constructor].
    match goal with H : forallb interface_ok _ = true |- _ => apply forallb_Forall in H end.
    by eapply Forall_inv_tail. }
  by intros [[c2 us] r] (-> & ? & ->).
Qed.

Lemma fill_configuration_put c :
  fill_configuration (put_config c) false =
    Ret (mk_config_descriptor 9 2 (total_length c) (Z.of_nat (length (cf_interfaces c)))
           (cf_value c) (cf_string c) (cf_attributes c) (cf_max_power c) None None 0).
Proof.
  transitivity (Ret (mk_config_descriptor 9 2 (le16 (total_length c mod 256) (total_length c / 256))
    (Z.of_nat (length (cf_interfaces c))) (cf_value c) (cf_string c) (cf_attributes c)
    (cf_max_power c) None None 0)); [reflexivity|]. by rewrite le16_split.
Qed.

Lemma parse_configuration_gives c :
  config_ok c = true ->
  gives (parse_configuration (put_config c) false) (fun '(r, d) => r = 0 /\ is_config c d).
Proof.
  intros Hok. unfold parse_configuration. pose proof Hok as Hok'.
  unfold config_ok in Hok'. repeat apply andb_true_iff in Hok' as [Hok' ?].
  eapply gives_lift_bind; [apply fill_configuration_put|].
  cbn [cd_bNumInterfaces cd_wTotalLength cd_bLength]. unfold USB_MAXINTERFACES.
  destruct (Z.ltb_spec 32 (Z.of_nat (length (cf_interfaces c)))); [lia|].
  apply gives_malloc. intros b. rewrite Nat2Z.id.
  unfold put_config. rewrite advance_app by done.
  replace (total_length c - 9) with (Z.of_nat (length (config_body c))) by (unfold total_length; lia).
  eapply gives_bind; [by apply parse_config_body_ok|].
  intros [[c' us] r] (Hc' & Hus & ->). apply gives_ret. split; [done|].
  destruct Hc' as [[Hnil ->]|(_ & x & -> & Hx)]; split_and!; try done.
  simpl. by rewrite Hnil.
Qed.

(** Parsing the bytes of a configuration gives the configuration, all of it; the blocks
    allocated are those of the structure returned. *)
Lemma parse_configuration_put frame c h :
  config_ok c = true -> Forall is_byte (put_config c) -> plenty h -> owns frame [] h ->
  exists d h', parse_configuration (put_config c) false h = (Ret (0, d), h') /\
    is_config c d /\ config_wf d /\ owns frame (config_blocks d) h' /\ plenty h'.
Proof.
  intros Hok Hb Hh Hown. pose proof (parse_configuration_gives c Hok h Hh) as Hg.
  pose proof (parse_configuration_spec frame (put_config c) false [] h Hb Hown) as Hs.
  unfold ret_or_overrun in Hs. destruct (parse_configuration (put_config c) false h) as [[[r d]|e|u] h'].
  - destruct Hg as [[-> Hd] Hp]. destruct Hs as [[Hwf Ho]|[? _]]; [|lia].
    rewrite app_nil_r in Ho. exists d, h'. by split_and!.
  - done.
  - subst u. discriminate.
Qed.

Lemma length_put_config c : Z.of_nat (length (put_config c)) = total_length c.
Proof. unfold put_config, total_length. rewrite length_app. simpl length. lia. Qed.

Lemma parse_total c :
  usbi_parse_descriptor (take (Z.to_nat 8) (put_config c)) "bbw" false = Ret ([9; 2; total_length c], 4).
Proof.
  transitivity (Ret ([9; 2; le16 (total_length c mod 256) (total_length c / 256)], 4));
    [reflexivity|]. by rewrite le16_split.
Qed.

Context {D : Type} `{DescriptorBackend D}.

(** C25: Reading a configuration from a device that lays it out as the USB specification says
    returns that configuration: interfaces, alternate settings, endpoints and the class
    specific descriptors of each; releasing it leaves the memory as it was. *)
Theorem libusb_get_config_descriptor_put frame dev i c (s : UsbState D) :
  config_ok c = true -> Forall is_byte (put_config c) ->
  0 <= i < dev_num_configurations dev ->
  (forall len he, exists r, 0 <= r /\ backend_get_config_descriptor dev i len he (us_rest s) =
     (Ret (r, take (Z.to_nat len) (put_config c), he), us_rest s)) ->
  plenty (us_heap s) -> owns frame [] (us_heap s) ->
  exists b d h1 h2,
    libusb_get_config_descriptor dev i s = (Ret (0, Some (b, d)), mkUsb h1 (us_rest s)) /\
    is_config c d /\
    libusb_free_config_descriptor (Some (b, d)) h1 = (Ret tt, h2) /\ owns frame [] h2.
Proof.
  intros Hok Hb Hi Hfetch Hh Hown. destruct s as [h0 d0]. simpl in Hfetch, Hh, Hown.
  destruct (malloc_plenty frame [] h0 Hh Hown) as (cb & ha & Ea & Ha & Hoa).
  destruct (malloc_plenty frame [cb] ha Ha Hoa) as (bb & hb & Eb & Hb' & Hob).
  destruct (Hfetch 8 false) as (r1 & Hr1 & E1).
  destruct (Hfetch (total_length c) false) as (r2 & Hr2 & E2).
  rewrite take_ge in E2 by (pose proof (length_put_config c); lia).
  assert (owns (bb :: cb :: frame) [] hb) as Hob0 by (unfold owns in *; by rewrite Hob).
  destruct (parse_configuration_put _ c hb Hok Hb Hb' Hob0) as (d & hc & Ec & Hd & Hwf & Hoc & _).
  assert (owns frame (bb :: cb :: config_blocks d) hc) as Hoc' by (unfold owns in *; rewrite Hoc; perm).
  destruct (free_block_ret frame bb _ hc Hoc') as ([] & hd & Ed & Hod).
  destruct (free_config_ret frame cb d hd Hwf Hod) as ([] & he & Ee & Hoe).
  exists cb, d, hd, he. split; [|done].
  unfold libusb_get_config_descriptor, read_config_descriptor.
  destruct (Z.leb_spec (dev_num_configurations dev) i); [lia|].
  unfold bind at 1, on_heap at 1. cbn [us_heap us_rest]. rewrite Ea.
  unfold bind at 1, on_rest at 1. cbn [us_heap us_rest]. rewrite E1. cbn beta iota.
  destruct (Z.ltb_spec r1 0); [lia|].
  rewrite (lift_bind _ ([9; 2; total_length c], 4)) by (by apply parse_total).
  unfold bind at 1, on_heap at 1. cbn [us_heap us_rest nth]. rewrite Eb.
  unfold bind at 1, on_rest at 1. cbn [us_heap us_rest]. rewrite E2. cbn beta iota.
  destruct (Z.ltb_spec r2 0); [lia|].
  unfold bind at 1, on_heap at 1. cbn [us_heap us_rest]. rewrite Ec. cbn beta iota.
  change (0 <? 0) with false. cbn beta iota.
  unfold bind at 1, on_heap at 1. cbn [us_heap us_rest]. by rewrite Ed.
Qed.
End roundtrip.

Lemma map_bytes l n : Forall is_byte l -> map (fun b => b mod 256) (take n l) = take n l.
Proof.
  intros Hl. revert n. induction Hl as [|b l Hb Hl IH]; intros [|n]; simpl; [done..|].
  rewrite IH. f_equal. by apply Z.mod_small.
Qed.

(** A power meter: one interface of class HID with its HID descriptor and two interrupt
    endpoints, and a second one with an alternate setting. *)
Definition sample_meter : Config :=
  mkConfig 1 0 0x80 50 [mkUnknown 0x0b [0; 2; 0; 0; 0; 0]]
    [[mkAlt 0 0 3 0 0 0 [mkUnknown 0x21 [0x11; 1; 0; 1; 0x22; 29; 0]]
        [mkEndpoint 0x81 3 64 1 None []; mkEndpoint 1 3 64 1 (Some (4, 5)) [mkUnknown 0x25 [1]]]];
     [mkAlt 1 0 1 2 0 0 [] []; mkAlt 1 1 1 2 0 0 [] [mkEndpoint 0x83 1 288 4 None []]]].

Lemma sample_meter_bytes : Forall is_byte (put_config sample_meter).
Proof. repeat constructor; unfold is_byte; vm_compute; congruence. Qed.

Lemma libusb_get_config_descriptor_put_witness :
  config_ok sample_meter = true /\
  exists b d h1 h2,
    libusb_get_config_descriptor (H := little) (sample_device 1) 0
      (mkUsb (mkHeap [7%nat] []) [put_config sample_meter])
    = (Ret (0, Some (b, d)), mkUsb h1 [put_config sample_meter]) /\
    is_config sample_meter d /\
    libusb_free_config_descriptor (Some (b, d)) h1 = (Ret tt, h2) /\ owns [7%nat] [] h2.
Proof.
  split; [vm_compute; reflexivity|].
  apply (libusb_get_config_descriptor_put (H := little) [7%nat] (sample_device 1) 0 sample_meter
    (mkUsb (mkHeap [7%nat] []) [put_config sample_meter])).
  - vm_compute; reflexivity.
  - exact sample_meter_bytes.
  - simpl; lia.
  - intros len he. exists 0. split; [lia|].
    transitivity (Ret (0, map (fun b => b mod 256) (take (Z.to_nat len) (put_config sample_meter)), he)
      : outcome (Z * list Z * bool), [put_config sample_meter]); [reflexivity|].
    by rewrite (map_bytes (put_config sample_meter) _ sample_meter_bytes).
  - done.
  - unfold owns. reflexivity.
Defined.
