(* ===== verification/UsbCore.v ===== *)
(** * Devices, handles and contexts of libusb (src/external/libusb-1.0.9/libusb/core.c)

    A device lives as long as somebody refers to it: the lists given to the program, its open
    handles and the program's own references.  This file models the discovery of devices, the
    reference counts, the handles with the interfaces they claim, and the start and the end of
    the library.  The backend is the class [UsbBackend] (the functions of [usbi_os_backend] on
    devices), besides [DescriptorBackend] (UsbDescriptor.v) and [IoBackend] (UsbIo.v);
    UsbLinuxDevices.v has the instances for Linux.

    The theorems: the count of a device is the number of references to it, a device without
    references is freed and no other is; opening and closing a handle, also by the identifiers of
    a device, keep those counts, whatever fails; closing a handle leaves no transfer in flight
    that uses it, and the others in their order; the bits of a handle are the set of the
    interfaces it has claimed; the default context is shared and freed by its last user. *)
From S2P Require Import Prelude UsbBase UsbIo UsbFlight UsbTimeouts UsbDescriptor.

(** ** Devices and handles *)

(** [libusb_device_handle], src/external/libusb-1.0.9/libusb/libusbi.h:331-339, without its
    lock and its links. *)
Record libusb_device_handle := mk_handle { hd_dev : nat; hd_claimed_interfaces : Z }.

(** The devices with their reference counts and the handles, by their blocks, in a context
    ([usb_devs] and [open_devs] of [libusb_context]); [d_rest] is the backend. *)
Record Devices (K : Type) := mkDevices {
  d_devices : gmap nat (Z * libusb_device); d_usb_devs : list nat;
  d_handles : gmap nat libusb_device_handle; d_open_devs : list nat; d_rest : K }.
Arguments mkDevices {K} _ _ _ _ _.
Arguments d_devices {K} _.
Arguments d_usb_devs {K} _.
Arguments d_handles {K} _.
Arguments d_open_devs {K} _.
Arguments d_rest {K} _.

(** [discovered_devs], src/external/libusb-1.0.9/libusb/libusbi.h:454-458, in its block; [len] is
    the length of the list. *)
Record discovered_devs := mk_discovered { dc_block : nat; dc_capacity : Z; dc_devices : list nat }.

Definition DISCOVERED_DEVICES_SIZE_STEP : Z := 8.
Definition USB_MAXCONFIG : Z := 8.

(** The functions of [usbi_os_backend] on devices and handles; those that a backend may leave
    out are optional.  A device that is destroyed only loses what the backend keeps of it. *)
Class UsbBackend (K : Type) := {
  usbi_mutex_init : M K Z;
  backend_get_device_list : discovered_devs -> M (Ctx (Devices K)) (Z * discovered_devs);
  backend_open : nat -> M (Ctx (Devices K)) Z;
  backend_close : nat -> M (Ctx (Devices K)) unit;
  backend_destroy_device : option (nat -> M K unit);
  backend_get_configuration : option (nat -> M (Ctx (Devices K)) (Z * option Z));
  backend_set_configuration : nat -> Z -> M (Ctx (Devices K)) Z;
  backend_claim_interface : nat -> Z -> M K Z;
  backend_release_interface : nat -> Z -> M K Z;
  backend_set_interface_altsetting : nat -> Z -> Z -> M K Z;
  backend_clear_halt : nat -> Z -> M K Z;
  backend_reset_device : nat -> M (Ctx (Devices K)) Z;
  backend_kernel_driver_active : option (nat -> Z -> M K Z);
  backend_detach_kernel_driver : option (nat -> Z -> M K Z);
  backend_attach_kernel_driver : option (nat -> Z -> M K Z);
  (** [write] and [read] of a byte on the control pipe: whether it was transferred. *)
  usbi_write : Z -> M K bool;
  usbi_read : Z -> M K bool }.

Section core.
Context {K : Type} `{HostOrder} `{IoBackend (Devices K)} `{IoEvents (Devices K)}.
Context `{DescriptorBackend (Devices K)} `{ControlTransfer nat (Ctx (Devices K))} `{UsbBackend K}.
Implicit Types (s : Ctx (Devices K)).

Definition on_backend {A} (m : M K A) : M (Ctx (Devices K)) A :=
  on_system (fun d =>
    let '(r, k) := m (d_rest d) in
    (r, mkDevices (d_devices d) (d_usb_devs d) (d_handles d) (d_open_devs d) k)).
Definition set_devices (m : gmap nat (Z * libusb_device)) (l : list nat) : M (Ctx (Devices K)) unit :=
  on_system (modify (fun d => mkDevices m l (d_handles d) (d_open_devs d) (d_rest d))).
Definition set_handles (m : gmap nat libusb_device_handle) (l : list nat) : M (Ctx (Devices K)) unit :=
  on_system (modify (fun d => mkDevices (d_devices d) (d_usb_devs d) m l (d_rest d))).
Definition get_devices : M (Ctx (Devices K)) (Devices K) := gets c_rest.

(** What UsbDescriptor.v does, on the memory of the process and the backend. *)
Definition on_usb {A} (m : M (UsbState (Devices K)) A) : M (Ctx (Devices K)) A := fun s =>
  let '(r, u) := m (mkUsb (c_heap s) (c_rest s)) in
  (r, mkCtx (us_heap u) (c_transfers s) (c_bytes s) (c_flying s) (c_pollfds s) (c_pollfd_modify s)
        (c_events_locked s) (c_handler_active s) (c_notifiers s) (c_ctrl_pipe s) (c_timerfd s) (us_rest u)).

Definition no_device : string := "use of a device that is not allocated".
Definition no_handle : string := "use of a handle that is not allocated".
Definition get_device (dev : nat) : M (Ctx (Devices K)) (Z * libusb_device) :=
  query (fun s => match d_devices (c_rest s) !! dev with Some x => Ret x | None => Undef no_device end).
Definition get_handle (h : nat) : M (Ctx (Devices K)) libusb_device_handle :=
  query (fun s => match d_handles (c_rest s) !! h with Some x => Ret x | None => Undef no_handle end).
Definition put_device (dev : nat) (x : Z * libusb_device) : M (Ctx (Devices K)) unit :=
  let* d := get_devices in set_devices (<[dev:=x]> (d_devices d)) (d_usb_devs d).
Definition put_handle (h : nat) (x : libusb_device_handle) : M (Ctx (Devices K)) unit :=
  let* d := get_devices in set_handles (<[h:=x]> (d_handles d)) (d_open_devs d).

(** ** References *)

(** [libusb_ref_device], src/external/libusb-1.0.9/libusb/core.c:839-845. *)
Definition libusb_ref_device (dev : nat) : M (Ctx (Devices K)) nat :=
  let* '(refcnt, d) := get_device dev in
  do* put_device dev (refcnt + 1, d) in
  ret dev.

(** [libusb_unref_device], src/external/libusb-1.0.9/libusb/core.c:852-876. *)
Definition libusb_unref_device (dev : option nat) : M (Ctx (Devices K)) unit :=
  match dev with
  | None => ret tt
  | Some dev =>
      let* '(n, d) := get_device dev in
      let refcnt := n - 1 in
      do* put_device dev (refcnt, d) in
      if refcnt =? 0 then
        do* match backend_destroy_device with Some f => on_backend (f dev) | None => ret tt end in
        let* ds := get_devices in
        do* (if bool_decide (dev ∈ d_usb_devs ds)
             then set_devices (d_devices ds) (remove_flying dev (d_usb_devs ds))
             else undef "deletion from a list of an element that is not in it") in
        let* ds := get_devices in
        do* set_devices (delete dev (d_devices ds)) (d_usb_devs ds) in
        in_memory (free_block dev)
      else ret tt
  end.

(** [usbi_alloc_device], src/external/libusb-1.0.9/libusb/core.c:526-552. *)
Definition usbi_alloc_device (session_id : Z) : M (Ctx (Devices K)) (option nat) :=
  let* b := in_memory malloc in
  match b with
  | None => ret None
  | Some dev =>
      let* r := on_backend usbi_mutex_init in
      if negb (r =? 0) then do* in_memory (free_block dev) in ret None
      else
        let* ds := get_devices in
        do* set_devices (<[dev:=(1, mk_device dev 0 0 0 LIBUSB_SPEED_UNKNOWN session_id)]> (d_devices ds))
              (dev :: d_usb_devs ds) in
        ret (Some dev)
  end.

(** [usbi_sanitize_device], src/external/libusb-1.0.9/libusb/core.c:557-577. *)
Definition usbi_sanitize_device (dev : nat) : M (Ctx (Devices K)) Z :=
  let* '(n, d) := get_device dev in
  let* '(r, raw_desc, _) := on_system (backend_get_device_descriptor d false) in
  if r <? 0 then ret r
  else
    let* num_configurations := lift (byte_at raw_desc 17) in
    if USB_MAXCONFIG <? num_configurations then ret (LIBUSB_ERROR_IO : Z)
    else
      let* '(n, d) := get_device dev in
      do* put_device dev (n, mk_device (dev_id d) (dev_bus_number d) (dev_device_address d)
                               num_configurations (dev_speed d) (dev_session_data d)) in
      ret 0.

(** [usbi_get_device_by_session_id],
    src/external/libusb-1.0.9/libusb/core.c:582-597. *)
Fixpoint device_by_session (m : gmap nat (Z * libusb_device)) (l : list nat) (session_id : Z) : outcome (option nat) :=
  match l with
  | [] => Ret None
  | dev :: l' =>
      match m !! dev with
      | None => Undef no_device
      | Some (_, d) => if dev_session_data d =? session_id then Ret (Some dev) else device_by_session m l' session_id
      end
  end.
Definition usbi_get_device_by_session_id (session_id : Z) : M (Ctx (Devices K)) (option nat) :=
  query (fun s => device_by_session (d_devices (c_rest s)) (d_usb_devs (c_rest s)) session_id).

(** ** Lists of devices *)

(** [discovered_devs_alloc], src/external/libusb-1.0.9/libusb/core.c:473-483. *)
Definition discovered_devs_alloc : M (Ctx (Devices K)) (option discovered_devs) :=
  let* b := in_memory malloc in
  ret ((fun b => mk_discovered b DISCOVERED_DEVICES_SIZE_STEP []) <$> b).

(** [discovered_devs_append], src/external/libusb-1.0.9/libusb/core.c:487-512; when the list
    cannot grow the old one stays allocated. *)
Definition discovered_devs_append (discdevs : discovered_devs) (dev : nat)
    : M (Ctx (Devices K)) (option discovered_devs) :=
  let len := Z.of_nat (length (dc_devices discdevs)) in
  if len <? dc_capacity discdevs then
    do* libusb_ref_device dev in
    ret (Some (mk_discovered (dc_block discdevs) (dc_capacity discdevs) (dc_devices discdevs ++ [dev])))
  else
    let capacity := dc_capacity discdevs + DISCOVERED_DEVICES_SIZE_STEP in
    let* b := in_memory (realloc (Some (dc_block discdevs))) in
    match b with
    | None => ret None
    | Some b =>
        do* libusb_ref_device dev in
        ret (Some (mk_discovered b capacity (dc_devices discdevs ++ [dev])))
    end.

(** [discovered_devs_free], src/external/libusb-1.0.9/libusb/core.c:514-522. *)
Definition discovered_devs_free (discdevs : discovered_devs) : M (Ctx (Devices K)) unit :=
  do* for_each (dc_devices discdevs) (fun dev => libusb_unref_device (Some dev)) in
  in_memory (free_block (dc_block discdevs)).

(** [libusb_get_device_list], src/external/libusb-1.0.9/libusb/core.c:619-656: the value returned
    and [*list], the block of the array and the devices before its null. *)
Definition libusb_get_device_list : M (Ctx (Devices K)) (Z * block (list nat)) :=
  let* discdevs := discovered_devs_alloc in
  match discdevs with
  | None => ret (LIBUSB_ERROR_NO_MEM : Z, None)
  | Some discdevs =>
      let* '(r, discdevs) := backend_get_device_list discdevs in
      let* out :=
        (if r <? 0 then ret (r, None)
         else
           let* p := in_memory malloc in
           match p with
           | None => ret (LIBUSB_ERROR_NO_MEM : Z, None)
           | Some p =>
               do* for_each (dc_devices discdevs) (fun dev => do* libusb_ref_device dev in ret tt) in
               ret (Z.of_nat (length (dc_devices discdevs)), Some (p, dc_devices discdevs))
           end) in
      do* discovered_devs_free discdevs in
      ret out
  end.

(** [libusb_free_device_list], src/external/libusb-1.0.9/libusb/core.c:665-679. *)
Definition libusb_free_device_list (list : block (list nat)) (unref_devices : bool) : M (Ctx (Devices K)) unit :=
  match list with
  | None => ret tt
  | Some (p, devs) =>
      do* (if unref_devices then for_each devs (fun dev => libusb_unref_device (Some dev)) else ret tt) in
      in_memory (free_block p)
  end.

(** [libusb_get_bus_number], [libusb_get_device_address] and [libusb_get_device_speed],
    src/external/libusb-1.0.9/libusb/core.c:686-710. *)
Definition libusb_get_bus_number (dev : nat) : M (Ctx (Devices K)) Z :=
  let* '(_, d) := get_device dev in ret (dev_bus_number d).
Definition libusb_get_device_address (dev : nat) : M (Ctx (Devices K)) Z :=
  let* '(_, d) := get_device dev in ret (dev_device_address d).
Definition libusb_get_device_speed (dev : nat) : M (Ctx (Devices K)) libusb_speed :=
  let* '(_, d) := get_device dev in ret (dev_speed d).

(** ** Packet sizes *)

(** The endpoint with an address among those of an interface, and among those of the first
    interfaces of a configuration. *)
Fixpoint find_in_endpoints (es : list libusb_endpoint_descriptor) (endpoint : Z) : option libusb_endpoint_descriptor :=
  match es with
  | [] => None
  | e :: es' => if ed_bEndpointAddress e =? endpoint then Some e else find_in_endpoints es' endpoint
  end.
Fixpoint find_in_altsettings (alts : list libusb_interface_descriptor) (endpoint : Z)
    : outcome (option libusb_endpoint_descriptor) :=
  match alts with
  | [] => Ret None
  | a :: alts' =>
      es ← array_prefix (id_bNumEndpoints a) (default [] (snd <$> id_endpoint a));
      match find_in_endpoints es endpoint with
      | Some e => Ret (Some e)
      | None => find_in_altsettings alts' endpoint
      end
  end.
Fixpoint find_in_interfaces (ifs : list libusb_interface) (endpoint : Z)
    : outcome (option libusb_endpoint_descriptor) :=
  match ifs with
  | [] => Ret None
  | i :: ifs' =>
      alts ← array_prefix (if_num_altsetting i) (default [] (snd <$> if_altsetting i));
      e ← find_in_altsettings alts endpoint;
      match e with Some e => Ret (Some e) | None => find_in_interfaces ifs' endpoint end
  end.
(** [find_endpoint], src/external/libusb-1.0.9/libusb/core.c:712-735. *)
Definition find_endpoint (config : libusb_config_descriptor) (endpoint : Z)
    : outcome (option libusb_endpoint_descriptor) :=
  ifs ← array_prefix (cd_bNumInterfaces config) (default [] (snd <$> cd_interface config));
  find_in_interfaces ifs endpoint.

Definition no_config : string := "use of a configuration that was not read".

(** What [libusb_get_max_packet_size] and [libusb_get_max_iso_packet_size] do first; the
    configuration of an endpoint that is not found is not freed,
    src/external/libusb-1.0.9/libusb/core.c:753-776. *)
Definition with_endpoint (dev : nat) (endpoint : Z) (f : libusb_endpoint_descriptor -> Z) : M (Ctx (Devices K)) Z :=
  let* '(_, d) := get_device dev in
  let* '(r, config) := on_usb (libusb_get_active_config_descriptor d) in
  if r <? 0 then ret (LIBUSB_ERROR_OTHER : Z)
  else
    match config with
    | None => undef no_config
    | Some (b, c) =>
        let* ep := lift (find_endpoint c endpoint) in
        match ep with
        | None => ret (LIBUSB_ERROR_NOT_FOUND : Z)
        | Some ep => do* in_memory (libusb_free_config_descriptor (Some (b, c))) in ret (f ep)
        end
    end.
Definition libusb_get_max_packet_size (dev : nat) (endpoint : Z) : M (Ctx (Devices K)) Z :=
  with_endpoint dev endpoint ed_wMaxPacketSize.

(** The bytes in a microframe, src/external/libusb-1.0.9/libusb/core.c:823-831. *)
Definition iso_packet_size (ep : libusb_endpoint_descriptor) : Z :=
  let val := ed_wMaxPacketSize ep in
  let ep_type := Z.land (ed_bmAttributes ep) 3 in
  let r := Z.land val 0x07ff in
  if (ep_type =? LIBUSB_TRANSFER_TYPE_ISOCHRONOUS) || (ep_type =? LIBUSB_TRANSFER_TYPE_INTERRUPT)
  then r * (1 + Z.land (Z.shiftr val 11) 3) else r.
(** [libusb_get_max_iso_packet_size],
    src/external/libusb-1.0.9/libusb/core.c:802-831. *)
Definition libusb_get_max_iso_packet_size (dev : nat) (endpoint : Z) : M (Ctx (Devices K)) Z :=
  with_endpoint dev endpoint iso_packet_size.

(** ** Opening and closing *)

Definition set_pollfd_modify (n : Z) : M (Ctx (Devices K)) unit :=
  modify (fun s => mkCtx (c_heap s) (c_transfers s) (c_bytes s) (c_flying s) (c_pollfds s) n
        (c_events_locked s) (c_handler_active s) (c_notifiers s) (c_ctrl_pipe s) (c_timerfd s) (c_rest s)).
(** [pollfd_modify++] and [pollfd_modify--]; the counter is an [unsigned int]. *)
Definition pollfd_modify_add (n : Z) : M (Ctx (Devices K)) unit :=
  let* s := gets id in set_pollfd_modify (u32 (c_pollfd_modify s + n)).
Definition ctrl_write : M (Ctx (Devices K)) bool :=
  let* s := gets id in on_backend (usbi_write (c_ctrl_pipe s).2).
Definition ctrl_read : M (Ctx (Devices K)) bool :=
  let* s := gets id in on_backend (usbi_read (c_ctrl_pipe s).1).

(** [usbi_fd_notification], src/external/libusb-1.0.9/libusb/core.c:882-920; a read that fails is
    only reported. *)
Definition usbi_fd_notification : M (Ctx (Devices K)) unit :=
  do* pollfd_modify_add 1 in
  let* r := ctrl_write in
  if negb r then pollfd_modify_add (-1)
  else
    do* libusb_lock_events in
    let* _ := ctrl_read in
    do* pollfd_modify_add (-1) in
    libusb_unlock_events.

(** [libusb_open], src/external/libusb-1.0.9/libusb/core.c:941-987: the value returned and
    [*handle]. *)
Definition libusb_open (dev : nat) : M (Ctx (Devices K)) (Z * option nat) :=
  let* b := in_memory malloc in
  match b with
  | None => ret (LIBUSB_ERROR_NO_MEM : Z, None)
  | Some h =>
      let* r := on_backend usbi_mutex_init in
      if negb (r =? 0) then do* in_memory (free_block h) in ret (LIBUSB_ERROR_OTHER : Z, None)
      else
        do* libusb_ref_device dev in
        do* put_handle h (mk_handle dev 0) in
        let* r := backend_open h in
        if r <? 0 then
          do* libusb_unref_device (Some dev) in
          let* ds := get_devices in
          do* set_handles (delete h (d_handles ds)) (d_open_devs ds) in
          do* in_memory (free_block h) in
          ret (r, None)
        else
          let* ds := get_devices in
          do* set_handles (d_handles ds) (h :: d_open_devs ds) in
          do* usbi_fd_notification in
          ret (0, Some h)
  end.

(** The loop of [libusb_open_device_with_vid_pid]: the device found, or that a descriptor could
    not be read. *)
Fixpoint find_by_ids (vendor_id product_id : Z) (devs : list nat) : M (Ctx (Devices K)) (option (option nat)) :=
  match devs with
  | [] => ret (Some None)
  | dev :: devs' =>
      let* '(_, d) := get_device dev in
      let* '(r, desc) := on_system (libusb_get_device_descriptor d) in
      if r <? 0 then ret None
      else
        match desc with
        | None => undef "use of a descriptor that was not read"
        | Some desc =>
            if (dd_idVendor desc =? vendor_id) && (dd_idProduct desc =? product_id) then ret (Some (Some dev))
            else find_by_ids vendor_id product_id devs'
        end
  end.

(** [libusb_open_device_with_vid_pid],
    src/external/libusb-1.0.9/libusb/core.c:1006-1039. *)
Definition libusb_open_device_with_vid_pid (vendor_id product_id : Z) : M (Ctx (Devices K)) (option nat) :=
  let* '(n, devs) := libusb_get_device_list in
  if n <? 0 then ret None
  else
    let* found := find_by_ids vendor_id product_id (default [] (snd <$> devs)) in
    let* handle :=
      match found with
      | Some (Some found) =>
          let* '(r, handle) := libusb_open found in
          ret (if r <? 0 then None else handle)
      | _ => ret None
      end in
    do* libusb_free_device_list devs true in
    ret handle.

(** The handle of a transfer whose device has been closed. *)
Definition null_handle : nat := 0.

(** The loop of [do_close] on the transfers in flight,
    src/external/libusb-1.0.9/libusb/core.c:1053-1084. *)
Fixpoint close_transfers (handle : nat) (l : list nat) : M (Ctx (Devices K)) unit :=
  match l with
  | [] => ret tt
  | t :: l' =>
      let* '(_, tr) := get_transfer t in
      do* (if negb (bool_decide (tr_dev_handle tr = handle)) then ret tt
           else
             do* del_flying t in
             let* '(it, tr) := get_transfer t in
             put_transfer t (it, mk_transfer null_handle (tr_flags tr) (tr_endpoint tr) (tr_type tr)
               (tr_timeout tr) (tr_status tr) (tr_length tr) (tr_actual_length tr) (tr_callback tr)
               (tr_user_data tr) (tr_buffer tr) (tr_num_iso_packets tr) (tr_iso_packet_desc tr))) in
      close_transfers handle l'
  end.

(** [do_close], src/external/libusb-1.0.9/libusb/core.c:1041-1097. *)
Definition do_close (dev_handle : nat) : M (Ctx (Devices K)) unit :=
  do* libusb_lock_events in
  let* l := gets c_flying in
  do* close_transfers dev_handle l in
  do* libusb_unlock_events in
  let* ds := get_devices in
  do* (if bool_decide (dev_handle ∈ d_open_devs ds)
       then set_handles (d_handles ds) (remove_flying dev_handle (d_open_devs ds))
       else undef "deletion from a list of an element that is not in it") in
  do* backend_close dev_handle in
  let* h := get_handle dev_handle in
  do* libusb_unref_device (Some (hd_dev h)) in
  let* ds := get_devices in
  do* set_handles (delete dev_handle (d_handles ds)) (d_open_devs ds) in
  in_memory (free_block dev_handle).

(** [libusb_close], src/external/libusb-1.0.9/libusb/core.c:1110-1162. *)
Definition libusb_close (dev_handle : option nat) : M (Ctx (Devices K)) unit :=
  match dev_handle with
  | None => ret tt
  | Some h =>
      do* pollfd_modify_add 1 in
      let* r := ctrl_write in
      if negb r then do* do_close h in pollfd_modify_add (-1)
      else
        do* libusb_lock_events in
        let* _ := ctrl_read in
        do* do_close h in
        do* pollfd_modify_add (-1) in
        libusb_unlock_events
  end.

(** [libusb_get_device], src/external/libusb-1.0.9/libusb/core.c:1172-1175. *)
Definition libusb_get_device (dev_handle : nat) : M (Ctx (Devices K)) nat :=
  let* h := get_handle dev_handle in ret (hd_dev h).

(** ** Configurations and interfaces *)

(** [libusb_get_configuration], src/external/libusb-1.0.9/libusb/core.c:1197-1226: the value
    returned and [*config], when it is written. *)
Definition libusb_get_configuration (dev : nat) : M (Ctx (Devices K)) (Z * option Z) :=
  let* '(r, config) := match backend_get_configuration with
                       | Some f => f dev
                       | None => ret (LIBUSB_ERROR_NOT_SUPPORTED : Z, None)
                       end in
  if r =? LIBUSB_ERROR_NOT_SUPPORTED then
    let* '(r, tmp) := libusb_control_transfer dev LIBUSB_ENDPOINT_IN LIBUSB_REQUEST_GET_CONFIGURATION 0 0 [0] 1 1000 in
    if r =? 0 then ret (LIBUSB_ERROR_IO : Z, config)
    else if r =? 1 then let* c := lift (byte_at tmp 0) in ret (0, Some c)
    else ret (r, config)
  else ret (r, config).

(** [libusb_set_configuration], src/external/libusb-1.0.9/libusb/core.c:1266-1271. *)
Definition libusb_set_configuration (dev : nat) (configuration : Z) : M (Ctx (Devices K)) Z :=
  backend_set_configuration dev configuration.

(** [1 << interface_number] as the compiler makes it, an [int] shifted by fewer than 32 places,
    then converted to the [unsigned long] of [claimed_interfaces]. *)
Definition interface_mask (interface_number : Z) : outcome Z :=
  if interface_number <? 0 then Undef "shift by a negative number"
  else Ret (u64 (i32 (Z.shiftl 1 interface_number))).

(** [libusb_claim_interface], src/external/libusb-1.0.9/libusb/core.c:1297-1317. *)
Definition libusb_claim_interface (dev : nat) (interface_number : Z) : M (Ctx (Devices K)) Z :=
  if USB_MAXINTERFACES <=? interface_number then ret (LIBUSB_ERROR_INVALID_PARAM : Z)
  else
    let* h := get_handle dev in
    let* mask := lift (interface_mask interface_number) in
    if negb (Z.land (hd_claimed_interfaces h) mask =? 0) then ret 0
    else
      let* r := on_backend (backend_claim_interface dev interface_number) in
      do* (if r =? 0 then put_handle dev (mk_handle (hd_dev h) (Z.lor (hd_claimed_interfaces h) mask)) else ret tt) in
      ret r.

(** [libusb_release_interface],
    src/external/libusb-1.0.9/libusb/core.c:1334-1356. *)
Definition libusb_release_interface (dev : nat) (interface_number : Z) : M (Ctx (Devices K)) Z :=
  if USB_MAXINTERFACES <=? interface_number then ret (LIBUSB_ERROR_INVALID_PARAM : Z)
  else
    let* h := get_handle dev in
    let* mask := lift (interface_mask interface_number) in
    if Z.land (hd_claimed_interfaces h) mask =? 0 then ret (LIBUSB_ERROR_NOT_FOUND : Z)
    else
      let* r := on_backend (backend_release_interface dev interface_number) in
      do* (if r =? 0
           then put_handle dev (mk_handle (hd_dev h)
                  (Z.land (hd_claimed_interfaces h) (u64 (i32 (Z.lnot (i32 (Z.shiftl 1 interface_number)))))))
           else ret tt) in
      ret r.

(** [libusb_set_interface_alt_setting],
    src/external/libusb-1.0.9/libusb/core.c:1379-1396. *)
Definition libusb_set_interface_alt_setting (dev : nat) (interface_number alternate_setting : Z)
    : M (Ctx (Devices K)) Z :=
  if USB_MAXINTERFACES <=? interface_number then ret (LIBUSB_ERROR_INVALID_PARAM : Z)
  else
    let* h := get_handle dev in
    let* mask := lift (interface_mask interface_number) in
    if Z.land (hd_claimed_interfaces h) mask =? 0 then ret (LIBUSB_ERROR_NOT_FOUND : Z)
    else on_backend (backend_set_interface_altsetting dev interface_number alternate_setting).

(** [libusb_clear_halt] and [libusb_reset_device],
    src/external/libusb-1.0.9/libusb/core.c:1414-1444. *)
Definition libusb_clear_halt (dev : nat) (endpoint : Z) : M (Ctx (Devices K)) Z :=
  on_backend (backend_clear_halt dev endpoint).
Definition libusb_reset_device (dev : nat) : M (Ctx (Devices K)) Z := backend_reset_device dev.

Definition if_supported (f : option (nat -> Z -> M K Z)) (dev : nat) (interface_number : Z) : M (Ctx (Devices K)) Z :=
  match f with
  | Some f => on_backend (f dev interface_number)
  | None => ret (LIBUSB_ERROR_NOT_SUPPORTED : Z)
  end.
(** [libusb_kernel_driver_active],
    src/external/libusb-1.0.9/libusb/core.c:1463-1471. *)
Definition libusb_kernel_driver_active := if_supported backend_kernel_driver_active.
(** [libusb_detach_kernel_driver],
    src/external/libusb-1.0.9/libusb/core.c:1490-1498. *)
Definition libusb_detach_kernel_driver := if_supported backend_detach_kernel_driver.
(** [libusb_attach_kernel_driver],
    src/external/libusb-1.0.9/libusb/core.c:1520-1528. *)
Definition libusb_attach_kernel_driver := if_supported backend_attach_kernel_driver.
End core.

(** ** The start and the end of the library *)

(** The memory of the process, the contexts with their level of debugging and whether it is fixed,
    the default context ([usbi_default_context]), how often it was asked for, and the backend,
    which all contexts share. *)
Record Library (K : Type) := mkLibrary {
  lb_heap : Heap; lb_contexts : gmap nat (Ctx (Devices K)); lb_debug : gmap nat (Z * bool);
  lb_default : option nat; lb_default_refcnt : Z; lb_rest : K }.
Arguments mkLibrary {K} _ _ _ _ _ _.
Arguments lb_heap {K} _.
Arguments lb_contexts {K} _.
Arguments lb_debug {K} _.
Arguments lb_default {K} _.
Arguments lb_default_refcnt {K} _.
Arguments lb_rest {K} _.

(** The functions of [usbi_os_backend] that start and stop it. *)
Class BackendInit (K : Type) := {
  backend_init : option (M (Ctx (Devices K)) Z);
  backend_exit : option (M K unit) }.

Section library.
Context {K : Type} `{IoBackend (Devices K)} `{UsbBackend K} `{BackendInit K}.
Implicit Types (s : Library K).

Definition no_context : string := "use of a context that is not allocated".

Definition lib_memory {A} (m : M Heap A) : M (Library K) A := fun s =>
  let '(r, h) := m (lb_heap s) in
  (r, mkLibrary h (lb_contexts s) (lb_debug s) (lb_default s) (lb_default_refcnt s) (lb_rest s)).
Definition lib_backend {A} (m : M K A) : M (Library K) A := fun s =>
  let '(r, k) := m (lb_rest s) in
  (r, mkLibrary (lb_heap s) (lb_contexts s) (lb_debug s) (lb_default s) (lb_default_refcnt s) k).
Definition set_contexts (m : gmap nat (Ctx (Devices K))) : M (Library K) unit :=
  modify (fun s => mkLibrary (lb_heap s) m (lb_debug s) (lb_default s) (lb_default_refcnt s) (lb_rest s)).
Definition set_default (c : option nat) (n : Z) : M (Library K) unit :=
  modify (fun s => mkLibrary (lb_heap s) (lb_contexts s) (lb_debug s) c n (lb_rest s)).

Definition with_rest (h : Heap) (k : K) (c : Ctx (Devices K)) : Ctx (Devices K) :=
  mkCtx h (c_transfers c) (c_bytes c) (c_flying c) (c_pollfds c) (c_pollfd_modify c)
    (c_events_locked c) (c_handler_active c) (c_notifiers c) (c_ctrl_pipe c) (c_timerfd c)
    (mkDevices (d_devices (c_rest c)) (d_usb_devs (c_rest c)) (d_handles (c_rest c)) (d_open_devs (c_rest c)) k).

(** A function on a context, with the memory and the backend that the contexts share. *)
Definition in_context {A} (ctx : nat) (m : M (Ctx (Devices K)) A) : M (Library K) A := fun s =>
  match lb_contexts s !! ctx with
  | None => (Undef no_context, s)
  | Some c =>
      let '(r, c') := m (with_rest (lb_heap s) (lb_rest s) c) in
      (r, mkLibrary (c_heap c') (<[ctx:=c']> (lb_contexts s)) (lb_debug s) (lb_default s)
            (lb_default_refcnt s) (d_rest (c_rest c')))
  end.

(** What [memset] makes of a context. *)
Definition zero_context (h : Heap) (k : K) : Ctx (Devices K) :=
  mkCtx h ∅ ∅ [] [] 0 Lock_free false false (0, 0) 0 (mkDevices ∅ [] ∅ [] k).

(** The context of a call ([USBI_GET_CONTEXT]: the default one for [NULL]). *)
Definition USBI_GET_CONTEXT (ctx : option nat) s : option nat :=
  match ctx with Some c => Some c | None => lb_default s end.

(** [libusb_set_debug], src/external/libusb-1.0.9/libusb/core.c:1559-1564. *)
Definition libusb_set_debug (ctx : option nat) (level : Z) : M (Library K) unit :=
  let* s := gets id in
  match USBI_GET_CONTEXT ctx s with
  | None => undef no_context
  | Some c =>
      match lb_debug s !! c with
      | None => undef no_context
      | Some (_, true) => ret tt
      | Some (_, false) =>
          modify (fun s => mkLibrary (lb_heap s) (lb_contexts s) (<[c:=(level, false)]> (lb_debug s))
                    (lb_default s) (lb_default_refcnt s) (lb_rest s))
      end
  end.

Definition free_context (ctx : nat) : M (Library K) unit :=
  do* lib_memory (free_block ctx) in
  modify (fun s => mkLibrary (lb_heap s) (delete ctx (lb_contexts s)) (delete ctx (lb_debug s)) (lb_default s)
            (lb_default_refcnt s) (lb_rest s)).

Definition exit_backend : M (Library K) unit :=
  match backend_exit with Some f => lib_backend f | None => ret tt end.

(** [libusb_init], src/external/libusb-1.0.9/libusb/core.c:1579-1651; [context] is whether there
    is a place for the context, which is returned with the error, and [dbg] the value of the
    variable [LIBUSB_DEBUG]. *)
Definition libusb_init (context : bool) (dbg : option Z) : M (Library K) (Z * option nat) :=
  let* s := gets id in
  match context, lb_default s with
  | false, Some _ => do* set_default (lb_default s) (lb_default_refcnt s + 1) in ret (0, None)
  | _, _ =>
      let* ctx := lib_memory malloc in
      match ctx with
      | None => ret (LIBUSB_ERROR_NO_MEM : Z, None)
      | Some ctx =>
          let debug := match dbg with Some n => (n, negb (n =? 0)) | None => (0, false) end in
          do* modify (fun s => mkLibrary (lb_heap s) (<[ctx:=zero_context (lb_heap s) (lb_rest s)]> (lb_contexts s))
                        (<[ctx:=debug]> (lb_debug s)) (lb_default s) (lb_default_refcnt s) (lb_rest s)) in
          let* r := match backend_init with Some f => in_context ctx f | None => ret 0 end in
          if negb (r =? 0) then do* free_context ctx in ret (r, None)
          else
            let* r := in_context ctx usbi_io_init in
            if r <? 0 then
              do* exit_backend in
              do* free_context ctx in
              ret (r, None)
            else if (context : bool) then ret (0, Some ctx)
            else
              let* s := gets id in
              match lb_default s with
              | Some _ => ret (0, None)
              | None => do* set_default (Some ctx) (lb_default_refcnt s + 1) in ret (0, None)
              end
      end
  end.

(** The end of [libusb_exit], when the context is destroyed. *)
Definition destroy_context (ctx : nat) : M (Library K) unit :=
  do* in_context ctx usbi_io_exit in
  do* exit_backend in
  free_context ctx.

(** [libusb_exit], src/external/libusb-1.0.9/libusb/core.c:1658-1689. *)
Definition libusb_exit (ctx : option nat) : M (Library K) unit :=
  let* s := gets id in
  let ctx := USBI_GET_CONTEXT ctx s in
  let last (c : option nat) : M (Library K) unit :=
    match c with None => undef no_context | Some c => destroy_context c end in
  if bool_decide (ctx = lb_default s) then
    let n := lb_default_refcnt s - 1 in
    if 0 <? n then set_default (lb_default s) n
    else do* set_default None n in last ctx
  else last ctx.
End library.

(** ** Messages *)

(** [libusb_has_capability], src/external/libusb-1.0.9/libusb/core.c:1697-1705. *)
Definition LIBUSB_CAP_HAS_CAPABILITY : Z := 0.
Definition libusb_has_capability (capability : Z) : Z := if capability =? LIBUSB_CAP_HAS_CAPABILITY then 1 else 0.

(** The time of a message since the first one, in [usbi_log_v],
    src/external/libusb-1.0.9/libusb/core.c:1771-1780. *)
Definition log_time (now first : Z * Z) : Z * Z :=
  let now := if now.2 <? first.2 then (now.1 - 1, now.2 + 1000000) else now in
  (now.1 - first.1, now.2 - first.2).

(** [libusb_error_name], src/external/libusb-1.0.9/libusb/core.c:1831-1865. *)
Definition error_names : list (libusb_error * string) :=
  [(LIBUSB_SUCCESS, "LIBUSB_SUCCESS"); (LIBUSB_ERROR_IO, "LIBUSB_ERROR_IO");
   (LIBUSB_ERROR_INVALID_PARAM, "LIBUSB_ERROR_INVALID_PARAM"); (LIBUSB_ERROR_ACCESS, "LIBUSB_ERROR_ACCESS");
   (LIBUSB_ERROR_NO_DEVICE, "LIBUSB_ERROR_NO_DEVICE"); (LIBUSB_ERROR_NOT_FOUND, "LIBUSB_ERROR_NOT_FOUND");
   (LIBUSB_ERROR_BUSY, "LIBUSB_ERROR_BUSY"); (LIBUSB_ERROR_TIMEOUT, "LIBUSB_ERROR_TIMEOUT");
   (LIBUSB_ERROR_OVERFLOW, "LIBUSB_ERROR_OVERFLOW"); (LIBUSB_ERROR_PIPE, "LIBUSB_ERROR_PIPE");
   (LIBUSB_ERROR_INTERRUPTED, "LIBUSB_ERROR_INTERRUPTED"); (LIBUSB_ERROR_NO_MEM, "LIBUSB_ERROR_NO_MEM");
   (LIBUSB_ERROR_NOT_SUPPORTED, "LIBUSB_ERROR_NOT_SUPPORTED"); (LIBUSB_ERROR_OTHER, "LIBUSB_ERROR_OTHER")].
Fixpoint name_of_error (l : list (libusb_error * string)) (error_code : Z) : string :=
  match l with
  | [] => "**UNKNOWN**"
  | (e, n) :: l' => if error_code =? e then n else name_of_error l' error_code
  end.
Definition libusb_error_name (error_code : Z) : string := name_of_error error_names error_code.
