(* ===== verification/UsbReferences.v ===== *)
(** * References to USB devices, handles and their interfaces

    The theorems on the devices and handles of UsbCore.v.  [accounted] says that the count of
    every device is the number of references to it (the program's and those of the open handles)
    and which blocks are allocated; [UsbLaws] is what the functions of the backend promise. *)
From S2P Require Import Prelude UsbBase UsbIo UsbFlight UsbTimeouts UsbDescriptor UsbCore.

Section accounts.
Context {K : Type}.
Implicit Types (s : Ctx (Devices K)) (d : Devices K) (R L : list nat).

Definition refs_of (R : list nat) (dev : nat) : Z := Z.of_nat (count_occ Nat.eq_dec R dev).

(** The devices are those that [R] refers to, each with its number of references. *)
Definition counted R d : Prop :=
  NoDup (d_usb_devs d) /\ (forall dev, dev ∈ d_usb_devs d <-> is_Some (d_devices d !! dev)) /\
  (forall dev n x, d_devices d !! dev = Some (n, x) -> n = refs_of R dev) /\
  (forall dev, dev ∈ R <-> is_Some (d_devices d !! dev)).

(** The devices of the open handles. *)
Definition device_of d (h : nat) : nat := default 0%nat (hd_dev <$> d_handles d !! h).
Definition handle_devs d : list nat := map (device_of d) (d_open_devs d).

Definition pollfd_blocks s : list nat := map pf_block (c_pollfds s).
Definition device_blocks s : list nat := d_usb_devs (c_rest s) ++ d_open_devs (c_rest s) ++ pollfd_blocks s.

(** [R] are the references that are not those of the open handles, [L] the blocks that are neither
    devices nor open handles nor entries of the list of descriptors. *)
Definition accounted R L s : Prop :=
  counted (R ++ handle_devs (c_rest s)) (c_rest s) /\
  (forall h, h ∈ d_open_devs (c_rest s) -> is_Some (d_handles (c_rest s) !! h)) /\
  NoDup (h_live (c_heap s)) /\ h_live (c_heap s) ≡ₚ L ++ device_blocks s.

(** What the backend leaves as it was when a handle is opened or closed: everything but its
    own state and the list of descriptors, with their blocks. *)
Definition same_devices s s' : Prop :=
  d_devices (c_rest s') = d_devices (c_rest s) /\ d_usb_devs (c_rest s') = d_usb_devs (c_rest s) /\
  d_handles (c_rest s') = d_handles (c_rest s) /\ d_open_devs (c_rest s') = d_open_devs (c_rest s) /\
  c_transfers s' = c_transfers s /\ c_flying s' = c_flying s /\ u32 (c_pollfd_modify s') = u32 (c_pollfd_modify s) /\
  c_events_locked s' = c_events_locked s /\ c_handler_active s' = c_handler_active s /\
  NoDup (h_live (c_heap s')) /\
  forall l, h_live (c_heap s) ≡ₚ l ++ pollfd_blocks s -> h_live (c_heap s') ≡ₚ l ++ pollfd_blocks s'.

Lemma refs_of_perm R R' dev : R ≡ₚ R' -> refs_of R dev = refs_of R' dev.
Proof. intros HR. unfold refs_of. f_equal. induction HR; cbn [count_occ]; repeat case_match; lia. Qed.
Lemma refs_of_cons_same R dev : refs_of (dev :: R) dev = refs_of R dev + 1.
Proof. unfold refs_of. rewrite count_occ_cons_eq by done. lia. Qed.
Lemma refs_of_cons_other R dev dev' : dev <> dev' -> refs_of (dev :: R) dev' = refs_of R dev'.
Proof. intros Hne. unfold refs_of. by rewrite count_occ_cons_neq. Qed.
Lemma refs_of_none R dev : (dev ∉ R) -> refs_of R dev = 0.
Proof. intros Hn. unfold refs_of. rewrite (proj1 (count_occ_not_In _ _ _)); [done|]. by rewrite <- list_elem_of_In. Qed.
Lemma refs_of_pos R dev : dev ∈ R -> 0 < refs_of R dev.
Proof.
  intros Hd. unfold refs_of. pose proof (proj1 (count_occ_In Nat.eq_dec R dev) (proj1 (list_elem_of_In _ _) Hd)). lia.
Qed.

Lemma counted_perm R R' d : R ≡ₚ R' -> counted R d -> counted R' d.
Proof.
  intros HR (Hn & Hu & Hc & Hd). split_and!; [done|done| |].
  - intros dev n x Ex. rewrite <- (refs_of_perm _ _ _ HR). by eapply Hc.
  - intros dev. by rewrite <- HR.
Qed.

Lemma accounted_perm R R' L L' s : R ≡ₚ R' -> L ≡ₚ L' -> accounted R L s -> accounted R' L' s.
Proof.
  intros HR HL (Hc & Ho & Hn & Hb). split_and!; [|done|done|by rewrite <- HL].
  eapply counted_perm; [|exact Hc]. by rewrite HR.
Qed.

Lemma accounted_same R L s s' : accounted R L s -> same_devices s s' -> accounted R L s'.
Proof.
  intros (Hc & Ho & Hn & Hb) (E1 & E2 & E3 & E4 & _ & _ & _ & _ & _ & Hn' & Hl).
  assert (handle_devs (c_rest s') = handle_devs (c_rest s)) as Eh.
  { unfold handle_devs, device_of. by rewrite E3, E4. }
  split_and!; [|by rewrite E3, E4|done|].
  - unfold counted. rewrite Eh, E1, E2. exact Hc.
  - unfold device_blocks. rewrite E2, E4. rewrite app_assoc, app_assoc. apply Hl.
    rewrite Hb. unfold device_blocks. by rewrite <- !app_assoc.
Qed.

(** A reference more, a reference less, and the last one. *)
Lemma counted_ref R dev n x d : counted R d -> d_devices d !! dev = Some (n, x) ->
  counted (dev :: R) (mkDevices (<[dev:=(n + 1, x)]> (d_devices d)) (d_usb_devs d) (d_handles d) (d_open_devs d) (d_rest d)).
Proof.
  intros (Hn & Hu & Hc & Hd) Ex. split_and!; cbn; [done| | |].
  - intros e. rewrite Hu. destruct (decide (e = dev)) as [->|]; [|by rewrite lookup_insert_ne].
    rewrite lookup_insert_eq, Ex. by split; eauto.
  - intros e m y. destruct (decide (e = dev)) as [->|Hne].
    + rewrite lookup_insert_eq. intros [= <- <-]. rewrite refs_of_cons_same. f_equal. by eapply Hc.
    + rewrite lookup_insert_ne, refs_of_cons_other by done. apply Hc.
  - intros e. rewrite elem_of_cons, Hd. destruct (decide (e = dev)) as [->|].
    + rewrite lookup_insert_eq. split; eauto.
    + rewrite lookup_insert_ne by done. naive_solver.
Qed.

Lemma counted_unref R dev n x d : counted (dev :: R) d -> d_devices d !! dev = Some (n, x) ->
  n = refs_of R dev + 1 /\
  (dev ∈ R -> counted R (mkDevices (<[dev:=(n - 1, x)]> (d_devices d)) (d_usb_devs d) (d_handles d) (d_open_devs d) (d_rest d))).
Proof.
  intros (Hn & Hu & Hc & Hd) Ex.
  assert (n = refs_of R dev + 1) as En by (rewrite <- refs_of_cons_same; by eapply Hc). split; [done|].
  intros HR. split_and!; cbn; [done| | |].
  - intros e. rewrite Hu. destruct (decide (e = dev)) as [->|]; [|by rewrite lookup_insert_ne].
    rewrite lookup_insert_eq, Ex. by split; eauto.
  - intros e m y. destruct (decide (e = dev)) as [->|Hne].
    + rewrite lookup_insert_eq. intros [= <- <-]. lia.
    + rewrite lookup_insert_ne by done. rewrite <- (refs_of_cons_other R dev e) by done. apply Hc.
  - intros e. specialize (Hd e). rewrite elem_of_cons in Hd. destruct (decide (e = dev)) as [->|].
    + rewrite lookup_insert_eq. split; eauto.
    + rewrite lookup_insert_ne by done. naive_solver.
Qed.

Lemma counted_last R dev n x d : counted (dev :: R) d -> d_devices d !! dev = Some (n, x) -> (dev ∉ R) ->
  dev ∈ d_usb_devs d /\ (dev ∉ remove_flying dev (d_usb_devs d)) /\
  counted R (mkDevices (delete dev (d_devices d)) (remove_flying dev (d_usb_devs d)) (d_handles d) (d_open_devs d) (d_rest d)).
Proof.
  intros (Hn & Hu & Hc & Hd) Ex HR. pose proof (remove_flying_spec dev _ Hn) as Hr.
  assert (dev ∈ d_usb_devs d) as Hin by (apply Hu; eauto).
  split; [done|]. split; [rewrite Hr; naive_solver|]. split_and!; cbn.
  - destruct (remove_flying_split _ _ Hin) as (l1 & l2 & El & ->). rewrite El in Hn.
    apply NoDup_app in Hn as (H1 & H2 & H3). apply NoDup_cons in H3 as [H3 H4]. apply NoDup_app.
    split_and!; [done| |done]. intros e He1 He2. apply (H2 e He1). by right.
  - intros e. rewrite Hr, Hu. destruct (decide (e = dev)) as [->|]; [rewrite lookup_delete_eq|rewrite lookup_delete_ne by done].
    + split; [naive_solver|]. by intros [? ?].
    + naive_solver.
  - intros e m y. destruct (decide (e = dev)) as [->|]; [by rewrite lookup_delete_eq|rewrite lookup_delete_ne by done].
    intros Ey. rewrite <- (refs_of_cons_other R dev e) by done. by eapply Hc.
  - intros e. specialize (Hd e). rewrite elem_of_cons in Hd. destruct (decide (e = dev)) as [->|].
    + rewrite lookup_delete_eq. split; [done|by intros [? ?]].
    + rewrite lookup_delete_ne by done. naive_solver.
Qed.
End accounts.

(** The handles are as they were, and so are the records of the devices that [R] or an open handle
    refers to, apart from their counts. *)
Definition unharmed {K} (R : list nat) (s s' : Ctx (Devices K)) : Prop :=
  d_handles (c_rest s') = d_handles (c_rest s) /\ d_open_devs (c_rest s') = d_open_devs (c_rest s) /\
  forall dev, dev ∈ R ++ handle_devs (c_rest s) ->
    snd <$> d_devices (c_rest s') !! dev = snd <$> d_devices (c_rest s) !! dev.

Section unharmed.
Context {K : Type}.
Implicit Types (s : Ctx (Devices K)) (R L : list nat).

Lemma unharmed_refl R s : unharmed R s s.
Proof. done. Qed.
Lemma handle_devs_same s s' : d_handles (c_rest s') = d_handles (c_rest s) ->
  d_open_devs (c_rest s') = d_open_devs (c_rest s) -> handle_devs (c_rest s') = handle_devs (c_rest s).
Proof. intros Eh Eo. unfold handle_devs, device_of. by rewrite Eh, Eo. Qed.
Lemma unharmed_trans R s1 s2 s3 : unharmed R s1 s2 -> unharmed R s2 s3 -> unharmed R s1 s3.
Proof.
  intros (Eh & Eo & Ed) (Eh' & Eo' & Ed'). split_and!; [congruence|congruence|]. intros dev Hd.
  rewrite Ed', Ed; [done|done|]. by rewrite (handle_devs_same s1 s2).
Qed.
Lemma unharmed_sub R R' s s' : R ⊆ R' -> unharmed R' s s' -> unharmed R s s'.
Proof. intros HR (Eh & Eo & Ed). split_and!; [done|done|]. intros dev Hd. apply Ed. set_solver. Qed.
Lemma unharmed_same R s s' : c_rest s' = c_rest s -> unharmed R s s'.
Proof. intros E. split_and!; by rewrite E. Qed.

(** A device is determined by its record and the references to it, so accounts that are the same
    after a change that harms nothing are those of the same devices. *)
Lemma unharmed_devices R L L' s s' : accounted R L s -> accounted R L' s' -> unharmed R s s' ->
  d_devices (c_rest s') = d_devices (c_rest s).
Proof.
  intros ((_ & _ & Hc & Hd) & _) ((_ & _ & Hc' & Hd') & _) (Eh & Eo & Ed).
  rewrite (handle_devs_same s s') in Hc', Hd' by done. apply map_eq. intros dev. specialize (Ed dev).
  destruct (d_devices (c_rest s) !! dev) as [[n x]|] eqn:E, (d_devices (c_rest s') !! dev) as [[n' x']|] eqn:E'.
  - rewrite (Hc _ _ _ E), (Hc' _ _ _ E'). cbn in Ed. rewrite Hd in Ed. assert (Some x' = Some x) as [= ->] by eauto. done.
  - destruct (proj1 (Hd' dev)) as [? ?]; [apply Hd; eauto|congruence].
  - destruct (proj1 (Hd dev)) as [? ?]; [apply Hd'; eauto|congruence].
  - done.
Qed.
End unharmed.

(** What the functions of the backend promise: they return; the list of devices is added to, with
    references to devices of the context, and harms no device that there was; opening and closing
    a handle changes no device. *)
Class UsbLaws (K : Type) `{UsbBackend K} := {
  law_mutex k : exists r k', usbi_mutex_init k = (Ret r, k');
  law_write fd k : exists r k', usbi_write fd k = (Ret r, k');
  law_read fd k : exists r k', usbi_read fd k = (Ret r, k');
  law_destroy f dev k : backend_destroy_device = Some f -> exists k', f dev k = (Ret tt, k');
  law_list R L discdevs s :
    accounted (dc_devices discdevs ++ R) (dc_block discdevs :: L) s ->
    exists r discdevs' s', backend_get_device_list discdevs s = (Ret (r, discdevs'), s') /\
      accounted (dc_devices discdevs' ++ R) (dc_block discdevs' :: L) s' /\
      unharmed (dc_devices discdevs ++ R) s s' /\ dc_devices discdevs `prefix_of` dc_devices discdevs';
  law_open R L h x y s :
    accounted R L s -> d_handles (c_rest s) !! h = Some x -> d_devices (c_rest s) !! hd_dev x = Some y ->
    exists r s', backend_open h s = (Ret r, s') /\ same_devices s s';
  law_close R L h x y s :
    accounted R L s -> d_handles (c_rest s) !! h = Some x -> d_devices (c_rest s) !! hd_dev x = Some y ->
    exists s', backend_close h s = (Ret tt, s') /\ same_devices s s' }.

(** The descriptor of a device is read without changing the devices. *)
Class SteadyDescriptors (K : Type) `{HostOrder} `{DescriptorBackend (Devices K)} := {
  descriptor_of : libusb_device -> Z * option libusb_device_descriptor;
  law_has_descriptor x : 0 <= (descriptor_of x).1 -> is_Some (descriptor_of x).2;
  law_descriptor x (d : Devices K) : exists k,
    libusb_get_device_descriptor x d
    = (Ret (descriptor_of x), mkDevices (d_devices d) (d_usb_devs d) (d_handles d) (d_open_devs d) k) }.

Section references.
Context {K : Type} `{HostOrder} `{IoBackend (Devices K)} `{IoEvents (Devices K)}.
Context `{DescriptorBackend (Devices K)} `{UsbLaws K}.
Implicit Types (s : Ctx (Devices K)) (R L : list nat).

(** What a change of the references leaves as it was. *)
Definition kept s s' : Prop :=
  d_handles (c_rest s') = d_handles (c_rest s) /\ d_open_devs (c_rest s') = d_open_devs (c_rest s) /\
  c_transfers s' = c_transfers s /\ c_flying s' = c_flying s /\ c_pollfds s' = c_pollfds s /\
  c_pollfd_modify s' = c_pollfd_modify s /\ c_events_locked s' = c_events_locked s /\
  c_handler_active s' = c_handler_active s.

Lemma kept_trans s1 s2 s3 : kept s1 s2 -> kept s2 s3 -> kept s1 s3.
Proof. unfold kept. intuition congruence. Qed.

Lemma get_device_run dev s x : d_devices (c_rest s) !! dev = Some x -> get_device dev s = (Ret x, s).
Proof. intros E. unfold get_device, query. by rewrite E. Qed.
Lemma get_handle_run h s x : d_handles (c_rest s) !! h = Some x -> get_handle h s = (Ret x, s).
Proof. intros E. unfold get_handle, query. by rewrite E. Qed.

Lemma referenced R L dev s : accounted R L s -> dev ∈ R \/ dev ∈ handle_devs (c_rest s) ->
  exists n x, d_devices (c_rest s) !! dev = Some (n, x).
Proof.
  intros ((_ & _ & _ & Hd) & _) Hin. destruct (proj1 (Hd dev)) as [[n x] E]; [by apply elem_of_app|]. eauto.
Qed.

Lemma ref_run R L dev s : accounted R L s -> dev ∈ R \/ dev ∈ handle_devs (c_rest s) ->
  exists s', libusb_ref_device dev s = (Ret dev, s') /\ accounted (dev :: R) L s' /\ kept s s' /\
    c_heap s' = c_heap s /\ (forall e, is_Some (d_devices (c_rest s) !! e) -> is_Some (d_devices (c_rest s') !! e)) /\
    forall R', unharmed R' s s'.
Proof.
  intros HA Hin. destruct (referenced _ _ _ _ HA Hin) as (n & x & Ex). destruct HA as (Hc & Ho & Hn & Hb).
  unfold libusb_ref_device. rewrite (bind_Ret _ _ _ _ _ (get_device_run _ _ _ Ex)).
  eexists. split; [reflexivity|]. split; [|split; [done|split; [done|]]].
  - split_and!; [|done|done|done]. by apply (counted_ref (R ++ handle_devs (c_rest s))).
  - split.
    + intros e. cbn. destruct (decide (e = dev)) as [->|]; [by rewrite lookup_insert_eq; eauto|by rewrite lookup_insert_ne].
    + intros R'. split_and!; [done|done|]. intros e _. cbn.
      destruct (decide (e = dev)) as [->|]; [by rewrite lookup_insert_eq, Ex|by rewrite lookup_insert_ne].
Qed.

(** The state with other devices and another backend, and with another memory. *)
Definition upd_devices s (m : gmap nat (Z * libusb_device)) (l : list nat) (k : K) : Ctx (Devices K) :=
  mkCtx (c_heap s) (c_transfers s) (c_bytes s) (c_flying s) (c_pollfds s) (c_pollfd_modify s) (c_events_locked s)
    (c_handler_active s) (c_notifiers s) (c_ctrl_pipe s) (c_timerfd s)
    (mkDevices m l (d_handles (c_rest s)) (d_open_devs (c_rest s)) k).
Definition upd_heap s (h : Heap) : Ctx (Devices K) :=
  mkCtx h (c_transfers s) (c_bytes s) (c_flying s) (c_pollfds s) (c_pollfd_modify s) (c_events_locked s)
    (c_handler_active s) (c_notifiers s) (c_ctrl_pipe s) (c_timerfd s) (c_rest s).

Lemma put_device_run dev x s :
  put_device dev x s = (Ret tt, upd_devices s (<[dev:=x]> (d_devices (c_rest s))) (d_usb_devs (c_rest s)) (d_rest (c_rest s))).
Proof. done. Qed.
Lemma set_devices_run m l s : set_devices m l s = (Ret tt, upd_devices s m l (d_rest (c_rest s))).
Proof. done. Qed.

Lemma destroy_run dev s : exists k',
  match backend_destroy_device with Some f => on_backend (f dev) | None => ret tt end s
  = (Ret tt, upd_devices s (d_devices (c_rest s)) (d_usb_devs (c_rest s)) k').
Proof.
  destruct backend_destroy_device as [f|] eqn:Ef.
  - destruct (law_destroy f dev (d_rest (c_rest s)) Ef) as [k' E]. exists k'.
    unfold on_backend, on_system. by rewrite E.
  - exists (d_rest (c_rest s)). by destruct s as [? ? ? ? ? ? ? ? ? ? ? []].
Qed.

Lemma free_run b l s : h_live (c_heap s) ≡ₚ b :: l -> NoDup (h_live (c_heap s)) ->
  exists h, in_memory (free_block b) s = (Ret tt, upd_heap s h) /\ h_live h ≡ₚ l /\ NoDup (h_live h).
Proof.
  intros Hl Hn. unfold in_memory, free_block. destruct (remove_block_perm _ _ _ Hl) as (l' & -> & Hl').
  eexists. split; [reflexivity|]. cbn. split; [done|]. rewrite Hl in Hn. rewrite Hl'. by apply NoDup_cons in Hn as [_ ?].
Qed.

Lemma alloc_run s : NoDup (h_live (c_heap s)) -> exists o h, in_memory malloc s = (Ret o, upd_heap s h) /\
  NoDup (h_live h) /\
  match o with
  | None => h_live h = h_live (c_heap s)
  | Some b => (b ∉ h_live (c_heap s)) /\ h_live h = b :: h_live (c_heap s)
  end.
Proof.
  intros Hn. unfold in_memory, malloc.
  pose proof (infinite_is_fresh (h_live (c_heap s))) as Hf.
  destruct (h_fails (c_heap s)) as [|[] fs].
  - exists (Some (fresh (h_live (c_heap s)))). eexists. split; [reflexivity|]. cbn. split; [by constructor|done].
  - exists None. eexists. by split.
  - exists (Some (fresh (h_live (c_heap s)))). eexists. split; [reflexivity|]. cbn. split; [by constructor|done].
Qed.

Lemma unref_run R L dev s : accounted (dev :: R) L s ->
  exists s', libusb_unref_device (Some dev) s = (Ret tt, s') /\ accounted R L s' /\ kept s s' /\ unharmed R s s'.
Proof.
  intros HA. destruct (referenced _ _ dev _ HA) as (n & x & Ex); [left; by left|].
  destruct HA as (Hc & Ho & Hn & Hb). cbn [app] in Hc.
  destruct (counted_unref _ _ _ _ _ Hc Ex) as [En Hmore].
  cbn [libusb_unref_device]. erewrite bind_Ret by (apply get_device_run; exact Ex). cbn beta iota.
  erewrite bind_Ret by apply put_device_run. destruct (Z.eqb_spec (n - 1) 0) as [E0|E0].
  - assert (dev ∉ R ++ handle_devs (c_rest s)) as Hlast by (intros Hd; apply refs_of_pos in Hd; lia).
    destruct (counted_last _ _ _ _ _ Hc Ex Hlast) as (Hin & _ & Hcl).
    match goal with |- context [upd_devices s ?m ?l ?k] => destruct (destroy_run dev (upd_devices s m l k)) as [k' Ek] end.
    erewrite bind_Ret by exact Ek. erewrite bind_Ret by reflexivity. cbn [c_rest d_usb_devs upd_devices].
    rewrite bool_decide_eq_true_2 by done. erewrite bind_Ret by apply set_devices_run.
    erewrite bind_Ret by reflexivity. erewrite bind_Ret by apply set_devices_run.
    cbn [c_rest d_usb_devs d_devices d_handles d_open_devs d_rest upd_devices].
    rewrite delete_insert_eq.
    destruct (remove_flying_split _ _ Hin) as (l1 & l2 & El & Er).
    match goal with |- context [in_memory _ ?st] => destruct (free_run dev (L ++ (l1 ++ l2) ++ d_open_devs (c_rest s) ++ pollfd_blocks s) st) as (h & Eh & Hl & Hn') end.
    { cbn. rewrite Hb. unfold device_blocks. rewrite El, <- !Permutation_middle. cbn. rewrite <- Permutation_middle. done. }
    { done. }
    eexists. split; [exact Eh|]. split; [|split; [done|]].
    + split_and!; [exact Hcl|done|done|]. unfold device_blocks. cbn. by rewrite Er.
    + split_and!; [done|done|]. intros e He. cbn. apply f_equal, lookup_delete_ne. intros <-. done.
  - eexists. split; [reflexivity|]. split; [|split; [done|]].
    2: { split_and!; [done|done|]. intros e _. cbn. destruct (decide (e = dev)) as [->|];
           [by rewrite lookup_insert_eq, Ex|by rewrite lookup_insert_ne]. }
    split_and!; [|done|done|done]. apply Hmore.
    destruct (decide (dev ∈ R ++ handle_devs (c_rest s))) as [|Hnin]; [done|]. apply refs_of_none in Hnin. lia.
Qed.

Lemma unref_all R L l s : accounted (l ++ R) L s ->
  exists s', for_each l (fun dev => libusb_unref_device (Some dev)) s = (Ret tt, s') /\ accounted R L s' /\ kept s s' /\
    unharmed R s s'.
Proof.
  revert s. induction l as [|dev l IH]; intros s HA; [by exists s|]. cbn [for_each].
  destruct (unref_run (l ++ R) L dev s HA) as (s1 & E1 & HA1 & K1 & U1).
  destruct (IH s1 HA1) as (s2 & E2 & HA2 & K2 & U2). exists s2.
  erewrite bind_Ret by exact E1. split; [done|]. split; [done|]. split; [by eapply kept_trans|].
  eapply unharmed_trans; [|exact U2]. eapply unharmed_sub; [|exact U1]. set_solver.
Qed.

Lemma ref_all R L l s : accounted R L s -> (forall dev, dev ∈ l -> dev ∈ R) ->
  exists s', for_each l (fun dev => do* libusb_ref_device dev in ret tt) s = (Ret tt, s') /\
    accounted (l ++ R) L s' /\ kept s s' /\ unharmed R s s'.
Proof.
  revert R s. induction l as [|dev l IH]; intros R s HA Hl; [by exists s|]. cbn [for_each].
  destruct (ref_run R L dev s HA) as (s1 & E1 & HA1 & K1 & _ & _ & U1); [left; apply Hl; by left|].
  destruct (IH (dev :: R) s1 HA1) as (s2 & E2 & HA2 & K2 & U2); [intros e He; right; apply Hl; by right|].
  exists s2. erewrite bind_Ret by (erewrite bind_Ret by exact E1; reflexivity). split; [done|].
  split; [|split; [by eapply kept_trans|eapply unharmed_trans; [apply U1|eapply unharmed_sub; [|exact U2]; set_solver]]]. eapply accounted_perm; [|done|exact HA2]. by rewrite <- Permutation_middle.
Qed.

Lemma accounted_heap R L s h L' : accounted R L s -> NoDup (h_live h) ->
  h_live h ≡ₚ L' ++ device_blocks s -> accounted R L' (upd_heap s h).
Proof. intros (Hc & Ho & _ & _) Hn Hl. by split_and!. Qed.

(** Allocating and freeing a block that is not a device. *)
Lemma alloc_accounted R L s : accounted R L s -> exists o s', in_memory malloc s = (Ret o, s') /\
  accounted R (match o with Some b => [b] | None => [] end ++ L) s' /\ kept s s' /\ c_rest s' = c_rest s /\
  forall b, o = Some b -> b ∉ h_live (c_heap s).
Proof.
  intros HA. pose proof HA as (_ & _ & Hn & Hb). destruct (alloc_run s Hn) as (o & h & E & Hn' & Ho).
  exists o, (upd_heap s h). split; [done|]. split; [|split; [done|split; [done|]]].
  - eapply accounted_heap; [exact HA|done|]. destruct o as [b|]; [|by rewrite Ho, Hb].
    destruct Ho as [_ ->]. by rewrite Hb.
  - intros b ->. by destruct Ho.
Qed.
Lemma free_accounted R L b s : accounted R (b :: L) s ->
  exists s', in_memory (free_block b) s = (Ret tt, s') /\ accounted R L s' /\ kept s s' /\ c_rest s' = c_rest s.
Proof.
  intros HA. pose proof HA as (_ & _ & Hn & Hb). destruct (free_run b (L ++ device_blocks s) s) as (h & E & Hl & Hn'); [done|done|].
  exists (upd_heap s h). split; [done|]. split; [|done]. by eapply accounted_heap.
Qed.

Lemma free_discovered_run R L d s : accounted (dc_devices d ++ R) (dc_block d :: L) s ->
  exists s', discovered_devs_free d s = (Ret tt, s') /\ accounted R L s' /\ unharmed R s s'.
Proof.
  intros HA. unfold discovered_devs_free. destruct (unref_all R (dc_block d :: L) _ s HA) as (s1 & E1 & HA1 & _ & U1).
  destruct (free_accounted R L _ s1 HA1) as (s2 & E2 & HA2 & _ & Er). exists s2. erewrite bind_Ret by exact E1.
  split; [done|]. split; [done|]. eapply unharmed_trans; [exact U1|]. by apply unharmed_same.
Qed.

(** The list that the backend made, in the block that was allocated for it, before it is copied. *)
Definition backend_listed s (devs : list nat) : Prop :=
  exists b s1 r d s2, in_memory malloc s = (Ret (Some b), s1) /\
    backend_get_device_list (mk_discovered b DISCOVERED_DEVICES_SIZE_STEP []) s1 = (Ret (r, d), s2) /\
    0 <= r /\ dc_devices d = devs.

(** A list of devices is returned whole, with a reference to each device and the block of the
    array, or not at all. *)
Lemma device_list_run R L s : accounted R L s ->
  exists r o s', libusb_get_device_list s = (Ret (r, o), s') /\ unharmed R s s' /\
    match o with
    | Some (p, devs) =>
        r = Z.of_nat (length devs) /\ backend_listed s devs /\ accounted (devs ++ R) (p :: L) s'
    | None => r < 0 /\ accounted R L s'
    end.
Proof.
  intros HA. unfold libusb_get_device_list, discovered_devs_alloc.
  destruct (alloc_accounted R L s HA) as (o & s1 & E1 & HA1 & _ & Er1 & _).
  pose proof (unharmed_same R s s1 Er1) as U1.
  erewrite bind_Ret by (erewrite bind_Ret by exact E1; reflexivity).
  destruct o as [b|]; cbn [fmap option_fmap option_map]; [|by exists (LIBUSB_ERROR_NO_MEM : Z), None, s1].
  destruct (law_list R L (mk_discovered b DISCOVERED_DEVICES_SIZE_STEP []) s1 HA1) as (r & d & s2 & E2 & HA2 & U2 & _).
  pose proof (unharmed_trans _ _ _ _ U1 U2) as U02.
  erewrite bind_Ret by exact E2. cbn beta iota. destruct (Z.ltb_spec r 0) as [Hr|Hr].
  - erewrite bind_Ret by reflexivity. destruct (free_discovered_run R L d s2 HA2) as (s3 & E3 & HA3 & U3).
    erewrite bind_Ret by exact E3. exists r, None, s3. split; [done|]. split; [by eapply unharmed_trans|done].
  - destruct (alloc_accounted _ _ s2 HA2) as (o & s3 & E3 & HA3 & _ & Er3 & _).
    pose proof (unharmed_trans _ _ _ _ U02 (unharmed_same R s2 s3 Er3)) as U03. destruct o as [p|].
    + destruct (ref_all _ _ (dc_devices d) s3 HA3) as (s4 & E4 & HA4 & _ & U4); [intros e He; apply elem_of_app; by left|].
      erewrite bind_Ret by (erewrite bind_Ret by exact E3; cbn beta iota; erewrite bind_Ret by exact E4; reflexivity).
      destruct (free_discovered_run (dc_devices d ++ R) (p :: L) d s4) as (s5 & E5 & HA5 & U5).
      { eapply accounted_perm; [done| |exact HA4]. apply Permutation_swap. }
      erewrite bind_Ret by exact E5. exists (Z.of_nat (length (dc_devices d))), (Some (p, dc_devices d)), s5.
      split; [done|]. split; [|split; [done|split; [by exists b, s1, r, d, s2|done]]].
      eapply unharmed_trans; [exact U03|]. eapply unharmed_sub; [|eapply unharmed_trans; [exact U4|exact U5]]. set_solver.
    + erewrite bind_Ret by (erewrite bind_Ret by exact E3; reflexivity).
      destruct (free_discovered_run R L d s3 HA3) as (s4 & E4 & HA4 & U4).
      erewrite bind_Ret by exact E4. exists (LIBUSB_ERROR_NO_MEM : Z), None, s4. split; [done|].
      split; [by eapply unharmed_trans|done].
Qed.

Lemma free_list_run R L p devs s : accounted (devs ++ R) (p :: L) s ->
  exists s', libusb_free_device_list (Some (p, devs)) true s = (Ret tt, s') /\ accounted R L s' /\ kept s s' /\
    unharmed R s s'.
Proof.
  intros HA. cbn [libusb_free_device_list]. destruct (unref_all R _ devs s HA) as (s1 & E1 & HA1 & K1 & U1).
  destruct (free_accounted R L p s1 HA1) as (s2 & E2 & HA2 & K2 & Er2). exists s2. erewrite bind_Ret by exact E1.
  split; [done|]. split; [done|]. split; [by eapply kept_trans|].
  eapply unharmed_trans; [exact U1|]. by apply unharmed_same.
Qed.

(** C4: the program gets exactly the devices that the backend listed, in its order, with a
    reference to each, or an error and nothing, in which case the devices, with their counts, are
    the ones that there were; in both cases the handles and the records of the devices that there
    were are untouched. Freeing the list with its references leaves the handles, the devices with
    their counts and the memory as they were before it was asked for. *)
Theorem device_list_balanced R L s : accounted R L s ->
  exists r o s', libusb_get_device_list s = (Ret (r, o), s') /\ unharmed R s s' /\
    match o with
    | Some (p, devs) =>
        r = Z.of_nat (length devs) /\ backend_listed s devs /\ accounted (devs ++ R) (p :: L) s' /\
        exists s'', libusb_free_device_list o true s' = (Ret tt, s'') /\ accounted R L s'' /\
          unharmed R s s'' /\ d_devices (c_rest s'') = d_devices (c_rest s)
    | None => r < 0 /\ accounted R L s' /\ d_devices (c_rest s') = d_devices (c_rest s)
    end.
Proof.
  intros HA. destruct (device_list_run R L s HA) as (r & o & s' & E & U & Ho). exists r, o, s'. split; [done|].
  split; [done|]. destruct o as [[p devs]|].
  - destruct Ho as (Hr & Hb & HA'). split; [done|]. split; [done|]. split; [done|].
    destruct (free_list_run R L p devs s' HA') as (s'' & Ef & HA'' & _ & U'').
    pose proof (unharmed_trans _ _ _ _ U U'') as U2. exists s''. split; [done|]. split; [done|]. split; [done|].
    by eapply unharmed_devices.
  - destruct Ho as [Hr HA']. split; [done|]. split; [done|]. by eapply unharmed_devices.
Qed.

(** ** Opening *)

Lemma write_run s : exists r k', ctrl_write s = (Ret r, upd_devices s (d_devices (c_rest s)) (d_usb_devs (c_rest s)) k').
Proof.
  unfold ctrl_write. destruct (law_write (c_ctrl_pipe s).2 (d_rest (c_rest s))) as (r & k' & E). exists r, k'.
  erewrite bind_Ret by reflexivity. unfold on_backend, on_system, id. by rewrite E.
Qed.
Lemma read_run s : exists r k', ctrl_read s = (Ret r, upd_devices s (d_devices (c_rest s)) (d_usb_devs (c_rest s)) k').
Proof.
  unfold ctrl_read. destruct (law_read (c_ctrl_pipe s).1 (d_rest (c_rest s))) as (r & k' & E). exists r, k'.
  erewrite bind_Ret by reflexivity. unfold on_backend, on_system, id. by rewrite E.
Qed.

Lemma u32_up_down n : u32 (u32 (u32 (n + 1) + -1)) = u32 n.
Proof. unfold u32. rewrite Zmod_mod, Zplus_mod_idemp_l. by replace (n + 1 + -1) with n by lia. Qed.

(** *** The lock of the events *)

(** How often this thread holds the lock, and the lock that it holds so often. *)
Definition lock_depth (o : events_lock) : nat := match o with Lock_mine again => S again | _ => 0 end.
Definition lock_held (n : nat) : events_lock := match n with O => Lock_free | S again => Lock_mine again end.

Definition upd_lock s (o : events_lock) (active : bool) : Ctx (Devices K) :=
  mkCtx (c_heap s) (c_transfers s) (c_bytes s) (c_flying s) (c_pollfds s) (c_pollfd_modify s) o active
    (c_notifiers s) (c_ctrl_pipe s) (c_timerfd s) (c_rest s).

(** The transfers in flight are allocated and in the list once. *)
Definition flying_known s : Prop :=
  NoDup (c_flying s) /\ forall t, t ∈ c_flying s -> is_Some (c_transfers s !! t).

(** The thread that holds the lock gives it back; until then the other threads may handle
    events, so transfers may come and go, but what they take they give back. *)
Class LockGivenBack := {
  law_wait R L s : accounted R L s -> c_events_locked s = Lock_other ->
    exists s', events_lock_wait s = (Ret tt, s') /\ accounted R L s' /\ unharmed R s s' /\
      c_pollfd_modify s' = c_pollfd_modify s /\ c_events_locked s' = Lock_free /\
      (flying_known s -> flying_known s') }.
Context `{!LockGivenBack}.

(** The state in which this thread gets the lock: at once, or after another thread had it. *)
Definition lock_got s s1 : Prop :=
  match c_events_locked s with
  | Lock_other => exists s0, c_flying s0 = c_flying s /\ c_transfers s0 = c_transfers s /\
      events_lock_wait s0 = (Ret tt, s1)
  | _ => c_flying s1 = c_flying s /\ c_transfers s1 = c_transfers s
  end.

Lemma lock_run R L s : accounted R L s ->
  exists s1, libusb_lock_events s = (Ret tt, upd_lock s1 (Lock_mine (lock_depth (c_events_locked s))) true) /\
    lock_got s s1 /\ accounted R L s1 /\ unharmed R s s1 /\ c_pollfd_modify s1 = c_pollfd_modify s /\
    (flying_known s -> flying_known s1).
Proof.
  intros HA. unfold libusb_lock_events, lock_got, id. erewrite bind_Ret by reflexivity. cbv beta.
  destruct (c_events_locked s) eqn:El; [by exists s|by exists s|].
  destruct (law_wait R L s HA El) as (s1 & E & HA1 & U & Em & E1 & Hf). exists s1. erewrite bind_Ret by exact E.
  erewrite bind_Ret by reflexivity. cbv beta. rewrite E1. split; [done|]. split; [by exists s|done].
Qed.

Lemma unlock_run n s : c_events_locked s = Lock_mine n -> libusb_unlock_events s = (Ret tt, upd_lock s (lock_held n) false).
Proof. intros E. unfold libusb_unlock_events, id. erewrite bind_Ret by reflexivity. cbv beta. rewrite E. by destruct n. Qed.

Lemma notification_run R L s : accounted R L s ->
  exists s', usbi_fd_notification s = (Ret tt, s') /\ accounted R L s' /\ unharmed R s s' /\
    u32 (c_pollfd_modify s') = u32 (c_pollfd_modify s).
Proof.
  intros HA. unfold usbi_fd_notification. erewrite bind_Ret by reflexivity.
  match goal with |- context [bind ctrl_write _ ?st] => destruct (write_run st) as (r & k' & E) end.
  erewrite bind_Ret by exact E. destruct r; cbn [negb].
  - match goal with |- context [bind libusb_lock_events _ ?st] =>
      destruct (lock_run R L st HA) as (s1 & E1 & _ & HA1 & U1 & Em1 & _) end.
    erewrite bind_Ret by exact E1.
    match goal with |- context [bind ctrl_read _ ?st] => destruct (read_run st) as (r2 & k2 & E2) end.
    erewrite bind_Ret by exact E2. erewrite bind_Ret by reflexivity. eexists.
    split; [by eapply unlock_run|]. split; [exact HA1|]. split; [exact U1|]. cbn. rewrite Em1. cbn. apply u32_up_down.
  - eexists. split; [reflexivity|]. split; [exact HA|]. split; [done|]. cbn. apply u32_up_down.
Qed.

Definition upd_handles s (m : gmap nat libusb_device_handle) (l : list nat) : Ctx (Devices K) :=
  mkCtx (c_heap s) (c_transfers s) (c_bytes s) (c_flying s) (c_pollfds s) (c_pollfd_modify s) (c_events_locked s)
    (c_handler_active s) (c_notifiers s) (c_ctrl_pipe s) (c_timerfd s)
    (mkDevices (d_devices (c_rest s)) (d_usb_devs (c_rest s)) m l (d_rest (c_rest s))).

Lemma mutex_run s : exists r k',
  on_backend usbi_mutex_init s = (Ret r, upd_devices s (d_devices (c_rest s)) (d_usb_devs (c_rest s)) k').
Proof.
  destruct (law_mutex (d_rest (c_rest s))) as (r & k' & E). exists r, k'. unfold on_backend, on_system. by rewrite E.
Qed.

Lemma device_of_ext (d d' : Devices K) l : (forall h, h ∈ l -> d_handles d' !! h = d_handles d !! h) ->
  map (device_of d') l = map (device_of d) l.
Proof.
  intros Hl. apply map_ext_in. intros h Hh. unfold device_of. rewrite Hl; [done|]. by apply list_elem_of_In.
Qed.

(** Changing the handles that are not open. *)
Lemma accounted_handles R L s m : accounted R L s ->
  (forall h, h ∈ d_open_devs (c_rest s) -> m !! h = d_handles (c_rest s) !! h) ->
  accounted R L (upd_handles s m (d_open_devs (c_rest s))).
Proof.
  intros (Hc & Ho & Hn & Hb) Hm. split_and!; [|intros h Hh; cbn; rewrite Hm by done; by apply Ho|done|done].
  unfold handle_devs. cbn [c_rest d_open_devs upd_handles].
  erewrite (device_of_ext (c_rest s)); [exact Hc|]. exact Hm.
Qed.

(** A handle that is not open yet becomes open, with its reference, and back. *)
Lemma accounted_open R L s h x : d_handles (c_rest s) !! h = Some x ->
  accounted (hd_dev x :: R) (h :: L) s ->
  accounted R L (upd_handles s (d_handles (c_rest s)) (h :: d_open_devs (c_rest s))).
Proof.
  intros Ex (Hc & Ho & Hn & Hb). split_and!; [| |done|].
  - eapply counted_perm; [|exact Hc]. unfold handle_devs. cbn [c_rest d_open_devs upd_handles map].
    unfold device_of at 2. cbn [d_handles]. rewrite Ex. cbn. by rewrite <- Permutation_middle.
  - cbn. intros g [->|Hg]%elem_of_cons; [by rewrite Ex|by apply Ho].
  - rewrite Hb. unfold device_blocks. cbn. by rewrite <- !Permutation_middle.
Qed.
Lemma accounted_close R L s h x : d_handles (c_rest s) !! h = Some x -> h ∈ d_open_devs (c_rest s) ->
  accounted R L s ->
  accounted (hd_dev x :: R) (h :: L) (upd_handles s (d_handles (c_rest s)) (remove_flying h (d_open_devs (c_rest s)))).
Proof.
  intros Ex Hh (Hc & Ho & Hn & Hb). destruct (remove_flying_split _ _ Hh) as (l1 & l2 & El & Er).
  split_and!; [| |done|].
  - eapply counted_perm; [|exact Hc]. unfold handle_devs. cbn [c_rest d_open_devs upd_handles].
    rewrite Er, El, !map_app. cbn [map]. unfold device_of at 2. rewrite Ex. cbn.
    by rewrite <- !Permutation_middle.
  - cbn. rewrite Er. intros g Hg. apply Ho. rewrite El. apply elem_of_app in Hg. apply elem_of_app.
    destruct Hg; [by left|right; by right].
  - rewrite Hb. unfold device_blocks. cbn. rewrite Er, El. cbn.
    rewrite <- !app_assoc. cbn. rewrite <- !Permutation_middle. done.
Qed.

Lemma open_fresh R L s h : accounted R L s -> (h ∉ h_live (c_heap s)) -> h ∉ d_open_devs (c_rest s).
Proof.
  intros (_ & _ & _ & Hb) Hf Hh. apply Hf. rewrite Hb. unfold device_blocks. rewrite !elem_of_app. auto.
Qed.

Lemma open_nodup R L s : accounted R L s -> NoDup (d_open_devs (c_rest s)).
Proof.
  intros (_ & _ & Hn & Hb). rewrite Hb in Hn. apply NoDup_app in Hn as (_ & _ & Hn). unfold device_blocks in Hn.
  apply NoDup_app in Hn as (_ & _ & Hn). by apply NoDup_app in Hn as (Hn & _).
Qed.

(** Opening a device gives a handle on it, whose reference to the device is counted, or an error
    and nothing. *)
Lemma open_run R L dev s :
  accounted R L s -> dev ∈ R \/ dev ∈ handle_devs (c_rest s) ->
  exists r o s', libusb_open dev s = (Ret (r, o), s') /\ accounted R L s' /\
    match o with
    | Some h => r = 0 /\ d_open_devs (c_rest s') = h :: d_open_devs (c_rest s) /\ device_of (c_rest s') h = dev /\
                (h ∉ d_open_devs (c_rest s))
    | None => r < 0 /\ d_open_devs (c_rest s') = d_open_devs (c_rest s)
    end.
Proof.
  intros HA Hdev. unfold libusb_open.
  destruct (alloc_accounted R L s HA) as (o & s1 & E1 & HA1 & K1 & Er1 & Hfresh).
  erewrite bind_Ret by exact E1. destruct o as [h|].
  2: { exists (LIBUSB_ERROR_NO_MEM : Z), None, s1. by rewrite Er1. }
  cbn [app] in HA1. specialize (open_fresh R L s h HA (Hfresh h eq_refl)) as Hh. clear Hfresh.
  destruct (mutex_run s1) as (rm & k' & Em). erewrite bind_Ret by exact Em.
  assert (accounted R (h :: L) (upd_devices s1 (d_devices (c_rest s1)) (d_usb_devs (c_rest s1)) k')) as HA2 by exact HA1.
  set (s2 := upd_devices s1 _ _ k') in *. destruct (rm =? 0); cbn [negb].
  2: { destruct (free_accounted R L h s2 HA2) as (s3 & E3 & HA3 & K3 & Er3). erewrite bind_Ret by exact E3.
       exists (LIBUSB_ERROR_OTHER : Z), None, s3. split; [done|]. split; [done|]. split; [done|].
       rewrite Er3. cbn. by rewrite Er1. }
  destruct (ref_run R (h :: L) dev s2 HA2) as (s3 & E3 & HA3 & K3 & _).
  { cbn. unfold handle_devs, device_of. cbn. rewrite Er1. exact Hdev. }
  erewrite bind_Ret by exact E3. erewrite bind_Ret by reflexivity.
  destruct K3 as (Kh & Ko & _ & _ & _ & Km). 
  assert (d_open_devs (c_rest s3) = d_open_devs (c_rest s)) as Eo by (rewrite Ko; cbn; by rewrite Er1).
  assert (accounted (dev :: R) (h :: L) (upd_handles s3 (<[h:=mk_handle dev 0]> (d_handles (c_rest s3))) (d_open_devs (c_rest s3)))) as HA4.
  { apply accounted_handles; [done|]. intros g Hg. apply lookup_insert_ne. intros ->. by rewrite Eo in Hg. }
  set (s4 := upd_handles s3 _ _) in *.
  assert (d_handles (c_rest s4) !! h = Some (mk_handle dev 0)) as Ex4 by apply lookup_insert_eq.
  destruct (referenced _ _ dev s4 HA4) as (n & y & Ey); [left; by left|].
  destruct (law_open _ _ h _ _ s4 HA4 Ex4 Ey) as (r & s5 & E5 & Hsame). erewrite bind_Ret by exact E5.
  pose proof (accounted_same _ _ _ _ HA4 Hsame) as HA5. destruct Hsame as (_ & _ & Eh5 & Eo5 & _ & _ & Em5 & Hn5 & _).
  rewrite <- Eh5 in Ex4.
  assert (d_open_devs (c_rest s5) = d_open_devs (c_rest s)) as Eo' by (rewrite Eo5; exact Eo). destruct (Z.ltb_spec r 0).
  - destruct (unref_run R (h :: L) dev s5 HA5) as (s6 & E6 & HA6 & (Kh6 & Ko6 & _) & _). erewrite bind_Ret by exact E6.
    erewrite bind_Ret by reflexivity. erewrite bind_Ret by reflexivity.
    assert (accounted R (h :: L) (upd_handles s6 (delete h (d_handles (c_rest s6))) (d_open_devs (c_rest s6)))) as HA7.
    { apply accounted_handles; [done|]. intros g Hg. apply lookup_delete_ne. intros ->. by rewrite Ko6, Eo' in Hg. }
    destruct (free_accounted R L h _ HA7) as (s8 & E8 & HA8 & _ & Er8). erewrite bind_Ret by exact E8.
    exists r, None, s8. split; [done|]. split; [done|]. split; [done|]. rewrite Er8. cbn. by rewrite Ko6, Eo'.
  - erewrite bind_Ret by reflexivity. erewrite bind_Ret by reflexivity.
    pose proof (accounted_open R L s5 h _ Ex4 HA5) as HA6.
    destruct (notification_run _ _ _ HA6) as (s7 & E7 & HA7 & (Eh7 & Eo7 & _) & _).
    erewrite bind_Ret by exact E7. exists 0, (Some h), s7. split; [done|]. split; [exact HA7|]. split; [done|].
    split; [rewrite Eo7; cbn; by rewrite Eo'|]. split; [|done].
    unfold device_of. rewrite Eh7. cbn. by rewrite Ex4.
Qed.

(** The first of some devices with the identifiers; none when a descriptor cannot be read
    before it is found. *)
Fixpoint first_with_ids `{!SteadyDescriptors K} (v p : Z) (m : gmap nat (Z * libusb_device)) (l : list nat)
    : option (option nat) :=
  match l with
  | [] => Some None
  | dev :: l' =>
      match m !! dev with
      | None => None
      | Some (_, x) =>
          match descriptor_of x with
          | (r, Some d) =>
              if r <? 0 then None
              else if (dd_idVendor d =? v) && (dd_idProduct d =? p) then Some (Some dev)
              else first_with_ids v p m l'
          | (_, None) => None
          end
      end
  end.

Lemma first_with_ids_in `{!SteadyDescriptors K} v p m l dev : first_with_ids v p m l = Some (Some dev) -> dev ∈ l.
Proof.
  induction l as [|e l IH]; cbn [first_with_ids]; [done|]. intros E. rewrite elem_of_cons.
  repeat case_match; simplify_eq; auto.
Qed.
Lemma find_by_ids_run `{!SteadyDescriptors K} R L v p l s : accounted R L s -> (forall dev, dev ∈ l -> dev ∈ R) ->
  exists k, let s' := upd_devices s (d_devices (c_rest s)) (d_usb_devs (c_rest s)) k in
    find_by_ids v p l s = (Ret (first_with_ids v p (d_devices (c_rest s)) l), s').
Proof.
  revert s. induction l as [|dev l IH]; intros s HA Hl.
  { exists (d_rest (c_rest s)). by destruct s as [? ? ? ? ? ? ? ? ? ? ? []]. }
  destruct (referenced _ _ dev s HA) as (n & x & Ex); [left; apply Hl; by left|].
  cbn [find_by_ids first_with_ids]. erewrite bind_Ret by (apply get_device_run; exact Ex). rewrite Ex. cbn beta iota.
  destruct (law_descriptor x (c_rest s)) as [k E].
  erewrite bind_Ret by (unfold on_system; rewrite E; reflexivity).
  pose proof (law_has_descriptor x) as Hd. destruct (descriptor_of x) as [r [d|]]; cbn [fst snd] in Hd.
  - destruct (r <? 0); [by exists k|]. destruct (_ && _); [by exists k|].
    destruct (IH (upd_devices s (d_devices (c_rest s)) (d_usb_devs (c_rest s)) k) HA) as (k2 & E2); [intros e He; apply Hl; by right|].
    exists k2. exact E2.
  - destruct (Z.ltb_spec r 0); [by exists k|]. destruct (Hd ltac:(lia)) as [? [=]].
Qed.

(** Opening by the identifiers of a device takes the first device that has them, and whatever
    fails on the way it leaves every reference and every block as it was, except for those of the
    handle it returns. *)
Theorem open_device_with_vid_pid_balanced `{!SteadyDescriptors K} R L v p s :
  accounted R L s ->
  exists o s', libusb_open_device_with_vid_pid v p s = (Ret o, s') /\ accounted R L s' /\
    forall h, o = Some h -> exists s1 q devs,
      libusb_get_device_list s = (Ret (Z.of_nat (length devs), Some (q, devs)), s1) /\
      first_with_ids v p (d_devices (c_rest s1)) devs = Some (Some (device_of (c_rest s') h)) /\
      h ∈ d_open_devs (c_rest s').
Proof.
  intros HA. unfold libusb_open_device_with_vid_pid.
  destruct (device_list_run R L s HA) as (r & o & s1 & E1 & _ & Ho). erewrite bind_Ret by exact E1. cbn beta iota.
  destruct o as [[q devs]|]; [destruct Ho as (-> & _ & HA1)|destruct Ho as [Hr HA1]].
  2: { destruct (Z.ltb_spec r 0); [|lia]. by exists None, s1. }
  destruct (Z.ltb_spec (Z.of_nat (length devs)) 0); [lia|]. cbn [fmap option_fmap option_map snd default].
  destruct (find_by_ids_run _ _ v p devs s1 HA1) as [k E2]; [intros e He; apply elem_of_app; by left|].
  erewrite bind_Ret by exact E2. set (s2 := upd_devices s1 _ _ k).
  assert (accounted (devs ++ R) (q :: L) s2) as HA2 by exact HA1.
  assert (forall (o : option nat) s3, accounted (devs ++ R) (q :: L) s3 -> exists s',
    (do* libusb_free_device_list (Some (q, devs)) true in ret o : M _ (option nat)) s3 = (Ret o, s') /\ accounted R L s' /\ kept s3 s') as Hfree.
  { intros o s3 HA3. destruct (free_list_run R L q devs s3 HA3) as (s4 & E4 & HA4 & K4 & _). exists s4.
    by erewrite bind_Ret by exact E4. }
  destruct (first_with_ids v p (d_devices (c_rest s1)) devs) as [[dev|]|] eqn:Ef.
  2: { erewrite bind_Ret by reflexivity. destruct (Hfree None s2 HA2) as (s' & E' & HA' & _). by exists None, s'. }
  2: { erewrite bind_Ret by reflexivity. destruct (Hfree None s2 HA2) as (s' & E' & HA' & _). by exists None, s'. }
  assert (dev ∈ devs) as Hdev by (eapply first_with_ids_in; exact Ef).
  destruct (open_run (devs ++ R) (q :: L) dev s2 HA2) as (r & o & s3 & E3 & HA3 & Ho); [left; apply elem_of_app; by left|].
  erewrite bind_Ret by (erewrite bind_Ret by exact E3; reflexivity).
  destruct (Hfree (if r <? 0 then None else o) s3 HA3) as (s' & E' & HA' & (Kh & Ko & _)).
  exists (if r <? 0 then None else o), s'. split; [done|]. split; [done|]. intros h Eh. exists s1, q, devs.
  destruct (r <? 0); [done|]. subst o. destruct Ho as (-> & Hopen & Hof & _). split; [done|].
  split; [|rewrite Ko, Hopen; by left]. rewrite Ef. unfold device_of in *. rewrite Kh. by rewrite Hof.
Qed.

(** ** Closing *)

(** What the loop of [do_close] changes. *)
Definition with_flight s (m : gmap nat (usbi_transfer * libusb_transfer)) (l : list nat) : Ctx (Devices K) :=
  mkCtx (c_heap s) m (c_bytes s) l (c_pollfds s) (c_pollfd_modify s) (c_events_locked s)
    (c_handler_active s) (c_notifiers s) (c_ctrl_pipe s) (c_timerfd s) (c_rest s).

Lemma close_transfers_run h done todo s :
  c_flying s = done ++ todo -> flying_known s ->
  exists m, close_transfers h todo s = (Ret tt, with_flight s m (done ++ others_of (c_transfers s) h todo)) /\
    (forall t, (t ∉ todo) -> m !! t = c_transfers s !! t) /\
    (forall t, t ∈ others_of (c_transfers s) h todo -> m !! t = c_transfers s !! t).
Proof.
  revert done s. induction todo as [|t todo IH]; intros done s El [Hnd Hin].
  { exists (c_transfers s). split; [|done]. destruct s. cbn in *. by subst. }
  cbn [close_transfers]. destruct (Hin t) as [[it tr] Ex]; [rewrite El; apply elem_of_app; right; by left|].
  assert (get_transfer t s = (Ret (it, tr), s)) as Eg by (unfold get_transfer, query, find_transfer; by rewrite Ex).
  erewrite bind_Ret by exact Eg. cbn beta iota.
  assert ((t ∉ done) /\ (t ∉ todo)) as [Hd Ht].
  { rewrite El in Hnd. apply NoDup_app in Hnd as (_ & Hd & Hnd). apply NoDup_cons in Hnd as [Ht _].
    split; [|done]. intros Hc. by apply (Hd t Hc); left. }
  assert (others_of (c_transfers s) h (t :: todo)
          = (if bool_decide (tr_dev_handle tr = h) then [] else [t]) ++ others_of (c_transfers s) h todo) as Eo.
  { assert (handle_of_transfer (c_transfers s) t = Some (tr_dev_handle tr)) as Eh by (unfold handle_of_transfer; by rewrite Ex).
    unfold others_of. cbn [List.filter]. destruct (decide (tr_dev_handle tr = h)) as [Eqh|Hne].
    - by rewrite !bool_decide_true by congruence.
    - by rewrite !bool_decide_false by congruence. }
  rewrite Eo. destruct (decide (tr_dev_handle tr = h)) as [Eqh|Hne].
  - rewrite !bool_decide_true by done. cbn [negb app].
    set (tr' := mk_transfer null_handle (tr_flags tr) (tr_endpoint tr) (tr_type tr) (tr_timeout tr) (tr_status tr)
      (tr_length tr) (tr_actual_length tr) (tr_callback tr) (tr_user_data tr) (tr_buffer tr) (tr_num_iso_packets tr)
      (tr_iso_packet_desc tr)).
    erewrite bind_Ret.
    2: { unfold del_flying. erewrite bind_Ret; [|erewrite bind_Ret by exact Eg; erewrite bind_Ret by reflexivity;
           rewrite El, bool_decide_true, remove_flying_middle by (done || (apply elem_of_app; right; by left)); reflexivity].
         erewrite bind_Ret; [|unfold get_transfer, query, find_transfer; cbn; rewrite Ex; reflexivity]. reflexivity. }
    match goal with |- context [close_transfers _ _ ?st] => set (s1 := st) end.
    destruct (IH done s1) as (m & E & Hm & Ho); [done| |].
    { split; cbn.
      - rewrite El in Hnd. apply NoDup_app in Hnd as (H1' & H2' & H3'). apply NoDup_cons in H3' as [_ H3'].
        apply NoDup_app. split_and!; [done| |done]. intros e He1 He2. apply (H2' e He1). by right.
      - intros e He. destruct (decide (e = t)) as [->|]; [by rewrite lookup_insert_eq|rewrite lookup_insert_ne by done].
        apply Hin. rewrite El. apply elem_of_app in He. apply elem_of_app. destruct He; [by left|right; by right]. }
    assert (others_of (c_transfers s1) h todo = others_of (c_transfers s) h todo) as Eo1.
    { apply others_of_ext. intros e He. cbn. apply lookup_insert_ne. by intros ->. }
    exists m. rewrite E, Eo1. split; [done|].
    assert (forall e, (e <> t) -> c_transfers s1 !! e = c_transfers s !! e) as Hs1 by (intros e He; cbn; by apply lookup_insert_ne).
    split.
    + intros e He. rewrite not_elem_of_cons in He. destruct He as [He1 He2]. by rewrite Hm, Hs1.
    + intros e He. rewrite Eo1 in Ho. rewrite (Ho e He). apply Hs1. intros ->. apply Ht.
      unfold others_of in He. apply list_elem_of_In, filter_In in He as [He _]. by apply list_elem_of_In.
  - rewrite !bool_decide_false by done. cbn [negb]. erewrite bind_Ret by reflexivity.
    destruct (IH (done ++ [t]) s) as (m & E & Hm & Ho); [by rewrite El, <- app_assoc|done|].
    exists m. rewrite E, <- app_assoc. split; [done|]. split.
    + intros e He. apply Hm. rewrite not_elem_of_cons in He. by destruct He.
    + intros e [->|He]%elem_of_cons; [by apply Hm|by apply Ho].
Qed.

(** What closing a handle leaves. *)
Definition closed R L (h : nat) s s' : Prop :=
  accounted R L s' /\ d_open_devs (c_rest s') = remove_flying h (d_open_devs (c_rest s)) /\
  c_flying s' = others_of (c_transfers s) h (c_flying s) /\
  (forall t, t ∈ c_flying s' -> c_transfers s' !! t = c_transfers s !! t).

Lemma do_close_run R L h s : accounted R L s -> h ∈ d_open_devs (c_rest s) -> flying_known s ->
  exists s1 s', do_close h s = (Ret tt, s') /\ lock_got s s1 /\ closed R L h s1 s' /\
    d_open_devs (c_rest s1) = d_open_devs (c_rest s) /\ u32 (c_pollfd_modify s') = u32 (c_pollfd_modify s) /\
    c_events_locked s' = lock_held (lock_depth (c_events_locked s)) /\ c_handler_active s' = false.
Proof.
  intros HA0 Hh0 Hf0. unfold do_close.
  destruct (lock_run R L s HA0) as (s0 & El & Hgot & HA & (_ & Eo0 & _) & Em0 & Hf). specialize (Hf Hf0).
  assert (h ∈ d_open_devs (c_rest s0)) as Hh by by rewrite Eo0.
  erewrite bind_Ret by exact El. erewrite bind_Ret by reflexivity.
  match goal with |- context [bind (close_transfers _ _) _ ?st] => set (s1 := st) end.
  destruct (close_transfers_run h [] (c_flying s1) s1 eq_refl Hf) as (m & E1 & _ & Ho).
  erewrite bind_Ret by exact E1. erewrite bind_Ret by (apply unlock_run; reflexivity). erewrite bind_Ret by reflexivity.
  cbn [c_rest with_flight s1 upd_lock]. rewrite bool_decide_true by done. erewrite bind_Ret by reflexivity.
  destruct (proj1 (proj2 HA) h Hh) as [x Ex].
  match goal with |- context [bind (backend_close h) _ ?st] => set (s2 := st) end.
  assert (accounted (hd_dev x :: R) (h :: L) s2) as HA2 by exact (accounted_close R L s0 h x Ex Hh HA).
  destruct (referenced _ _ (hd_dev x) s2 HA2) as (n & y & Ey); [left; by left|].
  destruct (law_close _ _ h x (n, y) s2 HA2 Ex Ey) as (s3 & E3 & Hsame). erewrite bind_Ret by exact E3.
  pose proof (accounted_same _ _ _ _ HA2 Hsame) as HA3.
  destruct Hsame as (_ & _ & Eh3 & Eo3 & Et3 & Ef3 & Em3 & El3 & Ea3 & Hn3 & _).
  erewrite bind_Ret by (apply get_handle_run; rewrite Eh3; exact Ex).
  destruct (unref_run R (h :: L) (hd_dev x) s3 HA3) as (s4 & E4 & HA4 & (Kh & Ko & Kt & Kf & _ & Km & Kl & Ka) & _).
  erewrite bind_Ret by exact E4. erewrite bind_Ret by reflexivity. erewrite bind_Ret by reflexivity.
  assert (accounted R (h :: L) (upd_handles s4 (delete h (d_handles (c_rest s4))) (d_open_devs (c_rest s4)))) as HA5.
  { apply accounted_handles; [done|]. intros g Hg. apply lookup_delete_ne. intros ->.
    rewrite Ko, Eo3 in Hg. cbn in Hg. apply remove_flying_spec in Hg; [by destruct Hg|].
    eapply open_nodup; exact HA. }
  destruct (free_accounted R L h _ HA5) as (s6 & E6 & HA6 & (_ & Ko6 & Kt6 & Kf6 & _ & Km6 & Kl6 & Ka6) & _).
  exists s0, s6. split; [exact E6|]. split; [done|]. split; [split_and!|split_and!].
  - done.
  - rewrite Ko6. cbn. by rewrite Ko, Eo3.
  - rewrite Kf6. cbn. by rewrite Kf, Ef3.
  - rewrite Kf6, Kt6. cbn. rewrite Kf, Ef3, Kt, Et3. intros t Ht. by apply Ho.
  - done.
  - rewrite Km6. cbn. rewrite Km, Em3. cbn. by rewrite Em0.
  - rewrite Kl6. cbn. by rewrite Kl, El3.
  - rewrite Ka6. cbn. by rewrite Ka, Ea3.
Qed.

(** C6: closing a handle returns, at once or, while another thread holds the lock of the events,
    when that thread has given it back; then the handle is not open any more, its reference to the
    device and its memory are given back, no transfer that was in flight when the lock was got is
    one of its own, the others are as they were and in their order, and event handlers are not
    kept away from the descriptors: nobody waits to change them who did not before, no handler is
    active, and this thread holds the lock exactly as often as before the call. *)
Theorem libusb_close_forgets R L h s :
  accounted R L s -> h ∈ d_open_devs (c_rest s) -> flying_known s -> is_u32 (c_pollfd_modify s) ->
  exists s1 s', libusb_close (Some h) s = (Ret tt, s') /\ lock_got s s1 /\ accounted R L s' /\
    d_open_devs (c_rest s') = remove_flying h (d_open_devs (c_rest s)) /\
    c_flying s' = others_of (c_transfers s1) h (c_flying s1) /\
    (forall t, t ∈ c_flying s' -> c_transfers s' !! t = c_transfers s1 !! t) /\
    c_pollfd_modify s' = c_pollfd_modify s /\ c_handler_active s' = false /\
    c_events_locked s' = lock_held (lock_depth (c_events_locked s)).
Proof.
  intros HA Hh Hf Hm. cbn [libusb_close]. erewrite bind_Ret by reflexivity.
  assert (forall x, u32 x = u32 (u32 (c_pollfd_modify s + 1)) -> u32 (x + -1) = c_pollfd_modify s) as Hback.
  { intros x Ex. unfold u32 in *. rewrite Zmod_mod in Ex. rewrite <- Zplus_mod_idemp_l, Ex, Zplus_mod_idemp_l.
    replace (c_pollfd_modify s + 1 + -1) with (c_pollfd_modify s) by lia. by apply u32_id. }
  match goal with |- context [bind ctrl_write _ ?st] => destruct (write_run st) as (r & k' & E) end.
  erewrite bind_Ret by exact E. destruct r; cbn [negb].
  - match goal with |- context [bind libusb_lock_events _ ?st] =>
      destruct (lock_run R L st HA) as (s1 & E1 & Hgot & HA1 & (_ & Eo1 & _) & Em1 & Hf1) end. specialize (Hf1 Hf).
    erewrite bind_Ret by exact E1.
    match goal with |- context [bind ctrl_read _ ?st] => destruct (read_run st) as (r2 & k2 & E2) end.
    erewrite bind_Ret by exact E2. assert (h ∈ d_open_devs (c_rest s1)) as Hh1 by by rewrite Eo1.
    match goal with |- context [bind (do_close h) _ ?st] =>
      destruct (do_close_run R L h st HA1 Hh1 Hf1) as (s2 & s3 & E3 & [Ef Et] & (Ha & Hb & Hc & Hd) & Eo & He & El & _) end.
    erewrite bind_Ret by exact E3. erewrite bind_Ret by reflexivity.
    exists s1. eexists. split; [apply (unlock_run (lock_depth (c_events_locked s))); exact El|]. cbn in Ef, Et, Eo, El. rewrite Ef, Et in Hc. rewrite Et in Hd.
    split_and!; [exact Hgot|exact Ha| |exact Hc|exact Hd| |done|done]; cbn.
    + rewrite Hb, Eo. cbn. by rewrite Eo1.
    + apply Hback. rewrite He. cbn. by rewrite Em1.
  - match goal with |- context [bind (do_close h) _ ?st] =>
      destruct (do_close_run R L h st HA Hh Hf) as (s2 & s3 & E3 & Hgot & (Ha & Hb & Hc & Hd) & Eo & He & El & Eact) end.
    erewrite bind_Ret by exact E3. exists s2. eexists. split; [reflexivity|].
    split_and!; [exact Hgot|exact Ha| |exact Hc|exact Hd| |exact Eact|exact El]; cbn.
    + by rewrite Hb, Eo.
    + apply Hback. exact He.
Qed.
End references.
