(* ===== verification/UsbClaims.v ===== *)
(** * The interfaces that a handle has claimed, packet sizes and contexts

    The theorems on the rest of UsbCore.v: the bits of a handle are the set of the interfaces it
    has claimed; the endpoint whose packet size is asked for is the first one with its address,
    and its configuration leaks when there is none; the default context is shared by those who
    have asked for it and freed by the last one. *)
From S2P Require Import Prelude UsbBase UsbIo UsbFlight UsbTimeouts UsbDescriptor UsbCore UsbReferences.

(** ** Bits *)

(** [1 << i] as an [int]. *)
Definition int_bit (i : Z) : Z := i32 (Z.shiftl 1 i).

Lemma int_bit_spec i k : 0 <= i < 32 -> 0 <= k < 64 ->
  Z.testbit (int_bit i) k = (k =? i) || ((i =? 31) && (31 <=? k)).
Proof.
  intros Hi Hk. unfold int_bit. rewrite Z.shiftl_1_l. destruct (Z.eqb_spec i 31) as [->|Hne].
  - change (i32 (2 ^ 31)) with (- 2 ^ 31). rewrite Z.bits_opp by lia.
    change (Z.pred (2 ^ 31)) with (Z.ones 31). cbn [andb]. destruct (Z.leb_spec 31 k).
    + rewrite Z.ones_spec_high by lia. by rewrite orb_true_r.
    + rewrite Z.ones_spec_low by lia. destruct (Z.eqb_spec k 31); [lia|done].
  - rewrite i32_id. 2: { unfold is_i32. pose proof (Z.pow_lt_mono_r 2 i 31). pose proof (Z.pow_pos_nonneg 2 i). lia. }
    cbn [andb]. rewrite orb_false_r. destruct (Z.eqb_spec k i) as [->|]; [by rewrite Z.pow2_bits_true by lia|].
    by rewrite Z.pow2_bits_false by lia.
Qed.

Lemma u64_bits z k : 0 <= k < 64 -> Z.testbit (u64 z) k = Z.testbit z k.
Proof. intros Hk. unfold u64. by rewrite Z.mod_pow2_bits_low by lia. Qed.
Lemma u64_bits_high z k : 64 <= k -> Z.testbit (u64 z) k = false.
Proof. intros Hk. unfold u64. by rewrite Z.mod_pow2_bits_high by lia. Qed.

Lemma int_bit_i32 i : 0 <= i < 32 -> i32 (Z.lnot (int_bit i)) = Z.lnot (int_bit i).
Proof.
  intros Hi. apply i32_id. unfold is_i32, int_bit. pose proof (i32_range (Z.shiftl 1 i)) as Hr. unfold is_i32 in Hr.
  unfold Z.lnot. lia.
Qed.

(** The bits of a handle stand for a set of interfaces; those from 32 on are as bit 31. *)
Definition claims (c : Z) (X : gset Z) : Prop :=
  (forall i, i ∈ X -> 0 <= i < 32) /\
  (forall k, 0 <= k < 64 -> Z.testbit c k = bool_decide (Z.min k 31 ∈ X)) /\
  (forall k, 64 <= k -> Z.testbit c k = false).

Lemma claims_test c X i : claims c X -> 0 <= i < 32 ->
  (Z.land c (u64 (int_bit i)) =? 0) = negb (bool_decide (i ∈ X)).
Proof.
  intros (_ & Hc & Hh) Hi. destruct (bool_decide_reflect (i ∈ X)) as [Hin|Hin]; cbn [negb].
  - apply Z.eqb_neq. intros E. assert (Z.testbit (Z.land c (u64 (int_bit i))) i = true) as Ht.
    { rewrite Z.land_spec, Hc, u64_bits, int_bit_spec by lia. rewrite Z.min_l, bool_decide_true by (done || lia).
      by rewrite Z.eqb_refl. }
    by rewrite E, Z.bits_0 in Ht.
  - apply Z.eqb_eq, Z.bits_inj'. intros k Hk. rewrite Z.bits_0, Z.land_spec. destruct (decide (k < 64)).
    2: { by rewrite u64_bits_high, andb_false_r by lia. }
    rewrite Hc, u64_bits, int_bit_spec by lia. destruct (Z.eqb_spec k i) as [->|Hne].
    { rewrite Z.min_l, bool_decide_false by (done || lia). done. }
    destruct (Z.eqb_spec i 31) as [->|]; [|by rewrite andb_false_r]. cbn [andb orb].
    destruct (Z.leb_spec 31 k); [|by rewrite andb_false_r]. by rewrite Z.min_r, bool_decide_false by (done || lia).
Qed.

Lemma claims_add c X i : claims c X -> 0 <= i < 32 -> claims (Z.lor c (u64 (int_bit i))) ({[i]} ∪ X).
Proof.
  intros (Hr & Hc & Hh) Hi. split_and!.
  - intros j. rewrite elem_of_union, elem_of_singleton. intros [->|Hj]; [done|by apply Hr].
  - intros k Hk. rewrite Z.lor_spec, Hc, u64_bits, int_bit_spec by lia.
    destruct (bool_decide_reflect (Z.min k 31 ∈ X)) as [Hin|Hin]; cbn [orb].
    { symmetry. apply bool_decide_true. set_solver. }
    destruct (decide (Z.min k 31 = i)) as [E|Hne].
    + rewrite bool_decide_true by set_solver. destruct (Z.eqb_spec k i); [done|].
      destruct (Z.eqb_spec i 31); [|lia]. destruct (Z.leb_spec 31 k); [done|lia].
    + rewrite bool_decide_false by set_solver. destruct (Z.eqb_spec k i); [lia|].
      destruct (Z.eqb_spec i 31); [|done]. destruct (Z.leb_spec 31 k); [lia|done].
  - intros k Hk. by rewrite Z.lor_spec, Hh, u64_bits_high by lia.
Qed.

Lemma claims_remove c X i : claims c X -> 0 <= i < 32 ->
  claims (Z.land c (u64 (i32 (Z.lnot (int_bit i))))) (X ∖ {[i]}).
Proof.
  intros (Hr & Hc & Hh) Hi. rewrite int_bit_i32 by done. split_and!.
  - intros j. rewrite elem_of_difference. intros [Hj _]. by apply Hr.
  - intros k Hk. rewrite Z.land_spec, Hc, u64_bits, Z.lnot_spec, int_bit_spec by lia.
    destruct (bool_decide_reflect (Z.min k 31 ∈ X)) as [Hin|Hin]; cbn [andb].
    2: { symmetry. apply bool_decide_false. set_solver. }
    destruct (decide (Z.min k 31 = i)) as [E|Hne].
    + rewrite bool_decide_false by set_solver. destruct (Z.eqb_spec k i); [done|].
      destruct (Z.eqb_spec i 31); [|lia]. destruct (Z.leb_spec 31 k); [done|lia].
    + rewrite bool_decide_true by set_solver. destruct (Z.eqb_spec k i); [lia|].
      destruct (Z.eqb_spec i 31); [|done]. destruct (Z.leb_spec 31 k); [lia|done].
  - intros k Hk. by rewrite Z.land_spec, Hh by lia.
Qed.

(** ** Claiming and releasing *)
Section claiming.
Context {K : Type} `{IoBackend (Devices K)} `{UsbBackend K}.
Implicit Types (s : Ctx (Devices K)).

Definition claimed_by s (h : nat) (X : gset Z) : Prop :=
  exists x, d_handles (c_rest s) !! h = Some x /\ claims (hd_claimed_interfaces x) X.

(** The other handles and everything else that the library knows stay as they were. *)
Definition only_handle (h : nat) s s' : Prop :=
  d_devices (c_rest s') = d_devices (c_rest s) /\ d_usb_devs (c_rest s') = d_usb_devs (c_rest s) /\
  d_open_devs (c_rest s') = d_open_devs (c_rest s) /\ c_heap s' = c_heap s /\ c_transfers s' = c_transfers s /\
  (forall g, g <> h -> d_handles (c_rest s') !! g = d_handles (c_rest s) !! g).

(** The system grants or refuses. *)
Context (answers : forall h i k, exists r k', backend_claim_interface h i k = (Ret r, k')).
Context (releases : forall h i k, exists r k', backend_release_interface h i k = (Ret r, k')).

Lemma mask_run i : 0 <= i -> interface_mask i = Ret (u64 (int_bit i)).
Proof. intros Hi. unfold interface_mask, int_bit. destruct (Z.ltb_spec i 0); [lia|done]. Qed.

Lemma handle_run h s x : d_handles (c_rest s) !! h = Some x -> get_handle h s = (Ret x, s).
Proof. intros E. unfold get_handle, query. by rewrite E. Qed.

Lemma mask_step {A} i (f : Z -> M (Ctx (Devices K)) A) s : 0 <= i ->
  bind (lift (interface_mask i)) f s = f (u64 (int_bit i)) s.
Proof. intros Hi. apply bind_Ret. unfold lift. by rewrite mask_run. Qed.

(** A handle whose bits become others, with another state of the system. *)
Lemma only_handle_put h c' x k s : d_handles (c_rest s) !! h = Some x ->
  exists s', put_handle h (mk_handle (hd_dev x) c') (upd_devices s (d_devices (c_rest s)) (d_usb_devs (c_rest s)) k)
    = (Ret tt, s') /\ only_handle h s s' /\ d_handles (c_rest s') !! h = Some (mk_handle (hd_dev x) c').
Proof.
  intros Ex. eexists. split; [reflexivity|]. split; [|by cbn; rewrite lookup_insert_eq].
  split_and!; try done. intros g Hg. cbn. by rewrite lookup_insert_ne.
Qed.

Lemma claim_run h X i s : claimed_by s h X -> 0 <= i < 32 ->
  exists r s', libusb_claim_interface h i s = (Ret r, s') /\ only_handle h s s' /\
    (if bool_decide (i ∈ X) then r = 0 /\ s' = s
     else (exists k, backend_claim_interface h i (d_rest (c_rest s)) = (Ret r, k)) /\
          claimed_by s' h (if r =? 0 then {[i]} ∪ X else X)).
Proof.
  intros (x & Ex & Hc) Hi. unfold libusb_claim_interface, USB_MAXINTERFACES. destruct (Z.leb_spec 32 i); [lia|].
  erewrite bind_Ret by (apply handle_run; exact Ex). rewrite mask_step by lia. rewrite (claims_test _ _ i Hc Hi).
  destruct (bool_decide_reflect (i ∈ X)) as [Hin|Hin]; cbn [negb]; [by exists 0, s|].
  destruct (answers h i (d_rest (c_rest s))) as (r & k & E). exists r.
  assert (on_backend (backend_claim_interface h i) s = (Ret r, upd_devices s (d_devices (c_rest s)) (d_usb_devs (c_rest s)) k)) as Eb.
  { unfold on_backend, on_system. by rewrite E. }
  erewrite bind_Ret by exact Eb. destruct (r =? 0) eqn:Er.
  - destruct (only_handle_put h (Z.lor (hd_claimed_interfaces x) (u64 (int_bit i))) x k s Ex) as (s' & Es & Ho & Ex').
    exists s'. erewrite bind_Ret by exact Es. split; [done|]. split; [done|]. split; [eauto|].
    eexists. split; [exact Ex'|]. by apply claims_add.
  - eexists. split; [reflexivity|]. split; [done|]. split; [eauto|]. by exists x.
Qed.

Lemma release_run h X i s : claimed_by s h X -> 0 <= i < 32 ->
  exists r s', libusb_release_interface h i s = (Ret r, s') /\ only_handle h s s' /\
    (if bool_decide (i ∈ X) then (exists k, backend_release_interface h i (d_rest (c_rest s)) = (Ret r, k)) /\
          claimed_by s' h (if r =? 0 then X ∖ {[i]} else X)
     else r = LIBUSB_ERROR_NOT_FOUND /\ s' = s).
Proof.
  intros (x & Ex & Hc) Hi. unfold libusb_release_interface, USB_MAXINTERFACES. destruct (Z.leb_spec 32 i); [lia|].
  erewrite bind_Ret by (apply handle_run; exact Ex). rewrite mask_step by lia. rewrite (claims_test _ _ i Hc Hi).
  destruct (bool_decide_reflect (i ∈ X)) as [Hin|Hin]; cbn [negb]; [|by exists (LIBUSB_ERROR_NOT_FOUND : Z), s].
  destruct (releases h i (d_rest (c_rest s))) as (r & k & E). exists r.
  assert (on_backend (backend_release_interface h i) s = (Ret r, upd_devices s (d_devices (c_rest s)) (d_usb_devs (c_rest s)) k)) as Eb.
  { unfold on_backend, on_system. by rewrite E. }
  erewrite bind_Ret by exact Eb. destruct (r =? 0) eqn:Er.
  - destruct (only_handle_put h (Z.land (hd_claimed_interfaces x) (u64 (i32 (Z.lnot (int_bit i))))) x k s Ex) as (s' & Es & Ho & Ex').
    exists s'. erewrite bind_Ret by exact Es. split; [done|]. split; [done|]. split; [eauto|].
    eexists. split; [exact Ex'|]. by apply claims_remove.
  - eexists. split; [reflexivity|]. split; [done|]. split; [eauto|]. by exists x.
Qed.

(** C18: a handle keeps the set of the interfaces it has claimed: claiming one that it has
    returns 0 and asks nobody, releasing one that it has not is [LIBUSB_ERROR_NOT_FOUND], otherwise
    the system is asked, and the set changes by that interface exactly when the system agrees. *)
Theorem interfaces_are_a_set h X i s :
  claimed_by s h X -> 0 <= i < USB_MAXINTERFACES ->
  (exists r s', libusb_claim_interface h i s = (Ret r, s') /\ only_handle h s s' /\
     (if bool_decide (i ∈ X) then r = 0 /\ s' = s
      else (exists k, backend_claim_interface h i (d_rest (c_rest s)) = (Ret r, k)) /\
           claimed_by s' h (if r =? 0 then {[i]} ∪ X else X))) /\
  (exists r s', libusb_release_interface h i s = (Ret r, s') /\ only_handle h s s' /\
     (if bool_decide (i ∈ X) then (exists k, backend_release_interface h i (d_rest (c_rest s)) = (Ret r, k)) /\
           claimed_by s' h (if r =? 0 then X ∖ {[i]} else X)
      else r = LIBUSB_ERROR_NOT_FOUND /\ s' = s)).
Proof. intros Hc Hi. split; [by apply claim_run|by apply release_run]. Qed.
End claiming.

(** ** Packet sizes *)

(** The endpoints of a configuration, in the order in which they are looked at. *)
Definition altsetting_endpoints (a : libusb_interface_descriptor) : list libusb_endpoint_descriptor :=
  default [] (snd <$> id_endpoint a).
Definition interface_endpoints (i : libusb_interface) : list libusb_endpoint_descriptor :=
  concat (map altsetting_endpoints (default [] (snd <$> if_altsetting i))).
Definition config_endpoints (c : libusb_config_descriptor) : list libusb_endpoint_descriptor :=
  concat (map interface_endpoints (default [] (snd <$> cd_interface c))).

(** The counts of a configuration are those of its arrays. *)
Definition alt_counted (a : libusb_interface_descriptor) : Prop :=
  id_bNumEndpoints a = Z.of_nat (length (altsetting_endpoints a)).
Definition interface_counted (i : libusb_interface) : Prop :=
  if_num_altsetting i = Z.of_nat (length (default [] (snd <$> if_altsetting i))) /\
  Forall alt_counted (default [] (snd <$> if_altsetting i)).
Definition config_counted (c : libusb_config_descriptor) : Prop :=
  cd_bNumInterfaces c = Z.of_nat (length (default [] (snd <$> cd_interface c))) /\
  Forall interface_counted (default [] (snd <$> cd_interface c)).

Lemma find_in_endpoints_app es es' e : find_in_endpoints (es ++ es') e =
  match find_in_endpoints es e with Some x => Some x | None => find_in_endpoints es' e end.
Proof. induction es as [|x es IH]; cbn; [done|]. by destruct (_ =? _). Qed.

Lemma find_endpoint_first c e : config_counted c -> find_endpoint c e = Ret (find_in_endpoints (config_endpoints c) e).
Proof.
  intros [Hn Hi]. unfold find_endpoint. rewrite array_prefix_all by done. cbn [mbind outcome_bind].
  unfold config_endpoints. clear Hn. induction Hi as [|i l [Hn Ha] _ IH]; [done|].
  cbn [find_in_interfaces map concat]. rewrite array_prefix_all by done. cbn [mbind outcome_bind].
  assert (find_in_altsettings (default [] (snd <$> if_altsetting i)) e
          = Ret (find_in_endpoints (interface_endpoints i) e)) as E.
  { unfold interface_endpoints. clear -Ha. induction Ha as [|a l Ha _ IH]; [done|].
    cbn [find_in_altsettings map concat]. rewrite array_prefix_all by exact Ha. cbn [mbind outcome_bind].
    rewrite find_in_endpoints_app. change (default [] (snd <$> id_endpoint a)) with (altsetting_endpoints a).
    destruct (find_in_endpoints (altsetting_endpoints a) e); [done|exact IH]. }
  rewrite E. cbn [mbind outcome_bind]. rewrite find_in_endpoints_app.
  by destruct (find_in_endpoints (interface_endpoints i) e).
Qed.

Section packets.
Context {K : Type} `{HostOrder} `{IoBackend (Devices K)} `{DescriptorBackend (Devices K)}.
Implicit Types (s : Ctx (Devices K)).

(** The packet size is that of the first endpoint of the active configuration with the
    address, and the memory is as it was; but when no endpoint has it the error leaves the
    whole configuration allocated, and nobody knows where. *)
Theorem max_packet_size_leaks dev e n d b c s u frame :
  d_devices (c_rest s) !! dev = Some (n, d) ->
  libusb_get_active_config_descriptor d (mkUsb (c_heap s) (c_rest s)) = (Ret (0, Some (b, c)), u) ->
  config_counted c -> config_wf c -> owns frame (b :: config_blocks c) (us_heap u) ->
  exists r s', libusb_get_max_packet_size dev e s = (Ret r, s') /\
    match find_in_endpoints (config_endpoints c) e with
    | Some ep => r = ed_wMaxPacketSize ep /\ owns frame [] (c_heap s')
    | None => r = LIBUSB_ERROR_NOT_FOUND /\ owns frame (b :: config_blocks c) (c_heap s')
    end.
Proof.
  intros Ed Eu Hcount Hwf Hown. unfold libusb_get_max_packet_size, with_endpoint.
  erewrite bind_Ret by (unfold get_device, query; rewrite Ed; reflexivity). cbn beta iota.
  erewrite bind_Ret by (unfold on_usb; rewrite Eu; reflexivity). cbn beta iota. cbn [Z.ltb Z.compare].
  erewrite bind_Ret by (unfold lift; rewrite find_endpoint_first by done; reflexivity).
  destruct (find_in_endpoints (config_endpoints c) e) as [ep|].
  - destruct (free_config_ret frame b c (us_heap u) Hwf Hown) as ([] & h & Ef & Ho).
    erewrite bind_Ret by (unfold in_memory; cbn [c_heap]; rewrite Ef; reflexivity).
    eexists _, _. split; [reflexivity|]. by split.
  - eexists _, _. split; [reflexivity|]. by split.
Qed.
End packets.

(** ** The default context *)
Section default_context.
Context {K : Type} `{IoBackend (Devices K)} `{UsbBackend K} `{BackendInit K}.
Implicit Types (s : Library K).

(** A user of the default context comes or goes. *)
Definition default_op (start : bool) : M (Library K) unit :=
  if start then let* _ := libusb_init false None in ret tt else libusb_exit None.

Definition with_count s (n : Z) : Library K :=
  mkLibrary (lb_heap s) (lb_contexts s) (lb_debug s) (lb_default s) n (lb_rest s).

(** The users after each step are at least one. *)
Fixpoint in_use (n : Z) (ops : list bool) : bool :=
  match ops with
  | [] => true
  | start :: ops' => let n' := if (start : bool) then n + 1 else n - 1 in (0 <? n') && in_use n' ops'
  end.
Definition users (n : Z) (ops : list bool) : Z :=
  fold_left (fun n (start : bool) => if start then n + 1 else n - 1) ops n.

(** As long as somebody uses it, starting and ending the library without a context of one's own
    only counts the users of the default context, which stays as it is; the last one to end it
    destroys that context, and then there is no default context any more. *)
Theorem default_context_shared c n ops s :
  lb_default s = Some c -> lb_default_refcnt s = n -> in_use n ops = true ->
  for_each ops default_op s = (Ret tt, with_count s (users n ops)) /\
  (n = 1 -> libusb_exit None s
            = destroy_context c (mkLibrary (lb_heap s) (lb_contexts s) (lb_debug s) None 0 (lb_rest s))).
Proof.
  intros Hc Hn Hu. split.
  - revert n s Hc Hn Hu. induction ops as [|start ops IH]; intros n s Hc Hn Hu.
    { cbn. subst n. by destruct s. }
    cbn [in_use] in Hu. apply andb_true_iff in Hu as [Hpos Hu]. cbn [for_each users fold_left].
    assert (default_op start s = (Ret tt, with_count s (if start then n + 1 else n - 1))) as E.
    { destruct start; cbn [default_op].
      - unfold libusb_init. erewrite bind_Ret; [reflexivity|]. erewrite bind_Ret by reflexivity. unfold id. rewrite Hc.
        unfold with_count. by rewrite Hc, Hn.
      - unfold libusb_exit. erewrite bind_Ret by reflexivity. unfold id. cbn [USBI_GET_CONTEXT].
        rewrite bool_decide_true by done. rewrite Hn, Hpos. unfold with_count. done. }
    erewrite bind_Ret by exact E. by rewrite (IH (if start then n + 1 else n - 1) (with_count s (if start then n + 1 else n - 1))).
  - intros ->. unfold libusb_exit. erewrite bind_Ret by reflexivity. unfold id. cbn [USBI_GET_CONTEXT].
    rewrite bool_decide_true by done. rewrite Hn. change (0 <? 1 - 1) with false. cbn beta iota zeta.
    erewrite bind_Ret by reflexivity. by rewrite Hc.
Qed.
End default_context.
