(* ===== verification/UsbBench.v ===== *)
(** * A bus on the bench

    A backend with a few devices that all answer, an instance of the interfaces that UsbCore.v
    takes from a backend, and the theorems of UsbReferences.v and UsbClaims.v on it. *)
From S2P Require Import Prelude UsbBase UsbIo UsbFlight UsbTimeouts UsbDescriptor UsbCore UsbReferences UsbClaims.

#[local] Instance bench_order : HostOrder := {| big_endian := false |}.

(** The bytes of the active configuration of every device. *)
Definition Bench : Type := list Z.

#[export] Instance bench_io : IoBackend (Devices Bench) := {|
  clock_monotonic := ret (Some (1, 0)); clock_realtime := ret (Some (1, 0));
  backend_submit_transfer _ _ _ := ret 0; backend_cancel_transfer _ _ := ret 0;
  backend_clear_transfer_priv _ _ := ret tt; backend_zero_transfer_priv _ := ret tt; timerfd_settime _ := ret (-1);
  usbi_poll _ _ := ret (0, [], false);
  usbi_pipe := ret (Some (3, 4)); timerfd_create := ret (-1); usbi_close _ := ret tt;
  fd_added_cb _ _ := ret tt; fd_removed_cb _ := ret tt |}.

#[export] Instance bench_events : IoEvents (Devices Bench) := {|
  run_callback _ := ret tt; backend_handle_events _ _ := ret 0; other_threads := ret tt;
  event_waiters_timedwait _ := ret true;
  events_lock_wait := modify (fun s => mkCtx (c_heap s) (c_transfers s) (c_bytes s) (c_flying s) (c_pollfds s)
    (c_pollfd_modify s) Lock_free (c_handler_active s) (c_notifiers s) (c_ctrl_pipe s) (c_timerfd s) (c_rest s)) |}.

Definition bench_descriptor : list Z := [18; 1; 0; 2; 0; 0; 0; 64; 0xd8; 0x04; 0x3f; 0; 2; 1; 1; 2; 0; 1].
#[export] Instance bench_descriptors : DescriptorBackend (Devices Bench) := {
  backend_get_device_descriptor dev he := ret (0, bench_descriptor, he);
  backend_get_active_config_descriptor dev len he := fun d => (Ret (0, take (Z.to_nat len) (d_rest d), he), d);
  backend_get_config_descriptor dev i len he := fun d => (Ret (0, take (Z.to_nat len) (d_rest d), he), d) }.

(** The devices of the bus, as long as there is room in the list. *)
Fixpoint bench_list (l : list nat) (discdevs : discovered_devs) : M (Ctx (Devices Bench)) (Z * discovered_devs) :=
  match l with
  | [] => ret (0, discdevs)
  | dev :: l' =>
      if Z.of_nat (length (dc_devices discdevs)) <? dc_capacity discdevs then
        let* _ := libusb_ref_device dev in
        bench_list l' (mk_discovered (dc_block discdevs) (dc_capacity discdevs) (dc_devices discdevs ++ [dev]))
      else ret ((LIBUSB_ERROR_NO_MEM : Z), discdevs)
  end.

#[export] Instance bench_backend : UsbBackend Bench := {
  usbi_mutex_init := ret 0;
  backend_get_device_list discdevs := let* s := gets id in bench_list (d_usb_devs (c_rest s)) discdevs;
  backend_open _ := ret 0; backend_close _ := ret tt; backend_destroy_device := None;
  backend_get_configuration := None; backend_set_configuration _ _ := ret 0;
  backend_claim_interface _ i := ret (if i =? 0 then 0 else (LIBUSB_ERROR_BUSY : Z));
  backend_release_interface _ _ := ret 0;
  backend_set_interface_altsetting _ _ _ := ret 0; backend_clear_halt _ _ := ret 0; backend_reset_device _ := ret 0;
  backend_kernel_driver_active := None; backend_detach_kernel_driver := None; backend_attach_kernel_driver := None;
  usbi_write _ := ret true; usbi_read _ := ret true }.

#[export] Instance bench_init : BackendInit Bench := {| backend_init := None; backend_exit := None |}.

Lemma same_devices_refl (s : Ctx (Devices Bench)) : NoDup (h_live (c_heap s)) -> same_devices s s.
Proof. intros Hn. split_and!; done. Qed.

Lemma bench_list_accounted R L l : forall d s,
  accounted (dc_devices d ++ R) (dc_block d :: L) s ->
  (forall dev, dev ∈ l -> is_Some (d_devices (c_rest s) !! dev)) ->
  exists r d' s', bench_list l d s = (Ret (r, d'), s') /\ accounted (dc_devices d' ++ R) (dc_block d' :: L) s' /\
    unharmed (dc_devices d ++ R) s s' /\ dc_devices d `prefix_of` dc_devices d'.
Proof.
  induction l as [|dev l IH]; intros d s HA Hl; [by exists 0, d, s|]. cbn [bench_list].
  destruct (_ <? _); [|by eexists _, d, s].
  assert (dev ∈ dc_devices d ++ R \/ dev ∈ handle_devs (c_rest s)) as Hin.
  { apply elem_of_app. destruct HA as ((_ & _ & _ & Hd) & _). apply Hd, Hl. by left. }
  destruct (ref_run _ _ dev s HA Hin) as (s1 & E1 & HA1 & _ & _ & Hk & U1). erewrite bind_Ret by exact E1.
  destruct (IH (mk_discovered (dc_block d) (dc_capacity d) (dc_devices d ++ [dev])) s1)
    as (r & d' & s' & E & HA' & U' & Hp); cbn [dc_devices dc_block] in *.
  - eapply accounted_perm; [|done|exact HA1]. rewrite <- app_assoc. cbn. by rewrite <- Permutation_middle.
  - intros e He. apply Hk, Hl. by right.
  - exists r, d', s'. split; [exact E|]. split; [done|]. split; [|by eapply prefix_app_l].
    eapply unharmed_trans; [apply U1|]. eapply unharmed_sub; [|exact U']. set_solver.
Qed.

#[export] Instance bench_laws : UsbLaws Bench.
Proof.
  split.
  - intros k. by eexists _, _.
  - intros fd k. by eexists _, _.
  - intros fd k. by eexists _, _.
  - done.
  - intros R L d s HA. cbn [backend_get_device_list bench_backend].
    erewrite bind_Ret by reflexivity. apply (bench_list_accounted R L); [done|].
    intros dev Hd. destruct HA as ((_ & Hu & _) & _). by apply Hu.
  - intros R L h x y s HA _ _. exists 0, s. split; [done|]. apply same_devices_refl, HA.
  - intros R L h x y s HA _ _. exists s. split; [done|]. apply same_devices_refl, HA.
Qed.
#[export] Instance bench_lock : LockGivenBack (K := Bench).
Proof. split. intros R L s HA _. eexists. split; [reflexivity|]. by split_and!. Qed.

#[export] Instance bench_steady : SteadyDescriptors Bench.
Proof.
  refine {| descriptor_of _ := (0, Some (mk_device_descriptor 18 1 0x200 0 0 0 64 0x4d8 0x3f 0x102 1 2 0 1)) |}.
  - by intros.
  - intros x []. by eexists.
Defined.

(** ** A bus with a device, a handle of it and a transfer in flight *)
Definition bench_device : libusb_device := mk_device 1 1 5 1 LIBUSB_SPEED_FULL 0.
(** Blocks: device 1, handle 2, transfer 3. *)
Definition bench_ctx (config : Bench) : Ctx (Devices Bench) :=
  mkCtx (mkHeap [3; 1; 2]%nat [])
    {[3%nat := (mk_itransfer 0 (0, 0) 0 0,
                mk_transfer 2 0 0x81 LIBUSB_TRANSFER_TYPE_BULK 0 LIBUSB_TRANSFER_COMPLETED 8 0 false 0 None 0 [])]}
    ∅ [3%nat] [] 0 Lock_free false false (3, 4) (-1)
    (mkDevices {[1%nat := (2, bench_device)]} [1%nat] {[2%nat := mk_handle 1 0]} [2%nat] config).

Lemma bench_accounted config : accounted [1%nat] [3%nat] (bench_ctx config).
Proof.
  split_and!.
  - assert (handle_devs (c_rest (bench_ctx config)) = [1%nat]) as -> by done.
    change (d_devices (c_rest (bench_ctx config))) with ({[1%nat := (2, bench_device)]} : gmap nat (Z * libusb_device)).
    split_and!; cbn.
    + repeat constructor. by apply not_elem_of_nil.
    + intros dev. rewrite list_elem_of_singleton. split.
      * intros ->. by eexists.
      * intros [x Hx]. by apply lookup_singleton_Some in Hx as [<- _].
    + intros dev n x Hx. by apply lookup_singleton_Some in Hx as [<- [= <- _]].
    + intros dev. split.
      * rewrite !elem_of_cons. intros [->|[->|[]%elem_of_nil]]; by eexists.
      * intros [x Hx]. apply lookup_singleton_Some in Hx as [<- _]. by left.
  - intros h Hh. apply list_elem_of_singleton in Hh as ->. by eexists.
  - apply (bool_decide_unpack _). vm_compute. done.
  - done.
Qed.

(** The bus has one device, which is what the program gets. *)
Lemma device_list_balanced_witness :
  exists p s', libusb_get_device_list (bench_ctx []) = (Ret (1, Some (p, [1%nat])), s') /\
    accounted [1; 1]%nat [p; 3%nat] s' /\
    exists s'', libusb_free_device_list (Some (p, [1%nat])) true s' = (Ret tt, s'') /\ accounted [1%nat] [3%nat] s'' /\
      d_devices (c_rest s'') = {[1%nat := (2, bench_device)]}.
Proof.
  destruct (device_list_balanced [1%nat] [3%nat] (bench_ctx []) (bench_accounted [])) as (r & o & s' & E & _ & Ho).
  assert ((libusb_get_device_list (bench_ctx [])).1 = Ret (1, Some (5%nat, [1%nat]))) as E' by (vm_compute; reflexivity).
  rewrite E in E'. injection E' as -> ->. destruct Ho as (_ & _ & HA & s'' & Ef & HA' & _ & Ed).
  exists 5%nat, s'. split; [exact E|]. split; [exact HA|]. exists s''. split; [exact Ef|]. split; [exact HA'|exact Ed].
Defined.

Lemma open_device_with_vid_pid_balanced_witness :
  exists o s', libusb_open_device_with_vid_pid 0x4d8 0x3f (bench_ctx []) = (Ret o, s') /\ accounted [1%nat] [3%nat] s'.
Proof.
  destruct (open_device_with_vid_pid_balanced [1%nat] [3%nat] 0x4d8 0x3f (bench_ctx []) (bench_accounted []))
    as (o & s' & E & HA & _). exists o, s'. split; [exact E|exact HA].
Defined.

(** The same while another thread has the lock of the events. *)
Definition bench_locked (o : events_lock) : Ctx (Devices Bench) := upd_lock (bench_ctx []) o true.
Lemma libusb_close_forgets_witness :
  exists s', libusb_close (Some 2%nat) (bench_locked Lock_other) = (Ret tt, s') /\ accounted [1%nat] [3%nat] s' /\
    d_open_devs (c_rest s') = [] /\ c_pollfd_modify s' = 0 /\ c_events_locked s' = Lock_free.
Proof.
  destruct (libusb_close_forgets [1%nat] [3%nat] 2 (bench_locked Lock_other)) as (s1 & s' & E & _ & HA & Ho & _ & _ & Hm & _ & Hl).
  - apply (bench_accounted []).
  - by left.
  - split; [repeat constructor; by apply not_elem_of_nil|].
    intros t Ht. apply list_elem_of_singleton in Ht as ->. by eexists.
  - done.
  - exists s'. split; [exact E|]. split; [exact HA|]. split; [exact Ho|]. split; [exact Hm|exact Hl].
Defined.

(** A configuration with one interface and one endpoint for input, and how it is read. *)
Definition bench_config : Bench :=
  [9; 2; 25; 0; 1; 1; 0; 0x80; 50;  9; 4; 0; 0; 1; 3; 0; 0; 0;  7; 5; 0x81; 3; 64; 0; 10].
Definition bench_parsed : libusb_config_descriptor :=
  mk_config_descriptor 9 2 25 1 1 0 128 50
    (Some (6%nat, [mk_interface
       (Some (7%nat, [mk_interface_descriptor 9 4 0 0 1 3 0 0 0
          (Some (8%nat, [mk_endpoint_descriptor 7 5 0x81 3 64 10 0 0 None 0])) None 0])) 1])) None 0.
Definition bench_usb : UsbState (Devices Bench) := mkUsb (c_heap (bench_ctx bench_config)) (c_rest (bench_ctx bench_config)).

(** The endpoint 2 for output is not there. *)
Lemma max_packet_size_leaks_witness :
  exists s', libusb_get_max_packet_size 1 0x02 (bench_ctx bench_config) = (Ret (LIBUSB_ERROR_NOT_FOUND : Z), s') /\
    owns [3; 1; 2]%nat (4%nat :: config_blocks bench_parsed) (c_heap s').
Proof.
  destruct (max_packet_size_leaks 1 0x02 2 bench_device 4 bench_parsed (bench_ctx bench_config)
              (libusb_get_active_config_descriptor bench_device bench_usb).2 [3; 1; 2]%nat) as (r & s' & E & -> & Ho).
  - reflexivity.
  - vm_compute. reflexivity.
  - split; [reflexivity|]. repeat constructor.
  - intros b ifs [= <- <-]. split; [reflexivity|]. apply Forall_singleton. split; [reflexivity|].
    apply Forall_singleton. by intros b es [= <- <-].
  - unfold owns. apply (bool_decide_unpack _). vm_compute. exact I.
  - exists s'. split; [exact E|exact Ho].
Defined.

(** The handle claims the interface 0. *)
Lemma interfaces_are_a_set_witness :
  exists r s', libusb_claim_interface 2 0 (bench_ctx []) = (Ret r, s') /\ only_handle 2 (bench_ctx []) s' /\
    claimed_by s' 2 (if r =? 0 then {[0]} ∪ ∅ else ∅).
Proof.
  destruct (interfaces_are_a_set (K := Bench) ltac:(intros; eexists _, _; reflexivity) ltac:(intros; eexists _, _; reflexivity)
              2 ∅ 0 (bench_ctx [])) as [(r & s' & E & Ho & _ & Hc) _].
  - exists (mk_handle 1 0). split; [reflexivity|]. split_and!.
    + intros i Hi. by apply not_elem_of_empty in Hi.
    + intros k _. rewrite Z.bits_0. symmetry. apply bool_decide_false. apply not_elem_of_empty.
    + intros k _. apply Z.bits_0.
  - unfold USB_MAXINTERFACES. lia.
  - exists r, s'. split; [exact E|]. split; [exact Ho|exact Hc].
Defined.

(** Somebody uses the default context, one more comes and one goes. *)
Lemma default_context_shared_witness :
  let s : Library Bench := mkLibrary (mkHeap [9%nat] []) {[9%nat := bench_ctx []]} ∅ (Some 9%nat) 1 [] in
  for_each [true; false] default_op s = (Ret tt, with_count s 1).
Proof. apply (default_context_shared 9 1 [true; false]); reflexivity. Defined.
