(* ===== verification/UsbLinux.v ===== *)
(** * The backend of libusb for Linux: its state (src/external/libusb-1.0.9/libusb/os/linux_usbfs.c)

    What the backend keeps: for the process, what kernel it runs on and where it finds the devices;
    for a device, its descriptors; for a handle, its file descriptor; for a transfer, the requests
    (URBs) that the kernel has.  [Usbfs] is the kernel.  UsbUrbs.v models transfers, UsbLinuxDevices.v
    devices and handles. *)
From S2P Require Import Prelude UsbBase UsbIo UsbDescriptor UsbCore.

(** ** The interface of the kernel *)

(** The error numbers of Linux that the backend distinguishes. *)
Definition ENOENT : Z := 2.
Definition EAGAIN : Z := 11.
Definition EACCES : Z := 13.
Definition EBUSY : Z := 16.
Definition EXDEV : Z := 18.
Definition ENODEV : Z := 19.
Definition EINVAL : Z := 22.
Definition EPIPE : Z := 32.
Definition ENODATA : Z := 61.
Definition ETIME : Z := 62.
Definition ENOSR : Z := 63.
Definition ECOMM : Z := 70.
Definition EPROTO : Z := 71.
Definition EOVERFLOW : Z := 75.
Definition EILSEQ : Z := 84.
Definition ECONNRESET : Z := 104.
Definition ESHUTDOWN : Z := 108.
Definition EREMOTEIO : Z := 121.

(** [usbfs_urb_type], the flags and the limits,
    src/external/libusb-1.0.9/libusb/os/linux_usbfs.h:63-84. *)
Definition USBFS_URB_SHORT_NOT_OK : Z := 0x01.
Definition USBFS_URB_ISO_ASAP : Z := 0x02.
Definition USBFS_URB_BULK_CONTINUATION : Z := 0x04.
Definition USBFS_URB_ZERO_PACKET : Z := 0x40.
Definition POLLERR : Z := 8.
Definition POLLOUT : Z := 4.
Definition USBFS_URB_TYPE_ISO : Z := 0.
Definition USBFS_URB_TYPE_INTERRUPT : Z := 1.
Definition USBFS_URB_TYPE_CONTROL : Z := 2.
Definition USBFS_URB_TYPE_BULK : Z := 3.
Definition MAX_ISO_BUFFER_LENGTH : Z := 32768.
Definition MAX_BULK_BUFFER_LENGTH : Z := 16384.
Definition MAX_CTRL_BUFFER_LENGTH : Z := 4096.

(** [usbfs_iso_packet_desc], src/external/libusb-1.0.9/libusb/os/linux_usbfs.h:76-80. *)
Record usbfs_iso_packet_desc := mk_urb_packet { up_length : Z; up_actual_length : Z; up_status : Z }.

(** [usbfs_urb], src/external/libusb-1.0.9/libusb/os/linux_usbfs.h:86-100, with the place of
    [buffer] in the buffer of the transfer, and without the fields that nobody reads. *)
Record usbfs_urb := mk_urb {
  u_type : Z; u_endpoint : Z; u_status : Z; u_flags : Z; u_buffer : Z; u_buffer_length : Z;
  u_actual_length : Z; u_number_of_packets : Z; u_usercontext : nat;
  u_iso_frame_desc : list usbfs_iso_packet_desc }.
Definition zero_urb : usbfs_urb := mk_urb 0 0 0 0 0 0 0 0 0 [].

(** What the kernel gives back with a request: which one of which transfer, the status (0 or a
    negative error number), how many bytes were transferred, those it wrote to the buffer and,
    of each isochronous packet, the length and the status. *)
Record reaped := mk_reaped {
  rp_transfer : nat; rp_index : nat; rp_status : Z; rp_actual_length : Z; rp_data : list Z;
  rp_packets : list (Z * Z) }.

(** The requests of transfers to the kernel, on the file descriptor of a device: an error number, or
    0.  A request is known by its transfer and its index. *)
Class Usbfs (W : Type) := {
  ioctl_submiturb : Z -> nat -> nat -> usbfs_urb -> M W Z;
  ioctl_discardurb : Z -> nat -> nat -> M W Z;
  ioctl_reapurbndelay : Z -> M W (Z + reaped) }.

(** ** The state of the backend *)

(** [reap_action], src/external/libusb-1.0.9/libusb/os/linux_usbfs.c:121-135. *)
Inductive reap_action := NORMAL | SUBMIT_FAILED | CANCELLED | COMPLETED_EARLY | ERROR.
#[export] Instance reap_action_eq_dec : EqDecision reap_action.
Proof. solve_decision. Defined.

(** The union of [linux_transfer_priv]: nothing, the block of an array of requests, or the block of
    an array of pointers to isochronous ones. *)
Inductive urb_memory :=
  | NoUrbs
  | Urbs (b : nat) (urbs : list usbfs_urb)
  | IsoUrbs (b : nat) (urbs : list (option (nat * usbfs_urb))).

(** [linux_transfer_priv],
    src/external/libusb-1.0.9/libusb/os/linux_usbfs.c:137-150. *)
Record linux_transfer_priv := mk_transfer_priv {
  lt_urbs : urb_memory; lt_reap_action : reap_action; lt_num_urbs : Z; lt_num_retired : Z;
  lt_reap_status : libusb_transfer_status; lt_iso_packet_offset : Z }.
Definition zero_transfer_priv : linux_transfer_priv :=
  mk_transfer_priv NoUrbs NORMAL 0 0 LIBUSB_TRANSFER_COMPLETED 0.

(** [linux_device_priv],
    src/external/libusb-1.0.9/libusb/os/linux_usbfs.c:111-115. *)
Record linux_device_priv := mk_device_priv {
  lp_sysfs_dir : option string; lp_dev_descriptor : option (list Z); lp_config_descriptor : option (list Z) }.

(** The static variables of the file,
    src/external/libusb-1.0.9/libusb/os/linux_usbfs.c:72-109. *)
Record LinuxGlobals := mkGlobals {
  usbfs_path : option string; usbdev_names : bool; supports_flag_bulk_continuation : Z;
  supports_flag_zero_packet : Z; monotonic_clkid : Z; sysfs_can_relate_devices : Z;
  sysfs_has_descriptors : bool }.

(** The variables, the memory that the backend allocates, what it keeps of devices, handles
    ([linux_device_handle_priv], the file descriptor) and transfers, and the kernel. *)
Record Linux (W : Type) := mkLinux {
  lx_globals : LinuxGlobals; lx_heap : Heap; lx_devices : gmap nat linux_device_priv; lx_fds : gmap nat Z;
  lx_transfers : gmap nat linux_transfer_priv; lx_sys : W }.
Arguments mkLinux {W} _ _ _ _ _ _.
Arguments lx_globals {W} _.
Arguments lx_heap {W} _.
Arguments lx_devices {W} _.
Arguments lx_fds {W} _.
Arguments lx_transfers {W} _.
Arguments lx_sys {W} _.

Section state.
Context {W : Type}.
Implicit Types (k : Linux W).

Definition on_kernel {A} (m : M W A) : M (Linux W) A := fun k =>
  let '(r, w) := m (lx_sys k) in
  (r, mkLinux (lx_globals k) (lx_heap k) (lx_devices k) (lx_fds k) (lx_transfers k) w).
Definition in_backend {A} (m : M Heap A) : M (Linux W) A := fun k =>
  let '(r, h) := m (lx_heap k) in
  (r, mkLinux (lx_globals k) h (lx_devices k) (lx_fds k) (lx_transfers k) (lx_sys k)).
Definition set_globals (g : LinuxGlobals) : M (Linux W) unit :=
  modify (fun k => mkLinux g (lx_heap k) (lx_devices k) (lx_fds k) (lx_transfers k) (lx_sys k)).
Definition set_priv_devices (m : gmap nat linux_device_priv) : M (Linux W) unit :=
  modify (fun k => mkLinux (lx_globals k) (lx_heap k) m (lx_fds k) (lx_transfers k) (lx_sys k)).
Definition set_fds (m : gmap nat Z) : M (Linux W) unit :=
  modify (fun k => mkLinux (lx_globals k) (lx_heap k) (lx_devices k) m (lx_transfers k) (lx_sys k)).
Definition set_priv_transfers (m : gmap nat linux_transfer_priv) : M (Linux W) unit :=
  modify (fun k => mkLinux (lx_globals k) (lx_heap k) (lx_devices k) (lx_fds k) m (lx_sys k)).

(** [usbi_transfer_get_os_priv]: the part of a transfer that is the backend's. *)
Definition get_priv (t : nat) : M (Linux W) linux_transfer_priv :=
  query (fun k => match lx_transfers k !! t with Some x => Ret x | None => Undef freed end).
Definition put_priv (t : nat) (x : linux_transfer_priv) : M (Linux W) unit :=
  let* k := gets id in set_priv_transfers (<[t:=x]> (lx_transfers k)).

(** [_device_handle_priv(handle)->fd],
    src/external/libusb-1.0.9/libusb/os/linux_usbfs.c:167-171, zero before the handle is opened;
    a transfer whose device has been closed has no handle. *)
Definition handle_fd (handle : nat) : M (Linux W) Z := gets (fun k => default 0 (lx_fds k !! handle)).
Definition fd_of_handle (handle : nat) : M (Linux W) Z :=
  if bool_decide (handle = null_handle) then undef no_handle else handle_fd handle.

(** A function of the backend, among the devices of a context. *)
Definition in_devices {A} (m : M (Linux W) A) : M (Devices (Linux W)) A := fun d =>
  let '(r, k) := m (d_rest d) in
  (r, mkDevices (d_devices d) (d_usb_devs d) (d_handles d) (d_open_devs d) k).
End state.
