(* ===== verification/UsbUrbs.v ===== *)
(** * Transfers of libusb on Linux (src/external/libusb-1.0.9/libusb/os/linux_usbfs.c)

    A transfer is cut into requests to the kernel (URBs) of at most 16 or 32 kilobytes, which are
    all submitted at once and come back one by one.  This file models submission, cancellation and
    completion; the theorems are in UsbUrbsProofs.v. *)
From S2P Require Import Prelude UsbBase UsbIo UsbDescriptor UsbCore UsbLinux.

Section submit.
Context {W : Type} `{Usbfs W}.

(** ** Discarding and freeing *)

Fixpoint discard_loop (fd : Z) (t : nat) (l : list nat) (last : Z) (r : Z) : M W Z :=
  match l with
  | [] => ret r
  | i :: l' =>
      let* errno := ioctl_discardurb fd t i in
      discard_loop fd t l' last
        (if errno =? 0 then r
         else if errno =? EINVAL then if Z.of_nat i =? last then (LIBUSB_ERROR_NOT_FOUND : Z) else r
         else if errno =? ENODEV then (LIBUSB_ERROR_NO_DEVICE : Z)
         else (LIBUSB_ERROR_OTHER : Z))
  end.
(** The indices from [first] to before [last_plus_one], the last one first. *)
Definition reverse_range (first last_plus_one : Z) : list nat :=
  rev (seq (Z.to_nat first) (Z.to_nat last_plus_one - Z.to_nat first)).
(** [discard_urbs], src/external/libusb-1.0.9/libusb/os/linux_usbfs.c:1525-1559. *)
Definition discard_urbs (t : nat) (tr : libusb_transfer) (first last_plus_one : Z) : M (Linux W) Z :=
  let* fd := fd_of_handle (tr_dev_handle tr) in
  on_kernel (discard_loop fd t (reverse_range first last_plus_one) (last_plus_one - 1) 0).

(** The loop of [free_iso_urbs], which stops at the first null pointer. *)
Fixpoint free_iso_loop (l : list (option (nat * usbfs_urb))) : M (Linux W) unit :=
  match l with
  | Some (b, _) :: l' => do* in_backend (free_block b) in free_iso_loop l'
  | _ => ret tt
  end.
(** [free_iso_urbs], src/external/libusb-1.0.9/libusb/os/linux_usbfs.c:1561-1573. *)
Definition free_iso_urbs (t : nat) : M (Linux W) unit :=
  let* tp := get_priv t in
  match lt_urbs tp with
  | IsoUrbs b urbs =>
      do* free_iso_loop (take (Z.to_nat (lt_num_urbs tp)) urbs) in
      do* in_backend (free_block b) in
      put_priv t (mk_transfer_priv NoUrbs (lt_reap_action tp) (lt_num_urbs tp) (lt_num_retired tp)
                    (lt_reap_status tp) (lt_iso_packet_offset tp))
  | _ => undef freed
  end.

Definition set_urbs (tp : linux_transfer_priv) (u : urb_memory) : linux_transfer_priv :=
  mk_transfer_priv u (lt_reap_action tp) (lt_num_urbs tp) (lt_num_retired tp) (lt_reap_status tp)
    (lt_iso_packet_offset tp).
(** [free(tpriv->urbs); tpriv->urbs = NULL]. *)
Definition free_urbs (t : nat) : M (Linux W) unit :=
  let* tp := get_priv t in
  match lt_urbs tp with
  | Urbs b _ => do* in_backend (free_block b) in put_priv t (set_urbs tp NoUrbs)
  | _ => undef freed
  end.

Definition has_urbs (tp : linux_transfer_priv) : bool :=
  match lt_urbs tp with NoUrbs => false | _ => true end.

(** The error of a submission that the kernel refuses. *)
Definition submit_error (errno : Z) : Z :=
  if errno =? ENODEV then LIBUSB_ERROR_NO_DEVICE else LIBUSB_ERROR_IO.

(** ** Bulk and interrupt transfers *)

(** The number of requests of a transfer, and whether the last one is shorter,
    src/external/libusb-1.0.9/libusb/os/linux_usbfs.c:1600-1609. *)
Definition bulk_num_urbs (length : Z) : Z * bool :=
  let num_urbs := Z.quot length MAX_BULK_BUFFER_LENGTH in
  if length =? 0 then (1, false)
  else if 0 <? Z.rem length MAX_BULK_BUFFER_LENGTH then (num_urbs + 1, true)
  else (num_urbs, false).

(** The request with an index,
    src/external/libusb-1.0.9/libusb/os/linux_usbfs.c:1625-1644. *)
Definition bulk_urb (g : LinuxGlobals) (t : nat) (tr : libusb_transfer) (urb_type : Z) (is_out : bool)
    (num_urbs : Z) (last_urb_partial : bool) (i : Z) : usbfs_urb :=
  let continuation := negb (supports_flag_bulk_continuation g =? 0) in
  let flags := if continuation && negb is_out then USBFS_URB_SHORT_NOT_OK else 0 in
  let buffer_length :=
    if (i =? num_urbs - 1) && last_urb_partial then Z.rem (tr_length tr) MAX_BULK_BUFFER_LENGTH
    else if tr_length tr =? 0 then 0 else MAX_BULK_BUFFER_LENGTH in
  let flags := if (0 <? i) && continuation then Z.lor flags USBFS_URB_BULK_CONTINUATION else flags in
  let flags := if is_out && (i =? num_urbs - 1) && negb (Z.land (tr_flags tr) LIBUSB_TRANSFER_ADD_ZERO_PACKET =? 0)
               then Z.lor flags USBFS_URB_ZERO_PACKET else flags in
  mk_urb urb_type (tr_endpoint tr) 0 flags (i * MAX_BULK_BUFFER_LENGTH) buffer_length 0 0 t [].

(** [urbs[i] = urb]. *)
Definition write_urb (t : nat) (i : nat) (u : usbfs_urb) : M (Linux W) unit :=
  let* tp := get_priv t in
  match lt_urbs tp with
  | Urbs b urbs => put_priv t (set_urbs tp (Urbs b (<[i:=u]> urbs)))
  | _ => undef freed
  end.

(** The loop that fills and submits the requests, from the index [i] on; [n] are left,
    src/external/libusb-1.0.9/libusb/os/linux_usbfs.c:1623-1699. *)
Fixpoint submit_bulk_loop (fd : Z) (t : nat) (tr : libusb_transfer) (make : Z -> usbfs_urb) (num_urbs : Z)
    (n i : nat) : M (Linux W) Z :=
  match n with
  | O => ret 0
  | S n' =>
      do* write_urb t i (make (Z.of_nat i)) in
      let* errno := on_kernel (ioctl_submiturb fd t i (make (Z.of_nat i))) in
      if errno =? 0 then submit_bulk_loop fd t tr make num_urbs n' (S i)
      else if bool_decide (i = 0%nat) then do* free_urbs t in ret (submit_error errno)
      else
        let* tp := get_priv t in
        let action := if errno =? EREMOTEIO then COMPLETED_EARLY else SUBMIT_FAILED in
        do* put_priv t (mk_transfer_priv (lt_urbs tp) action (lt_num_urbs tp)
              (u32 (lt_num_retired tp + (num_urbs - Z.of_nat i))) (lt_reap_status tp) (lt_iso_packet_offset tp)) in
        if bool_decide (action = COMPLETED_EARLY) then ret 0
        else let* _ := discard_urbs t tr 0 (Z.of_nat i) in ret 0
  end.

(** [submit_bulk_transfer],
    src/external/libusb-1.0.9/libusb/os/linux_usbfs.c:1575-1700; a negative size cannot be
    allocated. *)
Definition submit_bulk_transfer (t : nat) (tr : libusb_transfer) (urb_type : Z) : M (Linux W) Z :=
  let* fd := fd_of_handle (tr_dev_handle tr) in
  let* tp := get_priv t in
  let* g := gets lx_globals in
  let is_out := Z.land (tr_endpoint tr) LIBUSB_ENDPOINT_DIR_MASK =? LIBUSB_ENDPOINT_OUT in
  if has_urbs tp then ret (LIBUSB_ERROR_BUSY : Z)
  else if is_out && negb (Z.land (tr_flags tr) LIBUSB_TRANSFER_ADD_ZERO_PACKET =? 0)
          && (supports_flag_zero_packet g =? 0) then ret (LIBUSB_ERROR_NOT_SUPPORTED : Z)
  else
    let '(num_urbs, last_urb_partial) := bulk_num_urbs (tr_length tr) in
    let* b := (if num_urbs <? 0 then ret None else in_backend malloc) in
    match b with
    | None => ret (LIBUSB_ERROR_NO_MEM : Z)
    | Some b =>
        do* put_priv t (mk_transfer_priv (Urbs b (replicate (Z.to_nat num_urbs) zero_urb)) NORMAL num_urbs 0
                          LIBUSB_TRANSFER_COMPLETED (lt_iso_packet_offset tp)) in
        submit_bulk_loop fd t tr (bulk_urb g t tr urb_type is_out num_urbs last_urb_partial) num_urbs
          (Z.to_nat num_urbs) 0
    end.

(** ** Isochronous transfers *)

(** How many requests the packets need, starting with one in which [this_urb_len] bytes are taken,
    src/external/libusb-1.0.9/libusb/os/linux_usbfs.c:1731-1742. *)
Fixpoint iso_num_urbs (packets : list Z) (this_urb_len num_urbs : Z) : Z :=
  match packets with
  | [] => num_urbs
  | packet_len :: packets' =>
      if MAX_ISO_BUFFER_LENGTH - this_urb_len <? packet_len then iso_num_urbs packets' packet_len (num_urbs + 1)
      else iso_num_urbs packets' (this_urb_len + packet_len) num_urbs
  end.

(** The packets that fit into one request, and the others,
    src/external/libusb-1.0.9/libusb/os/linux_usbfs.c:1766-1780. *)
Fixpoint iso_take (packets : list Z) (space_remaining_in_urb : Z) : list Z * list Z :=
  match packets with
  | [] => ([], [])
  | packet_len :: packets' =>
      if packet_len <=? space_remaining_in_urb then
        let '(l, rest) := iso_take packets' (space_remaining_in_urb - packet_len) in (packet_len :: l, rest)
      else ([], packets)
  end.

Definition iso_urb (t : nat) (tr : libusb_transfer) (urb_buffer : Z) (packets : list Z) : usbfs_urb :=
  mk_urb USBFS_URB_TYPE_ISO (tr_endpoint tr) 0 USBFS_URB_ISO_ASAP urb_buffer 0 0 (Z.of_nat (length packets)) t
    (map (fun l => mk_urb_packet l 0 0) packets).

Definition sum_lengths (l : list Z) : Z := fold_left Z.add l 0.

(** [urbs[i] = urb] in the array of pointers. *)
Definition write_iso_urb (t : nat) (i : nat) (b : nat) (u : usbfs_urb) : M (Linux W) unit :=
  let* tp := get_priv t in
  match lt_urbs tp with
  | IsoUrbs p urbs => put_priv t (set_urbs tp (IsoUrbs p (<[i:=Some (b, u)]> urbs)))
  | _ => undef freed
  end.

(** The loop that allocates and fills the requests: whether there was memory for them all. *)
Fixpoint build_iso_urbs (t : nat) (tr : libusb_transfer) (n i : nat) (packets : list Z) (urb_buffer : Z)
    : M (Linux W) bool :=
  match n with
  | O => ret true
  | S n' =>
      let '(l, rest) := iso_take packets MAX_ISO_BUFFER_LENGTH in
      let* b := in_backend malloc in
      match b with
      | None => do* free_iso_urbs t in ret false
      | Some b =>
          do* write_iso_urb t i b (iso_urb t tr urb_buffer l) in
          build_iso_urbs t tr n' (S i) rest (urb_buffer + sum_lengths l)
      end
  end.

Definition iso_urb_at (t : nat) (i : nat) : M (Linux W) usbfs_urb :=
  let* tp := get_priv t in
  match lt_urbs tp with
  | IsoUrbs _ urbs => match urbs !! i with Some (Some (_, u)) => ret u | _ => undef freed end
  | _ => undef freed
  end.

(** The loop that submits the requests. *)
Fixpoint submit_iso_loop (fd : Z) (t : nat) (tr : libusb_transfer) (num_urbs : Z) (n i : nat) : M (Linux W) Z :=
  match n with
  | O => ret 0
  | S n' =>
      let* u := iso_urb_at t i in
      let* errno := on_kernel (ioctl_submiturb fd t i u) in
      if errno =? 0 then submit_iso_loop fd t tr num_urbs n' (S i)
      else if bool_decide (i = 0%nat) then do* free_iso_urbs t in ret (submit_error errno)
      else
        let* tp := get_priv t in
        do* put_priv t (mk_transfer_priv (lt_urbs tp) SUBMIT_FAILED (lt_num_urbs tp)
              (u32 (num_urbs - Z.of_nat i)) (lt_reap_status tp) (lt_iso_packet_offset tp)) in
        let* _ := discard_urbs t tr 0 (Z.of_nat i) in
        ret 0
  end.

(** [submit_iso_transfer],
    src/external/libusb-1.0.9/libusb/os/linux_usbfs.c:1702-1850. *)
Definition submit_iso_transfer (t : nat) (tr : libusb_transfer) : M (Linux W) Z :=
  let* fd := fd_of_handle (tr_dev_handle tr) in
  let* tp := get_priv t in
  if has_urbs tp then ret (LIBUSB_ERROR_BUSY : Z)
  else
    let* desc := lift (array_prefix (tr_num_iso_packets tr) (tr_iso_packet_desc tr)) in
    let packets := map ip_length desc in
    let num_urbs := iso_num_urbs packets 0 1 in
    let* p := in_backend malloc in
    match p with
    | None => ret (LIBUSB_ERROR_NO_MEM : Z)
    | Some p =>
        do* put_priv t (mk_transfer_priv (IsoUrbs p (replicate (Z.to_nat num_urbs) None)) NORMAL num_urbs 0
                          (lt_reap_status tp) 0) in
        let* ok := build_iso_urbs t tr (Z.to_nat num_urbs) 0 packets 0 in
        if negb ok then ret (LIBUSB_ERROR_NO_MEM : Z)
        else submit_iso_loop fd t tr num_urbs (Z.to_nat num_urbs) 0
    end.

(** ** Control transfers *)

(** [submit_control_transfer],
    src/external/libusb-1.0.9/libusb/os/linux_usbfs.c:1852-1894. *)
Definition submit_control_transfer (t : nat) (tr : libusb_transfer) : M (Linux W) Z :=
  let* fd := fd_of_handle (tr_dev_handle tr) in
  let* tp := get_priv t in
  if has_urbs tp then ret (LIBUSB_ERROR_BUSY : Z)
  else if MAX_CTRL_BUFFER_LENGTH <? tr_length tr - 8 then ret (LIBUSB_ERROR_INVALID_PARAM : Z)
  else
    let* b := in_backend malloc in
    match b with
    | None => ret (LIBUSB_ERROR_NO_MEM : Z)
    | Some b =>
        let urb := mk_urb USBFS_URB_TYPE_CONTROL (tr_endpoint tr) 0 0 0 (tr_length tr) 0 0 t [] in
        do* put_priv t (mk_transfer_priv (Urbs b [urb]) NORMAL 1 (lt_num_retired tp) (lt_reap_status tp)
                          (lt_iso_packet_offset tp)) in
        let* errno := on_kernel (ioctl_submiturb fd t 0 urb) in
        if errno =? 0 then ret 0 else do* free_urbs t in ret (submit_error errno)
    end.

(** ** The functions of the backend *)

(** [op_submit_transfer],
    src/external/libusb-1.0.9/libusb/os/linux_usbfs.c:1896-1915. *)
Definition op_submit_transfer (t : nat) (tr : libusb_transfer) : M (Linux W) Z :=
  if tr_type tr =? LIBUSB_TRANSFER_TYPE_CONTROL then submit_control_transfer t tr
  else if tr_type tr =? LIBUSB_TRANSFER_TYPE_BULK then submit_bulk_transfer t tr USBFS_URB_TYPE_BULK
  else if tr_type tr =? LIBUSB_TRANSFER_TYPE_INTERRUPT then submit_bulk_transfer t tr USBFS_URB_TYPE_INTERRUPT
  else if tr_type tr =? LIBUSB_TRANSFER_TYPE_ISOCHRONOUS then submit_iso_transfer t tr
  else ret (LIBUSB_ERROR_INVALID_PARAM : Z).

(** What [reap_action] becomes when a transfer is cancelled. *)
Definition cancelled_action (type : Z) (a : reap_action) : reap_action :=
  if (type =? LIBUSB_TRANSFER_TYPE_BULK) && bool_decide (a = ERROR) then a else CANCELLED.
Definition known_type (type : Z) : bool :=
  (type =? LIBUSB_TRANSFER_TYPE_CONTROL) || (type =? LIBUSB_TRANSFER_TYPE_BULK)
  || (type =? LIBUSB_TRANSFER_TYPE_INTERRUPT) || (type =? LIBUSB_TRANSFER_TYPE_ISOCHRONOUS).

(** [op_cancel_transfer],
    src/external/libusb-1.0.9/libusb/os/linux_usbfs.c:1917-1943. *)
Definition op_cancel_transfer (t : nat) (tr : libusb_transfer) : M (Linux W) Z :=
  let* tp := get_priv t in
  if negb (known_type (tr_type tr)) then ret (LIBUSB_ERROR_INVALID_PARAM : Z)
  else
    do* put_priv t (mk_transfer_priv (lt_urbs tp) (cancelled_action (tr_type tr) (lt_reap_action tp))
          (lt_num_urbs tp) (lt_num_retired tp) (lt_reap_status tp) (lt_iso_packet_offset tp)) in
    if negb (has_urbs tp) then ret (LIBUSB_ERROR_NOT_FOUND : Z)
    else discard_urbs t tr 0 (lt_num_urbs tp).

(** [op_clear_transfer_priv],
    src/external/libusb-1.0.9/libusb/os/linux_usbfs.c:1945-1972. *)
Definition op_clear_transfer_priv (t : nat) (tr : libusb_transfer) : M (Linux W) unit :=
  let* tp := get_priv t in
  if tr_type tr =? LIBUSB_TRANSFER_TYPE_ISOCHRONOUS then if has_urbs tp then free_iso_urbs t else ret tt
  else if known_type (tr_type tr) then if has_urbs tp then free_urbs t else ret tt
  else ret tt.
End submit.

(** ** Completion *)

(** The statuses that [handle_bulk_completion] distinguishes. *)
Inductive urb_outcome := UrbFine | UrbGone | UrbStalled | UrbOverflow | UrbFailed.
#[export] Instance urb_outcome_eq_dec : EqDecision urb_outcome.
Proof. solve_decision. Defined.
Definition bulk_outcome (status : Z) : urb_outcome :=
  if bool_decide (status ∈ [0; - EREMOTEIO; - ENOENT; - ECONNRESET]) then UrbFine
  else if bool_decide (status ∈ [- ENODEV; - ESHUTDOWN]) then UrbGone
  else if status =? - EPIPE then UrbStalled
  else if status =? - EOVERFLOW then UrbOverflow
  else UrbFailed.

(** The bytes [l] with [data] written from [off] on. *)
Definition write_at (off : Z) (data l : list Z) : outcome (list Z) :=
  if (0 <=? off) && (off + Z.of_nat (length data) <=? Z.of_nat (length l)) then
    Ret (take (Z.to_nat off) l ++ data ++ drop (Z.to_nat off + length data) l)
  else match data with [] => Ret l | _ => Undef overrun end.
(** [n] bytes from [off] on. *)
Definition read_at (off n : Z) (l : list Z) : outcome (list Z) :=
  if (0 <=? off) && (off + n <=? Z.of_nat (length l)) then Ret (take (Z.to_nat n) (drop (Z.to_nat off) l))
  else Undef overrun.
Definition memmove (target source n : Z) (l : list Z) : outcome (list Z) :=
  data ← read_at source n l; write_at target data l.

(** What is left to do after a request: nothing, to cancel the ones that follow, or to complete
    the transfer. *)
Inductive bulk_next := BulkWait | BulkCancelRemaining | BulkCompleted.
#[export] Instance bulk_next_eq_dec : EqDecision bulk_next.
Proof. solve_decision. Defined.

(** The status of a transfer that ends in an error. *)
Definition first_status (s new : libusb_transfer_status) : libusb_transfer_status :=
  if bool_decide (s = LIBUSB_TRANSFER_COMPLETED) then new else s.

(** A request of a transfer that was cancelled, has failed or has completed early: its data go to
    the end of what was received, src/external/libusb-1.0.9/libusb/os/linux_usbfs.c:1988-2029. *)
Definition bulk_surplus (tp : linux_transfer_priv) (transferred : Z) (buffer : list Z) (u : usbfs_urb)
    : outcome (linux_transfer_priv * Z * list Z * bulk_next) :=
  let num_retired := u32 (lt_num_retired tp + 1) in
  '(buffer, transferred) ←
    (if 0 <? u_actual_length u then
       b ← (if u_buffer u =? transferred then Ret buffer
            else memmove transferred (u_buffer u) (u_actual_length u) buffer);
       Ret (b, transferred + u_actual_length u)
     else Ret (buffer, transferred));
  let last := num_retired =? lt_num_urbs tp in
  let status :=
    if last && negb (bool_decide (lt_reap_action tp = COMPLETED_EARLY))
    then first_status (lt_reap_status tp) LIBUSB_TRANSFER_ERROR else lt_reap_status tp in
  Ret (mk_transfer_priv (lt_urbs tp) (lt_reap_action tp) (lt_num_urbs tp) num_retired status (lt_iso_packet_offset tp),
       transferred, buffer, if last then BulkCompleted else BulkWait).

(** A request of a transfer for which nothing has happened yet,
    src/external/libusb-1.0.9/libusb/os/linux_usbfs.c:2031-2096. *)
Definition bulk_normal (tp : linux_transfer_priv) (transferred : Z) (buffer : list Z) (urb_idx : Z) (u : usbfs_urb)
    : linux_transfer_priv * Z * list Z * bulk_next :=
  let num_retired := u32 (lt_num_retired tp + 1) in
  let transferred := transferred + u_actual_length u in
  let done action status next :=
    (mk_transfer_priv (lt_urbs tp) action (lt_num_urbs tp) num_retired status (lt_iso_packet_offset tp),
     transferred, buffer, next) in
  let cancel_remaining action status :=
    let status := if bool_decide (action = ERROR) then first_status status LIBUSB_TRANSFER_ERROR else status in
    done action status (if num_retired =? lt_num_urbs tp then BulkCompleted else BulkCancelRemaining) in
  let s := lt_reap_status tp in
  match bulk_outcome (u_status u) with
  | UrbFine =>
      if urb_idx =? lt_num_urbs tp - 1 then done NORMAL s BulkCompleted
      else if u_actual_length u <? u_buffer_length u then cancel_remaining COMPLETED_EARLY s
      else done NORMAL s BulkWait
  | UrbGone => cancel_remaining NORMAL LIBUSB_TRANSFER_NO_DEVICE
  | UrbStalled => cancel_remaining NORMAL (first_status s LIBUSB_TRANSFER_STALL)
  | UrbOverflow => done NORMAL (first_status s LIBUSB_TRANSFER_OVERFLOW) BulkCompleted
  | UrbFailed => cancel_remaining ERROR s
  end.

(** What a request that comes back changes of a transfer,
    src/external/libusb-1.0.9/libusb/os/linux_usbfs.c:1985-1988. *)
Definition bulk_reap (tp : linux_transfer_priv) (transferred : Z) (buffer : list Z) (urb_idx : Z) (u : usbfs_urb)
    : outcome (linux_transfer_priv * Z * list Z * bulk_next) :=
  if bool_decide (lt_reap_action tp = NORMAL) then Ret (bulk_normal tp transferred buffer urb_idx u)
  else bulk_surplus tp transferred buffer u.

(** The status of an isochronous packet,
    src/external/libusb-1.0.9/libusb/os/linux_usbfs.c:2142-2172. *)
Definition iso_packet_status (status : Z) : libusb_transfer_status :=
  if bool_decide (status ∈ [0; - ENOENT; - ECONNRESET]) then LIBUSB_TRANSFER_COMPLETED
  else if bool_decide (status ∈ [- ENODEV; - ESHUTDOWN]) then LIBUSB_TRANSFER_NO_DEVICE
  else if status =? - EPIPE then LIBUSB_TRANSFER_STALL
  else if status =? - EOVERFLOW then LIBUSB_TRANSFER_OVERFLOW
  else LIBUSB_TRANSFER_ERROR.
(** The status of an isochronous request,
    src/external/libusb-1.0.9/libusb/os/linux_usbfs.c:2199-2214. *)
Definition iso_status (status : Z) : libusb_transfer_status :=
  if bool_decide (status ∈ [0; - ENOENT; - ECONNRESET]) then LIBUSB_TRANSFER_COMPLETED
  else if status =? - ESHUTDOWN then LIBUSB_TRANSFER_NO_DEVICE
  else LIBUSB_TRANSFER_ERROR.
(** The status of a control transfer,
    src/external/libusb-1.0.9/libusb/os/linux_usbfs.c:2253-2284. *)
Definition control_status (status : Z) : libusb_transfer_status :=
  if status =? 0 then LIBUSB_TRANSFER_COMPLETED
  else if status =? - ENOENT then LIBUSB_TRANSFER_CANCELLED
  else if bool_decide (status ∈ [- ENODEV; - ESHUTDOWN]) then LIBUSB_TRANSFER_NO_DEVICE
  else if status =? - EPIPE then LIBUSB_TRANSFER_STALL
  else if status =? - EOVERFLOW then LIBUSB_TRANSFER_OVERFLOW
  else LIBUSB_TRANSFER_ERROR.

Section complete.
Context {W : Type} `{Usbfs W} `{IoBackend (Devices (Linux W))} `{IoEvents (Devices (Linux W))}.

Definition on_linux {A} (m : M (Linux W) A) : M (Ctx (Devices (Linux W))) A := on_system (in_devices m).

(** The bytes of the buffer of a transfer. *)
Definition buffer_of (tr : libusb_transfer) : M (Ctx (Devices (Linux W))) (list Z) :=
  gets (fun s => match tr_buffer tr with Some b => default [] (c_bytes s !! b) | None => [] end).
Definition put_buffer (tr : libusb_transfer) (l : list Z) : M (Ctx (Devices (Linux W))) unit :=
  match tr_buffer tr with
  | None => ret tt
  | Some b =>
      modify (fun s => mkCtx (c_heap s) (c_transfers s) (<[b:=l]> (c_bytes s)) (c_flying s) (c_pollfds s)
        (c_pollfd_modify s) (c_events_locked s) (c_handler_active s) (c_notifiers s) (c_ctrl_pipe s)
        (c_timerfd s) (c_rest s))
  end.
Definition set_transferred (it : usbi_transfer) (n : Z) : usbi_transfer :=
  mk_itransfer (it_num_iso_packets it) (it_timeout it) n (it_flags it).

Definition complete_packets (l : list usbfs_iso_packet_desc) (packets : list (Z * Z)) : list usbfs_iso_packet_desc :=
  zip_with (fun d p => mk_urb_packet (up_length d) p.1 p.2) l packets.
(** A request with what the kernel writes to it. *)
Definition completed_urb (u : usbfs_urb) (rp : reaped) : usbfs_urb :=
  mk_urb (u_type u) (u_endpoint u) (rp_status rp) (u_flags u) (u_buffer u) (u_buffer_length u)
    (rp_actual_length rp) (u_number_of_packets u) (u_usercontext u)
    (complete_packets (u_iso_frame_desc u) (rp_packets rp)).

(** What the kernel writes when a request is reaped, to the request, which must be there still, and
    to its part of the buffer; the request as it is then. *)
Definition kernel_writes (rp : reaped) : M (Ctx (Devices (Linux W))) usbfs_urb :=
  let t := rp_transfer rp in
  let* '(_, tr) := get_transfer t in
  let* tp := on_linux (get_priv t) in
  let* u :=
    match lt_urbs tp with
    | Urbs b urbs =>
        match urbs !! rp_index rp with
        | Some u =>
            let u := completed_urb u rp in
            do* on_linux (put_priv t (set_urbs tp (Urbs b (<[rp_index rp:=u]> urbs)))) in ret u
        | None => undef freed
        end
    | IsoUrbs b urbs =>
        match urbs !! rp_index rp with
        | Some (Some (p, u)) =>
            let u := completed_urb u rp in
            do* on_linux (put_priv t (set_urbs tp (IsoUrbs b (<[rp_index rp:=Some (p, u)]> urbs)))) in ret u
        | _ => undef freed
        end
    | NoUrbs => undef freed
    end in
  let* l := buffer_of tr in
  let* l := lift (write_at (u_buffer u) (rp_data rp) l) in
  do* put_buffer tr l in
  ret u.

(** [handle_bulk_completion],
    src/external/libusb-1.0.9/libusb/os/linux_usbfs.c:1974-2108; [urb_idx] is the place of the
    request in the array. *)
Definition handle_bulk_completion (t : nat) (urb_idx : Z) (urb : usbfs_urb) : M (Ctx (Devices (Linux W))) Z :=
  let* '(it, tr) := get_transfer t in
  let* tp := on_linux (get_priv t) in
  let* l := buffer_of tr in
  let* '(tp, transferred, l, next) := lift (bulk_reap tp (it_transferred it) l urb_idx urb) in
  do* on_linux (put_priv t tp) in
  do* put_transfer t (set_transferred it transferred, tr) in
  do* put_buffer tr l in
  match next with
  | BulkWait => ret 0
  | BulkCancelRemaining =>
      let* _ := on_linux (discard_urbs t tr (urb_idx + 1) (lt_num_urbs tp)) in ret 0
  | BulkCompleted =>
      do* on_linux (free_urbs t) in
      if bool_decide (lt_reap_action tp = CANCELLED) then usbi_handle_transfer_cancellation t
      else usbi_handle_transfer_completion t (lt_reap_status tp)
  end.

(** The packet descriptors of the transfer from [offset] on, with the results of a request. *)
Fixpoint copy_iso_results (packets : list usbfs_iso_packet_desc) (offset : nat)
    (desc : list libusb_iso_packet_descriptor) : outcome (list libusb_iso_packet_descriptor) :=
  match packets with
  | [] => Ret desc
  | p :: packets' =>
      match desc !! offset with
      | None => Undef overrun
      | Some d =>
          copy_iso_results packets' (S offset)
            (<[offset:=mk_iso_packet (ip_length d) (up_actual_length p) (iso_packet_status (up_status p))]> desc)
      end
  end.

Definition set_iso_packet_desc (tr : libusb_transfer) (l : list libusb_iso_packet_descriptor) : libusb_transfer :=
  mk_transfer (tr_dev_handle tr) (tr_flags tr) (tr_endpoint tr) (tr_type tr) (tr_timeout tr) (tr_status tr)
    (tr_length tr) (tr_actual_length tr) (tr_callback tr) (tr_user_data tr) (tr_buffer tr)
    (tr_num_iso_packets tr) l.

(** [handle_iso_completion],
    src/external/libusb-1.0.9/libusb/os/linux_usbfs.c:2110-2229; the request is the one at an
    index, if there is one. *)
Definition handle_iso_completion (t : nat) (index : nat) (urb : usbfs_urb) : M (Ctx (Devices (Linux W))) Z :=
  let* '(it, tr) := get_transfer t in
  let* tp := on_linux (get_priv t) in
  let num_urbs := lt_num_urbs tp in
  if num_urbs <=? Z.of_nat index then ret (LIBUSB_ERROR_NOT_FOUND : Z)
  else
    let urb_idx := Z.of_nat index + 1 in
    let* packets := lift (array_prefix (u_number_of_packets urb) (u_iso_frame_desc urb)) in
    let* desc := lift (copy_iso_results packets (Z.to_nat (lt_iso_packet_offset tp)) (tr_iso_packet_desc tr)) in
    do* put_transfer t (it, set_iso_packet_desc tr desc) in
    let tp := mk_transfer_priv (lt_urbs tp) (lt_reap_action tp) num_urbs (u32 (lt_num_retired tp + 1))
                (lt_reap_status tp) (lt_iso_packet_offset tp + u_number_of_packets urb) in
    do* on_linux (put_priv t tp) in
    if negb (bool_decide (lt_reap_action tp = NORMAL)) then
      if lt_num_retired tp =? num_urbs then
        do* on_linux (free_iso_urbs t) in
        if bool_decide (lt_reap_action tp = CANCELLED) then usbi_handle_transfer_cancellation t
        else usbi_handle_transfer_completion t LIBUSB_TRANSFER_ERROR
      else ret 0
    else if urb_idx =? num_urbs then
      do* on_linux (free_iso_urbs t) in
      usbi_handle_transfer_completion t (iso_status (u_status urb))
    else ret 0.

(** [handle_control_completion],
    src/external/libusb-1.0.9/libusb/os/linux_usbfs.c:2231-2291. *)
Definition handle_control_completion (t : nat) (urb : usbfs_urb) : M (Ctx (Devices (Linux W))) Z :=
  let* '(it, tr) := get_transfer t in
  do* put_transfer t (set_transferred it (it_transferred it + u_actual_length urb), tr) in
  let* tp := on_linux (get_priv t) in
  do* on_linux (free_urbs t) in
  if bool_decide (lt_reap_action tp = CANCELLED) then usbi_handle_transfer_cancellation t
  else usbi_handle_transfer_completion t (control_status (u_status urb)).

(** What [reap_for_handle] does with a request. *)
Definition handle_reaped (rp : reaped) : M (Ctx (Devices (Linux W))) Z :=
  let* urb := kernel_writes rp in
  let t := u_usercontext urb in
  let* '(_, tr) := get_transfer t in
  if tr_type tr =? LIBUSB_TRANSFER_TYPE_ISOCHRONOUS then handle_iso_completion t (rp_index rp) urb
  else if (tr_type tr =? LIBUSB_TRANSFER_TYPE_BULK) || (tr_type tr =? LIBUSB_TRANSFER_TYPE_INTERRUPT) then
    handle_bulk_completion t (Z.of_nat (rp_index rp)) urb
  else if tr_type tr =? LIBUSB_TRANSFER_TYPE_CONTROL then handle_control_completion t urb
  else ret (LIBUSB_ERROR_OTHER : Z).

(** [reap_for_handle], src/external/libusb-1.0.9/libusb/os/linux_usbfs.c:2293-2332. *)
Definition reap_for_handle (handle : nat) : M (Ctx (Devices (Linux W))) Z :=
  let* fd := on_linux (fd_of_handle handle) in
  let* r := on_linux (on_kernel (ioctl_reapurbndelay fd)) in
  match r with
  | inl errno =>
      ret (if errno =? EAGAIN then 1 else if errno =? ENODEV then LIBUSB_ERROR_NO_DEVICE else LIBUSB_ERROR_IO)
  | inr rp => handle_reaped rp
  end.

(** The open handle with a file descriptor. *)
Fixpoint handle_of_fd (fds : gmap nat Z) (fd : Z) (l : list nat) : option nat :=
  match l with
  | [] => None
  | h :: l' => if bool_decide (fds !! h = Some fd) then Some h else handle_of_fd fds fd l'
  end.

(** [op_handle_events], src/external/libusb-1.0.9/libusb/os/linux_usbfs.c:2334-2373: the
    descriptors with their events and what happened, and how many are ready. *)
Fixpoint op_handle_events (fds : list (Z * Z * Z)) (num_ready : Z) : M (Ctx (Devices (Linux W))) Z :=
  match fds with
  | [] => ret 0
  | (fd, _, revents) :: fds' =>
      if num_ready <=? 0 then ret 0
      else if revents =? 0 then op_handle_events fds' num_ready
      else
        let num_ready := num_ready - 1 in
        let* s := gets id in
        match handle_of_fd (lx_fds (d_rest (c_rest s))) fd (d_open_devs (c_rest s)) with
        | None => undef "the handle of a descriptor that is none of a device"
        | Some handle =>
            if negb (Z.land revents POLLERR =? 0) then
              do* usbi_remove_pollfd fd in
              do* usbi_handle_disconnect (length (c_flying s)) handle in
              op_handle_events fds' num_ready
            else
              let* r := reap_for_handle handle in
              if (r =? 1) || (r =? LIBUSB_ERROR_NO_DEVICE) then op_handle_events fds' num_ready
              else if r <? 0 then ret r
              else op_handle_events fds' num_ready
        end
  end.
End complete.
