(* ===== verification/UsbUrbsProofs.v ===== *)
(** * Requests of USB transfers on Linux: what they cover and how they come back

    The theorems on UsbUrbs.v: the requests of a bulk transfer cut its buffer into pieces without
    gaps, those of an isochronous one its packets; when they come back in order, the transfer
    completes with the last one and what was received lies at the start of the buffer without
    holes, also when the transfer is cancelled or fails on the way.  Others show that an overflow,
    or a stall whose requests are discarded from the end, completes the transfer, and frees its
    requests, while the kernel still has some. *)
From S2P Require Import Prelude UsbBase UsbIo UsbDescriptor UsbCore UsbLinux UsbUrbs.

(** ** Cutting a buffer *)

(** The bytes of a request. *)
Definition urb_bytes (l : list Z) (u : usbfs_urb) : list Z :=
  take (Z.to_nat (u_buffer_length u)) (drop (Z.to_nat (u_buffer u)) l).

Definition bulk_urbs (g : LinuxGlobals) (t : nat) (tr : libusb_transfer) (urb_type : Z) (is_out : bool) : list usbfs_urb :=
  let '(n, partial) := bulk_num_urbs (tr_length tr) in
  map (fun i => bulk_urb g t tr urb_type is_out n partial (Z.of_nat i)) (seq 0 (Z.to_nat n)).

Lemma bulk_num_urbs_spec len : 0 < len ->
  let '(n, partial) := bulk_num_urbs len in
  MAX_BULK_BUFFER_LENGTH * (n - 1) < len <= MAX_BULK_BUFFER_LENGTH * n /\
  (if partial then Z.rem len MAX_BULK_BUFFER_LENGTH else MAX_BULK_BUFFER_LENGTH)
  = len - MAX_BULK_BUFFER_LENGTH * (n - 1).
Proof.
  intros Hl. unfold bulk_num_urbs, MAX_BULK_BUFFER_LENGTH. destruct (Z.eqb_spec len 0); [lia|].
  pose proof (Z.quot_rem len 16384 ltac:(lia)). pose proof (Z.rem_bound_pos len 16384 ltac:(lia) ltac:(lia)).
  destruct (Z.ltb_spec 0 (Z.rem len 16384)); lia.
Qed.

(** Pieces of the same size, and the rest. *)
Lemma concat_pieces (c : nat) (l : list Z) n i : (0 < c)%nat -> (c * (i + n) < length l <= c * (i + S n))%nat ->
  concat (map (fun j => take c (drop (c * j) l)) (seq i n)) ++ drop (c * (i + n)) l = drop (c * i) l.
Proof.
  intros Hc. revert i. induction n as [|n IH]; intros i Hl; cbn [seq map concat].
  { by rewrite Nat.add_0_r. }
  rewrite <- app_assoc. replace (c * (i + S n))%nat with (c * (S i + n))%nat by lia. rewrite IH by lia.
  rewrite <- (take_drop c (drop (c * i) l)) at 2. rewrite drop_drop. do 2 f_equal. lia.
Qed.

Lemma bulk_urb_flags g t tr ty is_out n partial i :
  let u := bulk_urb g t tr ty is_out n partial i in
  let continuation := negb (supports_flag_bulk_continuation g =? 0) in
  Z.testbit (u_flags u) 2 = continuation && (0 <? i) /\
  Z.testbit (u_flags u) 0 = continuation && negb is_out /\
  Z.testbit (u_flags u) 6 = is_out && (i =? n - 1) && negb (Z.land (tr_flags tr) LIBUSB_TRANSFER_ADD_ZERO_PACKET =? 0).
Proof.
  cbn [u_flags bulk_urb]. destruct (negb (supports_flag_bulk_continuation g =? 0)), is_out, (0 <? i), (i =? n - 1),
    (negb (Z.land (tr_flags tr) LIBUSB_TRANSFER_ADD_ZERO_PACKET =? 0)); done.
Qed.

Lemma length_bulk_urbs g t tr ty is_out : 0 <= tr_length tr ->
  length (bulk_urbs g t tr ty is_out) = Z.to_nat (bulk_num_urbs (tr_length tr)).1 /\
  0 < (bulk_num_urbs (tr_length tr)).1.
Proof.
  intros Hl. unfold bulk_urbs. pose proof (bulk_num_urbs_spec (tr_length tr)) as Hs.
  destruct (bulk_num_urbs (tr_length tr)) as [n partial] eqn:E. rewrite length_map, length_seq. split; [done|]. cbn.
  destruct (decide (tr_length tr = 0)) as [E0|]; [rewrite E0 in E; by injection E as <- _|].
  unfold MAX_BULK_BUFFER_LENGTH in Hs. specialize (Hs ltac:(lia)). lia.
Qed.

Lemma bulk_urbs_concat g t tr ty is_out l : Z.of_nat (length l) = tr_length tr ->
  concat (map (urb_bytes l) (bulk_urbs g t tr ty is_out)) = l /\
  Forall (fun u => 0 <= u_buffer_length u <= MAX_BULK_BUFFER_LENGTH) (bulk_urbs g t tr ty is_out).
Proof.
  intros Hl. unfold bulk_urbs. destruct (decide (tr_length tr = 0)) as [E0|Hne].
  { rewrite E0. destruct l; [|cbn in Hl; lia]. cbn [bulk_num_urbs Z.eqb]. change (seq 0 (Z.to_nat 1)) with [0%nat].
    cbn [map concat]. split; [unfold urb_bytes; by rewrite drop_nil, take_nil|].
    constructor; [|done]. cbn [u_buffer_length bulk_urb]. rewrite E0. done. }
  pose proof (bulk_num_urbs_spec (tr_length tr) ltac:(lia)) as Hs.
  destruct (bulk_num_urbs (tr_length tr)) as [n partial]. destruct Hs as [Hn Hlast].
  unfold MAX_BULK_BUFFER_LENGTH in *.
  assert (exists m, Z.to_nat n = S m) as [m Em] by (exists (Z.to_nat (n - 1)); lia). rewrite Em, seq_S, !map_app.
  assert (forall i, (i < m)%nat -> u_buffer_length (bulk_urb g t tr ty is_out n partial (Z.of_nat i)) = 16384) as Hfull.
  { intros i Hi. cbn [u_buffer_length bulk_urb]. destruct (Z.eqb_spec (Z.of_nat i) (n - 1)); [lia|].
    destruct (Z.eqb_spec (tr_length tr) 0); [lia|done]. }
  assert (u_buffer_length (bulk_urb g t tr ty is_out n partial (Z.of_nat m)) = tr_length tr - 16384 * (n - 1)) as Hrest.
  { cbn [u_buffer_length bulk_urb]. destruct (Z.eqb_spec (Z.of_nat m) (n - 1)); [|lia]. rewrite <- Hlast.
    destruct partial; [done|]. destruct (Z.eqb_spec (tr_length tr) 0); [lia|done]. }
  split.
  - rewrite concat_app. cbn [map concat Nat.add]. rewrite app_nil_r. pose proof (concat_pieces (Z.to_nat 16384) l m 0 ltac:(lia)) as Hc.
    rewrite Nat.mul_0_r, drop_0 in Hc. etransitivity; [|apply Hc; lia]. f_equal.
    + f_equal. rewrite map_map. apply map_ext_in. intros i Hi%in_seq. unfold urb_bytes. rewrite Hfull by lia.
      cbn [u_buffer bulk_urb]. unfold MAX_BULK_BUFFER_LENGTH.
      by replace (Z.to_nat (Z.of_nat i * 16384)) with (Z.to_nat 16384 * i)%nat by lia.
    + unfold urb_bytes. rewrite Hrest. cbn [u_buffer bulk_urb]. unfold MAX_BULK_BUFFER_LENGTH.
      replace (Z.to_nat (Z.of_nat m * 16384)) with (Z.to_nat 16384 * (0 + m))%nat by lia.
      apply take_ge. rewrite length_drop. lia.
  - apply Forall_app. split.
    + apply Forall_map, Forall_forall. intros i Hi%elem_of_seq. cbn beta. rewrite Hfull by lia. lia.
    + cbn [map Nat.add]. apply Forall_singleton. rewrite Hrest. lia.
Qed.

Lemma bulk_urbs_lookup g t tr ty is_out i u : 0 <= tr_length tr -> bulk_urbs g t tr ty is_out !! i = Some u ->
  u_buffer u = Z.of_nat i * MAX_BULK_BUFFER_LENGTH /\ 0 <= u_buffer_length u /\
  ((S i < length (bulk_urbs g t tr ty is_out))%nat -> u_buffer_length u = MAX_BULK_BUFFER_LENGTH) /\
  u_buffer u + u_buffer_length u <= tr_length tr.
Proof.
  intros Hl. unfold bulk_urbs. pose proof (bulk_num_urbs_spec (tr_length tr)) as Hs.
  destruct (bulk_num_urbs (tr_length tr)) as [n partial] eqn:E. rewrite list_lookup_fmap, fmap_Some. intros (j & Hj & ->).
  apply lookup_seq in Hj as [-> Hj]. rewrite length_map, length_seq. cbn [Nat.add u_buffer u_buffer_length bulk_urb].
  split; [done|]. destruct (Z.eqb_spec (tr_length tr) 0) as [E0|Hne].
  { rewrite E0 in E |- *. injection E as <- <-. rewrite andb_false_r. split; [done|]. split; [lia|].
    unfold MAX_BULK_BUFFER_LENGTH. lia. }
  destruct Hs as [Hn Hlast]; [lia|]. unfold MAX_BULK_BUFFER_LENGTH in *.
  destruct (Z.eqb_spec (Z.of_nat i) (n - 1)), partial; cbn [andb]; lia.
Qed.

(** C13: the requests of a bulk or interrupt transfer cover its buffer from the start to the end, each
    byte once and in order, with at most 16 kilobytes each; the continuation flag is on all of
    them but the first, the flag that makes a short answer an error on all of an input transfer
    (the last one too, unlike what the file says), and the zero packet after the last one of an
    output transfer that asks for it. *)
Theorem bulk_urbs_cover g t tr ty is_out l :
  Z.of_nat (length l) = tr_length tr ->
  let urbs := bulk_urbs g t tr ty is_out in
  let continuation := negb (supports_flag_bulk_continuation g =? 0) in
  concat (map (urb_bytes l) urbs) = l /\ (0 < length urbs)%nat /\
  Forall (fun u => 0 <= u_buffer_length u <= MAX_BULK_BUFFER_LENGTH) urbs /\
  forall i u, urbs !! i = Some u ->
    u_usercontext u = t /\ u_endpoint u = tr_endpoint tr /\ u_buffer u = Z.of_nat i * MAX_BULK_BUFFER_LENGTH /\
    u_buffer u + u_buffer_length u <= tr_length tr /\
    (Z.testbit (u_flags u) 2 = continuation && negb (i =? 0)%nat) /\
    (Z.testbit (u_flags u) 0 = continuation && negb is_out) /\
    (Z.testbit (u_flags u) 6 = is_out && (S i =? length urbs)%nat
                               && negb (Z.land (tr_flags tr) LIBUSB_TRANSFER_ADD_ZERO_PACKET =? 0)).
Proof.
  intros Hl. cbn zeta. destruct (bulk_urbs_concat g t tr ty is_out l Hl) as [Hc Hb].
  destruct (length_bulk_urbs g t tr ty is_out ltac:(lia)) as [Hn Hpos].
  split; [done|]. split; [lia|]. split; [done|]. rewrite Hn. intros i u Hu.
  assert (i < Z.to_nat (bulk_num_urbs (tr_length tr)).1)%nat as Hi by (rewrite <- Hn; by eapply lookup_lt_Some).
  destruct (bulk_urbs_lookup g t tr ty is_out i u ltac:(lia) Hu) as (_ & _ & _ & Hend).
  revert Hu. unfold bulk_urbs. destruct (bulk_num_urbs (tr_length tr)) as [n partial]. cbn [fst] in *.
  rewrite list_lookup_fmap, lookup_seq_lt by done. intros [= <-].
  pose proof (bulk_urb_flags g t tr ty is_out n partial (Z.of_nat i)) as (F2 & F0 & F6). cbn zeta in *.
  split_and!; [done|done|done|exact Hend| |done|].
  - rewrite F2. f_equal. destruct i; done.
  - rewrite F6. f_equal. f_equal. destruct (Z.eqb_spec (Z.of_nat i) (n - 1)), (Nat.eqb_spec (S i) (Z.to_nat n)); lia.
Qed.

(** ** Requests that come back *)

(** What happens to a bulk or interrupt transfer: the next request comes back with a status and the
    data that the kernel has written to its part of the buffer, or somebody cancels the transfer. *)
Inductive bulk_event := Reaped (status : Z) (data : list Z) | Cancelled.

(** The requests [urbs], the first of which has the index [i], come back in order; after the
    transfer has completed its memory is gone. *)
Fixpoint bulk_run (type : Z) (evs : list bulk_event) (urbs : list usbfs_urb) (i : Z) (tp : linux_transfer_priv)
    (transferred : Z) (buffer : list Z) : outcome (linux_transfer_priv * Z * list Z * bool) :=
  match evs, urbs with
  | [], _ => Ret (tp, transferred, buffer, false)
  | Cancelled :: evs, _ =>
      bulk_run type evs urbs i
        (mk_transfer_priv (lt_urbs tp) (cancelled_action type (lt_reap_action tp)) (lt_num_urbs tp)
           (lt_num_retired tp) (lt_reap_status tp) (lt_iso_packet_offset tp)) transferred buffer
  | Reaped _ _ :: _, [] => Undef freed
  | Reaped status data :: evs, u :: urbs =>
      buffer ← write_at (u_buffer u) data buffer;
      '(tp, transferred, buffer, next) ←
        bulk_reap tp transferred buffer i
          (completed_urb u (mk_reaped (u_usercontext u) (Z.to_nat i) status (Z.of_nat (length data)) data []));
      if bool_decide (next = BulkCompleted) then
        match evs with [] => Ret (tp, transferred, buffer, true) | _ => Undef freed end
      else bulk_run type evs urbs (i + 1) tp transferred buffer
  end.

(** What the kernel promises: every request comes back, none with more data than it has room for;
    nothing is received after the device has gone or stalled; an overflow is one of the last. *)
Fixpoint in_order (halted : bool) (evs : list bulk_event) (urbs : list usbfs_urb) : Prop :=
  match evs, urbs with
  | [], _ => urbs = []
  | Cancelled :: evs, _ => urbs <> [] /\ in_order halted evs urbs
  | Reaped _ _ :: _, [] => False
  | Reaped status data :: evs, u :: urbs =>
      Z.of_nat (length data) <= u_buffer_length u /\ (halted = true -> data = []) /\
      (bulk_outcome status = UrbOverflow -> urbs = []) /\
      in_order (halted || bool_decide (bulk_outcome status ∈ [UrbGone; UrbStalled])) evs urbs
  end.
Definition event_data (e : bulk_event) : list Z := match e with Reaped _ data => data | Cancelled => [] end.
Definition all_data (evs : list bulk_event) : list Z := concat (map event_data evs).

(** The requests cover a part of a buffer with [len] bytes, one after the other, from [off] on. *)
Fixpoint pieces (off : Z) (urbs : list usbfs_urb) (len : Z) : Prop :=
  match urbs with
  | [] => off <= len
  | u :: urbs => u_buffer u = off /\ 0 <= u_buffer_length u /\ pieces (off + u_buffer_length u) urbs len
  end.
Lemma pieces_bound off urbs len : pieces off urbs len -> off <= len.
Proof. revert off. induction urbs as [|u urbs IH]; intros off; cbn; [done|]. intros (_ & Hb & Hp). specialize (IH _ Hp). lia. Qed.

(** ** The data *)

(** The buffer starts with the data that were received. *)
Definition received (got : list Z) (transferred : Z) (buffer : list Z) : Prop :=
  transferred = Z.of_nat (length got) /\ take (length got) buffer = got.

Lemma received_length got n l : received got n l -> (length got <= length l)%nat.
Proof. intros [_ Ht]. rewrite <- Ht at 1. rewrite length_take. lia. Qed.

Lemma write_at_spec off data l : 0 <= off -> off + Z.of_nat (length data) <= Z.of_nat (length l) ->
  write_at off data l = Ret (take (Z.to_nat off) l ++ data ++ drop (Z.to_nat off + length data) l).
Proof. intros H1 H2. unfold write_at. rewrite (proj2 (Z.leb_le _ _)), (proj2 (Z.leb_le _ _)) by done. done. Qed.

(** What is written behind the data leaves them, and what is written right behind them is added. *)
Lemma write_at_received got n off data l : received got n l -> n <= off ->
  off + Z.of_nat (length data) <= Z.of_nat (length l) ->
  exists l', write_at off data l = Ret l' /\ length l' = length l /\ received got n l' /\
    (off = n -> received (got ++ data) (n + Z.of_nat (length data)) l') /\
    read_at off (Z.of_nat (length data)) l' = Ret data.
Proof.
  intros Hr Hn Hl. pose proof (received_length _ _ _ Hr) as Hgot. destruct Hr as [-> Ht].
  rewrite write_at_spec by lia. eexists. split; [done|].
  assert (length (take (Z.to_nat off) l) = Z.to_nat off) as Hto by (rewrite length_take; lia).
  assert (length (take (Z.to_nat off) l ++ data ++ drop (Z.to_nat off + length data) l) = length l) as Hlen.
  { rewrite !length_app, Hto, length_drop. lia. }
  split; [done|]. split; [|split].
  - split; [done|]. rewrite take_app_le, take_take, Nat.min_l by lia. done.
  - intros ->. rewrite Nat2Z.id in *. split; [rewrite length_app; lia|].
    rewrite length_app, take_app_add', Ht, take_app_le, take_ge by (rewrite ?Ht; lia). done.
  - unfold read_at. rewrite Hlen, (proj2 (Z.leb_le _ _)), (proj2 (Z.leb_le _ _)) by lia. cbn [andb].
    rewrite drop_app_length', take_app_length' by lia. done.
Qed.

(** The data of a request of a transfer that is ending are moved to the end of what was received. *)
Lemma bulk_surplus_received tp got n l u data :
  received got n l -> n <= u_buffer u -> u_buffer u + Z.of_nat (length data) <= Z.of_nat (length l) ->
  u_actual_length u = Z.of_nat (length data) -> read_at (u_buffer u) (Z.of_nat (length data)) l = Ret data ->
  (u_buffer u = n -> received (got ++ data) (n + Z.of_nat (length data)) l) ->
  0 <= lt_num_retired tp < lt_num_urbs tp -> lt_num_urbs tp < 2 ^ 32 ->
  exists tp' l' next,
    bulk_surplus tp n l u = Ret (tp', n + Z.of_nat (length data), l', next) /\
    received (got ++ data) (n + Z.of_nat (length data)) l' /\ length l' = length l /\
    lt_reap_action tp' = lt_reap_action tp /\ lt_num_urbs tp' = lt_num_urbs tp /\
    lt_num_retired tp' = lt_num_retired tp + 1 /\
    next = if lt_num_retired tp + 1 =? lt_num_urbs tp then BulkCompleted else BulkWait.
Proof.
  intros Hr Hn Hl Ha Hread Hadj Hret Hw. unfold bulk_surplus.
  replace (u32 (lt_num_retired tp + 1)) with (lt_num_retired tp + 1) by (symmetry; apply u32_id; unfold is_u32; lia).
  rewrite Ha. destruct (Z.ltb_spec 0 (Z.of_nat (length data))) as [H0|H0]; cbn [mbind outcome_bind]; cycle 1.
  { destruct data; [|cbn in H0; lia]. do 3 eexists. split; [f_equal; f_equal; f_equal; f_equal; cbn; lia|].
    cbn. rewrite app_nil_r, Z.add_0_r. done. }
  destruct (Z.eqb_spec (u_buffer u) n) as [E|E].
  { do 3 eexists. split; [done|]. by split; [apply Hadj|]. }
  unfold memmove. rewrite Hread. cbn [mbind outcome_bind].
  destruct (write_at_received got n n data l Hr ltac:(lia) ltac:(lia)) as (l' & -> & Hlen & _ & Hnew & _).
  do 3 eexists. split; [done|]. by split; [apply Hnew|].
Qed.

(** A request of a transfer for which nothing has happened yet ends the transfer exactly if it is
    the last one; else all its data have come, or none will come, or the transfer is ending. *)
Lemma bulk_normal_next tp n l u :
  lt_reap_action tp = NORMAL ->
  0 <= lt_num_retired tp < lt_num_urbs tp -> lt_num_urbs tp < 2 ^ 32 ->
  (bulk_outcome (u_status u) = UrbOverflow -> lt_num_retired tp + 1 = lt_num_urbs tp) ->
  exists tp' next,
    bulk_normal tp n l (lt_num_retired tp) u = (tp', n + u_actual_length u, l, next) /\
    lt_num_urbs tp' = lt_num_urbs tp /\ lt_num_retired tp' = lt_num_retired tp + 1 /\
    (next = BulkCompleted <-> lt_num_retired tp + 1 = lt_num_urbs tp) /\
    (lt_reap_action tp' = NORMAL -> next <> BulkCompleted ->
     u_buffer_length u <= u_actual_length u \/ bulk_outcome (u_status u) ∈ [UrbGone; UrbStalled]).
Proof.
  intros Ha Hret Hw Ho. unfold bulk_normal.
  replace (u32 (lt_num_retired tp + 1)) with (lt_num_retired tp + 1) by (symmetry; apply u32_id; unfold is_u32; lia).
  destruct (bulk_outcome (u_status u)) eqn:E.
  - destruct (Z.eqb_spec (lt_num_retired tp) (lt_num_urbs tp - 1)).
    { do 2 eexists. split; [done|]. split; [done|]. split; [done|]. split; [|done]. split; [lia|done]. }
    destruct (Z.ltb_spec (u_actual_length u) (u_buffer_length u)).
    + destruct (Z.eqb_spec (lt_num_retired tp + 1) (lt_num_urbs tp)); [lia|].
      do 2 eexists. split; [done|]. by split_and!.
    + do 2 eexists. split; [done|]. split_and!; try done; [split; [done|lia]|by left].
  - destruct (Z.eqb_spec (lt_num_retired tp + 1) (lt_num_urbs tp));
      do 2 eexists; (split; [done|]); split_and!; try done; right; set_solver.
  - destruct (Z.eqb_spec (lt_num_retired tp + 1) (lt_num_urbs tp));
      do 2 eexists; (split; [done|]); split_and!; try done; right; set_solver.
  - specialize (Ho eq_refl). do 2 eexists. split; [done|]. by split_and!.
  - destruct (Z.eqb_spec (lt_num_retired tp + 1) (lt_num_urbs tp));
      do 2 eexists; (split; [done|]); by split_and!.
Qed.

(** What holds of a transfer when the requests [urbs] are still out, the first of which starts at
    [off]. *)
Record bulk_inv (tp : linux_transfer_priv) (i off n : Z) (halted : bool) (urbs : list usbfs_urb)
    (got buffer : list Z) : Prop := {
  bi_pieces : pieces off urbs (Z.of_nat (length buffer));
  bi_retired : 0 <= lt_num_retired tp;
  bi_num : lt_num_retired tp + Z.of_nat (length urbs) = lt_num_urbs tp;
  bi_width : lt_num_urbs tp < 2 ^ 32;
  bi_received : received got n buffer;
  bi_behind : n <= off;
  bi_index : lt_reap_action tp = NORMAL -> i = lt_num_retired tp;
  bi_no_hole : lt_reap_action tp = NORMAL -> halted = false -> urbs <> [] -> n = off }.

Lemma bulk_reap_inv tp i off n halted u urbs got buffer status data :
  bulk_inv tp i off n halted (u :: urbs) got buffer ->
  Z.of_nat (length data) <= u_buffer_length u -> (halted = true -> data = []) ->
  (bulk_outcome status = UrbOverflow -> urbs = []) ->
  exists buffer1 tp' buffer' next,
    write_at (u_buffer u) data buffer = Ret buffer1 /\
    bulk_reap tp n buffer1 i
      (completed_urb u (mk_reaped (u_usercontext u) (Z.to_nat i) status (Z.of_nat (length data)) data []))
    = Ret (tp', n + Z.of_nat (length data), buffer', next) /\
    length buffer' = length buffer /\ (next = BulkCompleted <-> urbs = []) /\
    bulk_inv tp' (i + 1) (off + u_buffer_length u) (n + Z.of_nat (length data))
      (halted || bool_decide (bulk_outcome status ∈ [UrbGone; UrbStalled])) urbs (got ++ data) buffer'.
Proof.
  intros [(Hb & Hbl & Hp) Hret Hnum Hw Hr Hbehind Hidx Hhole] Hd Hhalt Ho. cbn [length] in Hnum.
  pose proof (pieces_bound _ _ _ Hp). destruct Hr as [Hn Ht] eqn:EHr. clear EHr.
  destruct (write_at_received got n (u_buffer u) data buffer) as (l1 & E1 & Hlen & Hr1 & Hadj & Hread); [done|lia|lia|].
  exists l1. unfold bulk_reap.
  set (u' := completed_urb u _). assert (u_buffer u' = u_buffer u) as Eb by done.
  assert (forall m, (m =? lt_num_urbs tp) = true <-> m = lt_num_urbs tp) as Hm by (intros; apply Z.eqb_eq).
  destruct (bool_decide_reflect (lt_reap_action tp = NORMAL)) as [Ha|Ha].
  - rewrite (Hidx Ha). specialize (Hhole Ha).
    destruct (bulk_normal_next tp n l1 u' Ha ltac:(lia) Hw) as (tp' & next & -> & Hnum' & Hret' & Hnext & Hgo).
    { intros E. specialize (Ho E). subst urbs. cbn in Hnum. lia. }
    cbn [u_actual_length u' completed_urb rp_actual_length].
    assert (n = off \/ data = []) as Hor by (destruct halted; [right; by apply Hhalt|left; by apply Hhole]).
    exists tp', l1, next. split; [done|]. split; [done|]. split; [done|].
    assert (next = BulkCompleted <-> urbs = []) as Hiff.
    { rewrite Hnext. split; [intros; destruct urbs; [done|cbn in Hnum; lia]|intros ->; cbn in Hnum; lia]. }
    split; [done|]. split; try done; try lia.
    + by rewrite Hlen.
    + destruct Hor as [->| ->]; [by apply Hadj; lia|]. cbn. by rewrite app_nil_r, Z.add_0_r.
    + intros Ha' Hh' Hu. apply orb_false_iff in Hh' as [Hh Hg%bool_decide_eq_false]. specialize (Hhole Hh ltac:(done)).
      destruct (Hgo Ha') as [Hfull|Hbad]; [by rewrite Hiff| |done].
      cbn [u_buffer_length u' completed_urb u_actual_length rp_actual_length] in Hfull. lia.
  - destruct (bulk_surplus_received tp got n l1 u' data Hr1) as (tp' & l' & next & E & Hr' & Hl' & Ha' & Hnum' & Hret' & Hnext);
      [lia|lia|done|done|done|lia|done|].
    exists tp', l', next. split; [done|]. split; [done|]. split; [lia|]. rewrite Hnext. split.
    { destruct (Z.eqb_spec (lt_num_retired tp + 1) (lt_num_urbs tp)); (split; [|try done]); intros; try done.
      - destruct urbs; [done|cbn in Hnum; lia].
      - subst urbs. cbn in Hnum. lia. }
    split; try done; try lia; rewrite ?Ha'; try done. by rewrite Hl', Hlen.
Qed.

Lemma bulk_run_spec type evs : forall urbs i tp off n halted got buffer,
  bulk_inv tp i off n halted urbs got buffer -> in_order halted evs urbs -> urbs <> [] ->
  exists tp' buffer',
    bulk_run type evs urbs i tp n buffer = Ret (tp', n + Z.of_nat (length (all_data evs)), buffer', true) /\
    received (got ++ all_data evs) (n + Z.of_nat (length (all_data evs))) buffer' /\
    length buffer' = length buffer.
Proof.
  induction evs as [|[status data|] evs IH]; intros urbs i tp off n halted got buffer HI Hevs Hne; [done| |].
  - destruct urbs as [|u urbs]; [done|]. destruct Hevs as (Hd & Hhalt & Ho & Hevs).
    destruct (bulk_reap_inv _ _ _ _ _ _ _ _ _ _ _ HI Hd Hhalt Ho) as (b1 & tp' & b' & next & E1 & E2 & Hlen & Hnext & HI').
    cbn [bulk_run]. rewrite E1. cbn [mbind outcome_bind]. rewrite E2. cbn [mbind outcome_bind].
    change (all_data (Reaped status data :: evs)) with (data ++ all_data evs).
    rewrite length_app, app_assoc, Nat2Z.inj_add, Z.add_assoc.
    destruct (bool_decide_reflect (next = BulkCompleted)) as [E|E].
    + apply Hnext in E. subst urbs. destruct evs as [|[]]; [|done|by destruct Hevs].
      change (all_data []) with (@nil Z). cbn [length]. change (Z.of_nat 0) with 0. rewrite app_nil_r, Z.add_0_r.
      exists tp', b'. split; [done|]. split; [apply HI'|done].
    + assert (urbs <> []) as Hu by (by rewrite <- Hnext).
      destruct (IH _ _ _ _ _ _ _ _ HI' Hevs Hu) as (tp2 & b2 & E3 & Hr & Hl). exists tp2, b2.
      split; [done|]. split; [done|]. lia.
  - destruct Hevs as [_ Hevs]. change (all_data (Cancelled :: evs)) with (all_data evs). cbn [bulk_run].
    eapply (IH urbs i _ off n halted got buffer); [|done|done].
    assert (cancelled_action type (lt_reap_action tp) <> NORMAL) as Hc.
    { unfold cancelled_action. destruct (_ && bool_decide (lt_reap_action tp = ERROR)) eqn:E; [|done].
      apply andb_prop in E as [_ E%bool_decide_eq_true]. by rewrite E. }
    destruct HI as [H1 H2 H3 H4 H5 H6 H7 H8]. by split.
Qed.

Lemma pieces_intro c len urbs : forall j,
  (forall i u, urbs !! i = Some u ->
     u_buffer u = (j + Z.of_nat i) * c /\ 0 <= u_buffer_length u /\
     ((S i < length urbs)%nat -> u_buffer_length u = c) /\ u_buffer u + u_buffer_length u <= len) ->
  j * c <= len -> pieces (j * c) urbs len.
Proof.
  induction urbs as [|u urbs IH]; intros j Hu Hj; [done|]. destruct (Hu 0%nat u eq_refl) as (Hb & H0 & Hfull & Hl).
  rewrite Z.add_0_r in Hb. split; [done|]. split; [done|]. destruct urbs as [|v urbs]; [cbn; lia|].
  rewrite (Hfull ltac:(cbn; lia)) in *. replace (j * c + c) with ((j + 1) * c) by lia. apply IH; [|lia].
  intros i w Hw. destruct (Hu (S i) w Hw) as (E & E0 & Ef & El). split; [rewrite E; f_equal; lia|].
  split; [done|]. split; [|done]. intros Hi. apply Ef. cbn in *. lia.
Qed.

(** What the backend keeps of a transfer of which the kernel has taken the first [k] requests. *)
Record ready (urbs : list usbfs_urb) (k : nat) (tp : linux_transfer_priv) : Prop := {
  rd_num : lt_num_urbs tp = Z.of_nat (length urbs);
  rd_some : (0 < k <= length urbs)%nat;
  rd_retired : lt_num_retired tp = Z.of_nat (length urbs) - Z.of_nat k;
  rd_action : lt_reap_action tp = NORMAL <-> k = length urbs;
  rd_status : lt_reap_status tp = LIBUSB_TRANSFER_COMPLETED;
  rd_urbs : exists b l, lt_urbs tp = Urbs b l /\ length l = length urbs /\ take k l = take k urbs }.

(** C12: when the requests of a bulk or interrupt transfer that the kernel has taken come back in order,
    each with no more data than it has room for, with cancellations in between, and with any status
    except that only the last one overflows and that none has data after one that came back because
    of a stall or of the removal of the device, the transfer completes exactly with the last of them,
    the number of bytes it reports is the number of bytes received, and those lie at the start of its
    buffer, in order and without holes, although every request has its own part of the buffer and may
    fill it only partly. An overflow before the last request completes the transfer at once, which is
    another theorem (overflow_completes_early). *)
Theorem bulk_reassembly g t tr ty is_out k tp buffer evs :
  ready (bulk_urbs g t tr ty is_out) k tp -> Z.of_nat (length buffer) = tr_length tr -> tr_length tr < 2 ^ 31 ->
  in_order false evs (take k (bulk_urbs g t tr ty is_out)) ->
  exists tp' buffer',
    bulk_run (tr_type tr) evs (take k (bulk_urbs g t tr ty is_out)) 0 tp 0 buffer
    = Ret (tp', Z.of_nat (length (all_data evs)), buffer', true) /\
    take (length (all_data evs)) buffer' = all_data evs /\ length buffer' = length buffer.
Proof.
  intros Hr Hl Hw Hevs. destruct Hr as [Hnum Hk Hret Hact _ _].
  assert (Z.of_nat (length (bulk_urbs g t tr ty is_out)) < 2 ^ 32) as Hn.
  { destruct (length_bulk_urbs g t tr ty is_out ltac:(lia)) as [-> Hp]. pose proof (bulk_num_urbs_spec (tr_length tr)) as Hs.
    destruct (bulk_num_urbs (tr_length tr)) as [n partial] eqn:E. cbn [fst] in *.
    destruct (decide (tr_length tr = 0)) as [E0|]; [rewrite E0 in E; by injection E as <- _|].
    unfold MAX_BULK_BUFFER_LENGTH in Hs. specialize (Hs ltac:(lia)). lia. }
  assert (length (take k (bulk_urbs g t tr ty is_out)) = k) as Hlk by (rewrite length_take; lia).
  destruct (bulk_run_spec (tr_type tr) evs (take k (bulk_urbs g t tr ty is_out)) 0 tp 0 0 false [] buffer)
    as (tp' & b' & E & [_ Ht] & Hlen); [|done| |exists tp', b'; done].
  - split; [|lia|rewrite Hlk; lia|lia| |done|rewrite Hact; lia|done].
    + apply (pieces_intro MAX_BULK_BUFFER_LENGTH _ _ 0); [|unfold MAX_BULK_BUFFER_LENGTH; lia].
      intros i u Hu. pose proof (lookup_lt_Some _ _ _ Hu) as Hi. rewrite Hlk in Hi. rewrite lookup_take_lt in Hu by done.
      destruct (bulk_urbs_lookup g t tr ty is_out i u ltac:(lia) Hu) as (H1 & H2 & H3 & H4). rewrite Hl.
      split_and!; [done|done|rewrite Hlk; intros; apply H3; lia|done].
    + split; [done|]. by rewrite take_0.
  - intros E. rewrite E in Hlk. cbn in Hlk. lia.
Qed.

(** ** Submission *)

Section submission.
Context {W : Type} `{Usbfs W}.
Implicit Types k : Linux W.

Definition set_transfers (k : Linux W) (m : gmap nat linux_transfer_priv) : Linux W :=
  mkLinux (lx_globals k) (lx_heap k) (lx_devices k) (lx_fds k) m (lx_sys k).

Lemma get_priv_run t k tp : lx_transfers k !! t = Some tp -> get_priv t k = (Ret tp, k).
Proof. intros E. unfold get_priv, query. by rewrite E. Qed.

Lemma write_urb_run t i u k tp b l : lx_transfers k !! t = Some tp -> lt_urbs tp = Urbs b l ->
  write_urb t i u k = (Ret tt, set_transfers k (<[t := set_urbs tp (Urbs b (<[i := u]> l))]> (lx_transfers k))).
Proof. intros E El. unfold write_urb. rewrite (bind_Ret _ _ _ _ _ (get_priv_run _ _ _ E)), El. done. Qed.

(** Requests to the kernel leave what the backend keeps. *)
Lemma on_kernel_transfers {A} (m : M W A) k r k1 : on_kernel m k = (r, k1) -> lx_transfers k1 = lx_transfers k.
Proof. unfold on_kernel. destruct (m (lx_sys k)). by intros [= <- <-]. Qed.

Lemma discard_urbs_transfers t tr a b k r k1 : discard_urbs t tr a b k = (r, k1) -> lx_transfers k1 = lx_transfers k.
Proof.
  unfold discard_urbs, bind, fd_of_handle. case_bool_decide; [by intros [= <- <-]|].
  apply on_kernel_transfers.
Qed.

Lemma submit_error_not_0 errno : submit_error errno <> 0.
Proof. unfold submit_error. by destruct (errno =? ENODEV). Qed.

(** The loop that submits, when [i] of the requests [urbs] are out. *)
Lemma submit_bulk_loop_ready fd t tr make urbs : forall n i k tp b l k1,
  (forall j u, urbs !! j = Some u -> u = make (Z.of_nat j)) ->
  (i + n = length urbs)%nat -> (0 < length urbs)%nat -> Z.of_nat (length urbs) < 2 ^ 32 ->
  lx_transfers k !! t = Some tp -> lt_urbs tp = Urbs b l -> length l = length urbs -> take i l = take i urbs ->
  lt_num_urbs tp = Z.of_nat (length urbs) -> lt_num_retired tp = 0 -> lt_reap_action tp = NORMAL ->
  lt_reap_status tp = LIBUSB_TRANSFER_COMPLETED ->
  submit_bulk_loop fd t tr make (Z.of_nat (length urbs)) n i k = (Ret 0, k1) ->
  exists j tp', lx_transfers k1 !! t = Some tp' /\ ready urbs j tp'.
Proof.
  induction n as [|n IH]; intros i k tp b l k1 Hm Hi Hp Hw Et Eu Hl Hti Hnum Hret Hact Hst Hrun.
  { injection Hrun as <-. exists i, tp. split; [done|]. split; try done; try lia; [split; [intros; lia|done]|].
    by exists b, l. }
  cbn [submit_bulk_loop] in Hrun. rewrite (bind_Ret _ _ _ _ _ (write_urb_run _ _ _ _ _ _ _ Et Eu)) in Hrun.
  set (k0 := set_transfers k _) in Hrun.
  set (l1 := <[i:=make (Z.of_nat i)]> l) in *. set (tp1 := set_urbs tp (Urbs b l1)) in *.
  assert (length l1 = length urbs) as Hl1 by (unfold l1; by rewrite length_insert).
  assert (take (S i) l1 = take (S i) urbs) as Htake.
  { destruct (lookup_lt_is_Some_2 urbs i ltac:(lia)) as [u Hu]. rewrite (take_S_r _ _ _ Hu). apply Hm in Hu as ->.
    rewrite <- Hti, (take_S_r l1 i (make (Z.of_nat i))) by (apply list_lookup_insert_eq; lia).
    f_equal. unfold l1. rewrite take_insert_ge by lia. done. }
  apply bind_Ret_inv in Hrun as (errno & k2 & Ek & Hrun). apply on_kernel_transfers in Ek.
  assert (lx_transfers k2 !! t = Some tp1) as Et2 by (rewrite Ek; apply lookup_insert_eq).
  destruct (Z.eqb_spec errno 0) as [E0|E0].
  { eapply (IH (S i) k2 tp1 b l1 k1); try done; lia. }
  destruct (bool_decide_reflect (i = 0%nat)) as [Ei|Ei].
  { apply bind_Ret_inv in Hrun as (? & ? & _ & Hrun). injection Hrun as E _. by apply submit_error_not_0 in E. }
  rewrite (bind_Ret _ _ _ _ _ (get_priv_run _ _ _ Et2)) in Hrun.
  apply bind_Ret_inv in Hrun as ([] & k3 & Ep & Hrun). injection Ep as <-.
  set (tp2 := mk_transfer_priv _ _ _ _ _ _) in Hrun.
  exists i, tp2. split.
  - destruct (bool_decide_reflect ((if errno =? EREMOTEIO then COMPLETED_EARLY else SUBMIT_FAILED) = COMPLETED_EARLY)).
    + injection Hrun as <-. apply lookup_insert_eq.
    + apply bind_Ret_inv in Hrun as (? & k4 & Ed & Hrun). injection Hrun as <-.
      apply discard_urbs_transfers in Ed. rewrite Ed. apply lookup_insert_eq.
  - split; cbn [tp2 tp1 set_urbs lt_num_urbs lt_num_retired lt_reap_action lt_reap_status lt_urbs]; try done; try lia.
    + rewrite Hret. apply u32_id. unfold is_u32. lia.
    + split; [destruct (errno =? EREMOTEIO); done|lia].
    + exists b, l1. split; [done|]. split; [done|]. apply (f_equal (take i)) in Htake.
      rewrite !take_take in Htake. by rewrite !Nat.min_l in Htake by lia.
Qed.

Lemma in_backend_transfers {A} (m : M Heap A) k r k1 : in_backend m k = (r, k1) -> lx_transfers k1 = lx_transfers k.
Proof. unfold in_backend. destruct (m (lx_heap k)). by intros [= <- <-]. Qed.

(** When the backend accepts a bulk or interrupt transfer, the kernel has taken one or more of
    its requests, the first ones, and what the backend keeps of the transfer is as
    [bulk_reassembly] wants it, whichever request the kernel refuses. *)
Theorem submit_bulk_ready t tr ty k k1 :
  0 <= tr_length tr < 2 ^ 31 -> submit_bulk_transfer t tr ty k = (Ret 0, k1) ->
  exists j tp', lx_transfers k1 !! t = Some tp' /\
    ready (bulk_urbs (lx_globals k) t tr ty (Z.land (tr_endpoint tr) LIBUSB_ENDPOINT_DIR_MASK =? LIBUSB_ENDPOINT_OUT)) j tp'.
Proof.
  intros Hw Hrun. unfold submit_bulk_transfer in Hrun.
  apply bind_Ret_inv in Hrun as (fd & ? & Ef & Hrun). unfold fd_of_handle in Ef. case_bool_decide; [done|]. injection Ef as _ <-.
  apply bind_Ret_inv in Hrun as (tp & ? & Et & Hrun). injection Et as Et <-.
  apply bind_Ret_inv in Hrun as (g & ? & Eg & Hrun). injection Eg as <- <-.
  set (is_out := Z.land (tr_endpoint tr) LIBUSB_ENDPOINT_DIR_MASK =? LIBUSB_ENDPOINT_OUT) in *.
  destruct (has_urbs tp); [done|]. destruct (is_out && _ && _); [done|].
  destruct (length_bulk_urbs (lx_globals k) t tr ty is_out ltac:(lia)) as [Hlen Hpos].
  pose proof (bulk_num_urbs_spec (tr_length tr)) as Hs.
  assert (forall j u, bulk_urbs (lx_globals k) t tr ty is_out !! j = Some u ->
    u = let '(n, p) := bulk_num_urbs (tr_length tr) in bulk_urb (lx_globals k) t tr ty is_out n p (Z.of_nat j)) as Hu.
  { intros j u. unfold bulk_urbs. destruct (bulk_num_urbs (tr_length tr)). rewrite list_lookup_fmap, fmap_Some.
    by intros (? & [-> _]%lookup_seq & ->). }
  destruct (bulk_num_urbs (tr_length tr)) as [n partial] eqn:En. cbn [fst] in *.
  assert (n < 2 ^ 32).
  { destruct (decide (tr_length tr = 0)) as [E0|]; [rewrite E0 in En; by injection En as <- _|].
    unfold MAX_BULK_BUFFER_LENGTH in Hs. specialize (Hs ltac:(lia)). lia. }
  destruct (Z.ltb_spec n 0); [lia|]. apply bind_Ret_inv in Hrun as ([b|] & k2 & _ & Hrun); [|done].
  apply bind_Ret_inv in Hrun as ([] & k3 & Ep & Hrun). injection Ep as <-.
  replace (Z.to_nat n) with (length (bulk_urbs (lx_globals k) t tr ty is_out)) in Hrun.
  replace n with (Z.of_nat (length (bulk_urbs (lx_globals k) t tr ty is_out))) in Hrun at 2 by lia.
  eapply submit_bulk_loop_ready in Hrun; [done|exact Hu|lia|lia|lia|apply lookup_insert_eq|done|..]; try done.
  - apply length_replicate.
  - cbn [lt_num_urbs]. lia.
Qed.
End submission.

(** ** Isochronous requests *)

(** The requests that [build_iso_urbs] fills. *)
Fixpoint iso_urbs (t : nat) (tr : libusb_transfer) (n : nat) (packets : list Z) (urb_buffer : Z) : list usbfs_urb :=
  match n with
  | O => []
  | S n' =>
      let '(l, rest) := iso_take packets MAX_ISO_BUFFER_LENGTH in
      iso_urb t tr urb_buffer l :: iso_urbs t tr n' rest (urb_buffer + sum_lengths l)
  end.
Definition urb_packets (u : usbfs_urb) : list Z := map up_length (u_iso_frame_desc u).

Lemma iso_num_urbs_add packets : forall len n, iso_num_urbs packets len n = n + iso_num_urbs packets len 0 /\ 0 <= iso_num_urbs packets len 0.
Proof.
  induction packets as [|p ps IH]; intros len n; cbn [iso_num_urbs]; [lia|]. destruct (_ <? p).
  - destruct (IH p (n + 1)) as [-> ?], (IH p (0 + 1)) as [-> ?]. lia.
  - destruct (IH (len + p) n). split; lia.
Qed.

Lemma urb_packets_iso t tr b l : urb_packets (iso_urb t tr b l) = l.
Proof. unfold urb_packets. cbn [u_iso_frame_desc iso_urb]. rewrite map_map. apply map_id. Qed.

Lemma fold_add_acc l : forall a, fold_left Z.add l a = a + sum_lengths l.
Proof.
  unfold sum_lengths. induction l as [|x l IH]; intros a; cbn [fold_left]; [lia|]. rewrite (IH (a + x)), (IH (0 + x)). lia.
Qed.

Lemma sum_lengths_cons x l : sum_lengths (x :: l) = x + sum_lengths l.
Proof. unfold sum_lengths at 1. cbn [fold_left]. by rewrite fold_add_acc. Qed.

Lemma sum_lengths_app l1 l2 : sum_lengths (l1 ++ l2) = sum_lengths l1 + sum_lengths l2.
Proof. induction l1 as [|x l1 IH]; [done|]. cbn [app]. rewrite !sum_lengths_cons, IH. lia. Qed.

(** The packets that fit and those of as many requests as were counted are all the packets. *)
Lemma iso_urbs_concat t tr packets : forall used,
  Forall (fun p => 0 <= p <= MAX_ISO_BUFFER_LENGTH) packets -> 0 <= used <= MAX_ISO_BUFFER_LENGTH ->
  let '(l, rest) := iso_take packets (MAX_ISO_BUFFER_LENGTH - used) in
  used + sum_lengths l <= MAX_ISO_BUFFER_LENGTH /\
  forall b, l ++ concat (map urb_packets (iso_urbs t tr (Z.to_nat (iso_num_urbs packets used 0)) rest b)) = packets.
Proof.
  induction packets as [|p ps IH]; intros used Hall Hused; cbn [iso_take iso_num_urbs].
  { split; [cbn; lia|]. intros b. done. }
  apply Forall_cons in Hall as [Hp Hall].
  destruct (Z.leb_spec p (MAX_ISO_BUFFER_LENGTH - used)) as [Hle|Hgt].
  - rewrite (proj2 (Z.ltb_ge _ _)) by lia. specialize (IH (used + p) Hall ltac:(lia)).
    replace (MAX_ISO_BUFFER_LENGTH - (used + p)) with (MAX_ISO_BUFFER_LENGTH - used - p) in IH by lia.
    destruct (iso_take ps (MAX_ISO_BUFFER_LENGTH - used - p)) as [l rest]. destruct IH as [Hs Hc].
    split; [rewrite sum_lengths_cons; lia|]. intros b. cbn [app]. by rewrite Hc.
  - rewrite (proj2 (Z.ltb_lt _ _)) by lia. split; [cbn; lia|]. intros b.
    destruct (iso_num_urbs_add ps p (0 + 1)) as [-> Hpos].
    replace (Z.to_nat (0 + 1 + iso_num_urbs ps p 0)) with (S (Z.to_nat (iso_num_urbs ps p 0))) by lia.
    cbn [iso_urbs iso_take app]. rewrite (proj2 (Z.leb_le _ _)) by lia. specialize (IH p Hall Hp).
    destruct (iso_take ps (MAX_ISO_BUFFER_LENGTH - p)) as [l rest]. destruct IH as [_ Hc].
    cbn [map concat]. rewrite urb_packets_iso. cbn [app]. by rewrite Hc.
Qed.

Lemma iso_take_sum packets : forall space, 0 <= space -> sum_lengths (iso_take packets space).1 <= space.
Proof.
  induction packets as [|p ps IH]; intros space Hs; [done|]. cbn [iso_take].
  destruct (Z.leb_spec p space); [|done]. specialize (IH (space - p) ltac:(lia)).
  destruct (iso_take ps (space - p)). cbn [fst] in *. rewrite sum_lengths_cons. lia.
Qed.

Lemma iso_urbs_lookup t tr n : forall packets b i u, iso_urbs t tr n packets b !! i = Some u ->
  sum_lengths (urb_packets u) <= MAX_ISO_BUFFER_LENGTH /\
  u_number_of_packets u = Z.of_nat (length (urb_packets u)) /\ u_usercontext u = t /\ u_endpoint u = tr_endpoint tr /\
  u_buffer u = b + sum_lengths (concat (map urb_packets (take i (iso_urbs t tr n packets b)))).
Proof.
  induction n as [|n IH]; intros packets b i u; [done|]. cbn [iso_urbs].
  pose proof (iso_take_sum packets MAX_ISO_BUFFER_LENGTH ltac:(done)) as Hs.
  destruct (iso_take packets MAX_ISO_BUFFER_LENGTH) as [l rest]. destruct i as [|i]; cbn [lookup list_lookup take].
  - intros [= <-]. rewrite urb_packets_iso. split_and!; [done|done|done|done|]. cbn [u_buffer iso_urb map concat]. cbn. lia.
  - intros Hu. apply IH in Hu as (H1 & H2 & H3 & H4 & ->). split_and!; try done. cbn [map concat].
    rewrite urb_packets_iso, sum_lengths_app. lia.
Qed.

(** The requests of an isochronous transfer whose packets have at most 32 kilobytes hold all its
    packets, in order, as many as were counted before they were allocated; no request has more
    than 32 kilobytes, and each starts in the buffer where the packets of the ones before it end. *)
Theorem iso_urbs_cover t tr packets :
  Forall (fun p => 0 <= p <= MAX_ISO_BUFFER_LENGTH) packets ->
  let urbs := iso_urbs t tr (Z.to_nat (iso_num_urbs packets 0 1)) packets 0 in
  concat (map urb_packets urbs) = packets /\ (0 < length urbs)%nat /\
  forall i u, urbs !! i = Some u ->
    sum_lengths (urb_packets u) <= MAX_ISO_BUFFER_LENGTH /\
    u_number_of_packets u = Z.of_nat (length (urb_packets u)) /\
    u_usercontext u = t /\ u_endpoint u = tr_endpoint tr /\
    u_buffer u = sum_lengths (concat (map urb_packets (take i urbs))).
Proof.
  intros Hall. cbn zeta. destruct (iso_num_urbs_add packets 0 1) as [-> Hpos].
  replace (Z.to_nat (1 + iso_num_urbs packets 0 0)) with (S (Z.to_nat (iso_num_urbs packets 0 0))) by lia.
  split; [|split; [|apply iso_urbs_lookup]].
  - pose proof (iso_urbs_concat t tr packets 0 Hall ltac:(done)) as Hc. rewrite Z.sub_0_r in Hc. cbn [iso_urbs].
    destruct (iso_take packets MAX_ISO_BUFFER_LENGTH) as [l rest]. cbn [map concat]. rewrite urb_packets_iso. apply Hc.
  - cbn [iso_urbs]. destruct (iso_take packets MAX_ISO_BUFFER_LENGTH). cbn. lia.
Qed.

(** ** What goes wrong *)

(** A stall of the first of three requests leaves [reap_action] as it is and discards the others
    from the end; when the kernel gives them back in that order, the last one completes the
    transfer, whose requests are freed while the kernel has the second one. *)
Lemma stalled_transfer_completes_early :
  let tr := mk_transfer 0 0 1 LIBUSB_TRANSFER_TYPE_BULK 0 LIBUSB_TRANSFER_COMPLETED 49152 0 false 0 None 0 [] in
  let tp := mk_transfer_priv NoUrbs NORMAL 3 0 LIBUSB_TRANSFER_COMPLETED 0 in
  let urb i status := completed_urb (bulk_urb (mkGlobals None false 0 0 (-1) 0 false) 7 tr USBFS_URB_TYPE_BULK true 3 false i)
                        (mk_reaped 7 (Z.to_nat i) status 0 [] []) in
  exists tp1 tp2,
    bulk_reap tp 0 [] 0 (urb 0 (- EPIPE)) = Ret (tp1, 0, [], BulkCancelRemaining) /\
    reverse_range 1 (lt_num_urbs tp1) = [2; 1]%nat /\
    bulk_reap tp1 0 [] 2 (urb 2 (- ECONNRESET)) = Ret (tp2, 0, [], BulkCompleted) /\
    lt_num_retired tp2 = 2.
Proof. cbn zeta. do 2 eexists. split_and!; reflexivity. Qed.

(** An overflow completes the transfer whichever request it is of. *)
Lemma overflow_completes_early :
  let tp := mk_transfer_priv NoUrbs NORMAL 3 0 LIBUSB_TRANSFER_COMPLETED 0 in
  exists tp1, bulk_reap tp 0 [] 0 (mk_urb USBFS_URB_TYPE_BULK 0x81 (- EOVERFLOW) 0 0 16384 0 0 7 [])
              = Ret (tp1, 0, [], BulkCompleted) /\ lt_num_retired tp1 = 1.
Proof. cbn zeta. eexists. split; reflexivity. Qed.

(** A packet that is longer than a request is in none, and the requests before it are as many as
    were counted. *)
Lemma long_packet_never_submitted t tr :
  map urb_packets (iso_urbs t tr (Z.to_nat (iso_num_urbs [40000] 0 1)) [40000] 0) = [[]; []].
Proof. reflexivity. Qed.

(** ** The theorems at concrete inputs *)
Section examples.
(** Eight bytes for an input endpoint. *)
Let tr : libusb_transfer :=
  mk_transfer 2 0 0x81 LIBUSB_TRANSFER_TYPE_BULK 0 LIBUSB_TRANSFER_COMPLETED 8 0 false 0 None 0 [].
Let globals : LinuxGlobals := mkGlobals None false 1 0 1 0 false.

Lemma bulk_urbs_cover_witness :
  concat (map (urb_bytes [1; 2; 3; 4; 5; 6; 7; 8]) (bulk_urbs globals 5 tr USBFS_URB_TYPE_BULK false)) = [1; 2; 3; 4; 5; 6; 7; 8].
Proof. apply (bulk_urbs_cover globals 5 tr USBFS_URB_TYPE_BULK false [1; 2; 3; 4; 5; 6; 7; 8]). reflexivity. Defined.

(** The transfer is cancelled, and the request comes back with three bytes. *)
Lemma bulk_reassembly_witness :
  exists tp' buffer',
    bulk_run (tr_type tr) [Cancelled; Reaped (- ENOENT) [9; 8; 7]] (take 1 (bulk_urbs globals 5 tr USBFS_URB_TYPE_BULK false)) 0
      (mk_transfer_priv (Urbs 3 (bulk_urbs globals 5 tr USBFS_URB_TYPE_BULK false)) NORMAL 1 0 LIBUSB_TRANSFER_COMPLETED 0)
      0 [0; 0; 0; 0; 0; 0; 0; 0] = Ret (tp', 3, buffer', true) /\
    take 3 buffer' = [9; 8; 7] /\ length buffer' = 8%nat.
Proof.
  apply (bulk_reassembly globals 5 tr USBFS_URB_TYPE_BULK false 1 _ [0; 0; 0; 0; 0; 0; 0; 0]
           [Cancelled; Reaped (- ENOENT) [9; 8; 7]]).
  - split; [reflexivity|vm_compute; lia|reflexivity|split; reflexivity|reflexivity|].
    exists 3%nat. eexists. split; [reflexivity|split; reflexivity].
  - reflexivity.
  - reflexivity.
  - split; [done|]. split; [discriminate|]. split; [done|]. split; done.
Defined.

(** A kernel that takes everything and gives nothing back. *)
#[local] Instance patient_kernel : Usbfs unit := {
  ioctl_submiturb := fun _ _ _ _ => ret 0;
  ioctl_discardurb := fun _ _ _ => ret 0;
  ioctl_reapurbndelay := fun _ => ret (inl EAGAIN) }.

Lemma submit_bulk_ready_witness :
  let k : Linux unit := mkLinux globals (mkHeap [] []) ∅ {[2%nat := 3]} {[5%nat := zero_transfer_priv]} tt in
  exists j tp', lx_transfers (submit_bulk_transfer 5 tr USBFS_URB_TYPE_BULK k).2 !! 5%nat = Some tp' /\
    ready (bulk_urbs globals 5 tr USBFS_URB_TYPE_BULK false) j tp'.
Proof.
  cbn zeta.
  apply (submit_bulk_ready 5 tr USBFS_URB_TYPE_BULK
           (mkLinux globals (mkHeap [] []) ∅ {[2%nat := 3]} {[5%nat := zero_transfer_priv]} tt)).
  - cbn [tr_length tr]. lia.
  - vm_compute. reflexivity.
Defined.

Lemma iso_urbs_cover_witness :
  concat (map urb_packets (iso_urbs 5 tr (Z.to_nat (iso_num_urbs [20000; 12000; 800; 30000] 0 1)) [20000; 12000; 800; 30000] 0))
  = [20000; 12000; 800; 30000].
Proof. apply iso_urbs_cover. repeat constructor; done. Defined.
End examples.
