(* ===== verification/UsbLinuxDevices.v ===== *)
(** * Devices of libusb on Linux (src/external/libusb-1.0.9/libusb/os/linux_usbfs.c)

    Where the devices are found: in sysfs, if it says enough of them, else in the directories of
    usbfs; their descriptors, which are read from files; handles, which are file descriptors; and
    the requests on them.  [UsbKernel] is the system.  The functions of the backend are collected in
    the instances of the interfaces of UsbIo.v, UsbDescriptor.v and UsbCore.v at the end of the
    file; UsbLinuxProofs.v has the theorems.  Paths are not cut at [PATH_MAX]; the memory of the
    descriptors that the backend keeps is their bytes. *)
From S2P Require Import Prelude UtilsText UsbBase UsbIo UsbDescriptor UsbCore UsbLinux UsbUrbs.

(** ** The system *)

Inductive whence := SEEK_SET | SEEK_CUR | SEEK_END.

(** What the backend asks of the system.  A call that fails gives its error number on the left, where
    the code looks at it, or nothing, or a negative number as the call itself does; an [ioctl]
    that gives 0 has succeeded. *)
Class UsbKernel (W : Type) := {
  (** [opendir], [readdir] to the end and [closedir]: the names, in their order. *)
  sys_opendir : string -> M W (option (list string));
  sys_is_directory : string -> M W bool;
  sys_is_regular : string -> M W bool;
  (** [open], for reading and, it may be, for writing. *)
  sys_open : string -> bool -> M W (Z + Z);
  sys_read : Z -> Z -> M W (option (list Z));
  sys_lseek : Z -> Z -> whence -> M W Z;
  sys_close : Z -> M W unit;
  (** [fopen], all the text, [fclose]. *)
  sys_text : string -> M W (Z + string);
  (** The [release] of [uname]. *)
  sys_uname : M W (option string);
  sys_clock : Z -> M W (option (Z * Z));
  (** Whether there is memory for a name or a descriptor. *)
  sys_memory : M W bool;
  sys_mutex_init : M W Z;
  sys_write_byte : Z -> M W bool;
  sys_read_byte : Z -> M W bool;
  sys_timerfd_create : Z -> M W Z;
  sys_timerfd_settime : Z * Z -> M W Z;
  sys_poll : list (Z * Z) -> Z -> M W (Z * list Z * bool);
  sys_pipe : M W (option (Z * Z));
  (** The notifiers of the program. *)
  notify_added : Z -> Z -> M W unit;
  notify_removed : Z -> M W unit;
  (** [IOCTL_USBFS_CONTROL]: request type, request, value, index and length; what was read. *)
  ioctl_control : Z -> Z * Z * Z * Z * Z -> M W (Z + list Z);
  ioctl_setconfig : Z -> Z -> M W Z;
  ioctl_claimintf : Z -> Z -> M W Z;
  ioctl_releaseintf : Z -> Z -> M W Z;
  ioctl_setintf : Z -> Z * Z -> M W Z;
  ioctl_clear_halt : Z -> Z -> M W Z;
  ioctl_reset : Z -> M W Z;
  ioctl_getdriver : Z -> Z -> M W Z;
  ioctl_disconnect : Z -> Z -> M W Z;
  (** [IOCTL_USBFS_CONNECT] also says whether there was a driver to connect. *)
  ioctl_connect : Z -> Z -> M W (Z + Z) }.

Definition CLOCK_REALTIME : Z := 0.
Definition CLOCK_MONOTONIC : Z := 1.
Definition SYSFS_DEVICE_PATH : string := "/sys/bus/usb/devices".
Definition DEVICE_DESC_LENGTH : Z := 18.

(** ** Text *)

(** [%d] of [sscanf], and what follows. *)
Definition scan_int (s : string) : option (Z * string) :=
  let '(neg, r) := parse_sign (skip_spaces s) in
  match r with
  | String c _ =>
      if isdigit c then
        let '(n, rest) := parse_digits r 0 in Some (i32 (sat64 (if neg then - n else n)), rest)
      else None
  | EmptyString => None
  end.
(** Text that must come next. *)
Fixpoint scan_text (text s : string) : option string :=
  match text, s with
  | EmptyString, _ => Some s
  | String c text', String c' s' => if bool_decide (c = c') then scan_text text' s' else None
  | String _ _, EmptyString => None
  end.
(** The numbers that [%d.%d.%d] reads. *)
Definition scan_version (s : string) : list Z :=
  match scan_int s with
  | None => []
  | Some (a, s) =>
      a :: match scan_text "." s ≫= scan_int with
           | None => []
           | Some (b, s) => b :: match scan_text "." s ≫= scan_int with None => [] | Some (c, _) => [c] end
           end
  end.
(** [%03d] of a number that is not negative. *)
Definition print_03 (n : Z) : string :=
  let s := print_nat n in
  match String.length s with 1%nat => "00" +:+ s | 2%nat => "0" +:+ s | _ => s end.
Definition hidden (name : string) : bool := match name with String "." _ => true | _ => false end.
Fixpoint contains_char (c : ascii) (s : string) : bool :=
  match s with
  | EmptyString => false
  | String c' s' => bool_decide (c = c') || contains_char c s'
  end.
(** The bytes before the first zero, as text. *)
Fixpoint text_of_bytes (l : list Z) : string :=
  match l with
  | [] => EmptyString
  | b :: l' => if b =? 0 then EmptyString else String (ascii_of_N (Z.to_N (b mod 2 ^ 8))) (text_of_bytes l')
  end.

(** ** The files of a device *)

(** [_get_usbfs_path], src/external/libusb-1.0.9/libusb/os/linux_usbfs.c:152-160. *)
Definition _get_usbfs_path (g : LinuxGlobals) (dev : libusb_device) : string :=
  let path := default "(null)" (usbfs_path g) in
  if usbdev_names g then
    path +:+ "/usbdev" +:+ print_nat (dev_bus_number dev) +:+ "." +:+ print_nat (dev_device_address dev)
  else path +:+ "/" +:+ print_03 (dev_bus_number dev) +:+ "/" +:+ print_03 (dev_device_address dev).

(** [_is_usbdev_entry], src/external/libusb-1.0.9/libusb/os/linux_usbfs.c:175-188: the numbers of
    the bus and of the device. *)
Definition _is_usbdev_entry (name : string) : option (Z * Z) :=
  match scan_text "usbdev" name ≫= scan_int with
  | None => None
  | Some (busnum, s) =>
      match scan_text "." s ≫= scan_int with
      | None => None
      | Some (devnum, _) => Some (busnum, devnum)
      end
  end.

(** The answer of [kernel_version_ge] to the numbers that were read, -1 for none,
    src/external/libusb-1.0.9/libusb/os/linux_usbfs.c:279-299. *)
Definition version_ge (atoms : list Z) (major minor sublevel : Z) : Z :=
  match atoms with
  | [] => -1
  | kmajor :: atoms =>
      if major <? kmajor then 1
      else if kmajor <? major then 0
      else match atoms with
           | [] => Z.b2z ((minor =? 0) && (sublevel =? 0))
           | kminor :: atoms =>
               if minor <? kminor then 1
               else if kminor <? minor then 0
               else match atoms with
                    | [] => Z.b2z (sublevel =? 0)
                    | ksublevel :: _ => Z.b2z (sublevel <=? ksublevel)
                    end
           end
  end.

Section devices.
Context {W : Type} `{UsbKernel W} `{HostOrder}.

(** [check_usb_vfs], src/external/libusb-1.0.9/libusb/os/linux_usbfs.c:190-211. *)
Definition check_usb_vfs (dirname : string) : M W bool :=
  let* entries := sys_opendir dirname in
  ret (existsb (fun name => negb (hidden name)) (default [] entries)).

(** [find_usbfs_path], src/external/libusb-1.0.9/libusb/os/linux_usbfs.c:213-250: the path and
    whether [usbdev_names] is set. *)
Definition find_usbfs_path : M W (option string * bool) :=
  let* found := check_usb_vfs "/dev/bus/usb" in
  if found then ret (Some "/dev/bus/usb"%string, false)
  else
    let* found := check_usb_vfs "/proc/bus/usb" in
    if found then ret (Some "/proc/bus/usb"%string, false)
    else
      let* entries := sys_opendir "/dev" in
      ret (if existsb (fun name => bool_decide (is_Some (_is_usbdev_entry name))) (default [] entries)
           then (Some "/dev"%string, true) else (None, false)).

(** [find_monotonic_clock], src/external/libusb-1.0.9/libusb/os/linux_usbfs.c:254-269. *)
Definition find_monotonic_clock : M W Z :=
  let* ts := sys_clock CLOCK_MONOTONIC in
  ret (match ts with Some _ => CLOCK_MONOTONIC | None => CLOCK_REALTIME end).

(** [kernel_version_ge], src/external/libusb-1.0.9/libusb/os/linux_usbfs.c:271-300. *)
Definition kernel_version_ge (major minor sublevel : Z) : M W Z :=
  let* release := sys_uname in
  ret (match release with
       | None => -1
       | Some release => version_ge (scan_version release) major minor sublevel
       end).

(** [sysfs_has_file], src/external/libusb-1.0.9/libusb/os/linux_usbfs.c:304-316. *)
Definition sysfs_has_file (dirname filename : string) : M W bool :=
  sys_is_regular (SYSFS_DEVICE_PATH +:+ "/" +:+ dirname +:+ "/" +:+ filename).

(** The loop of [op_init] over the entries of sysfs, with what was found so far: whether devices
    can be related, and whether there are descriptors,
    src/external/libusb-1.0.9/libusb/os/linux_usbfs.c:382-405. *)
Fixpoint probe_sysfs (entries : list string) (relate : Z) (descriptors : bool) : M W (Z * bool) :=
  match entries with
  | [] => ret (relate, descriptors)
  | name :: entries' =>
      if negb (String.prefix "usb" name) then probe_sysfs entries' relate descriptors
      else
        let* has_busnum := sysfs_has_file name "busnum" in
        let* has_devnum := sysfs_has_file name "devnum" in
        let* has_descriptors := sysfs_has_file name "descriptors" in
        let* has_configuration_value := sysfs_has_file name "bConfigurationValue" in
        let relate := if has_busnum && has_devnum && has_configuration_value then 1 else relate in
        let descriptors := descriptors || has_descriptors in
        if descriptors && negb (relate =? 0) then ret (relate, descriptors)
        else probe_sysfs entries' relate descriptors
  end.

(** A flag of the kernel that [op_init] finds out about when nobody knows it yet. *)
Definition known_flag (flag : Z) (sublevel : Z) : M W Z :=
  if flag =? -1 then kernel_version_ge 2 6 sublevel else ret flag.

(** [op_init], src/external/libusb-1.0.9/libusb/os/linux_usbfs.c:318-419. *)
Definition op_init : M (Linux W) Z :=
  let* g := gets lx_globals in
  let* '(path, names) := on_kernel find_usbfs_path in
  let names := usbdev_names g || names in
  let globals continuation zero clock relate descriptors :=
    set_globals (mkGlobals path names continuation zero clock relate descriptors) in
  let relate := sysfs_can_relate_devices g in
  let descriptors := sysfs_has_descriptors g in
  let continuation := supports_flag_bulk_continuation g in
  let zero := supports_flag_zero_packet g in
  match path with
  | None => do* globals continuation zero (monotonic_clkid g) relate descriptors in ret (LIBUSB_ERROR_OTHER : Z)
  | Some _ =>
      let* clock := (if monotonic_clkid g =? -1 then on_kernel find_monotonic_clock else ret (monotonic_clkid g)) in
      let* continuation := on_kernel (known_flag continuation 32) in
      if continuation =? -1 then
        do* globals continuation zero clock relate descriptors in ret (LIBUSB_ERROR_OTHER : Z)
      else
        let* zero := on_kernel (known_flag zero 31) in
        if zero =? -1 then do* globals continuation zero clock relate descriptors in ret (LIBUSB_ERROR_OTHER : Z)
        else
          let* directory := on_kernel (sys_is_directory SYSFS_DEVICE_PATH) in
          if directory then
            let* entries := on_kernel (sys_opendir SYSFS_DEVICE_PATH) in
            match entries with
            | None => do* globals continuation zero clock relate descriptors in ret (LIBUSB_ERROR_IO : Z)
            | Some entries =>
                let* '(relate, descriptors) := on_kernel (probe_sysfs entries relate descriptors) in
                do* globals continuation zero clock relate (descriptors && negb (relate =? 0)) in
                ret 0
            end
          else do* globals continuation zero clock 0 false in ret 0
  end.

(** ** Descriptors *)

Definition zero_device_priv : linux_device_priv := mk_device_priv None None None.
(** What the backend keeps of a device, zeros at first. *)
Definition get_device_priv (dev : nat) : M (Linux W) linux_device_priv :=
  gets (fun k => default zero_device_priv (lx_devices k !! dev)).
Definition put_device_priv (dev : nat) (x : linux_device_priv) : M (Linux W) unit :=
  let* k := gets id in set_priv_devices (<[dev:=x]> (lx_devices k)).

(** [usbfs_get_device_descriptor],
    src/external/libusb-1.0.9/libusb/os/linux_usbfs.c:421-429. *)
Definition usbfs_get_device_descriptor (dev : libusb_device) : M (Linux W) (Z * list Z) :=
  let* p := get_device_priv (dev_id dev) in
  match lp_dev_descriptor p with
  | Some l => ret (0, take 18 l)
  | None => undef "a copy from a null pointer"
  end.

(** [_open_sysfs_attr], src/external/libusb-1.0.9/libusb/os/linux_usbfs.c:431-447. *)
Definition _open_sysfs_attr (dev : libusb_device) (attr : string) : M (Linux W) Z :=
  let* p := get_device_priv (dev_id dev) in
  let* fd := on_kernel (sys_open (SYSFS_DEVICE_PATH +:+ "/" +:+ default "(null)" (lp_sysfs_dir p) +:+ "/" +:+ attr) false) in
  ret (match fd with inl _ => (LIBUSB_ERROR_IO : Z) | inr fd => fd end).

(** [__read_sysfs_attr], src/external/libusb-1.0.9/libusb/os/linux_usbfs.c:450-482. *)
Definition __read_sysfs_attr (devname attr : string) : M W Z :=
  let* f := sys_text (SYSFS_DEVICE_PATH +:+ "/" +:+ devname +:+ "/" +:+ attr) in
  ret (A := Z) (match f with
       | inl errno => if errno =? ENOENT then LIBUSB_ERROR_NO_DEVICE else LIBUSB_ERROR_IO
       | inr text =>
           match scan_int text with
           | None => LIBUSB_ERROR_NO_DEVICE
           | Some (value, _) => if value <? 0 then LIBUSB_ERROR_IO else value
           end
       end).

(** [sysfs_get_device_descriptor],
    src/external/libusb-1.0.9/libusb/os/linux_usbfs.c:484-508. *)
Definition sysfs_get_device_descriptor (dev : libusb_device) : M (Linux W) (Z * list Z) :=
  let* fd := _open_sysfs_attr dev "descriptors" in
  if fd <? 0 then ret (fd, [])
  else
    let* r := on_kernel (sys_read fd DEVICE_DESC_LENGTH) in
    do* on_kernel (sys_close fd) in
    ret (match r with
         | None => ((LIBUSB_ERROR_IO : Z), [])
         | Some l => if Z.of_nat (length l) <? DEVICE_DESC_LENGTH then ((LIBUSB_ERROR_IO : Z), l) else (0, l)
         end).

(** [op_get_device_descriptor],
    src/external/libusb-1.0.9/libusb/os/linux_usbfs.c:510-519. *)
Definition op_get_device_descriptor (dev : libusb_device) (host_endian : bool) : M (Linux W) (Z * list Z * bool) :=
  let* g := gets lx_globals in
  if sysfs_has_descriptors g then let* r := sysfs_get_device_descriptor dev in ret (r, host_endian)
  else let* r := usbfs_get_device_descriptor dev in ret (r, true).

(** [usbfs_get_active_config_descriptor],
    src/external/libusb-1.0.9/libusb/os/linux_usbfs.c:521-531. *)
Definition usbfs_get_active_config_descriptor (dev : libusb_device) (len : Z) : M (Linux W) (Z * list Z) :=
  let* p := get_device_priv (dev_id dev) in
  match lp_config_descriptor p with
  | None => ret ((LIBUSB_ERROR_NOT_FOUND : Z), [])
  | Some l => if len <=? Z.of_nat (length l) then ret (0, take (Z.to_nat len) l) else undef overrun
  end.

(** What [sysfs_get_active_config] makes of the bytes that it has read, at most 4,
    src/external/libusb-1.0.9/libusb/os/linux_usbfs.c:548-573. *)
Definition config_of_text (r : option (list Z)) : Z * option Z :=
  match r with
  | None => (LIBUSB_ERROR_IO : Z, None)
  | Some [] => (0, Some (-1))
  | Some l =>
      if negb (default 0 (l !! 3%nat) =? 0) then (LIBUSB_ERROR_IO : Z, None)
      else if default 0 (l !! 0%nat) =? 0 then (LIBUSB_ERROR_IO : Z, None)
      else match scan_int (text_of_bytes l) with
           | None => (LIBUSB_ERROR_IO : Z, None)
           | Some (num, _) => (0, Some num)
           end
  end.
(** [sysfs_get_active_config],
    src/external/libusb-1.0.9/libusb/os/linux_usbfs.c:534-574. *)
Definition sysfs_get_active_config (dev : libusb_device) : M (Linux W) (Z * option Z) :=
  let* fd := _open_sysfs_attr dev "bConfigurationValue" in
  if fd <? 0 then ret (fd, None)
  else
    let* r := on_kernel (sys_read fd 4) in
    do* on_kernel (sys_close fd) in
    ret (config_of_text r).

(** The total length of the configuration whose first bytes these are. *)
Definition total_length (l : list Z) (format : string) (host_endian : bool) : outcome Z :=
  '(dp, _) ← usbi_parse_descriptor l format host_endian;
  match dp with _ :: _ :: wTotalLength :: _ => Ret wTotalLength | _ => Undef overrun end.

(** [seek_to_next_config],
    src/external/libusb-1.0.9/libusb/os/linux_usbfs.c:578-605. *)
Definition seek_to_next_config (fd : Z) (host_endian : bool) : M W Z :=
  let* r := sys_read fd 6 in
  match r with
  | None => ret (LIBUSB_ERROR_IO : Z)
  | Some tmp =>
      if Z.of_nat (length tmp) <? 6 then ret (LIBUSB_ERROR_IO : Z)
      else
        let* wTotalLength := lift (total_length tmp "bbwbb" host_endian) in
        let* off := sys_lseek fd (wTotalLength - 6) SEEK_CUR in
        ret (A := Z) (if off <? 0 then (LIBUSB_ERROR_IO : Z) else 0)
  end.

(** The loop of [sysfs_get_active_config_descriptor], which does not close the file when it
    fails: the error, or the first six bytes of the configuration; nothing when the fuel is
    used up, src/external/libusb-1.0.9/libusb/os/linux_usbfs.c:652-677. *)
Fixpoint find_active_config (fuel : nat) (fd config : Z) : M W (option (Z + list Z)) :=
  match fuel with
  | O => ret None
  | S fuel' =>
      let* r := sys_read fd 6 in
      match r with
      | None => ret (Some (inl (LIBUSB_ERROR_IO : Z)))
      | Some tmp =>
          if Z.of_nat (length tmp) <? 6 then ret (Some (inl (LIBUSB_ERROR_IO : Z)))
          else
            let* value := lift (byte_at tmp 5) in
            if value =? config then ret (Some (inr tmp))
            else
              let* off := sys_lseek fd (-6) SEEK_CUR in
              if off <? 0 then ret (Some (inl (LIBUSB_ERROR_IO : Z)))
              else
                let* r := seek_to_next_config fd false in
                if r <? 0 then ret (Some (inl r)) else find_active_config fuel' fd config
      end
  end.

(** The rest of the configuration, after its first six bytes,
    src/external/libusb-1.0.9/libusb/os/linux_usbfs.c:679-699. *)
Definition read_active_config (fd : Z) (tmp : list Z) (len : Z) : M W (Z * list Z) :=
  let* '(r, rest) :=
    (if 6 <? len then
       let* r := sys_read fd (len - 6) in
       ret (match r with
            | None => ((LIBUSB_ERROR_IO : Z), [])
            | Some [] => ((LIBUSB_ERROR_NOT_FOUND : Z), [])
            | Some l => if Z.of_nat (length l) <? len - 6 then ((LIBUSB_ERROR_IO : Z), l)
                        else (Z.of_nat (length l), l)
            end)
     else ret (0, [])) in
  do* sys_close fd in
  ret (r, take (Z.to_nat len) tmp ++ rest).

(** [sysfs_get_active_config_descriptor],
    src/external/libusb-1.0.9/libusb/os/linux_usbfs.c:607-700. *)
Definition sysfs_get_active_config_descriptor (fuel : nat) (dev : libusb_device) (len : Z) : M (Linux W) (Z * list Z) :=
  let* '(r, config) := sysfs_get_active_config dev in
  match config with
  | None => ret (r, [])
  | Some config =>
      if config =? -1 then ret ((LIBUSB_ERROR_NOT_FOUND : Z), [])
      else
        let* fd := _open_sysfs_attr dev "descriptors" in
        if fd <? 0 then ret (fd, [])
        else
          let* off := on_kernel (sys_lseek fd 0 SEEK_END) in
          if off <? 1 then do* on_kernel (sys_close fd) in ret ((LIBUSB_ERROR_IO : Z), [])
          else if off =? DEVICE_DESC_LENGTH then do* on_kernel (sys_close fd) in ret ((LIBUSB_ERROR_NOT_FOUND : Z), [])
          else
            let* off := on_kernel (sys_lseek fd DEVICE_DESC_LENGTH SEEK_SET) in
            if off <? 0 then do* on_kernel (sys_close fd) in ret ((LIBUSB_ERROR_IO : Z), [])
            else
              let* found := on_kernel (find_active_config fuel fd config) in
              match found with
              | None => undef "out of fuel"
              | Some (inl r) => ret (r, [])
              | Some (inr tmp) => on_kernel (read_active_config fd tmp len)
              end
  end.

(** [op_get_active_config_descriptor],
    src/external/libusb-1.0.9/libusb/os/linux_usbfs.c:702-710. *)
Definition op_get_active_config_descriptor (fuel : nat) (dev : libusb_device) (len : Z) (host_endian : bool)
    : M (Linux W) (Z * list Z * bool) :=
  let* g := gets lx_globals in
  let* r := (if sysfs_has_descriptors g then sysfs_get_active_config_descriptor fuel dev len
             else usbfs_get_active_config_descriptor dev len) in
  ret (r, host_endian).

(** The loop of [get_config_descriptor] over the configurations before the one that is wanted,
    src/external/libusb-1.0.9/libusb/os/linux_usbfs.c:726-733. *)
Fixpoint skip_configs (fd : Z) (config_index : nat) : M W Z :=
  match config_index with
  | O => ret 0
  | S n => let* r := seek_to_next_config fd true in if r <? 0 then ret r else skip_configs fd n
  end.
(** [get_config_descriptor],
    src/external/libusb-1.0.9/libusb/os/linux_usbfs.c:714-746. *)
Definition get_config_descriptor (fd config_index len : Z) : M W (Z * list Z) :=
  let* off := sys_lseek fd DEVICE_DESC_LENGTH SEEK_SET in
  if off <? 0 then ret ((LIBUSB_ERROR_IO : Z), [])
  else
    let* r := skip_configs fd (Z.to_nat config_index) in
    if r <? 0 then ret (r, [])
    else
      let* r := sys_read fd len in
      ret (match r with
           | None => ((LIBUSB_ERROR_IO : Z), [])
           | Some l => if Z.of_nat (length l) <? len then ((LIBUSB_ERROR_IO : Z), l) else (0, l)
           end).

(** [op_get_config_descriptor],
    src/external/libusb-1.0.9/libusb/os/linux_usbfs.c:748-773. *)
Definition op_get_config_descriptor (dev : libusb_device) (config_index len : Z) (host_endian : bool)
    : M (Linux W) (Z * list Z * bool) :=
  let* g := gets lx_globals in
  let* fd := on_kernel (sys_open (_get_usbfs_path g dev) false) in
  match fd with
  | inl _ => ret ((LIBUSB_ERROR_IO : Z), [], host_endian)
  | inr fd =>
      let* r := on_kernel (get_config_descriptor fd config_index len) in
      do* on_kernel (sys_close fd) in
      ret (r, host_endian)
  end.

(** The descriptors of the backend, on its own state; [fuel] bounds the configurations that are
    gone through for the active one. *)
Definition linux_descriptors (fuel : nat) : DescriptorBackend (Linux W) := {|
  backend_get_device_descriptor := op_get_device_descriptor;
  backend_get_active_config_descriptor := op_get_active_config_descriptor fuel;
  backend_get_config_descriptor := op_get_config_descriptor |}.

(** [cache_active_config],
    src/external/libusb-1.0.9/libusb/os/linux_usbfs.c:778-820. *)
Definition cache_active_config (fuel : nat) (dev : libusb_device) (fd active_config : Z) : M (Linux W) Z :=
  let* '(r, idx) := (if active_config =? -1 then ret (0, Some 0)
                     else @usbi_get_config_index_by_value _ (linux_descriptors fuel) dev active_config) in
  match idx with
  | None => ret r
  | Some idx =>
      if r <? 0 then ret r
      else if idx =? -1 then ret (LIBUSB_ERROR_NOT_FOUND : Z)
      else
        let* '(r, tmp) := on_kernel (get_config_descriptor fd idx 8) in
        if r <? 0 then ret r
        else
          let* wTotalLength := lift (total_length tmp "bbw" false) in
          let* memory := on_kernel sys_memory in
          if negb memory then ret (LIBUSB_ERROR_NO_MEM : Z)
          else
            let* '(r, buf) := on_kernel (get_config_descriptor fd idx wTotalLength) in
            if r <? 0 then ret r
            else
              let* p := get_device_priv (dev_id dev) in
              do* put_device_priv (dev_id dev) (mk_device_priv (lp_sysfs_dir p) (lp_dev_descriptor p) (Some buf)) in
              ret 0
  end.

(** [usbfs_get_active_config],
    src/external/libusb-1.0.9/libusb/os/linux_usbfs.c:823-850. *)
Definition usbfs_get_active_config (fd : Z) : M W Z :=
  let* r := ioctl_control fd ((LIBUSB_ENDPOINT_IN, 0x08, 0, 0, 1)) in
  ret (A := Z) (match r with
       | inl errno => if errno =? ENODEV then LIBUSB_ERROR_NO_DEVICE else LIBUSB_ERROR_IO
       | inr l => default 0 (l !! 0%nat)
       end).
End devices.

(** ** Finding devices *)
Section discovery.
Context {W : Type} `{UsbKernel W} `{HostOrder} `{DescriptorBackend (Devices (Linux W))} `{UsbBackend (Linux W)}.
Context (fuel : nat).

(** The speed of a device, from the number in sysfs. *)
Definition sysfs_speed (speed : Z) (old : libusb_speed) : libusb_speed :=
  if speed =? 1 then LIBUSB_SPEED_LOW else if speed =? 12 then LIBUSB_SPEED_FULL
  else if speed =? 480 then LIBUSB_SPEED_HIGH else if speed =? 5000 then LIBUSB_SPEED_SUPER else old.

(** A device whose address, speed and number of configurations are set. *)
Definition set_place (d : libusb_device) (busnum devaddr : Z) : libusb_device :=
  mk_device (dev_id d) busnum devaddr (dev_num_configurations d) (dev_speed d) (dev_session_data d).
Definition set_speed (d : libusb_device) (speed : libusb_speed) : libusb_device :=
  mk_device (dev_id d) (dev_bus_number d) (dev_device_address d) (dev_num_configurations d) speed (dev_session_data d).
Definition set_num_configurations (d : libusb_device) (n : Z) : libusb_device :=
  mk_device (dev_id d) (dev_bus_number d) (dev_device_address d) n (dev_speed d) (dev_session_data d).
Definition update_device (dev : nat) (f : libusb_device -> libusb_device) : M (Ctx (Devices (Linux W))) libusb_device :=
  let* '(n, d) := get_device dev in
  do* put_device dev (n, f d) in
  ret (f d).

(** What is known about the active configuration of a device whose file is open: the value, -1 when it
    is not known, and whether the device is configured; or the error,
    src/external/libusb-1.0.9/libusb/os/linux_usbfs.c:919-947. *)
Definition query_active_config (fd active_config : Z) (configured : bool) : M W (Z + Z * bool) :=
  if active_config =? -1 then ret (inr (active_config, configured))
  else
    let* active_config := usbfs_get_active_config fd in
    ret (if active_config =? LIBUSB_ERROR_IO then inr (active_config, false)
         else if active_config <? 0 then inl active_config
         else inr (active_config, if active_config =? 0 then false else configured)).

(** The descriptors of a device that are read from its open file and kept,
    src/external/libusb-1.0.9/libusb/os/linux_usbfs.c:949-984. *)
Definition cache_descriptors (dev : nat) (fd active_config : Z) (configured : bool) : M (Ctx (Devices (Linux W))) Z :=
  let close_with r := (do* on_backend (on_kernel (sys_close fd)) in ret (r : Z)) in
  let* memory := on_backend (on_kernel sys_memory) in
  if negb memory then close_with (LIBUSB_ERROR_NO_MEM : Z)
  else
    let* l := on_backend (on_kernel (sys_read fd DEVICE_DESC_LENGTH)) in
    match l with
    | None => close_with (LIBUSB_ERROR_IO : Z)
    | Some l =>
        if Z.of_nat (length l) <? DEVICE_DESC_LENGTH then close_with (LIBUSB_ERROR_IO : Z)
        else
          let* n := lift (byte_at l 17) in
          let* d := update_device dev (fun d => set_num_configurations d n) in
          let* r := (if (configured : bool) then on_backend (cache_active_config fuel d fd active_config) else ret 0) in
          if r <? 0 then close_with r
          else
            do* on_backend (on_kernel (sys_close fd)) in
            let* p := on_backend (get_device_priv (dev_id d)) in
            do* on_backend (put_device_priv (dev_id d) (mk_device_priv (lp_sysfs_dir p) (Some l) (lp_config_descriptor p))) in
            ret 0
    end.

(** The name of a device in sysfs and its speed, if it has one,
    src/external/libusb-1.0.9/libusb/os/linux_usbfs.c:866-885: whether there was memory. *)
Definition initialize_sysfs (dev : nat) (sysfs_dir : option string) : M (Ctx (Devices (Linux W))) bool :=
  match sysfs_dir with
  | None => ret true
  | Some dir =>
      let* memory := on_backend (on_kernel sys_memory) in
      if negb memory then ret false
      else
        let* '(_, d) := get_device dev in
        let* p := on_backend (get_device_priv (dev_id d)) in
        do* on_backend (put_device_priv (dev_id d) (mk_device_priv (Some dir) (lp_dev_descriptor p) (lp_config_descriptor p))) in
        let* speed := on_backend (on_kernel (__read_sysfs_attr dir "speed")) in
        let* _ := (if 0 <=? speed then update_device dev (fun d => set_speed d (sysfs_speed speed (dev_speed d)))
                   else ret d) in
        ret true
  end.

(** [initialize_device],
    src/external/libusb-1.0.9/libusb/os/linux_usbfs.c:852-985. *)
Definition initialize_device (dev : nat) (busnum devaddr : Z) (sysfs_dir : option string)
    : M (Ctx (Devices (Linux W))) Z :=
  let* _ := update_device dev (fun d => set_place d busnum devaddr) in
  let* memory := initialize_sysfs dev sysfs_dir in
  if negb memory then ret (LIBUSB_ERROR_NO_MEM : Z)
  else
    let* '(_, d) := get_device dev in
    let* g := on_backend (gets lx_globals) in
    if sysfs_has_descriptors g then ret 0
    else
      let* p := on_backend (get_device_priv (dev_id d)) in
      do* on_backend (put_device_priv (dev_id d) (mk_device_priv (lp_sysfs_dir p) None None)) in
      let relate := negb (sysfs_can_relate_devices g =? 0) in
      let* '(r, active) := (if relate then on_backend (sysfs_get_active_config d) else ret (0, Some 0)) in
      match active with
      | None => ret r
      | Some active_config =>
          let configured := negb (relate && (active_config =? -1)) in
          let path := _get_usbfs_path g d in
          let* fd := on_backend (on_kernel (sys_open path true)) in
          let* '(fd, active_config) :=
            (match fd with
             | inl errno =>
                 if errno =? EACCES then
                   let* fd := on_backend (on_kernel (sys_open path false)) in ret (fd, -1)
                 else ret (fd, active_config)
             | inr _ => ret (fd, active_config)
             end) in
          match fd with
          | inl _ => ret (LIBUSB_ERROR_IO : Z)
          | inr fd =>
              let* known := (if relate then ret (inr (active_config, configured))
                             else on_backend (on_kernel (query_active_config fd active_config configured))) in
              match known with
              | inl r => do* on_backend (on_kernel (sys_close fd)) in ret r
              | inr (active_config, configured) => cache_descriptors dev fd active_config configured
              end
          end
      end.

(** [enumerate_device],
    src/external/libusb-1.0.9/libusb/os/linux_usbfs.c:987-1033: the value returned and the
    list, which is another one when the device was added. *)
Definition enumerate_device (discdevs : discovered_devs) (busnum devaddr : Z) (sysfs_dir : option string)
    : M (Ctx (Devices (Linux W))) (Z * discovered_devs) :=
  let session_id := Z.lor (Z.shiftl busnum 8) devaddr in
  let append dev :=
    (let* l := discovered_devs_append discdevs dev in
     ret (match l with None => ((LIBUSB_ERROR_NO_MEM : Z), discdevs) | Some l => (0, l) end)) in
  let* dev := usbi_get_device_by_session_id session_id in
  match dev with
  | Some dev => append dev
  | None =>
      let* dev := usbi_alloc_device session_id in
      match dev with
      | None => ret ((LIBUSB_ERROR_NO_MEM : Z), discdevs)
      | Some dev =>
          let* r := initialize_device dev busnum devaddr sysfs_dir in
          let* r := (if r <? 0 then ret r else usbi_sanitize_device dev) in
          let* out := (if r <? 0 then ret (r, discdevs) else append dev) in
          do* libusb_unref_device (Some dev) in
          ret out
      end
  end.

(** The loop of [usbfs_scan_busdir],
    src/external/libusb-1.0.9/libusb/os/linux_usbfs.c:1058-1076. *)
Fixpoint scan_bus_entries (entries : list string) (busnum r : Z) (discdevs : discovered_devs)
    : M (Ctx (Devices (Linux W))) (Z * discovered_devs) :=
  match entries with
  | [] => ret (r, discdevs)
  | name :: entries' =>
      if hidden name then scan_bus_entries entries' busnum r discdevs
      else
        let devaddr := atoi name in
        if devaddr =? 0 then scan_bus_entries entries' busnum r discdevs
        else
          let* '(e, discdevs) := enumerate_device discdevs busnum (devaddr mod 2 ^ 8) None in
          scan_bus_entries entries' busnum (if e =? 0 then 0 else r) discdevs
  end.
(** [usbfs_scan_busdir],
    src/external/libusb-1.0.9/libusb/os/linux_usbfs.c:1039-1082. *)
Definition usbfs_scan_busdir (discdevs : discovered_devs) (busnum : Z)
    : M (Ctx (Devices (Linux W))) (Z * discovered_devs) :=
  let* g := on_backend (gets lx_globals) in
  let* dir := on_backend (on_kernel (sys_opendir (default "(null)" (usbfs_path g) +:+ "/" +:+ print_03 busnum))) in
  match dir with
  | None => ret ((LIBUSB_ERROR_IO : Z), discdevs)
  | Some entries => scan_bus_entries entries busnum LIBUSB_ERROR_IO discdevs
  end.

(** The loop of [usbfs_get_device_list],
    src/external/libusb-1.0.9/libusb/os/linux_usbfs.c:1097-1127. *)
Fixpoint scan_usbfs_entries (names : bool) (entries : list string) (r : Z) (discdevs : discovered_devs)
    : M (Ctx (Devices (Linux W))) (Z * discovered_devs) :=
  match entries with
  | [] => ret (r, discdevs)
  | name :: entries' =>
      if hidden name then scan_usbfs_entries names entries' r discdevs
      else if names then
        match _is_usbdev_entry name with
        | None => scan_usbfs_entries names entries' r discdevs
        | Some (busnum, devaddr) =>
            let* '(r, discdevs) := enumerate_device discdevs (busnum mod 2 ^ 8) (devaddr mod 2 ^ 8) None in
            scan_usbfs_entries names entries' r discdevs
        end
      else
        let busnum := atoi name in
        if busnum =? 0 then scan_usbfs_entries names entries' r discdevs
        else
          let* '(r, discdevs) := usbfs_scan_busdir discdevs (busnum mod 2 ^ 8) in
          if r <? 0 then ret (r, discdevs) else scan_usbfs_entries names entries' r discdevs
  end.
(** [usbfs_get_device_list],
    src/external/libusb-1.0.9/libusb/os/linux_usbfs.c:1084-1134. *)
Definition usbfs_get_device_list (discdevs : discovered_devs) : M (Ctx (Devices (Linux W))) (Z * discovered_devs) :=
  let* g := on_backend (gets lx_globals) in
  let* buses := on_backend (on_kernel (sys_opendir (default "(null)" (usbfs_path g)))) in
  match buses with
  | None => ret ((LIBUSB_ERROR_IO : Z), discdevs)
  | Some entries => scan_usbfs_entries (usbdev_names g) entries 0 discdevs
  end.

(** [sysfs_scan_device],
    src/external/libusb-1.0.9/libusb/os/linux_usbfs.c:1136-1158. *)
Definition sysfs_scan_device (discdevs : discovered_devs) (devname : string)
    : M (Ctx (Devices (Linux W))) (Z * discovered_devs) :=
  let* busnum := on_backend (on_kernel (__read_sysfs_attr devname "busnum")) in
  if busnum <? 0 then ret (busnum, discdevs)
  else
    let* devaddr := on_backend (on_kernel (__read_sysfs_attr devname "devnum")) in
    if devaddr <? 0 then ret (devaddr, discdevs)
    else if (255 <? busnum) || (255 <? devaddr) then ret ((LIBUSB_ERROR_INVALID_PARAM : Z), discdevs)
    else enumerate_device discdevs (Z.land busnum 0xff) (Z.land devaddr 0xff) (Some devname).

(** The names in sysfs that are those of devices and not of their interfaces. *)
Definition sysfs_device_name (name : string) : bool :=
  (match name with String c _ => isdigit c | EmptyString => false end || String.prefix "usb" name)
  && negb (contains_char ":" name).
(** The loop of [sysfs_get_device_list],
    src/external/libusb-1.0.9/libusb/os/linux_usbfs.c:1173-1187. *)
Fixpoint scan_sysfs_entries (entries : list string) (r : Z) (discdevs : discovered_devs)
    : M (Ctx (Devices (Linux W))) (Z * discovered_devs) :=
  match entries with
  | [] => ret (r, discdevs)
  | name :: entries' =>
      if negb (sysfs_device_name name) then scan_sysfs_entries entries' r discdevs
      else
        let* '(e, discdevs) := sysfs_scan_device discdevs name in
        scan_sysfs_entries entries' (if e =? 0 then 0 else r) discdevs
  end.
(** [sysfs_get_device_list],
    src/external/libusb-1.0.9/libusb/os/linux_usbfs.c:1160-1193. *)
Definition sysfs_get_device_list (discdevs : discovered_devs) : M (Ctx (Devices (Linux W))) (Z * discovered_devs) :=
  let* devices := on_backend (on_kernel (sys_opendir SYSFS_DEVICE_PATH)) in
  match devices with
  | None => ret ((LIBUSB_ERROR_IO : Z), discdevs)
  | Some entries => scan_sysfs_entries entries LIBUSB_ERROR_IO discdevs
  end.

(** [op_get_device_list],
    src/external/libusb-1.0.9/libusb/os/linux_usbfs.c:1195-1212. *)
Definition op_get_device_list (discdevs : discovered_devs) : M (Ctx (Devices (Linux W))) (Z * discovered_devs) :=
  let* g := on_backend (gets lx_globals) in
  if negb (sysfs_can_relate_devices g =? 0) then sysfs_get_device_list discdevs else usbfs_get_device_list discdevs.
End discovery.

(** ** Handles *)
Section handles.
Context {W : Type} `{UsbKernel W} `{HostOrder} `{IoBackend (Devices (Linux W))}.
Context (fuel : nat).

(** The device of a handle. *)
Definition handle_device (handle : nat) : M (Ctx (Devices (Linux W))) libusb_device :=
  let* h := get_handle handle in
  let* '(_, d) := get_device (hd_dev h) in
  ret d.
(** A request on the file of a handle. *)
Definition on_handle {A} (handle : nat) (f : Z -> M W A) : M (Linux W) A :=
  let* fd := handle_fd handle in on_kernel (f fd).

(** [op_open], src/external/libusb-1.0.9/libusb/os/linux_usbfs.c:1214-1241; the file stays open when
    it cannot be added to the descriptors. *)
Definition op_open (handle : nat) : M (Ctx (Devices (Linux W))) Z :=
  let* d := handle_device handle in
  let* g := on_backend (gets lx_globals) in
  let* fd := on_backend (on_kernel (sys_open (_get_usbfs_path g d) true)) in
  let* fds := on_backend (gets lx_fds) in
  match fd with
  | inl errno =>
      do* on_backend (set_fds (<[handle:=-1]> fds)) in
      ret (A := Z) (if errno =? EACCES then LIBUSB_ERROR_ACCESS
           else if errno =? ENOENT then LIBUSB_ERROR_NO_DEVICE else LIBUSB_ERROR_IO)
  | inr fd =>
      do* on_backend (set_fds (<[handle:=fd]> fds)) in
      usbi_add_pollfd fd POLLOUT
  end.

(** [op_close], src/external/libusb-1.0.9/libusb/os/linux_usbfs.c:1243-1248. *)
Definition op_close (handle : nat) : M (Ctx (Devices (Linux W))) unit :=
  let* fd := on_backend (handle_fd handle) in
  do* usbi_remove_pollfd fd in
  on_backend (on_kernel (sys_close fd)).

(** [op_get_configuration],
    src/external/libusb-1.0.9/libusb/os/linux_usbfs.c:1250-1267. *)
Definition op_get_configuration (handle : nat) : M (Ctx (Devices (Linux W))) (Z * option Z) :=
  let* g := on_backend (gets lx_globals) in
  if negb (sysfs_can_relate_devices g =? 1) then ret ((LIBUSB_ERROR_NOT_SUPPORTED : Z), None)
  else
    let* d := handle_device handle in
    let* '(r, config) := on_backend (sysfs_get_active_config d) in
    if r <? 0 then ret (r, config)
    else ret (0, if bool_decide (config = Some (-1)) then Some 0 else config).

(** [op_set_configuration],
    src/external/libusb-1.0.9/libusb/os/linux_usbfs.c:1269-1302. *)
Definition op_set_configuration (handle : nat) (config : Z) : M (Ctx (Devices (Linux W))) Z :=
  let* r := on_backend (on_handle handle (fun fd => ioctl_setconfig fd config)) in
  if negb (r =? 0) then
    ret (A := Z) (if r =? EINVAL then LIBUSB_ERROR_NOT_FOUND else if r =? EBUSY then LIBUSB_ERROR_BUSY
         else if r =? ENODEV then LIBUSB_ERROR_NO_DEVICE else LIBUSB_ERROR_OTHER)
  else
    let* g := on_backend (gets lx_globals) in
    if sysfs_has_descriptors g then ret 0
    else
      let* d := handle_device handle in
      let* fd := on_backend (handle_fd handle) in
      do* (if config =? -1 then
             let* p := on_backend (get_device_priv (dev_id d)) in
             on_backend (put_device_priv (dev_id d) (mk_device_priv (lp_sysfs_dir p) (lp_dev_descriptor p) None))
           else let* _ := on_backend (cache_active_config fuel d fd config) in ret tt) in
      ret 0.

(** [op_claim_interface],
    src/external/libusb-1.0.9/libusb/os/linux_usbfs.c:1304-1321. *)
Definition op_claim_interface (handle : nat) (iface : Z) : M (Linux W) Z :=
  let* r := on_handle handle (fun fd => ioctl_claimintf fd iface) in
  ret (A := Z) (if r =? 0 then 0 else if r =? ENOENT then LIBUSB_ERROR_NOT_FOUND else if r =? EBUSY then LIBUSB_ERROR_BUSY
       else if r =? ENODEV then LIBUSB_ERROR_NO_DEVICE else LIBUSB_ERROR_OTHER).

(** [op_release_interface],
    src/external/libusb-1.0.9/libusb/os/linux_usbfs.c:1323-1336. *)
Definition op_release_interface (handle : nat) (iface : Z) : M (Linux W) Z :=
  let* r := on_handle handle (fun fd => ioctl_releaseintf fd iface) in
  ret (A := Z) (if r =? 0 then 0 else if r =? ENODEV then LIBUSB_ERROR_NO_DEVICE else LIBUSB_ERROR_OTHER).

(** [op_set_interface],
    src/external/libusb-1.0.9/libusb/os/linux_usbfs.c:1338-1360. *)
Definition op_set_interface (handle : nat) (iface altsetting : Z) : M (Linux W) Z :=
  let* r := on_handle handle (fun fd => ioctl_setintf fd (iface, altsetting)) in
  ret (A := Z) (if r =? 0 then 0 else if r =? EINVAL then LIBUSB_ERROR_NOT_FOUND
       else if r =? ENODEV then LIBUSB_ERROR_NO_DEVICE else LIBUSB_ERROR_OTHER).

(** [op_clear_halt], src/external/libusb-1.0.9/libusb/os/linux_usbfs.c:1362-1380. *)
Definition op_clear_halt (handle : nat) (endpoint : Z) : M (Linux W) Z :=
  let* r := on_handle handle (fun fd => ioctl_clear_halt fd endpoint) in
  ret (A := Z) (if r =? 0 then 0 else if r =? ENOENT then LIBUSB_ERROR_NOT_FOUND
       else if r =? ENODEV then LIBUSB_ERROR_NO_DEVICE else LIBUSB_ERROR_OTHER).

(** [1L << i] as an [unsigned long]. *)
Definition long_bit (i : nat) : Z := u64 (Z.shiftl 1 (Z.of_nat i)).
(** The loops of [op_reset_device] over the interfaces,
    src/external/libusb-1.0.9/libusb/os/linux_usbfs.c:1392-1396. *)
Fixpoint release_claimed (handle : nat) (claimed : Z) (l : list nat) : M (Linux W) unit :=
  match l with
  | [] => ret tt
  | i :: l' =>
      do* (if Z.land claimed (long_bit i) =? 0 then ret tt
           else let* _ := op_release_interface handle (Z.of_nat i) in ret tt) in
      release_claimed handle claimed l'
  end.
(** src/external/libusb-1.0.9/libusb/os/linux_usbfs.c:1413-1422. *)
Fixpoint reclaim (handle : nat) (claimed : Z) (l : list nat) : M (Linux W) Z :=
  match l with
  | [] => ret claimed
  | i :: l' =>
      if Z.land claimed (long_bit i) =? 0 then reclaim handle claimed l'
      else
        let* r := op_claim_interface handle (Z.of_nat i) in
        reclaim handle (if r =? 0 then claimed else Z.land claimed (u64 (Z.lnot (long_bit i)))) l'
  end.
(** [op_reset_device],
    src/external/libusb-1.0.9/libusb/os/linux_usbfs.c:1382-1426. *)
Definition op_reset_device (handle : nat) : M (Ctx (Devices (Linux W))) Z :=
  let* h := get_handle handle in
  let interfaces := seq 0 (Z.to_nat USB_MAXINTERFACES) in
  do* on_backend (release_claimed handle (hd_claimed_interfaces h) interfaces) in
  let* r := on_backend (on_handle handle (fun fd => ioctl_reset fd)) in
  if negb (r =? 0) then ret (A := Z) (if r =? ENODEV then LIBUSB_ERROR_NOT_FOUND else LIBUSB_ERROR_OTHER)
  else
    let* claimed := on_backend (reclaim handle (hd_claimed_interfaces h) interfaces) in
    do* put_handle handle (mk_handle (hd_dev h) claimed) in
    ret 0.

(** [op_kernel_driver_active],
    src/external/libusb-1.0.9/libusb/os/linux_usbfs.c:1428-1449. *)
Definition op_kernel_driver_active (handle : nat) (interface : Z) : M (Linux W) Z :=
  let* r := on_handle handle (fun fd => ioctl_getdriver fd interface) in
  ret (A := Z) (if r =? 0 then 1 else if r =? ENODATA then 0
       else if r =? ENODEV then LIBUSB_ERROR_NO_DEVICE else LIBUSB_ERROR_OTHER).

(** [op_detach_kernel_driver],
    src/external/libusb-1.0.9/libusb/os/linux_usbfs.c:1451-1477. *)
Definition op_detach_kernel_driver (handle : nat) (interface : Z) : M (Linux W) Z :=
  let* r := on_handle handle (fun fd => ioctl_disconnect fd interface) in
  ret (A := Z) (if r =? 0 then 0 else if r =? ENODATA then LIBUSB_ERROR_NOT_FOUND
       else if r =? EINVAL then LIBUSB_ERROR_INVALID_PARAM
       else if r =? ENODEV then LIBUSB_ERROR_NO_DEVICE else LIBUSB_ERROR_OTHER).

(** [op_attach_kernel_driver],
    src/external/libusb-1.0.9/libusb/os/linux_usbfs.c:1479-1509. *)
Definition op_attach_kernel_driver (handle : nat) (interface : Z) : M (Linux W) Z :=
  let* r := on_handle handle (fun fd => ioctl_connect fd interface) in
  ret (A := Z) (match r with
       | inl errno =>
           if errno =? ENODATA then LIBUSB_ERROR_NOT_FOUND
           else if errno =? EINVAL then LIBUSB_ERROR_INVALID_PARAM
           else if errno =? ENODEV then LIBUSB_ERROR_NO_DEVICE
           else if errno =? EBUSY then LIBUSB_ERROR_BUSY else LIBUSB_ERROR_OTHER
       | inr n => if n =? 0 then (LIBUSB_ERROR_NOT_FOUND : Z) else 0
       end).

(** [op_destroy_device],
    src/external/libusb-1.0.9/libusb/os/linux_usbfs.c:1511-1522. *)
Definition op_destroy_device (dev : nat) : M (Linux W) unit :=
  let* k := gets id in set_priv_devices (delete dev (lx_devices k)).

(** [op_clock_gettime], src/external/libusb-1.0.9/libusb/os/linux_usbfs.c:2375-2385. *)
Definition op_clock_gettime (monotonic : bool) : M (Linux W) (option (Z * Z)) :=
  let* g := gets lx_globals in on_kernel (sys_clock (if monotonic then monotonic_clkid g else CLOCK_REALTIME)).
(** [op_get_timerfd_clockid],
    src/external/libusb-1.0.9/libusb/os/linux_usbfs.c:2388-2392. *)
Definition op_get_timerfd_clockid : M (Linux W) Z := gets (fun k => monotonic_clkid (lx_globals k)).
End handles.

(** ** The backend *)
Section backend.
Context {W : Type} `{UsbKernel W} `{Usbfs W} `{HostOrder}.
Context (fuel : nat).

(** What io.c asks of the backend and of the system. *)
#[export] Instance linux_io : IoBackend (Devices (Linux W)) := {|
  clock_monotonic := in_devices (op_clock_gettime true);
  clock_realtime := in_devices (op_clock_gettime false);
  backend_submit_transfer t _ tr := in_devices (op_submit_transfer t tr);
  backend_cancel_transfer t tr := in_devices (op_cancel_transfer t tr);
  backend_clear_transfer_priv t tr := in_devices (op_clear_transfer_priv t tr);
  backend_zero_transfer_priv t := in_devices (put_priv t zero_transfer_priv);
  timerfd_settime ts := in_devices (on_kernel (sys_timerfd_settime ts));
  usbi_poll fds ms := in_devices (on_kernel (sys_poll fds ms));
  usbi_pipe := in_devices (on_kernel sys_pipe);
  timerfd_create := in_devices (let* clkid := op_get_timerfd_clockid in on_kernel (sys_timerfd_create clkid));
  usbi_close fd := in_devices (on_kernel (sys_close fd));
  fd_added_cb fd events := in_devices (on_kernel (notify_added fd events));
  fd_removed_cb fd := in_devices (on_kernel (notify_removed fd)) |}.

#[export] Instance linux_descriptor_backend : DescriptorBackend (Devices (Linux W)) := {|
  backend_get_device_descriptor d he := in_devices (op_get_device_descriptor d he);
  backend_get_active_config_descriptor d len he := in_devices (op_get_active_config_descriptor fuel d len he);
  backend_get_config_descriptor d i len he := in_devices (op_get_config_descriptor d i len he) |}.

(** [linux_usbfs_backend], src/external/libusb-1.0.9/libusb/os/linux_usbfs.c:2395-2437, with the
    function that lists the devices to be filled in, which itself uses the others. *)
Definition linux_usbfs_table (list : discovered_devs -> M (Ctx (Devices (Linux W))) (Z * discovered_devs))
    : UsbBackend (Linux W) := {|
  usbi_mutex_init := on_kernel sys_mutex_init;
  backend_get_device_list := list;
  backend_open := op_open;
  backend_close := op_close;
  backend_destroy_device := Some op_destroy_device;
  backend_get_configuration := Some op_get_configuration;
  backend_set_configuration := op_set_configuration fuel;
  backend_claim_interface := op_claim_interface;
  backend_release_interface := op_release_interface;
  backend_set_interface_altsetting := op_set_interface;
  backend_clear_halt := op_clear_halt;
  backend_reset_device := op_reset_device;
  backend_kernel_driver_active := Some op_kernel_driver_active;
  backend_detach_kernel_driver := Some op_detach_kernel_driver;
  backend_attach_kernel_driver := Some op_attach_kernel_driver;
  usbi_write fd := on_kernel (sys_write_byte fd);
  usbi_read fd := on_kernel (sys_read_byte fd) |}.
(** The functions of the table that listing uses. *)
Definition linux_without_list : UsbBackend (Linux W) := linux_usbfs_table (fun discdevs => ret (0, discdevs)).
Definition linux_usbfs_backend : UsbBackend (Linux W) :=
  linux_usbfs_table (@op_get_device_list W _ _ linux_descriptor_backend linux_without_list fuel).
Definition linux_init : BackendInit (Linux W) := {|
  backend_init := Some (on_backend op_init); backend_exit := None |}.
End backend.
