(* ===== verification/UsbLinuxProofs.v ===== *)
(** * The backend of libusb for Linux keeps its contract

    The theorems on UsbLinuxDevices.v: on a system whose calls return, the backend satisfies
    [UsbLaws], against which the theorems on devices and handles of UsbReferences.v are proved. *)
From S2P Require Import Prelude UtilsText UsbBase UsbIo UsbFlight UsbTimeouts UsbDescriptor UsbCore UsbReferences UsbLinux UsbUrbs UsbLinuxDevices.

(** ** Calls that return *)

(** From every state the computation returns a value with [Q]. *)
Definition yields {S A} (m : M S A) (Q : A -> Prop) : Prop := forall s, exists a s', m s = (Ret a, s') /\ Q a.

Lemma yields_ret {S A} (a : A) (Q : A -> Prop) : Q a -> yields (S := S) (ret a) Q.
Proof. intros HQ s. by exists a, s. Qed.
Lemma yields_lift {S A} (o : outcome A) a (Q : A -> Prop) : o = Ret a -> Q a -> yields (S := S) (lift o) Q.
Proof. intros -> HQ s. by exists a, s. Qed.
Lemma yields_bind {S A B} (m : M S A) (f : A -> M S B) Q Q' :
  yields m Q -> (forall a, Q a -> yields (f a) Q') -> yields (bind m f) Q'.
Proof.
  intros Hm Hf s. destruct (Hm s) as (a & s1 & E & HQ). destruct (Hf a HQ s1) as (b & s2 & E2 & HQ').
  exists b, s2. by rewrite (bind_Ret _ _ _ _ _ E).
Qed.
Lemma yields_post {S A} (m : M S A) (Q Q' : A -> Prop) : yields m Q -> (forall a, Q a -> Q' a) -> yields m Q'.
Proof. intros Hm HQ s. destruct (Hm s) as (a & s' & E & H). eauto. Qed.

(** The calls of the system that listing, opening and closing use return. *)
Class KernelReturns (W : Type) `{UsbKernel W} := {
  opendir_returns p : yields (sys_opendir p) (fun _ => True);
  open_returns p w : yields (sys_open p w) (fun _ => True);
  read_returns fd n : yields (sys_read fd n) (fun _ => True);
  lseek_returns fd n w : yields (sys_lseek fd n w) (fun _ => True);
  close_returns fd : yields (sys_close fd) (fun _ => True);
  text_returns p : yields (sys_text p) (fun _ => True);
  memory_returns : yields sys_memory (fun _ => True);
  mutex_returns : yields sys_mutex_init (fun _ => True);
  write_byte_returns fd : yields (sys_write_byte fd) (fun _ => True);
  read_byte_returns fd : yields (sys_read_byte fd) (fun _ => True);
  added_returns fd e : yields (notify_added fd e) (fun _ => True);
  removed_returns fd : yields (notify_removed fd) (fun _ => True);
  control_returns fd x : yields (ioctl_control fd x) (fun _ => True);
  claim_returns fd i : yields (ioctl_claimintf fd i) (fun _ => True);
  release_returns fd i : yields (ioctl_releaseintf fd i) (fun _ => True) }.
#[export] Hint Resolve opendir_returns open_returns read_returns lseek_returns close_returns text_returns memory_returns
  mutex_returns write_byte_returns read_byte_returns added_returns removed_returns control_returns claim_returns
  release_returns : mammut.

(** Steps through a computation whose calls return. *)
Ltac yield :=
  repeat first
    [ eapply yields_ret
    | eapply yields_bind; [solve [eauto with mammut]|intros; cbn beta iota]
    | solve [eauto with mammut] ].

Lemma byte_at_lt l i : (i < length l)%nat -> exists b, byte_at l i = Ret b.
Proof.
  intros Hi. unfold byte_at. destruct (lookup_lt_is_Some_2 l i Hi) as [b ->]. eauto.
Qed.

(** ** Descriptors on the state of the backend *)
Section backend_calls.
Context {W : Type} `{KernelReturns W} `{HostOrder}.
Implicit Types k : Linux W.

(** A call of the backend returns a value with [Q] and leaves the static variables. *)
Definition steady {A} (m : M (Linux W) A) (Q : A -> Prop) : Prop :=
  forall k, exists a k', m k = (Ret a, k') /\ lx_globals k' = lx_globals k /\ Q a.

Lemma steady_ret {A} (a : A) (Q : A -> Prop) : Q a -> steady (ret a) Q.
Proof. intros HQ k. by exists a, k. Qed.
Lemma steady_bind {A B} (m : M (Linux W) A) (f : A -> M (Linux W) B) Q Q' :
  steady m Q -> (forall a, Q a -> steady (f a) Q') -> steady (bind m f) Q'.
Proof.
  intros Hm Hf k. destruct (Hm k) as (a & k1 & E & Hg & HQ). destruct (Hf a HQ k1) as (b & k2 & E2 & Hg2 & HQ').
  exists b, k2. rewrite (bind_Ret _ _ _ _ _ E). split; [done|]. split; [congruence|done].
Qed.
Lemma steady_post {A} (m : M (Linux W) A) (Q Q' : A -> Prop) : steady m Q -> (forall a, Q a -> Q' a) -> steady m Q'.
Proof. intros Hm HQ k. destruct (Hm k) as (a & k' & E & Hg & H2). eauto 10. Qed.
Lemma steady_kernel {A} (m : M W A) Q : yields m Q -> steady (on_kernel m) Q.
Proof.
  intros Hm k. unfold on_kernel. destruct (Hm (lx_sys k)) as (a & w & -> & HQ). eexists a, _. by split.
Qed.
Lemma steady_gets {A} (f : Linux W -> A) : steady (gets f) (fun _ => True).
Proof. intros k. by eexists _, k. Qed.
Lemma steady_put dev p : steady (put_device_priv dev p) (fun _ => True).
Proof. intros k. by eexists tt, _. Qed.
Lemma steady_lift {A} (o : outcome A) a (Q : A -> Prop) : o = Ret a -> Q a -> steady (lift o) Q.
Proof. intros -> HQ k. by exists a, k. Qed.

Lemma total_length_returns l format he : (4 <= length l)%nat -> (6 <= length l)%nat \/ format = "bbw"%string ->
  format = "bbw"%string \/ format = "bbwbb"%string -> exists n, total_length l format he = Ret n.
Proof.
  intros H4 H6 Hf. unfold total_length.
  destruct l as [|b0 [|b1 [|b2 [|b3 l]]]]; try (cbn in H4; lia).
  destruct Hf as [-> | ->]; [by eexists|].
  destruct l as [|b4 [|b5 l]]; try (destruct H6; [cbn in *; lia|done]). by eexists.
Qed.

Lemma seek_yields fd he : yields (seek_to_next_config fd he) (fun _ => True).
Proof.
  unfold seek_to_next_config. eapply yields_bind; [apply read_returns|]. intros [tmp|] _; [|by apply yields_ret].
  destruct (Z.ltb_spec (Z.of_nat (length tmp)) 6) as [Hl|Hl]; [by apply yields_ret|].
  destruct (total_length_returns tmp "bbwbb" he) as [n E]; [lia|left; lia|by right|].
  eapply yields_bind; [by eapply (yields_lift _ _ (fun _ => True))|]. intros x _. yield.
Qed.
Hint Resolve seek_yields : mammut.

Lemma skip_yields fd n : yields (skip_configs fd n) (fun _ => True).
Proof.
  induction n as [|n IH]; cbn [skip_configs]; [by apply yields_ret|]. eapply yields_bind; [apply seek_yields|].
  intros r _. destruct (r <? 0); [by apply yields_ret|done].
Qed.
Hint Resolve skip_yields : mammut.

(** What a descriptor that is returned without an error has at least. *)
Definition enough (len : Z) (r : Z * list Z) : Prop := r.1 < 0 \/ len <= Z.of_nat (length r.2).

Lemma get_config_yields fd i len : yields (get_config_descriptor fd i len) (enough len).
Proof.
  unfold get_config_descriptor. eapply yields_bind; [apply lseek_returns|]. intros off _.
  destruct (off <? 0); [by apply yields_ret; left|]. eapply yields_bind; [apply skip_yields|]. intros r _.
  destruct (Z.ltb_spec r 0); [by apply yields_ret; left|]. eapply yields_bind; [apply read_returns|].
  intros [l|] _; apply yields_ret; [|by left]. destruct (Z.ltb_spec (Z.of_nat (length l)) len); [by left|by right].
Qed.
Hint Resolve get_config_yields : mammut.

Lemma read_attr_yields dir attr : yields (__read_sysfs_attr dir attr) (fun _ => True).
Proof. unfold __read_sysfs_attr. yield. Qed.
Lemma active_yields fd : yields (usbfs_get_active_config fd) (fun _ => True).
Proof. unfold usbfs_get_active_config. yield. Qed.
Hint Resolve read_attr_yields active_yields : mammut.

Lemma open_attr_steady d attr : steady (_open_sysfs_attr d attr) (fun _ => True).
Proof.
  unfold _open_sysfs_attr. eapply steady_bind; [apply steady_gets|]. intros p _.
  eapply steady_bind; [apply steady_kernel, open_returns|]. intros [e|fd] _; by apply steady_ret.
Qed.

Lemma sysfs_config_steady d : steady (sysfs_get_active_config d) (fun _ => True).
Proof.
  unfold sysfs_get_active_config. eapply steady_bind; [apply open_attr_steady|]. intros fd _.
  destruct (fd <? 0); [by apply steady_ret|]. eapply steady_bind; [apply steady_kernel, read_returns|]. intros r _.
  eapply steady_bind; [apply steady_kernel, close_returns|]. intros _ _. by apply steady_ret.
Qed.

Lemma op_get_config_steady d i len he : steady (op_get_config_descriptor d i len he) (fun r => enough len r.1).
Proof.
  unfold op_get_config_descriptor. eapply steady_bind; [apply steady_gets|]. intros g _.
  eapply steady_bind; [apply steady_kernel, open_returns|]. intros [e|fd] _; [by apply steady_ret; left|].
  eapply steady_bind; [apply steady_kernel, get_config_yields|]. intros r Hr.
  eapply steady_bind; [apply steady_kernel, close_returns|]. intros _ _. by apply steady_ret.
Qed.

Lemma config_index_steady fuel d v n : forall i,
  steady (@config_index_loop _ (linux_descriptors fuel) d v n i) (fun _ => True).
Proof.
  induction n as [|n IH]; intros i; cbn [config_index_loop]; [by apply steady_ret|].
  eapply steady_bind; [apply op_get_config_steady|]. intros [[r l] he'] Hr. cbn beta iota in *.
  destruct (Z.ltb_spec r 0) as [|Hr0]; [by apply steady_ret|].
  destruct (byte_at_lt l 5) as [b Eb]; [destruct Hr; cbn in *; lia|].
  eapply steady_bind; [by eapply (steady_lift _ _ (fun _ => True))|]. intros b' _.
  destruct (b' =? v); [by apply steady_ret|apply IH].
Qed.

Lemma cache_config_steady fuel d fd active : steady (cache_active_config fuel d fd active) (fun _ => True).
Proof.
  unfold cache_active_config. eapply steady_bind with (Q := fun _ => True).
  { destruct (active =? -1); [by apply steady_ret|]. apply config_index_steady. }
  intros [r idx] _. cbn beta iota. destruct idx as [idx|]; [|by apply steady_ret].
  destruct (r <? 0); [by apply steady_ret|]. destruct (idx =? -1); [by apply steady_ret|].
  eapply steady_bind; [apply steady_kernel, get_config_yields|]. intros [r2 tmp] Hr. cbn beta iota.
  destruct (Z.ltb_spec r2 0); [by apply steady_ret|].
  destruct (total_length_returns tmp "bbw" false) as [n E]; [destruct Hr; cbn in *; lia|by right|by left|].
  eapply steady_bind; [by eapply (steady_lift _ _ (fun _ => True))|]. intros len _.
  eapply steady_bind; [apply steady_kernel, memory_returns|]. intros b _.
  destruct b; cbn [negb]; [|by apply steady_ret].
  eapply steady_bind; [apply steady_kernel, get_config_yields|]. intros [r3 buf] _. cbn beta iota.
  destruct (r3 <? 0); [by apply steady_ret|]. eapply steady_bind; [apply steady_gets|]. intros p _.
  eapply steady_bind; [apply steady_put|]. intros _ _. by apply steady_ret.
Qed.
End backend_calls.

(** ** Devices *)
Section contract.
Context {W : Type} `{KernelReturns W} `{Usbfs W} `{HostOrder}.
Context (fuel : nat).
Implicit Types (s : Ctx (Devices (Linux W))) (R L : list nat).

#[local] Existing Instance linux_io.
#[local] Instance table_descriptors : DescriptorBackend (Devices (Linux W)) := linux_descriptor_backend fuel.

(** *** What keeps the accounts *)

Definition globals_of s : LinuxGlobals := lx_globals (d_rest (c_rest s)).
Definition priv_of s (i : nat) : linux_device_priv := default zero_device_priv (lx_devices (d_rest (c_rest s)) !! i).

(** The records of the devices but one, and the handles. *)
Definition frame_of (dev : nat) s :=
  (delete dev (snd <$> d_devices (c_rest s)), d_handles (c_rest s), d_open_devs (c_rest s)).

(** The accounts hold, a device that there is has the identifier [i], and [F] are the others. *)
Definition on_device F R L (dev i : nat) (g : LinuxGlobals) s : Prop :=
  accounted R L s /\ (exists n d, d_devices (c_rest s) !! dev = Some (n, d) /\ dev_id d = i) /\
  globals_of s = g /\ frame_of dev s = F.

Lemma on_backend_run {A} (m : M (Linux W) A) Q s : steady m Q ->
  exists a k, on_backend m s = (Ret a, upd_devices s (d_devices (c_rest s)) (d_usb_devs (c_rest s)) k) /\
    lx_globals k = globals_of s /\ Q a.
Proof.
  intros Hm. unfold on_backend, on_system. destruct (Hm (d_rest (c_rest s))) as (a & k & -> & Hg & HQ). by exists a, k.
Qed.

Lemma backend_returns {A} (m : M (Linux W) A) Q F R L dev i g : steady m Q ->
  returns (on_device F R L dev i g) (on_backend m) (fun a s => on_device F R L dev i g s /\ Q a).
Proof.
  intros Hm s (HA & Hd & Hg & HF). destruct (on_backend_run m Q s Hm) as (a & k & E & Hk & HQ). eexists a, _.
  split; [exact E|]. split; [|done]. split; [exact HA|]. split; [exact Hd|]. split; [|exact HF].
  unfold globals_of in *. cbn. congruence.
Qed.
Lemma system_returns {A} (m : M (Linux W) A) Q F R L dev i g : steady m Q ->
  returns (on_device F R L dev i g) (on_system (in_devices m)) (fun a s => on_device F R L dev i g s /\ Q a).
Proof. apply backend_returns. Qed.

(** The precondition of what comes next, when a fact about the result was found. *)
Lemma returns_fact {S A} (P : S -> Prop) (Q : Prop) (m : M S A) (Q' : A -> S -> Prop) :
  (Q -> returns P m Q') -> returns (fun x => P x /\ Q) m Q'.
Proof. intros Hm x [HP HQ]. by apply Hm. Qed.

Lemma accounted_update R L dev n d d' s : accounted R L s -> d_devices (c_rest s) !! dev = Some (n, d) ->
  accounted R L (upd_devices s (<[dev:=(n, d')]> (d_devices (c_rest s))) (d_usb_devs (c_rest s)) (d_rest (c_rest s))).
Proof.
  intros ((Hn & Hu & Hc & Hd) & Ho & Hnl & Hb) Ex. split_and!; [|exact Ho|exact Hnl|exact Hb].
  assert (forall e, is_Some (<[dev:=(n, d')]> (d_devices (c_rest s)) !! e) <-> is_Some (d_devices (c_rest s) !! e)) as Hs.
  { intros e. destruct (decide (e = dev)) as [->|]; [|by rewrite lookup_insert_ne]. rewrite lookup_insert_eq, Ex. by split; eauto. }
  split_and!; [exact Hn| | |].
  - intros e. cbn. by rewrite Hs.
  - intros e m x. cbn. destruct (decide (e = dev)) as [->|]; [|rewrite lookup_insert_ne by done; apply Hc].
    rewrite lookup_insert_eq. intros [= <- _]. by eapply Hc.
  - intros e. cbn. rewrite Hs. apply Hd.
Qed.

Lemma get_device_returns F R L dev i g :
  returns (on_device F R L dev i g) (get_device dev) (fun x s => on_device F R L dev i g s /\ dev_id x.2 = i).
Proof.
  intros s HP. pose proof HP as (HA & (n & d & Ex & Hi) & _). exists (n, d), s.
  split; [by apply get_device_run|done].
Qed.
Lemma put_device_returns F R L dev i g n d s (d' : libusb_device) : on_device F R L dev i g s ->
  d_devices (c_rest s) !! dev = Some (n, d) -> dev_id d' = i ->
  exists s', put_device dev (n, d') s = (Ret tt, s') /\ on_device F R L dev i g s'.
Proof.
  intros (HA & _ & Hg & HF) Ex Hi. eexists. split; [apply put_device_run|]. split; [by eapply accounted_update|].
  split; [|split; [exact Hg|]].
  - exists n, d'. split; [apply lookup_insert_eq|done].
  - rewrite <- HF. unfold frame_of. cbn. by rewrite fmap_insert, delete_insert_eq.
Qed.
Lemma update_device_returns F R L dev i g f : (forall d, dev_id (f d) = dev_id d) ->
  returns (on_device F R L dev i g) (update_device dev f) (fun d s => on_device F R L dev i g s /\ dev_id d = i).
Proof.
  intros Hf s HP. pose proof HP as (_ & (n & d & Ex & Hi) & _).
  destruct (put_device_returns F R L dev i g n d s (f d) HP Ex) as (s' & E & HP'); [by rewrite Hf|].
  exists (f d), s'. split; [|by rewrite Hf]. unfold update_device. erewrite bind_Ret by (by apply get_device_run).
  cbn beta iota. by erewrite bind_Ret by exact E.
Qed.

(** *** A new device *)

(** The device descriptor can be read: from sysfs, or because it was kept. *)
Definition cached (i : nat) (g : LinuxGlobals) s : Prop :=
  sysfs_has_descriptors g = true \/ exists l, lp_dev_descriptor (priv_of s i) = Some l /\ (18 <= length l)%nat.

Ltac on_backend_step lem := eapply returns_bind; [eapply backend_returns; lem|]; intros; apply returns_fact; intros.
Ltac kernel_step lem := on_backend_step ltac:(apply steady_kernel; apply lem).

Lemma close_returns_with F R L dev i g fd (r : Z) :
  returns (on_device F R L dev i g) (do* on_backend (on_kernel (sys_close fd)) in ret r)
    (fun a s => on_device F R L dev i g s /\ a = r).
Proof. kernel_step close_returns. by apply returns_ret. Qed.

Lemma cache_descriptors_returns F R L dev i g fd active configured :
  returns (on_device F R L dev i g) (cache_descriptors fuel dev fd active configured)
    (fun r s => on_device F R L dev i g s /\ (0 <= r -> cached i g s)).
Proof.
  assert (forall r : Z, r < 0 -> returns (on_device F R L dev i g) (do* on_backend (on_kernel (sys_close fd)) in ret r)
    (fun r s => on_device F R L dev i g s /\ (0 <= r -> cached i g s))) as Hclose.
  { intros r Hr. eapply returns_post; [apply close_returns_with|]. intros a s [HP ->]. split; [done|lia]. }
  unfold cache_descriptors. kernel_step memory_returns. destruct a; cbn [negb]; [|by apply Hclose].
  kernel_step read_returns. destruct a as [l|]; [|by apply Hclose].
  destruct (Z.ltb_spec (Z.of_nat (length l)) DEVICE_DESC_LENGTH) as [|Hl]; [by apply Hclose|].
  unfold DEVICE_DESC_LENGTH in Hl. destruct (byte_at_lt l 17) as [b Eb]; [lia|].
  intros s HP. unfold lift. rewrite Eb. erewrite bind_Ret by reflexivity. revert s HP.
  apply (returns_bind (on_device F R L dev i g) _ _ (fun d s => on_device F R L dev i g s /\ dev_id d = i));
    [by apply update_device_returns|]. intros d. apply returns_fact. intros Hi.
  eapply returns_bind with (R := fun r s => on_device F R L dev i g s /\ True).
  { destruct configured; [|by apply returns_ret]. eapply backend_returns, cache_config_steady. }
  intros r. apply returns_fact. intros _. destruct (Z.ltb_spec r 0) as [Hr|Hr]; [by apply Hclose|].
  kernel_step close_returns. intros s (HA & Hd & Hg & HF). eexists 0, _. split; [reflexivity|]. split; [by split_and!|].
  intros _. right. exists l. split; [|lia]. unfold priv_of. cbn. rewrite Hi. by rewrite lookup_insert_eq.
Qed.

Lemma globals_returns F R L dev i g :
  returns (on_device F R L dev i g) (on_backend (gets lx_globals)) (fun a s => on_device F R L dev i g s /\ a = g).
Proof.
  intros s HP. pose proof HP as (HA & Hd & Hg & HF). destruct (on_backend_run (gets lx_globals) (fun _ => True) s (steady_gets _)) as (a & k & E & Hk & _).
  eexists a, _. split; [exact E|]. split; [split; [exact HA|]; split; [exact Hd|]; split; [unfold globals_of in *; cbn; congruence|exact HF]|].
  injection E as <- _. exact Hg.
Qed.

Lemma initialize_sysfs_returns F R L dev i g dir :
  returns (on_device F R L dev i g) (initialize_sysfs dev dir) (fun _ => on_device F R L dev i g).
Proof.
  unfold initialize_sysfs. destruct dir as [dir|]; [|by apply returns_ret].
  kernel_step memory_returns. destruct a; cbn [negb]; [|by apply returns_ret].
  eapply returns_bind; [apply get_device_returns|]. intros [n d]. apply returns_fact. intros Hi. cbn beta iota.
  on_backend_step ltac:(apply steady_gets). on_backend_step ltac:(apply steady_put).
  kernel_step read_attr_yields. eapply returns_bind with (R := fun _ => on_device F R L dev i g); [|by intros; apply returns_ret].
  destruct (0 <=? _); [|by apply returns_ret].
  eapply returns_post; [by apply update_device_returns|]. by intros ? ? [].
Qed.

Lemma query_yields fd active configured : yields (query_active_config fd active configured) (fun x => forall r, x = inl r -> r < 0).
Proof.
  unfold query_active_config. destruct (active =? -1); [by apply yields_ret|].
  eapply yields_bind; [apply active_yields|]. intros a _. apply yields_ret. intros r.
  destruct (a =? LIBUSB_ERROR_IO); [done|]. destruct (Z.ltb_spec a 0); [|done]. by intros [= <-].
Qed.

Lemma sysfs_config_negative d : steady (sysfs_get_active_config d) (fun x => x.2 = None -> x.1 < 0).
Proof.
  unfold sysfs_get_active_config. eapply steady_bind; [apply open_attr_steady|]. intros fd _.
  destruct (Z.ltb_spec fd 0); [by apply steady_ret|]. eapply steady_bind; [apply steady_kernel, read_returns|]. intros r _.
  eapply steady_bind; [apply steady_kernel, close_returns|]. intros _ _. apply steady_ret.
  destruct r as [[|b l]|]; cbn [config_of_text]; [done| |done]. repeat case_match; done.
Qed.

Lemma initialize_device_returns F R L dev i g busnum devaddr dir :
  returns (on_device F R L dev i g) (initialize_device fuel dev busnum devaddr dir)
    (fun r s => on_device F R L dev i g s /\ (0 <= r -> cached i g s)).
Proof.
  assert (forall r : Z, r < 0 -> returns (on_device F R L dev i g) (ret r)
    (fun r s => on_device F R L dev i g s /\ (0 <= r -> cached i g s))) as Hfail.
  { intros r Hr. apply returns_ret. intros s HP. split; [done|lia]. }
  unfold initialize_device. eapply returns_bind; [by apply update_device_returns|]. intros d0. apply returns_fact. intros Hi0.
  eapply returns_bind; [apply initialize_sysfs_returns|]. intros memory. destruct memory; cbn [negb]; [|by apply Hfail].
  eapply returns_bind; [apply get_device_returns|]. intros [n d]. apply returns_fact. intros Hi. cbn beta iota in *. cbn [snd] in Hi.
  eapply returns_bind; [apply globals_returns|]. intros ?. apply returns_fact. intros ->.
  destruct (sysfs_has_descriptors g) eqn:Esys; [by apply returns_ret; intros; split; [|left]|].
  on_backend_step ltac:(apply steady_gets). on_backend_step ltac:(apply steady_put).
  eapply returns_bind with (R := fun x s => on_device F R L dev i g s /\ (x.2 = None -> x.1 < 0)).
  { destruct (negb (sysfs_can_relate_devices g =? 0)); [|by apply returns_ret].
    eapply backend_returns, sysfs_config_negative. }
  intros [r active]. apply returns_fact. intros Hr. cbn beta iota. destruct active as [active|]; [|by apply Hfail, Hr].
  kernel_step open_returns. 
  eapply returns_bind with (R := fun _ => on_device F R L dev i g).
  { destruct a1 as [errno|]; [|by apply returns_ret]. destruct (errno =? EACCES); [|by apply returns_ret].
    kernel_step open_returns. by apply returns_ret. }
  intros [[e|fd] active']; cbn beta iota; [by apply Hfail|].
  eapply returns_bind with (R := fun x s => on_device F R L dev i g s /\ forall r, x = inl r -> r < 0).
  { destruct (negb (sysfs_can_relate_devices g =? 0)); [by apply returns_ret|].
    eapply backend_returns, steady_kernel, query_yields. }
  intros [r'|[active2 configured]]; apply returns_fact; intros Hr'; [|apply cache_descriptors_returns].
  eapply returns_post; [apply close_returns_with|]. intros x s [HP ->]. split; [done|]. specialize (Hr' _ eq_refl). lia.
Qed.

Lemma sanitize_returns F R L dev i g :
  returns (fun s => on_device F R L dev i g s /\ cached i g s) (usbi_sanitize_device dev) (fun _ => on_device F R L dev i g).
Proof.
  intros s [HP Hc]. pose proof HP as (HA & (n & d & Ex & Hi) & Hg & HF). unfold usbi_sanitize_device.
  erewrite bind_Ret by (by apply get_device_run). cbn beta iota.
  assert (exists r l he k, on_system (backend_get_device_descriptor d false) s
    = (Ret (r, l, he), upd_devices s (d_devices (c_rest s)) (d_usb_devs (c_rest s)) k) /\
    lx_globals k = g /\ (r < 0 \/ (18 <= length l)%nat)) as (r & l & he & k & E & Hk & Hl).
  { cbn [backend_get_device_descriptor table_descriptors linux_descriptor_backend].
    destruct (sysfs_has_descriptors g) eqn:Esys.
    - assert (steady (sysfs_get_device_descriptor d) (enough 18)) as Hs.
      { unfold sysfs_get_device_descriptor. eapply steady_bind; [apply open_attr_steady|]. intros fd _.
        destruct (Z.ltb_spec fd 0); [by apply steady_ret; left|]. eapply steady_bind; [apply steady_kernel, read_returns|].
        intros r _. eapply steady_bind; [apply steady_kernel, close_returns|]. intros _ _. apply steady_ret.
        destruct r as [l|]; [|by left]. unfold DEVICE_DESC_LENGTH.
        destruct (Z.ltb_spec (Z.of_nat (length l)) 18); [by left|by right]. }
      destruct (on_backend_run _ _ s Hs) as ([r l] & k & E & Hk & Hl). exists r, l, false, k.
      split; [|split; [unfold globals_of in *; congruence|destruct Hl; cbn in *; [by left|right; lia]]].
      unfold on_system, in_devices, op_get_device_descriptor. unfold on_backend, on_system in E.
      erewrite bind_Ret by reflexivity. unfold globals_of in Hg. rewrite Hg, Esys. unfold bind.
      destruct (sysfs_get_device_descriptor d (d_rest (c_rest s))) as [[]]; by inversion E.
    - destruct Hc as [Hc|(l & El & Hl)]; [congruence|].
      exists 0, (take 18 l), true, (d_rest (c_rest s)). split; [|split; [exact Hg|right; rewrite length_take; lia]].
      unfold on_system, in_devices, op_get_device_descriptor. erewrite bind_Ret by reflexivity.
      unfold globals_of in Hg. rewrite Hg, Esys. unfold usbfs_get_device_descriptor. rewrite Hi.
      erewrite bind_Ret; [reflexivity|]. erewrite bind_Ret by reflexivity. unfold priv_of in El. by rewrite El. }
  erewrite bind_Ret by exact E. cbn beta iota.
  assert (on_device F R L dev i g (upd_devices s (d_devices (c_rest s)) (d_usb_devs (c_rest s)) k)) as HP2.
  { split; [exact HA|]. split; [by exists n, d|]. by split. }
  destruct (Z.ltb_spec r 0); [by eexists _, _|]. destruct (byte_at_lt l 17) as [b Eb]; [lia|].
  unfold lift. rewrite Eb. erewrite bind_Ret by reflexivity. destruct (_ <? b); [by eexists _, _|].
  erewrite bind_Ret by (apply get_device_run; exact Ex). cbn beta iota.
  destruct (put_device_returns F R L dev i g n d _ (mk_device (dev_id d) (dev_bus_number d) (dev_device_address d) b (dev_speed d) (dev_session_data d)) HP2 Ex Hi)
    as (s' & E' & HP'). erewrite bind_Ret by exact E'. by eexists _, _.
Qed.

(** *** Files of handles *)

Lemma same_trans s1 s2 s3 : same_devices s1 s2 -> same_devices s2 s3 -> same_devices s1 s3.
Proof.
  intros (A1 & A2 & A3 & A4 & A5 & A6 & A7 & A8 & A9 & A10 & A11) (B1 & B2 & B3 & B4 & B5 & B6 & B7 & B8 & B9 & B10 & B11).
  split_and!; try congruence. intros l Hl. by apply B11, A11.
Qed.
(** Only the backend, and only the blocks of the list of descriptors change. *)
Lemma same_backend s k : NoDup (h_live (c_heap s)) ->
  same_devices s (upd_devices s (d_devices (c_rest s)) (d_usb_devs (c_rest s)) k).
Proof. intros Hn. by split_and!. Qed.

Lemma notify_run (m : M W unit) s : yields m (fun _ => True) -> exists k,
  on_system (in_devices (on_kernel m)) s = (Ret tt, upd_devices s (d_devices (c_rest s)) (d_usb_devs (c_rest s)) k).
Proof. intros Hm. destruct (on_backend_run _ _ s (steady_kernel _ _ Hm)) as ([] & k & E & _). by exists k. Qed.

Lemma take_pollfd_perm fd l p l' : take_pollfd fd l = Some (p, l') -> l ≡ₚ p :: l'.
Proof.
  revert l'. induction l as [|q l IH]; intros l'; cbn; [done|]. destruct (pf_fd q =? fd); [by intros [= -> ->]|].
  destruct (take_pollfd fd l) as [[q' l'']|]; [|done]. intros [= -> <-]. rewrite (IH l'') by done. apply Permutation_swap.
Qed.

Lemma remove_pollfd_run L fd s : NoDup (h_live (c_heap s)) -> h_live (c_heap s) ≡ₚ L ++ pollfd_blocks s ->
  exists s', usbi_remove_pollfd fd s = (Ret tt, s') /\ same_devices s s'.
Proof.
  intros Hn Hb. unfold usbi_remove_pollfd. erewrite bind_Ret by reflexivity. unfold id.
  destruct (take_pollfd fd (c_pollfds s)) as [[p l]|] eqn:Et; [|exists s; by split_and!].
  apply take_pollfd_perm in Et. erewrite bind_Ret by reflexivity.
  match goal with |- context [bind (in_memory _) _ ?st] => destruct (free_run (K := Linux W) (pf_block p) (L ++ map pf_block l) st) as (h & E & Hl & Hn') end.
  { cbn. rewrite Hb. unfold pollfd_blocks. rewrite Et. cbn [map]. by rewrite Permutation_middle. }
  { done. }
  erewrite bind_Ret by exact E. set (s1 := upd_heap _ h).
  assert (same_devices s s1) as Hsame.
  { split_and!; try done. intros l0 Hl0. change (h_live h ≡ₚ l0 ++ map pf_block l). rewrite Hl.
    apply Permutation_app_tail. apply (Permutation_app_inv_r (pollfd_blocks s)). by rewrite <- Hb, <- Hl0. }
  clearbody s1. destruct (c_notifiers s); [|by exists s1].
  destruct (notify_run (notify_removed fd) s1 (removed_returns fd)) as [k Ek]. eexists. split; [exact Ek|].
  eapply same_trans; [exact Hsame|]. apply same_backend, Hsame.
Qed.

Lemma add_pollfd_run fd e s : NoDup (h_live (c_heap s)) ->
  exists r s', usbi_add_pollfd fd e s = (Ret r, s') /\ same_devices s s'.
Proof.
  intros Hn. unfold usbi_add_pollfd. destruct (alloc_run (K := Linux W) s Hn) as (o & h & E & Hn' & Ho).
  erewrite bind_Ret by exact E. destruct o as [b|].
  2: { eexists _, _. split; [reflexivity|]. split_and!; try done. intros l. cbn. by rewrite Ho. }
  destruct Ho as [_ Ho]. erewrite bind_Ret by reflexivity. unfold id. erewrite bind_Ret by reflexivity.
  set (s1 := mkCtx _ _ _ _ _ _ _ _ _ _ _ _).
  assert (same_devices s s1) as Hsame.
  { split_and!; try done. intros l Hl. unfold pollfd_blocks, s1. cbn. rewrite map_app, Ho, Hl. cbn.
    rewrite <- Permutation_cons_append, Permutation_middle. done. }
  change (c_notifiers (upd_heap s h)) with (c_notifiers s). clearbody s1. destruct (c_notifiers s).
  - destruct (notify_run (notify_added fd e) s1 (added_returns fd e)) as [k Ek]. erewrite bind_Ret by exact Ek.
    eexists _, _. split; [reflexivity|]. eapply same_trans; [exact Hsame|]. apply same_backend, Hsame.
  - erewrite bind_Ret by reflexivity. by exists 0, s1.
Qed.

Lemma accounted_blocks R L s : accounted R L s -> NoDup (h_live (c_heap s)) /\
  h_live (c_heap s) ≡ₚ (L ++ d_usb_devs (c_rest s) ++ d_open_devs (c_rest s)) ++ pollfd_blocks s.
Proof.
  intros (_ & _ & Hn & Hb). split; [done|]. rewrite Hb. unfold device_blocks. by rewrite <- !app_assoc.
Qed.

Lemma op_close_run R L h s : accounted R L s -> exists s', op_close h s = (Ret tt, s') /\ same_devices s s'.
Proof.
  intros HA. pose proof (accounted_blocks _ _ _ HA) as [Hn Hb]. unfold op_close.
  destruct (on_backend_run (handle_fd h) (fun _ => True) s (steady_gets _)) as (fd & k & E & _). erewrite bind_Ret by exact E.
  match goal with |- context [bind (usbi_remove_pollfd fd) _ ?st] => destruct (remove_pollfd_run _ fd st Hn Hb) as (s2 & E2 & Hs2) end.
  erewrite bind_Ret by exact E2.
  destruct (on_backend_run _ _ s2 (steady_kernel _ _ (close_returns fd))) as ([] & k3 & E3 & _).
  eexists. split; [exact E3|]. eapply same_trans; [by apply same_backend|]. eapply same_trans; [exact Hs2|].
  apply same_backend. apply Hs2.
Qed.

Lemma op_open_run R L h x y s : accounted R L s -> d_handles (c_rest s) !! h = Some x ->
  d_devices (c_rest s) !! hd_dev x = Some y -> exists r s', op_open h s = (Ret r, s') /\ same_devices s s'.
Proof.
  intros HA Eh Ed. pose proof (accounted_blocks _ _ _ HA) as [Hn _]. unfold op_open. destruct y as [n d].
  erewrite bind_Ret.
  2: { unfold handle_device. erewrite bind_Ret by (unfold get_handle, query; rewrite Eh; reflexivity).
       erewrite bind_Ret by (by apply get_device_run). reflexivity. }
  destruct (on_backend_run (gets lx_globals) (fun _ => True) s (steady_gets _)) as (g & k & E & _). erewrite bind_Ret by exact E.
  match goal with |- context [sys_open ?p true] => match goal with |- context [bind (on_backend (on_kernel _)) _ ?st] =>
    destruct (on_backend_run _ _ st (steady_kernel _ _ (open_returns p true))) as (fd & k2 & E2 & _) end end.
  erewrite bind_Ret by exact E2.
  match goal with |- context [bind (on_backend (gets lx_fds)) _ ?st] =>
    destruct (on_backend_run (gets lx_fds) (fun _ => True) st (steady_gets _)) as (fds & k3 & E3 & _) end.
  erewrite bind_Ret by exact E3. destruct fd as [errno|fd].
  - erewrite bind_Ret by reflexivity. eexists _, _. split; [reflexivity|].
    by apply (same_backend s).
  - erewrite bind_Ret by reflexivity.
    match goal with |- context [usbi_add_pollfd fd POLLOUT ?st] => destruct (add_pollfd_run fd POLLOUT st Hn) as (r & s2 & E4 & Hs4) end.
    exists r, s2. split; [exact E4|]. eapply same_trans; [|exact Hs4]. by apply (same_backend s).
Qed.

(** *** The table *)

(** What listing promises: a longer list whose references and block are accounted for, and no harm
    to the devices that there were. *)
Definition lists_accounted (list : discovered_devs -> M (Ctx (Devices (Linux W))) (Z * discovered_devs)) : Prop :=
  forall R L d s, accounted (dc_devices d ++ R) (dc_block d :: L) s ->
  exists r d' s', list d s = (Ret (r, d'), s') /\ accounted (dc_devices d' ++ R) (dc_block d' :: L) s' /\
    unharmed (dc_devices d ++ R) s s' /\ dc_devices d `prefix_of` dc_devices d'.

Lemma table_laws list : lists_accounted list -> @UsbLaws (Linux W) (linux_usbfs_table fuel list).
Proof.
  intros Hlist. split.
  - intros k. destruct (steady_kernel _ _ mutex_returns k) as (r & k' & E & _). by exists r, k'.
  - intros fd k. destruct (steady_kernel _ _ (write_byte_returns fd) k) as (r & k' & E & _). by exists r, k'.
  - intros fd k. destruct (steady_kernel _ _ (read_byte_returns fd) k) as (r & k' & E & _). by exists r, k'.
  - intros f dev k [= <-]. by eexists.
  - exact Hlist.
  - intros R L h x y s HA Eh Ed. by eapply op_open_run.
  - intros R L h x y s HA _ _. by eapply op_close_run.
Qed.

#[local] Instance table : UsbBackend (Linux W) := linux_without_list fuel.
#[local] Instance table_keeps : UsbLaws (Linux W).
Proof. apply table_laws. intros R L d s HA. by exists 0, d, s. Qed.

(** *** Listing *)

Lemma realloc_accounted R L b s : accounted R (b :: L) s ->
  exists o s', in_memory (realloc (Some b)) s = (Ret o, s') /\ c_rest s' = c_rest s /\
    accounted R (default b o :: L) s'.
Proof.
  intros HA. destruct (alloc_accounted R (b :: L) s HA) as (o & s1 & E & HA1 & _ & Er & _).
  unfold in_memory, realloc in *. unfold bind. destruct (malloc (c_heap s)) as [[o'|e|u] h] eqn:Em; [|done|done].
  injection E as -> <-. destruct o as [q|]; [|by eexists None, _].
  assert (accounted R (b :: q :: L) (upd_heap s h)) as HA2 by (eapply accounted_perm; [done| |exact HA1]; apply Permutation_swap).
  destruct (free_accounted R (q :: L) b _ HA2) as (s2 & E2 & HA3 & _ & Er2). unfold in_memory in E2. cbn [c_heap upd_heap] in E2.
  destruct (free_block b h) as [[[]|e|u] h']; [|done|done]. injection E2 as <-. by eexists (Some q), _.
Qed.

Lemma append_run R L d dev s : accounted R (dc_block d :: L) s -> dev ∈ R \/ dev ∈ handle_devs (c_rest s) ->
  exists o s', discovered_devs_append d dev s = (Ret o, s') /\
    match o with
    | None => accounted R (dc_block d :: L) s'
    | Some d' => dc_devices d' = dc_devices d ++ [dev] /\ accounted (dev :: R) (dc_block d' :: L) s'
    end /\ unharmed R s s'.
Proof.
  intros HA Hin. unfold discovered_devs_append. destruct (_ <? dc_capacity d).
  - destruct (ref_run R _ dev s HA Hin) as (s1 & E & HA1 & _ & _ & _ & U). erewrite bind_Ret by exact E.
    eexists (Some _), s1. by split_and!; try apply U.
  - destruct (realloc_accounted R L (dc_block d) s HA) as (o & s1 & E & Er & HA1). erewrite bind_Ret by exact E.
    pose proof (unharmed_same R s s1 Er) as U1. destruct o as [q|]; [|by exists None, s1].
    destruct (ref_run R _ dev s1 HA1) as (s2 & E2 & HA2 & _ & _ & _ & U2); [by rewrite Er|]. erewrite bind_Ret by exact E2.
    eexists (Some _), s2. split; [done|]. split; [by split|]. eapply unharmed_trans; [exact U1|apply U2].
Qed.

Lemma append_accounted R L d dev s :
  accounted (dc_devices d ++ R) (dc_block d :: L) s -> dev ∈ dc_devices d ++ R \/ dev ∈ handle_devs (c_rest s) ->
  exists r d' s', (let* l := discovered_devs_append d dev in
     ret (match l with None => ((LIBUSB_ERROR_NO_MEM : Z), d) | Some l => (0, l) end)) s = (Ret (r, d'), s') /\
    accounted (dc_devices d' ++ R) (dc_block d' :: L) s' /\ unharmed (dc_devices d ++ R) s s' /\
    dc_devices d `prefix_of` dc_devices d'.
Proof.
  intros HA Hin. destruct (append_run _ L d dev s HA Hin) as (o & s' & E & Ho & U). erewrite bind_Ret by exact E.
  destruct o as [d'|]; [|by eexists _, d, s'; split_and!]. destruct Ho as [Ed HA'].
  eexists 0, d', s'. split; [done|]. split; [|split; [done|rewrite Ed; by apply prefix_app_r]].
  eapply accounted_perm; [|done|exact HA'].
  rewrite Ed, <- app_assoc. cbn. by rewrite <- Permutation_middle.
Qed.

(** A new device with one reference. *)
Lemma alloc_device_run R L id s : accounted R L s ->
  exists o s', usbi_alloc_device id s = (Ret o, s') /\
    match o with
    | None => accounted R L s' /\ unharmed R s s'
    | Some dev => on_device (snd <$> d_devices (c_rest s), d_handles (c_rest s), d_open_devs (c_rest s))
        (dev :: R) L dev dev (globals_of s) s' /\ d_devices (c_rest s) !! dev = None
    end.
Proof.
  intros HA. unfold usbi_alloc_device. destruct (alloc_accounted R L s HA) as (o & s1 & E & HA1 & (Kh & Ko & _) & Er & Hf).
  erewrite bind_Ret by exact E. destruct o as [dev|]; [|exists None, s1; split; [done|]; split; [done|by apply unharmed_same]].
  destruct (on_backend_run _ _ s1 (steady_kernel _ _ mutex_returns)) as (r & k & E2 & Hk & _).
  change (on_backend usbi_mutex_init s1) with (on_backend (on_kernel sys_mutex_init) s1).
  erewrite bind_Ret by exact E2. set (s2 := upd_devices s1 _ _ k) in *.
  assert (accounted R ([dev] ++ L) s2) as HA2 by exact HA1.
  destruct (r =? 0); cbn [negb].
  2: { destruct (free_accounted R L dev s2 HA2) as (s3 & E3 & HA3 & _ & Er3). erewrite bind_Ret by exact E3.
       exists None, s3. split; [done|]. split; [done|]. eapply unharmed_trans; [|by apply unharmed_same].
       split_and!; cbn; by rewrite Er. }
  erewrite bind_Ret by reflexivity. erewrite bind_Ret by apply set_devices_run. eexists (Some dev), _. split; [reflexivity|].
  destruct HA2 as ((Hn & Hu & Hc & Hd) & Ho & Hnl & Hb).
  assert (dev ∉ d_usb_devs (c_rest s2)) as Hnew.
  { intros Hin. specialize (Hf _ eq_refl). apply Hf. destruct HA as (_ & _ & _ & Hbs). rewrite Hbs. unfold device_blocks.
    rewrite <- Er. apply elem_of_app. right. apply elem_of_app. by left. }
  assert (d_devices (c_rest s2) !! dev = None) as Enone.
  { apply eq_None_not_Some. by rewrite <- Hu. }
  assert (dev ∉ R ++ handle_devs (c_rest s2)) as Hnr by (rewrite Hd, Enone; by intros []).
  split; [|cbn in Enone; by rewrite Er in Enone].
  split; [|split; [eexists _, _; split; [apply lookup_insert_eq|done]|split]].
  2: { change (lx_globals k = globals_of s). rewrite Hk. unfold globals_of. by rewrite Er. }
  2: { unfold frame_of. cbn. rewrite fmap_insert, delete_insert_eq, delete_id by (rewrite lookup_fmap; cbn in Enone; by rewrite Enone).
       by rewrite Er. }
  split_and!; [|exact Ho|exact Hnl|].
  - change (counted (dev :: (R ++ handle_devs (c_rest s2)))
      (mkDevices (<[dev:=(1, mk_device dev 0 0 0 LIBUSB_SPEED_UNKNOWN id)]> (d_devices (c_rest s2))) (dev :: d_usb_devs (c_rest s2))
         (d_handles (c_rest s2)) (d_open_devs (c_rest s2)) k)).
    split_and!; cbn [d_usb_devs d_devices].
    + by constructor.
    + intros e. rewrite elem_of_cons. destruct (decide (e = dev)) as [->|]; [rewrite lookup_insert_eq; split; eauto|].
      rewrite lookup_insert_ne, Hu by done. naive_solver.
    + intros e m x. destruct (decide (e = dev)) as [->|Hne].
      * rewrite lookup_insert_eq. intros [= <- _]. rewrite refs_of_cons_same, refs_of_none by done. done.
      * rewrite lookup_insert_ne, refs_of_cons_other by done. apply Hc.
    + intros e. rewrite elem_of_cons. destruct (decide (e = dev)) as [->|]; [rewrite lookup_insert_eq; split; eauto|].
      rewrite lookup_insert_ne, Hd by done. naive_solver.
  - rewrite Hb. unfold device_blocks. cbn. by rewrite Permutation_middle.
Qed.

Lemma by_session_spec s l id : (forall e, e ∈ l -> is_Some (d_devices (c_rest s) !! e)) ->
  exists o, device_by_session (d_devices (c_rest s)) l id = Ret o /\ forall dev, o = Some dev -> dev ∈ l.
Proof.
  intros Hl. induction l as [|e l IH]; cbn [device_by_session]; [by exists None|].
  destruct (Hl e) as [[n d] ->]; [by left|]. destruct (_ =? id); [exists (Some e); split; [done|intros dev [= <-]; by left]|].
  destruct IH as (o & -> & Ho); [intros; apply Hl; by right|]. exists o. split; [done|]. intros. right. by apply Ho.
Qed.

(** What only a device that was not there changes harms none that there was. *)
Lemma frame_unharmed R L dev s s' : accounted R L s -> d_devices (c_rest s) !! dev = None ->
  frame_of dev s' = (snd <$> d_devices (c_rest s), d_handles (c_rest s), d_open_devs (c_rest s)) -> unharmed R s s'.
Proof.
  intros ((_ & _ & _ & Hd) & _) Enew [= Er Eh Eo]. split_and!; [done|done|]. intros e He. apply Hd in He.
  assert (e <> dev) as Hne by (intros ->; rewrite Enew in He; by destruct He).
  rewrite <- !lookup_fmap, <- Er. symmetry. by apply lookup_delete_ne.
Qed.

Lemma enumerate_accounted busnum devaddr dir : lists_accounted (fun d => enumerate_device fuel d busnum devaddr dir).
Proof.
  intros R L d s HA. unfold enumerate_device.
  pose proof HA as ((_ & Hu & _ & Hd) & _).
  destruct (by_session_spec s (d_usb_devs (c_rest s)) (Z.lor (Z.shiftl busnum 8) devaddr)) as (o & Es & Ho); [intros e; by apply Hu|].
  erewrite bind_Ret by (unfold usbi_get_device_by_session_id, query; rewrite Es; reflexivity).
  destruct o as [dev|].
  { destruct (append_accounted R L d dev s HA) as (r & d' & s' & E & HA').
    - apply elem_of_app, Hd, Hu, Ho. done.
    - by exists r, d', s'. }
  destruct (alloc_device_run _ _ (Z.lor (Z.shiftl busnum 8) devaddr) s HA) as (o & s1 & E1 & H1').
  erewrite bind_Ret by exact E1. destruct o as [dev|]; [|destruct H1'; by eexists _, d, s1].
  destruct H1' as [H1' Enew]. set (F := (_, _)) in H1'.
  destruct (initialize_device_returns F _ _ dev dev _ busnum devaddr dir s1 H1') as (r & s2 & E2 & HP2 & Hc).
  erewrite bind_Ret by exact E2.
  assert (exists r3 s3, (if r <? 0 then ret r else usbi_sanitize_device dev) s2 = (Ret r3, s3) /\
    on_device F (dev :: dc_devices d ++ R) (dc_block d :: L) dev dev (globals_of s) s3) as (r3 & s3 & E3 & HP3).
  { destruct (Z.ltb_spec r 0); [by exists r, s2|]. apply sanitize_returns. split; [exact HP2|by apply Hc]. }
  erewrite bind_Ret by exact E3. destruct HP3 as (HA3 & _ & _ & HF3).
  assert (unharmed (dc_devices d ++ R) s s3) as U3 by (by eapply frame_unharmed).
  assert (accounted (dc_devices d ++ dev :: R) (dc_block d :: L) s3) as HA4.
  { eapply accounted_perm; [|done|exact HA3]. apply Permutation_middle. }
  assert (exists r4 d4 s4, (if r3 <? 0 then ret (r3, d) else
      let* l := discovered_devs_append d dev in
      ret (match l with None => ((LIBUSB_ERROR_NO_MEM : Z), d) | Some l => (0, l) end)) s3 = (Ret (r4, d4), s4) /\
      accounted (dc_devices d4 ++ dev :: R) (dc_block d4 :: L) s4 /\ unharmed (dc_devices d ++ dev :: R) s3 s4 /\
      dc_devices d `prefix_of` dc_devices d4) as (r4 & d4 & s4 & E4 & HA5 & U4 & Hp).
  { destruct (r3 <? 0); [by exists r3, d, s3|].
    destruct (append_accounted (dev :: R) L d dev s3 HA4) as (r4 & d4 & s4 & E4 & HA5 & Hrest); [|by exists r4, d4, s4].
    left. apply elem_of_app. right. by left. }
  erewrite bind_Ret by exact E4.
  destruct (unref_run (dc_devices d4 ++ R) (dc_block d4 :: L) dev s4) as (s5 & E5 & HA6 & _ & U5).
  { eapply accounted_perm; [|done|exact HA5]. by rewrite <- Permutation_middle. }
  erewrite bind_Ret by exact E5. exists r4, d4, s5. split; [done|]. split; [done|]. split; [|done].
  eapply unharmed_trans; [exact U3|]. destruct Hp as [l4 El]. rewrite El in U5.
  eapply unharmed_trans; [eapply unharmed_sub; [|exact U4]|eapply unharmed_sub; [|exact U5]]; set_solver.
Qed.

(** Calls that do not touch the accounts, before a listing. *)
Lemma lists_after {A} (m : M (Linux W) A) (f : A -> discovered_devs -> M (Ctx (Devices (Linux W))) (Z * discovered_devs)) :
  steady m (fun _ => True) -> (forall a, lists_accounted (f a)) ->
  lists_accounted (fun d => let* a := on_backend m in f a d).
Proof.
  intros Hm Hf R L d s HA. destruct (on_backend_run m _ s Hm) as (a & k & E & _). erewrite bind_Ret by exact E.
  destruct (Hf a R L d (upd_devices s (d_devices (c_rest s)) (d_usb_devs (c_rest s)) k) HA) as (r & d1 & s1 & E1 & HA1 & U & Hp).
  exists r, d1, s1. split; [exact E1|]. split; [done|].
  split; [|done]. eapply unharmed_trans; [|exact U]. done.
Qed.
Lemma lists_ret r : lists_accounted (fun d => ret (r, d)).
Proof. intros R L d s HA. by exists r, d, s. Qed.
(** One listing after another. *)
Lemma lists_bind f (g : Z -> discovered_devs -> M (Ctx (Devices (Linux W))) (Z * discovered_devs)) :
  lists_accounted f -> (forall r, lists_accounted (g r)) ->
  lists_accounted (fun d => let* '(r, d) := f d in g r d).
Proof.
  intros Hf Hg R L d s HA. destruct (Hf R L d s HA) as (r & d1 & s1 & E & HA1 & U1 & Hp). erewrite bind_Ret by exact E.
  destruct (Hg r R L d1 s1 HA1) as (r2 & d2 & s2 & E2 & HA2 & U2 & Hp2). exists r2, d2, s2. split; [exact E2|].
  split; [done|]. split; [|by etrans]. eapply unharmed_trans; [exact U1|]. destruct Hp as [l El].
  rewrite El in U2. eapply unharmed_sub; [|exact U2]. set_solver.
Qed.

Lemma scan_bus_accounted entries busnum : forall r, lists_accounted (scan_bus_entries fuel entries busnum r).
Proof.
  induction entries as [|name entries IH]; intros r; cbn [scan_bus_entries]; [apply lists_ret|].
  destruct (hidden name); [apply IH|]. destruct (_ =? 0); [apply IH|].
  apply (lists_bind _ (fun e d => scan_bus_entries fuel entries busnum (if e =? 0 then 0 else r) d)); [apply enumerate_accounted|].
  intros e. apply IH.
Qed.

Lemma busdir_accounted busnum : lists_accounted (fun d => usbfs_scan_busdir fuel d busnum).
Proof.
  unfold usbfs_scan_busdir. apply (lists_after (gets lx_globals)); [apply steady_gets|]. intros g.
  apply lists_after; [apply steady_kernel, opendir_returns|]. intros [entries|]; [apply scan_bus_accounted|apply lists_ret].
Qed.

Lemma scan_usbfs_accounted names entries : forall r, lists_accounted (scan_usbfs_entries fuel names entries r).
Proof.
  induction entries as [|name entries IH]; intros r; cbn [scan_usbfs_entries]; [apply lists_ret|].
  destruct (hidden name); [apply IH|]. destruct names.
  - destruct (_is_usbdev_entry name) as [[busnum devaddr]|]; [|apply IH].
    apply (lists_bind _ (fun e d => scan_usbfs_entries fuel true entries e d)); [apply enumerate_accounted|]. intros e. apply IH.
  - destruct (_ =? 0); [apply IH|].
    apply (lists_bind _ (fun e d => if e <? 0 then ret (e, d) else scan_usbfs_entries fuel false entries e d));
      [apply busdir_accounted|]. intros e. destruct (e <? 0); [apply lists_ret|apply IH].
Qed.

Lemma scan_device_accounted name : lists_accounted (fun d => sysfs_scan_device fuel d name).
Proof.
  unfold sysfs_scan_device. apply lists_after; [apply steady_kernel, read_attr_yields|]. intros busnum.
  destruct (busnum <? 0); [apply lists_ret|]. apply lists_after; [apply steady_kernel, read_attr_yields|]. intros devaddr.
  destruct (devaddr <? 0); [apply lists_ret|]. destruct (_ || _); [apply lists_ret|]. apply enumerate_accounted.
Qed.

Lemma scan_sysfs_accounted entries : forall r, lists_accounted (scan_sysfs_entries fuel entries r).
Proof.
  induction entries as [|name entries IH]; intros r; cbn [scan_sysfs_entries]; [apply lists_ret|].
  destruct (negb (sysfs_device_name name)); [apply IH|].
  apply (lists_bind _ (fun e d => scan_sysfs_entries fuel entries (if e =? 0 then 0 else r) d)); [apply scan_device_accounted|].
  intros e. apply IH.
Qed.

Lemma device_list_accounted : lists_accounted (op_get_device_list fuel).
Proof.
  unfold op_get_device_list. apply (lists_after (gets lx_globals)); [apply steady_gets|]. intros g. destruct (negb _).
  - unfold sysfs_get_device_list. apply lists_after; [apply steady_kernel, opendir_returns|].
    intros [entries|]; [apply scan_sysfs_accounted|apply lists_ret].
  - unfold usbfs_get_device_list. apply (lists_after (gets lx_globals)); [apply steady_gets|]. intros g2.
    apply lists_after; [apply steady_kernel, opendir_returns|].
    intros [entries|]; [apply scan_usbfs_accounted|apply lists_ret].
Qed.

(** C5: on a system whose calls return, however they answer, the backend for Linux keeps the contract
    that the library relies on: whatever is plugged in or out, unreadable, or refused for lack of
    memory, listing the devices leaves a reference to each device that was found and none to the
    others, and opening and closing a device changes nothing else. *)
Theorem linux_keeps_contract : @UsbLaws (Linux W) (linux_usbfs_backend fuel).
Proof. apply table_laws, device_list_accounted. Qed.

(** The system grants or refuses an interface. *)
Lemma linux_claims h i k : exists r k', op_claim_interface h i k = (Ret r, k').
Proof.
  assert (steady (op_claim_interface h i) (fun _ => True)) as Hs.
  { unfold op_claim_interface, on_handle. eapply steady_bind with (Q := fun _ => True).
    - eapply steady_bind; [apply steady_gets|]. intros fd _. apply steady_kernel, claim_returns.
    - intros r _. by apply steady_ret. }
  destruct (Hs k) as (r & k' & E & _). eauto.
Qed.
End contract.
