(* ===== verification/UsbLinuxFiles.v ===== *)
(** * The files in which Linux keeps the descriptors of USB devices

    [Files] says what the calls of UsbLinuxDevices.v do on an open file.  The file of a device has
    its descriptor and then the configurations, each as long as it says: the theorems show which bytes
    the backend returns, and that a configuration that says it is empty is gone through for ever.
    [Disk] is a small system with such files, on which the theorem of UsbLinuxProofs.v holds too, and
    whose listings show what the backend does when it may only read, or a bus is empty. *)
From S2P Require Import Prelude UtilsText UsbBase UsbIo UsbFlight UsbTimeouts UsbDescriptor UsbCore UsbReferences UsbLinux UsbUrbs UsbLinuxDevices UsbLinuxProofs.

(** ** Versions *)

(** The second version is at least the first. *)
Definition at_least (v w : Z * Z * Z) : Prop :=
  let '(a, b, c) := v in let '(a', b', c') := w in
  a < a' \/ (a = a' /\ (b < b' \/ (b = b' /\ c <= c'))).
(** A version some of whose numbers are missing. *)
Definition full_version (atoms : list Z) : Z * Z * Z :=
  match atoms with [] => (0, 0, 0) | [a] => (a, 0, 0) | [a; b] => (a, b, 0) | a :: b :: c :: _ => (a, b, c) end.

(** Versions of the kernel are compared number by number, a number that is missing counting as
    zero, and only a text without any is not a version. *)
Theorem version_ge_lexicographic atoms major minor sublevel : 0 <= minor -> 0 <= sublevel ->
  (version_ge atoms major minor sublevel = -1 <-> atoms = []) /\
  (version_ge atoms major minor sublevel = 1 <-> atoms <> [] /\ at_least (major, minor, sublevel) (full_version atoms)).
Proof.
  intros Hm Hs. unfold full_version, at_least. destruct atoms as [|a atoms]; cbn [version_ge].
  { split; [done|]. split; [done|by intros []]. }
  split; [split; [repeat case_match; unfold Z.b2z; repeat case_match; done|done]|].
  assert (forall b : bool, Z.b2z b = 1 <-> b = true) as Hb by (by intros []).
  destruct atoms as [|b [|c atoms]]; cbn beta iota;
    destruct (Z.ltb_spec major a), (Z.ltb_spec a major); try (split; [intros; split; [done|lia]|intros [_ ?]; lia]).
  - rewrite Hb, andb_true_iff, !Z.eqb_eq. split; [intros []; split; [done|lia]|intros [_ ?]; lia].
  - destruct (Z.ltb_spec minor b), (Z.ltb_spec b minor); try (split; [intros; split; [done|lia]|intros [_ ?]; lia]).
    rewrite Hb, Z.eqb_eq. split; [intros; split; [done|lia]|intros [_ ?]; lia].
  - destruct (Z.ltb_spec minor b), (Z.ltb_spec b minor); try (split; [intros; split; [done|lia]|intros [_ ?]; lia]).
    rewrite Hb, Z.leb_le. split; [intros; split; [done|lia]|intros [_ ?]; lia].
Qed.

(** ** Open files *)

(** The bytes of an open file and the position in it. *)
Class Files (W : Type) `{UsbKernel W} := {
  file_at : W -> Z -> option (list Z * Z);
  law_read w fd l p n : file_at w fd = Some (l, p) -> 0 <= p -> 0 <= n ->
    exists w', sys_read fd n w = (Ret (Some (take (Z.to_nat n) (drop (Z.to_nat p) l))), w') /\
      file_at w' fd = Some (l, p + Z.of_nat (length (take (Z.to_nat n) (drop (Z.to_nat p) l))));
  law_seek w fd l p n : file_at w fd = Some (l, p) -> 0 <= p + n ->
    exists w', sys_lseek fd n SEEK_CUR w = (Ret (p + n), w') /\ file_at w' fd = Some (l, p + n);
  law_set w fd l p n : file_at w fd = Some (l, p) -> 0 <= n ->
    exists w', sys_lseek fd n SEEK_SET w = (Ret n, w') /\ file_at w' fd = Some (l, n);
  law_close w fd : exists w', sys_close fd w = (Ret tt, w') }.

(** The total length that the bytes of a configuration say, and its value. *)
Definition said_length (c : list Z) : Z := le16 (default 0 (c !! 2%nat)) (default 0 (c !! 3%nat)).
Definition config_value (c : list Z) : Z := default 0 (c !! 5%nat).
(** A configuration that is as long as it says. *)
Definition config_ok (c : list Z) : Prop := 6 <= Z.of_nat (length c) /\ said_length c = Z.of_nat (length c).

Section files.
Context {W : Type} `{Files W} `{HostOrder}.
Implicit Types w : W.

(** The file has [rest] from the position on. *)
Definition stands w fd (l rest : list Z) : Prop :=
  exists p, file_at w fd = Some (l, p) /\ 0 <= p /\ drop (Z.to_nat p) l = rest.

Lemma file_read_run w fd l rest n : stands w fd l rest -> 0 <= n ->
  exists w', sys_read fd n w = (Ret (Some (take (Z.to_nat n) rest)), w') /\ stands w' fd l (drop (Z.to_nat n) rest).
Proof.
  intros (p & Hf & Hp & Hr) Hn. destruct (law_read w fd l p n Hf Hp Hn) as (w' & E & Hf'). rewrite Hr in *.
  exists w'. split; [done|]. eexists. split; [exact Hf'|]. split; [lia|].
  rewrite length_take. replace (Z.to_nat (p + Z.of_nat (Z.to_nat n `min` length rest)))
    with (Z.to_nat p + (Z.to_nat n `min` length rest))%nat by lia.
  rewrite <- drop_drop, Hr. destruct (decide (Z.to_nat n <= length rest)%nat); [by rewrite Nat.min_l by lia|].
  rewrite Nat.min_r by lia. rewrite !drop_ge by lia. done.
Qed.

Lemma file_skip_run w fd l rest n : stands w fd l rest -> 0 <= n ->
  exists w' off, sys_lseek fd n SEEK_CUR w = (Ret off, w') /\ 0 <= off /\ stands w' fd l (drop (Z.to_nat n) rest).
Proof.
  intros (p & Hf & Hp & Hr) Hn. destruct (law_seek w fd l p n Hf ltac:(lia)) as (w' & E & Hf').
  exists w', (p + n). split; [done|]. split; [lia|]. exists (p + n). split; [done|]. split; [lia|].
  rewrite <- Hr, drop_drop. f_equal. lia.
Qed.

(** Six bytes are read and the position is put back. *)
Lemma file_unread_run w fd l rest : stands w fd l rest -> 6 <= Z.of_nat (length rest) ->
  exists w1 w2 off, sys_read fd 6 w = (Ret (Some (take 6 rest)), w1) /\
    sys_lseek fd (-6) SEEK_CUR w1 = (Ret off, w2) /\ 0 <= off /\ stands w2 fd l rest.
Proof.
  intros (p & Hf & Hp & Hr) Hl. destruct (law_read w fd l p 6 Hf Hp ltac:(lia)) as (w1 & E & Hf1). rewrite Hr in *.
  change (Z.to_nat 6) with 6%nat in *. rewrite length_take, Nat.min_l in Hf1 by lia.
  destruct (law_seek w1 fd l (p + Z.of_nat 6) (-6) Hf1 ltac:(lia)) as (w2 & E2 & Hf2).
  exists w1, w2, (p + Z.of_nat 6 + -6). split; [done|]. split; [done|]. split; [lia|].
  exists (p + Z.of_nat 6 + -6). split; [done|]. split; [lia|].
  by replace (p + Z.of_nat 6 + -6) with p by lia.
Qed.

(** The total length is read from the first bytes, also of a configuration that is not as long as it says. *)
Lemma total_length_said c rest he : 6 <= Z.of_nat (length c) -> he = false \/ big_endian = false ->
  total_length (take 6 (c ++ rest)) "bbwbb" he = Ret (said_length c).
Proof.
  intros Hl He. destruct c as [|b0 [|b1 [|b2 [|b3 [|b4 [|b5 c]]]]]]; try (cbn in Hl; lia).
  unfold total_length. cbn. unfold host16. destruct He as [->|Hb]; [done|]. destruct he; [|done]. cbn. by rewrite Hb.
Qed.

Lemma seek_next_run w fd l c rest he : stands w fd l (c ++ rest) -> config_ok c -> he = false \/ big_endian = false ->
  exists w', seek_to_next_config fd he w = (Ret 0, w') /\ stands w' fd l rest.
Proof.
  intros Hs Hc He. destruct (file_read_run w fd l _ 6 Hs ltac:(lia)) as (w1 & E1 & Hs1).
  change (Z.to_nat 6) with 6%nat in *. unfold seek_to_next_config. erewrite bind_Ret by exact E1.
  pose proof Hc as [Hl Hsaid]. destruct (Z.ltb_spec (Z.of_nat (length (take 6 (c ++ rest)))) 6) as [Hlt|_].
  { rewrite length_take, length_app in Hlt. lia. }
  erewrite bind_Ret by (unfold lift; rewrite total_length_said by done; reflexivity).
  destruct (file_skip_run w1 fd l _ (said_length c - 6) Hs1 ltac:(lia)) as (w2 & off & E2 & Hoff & Hs2).
  erewrite bind_Ret by exact E2. destruct (Z.ltb_spec off 0); [lia|]. exists w2. split; [done|].
  rewrite drop_drop in Hs2. replace (6 + Z.to_nat (said_length c - 6))%nat with (length c) in Hs2 by lia.
  by rewrite drop_app_length in Hs2.
Qed.

Lemma skip_configs_run fd l cs : forall w rest, stands w fd l (concat cs ++ rest) -> Forall config_ok cs ->
  big_endian = false -> exists w', skip_configs fd (length cs) w = (Ret 0, w') /\ stands w' fd l rest.
Proof.
  induction cs as [|c cs IH]; intros w rest Hs Hok He; cbn [length skip_configs]; [by exists w|].
  apply Forall_cons in Hok as [Hc Hok]. cbn [concat] in Hs. rewrite <- app_assoc in Hs.
  destruct (seek_next_run w fd l c _ true Hs Hc (or_intror He)) as (w1 & E1 & Hs1). erewrite bind_Ret by exact E1.
  cbn [Z.ltb Z.compare]. by apply IH.
Qed.

(** The configuration with an index is found in the file of a device behind those before it, and
    as many of its bytes are returned as were asked for; an index that is too large is an error. *)
Theorem get_config_descriptor_reads w fd dev_desc cs p i len :
  big_endian = false -> length dev_desc = 18%nat -> Forall config_ok cs ->
  file_at w fd = Some (dev_desc ++ concat cs, p) -> 0 < len ->
  match cs !! i with
  | Some c => len <= Z.of_nat (length c) ->
      exists w', get_config_descriptor fd (Z.of_nat i) len w = (Ret (0, take (Z.to_nat len) c), w')
  | None => i = length cs ->
      exists l w', get_config_descriptor fd (Z.of_nat i) len w = (Ret ((LIBUSB_ERROR_IO : Z), l), w')
  end.
Proof.
  intros He Hd Hok Hf Hlen. unfold get_config_descriptor, DEVICE_DESC_LENGTH.
  destruct (law_set w fd _ p 18 Hf ltac:(lia)) as (w1 & E1 & Hf1).
  assert (stands w1 fd (dev_desc ++ concat cs) (concat cs)) as Hs1.
  { exists 18. split; [done|]. split; [lia|]. change (Z.to_nat 18) with 18%nat. by rewrite <- Hd, drop_app_length. }
  erewrite bind_Ret by exact E1. cbn [Z.ltb Z.compare]. rewrite Nat2Z.id.
  destruct (cs !! i) as [c|] eqn:Ei; intros Hi.
  - pose proof (take_drop_middle cs i c Ei) as Hcs. pose proof (lookup_lt_Some _ _ _ Ei).
    assert (concat cs = concat (take i cs) ++ c ++ concat (drop (S i) cs)) as Ecs.
    { rewrite <- Hcs at 1. by rewrite concat_app. }
    rewrite Ecs in Hs1 at 2. destruct (skip_configs_run fd _ (take i cs) w1 _ Hs1) as (w2 & E2 & Hs2);
      [by apply Forall_take|done|]. rewrite length_take, Nat.min_l in E2 by lia.
    erewrite bind_Ret by exact E2. cbn [Z.ltb Z.compare].
    destruct (file_read_run w2 fd _ _ len Hs2 ltac:(lia)) as (w3 & E3 & _). erewrite bind_Ret by exact E3.
    rewrite take_app_le by lia. rewrite length_take.
    destruct (Z.ltb_spec (Z.of_nat (Z.to_nat len `min` length c)) len); [lia|]. by exists w3.
  - subst i. destruct (skip_configs_run fd (dev_desc ++ concat cs) cs w1 []) as (w2 & E2 & Hs2);
      [by rewrite app_nil_r|done|done|]. erewrite bind_Ret by exact E2. cbn [Z.ltb Z.compare].
    destruct (file_read_run w2 fd _ _ len Hs2 ltac:(lia)) as (w3 & E3 & _). erewrite bind_Ret by exact E3.
    rewrite take_nil. destruct (Z.ltb_spec (Z.of_nat (length (@nil Z))) len) as [|Hge]; [by eexists _, w3|]. cbn in Hge. lia.
Qed.

(** *** The active configuration *)

Lemma value_run c rest : 6 <= Z.of_nat (length c) -> byte_at (take 6 (c ++ rest)) 5 = Ret (config_value c).
Proof.
  intros Hl. destruct c as [|b0 [|b1 [|b2 [|b3 [|b4 [|b5 c]]]]]]; try (cbn in Hl; lia). done.
Qed.

(** One round of the loop at a configuration that is not the active one. *)
Lemma find_next fuel fd v w l c rest : stands w fd l (c ++ rest) -> 6 <= Z.of_nat (length c) -> config_value c <> v ->
  exists w2, stands w2 fd l (c ++ rest) /\
    find_active_config (S fuel) fd v w
    = (let* r := seek_to_next_config fd false in
       if r <? 0 then ret (Some (inl r)) else find_active_config fuel fd v) w2.
Proof.
  intros Hs Hl Hv. destruct (file_unread_run w fd l _ Hs) as (w1 & w2 & off & E1 & E2 & Hoff & Hs2); [rewrite length_app; lia|].
  exists w2. split; [done|]. cbn [find_active_config]. rewrite (bind_Ret _ _ _ _ _ E1). cbn beta iota.
  destruct (Z.ltb_spec (Z.of_nat (length (take 6 (c ++ rest)))) 6) as [Hlt|_].
  { rewrite length_take, length_app in Hlt. lia. }
  rewrite (bind_Ret (lift (byte_at (take 6 (c ++ rest)) 5)) _ w1 (config_value c) w1) by (unfold lift; by rewrite value_run by done).
  destruct (Z.eqb_spec (config_value c) v); [done|]. rewrite (bind_Ret _ _ _ _ _ E2).
  destruct (Z.ltb_spec off 0); [lia|]. done.
Qed.

Lemma find_skips fuel fd v l cs : forall w rest, stands w fd l (concat cs ++ rest) -> Forall config_ok cs ->
  Forall (fun c => config_value c <> v) cs -> exists w', stands w' fd l rest /\
    find_active_config (length cs + fuel) fd v w = find_active_config fuel fd v w'.
Proof.
  induction cs as [|c cs IH]; intros w rest Hs Hok Hv; cbn [length Nat.add]; [by exists w|].
  apply Forall_cons in Hok as [Hc Hok]. apply Forall_cons in Hv as [Hvc Hv]. cbn [concat] in Hs. rewrite <- app_assoc in Hs.
  destruct (find_next (length cs + fuel) fd v w l c _ Hs ltac:(by apply Hc) Hvc) as (w2 & Hs2 & ->).
  destruct (seek_next_run w2 fd l c _ false Hs2 Hc ltac:(by left)) as (w3 & E3 & Hs3). rewrite (bind_Ret _ _ _ _ _ E3).
  cbn [Z.ltb Z.compare]. by apply IH.
Qed.

(** C24: with as much fuel as there are configurations before it, the active configuration is found in
    the file of a device, and as many of its bytes are returned as were asked for, without an error;
    when no configuration has the value the answer is an error, and the file is left open. *)
Theorem active_config_found fd dev_desc before v w fuel :
  length dev_desc = 18%nat -> Forall config_ok before -> Forall (fun c => config_value c <> v) before ->
  (forall c after len, config_ok c -> config_value c = v -> 0 <= len <= Z.of_nat (length c) ->
     file_at w fd = Some (dev_desc ++ concat before ++ c ++ after, 18) ->
     exists w1 w2 r, find_active_config (length before + S fuel) fd v w = (Ret (Some (inr (take 6 c))), w1) /\
       read_active_config fd (take 6 c) len w1 = (Ret (r, take (Z.to_nat len) c), w2) /\ 0 <= r) /\
  (file_at w fd = Some (dev_desc ++ concat before, 18) ->
     exists w1, find_active_config (length before + S fuel) fd v w = (Ret (Some (inl (LIBUSB_ERROR_IO : Z))), w1) /\
       is_Some (file_at w1 fd)).
Proof.
  intros Hd Hok Hv.
  assert (forall rest, file_at w fd = Some (dev_desc ++ rest, 18) -> stands w fd (dev_desc ++ rest) rest) as Hstart.
  { intros rest Hf. exists 18. split; [done|]. split; [lia|]. change (Z.to_nat 18) with 18%nat. by rewrite <- Hd, drop_app_length. }
  split.
  - intros c after len [Hl Hsaid] Hc Hlen Hf. apply Hstart in Hf.
    destruct (find_skips (S fuel) fd v _ before w _ Hf Hok Hv) as (w1 & Hs1 & ->).
    destruct (file_read_run w1 fd _ _ 6 Hs1 ltac:(lia)) as (w2 & E2 & Hs2). change (Z.to_nat 6) with 6%nat in *.
    assert (take 6 (c ++ after) = take 6 c) as Et by (rewrite take_app_le by lia; done).
    assert (drop 6 (c ++ after) = drop 6 c ++ after) as Ed by (rewrite drop_app_le by lia; done).
    exists w2.
    assert (find_active_config (S fuel) fd v w1 = (Ret (Some (inr (take 6 c))), w2)) as ->.
    { cbn [find_active_config]. erewrite bind_Ret by exact E2. cbn beta iota.
      destruct (Z.ltb_spec (Z.of_nat (length (take 6 (c ++ after)))) 6) as [Hlt|_].
      { rewrite Et, length_take in Hlt. lia. }
      erewrite bind_Ret by (unfold lift; rewrite value_run by done; reflexivity).
      destruct (Z.eqb_spec (config_value c) v); [by rewrite Et|done]. }
    unfold read_active_config.
    destruct (Z.ltb_spec 6 len) as [H6|H6].
    + rewrite Ed in Hs2. destruct (file_read_run w2 fd _ _ (len - 6) Hs2 ltac:(lia)) as (w3 & E3 & _).
      destruct (law_close w3 fd) as (w4 & E4). exists w4, (len - 6). split; [done|]. split; [|lia].
      rewrite take_app_le in E3 by (rewrite length_drop; lia).
      assert (length (take (Z.to_nat (len - 6)) (drop 6 c)) = Z.to_nat (len - 6)) as Hlr.
      { rewrite length_take, length_drop. lia. }
      erewrite bind_Ret. 2: { erewrite bind_Ret by exact E3. reflexivity. }
      destruct (take (Z.to_nat (len - 6)) (drop 6 c)) as [|b rest] eqn:Er; [cbn in Hlr; lia|].
      rewrite Hlr. destruct (Z.ltb_spec (Z.of_nat (Z.to_nat (len - 6))) (len - 6)); [lia|].
      erewrite bind_Ret by exact E4. unfold ret. do 2 f_equal. f_equal; [lia|].
      rewrite <- Er, take_take, Nat.min_r by lia. rewrite <- (take_drop 6 (take (Z.to_nat len) c)).
      rewrite take_take, Nat.min_l by lia. f_equal.
      rewrite skipn_firstn_comm. f_equal. lia.
    + destruct (law_close w2 fd) as (w4 & E4). exists w4, 0. split; [done|]. split; [|lia].
      erewrite bind_Ret by reflexivity. cbn beta iota. erewrite bind_Ret by exact E4.
      rewrite app_nil_r, take_take, Nat.min_l by lia. done.
  - intros Hf. apply Hstart in Hf. rewrite <- (app_nil_r (concat before)) in Hf at 2.
    destruct (find_skips (S fuel) fd v _ before w _ Hf Hok Hv) as (w1 & Hs1 & ->).
    destruct (file_read_run w1 fd _ _ 6 Hs1 ltac:(lia)) as (w2 & E2 & (q & Hq & _)).
    exists w2. cbn [find_active_config]. erewrite bind_Ret by exact E2. split; [reflexivity|by eexists].
Qed.

(** A configuration that is not the active one and says that it is empty makes the search come
    back to it for ever, whatever the fuel. *)
Theorem empty_config_never_ends fuel fd l c rest v : forall w,
  stands w fd l (c ++ rest) -> 6 <= Z.of_nat (length c) -> said_length c = 0 -> config_value c <> v ->
  exists w', find_active_config fuel fd v w = (Ret None, w').
Proof.
  induction fuel as [|fuel IH]; intros w Hs Hl Hsaid Hv; [by exists w|].
  destruct (find_next fuel fd v w l c rest Hs Hl Hv) as (w2 & Hs2 & ->).
  assert (exists w3, seek_to_next_config fd false w2 = (Ret 0, w3) /\ stands w3 fd l (c ++ rest)) as (w3 & E3 & Hs3).
  { destruct (file_unread_run w2 fd l _ Hs2) as (w3 & w4 & off & E3 & E4 & Hoff & Hs4); [rewrite length_app; lia|].
    exists w4. split; [|done]. unfold seek_to_next_config. rewrite (bind_Ret _ _ _ _ _ E3). cbn beta iota.
    destruct (Z.ltb_spec (Z.of_nat (length (take 6 (c ++ rest)))) 6) as [Hlt|_].
    { rewrite length_take, length_app in Hlt. lia. }
    erewrite bind_Ret.
    2: { unfold lift. rewrite total_length_said, Hsaid by auto. reflexivity. }
    change (0 - 6) with (-6). erewrite bind_Ret by exact E4. destruct (Z.ltb_spec off 0); [lia|done]. }
  erewrite bind_Ret by exact E3. cbn [Z.ltb Z.compare]. by apply IH.
Qed.
End files.

(** ** A system with a few files *)

(** The files and the directories, by their paths; the open files, and whether files may be opened
    for writing. *)
Record Disk := mkDisk {
  dk_files : gmap string (list Z); dk_dirs : gmap string (list string);
  dk_open : gmap Z (list Z * Z); dk_writable : bool }.

Definition disk_position (k : Disk) (fd : Z) (x : list Z * Z) : Disk :=
  mkDisk (dk_files k) (dk_dirs k) (<[fd:=x]> (dk_open k)) (dk_writable k).
Definition disk_open (path : string) (write : bool) : M Disk (Z + Z) := fun k =>
  if write && negb (dk_writable k) then (Ret (inl EACCES), k)
  else match dk_files k !! path with
       | None => (Ret (inl ENOENT), k)
       | Some l =>
           let fd := fresh (dom (dk_open k)) in
           (Ret (inr fd), mkDisk (dk_files k) (dk_dirs k) (<[fd:=(l, 0)]> (dk_open k)) (dk_writable k))
       end.
Definition disk_read (fd n : Z) : M Disk (option (list Z)) := fun k =>
  match dk_open k !! fd with
  | None => (Ret None, k)
  | Some (l, p) =>
      let r := take (Z.to_nat n) (drop (Z.to_nat p) l) in (Ret (Some r), disk_position k fd (l, p + Z.of_nat (length r)))
  end.
Definition disk_lseek (fd n : Z) (from : whence) : M Disk Z := fun k =>
  match dk_open k !! fd with
  | None => (Ret (-1), k)
  | Some (l, p) =>
      let off := match from with SEEK_SET => n | SEEK_CUR => p + n | SEEK_END => Z.of_nat (length l) + n end in
      if off <? 0 then (Ret (-1), k) else (Ret off, disk_position k fd (l, off))
  end.
Definition disk_close (fd : Z) : M Disk unit := fun k =>
  (Ret tt, mkDisk (dk_files k) (dk_dirs k) (delete fd (dk_open k)) (dk_writable k)).
Definition disk_text (path : string) : M Disk (Z + string) := fun k =>
  (Ret (match dk_files k !! path with None => inl ENOENT | Some l => inr (text_of_bytes l) end), k).

#[local] Instance disk_order : HostOrder := {| big_endian := false |}.
#[export] Instance disk_kernel : UsbKernel Disk := {|
  sys_opendir p := gets (fun k => dk_dirs k !! p); sys_is_directory p := gets (fun k => bool_decide (is_Some (dk_dirs k !! p)));
  sys_is_regular p := gets (fun k => bool_decide (is_Some (dk_files k !! p)));
  sys_open := disk_open; sys_read := disk_read; sys_lseek := disk_lseek; sys_close := disk_close; sys_text := disk_text;
  sys_uname := ret (Some "6.1.0-18-amd64"%string); sys_clock _ := ret (Some (5, 0)); sys_memory := ret true;
  sys_mutex_init := ret 0; sys_write_byte _ := ret true; sys_read_byte _ := ret true;
  sys_timerfd_create _ := ret (-1); sys_timerfd_settime _ := ret (-1); sys_poll _ _ := ret (0, [], false);
  sys_pipe := ret None; notify_added _ _ := ret tt; notify_removed _ := ret tt;
  ioctl_control _ _ := ret (inl ENODEV); ioctl_setconfig _ _ := ret 0; ioctl_claimintf _ _ := ret 0;
  ioctl_releaseintf _ _ := ret 0; ioctl_setintf _ _ := ret 0; ioctl_clear_halt _ _ := ret 0; ioctl_reset _ := ret 0;
  ioctl_getdriver _ _ := ret ENODATA; ioctl_disconnect _ _ := ret ENODATA; ioctl_connect _ _ := ret (inr 0) |}.
#[export] Instance disk_usbfs : Usbfs Disk := {|
  ioctl_submiturb _ _ _ _ := ret 0; ioctl_discardurb _ _ _ := ret 0; ioctl_reapurbndelay _ := ret (inl EAGAIN) |}.

#[export] Instance disk_returns : KernelReturns Disk.
Proof.
  split; intros; intros k; cbn; try by eexists _, _.
  - unfold disk_open. repeat case_match; by eexists _, _.
  - unfold disk_read. repeat case_match; by eexists _, _.
  - unfold disk_lseek. repeat case_match; by eexists _, _.
Qed.

#[export] Instance disk_reads : Files Disk.
Proof.
  refine {| file_at k fd := dk_open k !! fd |}.
  - intros k fd l p n Hf Hp Hn. cbn. unfold disk_read. rewrite Hf. eexists. split; [reflexivity|]. apply lookup_insert_eq.
  - intros k fd l p n Hf Hp. cbn. unfold disk_lseek. rewrite Hf. destruct (Z.ltb_spec (p + n) 0); [lia|].
    eexists. split; [reflexivity|]. apply lookup_insert_eq.
  - intros k fd l p n Hf Hn. cbn. unfold disk_lseek. rewrite Hf. destruct (Z.ltb_spec n 0); [lia|].
    eexists. split; [reflexivity|]. apply lookup_insert_eq.
  - intros k fd. by eexists.
Defined.

(** A device with two configurations. *)
Definition disk_config (value : Z) : list Z := [9; 2; 12; 0; 1; value; 0; 0x80; 50; 3; 0xff; value].
Definition disk_descriptor : list Z := [18; 1; 0; 2; 0; 0; 0; 64; 0xd8; 0x04; 0x3f; 0; 2; 1; 1; 2; 0; 2].
Definition disk_device : list Z := disk_descriptor ++ disk_config 1 ++ disk_config 2.
(** It is opened as file 3. *)
Definition disk_opened (l : list Z) (p : Z) : Disk := mkDisk ∅ ∅ {[3 := (l, p)]} true.

Lemma version_ge_lexicographic_witness :
  version_ge [3; 0] 2 6 32 = 1 /\ (version_ge [2; 6; 31] 2 6 32 = 1 <-> [2; 6; 31] <> [] /\ at_least (2, 6, 32) (2, 6, 31)).
Proof. split; [reflexivity|]. apply (version_ge_lexicographic [2; 6; 31] 2 6 32); lia. Defined.

Lemma disk_config_ok v : config_ok (disk_config v).
Proof. by split. Qed.

Lemma get_config_descriptor_reads_witness :
  exists k', get_config_descriptor 3 1 9 (disk_opened disk_device 0) = (Ret (0, [9; 2; 12; 0; 1; 2; 0; 0x80; 50]), k').
Proof.
  apply (get_config_descriptor_reads (disk_opened disk_device 0) 3 disk_descriptor [disk_config 1; disk_config 2] 0 1 9);
    [done|done|repeat apply Forall_cons_2; apply disk_config_ok || apply Forall_nil_2|done|lia|cbn; lia].
Defined.

Lemma active_config_found_witness :
  exists k1 k2 r, find_active_config 5 3 2 (disk_opened disk_device 18) = (Ret (Some (inr (take 6 (disk_config 2)))), k1) /\
    read_active_config 3 (take 6 (disk_config 2)) 12 k1 = (Ret (r, disk_config 2), k2) /\ 0 <= r.
Proof.
  apply (active_config_found 3 disk_descriptor [disk_config 1] 2 (disk_opened disk_device 18) 3) with (after := []);
    [done|apply Forall_singleton, disk_config_ok|by apply Forall_singleton|apply disk_config_ok|done|cbn; lia|done].
Defined.

(** A configuration whose total length is zero. *)
Lemma empty_config_never_ends_witness :
  exists k', find_active_config 1000 3 2 (disk_opened (disk_descriptor ++ [9; 2; 0; 0; 1; 1]) 18) = (Ret None, k').
Proof.
  apply (empty_config_never_ends 1000 3 (disk_descriptor ++ [9; 2; 0; 0; 1; 1]) [9; 2; 0; 0; 1; 1] []); [|done..].
  by exists 18.
Defined.

Lemma linux_keeps_contract_witness : @UsbLaws (Linux Disk) (linux_usbfs_backend 4).
Proof. apply linux_keeps_contract. Defined.

(** ** Listing *)
#[local] Instance disk_backend : UsbBackend (Linux Disk) := linux_usbfs_backend 4.
#[local] Instance disk_descriptors : DescriptorBackend (Devices (Linux Disk)) := linux_descriptor_backend 4.

(** The static variables before the first call. *)
Definition no_globals : LinuxGlobals := mkGlobals None false (-1) (-1) (-1) 0 false.
Definition disk_ctx (k : Disk) : Ctx (Devices (Linux Disk)) :=
  mkCtx (mkHeap [] []) ∅ ∅ [] [] 0 Lock_free false false (3, 4) (-1)
    (mkDevices ∅ [] ∅ [] (mkLinux no_globals (mkHeap [] []) ∅ ∅ ∅ k)).
(** The backend is started and the devices are listed: the value returned and, of each device there
    is, the configuration that is kept. *)
Definition disk_listing (k : Disk) : outcome (Z * list (option (list Z))) :=
  ((let* _ := on_backend op_init in
    let* '(r, _) := libusb_get_device_list in
    let* privs := on_backend (gets lx_devices) in
    ret (r, map (fun x => lp_config_descriptor x.2) (map_to_list privs))) (disk_ctx k)).1.

Definition bytes_of (s : string) : list Z := map (fun c => Z.of_N (Ascii.N_of_ascii c)) (String.list_ascii_of_string s).
(** The device, whose second configuration is the active one, in usbfs, and its place in sysfs, where
    there are no descriptors. *)
Definition disk_with_sysfs (writable : bool) : Disk :=
  mkDisk (list_to_map [("/dev/bus/usb/001/005"%string, disk_device);
                       ("/sys/bus/usb/devices/usb1/busnum"%string, bytes_of "1");
                       ("/sys/bus/usb/devices/usb1/devnum"%string, bytes_of "5");
                       ("/sys/bus/usb/devices/usb1/bConfigurationValue"%string, [50; 10])])
    (list_to_map [("/dev/bus/usb"%string, ["."; ".."; "001"]%string); ("/dev/bus/usb/001"%string, ["."; ".."; "005"]%string);
                  ("/sys/bus/usb/devices"%string, ["."; ".."; "usb1"; "usb1:1.0"]%string)]) ∅ writable.
(** Buses without sysfs. *)
Definition disk_with_buses (buses : list string) : Disk :=
  mkDisk {["/dev/bus/usb/001/005"%string := disk_device]}
    (list_to_map [("/dev/bus/usb"%string, buses); ("/dev/bus/usb/001"%string, ["."; ".."; "005"]%string);
                  ("/dev/bus/usb/002"%string, ["."; ".."]%string)]) ∅ false.

(** With write access the active configuration is the one that is kept; without, the first one,
    although sysfs has just said which one is active. *)
Lemma read_only_keeps_the_first_configuration :
  disk_listing (disk_with_sysfs true) = Ret (1, [Some (disk_config 2)]) /\
  disk_listing (disk_with_sysfs false) = Ret (1, [Some (disk_config 1)]).
Proof. split; vm_compute; reflexivity. Qed.

(** A bus without devices makes the listing fail, and the devices of the other buses are not found. *)
Lemma empty_bus_fails_the_listing :
  disk_listing (disk_with_buses ["001"%string]) = Ret (1, [Some (disk_config 1)]) /\
  disk_listing (disk_with_buses ["001"; "002"]%string) = Ret ((LIBUSB_ERROR_IO : Z), []).
Proof. split; vm_compute; reflexivity. Qed.

(** A sysfs that lacks the files of the devices is not used: they are found in usbfs. *)
Lemma incomplete_sysfs_is_not_used :
  let k := disk_with_buses ["001"%string] in
  disk_listing (mkDisk (dk_files k) (<["/sys/bus/usb/devices"%string := ["."; ".."; "usb1"]%string]> (dk_dirs k))
                  (dk_open k) (dk_writable k)) = Ret (1, [Some (disk_config 1)]).
Proof. vm_compute. reflexivity. Qed.
