(* ===== verification/UsbUrbsFlight.v ===== *)
(** * Transfers in flight and the backend for Linux

    The handler of events of UsbUrbs.v among what UsbFlight.v and UsbSync.v prove for any backend:
    it keeps the order of the transfers in flight, so that
    only the callbacks of the program and the other threads are assumed to; and, on a system whose [poll]
    keeps failing, a synchronous transfer loses the requests that the backend has allocated. *)
From stdpp Require Import sorting.
From S2P Require Import Prelude UtilsText UsbBase UsbIo UsbFlight UsbTimeouts UsbDescriptor UsbCore UsbReferences UsbLinux UsbUrbs UsbLinuxDevices UsbLinuxProofs UsbLinuxFiles UsbSync.

(** ** The handler keeps the order *)

(** The same callbacks and threads with another handler of events. *)
Definition with_handler {D : Type} (E : IoEvents D) (handler : list (Z * Z * Z) -> Z -> M (Ctx D) Z) : IoEvents D := {|
  run_callback := @run_callback _ E; backend_handle_events := handler; other_threads := @other_threads _ E;
  event_waiters_timedwait := @event_waiters_timedwait _ E; events_lock_wait := @events_lock_wait _ E |}.

Section order.
Context {W : Type} `{Usbfs W} `{IoBackend (Devices (Linux W))} {E : IoEvents (Devices (Linux W))}.
Context `{!CallbacksKeepOrder}.
Implicit Types s : Ctx (Devices (Linux W)).

Lemma on_linux_leaves {A} (m : M (Linux W) A) : leaves_list (on_linux m).
Proof. apply leaves_system. Qed.
Lemma lift_leaves {A} (o : outcome A) : leaves_list (D := Devices (Linux W)) (lift o).
Proof. apply leaves_pure. Qed.
Lemma put_buffer_leaves tr l : leaves_list (put_buffer (W := W) tr l).
Proof. unfold put_buffer. destruct (tr_buffer tr); [by intros s r s' [= _ <-]|apply leaves_pure]. Qed.

Lemma kernel_writes_leaves rp : leaves_list (kernel_writes (W := W) rp).
Proof.
  unfold kernel_writes. apply leaves_bind; [apply leaves_pure|intros [it tr]].
  apply leaves_bind; [apply on_linux_leaves|intros tp]. apply leaves_bind.
  { repeat case_match; try apply leaves_pure; (apply leaves_bind; [apply on_linux_leaves|intros; apply leaves_pure]). }
  intros u. apply leaves_bind; [apply leaves_pure|intros l]. apply leaves_bind; [apply lift_leaves|intros l'].
  apply leaves_bind; [apply put_buffer_leaves|intros; apply leaves_pure].
Qed.

(** The order, and a transfer that was read. *)
Definition holding (t : nat) (it : usbi_transfer) s : Prop :=
  flight_ok s /\ exists tr, c_transfers s !! t = Some (it, tr).

Lemma leaves_holding {A} t it (m : M (Ctx (Devices (Linux W))) A) : leaves_list m -> maintains (holding t it) m.
Proof.
  intros Hm s r s' [Hok Ex] Er. split; [by eapply leaves_maintains|]. apply Hm in Er as [-> _]. exact Ex.
Qed.
Lemma get_holding t : leads flight_ok (get_transfer t) (fun x => holding t x.1).
Proof. intros s [it tr] s' Hok Er. apply get_transfer_inv in Er as [-> Ex]. split; [done|]. by exists tr. Qed.
Lemma put_holding t it x : it_timeout x.1 = it_timeout it ->
  leads (holding t it) (put_transfer t x) (fun _ => flight_ok).
Proof. intros Et s r s' [Hok [tr Ex]] Er. eapply put_same_deadline; [exact Ex|exact Et|exact Hok|exact Er]. Qed.
Lemma holding_ok {A} t it (m : M (Ctx (Devices (Linux W))) A) :
  maintains flight_ok m -> leads (holding t it) m (fun _ => flight_ok).
Proof. intros Hm s r s' [Hok _] Er. by eapply Hm. Qed.

#[local] Hint Resolve maintains_system completion_maintains on_linux_leaves lift_leaves put_buffer_leaves
  leaves_holding leaves_maintains : flight.

Lemma cancellation_maintains t : maintains flight_ok (usbi_handle_transfer_cancellation t).
Proof.
  unfold usbi_handle_transfer_cancellation. apply maintains_bind; [apply maintains_pure|intros [it tr]].
  destruct (_ =? 0); apply completion_maintains.
Qed.
#[local] Hint Resolve cancellation_maintains : flight.

(** One step after another: reads, the backend and the buffer change neither the transfers nor
    the list; a transfer that was read is written with its deadline. *)
#[local] Ltac step :=
  cbv beta; match goal with
  | |- leads flight_ok (bind (get_transfer _) _) _ => eapply leads_bind; [apply get_holding|intros [it tr]; cbn [fst]]
  | |- leads (holding _ _) (bind (put_transfer _ _) _) _ => eapply leads_bind; [by apply put_holding|intros ?]
  | |- leads _ (bind _ _) _ => eapply leads_then; [solve [eauto with flight | apply maintains_pure]|intros ?]
  | |- leads flight_ok _ _ => apply leads_maintains
  end.

Lemma control_completion_maintains t u : maintains flight_ok (handle_control_completion (W := W) t u).
Proof.
  change (leads flight_ok (handle_control_completion (W := W) t u) (fun _ => flight_ok)).
  unfold handle_control_completion. do 4 step. cbv beta. case_bool_decide; step; eauto with flight.
Qed.

Lemma bulk_completion_maintains t i u : maintains flight_ok (handle_bulk_completion (W := W) t i u).
Proof.
  change (leads flight_ok (handle_bulk_completion (W := W) t i u) (fun _ => flight_ok)).
  unfold handle_bulk_completion. do 3 step. eapply leads_then; [eauto with flight|intros [[[tp transferred] l] next]].
  do 3 step. cbv beta. destruct next; repeat step; [apply maintains_pure..|].
  case_bool_decide; eauto with flight.
Qed.

Lemma iso_completion_maintains t i u : maintains flight_ok (handle_iso_completion (W := W) t i u).
Proof.
  change (leads flight_ok (handle_iso_completion (W := W) t i u) (fun _ => flight_ok)).
  unfold handle_iso_completion. do 2 step. cbv beta. destruct (_ <=? _); [apply leads_ret; by intros s [] |].
  do 4 step. cbv beta. case_bool_decide; cbn [negb]; case_match; try (step; apply maintains_pure); step.
  - apply leads_maintains, completion_maintains.
  - apply leads_maintains. case_bool_decide; eauto with flight.
Qed.
#[local] Hint Resolve control_completion_maintains bulk_completion_maintains iso_completion_maintains
  kernel_writes_leaves : flight.

Lemma reap_maintains h : maintains flight_ok (reap_for_handle (W := W) h).
Proof.
  unfold reap_for_handle. apply maintains_bind; [eauto with flight|intros fd].
  apply maintains_bind; [eauto with flight|intros [errno|rp]]; [apply maintains_pure|].
  unfold handle_reaped. apply maintains_bind; [eauto with flight|intros u].
  apply maintains_bind; [apply maintains_pure|intros [it tr]].
  repeat (destruct (_ =? _); cbn [orb]; [eauto with flight|]). apply maintains_pure.
Qed.

Lemma remove_pollfd_leaves fd : leaves_list (D := Devices (Linux W)) (usbi_remove_pollfd fd).
Proof.
  unfold usbi_remove_pollfd. apply leaves_bind; [apply leaves_pure|intros s].
  destruct (take_pollfd _ _) as [[p l]|]; [|apply leaves_pure].
  apply leaves_bind; [by intros s1 r s2 [= _ <-]|intros _]. apply leaves_bind; [|intros _].
  - intros s1 r s2 Er. apply in_memory_inv in Er. tauto.
  - destruct (c_notifiers s); [apply leaves_system|apply leaves_pure].
Qed.

Lemma op_handle_events_maintains fds n : maintains flight_ok (op_handle_events (W := W) fds n).
Proof.
  revert n. induction fds as [|[[fd events] revents] fds IH]; intros n; cbn [op_handle_events]; [apply maintains_pure|].
  destruct (n <=? 0); [apply maintains_pure|]. destruct (revents =? 0); [apply IH|].
  apply maintains_bind; [apply maintains_pure|intros s]. destruct (handle_of_fd _ _ _) as [h|]; [|apply maintains_pure].
  destruct (negb _).
  - apply maintains_bind; [apply leaves_maintains, remove_pollfd_leaves|intros _].
    apply maintains_bind; [apply disconnect_maintains|intros _]. apply IH.
  - apply maintains_bind; [apply reap_maintains|intros r]. destruct (_ || _); [apply IH|].
    destruct (r <? 0); [apply maintains_pure|apply IH].
Qed.

#[local] Instance callbacks_with_handler : @CallbacksKeepOrder _ (with_handler E op_handle_events).
Proof.
  pose proof callback_keeps as Hc. pose proof other_threads_keep as Ho. pose proof timedwait_keeps as Ht.
  constructor; [exact Hc|exact Ho|exact Ht].
Qed.
#[local] Instance linux_handler_keeps_order : @HandlerKeepsOrder _ (with_handler E op_handle_events).
Proof. constructor. exact op_handle_events_maintains. Qed.

End order.

(** ** Requests that are lost *)

(** A kernel that takes every request, and whose [poll] fails. *)
#[local] Instance deaf_kernel : UsbKernel unit := {|
  sys_opendir _ := ret None; sys_is_directory _ := ret false; sys_is_regular _ := ret false;
  sys_open _ _ := ret (inl ENODEV); sys_read _ _ := ret None; sys_lseek _ _ _ := ret (-1); sys_close _ := ret tt;
  sys_text _ := ret (inl ENODEV); sys_uname := ret None; sys_clock _ := ret (Some (5, 0)); sys_memory := ret true;
  sys_mutex_init := ret 0; sys_write_byte _ := ret true; sys_read_byte _ := ret true;
  sys_timerfd_create _ := ret (-1); sys_timerfd_settime _ := ret (-1); sys_poll _ _ := ret (-1, [], false);
  sys_pipe := ret None; notify_added _ _ := ret tt; notify_removed _ := ret tt;
  ioctl_control _ _ := ret (inl ENODEV); ioctl_setconfig _ _ := ret 0; ioctl_claimintf _ _ := ret 0;
  ioctl_releaseintf _ _ := ret 0; ioctl_setintf _ _ := ret 0; ioctl_clear_halt _ _ := ret 0; ioctl_reset _ := ret 0;
  ioctl_getdriver _ _ := ret ENODATA; ioctl_disconnect _ _ := ret ENODATA; ioctl_connect _ _ := ret (inr 0) |}.
#[local] Instance deaf_usbfs : Usbfs unit := {|
  ioctl_submiturb _ _ _ _ := ret 0; ioctl_discardurb _ _ _ := ret 0; ioctl_reapurbndelay _ := ret (inl EAGAIN) |}.
#[local] Instance deaf_order : HostOrder := {| big_endian := false |}.
(** No callback runs, so no flag is ever set. *)
#[local] Instance deaf_flags : SyncFlags (Devices (Linux unit)) := {| new_flag := ret 0%nat; flag_set _ _ := false |}.

(** The callbacks do nothing. *)
Definition quiet_events : IoEvents (Devices (Linux unit)) := {|
  run_callback _ := ret tt; backend_handle_events _ _ := ret 0; other_threads := ret tt;
  event_waiters_timedwait _ := ret true; events_lock_wait := ret tt |}.
#[local] Instance quiet_keeps : @CallbacksKeepOrder _ quiet_events.
Proof.
  constructor.
  - intros t s r s' it tr Hok Ht _ [= _ <-]. by split.
  - by intros s r s' Hok [= _ <-].
  - intros ts. by intros s r s' Hok [= _ <-].
Qed.
#[local] Instance deaf_events : IoEvents (Devices (Linux unit)) :=
  with_handler quiet_events (@op_handle_events _ _ _ quiet_events).

(** The handle 2 is open as file 3. *)
Definition deaf_ctx : Ctx (Devices (Linux unit)) :=
  mkCtx (mkHeap [1; 2]%nat []) ∅ ∅ [] [] 0 Lock_free false false (5, 6) (-1)
    (mkDevices {[1%nat := (2, mk_device 1 1 5 1 LIBUSB_SPEED_FULL 0)]} [1%nat] {[2%nat := mk_handle 1 0]} [2%nat]
       (mkLinux (mkGlobals None false 1 0 1 0 false) (mkHeap [] []) ∅ {[2%nat := 3]} ∅ tt)).

(** The transfer and its buffer are given back, although the transfer is in the list of those in
    flight; the request, which the kernel still has, stays allocated. *)
Lemma synchronous_transfer_loses_requests :
  let '(r, s) := libusb_control_transfer 5 2 0x80 6 0x0100 0 [] 4 1000 deaf_ctx in
  r = Ret (LIBUSB_ERROR_IO : Z, []) /\ h_live (c_heap s) = [1; 2]%nat /\ length (c_flying s) = 1%nat /\
  h_live (lx_heap (d_rest (c_rest deaf_ctx))) = [] /\ length (h_live (lx_heap (d_rest (c_rest s)))) = 1%nat.
Proof. vm_compute. done. Qed.

(** In flight are the transfers 11 with the deadline 5 s, 12 with 7 s and 13 without one; the
    transfer 14 has a timeout of a second, and the clock shows 5 s. *)
Definition deaf_transfer (tv : Z * Z) (ms : Z) : usbi_transfer * libusb_transfer :=
  (mk_itransfer 0 tv 0 0, mk_transfer 2 0 0x81 LIBUSB_TRANSFER_TYPE_BULK ms LIBUSB_TRANSFER_COMPLETED 8 0 true 0 None 0 []).
Definition deaf_flight : Ctx (Devices (Linux unit)) :=
  mkCtx (mkHeap [1; 2; 11; 12; 13; 14]%nat [])
    (list_to_map [(11%nat, deaf_transfer (5, 0) 10); (12%nat, deaf_transfer (7, 0) 10);
                  (13%nat, deaf_transfer (0, 0) 0); (14%nat, deaf_transfer (0, 0) 1000)]) ∅ [11; 12; 13]%nat [] 0 Lock_free false false (5, 6) (-1)
    (mkDevices (d_devices (c_rest deaf_ctx)) [1%nat] (d_handles (c_rest deaf_ctx)) [2%nat]
       (mkLinux (lx_globals (d_rest (c_rest deaf_ctx))) (mkHeap [] []) ∅ {[2%nat := 3]} {[14%nat := zero_transfer_priv]} tt)).
Lemma deaf_flight_ok : flight_ok deaf_flight.
Proof.
  split_and!.
  - refine (bool_decide_eq_true_1 _ _). vm_compute. reflexivity.
  - intros t Ht. cbn in Ht. repeat (apply elem_of_cons in Ht as [->|Ht]; [eexists; reflexivity|]).
    by apply elem_of_nil in Ht.
  - cbn [c_flying deaf_flight].
    repeat (apply SSorted_cons; [|repeat (apply Forall_cons; split); [..|apply Forall_nil_2]]); [apply SSorted_nil|..];
      intros Et; vm_compute in Et; (discriminate Et || by split).
Qed.

