(* ===== verification/UsbLinuxHandles.v ===== *)
(** * The files of handles on Linux

    [OpenFiles] says which file descriptors of the program are open.  Opening a handle opens one and
    closing it closes that one and forgets it in the list of those that are polled; only when there
    is no memory to add it to that list does it stay open though opening has failed. *)
From S2P Require Import Prelude UtilsText UsbBase UsbIo UsbFlight UsbTimeouts UsbDescriptor UsbCore UsbReferences UsbLinux UsbUrbs UsbLinuxDevices UsbLinuxProofs UsbLinuxFiles.

(** The descriptors that are open, which [open] and [close] change, and notifiers do not. *)
Class OpenFiles (W : Type) `{UsbKernel W} := {
  open_files : W -> gset Z;
  law_open p wr w : exists r w', sys_open p wr w = (Ret r, w') /\
    match r with
    | inl _ => open_files w' = open_files w
    | inr fd => (fd ∉ open_files w) /\ open_files w' = {[fd]} ∪ open_files w
    end;
  law_close_file fd w : exists w', sys_close fd w = (Ret tt, w') /\ open_files w' = open_files w ∖ {[fd]};
  law_added fd e w : exists w', notify_added fd e w = (Ret tt, w') /\ open_files w' = open_files w;
  law_removed fd w : exists w', notify_removed fd w = (Ret tt, w') /\ open_files w' = open_files w }.

Section handles.
Context {W : Type} `{OpenFiles W} `{Usbfs W} `{HostOrder}.
Implicit Types (s : Ctx (Devices (Linux W))).
#[local] Existing Instance linux_io.

Definition files_of s : gset Z := open_files (lx_sys (d_rest (c_rest s))).
Definition fds_of s : gmap nat Z := lx_fds (d_rest (c_rest s)).

(** What does not change when only the system does. *)
Definition still s s' : Prop :=
  c_heap s' = c_heap s /\ c_pollfds s' = c_pollfds s /\ fds_of s' = fds_of s /\ c_notifiers s' = c_notifiers s.

Lemma kernel_run {A} (m : M W A) s a w : m (lx_sys (d_rest (c_rest s))) = (Ret a, w) ->
  exists s', on_backend (on_kernel m) s = (Ret a, s') /\ still s s' /\ files_of s' = open_files w.
Proof.
  intros E. unfold on_backend, on_system, in_devices, on_kernel. rewrite E. eexists. split; [reflexivity|]. by split_and!.
Qed.

Lemma added_run fd e s : exists s', on_system (in_devices (on_kernel (notify_added fd e))) s = (Ret tt, s') /\
  still s s' /\ files_of s' = files_of s.
Proof.
  destruct (law_added fd e (lx_sys (d_rest (c_rest s)))) as (w & E & Hw).
  destruct (kernel_run _ s tt w E) as (s' & E' & Hs & Hf). exists s'. split; [exact E'|]. split; [done|]. by rewrite Hf, Hw.
Qed.
Lemma removed_run fd s : exists s', on_system (in_devices (on_kernel (notify_removed fd))) s = (Ret tt, s') /\
  still s s' /\ files_of s' = files_of s.
Proof.
  destruct (law_removed fd (lx_sys (d_rest (c_rest s)))) as (w & E & Hw).
  destruct (kernel_run _ s tt w E) as (s' & E' & Hs & Hf). exists s'. split; [exact E'|]. split; [done|]. by rewrite Hf, Hw.
Qed.

(** A descriptor is added at the end of the list, unless there is no memory for its entry. *)
Lemma add_pollfd_at_end fd e s : NoDup (h_live (c_heap s)) -> exists r s', usbi_add_pollfd fd e s = (Ret r, s') /\
  files_of s' = files_of s /\ fds_of s' = fds_of s /\ NoDup (h_live (c_heap s')) /\
  ((r = (LIBUSB_ERROR_NO_MEM : Z) /\ c_pollfds s' = c_pollfds s /\ h_live (c_heap s') = h_live (c_heap s)) \/
   (r = 0 /\ exists b, c_pollfds s' = c_pollfds s ++ [mk_pollfd b fd e] /\ h_live (c_heap s') = b :: h_live (c_heap s))).
Proof.
  intros Hn. unfold usbi_add_pollfd. destruct (alloc_run (K := Linux W) s Hn) as (o & h & E & Hn' & Ho).
  erewrite bind_Ret by exact E. destruct o as [b|].
  2: { eexists _, _. split; [reflexivity|]. split_and!; try done. by left. }
  destruct Ho as [_ Ho]. erewrite bind_Ret by reflexivity. unfold id. erewrite bind_Ret by reflexivity.
  set (s1 := mkCtx _ _ _ _ _ _ _ _ _ _ _ _).
  assert (exists s2, (if c_notifiers (upd_heap s h) then on_system (fd_added_cb fd e) else ret tt) s1 = (Ret tt, s2) /\
    still s1 s2 /\ files_of s2 = files_of s1) as (s2 & E2 & (Hh & Hp & Hfd & _) & Hf).
  { destruct (c_notifiers (upd_heap s h)); [apply added_run|]. by exists s1. }
  erewrite bind_Ret by exact E2. exists 0, s2. split; [reflexivity|]. split; [exact Hf|]. split; [exact Hfd|].
  rewrite Hh, Hp. split; [exact Hn'|]. right. split; [done|]. by exists b.
Qed.

Lemma take_pollfd_last fd b e l : fd ∉ map pf_fd l -> take_pollfd fd (l ++ [mk_pollfd b fd e]) = Some (mk_pollfd b fd e, l).
Proof.
  induction l as [|p l IH]; cbn; [by rewrite Z.eqb_refl|]. intros [Hne Hnin]%not_elem_of_cons.
  destruct (Z.eqb_spec (pf_fd p) fd); [congruence|]. by rewrite IH.
Qed.

(** The last descriptor is removed, and its entry is freed. *)
Lemma remove_last_pollfd fd b e l live s : c_pollfds s = l ++ [mk_pollfd b fd e] -> fd ∉ map pf_fd l ->
  h_live (c_heap s) = b :: live -> NoDup (h_live (c_heap s)) ->
  exists s', usbi_remove_pollfd fd s = (Ret tt, s') /\ c_pollfds s' = l /\ h_live (c_heap s') ≡ₚ live /\ files_of s' = files_of s.
Proof.
  intros Hp Hfd Hl Hn. unfold usbi_remove_pollfd. erewrite bind_Ret by reflexivity. unfold id.
  rewrite Hp, take_pollfd_last by done. erewrite bind_Ret by reflexivity.
  match goal with |- context [bind (in_memory _) _ ?st] => destruct (free_run (K := Linux W) b live st) as (h & E & Hh & _) end;
    [by rewrite <- Hl|done|].
  erewrite bind_Ret by exact E. set (s1 := upd_heap _ h).
  destruct (c_notifiers s); [|by exists s1].
  destruct (removed_run fd s1) as (s2 & E2 & (Hh2 & Hp2 & _) & Hf). exists s2. split; [exact E2|].
  rewrite Hh2, Hp2. by split_and!.
Qed.

(** C23: opening a handle on Linux opens one file and adds it to the descriptors that are polled, and
    closing the handle closes that file and no other, and leaves the descriptors and the memory as
    they were before; when opening fails no file is left open, except when there was no memory to
    add it: then it stays open and nothing refers to it. *)
Theorem handle_owns_its_file h s x n d :
  d_handles (c_rest s) !! h = Some x -> d_devices (c_rest s) !! hd_dev x = Some (n, d) ->
  NoDup (h_live (c_heap s)) -> exists r s', op_open h s = (Ret r, s') /\
  if decide (r = 0) then
    exists fd, (fd ∉ files_of s) /\ files_of s' = {[fd]} ∪ files_of s /\ fds_of s' !! h = Some fd /\
      (fd ∉ map pf_fd (c_pollfds s) -> exists s'', op_close h s' = (Ret tt, s'') /\
         files_of s'' = files_of s /\ c_pollfds s'' = c_pollfds s /\ h_live (c_heap s'') ≡ₚ h_live (c_heap s))
  else c_pollfds s' = c_pollfds s /\
    if decide (r = (LIBUSB_ERROR_NO_MEM : Z)) then exists fd, (fd ∉ files_of s) /\ files_of s' = {[fd]} ∪ files_of s
    else files_of s' = files_of s.
Proof.
  intros Eh Ed Hn. unfold op_open. erewrite bind_Ret.
  2: { unfold handle_device. erewrite bind_Ret by (unfold get_handle, query; rewrite Eh; reflexivity).
       erewrite bind_Ret by (by apply get_device_run). reflexivity. }
  erewrite bind_Ret by reflexivity.
  match goal with |- context [bind (on_backend (on_kernel (sys_open ?p true))) _ ?st] =>
    destruct (law_open p true (lx_sys (d_rest (c_rest st)))) as (o & w & Eo & Hw);
    destruct (kernel_run _ st o w Eo) as (s1 & E1 & Hs1 & Hf1) end.
  erewrite bind_Ret by exact E1. erewrite bind_Ret by reflexivity.
  destruct Hs1 as (Hh1 & Hp1 & Hfd1 & _).
  destruct o as [errno|fd].
  - erewrite bind_Ret by reflexivity. eexists _, _. split; [reflexivity|]. cbn [c_pollfds].
    rewrite decide_False by (repeat case_match; done). split; [exact Hp1|].
    rewrite decide_False by (repeat case_match; done). unfold files_of in *. cbn in *. congruence.
  - destruct Hw as [Hnew Hw]. erewrite bind_Ret by reflexivity.
    match goal with |- context [usbi_add_pollfd fd POLLOUT ?st] =>
      destruct (add_pollfd_at_end fd POLLOUT st) as (r & s2 & E2 & Hf2 & Hfd2 & Hn2 & Hr) end; [by rewrite Hh1|].
    exists r, s2. split; [exact E2|]. 
    assert (files_of s2 = {[fd]} ∪ files_of s) as Hfiles.
    { rewrite Hf2. unfold files_of in *. cbn. by rewrite Hf1, Hw. }
    destruct Hr as [(-> & Hp2 & _)|(-> & b & Hp2 & Hl2)].
    + rewrite decide_False by done. split; [by rewrite Hp2|]. rewrite decide_True by done. by exists fd.
    + rewrite decide_True by done. exists fd. split; [exact Hnew|]. split; [exact Hfiles|].
      assert (fds_of s2 !! h = Some fd) as Efd by (rewrite Hfd2; unfold fds_of; cbn; apply lookup_insert_eq).
      split; [exact Efd|]. intros Hpoll. unfold op_close.
      erewrite bind_Ret by (unfold handle_fd, fds_of in *; unfold on_backend, on_system, in_devices, gets; rewrite Efd; reflexivity).
      cbn [default]. unfold id.
      match goal with |- context [bind (usbi_remove_pollfd fd) _ ?st] =>
        destruct (remove_last_pollfd fd b POLLOUT (c_pollfds s) (h_live (c_heap s)) st) as (s3 & E3 & Hp3 & Hh3 & Hf3) end.
      * cbn. by rewrite Hp2, Hp1.
      * done.
      * cbn. by rewrite Hl2, Hh1.
      * exact Hn2.
      * erewrite bind_Ret by exact E3.
        destruct (law_close_file fd (lx_sys (d_rest (c_rest s3)))) as (w4 & Ew & Hw4).
        destruct (kernel_run _ s3 tt w4 Ew) as (s4 & E4 & (Hh4 & Hp4 & _) & Hf4). exists s4. split; [exact E4|].
        rewrite Hp4, Hh4. split_and!; try done. rewrite Hf4, Hw4. fold (files_of s3). rewrite Hf3.
        unfold files_of at 1. cbn. fold (files_of s2). rewrite Hfiles. unfold files_of in *. set_solver.
Qed.
End handles.

(** ** On the small system *)
#[export] Instance disk_open_files : OpenFiles Disk.
Proof.
  refine {| open_files k := dom (dk_open k) |}.
  - intros p wr k. cbn. unfold disk_open. destruct (_ && _); [by eexists _, _|].
    destruct (dk_files k !! p); [|by eexists _, _]. eexists _, _. split; [reflexivity|].
    cbn. split; [apply is_fresh|by rewrite dom_insert_L].
  - intros fd k. eexists. split; [reflexivity|]. cbn. by rewrite dom_delete_L.
  - intros fd e k. by eexists.
  - intros fd k. by eexists.
Defined.

(** Device 1 on bus 1 with address 5, and handle 2 of it. *)
Definition disk_handle_ctx : Ctx (Devices (Linux Disk)) :=
  mkCtx (mkHeap [1; 2]%nat []) ∅ ∅ [] [] 0 Lock_free false false (3, 4) (-1)
    (mkDevices {[1%nat := (1, mk_device 1 1 5 2 LIBUSB_SPEED_FULL 261)]} [1%nat] {[2%nat := mk_handle 1 0]} [2%nat]
       (mkLinux (mkGlobals (Some "/dev/bus/usb"%string) false 1 1 1 0 false) (mkHeap [] []) ∅ ∅ ∅
          (mkDisk {["/dev/bus/usb/001/005"%string := disk_device]} ∅ ∅ true))).

Lemma handle_owns_its_file_witness : exists r s', @op_open Disk _ linux_io 2 disk_handle_ctx = (Ret r, s') /\ r = 0 /\
  exists fd, files_of s' = {[fd]} /\ fds_of s' !! 2%nat = Some fd /\ exists s'', op_close 2 s' = (Ret tt, s'') /\
    files_of s'' = ∅ /\ c_pollfds s'' = [].
Proof.
  destruct (handle_owns_its_file 2 disk_handle_ctx (mk_handle 1 0) 1 (mk_device 1 1 5 2 LIBUSB_SPEED_FULL 261))
    as (r & s' & E & Hr); [done|done|apply (bool_decide_unpack _); by vm_compute|].
  assert (files_of disk_handle_ctx = ∅) as Hnone by (unfold files_of; cbn; by rewrite dom_empty_L).
  exists r, s'. split; [exact E|]. assert (r = 0) as -> by (vm_compute in E; by injection E as <- _).
  split; [done|]. rewrite decide_True in Hr by done. destruct Hr as (fd & _ & Hf & Hfd & Hc).
  exists fd. split; [by rewrite Hf, Hnone, union_empty_r_L|]. split; [done|]. destruct (Hc (not_elem_of_nil _)) as (s'' & E2 & Hf2 & Hp2 & _).
  exists s''. by rewrite Hf2, Hnone.
Defined.
