(* ===== verification/HidStrings.v ===== *)
(** * The strings of a HID device (src/external/odroid-smartpower-linux/hid.c)

    The library that drives the power meter names the devices it finds, reads their strings in
    the language of the user and, when it is built with INVASIVE_GET_USAGE, looks for the usage
    in their report descriptors.  This file models those functions: the table of the languages
    and the lookup of the current locale, the languages of a device, [get_usb_string],
    [make_path], [get_bytes] and [get_usage].

    The theorems: the lookup finds the first entry of the table with the code of the locale,
    and four entries can never be found; a language is supported exactly when the device lists
    it; paths of different interfaces are different; the scan of a report descriptor ends and
    stays inside of it. *)
From S2P Require Import Prelude UsbBase UsbDescriptor.

(** ** Languages *)

(** [lang_map_entry], src/external/odroid-smartpower-linux/hid.c:1218-1222; null pointers are
    [None]. *)
Record lang_map_entry := mkLang { lang_name : option string; lang_string_code : option string; lang_usb_code : Z }.

#[export] Instance lang_map_entry_eq_dec : EqDecision lang_map_entry.
Proof. solve_decision. Defined.

Definition LANG (name code : string) (usb_code : Z) : lang_map_entry :=
  mkLang (Some name) (Some code) usb_code.

(** [lang_map], src/external/odroid-smartpower-linux/hid.c:1225-1360. *)
Definition lang_map : list lang_map_entry :=
  [LANG "Afrikaans" "af" 0x0436;
   LANG "Albanian" "sq" 0x041C;
   LANG "Arabic - United Arab Emirates" "ar_ae" 0x3801;
   LANG "Arabic - Bahrain" "ar_bh" 0x3C01;
   LANG "Arabic - Algeria" "ar_dz" 0x1401;
   LANG "Arabic - Egypt" "ar_eg" 0x0C01;
   LANG "Arabic - Iraq" "ar_iq" 0x0801;
   LANG "Arabic - Jordan" "ar_jo" 0x2C01;
   LANG "Arabic - Kuwait" "ar_kw" 0x3401;
   LANG "Arabic - Lebanon" "ar_lb" 0x3001;
   LANG "Arabic - Libya" "ar_ly" 0x1001;
   LANG "Arabic - Morocco" "ar_ma" 0x1801;
   LANG "Arabic - Oman" "ar_om" 0x2001;
   LANG "Arabic - Qatar" "ar_qa" 0x4001;
   LANG "Arabic - Saudi Arabia" "ar_sa" 0x0401;
   LANG "Arabic - Syria" "ar_sy" 0x2801;
   LANG "Arabic - Tunisia" "ar_tn" 0x1C01;
   LANG "Arabic - Yemen" "ar_ye" 0x2401;
   LANG "Armenian" "hy" 0x042B;
   LANG "Azeri - Latin" "az_az" 0x042C;
   LANG "Azeri - Cyrillic" "az_az" 0x082C;
   LANG "Basque" "eu" 0x042D;
   LANG "Belarusian" "be" 0x0423;
   LANG "Bulgarian" "bg" 0x0402;
   LANG "Catalan" "ca" 0x0403;
   LANG "Chinese - China" "zh_cn" 0x0804;
   LANG "Chinese - Hong Kong SAR" "zh_hk" 0x0C04;
   LANG "Chinese - Macau SAR" "zh_mo" 0x1404;
   LANG "Chinese - Singapore" "zh_sg" 0x1004;
   LANG "Chinese - Taiwan" "zh_tw" 0x0404;
   LANG "Croatian" "hr" 0x041A;
   LANG "Czech" "cs" 0x0405;
   LANG "Danish" "da" 0x0406;
   LANG "Dutch - Netherlands" "nl_nl" 0x0413;
   LANG "Dutch - Belgium" "nl_be" 0x0813;
   LANG "English - Australia" "en_au" 0x0C09;
   LANG "English - Belize" "en_bz" 0x2809;
   LANG "English - Canada" "en_ca" 0x1009;
   LANG "English - Caribbean" "en_cb" 0x2409;
   LANG "English - Ireland" "en_ie" 0x1809;
   LANG "English - Jamaica" "en_jm" 0x2009;
   LANG "English - New Zealand" "en_nz" 0x1409;
   LANG "English - Phillippines" "en_ph" 0x3409;
   LANG "English - Southern Africa" "en_za" 0x1C09;
   LANG "English - Trinidad" "en_tt" 0x2C09;
   LANG "English - Great Britain" "en_gb" 0x0809;
   LANG "English - United States" "en_us" 0x0409;
   LANG "Estonian" "et" 0x0425;
   LANG "Farsi" "fa" 0x0429;
   LANG "Finnish" "fi" 0x040B;
   LANG "Faroese" "fo" 0x0438;
   LANG "French - France" "fr_fr" 0x040C;
   LANG "French - Belgium" "fr_be" 0x080C;
   LANG "French - Canada" "fr_ca" 0x0C0C;
   LANG "French - Luxembourg" "fr_lu" 0x140C;
   LANG "French - Switzerland" "fr_ch" 0x100C;
   LANG "Gaelic - Ireland" "gd_ie" 0x083C;
   LANG "Gaelic - Scotland" "gd" 0x043C;
   LANG "German - Germany" "de_de" 0x0407;
   LANG "German - Austria" "de_at" 0x0C07;
   LANG "German - Liechtenstein" "de_li" 0x1407;
   LANG "German - Luxembourg" "de_lu" 0x1007;
   LANG "German - Switzerland" "de_ch" 0x0807;
   LANG "Greek" "el" 0x0408;
   LANG "Hebrew" "he" 0x040D;
   LANG "Hindi" "hi" 0x0439;
   LANG "Hungarian" "hu" 0x040E;
   LANG "Icelandic" "is" 0x040F;
   LANG "Indonesian" "id" 0x0421;
   LANG "Italian - Italy" "it_it" 0x0410;
   LANG "Italian - Switzerland" "it_ch" 0x0810;
   LANG "Japanese" "ja" 0x0411;
   LANG "Korean" "ko" 0x0412;
   LANG "Latvian" "lv" 0x0426;
   LANG "Lithuanian" "lt" 0x0427;
   LANG "F.Y.R.O. Macedonia" "mk" 0x042F;
   LANG "Malay - Malaysia" "ms_my" 0x043E;
   LANG "Malay – Brunei" "ms_bn" 0x083E;
   LANG "Maltese" "mt" 0x043A;
   LANG "Marathi" "mr" 0x044E;
   LANG "Norwegian - Bokml" "no_no" 0x0414;
   LANG "Norwegian - Nynorsk" "no_no" 0x0814;
   LANG "Polish" "pl" 0x0415;
   LANG "Portuguese - Portugal" "pt_pt" 0x0816;
   LANG "Portuguese - Brazil" "pt_br" 0x0416;
   LANG "Raeto-Romance" "rm" 0x0417;
   LANG "Romanian - Romania" "ro" 0x0418;
   LANG "Romanian - Republic of Moldova" "ro_mo" 0x0818;
   LANG "Russian" "ru" 0x0419;
   LANG "Russian - Republic of Moldova" "ru_mo" 0x0819;
   LANG "Sanskrit" "sa" 0x044F;
   LANG "Serbian - Cyrillic" "sr_sp" 0x0C1A;
   LANG "Serbian - Latin" "sr_sp" 0x081A;
   LANG "Setsuana" "tn" 0x0432;
   LANG "Slovenian" "sl" 0x0424;
   LANG "Slovak" "sk" 0x041B;
   LANG "Sorbian" "sb" 0x042E;
   LANG "Spanish - Spain (Traditional)" "es_es" 0x040A;
   LANG "Spanish - Argentina" "es_ar" 0x2C0A;
   LANG "Spanish - Bolivia" "es_bo" 0x400A;
   LANG "Spanish - Chile" "es_cl" 0x340A;
   LANG "Spanish - Colombia" "es_co" 0x240A;
   LANG "Spanish - Costa Rica" "es_cr" 0x140A;
   LANG "Spanish - Dominican Republic" "es_do" 0x1C0A;
   LANG "Spanish - Ecuador" "es_ec" 0x300A;
   LANG "Spanish - Guatemala" "es_gt" 0x100A;
   LANG "Spanish - Honduras" "es_hn" 0x480A;
   LANG "Spanish - Mexico" "es_mx" 0x080A;
   LANG "Spanish - Nicaragua" "es_ni" 0x4C0A;
   LANG "Spanish - Panama" "es_pa" 0x180A;
   LANG "Spanish - Peru" "es_pe" 0x280A;
   LANG "Spanish - Puerto Rico" "es_pr" 0x500A;
   LANG "Spanish - Paraguay" "es_py" 0x3C0A;
   LANG "Spanish - El Salvador" "es_sv" 0x440A;
   LANG "Spanish - Uruguay" "es_uy" 0x380A;
   LANG "Spanish - Venezuela" "es_ve" 0x200A;
   LANG "Southern Sotho" "st" 0x0430;
   LANG "Swahili" "sw" 0x0441;
   LANG "Swedish - Sweden" "sv_se" 0x041D;
   LANG "Swedish - Finland" "sv_fi" 0x081D;
   LANG "Tamil" "ta" 0x0449;
   LANG "Tatar" "tt" 0x0444;
   LANG "Thai" "th" 0x041E;
   LANG "Turkish" "tr" 0x041F;
   LANG "Tsonga" "ts" 0x0431;
   LANG "Ukrainian" "uk" 0x0422;
   LANG "Urdu" "ur" 0x0420;
   LANG "Uzbek - Cyrillic" "uz_uz" 0x0843;
   LANG "Uzbek – Latin" "uz_uz" 0x0443;
   LANG "Vietnamese" "vi" 0x042A;
   LANG "Xhosa" "xh" 0x0434;
   LANG "Yiddish" "yi" 0x043D;
   LANG "Zulu" "zu" 0x0435;
   mkLang None None 0x0].

(** [tolower] of the C locale. *)
Definition tolower (c : ascii) : ascii :=
  let n := N_of_ascii c in
  if ((65 <=? n) && (n <=? 90))%N then ascii_of_N (n + 32) else c.

(** The loops of [get_usb_code_for_current_locale] over [search_string]: lower case up to the
    character [stop], at which the string is cut. *)
Fixpoint lower_until (stop : ascii) (s : string) : string :=
  match s with
  | EmptyString => EmptyString
  | String c s' =>
      if bool_decide (tolower c = stop) then EmptyString
      else String (tolower c) (lower_until stop s')
  end.

(** The loop over the table, up to the entry without a code. *)
Fixpoint find_lang (lang : list lang_map_entry) (search_string : string) : outcome (option Z) :=
  match lang with
  | [] => Undef "read past the end of lang_map"
  | e :: lang' =>
      match lang_string_code e with
      | None => Ret None
      | Some code =>
          if bool_decide (code = search_string) then Ret (Some (lang_usb_code e))
          else find_lang lang' search_string
      end
  end.

(** [get_usb_code_for_current_locale], src/external/odroid-smartpower-linux/hid.c:1362-1423:
    [locale] is what [setlocale] returns; [search_string] has room for 63 characters.  The
    search for the language alone is not compiled in. *)
Definition get_usb_code_for_current_locale (locale : option string) : outcome Z :=
  match locale with
  | None => Ret 0x0
  | Some l =>
      r ← find_lang lang_map (lower_until "." (String.substring 0 63 l));
      Ret (default 0x0 r)
  end.

Section device_strings.
Context {H D : Type} `{HostOrder} `{ControlTransfer H D}.

(** The element [i] of an array of words of which the bytes [b] have been written. *)
Definition word_at (b : list Z) (i : nat) : outcome Z :=
  b0 ← byte_at b (2 * i);
  b1 ← byte_at b (2 * i + 1);
  Ret (host16 b0 b1).

(** [get_first_language], src/external/odroid-smartpower-linux/hid.c:277-292. *)
Definition get_first_language (dev : H) : M D Z :=
  let* '(len, buf) := libusb_get_string_descriptor dev 0x0 0x0 [] 64 in
  if len <? 4 then ret 0x0 else lift (word_at buf 1).

(** The loop of [is_language_supported] over the words from the index [i] on. *)
Fixpoint language_loop (n : nat) (buf : list Z) (i : nat) (lang : Z) : outcome Z :=
  match n with
  | O => Ret 0
  | S n' =>
      w ← word_at buf i;
      if w =? lang then Ret 1 else language_loop n' buf (S i) lang
  end.

(** [is_language_supported], src/external/odroid-smartpower-linux/hid.c:294-318. *)
Definition is_language_supported (dev : H) (lang : Z) : M D Z :=
  let* '(len, buf) := libusb_get_string_descriptor dev 0x0 0x0 [] 64 in
  if len <? 4 then ret 0x0
  else lift (language_loop (Z.to_nat (len / 2 - 1)) buf 1 lang).

(** The converter of the C library from UTF-16LE to wide characters: the characters, unless it
    fails (the output does not fit, the input is not valid or there is no such converter). *)
Context (iconv : list Z -> nat -> option (list Z)).

(** What [wcsdup] copies of [wbuf], of whose 256 elements the first are [chars]: the last one
    and, when there is room, the one after [chars] have been set to zero. *)
Definition wbuf_string (chars : list Z) : list Z :=
  let wbuf := if (length chars <? 256)%nat then chars ++ [0] else take 255 chars ++ [0] in
  (fix upto (l : list Z) : list Z :=
     match l with
     | [] => []
     | c :: l' => if c =? 0 then [] else c :: upto l'
     end) wbuf.

(** [get_usb_string], src/external/odroid-smartpower-linux/hid.c:324-392: the characters of the
    string, or the null pointer.  [inbytes] is unsigned: an answer of less than two bytes makes
    it huge, and the converter reads past [buf]. *)
Definition get_usb_string (locale : option string) (dev : H) (idx : Z) : M D (option (list Z)) :=
  let* lang := lift (get_usb_code_for_current_locale locale) in
  let* supported := is_language_supported dev lang in
  let* lang := (if supported =? 0 then get_first_language dev else ret lang) in
  let* '(len, buf) := libusb_get_string_descriptor dev idx lang [] 512 in
  if len <? 0 then ret None
  else
    let inbytes := u64 (len - 2) in
    let* input := lift (memcpy_from (drop 2 buf) inbytes) in
    match iconv input 256 with
    | None => ret None
    | Some chars => ret (Some (wbuf_string chars))
    end.
End device_strings.

(** ** Paths *)

Definition hex_digit (n : Z) : ascii := ascii_of_N (Z.to_N (if n <? 10 then 48 + n else 87 + n)).
(** [%0nx]: at least [n] digits. *)
Fixpoint hex_digits (fuel : nat) (z : Z) (acc : string) : string :=
  match fuel with
  | O => acc
  | S f =>
      let acc := String (hex_digit (z mod 16)) acc in
      if z <? 16 then acc else hex_digits f (z / 16) acc
  end.
Definition print_hex (n : nat) (z : Z) : string :=
  let d := hex_digits 8 z EmptyString in
  String.concat "" (replicate (n - String.length d) "0") +:+ d.

(** [make_path], src/external/odroid-smartpower-linux/hid.c:394-404. *)
Definition make_path (dev : libusb_device) (interface_number : Z) : string :=
  print_hex 4 (dev_bus_number dev) +:+ ":" +:+ print_hex 4 (dev_device_address dev)
  +:+ ":" +:+ print_hex 2 interface_number.

(** ** Usages *)

(** [get_bytes], src/external/odroid-smartpower-linux/hid.c:154-176: the product of the fourth
    byte is one of signed integers. *)
Definition get_bytes (rpt : list Z) (len num_bytes cur : Z) : outcome Z :=
  if len <=? cur + num_bytes then Ret 0
  else if num_bytes =? 0 then Ret 0
  else if num_bytes =? 1 then byte_at rpt (Z.to_nat (cur + 1))
  else if num_bytes =? 2 then
    b2 ← byte_at rpt (Z.to_nat (cur + 2));
    b1 ← byte_at rpt (Z.to_nat (cur + 1));
    Ret (b2 * 256 + b1)
  else if num_bytes =? 4 then
    b4 ← byte_at rpt (Z.to_nat (cur + 4));
    b3 ← byte_at rpt (Z.to_nat (cur + 3));
    b2 ← byte_at rpt (Z.to_nat (cur + 2));
    b1 ← byte_at rpt (Z.to_nat (cur + 1));
    if 128 <=? b4 then Undef "overflow of a signed product"
    else Ret (b4 * 0x01000000 + b3 * 0x00010000 + b2 * 0x00000100 + b1 * 0x00000001)
  else Ret 0.

(** The length of the data of an item and the size of its key. *)
Definition item_size (rpt : list Z) (size i key : Z) : outcome (Z * Z) :=
  if Z.land key 0xf0 =? 0xf0 then
    data_len ← (if i + 1 <? size then byte_at rpt (Z.to_nat (i + 1)) else Ret 0);
    Ret (data_len, 3)
  else
    let size_code := Z.land key 0x3 in
    Ret (if size_code =? 3 then 4 else size_code, 1).

(** [get_usage], src/external/odroid-smartpower-linux/hid.c:182-250: the value returned and the
    usage page and the usage, where they have been written. *)
Fixpoint get_usage_loop (fuel : nat) (rpt : list Z) (size i : Z) (usage_page usage : option Z)
    : outcome (Z * option Z * option Z) :=
  if size <=? i then Ret (-1, usage_page, usage)
  else
    match fuel with
    | O => Undef out_of_fuel
    | S fuel' =>
        key ← byte_at rpt (Z.to_nat i);
        let key_cmd := Z.land key 0xfc in
        '(data_len, key_size) ← item_size rpt size i key;
        usage_page ← (if key_cmd =? 0x4 then
                        v ← get_bytes rpt size data_len i; Ret (Some (v mod 2 ^ 16))
                      else Ret usage_page);
        usage ← (if key_cmd =? 0x8 then
                   v ← get_bytes rpt size data_len i; Ret (Some (v mod 2 ^ 16))
                 else Ret usage);
        match usage_page, usage with
        | Some _, Some _ => Ret (0, usage_page, usage)
        | _, _ => get_usage_loop fuel' rpt size (u32 (i + data_len + key_size)) usage_page usage
        end
    end.
Definition get_usage (report_descriptor : list Z) (size : Z) : outcome (Z * option Z * option Z) :=
  get_usage_loop (Z.to_nat size) report_descriptor size 0 None None.

(** ** The lookup of the locale *)

#[local] Instance outcome_eq_dec {A} `{EqDecision A} : EqDecision (outcome A).
Proof. solve_decision. Defined.

(** The first entry with a code. *)
Definition entry_of (code : string) (l : list lang_map_entry) : option lang_map_entry :=
  snd <$> list_find (fun e => lang_string_code e = Some code) l.

Lemma find_lang_entry l s :
  Forall (fun e => is_Some (lang_string_code e)) l ->
  find_lang (l ++ [mkLang None None 0]) s = Ret (lang_usb_code <$> entry_of s l).
Proof.
  unfold entry_of. induction 1 as [|e l [c Hc] Hl IH]; [done|]. cbn [app find_lang]. rewrite Hc.
  cbn [list_find]. rewrite Hc. destruct (decide (Some c = Some s)) as [[= ->]|Hne].
  - by rewrite bool_decide_eq_true_2.
  - rewrite bool_decide_eq_false_2 by congruence. rewrite IH.
    by destruct (list_find _ l) as [[? ?]|].
Qed.

Definition languages : list lang_map_entry := take 133 lang_map.

Lemma lang_map_languages : lang_map = languages ++ [mkLang None None 0].
Proof. reflexivity. Qed.

Lemma languages_have_codes : Forall (fun e => is_Some (lang_string_code e)) languages.
Proof. repeat constructor; by eexists. Qed.

(** The code of a locale is that of the first entry of the table whose string code is the
    locale up to its encoding, in lower case; 0 when there is none. *)
Theorem get_usb_code_first locale :
  get_usb_code_for_current_locale (Some locale) =
    Ret (default 0 (lang_usb_code <$>
           entry_of (lower_until "." (String.substring 0 63 locale)) languages)).
Proof.
  unfold get_usb_code_for_current_locale.
  by rewrite lang_map_languages, find_lang_entry by exact languages_have_codes.
Qed.

(** The entries that share their string code with an earlier one. *)
Definition shadowed : list Z := [0x082C; 0x0814; 0x081A; 0x0443].

(** Every language but these four is found under its own code. *)
Theorem get_usb_code_languages e :
  e ∈ languages ->
  get_usb_code_for_current_locale (lang_string_code e) = Ret (lang_usb_code e)
  <-> lang_usb_code e ∉ shadowed.
Proof.
  intros He.
  assert (forallb (fun e => bool_decide
    (get_usb_code_for_current_locale (lang_string_code e) = Ret (lang_usb_code e)
     <-> lang_usb_code e ∉ shadowed)) languages = true) as H.
  { vm_compute. reflexivity. }
  rewrite forallb_forall in H. apply list_elem_of_In in He. exact (bool_decide_eq_true_1 _ (H e He)).
Qed.

(** ** The languages of a device *)
Section language_theorems.
Context {H D : Type} `{HostOrder} `{ControlTransfer H D}.

Lemma word_at_app (pre : list Z) b0 b1 (rest : list Z) i :
  length pre = (2 * i)%nat -> word_at (pre ++ [b0; b1] ++ rest) i = Ret (host16 b0 b1).
Proof.
  intros Hl. unfold word_at, byte_at. rewrite <- Hl.
  assert ((pre ++ [b0; b1] ++ rest) !! length pre = Some b0) as ->.
  { rewrite lookup_app_r by lia. by rewrite Nat.sub_diag. }
  assert ((pre ++ [b0; b1] ++ rest) !! (length pre + 1)%nat = Some b1) as ->; [|done].
  rewrite lookup_app_r by lia. by replace (length pre + 1 - length pre)%nat with 1%nat by lia.
Qed.

Lemma language_loop_units us (pre rest : list Z) i lang :
  length pre = (2 * i)%nat ->
  language_loop (length us) (pre ++ unit_bytes us ++ rest) i lang =
    Ret (if decide (lang ∈ map (fun u => host16 u.1 u.2) us) then 1 else 0).
Proof.
  revert pre i. induction us as [|[b0 b1] us IH]; intros pre i Hl.
  { simpl. by destruct (decide (lang ∈ [])) as [E|]; [apply elem_of_nil in E|]. }
  cbn [length language_loop]. change (unit_bytes ((b0, b1) :: us)) with ([b0; b1] ++ unit_bytes us).
  rewrite <- app_assoc. rewrite word_at_app by done. cbn [mbind outcome_bind map fst snd].
  destruct (Z.eqb_spec (host16 b0 b1) lang) as [<-|Hne].
  { rewrite decide_True by left. done. }
  replace (pre ++ [b0; b1] ++ unit_bytes us ++ rest) with ((pre ++ [b0; b1]) ++ unit_bytes us ++ rest)
    by by rewrite <- app_assoc.
  rewrite IH by (rewrite length_app; simpl; lia).
  f_equal. destruct (decide (lang ∈ map _ us)) as [E|E].
  - rewrite decide_True; [done|]. by right.
  - rewrite decide_False; [done|]. intros E'. apply elem_of_cons in E' as [E'|E']; congruence.
Qed.

(** A language is supported exactly when the device lists it, provided that the list fits
    the 64 bytes that are read; the first language is the first of the list. *)
Theorem is_language_supported_listed (dev : H) d d' us n lang :
  us <> [] ->
  libusb_control_transfer dev 0x80 6 0x300 0 [] 64 1000 d =
    (Ret (Z.of_nat (2 + 2 * length us), [n; 3] ++ unit_bytes us), d') ->
  is_language_supported dev lang d =
    (Ret (if decide (lang ∈ map (fun u => host16 u.1 u.2) us) then 1 else 0), d') /\
  get_first_language dev d = (Ret (default 0 (head (map (fun u => host16 u.1 u.2) us))), d').
Proof.
  intros Hne E. destruct us as [|u us]; [done|].
  unfold is_language_supported, get_first_language, libusb_get_string_descriptor.
  change (Z.lor (LIBUSB_DT_STRING ≪ 8) 0 `mod` 2 ^ 16) with 0x300. change (64 `mod` 2 ^ 16) with 64.
  rewrite !(bind_Ret _ _ _ _ _ E).
  destruct (Z.ltb_spec (Z.of_nat (2 + 2 * length (u :: us))) 4) as [E4|_]; [simpl in E4; lia|].
  replace (Z.to_nat (Z.of_nat (2 + 2 * length (u :: us)) / 2 - 1)) with (length (u :: us)).
  2: { replace (Z.of_nat (2 + 2 * length (u :: us))) with ((1 + Z.of_nat (length (u :: us))) * 2) by lia.
       rewrite Z.div_mul by lia. lia. }
  split.
  - pose proof (language_loop_units (u :: us) [n; 3] [] 1 lang eq_refl) as Hl.
    rewrite app_nil_r in Hl. unfold lift. by rewrite Hl.
  - unfold lift. destruct u as [b0 b1].
    change ([n; 3] ++ unit_bytes ((b0, b1) :: us)) with ([n; 3] ++ [b0; b1] ++ unit_bytes us).
    by rewrite word_at_app.
Qed.
End language_theorems.

(** ** Paths *)

Lemma print_hex_length n z : is_byte z -> (n = 2 \/ n = 4)%nat -> String.length (print_hex n z) = n.
Proof.
  intros Hz Hn. refine (bool_decide_eq_true_1 _ _). revert z Hz.
  destruct Hn as [-> | ->]; refine (range_check (fun z => bool_decide (String.length (print_hex _ z) = _)) 0 256 _);
    vm_compute; reflexivity.
Qed.

(** Reading the digits back. *)
Definition hex_value (c : ascii) : Z :=
  let n := Z.of_N (N_of_ascii c) in if n <? 58 then n - 48 else n - 87.
Fixpoint read_hex (acc : Z) (s : string) : Z :=
  match s with
  | EmptyString => acc
  | String c s' => read_hex (16 * acc + hex_value c) s'
  end.

Lemma read_print_hex n z : (n = 2 \/ n = 4)%nat -> is_byte z -> read_hex 0 (print_hex n z) = z.
Proof.
  intros Hn Hz. refine (bool_decide_eq_true_1 _ _). revert z Hz.
  destruct Hn as [-> | ->]; refine (range_check (fun z => bool_decide (read_hex 0 (print_hex _ z) = z)) 0 256 _);
    vm_compute; reflexivity.
Qed.

Lemma append_inj (a b s t : string) :
  String.length a = String.length b -> a +:+ s = b +:+ t -> a = b /\ s = t.
Proof.
  revert b. induction a as [|c a IH]; intros [|c' b] Hl E; [by split|done|done|].
  injection Hl as Hl. injection E as -> E. by destruct (IH b Hl E) as [-> ->].
Qed.

(** The path names the bus, the device and the interface: two interfaces with the same path
    are the same interface of the same device. *)
Theorem make_path_inj dev dev' i i' :
  is_byte (dev_bus_number dev) -> is_byte (dev_bus_number dev') ->
  is_byte (dev_device_address dev) -> is_byte (dev_device_address dev') ->
  is_byte i -> is_byte i' ->
  make_path dev i = make_path dev' i' ->
  dev_bus_number dev = dev_bus_number dev' /\ dev_device_address dev = dev_device_address dev' /\ i = i'.
Proof.
  intros Hb Hb' Ha Ha' Hi Hi' E. unfold make_path in E.
  apply append_inj in E as [Eb E]; [|rewrite !print_hex_length by auto; done].
  apply append_inj in E as [_ E]; [|done].
  apply append_inj in E as [Ea E]; [|rewrite !print_hex_length by auto; done].
  apply append_inj in E as [_ Ei]; [|done].
  apply (f_equal (read_hex 0)) in Eb, Ea, Ei. rewrite !read_print_hex in Eb, Ea, Ei by auto.
  done.
Qed.

Lemma make_path_inj_witness :
  make_path (sample_device 1) 0 = "0001:0005:00" /\
  dev_bus_number (sample_device 1) = 1 /\ dev_device_address (sample_device 1) = 5 /\ 0 = 0.
Proof.
  split; [reflexivity|].
  apply (make_path_inj (sample_device 1) (sample_device 2) 0 0); unfold is_byte; simpl; try lia.
  reflexivity.
Defined.

(** ** Report descriptors *)

(** A scan that stays inside of the descriptor and ends; only the product of a byte of 128 or
    more has no value. *)
Definition scan_safe {A} (o : outcome A) : Prop :=
  match o with
  | Ret _ => True
  | Throw _ => False
  | Undef u => u = "overflow of a signed product"
  end.

Lemma scan_bind {A B} (o : outcome A) (f : A -> outcome B) :
  scan_safe o -> (forall a, o = Ret a -> scan_safe (f a)) -> scan_safe (o ≫= f).
Proof. destruct o; simpl; auto. Qed.

Lemma byte_at_inside p i : (i < length p)%nat -> exists b, byte_at p i = Ret b /\ p !! i = Some b.
Proof.
  intros Hi. destruct (lookup_lt_is_Some_2 p i Hi) as [b Hb]. exists b. unfold byte_at. by rewrite Hb.
Qed.

Lemma get_bytes_safe rpt n cur : 0 <= cur -> 0 <= n -> scan_safe (get_bytes rpt (Z.of_nat (length rpt)) n cur).
Proof.
  intros Hc Hn. unfold get_bytes. case_match eqn:E; [done|]. apply Z.leb_gt in E.
  repeat (case_match; [done || (repeat (let b := fresh "b" in let Eb := fresh "Eb" in
    match goal with |- context [byte_at rpt ?i] =>
      destruct (byte_at_inside rpt i ltac:(lia)) as (b & Eb & _); rewrite Eb; cbn [mbind outcome_bind] end);
    done || by case_match)|]).
  done.
Qed.

Lemma item_size_safe rpt i key :
  Forall is_byte rpt -> 0 <= i ->
  exists d k, item_size rpt (Z.of_nat (length rpt)) i key = Ret (d, k) /\ 0 <= d < 256 /\ 1 <= k <= 3.
Proof.
  intros Hb Hi. unfold item_size. case_match.
  - case_match eqn:E; [|by exists 0, 3; cbn; split_and!; try done; lia].
    destruct (byte_at_inside rpt (Z.to_nat (i + 1)) ltac:(lia)) as (b & -> & Eb).
    exists b, 3. pose proof (Forall_lookup_1 _ _ _ _ Hb Eb) as Hr. unfold is_byte in Hr.
    split_and!; [done|lia..].
  - eexists _, 1. split; [reflexivity|].
    assert (0 <= Z.land key 0x3 < 4) as Hk.
    { change 0x3 with (Z.ones 2). rewrite Z.land_ones by lia. by apply Z.mod_pos_bound. }
    case_match; lia.
Qed.

(** The scan of a report descriptor for its usage ends, and never reads outside of the
    descriptor, whatever its bytes. *)
Theorem get_usage_safe rpt :
  Forall is_byte rpt -> Z.of_nat (length rpt) < 2 ^ 31 ->
  scan_safe (get_usage rpt (Z.of_nat (length rpt))).
Proof.
  intros Hb Hlen. unfold get_usage.
  assert (forall fuel i p u, 0 <= i -> Z.of_nat (length rpt) - i <= Z.of_nat fuel ->
    scan_safe (get_usage_loop fuel rpt (Z.of_nat (length rpt)) i p u)) as Hloop; [|apply Hloop; lia].
  induction fuel as [|fuel IH]; intros i p u Hi Hf; cbn [get_usage_loop];
    (destruct (Z.leb_spec (Z.of_nat (length rpt)) i); [done|]); [exfalso; lia|].
  destruct (byte_at_inside rpt (Z.to_nat i) ltac:(lia)) as (key & -> & _). cbn [mbind outcome_bind].
  destruct (item_size_safe rpt i key Hb Hi) as (d & k & -> & Hd & Hk). cbn [mbind outcome_bind].
  assert (forall (c : bool) (o : option Z),
    scan_safe (if c then v ← get_bytes rpt (Z.of_nat (length rpt)) d i; Ret (Some (v mod 2 ^ 16)) else Ret o))
    as Hv.
  { intros [] o; [|done]. apply scan_bind; [apply get_bytes_safe; lia|done]. }
  apply scan_bind; [apply Hv|]. intros p' _. apply scan_bind; [apply Hv|]. intros u' _.
  assert (u32 (i + d + k) = i + d + k) as Eu by (apply u32_id; unfold is_u32; lia).
  destruct p', u'; [done|..]; apply IH; rewrite ?Eu; lia.
Qed.

Lemma get_usage_safe_witness :
  scan_safe (get_usage [0x06; 0; 0xff; 0x09; 1; 0xa1; 1; 0xc0] 8) /\
  get_usage [0x06; 0; 0xff; 0x09; 1; 0xa1; 1; 0xc0] 8 = Ret (0, Some 0xff00, Some 1).
Proof.
  split; [|reflexivity].
  apply (get_usage_safe [0x06; 0; 0xff; 0x09; 1; 0xa1; 1; 0xc0]); [|simpl; lia].
  repeat constructor; unfold is_byte; lia.
Defined.

(** With two usage pages before the first usage it is the second one that is returned, not the
    first as the comment of the function says. *)
Theorem get_usage_last_page :
  get_usage [0x05; 1; 0x05; 2; 0x09; 6] 6 = Ret (0, Some 2, Some 6).
Proof. reflexivity. Qed.

(** ** Examples *)
Lemma is_language_supported_listed_witness :
  is_language_supported (H0 := little) tt 0x0407 [(6, [6; 3; 0x09; 0x04; 0x07; 0x04])] = (Ret 1, []) /\
  get_first_language (H0 := little) tt [(6, [6; 3; 0x09; 0x04; 0x07; 0x04])] = (Ret 0x0409, []).
Proof.
  exact (is_language_supported_listed (H0 := little) tt [(6, [6; 3; 0x09; 0x04; 0x07; 0x04])] []
           [(0x09, 0x04); (0x07, 0x04)] 6 0x0407 ltac:(done) eq_refl).
Defined.

Lemma get_usb_code_languages_witness :
  get_usb_code_for_current_locale (Some "de_at") = Ret 0x0C07.
Proof.
  apply (get_usb_code_languages (LANG "German - Austria" "de_at" 0x0C07)).
  - compute_done.
  - compute_done.
Defined.

(** An answer of one byte to the request of a string: the converter is given almost all of
    memory to convert. *)
Theorem get_usb_string_short :
  fst (get_usb_string (H0 := little) (fun l _ => Some l) (Some "C") tt 2
         [(4, [4; 3; 0x09; 0x04]); (4, [4; 3; 0x09; 0x04]); (1, [1])]) = Undef overrun.
Proof. vm_compute. reflexivity. Qed.
