(* ===== verification/Hid.v ===== *)
(** * The HID device of the power meter (src/external/odroid-smartpower-linux/hid.c)

    The library reads the reports of a device in a thread of its own and queues them; the
    program takes them from the queue.  This file models the device [hid_device_], the
    enumeration and the opening of devices, the callback that queues reports, reading and
    writing, and the protocol between the thread that reads and the one that closes the device.
    What libusb does is the interface [Libusb]; a wait on the condition variable takes from a
    list of [wait_event] what happened meanwhile.

    The theorems: the queue is a bounded queue that drops its oldest report; reads return
    reports in order, cut to the buffer; the deadline of a timed read is a valid time; a read waits as the mode and the time
    say, in between other calls and reports; opening
    finds the first interrupt endpoints; enumeration lists the HID interfaces and closes what it
    opens; the transfer is freed only when nobody uses it.  Others show that a device whose first
    submission failed, or whose cancellation was lost, is never closed. *)
From S2P Require Import Prelude UsbBase UsbDescriptor HidStrings.

(** ** The device *)

(** [hid_device_], src/external/odroid-smartpower-linux/hid.c:82-113, without the objects of the
    thread; a report is its bytes. *)
Record hid_device (H : Type) := mk_hid_device {
  hd_device_handle : option H; hd_input_endpoint : Z; hd_output_endpoint : Z;
  hd_input_ep_max_packet_size : Z; hd_interface : Z; hd_manufacturer_index : Z;
  hd_product_index : Z; hd_serial_index : Z; hd_blocking : bool; hd_shutdown_thread : bool;
  hd_cancelled : bool; hd_input_reports : list (list Z) }.
Arguments mk_hid_device {H} _ _ _ _ _ _ _ _ _ _ _ _.
Arguments hd_device_handle {H} _.
Arguments hd_input_endpoint {H} _.
Arguments hd_output_endpoint {H} _.
Arguments hd_input_ep_max_packet_size {H} _.
Arguments hd_interface {H} _.
Arguments hd_manufacturer_index {H} _.
Arguments hd_product_index {H} _.
Arguments hd_serial_index {H} _.
Arguments hd_blocking {H} _.
Arguments hd_shutdown_thread {H} _.
Arguments hd_cancelled {H} _.
Arguments hd_input_reports {H} _.

Section device.
Context {H : Type}.
Implicit Types (dev : hid_device H).

(** [new_hid_device], src/external/odroid-smartpower-linux/hid.c:120-130. *)
Definition new_hid_device : hid_device H :=
  mk_hid_device None 0 0 0 0 0 0 0 true false false [].

Definition set_reports dev (l : list (list Z)) : hid_device H :=
  mk_hid_device (hd_device_handle dev) (hd_input_endpoint dev) (hd_output_endpoint dev)
    (hd_input_ep_max_packet_size dev) (hd_interface dev) (hd_manufacturer_index dev)
    (hd_product_index dev) (hd_serial_index dev) (hd_blocking dev) (hd_shutdown_thread dev)
    (hd_cancelled dev) l.
Definition set_stop dev (shutdown cancelled : bool) : hid_device H :=
  mk_hid_device (hd_device_handle dev) (hd_input_endpoint dev) (hd_output_endpoint dev)
    (hd_input_ep_max_packet_size dev) (hd_interface dev) (hd_manufacturer_index dev)
    (hd_product_index dev) (hd_serial_index dev) (hd_blocking dev) shutdown cancelled
    (hd_input_reports dev).
Definition set_blocking dev (b : bool) : hid_device H :=
  mk_hid_device (hd_device_handle dev) (hd_input_endpoint dev) (hd_output_endpoint dev)
    (hd_input_ep_max_packet_size dev) (hd_interface dev) (hd_manufacturer_index dev)
    (hd_product_index dev) (hd_serial_index dev) b (hd_shutdown_thread dev) (hd_cancelled dev)
    (hd_input_reports dev).

(** *** The queue *)

(** [return_data], src/external/odroid-smartpower-linux/hid.c:968-980: the value returned, the
    bytes copied to [data], which has room for [length], and the device without the report. *)
Definition return_data dev (length : Z) : outcome (Z * list Z * hid_device H) :=
  match hd_input_reports dev with
  | [] => Undef "dereference of a null report"
  | rpt :: next =>
      let rlen := Z.of_nat (List.length rpt) in
      let len := if length <? rlen then length else rlen in
      Ret (len, take (Z.to_nat len) rpt, set_reports dev next)
  end.

(** The loop of [read_callback] to the last report of the list: how many times it goes on. *)
Fixpoint hops (l : list (list Z)) : Z :=
  match l with
  | [] | [_] => 0
  | _ :: l' => 1 + hops l'
  end.

(** The reports after the arrival of [rpt],
    src/external/odroid-smartpower-linux/hid.c:660-684. *)
Definition attach_report dev (rpt : list Z) : outcome (hid_device H) :=
  match hd_input_reports dev with
  | [] => Ret (set_reports dev [rpt])
  | cur =>
      let num_queued := hops cur in
      let dev := set_reports dev (cur ++ [rpt]) in
      if 30 <? num_queued then '(_, _, dev) ← return_data dev 0; Ret dev else Ret dev
  end.

(** A call of [read_callback]: the status of the transfer, the bytes it brought and what
    submitting it again returns. *)
Record callback := mkCallback { cb_status : libusb_transfer_status; cb_data : list Z; cb_submit : Z }.

(** The end of [read_callback],
    src/external/odroid-smartpower-linux/hid.c:702-708. *)
Definition resubmit dev (res : Z) : hid_device H :=
  if res =? 0 then dev else set_stop dev true true.

(** [read_callback], src/external/odroid-smartpower-linux/hid.c:645-709. *)
Definition read_callback dev (cb : callback) : outcome (hid_device H) :=
  match cb_status cb with
  | LIBUSB_TRANSFER_COMPLETED =>
      dev ← attach_report dev (cb_data cb);
      Ret (resubmit dev (cb_submit cb))
  | LIBUSB_TRANSFER_CANCELLED | LIBUSB_TRANSFER_NO_DEVICE => Ret (set_stop dev true true)
  | _ => Ret (resubmit dev (cb_submit cb))
  end.

(** *** Reading *)

(** What a thread that waits on the condition variable sees: the calls of [read_callback] while
    it was asleep, and how the wait ended. *)
Inductive wait_end := WaitWoken | WaitTimedOut | WaitError.
Record wait_event := mkWait { we_callbacks : list callback; we_end : wait_end }.

Definition wait_effect dev (e : wait_event) : outcome (hid_device H) :=
  fold_out (we_callbacks e) dev read_callback.

(** [!dev->input_reports && !dev->shutdown_thread] *)
Definition must_wait dev : bool :=
  match hd_input_reports dev with [] => negb (hd_shutdown_thread dev) | _ => false end.

(** [if (dev->input_reports) bytes_read = return_data(dev, data, length);] *)
Definition return_if_any dev (length : Z) : outcome (Z * list Z * hid_device H) :=
  match hd_input_reports dev with
  | [] => Ret (-1, [], dev)
  | _ => return_data dev length
  end.

(** The loop of a blocking read,
    src/external/odroid-smartpower-linux/hid.c:1019-1026. *)
Fixpoint blocking_wait dev (events : list wait_event) : outcome (hid_device H) :=
  if must_wait dev then
    match events with
    | [] => Undef "waits for ever"
    | e :: events' => dev ← wait_effect dev e; blocking_wait dev events'
    end
  else Ret dev.

(** The loop of a timed read,
    src/external/odroid-smartpower-linux/hid.c:1039-1060. *)
Fixpoint timed_wait dev (length : Z) (events : list wait_event)
    : outcome (Z * list Z * hid_device H) :=
  if must_wait dev then
    match events with
    | [] => Undef "waits for ever"
    | e :: events' =>
        dev ← wait_effect dev e;
        match we_end e with
        | WaitWoken =>
            match hd_input_reports dev with
            | [] => timed_wait dev length events'
            | _ => return_data dev length
            end
        | WaitTimedOut => Ret (0, [], dev)
        | WaitError => Ret (-1, [], dev)
        end
    end
  else Ret (-1, [], dev).

(** The deadline of a timed read, seconds and nanoseconds,
    src/external/odroid-smartpower-linux/hid.c:1030-1037. *)
Definition read_deadline (now : Z * Z) (milliseconds : Z) : Z * Z :=
  let tv_sec := now.1 + milliseconds / 1000 in
  let tv_nsec := now.2 + (milliseconds mod 1000) * 1000000 in
  if 1000000000 <=? tv_nsec then (tv_sec + 1, tv_nsec - 1000000000) else (tv_sec, tv_nsec).

(** [hid_read_timeout], src/external/odroid-smartpower-linux/hid.c:989-1072: the value
    returned, the bytes written to [data] and the device. *)
Definition hid_read_timeout dev (length milliseconds : Z) (events : list wait_event)
    : outcome (Z * list Z * hid_device H) :=
  match hd_input_reports dev with
  | _ :: _ => return_data dev length
  | [] =>
      if hd_shutdown_thread dev then Ret (-1, [], dev)
      else if milliseconds =? -1 then
        dev ← blocking_wait dev events; return_if_any dev length
      else if 0 <? milliseconds then timed_wait dev length events
      else Ret (0, [], dev)
  end.

(** [hid_read], src/external/odroid-smartpower-linux/hid.c:1074-1077. *)
Definition hid_read dev (length : Z) (events : list wait_event) :=
  hid_read_timeout dev length (if hd_blocking dev then -1 else 0) events.

(** [hid_set_nonblocking], src/external/odroid-smartpower-linux/hid.c:1079-1084. *)
Definition hid_set_nonblocking dev (nonblock : bool) : Z * hid_device H :=
  (0, set_blocking dev (negb nonblock)).
End device.
Arguments new_hid_device {H}.

(** ** Writing *)

(** The function of sync.c that an interrupt endpoint is written with: what it returns and
    [*transferred]. *)
Class InterruptTransfer (H D : Type) := {
  libusb_interrupt_transfer : forall (dev_handle : H) (endpoint : Z) (data : list Z)
    (length timeout : Z), M D (Z * Z) }.

Section write.
Context {H D : Type} `{ControlTransfer H D} `{InterruptTransfer H D}.

(** The device handle, which an open device has. *)
Definition handle_of (dev : hid_device H) : outcome H :=
  match hd_device_handle dev with
  | Some h => Ret h
  | None => Undef "dereference of a null handle"
  end.

(** The report number, the data without it when it is 0, their length and whether it has been
    skipped: the start of [hid_write], [hid_send_feature_report] and [hid_get_feature_report]. *)
Definition skip_report_id (data : list Z) (length : Z) : outcome (Z * list Z * Z * bool) :=
  report_number ← byte_at data 0;
  Ret (if report_number =? 0x0 then (report_number, drop 1 data, u64 (length - 1), true)
       else (report_number, data, length, false)).

(** [hid_write], src/external/odroid-smartpower-linux/hid.c:916-964. *)
Definition hid_write (dev : hid_device H) (data : list Z) (length : Z) : M D Z :=
  let* '(report_number, data, length, skipped) := lift (skip_report_id data length) in
  let* handle := lift (handle_of dev) in
  if hd_output_endpoint dev <=? 0 then
    let* '(res, _) := libusb_control_transfer handle
        (Z.lor (Z.lor LIBUSB_REQUEST_TYPE_CLASS LIBUSB_RECIPIENT_INTERFACE) LIBUSB_ENDPOINT_OUT)
        0x09 (Z.lor (Z.shiftl 2 8) report_number) (hd_interface dev) data (length mod 2 ^ 16) 1000 in
    ret (if res <? 0 then -1 else i32 (if (skipped : bool) then length + 1 else length))
  else
    let* '(res, actual_length) := libusb_interrupt_transfer handle (hd_output_endpoint dev)
        data (i32 length) 1000 in
    ret (if res <? 0 then -1 else if (skipped : bool) then actual_length + 1 else actual_length).

(** [hid_send_feature_report], src/external/odroid-smartpower-linux/hid.c:1087-1115. *)
Definition hid_send_feature_report (dev : hid_device H) (data : list Z) (length : Z) : M D Z :=
  let* '(report_number, data, length, skipped) := lift (skip_report_id data length) in
  let* handle := lift (handle_of dev) in
  let* '(res, _) := libusb_control_transfer handle
      (Z.lor (Z.lor LIBUSB_REQUEST_TYPE_CLASS LIBUSB_RECIPIENT_INTERFACE) LIBUSB_ENDPOINT_OUT)
      0x09 (Z.lor (Z.shiftl 3 8) report_number) (hd_interface dev) data (length mod 2 ^ 16) 1000 in
  ret (if res <? 0 then -1 else i32 (if (skipped : bool) then length + 1 else length)).

(** [hid_get_feature_report], src/external/odroid-smartpower-linux/hid.c:1117-1145: the value
    returned and the buffer after the call. *)
Definition hid_get_feature_report (dev : hid_device H) (data : list Z) (length : Z)
    : M D (Z * list Z) :=
  let* '(report_number, rest, length, skipped) := lift (skip_report_id data length) in
  let* handle := lift (handle_of dev) in
  let* '(res, new) := libusb_control_transfer handle
      (Z.lor (Z.lor LIBUSB_REQUEST_TYPE_CLASS LIBUSB_RECIPIENT_INTERFACE) LIBUSB_ENDPOINT_IN)
      0x01 (Z.lor (Z.shiftl 3 8) report_number) (hd_interface dev) rest (length mod 2 ^ 16) 1000 in
  let buf := (if (skipped : bool) then take 1 data else []) ++ overlay new rest in
  ret (if res <? 0 then -1 else if (skipped : bool) then res + 1 else res, buf).
End write.

(** ** Finding and opening devices *)

(** The functions of core.c and descriptor.c that hid.c calls.  An output parameter that is not
    written is [None]. *)
Class Libusb (H D : Type) := {
  (** [usb_context] is not null; [libusb_init] sets it. *)
  usb_context_set : D -> bool;
  lu_init : M D Z;
  (** [libusb_exit], after which [usb_context] is null. *)
  lu_exit : M D unit;
  lu_get_device_list : M D (Z * option (list libusb_device));
  lu_free_device_list : list libusb_device -> M D unit;
  lu_get_device_descriptor : libusb_device -> M D (Z * option libusb_device_descriptor);
  lu_get_active_config_descriptor : libusb_device -> M D (Z * block libusb_config_descriptor);
  lu_get_config_descriptor : libusb_device -> Z -> M D (Z * block libusb_config_descriptor);
  lu_free_config_descriptor : block libusb_config_descriptor -> M D unit;
  lu_open : libusb_device -> M D (Z * option H);
  lu_close : H -> M D unit;
  lu_kernel_driver_active : H -> Z -> M D Z;
  lu_detach_kernel_driver : H -> Z -> M D Z;
  lu_claim_interface : H -> Z -> M D Z;
  lu_release_interface : H -> Z -> M D Z;
  (** [pthread_create] of [read_thread] and the barrier it is waited for at. *)
  start_read_thread : hid_device H -> M D unit;
  (** The cancellation of the transfer, [pthread_join] of [read_thread] and the freeing of the
      transfer: the device with the reports that arrived meanwhile. *)
  stop_read_thread : hid_device H -> M D (hid_device H) }.

(** [hid_device_info], src/external/odroid-smartpower-linux/hidapi.h:48-79; the pointer to the
    next record is the list. *)
Record hid_device_info := mk_hid_info {
  hi_path : string; hi_vendor_id : Z; hi_product_id : Z; hi_serial_number : option (list Z);
  hi_release_number : Z; hi_manufacturer_string : option (list Z);
  hi_product_string : option (list Z); hi_interface_number : Z }.

Section enumerate.
Context {H D : Type} `{HostOrder} `{ControlTransfer H D} `{Libusb H D}.
Context (iconv : list Z -> nat -> option (list Z)) (locale : option string).

(** [hid_init], src/external/odroid-smartpower-linux/hid.c:407-423: [libusb_init] is called once. *)
Definition hid_init : M D Z :=
  let* ready := gets usb_context_set in
  if ready : bool then ret 0 else let* r := lu_init in ret (if r =? 0 then 0 else -1).

(** [hid_exit], src/external/odroid-smartpower-linux/hid.c:425-433. *)
Definition hid_exit : M D Z :=
  let* ready := gets usb_context_set in
  if ready : bool then do* lu_exit in ret 0 else ret 0.

(** The string with an index, when the device has one. *)
Definition string_if (handle : H) (idx : Z) : M D (option (list Z)) :=
  if 0 <? idx then get_usb_string iconv locale handle idx else ret None.

(** The record of an interface whose identifiers match,
    src/external/odroid-smartpower-linux/hid.c:476-562. *)
Definition hid_info (dev : libusb_device) (desc : libusb_device_descriptor) (interface_num : Z)
    : M D hid_device_info :=
  let* '(res, handle) := lu_open dev in
  let* '(serial, manufacturer, product) :=
    match (if res <? 0 then None else handle) with
    | Some handle =>
        let* serial := string_if handle (dd_iSerialNumber desc) in
        let* manufacturer := string_if handle (dd_iManufacturer desc) in
        let* product := string_if handle (dd_iProduct desc) in
        do* lu_close handle in
        ret (serial, manufacturer, product)
    | None => ret (None, None, None)
    end in
  ret (mk_hid_info (make_path dev interface_num) (dd_idVendor desc) (dd_idProduct desc) serial
         (dd_bcdDevice desc) manufacturer product interface_num).

(** The alternate settings of the interfaces of a configuration, in the order of the loops. *)
Definition config_altsettings (c : libusb_config_descriptor)
    : outcome (list libusb_interface_descriptor) :=
  ifs ← array_prefix (cd_bNumInterfaces c) (default [] (snd <$> cd_interface c));
  alts ← map_out ifs (fun i => array_prefix (if_num_altsetting i) (default [] (snd <$> if_altsetting i)));
  Ret (concat alts).

Definition ids_match (vendor_id product_id : Z) (desc : libusb_device_descriptor) : bool :=
  ((vendor_id =? 0x0) || (vendor_id =? dd_idVendor desc))
  && ((product_id =? 0x0) || (product_id =? dd_idProduct desc)).

(** The loops over the interfaces of a device, with the records found so far. *)
Definition enumerate_config (vendor_id product_id : Z) (dev : libusb_device)
    (desc : libusb_device_descriptor) (c : libusb_config_descriptor) (found : list hid_device_info)
    : M D (list hid_device_info) :=
  let* alts := lift (config_altsettings c) in
  for_fold alts found (fun found intf_desc =>
    if (id_bInterfaceClass intf_desc =? LIBUSB_CLASS_HID) && ids_match vendor_id product_id desc then
      let* info := hid_info dev desc (id_bInterfaceNumber intf_desc) in ret (found ++ [info])
    else ret found).

(** The body of the loop over the devices of [hid_enumerate]: what
    [libusb_get_device_descriptor] returns is not looked at, and [desc] is read. *)
Definition enumerate_device (vendor_id product_id : Z) (found : list hid_device_info)
    (dev : libusb_device) : M D (list hid_device_info) :=
  let* '(_, desc) := lu_get_device_descriptor dev in
  match desc with
  | None => undef "value of an uninitialised descriptor"
  | Some desc =>
      let* '(res, conf) := lu_get_active_config_descriptor dev in
      let* conf := (if res <? 0 then
                      let* '(_, conf) := lu_get_config_descriptor dev 0 in ret conf
                    else ret conf) in
      match conf with
      | None => ret found
      | Some (_, c) =>
          let* found := enumerate_config vendor_id product_id dev desc c found in
          do* lu_free_config_descriptor conf in
          ret found
      end
  end.

(** [hid_enumerate], src/external/odroid-smartpower-linux/hid.c:435-594. *)
Definition hid_enumerate (vendor_id product_id : Z) : M D (list hid_device_info) :=
  let* r := hid_init in
  if r <? 0 then ret []
  else
    let* '(num_devs, devs) := lu_get_device_list in
    if num_devs <? 0 then ret []
    else
      match devs with
      | None => undef "value of an uninitialised pointer"
      | Some devs =>
          let* found := for_fold devs [] (enumerate_device vendor_id product_id) in
          do* lu_free_device_list devs in
          ret found
      end.

(** The loop of [hid_open] over the devices found: the path of the first that matches. *)
Fixpoint path_to_open (vendor_id product_id : Z) (serial_number : option (list Z))
    (devs : list hid_device_info) : outcome (option string) :=
  match devs with
  | [] => Ret None
  | cur_dev :: next =>
      if (hi_vendor_id cur_dev =? vendor_id) && (hi_product_id cur_dev =? product_id) then
        match serial_number with
        | None => Ret (Some (hi_path cur_dev))
        | Some s =>
            match hi_serial_number cur_dev with
            | None => Undef "wcscmp of a null pointer"
            | Some s' =>
                if bool_decide (s = s') then Ret (Some (hi_path cur_dev))
                else path_to_open vendor_id product_id serial_number next
            end
        end
      else path_to_open vendor_id product_id serial_number next
  end.

(** One iteration of the loop over the endpoints of [hid_open_path],
    src/external/odroid-smartpower-linux/hid.c:856-884. *)
Definition use_endpoint (dev : hid_device H) (ep : libusb_endpoint_descriptor) : hid_device H :=
  let is_interrupt := Z.land (ed_bmAttributes ep) LIBUSB_TRANSFER_TYPE_MASK =? LIBUSB_TRANSFER_TYPE_INTERRUPT in
  let is_output := Z.land (ed_bEndpointAddress ep) LIBUSB_ENDPOINT_DIR_MASK =? LIBUSB_ENDPOINT_OUT in
  let is_input := Z.land (ed_bEndpointAddress ep) LIBUSB_ENDPOINT_DIR_MASK =? LIBUSB_ENDPOINT_IN in
  let dev :=
    if (hd_input_endpoint dev =? 0) && is_interrupt && is_input then
      mk_hid_device (hd_device_handle dev) (ed_bEndpointAddress ep) (hd_output_endpoint dev)
        (ed_wMaxPacketSize ep) (hd_interface dev) (hd_manufacturer_index dev)
        (hd_product_index dev) (hd_serial_index dev) (hd_blocking dev) (hd_shutdown_thread dev)
        (hd_cancelled dev) (hd_input_reports dev)
    else dev in
  if (hd_output_endpoint dev =? 0) && is_interrupt && is_output then
    mk_hid_device (hd_device_handle dev) (hd_input_endpoint dev) (ed_bEndpointAddress ep)
      (hd_input_ep_max_packet_size dev) (hd_interface dev) (hd_manufacturer_index dev)
      (hd_product_index dev) (hd_serial_index dev) (hd_blocking dev) (hd_shutdown_thread dev)
      (hd_cancelled dev) (hd_input_reports dev)
  else dev.

(** The fields that an open device gets from its descriptors, but for the endpoints. *)
Definition opened (dev : hid_device H) (handle : H) (desc : libusb_device_descriptor)
    (interface : Z) : hid_device H :=
  mk_hid_device (Some handle) (hd_input_endpoint dev) (hd_output_endpoint dev)
    (hd_input_ep_max_packet_size dev) interface (dd_iManufacturer desc) (dd_iProduct desc)
    (dd_iSerialNumber desc) (hd_blocking dev) (hd_shutdown_thread dev) (hd_cancelled dev)
    (hd_input_reports dev).

(** Detach the kernel driver, when there is one, and claim the interface. *)
Definition detach_and_claim (handle : H) (interface : Z) : M D bool :=
  let* active := lu_kernel_driver_active handle interface in
  let* res := (if active =? 1 then lu_detach_kernel_driver handle interface else ret 0) in
  if res <? 0 then ret false
  else let* res := lu_claim_interface handle interface in ret (negb (res <? 0)).

(** What [hid_open_path] does with the alternate setting that has the path: the device, whether
    it is open, and whether the loop over the alternate settings is left,
    src/external/odroid-smartpower-linux/hid.c:812-891. *)
Definition open_altsetting (dev : hid_device H) (good_open : bool) (usb_dev : libusb_device)
    (desc : option libusb_device_descriptor) (intf_desc : libusb_interface_descriptor)
    : M D (hid_device H * bool * bool) :=
  let* '(res, handle) := lu_open usb_dev in
  match (if res <? 0 then None else handle) with
  | None => ret (dev, good_open, true)
  | Some handle =>
      let* ok := detach_and_claim handle (id_bInterfaceNumber intf_desc) in
      if ok : bool then
        let* desc := lift (match desc with
                           | Some d => Ret d
                           | None => Undef "value of an uninitialised descriptor"
                           end) in
        let dev := opened dev handle desc (id_bInterfaceNumber intf_desc) in
        let* eps := lift (array_prefix (id_bNumEndpoints intf_desc) (default [] (snd <$> id_endpoint intf_desc))) in
        let dev := fold_left use_endpoint eps dev in
        do* start_read_thread dev in
        ret (dev, true, false)
      else do* lu_close handle in ret (dev, false, true)
  end.

(** The loop over the alternate settings of an interface. *)
Fixpoint open_altsettings (path : string) (usb_dev : libusb_device)
    (desc : option libusb_device_descriptor) (alts : list libusb_interface_descriptor)
    (dev : hid_device H) (good_open : bool) : M D (hid_device H * bool) :=
  match alts with
  | [] => ret (dev, good_open)
  | intf_desc :: alts' =>
      if (id_bInterfaceClass intf_desc =? LIBUSB_CLASS_HID)
         && bool_decide (make_path usb_dev (id_bInterfaceNumber intf_desc) = path) then
        let* '(dev, good_open, leave) := open_altsetting dev good_open usb_dev desc intf_desc in
        if (leave : bool) then ret (dev, good_open)
        else open_altsettings path usb_dev desc alts' dev good_open
      else open_altsettings path usb_dev desc alts' dev good_open
  end.

(** The body of the loop over the devices of [hid_open_path]. *)
Definition open_device (path : string) (st : hid_device H * bool) (usb_dev : libusb_device)
    : M D (hid_device H * bool) :=
  let* '(_, desc) := lu_get_device_descriptor usb_dev in
  let* '(res, conf) := lu_get_active_config_descriptor usb_dev in
  if res <? 0 then ret st
  else
    match conf with
    | None => undef "dereference of a null configuration"
    | Some (_, c) =>
        let* ifs := lift (array_prefix (cd_bNumInterfaces c) (default [] (snd <$> cd_interface c))) in
        let* st := for_fold ifs st (fun '(dev, good_open) intf =>
          let* alts := lift (array_prefix (if_num_altsetting intf) (default [] (snd <$> if_altsetting intf))) in
          open_altsettings path usb_dev desc alts dev good_open) in
        do* lu_free_config_descriptor conf in
        ret st
    end.

(** [hid_open_path], src/external/odroid-smartpower-linux/hid.c:783-913. *)
Definition hid_open_path (path : string) : M D (option (hid_device H)) :=
  let* r := hid_init in
  if r <? 0 then ret None
  else
    let* '(_, devs) := lu_get_device_list in
    match devs with
    | None => undef "value of an uninitialised pointer"
    | Some devs =>
        let* '(dev, good_open) := for_fold devs (new_hid_device, false) (open_device path) in
        do* lu_free_device_list devs in
        ret (if (good_open : bool) then Some dev else None)
    end.

(** [hid_open], src/external/odroid-smartpower-linux/hid.c:610-643. *)
Definition hid_open (vendor_id product_id : Z) (serial_number : option (list Z))
    : M D (option (hid_device H)) :=
  let* devs := hid_enumerate vendor_id product_id in
  let* path := lift (path_to_open vendor_id product_id serial_number devs) in
  match path with
  | None => ret None
  | Some p => hid_open_path p
  end.
End enumerate.

(** ** The thread that reads and the one that closes *)

(** The transfer of the device: not submitted, in flight, cancelled because its five seconds
    are over, cancelled by [libusb_cancel_transfer], delivered to [read_callback], freed. *)
Inductive transfer_state := Idle | Flying | TimingOut | Cancelling | InCallback (cb : callback) | Freed.

(** Where [read_thread] is: before its submission, in its loop, at [libusb_cancel_transfer], in
    the loop that waits for [cancelled], returned. *)
Inductive reader_pc := RStart | RLoop | RCancel | RWait | REnd.
(** Where the thread that calls [hid_close] is: before the call, having set [shutdown_thread], at
    [pthread_join], having freed the transfer. *)
Inductive closer_pc := COpen | CCancel | CJoin | CFreed.

Record hid_state := mkHid {
  hs_dev : hid_device unit; hs_transfer : transfer_state; hs_reader : reader_pc; hs_closer : closer_pc }.

(** [libusb_cancel_transfer]: a transfer in flight is to be reported as cancelled; one that is
    being cancelled since it timed out is still to be reported as timed out. *)
Definition cancel_transfer (t : transfer_state) : transfer_state :=
  match t with Flying => Cancelling | _ => t end.

(** The transfer after its callback: submitted again unless the callback returned early or the
    submission failed. *)
Definition after_callback (cb : callback) : transfer_state :=
  match cb_status cb with
  | LIBUSB_TRANSFER_CANCELLED | LIBUSB_TRANSFER_NO_DEVICE => Idle
  | _ => if cb_submit cb =? 0 then Flying else Idle
  end.

(** With which status libusb may report the end of a transfer. *)
Definition may_report (t : transfer_state) (status : libusb_transfer_status) : Prop :=
  match t with
  | Flying => status <> LIBUSB_TRANSFER_CANCELLED /\ status <> LIBUSB_TRANSFER_TIMED_OUT
  | TimingOut => status = LIBUSB_TRANSFER_TIMED_OUT \/ status = LIBUSB_TRANSFER_NO_DEVICE
  | Cancelling => status = LIBUSB_TRANSFER_CANCELLED \/ status = LIBUSB_TRANSFER_NO_DEVICE
  | _ => False
  end.

Definition in_callback (t : transfer_state) : bool := match t with InCallback _ => true | _ => false end.

(** The steps of [read_thread], src/external/odroid-smartpower-linux/hid.c:712-780, which
    handles the events of the transfer in its two loops, and of [hid_close],
    src/external/odroid-smartpower-linux/hid.c:1148-1178.  The events and the callback run in
    the thread that reads, which does nothing else meanwhile. *)
Inductive hid_step : hid_state -> hid_state -> Prop :=
  | read_submit dev c res :
      hid_step (mkHid dev Idle RStart c) (mkHid dev (if res =? 0 then Flying else Idle) RLoop c)
  | read_timeout dev r c :
      (r = RLoop \/ r = RWait) ->
      hid_step (mkHid dev Flying r c) (mkHid dev TimingOut r c)
  | read_event dev t r c cb :
      (r = RLoop \/ r = RWait) -> may_report t (cb_status cb) ->
      hid_step (mkHid dev t r c) (mkHid dev (InCallback cb) r c)
  | read_called dev cb dev' r c :
      read_callback dev cb = Ret dev' ->
      hid_step (mkHid dev (InCallback cb) r c) (mkHid dev' (after_callback cb) r c)
  | read_leave dev t c :
      in_callback t = false -> hd_shutdown_thread dev = true ->
      hid_step (mkHid dev t RLoop c) (mkHid dev t RCancel c)
  (** A fatal error of [libusb_handle_events]. *)
  | read_fatal dev t c :
      in_callback t = false ->
      hid_step (mkHid dev t RLoop c) (mkHid dev t RCancel c)
  | read_cancel dev t c :
      hid_step (mkHid dev t RCancel c) (mkHid dev (cancel_transfer t) RWait c)
  | read_end dev t c :
      in_callback t = false -> hd_cancelled dev = true ->
      hid_step (mkHid dev t RWait c) (mkHid dev t REnd c)
  | close_shutdown dev t r :
      r <> RStart ->
      hid_step (mkHid dev t r COpen) (mkHid (set_stop dev true (hd_cancelled dev)) t r CCancel)
  | close_cancel dev t r :
      hid_step (mkHid dev t r CCancel) (mkHid dev (cancel_transfer t) r CJoin)
  | close_join dev t :
      hid_step (mkHid dev t REnd CJoin) (mkHid (set_reports dev []) Freed REnd CFreed).

(** An open device: the thread has been started. *)
Definition hid_start : hid_state := mkHid new_hid_device Idle RStart COpen.

Inductive hid_steps : hid_state -> hid_state -> Prop :=
  | hid_steps_nil s : hid_steps s s
  | hid_steps_cons s1 s2 s3 : hid_step s1 s2 -> hid_steps s2 s3 -> hid_steps s1 s3.

(** ** The strings of an open device *)
Section strings.
Context {H D : Type} `{HostOrder} `{ControlTransfer H D}.
Context (iconv : list Z -> nat -> option (list Z)) (locale : option string).

(** [wcsncpy(string, str, maxlen); string[maxlen-1] = 0;], with [maxlen] of at least 1. *)
Definition copy_wide (str : list Z) (maxlen : nat) : list Z :=
  take (maxlen - 1) (str ++ replicate maxlen 0) ++ [0].

(** [hid_get_indexed_string],
    src/external/odroid-smartpower-linux/hid.c:1196-1209: the value returned and the buffer. *)
Definition hid_get_indexed_string (dev : hid_device H) (string_index : Z) (maxlen : nat)
    : M D (Z * option (list Z)) :=
  let* handle := lift (handle_of dev) in
  let* str := get_usb_string iconv locale handle string_index in
  match str with
  | None => ret (-1, None)
  | Some str =>
      match maxlen with
      | O => undef "write before the start of the buffer"
      | S _ => ret (0, Some (copy_wide str maxlen))
      end
  end.

(** [hid_get_manufacturer_string],
    src/external/odroid-smartpower-linux/hid.c:1181-1184. *)
Definition hid_get_manufacturer_string (dev : hid_device H) (maxlen : nat) :=
  hid_get_indexed_string dev (hd_manufacturer_index dev) maxlen.

(** [hid_get_product_string], src/external/odroid-smartpower-linux/hid.c:1186-1189. *)
Definition hid_get_product_string (dev : hid_device H) (maxlen : nat) :=
  hid_get_indexed_string dev (hd_product_index dev) maxlen.

(** [hid_get_serial_number_string],
    src/external/odroid-smartpower-linux/hid.c:1191-1194. *)
Definition hid_get_serial_number_string (dev : hid_device H) (maxlen : nat) :=
  hid_get_indexed_string dev (hd_serial_index dev) maxlen.
End strings.

(** [hid_error], src/external/odroid-smartpower-linux/hid.c:1212-1215. *)
Definition hid_error {H} (dev : hid_device H) : option (list Z) := None.

(** The queue is emptied by [hid_close], src/external/odroid-smartpower-linux/hid.c:1170-1175. *)
Fixpoint clear_reports {H} (fuel : nat) (dev : hid_device H) : outcome (hid_device H) :=
  match hd_input_reports dev with
  | [] => Ret dev
  | _ =>
      match fuel with
      | O => Undef out_of_fuel
      | S fuel => '(_, _, dev) ← return_data dev 0; clear_reports fuel dev
      end
  end.

(** [hid_close], src/external/odroid-smartpower-linux/hid.c:1148-1178, of a device that is not
    null, in one thread; what it does while the other thread runs is below. *)
Definition hid_close {H D} `{Libusb H D} (dev : hid_device H) : M D unit :=
  let* dev := stop_read_thread (set_stop dev true (hd_cancelled dev)) in
  let* handle := lift (handle_of dev) in
  do* lu_release_interface handle (hd_interface dev) in
  do* lu_close handle in
  do* lift (clear_reports (length (hd_input_reports dev)) dev) in
  ret tt.

(** ** The queue of reports *)
Section queue.
Context {H : Type}.
Implicit Types (dev : hid_device H).

(** A queue of at most 32 reports that drops its oldest one. *)
Definition bounded_push (q : list (list Z)) (rpt : list Z) : list (list Z) :=
  if 32 <? Z.of_nat (length (q ++ [rpt])) then tail (q ++ [rpt]) else q ++ [rpt].

Lemma hops_length l : l <> [] -> hops l = Z.of_nat (length l) - 1.
Proof.
  induction l as [|a l IH]; [done|]. intros _. destruct l as [|b l]; [done|].
  change (hops (a :: b :: l)) with (1 + hops (b :: l)). rewrite IH by done. cbn [length]. lia.
Qed.

Lemma set_reports_twice dev l l' : set_reports (set_reports dev l) l' = set_reports dev l'.
Proof. done. Qed.

Lemma attach_report_push dev rpt :
  attach_report dev rpt = Ret (set_reports dev (bounded_push (hd_input_reports dev) rpt)).
Proof.
  unfold attach_report, bounded_push. destruct (hd_input_reports dev) as [|r q] eqn:E; [done|].
  rewrite hops_length by done. rewrite length_app. cbn [length].
  destruct (Z.ltb_spec 30 (Z.of_nat (S (length q)) - 1)), (Z.ltb_spec 32 (Z.of_nat (S (length q) + 1)));
    try lia; done.
Qed.

Lemma bounded_push_length q rpt :
  (length q <= 32)%nat -> (length (bounded_push q rpt) <= 32)%nat.
Proof.
  intros Hq. unfold bounded_push.
  destruct (Z.ltb_spec 32 (Z.of_nat (length (q ++ [rpt])))) as [_|E]; [|lia].
  destruct q; simpl in *; [lia|]. rewrite length_app. simpl. lia.
Qed.

(** Whether a callback stops the thread that reads. *)
Definition stops_reader (cb : callback) : bool :=
  match cb_status cb with
  | LIBUSB_TRANSFER_CANCELLED | LIBUSB_TRANSFER_NO_DEVICE => true
  | _ => negb (cb_submit cb =? 0)
  end.
Definition brings (cb : callback) : bool :=
  bool_decide (cb_status cb = LIBUSB_TRANSFER_COMPLETED).

Lemma read_callback_returns dev cb :
  exists dev', read_callback dev cb = Ret dev' /\
    hd_input_reports dev' = (if brings cb then bounded_push (hd_input_reports dev) (cb_data cb)
                             else hd_input_reports dev) /\
    hd_shutdown_thread dev' = stops_reader cb || hd_shutdown_thread dev /\
    hd_cancelled dev' = stops_reader cb || hd_cancelled dev.
Proof.
  unfold read_callback, stops_reader, brings, resubmit. rewrite attach_report_push.
  destruct (cb_status cb); cbn [mbind outcome_bind]; eexists; (split; [reflexivity|]);
    rewrite ?bool_decide_eq_true_2, ?bool_decide_eq_false_2 by congruence;
    by destruct (cb_submit cb =? 0).
Qed.

(** What happens to a device: a callback between two reads, a read with the time it may take
    (-1 for ever, 0 not at all) and what happens while it waits, a read of the kind that
    [hid_set_nonblocking] has chosen, and that choice. *)
Inductive hid_op :=
  | OpCallback (cb : callback)
  | OpReadTimeout (length milliseconds : Z) (events : list wait_event)
  | OpRead (length : Z) (events : list wait_event)
  | OpSetNonblocking (nonblock : bool).

Fixpoint run_ops (ops : list hid_op) dev : outcome (list (Z * list Z) * hid_device H) :=
  match ops with
  | [] => Ret ([], dev)
  | OpCallback cb :: ops' => dev ← read_callback dev cb; run_ops ops' dev
  | OpReadTimeout length milliseconds events :: ops' =>
      '(r, data, dev) ← hid_read_timeout dev length milliseconds events;
      '(outs, dev) ← run_ops ops' dev;
      Ret ((r, data) :: outs, dev)
  | OpRead length events :: ops' =>
      '(r, data, dev) ← hid_read dev length events;
      '(outs, dev) ← run_ops ops' dev;
      Ret ((r, data) :: outs, dev)
  | OpSetNonblocking nonblock :: ops' => run_ops ops' (hid_set_nonblocking dev nonblock).2
  end.

(** The same on a queue alone, with whether the device has been stopped and whether a plain read
    blocks. *)
Record hid_queue := mkQueue { hq_reports : list (list Z); hq_stopped : bool; hq_blocking : bool }.

Definition queue_callback (q : hid_queue) (cb : callback) : hid_queue :=
  mkQueue (if brings cb then bounded_push (hq_reports q) (cb_data cb) else hq_reports q)
    (stops_reader cb || hq_stopped q) (hq_blocking q).

(** A read takes the first report; when there is none it fails on a stopped device, and otherwise
    waits for what comes next. A read that is [timed] gives up when its time is over or the wait
    fails. [None] is a read that waits on. *)
Fixpoint queue_read (timed : bool) (length : Z) (events : list wait_event) (q : hid_queue)
    : option ((Z * list Z) * hid_queue) :=
  match hq_reports q with
  | rpt :: l =>
      Some ((Z.min length (Z.of_nat (List.length rpt)), take (Z.to_nat length) rpt), mkQueue l (hq_stopped q) (hq_blocking q))
  | [] =>
      if hq_stopped q then Some ((-1, []), q)
      else
        match events with
        | [] => None
        | e :: events' =>
            let q' := fold_left queue_callback (we_callbacks e) q in
            match timed, we_end e with
            | true, WaitTimedOut => Some ((0, []), q')
            | true, WaitError => Some ((-1, []), q')
            | _, _ => queue_read timed length events' q'
            end
        end
  end.
(** A read that may take [milliseconds]: one that may not wait finds its time over at once. *)
Definition queue_read_timeout (length milliseconds : Z) (events : list wait_event) : hid_queue -> option ((Z * list Z) * hid_queue) :=
  if milliseconds =? -1 then queue_read false length events
  else if 0 <? milliseconds then queue_read true length events
  else queue_read true length [mkWait [] WaitTimedOut].

Fixpoint queue_ops (ops : list hid_op) (q : hid_queue) : option (list (Z * list Z) * hid_queue) :=
  match ops with
  | [] => Some ([], q)
  | OpCallback cb :: ops' => queue_ops ops' (queue_callback q cb)
  | OpReadTimeout length milliseconds events :: ops' =>
      '(out, q) ← queue_read_timeout length milliseconds events q; '(outs, q) ← queue_ops ops' q; Some (out :: outs, q)
  | OpRead length events :: ops' =>
      '(out, q) ← queue_read_timeout length (if hq_blocking q then -1 else 0) events q;
      '(outs, q) ← queue_ops ops' q; Some (out :: outs, q)
  | OpSetNonblocking nonblock :: ops' => queue_ops ops' (mkQueue (hq_reports q) (hq_stopped q) (negb nonblock))
  end.

(** The queue of a device. *)
Definition queue_of dev : hid_queue := mkQueue (hd_input_reports dev) (hd_shutdown_thread dev) (hd_blocking dev).
Definition queue_small (q : hid_queue) : Prop := (length (hq_reports q) <= 32)%nat.

Lemma queue_callback_small q cb : queue_small q -> queue_small (queue_callback q cb).
Proof. unfold queue_small, queue_callback. cbn. intros Hq. destruct (brings cb); [by apply bounded_push_length|done]. Qed.
Lemma queue_callbacks_small cbs q : queue_small q -> queue_small (fold_left queue_callback cbs q).
Proof. revert q. induction cbs as [|cb cbs IH]; intros q Hq; cbn; [done|]. by apply IH, queue_callback_small. Qed.

Lemma read_callback_queue dev cb : exists dev', read_callback dev cb = Ret dev' /\ queue_of dev' = queue_callback (queue_of dev) cb.
Proof.
  destruct (read_callback_returns dev cb) as (dev' & E & Hr & Hs & _). exists dev'. split; [done|].
  unfold queue_of, queue_callback. cbn. rewrite Hr, Hs. f_equal.
  revert E. unfold read_callback, resubmit. rewrite attach_report_push.
  destruct (cb_status cb); cbn; intros [= <-]; by destruct (cb_submit cb =? 0).
Qed.
Lemma wait_effect_queue dev e :
  exists dev', wait_effect dev e = Ret dev' /\ queue_of dev' = fold_left queue_callback (we_callbacks e) (queue_of dev).
Proof.
  unfold wait_effect. generalize (we_callbacks e). intros cbs. revert dev. induction cbs as [|cb cbs IH]; intros dev; [by exists dev|].
  destruct (read_callback_queue dev cb) as (dev1 & E1 & Q1). destruct (IH dev1) as (dev2 & E2 & Q2).
  exists dev2. cbn. rewrite E1, <- Q1. by split.
Qed.

(** What a read of the device returns, as the queue says it. *)
Definition read_agrees (o : outcome (Z * list Z * hid_device H)) (r : option ((Z * list Z) * hid_queue)) : Prop :=
  match r with
  | Some (out, q) => exists dev', o = Ret (out, dev') /\ queue_of dev' = q
  | None => o = Undef "waits for ever"
  end.

Lemma return_data_queue dev length rpt l timed events : 0 <= length -> hd_input_reports dev = rpt :: l ->
  read_agrees (return_data dev length) (queue_read timed length events (queue_of dev)).
Proof.
  intros Hlen E. unfold read_agrees. assert (queue_read timed length events (queue_of dev) =
    Some ((Z.min length (Z.of_nat (List.length rpt)), take (Z.to_nat length) rpt), mkQueue l (hd_shutdown_thread dev) (hd_blocking dev))) as ->
    by (unfold queue_of; rewrite E; by destruct events).
  exists (set_reports dev l). split; [|done]. unfold return_data. rewrite E.
  destruct (Z.ltb_spec length (Z.of_nat (List.length rpt))); [by rewrite Z.min_l by lia|].
  by rewrite Z.min_r, !take_ge by lia.
Qed.

(** The waits of the two kinds of read, from the same condition. *)
Lemma blocking_wait_queue events dev length : 0 <= length ->
  read_agrees (dev ← blocking_wait dev events; return_if_any dev length) (queue_read false length events (queue_of dev)).
Proof.
  intros Hlen. revert dev. induction events as [|e events IH]; intros dev;
    (destruct (hd_input_reports dev) as [|rpt l] eqn:E;
      [|unfold return_if_any; cbn [blocking_wait]; unfold must_wait; rewrite E; cbn [mbind outcome_bind]; rewrite E;
        by eapply return_data_queue]);
    cbn [blocking_wait queue_read queue_of hq_reports hq_stopped]; unfold must_wait; rewrite E;
    destruct (hd_shutdown_thread dev) eqn:Es; cbn [negb];
    try (exists dev; unfold return_if_any, queue_of; cbn [mbind outcome_bind]; by rewrite E, Es).
  - done.
  - destruct (wait_effect_queue dev e) as (dev1 & -> & Q).
    cbn [mbind outcome_bind]. rewrite <- Q. apply IH.
Qed.

Lemma timed_wait_queue events dev length : 0 <= length -> hd_input_reports dev = [] ->
  read_agrees (timed_wait dev length events) (queue_read true length events (queue_of dev)).
Proof.
  intros Hlen. revert dev. induction events as [|e events IH]; intros dev E; cbn [timed_wait]; unfold must_wait; rewrite E;
    destruct (hd_shutdown_thread dev) eqn:Es; cbn [negb queue_read queue_of hq_reports hq_stopped]; rewrite E, Es.
  - exists dev. split; [done|]. unfold queue_of. by rewrite E, Es.
  - done.
  - exists dev. split; [done|]. unfold queue_of. by rewrite E, Es.
  - destruct (wait_effect_queue dev e) as (dev1 & -> & Q).
    cbn [mbind outcome_bind]. rewrite <- Q.
    destruct (we_end e); [|by exists dev1..]. destruct (hd_input_reports dev1) as [|rpt l] eqn:E1; [by apply IH|].
    by eapply return_data_queue.
Qed.

Lemma hid_read_timeout_queue dev length ms events : 0 <= length ->
  read_agrees (hid_read_timeout dev length ms events) (queue_read_timeout length ms events (queue_of dev)).
Proof.
  intros Hlen. unfold hid_read_timeout, queue_read_timeout. destruct (hd_input_reports dev) as [|rpt l] eqn:E.
  2: by destruct (ms =? -1); [|destruct (0 <? ms)]; eapply return_data_queue.
  assert (hd_shutdown_thread dev = true -> forall timed events, queue_read timed length events (queue_of dev) = Some ((-1, []), queue_of dev)) as Hst.
  { intros Hs timed es. unfold queue_of. rewrite E, Hs. by destruct es. }
  destruct (ms =? -1).
  - destruct (hd_shutdown_thread dev); [rewrite Hst by done; by exists dev|]. by apply blocking_wait_queue.
  - destruct (0 <? ms); [destruct (hd_shutdown_thread dev); [rewrite Hst by done; by exists dev|by apply timed_wait_queue]|].
    destruct (hd_shutdown_thread dev) eqn:Es; [rewrite Hst by done; by exists dev|].
    unfold queue_of. rewrite E, Es. cbn. exists dev. unfold queue_of. by rewrite E, Es.
Qed.

Lemma queue_read_small timed length events q out q' : queue_small q -> queue_read timed length events q = Some (out, q') -> queue_small q'.
Proof.
  revert q. induction events as [|e events IH]; intros q Hq; cbn [queue_read]; destruct (hq_reports q) as [|rpt l] eqn:E.
  1,3: destruct (hq_stopped q); [by intros [= _ <-]|].
  - done.
  - pose proof (queue_callbacks_small (we_callbacks e) q Hq) as Hq'. destruct timed, (we_end e); try (by intros [= _ <-]); by apply IH.
  - intros [= _ <-]. unfold queue_small in *. rewrite E in Hq. cbn in *. lia.
  - intros [= _ <-]. unfold queue_small in *. rewrite E in Hq. cbn in *. lia.
Qed.
Lemma queue_read_timeout_small length ms events q out q' :
  queue_small q -> queue_read_timeout length ms events q = Some (out, q') -> queue_small q'.
Proof. unfold queue_read_timeout. destruct (ms =? -1); [|destruct (0 <? ms)]; apply queue_read_small. Qed.

(** The length of the buffer of a read, a [size_t]. *)
Definition op_ok (op : hid_op) : Prop := match op with OpReadTimeout n _ _ | OpRead n _ => 0 <= n | _ => True end.

Lemma run_ops_queue ops dev : Forall op_ok ops -> queue_small (queue_of dev) ->
  match queue_ops ops (queue_of dev) with
  | Some (outs, q) => exists dev', run_ops ops dev = Ret (outs, dev') /\ queue_of dev' = q /\ queue_small q
  | None => run_ops ops dev = Undef "waits for ever"
  end.
Proof.
  intros Hops. revert dev. induction Hops as [|op ops Hop Hops IH]; intros dev Hq; [by exists dev|].
  assert (forall length ms events, 0 <= length ->
    match '(out, q) ← queue_read_timeout length ms events (queue_of dev); '(outs, q) ← queue_ops ops q; Some (out :: outs, q) with
    | Some (outs, q) => exists dev', ('(r, data, dev) ← hid_read_timeout dev length ms events;
        '(outs, dev) ← run_ops ops dev; Ret ((r, data) :: outs, dev)) = Ret (outs, dev') /\ queue_of dev' = q /\ queue_small q
    | None => ('(r, data, dev) ← hid_read_timeout dev length ms events;
        '(outs, dev) ← run_ops ops dev; Ret ((r, data) :: outs, dev)) = Undef "waits for ever"
    end) as Hread.
  { intros length ms events Hl. pose proof (hid_read_timeout_queue dev length ms events Hl) as Hr. unfold read_agrees in Hr.
    destruct (queue_read_timeout length ms events (queue_of dev)) as [[[r data] q]|] eqn:Eq; cbn [mbind option_bind]; [|by rewrite Hr].
    destruct Hr as (dev1 & -> & Q1). pose proof (queue_read_timeout_small _ _ _ _ _ _ Hq Eq) as Hq1. rewrite <- Q1 in *.
    specialize (IH dev1 Hq1). cbn [mbind outcome_bind]. destruct (queue_ops ops (queue_of dev1)) as [[outs q']|]; cbn [mbind option_bind].
    - destruct IH as (dev2 & -> & Q2). by exists dev2.
    - by rewrite IH. }
  destruct op as [cb|length ms events|length events|nonblock]; cbn [queue_ops run_ops].
  - destruct (read_callback_queue dev cb) as (dev1 & -> & Q). cbn [mbind outcome_bind]. rewrite <- Q. apply IH.
    rewrite Q. by apply queue_callback_small.
  - by apply Hread.
  - unfold hid_read. by apply Hread.
  - by apply (IH (set_blocking dev (negb nonblock))).
Qed.
End queue.

Definition queue_start : hid_queue := mkQueue [] false true.

(** C27: whatever reports arrive, between the reads or while they wait, and whatever is read, with
    plain reads in blocking and non-blocking mode and with reads that have a time limit, the
    program reads what a queue of at most 32 reports that drops its oldest gives: the reports in
    the order in which they arrived, each cut to the buffer of the read that takes it. When there
    is no report, a read returns -1 if the device is gone; otherwise a blocking read waits until
    a report arrives or the device goes ([None]: it has not returned after all that happened), a
    read with a time limit returns 0 when its time is over, and -1 if the wait fails, and a
    non-blocking read returns 0. *)
Theorem hid_queue_refines (H : Type) ops :
  Forall op_ok ops ->
  match queue_ops ops queue_start with
  | Some (outs, q) => exists dev : hid_device H,
      run_ops ops new_hid_device = Ret (outs, dev) /\ hd_input_reports dev = hq_reports q /\
      hd_shutdown_thread dev = hq_stopped q /\ hd_blocking dev = hq_blocking q /\ (length (hq_reports q) <= 32)%nat
  | None => run_ops ops (new_hid_device (H := H)) = Undef "waits for ever"
  end.
Proof.
  intros Hops. pose proof (run_ops_queue ops (new_hid_device (H := H)) Hops ltac:(unfold queue_small; simpl; lia)) as Hr.
  change (queue_of (new_hid_device (H := H))) with queue_start in Hr.
  destruct (queue_ops ops queue_start) as [[outs q]|]; [|done]. destruct Hr as (dev & E & <- & Hl). by exists dev.
Qed.

(** The comment of the callback says that the queue stops growing at 30 reports; it holds 32. *)
Theorem hid_queue_holds_32 :
  (fun r => hq_reports r.2) <$>
    queue_ops (map (fun n => OpCallback (mkCallback LIBUSB_TRANSFER_COMPLETED [Z.of_nat n] 0)) (seq 0 40)) queue_start
  = Some (map (fun n => [Z.of_nat n]) (seq 8 32)).
Proof. vm_compute. reflexivity. Qed.

(** ** Reading *)
Section reading.
Context {H : Type}.
Implicit Types (dev : hid_device H).

(** The deadline of a timed read is [milliseconds] after now and is a valid time. *)
Theorem read_deadline_valid now ms :
  0 <= now.2 < 1000000000 -> 0 <= ms ->
  let d := read_deadline now ms in
  0 <= d.2 < 1000000000 /\
  d.1 * 1000000000 + d.2 = now.1 * 1000000000 + now.2 + ms * 1000000.
Proof.
  intros Hn Hms. unfold read_deadline.
  pose proof (Z.div_mod ms 1000 ltac:(lia)). pose proof (Z.mod_pos_bound ms 1000 eq_refl).
  destruct (Z.leb_spec 1000000000 (now.2 + ms mod 1000 * 1000000)); simpl; lia.
Qed.

(** A blocking read ends with a report or, when there is none, on a device that has been
    stopped. *)
Lemma blocking_wait_ends dev events dev' :
  blocking_wait dev events = Ret dev' ->
  hd_input_reports dev' <> [] \/ (hd_input_reports dev' = [] /\ hd_shutdown_thread dev' = true).
Proof.
  revert dev. induction events as [|e events IH]; intros dev; cbn [blocking_wait]; unfold must_wait.
  - destruct (hd_input_reports dev) as [|r q] eqn:E; [|intros [= <-]; left; by rewrite E].
    destruct (hd_shutdown_thread dev) eqn:Es; simpl; [|done]. intros [= <-]. right. by split.
  - destruct (hd_input_reports dev) as [|r q] eqn:E; [|intros [= <-]; left; by rewrite E].
    destruct (hd_shutdown_thread dev) eqn:Es; simpl; [intros [= <-]; right; by split|].
    intros Hw. minv Hw. by eapply IH.
Qed.

(** A blocking read that returns a value other than -1 has copied the first report of the
    queue, cut to the buffer; it returns -1 only when the device has been stopped and no report
    is left. *)
Theorem hid_read_blocking dev length events r data dev' :
  0 <= length -> hd_blocking dev = true ->
  hid_read dev length events = Ret (r, data, dev') ->
  (exists rpt dev1, hd_input_reports dev1 = rpt :: hd_input_reports dev' /\
     data = take (Z.to_nat length) rpt /\ r = Z.of_nat (List.length data)) \/
  (r = -1 /\ data = [] /\ hd_shutdown_thread dev' = true /\ hd_input_reports dev' = []).
Proof.
  intros Hlen Hb. unfold hid_read. rewrite Hb. unfold hid_read_timeout. cbn [Z.eqb Pos.eqb].
  assert (forall dev1 : hid_device H, hd_input_reports dev1 <> [] ->
    return_data dev1 length = Ret (r, data, dev') ->
    exists rpt dev1 : _, hd_input_reports (dev1 : hid_device H) = rpt :: hd_input_reports dev' /\
      data = take (Z.to_nat length) rpt /\ r = Z.of_nat (List.length data)) as Hret.
  { intros dev1 Hne. unfold return_data. destruct (hd_input_reports dev1) as [|rpt next] eqn:E; [done|].
    intros [= <- <- <-]. exists rpt, dev1. split; [done|].
    destruct (Z.ltb_spec length (Z.of_nat (List.length rpt))).
    - split; [done|]. rewrite length_take. lia.
    - rewrite !take_ge by lia. split; [done|]. lia. }
  destruct (hd_input_reports dev) as [|rpt q] eqn:E; [|left; by apply (Hret dev); [rewrite E|]].
  destruct (hd_shutdown_thread dev) eqn:Es; [intros [= <- <- <-]; right; by split_and!|].
  intros Hw. minv Hw. apply blocking_wait_ends in Hw0 as [Hne|[Hnil Hs]].
  - left. apply (Hret r0 Hne). unfold return_if_any in Hw.
    by destruct (hd_input_reports r0).
  - right. unfold return_if_any in Hw. rewrite Hnil in Hw. by injection Hw as <- <- <-.
Qed.
End reading.

(** ** The protocol of the threads *)

Definition in_flight (t : transfer_state) : Prop :=
  match t with Idle | Freed => False | _ => True end.

(** Once [cancelled] is set the transfer is not in flight, and never will be again; the thread
    that reads ends only then, and the transfer is freed only after that. *)
Definition hid_inv (s : hid_state) : Prop :=
  (in_flight (hs_transfer s) -> hd_cancelled (hs_dev s) = false) /\
  (hs_reader s = REnd -> hd_cancelled (hs_dev s) = true) /\
  (hs_transfer s = Freed <-> hs_closer s = CFreed) /\
  (hs_closer s = CFreed -> hs_reader s = REnd) /\
  (hs_reader s = RStart -> hs_transfer s = Idle /\ hs_closer s = COpen /\ hd_cancelled (hs_dev s) = false).

Lemma cancel_transfer_flight t : in_flight (cancel_transfer t) <-> in_flight t.
Proof. by destruct t. Qed.
Lemma cancel_transfer_freed t : cancel_transfer t = Freed <-> t = Freed.
Proof. by destruct t. Qed.
Lemma may_report_flight t status : may_report t status -> in_flight t /\ t <> Freed.
Proof. by destruct t. Qed.

Lemma after_callback_cancelled {H} (dev dev' : hid_device H) cb :
  read_callback dev cb = Ret dev' -> hd_cancelled dev = false ->
  (in_flight (after_callback cb) -> hd_cancelled dev' = false) /\ after_callback cb <> Freed.
Proof.
  intros E Hcan. destruct (read_callback_returns dev cb) as (dev1 & E1 & _ & _ & Ecan).
  rewrite E in E1. injection E1 as <-. rewrite Hcan, orb_false_r in Ecan. rewrite Ecan.
  unfold stops_reader, after_callback. destruct (cb_status cb); try done; by destruct (cb_submit cb =? 0).
Qed.

Lemma hid_inv_step s s' : hid_step s s' -> hid_inv s -> hid_inv s'.
Proof.
  unfold hid_inv. intros Hstep.
  destruct Hstep as [dev c res| |dev t r c cb Hr Hm|dev cb dev' r c E| | | | | | |];
    cbn [hs_dev hs_transfer hs_reader hs_closer set_stop set_reports hd_cancelled] in *;
    rewrite ?cancel_transfer_flight, ?cancel_transfer_freed; intros (Hc & He & Hf & Hg & Hs).
  all: try (destruct (Hs eq_refl) as (_ & -> & ->); destruct (res =? 0)).
  all: try (destruct (after_callback_cancelled _ _ _ E (Hc I))).
  all: try (destruct (may_report_flight _ _ Hm)).
  all: try (match goal with Hr : _ \/ _ |- _ => destruct Hr; subst end).
  all: cbn [in_flight] in *; split_and!; try (split; intros); try intros; intuition congruence.
Qed.

Lemma hid_inv_steps s s' : hid_steps s s' -> hid_inv s -> hid_inv s'.
Proof. induction 1; eauto using hid_inv_step. Qed.

Lemma hid_inv_start : hid_inv hid_start.
Proof. unfold hid_inv. simpl. naive_solver. Qed.

(** [hid_close] frees the transfer of a device only when it is not in flight and the thread
    that reads has ended, in every interleaving of the two threads; from then on the transfer is
    never submitted nor reported. *)
Theorem hid_close_frees_idle s s' :
  hid_steps hid_start s -> hid_step s s' ->
  (hs_closer s <> CFreed -> hs_closer s' = CFreed -> hs_transfer s = Idle /\ hs_reader s = REnd) /\
  (hs_transfer s = Freed -> hs_transfer s' = Freed).
Proof.
  intros Hsteps Hstep. pose proof (hid_inv_steps _ _ Hsteps hid_inv_start) as Hinv.
  pose proof (hid_inv_step _ _ Hstep Hinv) as Hinv'.
  destruct Hinv as (Hc & He & Hf & Hg & _). split.
  - intros Hne Heq. destruct Hstep; simpl in *; try congruence. split; [|done].
    specialize (He eq_refl). destruct t; simpl in *; try (specialize (Hc I); congruence); [done|].
    by destruct (proj1 Hf eq_refl).
  - intros Hfree. destruct Hinv' as (_ & _ & Hf' & _). apply Hf'. apply Hf in Hfree.
    destruct Hstep; simpl in *; congruence.
Qed.

Lemma hid_close_frees_idle_witness :
  exists s s', hid_steps hid_start s /\ hid_step s s' /\ hs_transfer s' = Freed /\
    hs_transfer s = Idle /\ hs_reader s = REnd.
Proof.
  set (cb := mkCallback LIBUSB_TRANSFER_CANCELLED [] 0).
  set (s := mkHid (set_stop new_hid_device true true) Idle REnd CJoin).
  assert (hid_steps hid_start s) as Hs.
  { eapply hid_steps_cons; [apply (read_submit _ _ 0)|].
    eapply hid_steps_cons; [by apply close_shutdown|].
    eapply hid_steps_cons; [apply close_cancel|].
    eapply hid_steps_cons; [apply (read_event _ _ _ _ cb); [by left|by left]|].
    eapply hid_steps_cons; [by apply read_called|].
    eapply hid_steps_cons; [by apply read_leave|].
    eapply hid_steps_cons; [apply read_cancel|].
    eapply hid_steps_cons; [by apply read_end|]. apply hid_steps_nil. }
  pose proof (close_join (set_stop new_hid_device true true) Idle) as Hj.
  exists s. eexists. split; [exact Hs|]. split; [exact Hj|]. split; [done|].
  exact (proj1 (hid_close_frees_idle s _ Hs Hj) ltac:(done) eq_refl).
Defined.

(** Steps in which the device stays connected and submitting a transfer again succeeds. *)
Definition quiet_step (s s' : hid_state) : Prop :=
  hid_step s s' /\
  match hs_transfer s' with
  | InCallback cb => cb_status cb <> LIBUSB_TRANSFER_NO_DEVICE /\ cb_submit cb = 0
  | _ => True
  end.
Inductive quiet_steps : hid_state -> hid_state -> Prop :=
  | quiet_steps_nil s : quiet_steps s s
  | quiet_steps_cons s1 s2 s3 : quiet_step s1 s2 -> quiet_steps s2 s3 -> quiet_steps s1 s3.

(** The five seconds of a read are over just before the device is closed: the cancellations of
    both threads find a transfer that is being cancelled already, its end is reported as a
    timeout, and the callback submits it again. *)
Theorem hid_close_lost_cancellation :
  exists s, hid_steps hid_start s /\ hs_closer s = CJoin /\
    forall s', quiet_steps s s' -> hs_closer s' = CJoin.
Proof.
  set (dev := set_stop new_hid_device true false : hid_device unit).
  exists (mkHid dev Flying RWait CJoin). split_and!; [|done|].
  - set (cb := mkCallback LIBUSB_TRANSFER_TIMED_OUT [] 0).
    eapply hid_steps_cons; [apply (read_submit _ _ 0)|].
    eapply hid_steps_cons; [apply read_timeout; by left|].
    eapply hid_steps_cons; [by apply close_shutdown|].
    eapply hid_steps_cons; [apply close_cancel|].
    eapply hid_steps_cons; [by apply read_leave|].
    eapply hid_steps_cons; [apply read_cancel|].
    eapply hid_steps_cons; [apply (read_event _ _ _ _ cb); [by right|by left]|].
    eapply hid_steps_cons; [by apply read_called|]. apply hid_steps_nil.
  - set (inv s := hs_reader s = RWait /\ hs_closer s = CJoin /\ hd_cancelled (hs_dev s) = false /\
      match hs_transfer s with
      | Flying | TimingOut => True
      | InCallback cb => cb_status cb <> LIBUSB_TRANSFER_CANCELLED /\
          cb_status cb <> LIBUSB_TRANSFER_NO_DEVICE /\ cb_submit cb = 0
      | _ => False
      end).
    assert (forall s s', quiet_step s s' -> inv s -> inv s') as Hkeep.
    { intros s s' [Hstep Hq] (Hr & Hc & Hcan & Ht).
      destruct Hstep as [| |d t r c cb Hrc Hm|d cb d' r c E| | | | | | |]; simpl in *; try congruence.
      - by split_and!.
      - destruct Hq. split_and!; try done. destruct t; simpl in *; intuition congruence.
      - destruct (read_callback_returns d cb) as (dev1 & E1 & _ & _ & Ecan).
        assert (dev1 = d') as -> by congruence. destruct Ht as (H1 & H2 & H3).
        unfold inv, stops_reader, after_callback in *. simpl. rewrite H3 in *.
        rewrite Ecan, Hcan. by destruct (cb_status cb). }
    assert (forall s s', quiet_steps s s' -> inv s -> inv s') as Hall by (induction 1; eauto).
    intros s' Hs'. by destruct (Hall _ _ Hs' ltac:(by split_and!)) as (_ & ? & _).
Qed.

(** The first submission of [read_thread] is not checked: when it fails, the thread never ends
    and neither does [hid_close]. *)
Theorem hid_close_failed_submission s :
  hid_steps (mkHid new_hid_device Idle RLoop COpen) s ->
  hs_closer s <> CFreed /\ hs_reader s <> REnd.
Proof.
  set (inv s := (hs_reader s = RLoop \/ hs_reader s = RCancel \/ hs_reader s = RWait) /\
    hs_closer s <> CFreed /\ hd_cancelled (hs_dev s) = false /\ hs_transfer s = Idle).
  assert (forall s s', hid_step s s' -> inv s -> inv s') as Hkeep.
  { intros s1 s2 Hstep (Hr & Hc & Hcan & Ht). unfold inv.
    destruct Hstep; simpl in *; subst; try done; intuition congruence. }
  intros Hs. assert (inv s) as (Hr & Hc & _); [|split; [done|]; intros E; rewrite E in Hr; intuition congruence].
  assert (forall s s', hid_steps s s' -> inv s -> inv s') as Hall by (induction 1; eauto).
  apply (Hall _ _ Hs). unfold inv. simpl. intuition congruence.
Qed.

(** ** Endpoints *)
Definition is_interrupt_ep (dir : Z) (ep : libusb_endpoint_descriptor) : bool :=
  (Z.land (ed_bmAttributes ep) LIBUSB_TRANSFER_TYPE_MASK =? LIBUSB_TRANSFER_TYPE_INTERRUPT)
  && (Z.land (ed_bEndpointAddress ep) LIBUSB_ENDPOINT_DIR_MASK =? dir)
  && negb (ed_bEndpointAddress ep =? 0).

(** The first interrupt endpoint in a direction. *)
Definition first_ep (dir : Z) (eps : list libusb_endpoint_descriptor) : option libusb_endpoint_descriptor :=
  head (filter (fun ep => is_interrupt_ep dir ep = true) eps).

Section endpoints.
Context {H : Type}.
Implicit Types (dev : hid_device H).

Definition input_of dev : Z * Z := (hd_input_endpoint dev, hd_input_ep_max_packet_size dev).
Definition ep_input (d : Z * Z) (ep : option libusb_endpoint_descriptor) : Z * Z :=
  from_option (fun e => (ed_bEndpointAddress e, ed_wMaxPacketSize e)) d ep.

Lemma use_endpoint_input dev ep :
  input_of (use_endpoint dev ep) =
  if (hd_input_endpoint dev =? 0) && is_interrupt_ep LIBUSB_ENDPOINT_IN ep
  then (ed_bEndpointAddress ep, ed_wMaxPacketSize ep) else input_of dev.
Proof.
  unfold use_endpoint, is_interrupt_ep, input_of.
  destruct (Z.eqb_spec (ed_bEndpointAddress ep) 0) as [E|_]; cbn [negb].
  - rewrite E. cbn. rewrite !andb_false_r. by destruct (_ && _).
  - rewrite !andb_true_r, andb_assoc. by destruct (_ && _ && _); destruct (_ && _ && _).
Qed.

Lemma use_endpoint_output dev ep :
  hd_output_endpoint (use_endpoint dev ep) =
  if (hd_output_endpoint dev =? 0) && is_interrupt_ep LIBUSB_ENDPOINT_OUT ep
  then ed_bEndpointAddress ep else hd_output_endpoint dev.
Proof.
  unfold use_endpoint, is_interrupt_ep.
  destruct dev as [hd ie oe ms i m p se b sh ca rs]. cbn [hd_input_endpoint hd_output_endpoint].
  destruct ((ie =? 0) && _ && _); cbn [hd_output_endpoint];
    (destruct (Z.eqb_spec oe 0) as [->|]; cbn [andb]; [|done]);
    (destruct (Z.eqb_spec (ed_bEndpointAddress ep) 0) as [E|]; cbn [negb]);
    rewrite ?andb_false_r, ?andb_true_r; destruct (_ && _); cbn [hd_output_endpoint]; congruence.
Qed.

Lemma first_ep_cons dir ep eps :
  first_ep dir (ep :: eps) = if is_interrupt_ep dir ep then Some ep else first_ep dir eps.
Proof. unfold first_ep. rewrite filter_cons. by destruct (is_interrupt_ep dir ep); case_decide. Qed.

Lemma is_interrupt_ep_address dir ep : is_interrupt_ep dir ep = true -> (ed_bEndpointAddress ep =? 0) = false.
Proof. unfold is_interrupt_ep. intros [_ E]%andb_true_iff. by destruct (_ =? 0). Qed.

Lemma use_endpoints_input eps dev :
  input_of (fold_left use_endpoint eps dev) =
  if hd_input_endpoint dev =? 0 then ep_input (input_of dev) (first_ep LIBUSB_ENDPOINT_IN eps)
  else input_of dev.
Proof.
  revert dev. induction eps as [|ep eps IH]; intros dev; [by destruct (_ =? 0)|].
  cbn [fold_left]. rewrite IH, first_ep_cons.
  change (hd_input_endpoint (use_endpoint dev ep)) with (fst (input_of (use_endpoint dev ep))).
  rewrite use_endpoint_input.
  destruct (hd_input_endpoint dev =? 0) eqn:E0; cbn [andb]; [|cbn [fst input_of]; by rewrite E0].
  destruct (is_interrupt_ep LIBUSB_ENDPOINT_IN ep) eqn:E; cbn [fst input_of]; [|by rewrite E0].
  by rewrite (is_interrupt_ep_address _ _ E).
Qed.

Lemma use_endpoints_output eps dev :
  hd_output_endpoint (fold_left use_endpoint eps dev) =
  if hd_output_endpoint dev =? 0 then from_option ed_bEndpointAddress 0 (first_ep LIBUSB_ENDPOINT_OUT eps)
  else hd_output_endpoint dev.
Proof.
  revert dev. induction eps as [|ep eps IH]; intros dev.
  { destruct (Z.eqb_spec (hd_output_endpoint dev) 0) as [E|]; [by rewrite <- E|done]. }
  cbn [fold_left]. rewrite IH, first_ep_cons, use_endpoint_output.
  destruct (hd_output_endpoint dev =? 0) eqn:E0; cbn [andb]; [|by rewrite E0].
  destruct (is_interrupt_ep LIBUSB_ENDPOINT_OUT ep) eqn:E; [|by rewrite E0].
  by rewrite (is_interrupt_ep_address _ _ E).
Qed.

(** Opening a device takes the address and the packet size of the first interrupt input
    endpoint and the address of the first interrupt output endpoint, 0 where there is none. *)
Theorem use_endpoints_first dev eps :
  hd_input_endpoint dev = 0 -> hd_output_endpoint dev = 0 ->
  let dev' := fold_left use_endpoint eps dev in
  input_of dev' = ep_input (input_of dev) (first_ep LIBUSB_ENDPOINT_IN eps) /\
  hd_output_endpoint dev' = from_option ed_bEndpointAddress 0 (first_ep LIBUSB_ENDPOINT_OUT eps).
Proof. intros Hi Ho. cbn zeta. by rewrite use_endpoints_input, use_endpoints_output, Hi, Ho. Qed.
End endpoints.

Lemma use_endpoints_first_witness :
  let ep a t := {| ed_bLength := 7; ed_bDescriptorType := 5; ed_bEndpointAddress := a;
                   ed_bmAttributes := t; ed_wMaxPacketSize := a; ed_bInterval := 1; ed_bRefresh := 0;
                   ed_bSynchAddress := 0; ed_extra := None; ed_extra_length := 0 |} in
  input_of (fold_left use_endpoint [ep 0x81 2; ep 0x82 3; ep 0x03 3; ep 0x83 3; ep 0x04 3]
              (new_hid_device (H := unit))) = (0x82, 0x82).
Proof.
  intros ep. refine (eq_trans (proj1 (use_endpoints_first new_hid_device _ eq_refl eq_refl)) _).
  reflexivity.
Defined.

(** ** Enumeration *)

(** What a computation does to the number of open handles, and what it returns, when it returns. *)
Definition moves {D A} (handles : D -> Z) (m : M D A) (d : Z) (R : A -> Prop) : Prop :=
  forall s a s', m s = (Ret a, s') -> handles s' = handles s + d /\ R a.

Lemma moves_ret {D A} handles (a : A) (R : A -> Prop) : R a -> moves (D := D) handles (ret a) 0 R.
Proof. intros HR s a' s' [= <- <-]. split; [lia|done]. Qed.
Lemma moves_bind {D A B} (handles : D -> Z) (m : M D A) (f : A -> M D B) d d' R R' :
  moves handles m d R -> (forall a, R a -> moves handles (f a) d' R') -> moves handles (bind m f) (d + d') R'.
Proof.
  intros Hm Hf s b s' (a & s1 & E1 & E2)%bind_Ret_inv. apply Hm in E1 as [E1 HR].
  apply (Hf a HR) in E2 as [E2 HR']. split; [lia|done].
Qed.
(** With nothing moved by the first part. *)
Lemma moves_bind0 {D A B} (handles : D -> Z) (m : M D A) (f : A -> M D B) R R' :
  moves handles m 0 R -> (forall a, R a -> moves handles (f a) 0 R') -> moves handles (bind m f) 0 R'.
Proof. intros Hm Hf. exact (moves_bind _ _ _ 0 0 _ _ Hm Hf). Qed.
Lemma moves_lift {D A} handles (o : outcome A) : moves (D := D) handles (lift o) 0 (fun a => o = Ret a).
Proof. intros s a s' [= -> <-]. split; [lia|done]. Qed.
Lemma moves_undef {D A} handles why d (R : A -> Prop) : moves (D := D) handles (undef why) d R.
Proof. by intros s a s' [=]. Qed.
Lemma moves_mono {D A} (handles : D -> Z) (m : M D A) d (R R' : A -> Prop) :
  moves handles m d R -> (forall a, R a -> R' a) -> moves handles m d R'.
Proof. intros Hm HR s a s' E. apply Hm in E as [E Ha]. split; [done|by apply HR]. Qed.
Lemma moves_fold {D A B} (handles : D -> Z) (I : list A -> B -> Prop) (f : B -> A -> M D B) l done_ b :
  (forall d a b, a ∈ l -> I d b -> moves handles (f b a) 0 (I (d ++ [a]))) ->
  I done_ b -> moves handles (for_fold l b f) 0 (I (done_ ++ l)).
Proof.
  revert done_ b. induction l as [|a l IH]; intros done_ b Hf HI; cbn [for_fold].
  - apply moves_ret. by rewrite app_nil_r.
  - eapply moves_bind0; [apply Hf; [left|exact HI]|]. intros b' HI'.
    replace (done_ ++ a :: l) with ((done_ ++ [a]) ++ l) by by rewrite <- app_assoc.
    apply IH; [|done]. intros. apply Hf; [by right|done].
Qed.

(** A bus on which nothing changes: its devices, their descriptors and configurations, and the
    number of handles that are open. *)
Class SteadyBus (H D : Type) `{ControlTransfer H D} `{Libusb H D} := {
  handles : D -> Z;
  bus : list libusb_device;
  bus_desc : libusb_device -> libusb_device_descriptor;
  bus_conf : libusb_device -> option libusb_config_descriptor;
  bus_init : moves handles lu_init 0 (fun r => r = 0);
  bus_list : moves handles lu_get_device_list 0 (fun r => r = (Z.of_nat (length bus), Some bus));
  bus_free_list l : moves handles (lu_free_device_list l) 0 (fun _ => True);
  bus_descriptor dev : moves handles (lu_get_device_descriptor dev) 0 (fun r => r = (0, Some (bus_desc dev)));
  bus_active dev : moves handles (lu_get_active_config_descriptor dev) 0
                     (fun '(r, c) => 0 <= r -> snd <$> c = bus_conf dev);
  bus_config dev : moves handles (lu_get_config_descriptor dev 0) 0 (fun '(_, c) => snd <$> c = bus_conf dev);
  bus_free_config c : moves handles (lu_free_config_descriptor c) 0 (fun _ => True);
  bus_open dev s r h s' : lu_open dev s = (Ret (r, h), s') ->
    if r <? 0 then handles s' = handles s else h <> None /\ handles s' = handles s + 1;
  bus_close h : moves handles (lu_close h) (-1) (fun _ => True);
  bus_control h t q v i data len ms : moves handles (libusb_control_transfer h t q v i data len ms) 0 (fun _ => True) }.

Section enumeration.
Context {H D : Type} `{HostOrder} `{SteadyBus H D}.
Context (iconv : list Z -> nat -> option (list Z)) (locale : option string).

Lemma get_usb_string_moves (h : H) idx :
  moves handles (get_usb_string iconv locale h idx) 0 (fun _ => True).
Proof.
  unfold get_usb_string, is_language_supported, get_first_language, libusb_get_string_descriptor.
  assert (forall A (o : outcome A), moves handles (lift o) 0 (fun _ => True)) as Hlift.
  { intros A o. eapply moves_mono; [apply moves_lift|done]. }
  eapply moves_bind0; [apply Hlift|]. intros lang _.
  eapply moves_bind0 with (R := fun _ => True).
  { eapply moves_bind0; [apply bus_control|]. intros [len buf] _.
    destruct (len <? 4); [by apply moves_ret|apply Hlift]. }
  intros supported _. eapply moves_bind0 with (R := fun _ => True).
  { destruct (supported =? 0); [|by apply moves_ret]. eapply moves_bind0; [apply bus_control|].
    intros [len buf] _. destruct (len <? 4); [by apply moves_ret|apply Hlift]. }
  intros lang' _. eapply moves_bind0; [apply bus_control|]. intros [len buf] _.
  destruct (len <? 0); [by apply moves_ret|]. eapply moves_bind0; [apply Hlift|]. intros input _.
  by destruct (iconv input 256); apply moves_ret.
Qed.

Lemma string_if_moves (h : H) idx : moves handles (string_if iconv locale h idx) 0 (fun _ => True).
Proof. unfold string_if. destruct (0 <? idx); [apply get_usb_string_moves|by apply moves_ret]. Qed.

(** The part of a record that identifies the interface. *)
Definition info_key (i : hid_device_info) : string * Z * Z * Z * Z :=
  (hi_path i, hi_vendor_id i, hi_product_id i, hi_release_number i, hi_interface_number i).
Definition altsetting_key (dev : libusb_device) (a : libusb_interface_descriptor) : string * Z * Z * Z * Z :=
  (make_path dev (id_bInterfaceNumber a), dd_idVendor (bus_desc dev), dd_idProduct (bus_desc dev),
   dd_bcdDevice (bus_desc dev), id_bInterfaceNumber a).

Lemma hid_info_moves dev a :
  moves handles (hid_info iconv locale dev (bus_desc dev) (id_bInterfaceNumber a)) 0
    (fun i => info_key i = altsetting_key dev a).
Proof.
  intros s i s' E. unfold hid_info in E. apply bind_Ret_inv in E as ([r h] & s1 & E1 & E).
  apply bus_open in E1. destruct (Z.ltb_spec r 0).
  - rewrite ret_bind in E. injection E as <- <-. by split; [lia|].
  - destruct E1 as [Hh E1]. destruct h as [h|]; [|done].
    assert (moves handles
      (let* '(serial, manufacturer, product) :=
         let* serial := string_if iconv locale h (dd_iSerialNumber (bus_desc dev)) in
         let* manufacturer := string_if iconv locale h (dd_iManufacturer (bus_desc dev)) in
         let* product := string_if iconv locale h (dd_iProduct (bus_desc dev)) in
         do* lu_close h in ret (serial, manufacturer, product) in
       ret (mk_hid_info (make_path dev (id_bInterfaceNumber a)) (dd_idVendor (bus_desc dev))
              (dd_idProduct (bus_desc dev)) serial (dd_bcdDevice (bus_desc dev)) manufacturer product
              (id_bInterfaceNumber a))) (-1 + 0) (fun i => info_key i = altsetting_key dev a)) as Hm.
    { eapply moves_bind with (R := fun _ => True).
      - do 3 (apply (moves_bind _ _ _ 0 (-1) (fun _ => True)); [apply string_if_moves|intros ? _]).
        apply (moves_bind _ _ _ (-1) 0 (fun _ => True)); [apply bus_close|]. intros _ _. by apply moves_ret.
      - intros [[sn mf] pr] _. by apply moves_ret. }
    apply Hm in E as [E2 E3]. split; [lia|done].
Qed.

(** The records of a device for the alternate settings that the search is for. *)
Definition wanted (vendor_id product_id : Z) (dev : libusb_device)
    (alts : list libusb_interface_descriptor) : list (string * Z * Z * Z * Z) :=
  altsetting_key dev <$>
    List.filter (fun a => (id_bInterfaceClass a =? LIBUSB_CLASS_HID)
                          && ids_match vendor_id product_id (bus_desc dev)) alts.

(** The records that the search is for: one for each alternate setting of class HID of the
    devices whose identifiers match. *)
Definition expected_of (vendor_id product_id : Z) (dev : libusb_device) : list (string * Z * Z * Z * Z) :=
  match bus_conf dev with
  | None => []
  | Some c =>
      match config_altsettings c with
      | Ret alts => wanted vendor_id product_id dev alts
      | _ => []
      end
  end.

Lemma enumerate_device_moves vid pid dev found :
  moves handles (enumerate_device iconv locale vid pid found dev) 0
    (fun found' => info_key <$> found' = (info_key <$> found) ++ expected_of vid pid dev).
Proof.
  unfold enumerate_device. eapply moves_bind0; [apply bus_descriptor|]. intros ? ->.
  eapply moves_bind0; [apply bus_active|]. intros [r c] Hc.
  eapply moves_bind0 with (R := fun c => snd <$> c = bus_conf dev).
  { destruct (Z.ltb_spec r 0); [|apply moves_ret; by apply Hc].
    eapply moves_bind0; [apply bus_config|]. intros [r' c'] Hc'. by apply moves_ret. }
  intros c' Hc'. unfold expected_of. rewrite <- Hc'. destruct c' as [[b c']|]; cbn [fmap option_fmap option_map snd].
  2: { apply moves_ret. by rewrite app_nil_r. }
  eapply moves_bind0; [|intros found' Hf; eapply moves_bind0; [apply bus_free_config|]; intros _ _;
    apply moves_ret; exact Hf].
  unfold enumerate_config. eapply moves_bind0; [apply moves_lift|]. intros alts ->.
  refine (moves_fold handles (fun d fs => info_key <$> fs = (info_key <$> found) ++ wanted vid pid dev d)
            _ alts [] found _ _); [|by rewrite app_nil_r].
  intros d a fs _ Hfs. unfold wanted in *. rewrite List.filter_app, fmap_app, app_assoc, <- Hfs. cbn [List.filter].
  destruct (_ && _); [|apply moves_ret; by rewrite app_nil_r].
  eapply moves_bind0; [apply hid_info_moves|]. intros i Hi. apply moves_ret.
  rewrite fmap_app. cbn. by rewrite Hi.
Qed.

(** Enumerating the devices returns one record for each alternate setting of class HID of
    the devices whose identifiers match, in the order of the bus, and leaves as many handles open
    as there were. *)
Theorem hid_enumerate_lists vid pid s infos s' :
  hid_enumerate iconv locale vid pid s = (Ret infos, s') ->
  info_key <$> infos = concat (expected_of vid pid <$> bus) /\ handles s' = handles s.
Proof.
  assert (moves handles (hid_enumerate iconv locale vid pid) 0
    (fun infos => info_key <$> infos = concat (expected_of vid pid <$> bus))) as Hm.
  { unfold hid_enumerate, hid_init. eapply moves_bind0 with (R := fun r => r = 0).
    - eapply moves_bind0 with (R := fun _ => True); [by intros ? ? ? [= <- <-]; split; [lia|]|].
      intros [] _; [by apply moves_ret|]. eapply moves_bind0; [apply bus_init|]. intros ? ->.
      by apply moves_ret.
    - intros ? ->. cbn [Z.ltb Z.compare]. eapply moves_bind0; [apply bus_list|]. intros ? ->.
      destruct (Z.ltb_spec (Z.of_nat (length bus)) 0); [lia|].
      eapply moves_bind0; [|intros found Hf; eapply moves_bind0; [apply bus_free_list|]; intros _ _;
        apply moves_ret; exact Hf].
      apply (moves_fold handles (fun d fs => info_key <$> fs = concat (expected_of vid pid <$> d)) _ bus []); [|done].
      intros d dev fs _ Hfs. rewrite fmap_app, concat_app, <- Hfs. cbn. rewrite app_nil_r.
      apply enumerate_device_moves. }
  intros E. apply Hm in E as [E1 E2]. split; [done|lia].
Qed.
End enumeration.

(** ** A bus with one power meter *)

(** The state: [usb_context] is set, the number of open handles, the threads started. *)
Record MeterBus := mkMeterBus { mb_ready : bool; mb_handles : Z; mb_threads : Z }.

Definition meter_dev : libusb_device := mk_device 0 1 5 1 LIBUSB_SPEED_FULL 0.
Definition meter_desc : libusb_device_descriptor := mk_device_descriptor 18 1 0x110 0 0 0 8 0x04d8 0x003f 2 0 0 0 1.
Definition meter_endpoint (a : Z) : libusb_endpoint_descriptor :=
  mk_endpoint_descriptor 7 5 a 3 64 1 0 0 None 0.
(** An alternate setting of the interface 0. *)
Definition meter_altsetting (n : Z) : libusb_interface_descriptor :=
  mk_interface_descriptor 9 4 0 n 2 LIBUSB_CLASS_HID 0 0 0
    (Some (2%nat, [meter_endpoint 0x81; meter_endpoint 0x01])) None 0.
Definition meter_config (alts : list libusb_interface_descriptor) : libusb_config_descriptor :=
  mk_config_descriptor 9 2 0 1 1 0 0x80 50
    (Some (1%nat, [mk_interface (Some (3%nat, alts)) (Z.of_nat (length alts))])) None 0.

Definition meter_silent : ControlTransfer nat MeterBus := {|
  libusb_control_transfer _ _ _ _ _ _ _ _ := ret (LIBUSB_ERROR_TIMEOUT : Z, []) |}.

(** A meter whose interface 0 has the given alternate settings. *)
Definition meter_libusb (alts : list libusb_interface_descriptor) : Libusb nat MeterBus := {|
  usb_context_set := mb_ready;
  lu_init := fun s => (Ret 0, mkMeterBus true (mb_handles s) (mb_threads s));
  lu_exit := fun s => (Ret tt, mkMeterBus false (mb_handles s) (mb_threads s));
  lu_get_device_list := ret (1, Some [meter_dev]);
  lu_free_device_list _ := ret tt;
  lu_get_device_descriptor _ := ret (0, Some meter_desc);
  lu_get_active_config_descriptor _ := ret (0, Some (0%nat, meter_config alts));
  lu_get_config_descriptor _ _ := ret (0, Some (0%nat, meter_config alts));
  lu_free_config_descriptor _ := ret tt;
  lu_open _ := fun s => (Ret (0, Some (Z.to_nat (mb_handles s))), mkMeterBus (mb_ready s) (mb_handles s + 1) (mb_threads s));
  lu_close _ := fun s => (Ret tt, mkMeterBus (mb_ready s) (mb_handles s - 1) (mb_threads s));
  lu_kernel_driver_active _ _ := ret 0;
  lu_detach_kernel_driver _ _ := ret 0;
  lu_claim_interface _ _ := ret 0;
  lu_release_interface _ _ := ret 0;
  start_read_thread _ := fun s => (Ret tt, mkMeterBus (mb_ready s) (mb_handles s) (mb_threads s + 1));
  stop_read_thread dev := fun s => (Ret dev, mkMeterBus (mb_ready s) (mb_handles s) (mb_threads s - 1)) |}.

Definition meter_steady (alts : list libusb_interface_descriptor) :
  @SteadyBus nat MeterBus meter_silent (meter_libusb alts).
Proof.
  refine (@Build_SteadyBus nat MeterBus meter_silent (meter_libusb alts) mb_handles [meter_dev]
    (fun _ => meter_desc) (fun _ => Some (meter_config alts)) _ _ _ _ _ _ _ _ _ _);
    unfold moves; cbn; intros;
    repeat match goal with
           | E : (_, _) = (_, _) |- _ => injection E; clear E; intros; subst
           | E : ret _ _ = _ |- _ => unfold ret in E
           end; cbn; split; done || lia.
Defined.

Lemma hid_enumerate_lists_witness :
  exists infos s', @hid_enumerate nat MeterBus little meter_silent (meter_libusb [meter_altsetting 0])
      (fun _ _ => None) None 0x04d8 0 (mkMeterBus false 0 0) = (Ret infos, s') /\
    (info_key <$> infos = [("0001:0005:00"%string, 0x04d8, 0x003f, 2, 0)]) /\ mb_handles s' = 0.
Proof.
  do 2 eexists. split; [vm_compute; reflexivity|].
  refine (match @hid_enumerate_lists nat MeterBus little meter_silent (meter_libusb [meter_altsetting 0])
    (meter_steady [meter_altsetting 0]) (fun _ _ => None) None 0x04d8 0 (mkMeterBus false 0 0) _ _ _ with
    conj H1 H2 => conj _ _ end); [vm_compute; reflexivity|exact H1|exact H2].
Defined.

(** Opening the path of a meter: one handle and one thread. *)
Lemma hid_open_meter :
  exists dev s', @hid_open nat MeterBus little meter_silent (meter_libusb [meter_altsetting 0])
      (fun _ _ => None) None 0x04d8 0x003f None (mkMeterBus false 0 0) = (Ret (Some dev), s') /\
    s' = mkMeterBus true 1 1 /\ hd_input_endpoint dev = 0x81 /\ hd_output_endpoint dev = 0x01 /\
    hd_input_ep_max_packet_size dev = 64.
Proof. do 2 eexists. split; [vm_compute; reflexivity|]. by split_and!. Qed.

(** The path does not name an alternate setting: an interface with two of them is opened twice,
    and the first handle and its thread are lost. *)
Theorem hid_open_path_twice :
  exists dev s', @hid_open_path nat MeterBus (meter_libusb [meter_altsetting 0; meter_altsetting 1])
      "0001:0005:00" (mkMeterBus false 0 0) = (Ret (Some dev), s') /\
    s' = mkMeterBus true 2 2 /\ hd_device_handle dev = Some 1%nat.
Proof. do 2 eexists. split; [vm_compute; reflexivity|]. by split_and!. Qed.

(** ** Concrete inputs of the properties of the queue *)

(** Reports are taken between the reads and while they wait; a blocking read, a time-out with a
    report that comes too late, a non-blocking read, and the device that goes during a read. *)
Definition queue_sample : list hid_op :=
  let report d := mkCallback LIBUSB_TRANSFER_COMPLETED d 0 in
  let gone := mkCallback LIBUSB_TRANSFER_NO_DEVICE [] 0 in
  [OpCallback (report [1; 2; 3]); OpCallback (report [4]); OpRead 2 []; OpReadTimeout 8 0 [];
   OpRead 8 [mkWait [] WaitWoken; mkWait [report [5; 6]; report [7]] WaitWoken];
   OpReadTimeout 8 50 []; OpReadTimeout 8 50 [mkWait [report [8]] WaitTimedOut]; OpSetNonblocking true;
   OpRead 8 []; OpRead 8 []; OpSetNonblocking false; OpReadTimeout 8 50 [mkWait [] WaitError];
   OpRead 8 [mkWait [gone] WaitWoken]; OpRead 8 []].
Lemma hid_queue_refines_witness :
  exists dev : hid_device unit,
    run_ops queue_sample new_hid_device
    = Ret ([(2, [1; 2]); (1, [4]); (2, [5; 6]); (1, [7]); (0, []); (1, [8]); (0, []); (-1, []); (-1, []); (-1, [])], dev).
Proof.
  assert (Forall op_ok queue_sample) as Hok by (repeat constructor; cbn; lia).
  pose proof (hid_queue_refines unit queue_sample Hok) as Hr.
  assert (queue_ops queue_sample queue_start =
    Some ([(2, [1; 2]); (1, [4]); (2, [5; 6]); (1, [7]); (0, []); (1, [8]); (0, []); (-1, []); (-1, []); (-1, [])],
          mkQueue [] true true)) as E by (vm_compute; reflexivity).
  rewrite E in Hr. destruct Hr as (dev & Er & _). by exists dev.
Defined.

Lemma read_deadline_valid_witness : read_deadline (7, 999999999) 2001 = (10, 999999).
Proof.
  destruct (read_deadline_valid (7, 999999999) 2001 ltac:(cbn; lia) ltac:(lia)) as [_ _].
  reflexivity.
Defined.

Lemma hid_read_blocking_witness :
  let e := mkWait [mkCallback LIBUSB_TRANSFER_COMPLETED [1; 2; 3] 0] WaitWoken in
  exists dev : hid_device unit, hid_read new_hid_device 2 [e] = Ret (2, [1; 2], dev).
Proof.
  intros e. eexists. pose proof (hid_read_blocking (new_hid_device (H := unit)) 2 [e] 2 [1; 2] _
    ltac:(lia) eq_refl eq_refl) as _. reflexivity.
Defined.

(** [hid_close] empties the queue. *)
Lemma clear_reports_empty {H} (dev : hid_device H) fuel :
  (length (hd_input_reports dev) <= fuel)%nat ->
  exists dev', clear_reports fuel dev = Ret dev' /\ dev' = set_reports dev [].
Proof.
  revert dev. induction fuel as [|fuel IH]; intros dev Hl; cbn [clear_reports].
  - exists dev. destruct dev as [? ? ? ? ? ? ? ? ? ? ? q]. destruct q; [done|]. simpl in Hl. lia.
  - destruct (hd_input_reports dev) as [|rpt q] eqn:E.
    + exists dev. split; [done|]. destruct dev. simpl in *. by subst.
    + unfold return_data. rewrite E. cbn [mbind outcome_bind]. cbn [length] in Hl.
      destruct (IH (set_reports dev q) ltac:(cbn; lia)) as (dev' & E' & ->). by eexists.
Qed.
