(* ===== verification/SmartGauge.v ===== *)
(** * The SmartGauge power meter
    (src/external/odroid-smartpower-linux/smartgauge.cpp and smartgauge.hpp)

    A meter is a HID device that answers requests of 65 bytes.  Its class is modelled over the
    interface [HidApi], which the functions of [Hid] implement ([hid_api]); the class [SmartGauge]
    is what the counter of [EnergyLinux] calls of it.  The thread that samples is a number of
    iterations that end when it is joined.

    The theorems: a session with a meter, or without one, over the functions of hid.c; a reading skips the answers to other requests and returns the field of the first
    data report; the fields of a measurement are what the four getters return; a reset leaves a
    meter that honours the protocol started, whatever it was doing.  Others show that a request
    that is sent again carries the first byte of the previous answer, and what sampling does
    wrong. *)
From S2P Require Import Prelude UtilsText Double UsbBase UsbDescriptor HidStrings Hid.

(** What the counter calls of a gauge whose state is [G]. *)
Class SmartGauge (G : Type) := { sg_initDevice : M G bool; sg_getWattHour : M G double }.

(** The functions of hid.c that the gauge calls: [V] is the device, [D] everything else. *)
Class HidApi (V D : Type) := {
  api_open : Z -> Z -> option (list Z) -> M D (option V);
  api_set_nonblocking : V -> bool -> Z * V;
  api_write : V -> list Z -> Z -> M D Z;
  (** The value returned, the bytes copied to the buffer and the device. *)
  api_read : V -> Z -> M D (Z * list Z * V);
  api_close : V -> M D unit }.

(** What the thread that reads the device brings: the calls of [read_callback] since the last
    read, and what the next read sees while it waits. *)
Class Arrivals (D : Type) := { arrivals : D -> list callback * list wait_event * D }.

(** The functions of [Hid] are such functions. *)
Definition hid_api {H D : Type} `{HostOrder} `{ControlTransfer H D} `{InterruptTransfer H D} `{Libusb H D} `{Arrivals D}
    (iconv : list Z -> nat -> option (list Z)) (locale : option string) : HidApi (hid_device H) D :=
  {| api_open := hid_open iconv locale;
     api_set_nonblocking := hid_set_nonblocking;
     api_write := hid_write;
     api_read dev n := fun s =>
       let '(cbs, events, s') := arrivals s in
       (dev ← fold_out cbs dev read_callback; hid_read dev n events, s');
     api_close := hid_close |}.

(** ** The state *)

(** [SmartGauge::Measurement],
    src/external/odroid-smartpower-linux/smartgauge.hpp:38-43. *)
Record Measurement := mkMeasurement {
  ms_watt : double; ms_volt : double; ms_ampere : double; ms_wattHour : double }.

(** The members of [SmartGauge],
    src/external/odroid-smartpower-linux/smartgauge.hpp:78-82; [g_meter] is whether the thread
    can be joined, [g_bus] is what the HID functions work on. *)
Record Gauge (V D : Type) := mkGauge {
  g_measurements : list Measurement; g_device : option V; g_meter : option bool;
  g_measure : bool; g_buf : list Z; g_bus : D }.
Arguments mkGauge {V D} _ _ _ _ _ _.
Arguments g_measurements {V D} _.
Arguments g_device {V D} _.
Arguments g_meter {V D} _.
Arguments g_measure {V D} _.
Arguments g_buf {V D} _.
Arguments g_bus {V D} _.

Definition REQUEST_DATA : Z := 0x37.
Definition REQUEST_STARTSTOP : Z := 0x80.
Definition REQUEST_STATUS : Z := 0x81.
Definition MAX_STR : nat := 65.

Section gauge.
Context {V D : Type} `{HidApi V D}.
Implicit Types (g : Gauge V D).

(** [SmartGauge::SmartGauge],
    src/external/odroid-smartpower-linux/smartgauge.cpp:47-50: [buf] is not initialised. *)
Definition Gauge_new (garbage : list Z) (bus : D) : Gauge V D := mkGauge [] None None false garbage bus.

Definition set_buf (b : list Z) : M (Gauge V D) unit :=
  modify (fun g => mkGauge (g_measurements g) (g_device g) (g_meter g) (g_measure g) b (g_bus g)).
Definition set_device (v : option V) : M (Gauge V D) unit :=
  modify (fun g => mkGauge (g_measurements g) v (g_meter g) (g_measure g) (g_buf g) (g_bus g)).
Definition set_sampling (l : list Measurement) (t : option bool) (m : bool) : M (Gauge V D) unit :=
  modify (fun g => mkGauge l (g_device g) t m (g_buf g) (g_bus g)).
Definition on_bus {A} (m : M D A) : M (Gauge V D) A := fun g =>
  let '(r, d) := m (g_bus g) in
  (r, mkGauge (g_measurements g) (g_device g) (g_meter g) (g_measure g) (g_buf g) d).
Definition the_device : M (Gauge V D) V :=
  query (fun g => match g_device g with Some v => Ret v | None => Undef "dereference of a null device" end).

(** *** Requests *)

(** [buf[1] = command; memset(&buf[2], 0, sizeof(buf) - 2);] *)
Definition put_command (command : Z) (b : list Z) : list Z :=
  take 1 b ++ command :: replicate (MAX_STR - 2) 0.

(** [hid_write(device, buf, sizeof(buf))], which fails with -1. *)
Definition write_buf (failure : string) : M (Gauge V D) unit :=
  let* v := the_device in
  let* b := gets g_buf in
  let* r := on_bus (api_write v b (Z.of_nat MAX_STR)) in
  if r =? -1 then throw (runtime_error failure) else ret tt.

(** [hid_read(device, buf, sizeof(buf))]. *)
Definition read_buf (failure : string) : M (Gauge V D) unit :=
  let* v := the_device in
  let* '(r, data, v) := on_bus (api_read v (Z.of_nat MAX_STR)) in
  do* set_device (Some v) in
  let* b := gets g_buf in
  do* set_buf (overlay data b) in
  if r =? -1 then throw (runtime_error failure) else ret tt.

Definition zero_first (b : list Z) : list Z := 0 :: drop 1 b.

(** [SmartGauge::requestStatus],
    src/external/odroid-smartpower-linux/smartgauge.cpp:64-74. *)
Definition requestStatus : M (Gauge V D) unit :=
  let* b := gets g_buf in
  do* set_buf (put_command REQUEST_STATUS (zero_first b)) in
  do* write_buf "Request status write failed" in
  read_buf "Request status read failed".

(** One iteration of the loop of [requestData]. *)
Definition ask_data : M (Gauge V D) unit :=
  let* b := gets g_buf in
  do* set_buf (put_command REQUEST_DATA b) in
  do* write_buf "Request data write failed" in
  read_buf "Request data read failed".

(** The first byte of [buf]. *)
Definition first_byte : M (Gauge V D) Z := query (fun g => byte_at (g_buf g) 0).

Fixpoint requestData_loop (fuel : nat) : M (Gauge V D) unit :=
  let* b0 := first_byte in
  if b0 =? REQUEST_DATA then ret tt
  else
    match fuel with
    | O => undef out_of_fuel
    | S fuel => do* ask_data in requestData_loop fuel
    end.

(** [SmartGauge::requestData],
    src/external/odroid-smartpower-linux/smartgauge.cpp:77-90. *)
Definition requestData (fuel : nat) : M (Gauge V D) unit :=
  let* b := gets g_buf in
  do* set_buf (zero_first b) in
  requestData_loop fuel.

(** [SmartGauge::requestStartStop],
    src/external/odroid-smartpower-linux/smartgauge.cpp:93-102. *)
Definition requestStartStop : M (Gauge V D) unit :=
  let* b := gets g_buf in
  do* set_buf (put_command REQUEST_STARTSTOP (zero_first b)) in
  write_buf "Request start stop failed".

(** [SmartGauge::reset],
    src/external/odroid-smartpower-linux/smartgauge.cpp:115-123. *)
Definition Gauge_reset : M (Gauge V D) unit :=
  do* requestStatus in
  let* b1 := query (fun g => byte_at (g_buf g) 1) in
  let* b2 := query (fun g => byte_at (g_buf g) 2) in
  if b2 =? 0x01 then
    do* (if b1 =? 0x01 then requestStartStop else ret tt) in
    requestStartStop
  else undef "an assertion fails".

(** [SmartGauge::initDevice],
    src/external/odroid-smartpower-linux/smartgauge.cpp:104-113. *)
Definition initDevice : M (Gauge V D) bool :=
  let* v := on_bus (api_open 0x04d8 0x003f None) in
  do* set_device v in
  match v with
  | None => ret false
  | Some v =>
      let '(_, v) := api_set_nonblocking v false in
      do* set_device (Some v) in
      do* Gauge_reset in
      ret true
  end.

(** *** Readings *)

(** The text that [strncpy] makes of [n] bytes at [off], in an array of 8 zeros. *)
Fixpoint c_text (l : list Z) : string :=
  match l with
  | [] => EmptyString
  | b :: l' => if b =? 0 then EmptyString else String (ascii_of_N (Z.to_N b)) (c_text l')
  end.
Definition field (b : list Z) (off n : nat) : double := atof (c_text (take n (drop off b))).

(** A getter: a request and, when its answer is a data report, the field; -1 otherwise. *)
Definition get_field (fuel off n : nat) : M (Gauge V D) double :=
  do* requestData fuel in
  let* b0 := first_byte in
  let* b := gets g_buf in
  ret (if b0 =? REQUEST_DATA then field b off n else d_of_Z (-1)).

(** [SmartGauge::getWattHour],
    src/external/odroid-smartpower-linux/smartgauge.cpp:125-135. *)
Definition getWattHour (fuel : nat) : M (Gauge V D) double := get_field fuel 24 7.
(** [SmartGauge::getVolt], src/external/odroid-smartpower-linux/smartgauge.cpp:137-147. *)
Definition getVolt (fuel : nat) : M (Gauge V D) double := get_field fuel 2 5.
(** [SmartGauge::getAmpere],
    src/external/odroid-smartpower-linux/smartgauge.cpp:149-159. *)
Definition getAmpere (fuel : nat) : M (Gauge V D) double := get_field fuel 10 5.
(** [SmartGauge::getWatt], src/external/odroid-smartpower-linux/smartgauge.cpp:161-171. *)
Definition getWatt (fuel : nat) : M (Gauge V D) double := get_field fuel 17 6.

(** [SmartGauge::getMeasurement],
    src/external/odroid-smartpower-linux/smartgauge.cpp:173-192. *)
Definition getMeasurement (fuel : nat) : M (Gauge V D) Measurement :=
  do* requestData fuel in
  let* b0 := first_byte in
  let* b := gets g_buf in
  if b0 =? REQUEST_DATA then
    ret (mkMeasurement (field b 17 6) (field b 2 5) (field b 10 5) (field b 24 7))
  else undef "value of an uninitialised measurement".

(** *** Sampling *)

(** [SmartGauge::startSampling],
    src/external/odroid-smartpower-linux/smartgauge.cpp:195-203. *)
Definition startSampling : M (Gauge V D) unit :=
  let* g := gets id in
  do* set_sampling [] (g_meter g) (g_measure g) in
  if g_measure g then
    throw (runtime_error "An old measurement still runs. End it first before starting a new one.")
  else set_sampling [] (Some true) true.

(** [SmartGauge::collectSamples],
    src/external/odroid-smartpower-linux/smartgauge.cpp:211-233: the iterations of the thread
    before it finds [measure] false. *)
Fixpoint collectSamples (n fuel : nat) : M (Gauge V D) unit :=
  match n with
  | O => ret tt
  | S n =>
      let* m := getMeasurement fuel in
      let* g := gets id in
      do* set_sampling (g_measurements g ++ [m]) (g_meter g) (g_measure g) in
      collectSamples n fuel
  end.

(** An exception that leaves a thread or a destructor ends the program. *)
Definition or_terminate {A} (m : M (Gauge V D) A) : M (Gauge V D) A := fun g =>
  match m g with
  | (Throw _, g') => (Undef "std::terminate", g')
  | r => r
  end.

(** [SmartGauge::endSampling],
    src/external/odroid-smartpower-linux/smartgauge.cpp:205-209: the thread has made [n]
    iterations when it is joined. *)
Definition endSampling (n fuel : nat) : M (Gauge V D) (list Measurement) :=
  let* g := gets id in
  do* set_sampling (g_measurements g) (g_meter g) false in
  match g_meter g with
  | None => undef "dereference of a null thread"
  | Some false => throw (runtime_error "Invalid argument")
  | Some true =>
      do* or_terminate (collectSamples n fuel) in
      let* g := gets id in
      do* set_sampling (g_measurements g) (Some false) (g_measure g) in
      ret (g_measurements g)
  end.

(** [SmartGauge::~SmartGauge],
    src/external/odroid-smartpower-linux/smartgauge.cpp:53-62. *)
Definition Gauge_delete : M (Gauge V D) unit :=
  let* g := gets id in
  match g_device g with
  | None => ret tt
  | Some _ =>
      do* set_buf (take 2 (zero_first (g_buf g)) ++ replicate (MAX_STR - 2) 0) in
      do* or_terminate requestStartStop in
      let* v := the_device in
      do* on_bus (api_close v) in
      if bool_decide (g_meter g = Some true) then undef "std::terminate" else ret tt
  end.

(** The gauge that the counter calls. *)
Definition hid_gauge (fuel : nat) : SmartGauge (Gauge V D) := {|
  sg_initDevice := initDevice; sg_getWattHour := getWattHour fuel |}.
End gauge.

(** ** Readings *)

(** The HID functions on a device that can be written and whose answers are known: a read takes
    the next of [answers]. *)
Class AnswersLaws (V D : Type) `{HidApi V D} := {
  answers : D -> list (list Z);
  (** The devices of which it is known. *)
  answering : V -> Prop;
  answers_write v b n s : answering v ->
    exists r s', api_write v b n s = (Ret r, s') /\ r <> -1 /\ answers s' = answers s;
  answers_read v n s a l : answering v -> answers s = a :: l ->
    exists r v' s', api_read v n s = (Ret (r, take (Z.to_nat n) a, v'), s') /\ r <> -1 /\ answers s' = l /\ answering v' }.

Section readings.
Context {V D : Type} `{AnswersLaws V D}.
Implicit Types (g : Gauge V D).

(** What requests leave as it is. *)
Definition same_sampling g g' : Prop :=
  g_measurements g' = g_measurements g /\ g_meter g' = g_meter g /\ g_measure g' = g_measure g.

Lemma ask_data_reads g v a l :
  g_device g = Some v -> answering v -> answers (g_bus g) = a :: l ->
  exists v' s', ask_data g = (Ret tt, mkGauge (g_measurements g) (Some v') (g_meter g) (g_measure g)
      (overlay (take MAX_STR a) (put_command REQUEST_DATA (g_buf g))) s') /\ answers s' = l /\ answering v'.
Proof.
  intros Hv Hav Ha.
  destruct (answers_write v (put_command REQUEST_DATA (g_buf g)) (Z.of_nat MAX_STR) (g_bus g) Hav)
    as (r & s1 & E1 & Hr & Ha1).
  rewrite <- Ha1 in Ha. destruct (answers_read v (Z.of_nat MAX_STR) s1 a l Hav Ha) as (r2 & v' & s2 & E2 & Hr2 & Ha2 & Hav').
  rewrite Nat2Z.id in E2. exists v', s2. split; [|done].
  unfold ask_data, write_buf, read_buf, the_device, set_buf, set_device, on_bus. mrun.
  cbn [g_device g_buf g_bus g_measurements g_meter g_measure]. rewrite Hv, E1.
  cbn [g_device g_buf g_bus g_measurements g_meter g_measure].
  rewrite (proj2 (Z.eqb_neq _ _) Hr). cbn [g_device g_buf g_bus g_measurements g_meter g_measure].
  rewrite ?Hv, E2. cbn [g_device g_buf g_bus g_measurements g_meter g_measure].
  by rewrite (proj2 (Z.eqb_neq _ _) Hr2).
Qed.

(** The answers to other requests: each has a first byte, which is not that of a data report. *)
Definition other_answer (a : list Z) : Prop := exists b, head a = Some b /\ b <> REQUEST_DATA.
(** A data report. *)
Definition data_report (a : list Z) : Prop := length a = MAX_STR /\ head a = Some REQUEST_DATA.

Lemma first_byte_head g b : head (g_buf g) = Some b -> first_byte g = (Ret b, g).
Proof. unfold first_byte, query, byte_at. destruct (g_buf g); [done|]. by intros [= ->]. Qed.

Lemma overlay_head a b x : head a = Some x -> head (overlay (take MAX_STR a) b) = Some x.
Proof. by destruct a; [|intros [= ->]]. Qed.

Lemma requestData_loop_reads pre a post fuel g v b :
  g_device g = Some v -> answering v -> head (g_buf g) = Some b -> b <> REQUEST_DATA ->
  answers (g_bus g) = pre ++ a :: post -> Forall other_answer pre -> data_report a ->
  (length pre < fuel)%nat ->
  exists g', requestData_loop fuel g = (Ret tt, g') /\ g_buf g' = a /\ answers (g_bus g') = post /\
    same_sampling g g' /\ is_Some (g_device g').
Proof.
  revert g v b fuel. induction pre as [|c pre IH]; intros g v b fuel Hv Hav Hb Hne Hans Hpre [Hl Ha] Hfuel;
    (destruct fuel as [|fuel]; [simpl in *; lia|]); cbn [requestData_loop];
    erewrite bind_Ret by (by apply first_byte_head); rewrite (proj2 (Z.eqb_neq _ _) Hne).
  - destruct (ask_data_reads g v a post Hv Hav Hans) as (v' & s' & E & Hs' & Hav').
    erewrite bind_Ret by exact E. destruct fuel as [|fuel]; cbn [requestData_loop];
      (erewrite bind_Ret by (apply first_byte_head; cbn [g_buf]; by apply overlay_head));
      (eexists; split; [reflexivity|]); cbn [g_buf g_bus g_device];
      (split; [|split; [done|split; [by split|by eexists]]]); unfold overlay;
      rewrite take_ge, Hl, drop_ge, app_nil_r by (rewrite ?Hl; done || (unfold put_command; rewrite length_app, length_cons, length_replicate, length_take; unfold MAX_STR; lia)); done.
  - inversion_clear Hpre as [|? ? (x & Hx & Hxne) Hpre'].
    destruct (ask_data_reads g v c _ Hv Hav Hans) as (v' & s' & E & Hs' & Hav'). erewrite bind_Ret by exact E.
    destruct (IH (mkGauge (g_measurements g) (Some v') (g_meter g) (g_measure g)
      (overlay (take MAX_STR c) (put_command REQUEST_DATA (g_buf g))) s') v' x fuel)
      as (g' & E' & Hb' & Hp' & Hss & Hd'); try done.
    + cbn [g_buf]. by apply overlay_head.
    + cbn [length] in Hfuel. lia.
    + by exists g'.
Qed.

Lemma requestData_reads pre a post fuel g v :
  g_device g = Some v -> answering v -> answers (g_bus g) = pre ++ a :: post -> Forall other_answer pre ->
  data_report a -> (length pre < fuel)%nat ->
  exists g', requestData fuel g = (Ret tt, g') /\ g_buf g' = a /\ answers (g_bus g') = post /\
    same_sampling g g' /\ is_Some (g_device g').
Proof.
  intros Hv Hav Hans Hpre Ha Hf.
  exact (requestData_loop_reads pre a post fuel (mkGauge (g_measurements g) (g_device g) (g_meter g)
    (g_measure g) (zero_first (g_buf g)) (g_bus g)) v 0 Hv Hav eq_refl ltac:(done) Hans Hpre Ha Hf).
Qed.

(** A measurement asks again until the answer is a data report, takes the answers to other
    requests on its way, and returns the four fields of the report; each getter returns its field
    of the same report. *)
Theorem getMeasurement_reads pre a post fuel g v :
  g_device g = Some v -> answering v -> answers (g_bus g) = pre ++ a :: post -> Forall other_answer pre ->
  data_report a -> (length pre < fuel)%nat ->
  let volt := field a 2 5 in let ampere := field a 10 5 in
  let watt := field a 17 6 in let wattHour := field a 24 7 in
  exists g', answers (g_bus g') = post /\
    getMeasurement fuel g = (Ret (mkMeasurement watt volt ampere wattHour), g') /\
    getVolt fuel g = (Ret volt, g') /\ getAmpere fuel g = (Ret ampere, g') /\
    getWatt fuel g = (Ret watt, g') /\ getWattHour fuel g = (Ret wattHour, g').
Proof.
  intros Hv Hav Hans Hpre Ha Hf.
  destruct (requestData_reads pre a post fuel g v Hv Hav Hans Hpre Ha Hf) as (g' & E & Hb & Hp & _).
  exists g'. split; [done|]. destruct Ha as [_ Ha].
  assert (first_byte g' = (Ret REQUEST_DATA, g')) as Ef by (apply first_byte_head; by rewrite Hb).
  unfold getMeasurement, getVolt, getAmpere, getWatt, getWattHour, get_field.
  split_and!; (erewrite bind_Ret by exact E); (erewrite bind_Ret by exact Ef); mrun; by rewrite Hb.
Qed.
End readings.

(** ** Starting and stopping *)

Definition request (command : Z) : list Z := 0 :: command :: replicate (MAX_STR - 2) 0.

(** A meter that honours the protocol, which is found under the identifiers 0x04d8 and 0x003f:
    [connected] is whether one can be opened, [metering] whether it measures, [quiet] that no
    answer waits to be read.  The laws are about the devices that opening it gives, and no other:
    a start-stop request changes whether it measures; a read that waits gets the answer to a
    status request, which has it in its second byte, and 1 in the third.  Of a read that does not
    wait nothing is said: the answer may not have come yet. *)
Class MeterLaws (V D : Type) `{HidApi V D} := {
  connected : D -> bool;
  metering : D -> bool;
  quiet : D -> Prop;
  meter_device : V -> Prop;
  waits : V -> bool;
  meter_open s : exists v s', api_open 0x04d8 0x003f None s = (Ret v, s') /\
    match v with
    | Some v => connected s = true /\ meter_device v /\ quiet s'
    | None => connected s = false
    end;
  meter_set_nonblocking v nonblock : meter_device v ->
    let v' := snd (api_set_nonblocking v nonblock) in meter_device v' /\ waits v' = negb nonblock;
  meter_toggle v s : meter_device v -> quiet s ->
    exists r s', api_write v (request REQUEST_STARTSTOP) (Z.of_nat MAX_STR) s = (Ret r, s') /\ r <> -1 /\
      metering s' = negb (metering s) /\ quiet s';
  meter_status v s : meter_device v -> waits v = true -> quiet s ->
    exists r s1 r' x b rest v' s2,
      api_write v (request REQUEST_STATUS) (Z.of_nat MAX_STR) s = (Ret r, s1) /\ r <> -1 /\
      api_read v (Z.of_nat MAX_STR) s1 = (Ret (r', x :: b :: 1 :: rest, v'), s2) /\ r' <> -1 /\
      (b =? 1) = metering s /\ metering s2 = metering s /\ quiet s2 /\ meter_device v';
  meter_close v s : meter_device v -> exists s', api_close v s = (Ret tt, s') /\ metering s' = metering s }.

Section starting.
Context {V D : Type} `{MeterLaws V D}.
Implicit Types (g : Gauge V D).

Definition with_bus g (v : option V) (b : list Z) (s : D) : Gauge V D :=
  mkGauge (g_measurements g) v (g_meter g) (g_measure g) b s.

Lemma requestStartStop_toggles g v :
  g_device g = Some v -> meter_device v -> quiet (g_bus g) ->
  exists s', requestStartStop g = (Ret tt, with_bus g (Some v) (request REQUEST_STARTSTOP) s') /\
    metering s' = negb (metering (g_bus g)) /\ quiet s'.
Proof.
  intros Hv Hd Hq. destruct (meter_toggle v (g_bus g) Hd Hq) as (r & s' & E & Hr & Hm & Hq').
  exists s'. split; [|done]. unfold requestStartStop, write_buf, the_device, set_buf, on_bus. mrun.
  cbn [g_device g_buf g_bus g_measurements g_meter g_measure].
  change (put_command REQUEST_STARTSTOP (zero_first (g_buf g))) with (request REQUEST_STARTSTOP).
  rewrite Hv, E. cbn [g_device g_buf g_bus g_measurements g_meter g_measure].
  by rewrite (proj2 (Z.eqb_neq _ _) Hr).
Qed.

Lemma requestStatus_reads g v :
  g_device g = Some v -> meter_device v -> waits v = true -> quiet (g_bus g) ->
  exists v' x b rest s', requestStatus g = (Ret tt, with_bus g (Some v') (x :: b :: 1 :: rest) s') /\
    (b =? 1) = metering (g_bus g) /\ metering s' = metering (g_bus g) /\ quiet s' /\ meter_device v'.
Proof.
  intros Hv Hd Hw Hq.
  destruct (meter_status v (g_bus g) Hd Hw Hq) as (r & s1 & r' & x & b & rest & v' & s2 & E1 & Hr & E2 & Hr' & Hb & Hm & Hq' & Hd').
  eexists v', x, b, _, s2. split; [|done].
  unfold requestStatus, write_buf, read_buf, the_device, set_buf, set_device, on_bus. mrun.
  cbn [g_device g_buf g_bus g_measurements g_meter g_measure].
  change (put_command REQUEST_STATUS (zero_first (g_buf g))) with (request REQUEST_STATUS).
  rewrite Hv, E1. cbn [g_device g_buf g_bus g_measurements g_meter g_measure].
  rewrite (proj2 (Z.eqb_neq _ _) Hr). cbn [g_device g_buf g_bus g_measurements g_meter g_measure].
  rewrite ?Hv, E2. cbn [g_device g_buf g_bus g_measurements g_meter g_measure].
  by rewrite (proj2 (Z.eqb_neq _ _) Hr').
Qed.

(** A reset leaves the meter measuring, whatever it was doing. *)
Lemma Gauge_reset_starts g v :
  g_device g = Some v -> meter_device v -> waits v = true -> quiet (g_bus g) ->
  exists v' g', Gauge_reset g = (Ret tt, g') /\ metering (g_bus g') = true /\ quiet (g_bus g') /\
    g_device g' = Some v' /\ meter_device v' /\ g_meter g' = g_meter g.
Proof.
  intros Hv Hd Hw Hq.
  destruct (requestStatus_reads g v Hv Hd Hw Hq) as (v' & x & b & rest & s' & E & Hb & Hm & Hq' & Hd'). exists v'.
  unfold Gauge_reset. erewrite bind_Ret by exact E.
  erewrite bind_Ret by reflexivity. erewrite bind_Ret by reflexivity. cbn [Z.eqb Pos.eqb].
  rewrite Hb. destruct (metering (g_bus g)).
  - destruct (requestStartStop_toggles (with_bus g (Some v') (x :: b :: 1 :: rest) s') v' eq_refl Hd' Hq')
      as (s1 & E1 & Hm1 & Hq1).
    erewrite bind_Ret by exact E1.
    destruct (requestStartStop_toggles (with_bus (with_bus g (Some v') (x :: b :: 1 :: rest) s')
      (Some v') (request REQUEST_STARTSTOP) s1) v' eq_refl Hd' Hq1) as (s2 & E2 & Hm2 & Hq2).
    eexists. split; [exact E2|]. cbn in *. rewrite Hm2, Hm1, Hm. by split_and!.
  - rewrite ret_bind.
    destruct (requestStartStop_toggles (with_bus g (Some v') (x :: b :: 1 :: rest) s') v' eq_refl Hd' Hq')
      as (s1 & E1 & Hm1 & Hq1).
    eexists. split; [exact E1|]. cbn in *. rewrite Hm1, Hm. by split_and!.
Qed.

(** Destroying a gauge that does not sample leaves a measuring meter stopped. *)
Lemma Gauge_delete_stops g v :
  g_device g = Some v -> meter_device v -> quiet (g_bus g) -> g_meter g = None -> metering (g_bus g) = true ->
  exists g', Gauge_delete g = (Ret tt, g') /\ metering (g_bus g') = false.
Proof.
  intros Hv Hd Hq Hmt Hm.
  destruct (requestStartStop_toggles (with_bus g (Some v)
    (take 2 (zero_first (g_buf g)) ++ replicate (MAX_STR - 2) 0) (g_bus g)) v eq_refl Hd Hq)
    as (s1 & E1 & Hm1 & Hq1).
  destruct (meter_close v s1 Hd) as (s2 & E2 & Hm2). unfold with_bus in E1.
  eexists. split.
  - unfold Gauge_delete, set_buf. erewrite bind_Ret by reflexivity. unfold id. rewrite Hv.
    erewrite bind_Ret by reflexivity. rewrite Hv.
    erewrite bind_Ret by (unfold or_terminate; rewrite E1; reflexivity).
    erewrite bind_Ret by reflexivity. unfold on_bus. erewrite bind_Ret by (cbn; rewrite E2; reflexivity).
    rewrite Hmt. reflexivity.
  - cbn in *. by rewrite Hm2, Hm1, Hm.
Qed.

(** C28: for a meter that honours the protocol: the first use of the gauge tells whether the meter
    that is looked for, with its vendor and product, is connected. When it is, the meter is left
    measuring, even if it measured already, and destroying the gauge then leaves it stopped; when
    it is not, the gauge has no device. *)
Theorem gauge_session g :
  g_meter g = None ->
  exists g', initDevice g = (Ret (connected (g_bus g)), g') /\
    if connected (g_bus g) then
      metering (g_bus g') = true /\ exists g'', Gauge_delete g' = (Ret tt, g'') /\ metering (g_bus g'') = false
    else g_device g' = None.
Proof.
  intros Hmt. destruct (meter_open (g_bus g)) as (v & s1 & E1 & Ho).
  unfold initDevice, on_bus. erewrite bind_Ret by (rewrite E1; reflexivity).
  destruct v as [v|].
  - destruct Ho as (-> & Hd & Hq1). destruct (meter_set_nonblocking v false Hd) as [Hd' Hw].
    destruct (api_set_nonblocking v false) as [r v'] eqn:Ev. cbn [snd] in Hd', Hw. unfold set_device.
    erewrite bind_Ret by reflexivity. erewrite bind_Ret by reflexivity.
    edestruct (Gauge_reset_starts (with_bus g (Some v') (g_buf g) s1) v' eq_refl Hd' Hw Hq1)
      as (v2 & g' & E2 & Hm & Hq & Hv2 & Hd2 & Hmt').
    exists g'. split; [by erewrite bind_Ret by exact E2|]. split; [done|].
    apply (Gauge_delete_stops g' v2 Hv2 Hd2 Hq); [by rewrite Hmt'|done].
  - rewrite Ho. eexists. split; [reflexivity|]. done.
Qed.
End starting.

(** ** Sampling *)
Section sampling.
Context {V D : Type} `{HidApi V D}.
Implicit Types (g : Gauge V D).

(** Starting to sample while a sampling runs throws, but the samples that it has taken are
    gone. *)
Theorem startSampling_running g :
  g_measure g = true ->
  exists g', startSampling g
      = (Throw (runtime_error "An old measurement still runs. End it first before starting a new one."), g') /\
    g_measurements g' = [] /\ g_meter g' = g_meter g /\ g_measure g' = true.
Proof. intros Hm. eexists. unfold startSampling. mrun. unfold id. rewrite Hm. by split. Qed.

(** Ending a sampling that was not started dereferences a null pointer; ending it twice joins a
    thread that has been joined. *)
Lemma endSampling_not_started n fuel g :
  g_meter g = None -> exists g', endSampling n fuel g = (Undef "dereference of a null thread", g').
Proof. intros Hm. eexists. unfold endSampling. mrun. unfold id. by rewrite Hm. Qed.

Lemma endSampling_twice n n' fuel g l g' :
  endSampling n fuel g = (Ret l, g') ->
  exists g'', endSampling n' fuel g' = (Throw (runtime_error "Invalid argument"), g'').
Proof.
  unfold endSampling at 1. intros (g0 & s0 & [= <- <-] & E)%bind_Ret_inv.
  apply bind_Ret_inv in E as ([] & s1 & _ & E).
  unfold id in E. destruct (g_meter g) as [[|]|]; [|done|done].
  apply bind_Ret_inv in E as ([] & s2 & _ & E). apply bind_Ret_inv in E as (g2 & s3 & [= <- <-] & E).
  apply bind_Ret_inv in E as ([] & s4 & [= <-] & E). injection E as _ <-.
  eexists. unfold endSampling. mrun. reflexivity.
Qed.
End sampling.

(** ** A meter *)

(** A simulated meter: whether it is there, whether it measures, the answers that wait and the
    requests that were written. *)
Record SimMeter := mkSim { sim_present : bool; sim_on : bool; sim_queue : list (list Z); sim_written : list (list Z) }.

Definition sim_status (on : bool) : list Z := REQUEST_STATUS :: (if on then 1 else 0) :: 1 :: replicate 62 0.
Fixpoint text_bytes (s : string) : list Z :=
  match s with
  | EmptyString => []
  | String c s' => Z.of_N (N_of_ascii c) :: text_bytes s'
  end.
(** 5.013 V, 0.500 A, 2.506 W, 12.250 Wh. *)
Definition sim_report : list Z :=
  take MAX_STR (REQUEST_DATA :: 0 :: text_bytes "5.013 V 0.500 A 2.506W12.250 Wh" ++ replicate 64 0).

(** A request is recognised by its second byte. *)
Definition sim_write (b : list Z) : M SimMeter Z := fun s =>
  let command := default 0 (b !! 1%nat) in
  (Ret (Z.of_nat (length b)),
   mkSim (sim_present s) (if command =? REQUEST_STARTSTOP then negb (sim_on s) else sim_on s)
     (sim_queue s ++ (if command =? REQUEST_STATUS then [sim_status (sim_on s)]
                      else if command =? REQUEST_DATA then [sim_report] else []))
     (sim_written s ++ [b])).

#[export] Instance sim_api : HidApi unit SimMeter := {|
  api_open _ _ _ := fun s => (Ret (if sim_present s then Some tt else None), mkSim (sim_present s) (sim_on s) [] (sim_written s));
  api_set_nonblocking v _ := (0, v);
  api_write _ b _ := sim_write b;
  api_read v n := fun s =>
    match sim_queue s with
    | [] => (Undef "waits for ever", s)
    | a :: l => (Ret (Z.of_nat (length a), take (Z.to_nat n) a, v), mkSim (sim_present s) (sim_on s) l (sim_written s))
    end;
  api_close _ := ret tt |}.

(** *** The meter behind libusb

    The functions of [Hid] on a bus with one meter, or none: opening it goes through the
    enumeration and the descriptors, a request arrives without the number of its report, and an
    answer is brought by the thread that reads while [hid_read] waits. *)
Record UsbMeter := mkUsbMeter { um_ready : bool; um_present : bool; um_on : bool; um_answers : list (list Z) }.
Definition um_set (on : bool) (answers : list (list Z)) (s : UsbMeter) : UsbMeter := mkUsbMeter (um_ready s) (um_present s) on answers.

#[local] Instance usb_meter_order : HostOrder := little.
#[export] Instance usb_meter_control : ControlTransfer nat UsbMeter := {|
  libusb_control_transfer _ _ _ _ _ _ _ _ := ret (LIBUSB_ERROR_TIMEOUT : Z, []) |}.
#[export] Instance usb_meter_interrupt : InterruptTransfer nat UsbMeter := {|
  libusb_interrupt_transfer _ endpoint data length _ := fun s =>
    let command := default 0 (head data) in
    if endpoint =? 0x01 then
      (Ret (0, length),
       if command =? REQUEST_STARTSTOP then um_set (negb (um_on s)) (um_answers s) s
       else if command =? REQUEST_STATUS then um_set (um_on s) (um_answers s ++ [take 64 (sim_status (um_on s))]) s
       else s)
    else (Ret (LIBUSB_ERROR_NOT_FOUND : Z, 0), s) |}.
#[export] Instance usb_meter_libusb : Libusb nat UsbMeter := {|
  usb_context_set := um_ready;
  lu_init := fun s => (Ret 0, mkUsbMeter true (um_present s) (um_on s) (um_answers s));
  lu_exit := fun s => (Ret tt, mkUsbMeter false (um_present s) (um_on s) (um_answers s));
  lu_get_device_list := gets (fun s => if um_present s then (1, Some [meter_dev]) else (0, Some []));
  lu_free_device_list _ := ret tt;
  lu_get_device_descriptor _ := ret (0, Some meter_desc);
  lu_get_active_config_descriptor _ := ret (0, Some (0%nat, meter_config [meter_altsetting 0]));
  lu_get_config_descriptor _ _ := ret (0, Some (0%nat, meter_config [meter_altsetting 0]));
  lu_free_config_descriptor _ := ret tt;
  lu_open _ := ret (0, Some 0%nat);
  lu_close _ := ret tt;
  lu_kernel_driver_active _ _ := ret 1;
  lu_detach_kernel_driver _ _ := ret 0;
  lu_claim_interface _ _ := ret 0;
  lu_release_interface _ _ := ret 0;
  start_read_thread _ := modify (fun s => um_set (um_on s) [] s);
  stop_read_thread dev := ret dev |}.
#[export] Instance usb_meter_arrivals : Arrivals UsbMeter := {|
  arrivals s :=
    match um_answers s with
    | [] => ([], [], s)
    | a :: l => ([], [mkWait [] WaitWoken; mkWait [mkCallback LIBUSB_TRANSFER_COMPLETED a 0] WaitWoken], um_set (um_on s) l s)
    end |}.
#[export] Instance usb_meter_api : HidApi (hid_device nat) UsbMeter := hid_api (fun _ _ => None) None.

(** A device as [hid_open] makes it of the meter. *)
Definition usb_meter_device (v : hid_device nat) : Prop :=
  hd_device_handle v = Some 0%nat /\ hd_output_endpoint v = 0x01 /\ hd_input_reports v = [] /\ hd_shutdown_thread v = false.

(** The laws of a meter hold of the functions of [Hid] on that bus. *)
#[export] Instance usb_meter_laws : MeterLaws (hid_device nat) UsbMeter.
Proof.
  refine {| connected := um_present; metering := um_on; quiet s := um_answers s = [];
            meter_device := usb_meter_device; waits := hd_blocking |}.
  - intros [ready present on ans]. destruct ready, present; (do 2 eexists; split; [vm_compute; reflexivity|]); try done;
      by split_and!.
  - intros v b Hd. by split.
  - intros v [ready present on ans] (Hh & Ho & _) Hq. cbn in Hq. subst ans. destruct v; cbn in Hh, Ho. subst.
    do 2 eexists. split; [vm_compute; reflexivity|]. by split_and!.
  - intros v [ready present on ans] (Hh & Ho & Hr & Hs) Hw Hq. cbn in Hq. subst ans. destruct v; cbn in Hh, Ho, Hr, Hs, Hw. subst.
    destruct on; do 8 eexists; (split; [vm_compute; reflexivity|]); (split; [done|]); (split; [vm_compute; reflexivity|]); by split_and!.
  - intros v [ready present on ans] (Hh & Ho & Hr & Hs). destruct v; cbn in Hh, Ho, Hr, Hs. subst.
    eexists. split; [vm_compute; reflexivity|]. done.
Defined.

Definition usb_gauge (present on : bool) : Gauge (hid_device nat) UsbMeter :=
  Gauge_new (replicate MAX_STR 165) (mkUsbMeter false present on []).

(** A meter that measures already, and a bus without a meter. *)
Lemma gauge_session_witness :
  (exists g g', initDevice (usb_gauge true true) = (Ret true, g) /\ um_on (g_bus g) = true /\
    Gauge_delete g = (Ret tt, g') /\ um_on (g_bus g') = false) /\
  (exists g, initDevice (usb_gauge false false) = (Ret false, g) /\ g_device g = None).
Proof.
  split.
  - destruct (gauge_session (usb_gauge true true) eq_refl) as (g & E & Hm & g' & E' & Hm'). by exists g, g'.
  - destruct (gauge_session (usb_gauge false false) eq_refl) as (g & E & Hd). by exists g.
Defined.

(** A device whose answers are a list, whatever is written. *)
Definition answers_api : HidApi unit (list (list Z)) := {|
  api_open _ _ _ := ret (Some tt); api_set_nonblocking v _ := (0, v); api_write _ _ _ := ret 65;
  api_read v n := fun s =>
    match s with
    | [] => (Undef "waits for ever", s)
    | a :: l => (Ret (Z.of_nat (length a), take (Z.to_nat n) a, v), l)
    end;
  api_close _ := ret tt |}.
Definition answers_laws : @AnswersLaws unit (list (list Z)) answers_api.
Proof.
  refine (@Build_AnswersLaws _ _ answers_api (fun s => s) (fun _ => True) _ _).
  - intros v b n s _. by exists 65, s.
  - intros [] n s a l _ ->. exists (Z.of_nat (length a)), tt, l. split; [reflexivity|]. split; [lia|done].
Defined.

Lemma getMeasurement_reads_witness :
  let g := mkGauge [] (Some tt) None false [] [sim_status true; sim_report; [9]] in
  exists g', g_bus g' = [[9]] /\
    @getWattHour _ _ answers_api 2 g = (Ret (atof "12.250 "), g') /\
    @getVolt _ _ answers_api 2 g = (Ret (atof "5.013"), g').
Proof.
  intros g.
  destruct (@getMeasurement_reads unit (list (list Z)) answers_api answers_laws [sim_status true] sim_report [[9]]
    2 g tt eq_refl I eq_refl) as (g' & H1 & _ & H2 & _ & _ & H3).
  - repeat constructor. exists REQUEST_STATUS. by split.
  - by split.
  - cbn. lia.
  - exists g'. split_and!; [exact H1| |].
    + rewrite H3. vm_compute. reflexivity.
    + rewrite H2. vm_compute. reflexivity.
Defined.

Lemma startSampling_running_witness :
  let m := mkMeasurement d_zero d_zero d_zero d_zero in
  exists g', fst (@startSampling unit SimMeter (mkGauge [m] (Some tt) (Some true) true [] (mkSim true true [] []))) <> Ret tt /\
    g_measurements (g' : Gauge unit SimMeter) = [].
Proof.
  intros m. destruct (startSampling_running (mkGauge [m] (Some tt) (Some true) true [] (mkSim true true [] []))
    eq_refl) as (g' & E & Hl & _). exists g'. split; [by rewrite E|done].
Defined.

(** The loop of [requestData] does not clear the first byte: after the answer to another request
    it is written again with the first byte of that answer, which [hid_write] takes for the number
    of the report. *)
Theorem requestData_report_number :
  let g := mkGauge [] (Some tt) None false (replicate MAX_STR 0) (mkSim true true [sim_status true] []) in
  exists g', requestData 5 g = (Ret tt, g') /\
    map (take 2) (sim_written (g_bus g')) = [[0; REQUEST_DATA]; [REQUEST_STATUS; REQUEST_DATA]].
Proof. eexists. split; vm_compute; reflexivity. Qed.
