(* ===== verification/EnergyLinux.v ===== *)
(** * Energy counters on Linux (src/energy/energy-linux.cpp)

    Each counter is a record; its methods read the machine and change the record.  The RAPL
    library and the INA231 driver are not code of the program: the classes [Raplcap] and
    [InaDevice] are what it calls of them.  The class [SmartGauge] is the power meter. *)
From S2P Require Import Prelude UtilsText UtilsVector Double UtilsSys Topology TopologyLinux CpuFreq Energy SmartGauge.

(** ** RAPL counters in model specific registers *)

(** [MSR_PKG_ENERGY_STATUS_INTEL] and the others, include/mammut/utils.hpp:30-64. *)
Definition MSR_RAPL_POWER_UNIT_INTEL : Z := 1542.      (* 0x606 *)
Definition MSR_PKG_ENERGY_STATUS_INTEL : Z := 1553.    (* 0x611 *)
Definition MSR_PKG_POWER_INFO_INTEL : Z := 1556.       (* 0x614 *)
Definition MSR_PP0_ENERGY_STATUS_INTEL : Z := 1593.    (* 0x639 *)
Definition MSR_PP1_ENERGY_STATUS_INTEL : Z := 1601.    (* 0x641 *)
Definition MSR_DRAM_ENERGY_STATUS_INTEL : Z := 1561.   (* 0x619 *)
Definition MSR_RAPL_POWER_UNIT_AMD : Z := 3221291673.  (* 0xC0010299 *)
Definition MSR_PP0_ENERGY_STATUS_AMD : Z := 3221291674.
Definition MSR_PKG_ENERGY_STATUS_AMD : Z := 3221291675.

(** [CpuFamily], include/mammut/energy/energy-linux.hpp:168-171. *)
Inductive CpuFamily := CPU_FAMILY_INTEL | CPU_FAMILY_AMD.
#[export] Instance CpuFamily_eq_dec : EqDecision CpuFamily.
Proof. solve_decision. Defined.

(** [CounterCpusLinuxMsr], include/mammut/energy/energy-linux.hpp:173-198. The arrays are lists;
    [None] is an element that was never written. [cm_refresher] is whether the refresher thread
    has been started. *)
Record CounterCpusLinuxMsr := mkCounterMsr {
  cm_cpus : list Cpu; cm_family : option CpuFamily; cm_initialized : bool; cm_refresher : bool;
  cm_msrs : list (option Msr); cm_maxId : Z;
  cm_powerPerUnit : double; cm_energyPerUnit : double; cm_timePerUnit : double; cm_thermalSpecPower : double;
  cm_joulesCpus : list JoulesCpu;
  cm_lastCpu : list (option Z); cm_lastCores : list (option Z);
  cm_lastGraphic : list (option Z); cm_lastDram : list (option Z);
  cm_hasCores : bool; cm_hasGraphic : bool; cm_hasDram : bool
}.

(** Assignments to the arrays. *)
Definition cm_set_joules (cpuId : Z) (j : JoulesCpu) (c : CounterCpusLinuxMsr) : CounterCpusLinuxMsr :=
  mkCounterMsr (cm_cpus c) (cm_family c) (cm_initialized c) (cm_refresher c) (cm_msrs c) (cm_maxId c)
    (cm_powerPerUnit c) (cm_energyPerUnit c) (cm_timePerUnit c) (cm_thermalSpecPower c)
    (<[Z.to_nat cpuId := j]> (cm_joulesCpus c))
    (cm_lastCpu c) (cm_lastCores c) (cm_lastGraphic c) (cm_lastDram c) (cm_hasCores c) (cm_hasGraphic c) (cm_hasDram c).
Definition cm_set_last (lastCpu lastCores lastGraphic lastDram : list (option Z) -> list (option Z))
    (c : CounterCpusLinuxMsr) : CounterCpusLinuxMsr :=
  mkCounterMsr (cm_cpus c) (cm_family c) (cm_initialized c) (cm_refresher c) (cm_msrs c) (cm_maxId c)
    (cm_powerPerUnit c) (cm_energyPerUnit c) (cm_timePerUnit c) (cm_thermalSpecPower c) (cm_joulesCpus c)
    (lastCpu (cm_lastCpu c)) (lastCores (cm_lastCores c)) (lastGraphic (cm_lastGraphic c)) (lastDram (cm_lastDram c))
    (cm_hasCores c) (cm_hasGraphic c) (cm_hasDram c).

(** [CounterCpusLinuxMsr::CounterCpusLinuxMsr], src/energy/energy-linux.cpp:371-390. *)
Definition CounterMsr_new (cpus : list Cpu) : CounterCpusLinuxMsr :=
  mkCounterMsr cpus None false false [] 0 d_zero d_zero d_zero d_zero [] [] [] [] [] false false false.

(** A CPU's first virtual core, which [getVirtualCore()] returns: a null pointer when there is none. *)
Definition cpu_msr (w : World) (cpu : Cpu) : outcome Msr :=
  match Cpu_getFirstVirtualCore cpu with
  | Some v => Ret (Msr_new w (vc_virtualCoreId v) false)
  | None => Undef "null virtual core"
  end.
(** [msr.read(which, dummy) && dummy]. *)
Definition read_nonzero (w : World) (m : Msr) (which : Z) : bool :=
  match Msr_read w m which with Some v => negb (v =? 0) | None => false end.

(** A counter register of a CPU is there and not zero, on an Intel machine. *)
Definition has_intel_counter (w : World) (c : CounterCpusLinuxMsr) (cpu : Cpu) (which : Z) : outcome bool :=
  match cm_family c with
  | Some CPU_FAMILY_INTEL => m ← cpu_msr w cpu; Ret (read_nonzero w m which)
  | Some CPU_FAMILY_AMD => Ret false
  | None => Undef "_family is uninitialised"
  end.
(** [CounterCpusLinuxMsr::hasCoresCounter], src/energy/energy-linux.cpp:318-326. *)
Definition CounterMsr_hasCoresCounter (w : World) (c : CounterCpusLinuxMsr) (cpu : Cpu) : outcome bool :=
  has_intel_counter w c cpu MSR_PP0_ENERGY_STATUS_INTEL.
(** [CounterCpusLinuxMsr::hasGraphicCounter], src/energy/energy-linux.cpp:328-335. *)
Definition CounterMsr_hasGraphicCounter (w : World) (c : CounterCpusLinuxMsr) (cpu : Cpu) : outcome bool :=
  has_intel_counter w c cpu MSR_PP1_ENERGY_STATUS_INTEL.
(** [CounterCpusLinuxMsr::hasDramCounter], src/energy/energy-linux.cpp:337-344. *)
Definition CounterMsr_hasDramCounter (w : World) (c : CounterCpusLinuxMsr) (cpu : Cpu) : outcome bool :=
  has_intel_counter w c cpu MSR_DRAM_ENERGY_STATUS_INTEL.

(** The vendor, as the tests compare it: its first twelve characters. *)
Definition vendor_is (w : World) (name : string) : outcome bool :=
  vendor ← CpuLinux_getVendorId w; Ret (bool_decide (str_take 12 vendor = name)).

(** [CounterCpusLinuxMsr::isCpuIntelSupported], src/energy/energy-linux.cpp:346-355. *)
Definition CounterMsr_isCpuIntelSupported (w : World) (cpu : Cpu) : outcome bool :=
  msr ← cpu_msr w cpu;
  family ← CpuLinux_getFamily w;
  if negb (bool_decide (family = "6"%string)) then Ret false
  else
    intel ← vendor_is w "GenuineIntel";
    Ret ((intel : bool) && Msr_available msr && read_nonzero w msr MSR_RAPL_POWER_UNIT_INTEL &&
         read_nonzero w msr MSR_PKG_POWER_INFO_INTEL && bool_decide (is_Some (Msr_read w msr MSR_PKG_ENERGY_STATUS_INTEL))).

(** [CounterCpusLinuxMsr::isCpuAMDSupported], src/energy/energy-linux.cpp:357-365. *)
Definition CounterMsr_isCpuAMDSupported (w : World) (cpu : Cpu) : outcome bool :=
  msr ← cpu_msr w cpu;
  family ← CpuLinux_getFamily w;
  if negb (bool_decide (family = "23"%string)) then Ret false
  else
    amd ← vendor_is w "AuthenticAMD";
    Ret ((amd : bool) && Msr_available msr && read_nonzero w msr MSR_RAPL_POWER_UNIT_AMD &&
         bool_decide (is_Some (Msr_read w msr MSR_PKG_ENERGY_STATUS_AMD))).

(** [CounterCpusLinuxMsr::isCpuSupported], src/energy/energy-linux.cpp:367-369. *)
Definition CounterMsr_isCpuSupported (w : World) (cpu : Cpu) : outcome bool :=
  intel ← CounterMsr_isCpuIntelSupported w cpu;
  if (intel : bool) then Ret true else CounterMsr_isCpuAMDSupported w cpu.

(** [CounterCpusLinuxMsr::readEnergyCounter], src/energy/energy-linux.cpp:506-524. *)
Definition CounterMsr_readEnergyCounter (w : World) (c : CounterCpusLinuxMsr) (cpuId which : Z) : outcome Z :=
  if bool_decide (which ∈ [MSR_PKG_ENERGY_STATUS_INTEL; MSR_PP0_ENERGY_STATUS_INTEL; MSR_PP1_ENERGY_STATUS_INTEL;
                           MSR_DRAM_ENERGY_STATUS_INTEL; MSR_PKG_ENERGY_STATUS_AMD; MSR_PP0_ENERGY_STATUS_AMD]) then
    m ← vec_index (cm_msrs c) (Z.to_nat cpuId);
    match m with
    | None => Undef "uninitialised msr pointer"
    | Some msr =>
        match Msr_read w msr which with
        | Some result =>
            if result =? 0 then
              Throw (runtime_error "Fatal error. Counter has been created but registers are not present.")
            else Ret (Z.land result 4294967295)
        | None => Throw (runtime_error "Fatal error. Counter has been created but registers are not present.")
        end
    end
  else Throw (runtime_error "Invalid energy counter specification.").

(** [CounterCpusLinuxMsr::getWrappingInterval], src/energy/energy-linux.cpp:526-528. *)
Definition CounterMsr_getWrappingInterval (c : CounterCpusLinuxMsr) : double :=
  ddiv (dmul (d_of_Z 4294967295) (cm_energyPerUnit c)) (cm_thermalSpecPower c).

(** [deltaDiff], src/energy/energy-linux.cpp:530-536. *)
Definition deltaDiff (c1 c2 : Z) : Z :=
  if c1 <? c2 then u32 (c2 - c1) else u32 (u32 (u32 (4294967295 - c1) + 1) + c2).

(** [CounterCpusLinuxMsr::updateCounter], src/energy/energy-linux.cpp:538-542: the new values of
    [joules] and [lastReadCounter]. *)
Definition CounterMsr_updateCounter (w : World) (c : CounterCpusLinuxMsr) (cpuId : Z) (joules : double)
    (lastReadCounter : option Z) (counterType : Z) : outcome (double * Z) :=
  currentCounter ← CounterMsr_readEnergyCounter w c cpuId counterType;
  match lastReadCounter with
  | None => Undef "lastReadCounter is uninitialised"
  | Some l => Ret (dadd joules (dmul (d_of_Z (deltaDiff l currentCounter)) (cm_energyPerUnit c)), currentCounter)
  end.

(** The joules and the last reading of a CPU, then their update. *)
Definition update_component (w : World) (cpuId which : Z)
    (get : JoulesCpu -> double) (set : double -> JoulesCpu -> JoulesCpu)
    (last : CounterCpusLinuxMsr -> list (option Z)) (set_last : Z -> CounterCpusLinuxMsr -> CounterCpusLinuxMsr) :
    M CounterCpusLinuxMsr double :=
  let* j := query (fun c => vec_index (cm_joulesCpus c) (Z.to_nat cpuId)) in
  let* l := query (fun c => vec_index (last c) (Z.to_nat cpuId)) in
  let* r := query (fun c => CounterMsr_updateCounter w c cpuId (get j) l which) in
  do* modify (fun c => set_last (snd r) (cm_set_joules cpuId (set (fst r) j) c)) in
  ret (fst r).

Definition set_j_cpu (v : double) (j : JoulesCpu) := mkJoulesCpu v (j_cores j) (j_graphic j) (j_dram j).
Definition set_j_cores (v : double) (j : JoulesCpu) := mkJoulesCpu (j_cpu j) v (j_graphic j) (j_dram j).
Definition set_j_graphic (v : double) (j : JoulesCpu) := mkJoulesCpu (j_cpu j) (j_cores j) v (j_dram j).
Definition set_j_dram (v : double) (j : JoulesCpu) := mkJoulesCpu (j_cpu j) (j_cores j) (j_graphic j) v.
Definition set_at (cpuId v : Z) (l : list (option Z)) : list (option Z) := <[Z.to_nat cpuId := Some v]> l.

(** The value of a component, without an update. *)
Definition joules_of (cpuId : Z) (get : JoulesCpu -> double) : M CounterCpusLinuxMsr double :=
  let* j := query (fun c => vec_index (cm_joulesCpus c) (Z.to_nat cpuId)) in ret (get j).

(** [CounterCpusLinuxMsr::getJoulesCpu], src/energy/energy-linux.cpp:544-552. *)
Definition CounterMsr_getJoulesCpu (w : World) (cpuId : Z) : M CounterCpusLinuxMsr double :=
  let* family := gets cm_family in
  match family with
  | Some CPU_FAMILY_INTEL =>
      update_component w cpuId MSR_PKG_ENERGY_STATUS_INTEL j_cpu set_j_cpu cm_lastCpu
        (fun v => cm_set_last (set_at cpuId v) id id id)
  | Some CPU_FAMILY_AMD =>
      update_component w cpuId MSR_PKG_ENERGY_STATUS_AMD j_cpu set_j_cpu cm_lastCpu
        (fun v => cm_set_last (set_at cpuId v) id id id)
  | None => undef "_family is uninitialised"
  end.

(** [CounterCpusLinuxMsr::getJoulesCores], src/energy/energy-linux.cpp:554-566. *)
Definition CounterMsr_getJoulesCores (w : World) (cpuId : Z) : M CounterCpusLinuxMsr double :=
  let* has := gets cm_hasCores in
  if (has : bool) then
    let* family := gets cm_family in
    match family with
    | Some CPU_FAMILY_INTEL =>
        update_component w cpuId MSR_PP0_ENERGY_STATUS_INTEL j_cores set_j_cores cm_lastCores
          (fun v => cm_set_last id (set_at cpuId v) id id)
    | _ => joules_of cpuId j_cores
    end
  else ret d_zero.

(** [CounterCpusLinuxMsr::getJoulesGraphic], src/energy/energy-linux.cpp:568-577. *)
Definition CounterMsr_getJoulesGraphic (w : World) (cpuId : Z) : M CounterCpusLinuxMsr double :=
  let* has := gets cm_hasGraphic in
  let* family := gets cm_family in
  if (has : bool) && bool_decide (family = Some CPU_FAMILY_INTEL) then
    update_component w cpuId MSR_PP1_ENERGY_STATUS_INTEL j_graphic set_j_graphic cm_lastGraphic
      (fun v => cm_set_last id id (set_at cpuId v) id)
  else ret d_zero.

(** [CounterCpusLinuxMsr::getJoulesDram], src/energy/energy-linux.cpp:579-588. *)
Definition CounterMsr_getJoulesDram (w : World) (cpuId : Z) : M CounterCpusLinuxMsr double :=
  let* has := gets cm_hasDram in
  let* family := gets cm_family in
  if (has : bool) && bool_decide (family = Some CPU_FAMILY_INTEL) then
    update_component w cpuId MSR_DRAM_ENERGY_STATUS_INTEL j_dram set_j_dram cm_lastDram
      (fun v => cm_set_last id id id (set_at cpuId v))
  else ret d_zero.

(** [CounterCpusLinux::getJoulesComponents], src/energy/energy-linux.cpp:314-316. The order of
    the four calls is not specified; they read different registers. *)
Definition CounterMsr_getJoulesComponents (w : World) (cpuId : Z) : M CounterCpusLinuxMsr JoulesCpu :=
  let* cpu := CounterMsr_getJoulesCpu w cpuId in
  let* cores := CounterMsr_getJoulesCores w cpuId in
  let* graphic := CounterMsr_getJoulesGraphic w cpuId in
  let* dram := CounterMsr_getJoulesDram w cpuId in
  ret (mkJoulesCpu cpu cores graphic dram).

(** An assignment to an element of an array: out of range it is undefined. *)
Definition assign_last (w : World) (i : Z) (which : Z) (last : CounterCpusLinuxMsr -> list (option Z))
    (set_last : Z -> CounterCpusLinuxMsr -> CounterCpusLinuxMsr) : M CounterCpusLinuxMsr unit :=
  let* v := query (fun c => CounterMsr_readEnergyCounter w c i which) in
  let* _ := query (fun c => vec_index (last c) (Z.to_nat i)) in
  modify (set_last v).
Definition when_ (b : bool) (f : M CounterCpusLinuxMsr unit) : M CounterCpusLinuxMsr unit :=
  if b then f else ret tt.

(** [CounterCpusLinuxMsr::reset], src/energy/energy-linux.cpp:592-611: one iteration; [i] is the
    loop's index. *)
Definition reset_cpu (w : World) (i : Z) : M CounterCpusLinuxMsr unit :=
  let* c := gets id in
  do* match cm_family c with
      | Some CPU_FAMILY_INTEL =>
          assign_last w i MSR_PKG_ENERGY_STATUS_INTEL cm_lastCpu (fun v => cm_set_last (set_at i v) id id id)
      | Some CPU_FAMILY_AMD =>
          assign_last w i MSR_PKG_ENERGY_STATUS_AMD cm_lastCpu (fun v => cm_set_last (set_at i v) id id id)
      | None => undef "_family is uninitialised"
      end in
  do* when_ (cm_hasCores c)
        (assign_last w i MSR_PP0_ENERGY_STATUS_INTEL cm_lastCores (fun v => cm_set_last id (set_at i v) id id)) in
  do* when_ (cm_hasGraphic c)
        (assign_last w i MSR_PP1_ENERGY_STATUS_INTEL cm_lastGraphic (fun v => cm_set_last id id (set_at i v) id)) in
  do* when_ (cm_hasDram c)
        (assign_last w i MSR_DRAM_ENERGY_STATUS_INTEL cm_lastDram (fun v => cm_set_last id id id (set_at i v))) in
  let* _ := query (fun c => vec_index (cm_joulesCpus c) (Z.to_nat i)) in
  modify (cm_set_joules i JoulesCpu_zero).

(** [CounterCpusLinuxMsr::reset], src/energy/energy-linux.cpp:590-612. *)
Definition CounterMsr_reset (w : World) : M CounterCpusLinuxMsr unit :=
  let* cpus := gets cm_cpus in
  for_each (seqZ 0 (Z.of_nat (length cpus))) (reset_cpu w).

(** The largest CPU identifier, [_maxId]. *)
Definition max_cpu_id (cpus : list Cpu) : Z :=
  fold_left (fun m cpu => if m <? cpu_cpuId cpu then cpu_cpuId cpu else m) cpus 0.

(** [CounterCpusLinuxMsr::init], src/energy/energy-linux.cpp:428-436: the descriptors. *)
Definition init_msrs (w : World) (cpus : list Cpu) : outcome (list (option Msr)) :=
  fold_out cpus (replicate (Z.to_nat (max_cpu_id cpus + 1)) None) (fun msrs cpu =>
    m ← cpu_msr w cpu;
    if Msr_available m then Ret (<[Z.to_nat (cpu_cpuId cpu) := Some m]> msrs)
    else Throw (runtime_error ("Impossible to open msr for CPU " +:+ intToString (cpu_cpuId cpu)))).

(** [CounterCpusLinuxMsr::init], src/energy/energy-linux.cpp:449-463: the units of power, energy
    and time, and the thermal power. *)
Definition init_units (w : World) (family : CpuFamily) (msr : Msr) : outcome (double * double * double * double) :=
  match Msr_read w msr (match family with CPU_FAMILY_INTEL => MSR_RAPL_POWER_UNIT_INTEL
                                     | CPU_FAMILY_AMD => MSR_RAPL_POWER_UNIT_AMD end) with
  | None => Undef "result is uninitialised"
  | Some result =>
      let power := d_pow_half (Z.land result 15) in
      let energy := d_pow_half (Z.land (Z.shiftr result 8) 31) in
      let time := d_pow_half (Z.land (Z.shiftr result 16) 15) in
      match family with
      | CPU_FAMILY_INTEL =>
          let result := match Msr_read w msr MSR_PKG_POWER_INFO_INTEL with Some v => v | None => result end in
          Ret (power, energy, time, dmul power (d_of_Z (Z.land result 32767)))
      | CPU_FAMILY_AMD => Ret (power, energy, time, d_of_Z 180)
      end
  end.

(** [CounterCpusLinuxMsr::init], src/energy/energy-linux.cpp:392-483. *)
Definition CounterMsr_init (w : World) : M CounterCpusLinuxMsr bool :=
  let* cpus := gets cm_cpus in
  do* lift (vec_index cpus 0) in
  let* intel := lift (vendor_is w "GenuineIntel") in
  let* amd := if (intel : bool) then ret false else lift (vendor_is w "AuthenticAMD") in
  if negb (intel || amd) then ret false
  else
    let family := if intel : bool then CPU_FAMILY_INTEL else CPU_FAMILY_AMD in
    let* supported := lift (all_out cpus (CounterMsr_isCpuSupported w)) in
    if negb supported then ret false
    else
      let* msrs := lift (init_msrs w cpus) in
      let maxId := max_cpu_id cpus in
      let size := Z.to_nat (maxId + 1) in
      let* last := lift (vec_index msrs (Z.to_nat maxId)) in
      let* msr := match last with Some m => ret m | None => undef "uninitialised msr pointer" end in
      let* units := lift (init_units w family msr) in
      let '(power, energy, time, thermal) := units in
      let c := mkCounterMsr cpus (Some family) true false msrs maxId power energy time thermal
                 (replicate size JoulesCpu_zero) (replicate size None) (replicate size None)
                 (replicate size None) (replicate size None) true true true in
      let* cores := lift (map_out cpus (CounterMsr_hasCoresCounter w c)) in
      let* dram := lift (map_out cpus (CounterMsr_hasDramCounter w c)) in
      let* graphic := lift (map_out cpus (CounterMsr_hasGraphicCounter w c)) in
      do* modify (fun _ => mkCounterMsr cpus (Some family) true false msrs maxId power energy time thermal
                 (replicate size JoulesCpu_zero) (replicate size None) (replicate size None)
                 (replicate size None) (replicate size None)
                 (forallb id cores) (forallb id graphic) (forallb id dram)) in
      do* CounterMsr_reset w in
      do* modify (fun c => mkCounterMsr (cm_cpus c) (cm_family c) true true (cm_msrs c) (cm_maxId c)
                 (cm_powerPerUnit c) (cm_energyPerUnit c) (cm_timePerUnit c) (cm_thermalSpecPower c)
                 (cm_joulesCpus c) (cm_lastCpu c) (cm_lastCores c) (cm_lastGraphic c) (cm_lastDram c)
                 (cm_hasCores c) (cm_hasGraphic c) (cm_hasDram c)) in
      ret true.

(** [CounterCpusLinuxRefresher::run], src/energy/energy-linux.cpp:301-306: the time between two
    readings, an [int] of milliseconds. *)
Definition Refresher_interval (wrappingInterval : double) : outcome Z :=
  d_to_i32 (dmul (ddiv wrappingInterval (d_of_Z 2)) (d_of_Z 1000)).

(** ** RAPL counters in sysfs *)

(** [CounterCpusLinuxSysFs], include/mammut/energy/energy-linux.hpp:236-247. *)
Record CounterCpusLinuxSysFs := mkCounterSysFs {
  cs_cpus : list Cpu; cs_initialized : bool;
  cs_idCores : Z; cs_idGraphic : Z; cs_idDram : Z;
  cs_lastCpu : list double; cs_lastCores : list double; cs_lastDram : list double; cs_lastGraphic : list double;
  cs_joulesCpus : list JoulesCpu; cs_maxValue : double
}.
Definition RAPL_SYSFS_PREFIX : string := "/sys/class/powercap/intel-rapl/intel-rapl:".

Definition cs_set (joules : list JoulesCpu -> list JoulesCpu)
    (lastCpu lastCores lastDram lastGraphic : list double -> list double) (c : CounterCpusLinuxSysFs) :
    CounterCpusLinuxSysFs :=
  mkCounterSysFs (cs_cpus c) (cs_initialized c) (cs_idCores c) (cs_idGraphic c) (cs_idDram c)
    (lastCpu (cs_lastCpu c)) (lastCores (cs_lastCores c)) (lastDram (cs_lastDram c)) (lastGraphic (cs_lastGraphic c))
    (joules (cs_joulesCpus c)) (cs_maxValue c).

(** [CounterCpusLinuxSysFs::CounterCpusLinuxSysFs], src/energy/energy-linux.cpp:626-634. *)
Definition CounterSysFs_new (cpus : list Cpu) : CounterCpusLinuxSysFs :=
  mkCounterSysFs cpus false (-1) (-1) (-1) [] [] [] [] [] d_zero.

(** [CounterCpusLinuxSysFs::read], src/energy/energy-linux.cpp:671-676. *)
Definition sysfs_now (w : World) (cpuId sub : Z) : outcome double :=
  let id := intToString cpuId in
  line ← readFirstLineFromFile w
    (if sub =? -1 then RAPL_SYSFS_PREFIX +:+ id +:+ "/energy_uj"
     else RAPL_SYSFS_PREFIX +:+ id +:+ "/intel-rapl:" +:+ id +:+ ":" +:+ intToString sub +:+ "/energy_uj");
  Ret (ddiv (atof line) (d_of_Z 1000000)).

(** [CounterCpusLinuxSysFs::read], src/energy/energy-linux.cpp:669-686: the new [cumulative] and
    [last], from the old ones. *)
Definition CounterSysFs_read (w : World) (maxValue : double) (cpuId sub : Z) (cumulative last : double) :
    outcome (double * double) :=
  now ← sysfs_now w cpuId sub;
  let r := if dltb now last then dadd (dsub maxValue last) now else dsub now last in
  Ret (dadd cumulative r, now).

Definition sysfs_component (w : World) (cpuId sub : Z)
    (get : JoulesCpu -> double) (set : double -> JoulesCpu -> JoulesCpu)
    (last : CounterCpusLinuxSysFs -> list double)
    (set_last : (list double -> list double) -> CounterCpusLinuxSysFs -> CounterCpusLinuxSysFs) :
    M CounterCpusLinuxSysFs double :=
  let* j := query (fun c => vec_index (cs_joulesCpus c) (Z.to_nat cpuId)) in
  let* r := query (fun c =>
    l ← vec_index (last c) (Z.to_nat cpuId);
    CounterSysFs_read w (cs_maxValue c) cpuId sub (get j) l) in
  do* modify (fun c => set_last (fun ls => <[Z.to_nat cpuId := snd r]> ls)
                (cs_set (fun js => <[Z.to_nat cpuId := set (fst r) j]> js) id id id id c)) in
  ret (fst r).

(** [CounterCpusLinuxSysFs::getJoulesCpu], src/energy/energy-linux.cpp:688-690. *)
Definition CounterSysFs_getJoulesCpu (w : World) (cpuId : Z) : M CounterCpusLinuxSysFs double :=
  sysfs_component w cpuId (-1) j_cpu set_j_cpu cs_lastCpu (fun f => cs_set id f id id id).

(** [CounterCpusLinuxSysFs::getJoulesCores], src/energy/energy-linux.cpp:692-698. *)
Definition CounterSysFs_getJoulesCores (w : World) (cpuId : Z) : M CounterCpusLinuxSysFs double :=
  let* sub := gets cs_idCores in
  if sub =? -1 then ret d_zero
  else sysfs_component w cpuId sub j_cores set_j_cores cs_lastCores (fun f => cs_set id id f id id).

(** [CounterCpusLinuxSysFs::getJoulesGraphic], src/energy/energy-linux.cpp:700-706. *)
Definition CounterSysFs_getJoulesGraphic (w : World) (cpuId : Z) : M CounterCpusLinuxSysFs double :=
  let* sub := gets cs_idGraphic in
  if sub =? -1 then ret d_zero
  else sysfs_component w cpuId sub j_graphic set_j_graphic cs_lastGraphic (fun f => cs_set id id id id f).

(** [CounterCpusLinuxSysFs::getJoulesDram], src/energy/energy-linux.cpp:708-714. *)
Definition CounterSysFs_getJoulesDram (w : World) (cpuId : Z) : M CounterCpusLinuxSysFs double :=
  let* sub := gets cs_idDram in
  if sub =? -1 then ret d_zero
  else sysfs_component w cpuId sub j_dram set_j_dram cs_lastDram (fun f => cs_set id id id f id).

(** [CounterCpusLinuxSysFs::hasJoulesCores] and the two like it,
    src/energy/energy-linux.cpp:716-726. *)
Definition CounterSysFs_has (sub : Z) : bool := negb (sub =? -1).

(** [CounterCpusLinux::getJoulesComponents], src/energy/energy-linux.cpp:314-316. *)
Definition CounterSysFs_getJoulesComponents (w : World) (cpuId : Z) : M CounterCpusLinuxSysFs JoulesCpu :=
  let* cpu := CounterSysFs_getJoulesCpu w cpuId in
  let* cores := CounterSysFs_getJoulesCores w cpuId in
  let* graphic := CounterSysFs_getJoulesGraphic w cpuId in
  let* dram := CounterSysFs_getJoulesDram w cpuId in
  ret (mkJoulesCpu cpu cores graphic dram).

(** [CounterCpusLinuxSysFs::reset], src/energy/energy-linux.cpp:728-739. *)
Definition CounterSysFs_reset (w : World) : M CounterCpusLinuxSysFs unit :=
  let* cpus := gets cs_cpus in
  for_each (seqZ 0 (Z.of_nat (length cpus))) (fun i =>
    do* CounterSysFs_getJoulesCpu w i in
    do* CounterSysFs_getJoulesCores w i in
    do* CounterSysFs_getJoulesGraphic w i in
    do* CounterSysFs_getJoulesDram w i in
    modify (cs_set (fun js => <[Z.to_nat i := JoulesCpu_zero]> js) id id id id)).

(** [CounterCpusLinuxSysFs::init], src/energy/energy-linux.cpp:646-657: the subdomains. The loop
    ends at the first number without a file; the fuel is one more than the files there are. *)
Fixpoint sysfs_subdomains (w : World) (fuel : nat) (sub : Z) (ids : Z * Z * Z) : outcome (Z * Z * Z) :=
  match fuel with
  | O => Undef "out of fuel"
  | S f =>
      let path := (RAPL_SYSFS_PREFIX +:+ "0/intel-rapl:0:" +:+ intToString sub +:+ "/name")%string in
      if existsFile w path then
        name ← readFirstLineFromFile w path;
        let '(cores, dram, graphic) := ids in
        sysfs_subdomains w f (sub + 1)
          (if bool_decide (name = "core"%string) then (sub, dram, graphic)
           else if bool_decide (name = "dram"%string) then (cores, sub, graphic)
           else if bool_decide (name = "uncore"%string) then (cores, dram, sub)
           else ids)
      else Ret ids
  end.

(** [CounterCpusLinuxSysFs::init], src/energy/energy-linux.cpp:638-667. *)
Definition CounterSysFs_init (w : World) : M CounterCpusLinuxSysFs bool :=
  let* c := gets id in
  let cpus := cs_cpus c in
  let n := length cpus in
  if negb (forallb (fun i => existsFile w (RAPL_SYSFS_PREFIX +:+ intToString i +:+ "/energy_uj"))
             (seqZ 0 (Z.of_nat n))) then ret false
  else
    let* ids := lift (sysfs_subdomains w (S (size (dom (w_fs w)))) 0 (cs_idCores c, cs_idDram c, cs_idGraphic c)) in
    let '(cores, dram, graphic) := ids in
    let* line := lift (readFirstLineFromFile w (RAPL_SYSFS_PREFIX +:+ "0/max_energy_range_uj")) in
    do* modify (fun _ => mkCounterSysFs cpus true cores graphic dram (replicate n d_zero) (replicate n d_zero)
                  (replicate n d_zero) (replicate n d_zero) (replicate n JoulesCpu_zero)
                  (ddiv (atof line) (d_of_Z 1000000))) in
    do* CounterSysFs_reset w in
    ret true.

(** ** Counters of the plug and of the memory *)

(** An elapsed time in seconds: two [ulong] times in milliseconds. *)
Definition elapsed_s (now last : Z) : double := ddiv (d_of_Z (u64 (now - last))) (d_of_Z 1000).
(** [ulong now = getMillisecondsTime()]. *)
Definition now_ms (w : World) : outcome Z := t ← getMillisecondsTime w; d_to_u64 t.

(** [CounterAmesterLinux], include/mammut/energy/energy-linux.hpp:15-31. *)
Record CounterAmesterLinux := mkCounterAmester {
  ca_sensorJoules : AmesterSensor; ca_sensorWatts : AmesterSensor;
  ca_lastValue : double; ca_lastTimestamp : Z; ca_timeOffset : Z
}.
(** [CounterAmesterLinux::CounterAmesterLinux], src/energy/energy-linux.cpp:32-36. *)
Definition CounterAmester_new (jlsSensor wtsSensor : string) : CounterAmesterLinux :=
  mkCounterAmester (mkAmesterSensor jlsSensor) (mkAmesterSensor wtsSensor) d_zero 0 0.

(** [CounterAmesterLinux::init], src/energy/energy-linux.cpp:38-47. *)
Definition CounterAmester_init (w : World) : M CounterAmesterLinux bool :=
  let* c := gets id in
  if AmesterSensor_exists w (ca_sensorJoules c) then
    let* ar := lift (AmesterSensor_readSum w (ca_sensorJoules c)) in
    let* now := lift (getMillisecondsTime w) in
    let* offset := lift (d_to_i64 (dsub now (d_of_Z (ar_timestamp ar)))) in
    do* modify (fun c => mkCounterAmester (ca_sensorJoules c) (ca_sensorWatts c) (ar_value ar) (ar_timestamp ar) offset) in
    ret true
  else ret false.

(** [CounterAmesterLinux::getAdjustedValue], src/energy/energy-linux.cpp:49-55. *)
Definition CounterAmester_getAdjustedValue (w : World) (c : CounterAmesterLinux) : outcome double :=
  ar ← AmesterSensor_readSum w (ca_sensorJoules c);
  let localTimestamp := u64 (ar_timestamp ar + ca_timeOffset c) in
  arw ← AmesterSensor_readSum w (ca_sensorWatts c);
  now ← getMillisecondsTime w;
  Ret (dadd (ar_value ar) (dmul (ar_value arw) (ddiv (dsub now (d_of_Z localTimestamp)) (d_of_Z 1000)))).

(** [CounterAmesterLinux::getJoules], src/energy/energy-linux.cpp:57-59. *)
Definition CounterAmester_getJoules (w : World) (c : CounterAmesterLinux) : outcome double :=
  v ← CounterAmester_getAdjustedValue w c; Ret (dsub v (ca_lastValue c)).

(** [CounterAmesterLinux::reset], src/energy/energy-linux.cpp:61-63. *)
Definition CounterAmester_reset (w : World) : M CounterAmesterLinux unit :=
  let* v := query (CounterAmester_getAdjustedValue w) in
  modify (fun c => mkCounterAmester (ca_sensorJoules c) (ca_sensorWatts c) v (ca_lastTimestamp c) (ca_timeOffset c)).

(** [CounterPlugSmartPower2Linux], include/mammut/energy/energy-linux.hpp:33-46. The open file is
    what is left to read of it. *)
Record CounterPlugSmartPower2Linux := mkSmartPower2 {
  sp2_usbFile : option string; sp2_lastTimestamp : option Z; sp2_cumulativeJoules : double
}.
(** [CounterPlugSmartPower2Linux::CounterPlugSmartPower2Linux], src/energy/energy-linux.cpp:65-67. *)
Definition SmartPower2_new : CounterPlugSmartPower2Linux := mkSmartPower2 None None d_zero.

(** [CounterPlugSmartPower2Linux::init], src/energy/energy-linux.cpp:76-87. [usbName] is the
    environment variable. *)
Definition SmartPower2_init (w : World) (usbName : option string) : M CounterPlugSmartPower2Linux bool :=
  match usbName with
  | None => ret false
  | Some name =>
      match w_fs w !! name with
      | None => ret false
      | Some n =>
          let* now := lift (now_ms w) in
          do* modify (fun c => mkSmartPower2 (Some (file_content n)) (Some now) (sp2_cumulativeJoules c)) in ret true
      end
  end.

(** [fgets(buff, 50, file)]: what it reads and what is left; [None] is the end of the file. *)
Fixpoint take_line (n : nat) (s : string) : string * string :=
  match n, s with
  | S m, String c s' =>
      if bool_decide (c = newline) then (String c EmptyString, s')
      else let '(l, r) := take_line m s' in (String c l, r)
  | _, _ => (EmptyString, s)
  end.
Definition fgets50 (s : string) : option (string * string) :=
  match s with EmptyString => None | _ => Some (take_line 49 s) end.

(** [CounterPlugSmartPower2Linux::getWatts], src/energy/energy-linux.cpp:97-98: skips the empty
    lines; at the end of the file the buffer does not change. *)
Fixpoint skip_empty_lines (fuel : nat) (s : string) : outcome (string * string) :=
  match fuel with
  | O => Undef "the loop never ends"
  | S f =>
      match fgets50 s with
      | None => Undef "the loop never ends"
      | Some (buff, r) =>
          if is_prefix (String newline EmptyString) buff then skip_empty_lines f r else Ret (buff, r)
      end
  end.

(** [CounterPlugSmartPower2Linux::getWatts], src/energy/energy-linux.cpp:100-122: the number in a
    line. [strtok] skips empty fields. *)
Definition smartpower2_watts (buff : string) : outcome double :=
  let len := String.length buff in
  line ← (if (28 <? Z.of_nat len) then
            match break_at "," buff with
            | (_, Some r) => Ret r
            | (_, None) => Undef "pointer past a null one"
            end
          else Ret buff);
  if 23 <=? Z.of_nat len then
    match filter (fun t => str_empty t = false) (split line ",") !! 2%nat with
    | Some data => Ret (atof data)
    | None => Undef "atof of a null pointer"
    end
  else Ret d_zero.

(** [CounterPlugSmartPower2Linux::getWatts], src/energy/energy-linux.cpp:89-123. *)
Definition SmartPower2_getWatts : M CounterPlugSmartPower2Linux double :=
  let* c := gets id in
  match sp2_usbFile c with
  | None => ret d_zero
  | Some s =>
      let* r := lift (skip_empty_lines (S (String.length s)) s) in
      do* modify (fun c => mkSmartPower2 (Some (snd r)) (sp2_lastTimestamp c) (sp2_cumulativeJoules c)) in
      lift (smartpower2_watts (fst r))
  end.

(** [CounterPlugSmartPower2Linux::getJoules], src/energy/energy-linux.cpp:125-131. *)
Definition SmartPower2_getJoules (w : World) : M CounterPlugSmartPower2Linux double :=
  let* watts := SmartPower2_getWatts in
  let* now := lift (now_ms w) in
  let* c := gets id in
  match sp2_lastTimestamp c with
  | None => undef "_lastTimestamp is uninitialised"
  | Some last =>
      let j := dadd (sp2_cumulativeJoules c) (dmul watts (elapsed_s now last)) in
      do* modify (fun c => mkSmartPower2 (sp2_usbFile c) (Some now) j) in ret j
  end.

(** [CounterPlugSmartPower2Linux::reset], src/energy/energy-linux.cpp:133-136. *)
Definition SmartPower2_reset (w : World) : M CounterPlugSmartPower2Linux unit :=
  let* now := lift (now_ms w) in
  modify (fun c => mkSmartPower2 (sp2_usbFile c) (Some now) d_zero).

Section smart_gauge.
Context {G : Type} {SG : SmartGauge G}.

(** [CounterPlugSmartGaugeLinux], include/mammut/energy/energy-linux.hpp:48-60. *)
Record CounterPlugSmartGaugeLinux := mkSmartGaugeCounter { sgc_sg : G; sgc_lastValue : double }.

Definition JOULES_IN_WATTHOUR : double := d_of_Z 3600.

(** [CounterPlugSmartGaugeLinux::CounterPlugSmartGaugeLinux], src/energy/energy-linux.cpp:138-140. *)
Definition SmartGauge_new (sg : G) : CounterPlugSmartGaugeLinux := mkSmartGaugeCounter sg d_zero.

(** A call of a method of [_sg]. *)
Definition on_gauge {A} (m : M G A) : M CounterPlugSmartGaugeLinux A := fun c =>
  let '(r, sg) := m (sgc_sg c) in (r, mkSmartGaugeCounter sg (sgc_lastValue c)).

(** [CounterPlugSmartGaugeLinux::getJoulesAbs], src/energy/energy-linux.cpp:154-156. *)
Definition SmartGauge_getJoulesAbs : M CounterPlugSmartGaugeLinux double :=
  let* wh := on_gauge sg_getWattHour in ret (dmul wh JOULES_IN_WATTHOUR).

(** [CounterPlugSmartGaugeLinux::reset], src/energy/energy-linux.cpp:162-164. *)
Definition SmartGauge_reset : M CounterPlugSmartGaugeLinux unit :=
  let* j := SmartGauge_getJoulesAbs in modify (fun c => mkSmartGaugeCounter (sgc_sg c) j).

(** [CounterPlugSmartGaugeLinux::init], src/energy/energy-linux.cpp:146-152. *)
Definition SmartGauge_init : M CounterPlugSmartGaugeLinux bool :=
  let* available := on_gauge sg_initDevice in
  if (available : bool) then do* SmartGauge_reset in ret true else ret false.

(** [CounterPlugSmartGaugeLinux::getJoules], src/energy/energy-linux.cpp:158-160. *)
Definition SmartGauge_getJoules : M CounterPlugSmartGaugeLinux double :=
  let* j := SmartGauge_getJoulesAbs in
  let* c := gets id in ret (dsub j (sgc_lastValue c)).
End smart_gauge.
Arguments CounterPlugSmartGaugeLinux : clear implicits.

(** [CounterPlugFileLinux], include/mammut/energy/energy-linux.hpp:73-84. *)
Record CounterPlugFileLinux := mkCounterFile { cf_lastTimestamp : Z; cf_cumulativeJoules : double }.
Definition COUNTER_FILE_LINUX_NAME : string := "/tmp/counter_power.csv".

(** [CounterPlugFileLinux::CounterPlugFileLinux], src/energy/energy-linux.cpp:168-171. *)
Definition CounterFile_new (w : World) : outcome CounterPlugFileLinux :=
  now ← now_ms w; Ret (mkCounterFile now d_zero).

(** [CounterPlugFileLinux::init], src/energy/energy-linux.cpp:173-179. *)
Definition CounterFile_init (w : World) : M CounterPlugFileLinux bool :=
  if existsFile w COUNTER_FILE_LINUX_NAME then
    let* now := lift (now_ms w) in
    do* modify (fun c => mkCounterFile now (cf_cumulativeJoules c)) in ret true
  else ret false.

(** [CounterPlugFileLinux::getWatts], src/energy/energy-linux.cpp:181-185. *)
Definition CounterFile_getWatts (w : World) : outcome double :=
  s ← readFirstLineFromFile w COUNTER_FILE_LINUX_NAME;
  v ← vec_index (split s ",") 0;
  Ret (atof v).

(** [CounterPlugFileLinux::getJoules], src/energy/energy-linux.cpp:187-193. *)
Definition CounterFile_getJoules (w : World) : M CounterPlugFileLinux double :=
  let* watts := lift (CounterFile_getWatts w) in
  let* now := lift (now_ms w) in
  let* c := gets id in
  let j := dadd (cf_cumulativeJoules c) (dmul watts (elapsed_s now (cf_lastTimestamp c))) in
  do* modify (fun _ => mkCounterFile now j) in ret j.

(** [CounterPlugFileLinux::reset], src/energy/energy-linux.cpp:195-198. *)
Definition CounterFile_reset (w : World) : M CounterPlugFileLinux unit :=
  let* now := lift (now_ms w) in modify (fun _ => mkCounterFile now d_zero).

(** The INA231 driver: [open] and the three [ioctl]s on a sensor's device. *)
Class InaDevice := {
  ina_open : World -> string -> bool;
  ina_get_status : World -> string -> option (Z * Z);      (* enable, cur_uW *)
  ina_set_status : World -> string -> Z -> bool;
  ina_get_registers : World -> string -> option (Z * Z)
}.

(** [SensorIna], include/mammut/energy/energy-linux.hpp:94-105. *)
Record SensorIna := mkSensorIna { ina_available : bool; ina_name : string }.

Section ina.
Context {ID : InaDevice}.

(** [SensorIna::init], src/energy/energy-linux.cpp:207-223. *)
Definition SensorIna_init (w : World) : M SensorIna bool :=
  let* s := gets id in
  if negb (ina_open w (ina_name s)) then ret false
  else match ina_get_status w (ina_name s) with
       | None => throw (runtime_error "CounterPlugINA: ioctl error (0)")
       | Some (enable, _) =>
           if negb (ina_set_status w (ina_name s) (if enable =? 0 then 1 else enable))
           then throw (runtime_error "CounterPlugINA: ioctl error (1)")
           else do* modify (fun s => mkSensorIna true (ina_name s)) in ret true
       end.

(** [SensorIna::getWatts], src/energy/energy-linux.cpp:235-239. *)
Definition SensorIna_getWatts (w : World) (s : SensorIna) : outcome double :=
  match ina_get_registers w (ina_name s) with
  | None => Throw (runtime_error "CounterPlugINA: ioctl error (2)")
  | Some (_, cur_uW) => Ret (ddiv (ddiv (d_of_Z cur_uW) (d_of_Z 1000)) (d_of_Z 1000))
  end.

(** [CounterPlugINALinux], include/mammut/energy/energy-linux.hpp:107-119. *)
Record CounterPlugINALinux := mkCounterINA {
  ci_sensorA7 : SensorIna; ci_sensorA15 : SensorIna; ci_lastRead : option double; ci_cumulativeJoules : double
}.

(** [CounterPlugINALinux::CounterPlugINALinux], src/energy/energy-linux.cpp:246-249. *)
Definition CounterINA_new : CounterPlugINALinux :=
  mkCounterINA (mkSensorIna false "/dev/sensor_kfc") (mkSensorIna false "/dev/sensor_arm") None d_zero.

(** [CounterPlugINALinux::init], src/energy/energy-linux.cpp:241-244. *)
Definition CounterINA_init (w : World) : M CounterPlugINALinux bool := fun c =>
  match getMillisecondsTime w with
  | Ret now =>
      let '(r7, a7) := SensorIna_init w (ci_sensorA7 c) in
      match r7 with
      | Ret true =>
          let '(r15, a15) := SensorIna_init w (ci_sensorA15 c) in
          (r15, mkCounterINA a7 a15 (Some now) (ci_cumulativeJoules c))
      | _ => (r7, mkCounterINA a7 (ci_sensorA15 c) (Some now) (ci_cumulativeJoules c))
      end
  | Throw e => (Throw e, c)
  | Undef u => (Undef u, c)
  end.

(** [CounterPlugINALinux::getJoules], src/energy/energy-linux.cpp:255-261. *)
Definition CounterINA_getJoules (w : World) : M CounterPlugINALinux double :=
  let* now := lift (getMillisecondsTime w) in
  let* c := gets id in
  let* w7 := lift (SensorIna_getWatts w (ci_sensorA7 c)) in
  let* w15 := lift (SensorIna_getWatts w (ci_sensorA15 c)) in
  match ci_lastRead c with
  | None => undef "_lastRead is uninitialised"
  | Some last =>
      let j := dmul (dadd w7 w15) (ddiv (dsub now last) (d_of_Z 1000)) in
      do* modify (fun c => mkCounterINA (ci_sensorA7 c) (ci_sensorA15 c) (Some now) (dadd (ci_cumulativeJoules c) j)) in
      ret j
  end.

(** [CounterPlugINALinux::reset], src/energy/energy-linux.cpp:263-266. *)
Definition CounterINA_reset (w : World) : M CounterPlugINALinux unit :=
  let* now := lift (getMillisecondsTime w) in
  modify (fun c => mkCounterINA (ci_sensorA7 c) (ci_sensorA15 c) (Some now) d_zero).
End ina.

(** [CounterMemoryRaplLinux], include/mammut/energy/energy-linux.hpp:123-132. *)
Record CounterMemoryRaplLinux := mkCounterMemoryRapl { cmr_ccl : option CounterCpusLinuxMsr }.

(** [CounterMemoryRaplLinux::CounterMemoryRaplLinux], src/energy/energy-linux.cpp:276-281. *)
Definition CounterMemoryRapl_new (w : World) (cpus : list Cpu) : outcome CounterMemoryRaplLinux :=
  match CounterMsr_init w (CounterMsr_new cpus) with
  | (Ret true, c) => Ret (mkCounterMemoryRapl (Some c))
  | (Ret false, _) => Ret (mkCounterMemoryRapl None)
  | (Throw e, _) => Throw e
  | (Undef u, _) => Undef u
  end.

(** [CounterMemoryRaplLinux::init], src/energy/energy-linux.cpp:268-274. *)
Definition CounterMemoryRapl_init (c : CounterMemoryRaplLinux) : bool :=
  match cmr_ccl c with Some _ => true | None => false end.

(** The sum over the CPUs of the counter's DRAM. *)
Definition CounterMsr_getJoulesDramAll (w : World) : M CounterCpusLinuxMsr double :=
  let* cpus := gets cm_cpus in
  for_fold cpus d_zero (fun r cpu =>
    let* j := CounterMsr_getJoulesDram w (cpu_cpuId cpu) in ret (dadd r j)).

(** [CounterMemoryRaplLinux::getJoules], src/energy/energy-linux.cpp:283-289. *)
Definition CounterMemoryRapl_getJoules (w : World) : M CounterMemoryRaplLinux double := fun c =>
  match cmr_ccl c with
  | Some ccl => let '(r, ccl') := CounterMsr_getJoulesDramAll w ccl in (r, mkCounterMemoryRapl (Some ccl'))
  | None => (Ret d_zero, c)
  end.

(** [CounterMemoryRaplLinux::reset], src/energy/energy-linux.cpp:291-295. *)
Definition CounterMemoryRapl_reset (w : World) : M CounterMemoryRaplLinux unit := fun c =>
  match cmr_ccl c with
  | Some ccl => let '(r, ccl') := CounterMsr_reset w ccl in (r, mkCounterMemoryRapl (Some ccl'))
  | None => (Ret tt, c)
  end.

(** ** Power cappers *)
Inductive raplcap_zone := RAPLCAP_ZONE_PACKAGE | RAPLCAP_ZONE_DRAM | RAPLCAP_ZONE_PSYS.
#[export] Instance raplcap_zone_eq_dec : EqDecision raplcap_zone.
Proof. solve_decision. Defined.
(** A limit: watts and seconds. *)
Definition raplcap_limit : Type := double * double.

(** The functions of the raplcap library that the program calls, on the state [R] of the
    hardware; a [bool] result is success, and [rc_zone_enabled] is the C integer. *)
Class Raplcap (R : Type) := {
  rc_num_sockets : R -> Z;
  rc_init : R -> bool;
  rc_zone_supported : R -> Z -> raplcap_zone -> bool;
  rc_get_limits : R -> Z -> raplcap_zone -> option (raplcap_limit * raplcap_limit);
  rc_set_limits : Z -> raplcap_zone -> option raplcap_limit -> option raplcap_limit -> R -> bool * R;
  rc_zone_enabled : R -> Z -> raplcap_zone -> Z;
  rc_set_zone_enabled : Z -> raplcap_zone -> bool -> R -> bool * R
}.

Section power_cap.
Context {R : Type} {RC : Raplcap R}.

(** [PowerCapperLinux], include/mammut/energy/energy-linux.hpp:267-286. *)
Record PowerCapperLinux := mkPowerCapper { pl_zone : raplcap_zone; pl_good : bool; pl_sockets : Z }.

(** [PowerCapperLinux::PowerCapperLinux], src/energy/energy-linux.cpp:749-768. *)
Definition PowerCapper_new (type : CounterType) : outcome PowerCapperLinux :=
  if type =? COUNTER_CPUS then Ret (mkPowerCapper RAPLCAP_ZONE_PACKAGE false 0)
  else if type =? COUNTER_MEMORY then Ret (mkPowerCapper RAPLCAP_ZONE_DRAM false 0)
  else if type =? COUNTER_PLUG then Ret (mkPowerCapper RAPLCAP_ZONE_PSYS false 0)
  else Throw (runtime_error "PowerCapperLinux: Unknown type.").

(** [PowerCapperLinux::init], src/energy/energy-linux.cpp:778-799. *)
Definition PowerCapper_init (r : R) (p : PowerCapperLinux) : bool * PowerCapperLinux :=
  let sockets := rc_num_sockets r in
  let p' good := mkPowerCapper (pl_zone p) good sockets in
  if sockets =? 0 then (false, p' (pl_good p))
  else if negb (rc_init r) then (false, p' (pl_good p))
  else if forallb (fun i => rc_zone_supported r i (pl_zone p)) (seqZ 0 sockets) then (true, p' true)
  else (false, p' (pl_good p)).

(** [PowerCapperLinux::get], src/energy/energy-linux.cpp:816-835. *)
Definition PowerCapper_getWindow (p : PowerCapperLinux) (socketId windowId : Z) : M R PowerCap :=
  let* limits := gets (fun r => rc_get_limits r socketId (pl_zone p)) in
  match limits with
  | None => throw (runtime_error "raplcap_get_limits")
  | Some (zero, one) =>
      let* enabled := gets (fun r => rc_zone_enabled r socketId (pl_zone p)) in
      let '(watts, seconds) := if windowId =? 0 then zero else one in
      ret (mkPowerCap watts seconds (enabled =? 0))
  end.

(** [PowerCapperLinux::get], src/energy/energy-linux.cpp:809-814. *)
Definition PowerCapper_getSocket (p : PowerCapperLinux) (socketId : Z) : M R (PowerCap * PowerCap) :=
  let* first := PowerCapper_getWindow p socketId 0 in
  let* second := PowerCapper_getWindow p socketId 1 in
  ret (first, second).

(** [PowerCapperLinux::get], src/energy/energy-linux.cpp:801-807. *)
Definition PowerCapper_get (p : PowerCapperLinux) : M R (list (PowerCap * PowerCap)) :=
  for_map (seqZ 0 (pl_sockets p)) (PowerCapper_getSocket p).

(** [PowerCapperLinux::set], src/energy/energy-linux.cpp:851-871. *)
Definition PowerCapper_setWindow (p : PowerCapperLinux) (windowId socketId : Z) (cap : PowerCap) : M R unit :=
  let lim := Some (cap_value cap, cap_window cap) in
  let* ok := (fun r =>
    let '(ok, r') := if windowId =? 0 then rc_set_limits socketId (pl_zone p) lim None r
                     else rc_set_limits socketId (pl_zone p) None lim r in (Ret ok, r')) in
  if negb ok then throw (runtime_error "raplcap_set_limits")
  else
    let* ok := (fun r =>
      let '(ok, r') := rc_set_zone_enabled socketId (pl_zone p) (negb (cap_preparedOnly cap)) r in (Ret ok, r')) in
    if negb ok then throw (runtime_error "raplcap_set_zone_enabled") else ret tt.

(** [PowerCapperLinux::set], src/energy/energy-linux.cpp:845-849. *)
Definition PowerCapper_setSocket (p : PowerCapperLinux) (socketId : Z) (cap : PowerCap) : M R unit :=
  for_each (seqZ 0 2) (fun i => PowerCapper_setWindow p i socketId cap).

(** [PowerCapperLinux::set], src/energy/energy-linux.cpp:837-843. *)
Definition PowerCapper_set (p : PowerCapperLinux) (cap : PowerCap) : M R unit :=
  let wattsPerSocket := ddiv (cap_value cap) (d_of_Z (pl_sockets p)) in
  let cap := mkPowerCap wattsPerSocket (cap_window cap) (cap_preparedOnly cap) in
  for_each (seqZ 0 (pl_sockets p)) (fun i => PowerCapper_setSocket p i cap).
End power_cap.

(** ** The module *)
Section module.
Context {G R : Type} {SG : SmartGauge G} {ID : InaDevice} {RC : Raplcap R}.

Inductive PlugCounter :=
  | PlugSmartPower2 (c : CounterPlugSmartPower2Linux)
  | PlugSmartGauge (c : CounterPlugSmartGaugeLinux G)
  | PlugAmester (c : CounterAmesterLinux)
  | PlugFile (c : CounterPlugFileLinux)
  | PlugINA (c : CounterPlugINALinux).
Inductive CpusCounter := CpusSysFs (c : CounterCpusLinuxSysFs) | CpusMsr (c : CounterCpusLinuxMsr).
Inductive MemoryCounter := MemoryRapl (c : CounterMemoryRaplLinux) | MemoryAmester (c : CounterAmesterLinux).

(** [Energy], include/mammut/energy/energy.hpp:337-343, with the machine it reads. *)
Record EnergyMachine := mkEnergyMachine {
  em_world : World; em_rapl : R;
  em_plug : option PlugCounter; em_cpus : option CpusCounter; em_memory : option MemoryCounter;
  em_cappers : list (option PowerCapperLinux)
}.

(** A counter's [init], as the constructor uses it: the counter when it is available. *)
Definition try_counter {C X} (wrap : C -> X) (r : outcome bool * C) : outcome (option X) :=
  match r with
  | (Ret true, c) => Ret (Some (wrap c))
  | (Ret false, _) => Ret None
  | (Throw e, _) => Throw e
  | (Undef u, _) => Undef u
  end.
Definition or_else {X} (a : outcome (option X)) (b : outcome (option X)) : outcome (option X) :=
  x ← a; match x with Some c => Ret (Some c) | None => b end.

(** [Energy::Energy], src/energy/energy.cpp:86-139: the counter of the plug, the first available. *)
Definition find_plug (w : World) (usbName : option string) (sg : G) : outcome (option PlugCounter) :=
  or_else (try_counter PlugSmartPower2 (SmartPower2_init w usbName SmartPower2_new))
  (or_else (try_counter PlugSmartGauge (SmartGauge_init (SmartGauge_new sg)))
  (or_else (try_counter PlugAmester (CounterAmester_init w (CounterAmester_new "JLS250US" "PWR250US")))
  (or_else (c ← CounterFile_new w; try_counter PlugFile (CounterFile_init w c))
           (try_counter PlugINA (CounterINA_init w CounterINA_new))))).

(** [Energy::Energy], src/energy/energy.cpp:142-158: the counter of the CPUs. *)
Definition find_cpus (w : World) (cpus : list Cpu) : outcome (option CpusCounter) :=
  or_else (try_counter CpusSysFs (CounterSysFs_init w (CounterSysFs_new cpus)))
          (try_counter CpusMsr (CounterMsr_init w (CounterMsr_new cpus))).

(** [Energy::Energy], src/energy/energy.cpp:161-177: the counter of the memory. *)
Definition find_memory (w : World) (cpus : list Cpu) : outcome (option MemoryCounter) :=
  or_else (c ← CounterMemoryRapl_new w cpus;
           Ret (if CounterMemoryRapl_init c then Some (MemoryRapl c) else None))
          (try_counter MemoryAmester (CounterAmester_init w (CounterAmester_new "JLS250USMEM0" "PWR250USMEM0"))).

(** [Energy::Energy], src/energy/energy.cpp:179-185: the power cappers. *)
Definition find_cappers (r : R) : outcome (list (option PowerCapperLinux)) :=
  map_out (seqZ 0 COUNTER_NUM) (fun i =>
    p ← PowerCapper_new i;
    let '(ok, p') := PowerCapper_init r p in Ret (if (ok : bool) then Some p' else None)).

(** [Energy::Energy], src/energy/energy.cpp:84-195. [cpus] are those of the topology. *)
Definition Energy_new (w : World) (r : R) (usbName : option string) (sg : G) (cpus : list Cpu) : outcome EnergyMachine :=
  plug ← find_plug w usbName sg;
  cpusCounter ← find_cpus w cpus;
  memory ← find_memory w cpus;
  cappers ← find_cappers r;
  Ret (mkEnergyMachine w r plug cpusCounter memory cappers).

(** Calls through the pointers. *)
Definition on_counter {C X A} (wrap : C -> X) (f : M C A) (c : C) : outcome A * X :=
  let '(r, c') := f c in (r, wrap c').
Definition on_plug {A} (f : World -> PlugCounter -> outcome A * PlugCounter) : M EnergyMachine A := fun m =>
  match em_plug m with
  | None => (Undef "null counter", m)
  | Some p => let '(r, p') := f (em_world m) p in
              (r, mkEnergyMachine (em_world m) (em_rapl m) (Some p') (em_cpus m) (em_memory m) (em_cappers m))
  end.
Definition on_cpus {A} (f : World -> CpusCounter -> outcome A * CpusCounter) : M EnergyMachine A := fun m =>
  match em_cpus m with
  | None => (Undef "null counter", m)
  | Some c => let '(r, c') := f (em_world m) c in
              (r, mkEnergyMachine (em_world m) (em_rapl m) (em_plug m) (Some c') (em_memory m) (em_cappers m))
  end.
Definition on_memory {A} (f : World -> MemoryCounter -> outcome A * MemoryCounter) : M EnergyMachine A := fun m =>
  match em_memory m with
  | None => (Undef "null counter", m)
  | Some c => let '(r, c') := f (em_world m) c in
              (r, mkEnergyMachine (em_world m) (em_rapl m) (em_plug m) (em_cpus m) (Some c') (em_cappers m))
  end.
Definition on_capper {A} (type : CounterType) (f : PowerCapperLinux -> M R A) : M EnergyMachine A := fun m =>
  match em_cappers m !! Z.to_nat type with
  | Some (Some p) => let '(r, rapl) := f p (em_rapl m) in
                     (r, mkEnergyMachine (em_world m) rapl (em_plug m) (em_cpus m) (em_memory m) (em_cappers m))
  | _ => (Undef "null power capper", m)
  end.

Definition plug_getJoules (w : World) (p : PlugCounter) : outcome double * PlugCounter :=
  match p with
  | PlugSmartPower2 c => on_counter PlugSmartPower2 (SmartPower2_getJoules w) c
  | PlugSmartGauge c => on_counter PlugSmartGauge SmartGauge_getJoules c
  | PlugAmester c => on_counter PlugAmester (query (CounterAmester_getJoules w)) c
  | PlugFile c => on_counter PlugFile (CounterFile_getJoules w) c
  | PlugINA c => on_counter PlugINA (CounterINA_getJoules w) c
  end.
Definition plug_reset (w : World) (p : PlugCounter) : outcome unit * PlugCounter :=
  match p with
  | PlugSmartPower2 c => on_counter PlugSmartPower2 (SmartPower2_reset w) c
  | PlugSmartGauge c => on_counter PlugSmartGauge SmartGauge_reset c
  | PlugAmester c => on_counter PlugAmester (CounterAmester_reset w) c
  | PlugFile c => on_counter PlugFile (CounterFile_reset w) c
  | PlugINA c => on_counter PlugINA (CounterINA_reset w) c
  end.
(** [init] again, as a remote client asks for it. *)
Definition plug_init (w : World) (usbName : option string) (p : PlugCounter) : outcome bool * PlugCounter :=
  match p with
  | PlugSmartPower2 c => on_counter PlugSmartPower2 (SmartPower2_init w usbName) c
  | PlugSmartGauge c => on_counter PlugSmartGauge SmartGauge_init c
  | PlugAmester c => on_counter PlugAmester (CounterAmester_init w) c
  | PlugFile c => on_counter PlugFile (CounterFile_init w) c
  | PlugINA c => on_counter PlugINA (CounterINA_init w) c
  end.
Definition cpus_apply {A} (sysfs : World -> M CounterCpusLinuxSysFs A) (msr : World -> M CounterCpusLinuxMsr A)
    (w : World) (c : CpusCounter) : outcome A * CpusCounter :=
  match c with
  | CpusSysFs c => on_counter CpusSysFs (sysfs w) c
  | CpusMsr c => on_counter CpusMsr (msr w) c
  end.
Definition memory_apply {A} (rapl : World -> M CounterMemoryRaplLinux A) (amester : World -> M CounterAmesterLinux A)
    (w : World) (c : MemoryCounter) : outcome A * MemoryCounter :=
  match c with
  | MemoryRapl c => on_counter MemoryRapl (rapl w) c
  | MemoryAmester c => on_counter MemoryAmester (amester w) c
  end.

Variable usbName : option string.

#[export] Instance LinuxEnergy : EnergyOps EnergyMachine := {
  e_counter m t :=
    if t =? COUNTER_CPUS then bool_decide (is_Some (em_cpus m))
    else if t =? COUNTER_MEMORY then bool_decide (is_Some (em_memory m))
    else bool_decide (is_Some (em_plug m));
  e_init t :=
    if t =? COUNTER_CPUS then on_cpus (cpus_apply CounterSysFs_init CounterMsr_init)
    else if t =? COUNTER_MEMORY then
      on_memory (memory_apply (fun _ => gets CounterMemoryRapl_init) CounterAmester_init)
    else on_plug (fun w => plug_init w usbName);
  e_reset t :=
    if t =? COUNTER_CPUS then on_cpus (cpus_apply CounterSysFs_reset CounterMsr_reset)
    else if t =? COUNTER_MEMORY then on_memory (memory_apply CounterMemoryRapl_reset CounterAmester_reset)
    else on_plug plug_reset;
  e_getJoules t :=
    if t =? COUNTER_MEMORY then
      on_memory (memory_apply CounterMemoryRapl_getJoules (fun w => query (CounterAmester_getJoules w)))
    else on_plug plug_getJoules;
  e_cpus m := match em_cpus m with
              | Some (CpusSysFs c) => cs_cpus c | Some (CpusMsr c) => cm_cpus c | None => [] end;
  e_getJoulesComponents i :=
    on_cpus (cpus_apply (fun w => CounterSysFs_getJoulesComponents w i) (fun w => CounterMsr_getJoulesComponents w i));
  e_getJoulesCpu i := on_cpus (cpus_apply (fun w => CounterSysFs_getJoulesCpu w i) (fun w => CounterMsr_getJoulesCpu w i));
  e_getJoulesCores i :=
    on_cpus (cpus_apply (fun w => CounterSysFs_getJoulesCores w i) (fun w => CounterMsr_getJoulesCores w i));
  e_getJoulesGraphic i :=
    on_cpus (cpus_apply (fun w => CounterSysFs_getJoulesGraphic w i) (fun w => CounterMsr_getJoulesGraphic w i));
  e_getJoulesDram i :=
    on_cpus (cpus_apply (fun w => CounterSysFs_getJoulesDram w i) (fun w => CounterMsr_getJoulesDram w i));
  e_hasJoulesCores := on_cpus (cpus_apply (fun _ => gets (fun c => CounterSysFs_has (cs_idCores c))) (fun _ => gets cm_hasCores));
  e_hasJoulesGraphic :=
    on_cpus (cpus_apply (fun _ => gets (fun c => CounterSysFs_has (cs_idGraphic c))) (fun _ => gets cm_hasGraphic));
  e_hasJoulesDram := on_cpus (cpus_apply (fun _ => gets (fun c => CounterSysFs_has (cs_idDram c))) (fun _ => gets cm_hasDram));
  e_powerCapper m t := match em_cappers m !! Z.to_nat t with Some (Some _) => true | _ => false end;
  p_get t := on_capper t PowerCapper_get;
  p_set t win socket cap := on_capper t (fun p => PowerCapper_setWindow p win socket cap)
}.
End module.

(** * Properties *)

(** ** The wrap-around of the counters *)

(** The two branches of [deltaDiff] compute the difference modulo [2^32]. *)
Lemma deltaDiff_mod c1 c2 : is_u32 c1 -> is_u32 c2 -> deltaDiff c1 c2 = (c2 - c1) mod 2 ^ 32.
Proof.
  unfold is_u32, deltaDiff, u32. intros H1 H2. destruct (Z.ltb_spec c1 c2); [done|].
  rewrite Zplus_mod_idemp_l, <- Z.add_assoc, Zplus_mod_idemp_l. replace (4294967295 - c1 + (1 + c2)) with (c2 - c1 + 1 * 2 ^ 32) by lia.
  apply Z_mod_plus_full.
Qed.

Lemma deltaDiff_counts t t' : 0 <= t <= t' -> t' - t < 2 ^ 32 -> deltaDiff (t mod 2 ^ 32) (t' mod 2 ^ 32) = t' - t.
Proof.
  intros H Hd. rewrite deltaDiff_mod by (by apply Z.mod_pos_bound).
  rewrite <- Zminus_mod. by apply Z.mod_small; lia.
Qed.

(** The register of a package's energy, by family. *)
Definition family_register (f : CpuFamily) : Z :=
  match f with CPU_FAMILY_INTEL => MSR_PKG_ENERGY_STATUS_INTEL | CPU_FAMILY_AMD => MSR_PKG_ENERGY_STATUS_AMD end.

Section msr_counter.
Variables (family : CpuFamily) (cpuId : Z) (msr : Msr) (e : Z).
Hypothesis e_range : 0 <= e <= 31.

(** The package counter of the CPU has counted [t] units: the register holds its 32 low bits,
    and it does not hold zero, which [readEnergyCounter] takes for a register that is not there. *)
Definition package_counts (w : World) (t : Z) : Prop :=
  exists reg, Msr_read w msr (family_register family) = Some reg /\ reg <> 0 /\ 0 <= reg /\ reg mod 2 ^ 32 = t mod 2 ^ 32.

(** An initialised counter whose last reading was [t], with [n] units accumulated. *)
Record counting (c : CounterCpusLinuxMsr) (t n : Z) : Prop := {
  ct_family : cm_family c = Some family;
  ct_msr : cm_msrs c !! Z.to_nat cpuId = Some (Some msr);
  ct_unit : cm_energyPerUnit c = d_pow_half e;
  ct_last : cm_lastCpu c !! Z.to_nat cpuId = Some (Some (t mod 2 ^ 32));
  ct_joules : exists j, cm_joulesCpus c !! Z.to_nat cpuId = Some j /\ j_cpu j = d_scaled n (- e)
}.

Lemma land_u32 r : 0 <= r -> Z.land r 4294967295 = r mod 2 ^ 32.
Proof. intros. change 4294967295 with (Z.ones 32). by rewrite Z.land_ones by lia. Qed.

Lemma readEnergyCounter_spec w c t : package_counts w t -> cm_msrs c !! Z.to_nat cpuId = Some (Some msr) ->
  CounterMsr_readEnergyCounter w c cpuId (family_register family) = Ret (t mod 2 ^ 32).
Proof.
  intros (reg & Hr & Hz & Hp & Ht) Hm. unfold CounterMsr_readEnergyCounter.
  rewrite bool_decide_eq_true_2 by (by destruct family; repeat constructor). unfold vec_index. rewrite Hm. mrun. rewrite Hr.
  destruct (Z.eqb_spec reg 0); [done|]. by rewrite land_u32, Ht.
Qed.

(** Reading a package is the update of its component from the register of the family. *)
Lemma getJoulesCpu_family w c i : cm_family c = Some family ->
  CounterMsr_getJoulesCpu w i c = update_component w i (family_register family) j_cpu set_j_cpu cm_lastCpu
    (fun v => cm_set_last (set_at i v) id id id) c.
Proof. intros Hf. unfold CounterMsr_getJoulesCpu, gets, bind at 1. rewrite Hf. by destruct family. Qed.

Lemma getJoulesCpu_counting w c t n t' :
  counting c t n -> package_counts w t' -> 0 <= t <= t' -> t' - t < 2 ^ 32 -> 0 <= n -> n + (t' - t) < 2 ^ 53 ->
  exists c', CounterMsr_getJoulesCpu w cpuId c = (Ret (d_scaled (n + (t' - t)) (- e)), c') /\
    counting c' t' (n + (t' - t)).
Proof.
  intros [Hf Hm Hu Hl (j & Hj & Hjc)] Hw Ht Hd Hn Hlt.
  assert (dadd (j_cpu j) (dmul (d_of_Z (deltaDiff (t mod 2 ^ 32) (t' mod 2 ^ 32))) (cm_energyPerUnit c)) =
          d_scaled (n + (t' - t)) (- e)) as Hsum.
  { rewrite deltaDiff_counts, Hu, Hjc by lia. rewrite dmul_of_Z_pow_half, dadd_scaled by lia. done. }
  rewrite (getJoulesCpu_family w c cpuId Hf).
  unfold update_component, query, modify, ret, bind, vec_index. rewrite Hj, Hl.
  unfold CounterMsr_updateCounter. rewrite (readEnergyCounter_spec _ _ _ Hw Hm). mrun. rewrite Hsum.
  eexists. split; [done|]. split; cbn.
  - done.
  - done.
  - done.
  - unfold set_at. rewrite list_lookup_insert_eq; [done|]. by eapply lookup_lt_Some.
  - eexists. split; [apply list_lookup_insert_eq; by eapply lookup_lt_Some|]. done.
Qed.

(** Successive readings. *)
Lemma readings_counting ws ts c t n :
  counting c t n -> 0 <= t -> 0 <= n -> Forall2 package_counts ws ts ->
  (forall i a b, (t :: ts) !! i = Some a -> (t :: ts) !! S i = Some b -> a <= b < a + 2 ^ 32) ->
  n + (List.last ts t - t) < 2 ^ 53 ->
  exists c', for_map ws (fun w => CounterMsr_getJoulesCpu w cpuId) c =
    (Ret ((fun u => d_scaled (n + (u - t)) (- e)) <$> ts), c').
Proof.
  intros Hc Ht Hn Hw. revert c t n Hc Ht Hn. induction Hw as [|w u ws ts Hw _ IH]; intros c t n Hc Ht Hn Hstep Hlast.
  { by exists c. }
  pose proof (Hstep 0%nat t u eq_refl eq_refl) as Hu.
  assert (u <= List.last (u :: ts) t) as Hle.
  { clear -Hstep. assert (forall i a b, (u :: ts) !! i = Some a -> (u :: ts) !! S i = Some b -> a <= b) as H.
    { intros i a b Ha Hb. by apply (Hstep (S i) a b). }
    clear Hstep. revert u H. induction ts as [|x ts IH]; intros u H; [simpl; lia|].
    change (List.last (u :: x :: ts) t) with (List.last (x :: ts) t).
    pose proof (H 0%nat u x eq_refl eq_refl). enough (x <= List.last (x :: ts) t) by lia.
    apply IH. intros i a b Ha Hb. by apply (H (S i)). }
  assert (forall d, List.last (u :: ts) d = List.last ts u) as Elast.
  { clear. intros d. revert d u. induction ts as [|x ts IH]; intros d u; [done|].
    change (List.last (u :: x :: ts) d) with (List.last (x :: ts) d). by rewrite (IH d x), (IH u x). }
  rewrite Elast in Hlast, Hle.
  destruct (getJoulesCpu_counting w c t n u Hc Hw) as (c1 & E1 & Hc1); [lia..|].
  destruct (IH c1 u (n + (u - t)) Hc1) as (c2 & E2); [lia|lia| |lia|].
  { intros i a b Ha Hb. by apply (Hstep (S i) a b). }
  exists c2. csimpl. rewrite (bind_Ret _ _ _ _ _ E1), (bind_Ret _ _ _ _ _ E2).
  assert (((fun x => d_scaled (n + (u - t) + (x - u)) (- e)) <$> ts) = ((fun x => d_scaled (n + (x - t)) (- e)) <$> ts))
    as -> by (apply list_fmap_ext; intros i x _; simpl; f_equal; lia).
  done.
Qed.
End msr_counter.

(** ** Resetting *)

Lemma assign_last_Ret w i which last set_last c c' :
  assign_last w i which last set_last c = (Ret tt, c') ->
  exists v, CounterMsr_readEnergyCounter w c i which = Ret v /\ (Z.to_nat i < length (last c))%nat /\ c' = set_last v c.
Proof.
  unfold assign_last. intros H. minv H. unfold query in H0, H1. injection H0 as H0 ->. injection H1 as H1 ->.
  unfold vec_index in H1. destruct (last st0 !! Z.to_nat i) eqn:E; [|done].
  injection H as <-. exists r. split; [done|]. split; [by eapply lookup_lt_Some|done].
Qed.

(** What resetting keeps of the counter. *)
Definition same_setup (c c' : CounterCpusLinuxMsr) : Prop :=
  cm_cpus c' = cm_cpus c /\ cm_family c' = cm_family c /\ cm_msrs c' = cm_msrs c /\
  cm_energyPerUnit c' = cm_energyPerUnit c /\ cm_hasCores c' = cm_hasCores c /\
  cm_hasGraphic c' = cm_hasGraphic c /\ cm_hasDram c' = cm_hasDram c.

Lemma same_setup_trans a b c : same_setup a b -> same_setup b c -> same_setup a c.
Proof. unfold same_setup. intuition congruence. Qed.

Lemma readEnergyCounter_setup w c c' i which : same_setup c c' ->
  CounterMsr_readEnergyCounter w c' i which = CounterMsr_readEnergyCounter w c i which.
Proof. intros (_ & _ & E & _). unfold CounterMsr_readEnergyCounter. by rewrite E. Qed.

(** An optional reset of another component. *)
Lemma when_assign_Ret b w i which last set_last c c' :
  (forall v c, same_setup c (set_last v c) /\ cm_lastCpu (set_last v c) = cm_lastCpu c /\
     cm_joulesCpus (set_last v c) = cm_joulesCpus c) ->
  when_ b (assign_last w i which last set_last) c = (Ret tt, c') ->
  same_setup c c' /\ cm_lastCpu c' = cm_lastCpu c /\ cm_joulesCpus c' = cm_joulesCpus c.
Proof.
  intros Hs H. destruct b; simpl in H; [|by injection H as <-].
  apply assign_last_Ret in H as (v & _ & _ & ->). apply Hs.
Qed.

Definition package_register (c : CounterCpusLinuxMsr) : Z :=
  if bool_decide (cm_family c = Some CPU_FAMILY_INTEL) then MSR_PKG_ENERGY_STATUS_INTEL else MSR_PKG_ENERGY_STATUS_AMD.

Lemma package_register_family c f : cm_family c = Some f -> package_register c = family_register f.
Proof. intros Hf. unfold package_register. rewrite Hf. by destruct f. Qed.

Lemma reset_cpu_Ret w i c c' : reset_cpu w i c = (Ret tt, c') ->
  exists v, CounterMsr_readEnergyCounter w c i (package_register c) = Ret v /\ same_setup c c' /\
    (Z.to_nat i < length (cm_lastCpu c))%nat /\ (Z.to_nat i < length (cm_joulesCpus c))%nat /\
    cm_lastCpu c' = set_at i v (cm_lastCpu c) /\ cm_joulesCpus c' = <[Z.to_nat i := JoulesCpu_zero]> (cm_joulesCpus c).
Proof.
  intros H. unfold reset_cpu in H. minv H. injection H0 as <- <-. simpl in *.
  assert (exists v, CounterMsr_readEnergyCounter w c i (package_register c) = Ret v /\
    (Z.to_nat i < length (cm_lastCpu c))%nat /\ st0 = cm_set_last (set_at i v) id id id c) as (v & Hv & Hlen & ->).
  { unfold package_register. destruct (cm_family c) as [[]|]; [..|done]; destruct r0;
      apply assign_last_Ret in H1; destruct H1 as (v & H1 & Hl & ->); exists v; auto. }
  destruct r1, r2, r3.
  apply when_assign_Ret in H2 as (S2 & L2 & J2); [|done].
  apply when_assign_Ret in H3 as (S3 & L3 & J3); [|done].
  apply when_assign_Ret in H4 as (S4 & L4 & J4); [|done].
  unfold query in H5. injection H5 as H5 ->. unfold vec_index in H5.
  destruct (cm_joulesCpus st4 !! Z.to_nat i) eqn:Ej; [|done]. injection H as <-.
  assert (cm_joulesCpus st4 = cm_joulesCpus c) as EJ by (rewrite J4, J3, J2; done).
  exists v. split; [done|]. split.
  - change (same_setup c st1) in S2. change (same_setup c st4).
    exact (same_setup_trans _ _ _ S2 (same_setup_trans _ _ _ S3 S4)).
  - split; [done|]. split; [rewrite <- EJ; by eapply lookup_lt_Some|]. split.
    + cbn. by rewrite L4, L3, L2.
    + cbn. by rewrite EJ.
Qed.

Lemma reset_Ret w c c' : CounterMsr_reset w c = (Ret tt, c') ->
  same_setup c c' /\
  forall i, 0 <= i < Z.of_nat (length (cm_cpus c)) ->
    (exists v, CounterMsr_readEnergyCounter w c i (package_register c) = Ret v /\
       cm_lastCpu c' !! Z.to_nat i = Some (Some v)) /\
    cm_joulesCpus c' !! Z.to_nat i = Some JoulesCpu_zero.
Proof.
  intros H. unfold CounterMsr_reset in H. minv H. injection H0 as <- <-.
  set (n := Z.of_nat (length (cm_cpus c))) in *.
  pose proof (for_each_Ret_inv (fun done_ c1 => same_setup c c1 /\
    (Forall (fun i => 0 <= i) done_ -> forall i, i ∈ done_ ->
      (exists v, CounterMsr_readEnergyCounter w c i (package_register c) = Ret v /\
         cm_lastCpu c1 !! Z.to_nat i = Some (Some v)) /\
      cm_joulesCpus c1 !! Z.to_nat i = Some JoulesCpu_zero)) (reset_cpu w)) as Hinv.
  unshelve edestruct (fun H1 H2 => Hinv H1 (seqZ 0 n) [] c c' H2 H) as [Hs Hall].
  - intros done_ i c1 c2 (Hs & Hd) E. apply reset_cpu_Ret in E as (v & Hv & Hs2 & Hl1 & Hl2 & EL & EJ).
    split; [by eapply same_setup_trans|]. intros Hpos j Hj. rewrite EL, EJ.
    assert (package_register c1 = package_register c) as Ep
      by (unfold package_register; destruct Hs as (_ & -> & _); done).
    rewrite (readEnergyCounter_setup w c c1 _ _ Hs), Ep in Hv.
    apply Forall_app in Hpos as [Hpos Hi]. rewrite Forall_singleton in Hi.
    destruct (decide (j = i)) as [->|Hne].
    + split; [exists v; split; [done|]; by apply list_lookup_insert_eq|by apply list_lookup_insert_eq].
    + assert (j ∈ done_) as Hj' by set_solver.
      destruct (Hd Hpos j Hj') as ((v' & Hv' & Hl') & Hj0). rewrite Forall_forall in Hpos. specialize (Hpos j Hj').
      cbn beta in Hpos, Hi. unfold set_at. rewrite !list_lookup_insert_ne by lia. eauto.
  - split; [repeat split|]. intros _ i Hi. by apply not_elem_of_nil in Hi.
  - split; [done|]. intros i Hi. apply Hall; [|by apply elem_of_seqZ; lia].
    apply Forall_forall. intros j Hj%elem_of_seqZ. lia.
Qed.

(** C32: for both families, Intel and AMD: after a reset, the joules that successive readings of
    a CPU's package counter return are exactly the units counted since the reset times the energy
    unit, over any number of wrap-arounds of the 32-bit register, provided that (1) the register
    advances by less than [2^32] units between two readings, (2) it does not hold zero at the
    moment of the reset or of a reading, where the code throws (energy-linux.cpp:515-516), (3) the
    units counted since the reset stay below [2^53], and (4) the unit is [2^-e] joules with
    [e] at most 31, which is all that the 5 bits of the unit register can say. *)
Theorem CounterMsr_energy_exact (w0 : World) (c c1 : CounterCpusLinuxMsr) (family : CpuFamily) (cpuId : Z) (msr : Msr)
    (e t0 : Z) (ws : list World) (ts : list Z) :
  CounterMsr_reset w0 c = (Ret tt, c1) -> 0 <= cpuId < Z.of_nat (length (cm_cpus c)) ->
  cm_family c = Some family -> cm_msrs c !! Z.to_nat cpuId = Some (Some msr) ->
  cm_energyPerUnit c = d_pow_half e -> 0 <= e <= 31 -> 0 <= t0 ->
  package_counts family msr w0 t0 -> Forall2 (package_counts family msr) ws ts ->
  (forall i a b, (t0 :: ts) !! i = Some a -> (t0 :: ts) !! S i = Some b -> a <= b < a + 2 ^ 32) ->
  List.last ts t0 - t0 < 2 ^ 53 ->
  exists c2, for_map ws (fun w => CounterMsr_getJoulesCpu w cpuId) c1 =
    (Ret ((fun t => d_scaled (t - t0) (- e)) <$> ts), c2).
Proof.
  intros Hr Hid Hf Hm Hu He Ht0 Hw0 Hws Hstep Hlast.
  apply reset_Ret in Hr as [(_ & Ef & Em & Eu & _) Hr].
  destruct (Hr cpuId Hid) as ((v & Hv & Hl) & Hj). rewrite (package_register_family c family Hf) in Hv.
  rewrite (readEnergyCounter_spec _ _ _ _ _ _ Hw0 Hm) in Hv. injection Hv as <-.
  apply (readings_counting family cpuId msr e He ws ts c1 t0 0); [|done|done|done|done|lia].
  split; [congruence|congruence|congruence|done|]. exists JoulesCpu_zero. by split.
Qed.

(** The descriptors that the constructor opens are those of the CPUs. *)
Lemma init_msrs_opened w cpus msrs k m :
  init_msrs w cpus = Ret msrs -> msrs !! k = Some (Some m) ->
  exists cpu, cpu ∈ cpus /\ Z.to_nat (cpu_cpuId cpu) = k.
Proof.
  intros H. unfold init_msrs in H.
  refine (fold_out_Ret_inv (fun done_ l => l !! k = Some (Some m) ->
    exists cpu, cpu ∈ done_ /\ Z.to_nat (cpu_cpuId cpu) = k) _ _ cpus [] _ msrs _ H).
  - intros done_ l cpu l' HP E. minv E. destruct (Msr_available r); [|done]. injection E as <-.
    destruct (decide (Z.to_nat (cpu_cpuId cpu) = k)) as [Hk|Hk].
    + intros _. exists cpu. split; [set_solver|done].
    + rewrite list_lookup_insert_ne by done. intros (cpu' & Hin & Hk')%HP. exists cpu'. split; [set_solver|done].
  - intros Hk. apply lookup_replicate in Hk as [Hk _]. done.
Qed.

(** The initialisation of the counter succeeds only on machines whose CPUs are numbered
    from 0 without gaps: although the arrays are made for any identifiers, resetting uses the
    position of a CPU where its identifier is needed. *)
Theorem CounterMsr_init_needs_contiguous_ids (w : World) (cpus : list Cpu) (c : CounterCpusLinuxMsr) :
  (forall cpu, cpu ∈ cpus -> 0 <= cpu_cpuId cpu) ->
  CounterMsr_init w (CounterMsr_new cpus) = (Ret true, c) ->
  forall i, 0 <= i < Z.of_nat (length cpus) -> exists cpu, cpu ∈ cpus /\ cpu_cpuId cpu = i.
Proof.
  intros Hpos H i Hi. unfold CounterMsr_init in H.
  rewrite (bind_Ret (gets cm_cpus) _ _ cpus (CounterMsr_new cpus)) in H by done.
  minv H. destruct (negb _); [done|]. minv H. destruct (negb _); [done|]. minv H.
  destruct r6 as [[[power energy] time] thermal]. minv H.
  match goal with X : CounterMsr_reset w _ = (Ret _, _) |- _ => rename X into Hres end.
  match goal with X : lift (init_msrs w cpus) _ = (Ret _, _) |- _ => injection X as Hmsrs _ end.
  destruct r10. injection H11 as _ <-. apply reset_Ret in Hres as [_ Hres].
  destruct (Hres i Hi) as ((v & Hv & _) & _). unfold CounterMsr_readEnergyCounter in Hv.
  destruct (bool_decide _); [|done]. unfold vec_index in Hv. cbn [cm_msrs] in Hv.
  destruct (r3 !! Z.to_nat i) as [[m|]|] eqn:Em; [|done..].
  destruct (init_msrs_opened w cpus r3 _ m Hmsrs Em) as (cpu & Hcpu & Hk).
  exists cpu. split; [done|]. specialize (Hpos cpu Hcpu). lia.
Qed.

(** ** The INA231 counter *)

(** A board whose two sensors always read half a watt. *)
Definition half_watt_sensors : InaDevice := {|
  ina_open _ _ := true;
  ina_get_status _ _ := Some (0, 0);
  ina_set_status _ _ _ := true;
  ina_get_registers _ _ := Some (1, 500000)
|}.
Definition clock_world (sec : Z) : World :=
  mkWorld "" ∅ ∅ (fun _ _ _ new => new) ∅ 0 (Some (sec, 0)) 100 "" (mkProcs ∅ ∅ ∅ [] (1, 1)).

(** The INA231 counter returns the energy since the previous reading, not since the reset
    as the other counters do: at one watt, read one and three seconds after the reset, it
    returns 1 and 2 joules, while the 3 joules it accumulates are never returned. *)
Theorem CounterINA_returns_the_last_interval :
  let read sec := @CounterINA_getJoules half_watt_sensors (clock_world sec) in
  let after_reset := snd (CounterINA_reset (clock_world 10) (snd (@CounterINA_init half_watt_sensors (clock_world 5) CounterINA_new))) in
  let '(first, c1) := read 11 after_reset in
  let '(second, c2) := read 13 c1 in
  first = Ret (d_of_Z 1) /\ second = Ret (d_of_Z 2) /\ ci_cumulativeJoules c2 = d_of_Z 3.
Proof. vm_compute. auto. Qed.

(** ** Rolling back the power caps *)

(** The documented behaviour of the library, on the zones the hardware supports: limits and
    enabling read back as set, and a call changes nothing else. *)
Class RaplcapLaws (R : Type) {RC : Raplcap R} := {
  rl_ok : R -> Prop;
  rl_sockets : Z;
  rl_supported : raplcap_zone -> Prop;
  rl_limits : R -> Z -> raplcap_zone -> raplcap_limit * raplcap_limit;
  rl_enabled : R -> Z -> raplcap_zone -> bool;
  rl_num_sockets r : rl_ok r -> rc_num_sockets r = rl_sockets;
  rl_zone_supported r z : rl_ok r -> rl_sockets <> 0 ->
    (forall s, 0 <= s < rl_sockets -> rc_zone_supported r s z = true) -> rl_supported z;
  rl_get_limits r s z : rl_ok r -> 0 <= s < rl_sockets -> rl_supported z -> rc_get_limits r s z = Some (rl_limits r s z);
  rl_zone_enabled r s z : rl_ok r -> 0 <= s < rl_sockets -> rl_supported z ->
    rc_zone_enabled r s z = if rl_enabled r s z then 1 else 0;
  rl_set_limits r s z l0 l1 : rl_ok r -> 0 <= s < rl_sockets -> rl_supported z ->
    exists r', rc_set_limits s z l0 l1 r = (true, r') /\ rl_ok r' /\
      rl_limits r' s z = (default (fst (rl_limits r s z)) l0, default (snd (rl_limits r s z)) l1) /\
      rl_enabled r' s z = rl_enabled r s z /\
      forall s' z', (s', z') <> (s, z) -> rl_limits r' s' z' = rl_limits r s' z' /\ rl_enabled r' s' z' = rl_enabled r s' z';
  rl_set_enabled r s z b : rl_ok r -> 0 <= s < rl_sockets -> rl_supported z ->
    exists r', rc_set_zone_enabled s z b r = (true, r') /\ rl_ok r' /\
      rl_limits r' s z = rl_limits r s z /\ rl_enabled r' s z = b /\
      forall s' z', (s', z') <> (s, z) -> rl_limits r' s' z' = rl_limits r s' z' /\ rl_enabled r' s' z' = rl_enabled r s' z'
}.

Section caps.
Context {R : Type} {RC : Raplcap R} {RL : RaplcapLaws R}.
Variable p : PowerCapperLinux.
Hypothesis zone_ok : rl_supported (pl_zone p).
Hypothesis sockets_ok : pl_sockets p = rl_sockets.

(** The caps of a socket in a state of the hardware. *)
Definition socket_caps (r : R) (s : Z) : PowerCap * PowerCap :=
  let '((w0, t0), (w1, t1)) := rl_limits r s (pl_zone p) in
  let off := negb (rl_enabled r s (pl_zone p)) in
  (mkPowerCap w0 t0 off, mkPowerCap w1 t1 off).
(** A state that differs from another in that socket of the zone at most. *)
Definition elsewhere_same (s : Z) (r r' : R) : Prop :=
  forall s' z', (s', z') <> (s, pl_zone p) -> rl_limits r' s' z' = rl_limits r s' z' /\ rl_enabled r' s' z' = rl_enabled r s' z'.

Lemma elsewhere_same_trans s r1 r2 r3 : elsewhere_same s r1 r2 -> elsewhere_same s r2 r3 -> elsewhere_same s r1 r3.
Proof.
  intros H1 H2 s' z' Hne. destruct (H1 s' z' Hne) as [E1 F1], (H2 s' z' Hne) as [E2 F2]. split; congruence.
Qed.

Lemma getWindow_caps r s win : rl_ok r -> 0 <= s < rl_sockets ->
  PowerCapper_getWindow p s win r = (Ret (if win =? 0 then fst (socket_caps r s) else snd (socket_caps r s)), r).
Proof.
  intros Hok Hs. unfold PowerCapper_getWindow, gets, bind at 1.
  rewrite (rl_get_limits r s _ Hok Hs zone_ok). unfold bind, socket_caps.
  pose proof (rl_zone_enabled r s _ Hok Hs zone_ok) as He.
  destruct (rl_limits r s (pl_zone p)) as [[w0 t0] [w1 t1]]. cbn [ret]. rewrite He.
  by destruct (rl_enabled r s (pl_zone p)), (win =? 0).
Qed.

Lemma getSocket_caps r s : rl_ok r -> 0 <= s < rl_sockets -> PowerCapper_getSocket p s r = (Ret (socket_caps r s), r).
Proof.
  intros Hok Hs. unfold PowerCapper_getSocket.
  rewrite (bind_Ret _ _ _ _ _ (getWindow_caps r s 0 Hok Hs)), (bind_Ret _ _ _ _ _ (getWindow_caps r s 1 Hok Hs)).
  simpl. by destruct (socket_caps r s).
Qed.

Lemma get_caps r : rl_ok r -> PowerCapper_get p r = (Ret (socket_caps r <$> seqZ 0 rl_sockets), r).
Proof.
  intros Hok. unfold PowerCapper_get. rewrite sockets_ok.
  assert (forall l, (forall s, s ∈ l -> 0 <= s < rl_sockets) ->
    for_map l (PowerCapper_getSocket p) r = (Ret (socket_caps r <$> l), r)) as H.
  { induction l as [|s l IH]; intros Hl; csimpl; [done|].
    rewrite (bind_Ret _ _ _ _ _ (getSocket_caps r s Hok (Hl s ltac:(left)))).
    by rewrite (bind_Ret _ _ _ _ _ (IH (fun s Hs => Hl s (list_elem_of_further _ _ _ Hs)))). }
  apply H. intros s Hs%elem_of_seqZ. lia.
Qed.

(** Setting the two windows of a socket to the caps it had in the state [r0]. *)
Lemma set_both_windows r0 r s : rl_ok r -> 0 <= s < rl_sockets ->
  exists r', (do* PowerCapper_setWindow p 0 s (fst (socket_caps r0 s)) in
              PowerCapper_setWindow p 1 s (snd (socket_caps r0 s))) r = (Ret tt, r') /\ rl_ok r' /\
    socket_caps r' s = socket_caps r0 s /\ elsewhere_same s r r'.
Proof.
  intros Hok Hs. unfold PowerCapper_setWindow, socket_caps.
  destruct (rl_limits r0 s (pl_zone p)) as [[w0 t0] [w1 t1]]. cbn [fst snd cap_value cap_window cap_preparedOnly].
  rewrite negb_involutive. set (b := rl_enabled r0 s (pl_zone p)).
  destruct (rl_set_limits r s _ (Some (w0, t0)) None Hok Hs zone_ok) as (r1 & E1 & Hok1 & L1 & _ & O1).
  destruct (rl_set_enabled r1 s _ b Hok1 Hs zone_ok) as (r2 & E2 & Hok2 & L2 & _ & O2).
  destruct (rl_set_limits r2 s _ None (Some (w1, t1)) Hok2 Hs zone_ok) as (r3 & E3 & Hok3 & L3 & _ & O3).
  destruct (rl_set_enabled r3 s _ b Hok3 Hs zone_ok) as (r4 & E4 & Hok4 & L4 & B4 & O4).
  exists r4. split; [|split; [done|split]].
  - mrun. simpl (0 =? 0). simpl (1 =? 0). cbv iota. rewrite E1. cbn [negb]. rewrite E2. cbn [negb].
    rewrite E3. cbn [negb]. by rewrite E4.
  - rewrite L4, B4, L3, L2, L1. simpl. done.
  - exact (elsewhere_same_trans _ _ _ _ (elsewhere_same_trans _ _ _ _ O1 O2) (elsewhere_same_trans _ _ _ _ O3 O4)).
Qed.

(** Setting the caps of every socket. *)
Lemma set_all_sockets r0 r : rl_ok r ->
  exists r', for_each (enumerate (socket_caps r0 <$> seqZ 0 rl_sockets)) (fun '(i, cap) =>
      do* PowerCapper_setWindow p 0 (Z.of_nat i) (fst cap) in PowerCapper_setWindow p 1 (Z.of_nat i) (snd cap)) r = (Ret tt, r') /\
    rl_ok r' /\ (forall s, 0 <= s < rl_sockets -> socket_caps r' s = socket_caps r0 s) /\
    (forall s z, z <> pl_zone p -> rl_limits r' s z = rl_limits r s z /\ rl_enabled r' s z = rl_enabled r s z).
Proof.
  intros Hok.
  destruct (for_each_inv_pos (fun done_ r' => rl_ok r' /\
      (forall s, 0 <= s < Z.of_nat (length done_) -> socket_caps r' s = socket_caps r0 s) /\
      (forall s z, z <> pl_zone p -> rl_limits r' s z = rl_limits r s z /\ rl_enabled r' s z = rl_enabled r s z))
    (fun '(i, cap) => do* PowerCapper_setWindow p 0 (Z.of_nat i) (fst cap) in PowerCapper_setWindow p 1 (Z.of_nat i) (snd cap))
    (enumerate (socket_caps r0 <$> seqZ 0 rl_sockets)) r) as (r' & E & Hok' & Hdone & Hoth).
  - split; [done|]. split; [|done]. intros s Hs. simpl in Hs. lia.
  - intros d_ [i cap] rest r1 Hpos (Hok1 & Hd & Ho). apply enumerate_pos in Hpos as [-> Hc].
    rewrite list_lookup_fmap in Hc. destruct (seqZ 0 rl_sockets !! length d_) as [s|] eqn:Es; [|done].
    apply lookup_seqZ in Es as [-> Hlt]. simpl in Hc. injection Hc as <-. rewrite Z.add_0_l.
    destruct (set_both_windows r0 r1 (Z.of_nat (length d_)) Hok1 ltac:(lia)) as (r2 & E2 & Hok2 & Hs2 & He2).
    exists r2. split; [done|]. split; [done|]. split.
    + intros s Hs. rewrite length_app in Hs. simpl in Hs.
      destruct (decide (s = Z.of_nat (length d_))) as [->|Hne]; [done|].
      rewrite <- Hd by lia. unfold socket_caps. by destruct (He2 s (pl_zone p)) as [-> ->]; [congruence|].
    + intros s z Hz. destruct (He2 s z) as [-> ->]; [congruence|]. by apply Ho.
  - exists r'. split; [done|]. split; [done|]. split; [|done]. intros s Hs. apply Hdone.
    unfold enumerate. rewrite length_imap, length_fmap, length_seqZ. lia.
Qed.
End caps.

Section rollback.
Context {G R : Type} {SG : SmartGauge G} {ID : InaDevice} {RC : Raplcap R} {RL : RaplcapLaws R}.
Variable usbName : option string.
#[local] Instance machine_energy : EnergyOps (EnergyMachine (G := G) (R := R)) := LinuxEnergy usbName.

Definition with_rapl (m : EnergyMachine (G := G) (R := R)) (r : R) : EnergyMachine :=
  mkEnergyMachine (em_world m) r (em_plug m) (em_cpus m) (em_memory m) (em_cappers m).

(** A computation on the machine that is one on the power-capping hardware. *)
Definition embeds {A} (m : EnergyMachine (G := G) (R := R)) (k : M EnergyMachine A) (k' : M R A) : Prop :=
  forall r, k (with_rapl m r) = (fst (k' r), with_rapl m (snd (k' r))).

Lemma embeds_bind {A B} m (k : M _ A) k' (f : A -> M _ B) f' :
  embeds m k k' -> (forall a, embeds m (f a) (f' a)) -> embeds m (bind k f) (bind k' f').
Proof.
  intros H Hf r. unfold bind. rewrite H. destruct (k' r) as [[a|e|u] r']; simpl; [|done..]. apply Hf.
Qed.

Lemma embeds_for_each {A} m (l : list A) (f : A -> M _ unit) f' :
  (forall a, embeds m (f a) (f' a)) -> embeds m (for_each l f) (for_each l f').
Proof.
  intros H. induction l as [|a l IH]; simpl; [done|]. apply embeds_bind; [apply H|intros []; apply IH].
Qed.

Lemma embeds_capper {A} m t p (f : PowerCapperLinux -> M R A) :
  em_cappers m !! Z.to_nat t = Some (Some p) -> embeds m (on_capper t f) (f p).
Proof. intros H r. unfold on_capper. simpl. rewrite H. by destruct (f p r). Qed.

(** The zone of each type of counter. *)
Definition zone_of (t : CounterType) : raplcap_zone :=
  if t =? COUNTER_CPUS then RAPLCAP_ZONE_PACKAGE else if t =? COUNTER_MEMORY then RAPLCAP_ZONE_DRAM else RAPLCAP_ZONE_PSYS.

(** What the constructor makes sure of. *)
Definition cappers_good (cappers : list (option PowerCapperLinux)) : Prop :=
  forall t, 0 <= t < COUNTER_NUM -> exists o : option PowerCapperLinux, cappers !! Z.to_nat t = Some o /\
    forall p, o = Some p -> pl_zone p = zone_of t /\ rl_supported (pl_zone p) /\ pl_sockets p = rl_sockets.

Lemma PowerCapper_init_good (r : R) p p' : rl_ok r -> PowerCapper_init r p = (true, p') ->
  pl_zone p' = pl_zone p /\ rl_supported (pl_zone p') /\ pl_sockets p' = rl_sockets.
Proof.
  intros Hok H. unfold PowerCapper_init in H. rewrite (rl_num_sockets r Hok) in H.
  destruct (Z.eqb_spec rl_sockets 0) as [|Hn]; [done|]. destruct (negb (rc_init r)); [done|].
  destruct (forallb _ _) eqn:E; [|done]. injection H as <-. split; [done|]. split; [|done]. simpl.
  apply (rl_zone_supported r); [done|done|]. intros s Hs. rewrite forallb_forall in E. apply E.
  apply list_elem_of_In, elem_of_seqZ. lia.
Qed.

Lemma find_cappers_good (r : R) cappers : rl_ok r -> find_cappers r = Ret cappers -> cappers_good cappers.
Proof.
  intros Hok H t Ht. apply map_out_Ret_inv in H.
  destruct (Forall2_lookup_l _ _ _ (Z.to_nat t) t H) as (o & Ho & E).
  { apply lookup_seqZ. unfold COUNTER_NUM in *. lia. }
  exists o. split; [done|]. intros p ->.
  assert (PowerCapper_new t = Ret (mkPowerCapper (zone_of t) false 0)) as En.
  { unfold PowerCapper_new, zone_of. destruct (Z.eqb_spec t COUNTER_CPUS); [done|].
    destruct (Z.eqb_spec t COUNTER_MEMORY); [done|]. rewrite (proj2 (Z.eqb_eq t COUNTER_PLUG)); [done|].
    unfold COUNTER_NUM, COUNTER_CPUS, COUNTER_MEMORY, COUNTER_PLUG in *. lia. }
  rewrite En in E. simpl in E. destruct (PowerCapper_init r _) as [[] p'] eqn:Ei; [|done].
  injection E as ->. exact (PowerCapper_init_good r _ _ Hok Ei).
Qed.

(** The rollback point of a state of the hardware. *)
Definition caps_point (m : EnergyMachine (G := G) (R := R)) (r0 : R) (t : CounterType) : list (PowerCap * PowerCap) :=
  match em_cappers m !! Z.to_nat t with
  | Some (Some p) => socket_caps p r0 <$> seqZ 0 rl_sockets
  | _ => []
  end.

Lemma getRollbackPoint_caps m r : cappers_good (em_cappers m) -> rl_ok r ->
  Energy_getRollbackPoint (with_rapl m r) = (Ret (caps_point m r <$> seqZ 0 COUNTER_NUM), with_rapl m r).
Proof.
  intros Hg Hok. unfold Energy_getRollbackPoint.
  assert (forall l, (forall t, t ∈ l -> 0 <= t < COUNTER_NUM) ->
    for_map l (fun i => let* present := gets (fun s => e_powerCapper s i) in
      if (present : bool) then p_get i else ret []) (with_rapl m r) = (Ret (caps_point m r <$> l), with_rapl m r)) as H.
  { induction l as [|t l IH]; intros Hl; csimpl; [done|].
    rewrite (bind_Ret _ _ _ (caps_point m r t) (with_rapl m r)).
    - by rewrite (bind_Ret _ _ _ _ _ (IH (fun s Hs => Hl s (list_elem_of_further _ _ _ Hs)))).
    - unfold gets, bind at 1. simpl. unfold caps_point.
      destruct (Hg t (Hl t ltac:(left))) as (o & Ho & Hp). rewrite Ho. destruct o as [p|]; [|done].
      destruct (Hp p eq_refl) as (_ & Hz & Hs).
      rewrite (embeds_capper m t p PowerCapper_get Ho), (get_caps p Hz Hs r Hok). done. }
  apply H. intros t Ht%elem_of_seqZ. lia.
Qed.

(** Rolling back one type. *)
Lemma rollback_type m r0 r t : cappers_good (em_cappers m) -> rl_ok r -> 0 <= t < COUNTER_NUM ->
  exists r', (let* present := gets (fun s => e_powerCapper s t) in
      if (present : bool) then
        let* capsSockets := lift (vec_index (caps_point m r0 <$> seqZ 0 COUNTER_NUM) (Z.to_nat t)) in
        for_each (enumerate capsSockets) (fun '(socketId, cap) => rollback_socket t socketId cap)
      else ret tt) (with_rapl m r) = (Ret tt, with_rapl m r') /\ rl_ok r' /\
    caps_point m r' t = caps_point m r0 t /\
    (forall s z, z <> zone_of t -> rl_limits r' s z = rl_limits r s z /\ rl_enabled r' s z = rl_enabled r s z).
Proof.
  intros Hg Hok Ht. destruct (Hg t Ht) as (o & Ho & Hp). unfold gets, bind at 1.
  cbn [e_powerCapper machine_energy LinuxEnergy with_rapl em_cappers]. rewrite Ho. destruct o as [p|].
  2: { exists r. split; [done|]. split; [done|]. split; [|done]. unfold caps_point. by rewrite Ho. }
  destruct (Hp p eq_refl) as (Hpz & Hz & Hs).
  destruct (set_all_sockets p Hz r0 r Hok) as (r' & E & Hok' & Hcaps & Hoth). rewrite Hpz in Hoth.
  exists r'. split; [|split; [done|split; [|done]]].
  - rewrite (bind_Ret (lift _) _ _ (caps_point m r0 t) (with_rapl m r)).
    2: { assert ((caps_point m r0 <$> seqZ 0 COUNTER_NUM) !! Z.to_nat t = Some (caps_point m r0 t)) as Hv
           by (apply list_lookup_fmap_Some; exists t; split; [done|apply lookup_seqZ; lia]).
         unfold lift, vec_index. by rewrite Hv. }
    unfold caps_point at 1. rewrite Ho.
    rewrite (embeds_for_each m _ _ (fun '(i, cap) =>
      do* PowerCapper_setWindow p 0 (Z.of_nat i) (fst cap) in PowerCapper_setWindow p 1 (Z.of_nat i) (snd cap))).
    + by rewrite E.
    + intros [i cap]. apply embeds_bind; [|intros []]; by apply (embeds_capper m t p).
  - unfold caps_point. rewrite Ho. apply list_fmap_ext. intros k s Hk. apply Hcaps.
    apply lookup_seqZ in Hk. lia.
Qed.

Lemma zone_of_inj t t' : 0 <= t < COUNTER_NUM -> 0 <= t' < COUNTER_NUM -> zone_of t = zone_of t' -> t = t'.
Proof.
  unfold zone_of, COUNTER_NUM, COUNTER_CPUS, COUNTER_MEMORY. intros Ht Ht'.
  destruct (Z.eqb_spec t 0), (Z.eqb_spec t' 0), (Z.eqb_spec t 1), (Z.eqb_spec t' 1); try done; lia.
Qed.

Lemma caps_point_elsewhere m r r' t t' : cappers_good (em_cappers m) ->
  0 <= t < COUNTER_NUM -> 0 <= t' < COUNTER_NUM -> t <> t' ->
  (forall s z, z <> zone_of t -> rl_limits r' s z = rl_limits r s z /\ rl_enabled r' s z = rl_enabled r s z) ->
  caps_point m r' t' = caps_point m r t'.
Proof.
  intros Hg Ht Ht' Hne H. unfold caps_point. destruct (Hg t' Ht') as (o & Ho & Hp). rewrite Ho.
  destruct o as [p|]; [|done]. destruct (Hp p eq_refl) as (Hz & _). apply list_fmap_ext. intros k s _.
  unfold socket_caps. rewrite Hz. destruct (H s (zone_of t')) as [-> ->]; [|done].
  intros E. apply Hne. symmetry. by apply zone_of_inj.
Qed.

Lemma rollback_caps m r0 r : cappers_good (em_cappers m) -> rl_ok r ->
  exists r', Energy_rollback (caps_point m r0 <$> seqZ 0 COUNTER_NUM) (with_rapl m r) = (Ret tt, with_rapl m r') /\
    rl_ok r' /\ caps_point m r' <$> seqZ 0 COUNTER_NUM = caps_point m r0 <$> seqZ 0 COUNTER_NUM.
Proof.
  intros Hg Hok. unfold Energy_rollback.
  destruct (for_each_inv_pos (fun done_ m' => exists r', m' = with_rapl m r' /\ rl_ok r' /\
      forall t, t ∈ done_ -> 0 <= t < COUNTER_NUM -> caps_point m r' t = caps_point m r0 t)
    (fun i => let* present := gets (fun s => e_powerCapper s i) in
      if (present : bool) then
        let* capsSockets := lift (vec_index (caps_point m r0 <$> seqZ 0 COUNTER_NUM) (Z.to_nat i)) in
        for_each (enumerate capsSockets) (fun '(socketId, cap) => rollback_socket i socketId cap)
      else ret tt) (seqZ 0 COUNTER_NUM) (with_rapl m r)) as (m' & E & r' & -> & Hok' & Hall).
  - exists r. split; [done|]. split; [done|]. intros t Ht. by apply not_elem_of_nil in Ht.
  - intros done_ t rest ? Hl (r1 & -> & Hok1 & Hd).
    assert (0 <= t < COUNTER_NUM) as Ht.
    { assert (t ∈ seqZ 0 COUNTER_NUM) as Hin%elem_of_seqZ by (rewrite Hl; apply elem_of_app; right; left). lia. }
    destruct (rollback_type m r0 r1 t Hg Hok1 Ht) as (r2 & E & Hok2 & Hc & Ho).
    exists (with_rapl m r2). split; [exact E|]. exists r2. split; [done|]. split; [done|].
    intros t' Hin Ht'. destruct (decide (t = t')) as [<-|Hne]; [done|].
    rewrite (caps_point_elsewhere m r1 r2 t t' Hg Ht Ht' Hne Ho). apply Hd; [|done].
    apply elem_of_app in Hin as [|Hin]; [done|]. apply list_elem_of_singleton in Hin. congruence.
  - exists r'. split; [exact E|]. split; [done|]. apply list_fmap_ext. intros k t Hk.
    apply list_elem_of_lookup_2 in Hk. apply Hall; [done|]. apply elem_of_seqZ in Hk. lia.
Qed.

(** C34: on a machine whose power cappers are those the constructor finds, rolling back to a
    point taken earlier succeeds and restores every cap: the caps of both windows of every socket
    of every available capper read as they did, whatever was done to the hardware in between. *)
Theorem Energy_rollback_restores (m0 m : EnergyMachine (G := G) (R := R)) (r : R) rp m1 :
  find_cappers r = Ret (em_cappers m0) -> rl_ok r -> rl_ok (em_rapl m0) ->
  em_cappers m = em_cappers m0 -> rl_ok (em_rapl m) ->
  @Energy_getRollbackPoint _ (LinuxEnergy usbName) m0 = (Ret rp, m1) ->
  exists r', @Energy_rollback _ (LinuxEnergy usbName) rp m = (Ret tt, with_rapl m r') /\
    @Energy_getRollbackPoint _ (LinuxEnergy usbName) (with_rapl m r') = (Ret rp, with_rapl m r').
Proof.
  intros Hf Hok Hok0 Hc Hokm Hrp. pose proof (find_cappers_good r _ Hok Hf) as Hg.
  assert (forall m : EnergyMachine (G := G) (R := R), m = with_rapl m (em_rapl m)) as Hself by by intros [].
  pose proof (getRollbackPoint_caps m0 _ Hg Hok0) as Hp0. rewrite <- (Hself m0) in Hp0.
  unfold machine_energy in Hp0. rewrite Hp0 in Hrp.
  assert (rp = (caps_point m0 (em_rapl m0) <$> seqZ 0 COUNTER_NUM)) as -> by congruence. clear Hrp Hp0.
  assert ((caps_point m0 (em_rapl m0) <$> seqZ 0 COUNTER_NUM) = (caps_point m (em_rapl m0) <$> seqZ 0 COUNTER_NUM)) as ->
    by (apply list_fmap_ext; intros; unfold caps_point; by rewrite Hc).
  rewrite <- Hc in Hg. destruct (rollback_caps m (em_rapl m0) (em_rapl m) Hg Hokm) as (r' & E & Hok' & Hr).
  exists r'. rewrite <- (Hself m) in E. split; [exact E|].
  pose proof (getRollbackPoint_caps m r' Hg Hok') as Hp. unfold machine_energy in Hp. rewrite Hp.
  f_equal. by f_equal.
Qed.
End rollback.

(** ** Sample machines *)

(** An Intel machine with one CPU, whose package counter holds [reg]; the energy unit is
    [2^-14] joules. *)
Definition lf : string := String (Ascii.ascii_of_nat 10) "".
Definition rapl_world (reg : Z) : World :=
  mkWorld "" (<["/dev/cpu/0/msr"%string := MsrFile 0]>
               {[ "/proc/cpuinfo"%string :=
                    RegFile ("vendor_id	: GenuineIntel" +:+ lf +:+ "cpu family	: 6" +:+ lf) ]})
    ∅ (fun _ _ _ new => new)
    {[ 0 := {[ 1542 := 3587; 1556 := 640; 1553 := reg ]} ]} 0 None 100 "" (mkProcs ∅ ∅ ∅ [] (1, 1)).
Definition rapl_cpus : list Cpu :=
  [mkCpu 0 [mkPhysicalCore 0 0 [mkVirtualCore 0 0 0]] [mkVirtualCore 0 0 0]].
Definition rapl_counter : CounterCpusLinuxMsr :=
  snd (CounterMsr_init (rapl_world 4294967196) (CounterMsr_new rapl_cpus)).

(** The same on an AMD machine, whose energy unit is [2^-16] joules. *)
Definition ryzen_world (reg : Z) : World :=
  mkWorld "" (<["/dev/cpu/0/msr"%string := MsrFile 0]>
               {[ "/proc/cpuinfo"%string :=
                    RegFile ("vendor_id	: AuthenticAMD" +:+ lf +:+ "cpu family	: 23" +:+ lf) ]})
    ∅ (fun _ _ _ new => new)
    {[ 0 := {[ MSR_RAPL_POWER_UNIT_AMD := 4099; MSR_PKG_ENERGY_STATUS_AMD := reg ]} ]} 0 None 100 "" (mkProcs ∅ ∅ ∅ [] (1, 1)).
Definition ryzen_counter : CounterCpusLinuxMsr :=
  snd (CounterMsr_init (ryzen_world 4294967196) (CounterMsr_new rapl_cpus)).

(** On both machines the register wraps around twice. *)
Definition sample_family (f : CpuFamily) : (Z -> World) * CounterCpusLinuxMsr * Z :=
  match f with
  | CPU_FAMILY_INTEL => (rapl_world, rapl_counter, 14)
  | CPU_FAMILY_AMD => (ryzen_world, ryzen_counter, 16)
  end.

Definition sample_exact (f : CpuFamily) : Prop :=
  exists c2, for_map [(sample_family f).1.1 50; (sample_family f).1.1 20] (fun w => CounterMsr_getJoulesCpu w 0)
      (snd (CounterMsr_reset ((sample_family f).1.1 4294967196) (sample_family f).1.2)) =
    (Ret [d_scaled 150 (- (sample_family f).2); d_scaled (2 ^ 32 + 120) (- (sample_family f).2)], c2).

Lemma CounterMsr_energy_exact_witness : sample_exact CPU_FAMILY_INTEL /\ sample_exact CPU_FAMILY_AMD.
Proof.
  assert (forall f, sample_exact f) as H; [intros f|by split].
  apply (CounterMsr_energy_exact ((sample_family f).1.1 4294967196) (sample_family f).1.2
    (snd (CounterMsr_reset ((sample_family f).1.1 4294967196) (sample_family f).1.2)) f 0 (mkMsr (Some (0, false)))
    (sample_family f).2 4294967196 [(sample_family f).1.1 50; (sample_family f).1.1 20] [2 ^ 32 + 50; 2 ^ 33 + 20]).
  - destruct f; vm_compute; reflexivity.
  - destruct f; (split; [lia|vm_compute; reflexivity]).
  - destruct f; vm_compute; reflexivity.
  - destruct f; vm_compute; reflexivity.
  - destruct f; vm_compute; reflexivity.
  - destruct f; cbn; lia.
  - lia.
  - exists 4294967196. destruct f; repeat split; vm_compute; congruence.
  - constructor; [|constructor; [|constructor]].
    + exists 50. destruct f; repeat split; vm_compute; congruence.
    + exists 20. destruct f; repeat split; vm_compute; congruence.
  - intros [|[|[|i]]] a b Ha Hb; simpl in Ha, Hb; try done; injection Ha as <-; injection Hb as <-; lia.
  - simpl. lia.
Defined.

Lemma CounterMsr_init_needs_contiguous_ids_witness :
  exists cpu, cpu ∈ rapl_cpus /\ cpu_cpuId cpu = 0.
Proof.
  apply (CounterMsr_init_needs_contiguous_ids (rapl_world 7) rapl_cpus
    (snd (CounterMsr_init (rapl_world 7) (CounterMsr_new rapl_cpus)))).
  - intros cpu H. apply list_elem_of_singleton in H as ->. simpl. lia.
  - vm_compute. reflexivity.
  - simpl. lia.
Defined.

(** Power-capping hardware with two sockets and two zones, whose limits are what was set. *)
Record SampleRapl := mkSampleRapl {
  sr_limits : Z -> raplcap_zone -> raplcap_limit * raplcap_limit;
  sr_enabled : Z -> raplcap_zone -> bool
}.
Definition set_zone {A} (s : Z) (z : raplcap_zone) (v : A) (f : Z -> raplcap_zone -> A) (s' : Z) (z' : raplcap_zone) : A :=
  if bool_decide ((s', z') = (s, z)) then v else f s' z'.
#[export] Instance sample_raplcap : Raplcap SampleRapl := {|
  rc_num_sockets _ := 2;
  rc_init _ := true;
  rc_zone_supported _ _ z := negb (bool_decide (z = RAPLCAP_ZONE_PSYS));
  rc_get_limits r s z := Some (sr_limits r s z);
  rc_set_limits s z l0 l1 r :=
    (true, mkSampleRapl (set_zone s z (default (fst (sr_limits r s z)) l0, default (snd (sr_limits r s z)) l1)
                           (sr_limits r)) (sr_enabled r));
  rc_zone_enabled r s z := if sr_enabled r s z then 1 else 0;
  rc_set_zone_enabled s z b r := (true, mkSampleRapl (sr_limits r) (set_zone s z b (sr_enabled r)))
|}.

Lemma set_zone_eq {A} s z (v : A) f : set_zone s z v f s z = v.
Proof. unfold set_zone. by rewrite bool_decide_eq_true_2. Qed.
Lemma set_zone_ne {A} s z (v : A) f s' z' : (s', z') <> (s, z) -> set_zone s z v f s' z' = f s' z'.
Proof. intros. unfold set_zone. by rewrite bool_decide_eq_false_2. Qed.

#[export] Program Instance sample_raplcap_laws : RaplcapLaws SampleRapl := {|
  rl_ok _ := True;
  rl_sockets := 2;
  rl_supported z := z <> RAPLCAP_ZONE_PSYS;
  rl_limits := sr_limits;
  rl_enabled := sr_enabled
|}.
Next Obligation. done. Qed.
Next Obligation. intros r z _ _ H. specialize (H 0 ltac:(lia)). simpl in H. by destruct z. Qed.
Next Obligation. done. Qed.
Next Obligation. done. Qed.
Next Obligation.
  intros r s z l0 l1 _ _ _. eexists. split; [reflexivity|]. split; [done|]. simpl.
  split; [apply set_zone_eq|]. split; [done|]. intros. by rewrite set_zone_ne.
Qed.
Next Obligation.
  intros r s z b _ _ _. eexists. split; [reflexivity|]. split; [done|]. simpl.
  split; [done|]. split; [apply set_zone_eq|]. intros. by rewrite set_zone_ne.
Qed.

#[export] Instance no_smart_gauge : SmartGauge unit := {|
  sg_initDevice := ret false; sg_getWattHour := ret d_zero |}.

Definition sample_rapl (watts : Z) : SampleRapl :=
  mkSampleRapl (fun _ _ => ((d_of_Z watts, d_of_Z 1), (d_of_Z (2 * watts), d_of_Z 3))) (fun s _ => s =? 0).
Definition sample_cappers : list (option PowerCapperLinux) :=
  [Some (mkPowerCapper RAPLCAP_ZONE_PACKAGE true 2); Some (mkPowerCapper RAPLCAP_ZONE_DRAM true 2); None].
Definition capped_machine (watts : Z) : EnergyMachine (G := unit) (R := SampleRapl) :=
  mkEnergyMachine (rapl_world 1) (sample_rapl watts) None None None sample_cappers.
Definition sample_point : EnergyRollbackPoint :=
  let on := (mkPowerCap (d_of_Z 50) (d_of_Z 1) false, mkPowerCap (d_of_Z 100) (d_of_Z 3) false) in
  let off := (mkPowerCap (d_of_Z 50) (d_of_Z 1) true, mkPowerCap (d_of_Z 100) (d_of_Z 3) true) in
  [[on; off]; [on; off]; []].

Lemma Energy_rollback_restores_witness :
  exists r', @Energy_rollback _ (@LinuxEnergy _ _ _ half_watt_sensors _ None) sample_point (capped_machine 80) =
      (Ret tt, with_rapl (capped_machine 80) r') /\
    @Energy_getRollbackPoint _ (@LinuxEnergy _ _ _ half_watt_sensors _ None) (with_rapl (capped_machine 80) r') =
      (Ret sample_point, with_rapl (capped_machine 80) r').
Proof.
  apply (@Energy_rollback_restores unit SampleRapl no_smart_gauge half_watt_sensors sample_raplcap sample_raplcap_laws None
    (capped_machine 50) (capped_machine 80) (sample_rapl 50) sample_point (capped_machine 50)).
  - vm_compute. reflexivity.
  - exact I.
  - exact I.
  - reflexivity.
  - exact I.
  - apply (f_equal (fun x => (x, capped_machine 50))). vm_compute. reflexivity.
Defined.
