(* ===== verification/EnergyRefresher.v ===== *)
(** * The refresher thread of the counters (src/energy/energy-linux.cpp)

    An initialised counter of the CPUs has a thread that reads it before its registers wrap
    around; the destructor notifies the thread, waits for it and frees the arrays.  The thread,
    the threads that use the counter and its destructor are a step relation: the methods of the
    counter are critical sections, [_stopRefresher] is the abstract monitor that the code's
    monitor refines (UtilsSync.v), and the register of the CPU that is observed advances,
    on an Intel or an AMD processor. *)
From S2P Require Import Prelude UtilsText UtilsVector Double UtilsSys UtilsSync Topology TopologyLinux CpuFreq Energy EnergyLinux.
From Stdlib Require Import Relations.Relation_Operators.

(** ** The thread and its counter *)

Inductive EnergyDomain := DomCpu | DomCores | DomGraphic | DomDram.
#[export] Instance EnergyDomain_eq_dec : EqDecision EnergyDomain.
Proof. solve_decision. Defined.
(** The four readings of [getJoulesComponents]. *)
Definition read_domain (d : EnergyDomain) (w : World) (cpuId : Z) : M CounterCpusLinuxMsr double :=
  match d with
  | DomCpu => CounterMsr_getJoulesCpu w cpuId
  | DomCores => CounterMsr_getJoulesCores w cpuId
  | DomGraphic => CounterMsr_getJoulesGraphic w cpuId
  | DomDram => CounterMsr_getJoulesDram w cpuId
  end.
(** [CounterCpus::getJoulesComponentsAll], src/energy/energy.cpp:20-26: the critical sections
    that it consists of, each on the lock of the counter. *)
Definition all_components (cpus : list Cpu) : list (EnergyDomain * Z) :=
  concat ((fun cpu => [(DomCpu, cpu_cpuId cpu); (DomCores, cpu_cpuId cpu); (DomGraphic, cpu_cpuId cpu); (DomDram, cpu_cpuId cpu)]) <$> cpus).

(** Where the thread is: inside [timedWait], in [getJoulesComponentsAll] with the readings that
    are left, or at its end. *)
Inductive RefresherPc := RefresherWaits | RefresherReads (left : list (EnergyDomain * Z)) | RefresherDone.
(** The counter is in use, or its destructor has notified, joined, freed. *)
Inductive OwnerPc := OwnerUses | OwnerNotified | OwnerJoined | OwnerFreed.
(** How the program is: an exception that leaves the thread ends it. *)
Inductive RefresherStatus := Running | Terminated (e : exn) | ReadUndefined (why : string) | ReadsFreedMemory.

(** [rs_counter] is [None] once its arrays are freed; [rs_units] is what the package counter of
    the observed CPU has counted, [rs_last] and [rs_start] what it had at the last reading and at
    the last reset. *)
Record RefresherSys := mkRefresherSys {
  rs_status : RefresherStatus; rs_flag : bool; rs_refresher : RefresherPc; rs_owner : OwnerPc;
  rs_counter : option CounterCpusLinuxMsr; rs_world : World; rs_units : Z; rs_last : Z; rs_start : Z
}.

Definition rs_stop (st : RefresherStatus) (s : RefresherSys) : RefresherSys :=
  mkRefresherSys st (rs_flag s) (rs_refresher s) (rs_owner s) (rs_counter s) (rs_world s) (rs_units s) (rs_last s) (rs_start s).
Definition rs_with_refresher (flag : bool) (p : RefresherPc) (s : RefresherSys) : RefresherSys :=
  mkRefresherSys (rs_status s) flag p (rs_owner s) (rs_counter s) (rs_world s) (rs_units s) (rs_last s) (rs_start s).
Definition rs_with_owner (flag : bool) (p : OwnerPc) (c : option CounterCpusLinuxMsr) (s : RefresherSys) : RefresherSys :=
  mkRefresherSys (rs_status s) flag (rs_refresher s) p c (rs_world s) (rs_units s) (rs_last s) (rs_start s).
Definition rs_with_world (w : World) (t : Z) (s : RefresherSys) : RefresherSys :=
  mkRefresherSys (rs_status s) (rs_flag s) (rs_refresher s) (rs_owner s) (rs_counter s) w t (rs_last s) (rs_start s).
Definition rs_with_counter (c : CounterCpusLinuxMsr) (last start : Z) (s : RefresherSys) : RefresherSys :=
  mkRefresherSys (rs_status s) (rs_flag s) (rs_refresher s) (rs_owner s) (Some c) (rs_world s) (rs_units s) last start.

Section refresher.
(** The family of the machine, the CPU that is observed and its registers. *)
Variables (family : CpuFamily) (cpuId : Z) (msr : Msr).

(** The last reading, after a reading of [i]. *)
Definition last_after (d : EnergyDomain) (i : Z) (r : outcome double) (s : RefresherSys) : Z :=
  match d, r with
  | DomCpu, Ret _ => if bool_decide (Z.to_nat i = Z.to_nat cpuId) then rs_units s else rs_last s
  | _, _ => rs_last s
  end.

(** [CounterCpusLinuxRefresher::run], src/energy/energy-linux.cpp:301-306, the methods of the
    counter that other threads call, and its destructor, lines 485-504. The register advances
    by less than [2^32] units between two readings: it is what the refresher is for. *)
Inductive refresher_step : RefresherSys -> RefresherSys -> Prop :=
  | rstep_world s w t : rs_status s = Running -> package_counts family msr w t ->
      rs_units s <= t < rs_last s + 2 ^ 32 -> t - rs_start s < 2 ^ 53 -> refresher_step s (rs_with_world w t s)
  | rstep_timeout s c flag : rs_status s = Running -> rs_refresher s = RefresherWaits -> rs_counter s = Some c ->
      amon_step (rs_flag s) ATimeout flag ->
      refresher_step s (rs_with_refresher flag (RefresherReads (all_components (cm_cpus c))) s)
  | rstep_timeout_freed s flag : rs_status s = Running -> rs_refresher s = RefresherWaits -> rs_counter s = None ->
      amon_step (rs_flag s) ATimeout flag -> refresher_step s (rs_stop ReadsFreedMemory s)
  | rstep_stopped s flag : rs_status s = Running -> rs_refresher s = RefresherWaits -> amon_step (rs_flag s) AWait flag ->
      refresher_step s (rs_with_refresher flag RefresherDone s)
  | rstep_read s d i l c c' r : rs_status s = Running -> rs_refresher s = RefresherReads ((d, i) :: l) ->
      rs_counter s = Some c -> read_domain d (rs_world s) i c = (r, c') ->
      refresher_step s (
        let s' := rs_with_counter c' (last_after d i r s) (rs_start s) (rs_with_refresher (rs_flag s) (RefresherReads l) s) in
        match r with Ret _ => s' | Throw e => rs_stop (Terminated e) s' | Undef u => rs_stop (ReadUndefined u) s' end)
  | rstep_read_freed s d i l : rs_status s = Running -> rs_refresher s = RefresherReads ((d, i) :: l) ->
      rs_counter s = None -> refresher_step s (rs_stop ReadsFreedMemory s)
  | rstep_reads_end s : rs_status s = Running -> rs_refresher s = RefresherReads [] ->
      refresher_step s (rs_with_refresher (rs_flag s) RefresherWaits s)
  | rstep_user s d i c c' r : rs_status s = Running -> rs_owner s = OwnerUses -> rs_counter s = Some c ->
      read_domain d (rs_world s) i c = (r, c') -> refresher_step s (rs_with_counter c' (last_after d i r s) (rs_start s) s)
  | rstep_reset s c c' : rs_status s = Running -> rs_owner s = OwnerUses -> rs_counter s = Some c ->
      CounterMsr_reset (rs_world s) c = (Ret tt, c') -> refresher_step s (rs_with_counter c' (rs_units s) (rs_units s) s)
  | rstep_notify s flag : rs_status s = Running -> rs_owner s = OwnerUses -> amon_step (rs_flag s) ANotify flag ->
      refresher_step s (rs_with_owner flag OwnerNotified (rs_counter s) s)
  | rstep_join s : rs_status s = Running -> rs_owner s = OwnerNotified -> rs_refresher s = RefresherDone ->
      refresher_step s (rs_with_owner (rs_flag s) OwnerJoined (rs_counter s) s)
  | rstep_free s : rs_status s = Running -> rs_owner s = OwnerJoined ->
      refresher_step s (rs_with_owner (rs_flag s) OwnerFreed None s).
Definition refresher_reachable : RefresherSys -> RefresherSys -> Prop := clos_refl_trans_n1 _ refresher_step.

(** * Properties *)

(** ** The arrays outlive the thread *)
Record owner_inv (s : RefresherSys) : Prop := {
  oi_freed : rs_counter s = None -> rs_owner s = OwnerFreed;
  oi_joined : rs_owner s = OwnerJoined \/ rs_owner s = OwnerFreed -> rs_refresher s = RefresherDone;
  oi_status : rs_status s <> ReadsFreedMemory
}.

Lemma owner_inv_step s s' : owner_inv s -> refresher_step s s' -> owner_inv s'.
Proof.
  intros [I1 I2 I3] H. destruct H; try (exfalso; match goal with E : rs_counter _ = None |- _ => apply I1 in E; rewrite I2 in H0 by auto; done end).
  all: split; cbn in *; try done; try (intros Ho; pose proof (I2 Ho); congruence); try naive_solver.
  all: try destruct r; cbn in *; try done; try (intros Ho; pose proof (I2 Ho); congruence);
    try (intros Hc; apply I1 in Hc; congruence); intros _; apply I2; auto.
Qed.

(** An initialised counter whose thread has started, at the reset of [init]. *)
Definition refresher_start (c : CounterCpusLinuxMsr) (w : World) (t : Z) : RefresherSys :=
  mkRefresherSys Running false RefresherWaits OwnerUses (Some c) w t t t.

Lemma owner_inv_reachable c w t s : refresher_reachable (refresher_start c w t) s -> owner_inv s.
Proof.
  intros H. induction H as [|s s' Hs H IH]; [|by eapply owner_inv_step].
  split; cbn; [done| |done]. by intros [].
Qed.

(** In every interleaving of the refresher thread with the users of the counter and its
    destructor, the thread never reads the arrays after they are freed: they are freed only once
    the thread has ended. *)
Theorem refresher_never_reads_freed_memory (c : CounterCpusLinuxMsr) (w : World) (t : Z) (s : RefresherSys) :
  refresher_reachable (refresher_start c w t) s ->
  rs_status s <> ReadsFreedMemory /\ (rs_counter s = None -> rs_refresher s = RefresherDone).
Proof.
  intros H. destruct (owner_inv_reachable c w t s H) as [I1 I2 I3]. split; [done|]. intros Hc. apply I2. right. auto.
Qed.

(** ** The destructor may wait for ever *)

(** The notification is gone and the thread has not seen it. *)
Definition notification_lost (s : RefresherSys) : Prop :=
  rs_owner s = OwnerNotified /\ rs_flag s = false /\ rs_refresher s <> RefresherDone.

Lemma notification_lost_step s s' : notification_lost s -> refresher_step s s' -> notification_lost s'.
Proof.
  intros (Ho & Hf & Hr) H. unfold notification_lost.
  destruct H; cbn in *; repeat match goal with E : amon_step _ _ _ |- _ => inversion E; subst; clear E end; try done; try congruence.
  by destruct r.
Qed.

(** A notification that the destructor makes between the time-out of the thread's
    [timedWait] and its return is consumed by that wait, which answers [false]: from then on, in
    every continuation, the thread does not end and the destructor waits in [join]. *)
Theorem refresher_may_never_stop (c : CounterCpusLinuxMsr) (w : World) (t : Z) :
  exists s, refresher_reachable (refresher_start c w t) s /\ rs_status s = Running /\
    forall s', refresher_reachable s s' -> rs_owner s' = OwnerNotified /\ rs_refresher s' <> RefresherDone.
Proof.
  set (s1 := rs_with_owner true OwnerNotified (Some c) (refresher_start c w t)).
  set (s2 := rs_with_refresher false (RefresherReads (all_components (cm_cpus c))) s1).
  exists s2. split; [|split; [done|]].
  - apply rtn1_trans with s1; [by apply rstep_timeout with (c := c); [..|constructor]|].
    apply rtn1_trans with (refresher_start c w t); [|constructor].
    by apply (rstep_notify (refresher_start c w t)); [..|constructor].
  - intros s' H. assert (notification_lost s') as (Ho & _ & Hr); [|done].
    induction H as [|s' s'' Hs H IH]; [done|]. by eapply notification_lost_step.
Qed.
End refresher.

(** ** The refresher does not disturb the count *)
Section exact.
Variables (family : CpuFamily) (cpuId : Z) (msr : Msr) (e : Z).
Hypothesis e_range : 0 <= e <= 31.

(** Reading another component, or the package of another CPU, keeps the count of this one. *)
Lemma update_component_other w i which get set last set_last c r c' t n :
  counting family cpuId msr e c t n ->
  (forall x j, Z.to_nat i = Z.to_nat cpuId -> j_cpu (set x j) = j_cpu j) ->
  (forall v c, same_setup c (set_last v c) /\ cm_joulesCpus (set_last v c) = cm_joulesCpus c /\
     cm_lastCpu (set_last v c) !! Z.to_nat cpuId = cm_lastCpu c !! Z.to_nat cpuId) ->
  update_component w i which get set last set_last c = (r, c') -> counting family cpuId msr e c' t n.
Proof.
  intros Hc Hset Hlast H. unfold update_component, query, modify, ret, bind in H.
  destruct (vec_index (cm_joulesCpus c) (Z.to_nat i)) as [j| |] eqn:Ej; [|by injection H as _ <-..].
  destruct (vec_index (last c) (Z.to_nat i)) as [l| |]; [|by injection H as _ <-..].
  destruct (CounterMsr_updateCounter w c i (get j) l which) as [[x v]| |]; [|by injection H as _ <-..].
  injection H as _ <-. destruct Hc as [Hf Hm Hu Hl (jk & Hj & Hjc)].
  destruct (Hlast v (cm_set_joules i (set x j) c)) as ((S1 & S2 & S3 & S4 & _) & EJ & EL).
  split; [by rewrite S2|by rewrite S3|by rewrite S4|by rewrite EL|].
  rewrite EJ. cbn. unfold vec_index in Ej. destruct (cm_joulesCpus c !! Z.to_nat i) as [j'|] eqn:Ei; [|done]. injection Ej as ->.
  destruct (decide (Z.to_nat i = Z.to_nat cpuId)) as [E|E].
  - rewrite E in *. rewrite Hj in Ei. injection Ei as ->. eexists. split; [apply list_lookup_insert_eq; by eapply lookup_lt_Some|].
    by rewrite Hset.
  - exists jk. by rewrite list_lookup_insert_ne.
Qed.

(** The methods use an identifier only as the index it is. *)
Lemma getJoulesCpu_index w i c : Z.to_nat i = Z.to_nat cpuId -> CounterMsr_getJoulesCpu w i c = CounterMsr_getJoulesCpu w cpuId c.
Proof.
  intros E. unfold CounterMsr_getJoulesCpu, update_component, CounterMsr_updateCounter, CounterMsr_readEnergyCounter, set_at.
  unfold cm_set_joules. by rewrite E.
Qed.

Lemma read_domain_counting d w i c r c' t n t' :
  counting family cpuId msr e c t n -> package_counts family msr w t' -> 0 <= t <= t' -> t' - t < 2 ^ 32 -> 0 <= n -> n + (t' - t) < 2 ^ 53 ->
  read_domain d w i c = (r, c') ->
  if bool_decide (d = DomCpu) && bool_decide (Z.to_nat i = Z.to_nat cpuId) then
    r = Ret (d_scaled (n + (t' - t)) (- e)) /\ counting family cpuId msr e c' t' (n + (t' - t))
  else counting family cpuId msr e c' t n.
Proof.
  intros Hc Hw Ht Hd Hn Hlt H. destruct (bool_decide_reflect (d = DomCpu)) as [->|Hd']; cbn [andb].
  - destruct (bool_decide_reflect (Z.to_nat i = Z.to_nat cpuId)) as [E|E]; cbn [read_domain] in H.
    + rewrite (getJoulesCpu_index w i c E) in H.
      destruct (getJoulesCpu_counting family cpuId msr e e_range w c t n t' Hc Hw Ht Hd Hn Hlt) as (c1 & E1 & Hc1).
      rewrite E1 in H. by injection H as <- <-.
    + rewrite (getJoulesCpu_family family w c i (ct_family _ _ _ _ _ _ _ Hc)) in H.
      eapply update_component_other; [exact Hc| | |exact H]; [done|]. intros v c1. split; [done|]. split; [done|]. cbn. unfold set_at. by rewrite list_lookup_insert_ne.
  - assert (forall get, joules_of i get c = (r, c') -> counting family cpuId msr e c' t n) as Hj.
    { intros get Hg. unfold joules_of, query, ret, bind in Hg. by destruct (vec_index _ _); injection Hg as _ <-. }
    destruct d; [done| | |]; cbn [read_domain] in H.
    + unfold CounterMsr_getJoulesCores, gets, bind in H. destruct (cm_hasCores c); [|by injection H as _ <-].
      rewrite (ct_family _ _ _ _ _ _ _ Hc) in H.
      assert (family = CPU_FAMILY_INTEL \/ family = CPU_FAMILY_AMD) as [E|E] by (destruct family; auto); rewrite E in H.
      { by eapply update_component_other; [exact Hc| | |exact H]. }
      by eapply Hj.
    + unfold CounterMsr_getJoulesGraphic, gets, bind in H. destruct (_ && _); [|by injection H as _ <-].
      by eapply update_component_other; [exact Hc| | |exact H].
    + unfold CounterMsr_getJoulesDram, gets, bind in H. destruct (_ && _); [|by injection H as _ <-].
      by eapply update_component_other; [exact Hc| | |exact H].
Qed.

(** A reset starts a new count. *)
Lemma reset_counting w c c' t n t' : 0 <= cpuId < Z.of_nat (length (cm_cpus c)) -> 0 <= t' ->
  counting family cpuId msr e c t n -> package_counts family msr w t' -> CounterMsr_reset w c = (Ret tt, c') ->
  counting family cpuId msr e c' t' 0 /\ cm_cpus c' = cm_cpus c.
Proof.
  intros Hid Ht [Hf Hm Hu _ _] Hw H. apply reset_Ret in H as [(Ec & Ef & Em & Eu & _) Hr].
  destruct (Hr cpuId Hid) as ((v & Hv & Hl) & Hj). rewrite (package_register_family c family Hf) in Hv.
  rewrite (readEnergyCounter_spec _ _ _ _ _ _ Hw Hm) in Hv. injection Hv as <-.
  split; [|done]. split; [congruence|congruence|congruence|done|]. exists JoulesCpu_zero. by split.
Qed.

Lemma update_component_cpus L w i which get set last set_last :
  (forall v c, cm_cpus (set_last v c) = cm_cpus c) ->
  keeps (fun c => cm_cpus c = L) (update_component w i which get set last set_last).
Proof.
  intros Hl. do 3 (apply keeps_bind; [apply keeps_query|intros ?]).
  apply keeps_bind; [|intros; apply keeps_pure]. intros c r c' Hc [= _ <-]. by rewrite Hl.
Qed.
Lemma read_domain_cpus L d w i : keeps (fun c => cm_cpus c = L) (read_domain d w i).
Proof.
  assert (forall get, keeps (fun c => cm_cpus c = L) (joules_of i get)) as Hj.
  { intros get. apply keeps_bind; [apply keeps_query|]. intros j. apply keeps_pure. }
  destruct d; cbn [read_domain].
  - apply keeps_bind; [apply keeps_query|]. intros [[]|]; [..|apply keeps_pure]; by apply update_component_cpus.
  - apply keeps_bind; [apply keeps_query|]. intros []; [|apply keeps_pure].
    apply keeps_bind; [apply keeps_query|]. intros [[]|]; [by apply update_component_cpus|apply Hj..].
  - do 2 (apply keeps_bind; [apply keeps_query|intros ?]). destruct (_ && _); [by apply update_component_cpus|apply keeps_pure].
  - do 2 (apply keeps_bind; [apply keeps_query|intros ?]). destruct (_ && _); [by apply update_component_cpus|apply keeps_pure].
Qed.

Record count_inv (s : RefresherSys) : Prop := {
  ci_counting c : rs_counter s = Some c -> counting family cpuId msr e c (rs_last s) (rs_last s - rs_start s) /\
    0 <= cpuId < Z.of_nat (length (cm_cpus c));
  ci_register : package_counts family msr (rs_world s) (rs_units s);
  ci_order : 0 <= rs_start s <= rs_last s /\ rs_last s <= rs_units s < rs_last s + 2 ^ 32 /\ rs_units s - rs_start s < 2 ^ 53
}.

(** Any reading, by whatever thread. *)
Lemma count_inv_read s d i c c' r : count_inv s -> rs_counter s = Some c -> read_domain d (rs_world s) i c = (r, c') ->
  let last := last_after cpuId d i r s in
  (counting family cpuId msr e c' last (last - rs_start s) /\ 0 <= cpuId < Z.of_nat (length (cm_cpus c'))) /\
  0 <= rs_start s <= last /\ last <= rs_units s < last + 2 ^ 32.
Proof.
  intros [I1 I2 I3] Hc H. destruct (I1 c Hc) as [Hk Hid].
  rewrite (read_domain_cpus (cm_cpus c) d (rs_world s) i c r c' eq_refl H). cbn zeta.
  pose proof (read_domain_counting d (rs_world s) i c r c' (rs_last s) (rs_last s - rs_start s) (rs_units s) Hk I2
    ltac:(lia) ltac:(lia) ltac:(lia) ltac:(lia) H) as Hr.
  unfold last_after. destruct (bool_decide_reflect (d = DomCpu)) as [->|Hd]; cbn [andb] in Hr.
  - destruct (bool_decide (Z.to_nat i = Z.to_nat cpuId)).
    + destruct Hr as [-> Hr]. replace (rs_units s - rs_start s) with (rs_last s - rs_start s + (rs_units s - rs_last s)) by lia.
      split; [done|lia].
    + assert ((match r with Ret _ => rs_last s | _ => rs_last s end) = rs_last s) as -> by by destruct r. split; [done|lia].
  - assert ((match d, r with
             | DomCpu, Ret _ => if bool_decide (Z.to_nat i = Z.to_nat cpuId) then rs_units s else rs_last s
             | _, _ => rs_last s end) = rs_last s) as -> by by destruct d. split; [done|lia].
Qed.

Lemma count_inv_step s s' : count_inv s -> refresher_step family cpuId msr s s' -> count_inv s'.
Proof.
  intros I H. pose proof I as [I1 I2 I3]. destruct H; try (by split; cbn).
  - split; cbn; [done|done|lia].
  - destruct (count_inv_read s d i c c' r I H1 H2) as (Hk & Hl1 & Hl2).
    assert (count_inv (rs_with_counter c' (last_after cpuId d i r s) (rs_start s)
      (rs_with_refresher (rs_flag s) (RefresherReads l) s))) as Hi by (split; cbn; [by intros ? [= <-]|done|lia]).
    by destruct r; [|destruct Hi; split..].
  - destruct (count_inv_read s d i c c' r I H1 H2) as (Hk & Hl1 & Hl2). split; cbn; [by intros ? [= <-]|done|lia].
  - destruct (I1 c H1) as [Hk Hid].
    destruct (reset_counting (rs_world s) c c' (rs_last s) (rs_last s - rs_start s) (rs_units s) Hid ltac:(lia) Hk I2 H2) as [Hk' Ec].
    split; cbn; [|done|lia]. intros ? [= <-]. rewrite Z.sub_diag, Ec. done.
Qed.

(** C7: for both families, Intel and AMD: whatever the refresher, the users and resets have
    interleaved, at every moment a reading of the CPU returns exactly the units its package
    counter has counted since the last reset, times the unit of energy: the refresher neither
    loses nor adds energy. It is stated for the runs where (1) the register advances by less than
    [2^32] units between two readings, (2) it never holds zero at a moment when something can
    read it, where the code throws (energy-linux.cpp:515-516), (3) the units counted since the
    last reset stay below [2^53], and (4) the unit is [2^-e] joules with [e] at most 31, which is
    all that the 5 bits of the unit register can say. *)
Theorem refresher_interleaving_exact (c c' : CounterCpusLinuxMsr) (w : World) (t : Z) (s : RefresherSys) :
  counting family cpuId msr e c t 0 -> 0 <= cpuId < Z.of_nat (length (cm_cpus c)) -> package_counts family msr w t -> 0 <= t ->
  refresher_reachable family cpuId msr (refresher_start c w t) s -> rs_counter s = Some c' ->
  exists c2, CounterMsr_getJoulesCpu (rs_world s) cpuId c' = (Ret (d_scaled (rs_units s - rs_start s) (- e)), c2).
Proof.
  intros Hk Hid Hw Ht H Hc. assert (count_inv s) as [I1 I2 I3].
  { clear Hc. induction H as [|s s' Hs H IH]; [|by eapply count_inv_step].
    split; cbn; [|done|lia]. intros ? [= <-]. by rewrite Z.sub_diag. }
  destruct (I1 c' Hc) as [Hk' _].
  destruct (getJoulesCpu_counting family cpuId msr e e_range (rs_world s) c' (rs_last s) (rs_last s - rs_start s) (rs_units s))
    as (c2 & E & _); [done|done|lia..|].
  exists c2. rewrite E. do 3 f_equal. lia.
Qed.
End exact.

(** ** A register that holds zero *)

(** [readEnergyCounter] takes a register that holds zero for one that is not there: when the
    package counter has just wrapped around to zero, the reading of the refresher throws, and
    the exception leaves its thread and ends the program. *)
Lemma refresher_dies_at_zero (family : CpuFamily) (cpuId : Z) (msr : Msr) (s : RefresherSys) (c : CounterCpusLinuxMsr) (l : list (EnergyDomain * Z))
    (j : JoulesCpu) (last : option Z) :
  rs_status s = Running -> rs_refresher s = RefresherReads ((DomCpu, cpuId) :: l) -> rs_counter s = Some c ->
  cm_family c = Some family -> cm_msrs c !! Z.to_nat cpuId = Some (Some msr) ->
  cm_joulesCpus c !! Z.to_nat cpuId = Some j -> cm_lastCpu c !! Z.to_nat cpuId = Some last ->
  Msr_read (rs_world s) msr (family_register family) = Some 0 ->
  exists s', refresher_step family cpuId msr s s' /\
    rs_status s' = Terminated (runtime_error "Fatal error. Counter has been created but registers are not present.").
Proof.
  intros Hs Hr Hc Hf Hm Hj Hl Hz. eexists. split.
  - apply (rstep_read _ _ _ s DomCpu cpuId l c c (Throw (runtime_error "Fatal error. Counter has been created but registers are not present.")));
      [done..|]. cbn [read_domain]. rewrite (getJoulesCpu_family family _ _ _ Hf).
    unfold update_component, query, bind, vec_index. rewrite Hj, Hl.
    unfold CounterMsr_updateCounter, CounterMsr_readEnergyCounter.
    rewrite bool_decide_eq_true_2 by (by destruct family; repeat constructor).
    unfold vec_index. rewrite Hm. mrun. by rewrite Hz.
  - done.
Qed.

(** ** Destruction *)

(** [CounterCpusLinuxMsr::~CounterCpusLinuxMsr], src/energy/energy-linux.cpp:491-495: the
    pointers that are deleted. An element that [init] did not write is not initialised. *)
Definition CounterMsr_deletes (c : CounterCpusLinuxMsr) : outcome (list Msr) :=
  if cm_initialized c then
    map_out (seq 0 (Z.to_nat (cm_maxId c + 1))) (fun i =>
      m ← vec_index (cm_msrs c) i;
      match m with Some msr => Ret msr | None => Undef "uninitialised msr pointer" end)
  else Ret [].

(** When the identifiers of the CPUs leave a gap, the destructor reads an uninitialised pointer;
    otherwise it deletes each register file once. *)
Lemma CounterMsr_deletes_spec (c : CounterCpusLinuxMsr) : cm_initialized c = true ->
  length (cm_msrs c) = Z.to_nat (cm_maxId c + 1) ->
  (forall msrs, cm_msrs c = Some <$> msrs -> CounterMsr_deletes c = Ret msrs) /\
  (None ∈ cm_msrs c -> exists u, CounterMsr_deletes c = Undef u).
Proof.
  intros Hi Hl. unfold CounterMsr_deletes. rewrite Hi, <- Hl. clear Hi Hl. generalize (cm_msrs c) as l. clear c. intros l.
  assert (forall pre l0, l = pre ++ l0 ->
    (forall msrs, l0 = Some <$> msrs -> map_out (seq (length pre) (length l0)) (fun i => m ← vec_index l i;
       match m with Some msr => Ret msr | None => Undef "uninitialised msr pointer" end) = Ret msrs) /\
    (None ∈ l0 -> exists u, map_out (seq (length pre) (length l0)) (fun i => m ← vec_index l i;
       match m with Some msr => Ret msr | None => Undef "uninitialised msr pointer" end) = Undef u)) as H; [|by apply (H [] l)].
  intros pre l0. revert pre. induction l0 as [|x l0 IH]; intros pre El.
  { split; [intros [|]; done|]. by intros ?%elem_of_nil. }
  assert (vec_index l (length pre) = Ret x) as Hx.
  { unfold vec_index. by rewrite El, lookup_app_r, Nat.sub_diag by done. }
  destruct (IH (pre ++ [x])) as [IH1 IH2]; [by rewrite <- app_assoc|]. rewrite length_app, Nat.add_1_r in IH1, IH2.
  cbn [length seq map_out]. rewrite Hx. split.
  - intros [|m msrs] E; [done|]. injection E as -> E. cbn. by rewrite (IH1 msrs E).
  - intros Hn. destruct x as [m|]; cbn; [|by eexists]. apply elem_of_cons in Hn as [Hn|Hn]; [done|].
    destruct (IH2 Hn) as [u ->]. by exists u.
Qed.

(** ** Witnesses *)

(** The counter of one CPU, the refresher and a user that read it. *)
Definition sample_running : RefresherSys := refresher_start rapl_counter (rapl_world 4294967196) 4294967196.
Definition sample_read : RefresherSys :=
  let s := rs_with_world (rapl_world 50) (2 ^ 32 + 50) sample_running in
  rs_with_counter (snd (CounterMsr_getJoulesCpu (rapl_world 50) 0 rapl_counter)) (2 ^ 32 + 50) 4294967196 s.

Lemma sample_counts reg t : reg <> 0 -> 0 <= reg -> reg mod 2 ^ 32 = t mod 2 ^ 32 ->
  Msr_read (rapl_world reg) (mkMsr (Some (0, false))) MSR_PKG_ENERGY_STATUS_INTEL = Some reg ->
  package_counts CPU_FAMILY_INTEL (mkMsr (Some (0, false))) (rapl_world reg) t.
Proof. intros. by exists reg. Qed.

Lemma sample_read_reachable : refresher_reachable CPU_FAMILY_INTEL 0 (mkMsr (Some (0, false))) sample_running sample_read.
Proof.
  set (s1 := rs_with_world (rapl_world 50) (2 ^ 32 + 50) sample_running).
  apply rtn1_trans with s1.
  - refine (rstep_user _ 0 _ s1 DomCpu 0 rapl_counter (snd (CounterMsr_getJoulesCpu (rapl_world 50) 0 rapl_counter))
      (fst (CounterMsr_getJoulesCpu (rapl_world 50) 0 rapl_counter)) _ _ _ _); [done..|]. cbn [read_domain]. apply surjective_pairing.
  - apply rtn1_trans with sample_running; [|constructor].
    apply rstep_world; [done|apply sample_counts; vm_compute; congruence|cbn; lia|cbn; lia].
Qed.

Lemma refresher_never_reads_freed_memory_witness :
  rs_status sample_read <> ReadsFreedMemory /\ (rs_counter sample_read = None -> rs_refresher sample_read = RefresherDone).
Proof.
  apply (refresher_never_reads_freed_memory CPU_FAMILY_INTEL 0 (mkMsr (Some (0, false))) rapl_counter (rapl_world 4294967196) 4294967196).
  exact sample_read_reachable.
Defined.

Lemma refresher_interleaving_exact_witness :
  exists c c2, rs_counter sample_read = Some c /\
    CounterMsr_getJoulesCpu (rapl_world 50) 0 c = (Ret (d_scaled (2 ^ 32 + 50 - 4294967196) (- 14)), c2).
Proof.
  destruct (refresher_interleaving_exact CPU_FAMILY_INTEL 0 (mkMsr (Some (0, false))) 14 ltac:(lia) rapl_counter
    (snd (CounterMsr_getJoulesCpu (rapl_world 50) 0 rapl_counter)) (rapl_world 4294967196) 4294967196 sample_read) as [c2 E].
  - split; [vm_compute; reflexivity..|]. exists JoulesCpu_zero. split; vm_compute; reflexivity.
  - split; [lia|vm_compute; reflexivity].
  - apply sample_counts; vm_compute; congruence.
  - lia.
  - exact sample_read_reachable.
  - reflexivity.
  - eexists. exists c2. split; [reflexivity|exact E].
Defined.
