(* ===== verification/Communicator.v ===== *)
(** * Messages over a connection (src/communicator.cpp, src/communicator-tcp.cpp)

    The class [Socket] is the kernel's interface to a connected socket: what [read] and [write]
    return is up to the instance, so a [read] may deliver fewer bytes than asked.  The
    definitions follow [CommunicatorTcp] and [Communicator] on top of it; [SocketLaws] is what a
    stream socket promises, [Stream] an instance whose incoming bytes arrive in any segments.
    A message is a string of bytes, one [ascii] each. *)
From S2P Require Import Prelude UtilsText.
From Stdlib Require SpecFloat.
#[local] Set Warnings "-register-all".

(** ** Integers on the wire *)

(** [htonl] of a 32-bit integer, as the four bytes in memory: the most significant one first. *)
Definition byte_char (z : Z) : ascii := ascii_of_nat (Z.to_nat (z mod 256)).
Definition htonl_bytes (x : Z) : string :=
  let x := u32 x in
  String (byte_char (x / 2 ^ 24)) (String (byte_char (x / 2 ^ 16))
    (String (byte_char (x / 2 ^ 8)) (String (byte_char x) EmptyString))).
(** [ntohl] of four bytes in memory. *)
Fixpoint ntohl_acc (s : string) (acc : Z) : Z :=
  match s with
  | EmptyString => acc
  | String c s' => ntohl_acc s' (acc * 256 + chr c)
  end.
Definition ntohl_bytes (s : string) : Z := ntohl_acc s 0.

Definition str_len (s : string) : Z := Z.of_nat (String.length s).

(** ** The socket *)

(** The result of [read]: the bytes that were read, none at the end of the stream, or -1. *)
Inductive read_result := ReadBytes (bytes : string) | ReadFailed.

Class Socket (S : Type) := {
  so_write : string -> M S Z;
  so_read : Z -> M S read_result;
  so_errno : S -> string
}.

(** [CommunicatorTcp], include/mammut/communicator-tcp.hpp:14-36: the socket, and whether the
    lock of the channel is held. *)
Record CommunicatorTcp (S : Type) := mkTcp { tc_locked : bool; tc_socket : S }.
Arguments mkTcp {S} _ _.
Arguments tc_locked {S} _.
Arguments tc_socket {S} _.

Section communicator.
Context {S : Type} {SO : Socket S}.

Definition on_socket {A} (f : M S A) : M (CommunicatorTcp S) A := fun c =>
  let '(r, s) := f (tc_socket c) in (r, mkTcp (tc_locked c) s).

(** [CommunicatorTcp::send], src/communicator-tcp.cpp:44-48. *)
Definition CommunicatorTcp_send (message : string) : M S unit :=
  let* n := so_write message in
  if negb (n =? str_len message) then
    let* e := gets so_errno in throw (runtime_error ("CommunicatorTcp: Write failed: " +:+ e))
  else ret tt.

(** [CommunicatorTcp::receive], src/communicator-tcp.cpp:52-60: the loop, with the bytes that
    are still missing and those received. A [read] that returns takes at least one of them. *)
Fixpoint receive_loop (fuel : nat) (missing : Z) (received : string) : M S (option string) :=
  if missing <=? 0 then ret (Some received)
  else
    match fuel with
    | O => undef "out of fuel"
    | Datatypes.S fuel' =>
        let* result := so_read missing in
        match result with
        | ReadBytes EmptyString => ret None
        | ReadFailed =>
            let* e := gets so_errno in throw (runtime_error ("CommunicatorTcp: Read failed: " +:+ e))
        | ReadBytes bytes => receive_loop fuel' (missing - str_len bytes) (received +:+ bytes)
        end
    end.

(** [CommunicatorTcp::receive], src/communicator-tcp.cpp:50-62: the buffer, or [None] for
    [false]. *)
Definition CommunicatorTcp_receive (messageLength : Z) : M S (option string) :=
  receive_loop (Z.to_nat messageLength) messageLength EmptyString.

(** ** Communicator *)

Definition SIZE_UINT32 : Z := 4.

(** [Communicator::sendHeader], src/communicator.cpp:78-88. *)
Definition Communicator_sendHeader (messageId : string) (messageLength : Z) : M S unit :=
  let messageIdLen := str_len messageId in
  do* CommunicatorTcp_send (htonl_bytes messageIdLen) in
  do* (if negb (messageIdLen =? 0) then CommunicatorTcp_send messageId else ret tt) in
  CommunicatorTcp_send (htonl_bytes messageLength).

(** [Communicator::send], src/communicator.cpp:32-36. *)
Definition Communicator_send (messageId message : string) : M S unit :=
  let messageLen := str_len message in
  do* Communicator_sendHeader messageId messageLen in
  CommunicatorTcp_send message.

Definition truncated : exn := runtime_error "Communicator: Truncated receive.".

(** Bytes whose absence is an error. *)
Definition receive_all (messageLength : Z) : M S string :=
  let* r := CommunicatorTcp_receive messageLength in
  match r with Some bytes => ret bytes | None => throw truncated end.

(** [Communicator::receiveHeader], src/communicator.cpp:90-113: the identifier and the length,
    or [None] for [false]. An identifier of length zero leaves [messageId] as it was. *)
Definition Communicator_receiveHeader (messageId : string) : M S (option (string * Z)) :=
  let* inMessageIdLen := CommunicatorTcp_receive SIZE_UINT32 in
  match inMessageIdLen with
  | None => ret None
  | Some bytes =>
      let messageIdLen := ntohl_bytes bytes in
      let* messageId := (if negb (messageIdLen =? 0) then receive_all messageIdLen else ret messageId) in
      let* inMessageLength := receive_all SIZE_UINT32 in
      ret (Some (messageId, ntohl_bytes inMessageLength))
  end.

(** [Communicator::receive], src/communicator.cpp:38-50: the identifier and the message, or
    [None] for [false]. *)
Definition Communicator_receive (messageId : string) : M S (option (string * string)) :=
  let* header := Communicator_receiveHeader messageId in
  match header with
  | None => ret None
  | Some (messageId, messageLength) =>
      let* message := receive_all messageLength in ret (Some (messageId, message))
  end.
End communicator.

(** ** Messages *)

(** The value of a field of a message, by its declared type; [PbMissing] is a required field
    that was not set. *)
Inductive pb_field :=
  | PbUint32 (z : Z) | PbInt32 (z : Z) | PbUint64 (z : Z) | PbEnum (z : Z) | PbBool (b : bool)
  | PbDouble (d : SpecFloat.spec_float) | PbString (s : string)
  | PbUint32s (l : list Z)                  (* repeated uint32 *)
  | PbMessages (l : list (list pb_field))   (* repeated, of another message *)
  | PbMissing.

(** A message that protocol buffers may send: it is initialised and its integers fit. *)
Fixpoint pb_field_ok (f : pb_field) : Prop :=
  match f with
  | PbUint32 z => is_u32 z
  | PbInt32 z => is_i32 z
  | PbUint64 z => is_u64 z
  | PbEnum z => is_i32 z
  | PbUint32s l => Forall is_u32 l
  | PbMessages l => (fix all l := match l with [] => True | fs :: l' =>
                       (fix all' fs := match fs with [] => True | f :: fs' => pb_field_ok f /\ all' fs' end) fs /\ all l' end) l
  | PbMissing => False
  | PbBool _ | PbDouble _ | PbString _ => True
  end.
(** Fields of a few bytes. *)
Definition pb_scalar (f : pb_field) : bool :=
  match f with PbUint32 _ | PbInt32 _ | PbUint64 _ | PbEnum _ | PbBool _ => true | _ => false end.

(** The library that serialises the messages, given the name of their type; [None] is a
    failure. *)
Class Protobuf := {
  pb_serialize : string -> list pb_field -> option string;
  pb_parse : string -> string -> option (list pb_field)
}.
(** Its documented behaviour: parsing gives back the fields, a message takes less than 2GB, and
    a message with a few scalar fields is serialised. *)
Class ProtobufLaws {PB : Protobuf} := {
  pb_parse_serialize ty fs bytes : Forall pb_field_ok fs -> pb_serialize ty fs = Some bytes ->
    pb_parse ty bytes = Some fs;
  pb_serialize_length ty fs bytes : pb_serialize ty fs = Some bytes -> str_len bytes < 2 ^ 31;
  pb_serialize_scalars ty fs : Forall pb_field_ok fs -> forallb pb_scalar fs = true -> (length fs <= 8)%nat ->
    is_Some (pb_serialize ty fs)
}.

(** What the protocol compiler generates for the messages of a .proto file: [A] has a
    constructor per message. *)
Class ProtoMessage (A : Type) := {
  GetTypeName : A -> string;
  pb_fields : A -> list pb_field;
  pb_of_fields : string -> list pb_field -> option A;
  pb_of_fields_fields m : pb_of_fields (GetTypeName m) (pb_fields m) = Some m
}.

Section messages.
Context {A : Type} {PB : Protobuf} {PM : ProtoMessage A}.

Definition SerializeToString (message : A) : option string :=
  pb_serialize (GetTypeName message) (pb_fields message).
Definition ParseFromString (typeName bytes : string) : option A :=
  match pb_parse typeName bytes with Some fs => pb_of_fields typeName fs | None => None end.

(** [setMessageFromData], src/utils.cpp:220-228: the identifier and the message, or [None] for
    [false]. *)
Definition setMessageFromData (outData : A) : option (string * string) :=
  match SerializeToString outData with
  | None => None
  | Some tmp => Some (GetTypeName outData, tmp)
  end.

(** [getDataFromMessage], include/mammut/utils.hpp:289-295: the handlers ask for one message
    type after the other; the types have different names, so that the one that answers is the
    one whose name is the identifier. *)
Definition getDataFromMessage (messageIdIn messageIn : string) : option A :=
  ParseFromString messageIdIn messageIn.

(** [getModuleNameFromMessage], src/utils.cpp:216-218. *)
Definition getModuleNameFromMessage (message : A) : outcome string :=
  getModuleNameFromMessageId (GetTypeName message).
End messages.

(** [ScopedLock::ScopedLock] and its destructor around a computation. A channel whose lock is
    held blocks its second user. *)
Definition scoped_lock {S A} (f : M S A) : M (CommunicatorTcp S) A := fun c =>
  if tc_locked c then (Undef "the channel is locked by this thread", c)
  else let '(r, s) := f (tc_socket c) in (r, mkTcp false s).

Section remote_call.
Context {S A : Type} {SO : Socket S} {PB : Protobuf} {PM : ProtoMessage A}.

(** [Communicator::send], src/communicator.cpp:23-30. *)
Definition Communicator_sendMessage (message : A) : M S unit :=
  match SerializeToString message with
  | None => undef "the assertion on the length of the message fails"
  | Some serializedMsg =>
      do* Communicator_sendHeader (GetTypeName message) (str_len serializedMsg) in
      CommunicatorTcp_send serializedMsg
  end.

Definition connection_closed : exn :=
  runtime_error "Communicator: Server closed connection while receiving response.".

(** [Communicator::remoteCall], src/communicator.cpp:56-62: what the lock protects. *)
Definition remoteCall_exchange (request : A) : M S (string * string) :=
  do* Communicator_sendMessage request in
  let* r := Communicator_receive EmptyString in
  match r with Some m => ret m | None => throw connection_closed end.

(** [Communicator::remoteCall], src/communicator.cpp:64-75. *)
Definition remoteCall_response (responseType responseMessageId responseMessage : string) : outcome A :=
  if bool_decide (responseMessageId = EmptyString) then Throw (runtime_error responseMessage)
  else if negb (bool_decide (responseMessageId = responseType)) then
    Throw (runtime_error "remoteCall: Expected message does not match with received one.")
  else
    match ParseFromString responseType responseMessage with
    | Some m => Ret m
    | None => Throw (runtime_error "remoteCall: Impossible to parse received message.")
    end.

(** [Communicator::remoteCall], src/communicator.cpp:52-76. [responseType] is the name of the
    type of [response]. *)
Definition Communicator_remoteCall (request : A) (responseType : string) : M (CommunicatorTcp S) A :=
  let* '(responseMessageId, responseMessage) := scoped_lock (remoteCall_exchange request) in
  lift (remoteCall_response responseType responseMessageId responseMessage).
End remote_call.

(** ** Opening connections *)

(** The system calls of the constructors; an address is what [inet_pton] makes of its text. *)
Class NetworkApi (O Addr : Type) := {
  os_socket : M O Z;
  os_close : Z -> M O unit;
  os_inet_pton : string -> option Addr;
  os_connect : Z -> Addr -> Z -> M O Z;
  os_bind : Z -> Z -> M O Z;
  os_listen : Z -> Z -> M O Z;
  os_accept : Z -> M O Z;
  os_strerror : O -> string
}.

Section connections.
Context {O Addr : Type} {NA : NetworkApi O Addr}.

(** [CommunicatorTcp::CommunicatorTcp], src/communicator-tcp.cpp:16-34: the descriptor. *)
Definition CommunicatorTcp_connect (serverAddress : string) (serverPort : Z) : M O Z :=
  let* socket := os_socket in
  if socket =? -1 then throw (runtime_error "CommunicatorTcp: Impossible to open the socket.")
  else
    match os_inet_pton serverAddress with
    | None =>
        do* os_close socket in
        throw (runtime_error ("CommunicatorTcp: Impossible to convert the address: " +:+ serverAddress))
    | Some addr =>
        let* r := os_connect socket addr serverPort in
        if r <? 0 then
          do* os_close socket in
          throw (runtime_error "CommunicatorTcp: Impossible to connect to the server.")
        else ret socket
    end.

(** [ServerTcp::ServerTcp], src/communicator-tcp.cpp:68-89. *)
Definition ServerTcp_new (listeningPort : Z) : M O Z :=
  let* listenSocket := os_socket in
  if listenSocket =? -1 then throw (runtime_error "ServerTcp: Impossible to open the listen socket.")
  else
    let* r := os_bind listenSocket listeningPort in
    if r =? -1 then
      do* os_close listenSocket in throw (runtime_error "ServerTcp: Impossible to bind the socket.")
    else
      let* r := os_listen listenSocket 10 in
      if r =? -1 then
        do* os_close listenSocket in throw (runtime_error "ServerTcp: Impossible to listen on the socket.")
      else ret listenSocket.

(** [ServerTcp::accept], src/communicator-tcp.cpp:95-101. *)
Definition ServerTcp_accept (listenSocket : Z) : M O Z :=
  let* socket := os_accept listenSocket in
  if socket =? -1 then
    let* e := gets os_strerror in
    throw (runtime_error ("ServerTcp: Impossible to accept on the socket: " +:+ e))
  else ret socket.

(** [CommunicatorTcp::CommunicatorTcp], src/communicator-tcp.cpp:36-38. *)
Definition CommunicatorTcp_accepted (serverTcp : Z) : M O Z := ServerTcp_accept serverTcp.
(** [CommunicatorTcp::~CommunicatorTcp], src/communicator-tcp.cpp:40-42. *)
Definition CommunicatorTcp_delete (socket : Z) : M O unit := os_close socket.
(** [ServerTcp::~ServerTcp], src/communicator-tcp.cpp:91-93. *)
Definition ServerTcp_delete (listenSocket : Z) : M O unit := os_close listenSocket.
End connections.

(** * A stream of bytes *)

(** The bytes that are to come, in the segments that single reads deliver, then the end of the
    stream; the bytes written so far. *)
Record Stream := mkStream { st_in : list string; st_out : string }.

Fixpoint segments (l : list string) : string :=
  match l with [] => EmptyString | s :: l' => s +:+ segments l' end.

(** A [read] of the next segment, at most [n] bytes of it. *)
Definition read_segments (n : Z) (l : list string) : read_result * list string :=
  match l with
  | [] => (ReadBytes EmptyString, [])
  | s :: l' =>
      if str_len s <=? n then (ReadBytes s, l')
      else (ReadBytes (str_take (Z.to_nat n) s), str_drop (Z.to_nat n) s :: l')
  end.

#[export] Instance stream_socket : Socket Stream := {|
  so_write bytes s := (Ret (str_len bytes), mkStream (st_in s) (st_out s +:+ bytes));
  so_read n s := let '(r, l) := read_segments n (st_in s) in (Ret r, mkStream l (st_out s));
  so_errno _ := EmptyString
|}.

(** The message as it travels. *)
Definition frame (messageId message : string) : string :=
  htonl_bytes (str_len messageId) +:+ (messageId +:+ (htonl_bytes (str_len message) +:+ message)).

(** ** Bytes *)

Lemma str_len_app a b : str_len (a +:+ b) = str_len a + str_len b.
Proof.
  unfold str_len. rewrite <- Nat2Z.inj_add. f_equal.
  induction a as [|c a IH]; simpl; [done|by rewrite IH].
Qed.
Lemma str_len_pos s : 0 <= str_len s.
Proof. unfold str_len. lia. Qed.
Lemma str_len_zero s : str_len s = 0 -> s = EmptyString.
Proof. destruct s; [done|]. unfold str_len. simpl. lia. Qed.
#[export] Hint Rewrite str_len_app : mammut.

Lemma byte_char_chr z : chr (byte_char z) = z mod 256.
Proof.
  unfold byte_char. pose proof (Z.mod_pos_bound z 256 ltac:(lia)).
  rewrite chr_ascii_of_nat by lia. lia.
Qed.

Lemma htonl_len x : str_len (htonl_bytes x) = 4.
Proof. done. Qed.

Lemma ntohl_htonl x : ntohl_bytes (htonl_bytes x) = u32 x.
Proof.
  unfold ntohl_bytes, htonl_bytes. pose proof (u32_range x) as H. unfold is_u32 in H.
  set (y := u32 x) in *. clearbody y. cbn [ntohl_acc]. rewrite !byte_char_chr.
  change (2 ^ 24) with 16777216. change (2 ^ 16) with 65536. change (2 ^ 8) with 256.
  Z.div_mod_to_equations. lia.
Qed.

Lemma take_drop_app n s : (n <= String.length s)%nat ->
  s = str_take n s +:+ str_drop n s /\ String.length (str_take n s) = n.
Proof.
  revert s. induction n as [|n IH]; intros s H; [by destruct s|].
  destruct s as [|c s]; simpl in *; [lia|]. destruct (IH s ltac:(lia)) as [E L].
  split; [by rewrite <- E|by rewrite L].
Qed.

(** * What a stream socket promises *)

(** [sl_pending s b]: the bytes [b] are to come; [sl_same] relates states that differ in them
    only.  Writing appends. *)
Class SocketLaws (S : Type) {SO : Socket S} := {
  sl_pending : S -> string -> Prop;
  sl_same : S -> S -> Prop;
  sl_closed : S -> Prop;
  sl_writable : S -> Prop;
  sl_append : string -> S -> S;
  sl_refl s : sl_same s s;
  sl_trans s1 s2 s3 : sl_same s1 s2 -> sl_same s2 s3 -> sl_same s1 s3;
  sl_same_closed s s' : sl_same s s' -> sl_closed s -> sl_closed s';
  sl_read n s b : 0 < n -> sl_pending s b -> b <> EmptyString ->
    exists p q s', so_read n s = (Ret (ReadBytes p), s') /\ p <> EmptyString /\ b = p +:+ q /\
      str_len p <= n /\ sl_pending s' q /\ sl_same s s';
  sl_eof n s : 0 < n -> sl_pending s EmptyString -> sl_closed s -> so_read n s = (Ret (ReadBytes EmptyString), s);
  sl_write b s : sl_writable s -> so_write b s = (Ret (str_len b), sl_append b s);
  sl_append_writable b s : sl_writable s -> sl_writable (sl_append b s);
  sl_append_app a b s : sl_append b (sl_append a s) = sl_append (a +:+ b) s
}.

Lemma read_segments_spec n l : 0 < n -> Forall (fun s => s <> EmptyString) l -> l <> [] ->
  exists p l', read_segments n l = (ReadBytes p, l') /\ p <> EmptyString /\ segments l = p +:+ segments l' /\
    str_len p <= n /\ Forall (fun s => s <> EmptyString) l'.
Proof.
  intros Hn Hl Hne. destruct l as [|s l]; [done|]. apply Forall_cons in Hl as [Hs Hl]. simpl.
  destruct (Z.leb_spec (str_len s) n) as [Hle|Hgt].
  { exists s, l. auto. }
  unfold str_len in Hgt. destruct (take_drop_app (Z.to_nat n) s ltac:(lia)) as [E L].
  exists (str_take (Z.to_nat n) s), (str_drop (Z.to_nat n) s :: l). split; [done|].
  split; [intros H; rewrite H in L; simpl in L; lia|]. split; [simpl; by rewrite <- str_app_assoc, <- E|].
  split; [unfold str_len; lia|]. constructor; [|done]. intros H.
  rewrite H, str_app_nil_r in E. rewrite E in Hgt. lia.
Qed.

Definition stream_pending (s : Stream) (b : string) : Prop :=
  segments (st_in s) = b /\ Forall (fun x => x <> EmptyString) (st_in s).

#[export] Program Instance stream_laws : SocketLaws Stream := {|
  sl_pending := stream_pending;
  sl_same s s' := st_out s' = st_out s;
  sl_closed _ := True;
  sl_writable _ := True;
  sl_append b s := mkStream (st_in s) (st_out s +:+ b)
|}.
Next Obligation. done. Qed.
Next Obligation. intros s1 s2 s3 H1 H2. cbn in *. congruence. Qed.
Next Obligation. done. Qed.
Next Obligation.
  intros n [l out] b Hn [<- Hf] Hne. destruct (read_segments_spec n l Hn Hf) as (p & l' & E & Hp & Hb & Hlen & Hf').
  { intros ->. done. }
  exists p, (segments l'), (mkStream l' out). simpl. simpl in E. rewrite E. done.
Qed.
Next Obligation.
  intros n [l out] Hn [Hb Hf] _. simpl. destruct l as [|s l]; [done|]. apply Forall_cons in Hf as [Hs _].
  simpl in Hb. by destruct s.
Qed.
Next Obligation. done. Qed.
Next Obligation. done. Qed.
Next Obligation. intros a b s. simpl. by rewrite str_app_assoc. Qed.

Section laws.
Context {S : Type} {SO : Socket S} {SL : SocketLaws S}.

Lemma tcp_send b s : sl_writable s -> CommunicatorTcp_send b s = (Ret tt, sl_append b s).
Proof.
  intros Hw. unfold CommunicatorTcp_send. rewrite (bind_Ret _ _ _ _ _ (sl_write b s Hw)).
  by rewrite Z.eqb_refl.
Qed.

Lemma sendHeader_append id n s : sl_writable s ->
  Communicator_sendHeader id n s =
    (Ret tt, sl_append (htonl_bytes (str_len id) +:+ (id +:+ htonl_bytes n)) s).
Proof.
  intros Hw. unfold Communicator_sendHeader. rewrite (bind_Ret _ _ _ _ _ (tcp_send _ _ Hw)).
  pose proof (sl_append_writable (htonl_bytes (str_len id)) s Hw) as Hw1.
  destruct (Z.eqb_spec (str_len id) 0) as [E|E]; cbn [negb].
  - apply str_len_zero in E as ->. rewrite ret_bind. rewrite tcp_send by done. by rewrite sl_append_app.
  - rewrite (bind_Ret _ _ _ _ _ (tcp_send _ _ Hw1)). rewrite tcp_send by by apply sl_append_writable.
    by rewrite !sl_append_app.
Qed.

(** Sending appends the frame. *)
Lemma send_frame id m s : sl_writable s -> Communicator_send id m s = (Ret tt, sl_append (frame id m) s).
Proof.
  intros Hw. unfold Communicator_send. rewrite (bind_Ret _ _ _ _ _ (sendHeader_append id (str_len m) s Hw)).
  rewrite tcp_send by by apply sl_append_writable. rewrite sl_append_app. unfold frame. by rewrite !str_app_assoc.
Qed.

Lemma receive_loop_exact fuel b : forall s rest acc, (String.length b <= fuel)%nat -> sl_pending s (b +:+ rest) ->
  exists s', receive_loop fuel (str_len b) acc s = (Ret (Some (acc +:+ b)), s') /\ sl_pending s' rest /\ sl_same s s'.
Proof.
  revert b. induction fuel as [|fuel IH]; intros b s rest acc Hf Hp.
  { destruct b; [|simpl in Hf; lia]. exists s. rewrite str_app_nil_r. split; [done|]. split; [done|]. apply sl_refl. }
  destruct b as [|c b0]; [exists s; rewrite str_app_nil_r; split; [done|]; split; [done|]; apply sl_refl|].
  set (b := String c b0) in *. assert (0 < str_len b) as Hpos by (unfold str_len, b; simpl; lia).
  cbn [receive_loop]. destruct (Z.leb_spec (str_len b) 0); [lia|].
  destruct (sl_read (str_len b) s (b +:+ rest) Hpos Hp ltac:(done)) as (p & q & s1 & E & Hpne & Hb & Hlen & Hp1 & Hs1).
  rewrite (bind_Ret _ _ _ _ _ E).
  assert (exists b', b = p +:+ b' /\ q = b' +:+ rest) as (b' & -> & ->).
  { clear -Hb Hlen. unfold b in *. clear b. revert Hb Hlen. generalize (String c b0) as b. intros b.
    revert b. induction p as [|x p IHp]; intros b Hb Hlen; simpl in Hb.
    - by exists b.
    - destruct b as [|y b]; [unfold str_len in Hlen; simpl in Hlen; lia|]. simpl in Hb. injection Hb as -> Hb.
      destruct (IHp b Hb) as (b' & -> & ->); [unfold str_len in *; simpl in Hlen; lia|]. by exists b'. }
  destruct p as [|y p]; [done|]. rewrite str_len_app.
  replace (str_len (String y p) + str_len b' - str_len (String y p)) with (str_len b') by lia.
  destruct (IH b' s1 rest (acc +:+ String y p)) as (s2 & E2 & Hp2 & Hs2); [|done|].
  { pose proof (str_len_app (String y p) b') as HL. unfold str_len in HL. cbn in HL. cbn in Hf. lia. }
  exists s2. rewrite E2. rewrite str_app_assoc. split; [done|]. split; [done|]. by eapply sl_trans.
Qed.

Lemma receive_exact b rest s : sl_pending s (b +:+ rest) ->
  exists s', CommunicatorTcp_receive (str_len b) s = (Ret (Some b), s') /\ sl_pending s' rest /\ sl_same s s'.
Proof.
  intros Hp. apply (receive_loop_exact (Z.to_nat (str_len b)) b s rest EmptyString); [unfold str_len; lia|done].
Qed.

Lemma receive_all_exact b rest s : sl_pending s (b +:+ rest) ->
  exists s', receive_all (str_len b) s = (Ret b, s') /\ sl_pending s' rest /\ sl_same s s'.
Proof.
  intros Hp. destruct (receive_exact b rest s Hp) as (s' & E & H). exists s'. unfold receive_all.
  by rewrite (bind_Ret _ _ _ _ _ E).
Qed.

(** Receiving takes one frame off the stream. *)
Lemma receive_frame id m rest s : str_len id < 2 ^ 32 -> str_len m < 2 ^ 32 ->
  sl_pending s (frame id m +:+ rest) ->
  exists s', Communicator_receive EmptyString s = (Ret (Some (id, m)), s') /\ sl_pending s' rest /\ sl_same s s'.
Proof.
  intros Hid Hm Hp. unfold frame in Hp. rewrite !str_app_assoc in Hp.
  pose proof (str_len_pos id). pose proof (str_len_pos m).
  destruct (receive_exact _ _ _ Hp) as (s1 & E1 & Hp1 & Hs1). rewrite htonl_len in E1.
  assert (exists s2, (if negb (str_len id =? 0) then receive_all (str_len id) else ret EmptyString) s1 = (Ret id, s2) /\
    sl_pending s2 (htonl_bytes (str_len m) +:+ (m +:+ rest)) /\ sl_same s1 s2) as (s2 & E2 & Hp2 & Hs2).
  { destruct (Z.eqb_spec (str_len id) 0) as [E|E]; cbn [negb].
    - apply str_len_zero in E as ->. exists s1. split; [done|]. split; [done|]. apply sl_refl.
    - by apply receive_all_exact. }
  destruct (receive_all_exact _ _ _ Hp2) as (s3 & E3 & Hp3 & Hs3). rewrite htonl_len in E3.
  destruct (receive_all_exact _ _ _ Hp3) as (s4 & E4 & Hp4 & Hs4).
  exists s4. split; [|split; [done|]].
  - unfold Communicator_receive, Communicator_receiveHeader. rewrite bind_assoc, (bind_Ret _ _ _ _ _ E1).
    rewrite ntohl_htonl, u32_id by (unfold is_u32; lia). rewrite !bind_assoc, (bind_Ret _ _ _ _ _ E2).
    rewrite !bind_assoc, (bind_Ret _ _ _ _ _ E3), ret_bind. rewrite ntohl_htonl, u32_id by (unfold is_u32; lia).
    by rewrite (bind_Ret _ _ _ _ _ E4).
  - eauto using sl_trans.
Qed.

(** The stream ends before the bytes that are wanted. *)
Lemma receive_loop_short fuel : forall b s n acc, (Z.to_nat n <= fuel)%nat -> str_len b < n ->
  sl_pending s b -> sl_closed s -> exists s', receive_loop fuel n acc s = (Ret None, s').
Proof.
  induction fuel as [|fuel IH]; intros b s n acc Hf Hlen Hp Hc; pose proof (str_len_pos b).
  { lia. }
  cbn [receive_loop]. destruct (Z.leb_spec n 0); [lia|].
  destruct (decide (b = EmptyString)) as [->|Hne].
  { rewrite (bind_Ret _ _ _ _ _ (sl_eof n s ltac:(lia) Hp Hc)). by exists s. }
  destruct (sl_read n s b ltac:(lia) Hp Hne) as (x & q & s1 & E & Hpne & -> & Hl & Hp1 & Hs1).
  rewrite (bind_Ret _ _ _ _ _ E). rewrite str_len_app in Hlen.
  destruct x as [|c x]; [done|]. assert (0 < str_len (String c x)) by (unfold str_len; simpl; lia).
  apply (IH q s1); [lia|lia|done|by eapply sl_same_closed].
Qed.

Lemma receive_short b s n : str_len b < n -> sl_pending s b -> sl_closed s ->
  exists s', CommunicatorTcp_receive n s = (Ret None, s').
Proof. intros. by apply (receive_loop_short (Z.to_nat n) b s n EmptyString). Qed.

Lemma receive_all_short b s n : str_len b < n -> sl_pending s b -> sl_closed s ->
  exists s', receive_all n s = (Throw truncated, s').
Proof.
  intros Hl Hp Hc. destruct (receive_short b s n Hl Hp Hc) as (s' & E). exists s'.
  unfold receive_all. by rewrite (bind_Ret _ _ _ _ _ E).
Qed.

Lemma app_prefix b q x y : b +:+ q = x +:+ y -> str_len x <= str_len b -> exists b', b = x +:+ b' /\ b' +:+ q = y.
Proof.
  revert b. induction x as [|c x IH]; intros b E H; [by exists b|].
  destruct b as [|d b]; [unfold str_len in H; simpl in H; lia|]. simpl in E. injection E as -> E.
  destruct (IH b E) as (b' & -> & Hq); [unfold str_len in *; simpl in H; lia|]. by exists b'.
Qed.

Lemma receive_truncated id m b q s : str_len id < 2 ^ 32 -> str_len m < 2 ^ 32 -> frame id m = b +:+ q ->
  q <> EmptyString -> sl_pending s b -> sl_closed s ->
  exists s', Communicator_receive EmptyString s = (if str_len b <? 4 then Ret None else Throw truncated, s').
Proof.
  intros Hid Hm Hf Hq Hp Hc. pose proof (str_len_pos id). pose proof (str_len_pos m).
  unfold Communicator_receive, Communicator_receiveHeader. destruct (Z.ltb_spec (str_len b) 4) as [Hlt|Hge].
  { destruct (receive_short b s 4 Hlt Hp Hc) as (s' & E). exists s'. by rewrite bind_assoc, (bind_Ret _ _ _ _ _ E). }
  unfold frame in Hf. symmetry in Hf. destruct (app_prefix _ _ _ _ Hf) as (b1 & -> & Hf1); [by rewrite htonl_len|].
  destruct (receive_exact _ _ _ Hp) as (s1 & E1 & Hp1 & Hs1). rewrite htonl_len in E1.
  rewrite bind_assoc, (bind_Ret _ _ _ _ _ E1). rewrite ntohl_htonl, u32_id by (unfold is_u32; lia).
  assert (sl_closed s1) as Hc1 by by eapply sl_same_closed.
  destruct (Z.lt_ge_cases (str_len b1) (str_len id)) as [Hlt|Hge1].
  { pose proof (str_len_pos b1). destruct (Z.eqb_spec (str_len id) 0); [lia|]. cbn [negb].
    destruct (receive_all_short _ _ _ Hlt Hp1 Hc1) as (s' & E). exists s'.
    by rewrite !bind_assoc, (bind_Throw _ _ _ _ _ E). }
  destruct (app_prefix _ _ _ _ Hf1 Hge1) as (b2 & -> & Hf2).
  assert (exists s2, (if negb (str_len id =? 0) then receive_all (str_len id) else ret EmptyString) s1 = (Ret id, s2) /\
    sl_pending s2 b2 /\ sl_same s1 s2) as (s2 & E2 & Hp2 & Hs2).
  { destruct (Z.eqb_spec (str_len id) 0) as [E|E]; cbn [negb].
    - apply str_len_zero in E as ->. exists s1. split; [done|]. split; [done|]. apply sl_refl.
    - by apply receive_all_exact. }
  rewrite !bind_assoc, (bind_Ret _ _ _ _ _ E2). assert (sl_closed s2) as Hc2 by by eapply sl_same_closed.
  destruct (Z.lt_ge_cases (str_len b2) 4) as [Hlt|Hge2].
  { destruct (receive_all_short _ _ _ Hlt Hp2 Hc2) as (s' & E). exists s'.
    by rewrite !bind_assoc, (bind_Throw _ _ _ _ _ E). }
  destruct (app_prefix _ _ _ _ Hf2) as (b3 & -> & Hf3); [by rewrite htonl_len|].
  destruct (receive_all_exact _ _ _ Hp2) as (s3 & E3 & Hp3 & Hs3). rewrite htonl_len in E3.
  rewrite !bind_assoc, (bind_Ret _ _ _ _ _ E3), ret_bind. rewrite ntohl_htonl, u32_id by (unfold is_u32; lia).
  assert (str_len b3 < str_len m) as Hlt.
  { rewrite <- Hf3, str_len_app. pose proof (str_len_pos q). assert (str_len q <> 0) by by intros ?%str_len_zero. lia. }
  destruct (receive_all_short _ _ _ Hlt Hp3 ltac:(by eapply sl_same_closed)) as (s' & E). exists s'.
  by rewrite (bind_Throw _ _ _ _ _ E).
Qed.
End laws.

(** * Properties *)

(** C15: what one side sends the other receives, whatever the segments in which the kernel
    delivers the bytes: the identifier and the message come out unchanged, and the bytes of the
    next messages stay on the stream. *)
Theorem Communicator_send_receive (messageId message : string) (sender receiver : Stream) (rest : string) :
  str_len messageId < 2 ^ 32 -> str_len message < 2 ^ 32 ->
  Forall (fun s => s <> EmptyString) (st_in receiver) ->
  st_out (snd (Communicator_send messageId message (mkStream (st_in sender) EmptyString))) +:+ rest =
    segments (st_in receiver) ->
  exists segs, Communicator_receive EmptyString receiver =
      (Ret (Some (messageId, message)), mkStream segs (st_out receiver)) /\
    segments segs = rest /\ Forall (fun s => s <> EmptyString) segs.
Proof.
  intros Hid Hm Hf Hb. rewrite send_frame in Hb by exact I. simpl in Hb.
  destruct (receive_frame messageId message rest receiver Hid Hm) as (s' & E & [Hp Hf'] & Hs).
  { split; [by symmetry|done]. }
  exists (st_in s'). rewrite E. split; [|done]. cbn in Hs. rewrite <- Hs. by destruct s'.
Qed.

(** A connection that is closed inside a message: before the first four bytes have arrived
    it is taken for an orderly end, after them [receive] throws; a part of a message is never
    delivered. *)
Theorem Communicator_receive_truncated (messageId message b q : string) (receiver : Stream) :
  str_len messageId < 2 ^ 32 -> str_len message < 2 ^ 32 ->
  frame messageId message = b +:+ q -> q <> EmptyString ->
  Forall (fun s => s <> EmptyString) (st_in receiver) -> segments (st_in receiver) = b ->
  fst (Communicator_receive EmptyString receiver) =
    if str_len b <? 4 then Ret None else Throw (runtime_error "Communicator: Truncated receive.").
Proof.
  intros Hid Hm Hf Hq Hne Hb. destruct (receive_truncated messageId message b q receiver) as (s' & ->); done.
Qed.

Lemma receive_loop_fuel {S} {SO : Socket S} f1 : forall f2 n acc s, (Z.to_nat n <= f1)%nat -> (f1 <= f2)%nat ->
  receive_loop f1 n acc s = receive_loop f2 n acc s.
Proof.
  induction f1 as [|f1 IH]; intros f2 n acc s H1 H2.
  - assert (n <= 0) as Hn by lia. destruct f2; cbn [receive_loop]; by rewrite (proj2 (Z.leb_le n 0)).
  - destruct f2 as [|f2]; [lia|]. cbn [receive_loop]. destruct (Z.leb_spec n 0); [done|].
    unfold bind. destruct (so_read n s) as [[[[|c b]|]|?|?] s']; [done| |done..].
    apply IH; [|lia]. unfold str_len. simpl. lia.
Qed.

(** C16: the loop of [CommunicatorTcp::receive] ends after at most as many reads as bytes are
    wanted, on any socket, however few bytes each read delivers: the bound of the model is
    never what stops it, and the call returns or throws unless a read itself never does. *)
Theorem CommunicatorTcp_receive_terminates {S} {SO : Socket S} (n : Z) (fuel : nat) (s : S) :
  (Z.to_nat n <= fuel)%nat ->
  receive_loop fuel n EmptyString s = CommunicatorTcp_receive n s /\
  ((forall k t, 0 < k -> exists r t', so_read k t = (Ret r, t')) ->
   exists s', (exists e, CommunicatorTcp_receive n s = (Throw (runtime_error e), s')) \/
     (exists r, CommunicatorTcp_receive n s = (Ret r, s'))).
Proof.
  intros Hf. split; [by symmetry; apply receive_loop_fuel|]. intros Hr. unfold CommunicatorTcp_receive.
  assert (forall f k acc t, (Z.to_nat k <= f)%nat -> exists t', (exists e, receive_loop f k acc t = (Throw (runtime_error e), t')) \/
    (exists r, receive_loop f k acc t = (Ret r, t'))) as H; [|by apply H].
  induction f as [|f IH]; intros k acc t Hk.
  - assert (k <= 0) by lia. exists t. right. cbn [receive_loop]. rewrite (proj2 (Z.leb_le k 0)) by lia. by eexists.
  - cbn [receive_loop]. destruct (Z.leb_spec k 0); [exists t; right; by eexists|].
    destruct (Hr k t ltac:(lia)) as (r & t' & E). rewrite (bind_Ret _ _ _ _ _ E). destruct r as [[|c b]|].
    + exists t'. right. by eexists.
    + apply IH. unfold str_len. simpl. lia.
    + exists t'. left. by eexists.
Qed.

(** ** Messages *)
Section message_laws.
Context {A : Type} {PB : Protobuf} {PL : ProtobufLaws} {PM : ProtoMessage A}.

Definition well_ranged (m : A) : Prop := Forall pb_field_ok (pb_fields m).

Lemma parse_serialize (m : A) bytes : well_ranged m -> SerializeToString m = Some bytes ->
  ParseFromString (GetTypeName m) bytes = Some m.
Proof.
  intros Hw Hs. unfold ParseFromString. rewrite (pb_parse_serialize _ _ _ Hw Hs). apply pb_of_fields_fields.
Qed.

Lemma serialize_length (m : A) bytes : SerializeToString m = Some bytes -> str_len bytes < 2 ^ 32.
Proof. intros H. apply pb_serialize_length in H. lia. Qed.

(** The messages with a few scalar fields. *)
Definition scalar_message (m : A) : bool := forallb pb_scalar (pb_fields m) && (length (pb_fields m) <=? 8)%nat.

Lemma serialize_scalars (m : A) : well_ranged m -> scalar_message m = true -> is_Some (SerializeToString m).
Proof.
  intros Hw Hs. unfold scalar_message in Hs. apply andb_true_iff in Hs as [H1 H2%Nat.leb_le].
  by apply pb_serialize_scalars.
Qed.
End message_laws.

(** ** Descriptors *)

(** The system's view of a process's descriptors. *)
Class NetworkLaws (O Addr : Type) {NA : NetworkApi O Addr} := {
  nl_open : O -> gset Z;
  nl_socket o : exists fd o', os_socket o = (Ret fd, o') /\
    (fd = -1 /\ nl_open o' = nl_open o \/ fd <> -1 /\ (fd ∉ nl_open o) /\ nl_open o' = ({[fd]} ∪ nl_open o));
  nl_close fd o : exists o', os_close fd o = (Ret tt, o') /\ nl_open o' = nl_open o ∖ {[fd]};
  nl_connect fd a p o : exists r o', os_connect fd a p o = (Ret r, o') /\ nl_open o' = nl_open o;
  nl_bind fd p o : exists r o', os_bind fd p o = (Ret r, o') /\ nl_open o' = nl_open o;
  nl_listen fd n o : exists r o', os_listen fd n o = (Ret r, o') /\ nl_open o' = nl_open o
}.

Section descriptors.
Context {O Addr : Type} {NA : NetworkApi O Addr} {NL : NetworkLaws O Addr}.

(** What a constructor may do to the descriptors: it returns the one it opened, or throws and
    leaves the descriptors as they were. *)
Definition opens_or_throws (o : O) (r : outcome Z * O) : Prop :=
  (exists fd, fst r = Ret fd /\ (fd ∉ nl_open o) /\ nl_open (snd r) = ({[fd]} ∪ nl_open o)) \/
  (exists e, fst r = Throw (runtime_error e) /\ nl_open (snd r) = nl_open o).

Lemma close_throw fd e o o1 : fd ∉ nl_open o -> nl_open o1 = {[fd]} ∪ nl_open o ->
  opens_or_throws o ((do* os_close fd in throw (runtime_error e)) o1).
Proof.
  intros Hfd Ho. destruct (nl_close fd o1) as (o2 & E & Ho2). rewrite (bind_Ret _ _ _ _ _ E).
  right. exists e. split; [done|]. simpl. rewrite Ho2, Ho. set_solver.
Qed.

(** The constructors of the two ends of a connection leak no descriptor: when they return,
    the new descriptor is open and is the only one they opened; when they throw, at whatever
    step, what they opened is closed again. *)
Theorem connections_leak_nothing (serverAddress : string) (serverPort listeningPort : Z) (o : O) :
  opens_or_throws o (CommunicatorTcp_connect serverAddress serverPort o) /\
  opens_or_throws o (ServerTcp_new listeningPort o).
Proof.
  split.
  - unfold CommunicatorTcp_connect. destruct (nl_socket o) as (fd & o1 & E & [[-> Ho]|(Hne & Hin & Ho)]);
      rewrite (bind_Ret _ _ _ _ _ E).
    { right. by eexists. }
    destruct (Z.eqb_spec fd (-1)); [done|]. destruct (os_inet_pton serverAddress) as [a|]; [|by apply close_throw].
    destruct (nl_connect fd a serverPort o1) as (r & o2 & E2 & Ho2). rewrite (bind_Ret _ _ _ _ _ E2).
    destruct (r <? 0); [apply close_throw; [done|congruence]|]. left. exists fd. split; [done|]. simpl. by rewrite Ho2.
  - unfold ServerTcp_new. destruct (nl_socket o) as (fd & o1 & E & [[-> Ho]|(Hne & Hin & Ho)]);
      rewrite (bind_Ret _ _ _ _ _ E).
    { right. by eexists. }
    destruct (Z.eqb_spec fd (-1)); [done|].
    destruct (nl_bind fd listeningPort o1) as (r & o2 & E2 & Ho2). rewrite (bind_Ret _ _ _ _ _ E2).
    destruct (r =? -1); [apply close_throw; [done|congruence]|].
    destruct (nl_listen fd 10 o2) as (r' & o3 & E3 & Ho3). rewrite (bind_Ret _ _ _ _ _ E3).
    destruct (r' =? -1); [apply close_throw; [done|congruence]|]. left. exists fd. split; [done|]. simpl. by rewrite Ho3, Ho2.
Qed.
End descriptors.

(** ** Witnesses *)

(** The message ["hi"] with the identifier ["m"], then another byte, in five segments. *)
Definition nul : string := String zero EmptyString.
Definition one_byte : string := String (ascii_of_nat 1) EmptyString.
Definition two_byte : string := String (ascii_of_nat 2) EmptyString.
Definition sample_segments : list string :=
  [nul; nul +:+ nul +:+ one_byte; "m" +:+ nul; nul +:+ nul +:+ two_byte +:+ "h"; "i!"]%string.

Lemma Communicator_send_receive_witness :
  exists segs, Communicator_receive EmptyString (mkStream sample_segments EmptyString) =
    (Ret (Some ("m", "hi")%string), mkStream segs EmptyString) /\ segments segs = "!"%string /\
    Forall (fun s => s <> EmptyString) segs.
Proof.
  apply (Communicator_send_receive "m" "hi" (mkStream [] EmptyString) (mkStream sample_segments EmptyString) "!").
  - vm_compute. reflexivity.
  - vm_compute. reflexivity.
  - repeat constructor; discriminate.
  - vm_compute. reflexivity.
Defined.

Lemma Communicator_receive_truncated_witness :
  fst (Communicator_receive EmptyString (mkStream [nul; nul +:+ nul +:+ one_byte; "m"]%string EmptyString)) =
    Throw (runtime_error "Communicator: Truncated receive.").
Proof.
  apply (Communicator_receive_truncated "m" "hi" (nul +:+ nul +:+ nul +:+ one_byte +:+ "m")
    (nul +:+ nul +:+ nul +:+ two_byte +:+ "hi") (mkStream [nul; nul +:+ nul +:+ one_byte; "m"]%string EmptyString)).
  - vm_compute. reflexivity.
  - vm_compute. reflexivity.
  - vm_compute. reflexivity.
  - discriminate.
  - repeat constructor; discriminate.
  - vm_compute. reflexivity.
Defined.

Lemma CommunicatorTcp_receive_terminates_witness :
  receive_loop 9 3 EmptyString (mkStream ["a"; "bcd"]%string EmptyString) =
    CommunicatorTcp_receive 3 (mkStream ["a"; "bcd"]%string EmptyString) /\
  exists s', (exists e, CommunicatorTcp_receive 3 (mkStream ["a"; "bcd"]%string EmptyString) = (Throw (runtime_error e), s')) \/
    (exists r, CommunicatorTcp_receive 3 (mkStream ["a"; "bcd"]%string EmptyString) = (Ret r, s')).
Proof.
  destruct (CommunicatorTcp_receive_terminates 3 9 (mkStream ["a"; "bcd"]%string EmptyString)) as [E H].
  - vm_compute. lia.
  - split; [exact E|]. apply H. intros k [l o] _. unfold so_read, stream_socket. cbn [st_in st_out].
    destruct (read_segments k l) as [r l']. eauto.
Defined.

(** A system whose descriptors are the set of the open ones. *)
#[export] Instance sample_network : NetworkApi (gset Z) unit := {|
  os_socket o := let fd := fresh o in if fd =? -1 then (Ret (-1), o) else (Ret fd, {[fd]} ∪ o);
  os_close fd o := (Ret tt, o ∖ {[fd]});
  os_inet_pton address := if bool_decide (address = "127.0.0.1"%string) then Some tt else None;
  os_connect _ _ port o := (Ret (if port =? 80 then 0 else -1), o);
  os_bind _ port o := (Ret (if port =? 80 then -1 else 0), o);
  os_listen _ _ o := (Ret 0, o);
  os_accept _ o := (Ret (-1), o);
  os_strerror _ := EmptyString
|}.
#[export] Program Instance sample_network_laws : NetworkLaws (gset Z) unit := {| nl_open o := o |}.
Next Obligation.
  intros o. simpl. destruct (Z.eqb_spec (fresh o) (-1)) as [E|E].
  - exists (-1), o. split; [done|]. by left.
  - exists (fresh o), ({[fresh o]} ∪ o). split; [done|]. right. split; [done|]. split; [apply is_fresh|done].
Qed.
Next Obligation. intros fd o. by eexists. Qed.
Next Obligation. intros. by eexists _, _. Qed.
Next Obligation. intros. by eexists _, _. Qed.
Next Obligation. intros. by eexists _, _. Qed.

Lemma connections_leak_nothing_witness :
  opens_or_throws (∅ : gset Z) (CommunicatorTcp_connect "127.0.0.1" 81 ∅) /\ opens_or_throws (∅ : gset Z) (ServerTcp_new 80 ∅).
Proof. apply (connections_leak_nothing "127.0.0.1" 81 80 (∅ : gset Z)). Defined.
