(* ===== verification/ProtobufSample.v ===== *)
(** * A serialisation that satisfies the laws of the library

    Protocol buffers is a parameter of the development ([Protobuf] of Communicator.v). This
    instance writes every integer as eight bytes after a tag; it shows that the laws can hold
    and is what the witnesses of the remote modules evaluate.  It refuses the fields that no
    witness sends: doubles, and nested messages that are not three unsigned integers. *)
From S2P Require Import Prelude UtilsText Communicator.

(** ** Words of eight bytes *)
Fixpoint le_bytes (n : nat) (z : Z) : string :=
  match n with O => EmptyString | S n' => String (byte_char z) (le_bytes n' (z / 256)) end.
Fixpoint le_value (s : string) : Z :=
  match s with EmptyString => 0 | String c s' => chr c + 256 * le_value s' end.

Lemma le_value_bytes n : forall z, 0 <= z < 256 ^ Z.of_nat n -> le_value (le_bytes n z) = z.
Proof.
  induction n as [|n IH]; intros z H; simpl.
  - change (256 ^ Z.of_nat 0) with 1 in H. lia.
  - rewrite Nat2Z.inj_succ, Z.pow_succ_r in H by lia. rewrite byte_char_chr, IH.
    + pose proof (Z.div_mod z 256 ltac:(lia)). lia.
    + split; [apply Z.div_pos; lia|]. apply Z.div_lt_upper_bound; [lia|]. lia.
Qed.
Lemma le_bytes_length n z : String.length (le_bytes n z) = n.
Proof. revert z. induction n as [|n IH]; intros z; simpl; [done|]. by rewrite IH. Qed.

Fixpoint words_string (l : list Z) : string :=
  match l with [] => EmptyString | z :: l' => le_bytes 8 z +:+ words_string l' end.
Fixpoint string_words (fuel : nat) (s : string) : list Z :=
  match fuel, s with
  | O, _ | _, EmptyString => []
  | S fuel', _ => le_value (str_take 8 s) :: string_words fuel' (str_drop 8 s)
  end.

Lemma words_string_length l : (length l <= String.length (words_string l))%nat.
Proof. induction l as [|z l IH]; [done|]. cbn [words_string length le_bytes String.append String.length]. lia. Qed.

Lemma string_words_string l fuel : (length l <= fuel)%nat -> Forall is_u64 l -> string_words fuel (words_string l) = l.
Proof.
  revert fuel. induction l as [|z l IH]; intros fuel Hf Hl; [by destruct fuel|].
  destruct fuel as [|fuel]; [simpl in Hf; lia|]. apply Forall_cons in Hl as [Hz Hl]. cbn [words_string].
  pose proof (str_take_app (le_bytes 8 z) (words_string l)) as Ht.
  pose proof (str_drop_app (le_bytes 8 z) (words_string l)) as Hd. rewrite le_bytes_length in Ht, Hd.
  assert (string_words (S fuel) (le_bytes 8 z +:+ words_string l) =
    le_value (str_take 8 (le_bytes 8 z +:+ words_string l)) :: string_words fuel (str_drop 8 (le_bytes 8 z +:+ words_string l))) as -> by done.
  rewrite Ht, Hd, le_value_bytes by exact Hz. f_equal. apply IH; [simpl in Hf; lia|done].
Qed.

(** ** Fields *)
Fixpoint chars (s : string) : list Z := match s with EmptyString => [] | String c s' => chr c :: chars s' end.
Definition unchars (l : list Z) : string := foldr (fun z s => String (byte_char z) s) EmptyString l.

(** Nested messages of three unsigned integers. *)
Fixpoint triples (l : list (list pb_field)) : option (list Z) :=
  match l with
  | [] => Some []
  | [PbUint32 a; PbUint32 b; PbUint32 c] :: l' => (fun ws => a :: b :: c :: ws) <$> triples l'
  | _ => None
  end.
Fixpoint untriples (n : nat) (ws : list Z) : list (list pb_field) :=
  match n, ws with
  | S n', a :: b :: c :: ws' => [PbUint32 a; PbUint32 b; PbUint32 c] :: untriples n' ws'
  | _, _ => []
  end.

Lemma triples_inv x l ws : triples (x :: l) = Some ws ->
  exists a b c ws', x = [PbUint32 a; PbUint32 b; PbUint32 c] /\ ws = a :: b :: c :: ws' /\ triples l = Some ws'.
Proof.
  intros H. cbn [triples] in H. destruct x as [|[] [|[] [|[] []]]]; try done.
  apply fmap_Some in H as (ws' & E & ->). by repeat eexists.
Qed.
Lemma untriples_triples l ws rest : triples l = Some ws ->
  untriples (length l) (ws ++ rest) = l /\ length ws = (3 * length l)%nat.
Proof.
  revert ws. induction l as [|x l IH]; intros ws H; [by injection H as <-|].
  apply triples_inv in H as (a & b & c & ws' & -> & -> & E). destruct (IH _ E) as [IH1 IH2].
  cbn [length app untriples]. rewrite IH1. split; [done|]. lia.
Qed.

Definition field_words (f : pb_field) : option (list Z) :=
  match f with
  | PbUint32 z => Some [0; z]
  | PbUint64 z => Some [1; z]
  | PbInt32 z => Some [2; z + 2 ^ 31]
  | PbEnum z => Some [3; z + 2 ^ 31]
  | PbBool b => Some [4; if b then 1 else 0]
  | PbUint32s l => if Z.of_nat (length l) <? 2 ^ 31 then Some (5 :: Z.of_nat (length l) :: l) else None
  | PbString s => if str_len s <? 2 ^ 31 then Some (6 :: str_len s :: chars s) else None
  | PbMessages l =>
      if Z.of_nat (length l) <? 2 ^ 31 then (fun ws => 7 :: Z.of_nat (length l) :: ws) <$> triples l else None
  | PbDouble _ | PbMissing => None
  end.

Fixpoint words_fields (fuel : nat) (ws : list Z) : option (list pb_field) :=
  match fuel, ws with
  | _, [] => Some []
  | S fuel', tag :: z :: ws' =>
      if tag =? 0 then cons (PbUint32 z) <$> words_fields fuel' ws'
      else if tag =? 1 then cons (PbUint64 z) <$> words_fields fuel' ws'
      else if tag =? 2 then cons (PbInt32 (z - 2 ^ 31)) <$> words_fields fuel' ws'
      else if tag =? 3 then cons (PbEnum (z - 2 ^ 31)) <$> words_fields fuel' ws'
      else if tag =? 4 then cons (PbBool (z =? 1)) <$> words_fields fuel' ws'
      else if tag =? 5 then cons (PbUint32s (take (Z.to_nat z) ws')) <$> words_fields fuel' (drop (Z.to_nat z) ws')
      else if tag =? 6 then cons (PbString (unchars (take (Z.to_nat z) ws'))) <$> words_fields fuel' (drop (Z.to_nat z) ws')
      else if tag =? 7 then
        cons (PbMessages (untriples (Z.to_nat z) ws')) <$> words_fields fuel' (drop (3 * Z.to_nat z) ws')
      else None
  | _, _ => None
  end.

Lemma unchars_chars s : unchars (chars s) = s.
Proof.
  induction s as [|c s IH]; [done|]. unfold unchars in *. cbn [chars foldr]. rewrite IH. f_equal.
  unfold byte_char, chr. pose proof (nat_ascii_bounded c). rewrite Z.mod_small by lia.
  by rewrite Nat2Z.id, ascii_nat_embedding.
Qed.
Lemma length_chars s : Z.of_nat (length (chars s)) = str_len s.
Proof. unfold str_len. f_equal. induction s as [|c s IH]; simpl; [done|]. by rewrite IH. Qed.

Lemma chars_u64 s : Forall is_u64 (chars s).
Proof.
  induction s as [|c s IH]; simpl; constructor; [|done]. unfold is_u64, chr. pose proof (nat_ascii_bounded c). lia.
Qed.

Lemma field_words_u64 f ws : pb_field_ok f -> field_words f = Some ws -> Forall is_u64 ws.
Proof.
  unfold is_u64. intros Hok H.
  destruct f; simpl in *; try done; unfold is_u32, is_i32, is_u64 in *.
  5: { injection H as <-. repeat constructor; destruct b; lia. }
  5: { destruct (Z.ltb_spec (str_len s) (2 ^ 31)); [|done]. injection H as <-. pose proof (str_len_pos s).
       constructor; [lia|]. constructor; [lia|]. apply chars_u64. }
  5: { destruct (Z.ltb_spec (Z.of_nat (length l)) (2 ^ 31)); [|done]. injection H as <-.
       constructor; [lia|]. constructor; [lia|]. eapply Forall_impl; [exact Hok|]. simpl. lia. }
  5: { destruct (Z.ltb_spec (Z.of_nat (length l)) (2 ^ 31)); [|done]. apply fmap_Some in H as (ws' & E & ->).
       constructor; [lia|]. constructor; [lia|]. revert ws' E. clear - Hok.
       induction l as [|x l IH]; intros ws' E; [injection E as <-; constructor|].
       apply triples_inv in E as (a & b & c & ws2 & -> & -> & E). destruct Hok as [(Ha & Hb & Hc & _) Hok].
       cbn in Ha, Hb, Hc. unfold is_u32 in *.
       constructor; [lia|]. constructor; [lia|]. constructor; [lia|]. by apply IH. }
  all: injection H as <-; repeat (constructor; [lia|]); constructor.
Qed.

Lemma words_fields_step f ws rest fuel : field_words f = Some ws ->
  words_fields (S fuel) (ws ++ rest) = cons f <$> words_fields fuel rest.
Proof.
  intros H. destruct f; simpl in H; try done.
  5: { injection H as <-. by destruct b. }
  5: { destruct (_ <? _); [|done]. injection H as <-. cbn [app words_fields].
       change (6 =? 0) with false. rewrite <- length_chars, Nat2Z.id. cbn -[take drop].
       by rewrite take_app_length, drop_app_length, unchars_chars. }
  5: { destruct (_ <? _); [|done]. injection H as <-. cbn [app words_fields]. rewrite Nat2Z.id. cbn -[take drop].
       by rewrite take_app_length, drop_app_length. }
  5: { destruct (_ <? _); [|done]. apply fmap_Some in H as (ws' & E & ->).
       destruct (untriples_triples l ws' rest E) as [Hu Hl]. cbn [app words_fields].
       change (7 =? 0) with false. rewrite Nat2Z.id. cbn -[untriples drop Nat.mul]. rewrite Hu, <- Hl.
       by rewrite drop_app_length. }
  all: injection H as <-; cbn [app words_fields]; cbn -[words_fields Z.add Z.sub];
    rewrite ?Z.add_simpl_r; done.
Qed.

Lemma words_fields_words fs : forall wss fuel, mapM field_words fs = Some wss -> (length fs <= fuel)%nat ->
  words_fields fuel (concat wss) = Some fs.
Proof.
  induction fs as [|f fs IH]; intros wss fuel H Hf.
  { injection H as <-. by destruct fuel. }
  apply bind_Some in H as (ws & Hw & H). apply bind_Some in H as (wss' & Hws & H). injection H as <-.
  destruct fuel as [|fuel]; [simpl in Hf; lia|]. cbn [concat].
  rewrite (words_fields_step f ws _ fuel Hw). rewrite (IH wss' fuel Hws); [done|simpl in Hf; lia].
Qed.

(** ** The instance *)
Definition sample_serialize (ty : string) (fs : list pb_field) : option string :=
  match mapM field_words fs with
  | Some wss => let s := words_string (concat wss) in if str_len s <? 2 ^ 31 then Some s else None
  | None => None
  end.
Definition sample_parse (ty s : string) : option (list pb_field) :=
  let ws := string_words (String.length s) s in words_fields (length ws) ws.
#[export] Instance sample_protobuf : Protobuf := {| pb_serialize := sample_serialize; pb_parse := sample_parse |}.

Lemma field_words_nonempty f ws : field_words f = Some ws -> (1 <= length ws)%nat.
Proof.
  destruct f; simpl; try done; try (intros [= <-]; simpl; lia); (destruct (_ <? _); [|done]).
  3: { intros (ws' & _ & ->)%fmap_Some. simpl. lia. }
  all: intros [= <-]; simpl; lia.
Qed.

Lemma mapM_words_length fs wss : mapM field_words fs = Some wss -> (length fs <= length (concat wss))%nat.
Proof.
  revert wss. induction fs as [|f fs IH]; intros wss H; simpl; [lia|].
  apply bind_Some in H as (ws & Hw & H). apply bind_Some in H as (wss' & Hws & H). injection H as <-.
  cbn [concat]. rewrite length_app. pose proof (field_words_nonempty _ _ Hw). specialize (IH _ Hws). lia.
Qed.

Lemma mapM_words_u64 fs wss : Forall pb_field_ok fs -> mapM field_words fs = Some wss -> Forall is_u64 (concat wss).
Proof.
  intros Hok. revert wss. induction Hok as [|f fs Hf Hfs IH]; intros wss H.
  { injection H as <-. constructor. }
  apply bind_Some in H as (ws & Hw & H). apply bind_Some in H as (wss' & Hws & H). injection H as <-.
  cbn [concat]. apply Forall_app. split; [by eapply field_words_u64|by apply IH].
Qed.

Lemma scalar_words f : pb_scalar f = true -> exists a b, field_words f = Some [a; b].
Proof. destruct f; simpl; try done; intros _; eauto. Qed.

Lemma words_string_len l : str_len (words_string l) = 8 * Z.of_nat (length l).
Proof.
  induction l as [|z l IH]; [done|]. cbn [words_string length]. rewrite str_len_app, IH.
  unfold str_len. rewrite le_bytes_length. lia.
Qed.

#[export] Program Instance sample_protobuf_laws : ProtobufLaws.
Next Obligation.
  intros ty fs bytes Hok H. change (sample_serialize ty fs = Some bytes) in H. change (sample_parse ty bytes = Some fs).
  unfold sample_serialize in H. destruct (mapM field_words fs) as [wss|] eqn:E; [|done].
  destruct (_ <? _); [|done]. injection H as <-. unfold sample_parse.
  rewrite string_words_string; [|apply words_string_length|by eapply mapM_words_u64].
  apply words_fields_words; [done|by apply mapM_words_length].
Qed.
Next Obligation.
  intros ty fs bytes H. change (sample_serialize ty fs = Some bytes) in H. unfold sample_serialize in H.
  destruct (mapM field_words fs) as [wss|]; [|done].
  destruct (Z.ltb_spec (str_len (words_string (concat wss))) (2 ^ 31)); [|done]. by injection H as <-.
Qed.
Next Obligation.
  intros ty fs _ Hs Hl. change (is_Some (sample_serialize ty fs)). unfold sample_serialize.
  assert (exists wss, mapM field_words fs = Some wss /\ length (concat wss) = (2 * length fs)%nat) as (wss & E & Hlen).
  { clear Hl. induction fs as [|f fs IH]; [by exists []|]. simpl in Hs. apply andb_true_iff in Hs as [Hf Hs].
    destruct (IH Hs) as (wss & E & Hlen). destruct (scalar_words f Hf) as (a & b & Ef).
    exists ([a; b] :: wss). split; [cbn [mapM]; rewrite Ef, E; done|]. cbn [concat]. rewrite length_app, Hlen. simpl. lia. }
  rewrite E. rewrite words_string_len, Hlen. destruct (Z.ltb_spec (8 * Z.of_nat (2 * length fs)) (2 ^ 31)); [by eexists|lia].
Qed.
