(* ===== verification/Server.v ===== *)
(** * The server (src/mammut-server.cpp)

    [Servant_step] is one iteration of [Servant::run] over any socket: it receives a request,
    has the module of the request process it, and sends the response or the text of the
    exception.  [net_socket] connects a client to a servant: when the client reads and nothing
    is on its way, the servant takes a step on what the client wrote.  On such a connection
    [relay_call] shows that [Communicator::remoteCall] does what the module does: it is the
    interface that the remote classes are verified against. *)
From S2P Require Import Prelude UtilsText Communicator.

(** ** Modules *)

(** [ModulesMask], src/mammut-server.cpp:40-44. *)
Record ModulesMask := mkModulesMask { mm_cpufreq : Z; mm_topology : Z; mm_energy : Z }.

(** [checkDependencies], src/mammut-server.cpp:175-187. *)
Definition checkDependencies (mm : ModulesMask) : bool :=
  if negb (mm_cpufreq mm =? 0) && (mm_topology mm =? 0) then false
  else if negb (mm_energy mm =? 0) && (mm_topology mm =? 0) then false
  else true.

(** [memset(&mm, 1, sizeof(mm))]: every byte of the three integers is 1. *)
Definition mask_all : ModulesMask := mkModulesMask 16843009 16843009 16843009.

(** [main], src/mammut-server.cpp:233-239: the modules that the options ask for, or [None] when
    the server does not start. *)
Definition server_mask (all : Z) (mm : ModulesMask) : option ModulesMask :=
  let mm := if negb (all =? 0) then mask_all else mm in
  if checkDependencies mm then Some mm else None.

(** [Module::processMessage], include/mammut/module.hpp:38-41, on the state [S] of the
    machine: the identifier and the text of the response, or [None] for [false]. *)
Definition Module (S : Type) : Type := string -> string -> M S (option (string * string)).

(** [_moduleDispatcher]: [Some None] is an entry with a null pointer. *)
Definition Dispatcher (S : Type) : Type := gmap string (option (Module S)).

(** The C string of an [exc.what()]: it ends at the first null character. *)
Fixpoint c_str (s : string) : string :=
  match s with
  | EmptyString => EmptyString
  | String c s' => if bool_decide (c = zero) then EmptyString else String c (c_str s')
  end.

(** [MAMMUT_SERVER_CREATE_MODULE], src/mammut-server.cpp:46-52. A creation that throws leaves the
    entry that [operator[]] has made. *)
Definition create_module {S V} (moduleName : string) (local : M S V) (d : gmap string (option V)) :
    M S (gmap string (option V)) :=
  fun s => match local s with
           | (Ret m, s') => (Ret (<[moduleName := Some m]> d), s')
           | (Throw _, s') => (Ret (<[moduleName := None]> d), s')
           | (Undef u, s') => (Undef u, s')
           end.

(** ** Servants *)

(** [Servant], src/mammut-server.cpp:63-67: the machine and the communicator. *)
Record Servant (S So : Type) := mkServant { sv_machine : S; sv_communicator : CommunicatorTcp So }.
Arguments mkServant {S So} _ _.
Arguments sv_machine {S So} _.
Arguments sv_communicator {S So} _.

Section servant.
Context {S So : Type} {SO : Socket So}.

Definition on_machine {A} (f : M S A) : M (Servant S So) A := fun sv =>
  let '(r, s) := f (sv_machine sv) in (r, mkServant s (sv_communicator sv)).
Definition on_communicator {A} (f : M (CommunicatorTcp So) A) : M (Servant S So) A := fun sv =>
  let '(r, c) := f (sv_communicator sv) in (r, mkServant (sv_machine sv) c).

(** [Servant::Servant], src/mammut-server.cpp:69-86: the modules. *)
Definition Servant_modules {V} (cpufreq topology energy : string * M S V) (mm : ModulesMask) :
    M S (gmap string (option V)) :=
  let* d := (if negb (mm_cpufreq mm =? 0) then create_module (fst cpufreq) (snd cpufreq) ∅ else ret ∅) in
  let* d := (if negb (mm_topology mm =? 0) then create_module (fst topology) (snd topology) d else ret d) in
  if negb (mm_energy mm =? 0) then create_module (fst energy) (snd energy) d else ret d.

Variable dispatcher : Dispatcher S.

(** [Servant::run], src/mammut-server.cpp:113-123. *)
Definition process_request (messageIdIn messageIn : string) : M S (string * string) :=
  let* moduleId := lift (getModuleNameFromMessageId messageIdIn) in
  match (dispatcher !! moduleId : option (option (Module S))) with
  | None | Some None => throw (runtime_error ("Server: Module " +:+ moduleId +:+ " not activated."))
  | Some (Some processMessage) =>
      let* r := processMessage messageIdIn messageIn in
      match r with
      | None => throw (runtime_error ("Server: Error while processing message " +:+ messageIdIn +:+ "."))
      | Some response => ret response
      end
  end.

(** [Servant::run], src/mammut-server.cpp:107-125: the [try] block; [false] when the connection
    was closed. *)
Definition Servant_serve : M (Servant S So) bool :=
  let* received := on_communicator (on_socket (Communicator_receive EmptyString)) in
  match received with
  | None => ret false
  | Some (messageIdIn, messageIn) =>
      let* '(messageIdOut, messageOut) := on_machine (process_request messageIdIn messageIn) in
      do* on_communicator (on_socket (Communicator_send messageIdOut messageOut)) in
      ret true
  end.

(** [Servant::run], src/mammut-server.cpp:127-133: sending the exception. *)
Definition send_exception (what : string) : M (Servant S So) bool := fun sv =>
  match on_communicator (on_socket (Communicator_send EmptyString (c_str what))) sv with
  | (Ret _, sv') => (Ret true, sv')
  | (Throw _, sv') => (Ret false, sv')
  | (Undef u, sv') => (Undef u, sv')
  end.

(** The lock of a [utils::ScopedLock] that is a temporary: taken and released at once. *)
Definition lock_unlock : M (CommunicatorTcp So) unit := fun c =>
  if tc_locked c then (Undef "the channel is locked by this thread", c) else (Ret tt, c).

(** [Servant::run], src/mammut-server.cpp:100-137: one iteration; [false] is the [return]. *)
Definition Servant_step : M (Servant S So) bool :=
  do* on_communicator lock_unlock in
  fun sv =>
    match Servant_serve sv with
    | (Throw (runtime_error what), sv') => send_exception what sv'
    | (Throw _, sv') => (Ret false, sv')
    | r => r
    end.

(** [Servant::run], src/mammut-server.cpp:95-139: at most [fuel] iterations; [true] when it has
    not returned by then. *)
Fixpoint Servant_run (fuel : nat) : M (Servant S So) bool :=
  match fuel with
  | O => ret true
  | Datatypes.S fuel' => let* go := Servant_step in if (go : bool) then Servant_run fuel' else ret false
  end.
End servant.

(** [ServantsQueueCleaner::run], src/mammut-server.cpp:158-167: the servants that are still
    running, and those that are deleted. *)
Fixpoint clean_queue {V} (running : V -> bool) (servants : list V) : list V * list V :=
  match servants with
  | [] => ([], [])
  | v :: servants' =>
      let '(kept, deleted) := clean_queue running servants' in
      if negb (running v) then (kept, v :: deleted) else (v :: kept, deleted)
  end.

(** ** A client connected to a servant *)

(** The client's socket: the machine of the servant, whether the servant still runs, what it
    has sent and the client has not read, what the client has sent and it has not read. *)
Record Net (S : Type) := mkNet { nt_machine : S; nt_alive : bool; nt_inbox : list string; nt_outbox : string }.
Arguments mkNet {S} _ _ _ _.
Arguments nt_machine {S} _.
Arguments nt_alive {S} _.
Arguments nt_inbox {S} _.
Arguments nt_outbox {S} _.

Section net.
Context {S : Type}.
Variable dispatcher : Dispatcher S.
(** How the network cuts the bytes of one side into the segments the other reads. *)
Variable cut : string -> list string.

(** The servant takes a step on what the client has sent. *)
Definition net_serve : M (Net S) unit := fun n =>
  match Servant_step dispatcher (mkServant (nt_machine n) (mkTcp false (mkStream (cut (nt_outbox n)) EmptyString))) with
  | (Ret go, sv) =>
      let st := tc_socket (sv_communicator sv) in
      (Ret tt, mkNet (sv_machine sv) go (cut (st_out st)) (segments (st_in st)))
  | (Throw _, sv) => (Ret tt, mkNet (sv_machine sv) false [] EmptyString)
  | (Undef u, sv) => (Undef u, mkNet (sv_machine sv) false [] EmptyString)
  end.

Definition net_take (k : Z) : M (Net S) read_result := fun n =>
  let '(r, l) := read_segments k (nt_inbox n) in (Ret r, mkNet (nt_machine n) (nt_alive n) l (nt_outbox n)).

Definition net_read (k : Z) : M (Net S) read_result :=
  let* waiting := gets (fun n => nt_alive n && bool_decide (nt_inbox n = [])) in
  if (waiting : bool) then
    let* nothing := gets (fun n => bool_decide (nt_outbox n = EmptyString)) in
    if (nothing : bool) then undef "the read blocks for ever" else
    do* net_serve in
    let* silent := gets (fun n => nt_alive n && bool_decide (nt_inbox n = [])) in
    if (silent : bool) then undef "the read blocks for ever" else net_take k
  else net_take k.

#[export] Instance net_socket : Socket (Net S) := {|
  so_write bytes n :=
    if nt_alive n then (Ret (str_len bytes), mkNet (nt_machine n) true (nt_inbox n) (nt_outbox n +:+ bytes))
    else (Ret (-1), n);
  so_read := net_read;
  so_errno _ := EmptyString
|}.
End net.

(** An idle connection to a servant whose machine is [s]; a connection whose servant is gone. *)
Definition linked {S} (s : S) : CommunicatorTcp (Net S) := mkTcp false (mkNet s true [] EmptyString).
Definition dead {S} (s : S) : CommunicatorTcp (Net S) := mkTcp false (mkNet s false [] EmptyString).

(** The getter of a response; a response is of the type that [remoteCall] was given. *)
Definition get_field {A B} (dec : A -> option B) (r : A) : outcome B :=
  match dec r with Some b => Ret b | None => Undef "a message of another type" end.
(** * Properties *)

(** ** One request *)
Section requests.
Context {S : Type}.
Variable dispatcher : Dispatcher S.

(** What the servant answers to a request: the response or the text of an exception; any other
    exception ends it. *)
Definition answer (request : string * string) : M S (string * string) := fun s =>
  match process_request dispatcher (fst request) (snd request) s with
  | (Throw (runtime_error what), s') => (Ret (EmptyString, c_str what), s')
  | r => r
  end.

Section step.
Context {So : Type} {SO : Socket So} {SL : SocketLaws So}.
(** Reading does not change what is written. *)
Hypothesis same_writable : forall s s' : So, sl_same s s' -> sl_writable s -> sl_writable s'.

Lemma on_communicator_socket {A} (f : M So A) m b so :
  on_communicator (on_socket f) (mkServant m (mkTcp b so)) =
    (fst (f so), mkServant (S := S) m (mkTcp b (snd (f so)))).
Proof. unfold on_communicator, on_socket. simpl. by destruct (f so). Qed.

Lemma Servant_step_answers id m rest s so :
  str_len id < 2 ^ 32 -> str_len m < 2 ^ 32 -> sl_writable so -> sl_pending so (frame id m +:+ rest) ->
  exists so', sl_pending so' rest /\ sl_same so so' /\
    Servant_step dispatcher (mkServant s (mkTcp false so)) =
      match answer (id, m) s with
      | (Ret (ido, mo), s') => (Ret true, mkServant s' (mkTcp false (sl_append (frame ido mo) so')))
      | (Throw _, s') => (Ret false, mkServant s' (mkTcp false so'))
      | (Undef u, s') => (Undef u, mkServant s' (mkTcp false so'))
      end.
Proof.
  intros Hid Hm Hw Hp. destruct (receive_frame id m rest so Hid Hm Hp) as (so' & E & Hp' & Hs).
  exists so'. split; [done|]. split; [done|]. pose proof (same_writable _ _ Hs Hw) as Hw'.
  unfold Servant_step. rewrite (bind_Ret _ _ _ tt (mkServant s (mkTcp false so))) by done.
  assert (Servant_serve dispatcher (mkServant s (mkTcp false so)) =
    match process_request dispatcher id m s with
    | (Ret (ido, mo), s') => (Ret true, mkServant s' (mkTcp false (sl_append (frame ido mo) so')))
    | (Throw e, s') => (Throw e, mkServant s' (mkTcp false so'))
    | (Undef u, s') => (Undef u, mkServant s' (mkTcp false so'))
    end) as ->.
  { unfold Servant_serve. unfold bind at 1. rewrite on_communicator_socket, E. cbn [fst snd].
    unfold bind at 1, on_machine at 1. cbn [sv_machine sv_communicator].
    destruct (process_request dispatcher id m s) as [[[ido mo]|e|u] s']; [|done..].
    unfold bind. rewrite on_communicator_socket, send_frame by done. done. }
  unfold answer. cbn [fst snd]. destruct (process_request dispatcher id m s) as [[[ido mo]|[what|what]|u] s']; [done| |done..].
  unfold send_exception. rewrite on_communicator_socket, send_frame by done. done.
Qed.
End step.

(** ** A connection *)

(** The bytes of a sequence of messages. *)
Fixpoint frames (l : list (string * string)) : string :=
  match l with [] => EmptyString | (id, m) :: l' => frame id m +:+ frames l' end.
Definition short_message (r : string * string) : Prop := str_len (fst r) < 2 ^ 32 /\ str_len (snd r) < 2 ^ 32.

Definition session (s : S) (so : Stream) : Servant S Stream := mkServant s (mkTcp false so).

Lemma stream_same_writable (a b : Stream) : sl_same a b -> sl_writable a -> sl_writable b.
Proof. done. Qed.

Lemma Servant_step_end s so : segments (st_in so) = EmptyString -> Forall (fun x => x <> EmptyString) (st_in so) ->
  exists sv, Servant_step dispatcher (session s so) = (Ret false, sv) /\ sv_machine sv = s /\
    st_out (tc_socket (sv_communicator sv)) = st_out so.
Proof.
  intros Hb Hf. assert (st_in so = []) as Hn.
  { destruct so as [[|x l] out]; [done|]. simpl in *. apply Forall_cons in Hf as [Hx _]. by destruct x. }
  destruct so as [l out]. simpl in Hn. subst l. eexists. split; [reflexivity|]. done.
Qed.

Lemma Servant_run_answers reqs : forall s rs s' so rest, Forall short_message reqs ->
  for_map reqs answer s = (Ret rs, s') -> sl_pending so (frames reqs +:+ rest) ->
  exists so', sl_pending so' rest /\ st_out so' = st_out so +:+ frames rs /\
    forall fuel, Servant_run dispatcher (length reqs + fuel) (session s so) = Servant_run dispatcher fuel (session s' so').
Proof.
  induction reqs as [|[id m] reqs IH]; intros s rs s' so rest Hs Ha Hp.
  { injection Ha as <- <-. exists so. split; [done|]. split; [by rewrite str_app_nil_r|done]. }
  apply Forall_cons in Hs as [[Hid Hm] Hs]. simpl in Ha.
  apply bind_Ret_inv in Ha as ([ido mo] & s1 & Ha0 & Ha). apply bind_Ret_inv in Ha as (rs1 & s2 & Ha1 & Ha).
  injection Ha as <- <-.
  simpl in Hp. rewrite str_app_assoc in Hp.
  destruct (Servant_step_answers stream_same_writable id m _ s so Hid Hm I Hp) as (so1 & Hp1 & Hs1 & E).
  rewrite Ha0 in E. destruct (IH s1 rs1 s2 (sl_append (frame ido mo) so1) rest Hs) as (so2 & Hp2 & Ho2 & E2); [done|done|].
  exists so2. split; [done|]. split.
  - rewrite Ho2. cbn in Hs1. simpl. by rewrite Hs1, str_app_assoc.
  - intros fuel. cbn [length plus Servant_run]. unfold session at 1. rewrite (bind_Ret _ _ _ _ _ E). apply E2.
Qed.

(** C14: a servant answers the requests of a connection one by one and in order, each with
    exactly one message, the response of the module or the text of the exception it threw, and
    returns when the connection is closed, whatever the segments in which the requests
    arrive. *)
Theorem Servant_run_in_order (reqs rs : list (string * string)) (s s' : S) (segs : list string) (fuel : nat) :
  Forall short_message reqs -> for_map reqs answer s = (Ret rs, s') ->
  segments segs = frames reqs -> Forall (fun x => x <> EmptyString) segs -> (length reqs < fuel)%nat ->
  exists sv, Servant_run dispatcher fuel (session s (mkStream segs EmptyString)) = (Ret false, sv) /\
    sv_machine sv = s' /\ st_out (tc_socket (sv_communicator sv)) = frames rs.
Proof.
  intros Hs Ha Hb Hf Hfuel.
  destruct (Servant_run_answers reqs s rs s' (mkStream segs EmptyString) EmptyString Hs Ha) as (so' & [Hp' Hf'] & Ho & E).
  { rewrite str_app_nil_r. split; done. }
  destruct (Servant_step_end s' so' Hp' Hf') as (sv & Ee & Hm & Hout).
  exists sv. replace fuel with (length reqs + Datatypes.S (fuel - length reqs - 1))%nat by lia. rewrite E. cbn [Servant_run].
  rewrite (bind_Ret _ _ _ _ _ Ee). split; [done|]. split; [done|]. by rewrite Hout, Ho.
Qed.

(** An exception that is not a [runtime_error] (a domain or a core out of range) ends the
    servant: the requests before it were answered, this one and those after it get nothing. *)
Theorem Servant_run_fatal (reqs rs reqs' : list (string * string)) (req : string * string) (e : exn)
    (s s1 s2 : S) (segs : list string) (fuel : nat) :
  Forall short_message (reqs ++ [req]) -> for_map reqs answer s = (Ret rs, s1) -> answer req s1 = (Throw e, s2) ->
  segments segs = frames (reqs ++ req :: reqs') -> Forall (fun x => x <> EmptyString) segs -> (length reqs < fuel)%nat ->
  exists sv, Servant_run dispatcher fuel (session s (mkStream segs EmptyString)) = (Ret false, sv) /\
    sv_machine sv = s2 /\ st_out (tc_socket (sv_communicator sv)) = frames rs.
Proof.
  intros Hs Ha He Hb Hf Hfuel. apply Forall_app in Hs as [Hs Hr]. apply Forall_singleton in Hr as [Hid Hm].
  assert (forall a b, frames (a ++ b) = frames a +:+ frames b) as Happ.
  { clear. induction a as [|[i m] a IH]; intros b; cbn [frames app]; [done|]. by rewrite IH, str_app_assoc. }
  destruct req as [id m]. rewrite Happ in Hb. cbn [frames] in Hb.
  destruct (Servant_run_answers reqs s rs s1 (mkStream segs EmptyString) (frame id m +:+ frames reqs') Hs Ha)
    as (so' & Hp' & Ho & E); [split; done|].
  destruct (Servant_step_answers stream_same_writable id m _ s1 so' Hid Hm I Hp') as (so2 & _ & Hs2 & E2).
  rewrite He in E2. exists (mkServant s2 (mkTcp false so2)).
  replace fuel with (length reqs + Datatypes.S (fuel - length reqs - 1))%nat by lia. rewrite E. cbn [Servant_run].
  unfold session. rewrite (bind_Ret _ _ _ _ _ E2). split; [done|]. split; [done|]. cbn in Hs2. simpl. by rewrite Hs2, Ho.
Qed.
End requests.

(** ** Remote calls *)

(** What a remote operation does, given what the operation does on the machine of the servant:
    it returns the same value ([f] is what the client makes of it) and leaves the machine the
    same; a [runtime_error] comes back with its text, any other exception ends the connection.
    A response that cannot be serialised and a text of 4GB are errors of the transport. *)
Inductive relayed {S A B} (fits : A -> Prop) (f : A -> B) : outcome A * S -> outcome B * CommunicatorTcp (Net S) -> Prop :=
  | relayed_ret a s : fits a -> relayed fits f (Ret a, s) (Ret (f a), linked s)
  | relayed_big a s what : ~ fits a -> relayed fits f (Ret a, s) (Throw (runtime_error what), linked s)
  | relayed_error what s : relayed fits f (Throw (runtime_error what), s) (Throw (runtime_error (c_str what)), linked s)
  | relayed_fatal what s : relayed fits f (Throw (out_of_range what), s) (Throw connection_closed, dead s)
  | relayed_undef u s c : relayed fits f (Undef u, s) (Undef u, c)
  | relayed_long what s r : 2 ^ 32 <= str_len (c_str what) -> relayed fits f (Throw (runtime_error what), s) r.

Lemma relayed_always {S A B} (fits : A -> Prop) (f : A -> B) (x : outcome A * S) y :
  (forall a, fst x = Ret a -> fits a) -> relayed fits f x y -> relayed (fun _ => True) f x y.
Proof. intros Hf H. destruct H; try (by constructor). exfalso. eauto. Qed.

(** What the client makes of the result. *)
Lemma relayed_then {S A B C} (fits : A -> Prop) (f : A -> B) (g : B -> C) (x : outcome A * S) m c :
  relayed fits f x (m c) -> relayed fits (fun a => g (f a)) x ((let* b := m in ret (g b)) c).
Proof.
  unfold bind. intros H. inversion H as [a s Hf E1 E2|a s what Hf E1 E2|what s E1 E2|what s E1 E2|u s c' E1 E2|];
    subst; try rewrite <- E2; by constructor.
Qed.

Lemma receive_first_read {S} {SO : Socket S} (a b : S) : so_read 4 a = so_read 4 b ->
  Communicator_receive EmptyString a = Communicator_receive EmptyString b.
Proof.
  intros H. assert (CommunicatorTcp_receive SIZE_UINT32 a = CommunicatorTcp_receive SIZE_UINT32 b) as E.
  { unfold CommunicatorTcp_receive, SIZE_UINT32. change (Z.to_nat 4) with 4%nat. cbn [receive_loop].
    change (4 <=? 0) with false. cbv iota. unfold bind. by rewrite H. }
  unfold Communicator_receive, Communicator_receiveHeader, bind. by rewrite E.
Qed.

Lemma receive_closed {S} {SO : Socket S} {SL : SocketLaws S} (s : S) :
  sl_pending s EmptyString -> sl_closed s -> CommunicatorTcp_receive SIZE_UINT32 s = (Ret None, s).
Proof.
  intros Hp Hc. unfold CommunicatorTcp_receive, SIZE_UINT32. change (Z.to_nat 4) with 4%nat. cbn [receive_loop].
  change (4 <=? 0) with false. cbv iota. by rewrite (bind_Ret _ _ _ _ _ (sl_eof 4 s eq_refl Hp Hc)).
Qed.

Section calls.
Context {S : Type}.
Variables (dispatcher : Dispatcher S) (cut : string -> list string).
Hypothesis cut_ok : forall b, segments (cut b) = b /\ Forall (fun s => s <> EmptyString) (cut b).
#[local] Instance the_net : Socket (Net S) := net_socket dispatcher cut.

Lemma cut_empty : cut EmptyString = [].
Proof.
  destruct (cut_ok EmptyString) as [H Hf]. destruct (cut EmptyString) as [|s l]; [done|].
  apply Forall_cons in Hf as [Hs _]. simpl in H. by destruct s.
Qed.
Lemma cut_nonempty b : b <> EmptyString -> cut b <> [].
Proof. intros Hb E. apply Hb. destruct (cut_ok b) as [<- _]. by rewrite E. Qed.

Lemma net_read_ready k (n : Net S) : nt_alive n && bool_decide (nt_inbox n = []) = false ->
  net_read dispatcher cut k n = net_take k n.
Proof. intros H. unfold net_read, gets, bind at 1. by rewrite H. Qed.

#[local] Program Instance net_laws : SocketLaws (Net S) := {|
  sl_pending n b := segments (nt_inbox n) = b /\ Forall (fun s => s <> EmptyString) (nt_inbox n);
  sl_same n n' := nt_machine n' = nt_machine n /\ nt_alive n' = nt_alive n /\ nt_outbox n' = nt_outbox n;
  sl_closed n := nt_alive n = false;
  sl_writable n := nt_alive n = true;
  sl_append b n := mkNet (nt_machine n) (nt_alive n) (nt_inbox n) (nt_outbox n +:+ b)
|}.
Next Obligation. done. Qed.
Next Obligation. cbn. intros ??? (?&?&?) (?&?&?). repeat split; congruence. Qed.
Next Obligation. cbn. intros ?? (?&?&?) ?. congruence. Qed.
Next Obligation.
  intros k [m al inb out] b Hk [<- Hf] Hne. simpl in *. assert (inb <> []) as Hinb by by intros ->.
  destruct (read_segments_spec k inb Hk Hf Hinb) as (p & l' & E & Hp & Hb & Hlen & Hf').
  exists p, (segments l'), (mkNet m al l' out). rewrite net_read_ready.
  - unfold net_take. simpl. rewrite E. repeat split; done.
  - simpl. rewrite bool_decide_eq_false_2 by done. by destruct al.
Qed.
Next Obligation.
  intros k [m al inb out] Hk [Hb Hf] Hc. simpl in *. subst al. rewrite net_read_ready by done.
  unfold net_take. simpl. destruct inb as [|s l]; [done|]. apply Forall_cons in Hf as [Hs _]. simpl in Hb. by destruct s.
Qed.
Next Obligation. intros b [m al inb out] H. simpl in *. by subst al. Qed.
Next Obligation. done. Qed.
Next Obligation. intros a b n. simpl. by rewrite str_app_assoc. Qed.

(** The state of the connection once the servant has taken its step. *)
Definition served (a : outcome (string * string) * S) : Net S :=
  match a with
  | (Ret (ido, mo), s') => mkNet s' true (cut (frame ido mo)) EmptyString
  | (_, s') => mkNet s' false [] EmptyString
  end.

Lemma frame_nonempty id m : frame id m <> EmptyString.
Proof. done. Qed.

Lemma net_read_served id m s : str_len id < 2 ^ 32 -> str_len m < 2 ^ 32 ->
  match answer dispatcher (id, m) s with
  | (Undef u, _) => exists n, so_read 4 (mkNet s true [] (frame id m)) = (Undef u, n)
  | a => so_read 4 (mkNet s true [] (frame id m)) = so_read 4 (served a)
  end.
Proof.
  intros Hid Hm.
  destruct (Servant_step_answers dispatcher stream_same_writable id m EmptyString s (mkStream (cut (frame id m)) EmptyString) Hid Hm I)
    as (so' & [Hb' Hf'] & Hs & E).
  { rewrite str_app_nil_r. apply cut_ok. }
  cbn in Hs. assert (st_in so' = []) as Hin.
  { destruct (st_in so') as [|x l]; [done|]. apply Forall_cons in Hf' as [Hx _]. simpl in Hb'. by destruct x. }
  assert (so_read 4 (mkNet s true [] (frame id m)) =
    (do* net_serve dispatcher cut in
     let* silent := gets (fun n => nt_alive n && bool_decide (nt_inbox n = [])) in
     if (silent : bool) then undef "the read blocks for ever" else net_take 4) (mkNet s true [] (frame id m))) as Hr by done.
  assert (forall a : Net S, nt_alive a && bool_decide (nt_inbox a = []) = false ->
    net_serve dispatcher cut (mkNet s true [] (frame id m)) = (Ret tt, a) ->
    so_read 4 (mkNet s true [] (frame id m)) = so_read 4 a) as Hready.
  { intros a Ha En. rewrite Hr, (bind_Ret _ _ _ _ _ En). unfold gets, bind at 1. rewrite Ha.
    change (so_read 4 a) with (net_read dispatcher cut 4 a). by rewrite net_read_ready. }
  unfold net_serve in *. cbn [nt_machine nt_outbox] in *. rewrite E in *.
  destruct (answer dispatcher (id, m) s) as [[[ido mo]|e|u] s'].
  - apply (Hready (mkNet s' true (cut (frame ido mo)) EmptyString)).
    + cbn [nt_alive nt_inbox]. rewrite bool_decide_eq_false_2; [done|]. apply cut_nonempty, frame_nonempty.
    + cbn [sv_machine sv_communicator tc_socket sl_append stream_laws st_in st_out]. by rewrite Hs, Hin.
  - apply Hready; [done|]. cbn. rewrite Hs, Hin. cbn. by rewrite cut_empty.
  - eexists. rewrite Hr. unfold bind at 1. cbn [nt_machine nt_outbox]. rewrite E. done.
Qed.

Context {A : Type} {PB : Protobuf} {PL : ProtobufLaws} {PM : ProtoMessage A}.

Lemma sendMessage_frame (req : A) bytes n : SerializeToString req = Some bytes -> nt_alive n = true ->
  Communicator_sendMessage req n =
    (Ret tt, mkNet (nt_machine n) true (nt_inbox n) (nt_outbox n +:+ frame (GetTypeName req) bytes)).
Proof.
  intros Hs Ha. unfold Communicator_sendMessage. rewrite Hs.
  pose proof (send_frame (GetTypeName req) bytes n Ha) as E. unfold Communicator_send in E. rewrite E. cbn. by rewrite Ha.
Qed.

(** A remote call gets what the servant answers. *)
Lemma remoteCall_answer (req : A) (ty bytes : string) (s : S) :
  str_len (GetTypeName req) < 2 ^ 32 -> SerializeToString req = Some bytes ->
  match answer dispatcher (GetTypeName req, bytes) s with
  | (Ret (ido, mo), s') => short_message (ido, mo) ->
      Communicator_remoteCall req ty (linked s) = (remoteCall_response ty ido mo, linked s')
  | (Throw _, s') => Communicator_remoteCall req ty (linked s) = (Throw connection_closed, dead s')
  | (Undef u, _) => exists c, Communicator_remoteCall req ty (linked s) = (Undef u, c)
  end.
Proof.
  intros Hid Hser. pose proof (serialize_length _ _ Hser) as Hm.
  pose proof (net_read_served (GetTypeName req) bytes s Hid Hm) as Hr.
  assert (forall r n', Communicator_receive EmptyString (mkNet s true [] (frame (GetTypeName req) bytes)) = (r, n') ->
    remoteCall_exchange req (mkNet s true [] EmptyString) =
      match r with Ret (Some m) => (Ret m, n') | Ret None => (Throw connection_closed, n') | Throw e => (Throw e, n') | Undef u => (Undef u, n') end) as Hx.
  { intros r n' E. unfold remoteCall_exchange. rewrite (bind_Ret _ _ _ _ _ (sendMessage_frame req bytes (mkNet s true [] EmptyString) Hser eq_refl)).
    unfold bind. cbn [nt_machine nt_inbox nt_outbox]. change (EmptyString +:+ frame (GetTypeName req) bytes) with (frame (GetTypeName req) bytes).
    rewrite E. by destruct r as [[[]|]| |]. }
  assert (forall m' n', remoteCall_exchange req (mkNet s true [] EmptyString) = (m', n') ->
    Communicator_remoteCall req ty (linked s) =
      match m' with Ret (ido, mo) => (remoteCall_response ty ido mo, mkTcp false n') | Throw e => (Throw e, mkTcp false n') | Undef u => (Undef u, mkTcp false n') end) as Hcall.
  { intros m' n' E. unfold Communicator_remoteCall, bind, scoped_lock. cbn [tc_locked tc_socket linked]. rewrite E.
    by destruct m' as [[]| |]. }
  destruct (answer dispatcher (GetTypeName req, bytes) s) as [[[ido mo]|e|u] s'].
  - intros [Hido Hmo]. destruct (receive_frame ido mo EmptyString (served (Ret (ido, mo), s')) Hido Hmo) as (n' & E & [Hp Hf] & (S1 & S2 & S3)).
    { rewrite str_app_nil_r. apply cut_ok. }
    rewrite <- (receive_first_read _ _ Hr) in E. rewrite (Hcall _ _ (Hx _ _ E)). f_equal. unfold linked. f_equal.
    destruct n' as [m' al inb out]. cbn in *. subst. destruct inb as [|x l]; [done|].
    apply Forall_cons in Hf as [Hx' _]. cbn in Hp. by destruct x.
  - pose proof (receive_closed (served (Throw e, s')) (conj eq_refl (Forall_nil_2 _)) eq_refl) as E.
    assert (Communicator_receive EmptyString (served (Throw e, s')) = (Ret None, served (Throw e, s'))) as E'.
    { unfold Communicator_receive, Communicator_receiveHeader. by rewrite bind_assoc, (bind_Ret _ _ _ _ _ E). }
    rewrite <- (receive_first_read _ _ Hr) in E'. by rewrite (Hcall _ _ (Hx _ _ E')).
  - destruct Hr as (n' & Hr). assert (exists n'', Communicator_receive EmptyString (mkNet s true [] (frame (GetTypeName req) bytes)) = (Undef u, n'')) as (n'' & E).
    { exists n'. unfold Communicator_receive, Communicator_receiveHeader, CommunicatorTcp_receive, SIZE_UINT32.
      change (Z.to_nat 4) with 4%nat. cbn [receive_loop]. change (4 <=? 0) with false. cbv iota.
      rewrite !bind_assoc. by rewrite (bind_Undef _ _ _ _ _ Hr). }
    rewrite (Hcall _ _ (Hx _ _ E)). by eexists.
Qed.

Lemma c_str_length w : str_len (c_str w) <= str_len w.
Proof.
  unfold str_len. induction w as [|c w IH]; simpl; [lia|]. case_bool_decide; simpl; lia.
Qed.

(** The interface of the remote classes: when a module handles the request by the operation
    [op] and answers [enc] of its result, and the client decodes that, the remote call relays
    the operation. *)
Lemma relay_call {B C} (pm : Module S) (name ty : string) (req : A) (op : M S B) (enc : B -> A)
    (dec : A -> outcome C) (f : B -> C) (s : S) :
  getModuleNameFromMessage req = Ret name -> dispatcher !! name = Some (Some pm : option (Module S)) ->
  str_len (GetTypeName req) < 1000 -> str_len ty < 1000 -> ty <> EmptyString ->
  well_ranged req -> is_Some (SerializeToString req) ->
  (forall bytes, getDataFromMessage (GetTypeName req) bytes = Some req ->
     pm (GetTypeName req) bytes s = (let* a := op in ret (setMessageFromData (enc a))) s) ->
  (forall a, fst (op s) = Ret a -> well_ranged (enc a) /\ GetTypeName (enc a) = ty /\ dec (enc a) = Ret (f a)) ->
  relayed (fun a => is_Some (SerializeToString (enc a))) f (op s)
    ((let* r := Communicator_remoteCall req ty in lift (dec r)) (linked s)).
Proof.
  intros Hname Hd Hreq Hty Hne Hw [bytes Hser] Hpm Henc.
  specialize (Hpm bytes (parse_serialize _ _ Hw Hser)).
  pose proof (remoteCall_answer req ty bytes s ltac:(lia) Hser) as Hcall.
  unfold answer in Hcall. cbn [fst snd] in Hcall. unfold process_request in Hcall.
  unfold getModuleNameFromMessage in Hname. rewrite Hname in Hcall.
  cbv beta iota delta [bind lift] in Hcall. rewrite Hd in Hcall. rewrite Hpm in Hcall. unfold bind in Hcall.
  destruct (op s) as [[a|e|u] s'] eqn:Eop.
  - destruct (Henc a eq_refl) as (Hwa & Hta & Hda). unfold ret, setMessageFromData in Hcall.
    destruct (SerializeToString (enc a)) as [out|] eqn:Ea.
    + rewrite Hta in Hcall. pose proof (serialize_length _ _ Ea).
      unfold bind, lift. rewrite Hcall by (split; simpl; lia).
      unfold remoteCall_response. rewrite bool_decide_eq_false_2 by done.
      rewrite (bool_decide_eq_true_2 (ty = ty)) by done. cbn [negb]. rewrite <- Hta.
      rewrite (parse_serialize _ _ Hwa Ea), Hda. apply relayed_ret. by rewrite Ea.
    + unfold throw in Hcall. unfold bind, lift. rewrite Hcall.
      * apply relayed_big. rewrite Ea. by intros [? ?].
      * split; [done|]. cbn [snd]. eapply Z.le_lt_trans; [apply c_str_length|].
        rewrite !str_len_app.
        change (str_len "Server: Error while processing message ") with 39. change (str_len ".") with 1. lia.
  - destruct e as [what|what].
    + destruct (Z.lt_ge_cases (str_len (c_str what)) (2 ^ 32)) as [Hl|Hl]; [|by apply relayed_long].
      unfold bind, lift. rewrite Hcall by (split; [done|exact Hl]). apply relayed_error.
    + unfold bind, lift. rewrite Hcall. apply relayed_fatal.
  - destruct Hcall as (c & Hcall). unfold bind, lift. rewrite Hcall. apply relayed_undef.
Qed.
End calls.

Lemma well_ranged_u32s l : Forall pb_field_ok [PbUint32s (map u32 l)].
Proof. constructor; [|constructor]. simpl. apply Forall_fmap, Forall_true. intros z. apply u32_range. Qed.

(** Solves that the fields of a message fit. *)
Ltac fields_ok :=
  unfold well_ranged; cbn;
  repeat (apply Forall_cons; split; [cbn; first [exact I | assumption | apply u32_range | apply i32_range | apply u64_range | unfold is_i32; lia]|]);
  apply Forall_nil_2.

(** A network that delivers all that was sent. *)
Definition whole_cut (b : string) : list string := match b with EmptyString => [] | _ => [b] end.
Lemma whole_cut_ok b : segments (whole_cut b) = b /\ Forall (fun s => s <> EmptyString) (whole_cut b).
Proof. destruct b; simpl; [by split|]. rewrite str_app_nil_r. split; [done|]. by repeat constructor. Qed.

(** ** Witnesses: a servant with a module that counts its requests and echoes them *)
Definition echo_module : Module Z := fun id m =>
  do* modify (Z.add 1) in
  if String.eqb m "far" then throw (out_of_range "vector::_M_range_check")
  else if String.eqb m "bad" then throw (runtime_error "bad") else ret (Some (id, m)).
Definition echo_dispatcher : Dispatcher Z := {[ "echo"%string := Some echo_module ]}.
Definition echo_request (m : string) : string * string := ("mammut.echo.Say"%string, m).
(** The bytes of the requests, in two segments that cut a header. *)
Definition in_two (b : string) : list string := [str_take 2 b; str_drop 2 b].

Lemma Servant_run_in_order_witness :
  exists sv, Servant_run echo_dispatcher 5 (session 0 (mkStream (in_two (frames [echo_request "one"; echo_request "bad"])) EmptyString)) =
      (Ret false, sv) /\ sv_machine sv = 2 /\
    st_out (tc_socket (sv_communicator sv)) = frames [echo_request "one"; (EmptyString, "bad"%string)].
Proof.
  apply (Servant_run_in_order echo_dispatcher [echo_request "one"; echo_request "bad"]).
  - repeat (apply Forall_cons_2; [split; vm_compute; reflexivity|]). apply Forall_nil_2.
  - vm_compute. reflexivity.
  - vm_compute. reflexivity.
  - repeat (apply Forall_cons_2; [discriminate|]). apply Forall_nil_2.
  - simpl. lia.
Defined.

Lemma Servant_run_fatal_witness :
  exists sv, Servant_run echo_dispatcher 5
      (session 0 (mkStream (in_two (frames [echo_request "one"; echo_request "far"; echo_request "two"])) EmptyString)) =
      (Ret false, sv) /\ sv_machine sv = 2 /\
    st_out (tc_socket (sv_communicator sv)) = frames [echo_request "one"].
Proof.
  apply (Servant_run_fatal echo_dispatcher [echo_request "one"] [echo_request "one"] [echo_request "two"] (echo_request "far")
    (out_of_range "vector::_M_range_check") 0 1 2).
  - repeat (apply Forall_cons_2; [split; vm_compute; reflexivity|]). apply Forall_nil_2.
  - vm_compute. reflexivity.
  - vm_compute. reflexivity.
  - vm_compute. reflexivity.
  - repeat (apply Forall_cons_2; [discriminate|]). apply Forall_nil_2.
  - simpl. lia.
Defined.
