(* ===== verification/ServerMain.v ===== *)
(** * The server's [main] (src/mammut-server.cpp)

    The first part is the command line: [getopt_long] goes through the arguments and [main]
    handles what it finds.  The second part is the life of the servants: [main] accepts a
    client, the servant creates its modules, serves the client until it leaves, releases the
    modules and closes the connection, and the next client is accepted.  A client that leaves while
    it is written to stops the program (SIGPIPE): [snl_stops] is what stops it from the network.  The network and the
    modules are the interfaces [ServerNet] and [ServerModules]. *)
From S2P Require Import Prelude UtilsText Communicator Server.

(** ** The command line *)

(** The variables that the options set through [option::flag]. *)
Inductive OptionFlag := FLAG_VERBOSE | FLAG_ALL | FLAG_CPUFREQ | FLAG_TOPOLOGY | FLAG_ENERGY.
#[export] Instance OptionFlag_eq_dec : EqDecision OptionFlag.
Proof. solve_decision. Defined.

(** [struct option] of getopt.h; [lo_arg] is [has_arg == required_argument]. *)
Record LongOption := mkLongOption { lo_name : string; lo_arg : bool; lo_flag : option OptionFlag; lo_val : Z }.

(** [long_options], src/mammut-server.cpp:194-202. *)
Definition long_options : list LongOption := [
  mkLongOption "verbose"  true  (Some FLAG_VERBOSE)  118;
  mkLongOption "tcpport"  true  None                 112;
  mkLongOption "all"      false (Some FLAG_ALL)      1;
  mkLongOption "cpufreq"  false (Some FLAG_CPUFREQ)  1;
  mkLongOption "topology" false (Some FLAG_TOPOLOGY) 1;
  mkLongOption "energy"   false (Some FLAG_ENERGY)   1
].
(** ["v:p:"]: both short options take an argument. *)
Definition short_options : list ascii := ["v"%char; "p"%char].

(** What a call of [getopt_long] does: the value it returns, [optarg], the index it writes
    to [long_index] and what it stores through the [flag] of the option. *)
Record Getopt := mkGetopt {
  go_return : Z; go_optarg : option string; go_index : option nat; go_store : option (OptionFlag * Z)
}.

(** The long option with this name, or the only one that the name is the beginning of. *)
Definition find_long (name : string) : option (nat * LongOption) :=
  match filter (fun e => lo_name (snd e) = name) (enumerate long_options) with
  | e :: _ => Some e
  | [] =>
      match filter (fun e => is_prefix name (lo_name (snd e)) = true) (enumerate long_options) with
      | [e] => Some e
      | _ => None
      end
  end.

(** ["name=value"] and ["name"]. *)
Definition split_value (s : string) : string * option string :=
  match str_find "=" s with
  | Some n => (str_take n s, Some (str_drop (S n) s))
  | None => (s, None)
  end.

(** The return value ['?'], after a message on the standard error. *)
Definition bad_option : Getopt := mkGetopt 63 None None None.
Definition long_result (e : nat * LongOption) (arg : option string) : Getopt :=
  match lo_flag (snd e) with
  | Some f => mkGetopt 0 arg (Some (fst e)) (Some (f, lo_val (snd e)))
  | None => mkGetopt (lo_val (snd e)) arg (Some (fst e)) None
  end.
Definition short_result (c : ascii) (arg : string) : Getopt :=
  mkGetopt (Z.of_nat (nat_of_ascii c)) (Some arg) None None.

(** The successive results of [getopt_long] (the GNU one, which goes on past the arguments that
    are no options) until it returns -1, or the first ['?']. *)
Fixpoint getopt_long (args : list string) : list Getopt :=
  match args with
  | [] => []
  | String "-"%char (String "-"%char EmptyString) :: _ => []
  | String "-"%char (String "-"%char text) :: rest =>
      let '(name, value) := split_value text in
      match find_long name, value, rest with
      | None, _, _ => [bad_option]
      | Some e, Some v, _ =>
          if lo_arg (snd e) then long_result e (Some v) :: getopt_long rest else [bad_option]
      | Some e, None, [] => if lo_arg (snd e) then [bad_option] else [long_result e None]
      | Some e, None, v :: rest' =>
          if lo_arg (snd e) then long_result e (Some v) :: getopt_long rest'
          else long_result e None :: getopt_long rest
      end
  | String "-"%char (String c text) :: rest =>
      if bool_decide (c ∈ short_options) then
        match text, rest with
        | EmptyString, [] => [bad_option]
        | EmptyString, v :: rest' => short_result c v :: getopt_long rest'
        | _, _ => short_result c text :: getopt_long rest
        end
      else [bad_option]
  | _ :: rest => getopt_long rest
  end.

(** The variables of [main], src/mammut-server.cpp:26 and 190-193. *)
Record Options := mkOptions { op_verbose : Z; op_tcpport : Z; op_all : Z; op_mm : ModulesMask }.
Definition Options_new : Options := mkOptions 0 0 0 (mkModulesMask 0 0 0).

Definition store_flag (f : OptionFlag) (v : Z) (o : Options) : Options :=
  let mm := op_mm o in
  match f with
  | FLAG_VERBOSE => mkOptions v (op_tcpport o) (op_all o) mm
  | FLAG_ALL => mkOptions (op_verbose o) (op_tcpport o) v mm
  | FLAG_CPUFREQ => mkOptions (op_verbose o) (op_tcpport o) (op_all o) (mkModulesMask v (mm_topology mm) (mm_energy mm))
  | FLAG_TOPOLOGY => mkOptions (op_verbose o) (op_tcpport o) (op_all o) (mkModulesMask (mm_cpufreq mm) v (mm_energy mm))
  | FLAG_ENERGY => mkOptions (op_verbose o) (op_tcpport o) (op_all o) (mkModulesMask (mm_cpufreq mm) (mm_topology mm) v)
  end.
Definition set_tcpport (v : Z) (o : Options) : Options := mkOptions (op_verbose o) v (op_all o) (op_mm o).
Definition set_verbose (v : Z) (o : Options) : Options := mkOptions v (op_tcpport o) (op_all o) (op_mm o).

(** [main], src/mammut-server.cpp:208-230: the body of the loop; [None] when the usage is
    printed and [main] returns -1. The first component is [long_index]. *)
Definition main_option (st : nat * Options) (g : Getopt) : outcome (option (nat * Options)) :=
  let long_index := default (fst st) (go_index g) in
  let o := match go_store g with Some (f, v) => store_flag f v (snd st) | None => snd st end in
  if go_return g =? 0 then
    l ← vec_index long_options long_index;
    match lo_flag l with
    | Some _ => Ret (Some (long_index, o))
    | None =>
        match go_optarg g with
        | Some optarg =>
            Throw (runtime_error ("option " +:+ lo_name l +:+ " with arg " +:+ optarg +:+ " without flags"))
        | None => Undef "a null optarg"
        end
    end
  else if go_return g =? 112 then
    match go_optarg g with
    | Some optarg => Ret (Some (long_index, set_tcpport (atoi optarg mod 2 ^ 16) o))
    | None => Undef "a null optarg"
    end
  else if go_return g =? 118 then
    match go_optarg g with
    | Some optarg => Ret (Some (long_index, set_verbose (atoi optarg) o))
    | None => Undef "a null optarg"
    end
  else Ret None.

(** [main], src/mammut-server.cpp:204-231: the loop. *)
Fixpoint main_options (gs : list Getopt) (st : nat * Options) : outcome (option Options) :=
  match gs with
  | [] => Ret (Some (snd st))
  | g :: gs' => r ← main_option st g; match r with Some st' => main_options gs' st' | None => Ret None end
  end.
Definition parse_command_line (args : list string) : outcome (option Options) :=
  main_options (getopt_long args) (0%nat, Options_new).

(** ** The modules and the network *)

(** The three modules a servant can have. *)
Inductive ModuleId := MODULE_ID_CPUFREQ | MODULE_ID_TOPOLOGY | MODULE_ID_ENERGY.

(** What the servant asks of a module type and of its objects [H]: [getModuleName()], [local()],
    [release()] of a pointer that is not null and [processMessage()]. *)
Class ServerModules (S H : Type) := {
  md_getModuleName : ModuleId -> string;
  md_local : ModuleId -> M S H;
  md_release : H -> M S unit;
  md_processMessage : H -> Module S
}.

(** Reading and writing on the descriptors of accepted connections. *)
Class ServerNet (O Addr : Type) := {
  sn_api :: NetworkApi O Addr;
  sn_write : Z -> string -> M O Z;
  sn_read : Z -> Z -> M O read_result
}.

(** A connection is a descriptor of the system; its socket reads and writes there. *)
Record Connection (O : Type) := mkConnection { cn_fd : Z; cn_system : O }.
Arguments mkConnection {O} _ _.
Arguments cn_fd {O} _.
Arguments cn_system {O} _.
Definition on_fd {O A} (f : Z -> M O A) : M (Connection O) A := fun c =>
  let '(r, o) := f (cn_fd c) (cn_system c) in (r, mkConnection (cn_fd c) o).
#[export] Instance connection_socket {O Addr} {SN : ServerNet O Addr} : Socket (Connection O) := {|
  so_write bytes := on_fd (fun fd => sn_write fd bytes);
  so_read n := on_fd (fun fd => sn_read fd n);
  so_errno c := os_strerror (cn_system c)
|}.

(** The process of the server: the machine under its modules and the system under its sockets. *)
Record Process (S O : Type) := mkProcess { ps_machine : S; ps_system : O }.
Arguments mkProcess {S O} _ _.
Arguments ps_machine {S O} _.
Arguments ps_system {S O} _.

(** ** The life of a servant *)
Section lifecycle.
Context {S H O Addr : Type} {SM : ServerModules S H} {SN : ServerNet O Addr}.

Definition in_machine {A} (f : M S A) : M (Process S O) A := fun p =>
  let '(r, s) := f (ps_machine p) in (r, mkProcess s (ps_system p)).
Definition in_system {A} (f : M O A) : M (Process S O) A := fun p =>
  let '(r, o) := f (ps_system p) in (r, mkProcess (ps_machine p) o).

(** [Servant], src/mammut-server.cpp:63-67: the descriptor of [_communicator] and
    [_moduleDispatcher]. *)
Record ServantObject := mkServantObject { so_fd : Z; so_modules : gmap string (option H) }.

Definition module_of (k : ModuleId) : string * M S H := (md_getModuleName k, md_local k).

(** [Servant::Servant], src/mammut-server.cpp:69-86. *)
Definition Servant_new (listenSocket : Z) (mm : ModulesMask) : M (Process S O) ServantObject :=
  let* fd := in_system (CommunicatorTcp_accepted listenSocket) in
  let* modules := in_machine (Servant_modules (module_of MODULE_ID_CPUFREQ) (module_of MODULE_ID_TOPOLOGY)
                                              (module_of MODULE_ID_ENERGY) mm) in
  ret (mkServantObject fd modules).

(** [MAMMUT_SERVER_DELETE_MODULE], src/mammut-server.cpp:54-61. *)
Definition release_module_named (k : ModuleId) (modules : gmap string (option H)) : M S (gmap string (option H)) :=
  match modules !! md_getModuleName k with
  | None => ret modules
  | Some module =>
      do* match module with Some m => md_release m | None => ret tt end in
      ret (delete (md_getModuleName k) modules)
  end.

(** [Servant::~Servant], src/mammut-server.cpp:88-93. *)
Definition Servant_delete (sv : ServantObject) : M (Process S O) unit :=
  let* d := in_machine (release_module_named MODULE_ID_CPUFREQ (so_modules sv)) in
  let* d := in_machine (release_module_named MODULE_ID_TOPOLOGY d) in
  let* d := in_machine (release_module_named MODULE_ID_ENERGY d) in
  in_system (CommunicatorTcp_delete (so_fd sv)).

(** The pointers of [_moduleDispatcher] as the [processMessage] of their objects. *)
Definition dispatcher_of (modules : gmap string (option H)) : Dispatcher S :=
  (fun module : option H => md_processMessage <$> module) <$> modules.

(** [Servant::run] of the object, for at most [fuel] messages. *)
Definition ServantObject_run (fuel : nat) (sv : ServantObject) : M (Process S O) bool := fun p =>
  let '(r, sv') := Servant_run (dispatcher_of (so_modules sv)) fuel
                     (mkServant (ps_machine p) (mkTcp false (mkConnection (so_fd sv) (ps_system p)))) in
  (r, mkProcess (sv_machine sv') (cn_system (tc_socket (sv_communicator sv')))).

(** [main], src/mammut-server.cpp:248-254: one iteration. *)
Definition serve_client (fuel : nat) (listenSocket : Z) (mm : ModulesMask) : M (Process S O) unit :=
  let* servant := Servant_new listenSocket mm in
  let* running := ServantObject_run fuel servant in
  if (running : bool) then undef "out of fuel" else Servant_delete servant.

(** [main], src/mammut-server.cpp:247-265: [clients] iterations. *)
Fixpoint accept_loop (clients fuel : nat) (listenSocket : Z) (mm : ModulesMask) : M (Process S O) unit :=
  match clients with
  | 0%nat => ret tt
  | Datatypes.S clients' =>
      do* serve_client fuel listenSocket mm in accept_loop clients' fuel listenSocket mm
  end.

(** [main], src/mammut-server.cpp:190-270, until it has served [clients] clients: its exit code,
    or [None] while it runs. The cleaner thread goes through a list that stays empty. *)
Definition main (clients fuel : nat) (args : list string) : M (Process S O) (option Z) :=
  let* o := lift (parse_command_line args) in
  match o with
  | None => ret (Some (-1))
  | Some o =>
      match server_mask (op_all o) (op_mm o) with
      | None => ret (Some (-1))
      | Some mm =>
          if op_tcpport o =? 0 then ret (Some (-1))
          else
            let* listenSocket := in_system (ServerTcp_new (op_tcpport o)) in
            do* accept_loop clients fuel listenSocket mm in
            ret None
      end
  end.
End lifecycle.
Arguments ServantObject : clear implicits.

(** * Properties *)

(** ** The command line *)

(** What an argument asks for. *)
Inductive Setting :=
  | Port (n : Z) | Verbosity (n : Z) | AllModules | CpuFreqModule | TopologyModule | EnergyModule | NoSetting.
Definition apply_setting (o : Options) (x : Setting) : Options :=
  match x with
  | Port n => set_tcpport (n mod 2 ^ 16) o
  | Verbosity n => set_verbose n o
  | AllModules => store_flag FLAG_ALL 1 o
  | CpuFreqModule => store_flag FLAG_CPUFREQ 1 o
  | TopologyModule => store_flag FLAG_TOPOLOGY 1 o
  | EnergyModule => store_flag FLAG_ENERGY 1 o
  | NoSetting => o
  end.

(** The ways to write it; a number is an [int]. *)
Inductive spelled : Setting -> list string -> Prop :=
  | sp_port n : is_i32 n -> spelled (Port n) ["--tcpport"; intToString n]%string
  | sp_port_value n : is_i32 n -> spelled (Port n) [("--tcpport=" +:+ intToString n)%string]
  | sp_port_short n : is_i32 n -> spelled (Port n) ["-p"; intToString n]%string
  | sp_port_joined n : is_i32 n -> spelled (Port n) [("-p" +:+ intToString n)%string]
  | sp_verbosity n : is_i32 n -> spelled (Verbosity n) ["-v"; intToString n]%string
  | sp_verbosity_joined n : is_i32 n -> spelled (Verbosity n) [("-v" +:+ intToString n)%string]
  (** The long option stores the code of ['v'], whatever its argument is. *)
  | sp_verbose level : spelled (Verbosity 118) ["--verbose"; level]%string
  | sp_all : spelled AllModules ["--all"]%string
  | sp_cpufreq : spelled CpuFreqModule ["--cpufreq"]%string
  | sp_topology : spelled TopologyModule ["--topology"]%string
  | sp_energy : spelled EnergyModule ["--energy"]%string
  | sp_operand c text : c <> "-"%char -> spelled NoSetting [String c text].

Lemma atoi_print n : is_i32 n -> atoi (intToString n) = n.
Proof. apply stringToInt_intToString. Qed.

Lemma print_nonempty n : intToString n <> EmptyString.
Proof.
  unfold intToString. destruct (i32 n <? 0); [done|]. unfold print_nat. cbn [dec_digits].
  assert (forall fuel m c s, dec_digits fuel m (String c s) <> EmptyString) as H.
  { induction fuel as [|fuel IH]; intros m c s; cbn; [done|]. by destruct (m <? 10). }
  by destruct (_ <? 10).
Qed.

(** The arguments in the goal give the result [g]; [main] handles it. *)
Ltac getopt_gives g :=
  match goal with |- context [getopt_long (?a ++ ?rest)] => change (getopt_long (a ++ rest)) with (g :: getopt_long rest) end;
  match goal with i : nat |- _ => exists (default i (go_index g)) end;
  cbn [main_options main_option go_return go_optarg go_index go_store fst snd default]; simpl;
  try match goal with H : atoi _ = _ |- _ => rewrite H end; reflexivity.

(** One setting: the arguments it is spelled with are handled and the loop goes on. *)
Lemma main_options_spelled x args rest st : spelled x args ->
  exists i, main_options (getopt_long (args ++ rest)) st = main_options (getopt_long rest) (i, apply_setting (snd st) x).
Proof.
  intros Hx. destruct st as [i o]. destruct Hx as [n Hn|n Hn|n Hn|n Hn|n Hn|n Hn|level| | | | |c text Hc].
  all: try (apply atoi_print in Hn; pose proof (print_nonempty n) as Hne).
  - getopt_gives (mkGetopt 112 (Some (intToString n)) (Some 1%nat) None).
  - getopt_gives (mkGetopt 112 (Some (intToString n)) (Some 1%nat) None).
  - getopt_gives (mkGetopt 112 (Some (intToString n)) None None).
  - destruct (intToString n) as [|d t]; [done|]. getopt_gives (mkGetopt 112 (Some (String d t)) None None).
  - getopt_gives (mkGetopt 118 (Some (intToString n)) None None).
  - destruct (intToString n) as [|d t]; [done|]. getopt_gives (mkGetopt 118 (Some (String d t)) None None).
  - getopt_gives (mkGetopt 0 (Some level) (Some 0%nat) (Some (FLAG_VERBOSE, 118))).
  - destruct rest; getopt_gives (mkGetopt 0 None (Some 2%nat) (Some (FLAG_ALL, 1))).
  - destruct rest; getopt_gives (mkGetopt 0 None (Some 3%nat) (Some (FLAG_CPUFREQ, 1))).
  - destruct rest; getopt_gives (mkGetopt 0 None (Some 4%nat) (Some (FLAG_TOPOLOGY, 1))).
  - destruct rest; getopt_gives (mkGetopt 0 None (Some 5%nat) (Some (FLAG_ENERGY, 1))).
  - exists i. cbn [app apply_setting fst snd].
    by destruct c as [[] [] [] [] [] [] [] []].
Qed.

(** C40: a command line whose arguments spell a sequence of settings, each in any of its forms
    and in any order with words that are no options between them, configures the server with
    these settings: the last one of a kind counts and the port is taken modulo 2^16. *)
Theorem command_line_roundtrip (l : list (Setting * list string)) :
  Forall (fun e => spelled (fst e) (snd e)) l ->
  parse_command_line (concat (snd <$> l)) = Ret (Some (fold_left apply_setting (fst <$> l) Options_new)).
Proof.
  unfold parse_command_line. intros Hl. change Options_new with (snd (0%nat, Options_new)) at 2.
  generalize (0%nat, Options_new) as st. induction Hl as [|[x args] l Hx Hl IH]; intros st; [done|].
  cbn [fmap list_fmap concat fst snd fold_left].
  destruct (main_options_spelled x args (concat (snd <$> l)) st Hx) as [i ->].
  apply (IH (i, apply_setting (snd st) x)).
Qed.

Lemma command_line_roundtrip_witness :
  parse_command_line ["--topology"; "-v2"; "here"; "--verbose"; "0"; "-p"; "65616"]%string =
    Ret (Some (mkOptions 118 80 0 (mkModulesMask 0 1 0))).
Proof.
  apply (command_line_roundtrip [(TopologyModule, ["--topology"]); (Verbosity 2, ["-v" +:+ intToString 2]);
    (NoSetting, ["here"]); (Verbosity 118, ["--verbose"; "0"]); (Port 65616, ["-p"; intToString 65616])]%string).
  repeat (apply Forall_cons_2; [constructor; first [discriminate | done] |]). apply Forall_nil_2.
Defined.

(** ** What a connection keeps, and where it may stop *)

(** A computation that keeps [P] and ends, when it is [Undef], with a reason in [U]: a reason of
    what it calls, never one of its own. *)
Definition holds_through {S A} (P : S -> Prop) (U : string -> Prop) (m : M S A) : Prop :=
  forall s r s', P s -> m s = (r, s') -> P s' /\ forall u, r = Undef u -> U u.

Lemma through_bind {S A B} (P : S -> Prop) U (m : M S A) (f : A -> M S B) :
  holds_through P U m -> (forall a, holds_through P U (f a)) -> holds_through P U (bind m f).
Proof.
  intros Hm Hf s r s' HP. unfold bind. destruct (m s) as [[a|e|u] s1] eqn:E; destruct (Hm _ _ _ HP E) as [H1 H2].
  - by apply Hf.
  - by intros [= <- <-].
  - intros [= <- <-]. split; [done|]. intros u' [= <-]. by apply H2.
Qed.
Lemma through_pure {S A} (P : S -> Prop) U (o : outcome A) : (forall u, o <> Undef u) -> holds_through P U (fun s => (o, s)).
Proof. intros Ho s r s' HP [= <- <-]. split; [done|]. intros u Hu. by destruct (Ho u). Qed.
Lemma through_ret {S A} (P : S -> Prop) U (a : A) : holds_through P U (ret a).
Proof. by apply through_pure. Qed.
Lemma through_throw {S A} (P : S -> Prop) U e : holds_through (A := A) P U (throw e).
Proof. by apply through_pure. Qed.
Lemma through_gets {S A} (P : S -> Prop) U (f : S -> A) : holds_through P U (gets f).
Proof. by intros s r s' HP [= <- <-]. Qed.

Section kept.
Context {So : Type} {SO : Socket So} (P : So -> Prop) (U : string -> Prop).
Hypothesis through_write : forall b, holds_through P U (so_write b).
Hypothesis through_read : forall n, holds_through P U (so_read n).

Lemma through_send b : holds_through P U (CommunicatorTcp_send b).
Proof.
  apply through_bind; [apply through_write|]. intros n. destruct (negb _); [|apply through_ret].
  apply through_bind; [apply through_gets|]. intros e. apply through_throw.
Qed.
(** The loop has enough fuel: a read that returns bytes returns one at least. *)
Lemma through_receive_loop fuel : forall n acc, n <= Z.of_nat fuel -> holds_through P U (receive_loop fuel n acc).
Proof.
  induction fuel as [|fuel IH]; intros n acc Hn; simpl; (destruct (Z.leb_spec n 0); [apply through_ret|]); [exfalso; lia|].
  apply through_bind; [apply through_read|]. intros [[|c b]|]; [apply through_ret|apply IH; unfold str_len; simpl; lia|].
  apply through_bind; [apply through_gets|]. intros e. apply through_throw.
Qed.
Lemma through_receive n : holds_through P U (CommunicatorTcp_receive n).
Proof. apply through_receive_loop. lia. Qed.
Lemma through_receive_all n : holds_through P U (receive_all n).
Proof. apply through_bind; [apply through_receive|]. intros []; [apply through_ret|apply through_throw]. Qed.

Lemma through_message_send id m : holds_through P U (Communicator_send id m).
Proof.
  apply through_bind; [|intros; apply through_send]. apply through_bind; [apply through_send|]. intros _.
  apply through_bind; [|intros; apply through_send]. destruct (negb _); [apply through_send|apply through_ret].
Qed.
Lemma through_message_receive id : holds_through P U (Communicator_receive id).
Proof.
  apply through_bind.
  - apply through_bind; [apply through_receive|]. intros [b|]; [|apply through_ret].
    apply through_bind; [destruct (negb _); [apply through_receive_all|apply through_ret]|]. intros i.
    apply through_bind; [apply through_receive_all|]. intros n. apply through_ret.
  - intros [[i n]|]; [|apply through_ret]. apply through_bind; [apply through_receive_all|]. intros. apply through_ret.
Qed.

Lemma module_name_defined id u : getModuleNameFromMessageId id <> Undef u.
Proof.
  unfold getModuleNameFromMessageId. destruct (negb _); [done|]. unfold vec_at.
  destruct (split id "." !! 0%nat); cbn [mbind outcome_bind]; [|done]. destruct (negb _); [done|]. by destruct (split id "." !! 1%nat).
Qed.

(** With what the modules of the servant keep of the machine. *)
Context {S : Type} (Q : S -> Prop) (dispatcher : Dispatcher S).
Hypothesis through_process : forall k (m : Module S), dispatcher !! k = Some (Some m) -> forall id msg, holds_through Q U (m id msg).

Definition servant_keeps (sv : Servant S So) : Prop :=
  Q (sv_machine sv) /\ tc_locked (sv_communicator sv) = false /\ P (tc_socket (sv_communicator sv)).

Lemma through_on_machine {A} (f : M S A) : holds_through Q U f -> holds_through servant_keeps U (on_machine f).
Proof.
  intros Hf [s c] r s' (HQ & HP) E. unfold on_machine in E. simpl in E. destruct (f s) as [r0 s0] eqn:Ef.
  injection E as <- <-. destruct (Hf _ _ _ HQ Ef). by split.
Qed.
Lemma through_on_socket {A} (f : M So A) : holds_through P U f -> holds_through servant_keeps U (on_communicator (on_socket f)).
Proof.
  intros Hf [s [b so]] r s' (HQ & Hl & HP) E. unfold on_communicator, on_socket in E. simpl in E.
  destruct (f so) as [r0 s0] eqn:Ef. injection E as <- <-. destruct (Hf _ _ _ HP Ef). by split.
Qed.

Lemma through_Servant_serve : holds_through servant_keeps U (Servant_serve dispatcher).
Proof.
  apply through_bind; [apply through_on_socket, through_message_receive|]. intros [[id m]|]; [|apply through_ret].
  apply through_bind; [|intros [i o]; apply through_bind; [apply through_on_socket, through_message_send|intros; apply through_ret]].
  apply through_on_machine. apply through_bind; [apply through_pure, module_name_defined|]. intros k.
  destruct (dispatcher !! k) as [[md|]|] eqn:Ek; [|apply through_throw..].
  apply through_bind; [by eapply through_process|]. intros []; [apply through_ret|apply through_throw].
Qed.
Lemma through_Servant_step : holds_through servant_keeps U (Servant_step dispatcher).
Proof.
  apply through_bind.
  { intros [s c] r s' H E. pose proof H as (_ & Hl & _). unfold on_communicator, lock_unlock in E. simpl in E, Hl.
    rewrite Hl in E. by injection E as <- <-. }
  intros _ sv r sv' HI E.
  destruct (Servant_serve dispatcher sv) as [r0 sv0] eqn:E0. destruct (through_Servant_serve _ _ _ HI E0) as [H0 U0].
  destruct r0 as [b|[what|what]|u]; [by injection E as <- <-| |by injection E as <- <-|injection E as <- <-; by split].
  unfold send_exception in E. destruct (on_communicator _ sv0) as [r1 sv1] eqn:E1.
  destruct (through_on_socket _ (through_message_send EmptyString (c_str what)) _ _ _ H0 E1) as [H1 U1].
  destruct r1; injection E as <- <-; [by split..|]. split; [done|]. intros u' [= <-]. by apply U1.
Qed.
Lemma through_Servant_run fuel : holds_through servant_keeps U (Servant_run dispatcher fuel).
Proof.
  induction fuel as [|fuel IH]; simpl; [apply through_ret|].
  apply through_bind; [apply through_Servant_step|]. intros []; [apply IH|apply through_ret].
Qed.

(** [run] throws nothing. *)
Lemma Servant_run_nothrow fuel : forall sv e sv', servant_keeps sv -> Servant_run dispatcher fuel sv <> (Throw e, sv').
Proof.
  induction fuel as [|fuel IH]; intros sv e sv' HI E; [done|]. cbn [Servant_run] in E.
  unfold bind in E. destruct (Servant_step dispatcher sv) as [r sv1] eqn:Es.
  destruct r as [[]|e0|u]; [by eapply IH; [eapply through_Servant_step|]|done| |done].
  destruct HI as (HQ & Hl & HP). unfold Servant_step, bind in Es.
  unfold on_communicator at 1, lock_unlock in Es. rewrite Hl in Es.
  destruct sv as [s c]. cbn in Es. destruct (Servant_serve dispatcher _) as [[b|[what|what]|u] sv0]; [done| |done..].
  unfold send_exception in Es. by destruct (on_communicator _ sv0) as [[] sv2].
Qed.
End kept.

(** ** The accept loop leaks nothing *)

(** What the modules promise: creating one makes a new object or throws and leaves none, a live
    object can be released once, and processing a message creates and releases none.  The code of
    a module may be undefined, or not return, for the reasons [ml_stops]. *)
Class ServerModulesLaws (S H : Type) `{Countable H} {SM : ServerModules S H} := {
  ml_live : S -> gset H;
  ml_stops : string -> Prop;
  ml_names j k : md_getModuleName j = md_getModuleName k -> j = k;
  ml_local k (s : S) : match md_local k s with
                 | (Ret m, s') => (m ∉ ml_live s) /\ ml_live s' = {[m]} ∪ ml_live s
                 | (Throw _, s') => ml_live s' = ml_live s
                 | (Undef u, _) => ml_stops u
                 end;
  ml_release (m : H) (s : S) : m ∈ ml_live s -> exists s', md_release m s = (Ret tt, s') /\ ml_live s' = ml_live s ∖ {[m]};
  ml_process (m : H) id msg (L : gset H) : m ∈ L -> holds_through (fun s : S => ml_live s = L) ml_stops (md_processMessage m id msg)
}.

(** What the system promises of [accept], [read] and [write].  A call may not return, for the
    reasons [snl_stops]: [accept] and [read] may wait for ever, and a [write] to a client that has
    closed its connection raises SIGPIPE, which the program does not handle: it ends the process. *)
Class ServerNetLaws (O Addr : Type) {SN : ServerNet O Addr} := {
  snl_network :: NetworkLaws O Addr;
  snl_stops : string -> Prop;
  snl_accept fd (o : O) : match os_accept fd o with
                    | (Ret c, o') => c = -1 /\ nl_open o' = nl_open o \/
                                     c <> -1 /\ (c ∉ nl_open o) /\ nl_open o' = {[c]} ∪ nl_open o
                    | (Throw _, _) => False
                    | (Undef u, _) => snl_stops u
                    end;
  snl_write fd b (D : gset Z) : holds_through (fun o : O => nl_open o = D) snl_stops (sn_write fd b);
  snl_read fd n (D : gset Z) : holds_through (fun o : O => nl_open o = D) snl_stops (sn_read fd n)
}.

Section leaks.
Context {S H O Addr : Type} `{Countable H} {SM : ServerModules S H} {SN : ServerNet O Addr}.
Context {ML : ServerModulesLaws S H} {NL : ServerNetLaws O Addr}.

(** The modules of a dispatcher. *)
Definition has_module (d : gmap string (option H)) (m : H) : Prop := exists k, d !! k = Some (Some m).

(** The dispatcher [d] has the live objects that were not in [L], and no two names share one. *)
Definition owns (L : gset H) (d : gmap string (option H)) (s : S) : Prop :=
  (forall m, m ∈ ml_live s <-> m ∈ L \/ has_module d m) /\ (forall m, has_module d m -> m ∉ L) /\
  (forall j k m, d !! j = Some (Some m) -> d !! k = Some (Some m) -> j = k).

Lemma owns_create (L : gset H) (d : gmap string (option H)) k s : owns L d s -> d !! md_getModuleName k = None ->
  match create_module (md_getModuleName k) (md_local k) d s with
  | (Ret d', s') => owns L d' s' /\ (forall j, j <> md_getModuleName k -> d' !! j = d !! j)
  | (Throw _, _) => False
  | (Undef u, _) => ml_stops u
  end.
Proof.
  intros (Hl & Hn & Hu) Hk. unfold create_module. pose proof (ml_local k s) as Hc.
  destruct (md_local k s) as [[m|e|u] s']; [| |done].
  - destruct Hc as [Hm Hs]. assert (forall x, has_module (<[md_getModuleName k := Some m]> d) x <-> x = m \/ has_module d x) as Hh.
    { intros x. unfold has_module. setoid_rewrite lookup_insert_Some. naive_solver. }
    split; [|by intros; rewrite lookup_insert_ne]. split; [|split].
    + intros x. rewrite Hs, Hh, elem_of_union, elem_of_singleton, Hl. tauto.
    + intros x. rewrite Hh. intros [->|Hx]; [|by apply Hn]. intros HL. apply Hm, Hl. by left.
    + intros i j x. rewrite !lookup_insert_Some. intros [[<- [= <-]]|[? Hi]] [[<- Hj]|[? Hj]]; [done| | |by eapply Hu].
      * exfalso. apply Hm, Hl. right. by exists j.
      * injection Hj as <-. exfalso. apply Hm, Hl. right. by exists i.
  - assert (forall x, has_module (<[md_getModuleName k := None]> d) x <-> has_module d x) as Hh.
    { intros x. unfold has_module. setoid_rewrite lookup_insert_Some. naive_solver. }
    split; [|by intros; rewrite lookup_insert_ne]. split; [|split].
    + intros x. by rewrite Hc, Hh.
    + intros x. rewrite Hh. apply Hn.
    + intros i j x. rewrite !lookup_insert_Some. intros [[_ [=]]|[_ Hi]] [[_ [=]]|[_ Hj]]. by eapply Hu.
Qed.

Lemma owns_delete (L : gset H) (d : gmap string (option H)) k s : owns L d s ->
  exists s', release_module_named k d s = (Ret (delete (md_getModuleName k) d), s') /\ owns L (delete (md_getModuleName k) d) s'.
Proof.
  intros Ho. unfold release_module_named. pose proof Ho as (Hl & Hn & Hu).
  destruct (d !! md_getModuleName k) as [[m|]|] eqn:E.
  - assert (has_module d m) as Hm by (by exists (md_getModuleName k)).
    destruct (ml_release m s) as (s' & Er & Hs); [apply Hl; by right|].
    exists s'. rewrite (bind_Ret _ _ _ _ _ Er). split; [done|].
    assert (forall x, has_module (delete (md_getModuleName k) d) x <-> x <> m /\ has_module d x) as Hh.
    { intros x. unfold has_module. setoid_rewrite lookup_delete_Some. split.
      - intros (j & Hj & Hx). split; [|by exists j]. intros ->. apply Hj. by eapply Hu.
      - intros (Hx & j & Hj). exists j. split; [|done]. intros <-. congruence. }
    split; [|split].
    + intros x. rewrite Hs, Hh, elem_of_difference, elem_of_singleton, Hl. specialize (Hn x).
      destruct (decide (x = m)) as [->|]; [|tauto]. specialize (Hn Hm). tauto.
    + intros x. rewrite Hh. intros [_ Hx]. by apply Hn.
    + intros i j x. rewrite !lookup_delete_Some. intros [_ Hi] [_ Hj]. by eapply Hu.
  - exists s. split; [done|].
    assert (forall x, has_module (delete (md_getModuleName k) d) x <-> has_module d x) as Hh.
    { intros x. unfold has_module. setoid_rewrite lookup_delete_Some. naive_solver. }
    split; [|split]; [intros x; by rewrite Hh|intros x; rewrite Hh; apply Hn|].
    intros i j x. rewrite !lookup_delete_Some. intros [_ Hi] [_ Hj]. by eapply Hu.
  - exists s. by rewrite delete_id.
Qed.

(** The same, with names of the modules [ks] only. *)
Definition owns_only (L : gset H) (ks : list ModuleId) (d : gmap string (option H)) (s : S) : Prop :=
  owns L d s /\ forall j, is_Some (d !! j) -> exists k, k ∈ ks /\ j = md_getModuleName k.

Lemma owns_create_if (L : gset H) ks (d : gmap string (option H)) k (b : bool) s : owns_only L ks d s -> k ∉ ks ->
  match (if b then create_module (md_getModuleName k) (md_local k) d else ret d) s with
  | (Ret d', s') => owns_only L (k :: ks) d' s'
  | (Throw _, _) => False
  | (Undef u, _) => ml_stops u
  end.
Proof.
  intros [Ho Hd] Hk. destruct b.
  - assert (d !! md_getModuleName k = None) as E.
    { destruct (d !! md_getModuleName k) eqn:E; [|done]. destruct (Hd (md_getModuleName k)) as (k' & Hk' & Ek); [by eexists|].
      by apply ml_names in Ek as ->. }
    pose proof (owns_create L d k s Ho E) as Hc. destruct (create_module _ _ d s) as [[d'|e|u] s']; [|done..].
    destruct Hc as [Ho' Hd']. split; [done|]. intros j Hj.
    destruct (decide (j = md_getModuleName k)) as [->|Hne]; [exists k; split; [left|done]|].
    rewrite Hd' in Hj by done. destruct (Hd j Hj) as (k' & Hk' & ->). exists k'. split; [by right|done].
  - cbn. split; [done|]. intros j Hj. destruct (Hd j Hj) as (k' & Hk' & ->). exists k'. split; [by right|done].
Qed.

Lemma Servant_modules_owns mm s :
  match Servant_modules (module_of MODULE_ID_CPUFREQ) (module_of MODULE_ID_TOPOLOGY) (module_of MODULE_ID_ENERGY) mm s with
  | (Ret d, s') => owns_only (ml_live s) [MODULE_ID_ENERGY; MODULE_ID_TOPOLOGY; MODULE_ID_CPUFREQ] d s'
  | (Throw _, _) => False
  | (Undef u, _) => ml_stops u
  end.
Proof.
  assert (owns_only (ml_live s) [] ∅ s) as Hnil.
  { split; [|by intros j [x Hx]]. assert (forall m : H, ~ has_module ∅ m) as Hn by by intros m [k Hk].
    split; [intros m; specialize (Hn m); tauto|]. split; [intros m Hm; by apply Hn in Hm|]. by intros j k m Hj. }
  unfold Servant_modules, bind. cbn [fst snd module_of].
  pose proof (owns_create_if _ _ _ MODULE_ID_CPUFREQ (negb (mm_cpufreq mm =? 0)) s Hnil ltac:(set_solver)) as H1.
  destruct ((if negb (mm_cpufreq mm =? 0) then create_module _ _ ∅ else ret ∅) s) as [[d1|e|u] s1]; [|done..].
  pose proof (owns_create_if _ _ _ MODULE_ID_TOPOLOGY (negb (mm_topology mm =? 0)) s1 H1 ltac:(set_solver)) as H2.
  destruct ((if negb (mm_topology mm =? 0) then create_module _ _ d1 else ret d1) s1) as [[d2|e|u] s2]; [|done..].
  pose proof (owns_create_if _ _ _ MODULE_ID_ENERGY (negb (mm_energy mm =? 0)) s2 H2 ltac:(set_solver)) as H3.
  destruct ((if negb (mm_energy mm =? 0) then create_module _ _ d2 else ret d2) s2) as [[d3|e|u] s3]; [|done..]. exact H3.
Qed.

(** The destructor releases what the servant owns and closes its connection. *)
Lemma Servant_delete_spec (L : gset H) sv (p : Process S O) :
  owns_only L [MODULE_ID_ENERGY; MODULE_ID_TOPOLOGY; MODULE_ID_CPUFREQ] (so_modules sv) (ps_machine p) ->
  exists p', Servant_delete sv p = (Ret tt, p') /\ ml_live (ps_machine p') = L /\
    nl_open (ps_system p') = nl_open (ps_system p) ∖ {[so_fd sv]}.
Proof.
  intros [Ho Hd]. destruct p as [s o]. cbn [ps_machine ps_system] in *.
  destruct (owns_delete L _ MODULE_ID_CPUFREQ s Ho) as (s1 & E1 & Ho1).
  destruct (owns_delete L _ MODULE_ID_TOPOLOGY s1 Ho1) as (s2 & E2 & Ho2).
  destruct (owns_delete L _ MODULE_ID_ENERGY s2 Ho2) as (s3 & E3 & (Hl & _ & _)).
  destruct (nl_close (so_fd sv) o) as (o' & Ec & Hc).
  exists (mkProcess s3 o'). unfold Servant_delete, bind, in_machine, in_system. cbn [ps_machine ps_system].
  rewrite E1. cbn [ps_machine ps_system]. rewrite E2. cbn [ps_machine ps_system]. rewrite E3. cbn [ps_machine ps_system].
  unfold CommunicatorTcp_delete. rewrite Ec. split; [done|]. split; [|done].
  apply set_eq. intros m. rewrite Hl. split; [|tauto]. intros [|[j Hj]]; [done|].
  rewrite !lookup_delete_Some in Hj. destruct Hj as (H3 & H2 & H1 & Hj).
  destruct (Hd j) as (k & _ & ->); [by eexists|]. by destruct k.
Qed.

(** The reasons for which a call of what the server does not write itself does not return. *)
Definition stops_outside (u : string) : Prop := snl_stops u \/ ml_stops u.

Lemma through_mono {S' A} (P : S' -> Prop) (U V : string -> Prop) (m : M S' A) : holds_through P U m -> (forall u, U u -> V u) -> holds_through P V m.
Proof. intros Hm HUV s r s' HP E. destruct (Hm s r s' HP E) as [H1 H2]. split; [done|]. intros u Hu. by apply HUV, H2. Qed.

(** Serving the client changes neither the live modules nor the open descriptors. *)
Lemma ServantObject_run_keeps (L : gset H) ks fuel sv (p : Process S O) :
  owns_only L ks (so_modules sv) (ps_machine p) ->
  match ServantObject_run fuel sv p with
  | (Ret _, p') => owns_only L ks (so_modules sv) (ps_machine p') /\ nl_open (ps_system p') = nl_open (ps_system p)
  | (Throw _, _) => False
  | (Undef u, _) => stops_outside u
  end.
Proof.
  destruct p as [s o], sv as [fd d]. cbn [so_modules so_fd ps_machine ps_system]. intros Ho.
  unfold ServantObject_run. cbn [so_modules so_fd ps_machine ps_system].
  set (P := fun c : Connection O => cn_fd c = fd /\ nl_open (cn_system c) = nl_open o).
  set (Q := fun s' : S => ml_live s' = ml_live s).
  assert (forall A (f : Z -> M O A), (forall D, holds_through (fun o : O => nl_open o = D) snl_stops (f fd)) ->
    holds_through P stops_outside (on_fd f)) as Hf.
  { intros A f Hf [fd' o0] r c [Hfd Hopen] E. cbn in Hfd, Hopen. subst fd'. unfold on_fd in E. cbn in E.
    destruct (f fd o0) as [r1 o1] eqn:E1. injection E as <- <-. destruct (Hf _ _ _ _ Hopen E1) as [H1 H2].
    split; [done|]. intros u Hu. left. by apply H2. }
  assert (forall k (m : Module S), dispatcher_of d !! k = Some (Some m) -> forall id msg, holds_through Q stops_outside (m id msg)) as Hp.
  { intros k m Hk id msg. pose proof (lookup_fmap (fun module : option H => md_processMessage <$> module) d k) as Ef.
    pose proof (eq_trans (eq_sym Ef) Hk) as Hd. clear Ef Hk.
    destruct (d !! k) as [[h|]|] eqn:Ek; [|done..]. injection Hd as <-. eapply through_mono; [apply ml_process|by right].
    destruct Ho as [[Hl _] _]. apply Hl. right. by exists k. }
  destruct (Servant_run (dispatcher_of d) fuel _) as [r sv'] eqn:E.
  assert (servant_keeps P Q (mkServant s (mkTcp false (mkConnection fd o)))) as Hi by done.
  pose proof (through_Servant_run P stops_outside (fun b => Hf _ (fun fd => sn_write fd b) (fun D => snl_write fd b D)) (fun n => Hf _ (fun fd => sn_read fd n) (fun D => snl_read fd n D))
    Q (dispatcher_of d) Hp fuel _ _ _ Hi E) as ((HQ & _ & _ & Hopen) & Hstop).
  destruct r as [b|e|u]; [| |by apply Hstop].
  - destruct Ho as [(Hl & Hn & Hu) Hd]. split; [|done]. split; [|done]. split; [|done].
    intros m. cbn. rewrite HQ. apply Hl.
  - exact (Servant_run_nothrow P stops_outside (fun b => Hf _ (fun fd => sn_write fd b) (fun D => snl_write fd b D)) (fun n => Hf _ (fun fd => sn_read fd n) (fun D => snl_read fd n D))
      Q (dispatcher_of d) Hp fuel _ _ _ Hi E).
Qed.

(** What one iteration of the loop leaves. *)
Definition accept_failed : exn -> Prop := fun e =>
  exists text, e = runtime_error ("ServerTcp: Impossible to accept on the socket: " +:+ text).
Definition same_resources (p p' : Process S O) : Prop :=
  ml_live (ps_machine p') = ml_live (ps_machine p) /\ nl_open (ps_system p') = nl_open (ps_system p).

(** Why an iteration may not end: a call outside the server does not return, or the client is
    still there after [fuel] messages. *)
Definition loop_stops (u : string) : Prop := u = "out of fuel"%string \/ stops_outside u.

Lemma serve_client_resources fuel listenSocket mm (p : Process S O) :
  match serve_client fuel listenSocket mm p with
  | (Ret _, p') => same_resources p p'
  | (Throw e, p') => accept_failed e /\ same_resources p p'
  | (Undef u, _) => loop_stops u
  end.
Proof.
  destruct p as [s o]. unfold serve_client, Servant_new, CommunicatorTcp_accepted, ServerTcp_accept.
  unfold in_system, in_machine, gets, throw, ret, bind. cbn [ps_machine ps_system].
  pose proof (snl_accept listenSocket o) as Ha. destruct (os_accept listenSocket o) as [[fd|e|u] o1]; [|done|by right; left].
  destruct (Z.eqb_spec fd (-1)) as [->|Hne].
  { destruct Ha as [[_ Ha]|[Hn _]]; [|done]. split; [by eexists|]. by split. }
  destruct Ha as [[Hn _]|(_ & Hfd & Hopen)]; [done|]. cbv beta iota zeta. cbn [ps_machine ps_system].
  pose proof (Servant_modules_owns mm s) as Hm.
  destruct (Servant_modules _ _ _ mm s) as [[d|e|u] s1]; [|done|by right; right].
  pose proof (ServantObject_run_keeps _ _ fuel (mkServantObject fd d) (mkProcess s1 o1) Hm) as Hr.
  destruct (ServantObject_run fuel _ (mkProcess s1 o1)) as [[[]|e|u] p2]; [by left| |done|by right].
  destruct Hr as [Hm2 Ho2]. destruct (Servant_delete_spec _ _ p2 Hm2) as (p3 & -> & Hm3 & Ho3).
  split; [done|]. rewrite Ho3, Ho2. cbn [ps_system so_fd]. rewrite Hopen. set_solver.
Qed.

End leaks.

(** ** Every client is served, in order *)

(** A system on which clients connect, send bytes and close their side: those that wait with
    the bytes of each, what was sent to the clients whose connections are closed, and what was
    sent so far on an open connection. *)
Class ClientsLaws (O Addr : Type) {SN : ServerNet O Addr} := {
  cl_socket :: SocketLaws (Connection O);
  cl_waiting : O -> list string;
  cl_sent : O -> list string;
  cl_out : Connection O -> string;
  cl_accept fd (o : O) b bs : cl_waiting o = b :: bs -> exists c o', os_accept fd o = (Ret c, o') /\ c <> -1 /\
    cl_waiting o' = bs /\ cl_sent o' = cl_sent o /\ cl_out (mkConnection c o') = EmptyString /\
    sl_pending (mkConnection c o') b /\ sl_closed (mkConnection c o') /\ sl_writable (mkConnection c o');
  cl_close fd (o : O) : sl_writable (mkConnection fd o) -> exists o', os_close fd o = (Ret tt, o') /\
    cl_waiting o' = cl_waiting o /\ cl_sent o' = cl_sent o ++ [cl_out (mkConnection fd o)];
  cl_same (c c' : Connection O) : sl_same c c' -> cn_fd c' = cn_fd c /\ cl_waiting (cn_system c') = cl_waiting (cn_system c) /\
    cl_sent (cn_system c') = cl_sent (cn_system c) /\ cl_out c' = cl_out c /\ (sl_writable c -> sl_writable c');
  cl_append b (c : Connection O) : sl_writable c -> cn_fd (sl_append b c) = cn_fd c /\
    cl_waiting (cn_system (sl_append b c)) = cl_waiting (cn_system c) /\
    cl_sent (cn_system (sl_append b c)) = cl_sent (cn_system c) /\ cl_out (sl_append b c) = cl_out c +:+ b /\
    (sl_closed c -> sl_closed (sl_append b c)) /\ (forall x, sl_pending c x -> sl_pending (sl_append b c) x)
}.

Section served.
Context {S H O Addr : Type} {SM : ServerModules S H} {SN : ServerNet O Addr} {CL : ClientsLaws O Addr}.

(** What a client gets: its modules are created, its requests are answered and the modules are
    released. *)
Definition client_session (mm : ModulesMask) (reqs : list (string * string)) : M S (list (string * string)) :=
  let* d := Servant_modules (module_of MODULE_ID_CPUFREQ) (module_of MODULE_ID_TOPOLOGY) (module_of MODULE_ID_ENERGY) mm in
  let* rs := for_map reqs (answer (dispatcher_of d)) in
  let* d := release_module_named MODULE_ID_CPUFREQ d in
  let* d := release_module_named MODULE_ID_TOPOLOGY d in
  let* d := release_module_named MODULE_ID_ENERGY d in
  ret rs.

(** The connection when it was sent [bytes] more. *)
Record went_on (c c' : Connection O) (bytes : string) : Prop := {
  wo_fd : cn_fd c' = cn_fd c;
  wo_waiting : cl_waiting (cn_system c') = cl_waiting (cn_system c);
  wo_sent : cl_sent (cn_system c') = cl_sent (cn_system c);
  wo_out : cl_out c' = cl_out c +:+ bytes;
  wo_writable : sl_writable c';
  wo_closed : sl_closed c'
}.

Lemma run_answers (dispatcher : Dispatcher S) reqs : forall s rs s' (c : Connection O), Forall short_message reqs ->
  for_map reqs (answer dispatcher) s = (Ret rs, s') -> sl_pending c (frames reqs) -> sl_writable c -> sl_closed c ->
  exists c', sl_pending c' EmptyString /\ went_on c c' (frames rs) /\
    forall fuel, Servant_run dispatcher (length reqs + fuel) (mkServant s (mkTcp false c)) =
                 Servant_run dispatcher fuel (mkServant s' (mkTcp false c')).
Proof.
  induction reqs as [|[id m] reqs IH]; intros s rs s' c Hs Ha Hp Hw Hc.
  { injection Ha as <- <-. exists c. split; [done|]. split; [|done]. constructor; try done. by rewrite str_app_nil_r. }
  apply Forall_cons in Hs as [[Hid Hm] Hs]. simpl in Ha.
  apply bind_Ret_inv in Ha as ([ido mo] & s1 & Ha0 & Ha). apply bind_Ret_inv in Ha as (rs1 & s2 & Ha1 & Ha).
  injection Ha as <- <-. cbn [frames] in Hp.
  destruct (Servant_step_answers dispatcher (fun a b Hab => proj2 (proj2 (proj2 (proj2 (cl_same a b Hab))))) id m _ s c Hid Hm Hw Hp)
    as (c1 & Hp1 & Hs1 & E).
  rewrite Ha0 in E. destruct (cl_same _ _ Hs1) as (F1 & W1 & S1 & O1 & Hw1). specialize (Hw1 Hw).
  destruct (cl_append (frame ido mo) c1 Hw1) as (F2 & W2 & S2 & O2 & Hc2 & Hp2).
  destruct (IH s1 rs1 s2 (sl_append (frame ido mo) c1)) as (c3 & Hp3 & [F3 W3 S3 O3 Hw3 Hc3] & E3); [done|done|by apply Hp2| | |].
  { by apply sl_append_writable. }
  { apply Hc2. by eapply sl_same_closed. }
  exists c3. split; [done|]. split.
  - constructor; [congruence..| |done|done]. rewrite O3, O2, O1. cbn [frames]. by rewrite str_app_assoc.
  - intros fuel. cbn [length plus Servant_run]. by rewrite (bind_Ret _ _ _ _ _ E).
Qed.

Lemma run_ends (dispatcher : Dispatcher S) s (c : Connection O) : sl_pending c EmptyString -> sl_closed c ->
  Servant_step dispatcher (mkServant s (mkTcp false c)) = (Ret false, mkServant s (mkTcp false c)).
Proof.
  intros Hp Hc. unfold Servant_step. rewrite (bind_Ret _ _ _ tt (mkServant s (mkTcp false c))) by done.
  unfold Servant_serve. unfold bind at 1. rewrite on_communicator_socket.
  unfold Communicator_receive, Communicator_receiveHeader, bind. by rewrite receive_closed.
Qed.

(** One client: its session on the machine, and the bytes of its answers. *)
Lemma serve_client_session fuel listenSocket mm (reqs rs : list (string * string)) s s' o later :
  Forall short_message reqs -> client_session mm reqs s = (Ret rs, s') ->
  cl_waiting o = frames reqs :: later -> (length reqs < fuel)%nat ->
  exists o', serve_client fuel listenSocket mm (mkProcess s o) = (Ret tt, mkProcess s' o') /\
    cl_waiting o' = later /\ cl_sent o' = cl_sent o ++ [frames rs].
Proof.
  intros Hs Hcs Hw Hf. unfold client_session in Hcs. apply bind_Ret_inv in Hcs as (d & s1 & Ed & Hcs).
  apply bind_Ret_inv in Hcs as (rs' & s2 & Ea & Hcs). apply bind_Ret_inv in Hcs as (d1 & s3 & E1 & Hcs).
  apply bind_Ret_inv in Hcs as (d2 & s4 & E2 & Hcs). apply bind_Ret_inv in Hcs as (d3 & s5 & E3 & Hcs).
  injection Hcs as -> ->.
  destruct (cl_accept listenSocket o _ _ Hw) as (fd & o1 & Eo & Hfd & Hw1 & Hs1 & Hout & Hp & Hc & Hwr).
  destruct (run_answers (dispatcher_of d) reqs s1 rs s2 (mkConnection fd o1) Hs Ea Hp Hwr Hc) as (c & Hp2 & [F W Sn Out Wr Cl] & Erun).
  destruct c as [fd' o2]. cbn [cn_fd cn_system] in *. subst fd'.
  assert (Servant_run (dispatcher_of d) fuel (mkServant s1 (mkTcp false (mkConnection fd o1))) =
          (Ret false, mkServant s2 (mkTcp false (mkConnection fd o2)))) as Er.
  { replace fuel with (length reqs + Datatypes.S (fuel - length reqs - 1))%nat by lia. rewrite Erun. cbn [Servant_run].
    by rewrite (bind_Ret _ _ _ _ _ (run_ends _ _ _ Hp2 Cl)). }
  destruct (cl_close fd o2 Wr) as (o3 & Ec & Hw3 & Hs3). exists o3. split; [|split; [congruence|]].
  - unfold serve_client, Servant_new, Servant_delete, ServantObject_run, CommunicatorTcp_accepted, ServerTcp_accept, CommunicatorTcp_delete.
    unfold in_system, in_machine, gets, throw, bind, ret. cbn [ps_machine ps_system]. rewrite Eo. cbv beta iota.
    rewrite (proj2 (Z.eqb_neq fd (-1)) Hfd). cbn [ps_machine ps_system]. rewrite Ed. cbn [so_modules so_fd ps_machine ps_system].
    rewrite Er. cbn [sv_machine sv_communicator tc_socket cn_system ps_machine ps_system so_modules so_fd].
    rewrite E1. cbn [ps_machine ps_system]. rewrite E2. cbn [ps_machine ps_system]. rewrite E3. cbn [ps_machine ps_system].
    by rewrite Ec.
  - by rewrite Hs3, Sn, Hs1, Out, Hout.
Qed.

Lemma accept_loop_sessions (clients rss : list (list (string * string))) (s s' : S) (o : O) fuel listenSocket mm :
  Forall (Forall short_message) clients -> Forall (fun reqs => length reqs < fuel)%nat clients ->
  for_map clients (client_session mm) s = (Ret rss, s') -> cl_waiting o = map frames clients ->
  exists o', accept_loop (length clients) fuel listenSocket mm (mkProcess s o) = (Ret tt, mkProcess s' o') /\
    cl_waiting o' = [] /\ cl_sent o' = cl_sent o ++ map frames rss.
Proof.
  revert rss s o. induction clients as [|reqs clients IH]; intros rss s o Hs Hf Hc Hw.
  { injection Hc as <- <-. exists o. by rewrite app_nil_r. }
  apply Forall_cons in Hs as [Hs1 Hs2]. apply Forall_cons in Hf as [Hf1 Hf2]. simpl in Hc.
  apply bind_Ret_inv in Hc as (rs & s1 & Hc1 & Hc). apply bind_Ret_inv in Hc as (rss' & s2 & Hc2 & Hc). injection Hc as <- <-.
  destruct (serve_client_session fuel listenSocket mm reqs rs s s1 o _ Hs1 Hc1 Hw Hf1) as (o1 & E1 & Hw1 & Hsn1).
  destruct (IH rss' s1 o1 Hs2 Hf2 Hc2 Hw1) as (o2 & E2 & Hw2 & Hsn2).
  exists o2. cbn [length accept_loop]. rewrite (bind_Ret _ _ _ _ _ E1), E2. split; [done|]. split; [done|].
  cbn [map]. by rewrite Hsn2, Hsn1, <- app_assoc.
Qed.
(** C10: the server refines the clients' sessions one after the other: started with options that
    activate the modules [mm] on a port, it sends each client exactly the answers of its session,
    on modules that are created when it connects and released when it leaves, and the machine is
    the one that the sessions leave in this order. *)
Theorem main_refines_sessions (args : list string) (opts : Options) (mm : ModulesMask)
    (clients rss : list (list (string * string))) (s s' : S) (o o1 : O) (fuel : nat) (listenSocket : Z) :
  parse_command_line args = Ret (Some opts) -> server_mask (op_all opts) (op_mm opts) = Some mm ->
  op_tcpport opts <> 0 -> ServerTcp_new (op_tcpport opts) o = (Ret listenSocket, o1) ->
  Forall (Forall short_message) clients -> Forall (fun reqs => length reqs < fuel)%nat clients ->
  for_map clients (client_session mm) s = (Ret rss, s') -> cl_waiting o1 = map frames clients ->
  exists o', main (length clients) fuel args (mkProcess s o) = (Ret None, mkProcess s' o') /\
    cl_waiting o' = [] /\ cl_sent o' = cl_sent o1 ++ map frames rss.
Proof.
  intros Hp Hm Ht Hn Hs Hf Hc Hw.
  destruct (accept_loop_sessions clients rss s s' o1 fuel listenSocket mm Hs Hf Hc Hw) as (o' & E & H1 & H2).
  exists o'. split; [|done]. unfold main, lift. rewrite Hp. unfold bind at 1. rewrite Hm, (proj2 (Z.eqb_neq _ _) Ht).
  unfold in_system, bind. cbn [ps_system ps_machine]. by rewrite Hn, E.
Qed.
End served.

(** ** Witnesses: clients that wait with their bytes, and modules that echo *)

(** The segments that the clients that wait will send, the open descriptors with their streams,
    and what the clients got whose connections are closed. *)
Record Backlog := mkBacklog { bl_waiting : list (list string); bl_open : gmap Z Stream; bl_sent : list string }.
Definition bl_fresh (o : Backlog) : Z := fresh ({[-1]} ∪ dom (bl_open o) : gset Z).
Definition bl_set (fd : Z) (st : Stream) (o : Backlog) : Backlog :=
  mkBacklog (bl_waiting o) (<[fd := st]> (bl_open o)) (bl_sent o).
Definition nonempty_segments (l : list string) : list string := filter (fun x => x <> EmptyString) l.

#[export] Instance backlog_api : NetworkApi Backlog unit := {|
  os_socket o := (Ret (bl_fresh o), bl_set (bl_fresh o) (mkStream [] EmptyString) o);
  os_close fd o :=
    (Ret tt, mkBacklog (bl_waiting o) (delete fd (bl_open o))
               match bl_open o !! fd with Some st => bl_sent o ++ [st_out st] | None => bl_sent o end);
  os_inet_pton _ := Some tt;
  os_connect _ _ _ o := (Ret 0, o);
  os_bind _ _ o := (Ret 0, o);
  os_listen _ _ o := (Ret 0, o);
  os_accept _ o :=
    match bl_waiting o with
    | [] => (Ret (-1), o)
    | l :: ls => (Ret (bl_fresh o), bl_set (bl_fresh o) (mkStream (nonempty_segments l) EmptyString)
                                      (mkBacklog ls (bl_open o) (bl_sent o)))
    end;
  os_strerror _ := "Resource temporarily unavailable"%string
|}.
#[export] Instance backlog_net : ServerNet Backlog unit := {|
  sn_write fd b o :=
    match bl_open o !! fd with
    | Some st => (Ret (str_len b), bl_set fd (mkStream (st_in st) (st_out st +:+ b)) o)
    | None => (Ret (-1), o)
    end;
  sn_read fd n o :=
    match bl_open o !! fd with
    | Some st => let '(r, l) := read_segments n (st_in st) in (Ret r, bl_set fd (mkStream l (st_out st)) o)
    | None => (Ret ReadFailed, o)
    end
|}.

Lemma bl_fresh_spec o : bl_fresh o <> -1 /\ bl_open o !! bl_fresh o = None.
Proof.
  pose proof (is_fresh ({[-1]} ∪ dom (bl_open o) : gset Z)) as Hf. fold (bl_fresh o) in Hf.
  split; [set_solver|]. apply not_elem_of_dom. set_solver.
Qed.

#[export] Program Instance backlog_network_laws : NetworkLaws Backlog unit := {| nl_open o := dom (bl_open o) |}.
Next Obligation.
  intros o. destruct (bl_fresh_spec o) as [Hn Hf]. eexists _, _. split; [reflexivity|]. right.
  split; [done|]. split; [by apply not_elem_of_dom|]. cbn. by rewrite dom_insert_L.
Qed.
Next Obligation. intros fd o. eexists. split; [reflexivity|]. cbn. by rewrite dom_delete_L. Qed.
Next Obligation. intros. by eexists _, _. Qed.
Next Obligation. intros. by eexists _, _. Qed.
Next Obligation. intros. by eexists _, _. Qed.
#[export] Program Instance backlog_server_laws : ServerNetLaws Backlog unit := {| snl_stops _ := False |}.
Next Obligation.
  intros fd o. cbn. destruct (bl_waiting o) as [|l ls]; [by left|]. right.
  destruct (bl_fresh_spec o) as [Hn Hf]. split; [done|]. split; [by apply not_elem_of_dom|]. cbn. by rewrite dom_insert_L.
Qed.
Next Obligation.
  intros fd b D o r o' HD E. cbn in E, HD. destruct (bl_open o !! fd) as [st|] eqn:Eo; injection E as <- <-; [|done].
  cbn. rewrite dom_insert_lookup_L; [done|by eexists].
Qed.
Next Obligation.
  intros fd n D o r o' HD E. cbn in E, HD. destruct (bl_open o !! fd) as [st|] eqn:Eo; [|by injection E as <- <-].
  destruct (read_segments n (st_in st)) as [r0 l]. injection E as <- <-. cbn. rewrite dom_insert_lookup_L; [done|by eexists].
Qed.

Definition bl_stream (c : Connection Backlog) : option Stream := bl_open (cn_system c) !! cn_fd c.
Definition bl_with (c : Connection Backlog) (st : Stream) : Connection Backlog :=
  mkConnection (cn_fd c) (bl_set (cn_fd c) st (cn_system c)).
Lemma bl_stream_with c st : bl_stream (bl_with c st) = Some st.
Proof. unfold bl_stream, bl_with. cbn. by rewrite lookup_insert_eq. Qed.
Lemma bl_with_with c st st' : bl_with (bl_with c st) st' = bl_with c st'.
Proof. unfold bl_with, bl_set. cbn. by rewrite insert_insert_eq. Qed.
Lemma bl_with_same c st : bl_stream c = Some st -> bl_with c st = c.
Proof. destruct c as [fd [w op sn]]. unfold bl_stream, bl_with, bl_set. cbn. intros. by rewrite insert_id. Qed.

Definition backlog_same (c c' : Connection Backlog) : Prop :=
  c' = c \/ exists st l, bl_stream c = Some st /\ c' = bl_with c (mkStream l (st_out st)).

Definition bl_append (b : string) (c : Connection Backlog) : Connection Backlog :=
  match bl_stream c with Some st => bl_with c (mkStream (st_in st) (st_out st +:+ b)) | None => c end.
Definition bl_out (c : Connection Backlog) : string :=
  match bl_stream c with Some st => st_out st | None => EmptyString end.

#[export] Program Instance backlog_socket_laws : SocketLaws (Connection Backlog) := {|
  sl_pending c b := exists st, bl_stream c = Some st /\ stream_pending st b;
  sl_same := backlog_same;
  sl_closed _ := True;
  sl_writable c := is_Some (bl_stream c);
  sl_append := bl_append
|}.
Next Obligation. intros c. by left. Qed.
Next Obligation.
  intros c1 c2 c3 [->|(st & l & E & ->)]; [done|]. intros [->|(st' & l' & E' & ->)]; [right; by eexists _, _|].
  rewrite bl_stream_with in E'. injection E' as <-. right. exists st, l'. by rewrite bl_with_with.
Qed.
Next Obligation. done. Qed.
Next Obligation.
  intros n c b Hn (st & E & Hp) Hne. destruct (sl_read (SocketLaws := stream_laws) n st b Hn Hp Hne) as (p & q & st' & Er & Hpn & Hb & Hl & Hq & Hs).
  exists p, q, (bl_with c st'). destruct st as [l out]. cbn in Er. destruct (read_segments n l) as [r l'] eqn:El. injection Er as -> <-.
  split; [|split; [done|split; [done|split; [done|split]]]].
  - destruct c as [fd o]. unfold bl_stream in E. cbn in *. unfold on_fd. cbn. rewrite E. cbn. by rewrite El.
  - exists (mkStream l' out). by rewrite bl_stream_with.
  - right. by exists (mkStream l out), l'.
Qed.
Next Obligation.
  intros n c Hn (st & E & Hp) _. pose proof (sl_eof (SocketLaws := stream_laws) n st Hn Hp I) as Er. destruct st as [l out], c as [fd o].
  cbn in Er. destruct (read_segments n l) as [r l'] eqn:El. injection Er as -> ->.
  pose proof (bl_with_same _ _ E) as Hw. unfold bl_with in Hw. unfold bl_stream in E. cbn in *. unfold on_fd. cbn. rewrite E. cbn. rewrite El. by rewrite Hw.
Qed.
Next Obligation.
  intros b [fd o] [st E]. unfold bl_append. rewrite E. unfold bl_stream in E. cbn in *. unfold on_fd. cbn. by rewrite E.
Qed.
Next Obligation. intros b c [st E]. unfold bl_append. rewrite E, bl_stream_with. by eexists. Qed.
Next Obligation.
  intros a b c. unfold bl_append. destruct (bl_stream c) as [st|] eqn:E; [|by rewrite E].
  rewrite bl_stream_with, bl_with_with. cbn. by rewrite str_app_assoc.
Qed.

Lemma segments_nonempty l : segments (nonempty_segments l) = segments l /\ Forall (fun x => x <> EmptyString) (nonempty_segments l).
Proof.
  unfold nonempty_segments. split; [|apply Forall_forall; by intros x [Hx _]%list_elem_of_filter].
  induction l as [|x l IH]; [done|]. rewrite filter_cons. case_decide as Hx; cbn [segments]; [by rewrite IH|].
  by rewrite IH, Hx.
Qed.

#[export] Program Instance backlog_clients : ClientsLaws Backlog unit := {|
  cl_waiting o := segments <$> bl_waiting o;
  cl_sent := bl_sent;
  cl_out := bl_out
|}.
Next Obligation.
  intros fd o b bs Hw. cbn in *. destruct (bl_waiting o) as [|l ls]; [done|]. injection Hw as <- <-.
  destruct (bl_fresh_spec o) as [Hn _]. destruct (segments_nonempty l) as [Hs Hf].
  eexists _, _. split; [reflexivity|]. split; [done|]. unfold bl_out, bl_stream. cbn. rewrite lookup_insert_eq.
  split; [done|]. split; [done|]. split; [done|]. split; [|split; [done|by eexists]].
  eexists. split; [done|]. by split.
Qed.
Next Obligation.
  intros fd o [st E]. unfold bl_stream in E. cbn in E. eexists. split; [reflexivity|]. cbn. rewrite E. split; [done|].
  unfold bl_out, bl_stream. cbn. by rewrite E.
Qed.
Next Obligation.
  intros c c' [->|(st & l & E & ->)]; [done|]. unfold bl_out. rewrite bl_stream_with, E. cbn. split; [done|]. split; [done|].
  split; [done|]. split; [done|]. intros _. rewrite lookup_insert_eq. by eexists.
Qed.
Next Obligation.
  intros b c [st E]. cbn. unfold bl_out, bl_append. rewrite E, bl_stream_with. cbn. split; [done|]. split; [done|]. split; [done|].
  split; [done|]. split; [done|]. intros x (st' & E' & Hp). simplify_eq. eexists. split; [done|]. exact Hp.
Qed.

(** Modules that are numbered as they are created: the machine has the next number, the live
    ones and how many messages were processed. The energy module cannot be created. *)
Record EchoMachine := mkEchoMachine { em_next : nat; em_live : gset nat; em_messages : Z }.
#[export] Instance echo_modules : ServerModules EchoMachine nat := {|
  md_getModuleName k :=
    match k with MODULE_ID_CPUFREQ => "cpufreq" | MODULE_ID_TOPOLOGY => "topology" | MODULE_ID_ENERGY => "energy" end%string;
  md_local k s :=
    match k with
    | MODULE_ID_ENERGY => (Throw (runtime_error "no counter"), s)
    | _ => let m := fresh (em_live s) in (Ret m, mkEchoMachine (S (em_next s)) ({[m]} ∪ em_live s) (em_messages s))
    end;
  md_release m s :=
    if bool_decide (m ∈ em_live s) then (Ret tt, mkEchoMachine (em_next s) (em_live s ∖ {[m]}) (em_messages s))
    else (Undef "delete of an object that is not alive", s);
  md_processMessage m id msg s :=
    if bool_decide (m ∈ em_live s) then
      (if String.eqb msg "bad" then Throw (runtime_error "bad") else Ret (Some (id, msg)),
       mkEchoMachine (em_next s) (em_live s) (em_messages s + 1))
    else (Undef "an object that is not alive", s)
|}.
#[export] Program Instance echo_modules_laws : ServerModulesLaws EchoMachine nat := {| ml_live := em_live; ml_stops _ := False |}.
Next Obligation. by intros [] []. Qed.
Next Obligation. intros [] s; cbn; [| |done]; (split; [apply is_fresh|done]). Qed.
Next Obligation. intros m s Hm. eexists. cbn. rewrite bool_decide_eq_true_2 by done. by split. Qed.
Next Obligation.
  intros m id msg L Hm s r s' Hs E. cbn in E, Hs. subst L. rewrite bool_decide_eq_true_2 in E by done.
  destruct (String.eqb msg "bad"); by injection E as <- <-.
Qed.

Definition ask (module text : string) : string * string := ("mammut." +:+ module +:+ ".Ask", text)%string.
Definition two_clients : list (list (string * string)) :=
  [[ask "topology" "one"; ask "cpufreq" "bad"]; [ask "energy" "two"; ask "topology" "three"]].
Definition sample_backlog : Backlog := mkBacklog (in_two <$> (frames <$> two_clients)) ∅ [].
Definition sample_process : Process EchoMachine Backlog := mkProcess (mkEchoMachine 0 ∅ 0) sample_backlog.

(** Two clients are served; no third one comes, and [accept] fails. *)
Lemma accept_loop_ends :
  match fst (accept_loop 3 9 (-7) mask_all sample_process) with Throw _ => true | _ => false end = true.
Proof. vm_compute. reflexivity. Qed.

Lemma main_refines_sessions_witness :
  exists o', main 2 3 ["--all"; "-p"; "8080"]%string sample_process = (Ret None, mkProcess (mkEchoMachine 4 ∅ 3) o') /\
    cl_waiting o' = [] /\
    cl_sent o' = [frames [ask "topology" "one"; (EmptyString, "bad"%string)];
                  frames [(EmptyString, "Server: Module energy not activated."%string); ask "topology" "three"]].
Proof.
  destruct (main_refines_sessions ["--all"; "-p"; "8080"]%string (mkOptions 0 8080 1 (mkModulesMask 0 0 0)) mask_all two_clients
    [[ask "topology" "one"; (EmptyString, "bad"%string)];
     [(EmptyString, "Server: Module energy not activated."%string); ask "topology" "three"]]
    (mkEchoMachine 0 ∅ 0) (mkEchoMachine 4 ∅ 3) sample_backlog (snd (ServerTcp_new 8080 sample_backlog)) 3 0)
    as (o' & E & Hw & Hs).
  - vm_compute. reflexivity.
  - vm_compute. reflexivity.
  - discriminate.
  - vm_compute. reflexivity.
  - repeat (apply Forall_cons_2; [repeat (apply Forall_cons_2; [split; vm_compute; reflexivity|]); apply Forall_nil_2|]). apply Forall_nil_2.
  - repeat (apply Forall_cons_2; [vm_compute; lia|]). apply Forall_nil_2.
  - vm_compute. reflexivity.
  - vm_compute. reflexivity.
  - exists o'. split; [exact E|]. split; [exact Hw|]. rewrite Hs. vm_compute. reflexivity.
Defined.


(** A client that has closed its connection when its answer is written ends the server, here with
    a module that is alive and a client that waits. *)
Definition sigpipe : string := "the process is ended by SIGPIPE".
Definition rude_net : ServerNet Backlog unit := {|
  sn_api := backlog_api;
  sn_write _ _ o := (Undef sigpipe, o);
  sn_read := sn_read
|}.
Lemma leaving_client_ends_server :
  let '(r, p') := accept_loop (SN := rude_net) 2 9 (-7) mask_all sample_process in
  r = Undef sigpipe /\ size (em_live (ps_machine p')) = 2%nat /\ length (bl_waiting (ps_system p')) = 1%nat.
Proof. vm_compute. by split_and!. Qed.
