(* ===== verification/TopologyRemote.v ===== *)
(** * The remote topology (src/topology/topology-remote.cpp, processMessage of topology.cpp)

    [TopologyMsg] has the messages of topology-remote.proto.  The server side works on the tree
    of the server and on the interfaces [VirtualCoreOps] and [TopologyUnitOps] (what a client
    may ask of CPUs, virtual cores and idle levels besides), which the local classes
    implement.  On the client side [RemoteTopology] is the connection with the idle levels of
    the remote cores, and [RemoteVirtualCore] is another instance of [VirtualCoreOps], so that
    the tree of a client is built by the code that builds a local one. *)
From S2P Require Import Prelude UtilsText UtilsVector Double UtilsSys UtilsSync Topology Task TopologyLinux Communicator ProtobufSample Server.

(** ** Messages *)

(** [SetUtilization::Type], src/topology/topology-remote.proto:67-70. *)
Inductive UtilizationType := MAXIMIZE | RESET.
(** [SetUtilization::UnitType], src/topology/topology-remote.proto:71-76. *)
Inductive UnitType := TOPOLOGY | CPU | PHYSICAL_CORE | VIRTUAL_CORE.

(** [mammut.topology], src/topology/topology-remote.proto:5-208. An optional argument is a
    required field that a handler may leave unset. *)
Inductive TopologyMsg :=
  | tp_GetTopology
  | tp_GetTopologyRes (coordinates : list VirtualCoreCoordinates)
  | tp_GetCpuVendorId (cpu_id : Z) | tp_GetCpuVendorIdRes (vendor_id : string)
  | tp_GetCpuFamily (cpu_id : Z) | tp_GetCpuFamilyRes (family : string)
  | tp_GetCpuModel (cpu_id : Z) | tp_GetCpuModelRes (model : string)
  | tp_IsHotPluggable (virtual_core_id : Z)
  | tp_IsHotPlugged (virtual_core_id : Z)
  | tp_HotPlug (virtual_core_id : Z)
  | tp_HotUnplug (virtual_core_id : Z)
  | tp_GetAbsoluteTicks (virtual_core_id : Z)
  | tp_HasFlag (virtual_core_id : Z) (flag_name : string)
  | tp_SetUtilization (type : UtilizationType) (unit_type : UnitType) (id : Z)
  | tp_GetIdleTime (virtual_core_id : Z) | tp_GetIdleTimeRes (idle_time : double)
  | tp_ResetIdleTime (virtual_core_id : Z)
  | tp_IdleLevelsGet (virtual_core_id : Z) | tp_IdleLevelsGetRes (level_id : list Z)
  | tp_IdleLevelGetName (virtual_core_id level_id : Z) | tp_IdleLevelGetNameRes (name : option string)
  | tp_IdleLevelGetDesc (virtual_core_id level_id : Z) | tp_IdleLevelGetDescRes (description : option string)
  | tp_IdleLevelIsEnableable (virtual_core_id level_id : Z)
  | tp_IdleLevelIsEnabled (virtual_core_id level_id : Z)
  | tp_IdleLevelEnable (virtual_core_id level_id : Z)
  | tp_IdleLevelDisable (virtual_core_id level_id : Z)
  | tp_IdleLevelGetExitLatency (virtual_core_id level_id : Z) | tp_IdleLevelGetExitLatencyRes (exit_latency : option Z)
  | tp_IdleLevelGetConsumedPower (virtual_core_id level_id : Z) | tp_IdleLevelGetConsumedPowerRes (consumed_power : option Z)
  | tp_IdleLevelGetAbsTime (virtual_core_id level_id : Z)
  | tp_IdleLevelGetTime (virtual_core_id level_id : Z) | tp_IdleLevelGetTimeRes (time : option Z)
  | tp_IdleLevelResetTime (virtual_core_id level_id : Z)
  | tp_IdleLevelGetAbsCount (virtual_core_id level_id : Z)
  | tp_IdleLevelGetCount (virtual_core_id level_id : Z) | tp_IdleLevelGetCountRes (count : option Z)
  | tp_IdleLevelResetCount (virtual_core_id level_id : Z)
  | tp_ResultVoid
  | tp_ResultDouble (result : double)
  | tp_ResultBool (result : option bool)
  | tp_ResultUint64 (result : Z).

Definition tp_name (m : TopologyMsg) : string :=
  "mammut.topology." +:+
  match m with
  | tp_GetTopology => "GetTopology" | tp_GetTopologyRes _ => "GetTopologyRes"
  | tp_GetCpuVendorId _ => "GetCpuVendorId" | tp_GetCpuVendorIdRes _ => "GetCpuVendorIdRes"
  | tp_GetCpuFamily _ => "GetCpuFamily" | tp_GetCpuFamilyRes _ => "GetCpuFamilyRes"
  | tp_GetCpuModel _ => "GetCpuModel" | tp_GetCpuModelRes _ => "GetCpuModelRes"
  | tp_IsHotPluggable _ => "IsHotPluggable" | tp_IsHotPlugged _ => "IsHotPlugged"
  | tp_HotPlug _ => "HotPlug" | tp_HotUnplug _ => "HotUnplug"
  | tp_GetAbsoluteTicks _ => "GetAbsoluteTicks" | tp_HasFlag _ _ => "HasFlag"
  | tp_SetUtilization _ _ _ => "SetUtilization"
  | tp_GetIdleTime _ => "GetIdleTime" | tp_GetIdleTimeRes _ => "GetIdleTimeRes"
  | tp_ResetIdleTime _ => "ResetIdleTime"
  | tp_IdleLevelsGet _ => "IdleLevelsGet" | tp_IdleLevelsGetRes _ => "IdleLevelsGetRes"
  | tp_IdleLevelGetName _ _ => "IdleLevelGetName" | tp_IdleLevelGetNameRes _ => "IdleLevelGetNameRes"
  | tp_IdleLevelGetDesc _ _ => "IdleLevelGetDesc" | tp_IdleLevelGetDescRes _ => "IdleLevelGetDescRes"
  | tp_IdleLevelIsEnableable _ _ => "IdleLevelIsEnableable" | tp_IdleLevelIsEnabled _ _ => "IdleLevelIsEnabled"
  | tp_IdleLevelEnable _ _ => "IdleLevelEnable" | tp_IdleLevelDisable _ _ => "IdleLevelDisable"
  | tp_IdleLevelGetExitLatency _ _ => "IdleLevelGetExitLatency"
  | tp_IdleLevelGetExitLatencyRes _ => "IdleLevelGetExitLatencyRes"
  | tp_IdleLevelGetConsumedPower _ _ => "IdleLevelGetConsumedPower"
  | tp_IdleLevelGetConsumedPowerRes _ => "IdleLevelGetConsumedPowerRes"
  | tp_IdleLevelGetAbsTime _ _ => "IdleLevelGetAbsTime" | tp_IdleLevelGetTime _ _ => "IdleLevelGetTime"
  | tp_IdleLevelGetTimeRes _ => "IdleLevelGetTimeRes" | tp_IdleLevelResetTime _ _ => "IdleLevelResetTime"
  | tp_IdleLevelGetAbsCount _ _ => "IdleLevelGetAbsCount" | tp_IdleLevelGetCount _ _ => "IdleLevelGetCount"
  | tp_IdleLevelGetCountRes _ => "IdleLevelGetCountRes" | tp_IdleLevelResetCount _ _ => "IdleLevelResetCount"
  | tp_ResultVoid => "ResultVoid" | tp_ResultDouble _ => "ResultDouble" | tp_ResultBool _ => "ResultBool" | tp_ResultUint64 _ => "ResultUint64"
  end.

Definition utilization_code (t : UtilizationType) : Z := match t with MAXIMIZE => 0 | RESET => 1 end.
Definition unit_code (u : UnitType) : Z :=
  match u with TOPOLOGY => 0 | CPU => 1 | PHYSICAL_CORE => 2 | VIRTUAL_CORE => 3 end.
(** A required field that may be unset. *)
Definition pb_required {A} (c : A -> pb_field) (o : option A) : pb_field :=
  match o with Some a => c a | None => PbMissing end.
Definition vcc_fields (c : VirtualCoreCoordinates) : list pb_field :=
  [PbUint32 (vcc_cpuId c); PbUint32 (vcc_physicalCoreId c); PbUint32 (vcc_virtualCoreId c)].

Definition tp_fields (m : TopologyMsg) : list pb_field :=
  match m with
  | tp_GetTopology | tp_ResultVoid => []
  | tp_GetTopologyRes l => [PbMessages (map vcc_fields l)]
  | tp_GetCpuVendorId z | tp_GetCpuFamily z | tp_GetCpuModel z | tp_IsHotPluggable z | tp_IsHotPlugged z
  | tp_HotPlug z | tp_HotUnplug z | tp_GetAbsoluteTicks z | tp_GetIdleTime z | tp_ResetIdleTime z
  | tp_IdleLevelsGet z => [PbUint32 z]
  | tp_GetCpuVendorIdRes s | tp_GetCpuFamilyRes s | tp_GetCpuModelRes s => [PbString s]
  | tp_HasFlag z s => [PbUint32 z; PbString s]
  | tp_SetUtilization t u z => [PbEnum (utilization_code t); PbEnum (unit_code u); PbUint32 z]
  | tp_GetIdleTimeRes d | tp_ResultDouble d => [PbDouble d]
  | tp_IdleLevelsGetRes l => [PbUint32s l]
  | tp_IdleLevelGetName a b | tp_IdleLevelGetDesc a b | tp_IdleLevelIsEnableable a b | tp_IdleLevelIsEnabled a b
  | tp_IdleLevelEnable a b | tp_IdleLevelDisable a b | tp_IdleLevelGetExitLatency a b
  | tp_IdleLevelGetConsumedPower a b | tp_IdleLevelGetAbsTime a b | tp_IdleLevelGetTime a b
  | tp_IdleLevelResetTime a b | tp_IdleLevelGetAbsCount a b | tp_IdleLevelGetCount a b
  | tp_IdleLevelResetCount a b => [PbUint32 a; PbUint32 b]
  | tp_IdleLevelGetNameRes o | tp_IdleLevelGetDescRes o => [pb_required PbString o]
  | tp_IdleLevelGetExitLatencyRes o | tp_IdleLevelGetConsumedPowerRes o | tp_IdleLevelGetTimeRes o
  | tp_IdleLevelGetCountRes o => [pb_required PbUint32 o]
  | tp_ResultBool o => [pb_required PbBool o]
  | tp_ResultUint64 z => [PbUint64 z]
  end.

Definition vcc_of_fields (fs : list pb_field) : option VirtualCoreCoordinates :=
  match fs with [PbUint32 a; PbUint32 b; PbUint32 c] => Some (mkVcc a b c) | _ => None end.
Definition utilization_of_code (z : Z) : option UtilizationType :=
  if z =? 0 then Some MAXIMIZE else if z =? 1 then Some RESET else None.
Definition unit_of_code (z : Z) : option UnitType :=
  if z =? 0 then Some TOPOLOGY else if z =? 1 then Some CPU else if z =? 2 then Some PHYSICAL_CORE
  else if z =? 3 then Some VIRTUAL_CORE else None.

(** The message with these fields and this name. *)
Definition tp_of_fields (name : string) (fs : list pb_field) : option TopologyMsg :=
  find (fun m => bool_decide (tp_name m = name))
    match fs with
    | [] => [tp_GetTopology; tp_ResultVoid]
    | [PbMessages l] => match mapM vcc_of_fields l with Some cs => [tp_GetTopologyRes cs] | None => [] end
    | [PbUint32 z] =>
        [tp_GetCpuVendorId z; tp_GetCpuFamily z; tp_GetCpuModel z; tp_IsHotPluggable z; tp_IsHotPlugged z;
         tp_HotPlug z; tp_HotUnplug z; tp_GetAbsoluteTicks z; tp_GetIdleTime z; tp_ResetIdleTime z;
         tp_IdleLevelsGet z; tp_IdleLevelGetExitLatencyRes (Some z); tp_IdleLevelGetConsumedPowerRes (Some z);
         tp_IdleLevelGetTimeRes (Some z); tp_IdleLevelGetCountRes (Some z)]
    | [PbString s] =>
        [tp_GetCpuVendorIdRes s; tp_GetCpuFamilyRes s; tp_GetCpuModelRes s; tp_IdleLevelGetNameRes (Some s);
         tp_IdleLevelGetDescRes (Some s)]
    | [PbMissing] =>
        [tp_IdleLevelGetNameRes None; tp_IdleLevelGetDescRes None; tp_IdleLevelGetExitLatencyRes None;
         tp_IdleLevelGetConsumedPowerRes None; tp_IdleLevelGetTimeRes None; tp_IdleLevelGetCountRes None;
         tp_ResultBool None]
    | [PbUint32 z; PbString s] => [tp_HasFlag z s]
    | [PbEnum t; PbEnum u; PbUint32 z] =>
        match utilization_of_code t, unit_of_code u with
        | Some t, Some u => [tp_SetUtilization t u z]
        | _, _ => []
        end
    | [PbDouble d] => [tp_GetIdleTimeRes d; tp_ResultDouble d]
    | [PbUint32s l] => [tp_IdleLevelsGetRes l]
    | [PbUint32 a; PbUint32 b] =>
        [tp_IdleLevelGetName a b; tp_IdleLevelGetDesc a b; tp_IdleLevelIsEnableable a b; tp_IdleLevelIsEnabled a b;
         tp_IdleLevelEnable a b; tp_IdleLevelDisable a b; tp_IdleLevelGetExitLatency a b;
         tp_IdleLevelGetConsumedPower a b; tp_IdleLevelGetAbsTime a b; tp_IdleLevelGetTime a b;
         tp_IdleLevelResetTime a b; tp_IdleLevelGetAbsCount a b; tp_IdleLevelGetCount a b;
         tp_IdleLevelResetCount a b]
    | [PbBool b] => [tp_ResultBool (Some b)]
    | [PbUint64 z] => [tp_ResultUint64 z]
    | _ => []
    end.

#[export] Program Instance TopologyMsg_proto : ProtoMessage TopologyMsg := {|
  GetTypeName := tp_name; pb_fields := tp_fields; pb_of_fields := tp_of_fields
|}.
Next Obligation.
  intros m. destruct m; try reflexivity.
  - unfold tp_of_fields, tp_fields.
    assert (mapM vcc_of_fields (map vcc_fields coordinates) = Some coordinates) as ->.
    { induction coordinates as [|c l IH]; cbn [map mapM]; [done|]. rewrite IH. by destruct c. }
    reflexivity.
  - by destruct type, unit_type.
  - by destruct name.
  - by destruct description.
  - by destruct exit_latency.
  - by destruct consumed_power.
  - by destruct time.
  - by destruct count.
  - by destruct result.
Qed.

(** ** The server side *)

(** What the handlers ask of the objects of the server besides [VirtualCoreOps]: virtual
    methods of [Cpu] and [VirtualCore], and those of [VirtualCoreIdleLevel],
    include/mammut/topology/topology.hpp:407-522. [L] are the pointers to idle levels. *)
Class TopologyUnitOps (S L : Type) := {
  c_getVendorId : Cpu -> M S string;
  c_getFamily : Cpu -> M S string;
  c_getModel : Cpu -> M S string;
  v_hasFlag : VirtualCore -> string -> M S bool;
  v_getAbsoluteTicks : VirtualCore -> M S Z;
  v_getIdleTime : VirtualCore -> M S double;
  v_resetIdleTime : VirtualCore -> M S unit;
  v_getIdleLevels : VirtualCore -> M S (list L);
  l_getLevelId : L -> Z;
  l_getName : L -> M S string;
  l_getDesc : L -> M S string;
  l_isEnableable : L -> M S bool;
  l_isEnabled : L -> M S bool;
  l_enable : L -> M S unit;
  l_disable : L -> M S unit;
  l_getExitLatency : L -> M S Z;
  l_getConsumedPower : L -> M S Z;
  l_getAbsoluteTime : L -> M S Z;
  l_getTime : L -> M S Z;
  l_resetTime : L -> M S unit;
  l_getAbsoluteCount : L -> M S Z;
  l_getCount : L -> M S Z;
  l_resetCount : L -> M S unit
}.

Section process.
Context {S L : Type} {VO : VirtualCoreOps S} {TO : TopologyUnitOps S L} {PB : Protobuf}.

(** [Topology::getModuleName], src/topology/topology.cpp:587-590. *)
Definition Topology_getModuleName : outcome string := getModuleNameFromMessage tp_GetTopology.

(** The topology of the server. *)
Variable tp : Topology.

(** [PROCESS_CPU_REQUEST], src/topology/topology.cpp:592-605. *)
Definition process_cpu {A} (cpu_id : Z) (f : Cpu -> M S A) (answer : A -> TopologyMsg) : M S (option (string * string)) :=
  match Topology_getCpu tp cpu_id with
  | Some c => let* a := f c in ret (setMessageFromData (answer a))
  | None => throw (runtime_error ("FATAL exception. Operation required on non existing CPU. " +:+
                                  "This should never happen."))
  end.

Definition no_virtual_core : exn :=
  runtime_error "FATAL exception. Operation required on non existing VirtualCore. This should never happen.".

(** [PROCESS_VIRTUAL_CORE_REQUEST], src/topology/topology.cpp:607-620. *)
Definition process_virtual_core {A} (virtual_core_id : Z) (f : VirtualCore -> M S A) (answer : A -> TopologyMsg) :
    M S (option (string * string)) :=
  match Topology_getVirtualCore tp virtual_core_id with
  | Some vc => let* a := f vc in ret (setMessageFromData (answer a))
  | None => throw no_virtual_core
  end.

(** [PROCESS_IDLE_LEVEL], src/topology/topology.cpp:623-635: the value that the field of the
    response is left with. *)
Definition on_idle_level {A} (level_id : Z) (f : L -> M S A) (vc : VirtualCore) : M S (option A) :=
  let* levels := v_getIdleLevels vc in
  if bool_decide (length levels = 0%nat) then throw (runtime_error "Idle levels not present.")
  else
    for_fold levels None (fun res level =>
      if l_getLevelId level =? level_id then let* a := f level in ret (Some a) else ret res).

(** [PROCESS_VIRTUAL_CORE_REQUEST_IDLE_LEVEL], src/topology/topology.cpp:637-639. *)
Definition process_idle_level {A} (virtual_core_id level_id : Z) (f : L -> M S A) (answer : option A -> TopologyMsg) :
    M S (option (string * string)) :=
  process_virtual_core virtual_core_id (on_idle_level level_id f) answer.

(** A unit of the topology. *)
Inductive Unit := UnitTopology | UnitCpu (c : Cpu) | UnitPhysicalCore (p : PhysicalCore) | UnitVirtualCore (v : VirtualCore).

(** [Topology::processMessage], src/topology/topology.cpp:666-680: the unit of the request. *)
Definition find_unit (unit_type : UnitType) (id : Z) : option Unit :=
  match unit_type with
  | TOPOLOGY => Some UnitTopology
  | CPU => UnitCpu <$> Topology_getCpu tp id
  | PHYSICAL_CORE => UnitPhysicalCore <$> Topology_getPhysicalCore tp id
  | VIRTUAL_CORE => UnitVirtualCore <$> Topology_getVirtualCore tp id
  end.
(** The virtual methods of [Unit], on the local classes. *)
Definition Unit_maximizeUtilization (u : Unit) : M S unit :=
  match u with
  | UnitTopology => TopologyLinux_maximizeUtilization tp
  | UnitCpu c => CpuLinux_maximizeUtilization c
  | UnitPhysicalCore p => PhysicalCoreLinux_maximizeUtilization p
  | UnitVirtualCore v => v_maximizeUtilization v
  end.
Definition Unit_resetUtilization (u : Unit) : M S unit :=
  match u with
  | UnitTopology => TopologyLinux_resetUtilization tp
  | UnitCpu c => CpuLinux_resetUtilization c
  | UnitPhysicalCore p => PhysicalCoreLinux_resetUtilization p
  | UnitVirtualCore v => v_resetUtilization v
  end.

(** [Topology::processMessage], src/topology/topology.cpp:663-690: the request on utilisation. *)
Definition set_utilization (type : UtilizationType) (unit_type : UnitType) (id : Z) : M S unit :=
  match find_unit unit_type id with
  | None => throw (runtime_error "Operation required on non existing unit.")
  | Some u => match type with MAXIMIZE => Unit_maximizeUtilization u | RESET => Unit_resetUtilization u end
  end.

(** [Topology::processMessage], src/topology/topology.cpp:650-656: the coordinates. *)
Definition sent_coordinates : list VirtualCoreCoordinates :=
  map (fun v => mkVcc (u32 (vc_cpuId v)) (u32 (vc_physicalCoreId v)) (u32 (vc_virtualCoreId v))) (tp_virtualCores tp).

Definition tp_void (_ : unit) : TopologyMsg := tp_ResultVoid.
Definition tp_level_void (_ : option unit) : TopologyMsg := tp_ResultVoid.
Definition tp_bool (b : bool) : TopologyMsg := tp_ResultBool (Some b).
Definition level_u32 (c : option Z -> TopologyMsg) (z : option Z) : TopologyMsg := c (u32 <$> z).

(** [Topology::processMessage], src/topology/topology.cpp:641-742. *)
Definition Topology_processMessage (messageIdIn messageIn : string) : M S (option (string * string)) :=
  match (getDataFromMessage messageIdIn messageIn : option TopologyMsg) with
  | Some tp_GetTopology => ret (setMessageFromData (tp_GetTopologyRes sent_coordinates))
  | Some (tp_SetUtilization type unit_type id) =>
      let* r := set_utilization type unit_type id in ret (setMessageFromData (tp_void r))
  | Some (tp_GetCpuVendorId c) => process_cpu c c_getVendorId tp_GetCpuVendorIdRes
  | Some (tp_GetCpuFamily c) => process_cpu c c_getFamily tp_GetCpuFamilyRes
  | Some (tp_GetCpuModel c) => process_cpu c c_getModel tp_GetCpuModelRes
  | Some (tp_GetAbsoluteTicks v) => process_virtual_core v v_getAbsoluteTicks (fun t => tp_ResultUint64 (u64 t))
  | Some (tp_HasFlag v flag) => process_virtual_core v (fun vc => v_hasFlag vc flag) tp_bool
  | Some (tp_IsHotPluggable v) => process_virtual_core v v_isHotPluggable tp_bool
  | Some (tp_IsHotPlugged v) => process_virtual_core v v_isHotPlugged tp_bool
  | Some (tp_HotPlug v) => process_virtual_core v v_hotPlug tp_void
  | Some (tp_HotUnplug v) => process_virtual_core v v_hotUnplug tp_void
  | Some (tp_GetIdleTime v) => process_virtual_core v v_getIdleTime tp_GetIdleTimeRes
  | Some (tp_ResetIdleTime v) => process_virtual_core v v_resetIdleTime tp_void
  | Some (tp_IdleLevelGetName v l) => process_idle_level v l l_getName tp_IdleLevelGetNameRes
  | Some (tp_IdleLevelGetDesc v l) => process_idle_level v l l_getDesc tp_IdleLevelGetDescRes
  | Some (tp_IdleLevelIsEnableable v l) => process_idle_level v l l_isEnableable tp_ResultBool
  | Some (tp_IdleLevelIsEnabled v l) => process_idle_level v l l_isEnabled tp_ResultBool
  | Some (tp_IdleLevelEnable v l) => process_idle_level v l l_enable tp_level_void
  | Some (tp_IdleLevelDisable v l) => process_idle_level v l l_disable tp_level_void
  | Some (tp_IdleLevelGetExitLatency v l) => process_idle_level v l l_getExitLatency (level_u32 tp_IdleLevelGetExitLatencyRes)
  | Some (tp_IdleLevelGetConsumedPower v l) => process_idle_level v l l_getConsumedPower (level_u32 tp_IdleLevelGetConsumedPowerRes)
  | Some (tp_IdleLevelGetAbsTime v l) => process_idle_level v l l_getAbsoluteTime (level_u32 tp_IdleLevelGetTimeRes)
  | Some (tp_IdleLevelGetTime v l) => process_idle_level v l l_getTime (level_u32 tp_IdleLevelGetTimeRes)
  | Some (tp_IdleLevelResetTime v l) => process_idle_level v l l_resetTime tp_level_void
  | Some (tp_IdleLevelGetAbsCount v l) => process_idle_level v l l_getAbsoluteCount (level_u32 tp_IdleLevelGetCountRes)
  | Some (tp_IdleLevelGetCount v l) => process_idle_level v l l_getCount (level_u32 tp_IdleLevelGetCountRes)
  | Some (tp_IdleLevelResetCount v l) => process_idle_level v l l_resetCount tp_level_void
  | Some (tp_IdleLevelsGet v) =>
      process_virtual_core v v_getIdleLevels (fun levels => tp_IdleLevelsGetRes (map (fun l => u32 (l_getLevelId l)) levels))
  | _ => ret None
  end.
End process.

(** ** The client side *)

(** The connection, and the idle levels of the remote virtual cores: [_idleLevels] of each
    [VirtualCoreRemote], a level being the identifiers of its core and its own. *)
Record RemoteTopology (So : Type) := mkRemoteTopology {
  rt_communicator : CommunicatorTcp So; rt_idleLevels : gmap Z (list (Z * Z))
}.
Arguments mkRemoteTopology {So} _ _.
Arguments rt_communicator {So} _.
Arguments rt_idleLevels {So} _.

Definition tp_is_void (r : TopologyMsg) : option unit := match r with tp_ResultVoid => Some tt | _ => None end.
Definition tp_get_bool (r : TopologyMsg) : option bool := match r with tp_ResultBool o => o | _ => None end.
Definition tp_get_string (r : TopologyMsg) : option string :=
  match r with
  | tp_GetCpuVendorIdRes s | tp_GetCpuFamilyRes s | tp_GetCpuModelRes s => Some s
  | tp_IdleLevelGetNameRes o | tp_IdleLevelGetDescRes o => o
  | _ => None
  end.
Definition tp_get_uint (r : TopologyMsg) : option Z :=
  match r with
  | tp_IdleLevelGetExitLatencyRes o | tp_IdleLevelGetConsumedPowerRes o | tp_IdleLevelGetTimeRes o
  | tp_IdleLevelGetCountRes o => o
  | tp_ResultUint64 z => Some z
  | _ => None
  end.

Section client.
Context {So : Type} {SO : Socket So} {PB : Protobuf}.

Definition on_connection {A} (f : M (CommunicatorTcp So) A) : M (RemoteTopology So) A := fun t =>
  let '(r, c) := f (rt_communicator t) in (r, mkRemoteTopology c (rt_idleLevels t)).

Definition tp_call {B} (req : TopologyMsg) (responseType : string) (dec : TopologyMsg -> option B) :
    M (CommunicatorTcp So) B :=
  let* r := Communicator_remoteCall req ("mammut.topology." +:+ responseType) in
  lift (get_field dec r).

(** [setUtilization], src/topology/topology-remote.cpp:17-24. *)
Definition setUtilization (type : UtilizationType) (unitType : UnitType) (id : Z) : M (CommunicatorTcp So) unit :=
  tp_call (tp_SetUtilization type unitType (u32 id)) "ResultVoid" tp_is_void.

(** [TopologyRemote::maximizeUtilization], src/topology/topology-remote.cpp:26-28. *)
Definition TopologyRemote_maximizeUtilization : M (CommunicatorTcp So) unit := setUtilization MAXIMIZE TOPOLOGY 0.
(** [TopologyRemote::resetUtilization], src/topology/topology-remote.cpp:30-32. *)
Definition TopologyRemote_resetUtilization : M (CommunicatorTcp So) unit := setUtilization RESET TOPOLOGY 0.

(** [CpuRemote::getVendorId], src/topology/topology-remote.cpp:39-45. *)
Definition CpuRemote_getVendorId (c : Cpu) : M (CommunicatorTcp So) string :=
  tp_call (tp_GetCpuVendorId (u32 (cpu_cpuId c))) "GetCpuVendorIdRes" tp_get_string.
(** [CpuRemote::getFamily], src/topology/topology-remote.cpp:47-53. *)
Definition CpuRemote_getFamily (c : Cpu) : M (CommunicatorTcp So) string :=
  tp_call (tp_GetCpuFamily (u32 (cpu_cpuId c))) "GetCpuFamilyRes" tp_get_string.
(** [CpuRemote::getModel], src/topology/topology-remote.cpp:55-61. *)
Definition CpuRemote_getModel (c : Cpu) : M (CommunicatorTcp So) string :=
  tp_call (tp_GetCpuModel (u32 (cpu_cpuId c))) "GetCpuModelRes" tp_get_string.
(** [CpuRemote::maximizeUtilization], src/topology/topology-remote.cpp:63-65. *)
Definition CpuRemote_maximizeUtilization (c : Cpu) : M (CommunicatorTcp So) unit := setUtilization MAXIMIZE CPU (cpu_cpuId c).
(** [CpuRemote::resetUtilization], src/topology/topology-remote.cpp:67-69. *)
Definition CpuRemote_resetUtilization (c : Cpu) : M (CommunicatorTcp So) unit := setUtilization RESET CPU (cpu_cpuId c).

(** [PhysicalCoreRemote::maximizeUtilization], src/topology/topology-remote.cpp:77-79. *)
Definition PhysicalCoreRemote_maximizeUtilization (p : PhysicalCore) : M (CommunicatorTcp So) unit :=
  setUtilization MAXIMIZE PHYSICAL_CORE (pc_physicalCoreId p).
(** [PhysicalCoreRemote::resetUtilization], src/topology/topology-remote.cpp:81-83. *)
Definition PhysicalCoreRemote_resetUtilization (p : PhysicalCore) : M (CommunicatorTcp So) unit :=
  setUtilization RESET PHYSICAL_CORE (pc_physicalCoreId p).

(** An idle level of a remote core: [_virtualCoreId] and [_levelId]. *)
Definition RemoteLevel : Type := Z * Z.
Definition level_call {B} (req : Z -> Z -> TopologyMsg) (responseType : string) (dec : TopologyMsg -> option B)
    (l : RemoteLevel) : M (CommunicatorTcp So) B :=
  tp_call (req (u32 (fst l)) (u32 (snd l))) responseType dec.

(** [VirtualCoreIdleLevelRemote::getName], src/topology/topology-remote.cpp:91-98. *)
Definition IdleLevelRemote_getName : RemoteLevel -> M (CommunicatorTcp So) string :=
  level_call tp_IdleLevelGetName "IdleLevelGetNameRes" tp_get_string.
(** [VirtualCoreIdleLevelRemote::getDesc], src/topology/topology-remote.cpp:100-107. *)
Definition IdleLevelRemote_getDesc : RemoteLevel -> M (CommunicatorTcp So) string :=
  level_call tp_IdleLevelGetDesc "IdleLevelGetDescRes" tp_get_string.
(** [VirtualCoreIdleLevelRemote::isEnableable], src/topology/topology-remote.cpp:109-116. *)
Definition IdleLevelRemote_isEnableable : RemoteLevel -> M (CommunicatorTcp So) bool :=
  level_call tp_IdleLevelIsEnableable "ResultBool" tp_get_bool.
(** [VirtualCoreIdleLevelRemote::isEnabled], src/topology/topology-remote.cpp:118-125. *)
Definition IdleLevelRemote_isEnabled : RemoteLevel -> M (CommunicatorTcp So) bool :=
  level_call tp_IdleLevelIsEnabled "ResultBool" tp_get_bool.
(** [VirtualCoreIdleLevelRemote::enable], src/topology/topology-remote.cpp:127-133. *)
Definition IdleLevelRemote_enable : RemoteLevel -> M (CommunicatorTcp So) unit :=
  level_call tp_IdleLevelEnable "ResultVoid" tp_is_void.
(** [VirtualCoreIdleLevelRemote::disable], src/topology/topology-remote.cpp:135-141. *)
Definition IdleLevelRemote_disable : RemoteLevel -> M (CommunicatorTcp So) unit :=
  level_call tp_IdleLevelDisable "ResultVoid" tp_is_void.
(** [VirtualCoreIdleLevelRemote::getExitLatency], src/topology/topology-remote.cpp:143-150. *)
Definition IdleLevelRemote_getExitLatency : RemoteLevel -> M (CommunicatorTcp So) Z :=
  level_call tp_IdleLevelGetExitLatency "IdleLevelGetExitLatencyRes" tp_get_uint.
(** [VirtualCoreIdleLevelRemote::getConsumedPower], src/topology/topology-remote.cpp:152-159. *)
Definition IdleLevelRemote_getConsumedPower : RemoteLevel -> M (CommunicatorTcp So) Z :=
  level_call tp_IdleLevelGetConsumedPower "IdleLevelGetConsumedPowerRes" tp_get_uint.
(** [VirtualCoreIdleLevelRemote::getAbsoluteTime], src/topology/topology-remote.cpp:161-168. *)
Definition IdleLevelRemote_getAbsoluteTime : RemoteLevel -> M (CommunicatorTcp So) Z :=
  level_call tp_IdleLevelGetAbsTime "IdleLevelGetTimeRes" tp_get_uint.
(** [VirtualCoreIdleLevelRemote::getTime], src/topology/topology-remote.cpp:170-177. *)
Definition IdleLevelRemote_getTime : RemoteLevel -> M (CommunicatorTcp So) Z :=
  level_call tp_IdleLevelGetTime "IdleLevelGetTimeRes" tp_get_uint.
(** [VirtualCoreIdleLevelRemote::resetTime], src/topology/topology-remote.cpp:179-185. *)
Definition IdleLevelRemote_resetTime : RemoteLevel -> M (CommunicatorTcp So) unit :=
  level_call tp_IdleLevelResetTime "ResultVoid" tp_is_void.
(** [VirtualCoreIdleLevelRemote::getAbsoluteCount], src/topology/topology-remote.cpp:187-194. *)
Definition IdleLevelRemote_getAbsoluteCount : RemoteLevel -> M (CommunicatorTcp So) Z :=
  level_call tp_IdleLevelGetAbsCount "IdleLevelGetCountRes" tp_get_uint.
(** [VirtualCoreIdleLevelRemote::getCount], src/topology/topology-remote.cpp:196-203. *)
Definition IdleLevelRemote_getCount : RemoteLevel -> M (CommunicatorTcp So) Z :=
  level_call tp_IdleLevelGetCount "IdleLevelGetCountRes" tp_get_uint.
(** [VirtualCoreIdleLevelRemote::resetCount], src/topology/topology-remote.cpp:205-211. *)
Definition IdleLevelRemote_resetCount : RemoteLevel -> M (CommunicatorTcp So) unit :=
  level_call tp_IdleLevelResetCount "ResultVoid" tp_is_void.

(** [VirtualCoreIdleLevelRemote::VirtualCoreIdleLevelRemote],
    src/topology/topology-remote.cpp:85-89. *)
Definition IdleLevelRemote_new (virtualCoreId levelId : Z) : M (CommunicatorTcp So) RemoteLevel :=
  do* IdleLevelRemote_resetTime (virtualCoreId, levelId) in
  do* IdleLevelRemote_resetCount (virtualCoreId, levelId) in
  ret (virtualCoreId, levelId).

Definition core_call {B} (req : Z -> TopologyMsg) (responseType : string) (dec : TopologyMsg -> option B)
    (v : VirtualCore) : M (CommunicatorTcp So) B :=
  tp_call (req (u32 (vc_virtualCoreId v))) responseType dec.

(** [VirtualCoreRemote::hasFlag], src/topology/topology-remote.cpp:226-233. *)
Definition VirtualCoreRemote_hasFlag (flagName : string) : VirtualCore -> M (CommunicatorTcp So) bool :=
  core_call (fun v => tp_HasFlag v flagName) "ResultBool" tp_get_bool.
(** [VirtualCoreRemote::getAbsoluteTicks], src/topology/topology-remote.cpp:235-241. *)
Definition VirtualCoreRemote_getAbsoluteTicks : VirtualCore -> M (CommunicatorTcp So) Z :=
  core_call tp_GetAbsoluteTicks "ResultUint64" tp_get_uint.
(** [VirtualCoreRemote::maximizeUtilization], src/topology/topology-remote.cpp:243-245. *)
Definition VirtualCoreRemote_maximizeUtilization (v : VirtualCore) : M (CommunicatorTcp So) unit :=
  setUtilization MAXIMIZE VIRTUAL_CORE (vc_virtualCoreId v).
(** [VirtualCoreRemote::resetUtilization], src/topology/topology-remote.cpp:247-249. *)
Definition VirtualCoreRemote_resetUtilization (v : VirtualCore) : M (CommunicatorTcp So) unit :=
  setUtilization RESET VIRTUAL_CORE (vc_virtualCoreId v).
(** [VirtualCoreRemote::getIdleTime], src/topology/topology-remote.cpp:251-257. *)
Definition VirtualCoreRemote_getIdleTime : VirtualCore -> M (CommunicatorTcp So) double :=
  core_call tp_GetIdleTime "GetIdleTimeRes" (fun r => match r with tp_GetIdleTimeRes t => Some t | _ => None end).
(** [VirtualCoreRemote::resetIdleTime], src/topology/topology-remote.cpp:259-264. *)
Definition VirtualCoreRemote_resetIdleTime : VirtualCore -> M (CommunicatorTcp So) unit :=
  core_call tp_ResetIdleTime "ResultVoid" tp_is_void.
(** [VirtualCoreRemote::isHotPluggable], src/topology/topology-remote.cpp:266-272. *)
Definition VirtualCoreRemote_isHotPluggable : VirtualCore -> M (CommunicatorTcp So) bool :=
  core_call tp_IsHotPluggable "ResultBool" tp_get_bool.
(** [VirtualCoreRemote::isHotPlugged], src/topology/topology-remote.cpp:274-280. *)
Definition VirtualCoreRemote_isHotPlugged : VirtualCore -> M (CommunicatorTcp So) bool :=
  core_call tp_IsHotPlugged "ResultBool" tp_get_bool.
(** [VirtualCoreRemote::hotPlug], src/topology/topology-remote.cpp:282-287. *)
Definition VirtualCoreRemote_hotPlug : VirtualCore -> M (CommunicatorTcp So) unit :=
  core_call tp_HotPlug "ResultVoid" tp_is_void.
(** [VirtualCoreRemote::hotUnplug], src/topology/topology-remote.cpp:289-294. *)
Definition VirtualCoreRemote_hotUnplug : VirtualCore -> M (CommunicatorTcp So) unit :=
  core_call tp_HotUnplug "ResultVoid" tp_is_void.

(** [VirtualCoreRemote::getIdleLevels], src/topology/topology-remote.cpp:296-298. *)
Definition VirtualCoreRemote_getIdleLevels (v : VirtualCore) (t : RemoteTopology So) : list RemoteLevel :=
  default [] (rt_idleLevels t !! vc_virtualCoreId v).

Definition unsupported : exn := runtime_error "Unsupported remote function.".
(** [VirtualCoreRemote::hasClockModulation], src/topology/topology-remote.cpp:300-302. *)
Definition VirtualCoreRemote_hasClockModulation (v : VirtualCore) : outcome bool := Throw unsupported.
(** [VirtualCoreRemote::getClockModulationValues], src/topology/topology-remote.cpp:304-306. *)
Definition VirtualCoreRemote_getClockModulationValues (v : VirtualCore) : outcome (list double) := Throw unsupported.
(** [VirtualCoreRemote::setClockModulation], src/topology/topology-remote.cpp:308-310. *)
Definition VirtualCoreRemote_setClockModulation (v : VirtualCore) (value : double) : outcome unit := Throw unsupported.
(** [VirtualCoreRemote::getClockModulation], src/topology/topology-remote.cpp:312-314. *)
Definition VirtualCoreRemote_getClockModulation (v : VirtualCore) : outcome double := Throw unsupported.

(** [VirtualCoreRemote::VirtualCoreRemote], src/topology/topology-remote.cpp:213-224. *)
Definition VirtualCoreRemote_new (c : VirtualCoreCoordinates) : M (RemoteTopology So) VirtualCore :=
  let v := mkVirtualCore (vcc_cpuId c) (vcc_physicalCoreId c) (vcc_virtualCoreId c) in
  let* ids := on_connection (core_call tp_IdleLevelsGet "IdleLevelsGetRes"
                (fun r => match r with tp_IdleLevelsGetRes l => Some l | _ => None end) v) in
  let* levels := on_connection (for_map ids (IdleLevelRemote_new (vc_virtualCoreId v))) in
  do* modify (fun t => mkRemoteTopology (rt_communicator t) (<[vc_virtualCoreId v := levels]> (rt_idleLevels t))) in
  do* on_connection (VirtualCoreRemote_resetIdleTime v) in
  ret v.

#[export] Instance RemoteVirtualCore : VirtualCoreOps (RemoteTopology So) := {
  v_new := VirtualCoreRemote_new;
  v_maximizeUtilization v := on_connection (VirtualCoreRemote_maximizeUtilization v);
  v_resetUtilization v := on_connection (VirtualCoreRemote_resetUtilization v);
  v_isHotPluggable v := on_connection (VirtualCoreRemote_isHotPluggable v);
  v_isHotPlugged v := on_connection (VirtualCoreRemote_isHotPlugged v);
  v_hotPlug v := on_connection (VirtualCoreRemote_hotPlug v);
  v_hotUnplug v := on_connection (VirtualCoreRemote_hotUnplug v);
  v_hasClockModulation v := lift (VirtualCoreRemote_hasClockModulation v);
  v_getClockModulationValues v := lift (VirtualCoreRemote_getClockModulationValues v);
  v_setClockModulation v x := lift (VirtualCoreRemote_setClockModulation v x);
  v_getClockModulation v := lift (VirtualCoreRemote_getClockModulation v)
}.

(** [Topology::Topology], src/topology/topology.cpp:86-102. *)
Definition Topology_newRemote : M (RemoteTopology So) Topology :=
  let* coord := on_connection (tp_call tp_GetTopology "GetTopologyRes"
    (fun r => match r with tp_GetTopologyRes l => Some l | _ => None end)) in
  Topology_buildCpuVector (mkTopology [] [] []) coord.
(** [Topology::getInstance], include/mammut/module.hpp:14-20, on a communicator: a new remote
    topology. *)
Definition remote_topology : M (CommunicatorTcp So) Topology := fun c =>
  let '(r, t) := Topology_newRemote (mkRemoteTopology c ∅) in (r, rt_communicator t).
End client.

(** ** The local classes behind the server *)

Section linux.
Context {SH : Shell}.

(** A pointer to an idle level of a local core: the core, the position of the level in
    [_idleLevels] and its identifier, which never changes. *)
Record LevelPtr := mkLevelPtr { lp_core : VirtualCore; lp_index : nat; lp_levelId : Z }.

Definition level_object (l : LevelPtr) (m : Machine) : outcome VirtualCoreIdleLevelLinux :=
  vl ← vcore_object (lp_core l) m; vec_index (vl_idleLevels vl) (lp_index l).
Definition with_level (i : nat) (il : VirtualCoreIdleLevelLinux) (vl : VirtualCoreLinux) : VirtualCoreLinux :=
  mkVirtualCoreLinux (vl_core vl) (vl_hotplugFile vl) (<[i := il]> (vl_idleLevels vl)) (vl_lastProcIdleTime vl)
    (vl_utilizationThread vl) (vl_clkModMsr vl) (vl_clkModLowBit vl) (vl_clkModStep vl) (vl_clkModValues vl).
Definition level_query {A} (f : World -> VirtualCoreIdleLevelLinux -> outcome A) (l : LevelPtr) : M Machine A :=
  query (fun m => il ← level_object l m; f (m_world m) il).
Definition level_update (f : World -> VirtualCoreIdleLevelLinux -> outcome VirtualCoreIdleLevelLinux) (l : LevelPtr) :
    M Machine unit :=
  let* il := query (fun m => il ← level_object l m; f (m_world m) il) in
  let* vl := query (vcore_object (lp_core l)) in
  modify (set_vcore (with_level (lp_index l) il vl)).

#[export] Instance LinuxTopologyUnit : TopologyUnitOps Machine LevelPtr := {
  c_getVendorId _ := query (fun m => CpuLinux_getVendorId (m_world m));
  c_getFamily _ := query (fun m => CpuLinux_getFamily (m_world m));
  c_getModel _ := query (fun m => CpuLinux_getModel (m_world m));
  v_hasFlag v flag := linux_query (fun w vl => VirtualCoreLinux_hasFlag w vl flag) v;
  v_getAbsoluteTicks := linux_query (fun w vl => Ret (VirtualCoreLinux_getAbsoluteTicks w vl));
  v_getIdleTime := linux_query VirtualCoreLinux_getIdleTime;
  v_resetIdleTime v :=
    let* vl := linux_query VirtualCoreLinux_resetIdleTime v in modify (set_vcore vl);
  v_getIdleLevels v := linux_query (fun _ vl =>
    Ret (imap (fun i il => mkLevelPtr v i (il_levelId il)) (VirtualCoreLinux_getIdleLevels vl))) v;
  l_getLevelId := lp_levelId;
  l_getName := level_query IdleLevel_getName;
  l_getDesc := level_query IdleLevel_getDesc;
  l_isEnableable := level_query (fun w il => Ret (IdleLevel_isEnableable w il));
  l_isEnabled := level_query IdleLevel_isEnabled;
  l_enable l := let* il := query (level_object l) in on_world (IdleLevel_enable il);
  l_disable l := let* il := query (level_object l) in on_world (IdleLevel_disable il);
  l_getExitLatency := level_query IdleLevel_getExitLatency;
  l_getConsumedPower := level_query IdleLevel_getConsumedPower;
  l_getAbsoluteTime := level_query IdleLevel_getAbsoluteTime;
  l_getTime := level_query IdleLevel_getTime;
  l_resetTime := level_update IdleLevel_resetTime;
  l_getAbsoluteCount := level_query IdleLevel_getAbsoluteCount;
  l_getCount := level_query IdleLevel_getCount;
  l_resetCount := level_update IdleLevel_resetCount
}.
End linux.

(** * Properties *)

(** Looping over a list for the one element with a key. *)
Lemma for_fold_unique {S L A} (key : L -> Z) (f : L -> M S A) (ls : list L) l (s : S) acc :
  NoDup (key <$> ls) -> l ∈ ls ->
  for_fold ls acc (fun res level => if key level =? key l then let* a := f level in ret (Some a) else ret res) s =
  (let* a := f l in ret (Some a)) s.
Proof.
  revert acc. induction ls as [|x ls IH]; intros acc Hnd Hin; [by apply elem_of_nil in Hin|].
  csimpl in Hnd. apply NoDup_cons in Hnd as [Hx Hnd]. cbn [for_fold].
  apply elem_of_cons in Hin as [->|Hin].
  - rewrite Z.eqb_refl. rewrite bind_assoc. destruct (f x s) as [[a|e|u] s'] eqn:Ex.
    2: by rewrite !(bind_Throw _ _ _ _ _ Ex).
    2: by rewrite !(bind_Undef _ _ _ _ _ Ex).
    rewrite !(bind_Ret _ _ _ _ _ Ex), ret_bind. assert (forall acc s, for_fold ls acc
      (fun res level => if key level =? key x then let* a := f level in ret (Some a) else ret res) s = (Ret acc, s)) as ->; [|done].
    clear - Hx. induction ls as [|y ls IH]; intros acc s; [done|]. cbn [for_fold]. csimpl in Hx.
    apply not_elem_of_cons in Hx as [Hy Hx]. destruct (Z.eqb_spec (key y) (key x)); [congruence|]. rewrite ret_bind. by apply IH.
  - destruct (Z.eqb_spec (key x) (key l)) as [E|E].
    + exfalso. apply Hx. rewrite E. by apply list_elem_of_fmap_2.
    + rewrite ret_bind. by apply IH.
Qed.

Section relays.
Context {S L : Type} {VO : VirtualCoreOps S} {TO : TopologyUnitOps S L} {PB : Protobuf} {PL : ProtobufLaws}.
Variables (tp : Topology) (dispatcher : Dispatcher S) (cut : string -> list string).
Hypothesis registered : dispatcher !! "topology"%string = Some (Some (Topology_processMessage tp) : option (Module S)).
Hypothesis cut_ok : forall b, segments (cut b) = b /\ Forall (fun s => s <> EmptyString) (cut b).
#[local] Instance connection : Socket (Net S) := net_socket dispatcher cut.

(** A request whose handler runs [op] and answers [enc] of its result. *)
Lemma tp_relay {A B} (req : TopologyMsg) (ty : string) (op : M S A) (enc : A -> TopologyMsg)
    (dec : TopologyMsg -> option B) (f : A -> B) (s : S) :
  getModuleNameFromMessage req = Ret "topology"%string -> str_len (GetTypeName req) < 1000 -> str_len ty < 500 ->
  well_ranged req -> is_Some (SerializeToString req) ->
  (forall bytes, getDataFromMessage (GetTypeName req) bytes = Some req ->
     Topology_processMessage tp (GetTypeName req) bytes s = (let* a := op in ret (setMessageFromData (enc a))) s) ->
  (forall a, fst (op s) = Ret a ->
     well_ranged (enc a) /\ GetTypeName (enc a) = ("mammut.topology." +:+ ty)%string /\ dec (enc a) = Some (f a)) ->
  relayed (fun a => is_Some (SerializeToString (enc a))) f (op s) (tp_call req ty dec (linked s)).
Proof.
  intros Hn Hl Ht Hw Hsc Hp Henc.
  apply (relay_call dispatcher cut cut_ok (Topology_processMessage tp) "topology"); [done|done|done| |done|done|done|done|].
  - rewrite str_len_app. change (str_len "mammut.topology.") with 16. lia.
  - intros a Ha. destruct (Henc a Ha) as (? & ? & Hd). split; [done|]. split; [done|]. unfold get_field. by rewrite Hd.
Qed.

(** The same when the response has scalar fields: it is always delivered. *)
Lemma tp_relay_scalar {A B} (req : TopologyMsg) (ty : string) (op : M S A) (enc : A -> TopologyMsg)
    (dec : TopologyMsg -> option B) (f : A -> B) (s : S) :
  getModuleNameFromMessage req = Ret "topology"%string -> str_len (GetTypeName req) < 1000 -> str_len ty < 500 ->
  well_ranged req -> is_Some (SerializeToString req) ->
  (forall bytes, getDataFromMessage (GetTypeName req) bytes = Some req ->
     Topology_processMessage tp (GetTypeName req) bytes s = (let* a := op in ret (setMessageFromData (enc a))) s) ->
  (forall a, well_ranged (enc a) /\ GetTypeName (enc a) = ("mammut.topology." +:+ ty)%string /\ dec (enc a) = Some (f a)) ->
  (forall a, scalar_message (enc a) = true) ->
  relayed (fun _ => True) f (op s) (tp_call req ty dec (linked s)).
Proof.
  intros Hn Hl Ht Hw Hsc Hp Henc Hs.
  eapply relayed_always; [|by apply (tp_relay req ty op enc)].
  intros a _. apply serialize_scalars; [apply Henc|apply Hs].
Qed.

(** Solves the side conditions of [tp_relay] for a request on an object found by [found]. *)
#[local] Ltac topology_side Hid found :=
  lazymatch goal with
  | |- getModuleNameFromMessage _ = _ => reflexivity
  | |- str_len _ < _ => vm_compute; reflexivity
  | |- is_Some _ => first [assumption | apply serialize_scalars; [fields_ok|reflexivity]]
  | |- well_ranged _ => fields_ok
  | |- forall bytes, getDataFromMessage _ bytes = _ -> _ =>
      let b := fresh "b" in let H := fresh "H" in
      intros b H; unfold Topology_processMessage; rewrite H; cbv iota beta;
      unfold process_idle_level, process_virtual_core, process_cpu, set_utilization, find_unit;
      rewrite ?(u32_id _ Hid), ?found; reflexivity
  | |- forall a, _ /\ _ =>
      first [ intros [] | intros ? ];
      (split; [fields_ok | split; reflexivity])
  | |- forall a, fst _ = _ -> _ =>
      intros ? _; (split; [fields_ok | split; reflexivity])
  | |- forall a, scalar_message _ = true => first [ intros [] | intros ? ]; reflexivity
  end.

(** A virtual core of a remote topology does what the virtual core of the server with its
    identifier does: plugging, utilisation, ticks, flags and idle time; only the clock
    modulation is not available, which the operations report at once. *)
Theorem VirtualCoreRemote_relays (v : VirtualCore) (s : S) (flag : string) :
  is_u32 (vc_virtualCoreId v) -> Topology_getVirtualCore tp (vc_virtualCoreId v) = Some v ->
  is_Some (SerializeToString (tp_HasFlag (vc_virtualCoreId v) flag)) ->
  relayed (fun _ => True) id (v_isHotPluggable v s) (VirtualCoreRemote_isHotPluggable v (linked s)) /\
  relayed (fun _ => True) id (v_isHotPlugged v s) (VirtualCoreRemote_isHotPlugged v (linked s)) /\
  relayed (fun _ => True) id (v_hotPlug v s) (VirtualCoreRemote_hotPlug v (linked s)) /\
  relayed (fun _ => True) id (v_hotUnplug v s) (VirtualCoreRemote_hotUnplug v (linked s)) /\
  relayed (fun _ => True) id (v_maximizeUtilization v s) (VirtualCoreRemote_maximizeUtilization v (linked s)) /\
  relayed (fun _ => True) id (v_resetUtilization v s) (VirtualCoreRemote_resetUtilization v (linked s)) /\
  relayed (fun _ => True) u64 (v_getAbsoluteTicks v s) (VirtualCoreRemote_getAbsoluteTicks v (linked s)) /\
  relayed (fun _ => True) id (v_hasFlag v flag s) (VirtualCoreRemote_hasFlag flag v (linked s)) /\
  relayed (fun t => is_Some (SerializeToString (tp_GetIdleTimeRes t))) id (v_getIdleTime v s)
    (VirtualCoreRemote_getIdleTime v (linked s)) /\
  relayed (fun _ => True) id (v_resetIdleTime v s) (VirtualCoreRemote_resetIdleTime v (linked s)) /\
  VirtualCoreRemote_hasClockModulation v = Throw unsupported /\ VirtualCoreRemote_getClockModulation v = Throw unsupported.
Proof.
  intros Hid Hv Hflag.
  unfold VirtualCoreRemote_hasFlag, core_call. rewrite <- (u32_id _ Hid) in Hflag.
  repeat apply conj; try reflexivity.
  - eapply (tp_relay_scalar _ _ _ tp_bool); topology_side Hid Hv.
  - eapply (tp_relay_scalar _ _ _ tp_bool); topology_side Hid Hv.
  - eapply (tp_relay_scalar _ _ _ tp_void); topology_side Hid Hv.
  - eapply (tp_relay_scalar _ _ _ tp_void); topology_side Hid Hv.
  - eapply (tp_relay_scalar _ _ _ tp_void); topology_side Hid Hv.
  - eapply (tp_relay_scalar _ _ _ tp_void); topology_side Hid Hv.
  - eapply (tp_relay_scalar _ _ _ (fun t => tp_ResultUint64 (u64 t))); topology_side Hid Hv.
  - eapply (tp_relay_scalar _ _ (v_hasFlag v flag) tp_bool); topology_side Hid Hv.
  - eapply (tp_relay _ _ _ tp_GetIdleTimeRes); topology_side Hid Hv.
  - eapply (tp_relay_scalar _ _ _ tp_void); topology_side Hid Hv.
Qed.

(** What the handlers of a level run when the identifiers of the levels are distinct. *)
Lemma on_idle_level_spec {A} (f : L -> M S A) v l ls s :
  v_getIdleLevels v s = (Ret ls, s) -> NoDup (l_getLevelId <$> ls) -> l ∈ ls ->
  on_idle_level (l_getLevelId l) f v s = (let* a := f l in ret (Some a)) s.
Proof.
  intros Hls Hnd Hin. unfold on_idle_level. rewrite (bind_Ret _ _ _ _ _ Hls).
  rewrite bool_decide_eq_false_2 by (by destruct ls; [apply elem_of_nil in Hin|]).
  by apply (for_fold_unique l_getLevelId).
Qed.

Lemma process_idle_level_spec {A} (f : L -> M S A) (enc : option A -> TopologyMsg) v l ls s :
  Topology_getVirtualCore tp (vc_virtualCoreId v) = Some v ->
  v_getIdleLevels v s = (Ret ls, s) -> NoDup (l_getLevelId <$> ls) -> l ∈ ls ->
  process_idle_level tp (vc_virtualCoreId v) (l_getLevelId l) f enc s =
  (let* a := f l in ret (setMessageFromData (enc (Some a)))) s.
Proof.
  intros Hv Hls Hnd Hin. unfold process_idle_level, process_virtual_core. rewrite Hv.
  unfold bind at 1. rewrite (on_idle_level_spec f v l ls s Hls Hnd Hin). unfold bind. by destruct (f l s) as [[]].
Qed.

Section level.
Variables (v : VirtualCore) (l : L) (ls : list L) (s : S).
Hypothesis core_range : is_u32 (vc_virtualCoreId v).
Hypothesis level_range : is_u32 (l_getLevelId l).
Hypothesis core_there : Topology_getVirtualCore tp (vc_virtualCoreId v) = Some v.
Hypothesis levels : v_getIdleLevels v s = (Ret ls, s).
Hypothesis levels_distinct : NoDup (l_getLevelId <$> ls).
Hypothesis level_there : l ∈ ls.

(** A request on the level. *)
Lemma level_relay {A B} (req : Z -> Z -> TopologyMsg) (ty : string) (f : L -> M S A) (enc : option A -> TopologyMsg)
    (dec : TopologyMsg -> option B) (g : A -> B) :
  (forall a b, getModuleNameFromMessage (req a b) = Ret "topology"%string /\ str_len (GetTypeName (req a b)) < 1000 /\
     pb_fields (req a b) = [PbUint32 a; PbUint32 b]) -> str_len ty < 500 ->
  (forall a b bytes, getDataFromMessage (GetTypeName (req a b)) bytes = Some (req a b) ->
     Topology_processMessage tp (GetTypeName (req a b)) bytes s = process_idle_level tp a b f enc s) ->
  (forall a, well_ranged (enc (Some a)) /\ GetTypeName (enc (Some a)) = ("mammut.topology." +:+ ty)%string /\
     dec (enc (Some a)) = Some (g a)) ->
  relayed (fun a => is_Some (SerializeToString (enc (Some a)))) g (f l s)
    (level_call req ty dec (vc_virtualCoreId v, l_getLevelId l) (linked s)).
Proof.
  intros Hreq Hty Hp Henc. unfold level_call. cbn [fst snd]. rewrite !u32_id by done.
  destruct (Hreq (vc_virtualCoreId v) (l_getLevelId l)) as (Hm & Hn & Hf).
  assert (well_ranged (req (vc_virtualCoreId v) (l_getLevelId l))) as Hw
    by (unfold well_ranged; rewrite Hf; apply Forall_cons_2; [done|]; by apply Forall_singleton).
  apply (tp_relay _ ty (f l) (fun a => enc (Some a))); [done..| | |].
  - apply serialize_scalars; [done|]. unfold scalar_message. by rewrite Hf.
  - intros bytes Hb. rewrite (Hp _ _ bytes Hb). by apply (process_idle_level_spec _ _ _ _ ls).
  - intros a _. apply Henc.
Qed.

(** The same when the response has scalar fields. *)
Lemma level_relay_scalar {A B} (req : Z -> Z -> TopologyMsg) (ty : string) (f : L -> M S A)
    (enc : option A -> TopologyMsg) (dec : TopologyMsg -> option B) (g : A -> B) :
  (forall a b, getModuleNameFromMessage (req a b) = Ret "topology"%string /\ str_len (GetTypeName (req a b)) < 1000 /\
     pb_fields (req a b) = [PbUint32 a; PbUint32 b]) -> str_len ty < 500 ->
  (forall a b bytes, getDataFromMessage (GetTypeName (req a b)) bytes = Some (req a b) ->
     Topology_processMessage tp (GetTypeName (req a b)) bytes s = process_idle_level tp a b f enc s) ->
  (forall a, well_ranged (enc (Some a)) /\ GetTypeName (enc (Some a)) = ("mammut.topology." +:+ ty)%string /\
     dec (enc (Some a)) = Some (g a)) ->
  (forall a, scalar_message (enc (Some a)) = true) ->
  relayed (fun _ => True) g (f l s) (level_call req ty dec (vc_virtualCoreId v, l_getLevelId l) (linked s)).
Proof.
  intros Hreq Hty Hp Henc Hs. eapply relayed_always; [|by apply (level_relay req ty f enc)].
  intros a _. apply serialize_scalars; [apply Henc|apply Hs].
Qed.
End level.

(** Solves the side conditions of [level_relay]. *)
#[local] Ltac level_side :=
  lazymatch goal with
  | |- str_len _ < _ => vm_compute; reflexivity
  | |- forall a b bytes, _ -> _ =>
      let b := fresh "b" in let H := fresh "H" in
      intros ?? b H; unfold Topology_processMessage; rewrite H; reflexivity
  | |- forall a b, _ => intros; repeat split; reflexivity
  | |- forall a, _ /\ _ => first [intros []|intros ?]; (split; [fields_ok|split; reflexivity])
  | |- forall a, _ = true => first [intros []|intros ?]; reflexivity
  | |- _ => done
  end.

(** An idle level of a remote core does what the level of the server's core with its
    identifier does: its time and count are those since the last reset of the server's level,
    cut to 32 bits, and resetting or enabling it acts on the server's. *)
Theorem IdleLevelRemote_relays (v : VirtualCore) (l : L) (ls : list L) (s : S) :
  let r := (vc_virtualCoreId v, l_getLevelId l) in
  is_u32 (vc_virtualCoreId v) -> is_u32 (l_getLevelId l) ->
  Topology_getVirtualCore tp (vc_virtualCoreId v) = Some v ->
  v_getIdleLevels v s = (Ret ls, s) -> NoDup (l_getLevelId <$> ls) -> l ∈ ls ->
  relayed (fun n => is_Some (SerializeToString (tp_IdleLevelGetNameRes (Some n)))) id (l_getName l s)
    (IdleLevelRemote_getName r (linked s)) /\
  relayed (fun n => is_Some (SerializeToString (tp_IdleLevelGetDescRes (Some n)))) id (l_getDesc l s)
    (IdleLevelRemote_getDesc r (linked s)) /\
  relayed (fun _ => True) id (l_isEnableable l s) (IdleLevelRemote_isEnableable r (linked s)) /\
  relayed (fun _ => True) id (l_isEnabled l s) (IdleLevelRemote_isEnabled r (linked s)) /\
  relayed (fun _ => True) id (l_enable l s) (IdleLevelRemote_enable r (linked s)) /\
  relayed (fun _ => True) id (l_disable l s) (IdleLevelRemote_disable r (linked s)) /\
  relayed (fun _ => True) u32 (l_getExitLatency l s) (IdleLevelRemote_getExitLatency r (linked s)) /\
  relayed (fun _ => True) u32 (l_getConsumedPower l s) (IdleLevelRemote_getConsumedPower r (linked s)) /\
  relayed (fun _ => True) u32 (l_getAbsoluteTime l s) (IdleLevelRemote_getAbsoluteTime r (linked s)) /\
  relayed (fun _ => True) u32 (l_getTime l s) (IdleLevelRemote_getTime r (linked s)) /\
  relayed (fun _ => True) id (l_resetTime l s) (IdleLevelRemote_resetTime r (linked s)) /\
  relayed (fun _ => True) u32 (l_getAbsoluteCount l s) (IdleLevelRemote_getAbsoluteCount r (linked s)) /\
  relayed (fun _ => True) u32 (l_getCount l s) (IdleLevelRemote_getCount r (linked s)) /\
  relayed (fun _ => True) id (l_resetCount l s) (IdleLevelRemote_resetCount r (linked s)).
Proof.
  intros r Hid Hlid Hv Hls Hnd Hin.
  pose proof (fun A B req ty => @level_relay v l ls s Hid Hlid Hv Hls Hnd Hin A B req ty) as H.
  pose proof (fun A B req ty => @level_relay_scalar v l ls s Hid Hlid Hv Hls Hnd Hin A B req ty) as Hs.
  repeat apply conj.
  - eapply (H _ _ _ _ l_getName tp_IdleLevelGetNameRes); level_side.
  - eapply (H _ _ _ _ l_getDesc tp_IdleLevelGetDescRes); level_side.
  - eapply (Hs _ _ _ _ l_isEnableable tp_ResultBool); level_side.
  - eapply (Hs _ _ _ _ l_isEnabled tp_ResultBool); level_side.
  - eapply (Hs _ _ _ _ l_enable tp_level_void); level_side.
  - eapply (Hs _ _ _ _ l_disable tp_level_void); level_side.
  - eapply (Hs _ _ _ _ l_getExitLatency (level_u32 tp_IdleLevelGetExitLatencyRes)); level_side.
  - eapply (Hs _ _ _ _ l_getConsumedPower (level_u32 tp_IdleLevelGetConsumedPowerRes)); level_side.
  - eapply (Hs _ _ _ _ l_getAbsoluteTime (level_u32 tp_IdleLevelGetTimeRes)); level_side.
  - eapply (Hs _ _ _ _ l_getTime (level_u32 tp_IdleLevelGetTimeRes)); level_side.
  - eapply (Hs _ _ _ _ l_resetTime tp_level_void); level_side.
  - eapply (Hs _ _ _ _ l_getAbsoluteCount (level_u32 tp_IdleLevelGetCountRes)); level_side.
  - eapply (Hs _ _ _ _ l_getCount (level_u32 tp_IdleLevelGetCountRes)); level_side.
  - eapply (Hs _ _ _ _ l_resetCount tp_level_void); level_side.
Qed.

(** The virtual core that a request is about. *)
Definition core_request (m : TopologyMsg) : option Z :=
  match m with
  | tp_IsHotPluggable v | tp_IsHotPlugged v | tp_HotPlug v | tp_HotUnplug v | tp_GetAbsoluteTicks v | tp_HasFlag v _
  | tp_GetIdleTime v | tp_ResetIdleTime v | tp_IdleLevelsGet v
  | tp_IdleLevelGetName v _ | tp_IdleLevelGetDesc v _ | tp_IdleLevelIsEnableable v _ | tp_IdleLevelIsEnabled v _
  | tp_IdleLevelEnable v _ | tp_IdleLevelDisable v _ | tp_IdleLevelGetExitLatency v _
  | tp_IdleLevelGetConsumedPower v _ | tp_IdleLevelGetAbsTime v _ | tp_IdleLevelGetTime v _
  | tp_IdleLevelResetTime v _ | tp_IdleLevelGetAbsCount v _ | tp_IdleLevelGetCount v _
  | tp_IdleLevelResetCount v _ => Some v
  | _ => None
  end.

(** A request about a virtual core the server does not have is answered by an exception
    that the client rethrows with its text; the server's machine does not change and the
    connection stays in use. *)
Theorem remote_core_missing {B} (req : TopologyMsg) (ty : string) (dec : TopologyMsg -> option B) (v : Z) (s : S) :
  core_request req = Some v -> Topology_getVirtualCore tp v = None ->
  well_ranged req -> is_Some (SerializeToString req) -> str_len ty < 500 ->
  tp_call req ty dec (linked s) = (Throw no_virtual_core, linked s).
Proof.
  intros Hreq Hv Hw Hser Hty.
  pose proof (tp_relay req ty (throw no_virtual_core : M S B) (fun _ => tp_ResultVoid) dec id s) as H.
  specialize (H ltac:(by destruct req)).
  specialize (H ltac:(destruct req; vm_compute; reflexivity)). specialize (H Hty Hw Hser).
  assert (relayed (fun _ : B => is_Some (SerializeToString tp_ResultVoid)) id (throw no_virtual_core s)
    (tp_call req ty dec (linked s))) as Hr.
  { apply H; [|done]. intros bytes Hb. unfold Topology_processMessage. rewrite Hb.
    destruct req; try done; injection Hreq as ->; unfold process_idle_level, process_virtual_core; by rewrite Hv. }
  inversion Hr as [| |what s' E1 E2| | |what s' r Hlong E1]; subst; [reflexivity|]. vm_compute in Hlong. by destruct Hlong.
Qed.

(** ** Building the remote topology *)

(** What the server promises on the cores of its tree: the idle levels of each do not change,
    and they and the idle time can be reset, under the invariant [Q] of its machine. *)
Record idle_laws (Q : S -> Prop) (levels : VirtualCore -> list L) : Prop := {
  idle_levels v s : v ∈ tp_virtualCores tp -> Q s -> v_getIdleLevels v s = (Ret (levels v), s);
  idle_distinct v : v ∈ tp_virtualCores tp -> NoDup (l_getLevelId <$> levels v);
  idle_range v l : v ∈ tp_virtualCores tp -> l ∈ levels v -> is_u32 (l_getLevelId l);
  idle_sent v : v ∈ tp_virtualCores tp ->
    is_Some (SerializeToString (tp_IdleLevelsGetRes (map (fun l => u32 (l_getLevelId l)) (levels v))));
  idle_resetTime v l : v ∈ tp_virtualCores tp -> l ∈ levels v -> returns Q (l_resetTime l) (fun _ => Q);
  idle_resetCount v l : v ∈ tp_virtualCores tp -> l ∈ levels v -> returns Q (l_resetCount l) (fun _ => Q);
  idle_reset v : v ∈ tp_virtualCores tp -> returns Q (v_resetIdleTime v) (fun _ => Q)
}.

Definition linked_to (Q : S -> Prop) (c : CommunicatorTcp (Net S)) : Prop := exists s, c = linked s /\ Q s.

(** A remote operation returns when it relays one that does. *)
Lemma relayed_returns {A B} (fits : A -> Prop) (f : A -> B) (P Q : S -> Prop) (R : A -> Prop) (op : M S A)
    (call : M (CommunicatorTcp (Net S)) B) :
  returns P op (fun a s => Q s /\ R a /\ fits a) -> (forall s, P s -> relayed fits f (op s) (call (linked s))) ->
  returns (linked_to P) call (fun b c => linked_to Q c /\ exists a, b = f a /\ R a).
Proof.
  intros Hop Hrel c (s & -> & HP). destruct (Hop s HP) as (a & s' & E & HQ & HR & Hfit).
  specialize (Hrel s HP). rewrite E in Hrel. inversion Hrel as [a' s2 Hf E1 E2|a' s2 what Hn| | | |]; subst; [|done].
  exists (f a), (linked s'). split; [done|]. split; [by exists s'|]. by exists a.
Qed.

Lemma on_connection_Ret {A} (f : M (CommunicatorTcp (Net S)) A) c c' a ls :
  f c = (Ret a, c') -> on_connection f (mkRemoteTopology c ls) = (Ret a, mkRemoteTopology c' ls).
Proof. intros E. unfold on_connection. cbn [rt_communicator]. by rewrite E. Qed.

Section tree.
Variables (Q : S -> Prop) (levels : VirtualCore -> list L).
Hypothesis idle : idle_laws Q levels.
Hypothesis ids_distinct : NoDup (vc_virtualCoreId <$> tp_virtualCores tp).
Hypothesis cores_found : forall v, v ∈ tp_virtualCores tp ->
  Topology_getVirtualCore tp (vc_virtualCoreId v) = Some v /\ is_u32 (vc_virtualCoreId v).

Definition remote_levels (v : VirtualCore) : list RemoteLevel :=
  map (fun l => (vc_virtualCoreId v, l_getLevelId l)) (levels v).

Lemma returns_conj_true {A} (P : S -> Prop) (m : M S A) (fits : A -> Prop) :
  returns P m (fun _ => P) -> (forall a, fits a) -> returns P m (fun a s => P s /\ True /\ fits a).
Proof. intros H Hf. eapply returns_post; [exact H|]. auto. Qed.

Lemma IdleLevelRemote_new_returns v l : v ∈ tp_virtualCores tp -> l ∈ levels v ->
  returns (linked_to Q) (IdleLevelRemote_new (vc_virtualCoreId v) (l_getLevelId l))
    (fun r c => r = (vc_virtualCoreId v, l_getLevelId l) /\ linked_to Q c).
Proof.
  intros Hv Hl. destruct (cores_found v Hv) as [Hfound Hid]. unfold IdleLevelRemote_new.
  assert (forall req f, (req = tp_IdleLevelResetTime /\ f = l_resetTime) \/ (req = tp_IdleLevelResetCount /\ f = l_resetCount) ->
    returns Q (f l) (fun _ => Q) ->
    returns (linked_to Q) (level_call req "ResultVoid" tp_is_void (vc_virtualCoreId v, l_getLevelId l))
      (fun b c => linked_to Q c /\ exists a : unit, b = id a /\ True)) as H.
  { intros req f Hreq Hf. apply (relayed_returns (fun _ => True) id Q Q (fun _ => True) (f l)).
    - by apply returns_conj_true.
    - intros s HQ. pose proof (idle_levels _ _ idle v s Hv HQ) as Hls.
      pose proof (fun A B req ty => @level_relay_scalar v l (levels v) s Hid (idle_range _ _ idle v l Hv Hl) Hfound Hls
        (idle_distinct _ _ idle v Hv) Hl A B req ty) as Hs.
      destruct Hreq as [[-> ->]|[-> ->]]; eapply (Hs _ _ _ _ _ tp_level_void); level_side. }
  eapply returns_bind; [eapply H; [by left|by apply (idle_resetTime _ _ idle v)]|]. intros a.
  eapply returns_bind.
  - intros c [Hc _]. eapply (H tp_IdleLevelResetCount l_resetCount); [by right|by apply (idle_resetCount _ _ idle v)|exact Hc].
  - intros b. apply returns_ret. by intros c [Hc _].
Qed.

Lemma idle_ids v : v ∈ tp_virtualCores tp -> map (fun l => u32 (l_getLevelId l)) (levels v) = map l_getLevelId (levels v).
Proof.
  intros Hv. apply map_ext_in. intros l Hl%list_elem_of_In. apply u32_id. by apply (idle_range _ _ idle v).
Qed.

(** The connection is idle, the machine satisfies [Q], and the cores [vs] have their levels. *)
Definition building (vs : list VirtualCore) (t : RemoteTopology (Net S)) : Prop :=
  linked_to Q (rt_communicator t) /\
  (vs ⊆ tp_virtualCores tp /\ forall v, v ∈ vs -> rt_idleLevels t !! vc_virtualCoreId v = Some (remote_levels v)).

Lemma idle_levels_call v : v ∈ tp_virtualCores tp ->
  returns (linked_to Q) (core_call tp_IdleLevelsGet "IdleLevelsGetRes"
      (fun r => match r with tp_IdleLevelsGetRes l => Some l | _ => None end) v)
    (fun ids c => linked_to Q c /\ exists ls, ids = map (fun l => u32 (l_getLevelId l)) ls /\ ls = levels v).
Proof.
  intros Hv. destruct (cores_found v Hv) as [Hfound Hid].
  apply (relayed_returns (fun ls => is_Some (SerializeToString (tp_IdleLevelsGetRes (map (fun l => u32 (l_getLevelId l)) ls))))
    (map (fun l => u32 (l_getLevelId l))) Q Q (fun ls => ls = levels v) (v_getIdleLevels v)).
  - intros s HQ. exists (levels v), s. split; [by apply (idle_levels _ _ idle)|]. split; [done|]. split; [done|].
    by apply (idle_sent _ _ idle).
  - intros s _. eapply (tp_relay _ _ _ (fun ls => tp_IdleLevelsGetRes (map (fun l => u32 (l_getLevelId l)) ls)));
      try (topology_side Hid Hfound).
    intros ls _. split; [|by split]. unfold well_ranged. apply Forall_singleton. cbn. apply Forall_fmap, Forall_true.
    intros l. apply u32_range.
Qed.

Lemma resetIdleTime_call v : v ∈ tp_virtualCores tp ->
  returns (linked_to Q) (VirtualCoreRemote_resetIdleTime v) (fun b c => linked_to Q c /\ exists a : unit, b = id a /\ True).
Proof.
  intros Hv. destruct (cores_found v Hv) as [Hfound Hid].
  apply (relayed_returns (fun _ => True) id Q Q (fun _ => True) (v_resetIdleTime v)).
  - apply returns_conj_true; [by apply (idle_reset _ _ idle)|done].
  - intros s _. eapply (tp_relay_scalar _ _ _ tp_void); topology_side Hid Hfound.
Qed.

Lemma VirtualCoreRemote_new_returns vs v : v ∈ tp_virtualCores tp ->
  returns (building vs) (VirtualCoreRemote_new (coords_of v)) (fun v' => building (vs ++ [v'])).
Proof.
  intros Hv [c ls] [Hc [Hsub Hlv]]. cbn [rt_communicator rt_idleLevels] in *.
  destruct (idle_levels_call v Hv c Hc) as (ids & c1 & E1 & Hc1 & ls0 & -> & ->). rewrite (idle_ids v Hv) in E1.
  destruct (returns_for_map (linked_to Q) (fun i => (vc_virtualCoreId v, i)) (map l_getLevelId (levels v))
    (IdleLevelRemote_new (vc_virtualCoreId v))) with (s := c1) as (bs & c2 & E2 & -> & Hc2); [|done|].
  { intros i (l & <- & Hl)%list_elem_of_In%in_map_iff. apply IdleLevelRemote_new_returns; [done|by apply list_elem_of_In]. }
  rewrite map_map in E2. fold (remote_levels v) in E2.
  destruct (resetIdleTime_call v Hv c2 Hc2) as (u & c3 & E3 & Hc3 & _).
  unfold VirtualCoreRemote_new. replace (mkVirtualCore _ _ _) with v by by destruct v.
  rewrite (bind_Ret _ _ _ _ _ (on_connection_Ret _ _ _ _ ls E1)), (bind_Ret _ _ _ _ _ (on_connection_Ret _ _ _ _ ls E2)).
  erewrite (bind_Ret (modify _)) by reflexivity. rewrite (bind_Ret _ _ _ _ _ (on_connection_Ret _ _ _ _ _ E3)).
  eexists v, _. split; [reflexivity|]. split; [done|]. cbn [rt_idleLevels]. split.
  - intros x [Hx|Hx%list_elem_of_singleton]%elem_of_app; [by apply Hsub|by subst x].
  - intros x Hx. destruct (decide (vc_virtualCoreId x = vc_virtualCoreId v)) as [E|E].
    + assert (x = v) as ->; [|by rewrite lookup_insert_eq].
      assert (x ∈ tp_virtualCores tp) as Hx'
        by (apply elem_of_app in Hx as [Hx| ->%list_elem_of_singleton]; [by apply Hsub|done]).
      apply list_elem_of_lookup in Hx' as [i Hi], Hv as [j Hj].
      assert (i = j) as ->; [|congruence].
      apply (NoDup_lookup _ _ _ (vc_virtualCoreId x) ids_distinct); [|rewrite E]; rewrite list_lookup_fmap;
        [by rewrite Hi|by rewrite Hj].
    + rewrite lookup_insert_ne by done. apply Hlv.
      apply elem_of_app in Hx as [Hx| ->%list_elem_of_singleton]; [done|done].
Qed.
End tree.

Lemma remote_constructs : @constructs (RemoteTopology (Net S)) RemoteVirtualCore.
Proof.
  intros c t v t' H. change (VirtualCoreRemote_new c t = (Ret v, t')) in H. unfold VirtualCoreRemote_new in H.
  minv H. injection H as <- _. done.
Qed.

(** The cores of a tree built on the server: found by their identifiers, and sent as they are. *)
Lemma tree_cores {SH : Shell} (world_of : S -> World) s0 s1 : constructs -> Topology_new world_of s0 = (Ret tp, s1) ->
  NoDup (vc_virtualCoreId <$> tp_virtualCores tp) /\
  (forall v, v ∈ tp_virtualCores tp -> Topology_getVirtualCore tp (vc_virtualCoreId v) = Some v /\ is_u32 (vc_virtualCoreId v)) /\
  sent_coordinates tp = coords_of <$> tp_virtualCores tp /\ spec_topology (sent_coordinates tp) = tp /\
  Forall vcc_range (sent_coordinates tp).
Proof.
  intros Hc H. unfold Topology_new in H. minv H. injection H0 as H0 <-.
  apply buildCpuVector_spec in H; [|done].
  pose proof (Topology_coordinates_ok _ _ H0) as [Hnd _]. pose proof (Topology_coordinates_range _ _ H0) as Hr.
  rewrite Forall_forall in Hr.
  assert (forall v, v ∈ tp_virtualCores tp -> exists a, a ∈ r /\ v = vc_of a) as Hin
    by (intros v Hv; rewrite H in Hv; by apply elem_of_virtualCores in Hv).
  assert (sent_coordinates tp = coords_of <$> tp_virtualCores tp) as Es.
  { unfold sent_coordinates. apply map_ext_in. intros v Hv%list_elem_of_In.
    destruct (Hin v Hv) as (a & Ha & ->). destruct (Hr a Ha) as (? & ? & ?). by rewrite !u32_id by done. }
  assert (NoDup (vc_virtualCoreId <$> tp_virtualCores tp)) as Hn.
  { rewrite H, spec_virtualCores, grouped_perm, <- list_fmap_compose. exact Hnd. }
  split; [done|]. split; [|split; [done|split]].
  - intros v Hv. split.
    + rewrite H, getVirtualCore_find, <- H. by apply find_NoDup.
    + destruct (Hin v Hv) as (a & Ha & ->). by apply (Hr a Ha).
  - rewrite Es. rewrite H at 1. by rewrite spec_virtualCores, coords_of_vc_of, spec_topology_grouped.
  - rewrite Es. apply Forall_fmap, Forall_forall. intros v Hv. destruct (Hin v Hv) as (a & Ha & ->). apply (Hr a Ha).
Qed.

Lemma well_ranged_coordinates l : Forall vcc_range l -> well_ranged (tp_GetTopologyRes l).
Proof.
  intros H. unfold well_ranged. apply Forall_singleton. cbn.
  induction H as [|c l (H1 & H2 & H3) _ IH]; [exact I|]. split; [|exact IH]. exact (conj H1 (conj H2 (conj H3 I))).
Qed.

(** C9: the topology that a client builds over the connection is the topology of the server,
    the same tree in the same order, with the idle levels of every core; and the construction
    returns when the server can reset its idle levels, leaving the connection idle. *)
Theorem Topology_newRemote_same {SH : Shell} (world_of : S -> World) s0 s1 (Q : S -> Prop)
    (levels : VirtualCore -> list L) (s : S) :
  constructs -> Topology_new world_of s0 = (Ret tp, s1) ->
  idle_laws Q levels -> is_Some (SerializeToString (tp_GetTopologyRes (sent_coordinates tp))) -> Q s ->
  exists t s', Topology_newRemote (mkRemoteTopology (linked s) ∅) = (Ret tp, t) /\
    rt_communicator t = linked s' /\ Q s' /\
    forall v, v ∈ tp_virtualCores tp -> VirtualCoreRemote_getIdleLevels v t = remote_levels levels v.
Proof.
  intros Hc Hnew Hidle Hsent HQ.
  destruct (tree_cores world_of s0 s1 Hc Hnew) as (Hnd & Hfound & Es & Etp & Hr).
  destruct (relayed_returns (fun l => is_Some (SerializeToString (tp_GetTopologyRes l))) id Q Q
    (fun l => l = sent_coordinates tp) (ret (sent_coordinates tp)) (tp_call tp_GetTopology "GetTopologyRes"
      (fun r => match r with tp_GetTopologyRes l => Some l | _ => None end))) with (s := linked s)
    as (l & c & E & Hc1 & ? & -> & ->).
  - by apply returns_ret.
  - intros s' _. eapply (tp_relay _ _ _ tp_GetTopologyRes); try (topology_side I I).
    intros l [= <-]. split; [by apply well_ranged_coordinates|by split].
  - by exists s.
  - destruct (buildCpuVector_returns (sent_coordinates tp) (building Q levels)) with
      (tp := mkTopology [] [] []) (s := mkRemoteTopology c (∅ : gmap Z (list RemoteLevel))) as (tp' & t & E2 & Hb).
    + intros vs a Ha. rewrite Es in Ha. apply list_elem_of_fmap in Ha as (v & -> & Hv).
      by apply VirtualCoreRemote_new_returns.
    + split; [exact Hc1|]. split; [apply list_subseteq_nil|]. intros v Hv. by apply elem_of_nil in Hv.
    + pose proof (buildCpuVector_spec remote_constructs _ _ _ _ E2) as ->. rewrite Etp in Hb, E2.
      destruct Hb as [(s' & Hl & HQ') [_ Hlv]]. exists t, s'. split; [|split; [done|split; [done|]]].
      * unfold Topology_newRemote. by rewrite (bind_Ret _ _ _ _ _ (on_connection_Ret _ _ _ _ _ E)).
      * intros v Hv. unfold VirtualCoreRemote_getIdleLevels. by rewrite (Hlv v Hv).
Qed.

End relays.

(** ** The local classes as the server's *)
Section linux_laws.
Context {SH : Shell} {PB : Protobuf}.
Variables (W : World) (tp : Topology) (level_ids : VirtualCore -> list Z).

(** The files of an idle level can be read. *)
Definition level_readable (il : VirtualCoreIdleLevelLinux) : Prop :=
  (exists t, read_uint W (il_path il +:+ "time") = Ret t) /\ (exists c, read_uint W (il_path il +:+ "usage") = Ret c).
(** The machine has the cores of the tree with their idle levels, outside the world is [W]. *)
Definition idle_machine (m : Machine) : Prop :=
  m_world m = W /\
  forall v, v ∈ tp_virtualCores tp -> exists vl, m_vcores m !! vc_virtualCoreId v = Some vl /\ vl_core vl = v /\
    il_levelId <$> vl_idleLevels vl = level_ids v /\ Forall level_readable (vl_idleLevels vl).
Definition level_ptrs (v : VirtualCore) : list LevelPtr := imap (fun i id => mkLevelPtr v i id) (level_ids v).

Hypothesis ids_distinct : NoDup (vc_virtualCoreId <$> tp_virtualCores tp).
Hypothesis stat_there : forall v, v ∈ tp_virtualCores tp ->
  exists t, VirtualCoreLinux_getAbsoluteIdleTime W (vc_virtualCoreId v) = Ret t.
Hypothesis level_ids_ok : forall v, v ∈ tp_virtualCores tp -> NoDup (level_ids v) /\ Forall is_u32 (level_ids v) /\
  is_Some (SerializeToString (tp_IdleLevelsGetRes (map u32 (level_ids v)))).

Lemma core_of_id v x : v ∈ tp_virtualCores tp -> x ∈ tp_virtualCores tp ->
  vc_virtualCoreId x = vc_virtualCoreId v -> x = v.
Proof.
  intros [i Hi]%list_elem_of_lookup [j Hj]%list_elem_of_lookup E.
  assert (i = j) as ->; [|congruence].
  apply (NoDup_lookup _ _ _ (vc_virtualCoreId x) ids_distinct); rewrite list_lookup_fmap; [by rewrite Hi, E|by rewrite Hj].
Qed.

(** Replacing the object of a core by one with the same levels. *)
Lemma set_vcore_idle m v vl' : idle_machine m -> v ∈ tp_virtualCores tp -> vl_core vl' = v ->
  il_levelId <$> vl_idleLevels vl' = level_ids v -> Forall level_readable (vl_idleLevels vl') ->
  idle_machine (set_vcore vl' m).
Proof.
  intros [Hw Hc] Hv <- Hids Hr. split; [done|]. intros x Hx. cbn [m_vcores set_vcore].
  destruct (decide (vc_virtualCoreId x = vc_virtualCoreId (vl_core vl'))) as [E|E].
  - rewrite E, lookup_insert_eq. rewrite (core_of_id _ x Hv Hx E). by exists vl'.
  - rewrite lookup_insert_ne by done. by apply Hc.
Qed.

Lemma level_ptrs_ids v : lp_levelId <$> level_ptrs v = level_ids v.
Proof.
  unfold level_ptrs. apply list_eq. intros i. rewrite list_lookup_fmap, list_lookup_imap.
  by destruct (level_ids v !! i).
Qed.

Lemma level_update_returns f v l : v ∈ tp_virtualCores tp -> l ∈ level_ptrs v ->
  (forall il, level_readable il -> exists il', f W il = Ret il' /\ il_levelId il' = il_levelId il /\ il_path il' = il_path il) ->
  returns idle_machine (level_update f l) (fun _ => idle_machine).
Proof.
  intros Hv (i & id & -> & Hi)%elem_of_lookup_imap Hf m Hm. destruct Hm as [Hw Hc] eqn:Em. destruct (Hc v Hv) as (vl & Hvl & Hcore & Hids & Hr).
  rewrite <- Hids, list_lookup_fmap in Hi. apply fmap_Some in Hi as (il & Hil & ->).
  destruct (Hf il (proj1 (Forall_lookup _ _) Hr i il Hil)) as (il' & E & El & Ep).
  exists tt, (set_vcore (with_level i il' vl) m). split.
  - unfold level_update, level_object, vcore_object, query, modify, bind. cbn [lp_core lp_index]. rewrite Hvl.
    cbn. unfold vec_index. rewrite Hil. cbn. by rewrite Hw, E.
  - apply (set_vcore_idle m v); [done|done|done| |]; cbn [with_level vl_idleLevels].
    + rewrite list_fmap_insert, El, <- Hids. apply list_insert_id. by rewrite list_lookup_fmap, Hil.
    + apply Forall_insert; [done|]. destruct (proj1 (Forall_lookup _ _) Hr i il Hil). unfold level_readable. by rewrite Ep.
Qed.

Lemma linux_idle_laws : idle_laws tp idle_machine level_ptrs.
Proof.
  split.
  - intros v m Hv [Hw Hc]. destruct (Hc v Hv) as (vl & Hvl & Hcore & Hids & Hr).
    cbn. unfold linux_query, query, vcore_object. rewrite Hvl. cbn. unfold level_ptrs, VirtualCoreLinux_getIdleLevels.
    rewrite <- Hids, imap_fmap. done.
  - intros v Hv. change (NoDup (lp_levelId <$> level_ptrs v)). rewrite level_ptrs_ids. by apply level_ids_ok.
  - intros v l Hv Hl. destruct (level_ids_ok v Hv) as (_ & Hr & _). rewrite <- level_ptrs_ids in Hr.
    rewrite Forall_fmap, Forall_forall in Hr. by apply Hr.
  - intros v Hv. destruct (level_ids_ok v Hv) as (_ & _ & Hs). rewrite <- level_ptrs_ids in Hs.
    change (map u32 (lp_levelId <$> level_ptrs v)) with (map u32 (map lp_levelId (level_ptrs v))) in Hs.
    by rewrite map_map in Hs.
  - intros v l Hv Hl. apply (level_update_returns _ v); [done|done|]. intros il [(t & Et) _].
    eexists. unfold IdleLevel_resetTime, IdleLevel_getAbsoluteTime. rewrite Et. by split.
  - intros v l Hv Hl. apply (level_update_returns _ v); [done|done|]. intros il [_ (c & Ec)].
    eexists. unfold IdleLevel_resetCount, IdleLevel_getAbsoluteCount. rewrite Ec. by split.
  - intros v Hv m Hm. pose proof Hm as [Hw Hc]. destruct (Hc v Hv) as (vl & Hvl & Hcore & Hids & Hr).
    destruct (stat_there v Hv) as (t & Et). exists tt, (set_vcore (with_idleTime t vl) m). split.
    + cbn. unfold linux_query, query, vcore_object, modify, bind. rewrite Hvl. cbn.
      unfold VirtualCoreLinux_resetIdleTime. by rewrite Hw, Hcore, Et.
    + by apply (set_vcore_idle m v).
Qed.
End linux_laws.

(** ** Witnesses: a client connected to the machine of TopologyLinux.v *)
#[local] Existing Instances no_shell sample_ops.
Definition topology_dispatcher : Dispatcher Machine :=
  {[ "topology"%string := Some (Topology_processMessage sample_topology) ]}.
Lemma topology_registered :
  topology_dispatcher !! "topology"%string = Some (Some (Topology_processMessage sample_topology) : option (Module Machine)).
Proof. reflexivity. Qed.
Definition sample_level_ids (v : VirtualCore) : list Z := if vc_virtualCoreId v =? 0 then [0; 1] else [].

Lemma sample_cores : tp_virtualCores sample_topology = [core0; core1].
Proof. vm_compute. reflexivity. Qed.
Lemma in_sample_cores v : v ∈ tp_virtualCores sample_topology -> v = core0 \/ v = core1.
Proof. rewrite sample_cores. intros [->|[->|H%elem_of_nil]%elem_of_cons]%elem_of_cons; auto; done. Qed.

Lemma booted_idle : idle_machine (m_world booted) sample_topology sample_level_ids booted.
Proof.
  split; [done|]. intros v Hv.
  destruct (in_sample_cores v Hv) as [-> | ->]; (eexists; split; [vm_compute; reflexivity|]);
    (split; [vm_compute; reflexivity|]); (split; [vm_compute; reflexivity|]); cbn [vl_idleLevels].
  - repeat (apply Forall_cons_2; [split; eexists; vm_compute; reflexivity|]). apply Forall_nil_2.
  - apply Forall_nil_2.
Qed.

Lemma sample_idle_laws :
  idle_laws sample_topology (idle_machine (m_world booted) sample_topology sample_level_ids) (level_ptrs sample_level_ids).
Proof.
  apply linux_idle_laws.
  - rewrite sample_cores. cbn. apply NoDup_cons. split; [|apply NoDup_singleton]. by intros ?%list_elem_of_singleton.
  - intros v Hv. destruct (in_sample_cores v Hv) as [-> | ->]; eexists; vm_compute; reflexivity.
  - intros v Hv. destruct (in_sample_cores v Hv) as [-> | ->]; (split; [|split]).
    + apply NoDup_cons. split; [|apply NoDup_singleton]. by intros ?%list_elem_of_singleton.
    + repeat (apply Forall_cons_2; [unfold is_u32; lia|]). apply Forall_nil_2.
    + eexists. vm_compute. reflexivity.
    + apply NoDup_nil_2.
    + apply Forall_nil_2.
    + eexists. vm_compute. reflexivity.
Qed.

Lemma Topology_newRemote_same_witness :
  exists t s', @Topology_newRemote _ (net_socket topology_dispatcher whole_cut) _ (mkRemoteTopology (linked booted) ∅) =
      (Ret sample_topology, t) /\ rt_communicator t = linked s' /\
    VirtualCoreRemote_getIdleLevels core0 t = [(0, 0); (0, 1)] /\ VirtualCoreRemote_getIdleLevels core1 t = [].
Proof.
  destruct (Topology_newRemote_same sample_topology topology_dispatcher whole_cut topology_registered whole_cut_ok
    m_world sample_machine booted (idle_machine (m_world booted) sample_topology sample_level_ids)
    (level_ptrs sample_level_ids) booted) as (t & s' & E & Hc & _ & Hl).
  - apply linux_constructs.
  - exact sample_run_ok.
  - exact sample_idle_laws.
  - eexists. vm_compute. reflexivity.
  - exact booted_idle.
  - exists t, s'. split; [exact E|]. split; [exact Hc|]. split; apply Hl; rewrite sample_cores.
    + left.
    + right. left.
Defined.

Lemma VirtualCoreRemote_relays_witness :
  relayed (fun _ => True) id (v_hotUnplug core1 booted)
    (@VirtualCoreRemote_hotUnplug _ (net_socket topology_dispatcher whole_cut) _ core1 (linked booted)).
Proof.
  pose proof (VirtualCoreRemote_relays sample_topology topology_dispatcher whole_cut topology_registered whole_cut_ok
    core1 booted "sse2") as H.
  apply H.
  - unfold is_u32. simpl. lia.
  - vm_compute. reflexivity.
  - eexists. vm_compute. reflexivity.
Defined.

Lemma IdleLevelRemote_relays_witness :
  relayed (fun _ => True) u32 (l_getTime (mkLevelPtr core0 0 0) booted)
    (@IdleLevelRemote_getTime _ (net_socket topology_dispatcher whole_cut) _ (0, 0) (linked booted)).
Proof.
  pose proof (IdleLevelRemote_relays sample_topology topology_dispatcher whole_cut topology_registered whole_cut_ok
    core0 (mkLevelPtr core0 0 0) (level_ptrs sample_level_ids core0) booted) as H.
  apply H.
  - unfold is_u32. simpl. lia.
  - unfold is_u32. simpl. lia.
  - vm_compute. reflexivity.
  - apply (idle_levels _ _ _ sample_idle_laws); [rewrite sample_cores; left|exact booted_idle].
  - apply (idle_distinct _ _ _ sample_idle_laws). rewrite sample_cores. left.
  - left.
Defined.

Lemma remote_core_missing_witness :
  @VirtualCoreRemote_hotUnplug _ (net_socket topology_dispatcher whole_cut) _ (mkVirtualCore 0 0 9) (linked booted) =
    (Throw no_virtual_core, linked booted).
Proof.
  apply (remote_core_missing sample_topology topology_dispatcher whole_cut topology_registered whole_cut_ok
    (tp_HotUnplug 9) "ResultVoid" tp_is_void 9).
  - reflexivity.
  - vm_compute. reflexivity.
  - unfold well_ranged. apply Forall_singleton. cbn. unfold is_u32. lia.
  - eexists. vm_compute. reflexivity.
  - vm_compute. reflexivity.
Defined.
