(* ===== verification/CpuFreqRemote.v ===== *)
(** * Remote frequency scaling (src/cpufreq/cpufreq-remote.cpp, processMessage of cpufreq.cpp)

    [CpuFreqMsg] has the messages of cpufreq-remote.proto; [CpuFreq_processMessage] is the
    server side, over the interface of the local module; the operations of [DomainRemote] and
    [CpuFreqRemote] are the client side, over any socket.  On a connection to a servant every
    remote operation relays the local one ([relayed] of Server.v), but for the two that the
    properties at the end show. *)
From S2P Require Import Prelude UtilsText UtilsVector Double UtilsSys Topology Task TopologyLinux CpuFreq CpuFreqLinux Communicator ProtobufSample Server TopologyRemote.

(** ** Messages *)

(** [mammut.cpufreq], src/cpufreq/cpufreq-remote.proto:5-131. A constructor has the values of
    the fields of its message. *)
Inductive CpuFreqMsg :=
  | cf_GetDomains
  | cf_GetDomainsRes (domains : list (Z * list Z))
  | cf_IsBoostingSupported
  | cf_RemoveTurboFrequencies
  | cf_RemoveTurboFrequenciesDomain (id : Z)
  | cf_ReinsertTurboFrequencies
  | cf_ReinsertTurboFrequenciesDomain (id : Z)
  | cf_IsBoostingEnabled
  | cf_EnableBoosting
  | cf_DisableBoosting
  | cf_GetAvailableFrequencies (id : Z)
  | cf_GetAvailableFrequenciesRes (frequencies : list Z)
  | cf_GetAvailableGovernors (id : Z)
  | cf_GetAvailableGovernorsRes (governors : list Z)
  | cf_GetCurrentFrequency (id : Z) (userspace : bool)
  | cf_GetCurrentFrequencyRes (frequency : Z)
  | cf_GetCurrentGovernor (id : Z)
  | cf_GetCurrentGovernorRes (governor : Z)
  | cf_ChangeFrequency (id frequency : Z)
  | cf_GetHardwareFrequencyBounds (id : Z)
  | cf_GetHardwareFrequencyBoundsRes (lower_bound upper_bound : Z)
  | cf_GetGovernorBounds (id : Z)
  | cf_GetGovernorBoundsRes (lower_bound upper_bound : Z) (result : bool)
  | cf_ChangeFrequencyBounds (id lower_bound upper_bound : Z)
  | cf_ChangeGovernor (id governor : Z)
  | cf_GetTransitionLatency (id : Z)
  | cf_GetCurrentVoltage (id : Z)
  | cf_ResultVoid
  | cf_Result (result : bool)
  | cf_ResultInt (result : Z)
  | cf_ResultDouble (result : double).

Definition cf_name (m : CpuFreqMsg) : string :=
  "mammut.cpufreq." +:+
  match m with
  | cf_GetDomains => "GetDomains"
  | cf_GetDomainsRes _ => "GetDomainsRes"
  | cf_IsBoostingSupported => "IsBoostingSupported"
  | cf_RemoveTurboFrequencies => "RemoveTurboFrequencies"
  | cf_RemoveTurboFrequenciesDomain _ => "RemoveTurboFrequenciesDomain"
  | cf_ReinsertTurboFrequencies => "ReinsertTurboFrequencies"
  | cf_ReinsertTurboFrequenciesDomain _ => "ReinsertTurboFrequenciesDomain"
  | cf_IsBoostingEnabled => "IsBoostingEnabled"
  | cf_EnableBoosting => "EnableBoosting"
  | cf_DisableBoosting => "DisableBoosting"
  | cf_GetAvailableFrequencies _ => "GetAvailableFrequencies"
  | cf_GetAvailableFrequenciesRes _ => "GetAvailableFrequenciesRes"
  | cf_GetAvailableGovernors _ => "GetAvailableGovernors"
  | cf_GetAvailableGovernorsRes _ => "GetAvailableGovernorsRes"
  | cf_GetCurrentFrequency _ _ => "GetCurrentFrequency"
  | cf_GetCurrentFrequencyRes _ => "GetCurrentFrequencyRes"
  | cf_GetCurrentGovernor _ => "GetCurrentGovernor"
  | cf_GetCurrentGovernorRes _ => "GetCurrentGovernorRes"
  | cf_ChangeFrequency _ _ => "ChangeFrequency"
  | cf_GetHardwareFrequencyBounds _ => "GetHardwareFrequencyBounds"
  | cf_GetHardwareFrequencyBoundsRes _ _ => "GetHardwareFrequencyBoundsRes"
  | cf_GetGovernorBounds _ => "GetGovernorBounds"
  | cf_GetGovernorBoundsRes _ _ _ => "GetGovernorBoundsRes"
  | cf_ChangeFrequencyBounds _ _ _ => "ChangeFrequencyBounds"
  | cf_ChangeGovernor _ _ => "ChangeGovernor"
  | cf_GetTransitionLatency _ => "GetTransitionLatency"
  | cf_GetCurrentVoltage _ => "GetCurrentVoltage"
  | cf_ResultVoid => "ResultVoid"
  | cf_Result _ => "Result"
  | cf_ResultInt _ => "ResultInt"
  | cf_ResultDouble _ => "ResultDouble"
  end.

Definition cf_fields (m : CpuFreqMsg) : list pb_field :=
  match m with
  | cf_GetDomains | cf_IsBoostingSupported | cf_RemoveTurboFrequencies | cf_ReinsertTurboFrequencies
  | cf_IsBoostingEnabled | cf_EnableBoosting | cf_DisableBoosting | cf_ResultVoid => []
  | cf_GetDomainsRes ds => [PbMessages (map (fun '(id, vs) => [PbUint32 id; PbUint32s vs]) ds)]
  | cf_RemoveTurboFrequenciesDomain id | cf_ReinsertTurboFrequenciesDomain id | cf_GetAvailableFrequencies id
  | cf_GetAvailableGovernors id | cf_GetCurrentGovernor id | cf_GetHardwareFrequencyBounds id
  | cf_GetGovernorBounds id | cf_GetTransitionLatency id | cf_GetCurrentVoltage id => [PbUint32 id]
  | cf_GetCurrentFrequencyRes z | cf_GetCurrentGovernorRes z => [PbUint32 z]
  | cf_GetAvailableFrequenciesRes l | cf_GetAvailableGovernorsRes l => [PbUint32s l]
  | cf_GetCurrentFrequency id u => [PbUint32 id; PbBool u]
  | cf_ChangeFrequency a b | cf_GetHardwareFrequencyBoundsRes a b | cf_ChangeGovernor a b => [PbUint32 a; PbUint32 b]
  | cf_GetGovernorBoundsRes a b r => [PbUint32 a; PbUint32 b; PbBool r]
  | cf_ChangeFrequencyBounds a b c => [PbUint32 a; PbUint32 b; PbUint32 c]
  | cf_Result b => [PbBool b]
  | cf_ResultInt z => [PbInt32 z]
  | cf_ResultDouble d => [PbDouble d]
  end.

Definition cf_domain_of_fields (fs : list pb_field) : option (Z * list Z) :=
  match fs with [PbUint32 id; PbUint32s vs] => Some (id, vs) | _ => None end.

(** The message with these fields and this name. *)
Definition cf_of_fields (name : string) (fs : list pb_field) : option CpuFreqMsg :=
  find (fun m => bool_decide (cf_name m = name))
    match fs with
    | [] => [cf_GetDomains; cf_IsBoostingSupported; cf_RemoveTurboFrequencies; cf_ReinsertTurboFrequencies;
             cf_IsBoostingEnabled; cf_EnableBoosting; cf_DisableBoosting; cf_ResultVoid]
    | [PbMessages l] => match mapM cf_domain_of_fields l with Some ds => [cf_GetDomainsRes ds] | None => [] end
    | [PbUint32 z] =>
        [cf_RemoveTurboFrequenciesDomain z; cf_ReinsertTurboFrequenciesDomain z; cf_GetAvailableFrequencies z;
         cf_GetAvailableGovernors z; cf_GetCurrentGovernor z; cf_GetHardwareFrequencyBounds z;
         cf_GetGovernorBounds z; cf_GetTransitionLatency z; cf_GetCurrentVoltage z;
         cf_GetCurrentFrequencyRes z; cf_GetCurrentGovernorRes z]
    | [PbUint32s l] => [cf_GetAvailableFrequenciesRes l; cf_GetAvailableGovernorsRes l]
    | [PbUint32 z; PbBool b] => [cf_GetCurrentFrequency z b]
    | [PbUint32 a; PbUint32 b] => [cf_ChangeFrequency a b; cf_GetHardwareFrequencyBoundsRes a b; cf_ChangeGovernor a b]
    | [PbUint32 a; PbUint32 b; PbBool r] => [cf_GetGovernorBoundsRes a b r]
    | [PbUint32 a; PbUint32 b; PbUint32 c] => [cf_ChangeFrequencyBounds a b c]
    | [PbBool b] => [cf_Result b]
    | [PbInt32 z] => [cf_ResultInt z]
    | [PbDouble d] => [cf_ResultDouble d]
    | _ => []
    end.

#[export] Program Instance CpuFreqMsg_proto : ProtoMessage CpuFreqMsg := {|
  GetTypeName := cf_name; pb_fields := cf_fields; pb_of_fields := cf_of_fields
|}.
Next Obligation.
  intros m. destruct m; try reflexivity. unfold cf_of_fields, cf_fields.
  assert (mapM cf_domain_of_fields (map (fun '(id, vs) => [PbUint32 id; PbUint32s vs]) domains) = Some domains) as ->.
  { induction domains as [|[i l] ds IH]; cbn [map mapM]; [done|]. by rewrite IH. }
  reflexivity.
Qed.

(** ** The server side *)
Section process.
Context {S D : Type} `{EqDecision D} {CO : CpuFreqOps S D} {PB : Protobuf}.
(** [Domain::getId]. *)
Variable getId : D -> Z.

(** [CpuFreq::getModuleName], src/cpufreq/cpufreq.cpp:284-287. *)
Definition CpuFreq_getModuleName : outcome string := getModuleNameFromMessage (cf_GetAvailableFrequencies 0).

(** [GetDomainsRes::mutable_domains]: a domain of the message; no check that it is there. *)
Definition mutable_domains (r : list (Z * list Z)) (domainId : Z) : outcome (Z * list Z) :=
  vec_index r (Z.to_nat domainId).

(** [CpuFreq::processMessage], src/cpufreq/cpufreq.cpp:369-374: one iteration. *)
Definition add_domain (r : list (Z * list Z)) (d : D) : M S (list (Z * list Z)) :=
  let domainId := getId d in
  let* ids := query (Domain_getVirtualCoresIdentifiers d) in
  do* lift (mutable_domains r domainId) in
  ret (<[Z.to_nat domainId := (domainId, map u32 ids)]> r).

(** [domains.at(id)] and the answer of an operation on it. *)
Definition on_domain {A} (domains : list D) (id : Z) (f : D -> M S A) (answer : A -> CpuFreqMsg) :
    M S (option (string * string)) :=
  let* d := lift (vec_at domains (Z.to_nat id)) in
  let* a := f d in
  ret (setMessageFromData (answer a)).

(** A constant answer. *)
Definition answer_void (_ : unit) : CpuFreqMsg := cf_ResultVoid.

(** [CpuFreq::processMessage], src/cpufreq/cpufreq.cpp:445-457: the bounds; without them the
    message gets two uninitialised variables. *)
Definition governor_bounds (d : D) : M S (Z * Z) :=
  let* r := d_getCurrentGovernorBounds d in
  match r with Some bounds => ret bounds | None => undef "lb and ub are uninitialised" end.

(** [CpuFreq::processMessage], src/cpufreq/cpufreq.cpp:402-413: the frequency. *)
Definition frequency_of (userspace : bool) (d : D) : M S Z :=
  if userspace then d_getCurrentFrequencyUserspace d else d_getCurrentFrequency d.

(** [CpuFreq::processMessage], src/cpufreq/cpufreq.cpp:289-496. *)
Definition CpuFreq_processMessage (messageIdIn messageIn : string) : M S (option (string * string)) :=
  let* domains := gets f_getDomains in
  match (getDataFromMessage messageIdIn messageIn : option CpuFreqMsg) with
  | Some cf_RemoveTurboFrequencies =>
      do* CpuFreq_removeTurboFrequencies in ret (setMessageFromData cf_ResultVoid)
  | Some cf_ReinsertTurboFrequencies =>
      do* CpuFreq_reinsertTurboFrequencies in ret (setMessageFromData cf_ResultVoid)
  | Some (cf_RemoveTurboFrequenciesDomain id) => on_domain domains id d_removeTurboFrequencies answer_void
  | Some (cf_ReinsertTurboFrequenciesDomain id) => on_domain domains id d_reinsertTurboFrequencies answer_void
  | Some cf_IsBoostingSupported => let* b := f_isBoostingSupported in ret (setMessageFromData (cf_Result b))
  | Some cf_IsBoostingEnabled => let* b := f_isBoostingEnabled in ret (setMessageFromData (cf_Result b))
  | Some cf_EnableBoosting => do* f_enableBoosting in ret (setMessageFromData cf_ResultVoid)
  | Some cf_DisableBoosting => do* f_disableBoosting in ret (setMessageFromData cf_ResultVoid)
  | Some cf_GetDomains => let* r := for_fold domains [] add_domain in ret (setMessageFromData (cf_GetDomainsRes r))
  | Some (cf_GetAvailableFrequencies id) =>
      on_domain domains id d_getAvailableFrequencies (fun l => cf_GetAvailableFrequenciesRes (map u32 l))
  | Some (cf_GetAvailableGovernors id) =>
      on_domain domains id d_getAvailableGovernors (fun l => cf_GetAvailableGovernorsRes (map u32 l))
  | Some (cf_GetCurrentFrequency id userspace) =>
      on_domain domains id (frequency_of userspace) (fun f => cf_GetCurrentFrequencyRes (u32 f))
  | Some (cf_GetCurrentGovernor id) => on_domain domains id d_getCurrentGovernor (fun g => cf_GetCurrentGovernorRes (u32 g))
  | Some (cf_ChangeFrequency id frequency) => on_domain domains id (fun d => d_setFrequencyUserspace d frequency) cf_Result
  | Some (cf_GetHardwareFrequencyBounds id) =>
      on_domain domains id d_getHardwareFrequencyBounds (fun '(lb, ub) => cf_GetHardwareFrequencyBoundsRes (u32 lb) (u32 ub))
  | Some (cf_GetGovernorBounds id) =>
      on_domain domains id governor_bounds (fun '(lb, ub) => cf_GetGovernorBoundsRes (u32 lb) (u32 ub) true)
  | Some (cf_ChangeFrequencyBounds id lb ub) => on_domain domains id (fun d => d_setGovernorBounds d lb ub) cf_Result
  | Some (cf_ChangeGovernor id governor) => on_domain domains id (fun d => d_setGovernor d governor) cf_Result
  | Some (cf_GetTransitionLatency id) => on_domain domains id d_getTransitionLatency (fun l => cf_ResultInt (i32 l))
  | Some (cf_GetCurrentVoltage id) => on_domain domains id d_getCurrentVoltage cf_ResultDouble
  | _ => ret None
  end.
End process.

(** ** The client side *)

(** [DomainRemote], include/mammut/cpufreq/cpufreq-remote.hpp:9-40: its domain identifier, its
    virtual cores and the frequencies it was created with. *)
Record DomainRemote := mkDomainRemote {
  dr_id : Z; dr_virtualCores : list VirtualCore; dr_availableFrequencies : list Z
}.
#[export] Instance DomainRemote_eq_dec : EqDecision DomainRemote.
Proof. solve_decision. Defined.

Definition as_void (r : CpuFreqMsg) : option unit := match r with cf_ResultVoid => Some tt | _ => None end.
Definition as_result (r : CpuFreqMsg) : option bool := match r with cf_Result b => Some b | _ => None end.

Section client.
Context {So : Type} {SO : Socket So} {PB : Protobuf}.

Definition cf_call {B} (req : CpuFreqMsg) (responseType : string) (dec : CpuFreqMsg -> option B) :
    M (CommunicatorTcp So) B :=
  let* r := Communicator_remoteCall req ("mammut.cpufreq." +:+ responseType) in lift (get_field dec r).

(** [DomainRemote::DomainRemote], src/cpufreq/cpufreq-remote.cpp:10-20. *)
Definition DomainRemote_new (domainIdentifier : Z) (virtualCores : list VirtualCore) : M (CommunicatorTcp So) DomainRemote :=
  let* frequencies := cf_call (cf_GetAvailableFrequencies (u32 domainIdentifier)) "GetAvailableFrequenciesRes"
    (fun r => match r with cf_GetAvailableFrequenciesRes l => Some l | _ => None end) in
  ret (mkDomainRemote domainIdentifier virtualCores frequencies).

(** [DomainRemote::removeTurboFrequencies], src/cpufreq/cpufreq-remote.cpp:22-28. *)
Definition DomainRemote_removeTurboFrequencies (d : DomainRemote) : M (CommunicatorTcp So) unit :=
  cf_call (cf_RemoveTurboFrequenciesDomain (u32 (dr_id d))) "ResultVoid" as_void.

(** [DomainRemote::reinsertTurboFrequencies], src/cpufreq/cpufreq-remote.cpp:30-36. *)
Definition DomainRemote_reinsertTurboFrequencies (d : DomainRemote) : M (CommunicatorTcp So) unit :=
  cf_call (cf_RemoveTurboFrequenciesDomain (u32 (dr_id d))) "ResultVoid" as_void.

(** [DomainRemote::getAvailableFrequencies], src/cpufreq/cpufreq-remote.cpp:38-40. *)
Definition DomainRemote_getAvailableFrequencies (d : DomainRemote) : list Z := dr_availableFrequencies d.

(** [DomainRemote::getAvailableGovernors], src/cpufreq/cpufreq-remote.cpp:42-53. *)
Definition DomainRemote_getAvailableGovernors (d : DomainRemote) : M (CommunicatorTcp So) (list Governor) :=
  cf_call (cf_GetAvailableGovernors (u32 (dr_id d))) "GetAvailableGovernorsRes"
    (fun r => match r with cf_GetAvailableGovernorsRes l => Some l | _ => None end).

(** [DomainRemote::getCurrentFrequency], src/cpufreq/cpufreq-remote.cpp:55-63. *)
Definition DomainRemote_getFrequency (d : DomainRemote) (userspace : bool) : M (CommunicatorTcp So) Z :=
  cf_call (cf_GetCurrentFrequency (u32 (dr_id d)) userspace) "GetCurrentFrequencyRes"
    (fun r => match r with cf_GetCurrentFrequencyRes f => Some f | _ => None end).

(** [DomainRemote::getCurrentFrequency], src/cpufreq/cpufreq-remote.cpp:65-67. *)
Definition DomainRemote_getCurrentFrequency (d : DomainRemote) : M (CommunicatorTcp So) Z :=
  DomainRemote_getFrequency d false.

(** [DomainRemote::getCurrentFrequencyUserspace], src/cpufreq/cpufreq-remote.cpp:69-71. *)
Definition DomainRemote_getCurrentFrequencyUserspace (d : DomainRemote) : M (CommunicatorTcp So) Z :=
  DomainRemote_getFrequency d true.

(** [DomainRemote::getCurrentGovernor], src/cpufreq/cpufreq-remote.cpp:73-80. *)
Definition DomainRemote_getCurrentGovernor (d : DomainRemote) : M (CommunicatorTcp So) Governor :=
  cf_call (cf_GetCurrentGovernor (u32 (dr_id d))) "GetCurrentGovernorRes"
    (fun r => match r with cf_GetCurrentGovernorRes g => Some g | _ => None end).

(** [DomainRemote::setFrequencyUserspace], src/cpufreq/cpufreq-remote.cpp:82-89. *)
Definition DomainRemote_setFrequencyUserspace (d : DomainRemote) (frequency : Z) : M (CommunicatorTcp So) bool :=
  cf_call (cf_ChangeFrequency (u32 (dr_id d)) (u32 frequency)) "Result" as_result.

(** [DomainRemote::getHardwareFrequencyBounds], src/cpufreq/cpufreq-remote.cpp:91-98. *)
Definition DomainRemote_getHardwareFrequencyBounds (d : DomainRemote) : M (CommunicatorTcp So) (Z * Z) :=
  cf_call (cf_GetHardwareFrequencyBounds (u32 (dr_id d))) "GetHardwareFrequencyBoundsRes"
    (fun r => match r with cf_GetHardwareFrequencyBoundsRes lb ub => Some (lb, ub) | _ => None end).

(** [DomainRemote::getCurrentGovernorBounds], src/cpufreq/cpufreq-remote.cpp:100-108. The
    references are assigned whatever the result. *)
Definition DomainRemote_getCurrentGovernorBounds (d : DomainRemote) : M (CommunicatorTcp So) (bool * (Z * Z)) :=
  cf_call (cf_GetGovernorBounds (u32 (dr_id d))) "GetGovernorBoundsRes"
    (fun r => match r with cf_GetGovernorBoundsRes lb ub b => Some (b, (lb, ub)) | _ => None end).

(** [DomainRemote::setGovernorBounds], src/cpufreq/cpufreq-remote.cpp:110-118. *)
Definition DomainRemote_setGovernorBounds (d : DomainRemote) (lowerBound upperBound : Z) : M (CommunicatorTcp So) bool :=
  cf_call (cf_ChangeFrequencyBounds (u32 (dr_id d)) (u32 lowerBound) (u32 upperBound)) "Result" as_result.

(** [DomainRemote::setGovernor], src/cpufreq/cpufreq-remote.cpp:120-127. *)
Definition DomainRemote_setGovernor (d : DomainRemote) (governor : Governor) : M (CommunicatorTcp So) bool :=
  cf_call (cf_ChangeGovernor (u32 (dr_id d)) (u32 governor)) "Result" as_result.

(** [DomainRemote::getTransitionLatency], src/cpufreq/cpufreq-remote.cpp:129-135. *)
Definition DomainRemote_getTransitionLatency (d : DomainRemote) : M (CommunicatorTcp So) Z :=
  cf_call (cf_GetTransitionLatency (u32 (dr_id d))) "ResultInt"
    (fun r => match r with cf_ResultInt l => Some l | _ => None end).

(** [DomainRemote::getCurrentVoltage], src/cpufreq/cpufreq-remote.cpp:137-143. *)
Definition DomainRemote_getCurrentVoltage (d : DomainRemote) : M (CommunicatorTcp So) double :=
  cf_call (cf_GetCurrentVoltage (u32 (dr_id d))) "ResultDouble"
    (fun r => match r with cf_ResultDouble v => Some v | _ => None end).

(** [DomainRemote::getVoltageTable], include/mammut/cpufreq/cpufreq-remote.hpp:29-35: both
    versions. *)
Definition DomainRemote_getVoltageTable : outcome VoltageTable := Throw (runtime_error "notsupported").

(** [CpuFreqRemote::CpuFreqRemote], src/cpufreq/cpufreq-remote.cpp:152-159: the domains; [vc]
    are the virtual cores of the remote topology. *)
Definition CpuFreqRemote_domains (vc : list VirtualCore) (domains : list (Z * list Z)) :
    M (CommunicatorTcp So) (list (option DomainRemote)) :=
  for_fold domains (replicate (length domains) None) (fun ds '(id, virtualCoresIdentifiers) =>
    let* d := DomainRemote_new id (CpuFreq_filterVirtualCores vc virtualCoresIdentifiers) in
    do* lift (vec_at ds (Z.to_nat id)) in
    ret (<[Z.to_nat id := Some d]> ds)).

(** [CpuFreqRemote::CpuFreqRemote], src/cpufreq/cpufreq-remote.cpp:146-161. *)
Definition CpuFreqRemote_new :
    M (CommunicatorTcp So) (list (option DomainRemote)) :=
  let* domains := cf_call cf_GetDomains "GetDomainsRes"
    (fun r => match r with cf_GetDomainsRes l => Some l | _ => None end) in
  let* topology := remote_topology in
  CpuFreqRemote_domains (tp_virtualCores topology) domains.

(** [CpuFreqRemote::isBoostingSupported], src/cpufreq/cpufreq-remote.cpp:171-176. *)
Definition CpuFreqRemote_isBoostingSupported : M (CommunicatorTcp So) bool :=
  cf_call cf_IsBoostingSupported "Result" as_result.
(** [CpuFreqRemote::isBoostingEnabled], src/cpufreq/cpufreq-remote.cpp:178-183. *)
Definition CpuFreqRemote_isBoostingEnabled : M (CommunicatorTcp So) bool :=
  cf_call cf_IsBoostingEnabled "Result" as_result.
(** [CpuFreqRemote::enableBoosting], src/cpufreq/cpufreq-remote.cpp:185-189. *)
Definition CpuFreqRemote_enableBoosting : M (CommunicatorTcp So) unit := cf_call cf_EnableBoosting "ResultVoid" as_void.
(** [CpuFreqRemote::disableBoosting], src/cpufreq/cpufreq-remote.cpp:191-195. *)
Definition CpuFreqRemote_disableBoosting : M (CommunicatorTcp So) unit := cf_call cf_DisableBoosting "ResultVoid" as_void.
End client.

(** Solves the side conditions of [cf_relay] and of its consequences for a domain. *)
Ltac relay_side Hid :=
  lazymatch goal with
  | |- getModuleNameFromMessage _ = _ => reflexivity
  | |- str_len _ < _ => vm_compute; reflexivity
  | |- scalar_message _ = true => reflexivity
  | |- well_ranged _ => fields_ok
  | |- forall bytes, getDataFromMessage _ bytes = _ -> _ =>
      let b := fresh "b" in let H := fresh "H" in
      intros b H; unfold CpuFreq_processMessage, gets; unfold bind at 1; rewrite H; cbv iota beta;
      rewrite ?(u32_id _ Hid); reflexivity
  | |- forall a, _ /\ _ => 
      first [ intros [] | intros ? ];
      (split; [first [apply well_ranged_u32s | fields_ok] |
               split; reflexivity])
  | |- forall a, scalar_message _ = true => first [ intros [] | intros ? ]; reflexivity
  end.

(** * Properties *)

Section relays.
Context {S D : Type} `{EqDecision D} {CO : CpuFreqOps S D} {PB : Protobuf} {PL : ProtobufLaws}.
Variables (getId : D -> Z) (dispatcher : Dispatcher S) (cut : string -> list string).
Hypothesis registered : dispatcher !! "cpufreq"%string = Some (Some (CpuFreq_processMessage getId) : option (Module S)).
Hypothesis cut_ok : forall b, segments (cut b) = b /\ Forall (fun s => s <> EmptyString) (cut b).
#[local] Instance connection : Socket (Net S) := net_socket dispatcher cut.

(** A request whose handler runs [op] and answers [enc] of its result. *)
Lemma cf_relay {A B} (req : CpuFreqMsg) (ty : string) (op : M S A) (enc : A -> CpuFreqMsg)
    (dec : CpuFreqMsg -> option B) (f : A -> B) (s : S) :
  getModuleNameFromMessage req = Ret "cpufreq"%string -> str_len (GetTypeName req) < 1000 -> str_len ty < 500 ->
  well_ranged req -> scalar_message req = true ->
  (forall bytes, getDataFromMessage (GetTypeName req) bytes = Some req ->
     CpuFreq_processMessage getId (GetTypeName req) bytes s = (let* a := op in ret (setMessageFromData (enc a))) s) ->
  (forall a, fst (op s) = Ret a ->
     well_ranged (enc a) /\ GetTypeName (enc a) = ("mammut.cpufreq." +:+ ty)%string /\ dec (enc a) = Some (f a)) ->
  relayed (fun a => is_Some (SerializeToString (enc a))) f (op s) (cf_call req ty dec (linked s)).
Proof.
  intros Hn Hl Ht Hw Hsc Hp Henc.
  apply (relay_call dispatcher cut cut_ok (CpuFreq_processMessage getId) "cpufreq"); [done|done|done| |done|done| |done|].
  - rewrite str_len_app. change (str_len "mammut.cpufreq.") with 15. lia.
  - by apply serialize_scalars.
  - intros a Ha. destruct (Henc a Ha) as (? & ? & Hd). split; [done|]. split; [done|]. unfold get_field. by rewrite Hd.
Qed.


Section domain.
Variables (r : DomainRemote) (d : D) (s : S).
Hypothesis id_range : is_u32 (dr_id r).
Hypothesis domain_there : f_getDomains s !! Z.to_nat (dr_id r) = Some d.

(** A request on the domain. *)
Lemma domain_relay {A B} (req : CpuFreqMsg) (ty : string) (op : D -> M S A) (enc : A -> CpuFreqMsg)
    (dec : CpuFreqMsg -> option B) (f : A -> B) :
  getModuleNameFromMessage req = Ret "cpufreq"%string -> str_len (GetTypeName req) < 1000 -> str_len ty < 500 ->
  well_ranged req -> scalar_message req = true ->
  (forall bytes, getDataFromMessage (GetTypeName req) bytes = Some req ->
     CpuFreq_processMessage getId (GetTypeName req) bytes s = on_domain (f_getDomains s) (dr_id r) op enc s) ->
  (forall a, well_ranged (enc a) /\ GetTypeName (enc a) = ("mammut.cpufreq." +:+ ty)%string /\ dec (enc a) = Some (f a)) ->
  relayed (fun a => is_Some (SerializeToString (enc a))) f (op d s) (cf_call req ty dec (linked s)).
Proof.
  intros Hn Hl Ht Hw Hsc Hp Henc. apply cf_relay; [done..| |by intros a _].
  intros bytes Hb. rewrite (Hp bytes Hb). unfold on_domain, lift, bind at 1, vec_at. by rewrite domain_there.
Qed.


(** The same when the response has a few scalar fields: it is always delivered. *)
Lemma domain_relay_scalar {A B} (req : CpuFreqMsg) (ty : string) (op : D -> M S A) (enc : A -> CpuFreqMsg)
    (dec : CpuFreqMsg -> option B) (f : A -> B) :
  getModuleNameFromMessage req = Ret "cpufreq"%string -> str_len (GetTypeName req) < 1000 -> str_len ty < 500 ->
  well_ranged req -> scalar_message req = true ->
  (forall bytes, getDataFromMessage (GetTypeName req) bytes = Some req ->
     CpuFreq_processMessage getId (GetTypeName req) bytes s = on_domain (f_getDomains s) (dr_id r) op enc s) ->
  (forall a, well_ranged (enc a) /\ GetTypeName (enc a) = ("mammut.cpufreq." +:+ ty)%string /\ dec (enc a) = Some (f a)) ->
  (forall a, scalar_message (enc a) = true) ->
  relayed (fun _ => True) f (op d s) (cf_call req ty dec (linked s)).
Proof.
  intros Hn Hl Ht Hw Hsc Hp Henc Hs.
  eapply relayed_always; [|by apply (domain_relay req ty op enc)].
  intros a _. apply serialize_scalars; [apply Henc|apply Hs].
Qed.
End domain.

(** C35: of the operations of a remote domain, removing the turbo frequencies, setting and getting the
    governor, the frequency for [userspace] and the bounds of the governor, and getting the available
    governors, the current frequency, the bounds of the hardware, the transition latency and the
    voltage do what the operation does on the domain of the server with that identifier: they change
    the server's machine and return as it, and throw when that throws a [runtime_error], with its
    text; frequencies, bounds and governors come back as 32-bit integers. The remaining ones do not:
    reinserting the turbo frequencies does what removing them does; the available frequencies are
    those that the server had when the remote domain was created, for ever; the voltage table
    throws. *)
Theorem DomainRemote_relays (r : DomainRemote) (d : D) (s : S) (frequency lb ub : Z) (g : Governor) :
  is_u32 (dr_id r) -> f_getDomains s !! Z.to_nat (dr_id r) = Some d ->
  is_u32 frequency -> is_u32 lb -> is_u32 ub -> is_u32 g ->
  relayed (fun _ => True) id (d_removeTurboFrequencies d s) (DomainRemote_removeTurboFrequencies r (linked s)) /\
  relayed (fun l => is_Some (SerializeToString (cf_GetAvailableGovernorsRes (map u32 l)))) (map u32)
    (d_getAvailableGovernors d s) (DomainRemote_getAvailableGovernors r (linked s)) /\
  relayed (fun _ => True) u32 (d_getCurrentFrequency d s) (DomainRemote_getCurrentFrequency r (linked s)) /\
  relayed (fun _ => True) u32 (d_getCurrentFrequencyUserspace d s) (DomainRemote_getCurrentFrequencyUserspace r (linked s)) /\
  relayed (fun _ => True) u32 (d_getCurrentGovernor d s) (DomainRemote_getCurrentGovernor r (linked s)) /\
  relayed (fun _ => True) id (d_setFrequencyUserspace d frequency s) (DomainRemote_setFrequencyUserspace r frequency (linked s)) /\
  relayed (fun _ => True) (fun '(a, b) => (u32 a, u32 b))
    (d_getHardwareFrequencyBounds d s) (DomainRemote_getHardwareFrequencyBounds r (linked s)) /\
  relayed (fun _ => True) (fun '(a, b) => (true, (u32 a, u32 b)))
    (governor_bounds d s) (DomainRemote_getCurrentGovernorBounds r (linked s)) /\
  relayed (fun _ => True) id (d_setGovernorBounds d lb ub s) (DomainRemote_setGovernorBounds r lb ub (linked s)) /\
  relayed (fun _ => True) id (d_setGovernor d g s) (DomainRemote_setGovernor r g (linked s)) /\
  relayed (fun _ => True) i32 (d_getTransitionLatency d s) (DomainRemote_getTransitionLatency r (linked s)) /\
  relayed (fun v => is_Some (SerializeToString (cf_ResultDouble v))) id
    (d_getCurrentVoltage d s) (DomainRemote_getCurrentVoltage r (linked s)) /\
  relayed (fun _ => True) id (d_removeTurboFrequencies d s) (DomainRemote_reinsertTurboFrequencies r (linked s)) /\
  (forall vcs, relayed (fun l => is_Some (SerializeToString (cf_GetAvailableFrequenciesRes (map u32 l))))
     (fun l => mkDomainRemote (dr_id r) vcs (map u32 l))
     (d_getAvailableFrequencies d s) (DomainRemote_new (dr_id r) vcs (linked s))) /\
  DomainRemote_getAvailableFrequencies r = dr_availableFrequencies r /\
  DomainRemote_getVoltageTable = Throw (runtime_error "notsupported").
Proof.
  intros Hid Hd Hf Hlb Hub Hg.
  unfold DomainRemote_setFrequencyUserspace, DomainRemote_setGovernorBounds, DomainRemote_setGovernor.
  rewrite (u32_id frequency Hf), (u32_id lb Hlb), (u32_id ub Hub), (u32_id g Hg).
  repeat apply conj.
  - eapply (domain_relay_scalar r d s Hd _ _ _ answer_void); relay_side Hid.
  - eapply (domain_relay r d s Hd _ _ _ (fun l => cf_GetAvailableGovernorsRes (map u32 l))); relay_side Hid.
  - eapply (domain_relay_scalar r d s Hd _ _ (frequency_of false) (fun f => cf_GetCurrentFrequencyRes (u32 f))); relay_side Hid.
  - eapply (domain_relay_scalar r d s Hd _ _ (frequency_of true) (fun f => cf_GetCurrentFrequencyRes (u32 f))); relay_side Hid.
  - eapply (domain_relay_scalar r d s Hd _ _ _ (fun g => cf_GetCurrentGovernorRes (u32 g))); relay_side Hid.
  - eapply (domain_relay_scalar r d s Hd _ _ (fun d => d_setFrequencyUserspace d frequency) cf_Result); relay_side Hid.
  - eapply (domain_relay_scalar r d s Hd _ _ _ (fun '(lb, ub) => cf_GetHardwareFrequencyBoundsRes (u32 lb) (u32 ub))); relay_side Hid.
  - eapply (domain_relay_scalar r d s Hd _ _ _ (fun '(lb, ub) => cf_GetGovernorBoundsRes (u32 lb) (u32 ub) true)); relay_side Hid.
  - eapply (domain_relay_scalar r d s Hd _ _ (fun d => d_setGovernorBounds d lb ub) cf_Result); relay_side Hid.
  - eapply (domain_relay_scalar r d s Hd _ _ (fun d => d_setGovernor d g) cf_Result); relay_side Hid.
  - eapply (domain_relay_scalar r d s Hd _ _ _ (fun l => cf_ResultInt (i32 l))); relay_side Hid.
  - eapply (domain_relay r d s Hd _ _ _ cf_ResultDouble); relay_side Hid.
  - eapply (domain_relay_scalar r d s Hd _ _ _ answer_void); relay_side Hid.
  - intros vcs. apply (relayed_then _ (map u32) (mkDomainRemote (dr_id r) vcs)).
    eapply (domain_relay r d s Hd _ _ _ (fun l => cf_GetAvailableFrequenciesRes (map u32 l))); relay_side Hid.
  - done.
  - done.
Qed.

(** Reinserting the turbo frequencies of a remote domain removes them: the request that is
    sent is the one that removes. *)
Theorem DomainRemote_reinsert_removes (r : DomainRemote) (d : D) (s : S) :
  is_u32 (dr_id r) -> f_getDomains s !! Z.to_nat (dr_id r) = Some d ->
  relayed (fun _ => True) id (d_removeTurboFrequencies d s) (DomainRemote_reinsertTurboFrequencies r (linked s)).
Proof.
  intros Hid Hd. eapply (domain_relay_scalar r d s Hd _ _ _ answer_void); relay_side Hid.
Qed.

(** The module has no working remote version: on any server with a frequency domain, the
    first request of [CpuFreqRemote] makes the server write to an element of the response that
    was never added. *)
Theorem CpuFreqRemote_unusable (s : S) :
  f_getDomains s <> [] -> (forall d, d ∈ f_getDomains s -> exists vs, d_getVirtualCores d s = Ret vs) ->
  exists why c, CpuFreqRemote_new (linked s) = (Undef why, c).
Proof.
  intros Hne Hvs.
  assert (exists why s', for_fold (f_getDomains s) [] (add_domain getId) s = (Undef why, s')) as (why & s' & E).
  { destruct (f_getDomains s) as [|d ds]; [done|]. destruct (Hvs d ltac:(left)) as (vs & Hd).
    exists "vector index past the end"%string, s. cbn [for_fold]. unfold add_domain at 1, bind at 1 2, query.
    unfold Domain_getVirtualCoresIdentifiers. rewrite Hd. reflexivity. }
  assert (relayed (fun a => is_Some (SerializeToString (cf_GetDomainsRes a))) id
    (for_fold (f_getDomains s) [] (add_domain getId) s)
    (cf_call cf_GetDomains "GetDomainsRes" (fun r => match r with cf_GetDomainsRes l => Some l | _ => None end) (linked s))) as H.
  { apply (cf_relay _ _ (for_fold (f_getDomains s) [] (add_domain getId)) cf_GetDomainsRes); [reflexivity|reflexivity|reflexivity| | | |].
    - fields_ok.
    - reflexivity.
    - intros bytes Hb. unfold CpuFreq_processMessage, gets. unfold bind at 1. by rewrite Hb.
    - intros a Ha. rewrite E in Ha. done. }
  rewrite E in H. inversion H as [| | | |? ? c E1 E2|]; subst. exists why, c. unfold CpuFreqRemote_new, bind. by rewrite <- E2.
Qed.
End relays.

(** ** Witnesses: a client connected to the machine of CpuFreqLinux.v *)
Definition freq_dispatcher : Dispatcher FreqMachine :=
  {[ "cpufreq"%string := Some (CpuFreq_processMessage Z.of_nat) ]}.
Lemma freq_registered :
  freq_dispatcher !! "cpufreq"%string = Some (Some (CpuFreq_processMessage Z.of_nat) : option (Module FreqMachine)).
Proof. reflexivity. Qed.
Definition remote0 : DomainRemote := mkDomainRemote 0 [freq_core0] [].

Lemma DomainRemote_relays_witness :
  relayed (fun _ => True) u32 (d_getCurrentGovernor 0%nat freq_machine0)
    (@DomainRemote_getCurrentGovernor _ (net_socket freq_dispatcher whole_cut) _ remote0 (linked freq_machine0)).
Proof.
  pose proof (DomainRemote_relays Z.of_nat freq_dispatcher whole_cut freq_registered whole_cut_ok remote0 0%nat
    freq_machine0 1800000 1200000 2400000 GOVERNOR_USERSPACE) as H.
  apply H; first [reflexivity | unfold is_u32, GOVERNOR_USERSPACE; simpl; lia].
Defined.

Lemma DomainRemote_reinsert_removes_witness :
  relayed (fun _ => True) id (d_removeTurboFrequencies 0%nat freq_machine0)
    (@DomainRemote_reinsertTurboFrequencies _ (net_socket freq_dispatcher whole_cut) _ remote0 (linked freq_machine0)).
Proof.
  apply (DomainRemote_reinsert_removes Z.of_nat freq_dispatcher whole_cut freq_registered whole_cut_ok remote0 0%nat freq_machine0).
  - unfold is_u32. simpl. lia.
  - reflexivity.
Defined.

Lemma CpuFreqRemote_unusable_witness :
  exists why c, @CpuFreqRemote_new _ (net_socket freq_dispatcher whole_cut) _ (linked freq_machine0) = (Undef why, c).
Proof.
  apply (CpuFreqRemote_unusable Z.of_nat freq_dispatcher whole_cut freq_registered whole_cut_ok).
  - discriminate.
  - intros d Hd. apply list_elem_of_In in Hd. destruct Hd as [<-|[<-|[]]]; eexists; reflexivity.
Defined.
