(* ===== verification/EnergyRemote.v ===== *)
(** * Remote energy counters (src/energy/energy-remote.cpp, processMessage of energy.cpp)

    [EnergyMsg] has the messages of energy-remote.proto; [Energy_processMessage] is the server
    side, over the interface [EnergyOps] of the local module, of which each counter may be
    missing; the operations of the remote counters and the remote constructor are the client
    side, over any socket. *)
From S2P Require Import Prelude UtilsText UtilsVector Double UtilsSys Topology Task TopologyLinux Energy EnergyLinux Communicator ProtobufSample Server TopologyRemote.

(** ** Messages *)

(** [CounterTypePb], src/energy/energy-remote.proto:5-9. *)
Inductive CounterTypePb := COUNTER_TYPE_PB_CPUS | COUNTER_TYPE_PB_MEMORY | COUNTER_TYPE_PB_PLUG.
(** [CounterValueType], src/energy/energy-remote.proto:11-17. *)
Inductive CounterValueType :=
  | COUNTER_VALUE_TYPE_ALL | COUNTER_VALUE_TYPE_CPU | COUNTER_VALUE_TYPE_CORES | COUNTER_VALUE_TYPE_GRAPHIC
  | COUNTER_VALUE_TYPE_DRAM.
(** [CounterCommand], src/energy/energy-remote.proto:19-24. *)
Inductive CounterCommand := COUNTER_COMMAND_INIT | COUNTER_COMMAND_RESET | COUNTER_COMMAND_GET | COUNTER_COMMAND_HAS.
#[export] Instance CounterTypePb_eq_dec : EqDecision CounterTypePb.
Proof. solve_decision. Defined.
#[export] Instance CounterValueType_eq_dec : EqDecision CounterValueType.
Proof. solve_decision. Defined.
#[export] Instance CounterCommand_eq_dec : EqDecision CounterCommand.
Proof. solve_decision. Defined.

(** [mammut.energy], src/energy/energy-remote.proto:26-49. The subtype is optional; the result
    of a [CounterResBool] is a required field that a handler may leave unset. *)
Inductive EnergyMsg :=
  | en_CounterReq (type : CounterTypePb) (subtype : option CounterValueType) (cmd : CounterCommand)
  | en_CounterResBool (res : option bool)
  | en_CounterResGetGeneric (joules : double)
  | en_CounterResGetCpu (joules : list (Z * JoulesCpu)).

Definition en_name (m : EnergyMsg) : string :=
  "mammut.energy." +:+
  match m with
  | en_CounterReq _ _ _ => "CounterReq"
  | en_CounterResBool _ => "CounterResBool"
  | en_CounterResGetGeneric _ => "CounterResGetGeneric"
  | en_CounterResGetCpu _ => "CounterResGetCpu"
  end.

Definition all_types := [COUNTER_TYPE_PB_CPUS; COUNTER_TYPE_PB_MEMORY; COUNTER_TYPE_PB_PLUG].
Definition all_subtypes :=
  [COUNTER_VALUE_TYPE_ALL; COUNTER_VALUE_TYPE_CPU; COUNTER_VALUE_TYPE_CORES; COUNTER_VALUE_TYPE_GRAPHIC; COUNTER_VALUE_TYPE_DRAM].
Definition all_commands := [COUNTER_COMMAND_INIT; COUNTER_COMMAND_RESET; COUNTER_COMMAND_GET; COUNTER_COMMAND_HAS].
(** The number of a constant of an enumeration: its position. *)
Fixpoint enum_code {A} `{EqDecision A} (l : list A) (a : A) : Z :=
  match l with [] => 0 | b :: l' => if bool_decide (a = b) then 0 else 1 + enum_code l' a end.
Definition enum_of_code {A} (l : list A) (z : Z) : option A := if 0 <=? z then l !! Z.to_nat z else None.

Definition results_fields (r : Z * JoulesCpu) : list pb_field :=
  [PbUint32 (fst r); PbDouble (j_cpu (snd r)); PbDouble (j_cores (snd r)); PbDouble (j_graphic (snd r));
   PbDouble (j_dram (snd r))].
Definition results_of_fields (fs : list pb_field) : option (Z * JoulesCpu) :=
  match fs with
  | [PbUint32 z; PbDouble a; PbDouble b; PbDouble c; PbDouble d] => Some (z, mkJoulesCpu a b c d)
  | _ => None
  end.

(** The fields; an optional field that is not set is not sent. *)
Definition en_fields (m : EnergyMsg) : list pb_field :=
  match m with
  | en_CounterReq t None c => [PbEnum (enum_code all_types t); PbEnum (enum_code all_commands c)]
  | en_CounterReq t (Some s) c =>
      [PbEnum (enum_code all_types t); PbEnum (enum_code all_subtypes s); PbEnum (enum_code all_commands c)]
  | en_CounterResBool o => [pb_required PbBool o]
  | en_CounterResGetGeneric j => [PbDouble j]
  | en_CounterResGetCpu l => [PbMessages (map results_fields l)]
  end.
Definition en_of_fields (name : string) (fs : list pb_field) : option EnergyMsg :=
  m ← match fs with
      | [PbEnum t; PbEnum c] =>
          t ← enum_of_code all_types t; c ← enum_of_code all_commands c; Some (en_CounterReq t None c)
      | [PbEnum t; PbEnum s; PbEnum c] =>
          t ← enum_of_code all_types t; s ← enum_of_code all_subtypes s; c ← enum_of_code all_commands c;
          Some (en_CounterReq t (Some s) c)
      | [PbBool b] => Some (en_CounterResBool (Some b))
      | [PbMissing] => Some (en_CounterResBool None)
      | [PbDouble j] => Some (en_CounterResGetGeneric j)
      | [PbMessages l] => en_CounterResGetCpu <$> mapM results_of_fields l
      | _ => None
      end;
  if bool_decide (en_name m = name) then Some m else None.

#[export] Program Instance EnergyMsg_proto : ProtoMessage EnergyMsg := {|
  GetTypeName := en_name; pb_fields := en_fields; pb_of_fields := en_of_fields
|}.
Next Obligation.
  intros m. destruct m as [t s c|o|j|l]; try reflexivity.
  - by destruct t, s as [[]|], c.
  - by destruct o.
  - unfold en_of_fields, en_fields.
    assert (mapM results_of_fields (map results_fields l) = Some l) as ->; [|reflexivity].
    induction l as [|[z []] l IH]; cbn [map mapM]; [done|]. by rewrite IH.
Qed.

(** ** The server side *)
Section process.
Context {S : Type} {EO : EnergyOps S} {PB : Protobuf}.

(** [Energy::getModuleName], src/energy/energy.cpp:345-348. *)
Definition Energy_getModuleName : outcome string :=
  getModuleNameFromMessage (en_CounterReq COUNTER_TYPE_PB_CPUS None COUNTER_COMMAND_INIT).

(** [Energy::processMessage], src/energy/energy.cpp:356-367: the counter, when there is one. *)
Definition counter_of (type : CounterTypePb) (s : S) : option CounterType :=
  let c := match type with
           | COUNTER_TYPE_PB_PLUG => COUNTER_PLUG
           | COUNTER_TYPE_PB_MEMORY => COUNTER_MEMORY
           | COUNTER_TYPE_PB_CPUS => COUNTER_CPUS
           end in
  if e_counter s c then Some c else None.

(** A call through a pointer that may be null. *)
Definition dereference {A} (p : S -> option CounterType) (f : CounterType -> M S A) : M S A :=
  let* c := gets p in
  match c with Some c => f c | None => undef "call through a null pointer to a counter" end.

(** [Energy::processMessage], src/energy/energy.cpp:369-377: the [INIT] command. *)
Definition process_init (type : CounterTypePb) : M S bool :=
  let* c := gets (counter_of type) in
  match c with Some c => e_init c | None => ret false end.

(** [Energy::processMessage], src/energy/energy.cpp:384-396: what a [HAS] command on the CPUs
    finds, when its subtype is one of three. *)
Definition process_has (subtype : CounterValueType) : M S (option bool) :=
  let has (f : M S bool) := dereference (counter_of COUNTER_TYPE_PB_CPUS) (fun _ => let* b := f in ret (Some b)) in
  match subtype with
  | COUNTER_VALUE_TYPE_CORES => has e_hasJoulesCores
  | COUNTER_VALUE_TYPE_GRAPHIC => has e_hasJoulesGraphic
  | COUNTER_VALUE_TYPE_DRAM => has e_hasJoulesDram
  | _ => ret None
  end.

(** [Energy::processMessage], src/energy/energy.cpp:398-414: the joules of each CPU. *)
Definition process_get_cpus : M S (list (Z * JoulesCpu)) :=
  let* cpus := dereference (counter_of COUNTER_TYPE_PB_CPUS) (fun _ => gets e_cpus) in
  for_map cpus (fun c => let* jc := e_getJoulesComponents (cpu_cpuId c) in ret (u32 (cpu_cpuId c), jc)).

(** [Energy::processMessage], src/energy/energy.cpp:351-426. *)
Definition Energy_processMessage (messageIdIn messageIn : string) : M S (option (string * string)) :=
  match (getDataFromMessage messageIdIn messageIn : option EnergyMsg) with
  | Some (en_CounterReq type subtype cmd) =>
      match cmd with
      | COUNTER_COMMAND_INIT =>
          let* b := process_init type in ret (setMessageFromData (en_CounterResBool (Some b)))
      | COUNTER_COMMAND_RESET =>
          do* dereference (counter_of type) e_reset in ret (setMessageFromData (en_CounterResBool (Some true)))
      | COUNTER_COMMAND_HAS =>
          if bool_decide (type = COUNTER_TYPE_PB_CPUS) then
            let* b := process_has (default COUNTER_VALUE_TYPE_ALL subtype) in
            ret (setMessageFromData (en_CounterResBool b))
          else ret None
      | COUNTER_COMMAND_GET =>
          if bool_decide (type = COUNTER_TYPE_PB_CPUS) then
            let* l := process_get_cpus in ret (setMessageFromData (en_CounterResGetCpu l))
          else
            let* j := dereference (counter_of type) e_getJoules in ret (setMessageFromData (en_CounterResGetGeneric j))
      end
  | _ => ret None
  end.
End process.

(** ** The client side *)

(** [CounterCpusRemote], include/mammut/energy/energy-remote.hpp:34-41: the CPUs of the remote
    topology and what the server's counter has. *)
Record CounterCpusRemote := mkCounterCpusRemote {
  ccr_cpus : list Cpu; ccr_hasCores : bool; ccr_hasDram : bool; ccr_hasGraphic : bool
}.

Definition en_is_bool (r : EnergyMsg) : option bool := match r with en_CounterResBool o => o | _ => None end.
(** The reply to a [RESET], whose result is ignored. *)
Definition en_ignored (r : EnergyMsg) : option unit := match r with en_CounterResBool _ => Some tt | _ => None end.
Definition en_joules (r : EnergyMsg) : option double := match r with en_CounterResGetGeneric j => Some j | _ => None end.

Section client.
Context {So : Type} {SO : Socket So} {PB : Protobuf}.

Definition en_call {B} (req : EnergyMsg) (responseType : string) (dec : EnergyMsg -> option B) :
    M (CommunicatorTcp So) B :=
  let* r := Communicator_remoteCall req ("mammut.energy." +:+ responseType) in lift (get_field dec r).

Definition counter_init (type : CounterTypePb) : M (CommunicatorTcp So) bool :=
  en_call (en_CounterReq type None COUNTER_COMMAND_INIT) "CounterResBool" en_is_bool.
Definition counter_getJoules (type : CounterTypePb) : M (CommunicatorTcp So) double :=
  en_call (en_CounterReq type None COUNTER_COMMAND_GET) "CounterResGetGeneric" en_joules.
Definition counter_reset (type : CounterTypePb) : M (CommunicatorTcp So) unit :=
  en_call (en_CounterReq type None COUNTER_COMMAND_RESET) "CounterResBool" en_ignored.

(** [CounterPlugRemote::init], src/energy/energy-remote.cpp:13-20. *)
Definition CounterPlugRemote_init : M (CommunicatorTcp So) bool := counter_init COUNTER_TYPE_PB_PLUG.
(** [CounterPlugRemote::getJoules], src/energy/energy-remote.cpp:22-29. *)
Definition CounterPlugRemote_getJoules : M (CommunicatorTcp So) double := counter_getJoules COUNTER_TYPE_PB_PLUG.
(** [CounterPlugRemote::reset], src/energy/energy-remote.cpp:31-37. *)
Definition CounterPlugRemote_reset : M (CommunicatorTcp So) unit := counter_reset COUNTER_TYPE_PB_PLUG.
(** [CounterMemoryRemote::init], src/energy/energy-remote.cpp:44-51. *)
Definition CounterMemoryRemote_init : M (CommunicatorTcp So) bool := counter_init COUNTER_TYPE_PB_MEMORY.
(** [CounterMemoryRemote::getJoules], src/energy/energy-remote.cpp:53-60. *)
Definition CounterMemoryRemote_getJoules : M (CommunicatorTcp So) double := counter_getJoules COUNTER_TYPE_PB_MEMORY.
(** [CounterMemoryRemote::reset], src/energy/energy-remote.cpp:62-68. *)
Definition CounterMemoryRemote_reset : M (CommunicatorTcp So) unit := counter_reset COUNTER_TYPE_PB_MEMORY.

(** [CounterCpusRemote::init], src/energy/energy-remote.cpp:173-180. *)
Definition CounterCpusRemote_init : M (CommunicatorTcp So) bool := counter_init COUNTER_TYPE_PB_CPUS.
(** [CounterCpusRemote::reset], src/energy/energy-remote.cpp:182-188. *)
Definition CounterCpusRemote_reset : M (CommunicatorTcp So) unit := counter_reset COUNTER_TYPE_PB_CPUS.

Definition counter_has (subtype : CounterValueType) : M (CommunicatorTcp So) bool :=
  en_call (en_CounterReq COUNTER_TYPE_PB_CPUS (Some subtype) COUNTER_COMMAND_HAS) "CounterResBool" en_is_bool.

(** [CounterCpusRemote::CounterCpusRemote], src/energy/energy-remote.cpp:70-93. *)
Definition CounterCpusRemote_new : M (CommunicatorTcp So) CounterCpusRemote :=
  let* topology := remote_topology in
  let* hasCores := counter_has COUNTER_VALUE_TYPE_CORES in
  let* hasGraphic := counter_has COUNTER_VALUE_TYPE_GRAPHIC in
  let* hasDram := counter_has COUNTER_VALUE_TYPE_DRAM in
  ret (mkCounterCpusRemote (tp_cpus topology) hasCores hasDram hasGraphic).

Definition get_cpus : M (CommunicatorTcp So) (list (Z * JoulesCpu)) :=
  en_call (en_CounterReq COUNTER_TYPE_PB_CPUS None COUNTER_COMMAND_GET) "CounterResGetCpu"
    (fun r => match r with en_CounterResGetCpu l => Some l | _ => None end).

(** [CounterCpusRemote::getJoulesComponents], src/energy/energy-remote.cpp:101-108: the loop. *)
Definition sum_components (l : list (Z * JoulesCpu)) : JoulesCpu :=
  fold_left (fun jc r => JoulesCpu_add jc (snd r)) l JoulesCpu_zero.
(** [CounterCpusRemote::getJoulesComponents], src/energy/energy-remote.cpp:117-126: the loop. *)
Definition components_of (cpuId : Z) (l : list (Z * JoulesCpu)) : JoulesCpu :=
  fold_left (fun jc r => if fst r =? cpuId then snd r else jc) l JoulesCpu_zero.

(** [CounterCpusRemote::getJoulesComponents], src/energy/energy-remote.cpp:95-109. *)
Definition CounterCpusRemote_getJoulesComponents : M (CommunicatorTcp So) JoulesCpu :=
  let* l := get_cpus in ret (sum_components l).
(** [CounterCpusRemote::getJoulesComponents], src/energy/energy-remote.cpp:111-127. *)
Definition CounterCpusRemote_getJoulesComponentsOf (cpuId : Z) : M (CommunicatorTcp So) JoulesCpu :=
  let* l := get_cpus in ret (components_of cpuId l).

Definition component (f : JoulesCpu -> double) (m : M (CommunicatorTcp So) JoulesCpu) : M (CommunicatorTcp So) double :=
  let* j := m in ret (f j).
(** [CounterCpusRemote::getJoulesCpu], src/energy/energy-remote.cpp:129-131. *)
Definition CounterCpusRemote_getJoulesCpu := component j_cpu CounterCpusRemote_getJoulesComponents.
(** [CounterCpusRemote::getJoulesCpu], src/energy/energy-remote.cpp:133-135. *)
Definition CounterCpusRemote_getJoulesCpuOf (cpuId : Z) := component j_cpu (CounterCpusRemote_getJoulesComponentsOf cpuId).
(** [CounterCpusRemote::getJoulesCores], src/energy/energy-remote.cpp:137-139. *)
Definition CounterCpusRemote_getJoulesCores := component j_cores CounterCpusRemote_getJoulesComponents.
(** [CounterCpusRemote::getJoulesCores], src/energy/energy-remote.cpp:141-143. *)
Definition CounterCpusRemote_getJoulesCoresOf (cpuId : Z) := component j_cores (CounterCpusRemote_getJoulesComponentsOf cpuId).
(** [CounterCpusRemote::getJoulesGraphic], src/energy/energy-remote.cpp:145-147. *)
Definition CounterCpusRemote_getJoulesGraphic := component j_graphic CounterCpusRemote_getJoulesComponents.
(** [CounterCpusRemote::getJoulesGraphic], src/energy/energy-remote.cpp:149-151. *)
Definition CounterCpusRemote_getJoulesGraphicOf (cpuId : Z) := component j_graphic (CounterCpusRemote_getJoulesComponentsOf cpuId).
(** [CounterCpusRemote::getJoulesDram], src/energy/energy-remote.cpp:153-155. *)
Definition CounterCpusRemote_getJoulesDram := component j_dram CounterCpusRemote_getJoulesComponents.
(** [CounterCpusRemote::getJoulesDram], src/energy/energy-remote.cpp:157-159. *)
Definition CounterCpusRemote_getJoulesDramOf (cpuId : Z) := component j_dram (CounterCpusRemote_getJoulesComponentsOf cpuId).

(** [CounterCpusRemote::hasJoulesCores], src/energy/energy-remote.cpp:161-163. *)
Definition CounterCpusRemote_hasJoulesCores (c : CounterCpusRemote) : bool := ccr_hasCores c.
(** [CounterCpusRemote::hasJoulesDram], src/energy/energy-remote.cpp:165-167. *)
Definition CounterCpusRemote_hasJoulesDram (c : CounterCpusRemote) : bool := ccr_hasDram c.
(** [CounterCpusRemote::hasJoulesGraphic], src/energy/energy-remote.cpp:169-171. *)
Definition CounterCpusRemote_hasJoulesGraphic (c : CounterCpusRemote) : bool := ccr_hasGraphic c.

(** The remote [Energy]: the counters that are there. [_powerCappers] is never written. *)
Record EnergyRemote := mkEnergyRemote { er_plug : bool; er_memory : bool; er_cpus : option CounterCpusRemote }.

(** [Energy::Energy], src/energy/energy.cpp:202-230. *)
Definition EnergyRemote_new : M (CommunicatorTcp So) EnergyRemote :=
  let* plug := CounterPlugRemote_init in
  do* (if (plug : bool) then CounterPlugRemote_reset else ret tt) in
  let* memory := CounterMemoryRemote_init in
  let* ccl := CounterCpusRemote_new in
  let* cpus := CounterCpusRemote_init in
  ret (mkEnergyRemote plug memory (if (cpus : bool) then Some ccl else None)).
End client.

(** * Properties *)

(** Summing what each CPU's counter says is summing the list of the counters. *)
Lemma sum_cpus_list {S} {EO : EnergyOps S} (get : Z -> M S JoulesCpu) (key : Z -> Z) (s : S) :
  (let* l := (let* cpus := gets e_cpus in
              for_map cpus (fun c => let* jc := get (cpu_cpuId c) in ret (key (cpu_cpuId c), jc))) in
   ret (sum_components l)) s = sum_cpus JoulesCpu_zero JoulesCpu_add get s.
Proof.
  change ((let* l := for_map (e_cpus s) (fun c => let* jc := get (cpu_cpuId c) in ret (key (cpu_cpuId c), jc)) in
           ret (fold_left (fun jc r => JoulesCpu_add jc (snd r)) l JoulesCpu_zero)) s =
          for_fold (e_cpus s) JoulesCpu_zero (fun r cpu => let* j := get (cpu_cpuId cpu) in ret (JoulesCpu_add r j)) s).
  generalize JoulesCpu_zero as z. generalize (e_cpus s) as cpus. intros cpus. revert s.
  induction cpus as [|c cpus IH]; intros s z; [done|]. cbn [for_map for_fold].
  rewrite !bind_assoc. destruct (get (cpu_cpuId c) s) as [[j|e|u] s1] eqn:E.
  - rewrite !(bind_Ret _ _ _ _ _ E). rewrite !ret_bind, bind_assoc. rewrite <- (IH s1 (JoulesCpu_add z j)).
    unfold bind. by destruct (for_map _ _ s1) as [[]].
  - by rewrite !(bind_Throw _ _ _ _ _ E).
  - by rewrite !(bind_Undef _ _ _ _ _ E).
Qed.

Section relays.
Context {S : Type} {EO : EnergyOps S} {PB : Protobuf} {PL : ProtobufLaws}.
Variables (dispatcher : Dispatcher S) (cut : string -> list string).
Hypothesis registered : dispatcher !! "energy"%string = Some (Some Energy_processMessage : option (Module S)).
Hypothesis cut_ok : forall b, segments (cut b) = b /\ Forall (fun s => s <> EmptyString) (cut b).
#[local] Instance connection : Socket (Net S) := net_socket dispatcher cut.

(** A request whose handler runs [op] and answers [enc] of its result. *)
Lemma en_relay {A B} t st c (ty : string) (op : M S A) (enc : A -> EnergyMsg)
    (dec : EnergyMsg -> option B) (f : A -> B) (s : S) :
  let req := en_CounterReq t st c in
  str_len ty < 500 ->
  (forall bytes, getDataFromMessage (GetTypeName req) bytes = Some req ->
     Energy_processMessage (GetTypeName req) bytes s = (let* a := op in ret (setMessageFromData (enc a))) s) ->
  (forall a, fst (op s) = Ret a ->
     well_ranged (enc a) /\ GetTypeName (enc a) = ("mammut.energy." +:+ ty)%string /\ dec (enc a) = Some (f a)) ->
  relayed (fun a => is_Some (SerializeToString (enc a))) f (op s) (en_call req ty dec (linked s)).
Proof.
  intros req Ht Hp Henc.
  assert (well_ranged req) as Hw
    by (unfold well_ranged, req; destruct t, st as [[]|], c;
      repeat apply Forall_cons_2; try apply Forall_nil_2; unfold pb_field_ok, is_i32; split; vm_compute; done).
  apply (relay_call dispatcher cut cut_ok Energy_processMessage "energy"); [reflexivity|done|reflexivity| |done|done| |done|].
  - rewrite str_len_app. change (str_len "mammut.energy.") with 14. lia.
  - apply serialize_scalars; [done|]. unfold req. by destruct t, st as [[]|], c.
  - intros a Ha. destruct (Henc a Ha) as (? & ? & Hd). split; [done|]. split; [done|]. unfold get_field. by rewrite Hd.
Qed.

(** A response that is a truth value is always delivered. *)
Lemma en_relay_bool {A B} t st c (op : M S A) (b : A -> bool) (dec : EnergyMsg -> option B) (f : A -> B) (s : S) :
  let req := en_CounterReq t st c in
  (forall bytes, getDataFromMessage (GetTypeName req) bytes = Some req ->
     Energy_processMessage (GetTypeName req) bytes s =
     (let* a := op in ret (setMessageFromData (en_CounterResBool (Some (b a))))) s) ->
  (forall a, dec (en_CounterResBool (Some (b a))) = Some (f a)) ->
  relayed (fun _ => True) f (op s) (en_call req "CounterResBool" dec (linked s)).
Proof.
  intros req Hp Hdec.
  assert (forall a, well_ranged (en_CounterResBool (Some (b a)))) as Hw
    by (intros a; unfold well_ranged; by apply Forall_singleton).
  eapply relayed_always; [|apply (en_relay t st c "CounterResBool" op (fun a => en_CounterResBool (Some (b a)))); [reflexivity|done|]].
  - intros a _. by apply serialize_scalars.
  - intros a _. by split.
Qed.

(** The counter of the server that a remote counter of the type stands for. *)
Definition type_of (t : CounterTypePb) : CounterType :=
  match t with
  | COUNTER_TYPE_PB_PLUG => COUNTER_PLUG | COUNTER_TYPE_PB_MEMORY => COUNTER_MEMORY | COUNTER_TYPE_PB_CPUS => COUNTER_CPUS
  end.
Lemma counter_of_type t s : counter_of t s = if e_counter s (type_of t) then Some (type_of t) else None.
Proof. by destruct t. Qed.

Lemma dereference_there {A} t (f : CounterType -> M S A) s : e_counter s (type_of t) = true ->
  dereference (counter_of t) f s = f (type_of t) s.
Proof. intros H. unfold dereference, gets, bind. by rewrite counter_of_type, H. Qed.
Lemma dereference_null {A} t (f : CounterType -> M S A) s : e_counter s (type_of t) = false ->
  dereference (counter_of t) f s = (Undef "call through a null pointer to a counter", s).
Proof. intros H. unfold dereference, gets, bind. by rewrite counter_of_type, H. Qed.

(** The requests on one counter, as relays of what the handler runs. *)
Lemma init_relay t s : relayed (fun _ => True) id (process_init t s) (counter_init t (linked s)).
Proof.
  apply (en_relay_bool t None COUNTER_COMMAND_INIT _ id); [|done].
  intros b Hb. unfold Energy_processMessage. by rewrite Hb.
Qed.
Lemma reset_relay t s : relayed (fun _ => True) id (dereference (counter_of t) e_reset s) (counter_reset t (linked s)).
Proof.
  apply (en_relay_bool t None COUNTER_COMMAND_RESET _ (fun _ => true)); [|by intros []].
  intros b Hb. unfold Energy_processMessage. by rewrite Hb.
Qed.
Lemma joules_relay t s : t <> COUNTER_TYPE_PB_CPUS ->
  relayed (fun j => is_Some (SerializeToString (en_CounterResGetGeneric j))) id
    (dereference (counter_of t) e_getJoules s) (counter_getJoules t (linked s)).
Proof.
  intros Ht. apply (en_relay t None COUNTER_COMMAND_GET "CounterResGetGeneric" _ en_CounterResGetGeneric); [reflexivity| |].
  - intros b Hb. unfold Energy_processMessage. rewrite Hb. by destruct t.
  - intros j _. split; [by apply Forall_singleton|]. by split.
Qed.
Definition has_subtype (st : CounterValueType) : option (M S bool) :=
  match st with
  | COUNTER_VALUE_TYPE_CORES => Some e_hasJoulesCores
  | COUNTER_VALUE_TYPE_GRAPHIC => Some e_hasJoulesGraphic
  | COUNTER_VALUE_TYPE_DRAM => Some e_hasJoulesDram
  | _ => None
  end.
Lemma has_relay st f s : has_subtype st = Some f ->
  relayed (fun _ => True) id (dereference (counter_of COUNTER_TYPE_PB_CPUS) (fun _ => f) s) (counter_has st (linked s)).
Proof.
  intros Hf. apply (en_relay_bool COUNTER_TYPE_PB_CPUS (Some st) COUNTER_COMMAND_HAS _ id); [|done].
  intros b Hb. unfold Energy_processMessage. rewrite Hb. cbn [default bool_decide].
  assert (process_has st s = (let* b := dereference (counter_of COUNTER_TYPE_PB_CPUS) (fun _ => f) in ret (Some b)) s) as E.
  { destruct st; try done; injection Hf as <-; unfold process_has, dereference, gets, bind;
      by destruct (counter_of COUNTER_TYPE_PB_CPUS s). }
  rewrite bool_decide_eq_true_2 by done. change (id st) with st. unfold bind at 1. rewrite E. unfold bind.
  by destruct (dereference _ _ s) as [[]].
Qed.
Lemma process_get_cpus_ids s l s' : process_get_cpus s = (Ret l, s') ->
  e_counter s COUNTER_CPUS = true /\ fst <$> l = (fun c => u32 (cpu_cpuId c)) <$> e_cpus s.
Proof.
  unfold process_get_cpus. intros E. destruct (e_counter s COUNTER_CPUS) eqn:Hc; cycle 1.
  { by rewrite (bind_Undef _ _ _ _ _ (dereference_null COUNTER_TYPE_PB_CPUS _ s Hc)) in E. }
  split; [done|]. unfold bind at 1 in E. rewrite (dereference_there COUNTER_TYPE_PB_CPUS _ s Hc) in E. cbn in E.
  revert E. generalize s at 2 as s0. generalize (e_cpus s) as r. intros r s0. revert s0 l s'.
  induction r as [|c r IH]; intros s0 l s' E; [by injection E as <- _|].
  cbn [for_map] in E. apply bind_Ret_inv in E as (b & s1 & E1 & E). apply bind_Ret_inv in E as (bs & s2 & E2 & E).
  injection E as <- _. apply bind_Ret_inv in E1 as (j & s3 & _ & [= <- _]). csimpl. f_equal. by eapply IH.
Qed.
Lemma get_cpus_range s l s' : process_get_cpus s = (Ret l, s') -> Forall (fun r => is_u32 (fst r)) l.
Proof.
  intros [_ H]%process_get_cpus_ids. assert (Forall is_u32 (fst <$> l)) as Hf; [|by rewrite Forall_fmap in Hf].
  rewrite H. apply Forall_fmap, Forall_true. intros c. apply u32_range.
Qed.
Lemma cpus_relay s :
  relayed (fun l => is_Some (SerializeToString (en_CounterResGetCpu l))) id (process_get_cpus s) (get_cpus (linked s)).
Proof.
  apply (en_relay COUNTER_TYPE_PB_CPUS None COUNTER_COMMAND_GET "CounterResGetCpu" _ en_CounterResGetCpu); [reflexivity| |].
  - intros b Hb. unfold Energy_processMessage. by rewrite Hb.
  - intros l Hl. split; [|by split]. unfold well_ranged. apply Forall_singleton. cbn.
    assert (Forall (fun r => is_u32 (fst r)) l) as H.
    { destruct (process_get_cpus s) as [r s'] eqn:E. cbn in Hl. subst r. eapply get_cpus_range. exact E. }
    clear Hl. induction H as [|[z [a b c d]] l Hz _ IH]; [exact I|]. split; [|exact IH]. by split.
Qed.

Lemma relayed_Ret {A B} (fits : A -> Prop) (f : A -> B) a (s : S) y : fits a -> relayed fits f (Ret a, s) y ->
  y = (Ret (f a), linked s).
Proof. intros Ha H. inversion H; subst; [done|]. by exfalso. Qed.

Lemma init_absent t s : e_counter s (type_of t) = false -> counter_init t (linked s) = (Ret false, linked s).
Proof.
  intros Hc. pose proof (init_relay t s) as H. unfold process_init, gets, bind in H.
  rewrite counter_of_type, Hc in H. by apply relayed_Ret in H.
Qed.

(** The remote plug and memory counters are the server's: initialising, resetting and
    reading one acts on the server's counter of the same type and gives what it gives.  A
    counter that the server does not have says so when it is initialised, and that is the only
    operation that may be called: the others go through a null pointer on the server. *)
Theorem CounterRemote_relays (s : S) :
  (forall t, t = COUNTER_TYPE_PB_PLUG \/ t = COUNTER_TYPE_PB_MEMORY -> e_counter s (type_of t) = true ->
     relayed (fun _ => True) id (e_init (type_of t) s) (counter_init t (linked s)) /\
     relayed (fun _ => True) id (e_reset (type_of t) s) (counter_reset t (linked s)) /\
     relayed (fun j => is_Some (SerializeToString (en_CounterResGetGeneric j))) id (e_getJoules (type_of t) s)
       (counter_getJoules t (linked s))) /\
  (forall t, e_counter s (type_of t) = false ->
     counter_init t (linked s) = (Ret false, linked s) /\ exists why c, counter_reset t (linked s) = (Undef why, c)).
Proof.
  split.
  - intros t Ht Hc. split; [|split].
    + pose proof (init_relay t s) as H. unfold process_init, gets, bind in H. by rewrite counter_of_type, Hc in H.
    + pose proof (reset_relay t s) as H. by rewrite dereference_there in H.
    + pose proof (joules_relay t s ltac:(by destruct Ht as [->| ->])) as H. by rewrite dereference_there in H.
  - intros t Hc. split.
    + by apply init_absent.
    + pose proof (reset_relay t s) as H. rewrite dereference_null in H by done. inversion H; subst. eauto.
Qed.

(** Reading the remote counter of the CPUs reads the counter of every CPU of the server,
    in order: the total is the total of the server, and the reading for one CPU is what the
    server's counter says for it, the last of them if two have the identifier. *)
Theorem CounterCpusRemote_relays (s : S) (cpuId : Z) :
  e_counter s COUNTER_CPUS = true ->
  let sent := forall l, fst (process_get_cpus s) = Ret l -> is_Some (SerializeToString (en_CounterResGetCpu l)) in
  relayed (fun _ => sent) id (CounterCpus_getJoulesComponentsAll s) (CounterCpusRemote_getJoulesComponents (linked s)) /\
  relayed (fun _ => sent) (components_of cpuId) (process_get_cpus s) (CounterCpusRemote_getJoulesComponentsOf cpuId (linked s)) /\
  (forall l s', process_get_cpus s = (Ret l, s') ->
     fst <$> l = (fun c => u32 (cpu_cpuId c)) <$> e_cpus s /\
     forall i r, l !! i = Some r -> NoDup (fst <$> l) -> components_of (fst r) l = snd r).
Proof.
  intros Hc sent. pose proof (cpus_relay s) as H.
  assert (forall B (f : list (Z * JoulesCpu) -> B),
    relayed (fun _ => sent) f (process_get_cpus s) ((let* l := get_cpus in ret (f l)) (linked s))) as Hf.
  { intros B f. unfold bind. destruct (process_get_cpus s) as [[l|e|u] s'] eqn:E; inversion H; subst;
      try (by constructor); try (by exfalso; eauto).
    - apply relayed_ret. intros l' [= <-]. done.
    - apply relayed_big. intros Hs. by eapply (fun h => h (Hs l eq_refl)). }
  split; [|split; [apply Hf|]].
  - specialize (Hf _ sum_components).
    assert (CounterCpus_getJoulesComponentsAll s = (let* l := process_get_cpus in ret (sum_components l)) s) as ->.
    { unfold CounterCpus_getJoulesComponentsAll. rewrite <- (sum_cpus_list e_getJoulesComponents u32 s).
      apply bind_ext. unfold process_get_cpus. apply bind_ext.
      by rewrite (dereference_there COUNTER_TYPE_PB_CPUS _ s Hc). }
    unfold CounterCpusRemote_getJoulesComponents, bind in *. destruct (process_get_cpus s) as [[l|e|u] s'] eqn:E;
      inversion Hf; subst; by constructor.
  - intros l s' E. split; [by apply process_get_cpus_ids in E as [_ E]|]. clear. unfold components_of.
    generalize JoulesCpu_zero as z. induction l as [|[k j] l IH]; intros z i r Hi Hnd; [done|].
    csimpl in Hnd. apply NoDup_cons in Hnd as [Hk Hnd]. cbn [fold_left fst snd].
    destruct i as [|i]; [injection Hi as <-|by apply (IH _ i)]. cbn [fst snd]. rewrite Z.eqb_refl.
    clear - Hk. revert j. induction l as [|[k' j'] l IH]; intros j; [done|]. cbn [fold_left fst]. csimpl in Hk.
    apply not_elem_of_cons in Hk as [Hne Hk]. rewrite (proj2 (Z.eqb_neq k' k)) by congruence. by apply IH.
Qed.

(** The remote energy module on a server with every counter: the plug's is initialised
    and reset, the others are only initialised, and the CPUs' has the parts that the server's
    has. *)
Theorem EnergyRemote_new_spec (s s1 s2 s3 s4 s5 s6 s7 s8 : S) (memory cores graphic dram cpus : bool) (t : Topology) :
  (forall t' x, x ∈ [s; s1; s2; s4; s5; s6; s7] -> e_counter x t' = true) ->
  e_init COUNTER_PLUG s = (Ret true, s1) -> e_reset COUNTER_PLUG s1 = (Ret tt, s2) ->
  e_init COUNTER_MEMORY s2 = (Ret memory, s3) -> remote_topology (linked s3) = (Ret t, linked s4) ->
  e_hasJoulesCores s4 = (Ret cores, s5) -> e_hasJoulesGraphic s5 = (Ret graphic, s6) ->
  e_hasJoulesDram s6 = (Ret dram, s7) -> e_init COUNTER_CPUS s7 = (Ret cpus, s8) ->
  EnergyRemote_new (linked s) =
    (Ret (mkEnergyRemote true memory (if cpus then Some (mkCounterCpusRemote (tp_cpus t) cores dram graphic) else None)),
     linked s8).
Proof.
  intros Hc H1 H2 H3 H4 H5 H6 H7 H8.
  assert (forall ty x b x', x ∈ [s; s1; s2; s4; s5; s6; s7] -> e_init (type_of ty) x = (Ret b, x') ->
    counter_init ty (linked x) = (Ret b, linked x')) as Hi.
  { intros ty x b x' Hx E. pose proof (init_relay ty x) as H. unfold process_init, gets, bind in H.
    rewrite counter_of_type, (Hc _ x Hx), E in H. by apply relayed_Ret in H. }
  assert (forall st f x b x', x ∈ [s; s1; s2; s4; s5; s6; s7] -> has_subtype st = Some f -> f x = (Ret b, x') ->
    counter_has st (linked x) = (Ret b, linked x')) as Hh.
  { intros st f x b x' Hx Hst E. pose proof (has_relay st f x Hst) as H.
    rewrite dereference_there, E in H by (by apply Hc). by apply relayed_Ret in H. }
  assert (counter_reset COUNTER_TYPE_PB_PLUG (linked s1) = (Ret tt, linked s2)) as Hr.
  { pose proof (reset_relay COUNTER_TYPE_PB_PLUG s1) as H.
    rewrite dereference_there in H by (apply Hc; set_solver). cbn [type_of] in H. rewrite H2 in H. by apply relayed_Ret in H. }
  unfold EnergyRemote_new, CounterCpusRemote_new.
  rewrite (bind_Ret _ _ _ _ _ (Hi COUNTER_TYPE_PB_PLUG s true s1 ltac:(set_solver) H1)).
  rewrite (bind_Ret _ _ _ _ _ Hr).
  rewrite (bind_Ret _ _ _ _ _ (Hi COUNTER_TYPE_PB_MEMORY s2 memory s3 ltac:(set_solver) H3)), bind_assoc.
  rewrite (bind_Ret _ _ _ _ _ H4), bind_assoc.
  rewrite (bind_Ret _ _ _ _ _ (Hh COUNTER_VALUE_TYPE_CORES _ s4 cores s5 ltac:(set_solver) eq_refl H5)), bind_assoc.
  rewrite (bind_Ret _ _ _ _ _ (Hh COUNTER_VALUE_TYPE_GRAPHIC _ s5 graphic s6 ltac:(set_solver) eq_refl H6)), bind_assoc.
  rewrite (bind_Ret _ _ _ _ _ (Hh COUNTER_VALUE_TYPE_DRAM _ s6 dram s7 ltac:(set_solver) eq_refl H7)), ret_bind.
  by rewrite (bind_Ret _ _ _ _ _ (Hi COUNTER_TYPE_PB_CPUS s7 cpus s8 ltac:(set_solver) H8)).
Qed.

(** The remote energy module cannot be created on a server without a counter of the CPUs:
    the constructor asks what that counter has before it asks whether it is there, which makes
    the server call through a null pointer, whatever its other counters do. *)
Theorem EnergyRemote_needs_cpu_counter (s s1 s2 s3 : S) (plug : bool) (t : Topology) :
  (forall x, x ∈ [s; s1; s2; s3] -> e_counter x COUNTER_CPUS = false) ->
  CounterPlugRemote_init (linked s) = (Ret plug, linked s1) ->
  (if plug then CounterPlugRemote_reset (linked s1) = (Ret tt, linked s2) else s2 = s1) ->
  (exists m s', CounterMemoryRemote_init (linked s2) = (Ret m, linked s') /\ remote_topology (linked s') = (Ret t, linked s3)) ->
  exists why c, EnergyRemote_new (linked s) = (Undef why, c).
Proof.
  intros Hc H1 H2 (m & s' & H3 & H4). unfold EnergyRemote_new, CounterCpusRemote_new.
  rewrite (bind_Ret _ _ _ _ _ H1).
  assert ((if plug then CounterPlugRemote_reset else ret tt) (linked s1) = (Ret tt, linked s2)) as H2'
    by (destruct plug; [done|by subst s2]).
  rewrite (bind_Ret _ _ _ _ _ H2'), (bind_Ret _ _ _ _ _ H3), bind_assoc, (bind_Ret _ _ _ _ _ H4), bind_assoc.
  pose proof (has_relay COUNTER_VALUE_TYPE_CORES _ s3 eq_refl) as H.
  rewrite (dereference_null COUNTER_TYPE_PB_CPUS) in H by (apply Hc; set_solver).
  inversion H as [| | | |u x c E1 E2|]; subst. exists "call through a null pointer to a counter"%string, c.
  apply bind_Undef. by rewrite <- E2.
Qed.
End relays.

(** ** Witnesses: a client connected to a machine of EnergyLinux.v *)

#[local] Existing Instances half_watt_sensors no_smart_gauge sample_raplcap.
Definition EM : Type := EnergyMachine (G := unit) (R := SampleRapl).
#[local] Instance sample_energy : EnergyOps EM := LinuxEnergy None.

(** The topology module of that server has an empty tree, on which nothing is ever called. *)
#[local] Instance no_cores : VirtualCoreOps EM := {|
  v_new _ := undef "no core"; v_maximizeUtilization _ := undef "no core"; v_resetUtilization _ := undef "no core";
  v_isHotPluggable _ := undef "no core"; v_isHotPlugged _ := undef "no core"; v_hotPlug _ := undef "no core";
  v_hotUnplug _ := undef "no core"; v_hasClockModulation _ := undef "no core";
  v_getClockModulationValues _ := undef "no core"; v_setClockModulation _ _ := undef "no core";
  v_getClockModulation _ := undef "no core"
|}.
#[local] Instance no_units : TopologyUnitOps EM unit := {|
  c_getVendorId _ := undef "no core"; c_getFamily _ := undef "no core"; c_getModel _ := undef "no core";
  v_hasFlag _ _ := undef "no core"; v_getAbsoluteTicks _ := undef "no core"; v_getIdleTime _ := undef "no core";
  v_resetIdleTime _ := undef "no core"; v_getIdleLevels _ := undef "no core"; l_getLevelId _ := 0;
  l_getName _ := undef "no level"; l_getDesc _ := undef "no level"; l_isEnableable _ := undef "no level";
  l_isEnabled _ := undef "no level"; l_enable _ := undef "no level"; l_disable _ := undef "no level";
  l_getExitLatency _ := undef "no level"; l_getConsumedPower _ := undef "no level";
  l_getAbsoluteTime _ := undef "no level"; l_getTime _ := undef "no level"; l_resetTime _ := undef "no level";
  l_getAbsoluteCount _ := undef "no level"; l_getCount _ := undef "no level"; l_resetCount _ := undef "no level"
|}.
Definition empty_tree : Topology := mkTopology [] [] [].
Definition energy_dispatcher : Dispatcher EM :=
  {[ "energy"%string := Some Energy_processMessage; "topology"%string := Some (Topology_processMessage empty_tree) ]}.
#[local] Instance energy_connection : Socket (Net EM) := net_socket energy_dispatcher whole_cut.
Lemma energy_registered :
  energy_dispatcher !! "energy"%string = Some (Some Energy_processMessage : option (Module EM)).
Proof. reflexivity. Qed.

Lemma empty_remote (m : EM) : remote_topology (linked m) = (Ret empty_tree, linked m).
Proof.
  pose proof (tp_relay empty_tree energy_dispatcher whole_cut eq_refl whole_cut_ok tp_GetTopology "GetTopologyRes"
    (ret []) tp_GetTopologyRes (fun r => match r with tp_GetTopologyRes l => Some l | _ => None end) id m) as H.
  apply relayed_Ret in H.
  - unfold remote_topology, Topology_newRemote. by rewrite (bind_Ret _ _ _ _ _ (on_connection_Ret _ _ _ _ _ H)).
  - eexists. vm_compute. reflexivity.
  - reflexivity.
  - reflexivity.
  - reflexivity.
  - fields_ok.
  - eexists. vm_compute. reflexivity.
  - intros bytes Hb. unfold Topology_processMessage. by rewrite Hb.
  - intros a [= <-]. split; [|by split]. unfold well_ranged. by apply Forall_singleton.
Qed.

(** A machine with a plug counter, a counter of the CPUs and one of the memory. *)
Definition full_world : World :=
  match rapl_world 7 with
  | mkWorld prefix fs dirs f msr cpuid _ ticks errno procs => mkWorld prefix fs dirs f msr cpuid (Some (10, 0)) ticks errno procs
  end.
Definition full_machine : EM :=
  let c := snd (CounterMsr_init full_world (CounterMsr_new rapl_cpus)) in
  mkEnergyMachine full_world (sample_rapl 50) (Some (PlugINA CounterINA_new)) (Some (CpusMsr c))
    (Some (MemoryRapl (mkCounterMemoryRapl (Some c)))) sample_cappers.
Definition has_all (m : EM) : bool :=
  bool_decide (is_Some (em_cpus m)) && bool_decide (is_Some (em_memory m)) && bool_decide (is_Some (em_plug m)).
Lemma has_all_counters (m : EM) t : has_all m = true -> e_counter m t = true.
Proof.
  unfold has_all. intros [[H1 H2]%andb_true_iff H3]%andb_true_iff. cbn.
  destruct (t =? COUNTER_CPUS); [done|]. by destruct (t =? COUNTER_MEMORY).
Qed.
Lemma pair_of {A} (r : outcome A * EM) v : fst r = Ret v -> r = (Ret v, snd r).
Proof. destruct r. cbn. by intros ->. Qed.

Lemma CounterRemote_relays_witness :
  relayed (fun _ => True) id (e_init COUNTER_PLUG full_machine) (CounterPlugRemote_init (linked full_machine)) /\
  CounterMemoryRemote_init (linked (capped_machine 80)) = (Ret false, linked (capped_machine 80)).
Proof.
  split.
  - destruct (CounterRemote_relays energy_dispatcher whole_cut energy_registered whole_cut_ok full_machine) as [H _].
    apply (H COUNTER_TYPE_PB_PLUG); [by left|vm_compute; reflexivity].
  - destruct (CounterRemote_relays energy_dispatcher whole_cut energy_registered whole_cut_ok (capped_machine 80)) as [_ H].
    apply (H COUNTER_TYPE_PB_MEMORY). vm_compute. reflexivity.
Defined.

Lemma CounterCpusRemote_relays_witness :
  exists l s', process_get_cpus full_machine = (Ret l, s') /\ fst <$> l = [0].
Proof.
  assert (returned (process_get_cpus full_machine) = true) as Hr by (vm_compute; reflexivity).
  eexists _, _. split; [exact (returned_pair _ [] Hr)|].
  destruct (CounterCpusRemote_relays energy_dispatcher whole_cut energy_registered whole_cut_ok full_machine 0) as (_ & _ & H).
  - vm_compute. reflexivity.
  - destruct (H _ _ (returned_pair _ [] Hr)) as [E _]. exact E.
Defined.

Lemma EnergyRemote_new_spec_witness :
  exists s8, EnergyRemote_new (linked full_machine) =
    (Ret (mkEnergyRemote true true (Some (mkCounterCpusRemote [] false false false))), linked s8).
Proof.
  set (s1 := snd (e_init COUNTER_PLUG full_machine)). set (s2 := snd (e_reset COUNTER_PLUG s1)).
  set (s3 := snd (e_init COUNTER_MEMORY s2)). set (s5 := snd (e_hasJoulesCores s3)).
  set (s6 := snd (e_hasJoulesGraphic s5)). set (s7 := snd (e_hasJoulesDram s6)). set (s8 := snd (e_init COUNTER_CPUS s7)).
  exists s8.
  apply (EnergyRemote_new_spec energy_dispatcher whole_cut energy_registered whole_cut_ok
    full_machine s1 s2 s3 s3 s5 s6 s7 s8 true false false false true empty_tree).
  - intros t x Hx. apply has_all_counters. revert Hx.
    repeat (intros [->|Hx]%elem_of_cons; [vm_compute; reflexivity|revert Hx]). by intros ?%elem_of_nil.
  - apply pair_of. vm_compute. reflexivity.
  - apply pair_of. vm_compute. reflexivity.
  - apply pair_of. vm_compute. reflexivity.
  - apply empty_remote.
  - apply pair_of. vm_compute. reflexivity.
  - apply pair_of. vm_compute. reflexivity.
  - apply pair_of. vm_compute. reflexivity.
  - apply pair_of. vm_compute. reflexivity.
Defined.

Lemma EnergyRemote_needs_cpu_counter_witness :
  exists why c, EnergyRemote_new (linked (capped_machine 80)) = (Undef why, c).
Proof.
  apply (EnergyRemote_needs_cpu_counter energy_dispatcher whole_cut energy_registered whole_cut_ok
    (capped_machine 80) (capped_machine 80) (capped_machine 80) (capped_machine 80) false empty_tree).
  - intros x Hx. repeat (apply elem_of_cons in Hx as [->|Hx]; [reflexivity|]). by apply elem_of_nil in Hx.
  - apply (init_absent energy_dispatcher whole_cut energy_registered whole_cut_ok COUNTER_TYPE_PB_PLUG). reflexivity.
  - reflexivity.
  - exists false, (capped_machine 80). split; [|apply empty_remote].
    apply (init_absent energy_dispatcher whole_cut energy_registered whole_cut_ok COUNTER_TYPE_PB_MEMORY). reflexivity.
Defined.
