(* ===== verification/Mammut.v ===== *)
(** * The facade (src/mammut.cpp, include/mammut/mammut.hpp, include/mammut/mammut.h)

    A [Mammut] owns at most one object of each module, which it creates when it is first asked
    for.  [Heap] is the memory as the facades see it: the module objects that are alive, each
    with its origin: a facade, the module that keeps it, or a constructor that drops its address
    (a stray).  The state machine [facade_step] is a program that creates, copies, assigns, uses
    and destroys facades in any order; its invariant is that each live module that is not a stray
    has one owner.  Strays are never deleted ([strays_stay]).  The last part
    has the functions of the C interface that do more than call a method. *)
From S2P Require Import Prelude UtilsText UtilsVector Double UtilsSys Topology CpuFreq Energy.

(** ** The memory *)

(** The modules, in the order in which [releaseModules] releases them. *)
Inductive ModuleKind := MODULE_CPUFREQ | MODULE_ENERGY | MODULE_TASK | MODULE_TOPOLOGY.
#[export] Instance ModuleKind_eq_dec : EqDecision ModuleKind.
Proof. solve_decision. Defined.

(** Who made a module object: a facade, the constructor of another module whose destructor
    releases it, or such a constructor that keeps no pointer that is ever released. *)
Inductive Origin := OfFacade | OfModule (p : nat) | Stray.
(** What the destructor of a module does to the [Topology] that its constructor made: there is
    none to release, it releases it, or it releases a pointer that was never initialised. *)
Inductive Inner := ReleasesNothing | ReleasesTopology | ReleasesGarbage.
#[export] Instance Origin_eq_dec : EqDecision Origin.
Proof. solve_decision. Defined.
#[export] Instance Inner_eq_dec : EqDecision Inner.
Proof. solve_decision. Defined.

(** The module objects that are alive, and the address of the next one. *)
Record ModuleObject (C : Type) := mkModuleObject {
  mo_kind : ModuleKind; mo_communicator : option C; mo_origin : Origin; mo_inner : Inner }.
Arguments mkModuleObject {C} _ _ _ _.
Arguments mo_kind {C} _.
Arguments mo_communicator {C} _.
Arguments mo_origin {C} _.
Arguments mo_inner {C} _.
Record Heap (C : Type) := mkHeap { hp_live : gmap nat (ModuleObject C); hp_next : nat }.
Arguments mkHeap {C} _ _.
Arguments hp_live {C} _.
Arguments hp_next {C} _.

(** [Mammut], include/mammut/mammut.hpp:11-19. *)
Record Mammut (C : Type) := mkMammut {
  mm_cpufreq : option nat; mm_energy : option nat; mm_task : option nat; mm_topology : option nat;
  mm_communicator : option C
}.
Arguments mkMammut {C} _ _ _ _ _.
Arguments mm_cpufreq {C} _.
Arguments mm_energy {C} _.
Arguments mm_task {C} _.
Arguments mm_topology {C} _.
Arguments mm_communicator {C} _.

Section facade.
Context {C : Type}.

(** [Mammut::Mammut], src/mammut.cpp:9-13. *)
Definition Mammut_new (communicator : option C) : Mammut C := mkMammut None None None None communicator.
(** [Mammut::Mammut], src/mammut.cpp:15-18: the copy constructor. *)
Definition Mammut_copy (other : Mammut C) : Mammut C := mkMammut None None None None (mm_communicator other).

(** The memory without a module and what its destructor releases. *)
Definition without_object (p : nat) (live : gmap nat (ModuleObject C)) : gmap nat (ModuleObject C) :=
  filter (fun e => fst e <> p /\ mo_origin (snd e) <> OfModule p) live.
(** [delete] of a pointer to a module. [CpuFreqLinux::~CpuFreqLinux],
    src/cpufreq/cpufreq-linux.cpp:431-434, releases its topology, which it may not have. *)
Definition delete_module (p : nat) : M (Heap C) unit := fun h =>
  match hp_live h !! p with
  | None => (Undef "delete of an object that is not alive", h)
  | Some o =>
      match mo_inner o with
      | ReleasesGarbage => (Undef "delete of an uninitialised pointer", h)
      | _ => (Ret tt, mkHeap (without_object p (hp_live h)) (hp_next h))
      end
  end.
(** [Topology::release], src/topology/topology.cpp:121-125: of each module, when the pointer is
    not null. *)
Definition release_module (p : option nat) : M (Heap C) unit :=
  match p with Some p => delete_module p | None => ret tt end.

(** [Mammut::releaseModules], src/mammut.cpp:24-44. *)
Definition Mammut_releaseModules (m : Mammut C) : M (Heap C) (Mammut C) :=
  do* release_module (mm_cpufreq m) in
  do* release_module (mm_energy m) in
  do* release_module (mm_task m) in
  do* release_module (mm_topology m) in
  ret (mkMammut None None None None (mm_communicator m)).

(** [Mammut::~Mammut], src/mammut.cpp:20-22. *)
Definition Mammut_destroy (m : Mammut C) : M (Heap C) unit :=
  do* Mammut_releaseModules m in ret tt.

(** [Mammut::operator=], src/mammut.cpp:74-80; [same] is whether the two are one object. *)
Definition Mammut_assign (same : bool) (m other : Mammut C) : M (Heap C) (Mammut C) :=
  if same then ret m
  else
    let* m := Mammut_releaseModules m in
    ret (mkMammut (mm_cpufreq m) (mm_energy m) (mm_task m) (mm_topology m) (mm_communicator other)).

(** What a constructor does: how it ends, how many [Topology] modules it leaves that nobody will
    release (when it throws: all that it made), and what its destructor will release. *)
Record Construction := mkConstruction { cs_outcome : outcome unit; cs_strays : nat; cs_inner : Inner }.

(** A [Topology] that a constructor makes with the communicator of the module, for itself only. *)
Definition stray (communicator : option C) : ModuleObject C := mkModuleObject MODULE_TOPOLOGY communicator Stray ReleasesNothing.
Fixpoint add_strays (n : nat) (communicator : option C) (h : Heap C) : Heap C :=
  match n with
  | O => h
  | S n' => add_strays n' communicator (mkHeap (<[hp_next h := stray communicator]> (hp_live h)) (S (hp_next h)))
  end.
(** The [Topology] that the destructor of the module [p] releases. *)
Definition add_inner (p : nat) (i : Inner) (communicator : option C) (h : Heap C) : Heap C :=
  match i with
  | ReleasesTopology =>
      mkHeap (<[hp_next h := mkModuleObject MODULE_TOPOLOGY communicator (OfModule p) ReleasesNothing]> (hp_live h)) (S (hp_next h))
  | _ => h
  end.

(** The [getInstance] of a module, include/mammut/module.hpp:14-20: [creates] is what the
    constructor of the module does. *)
Definition create (creates : ModuleKind -> option C -> Construction) (k : ModuleKind) (communicator : option C) :
    M (Heap C) nat := fun h =>
  let c := creates k communicator in
  let h := add_strays (cs_strays c) communicator h in
  match cs_outcome c with
  | Ret _ =>
      let p := hp_next h in
      let h := mkHeap (<[p := mkModuleObject k communicator OfFacade (cs_inner c)]> (hp_live h)) (S p) in
      (Ret p, add_inner p (cs_inner c) communicator h)
  | Throw e => (Throw e, h)
  | Undef u => (Undef u, h)
  end.

(** What the constructors of this program make, when they succeed, from what they find: the
    [Topology] modules of [CounterCpusLinux::CounterCpusLinux],
    src/energy/energy-linux.cpp:308-312 (once for the counter of sysfs, once more for that of the
    registers when the first is not there, and once inside the counter of the memory), of
    [CounterCpusRemote::CounterCpusRemote], src/energy/energy-remote.cpp:70-71, of
    [DomainLinux::DomainLinux], src/cpufreq/cpufreq-linux.cpp:23-28, of which there is one per
    frequency domain, and of [CpuFreqLinux::CpuFreqLinux], src/cpufreq/cpufreq-linux.cpp:382-429.
    The remote [Energy] has no power cappers, but its destructor deletes them. *)
Record Surroundings := mkSurroundings { sr_cpufreq_directory : bool; sr_domains : nat; sr_sysfs_counter : bool }.
Definition constructor_makes (r : Surroundings) (k : ModuleKind) (communicator : option C) : Construction :=
  match k, communicator with
  | MODULE_CPUFREQ, None =>
      if sr_cpufreq_directory r then mkConstruction (Ret tt) (sr_domains r) ReleasesTopology
      else mkConstruction (Ret tt) (1 + sr_domains r) ReleasesGarbage
  | MODULE_ENERGY, None => mkConstruction (Ret tt) (if sr_sysfs_counter r then 2 else 3) ReleasesNothing
  | MODULE_ENERGY, Some _ => mkConstruction (Ret tt) 1 ReleasesGarbage
  | _, _ => mkConstruction (Ret tt) 0 ReleasesNothing
  end.

Variable creates : ModuleKind -> option C -> Construction.

(** The pointer to a module, when it is there, and else a new one. *)
Definition get_or_create (k : ModuleKind) (p : option nat) (m : Mammut C) : M (Heap C) nat :=
  match p with Some p => ret p | None => create creates k (mm_communicator m) end.

(** [Mammut::getInstanceCpuFreq], src/mammut.cpp:46-51. *)
Definition Mammut_getInstanceCpuFreq (m : Mammut C) : M (Heap C) (nat * Mammut C) :=
  let* p := get_or_create MODULE_CPUFREQ (mm_cpufreq m) m in
  ret (p, mkMammut (Some p) (mm_energy m) (mm_task m) (mm_topology m) (mm_communicator m)).
(** [Mammut::getInstanceEnergy], src/mammut.cpp:53-58. *)
Definition Mammut_getInstanceEnergy (m : Mammut C) : M (Heap C) (nat * Mammut C) :=
  let* p := get_or_create MODULE_ENERGY (mm_energy m) m in
  ret (p, mkMammut (mm_cpufreq m) (Some p) (mm_task m) (mm_topology m) (mm_communicator m)).
(** [Mammut::getInstanceTask], src/mammut.cpp:60-65. *)
Definition Mammut_getInstanceTask (m : Mammut C) : M (Heap C) (nat * Mammut C) :=
  let* p := get_or_create MODULE_TASK (mm_task m) m in
  ret (p, mkMammut (mm_cpufreq m) (mm_energy m) (Some p) (mm_topology m) (mm_communicator m)).
(** [Mammut::getInstanceTopology], src/mammut.cpp:67-72. *)
Definition Mammut_getInstanceTopology (m : Mammut C) : M (Heap C) (nat * Mammut C) :=
  let* p := get_or_create MODULE_TOPOLOGY (mm_topology m) m in
  ret (p, mkMammut (mm_cpufreq m) (mm_energy m) (mm_task m) (Some p) (mm_communicator m)).

Definition getInstance (k : ModuleKind) : Mammut C -> M (Heap C) (nat * Mammut C) :=
  match k with
  | MODULE_CPUFREQ => Mammut_getInstanceCpuFreq | MODULE_ENERGY => Mammut_getInstanceEnergy
  | MODULE_TASK => Mammut_getInstanceTask | MODULE_TOPOLOGY => Mammut_getInstanceTopology
  end.

(** The C interface to the facade. *)
(** [createMammut], src/mammut.cpp:95-97. *)
Definition c_createMammut : Mammut C := Mammut_new None.
(** [destroyMammut], src/mammut.cpp:99-101. *)
Definition c_destroyMammut (m : Mammut C) : M (Heap C) unit := Mammut_destroy m.
(** [getInstanceEnergy], src/mammut.cpp:105-107. *)
Definition c_getInstanceEnergy (m : Mammut C) : M (Heap C) (nat * Mammut C) := Mammut_getInstanceEnergy m.
(** [getInstanceTopology], src/mammut.cpp:182-184. *)
Definition c_getInstanceTopology (m : Mammut C) : M (Heap C) (nat * Mammut C) := Mammut_getInstanceTopology m.
(** [getInstanceCpuFreq], src/mammut.cpp:215-217. *)
Definition c_getInstanceCpuFreq (m : Mammut C) : M (Heap C) (nat * Mammut C) := Mammut_getInstanceCpuFreq m.

(** ** A program that uses facades *)

(** The memory and the facades that are alive, by address. *)
Record Program := mkProgram { pr_heap : Heap C; pr_facades : gmap nat (Mammut C) }.

Inductive facade_step : Program -> Program -> Prop :=
  | step_new i c h fs : fs !! i = None ->
      facade_step (mkProgram h fs) (mkProgram h (<[i := Mammut_new c]> fs))
  | step_copy i j m h fs : fs !! i = None -> fs !! j = Some m ->
      facade_step (mkProgram h fs) (mkProgram h (<[i := Mammut_copy m]> fs))
  | step_assign i j m other m' h h' fs : fs !! i = Some m -> fs !! j = Some other ->
      Mammut_assign (bool_decide (i = j)) m other h = (Ret m', h') ->
      facade_step (mkProgram h fs) (mkProgram h' (<[i := m']> fs))
  | step_get i k m p m' h h' fs : fs !! i = Some m -> getInstance k m h = (Ret (p, m'), h') ->
      facade_step (mkProgram h fs) (mkProgram h' (<[i := m']> fs))
  | step_get_fails i k m e h h' fs : fs !! i = Some m -> getInstance k m h = (Throw e, h') ->
      facade_step (mkProgram h fs) (mkProgram h' fs)
  | step_destroy i m h h' fs : fs !! i = Some m -> Mammut_destroy m h = (Ret tt, h') ->
      facade_step (mkProgram h fs) (mkProgram h' (delete i fs)).
Definition program_start : Program := mkProgram (mkHeap ∅ 0) ∅.
End facade.
Arguments mkProgram {C} _ _.
Arguments pr_heap {C} _.
Arguments pr_facades {C} _.

(** * Properties *)

Section invariant.
Context {C : Type}.
Implicit Types (m : Mammut C) (h : Heap C) (fs : gmap nat (Mammut C)).

Definition slot (k : ModuleKind) m : option nat :=
  match k with
  | MODULE_CPUFREQ => mm_cpufreq m | MODULE_ENERGY => mm_energy m | MODULE_TASK => mm_task m
  | MODULE_TOPOLOGY => mm_topology m
  end.

(** Each pointer of a facade is to a live module of its kind that talks to the facade's
    communicator; no two pointers are equal; every live module that a facade made has an owner,
    and those that a destructor releases have a module that will. *)
Definition accounted_object (pr : Program (C := C)) (p : nat) (o : ModuleObject C) : Prop :=
  match mo_origin o with
  | OfFacade => exists i m k, pr_facades pr !! i = Some m /\ slot k m = Some p
  | OfModule q => mo_kind o = MODULE_TOPOLOGY /\ exists o', hp_live (pr_heap pr) !! q = Some o' /\ mo_origin o' = OfFacade
  | Stray => mo_kind o = MODULE_TOPOLOGY
  end.
Record owned (pr : Program (C := C)) : Prop := {
  ow_live i m k p : pr_facades pr !! i = Some m -> slot k m = Some p ->
    exists inner, hp_live (pr_heap pr) !! p = Some (mkModuleObject k (mm_communicator m) OfFacade inner);
  ow_unique i j m m' k k' p : pr_facades pr !! i = Some m -> pr_facades pr !! j = Some m' ->
    slot k m = Some p -> slot k' m' = Some p -> i = j;
  ow_owner p o : hp_live (pr_heap pr) !! p = Some o -> accounted_object pr p o;
  ow_fresh p : is_Some (hp_live (pr_heap pr) !! p) -> (p < hp_next (pr_heap pr))%nat
}.

(** The memory without a module, and without the modules of a facade. *)
Definition drop_module (p : option nat) (live : gmap nat (ModuleObject C)) : gmap nat (ModuleObject C) :=
  match p with Some x => without_object x live | None => live end.
Definition without m h : gmap nat (ModuleObject C) :=
  drop_module (mm_topology m) (drop_module (mm_task m) (drop_module (mm_energy m) (drop_module (mm_cpufreq m) (hp_live h)))).

Lemma lookup_drop p live q x :
  drop_module p live !! q = Some x <-> (p <> Some q /\ forall y, p = Some y -> mo_origin x <> OfModule y) /\ live !! q = Some x.
Proof. destruct p as [y|]; cbn; [unfold without_object; rewrite map_lookup_filter_Some; cbn|]; naive_solver. Qed.
Lemma lookup_without m h q x :
  without m h !! q = Some x <->
    (forall k, slot k m <> Some q /\ forall y, slot k m = Some y -> mo_origin x <> OfModule y) /\ hp_live h !! q = Some x.
Proof.
  unfold without. rewrite !lookup_drop. split.
  - intros (H1 & H2 & H3 & H4 & H5). split; [|done]. by intros [].
  - intros [H H5]. exact (conj (H MODULE_TOPOLOGY) (conj (H MODULE_TASK) (conj (H MODULE_ENERGY) (conj (H MODULE_CPUFREQ) H5)))).
Qed.

(** Releasing a module that returns. *)
Lemma release_module_Ret p live n u h' : release_module p (mkHeap live n) = (Ret u, h') -> h' = mkHeap (drop_module p live) n.
Proof.
  destruct p as [x|]; [|by intros [= _ <-]]. cbn. unfold delete_module. cbn [hp_live hp_next].
  destruct (live !! x) as [o|]; [|done]. by destruct (mo_inner o); intros [= _ <-].
Qed.
Lemma releaseModules_Ret m h m' h' :
  Mammut_releaseModules m h = (Ret m', h') -> m' = Mammut_copy m /\ h' = mkHeap (without m h) (hp_next h).
Proof.
  destruct h as [live n]. unfold Mammut_releaseModules. intros H.
  apply bind_Ret_inv in H as (u1 & h1 & E1 & H). apply release_module_Ret in E1 as ->.
  apply bind_Ret_inv in H as (u2 & h2 & E2 & H). apply release_module_Ret in E2 as ->.
  apply bind_Ret_inv in H as (u3 & h3 & E3 & H). apply release_module_Ret in E3 as ->.
  apply bind_Ret_inv in H as (u4 & h4 & E4 & H). apply release_module_Ret in E4 as ->.
  by injection H as <- <-.
Qed.

(** No destructor deletes a pointer that was never initialised. *)
Definition no_garbage h : Prop := forall p o, hp_live h !! p = Some o -> mo_inner o <> ReleasesGarbage.

Lemma release_module_there (p : option nat) live n :
  (forall x, p = Some x -> exists o, live !! x = Some o /\ mo_inner o <> ReleasesGarbage) ->
  release_module p (mkHeap live n) = (Ret tt, mkHeap (drop_module p live) n).
Proof.
  destruct p as [x|]; intros H; [|done]. destruct (H x eq_refl) as (o & E & Hi). cbn. unfold delete_module. cbn [hp_live hp_next].
  rewrite E. by destruct (mo_inner o).
Qed.

(** Releasing the modules of a facade whose pointers are to live modules of their kinds. *)
Lemma releaseModules_there m h : no_garbage h ->
  (forall k p, slot k m = Some p -> exists c i, hp_live h !! p = Some (mkModuleObject k c OfFacade i)) ->
  Mammut_releaseModules m h = (Ret (Mammut_copy m), mkHeap (without m h) (hp_next h)).
Proof.
  intros Hg H. destruct h as [live n]. cbn [hp_live] in H. unfold no_garbage in Hg. cbn [hp_live] in Hg. unfold Mammut_releaseModules.
  pose (rest ks := foldl (fun l k => drop_module (slot k m) l) live ks).
  assert (forall k ks, k ∉ ks -> release_module (slot k m) (mkHeap (rest ks) n) = (Ret tt, mkHeap (rest (ks ++ [k])) n)) as Hr.
  { intros k ks Hk. rewrite release_module_there; [unfold rest; by rewrite foldl_app|].
    intros x Hx. destruct (H k x Hx) as (c & i & Hc). eexists. split; [|by eapply Hg].
    induction ks as [|k' ks IH] using rev_ind; [done|]. apply not_elem_of_app in Hk as [Hk Hk'].
    unfold rest. rewrite foldl_app. cbn. apply lookup_drop. split; [|by apply IH]. split; [|done].
    intros E. destruct (H k' x E) as (c' & i' & Hc'). apply Hk'. rewrite list_elem_of_singleton. congruence. }
  rewrite (bind_Ret _ _ _ _ _ (Hr MODULE_CPUFREQ [] ltac:(set_solver))).
  rewrite (bind_Ret _ _ _ _ _ (Hr MODULE_ENERGY [MODULE_CPUFREQ] ltac:(set_solver))).
  rewrite (bind_Ret _ _ _ _ _ (Hr MODULE_TASK [MODULE_CPUFREQ; MODULE_ENERGY] ltac:(set_solver))).
  by rewrite (bind_Ret _ _ _ _ _ (Hr MODULE_TOPOLOGY [MODULE_CPUFREQ; MODULE_ENERGY; MODULE_TASK] ltac:(set_solver))).
Qed.

Lemma owned_releases pr i m : owned pr -> no_garbage (pr_heap pr) -> pr_facades pr !! i = Some m ->
  Mammut_releaseModules m (pr_heap pr) = (Ret (Mammut_copy m), mkHeap (without m (pr_heap pr)) (hp_next (pr_heap pr))).
Proof.
  intros Ho Hg Hi. apply releaseModules_there; [done|]. intros k p Hp. eexists. by apply (ow_live _ Ho i).
Qed.

Lemma slot_empty k c : slot k (Mammut_new (C := C) c) = None.
Proof. by destruct k. Qed.

(** Replacing the facade [i] by one without modules, once its modules are released. *)
Lemma owned_reset h fs i m c : owned (mkProgram h fs) -> fs !! i = Some m ->
  owned (mkProgram (mkHeap (without m h) (hp_next h)) (<[i := Mammut_new c]> fs)) /\
  owned (mkProgram (mkHeap (without m h) (hp_next h)) (delete i fs)).
Proof.
  intros [Hl Hu Ho Hf] Hi. cbn [pr_heap pr_facades] in *.
  assert (forall j m' k p, j <> i -> fs !! j = Some m' -> slot k m' = Some p ->
    exists inner, without m h !! p = Some (mkModuleObject k (mm_communicator m') OfFacade inner)) as Hkeep.
  { intros j m' k p Hne Hj Hp. destruct (Hl _ _ _ _ Hj Hp) as [inner E]. exists inner. apply lookup_without.
    split; [|done]. intros k'. split; [|done]. intros Hk'. apply Hne. by eapply Hu. }
  assert (forall p, is_Some (without m h !! p) -> (p < hp_next h)%nat) as Hfr.
  { intros p [x [_ Hx]%lookup_without]. apply Hf. by exists x. }
  assert (forall fs', (forall j, j <> i -> fs' !! j = fs !! j) -> forall p o, without m h !! p = Some o ->
    accounted_object (mkProgram (mkHeap (without m h) (hp_next h)) fs') p o) as Hown.
  { intros fs' Hfs p o [Hn Hx]%lookup_without. pose proof (Ho p o Hx) as Ha. unfold accounted_object in *. cbn [pr_heap pr_facades hp_live] in *.
    destruct (mo_origin o) as [|q|] eqn:Eo; [| |done].
    - destruct Ha as (j & m' & k & Hj & Hp). exists j, m', k. rewrite Hfs; [done|]. intros ->.
      rewrite Hi in Hj. injection Hj as ->. by destruct (Hn k).
    - destruct Ha as (Hk & o' & Ho' & Hq). split; [done|]. exists o'. split; [|done]. apply lookup_without. split; [|done].
      intros k. destruct (Hn k) as [_ Hy]. rewrite Hq. split; [|done]. intros E. by destruct (Hy q E). }
  split; split; cbn [pr_heap pr_facades hp_live hp_next]; try exact Hfr.
  - intros j m' k p [[_ <-]|[Hne Hj]]%lookup_insert_Some Hp; [by rewrite slot_empty in Hp|]. by eapply Hkeep.
  - intros j j' m1 m2 k k' p [[_ <-]|[Hne Hj]]%lookup_insert_Some [[_ <-]|[Hne' Hj']]%lookup_insert_Some Hp Hp';
      [by rewrite slot_empty in Hp| by rewrite slot_empty in Hp|by rewrite slot_empty in Hp'|by eapply Hu].
  - apply Hown. intros j Hj. by rewrite lookup_insert_ne.
  - intros j m' k p [Hne Hj]%lookup_delete_Some Hp. by eapply Hkeep.
  - intros j j' m1 m2 k k' p [_ Hj]%lookup_delete_Some [_ Hj']%lookup_delete_Some Hp Hp'. by eapply Hu.
  - apply Hown. intros j Hj. by rewrite lookup_delete_ne.
Qed.

(** Adding a facade without modules. *)
Lemma owned_new h fs i c : owned (mkProgram h fs) -> fs !! i = None -> owned (mkProgram h (<[i := Mammut_new c]> fs)).
Proof.
  intros [Hl Hu Ho Hf] Hi. cbn [pr_heap pr_facades] in *. split; cbn [pr_heap pr_facades]; [| | |exact Hf].
  - intros j m' k p [[_ <-]|[Hne Hj]]%lookup_insert_Some Hp; [by rewrite slot_empty in Hp|]. by eapply Hl.
  - intros j j' m1 m2 k k' p [[_ <-]|[Hne Hj]]%lookup_insert_Some [[_ <-]|[Hne' Hj']]%lookup_insert_Some Hp Hp';
      [by rewrite slot_empty in Hp| by rewrite slot_empty in Hp|by rewrite slot_empty in Hp'|by eapply Hu].
  - intros p o Hp. pose proof (Ho p o Hp) as Ha. unfold accounted_object in *. cbn [pr_heap pr_facades] in *.
    destruct (mo_origin o); [|done..]. destruct Ha as (j & m' & k & Hj & Hk). exists j, m', k.
    rewrite lookup_insert_ne; [done|]. intros ->. congruence.
Qed.

(** Adding an object that no facade points to. *)
Lemma owned_object h fs o : owned (mkProgram h fs) -> mo_origin o <> OfFacade -> accounted_object (mkProgram h fs) (hp_next h) o ->
  owned (mkProgram (mkHeap (<[hp_next h := o]> (hp_live h)) (S (hp_next h))) fs).
Proof.
  intros [Hl Hu Ho Hf] Hne Ha. cbn [pr_heap pr_facades] in *.
  assert (forall p x, hp_live h !! p = Some x -> hp_next h <> p) as Hold.
  { intros p x Hp. pose proof (Hf p ltac:(by exists x)). lia. }
  assert (forall p x, accounted_object (mkProgram h fs) p x ->
    accounted_object (mkProgram (mkHeap (<[hp_next h := o]> (hp_live h)) (S (hp_next h))) fs) p x) as Hmon.
  { intros p x. unfold accounted_object. cbn [pr_heap pr_facades hp_live]. destruct (mo_origin x); [done| |done].
    intros (Hk & o' & Hq & Hof). split; [done|]. exists o'. rewrite lookup_insert_ne by (by eapply Hold). done. }
  split; cbn [pr_heap pr_facades hp_live hp_next].
  - intros i m k p Hi Hp. destruct (Hl _ _ _ _ Hi Hp) as [inner E]. exists inner. rewrite lookup_insert_ne by (by eapply Hold). done.
  - exact Hu.
  - intros p x [[<- <-]|[_ Hx]]%lookup_insert_Some; apply Hmon; [done|by apply Ho].
  - intros p [x [[<- _]|[Hp Hx]]%lookup_insert_Some]; [lia|]. pose proof (Hf p ltac:(by exists x)). lia.
Qed.
Lemma owned_strays n c h fs : owned (mkProgram h fs) -> owned (mkProgram (add_strays n c h) fs).
Proof. revert h. induction n as [|n IH]; intros h Ho; cbn; [done|]. apply IH. by apply owned_object. Qed.

(** The facade with a module in its slot. *)
Definition with_slot (k : ModuleKind) (p : nat) m : Mammut C :=
  match k with
  | MODULE_CPUFREQ => mkMammut (Some p) (mm_energy m) (mm_task m) (mm_topology m) (mm_communicator m)
  | MODULE_ENERGY => mkMammut (mm_cpufreq m) (Some p) (mm_task m) (mm_topology m) (mm_communicator m)
  | MODULE_TASK => mkMammut (mm_cpufreq m) (mm_energy m) (Some p) (mm_topology m) (mm_communicator m)
  | MODULE_TOPOLOGY => mkMammut (mm_cpufreq m) (mm_energy m) (mm_task m) (Some p) (mm_communicator m)
  end.
Lemma slot_with k k' p m : slot k' (with_slot k p m) = if decide (k' = k) then Some p else slot k' m.
Proof. by destruct k, k'. Qed.
Lemma comm_with k p m : mm_communicator (with_slot k p m) = mm_communicator m.
Proof. by destruct k. Qed.

Variable creates : ModuleKind -> option C -> Construction.

(** The memory when a module has been made. *)
Definition created (k : ModuleKind) (c : option C) (h : Heap C) : Heap C :=
  let h := add_strays (cs_strays (creates k c)) c h in
  add_inner (hp_next h) (cs_inner (creates k c)) c
    (mkHeap (<[hp_next h := mkModuleObject k c OfFacade (cs_inner (creates k c))]> (hp_live h)) (S (hp_next h))).

Lemma getInstance_spec k m h :
  getInstance creates k m h =
    match slot k m with
    | Some p => (Ret (p, m), h)
    | None =>
        let h1 := add_strays (cs_strays (creates k (mm_communicator m))) (mm_communicator m) h in
        match cs_outcome (creates k (mm_communicator m)) with
        | Ret _ => (Ret (hp_next h1, with_slot k (hp_next h1) m), created k (mm_communicator m) h)
        | Throw e => (Throw e, h1)
        | Undef u => (Undef u, h1)
        end
    end.
Proof.
  destruct k; cbn [getInstance slot with_slot];
    unfold Mammut_getInstanceCpuFreq, Mammut_getInstanceEnergy, Mammut_getInstanceTask, Mammut_getInstanceTopology,
      get_or_create, create, created, bind, ret; destruct m as [[] [] [] [] c]; cbn; try done; by destruct (cs_outcome (creates _ c)).
Qed.

(** Adding a module to a facade that has none of its kind. *)
Lemma owned_add h fs i k m inner : owned (mkProgram h fs) -> fs !! i = Some m -> slot k m = None ->
  owned (mkProgram (mkHeap (<[hp_next h := mkModuleObject k (mm_communicator m) OfFacade inner]> (hp_live h)) (S (hp_next h)))
           (<[i := with_slot k (hp_next h) m]> fs)).
Proof.
  intros [Hl Hu Ho Hf] Hi Es. cbn [pr_heap pr_facades] in *.
  assert (forall p x, hp_live h !! p = Some x -> hp_next h <> p) as Hold.
  { intros p x Hp. pose proof (Hf p ltac:(by exists x)). lia. }
  assert (forall j m0 k0 q, fs !! j = Some m0 -> slot k0 m0 = Some q -> hp_next h <> q) as Hne.
  { intros j m0 k0 q Hj Hq. destruct (Hl _ _ _ _ Hj Hq) as [x E]. by eapply Hold. }
  split; cbn [pr_heap pr_facades hp_live hp_next].
  - intros j m0 k0 q [[_ <-]|[Hj Hfs]]%lookup_insert_Some Hq.
    + rewrite slot_with in Hq. rewrite comm_with. destruct (decide (k0 = k)) as [->|].
      * injection Hq as <-. exists inner. by rewrite lookup_insert_eq.
      * destruct (Hl _ _ _ _ Hi Hq) as [x E]. exists x. rewrite lookup_insert_ne by (by eapply Hne). done.
    + destruct (Hl _ _ _ _ Hfs Hq) as [x E]. exists x. rewrite lookup_insert_ne by (by eapply Hne). done.
  - intros j j' m1 m2 k1 k2 q [[<- <-]|[Hj Hfs]]%lookup_insert_Some [[<- <-]|[Hj' Hfs']]%lookup_insert_Some Hq Hq';
      [done| | |by eapply Hu].
    + rewrite slot_with in Hq. destruct (decide (k1 = k)); [injection Hq as <-; by destruct (Hne _ _ _ _ Hfs' Hq')|by eapply Hu].
    + rewrite slot_with in Hq'. destruct (decide (k2 = k)); [injection Hq' as <-; by destruct (Hne _ _ _ _ Hfs Hq)|by eapply Hu].
  - intros q o [[<- <-]|[Hq Hx]]%lookup_insert_Some.
    + exists i, (with_slot k (hp_next h) m), k. cbn [pr_facades]. rewrite lookup_insert_eq, slot_with. by rewrite decide_True.
    + pose proof (Ho q o Hx) as Ha. unfold accounted_object in *. cbn [pr_heap pr_facades hp_live] in *.
      destruct (mo_origin o) as [|q'|]; [| |done].
      * destruct Ha as (j & m0 & k0 & Hj & Hk0). destruct (decide (j = i)) as [->|Hji].
        -- assert (m0 = m) as -> by congruence. exists i, (with_slot k (hp_next h) m), k0. rewrite lookup_insert_eq, slot_with.
           split; [done|]. rewrite decide_False; [done|]. intros ->. congruence.
        -- exists j, m0, k0. by rewrite lookup_insert_ne.
      * destruct Ha as (Hk & o' & Ho' & Hof). split; [done|]. exists o'. rewrite lookup_insert_ne by (by eapply Hold). done.
  - intros q [x [[<- _]|[Hq Hx]]%lookup_insert_Some]; [lia|]. pose proof (Hf q ltac:(by exists x)). lia.
Qed.

(** Asking a facade for a module. *)
Lemma owned_get h fs i k m p m' h' : owned (mkProgram h fs) -> fs !! i = Some m ->
  getInstance creates k m h = (Ret (p, m'), h') -> owned (mkProgram h' (<[i := m']> fs)).
Proof.
  intros Hown Hi. rewrite getInstance_spec. destruct (slot k m) as [q|] eqn:Es.
  { intros [= <- <- <-]. by rewrite insert_id. }
  cbn zeta. destruct (cs_outcome _); [|done..]. intros [= <- <- <-]. unfold created. cbn zeta.
  set (h1 := add_strays _ _ h). set (inner := cs_inner (creates k (mm_communicator m))).
  pose proof (owned_strays (cs_strays (creates k (mm_communicator m))) (mm_communicator m) h fs Hown) as H1. fold h1 in H1.
  pose proof (owned_add h1 fs i k m inner H1 Hi Es) as H2. destruct inner eqn:Ei; cbn [add_inner]; [done| |done].
  apply owned_object; [done|done|]. split; [done|]. eexists. cbn [pr_heap hp_live]. by rewrite lookup_insert_eq.
Qed.
Lemma owned_get_fails h fs i k m e h' : owned (mkProgram h fs) -> fs !! i = Some m ->
  getInstance creates k m h = (Throw e, h') -> owned (mkProgram h' fs).
Proof.
  intros Hown Hi. rewrite getInstance_spec. destruct (slot k m); [done|]. cbn zeta.
  destruct (cs_outcome _); [done| |done]. intros [= _ <-]. by apply owned_strays.
Qed.

Lemma owned_assign h fs i j m other m' h' : owned (mkProgram h fs) -> fs !! i = Some m ->
  Mammut_assign (bool_decide (i = j)) m other h = (Ret m', h') -> owned (mkProgram h' (<[i := m']> fs)).
Proof.
  intros Ho Hi. unfold Mammut_assign. case_bool_decide.
  { intros [= <- <-]. by rewrite insert_id. }
  intros (m1 & h1 & E & E2)%bind_Ret_inv. apply releaseModules_Ret in E as [-> ->]. injection E2 as <- <-.
  by apply (owned_reset h fs i m (mm_communicator other)).
Qed.

Lemma owned_destroy h fs i m h' : owned (mkProgram h fs) -> fs !! i = Some m ->
  Mammut_destroy m h = (Ret tt, h') -> owned (mkProgram h' (delete i fs)).
Proof.
  intros Ho Hi (m1 & h1 & E & E2)%bind_Ret_inv. apply releaseModules_Ret in E as [-> ->]. injection E2 as <-.
  by apply (owned_reset h fs i m None).
Qed.

Lemma owned_step pr pr' : owned pr -> facade_step creates pr pr' -> owned pr'.
Proof.
  intros Ho Hs. destruct Hs.
  - by apply owned_new.
  - by apply owned_new.
  - by eapply owned_assign.
  - by eapply owned_get.
  - by eapply owned_get_fails.
  - by eapply owned_destroy.
Qed.

Lemma owned_start : owned program_start.
Proof. split; cbn; intros *; rewrite ?lookup_empty; try done; by intros [? ?]. Qed.

Lemma reachable_keeps (P : Program (C := C) -> Prop) pr :
  P program_start -> (forall pr pr', P pr -> facade_step creates pr pr' -> P pr') -> rtc (facade_step creates) program_start pr -> P pr.
Proof.
  intros H0 Hs H. remember program_start as p0 eqn:E. clear E.
  induction H as [|p1 p2 p3 Hst _ IH]; [done|]. apply IH. by eapply Hs.
Qed.
Lemma owned_reachable pr : rtc (facade_step creates) program_start pr -> owned pr.
Proof. apply reachable_keeps; [apply owned_start|apply owned_step]. Qed.


(** A [Topology] that a constructor leaves to nobody is never released. *)
Lemma strays_stay pr pr' p c i : owned pr -> facade_step creates pr pr' ->
  hp_live (pr_heap pr) !! p = Some (mkModuleObject MODULE_TOPOLOGY c Stray i) ->
  hp_live (pr_heap pr') !! p = Some (mkModuleObject MODULE_TOPOLOGY c Stray i).
Proof.
  intros Ho Hs Hp.
  assert (forall h0 j m m' h', owned (mkProgram h0 (pr_facades pr)) -> hp_live h0 !! p = Some (mkModuleObject MODULE_TOPOLOGY c Stray i) ->
    pr_facades pr !! j = Some m -> Mammut_releaseModules m h0 = (Ret m', h') ->
    hp_live h' !! p = Some (mkModuleObject MODULE_TOPOLOGY c Stray i)) as Hrel.
  { intros h0 j m m' h' Ho0 Hp0 Hj E. apply releaseModules_Ret in E as [_ ->]. cbn. apply lookup_without. split; [|done].
    intros k. split; [|done]. intros Hk. destruct (ow_live _ Ho0 _ _ _ _ Hj Hk) as [x E]. cbn in E. congruence. }
  assert (forall n c0 h0, hp_live h0 !! p = Some (mkModuleObject MODULE_TOPOLOGY c Stray i) -> (p < hp_next h0)%nat ->
    hp_live (add_strays n c0 h0) !! p = Some (mkModuleObject MODULE_TOPOLOGY c Stray i) /\ (p < hp_next (add_strays n c0 h0))%nat) as Hadd.
  { induction n as [|n IH]; intros c0 h0 H1 H2; cbn; [done|]. apply IH; cbn; [rewrite lookup_insert_ne by lia; done|lia]. }
  pose proof (ow_fresh _ Ho p ltac:(by eexists)) as Hlt.
  destruct Hs as [| |i0 j m other m' h h' fs Hi Hj Ha|i0 k m q m' h h' fs Hi Hg|i0 k m e h h' fs Hi Hg|i0 m h h' fs Hi Hd]; cbn in *; try done.
  - unfold Mammut_assign in Ha. case_bool_decide; [by injection Ha as <- <-|].
    apply bind_Ret_inv in Ha as (m1 & h1 & E & E2). injection E2 as _ <-. exact (Hrel h i0 m m1 h1 Ho Hp Hi E).
  - rewrite getInstance_spec in Hg. destruct (slot k m); [by injection Hg as _ _ <-|]. cbn zeta in Hg.
    destruct (cs_outcome _); [|done..]. injection Hg as _ _ <-. unfold created.
    destruct (Hadd (cs_strays (creates k (mm_communicator m))) (mm_communicator m) h Hp Hlt) as [H1 H2].
    destruct (cs_inner _); cbn; rewrite ?lookup_insert_ne by lia; done.
  - rewrite getInstance_spec in Hg. destruct (slot k m); [done|]. cbn zeta in Hg.
    destruct (cs_outcome _); [done| |done]. injection Hg as _ <-. by apply Hadd.
  - apply bind_Ret_inv in Hd as (m1 & h1 & E & E2). injection E2 as <-. exact (Hrel h i0 m m1 h1 Ho Hp Hi E).
Qed.

(** When no constructor leaves its object with an uninitialised pointer, destroying a facade and
    assigning one to another, itself included, never delete a module twice, whatever the program
    has done before; a facade asked twice for a module gives the same one. *)
Theorem facades_delete_once pr i m :
  (forall k c, cs_inner (creates k c) <> ReleasesGarbage) ->
  rtc (facade_step creates) program_start pr -> pr_facades pr !! i = Some m ->
  (exists h, Mammut_destroy m (pr_heap pr) = (Ret tt, h)) /\
  (forall j other, pr_facades pr !! j = Some other ->
     exists m' h, Mammut_assign (bool_decide (i = j)) m other (pr_heap pr) = (Ret m', h)) /\
  (forall k p m' h, getInstance creates k m (pr_heap pr) = (Ret (p, m'), h) ->
     getInstance creates k m' h = (Ret (p, m'), h)).
Proof.
  intros Hc H Hi. pose proof (owned_reachable pr H) as Ho.
  assert (no_garbage (pr_heap pr)) as Hg.
  { clear i m Hi Ho. revert H. apply (reachable_keeps (fun pr => no_garbage (pr_heap pr))); [done|]. intros pr1 pr2 Hg Hs.
    assert (forall h k c o, no_garbage h -> mo_inner o <> ReleasesGarbage -> no_garbage (mkHeap (<[k := o]> (hp_live h)) c)) as Hins.
    { intros h k c o Hh Hin p x. cbn. intros [[_ <-]|[_ Hx]]%lookup_insert_Some; [done|by eapply Hh]. }
    assert (forall n c h, no_garbage h -> no_garbage (add_strays n c h)) as Hadd.
    { induction n as [|n IH]; intros c h Hh; cbn; [done|]. by apply IH, Hins. }
    assert (forall m h m' h', no_garbage h -> Mammut_releaseModules m h = (Ret m', h') -> no_garbage h') as Hrel.
    { intros m h m' h' Hh E. apply releaseModules_Ret in E as [_ ->]. intros p o. cbn. intros [_ Hx]%lookup_without. by eapply Hh. }
    destruct Hs as [| |i j m other m' h h' fs Hi Hj Ha|i k m q m' h h' fs Hi Hgt|i k m e h h' fs Hi Hgt|i m h h' fs Hi Hd]; cbn in *; try done.
    - unfold Mammut_assign in Ha. case_bool_decide; [by injection Ha as <- <-|].
      apply bind_Ret_inv in Ha as (m1 & h1 & E & E2). injection E2 as _ <-. by eapply (Hrel m h).
    - rewrite getInstance_spec in Hgt. destruct (slot k m); [by injection Hgt as _ _ <-|]. cbn zeta in Hgt.
      destruct (cs_outcome _); [|done..]. injection Hgt as _ _ <-. unfold created. pose proof (Hc k (mm_communicator m)).
      destruct (cs_inner _) eqn:Ei; cbn [add_inner]; repeat apply Hins; by try apply Hadd.
    - rewrite getInstance_spec in Hgt. destruct (slot k m); [done|]. cbn zeta in Hgt.
      destruct (cs_outcome _); [done| |done]. injection Hgt as _ <-. by apply Hadd.
    - apply bind_Ret_inv in Hd as (m1 & h1 & E & E2). injection E2 as <-. by eapply (Hrel m h). }
  pose proof (owned_releases pr i m Ho Hg Hi) as Er. split; [|split].
  - eexists. unfold Mammut_destroy. by rewrite (bind_Ret _ _ _ _ _ Er).
  - intros j other Hj. unfold Mammut_assign. case_bool_decide; [by eexists _, _|]. rewrite (bind_Ret _ _ _ _ _ Er). by eexists _, _.
  - intros k p m' h. rewrite !getInstance_spec. destruct (slot k m) as [q|] eqn:Es.
    + intros [= <- <- <-]. by rewrite Es.
    + cbn zeta. destruct (cs_outcome _); [|done..]. intros [= <- <- <-]. rewrite slot_with. by rewrite decide_True.
Qed.
End invariant.

(** ** The C interface *)

(** [MammutEnergyCounterType], include/mammut/mammut.h:39-42. *)
Inductive MammutEnergyCounterType := C_COUNTER_CPUS | C_COUNTER_PLUG.
Definition c_counter_type (t : MammutEnergyCounterType) : Z := match t with C_COUNTER_CPUS => 0 | C_COUNTER_PLUG => 1 end.

Section c_interface.
Context {S : Type} {EO : EnergyOps S}.

(** [getCounterByType], src/mammut.cpp:113-115. *)
Definition getCounterByType (s : S) (ct : MammutEnergyCounterType) : outcome (option CounterType) :=
  Energy_getCounterOf s (c_counter_type ct).

(** [getCountersTypes], src/mammut.cpp:117-124: the array and its size. *)
Definition getCountersTypes (s : S) : list Z * Z :=
  let types := Energy_getCountersTypes s in (types, Z.of_nat (length types)).

(** [getCounter], src/mammut.cpp:109-111. *)
Definition c_getCounter (s : S) : outcome (option CounterType) := Energy_getCounter s.
(** [getJoules], src/mammut.cpp:127-129: of the counter of this type. *)
Definition c_getJoules (c : CounterType) : M S double :=
  if c =? COUNTER_CPUS then CounterCpus_getJoules else e_getJoules c.
(** [reset], src/mammut.cpp:131-133. *)
Definition c_reset (c : CounterType) : M S unit := e_reset c.
(** [getType], src/mammut.cpp:135-137: the value of the C++ enumeration, unchanged. *)
Definition c_getType (c : CounterType) : Z := c.
(** A [bool] as an [int]. *)
Definition c_bool (f : M S bool) : M S Z := let* b := f in ret (if (b : bool) then 1 else 0).
(** [getJoulesCpuAll], src/mammut.cpp:140-142. *)
Definition c_getJoulesCpuAll : M S double := CounterCpus_getJoulesCpuAll.
(** [getJoulesCpu], src/mammut.cpp:144-146. *)
Definition c_getJoulesCpu (cpu : Cpu) : M S double := CounterCpus_getJoulesCpuOf cpu.
(** [getJoulesCoresAll], src/mammut.cpp:148-150. *)
Definition c_getJoulesCoresAll : M S double := CounterCpus_getJoulesCoresAll.
(** [getJoulesCores], src/mammut.cpp:152-154. *)
Definition c_getJoulesCores (cpu : Cpu) : M S double := CounterCpus_getJoulesCoresOf cpu.
(** [hasJoulesGraphic], src/mammut.cpp:156-158. *)
Definition c_hasJoulesGraphic : M S Z := c_bool e_hasJoulesGraphic.
(** [getJoulesGraphicAll], src/mammut.cpp:160-162. *)
Definition c_getJoulesGraphicAll : M S double := CounterCpus_getJoulesGraphicAll.
(** [getJoulesGraphic], src/mammut.cpp:164-166. *)
Definition c_getJoulesGraphic (cpu : Cpu) : M S double := CounterCpus_getJoulesGraphicOf cpu.
(** [hasJoulesDram], src/mammut.cpp:168-170. *)
Definition c_hasJoulesDram : M S Z := c_bool e_hasJoulesDram.
(** [getJoulesDramAll], src/mammut.cpp:172-174. *)
Definition c_getJoulesDramAll : M S double := CounterCpus_getJoulesDramAll.
(** [getJoulesDram], src/mammut.cpp:176-178. *)
Definition c_getJoulesDram (cpu : Cpu) : M S double := CounterCpus_getJoulesDramOf cpu.

(** The C interface asked for the plug counter gives the memory's: its enumeration has no
    memory, and the values are passed on unchanged; the plug's cannot be reached by its type. *)
Theorem c_plug_is_the_memory (s : S) :
  getCounterByType s C_COUNTER_PLUG = Ret (if e_counter s COUNTER_MEMORY then Some COUNTER_MEMORY else None) /\
  forall ct, getCounterByType s ct <> Ret (Some COUNTER_PLUG).
Proof.
  unfold getCounterByType, Energy_getCounterOf. split.
  - cbn. reflexivity.
  - intros []; cbn; (destruct (e_counter s _)); discriminate.
Qed.
End c_interface.

(** [getCpus], src/mammut.cpp:186-193: the array and its size. *)
Definition c_getCpus (t : Topology) : list Cpu * Z := (tp_cpus t, Z.of_nat (length (tp_cpus t))).
(** [getCpuId], src/mammut.cpp:207-209: an [int]. *)
Definition c_getCpuId (c : Cpu) : Z := i32 (cpu_cpuId c).

Section c_boosting.
Context {S D : Type} `{EqDecision D} {CO : CpuFreqOps S D}.
(** [disableBoosting], src/mammut.cpp:220-222. *)
Definition c_disableBoosting : M S unit := f_disableBoosting.
(** [enableBoosting], src/mammut.cpp:225-227. *)
Definition c_enableBoosting : M S unit := f_enableBoosting.
(** [isBoostingEnabled], src/mammut.cpp:230-232. *)
Definition c_isBoostingEnabled : M S Z := c_bool f_isBoostingEnabled.
(** [isBoostingSupported], src/mammut.cpp:234-236. *)
Definition c_isBoostingSupported : M S Z := c_bool f_isBoostingSupported.
End c_boosting.

(** *** Strings

    The characters of a [std::string] are at an address while the object lives. *)
Record Chars := mkChars { ch_live : gmap nat string; ch_next : nat }.

(** [f().c_str()] for a function that returns a [std::string] by value: the temporary is
    destroyed at the end of the expression. *)
Definition c_str_of_temporary (f : outcome string) : M Chars nat := fun m =>
  match f with
  | Ret text =>
      let p := ch_next m in
      let m' := mkChars (<[p := text]> (ch_live m)) (Datatypes.S p) in
      (Ret p, mkChars (delete p (ch_live m')) (ch_next m'))
  | Throw e => (Throw e, m)
  | Undef u => (Undef u, m)
  end.
(** Reading a C string. *)
Definition read_chars (p : nat) : M Chars string := fun m =>
  match ch_live m !! p with Some text => (Ret text, m) | None => (Undef "characters that were freed", m) end.

(** [getFamily], src/mammut.cpp:199-201. *)
Definition c_getFamily (getFamily : outcome string) : M Chars nat := c_str_of_temporary getFamily.
(** [getModel], src/mammut.cpp:203-205. *)
Definition c_getModel (getModel : outcome string) : M Chars nat := c_str_of_temporary getModel.

(** The strings of the C interface cannot be read: whatever family or model the CPU has, the
    pointer that is returned is to characters that were freed. *)
Lemma c_strings_dangle (getFamily getModel : outcome string) (m m' : Chars) (p : nat) :
  c_getFamily getFamily m = (Ret p, m') \/ c_getModel getModel m = (Ret p, m') ->
  fst (read_chars p m') = Undef "characters that were freed".
Proof.
  unfold c_getFamily, c_getModel, c_str_of_temporary, read_chars.
  intros [H|H]; [destruct getFamily|destruct getModel]; try done; injection H as <- <-; cbn; by rewrite lookup_delete_eq.
Qed.

(** ** Witnesses: a facade with three modules, and its copy

    The machine has frequency scaling with one domain, and the counters of sysfs: the frequency
    module leaves one [Topology] and has one that it releases, the energy module leaves two. *)
Definition sample_creates : ModuleKind -> option unit -> Construction := constructor_makes (mkSurroundings true 1 true).
Definition sample_stray : ModuleObject unit := mkModuleObject MODULE_TOPOLOGY None Stray ReleasesNothing.
Definition sample_heap : Heap unit :=
  mkHeap {[ 0%nat := mkModuleObject MODULE_TOPOLOGY None OfFacade ReleasesNothing;
            1%nat := sample_stray; 2%nat := sample_stray; 3%nat := mkModuleObject MODULE_ENERGY None OfFacade ReleasesNothing;
            4%nat := sample_stray; 5%nat := mkModuleObject MODULE_CPUFREQ None OfFacade ReleasesTopology;
            6%nat := mkModuleObject MODULE_TOPOLOGY None (OfModule 5) ReleasesNothing ]} 7.
Definition sample_facade : Mammut unit := mkMammut (Some 5%nat) (Some 3%nat) None (Some 0%nat) None.
Definition sample_program : Program :=
  mkProgram sample_heap {[ 0%nat := sample_facade; 1%nat := Mammut_new None ]}.

(** The program makes a facade, asks it for three modules and copies it. *)
Ltac run_sample creates :=
  eapply rtc_l; [by apply (step_new creates 0 None)|];
  eapply rtc_l; [by eapply (step_get creates 0 MODULE_TOPOLOGY)|];
  eapply rtc_l; [by eapply (step_get creates 0 MODULE_ENERGY)|];
  eapply rtc_l; [by eapply (step_get creates 0 MODULE_CPUFREQ)|];
  eapply rtc_l; [by eapply (step_copy creates 1 0)|];
  match goal with |- rtc _ ?p _ => assert (sample_program = p) as -> by (apply (f_equal2 mkProgram); vm_compute; reflexivity) end;
  apply rtc_refl.
Lemma sample_reachable : rtc (facade_step sample_creates) program_start sample_program.
Proof. run_sample sample_creates. Qed.


(** Destroying the facade leaves the three modules that nobody owns. *)
Lemma energy_and_cpufreq_leak :
  exists h, Mammut_destroy sample_facade sample_heap = (Ret tt, h) /\
    hp_live h = {[ 1%nat := sample_stray; 2%nat := sample_stray; 4%nat := sample_stray ]}.
Proof. eexists. split; vm_compute; reflexivity. Qed.

(** Without frequency scaling, and from a server, destructors delete pointers that were never
    initialised. *)
Lemma destructors_delete_garbage (sysfs : bool) :
  let destroyed k c :=
    fst ((let* '(_, m) := getInstance (constructor_makes (mkSurroundings false 0 sysfs)) k (Mammut_new c) in
          Mammut_destroy m) (mkHeap ∅ 0)) in
  destroyed MODULE_CPUFREQ None = Undef "delete of an uninitialised pointer" /\
  destroyed MODULE_ENERGY (Some tt) = Undef "delete of an uninitialised pointer".
Proof. split; vm_compute; reflexivity. Qed.

(** A program that never asks a server. *)
Definition local_creates : ModuleKind -> option unit -> Construction := fun k _ => sample_creates k None.
Lemma facades_delete_once_witness :
  (exists h, Mammut_destroy sample_facade sample_heap = (Ret tt, h)) /\
  (exists m' h, Mammut_assign false sample_facade (Mammut_new None) sample_heap = (Ret m', h)).
Proof.
  destruct (facades_delete_once local_creates sample_program 0 sample_facade) as (H1 & H2 & _).
  - by intros [] c.
  - run_sample local_creates.
  - reflexivity.
  - split; [exact H1|]. apply (H2 1%nat (Mammut_new None)). reflexivity.
Defined.
